(* ===== verification/_CoqProject ===== *)
-Q . S2P
Prelude.v
Base.v
Wire.v
Chain.v
Timeouts.v
Ipv4.v
Tcp.v
TcpTypes.v
TcpIn.v
TcpInFacts.v
TcpInThms.v
TcpInThrottle.v
TcpInStream.v
TcpInOpen.v
TcpOut.v
TcpWire.v
TcpRound.v
Udp.v
UdpPcb.v
Isn.v
TcpOutThms.v
TcpTimer.v
TcpCong.v
Cover.v
Ip4Reass.v
Ip4ReassSpec.v
Ip4ReassRep.v
Ip4ReassProof.v
Ip4ReassTake.v
Ip4ReassRefine.v
Ip4ReassThms.v
Ip4Frag.v
Ip4FragFacts.v
Ip4FragThms.v
Ip4Path.v
Ip4Route.v
Ip4RouteThms.v
IpAddr.v
TcpPcb.v
Threaded.v
TcpPcbRep.v
TcpPcbSend.v
TcpPcbSendOps.v
TcpPcbHold.v
TcpPcbThms.v
TcpArrival.v
Phy.v
Dma.v
DmaSim.v
DmaThms.v
Arp.v
ArpTable.v
ArpRep.v
ArpSteps.v
ArpEffects.v
ArpThms.v
Acd.v
AcdThms.v
Autoip.v
Ip6Select.v
Ip6SelectThms.v
Bucket.v
Ethernet.v
Icmp.v
IcmpInThms.v
Pmtu4.v
Ipv6.v
Icmpv6.v
Icmp6InThms.v
Pmtu6.v
Ip4Forward.v
Ip6Forward.v
Dad.v
Loopif.v
Ethip6.v
RawPcb.v
Stats.v
