(* ===== verification/Prelude.v ===== *)
(** * idemIP in Rocq

    idemIP (src/src) is a TCP/IP stack in C11 without a heap.  Every stateful unit is a set of entries
    [void idemip_<unit>_<op>(uint8_t *work)] over one block of memory the caller lends it, the borrow: an
    operand block the caller fills and reads, a context, and tables of a fixed size.  An entry reports OK,
    BUSY (nothing changed, ask again) or ERR.  The units below the entries are headers read and written in
    place and arithmetic the compiler inlines.  This development models the units listed here, entry by
    entry, and proves what makes each of them right.

    ** How the code is translated

    - An integer is a [Z] reduced at its width where the code reduces it ([u8], [u16], [u32]; a subtraction
      that wraps is written with its [mod]).  An octet is a [Z] below 256 and a span is the list of octets
      from a pointer on; a region the code writes is the list with those octets replaced.
    - A borrow is a record [Work]: the operand block ([..Io]), the context, each table as a list read with
      [tget] and written with [tset].  An entry is a function [Work -> Work].  The guard
      [if (!work) return] is not modelled: a call has a borrow.  The context's mark of a cleared borrow is
      a field, so an entry on a borrow that was never cleared is modelled as the code refuses it.
    - A pointer in an operand is the octets it points at, [None] for NULL; one the code only carries is its
      value.  A union of operands is a record with each arm.
    - A loop over a table is a fold, a first-match [scan] or an [existsb] over the indices in the code's
      order.  A loop that follows links takes a bound one longer than its table and is [None] past it; the
      invariants prove that no reachable borrow gets there (Ip4ReassProof, TcpPcbRep, ArpRep).  The TCP
      option walk recurses on the octets left, and [parse_returns] proves the walk ends.
    - What the build configures (table sizes, spans of time, the word of the span tests and its byte order)
      is a Section variable or a record of the model, with the static assertions the code makes of it as
      hypotheses; each claim with such a hypothesis has a witness at concrete values.
    - The port's driver and physical layer (ethernet/phy.h) are code the repository does not have: a record
      of optional hooks over a state of their own (Phy.v).  A call through a NULL hook is [None], and the
      theorems about the rings show that it does not happen.

    ** The parts, and the files that hold them

    - Ground: Prelude (integers, tables, scans, automation), Base (endian.c, checksum.c, common.c, ms.c,
      clock.c), Wire (fields of a span, the checksum that closes it, how far a reader looks), Chain and
      Threaded (lists threaded through a table by index), Cover (intervals of octets), Bucket (the token
      bucket of icmp/icmp_in.c and icmp/icmp6_in.c).
    - Time: Timeouts (core/timeouts.c), with its abstract queue of deadlines.  Counters: Stats (core/stats.c).
    - IPv4: Ipv4 (ip/ipv4.c), IpAddr (ip/ip4_addr.c, ip/ip6_addr.c), Ip4Route.. (ip/ip4_route.c),
      Ip4Forward (ip/ip4_forward.c), Ip4Frag.. (ip/ip4_frag.c), Ip4Reass.. (ip/ip4_reass.c), Ip4Path, which
      puts the fragmenter and the reassembler end to end, Icmp.. (icmp/icmp.c, icmp/icmp_in.c), Pmtu4
      (pmtu/pmtu4.c).
    - IPv6: Ipv6 (ip/ipv6.c), Ip6Select.. (ip/ip6_select.c), Ip6Forward (ip/ip6_forward.c), Icmpv6,
      Icmp6InThms (icmp/icmpv6.c, icmp/icmp6_in.c), Pmtu6 (pmtu/pmtu6.c), Dad (nd/dad.c).
    - The link: Phy (ethernet/phy.c), Dma.. (netif/dma.c), Ethernet (ethernet/ethernet.c, ethernet/vlan.c),
      Ethip6 (ethernet/mii.c, ethernet/ethip6.c), Loopif (netif/loopif.c),
      Arp (arp/arp.c), ArpTable, ArpRep, ArpSteps, ArpEffects, ArpThms (arp/arp_table.c), Acd.. (acd/acd.c),
      Autoip (autoip/autoip.c).
    - TCP: Tcp (tcp/tcp.c, ip/pseudo.c), TcpTypes (the connection's record), TcpIn.. (tcp/tcp_in.c),
      TcpOut.., TcpTimer, TcpCong (tcp/tcp_out.c), TcpWire and TcpRound (what one builds the other parses),
      TcpPcb.. (tcp/tcp_pcb.c), TcpArrival (the round load, arrive, store), Isn (tcp/tcp_isn.c).
    - UDP: Udp (udp/udp.c, udp/udplite.c), UdpPcb (udp/udp_pcb.c).  Raw sockets: RawPcb (raw/raw_pcb.c).
    A name without its dots stands for the files that begin with it: the unit itself, the facts about it,
    and a last file with its theorems.  A unit of one file has its definitions in the first Module of the file
    and its theorems in a Module after it.

    ** What the theorems show

    - Refinement: a unit whose state is threaded through tables by links is shown to answer every sequence
      of calls as a machine without links does - the deadline list as a queue (Timeouts), the reassembler
      as sets of fragments (Ip4ReassSpec), the connection table's queues and the ARP table's holds as lists
      (TcpPcbThms, ArpThms), the descriptor rings as owners (Dma), the loopback ring as a
      queue of frames (Loopif), the paths to probe as a map (Pmtu6).  Conservation of descriptors, BUSY exactly when a table is full, and termination of the link walks follow from the same invariants.
    - Behaviour against the RFCs: the checksum against RFC 1071; routing against RFC 1812 section
      5.2.4.3; the arrival path against Figure 5, the reset rules of RFC 5961 and in-order delivery under
      loss, duplication and reordering; the send decision against RFC 9293 section 3.8.6.2.1; ARP input
      against RFC 826; announcing and defending against RFC 5227; the choice of a UDP binding; initial
      sequence numbers against RFC 6528 and FIPS 180-4; source and destination selection against RFC 6724;
      forwarding against RFC 1812 and RFC 8200; the addresses declared unique or duplicate against RFC 4862
      section 5.4; ICMP errors against RFC 1122 and RFC 4443, path MTU against RFC 1191 and
      RFC 8201.
    - Parsers: the walk over the IPv6 headers and the TCP options return on whatever octets arrive and depend
      on none past the length they were given.
    - Types: the shape a raw binding keeps through any calls (RawPcb).
    - Round trips: IPv4 headers, TCP segments with their options, UDP datagrams, VLAN tags, and a whole datagram cut by
      the fragmenter and put together by the reassembler in any order.
    - Bounds: the retransmission timeout, the challenge ACKs per interval, ICMP errors per
      interval, the growth of the congestion window, link-local addresses, the routers a datagram passes.
    The clock of the code wraps at 2^32 milliseconds.  Theorems about spans of time either hold across the
    wrap or say which span they need.

    ** Not modelled

    - [idemip_config.h] beyond the constants used, the generated vtables ([..Ns]), [static_assert]s other
      than as hypotheses, and the layout of a borrow (offsets, alignment).
    - core/dispatch.c and core/tick.c, which call the units in the order a frame or a tick needs.  They take
      the generated vtables and the borrow of every unit, so a model of them has to wait for the units that
      are not modelled: IGMP, MLD, DHCP, DNS, the interface table, IPv6 fragmentation and reassembly, the
      neighbor cache and the autoconfiguration and DNS servers of router advertisements.
    - time_determinism_*.c (it pads the time of a call and has no result).
    - Concurrency: a borrow has one caller at a time (the code takes no lock); the DMA engine is the driver.
*)
From Stdlib Require Export Lia ZArith.
From stdpp Require Export base numbers sets list.

#[global] Open Scope Z_scope.

(** ** What a call reports ([IdemIpStatus], idemip_config.h) *)
Inductive IdemIpStatus : Type :=
  | IDEMIP_OK
  | IDEMIP_BUSY
  | IDEMIP_ERR.

#[export] Instance IdemIpStatus_eq_dec : EqDecision IdemIpStatus.
Proof. solve_decision. Defined.
#[export] Instance IdemIpStatus_inhabited : Inhabited IdemIpStatus := populate IDEMIP_OK.

(** ** Unsigned machine integers, as [Z] reduced at their width *)
Definition u8 (x : Z) : Z := x mod 256.
Definition u16 (x : Z) : Z := x mod 65536.
Definition u32 (x : Z) : Z := x mod 4294967296.
Definition u64 (x : Z) : Z := x mod 18446744073709551616.

(** A value of that width: what a [uint8_t], [uint16_t], ... object can hold. *)
Definition is_u8 (x : Z) : Prop := 0 ≤ x < 256.
Definition is_u16 (x : Z) : Prop := 0 ≤ x < 65536.
Definition is_u32 (x : Z) : Prop := 0 ≤ x < 4294967296.
Definition is_u64 (x : Z) : Prop := 0 ≤ x < 18446744073709551616.

(** [wrap] decides linear goals about reduced values. *)
Ltac wrap_unfold := unfold u8, u16, u32, u64, is_u8, is_u16, is_u32, is_u64 in *.
Ltac wrap := wrap_unfold; Z.div_mod_to_equations; lia.

Create HintDb width.
Create Rewrite HintDb width.

Lemma u8_range x : is_u8 (u8 x).
Proof. wrap. Qed.
Lemma u16_range x : is_u16 (u16 x).
Proof. wrap. Qed.
Lemma u32_range x : is_u32 (u32 x).
Proof. wrap. Qed.
Lemma u64_range x : is_u64 (u64 x).
Proof. wrap. Qed.
Lemma u8_id x : is_u8 x → u8 x = x.
Proof. intros; apply Z.mod_small; done. Qed.
Lemma u16_id x : is_u16 x → u16 x = x.
Proof. intros; apply Z.mod_small; done. Qed.
Lemma u32_id x : is_u32 x → u32 x = x.
Proof. intros; apply Z.mod_small; done. Qed.
Lemma u64_id x : is_u64 x → u64 x = x.
Proof. intros; apply Z.mod_small; done. Qed.
#[export] Hint Resolve u8_range u16_range u32_range u64_range : width.
#[export] Hint Rewrite u8_id u16_id u32_id u64_id using (auto with width; wrap_unfold; lia) : width.

(** Reductions under a sum are redundant. *)
Lemma u32_add_l a b : u32 (u32 a + b) = u32 (a + b).
Proof. apply Zplus_mod_idemp_l. Qed.
Lemma u32_add_r a b : u32 (a + u32 b) = u32 (a + b).
Proof. apply Zplus_mod_idemp_r. Qed.
Lemma u32_sub_l a b : u32 (u32 a - b) = u32 (a - b).
Proof. apply Zminus_mod_idemp_l. Qed.
Lemma u32_sub_r a b : u32 (a - u32 b) = u32 (a - b).
Proof. apply Zminus_mod_idemp_r. Qed.
Create Rewrite HintDb u32.
#[export] Hint Rewrite u32_add_l u32_add_r u32_sub_l u32_sub_r : u32.

(** ** Records updated by field *)
Class Eta (R : Type) := eta : R → R.
Class Setter {R T : Type} (p : R → T) := set_field : (T → T) → R → R.
Arguments set_field {R T} p {_} _ _.

Ltac solve_setter :=
  match goal with
  | |- @Setter ?R ?T ?p =>
      let f := fresh "f" in let r := fresh "r" in
      intros f r;
      let e := constr:(@eta R _ r) in
      let e := eval hnf in e in
      match eval pattern (p r) in e with
      | ?g _ => let t := eval cbv beta in (g (f (p r))) in exact t
      end
  end.
#[export] Hint Extern 1 (Setter _) => solve_setter : typeclass_instances.

Declare Scope record_scope.
Notation "r <| p := v |>" := (set_field p (fun _ => v) r)
  (at level 1, left associativity, format "r <| p  :=  v |>") : record_scope.
#[global] Open Scope record_scope.


(** ** Booleans read back as the comparisons they decide *)
Ltac bool_prop :=
  repeat match goal with
  | H : andb _ _ = true |- _ => apply andb_true_iff in H; destruct H
  | H : orb _ _ = false |- _ => apply orb_false_iff in H; destruct H
  | H : andb _ _ = false |- _ => apply andb_false_iff in H
  | H : orb _ _ = true |- _ => apply orb_true_iff in H
  | H : negb _ = true |- _ => apply negb_true_iff in H
  | H : negb _ = false |- _ => apply negb_false_iff in H
  | H : Z.eqb _ _ = true |- _ => apply Z.eqb_eq in H
  | H : Z.eqb _ _ = false |- _ => apply Z.eqb_neq in H
  | H : Z.ltb _ _ = true |- _ => apply Z.ltb_lt in H
  | H : Z.ltb _ _ = false |- _ => apply Z.ltb_ge in H
  | H : Z.leb _ _ = true |- _ => apply Z.leb_le in H
  | H : Z.leb _ _ = false |- _ => apply Z.leb_gt in H
  end.

(** Case split on the next condition of the program under the goal, or in a hypothesis. *)
Ltac split_if :=
  let E := fresh "Hif" in
  match goal with
  | |- context [if ?b then _ else _] => destruct b eqn:E
  | H : context [if ?b then _ else _] |- _ => destruct b eqn:E
  end; bool_prop.

(** ** Fixed tables of rows

    A unit's table is a region of the borrow: a fixed number of rows, read and written by index.
    Indices are unsigned, so [Z.to_nat] loses nothing. *)
Section Table.
Context {A : Type} `{Inhabited A}.
Implicit Types (t : list A) (i j : Z) (x : A).

Definition tlen t : Z := Z.of_nat (length t).
Definition tget t i : A := t !!! Z.to_nat i.
Definition tset t i x : list A := <[Z.to_nat i := x]> t.

Lemma tlen_tset t i x : tlen (tset t i x) = tlen t.
Proof. unfold tlen, tset. by rewrite length_insert. Qed.

Lemma tget_tset_eq t i x : 0 ≤ i < tlen t → tget (tset t i x) i = x.
Proof. unfold tget, tset, tlen. intros. apply list_lookup_total_insert_eq. lia. Qed.

Lemma tget_tset_ne t i j x : 0 ≤ i → 0 ≤ j → i ≠ j → tget (tset t i x) j = tget t j.
Proof. unfold tget, tset. intros. apply list_lookup_total_insert_ne. lia. Qed.

Lemma tset_tset_eq t i x y : tset (tset t i x) i y = tset t i y.
Proof. unfold tset. apply list_insert_insert_eq. Qed.

Lemma tset_tget t i : 0 ≤ i < tlen t → tset t i (tget t i) = t.
Proof.
  unfold tset, tget, tlen. intros. apply list_insert_id.
  apply list_lookup_lookup_total_lt. lia.
Qed.

Lemma tget_replicate (n : nat) x i : 0 ≤ i < Z.of_nat n → tget (replicate n x) i = x.
Proof. unfold tget. intros. apply lookup_total_replicate_2. lia. Qed.

Lemma tget_ext t t' :
  tlen t = tlen t' → (∀ i, 0 ≤ i < tlen t → tget t i = tget t' i) → t = t'.
Proof.
  unfold tlen, tget. intros Hl Hi. apply list_eq. intros k.
  destruct (decide (k < length t)%nat) as [Hk|Hk].
  - specialize (Hi (Z.of_nat k)). rewrite Nat2Z.id in Hi.
    rewrite !list_lookup_lookup_total_lt by lia. f_equal. apply Hi. lia.
  - rewrite !lookup_ge_None_2 by lia. done.
Qed.
End Table.

Lemma tget_map {A B} `{Inhabited A, Inhabited B} (f : A → B) (t : list A) i :
  0 ≤ i < tlen t → tget (map f t) i = f (tget t i).
Proof.
  unfold tget, tlen. intros Hi. destruct (lookup_lt_is_Some_2 t (Z.to_nat i)) as [x Hx]; [lia|].
  rewrite (list_lookup_total_correct _ _ _ Hx). apply list_lookup_total_correct.
  change (map f t) with (f <$> t). by rewrite list_lookup_fmap, Hx.
Qed.

Create Rewrite HintDb table.
#[export] Hint Rewrite @tlen_tset : table.
#[export] Hint Rewrite @tget_tset_eq using (autorewrite with table; lia) : table.
#[export] Hint Rewrite @tget_tset_ne using lia : table.

(** [for (i = first; i < first + n; i++) if (p(i)) return i;] *)
Fixpoint scan (p : Z → bool) (n : nat) (i : Z) : option Z :=
  match n with
  | O => None
  | S n' => if p i then Some i else scan p n' (i + 1)
  end.

Lemma scan_Some p n i k :
  scan p n i = Some k → i ≤ k < i + Z.of_nat n ∧ p k = true ∧ ∀ j, i ≤ j < k → p j = false.
Proof.
  revert i; induction n as [|n IH]; intros i; simpl; [done|].
  destruct (p i) eqn:E.
  - intros [= <-]. repeat split; [lia..|done|lia].
  - intros (?&?&Hj)%IH. repeat split; [lia..|done|].
    intros j ?. destruct (decide (j = i)) as [->|]; [done|]. apply Hj; lia.
Qed.

Lemma scan_None p n i :
  scan p n i = None ↔ ∀ j, i ≤ j < i + Z.of_nat n → p j = false.
Proof.
  revert i; induction n as [|n IH]; intros i; simpl; [split; [lia|done]|].
  destruct (p i) eqn:E.
  - split; [done|]. intros Hj. rewrite Hj in E; [done|lia].
  - rewrite IH. split; intros Hj j ?.
    + destruct (decide (j = i)) as [->|]; [done|]. apply Hj; lia.
    + apply Hj; lia.
Qed.

Lemma scan_ext p q n i :
  (∀ j, i ≤ j < i + Z.of_nat n → p j = q j) → scan p n i = scan q n i.
Proof.
  revert i; induction n as [|n IH]; intros i Hpq; simpl; [done|].
  rewrite (Hpq i) by lia. destruct (q i); [done|]. apply IH. intros; apply Hpq; lia.
Qed.

(** A span of zeros, and the last of a span. *)
Lemma zeros_iff (l : list Z) : forallb (λ b, b =? 0) l = true ↔ l = replicate (length l) 0.
Proof.
  rewrite forallb_forall. split.
  - intros Hz. apply list_eq_same_length with (length l); [by rewrite length_replicate|done|]. intros i x y Hi Hx Hy.
    apply lookup_replicate in Hy as [-> _]. apply Z.eqb_eq, Hz, list_elem_of_In. by apply list_elem_of_lookup_2 in Hx.
  - intros -> x Hx. apply list_elem_of_In, elem_of_replicate in Hx as [-> _]. done.
Qed.
Lemma split_last (l : list Z) (n : nat) : length l = S n → l = take n l ++ [tget l (Z.of_nat n)].
Proof.
  intros Hl. rewrite <- (take_drop n l) at 1. f_equal. unfold tget. rewrite Nat2Z.id.
  destruct (lookup_lt_is_Some_2 l n) as [x Hx]; [lia|]. rewrite (drop_S _ x) by done. rewrite drop_ge by lia. f_equal. symmetry. by apply list_lookup_total_correct.
Qed.

(** Distinct indices below [n] are at most [n] many. *)
Lemma NoDup_range_length (n : Z) (l : list Z) :
  0 ≤ n → NoDup l → Forall (λ i, 0 ≤ i < n) l → Z.of_nat (length l) ≤ n.
Proof.
  intros Hn Hnd Hl. assert (l ⊆+ seqZ 0 n) as Hs.
  { apply NoDup_submseteq; [done|]. intros x Hx. apply elem_of_seqZ.
    rewrite Forall_forall in Hl. specialize (Hl x Hx). lia. }
  apply submseteq_length in Hs. rewrite length_seqZ in Hs. lia.
Qed.

Lemma Forall_filter_keep {A} (P Q : A → Prop) `{∀ x, Decision (Q x)} (l : list A) :
  Forall P l → Forall P (filter Q l).
Proof. rewrite !Forall_forall. intros HP x [_ Hx]%list_elem_of_filter. by apply HP. Qed.

Lemma filter_map {A B} (f : A → B) (P : B → Prop) `{∀ y, Decision (P y)} (l : list A) :
  filter P (f <$> l) = f <$> filter (λ x, P (f x)) l.
Proof.
  induction l as [|x l IH]; [done|]. rewrite fmap_cons, !filter_cons.
  destruct (decide (P (f x))); rewrite IH; done.
Qed.

Lemma filter_ext_in {A} (P Q : A → Prop) `{∀ x, Decision (P x), ∀ x, Decision (Q x)} (l : list A) :
  (∀ x, x ∈ l → P x ↔ Q x) → filter P l = filter Q l.
Proof.
  induction l as [|x l IH]; intros Hx; [done|]. rewrite !filter_cons, IH by (intros; apply Hx; by right).
  pose proof (Hx x ltac:(left)). repeat case_decide; tauto.
Qed.

Lemma filter_empty {A} (P : A → Prop) `{∀ x, Decision (P x)} (l : list A) : (∀ x, x ∈ l → ¬ P x) → filter P l = [].
Proof.
  induction l as [|x l IH]; intros Hx; [done|]. rewrite filter_cons, decide_False by (apply Hx; left).
  apply IH. intros; apply Hx; by right.
Qed.

Lemma filter_one {A} (P : A → Prop) `{∀ x, Decision (P x)} (l : list A) y :
  NoDup l → y ∈ l → P y → (∀ x, x ∈ l → P x → x = y) → filter P l = [y].
Proof.
  induction 1 as [|x l Hx Hnd IH]; intros Hy Hp Hu; [by apply elem_of_nil in Hy|]. rewrite filter_cons. case_decide as Hd.
  - rewrite (Hu x) by (done || left). rewrite filter_empty; [done|]. intros z Hz Hpz. apply Hx.
    rewrite (Hu x ltac:(left) Hd), <- (Hu z) by (done || by right). done.
  - apply elem_of_cons in Hy as [->|Hy]; [done|]. apply IH; [done..|]. intros z Hz. apply Hu. by right.
Qed.

Lemma elem_map {A B} (f : A → B) (l : list A) x : x ∈ l → f x ∈ map f l.
Proof. rewrite !list_elem_of_In. apply in_map. Qed.

(** ** Bit operations as arithmetic *)
Lemma testbit_high (n b i : Z) : 0 ≤ b < 2 ^ n → 0 ≤ n ≤ i → Z.testbit b i = false.
Proof.
  intros Hb Hi. rewrite <- (Z.mod_small b (2 ^ n)) by done. apply Z.mod_pow2_bits_high. lia.
Qed.

Lemma lor_disjoint a b : Z.land a b = 0 → Z.lor a b = a + b.
Proof. intros H. rewrite <- Z.lxor_lor by done. symmetry. by apply Z.add_nocarry_lxor. Qed.

Lemma lor_shiftl (a b n : Z) : 0 ≤ n → 0 ≤ b < 2 ^ n → Z.lor (Z.shiftl a n) b = a * 2 ^ n + b.
Proof.
  intros Hn Hb. rewrite lor_disjoint; [by rewrite Z.shiftl_mul_pow2|].
  apply Z.bits_inj'. intros i Hi. rewrite Z.land_spec, Z.bits_0, Z.shiftl_spec by done.
  destruct (Z.lt_ge_cases i n).
  - by rewrite Z.testbit_neg_r by lia.
  - rewrite (testbit_high n b i) by lia. by rewrite andb_false_r.
Qed.

Lemma land_ff x : Z.land x 0xFF = x mod 256.
Proof. change 0xFF with (Z.ones 8). by rewrite Z.land_ones. Qed.
Lemma land_ffff x : Z.land x 0xFFFF = x mod 65536.
Proof. change 0xFFFF with (Z.ones 16). by rewrite Z.land_ones. Qed.
Lemma land_ffffffff x : Z.land x 0xFFFFFFFF = x mod 4294967296.
Proof. change 0xFFFFFFFF with (Z.ones 32). by rewrite Z.land_ones. Qed.
Lemma shiftr_8 x : Z.shiftr x 8 = x / 256.
Proof. by rewrite Z.shiftr_div_pow2. Qed.
Lemma shiftr_16 x : Z.shiftr x 16 = x / 65536.
Proof. by rewrite Z.shiftr_div_pow2. Qed.
Lemma shiftr_24 x : Z.shiftr x 24 = x / 16777216.
Proof. by rewrite Z.shiftr_div_pow2. Qed.
Lemma shiftr_32 x : Z.shiftr x 32 = x / 4294967296.
Proof. by rewrite Z.shiftr_div_pow2. Qed.
Lemma shiftl_mul x n : 0 ≤ n → Z.shiftl x n = x * 2 ^ n.
Proof. intros. by apply Z.shiftl_mul_pow2. Qed.
Create Rewrite HintDb bits.
#[export] Hint Rewrite land_ff land_ffff land_ffffffff shiftr_8 shiftr_16 shiftr_24 shiftr_32 : bits.
