(* ===== verification/Base.v ===== *)
(** * Base: wire integers, the internet checksum, span tests, time (src/endian.c, src/checksum.c,
    src/common.c, src/ms.c, src/clock.c)

    Octets are [Z] values below 256 and a span is the list of octets from a pointer on. *)
From S2P Require Import Prelude.

(** ** endian.c *)
Module Endian.
Definition endian_rd16 (r : list Z) : Z :=
  u16 (Z.lor (Z.shiftl (tget r 0) 8) (tget r 1)).
Definition endian_rd32 (r : list Z) : Z :=
  Z.lor (Z.lor (Z.lor (Z.shiftl (tget r 0) 24) (Z.shiftl (tget r 1) 16))
               (Z.shiftl (tget r 2) 8)) (tget r 3).
Definition endian_wr16 (w : list Z) (v : Z) : list Z :=
  tset (tset w 0 (u8 (Z.shiftr v 8))) 1 (u8 (Z.land v 0xFF)).
Definition endian_wr32 (w : list Z) (v : Z) : list Z :=
  tset (tset (tset (tset w 0 (u8 (Z.shiftr v 24))) 1 (u8 (Z.land (Z.shiftr v 16) 0xFF)))
          2 (u8 (Z.land (Z.shiftr v 8) 0xFF))) 3 (u8 (Z.land v 0xFF)).

(** [idemip_rd16(p + off)] and its siblings: an accessor at an offset of a span. *)
Definition rd16 (p : list Z) (off : Z) : Z := endian_rd16 (drop (Z.to_nat off) p).
Definition rd32 (p : list Z) (off : Z) : Z := endian_rd32 (drop (Z.to_nat off) p).
Definition wr16 (p : list Z) (off v : Z) : list Z :=
  take (Z.to_nat off) p ++ endian_wr16 (drop (Z.to_nat off) p) v.
Definition wr32 (p : list Z) (off v : Z) : list Z :=
  take (Z.to_nat off) p ++ endian_wr32 (drop (Z.to_nat off) p) v.

(** *** Sixteen and thirty-two bit fields on explicit octets *)
Lemma rd16_bytes a b rest : is_u8 a → is_u8 b → endian_rd16 (a :: b :: rest) = 256 * a + b.
Proof.
  intros. unfold endian_rd16. change (tget (a :: b :: rest) 0) with a. change (tget (a :: b :: rest) 1) with b.
  wrap_unfold. rewrite lor_shiftl by lia. rewrite Z.mod_small by lia. lia.
Qed.

Lemma rd32_bytes a b c d rest : is_u8 a → is_u8 b → is_u8 c → is_u8 d →
  endian_rd32 (a :: b :: c :: d :: rest) = 16777216 * a + 65536 * b + 256 * c + d.
Proof.
  intros. unfold endian_rd32. change (tget (a :: b :: c :: d :: rest) 0) with a.
  change (tget (a :: b :: c :: d :: rest) 1) with b. change (tget (a :: b :: c :: d :: rest) 2) with c.
  change (tget (a :: b :: c :: d :: rest) 3) with d. wrap_unfold.
  rewrite <- !Z.lor_assoc, (lor_shiftl c d) by lia. rewrite (lor_shiftl b) by lia. rewrite lor_shiftl by lia. lia.
Qed.

Lemma wr16_bytes a b rest v : is_u16 v → endian_wr16 (a :: b :: rest) v = v / 256 :: v mod 256 :: rest.
Proof.
  intros. unfold endian_wr16, tset. simpl. autorewrite with bits.
  rewrite !u8_id by (wrap_unfold; Z.div_mod_to_equations; lia). done.
Qed.

Lemma wr32_bytes a b c d rest v : is_u32 v →
  endian_wr32 (a :: b :: c :: d :: rest) v =
  v / 16777216 :: v / 65536 mod 256 :: v / 256 mod 256 :: v mod 256 :: rest.
Proof.
  intros. unfold endian_wr32, tset. simpl. autorewrite with bits.
  rewrite !u8_id by (wrap_unfold; Z.div_mod_to_equations; lia). done.
Qed.

Lemma u16_octets v : is_u16 v → is_u8 (v / 256) ∧ is_u8 (v mod 256) ∧ 256 * (v / 256) + v mod 256 = v.
Proof. intros. wrap. Qed.

Lemma u32_octets v : is_u32 v →
  is_u8 (v / 16777216) ∧ is_u8 (v / 65536 mod 256) ∧ is_u8 (v / 256 mod 256) ∧ is_u8 (v mod 256) ∧
  16777216 * (v / 16777216) + 65536 * (v / 65536 mod 256) + 256 * (v / 256 mod 256) + v mod 256 = v.
Proof. intros. wrap. Qed.

(** A write at a constant offset of an explicit span. *)
Ltac write_field :=
  unfold wr16, wr32, tset;
  repeat match goal with |- context [Z.to_nat ?k] => let n := eval compute in (Z.to_nat k) in change (Z.to_nat k) with n end;
  cbn [take drop app insert list_insert];
  rewrite ?wr16_bytes, ?wr32_bytes by done.
End Endian.

(** ** checksum.c *)
Module Checksum.
Section Build.
(** What a build fixes: [word] is [sizeof(IdemIpWord)] (2, 4 or 8) where the word path is compiled
    in and [None] where the pair loop runs alone; [swap] is [IDEMIP_CKSUM_WORD_SWAP], set on a
    little-endian host. *)
Variable word : option nat.
Variable swap : bool.

(** [memcpy(&w, p, sizeof w)] on a little-endian and on a big-endian host. *)
Fixpoint load_le (p : list Z) : Z :=
  match p with [] => 0 | b :: p' => b + 256 * load_le p' end.
Definition load_be (p : list Z) : Z := load_le (rev p).
Definition load (p : list Z) : Z := if swap then load_le p else load_be p.

Definition cksum_fold_word (bytes : nat) (acc : Z) : Z :=
  let acc := if Nat.eqb bytes 8 then Z.land acc 0xFFFFFFFF + Z.shiftr acc 32 else acc in
  let acc := if Nat.leb 4 bytes then Z.land acc 0xFFFF + Z.shiftr acc 16 else acc in
  let s := u32 (Z.land acc 0xFFFF + Z.shiftr acc 16) in
  let s := u32 (Z.land s 0xFFFF + Z.shiftr s 16) in
  u16 s.

(** The [do ... while] over whole words: the accumulator, and what of the span is left. *)
Fixpoint word_loop (bytes fuel : nat) (acc : Z) (p : list Z) : Z * list Z :=
  match fuel with
  | O => (acc, p)
  | S fuel' =>
      if Nat.leb bytes (length p) then
        let w := load (take bytes p) in
        let m := 2 ^ (8 * Z.of_nat bytes) in
        let acc := (acc + w) mod m in
        let acc := (acc + (if acc <? w then 1 else 0)) mod m in
        word_loop bytes fuel' acc (drop bytes p)
      else (acc, p)
  end.

Definition word_path (bytes : nat) (sum : Z) (p : list Z) : Z * list Z :=
  if Nat.leb bytes (length p) then
    let '(acc, rest) := word_loop bytes (length p) 0 p in
    let folded := cksum_fold_word bytes acc in
    let folded := if swap then u16 (Z.lor (u16 (Z.shiftl folded 8)) (u16 (Z.shiftr folded 8)))
                  else folded in
    (u32 (sum + folded), rest)
  else (sum, p).

Fixpoint pair_loop (sum : Z) (p : list Z) : Z :=
  match p with
  | a :: b :: p' => pair_loop (u32 (sum + Z.lor (Z.shiftl a 8) b)) p'
  | [a] => u32 (sum + Z.shiftl a 8)
  | [] => sum
  end.

Definition fold16 (sum : Z) : Z := u32 (Z.land sum 0xFFFF + Z.shiftr sum 16).

Definition cksum_accum (sum : Z) (p : list Z) : Z :=
  let '(sum, rest) := match word with
                      | Some bytes => word_path bytes sum p
                      | None => (sum, p)
                      end in
  fold16 (fold16 (pair_loop sum rest)).

Definition cksum_final (sum : Z) : Z :=
  u16 (Z.land (u32 (Z.lnot (fold16 (fold16 sum)))) 0xFFFF).

Definition cksum_over (p : list Z) : Z := cksum_final (cksum_accum 0 p).
Definition cksum_valid (p : list Z) : bool := cksum_over p =? 0.
End Build.

(** *** The sum RFC 1071 defines *)

(** The 16-bit big-endian words of a span added up, an odd last octet taken as [Z,0]. *)
Fixpoint words_sum (p : list Z) : Z :=
  match p with
  | a :: b :: p' => (256 * a + b) + words_sum p'
  | [a] => 256 * a
  | [] => 0
  end.

(** The one's complement sum of words whose plain sum is [n]: end-around carries leave the residue
    modulo 65535, and only an empty or all-zero span sums to zero. *)
Definition ones (n : Z) : Z := if n =? 0 then 0 else (n - 1) mod 65535 + 1.

(** Two sums with the same one's complement value. *)
Definition oc (x y : Z) : Prop := 0 ≤ x ∧ 0 ≤ y ∧ x mod 65535 = y mod 65535 ∧ (x = 0 ↔ y = 0).

#[local] Instance oc_sym : Symmetric oc.
Proof. unfold oc, Symmetric. intuition lia. Qed.
#[local] Instance oc_trans : Transitive oc.
Proof. unfold oc, Transitive. intuition lia. Qed.
#[local] Instance oc_add : Proper (oc ==> oc ==> oc) Z.add.
Proof.
  intros x x' (?&?&Hx&?) y y' (?&?&Hy&?). unfold oc. split_and!; [lia..| |lia].
  rewrite Z.add_mod, Hx, Hy, <- Z.add_mod; lia.
Qed.

Lemma oc_refl x : 0 ≤ x → oc x x.
Proof. unfold oc. intuition lia. Qed.

Lemma oc_ones x y : oc x y → x ≤ 65535 → x = ones y.
Proof.
  unfold oc, ones. intros (?&?&He&Hz) Hle. destruct (Z.eqb_spec y 0); [lia|].
  Z.div_mod_to_equations; lia.
Qed.

Lemma oc_of_ones n : 0 ≤ n → oc (ones n) n.
Proof.
  unfold oc, ones. intros. destruct (Z.eqb_spec n 0) as [->|]; [by apply oc_refl|].
  pose proof (Z.mod_pos_bound (n - 1) 65535). split_and!; [lia..| |lia].
  rewrite Z.add_mod_idemp_l by lia. f_equal. lia.
Qed.

Lemma ones_range n : 0 ≤ n → 0 ≤ ones n ≤ 65535.
Proof. unfold ones. intros. destruct (Z.eqb_spec n 0); [lia|]. Z.div_mod_to_equations; lia. Qed.

Lemma fold16_oc x : 0 ≤ x < 4294967296 → oc (fold16 x) x ∧ fold16 x ≤ 131070.
Proof.
  unfold fold16, oc. autorewrite with bits. intros.
  rewrite u32_id by wrap. split_and!; wrap.
Qed.

Lemma fold16_twice x : 0 ≤ x < 4294967296 → fold16 (fold16 x) = ones x.
Proof.
  intros Hx. destruct (fold16_oc x Hx) as [H1 Hb1]. pose proof H1 as (H0 & _).
  destruct (fold16_oc (fold16 x) ltac:(lia)) as [H2 _].
  apply oc_ones; [by etrans|]. unfold fold16 in *. autorewrite with bits in *. wrap.
Qed.

Lemma ones_add a b : 0 ≤ a → 0 ≤ b → ones (ones a + b) = ones (a + b).
Proof.
  intros. pose proof (ones_range a). apply oc_ones; [|apply ones_range; lia].
  etrans; [apply oc_of_ones; lia|]. apply oc_add; [by apply oc_of_ones|by apply oc_refl].
Qed.

(** *** The word loads *)
Definition octets (p : list Z) : Prop := Forall is_u8 p.

(** Words read low octet first. *)
Fixpoint le_words (p : list Z) : Z :=
  match p with
  | a :: b :: p' => (a + 256 * b) + le_words p'
  | [a] => a
  | [] => 0
  end.

Lemma pair_ind (P : list Z → Prop) :
  P [] → (∀ a, P [a]) → (∀ a b p, P p → P (a :: b :: p)) → ∀ p, P p.
Proof.
  intros H0 H1 H2. fix IH 1. intros [|a [|b p]]; [done|apply H1|apply H2, IH].
Qed.

Lemma load_le_nonneg p : octets p → 0 ≤ load_le p.
Proof. induction 1 as [|b p Hb Hp IH]; simpl; [lia|]. unfold is_u8 in Hb. lia. Qed.

Lemma load_le_bound p : octets p → load_le p < 256 ^ Z.of_nat (length p).
Proof.
  induction 1 as [|b p Hb Hp IH]; [done|]. cbn [load_le length]. rewrite Nat2Z.inj_succ, Z.pow_succ_r by lia.
  unfold is_u8 in Hb. lia.
Qed.

Lemma load_le_app p q : load_le (p ++ q) = load_le p + 256 ^ Z.of_nat (length p) * load_le q.
Proof.
  induction p as [|b p IH]; [simpl; destruct (load_le q); done|].
  cbn [load_le length app]. rewrite IH, Nat2Z.inj_succ, Z.pow_succ_r by lia. lia.
Qed.

Lemma words_sum_nonneg p : octets p → 0 ≤ words_sum p.
Proof.
  induction p as [|a|a b p IH] using pair_ind; simpl; intros Hp; [lia|..];
    repeat (apply Forall_cons in Hp as [? Hp]); unfold is_u8 in *; try specialize (IH Hp); lia.
Qed.

Lemma oc_shift k x : 0 ≤ x → oc (65536 ^ Z.of_nat k * x) x.
Proof.
  intros Hx. induction k as [|k IH]; [rewrite Z.mul_1_l; by apply oc_refl|].
  rewrite Nat2Z.inj_succ, Z.pow_succ_r by lia. set (y := 65536 ^ Z.of_nat k * x) in *.
  rewrite <- Z.mul_assoc. fold y. etrans; [|exact IH]. unfold oc in *. Z.div_mod_to_equations; lia.
Qed.

Lemma load_le_oc p : octets p → Nat.even (length p) = true → oc (load_le p) (le_words p).
Proof.
  induction p as [|a|a b p IH] using pair_ind; intros Hp He; [by apply oc_refl|done|].
  repeat (apply Forall_cons in Hp as [? Hp]). cbn [load_le le_words].
  replace (a + 256 * (b + 256 * load_le p)) with ((a + 256 * b) + 65536 ^ Z.of_nat 1 * load_le p) by lia.
  unfold is_u8 in *. apply oc_add; [apply oc_refl; lia|].
  etrans; [by apply oc_shift, load_le_nonneg|]. by apply IH.
Qed.

Lemma load_be_oc p : octets p → Nat.even (length p) = true → oc (load_be p) (words_sum p).
Proof.
  induction p as [|a|a b p IH] using pair_ind; intros Hp He; [by apply oc_refl|done|].
  repeat (apply Forall_cons in Hp as [? Hp]). unfold is_u8 in *.
  unfold load_be. cbn [rev words_sum]. rewrite <- app_assoc, load_le_app, length_rev. simpl (load_le ([b] ++ [a])).
  apply Nat.even_spec in He as [k Hk]. simpl in Hk.
  replace (256 ^ Z.of_nat (length p)) with (65536 ^ Z.of_nat (k - 1)).
  2: { change 65536 with (256 ^ 2). rewrite <- Z.pow_mul_r by lia. f_equal. lia. }
  rewrite Z.add_comm. apply oc_add.
  - etrans; [apply oc_shift; lia|]. replace (b + 256 * (a + 256 * 0)) with (256 * a + b) by lia.
    apply oc_refl. lia.
  - apply IH; [done|]. apply Nat.even_spec. exists (k - 1)%nat. lia.
Qed.

(** *** The word path *)

(** A word is two, four or eight octets. *)
Definition word_bytes (bytes : nat) : Prop := bytes = 2%nat ∨ bytes = 4%nat ∨ bytes = 8%nat.

Lemma end_around m q acc w :
  m = 65535 * q + 1 → 1 ≤ q → 0 ≤ acc < m → 0 ≤ w < m →
  let a1 := (acc + w) mod m in
  let a2 := (a1 + (if a1 <? w then 1 else 0)) mod m in
  0 ≤ a2 < m ∧ oc a2 (acc + w).
Proof.
  intros Hm Hq Ha Hw a1 a2. destruct (Z.lt_ge_cases (acc + w) m) as [Hlt|Hge].
  - assert (a1 = acc + w) as E1 by (apply Z.mod_small; lia).
    assert (a2 = acc + w) as E2.
    { unfold a2. rewrite E1, (proj2 (Z.ltb_ge _ _)) by lia. rewrite Z.add_0_r. apply Z.mod_small; lia. }
    rewrite E2. split; [lia|]. apply oc_refl. lia.
  - assert (a1 = acc + w - m) as E1 by (symmetry; apply (Z.mod_unique _ _ 1); lia).
    assert (a2 = acc + w - m + 1) as E2.
    { unfold a2. rewrite E1, (proj2 (Z.ltb_lt _ _)) by lia. apply Z.mod_small; lia. }
    rewrite E2. split; [lia|]. unfold oc. split_and!; [lia..| |lia].
    replace (acc + w - m + 1) with (acc + w + (- q) * 65535) by lia. apply Z_mod_plus_full.
Qed.

Lemma word_modulus bytes : word_bytes bytes →
  ∃ q, 2 ^ (8 * Z.of_nat bytes) = 65535 * q + 1 ∧ 1 ≤ q ∧ 2 ^ (8 * Z.of_nat bytes) = 256 ^ Z.of_nat bytes.
Proof.
  intros [-> | [-> | ->]]; [exists 1|exists 65537|exists 281479271743489]; done.
Qed.

(** One step of a fold, at either width. *)
Lemma fold_step_oc x : 0 ≤ x → oc (x mod 65536 + x / 65536) x.
Proof. intros. unfold oc. split_and!; Z.div_mod_to_equations; lia. Qed.
Lemma fold_step32_oc x : 0 ≤ x → oc (x mod 4294967296 + x / 4294967296) x.
Proof. intros. unfold oc. split_and!; Z.div_mod_to_equations; lia. Qed.
Lemma fold_step_bound x b : 0 ≤ x ≤ b → x mod 65536 + x / 65536 ≤ 65535 + b / 65536.
Proof. intros. Z.div_mod_to_equations; lia. Qed.
Lemma fold_step_last x : 0 ≤ x ≤ 131070 → x mod 65536 + x / 65536 ≤ 65535.
Proof. intros. Z.div_mod_to_equations; lia. Qed.

Lemma fold_word_oc bytes acc : word_bytes bytes → 0 ≤ acc < 2 ^ (8 * Z.of_nat bytes) →
  oc (cksum_fold_word bytes acc) acc ∧ cksum_fold_word bytes acc ≤ 65535.
Proof.
  intros Hb Ha. unfold cksum_fold_word. autorewrite with bits.
  set (a1 := if Nat.eqb bytes 8 then _ else acc).
  assert (oc a1 acc ∧ 0 ≤ a1 ≤ 8589934590) as [Ho1 Hr1].
  { destruct Hb as [-> | [-> | ->]]; cbn [Nat.eqb Z.of_nat] in a1, Ha;
      [split; [apply oc_refl; lia|unfold a1; lia]..|].
    unfold a1. split; [apply fold_step32_oc; lia|]. Z.div_mod_to_equations; lia. }
  set (a2 := if Nat.leb 4 bytes then _ else a1).
  assert (oc a2 a1 ∧ 0 ≤ a2 ≤ 196606) as [Ho2 Hr2].
  { pose proof (fold_step_bound a1 8589934590 Hr1) as Hle. change (65535 + 8589934590 / 65536) with 196606 in Hle.
    unfold a2. destruct Hb as [-> | [-> | ->]]; cbn [Nat.leb].
    - subst a1. cbn in Ha |- *. split; [apply oc_refl; lia|lia].
    - pose proof (fold_step_oc a1 ltac:(lia)) as H. split; [done|]. destruct H; lia.
    - pose proof (fold_step_oc a1 ltac:(lia)) as H. split; [done|]. destruct H; lia. }
  pose proof (fold_step_oc a2 ltac:(lia)) as Ho3. pose proof Ho3 as (? & _).
  pose proof (fold_step_bound a2 196606 Hr2) as Hr3. change (65535 + 196606 / 65536) with 65537 in Hr3.
  set (a3 := a2 mod 65536 + a2 / 65536) in *. rewrite (u32_id a3) by wrap.
  pose proof (fold_step_oc a3 ltac:(lia)) as Ho4. pose proof Ho4 as (? & _).
  pose proof (fold_step_last a3 ltac:(lia)) as Hr4.
  set (a4 := a3 mod 65536 + a3 / 65536) in *. rewrite u32_id, u16_id by wrap.
  split; [|lia]. do 3 (etrans; [eassumption|]). done.
Qed.

(** What a run of words adds up to, in the order the host loads them. *)
Definition host_sum (swap : bool) (p : list Z) : Z := if swap then le_words p else words_sum p.

Lemma host_sum_app swap p q : Nat.even (length p) = true → host_sum swap (p ++ q) = host_sum swap p + host_sum swap q.
Proof.
  unfold host_sum. intros He. induction p as [|a|a b p IH] using pair_ind; [by destruct swap|done|].
  specialize (IH He). destruct swap; cbn [app le_words words_sum]; rewrite IH; lia.
Qed.

Lemma host_sum_nonneg swap p : octets p → 0 ≤ host_sum swap p.
Proof.
  unfold host_sum. induction p as [|a|a b p IH] using pair_ind; intros Hp;
    repeat (apply Forall_cons in Hp as [? Hp]); unfold is_u8 in *; destruct swap; cbn [le_words words_sum];
    try specialize (IH Hp); lia.
Qed.

Lemma load_oc swap p : octets p → Nat.even (length p) = true → oc (load swap p) (host_sum swap p).
Proof. unfold load, host_sum. destruct swap; [apply load_le_oc|apply load_be_oc]. Qed.

Lemma load_bound swap p : octets p → 0 ≤ load swap p < 256 ^ Z.of_nat (length p).
Proof.
  intros Hp. unfold load, load_be. destruct swap.
  - split; [by apply load_le_nonneg|by apply load_le_bound].
  - assert (octets (rev p)) by (by apply Forall_rev). rewrite <- length_rev.
    split; [by apply load_le_nonneg|by apply load_le_bound].
Qed.

Lemma word_loop_spec swap bytes fuel acc p :
  word_bytes bytes → octets p → (length p ≤ fuel)%nat → 0 ≤ acc < 2 ^ (8 * Z.of_nat bytes) →
  ∃ acc' used rest, word_loop swap bytes fuel acc p = (acc', rest) ∧ p = used ++ rest ∧
    Nat.even (length used) = true ∧ (length rest < bytes)%nat ∧
    0 ≤ acc' < 2 ^ (8 * Z.of_nat bytes) ∧ oc acc' (acc + host_sum swap used).
Proof.
  intros Hb. assert (0 < bytes)%nat as Hpos by (unfold word_bytes in Hb; lia).
  assert (Nat.even bytes = true) as Heven by (destruct Hb as [->|[->| ->]]; done).
  destruct (word_modulus bytes Hb) as (q & Hm & Hq & Hpow).
  revert acc p; induction fuel as [|fuel IH]; intros acc p Hp Hf Ha.
  { destruct p; [|simpl in Hf; lia]. exists acc, [], []. split_and!; try done; [lia..|].
    replace (host_sum swap []) with 0 by by destruct swap. rewrite Z.add_0_r. apply oc_refl. lia. }
  cbn [word_loop]. destruct (Nat.leb_spec bytes (length p)) as [Hle|Hlt].
  2: { exists acc, [], p. split_and!; try done; try lia.
       replace (host_sum swap []) with 0 by by destruct swap. rewrite Z.add_0_r. apply oc_refl. lia. }
  assert (octets (take bytes p)) as Ht by by apply Forall_take.
  assert (octets (drop bytes p)) as Hd by by apply Forall_drop.
  assert (length (take bytes p) = bytes) as Hlt by (rewrite length_take; lia).
  pose proof (load_bound swap _ Ht) as Hw. rewrite Hlt, <- Hpow in Hw.
  pose proof (end_around _ q acc _ Hm Hq Ha Hw) as [Ha2 Ho2]. cbv zeta in Ha2, Ho2.
  destruct (IH _ (drop bytes p) Hd ltac:(rewrite length_drop; lia) Ha2)
    as (acc' & used & rest & -> & Hsplit & Hev & Hr & Hacc & Ho).
  exists acc', (take bytes p ++ used), rest. split_and!; try done; try lia.
  - by rewrite <- app_assoc, <- Hsplit, take_drop.
  - by rewrite length_app, Nat.even_add, Hlt, Heven, Hev.
  - rewrite host_sum_app by by rewrite Hlt. rewrite Z.add_assoc. etrans; [exact Ho|].
    apply oc_add; [|apply oc_refl].
    + etrans; [exact Ho2|]. apply oc_add; [apply oc_refl; lia|]. apply load_oc; [done|by rewrite Hlt].
    + apply host_sum_nonneg. rewrite Hsplit in Hd. by apply Forall_app in Hd as [? _].
Qed.

Definition swap16 (x : Z) : Z := u16 (Z.lor (u16 (Z.shiftl x 8)) (u16 (Z.shiftr x 8))).

Lemma swap16_eq x : 0 ≤ x ≤ 65535 → swap16 x = 256 * (x mod 256) + x / 256.
Proof.
  intros. unfold swap16. rewrite shiftl_mul by lia. autorewrite with bits.
  replace (u16 (x * 2 ^ 8)) with (Z.shiftl (x mod 256) 8) by (rewrite shiftl_mul by lia; wrap).
  rewrite (u16_id (x / 256)), lor_shiftl by (try lia; wrap). rewrite u16_id by wrap. lia.
Qed.

Lemma swap16_oc x : 0 ≤ x ≤ 65535 → oc (swap16 x) (256 * x) ∧ swap16 x ≤ 65535.
Proof.
  intros. rewrite swap16_eq by done. unfold oc. split; [split_and!|]; Z.div_mod_to_equations; lia.
Qed.

Lemma le_words_swap p : octets p → Nat.even (length p) = true → oc (256 * le_words p) (words_sum p).
Proof.
  induction p as [|a|a b p IH] using pair_ind; intros Hp He; [by apply oc_refl|done|].
  repeat (apply Forall_cons in Hp as [? Hp]). cbn [le_words words_sum]. unfold is_u8 in *.
  replace (256 * (a + 256 * b + le_words p)) with ((256 * a + 65536 ^ Z.of_nat 1 * b) + 256 * le_words p) by lia.
  apply oc_add; [|by apply IH]. apply oc_add; [apply oc_refl; lia|]. apply oc_shift. lia.
Qed.

Lemma oc_scale k x y : 0 < k → oc x y → oc (k * x) (k * y).
Proof.
  unfold oc. intros Hk (?&?&He&?). split_and!; [lia..| |lia].
  rewrite Z.mul_mod, He, <- Z.mul_mod; lia.
Qed.

(** The word path adds the words it covers, whatever the width and the byte order. *)
Lemma word_path_spec swap bytes sum p :
  word_bytes bytes → octets p → 0 ≤ sum → sum + 65535 < 4294967296 →
  ∃ sum' used rest, word_path swap bytes sum p = (sum', rest) ∧ p = used ++ rest ∧
    Nat.even (length used) = true ∧ (length rest < bytes)%nat ∧ 0 ≤ sum' ≤ sum + 65535 ∧ oc sum' (sum + words_sum used).
Proof.
  intros Hb Hp Hs Hlt. unfold word_path. destruct (Nat.leb_spec bytes (length p)).
  2: { exists sum, [], p. split_and!; try done; try lia. rewrite Z.add_0_r. by apply oc_refl. }
  destruct (word_loop_spec swap bytes (length p) 0 p Hb Hp ltac:(lia)) as (acc & used & rest & -> & -> & He & Hr & Ha & Ho).
  { destruct (word_modulus bytes Hb) as (q & -> & ? & _). lia. }
  apply Forall_app in Hp as [Hu _]. destruct (fold_word_oc bytes acc Hb Ha) as [Hf Hfb].
  set (f := cksum_fold_word bytes acc) in *. pose proof Hf as (Hf0 & _).
  set (g := if swap then _ else f).
  assert (oc g (words_sum used) ∧ g ≤ 65535) as [Hg Hgb].
  { unfold g. destruct swap.
    - fold (swap16 f). destruct (swap16_oc f ltac:(lia)) as [H1 ?]. split; [|done]. etrans; [exact H1|].
      etrans; [|by apply le_words_swap]. apply oc_scale; [lia|]. by etrans.
    - split; [by etrans|done]. }
  pose proof Hg as (Hg0 & _). rewrite u32_id by wrap.
  eexists _, used, rest. split_and!; [done|done|done|done|lia|lia|]. apply oc_add; [by apply oc_refl|done].
Qed.

Lemma pair_loop_spec sum p :
  octets p → 0 ≤ sum → 2 * sum + 65535 * (Z.of_nat (length p) + 1) < 8589934592 →
  pair_loop sum p = sum + words_sum p ∧ 2 * words_sum p ≤ 65535 * (Z.of_nat (length p) + 1).
Proof.
  revert sum. induction p as [|a|a b p IH] using pair_ind; intros sum Hp Hs Hb; simpl; [lia|..];
    repeat (apply Forall_cons in Hp as [? Hp]); unfold is_u8 in *.
  - rewrite shiftl_mul by lia. rewrite u32_id by (unfold is_u32; simpl in *; lia). lia.
  - rewrite lor_shiftl by lia. simpl in Hb. rewrite u32_id by (unfold is_u32; lia).
    destruct (IH (sum + (a * 2 ^ 8 + b)) Hp) as [-> ?]; [lia..|]. simpl. lia.
Qed.

Lemma words_sum_app p q : Nat.even (length p) = true → words_sum (p ++ q) = words_sum p + words_sum q.
Proof. apply (host_sum_app false). Qed.

Definition build (word : option nat) : Prop :=
  match word with Some bytes => word_bytes bytes | None => True end.

Lemma cksum_accum_eq word swap sum p :
  build word → octets p → 0 ≤ sum ≤ 2000000000 → Z.of_nat (length p) ≤ 65535 →
  cksum_accum word swap sum p = ones (sum + words_sum p).
Proof.
  intros Hb Hp Hs Hl.
  unfold cksum_accum. destruct word as [bytes|]; simpl in Hb.
  - destruct (word_path_spec swap bytes sum p Hb Hp ltac:(lia) ltac:(lia))
      as (sum' & used & rest & -> & -> & He & Hr & Hs' & Ho).
    pose proof Hp as [Hu Hrest]%Forall_app.
    destruct (pair_loop_spec sum' rest Hrest ltac:(lia)) as [-> Hle].
    { unfold word_bytes in Hb. lia. }
    pose proof (words_sum_nonneg rest Hrest). pose proof (words_sum_nonneg used Hu).
    rewrite words_sum_app, fold16_twice by (done || unfold word_bytes in Hb; lia).
    apply oc_ones; [|apply ones_range; lia]. etrans; [apply oc_of_ones; lia|].
    rewrite Z.add_assoc. apply oc_add; [done|by apply oc_refl].
  - destruct (pair_loop_spec sum p Hp ltac:(lia)) as [-> Hle]; [lia|].
    pose proof (words_sum_nonneg p Hp). apply fold16_twice. lia.
Qed.

(** C2. Equivalence: on every build - the pair loop alone, or the word path at sixteen, thirty-two or
    sixty-four bits on either byte order - accumulating a span of at most 65535 octets onto any sum a
    pseudo-header leaves computes the one's complement sum of its 16-bit words RFC 1071 defines. *)
Theorem cksum_accum_rfc1071 (word : option nat) (swap : bool) (sum : Z) (p : list Z)
    (Hb : build word) (Hp : octets p) (Hs : 0 ≤ sum ≤ 2000000000) (Hl : Z.of_nat (length p) ≤ 65535) :
  cksum_accum word swap sum p = ones (sum + words_sum p).
Proof. by apply cksum_accum_eq. Qed.

(** A little-endian 64-bit host and a build without the word path, on the same odd span. *)
Lemma cksum_accum_rfc1071_witness :
  cksum_accum (Some 8%nat) true 0x1234 [1; 2; 3; 4; 5; 6; 7; 8; 9; 0xFF; 0xFE] =
  cksum_accum None false 0x1234 [1; 2; 3; 4; 5; 6; 7; 8; 9; 0xFF; 0xFE].
Proof.
  rewrite (cksum_accum_rfc1071 (Some 8%nat) true), (cksum_accum_rfc1071 None false);
    [reflexivity|exact I| | | |right; right; reflexivity| | |]; first [lia|simpl; lia|idtac].
  all: repeat constructor; discriminate.
Defined.

Lemma cksum_final_eq s : 0 ≤ s ≤ 65535 → cksum_final s = 65535 - ones s.
Proof.
  intros. unfold cksum_final. rewrite fold16_twice by lia. pose proof (ones_range s).
  autorewrite with bits. unfold Z.lnot. wrap.
Qed.

Lemma ones_ones n : 0 ≤ n → ones (ones n) = ones n.
Proof. intros. pose proof (ones_add n 0). rewrite !Z.add_0_r in *. auto with lia. Qed.

Lemma cksum_over_eq word swap p :
  build word → octets p → Z.of_nat (length p) ≤ 65535 → cksum_over word swap p = 65535 - ones (words_sum p).
Proof.
  intros. unfold cksum_over. pose proof (words_sum_nonneg p). rewrite cksum_accum_eq by (done || lia).
  pose proof (ones_range (0 + words_sum p)). rewrite cksum_final_eq by auto with lia.
  rewrite ones_ones by auto with lia. done.
Qed.

Lemma cksum_valid_iff word swap p :
  build word → octets p → Z.of_nat (length p) ≤ 65535 →
  cksum_valid word swap p = true ↔ words_sum p ≠ 0 ∧ words_sum p mod 65535 = 0.
Proof.
  intros Hb Hp Hl. unfold cksum_valid. rewrite cksum_over_eq, Z.eqb_eq by done.
  pose proof (words_sum_nonneg p Hp). unfold ones. destruct (Z.eqb_spec (words_sum p) 0); [lia|].
  Z.div_mod_to_equations; lia.
Qed.
End Checksum.

(** ** common.c *)
Module Span.
Section Build.
(** [bytes] is [sizeof(IdemIpWord)]; [big] a big-endian host. *)
Variable bytes : nat.
Variable big : bool.
Let width : Z := 8 * Z.of_nat bytes.
(** A load may reach past the octets of [p]; what it finds there is masked away, and is zero here. *)
Definition word_of (p : list Z) : Z :=
  let w := take bytes (p ++ replicate bytes 0) in if big then Checksum.load_be w else Checksum.load_le w.

Definition span_tail (p : list Z) (n : nat) : Z :=
  let w := word_of p in
  let mask :=
    if big
    then (Z.lnot (Z.shiftl (Z.shiftl 1 (8 * (Z.of_nat bytes - Z.of_nat n - 1)) mod 2 ^ width) 8 mod 2 ^ width - 1))
           mod 2 ^ width
    else (Z.shiftl 1 (8 * Z.of_nat n) - 1) mod 2 ^ width in
  Z.land w mask.

Fixpoint zero_loop (fuel : nat) (any : Z) (p : list Z) (n : nat) : Z :=
  match fuel with
  | O => any
  | S fuel' =>
      if Nat.leb bytes n then zero_loop fuel' (Z.lor any (word_of p)) (drop bytes p) (n - bytes)
      else Z.lor any (span_tail p n)
  end.
Definition span_zero (p : list Z) (n : nat) : bool := zero_loop (S n) 0 p n =? 0.

Fixpoint eq_loop (fuel : nat) (diff : Z) (p q : list Z) (n : nat) : Z :=
  match fuel with
  | O => diff
  | S fuel' =>
      if Nat.leb bytes n
      then eq_loop fuel' (Z.lor diff (Z.lxor (word_of p) (word_of q))) (drop bytes p) (drop bytes q) (n - bytes)
      else Z.lor diff (Z.lxor (span_tail p n) (span_tail q n))
  end.
Definition span_eq (p q : list Z) (n : nat) : bool := eq_loop (S n) 0 p q n =? 0.
End Build.

(** *** What the word loops decide *)
Import Checksum.

Lemma load_le_inj p q : octets p → octets q → length p = length q → load_le p = load_le q → p = q.
Proof.
  intros Hp. revert q. induction Hp as [|a p Ha Hp IH]; intros [|b q] Hq Hl He; try done.
  apply Forall_cons in Hq as [Hb Hq]. simpl in Hl, He. unfold is_u8 in *.
  assert (a = b ∧ load_le p = load_le q) as [-> ?] by lia. f_equal. by apply IH; [|lia|].
Qed.

Lemma load_be_inj p q : octets p → octets q → length p = length q → load_be p = load_be q → p = q.
Proof.
  intros Hp Hq Hl He. rewrite <- (rev_involutive p), <- (rev_involutive q). f_equal.
  apply load_le_inj; [by apply Forall_rev..| |done]. by rewrite !length_rev.
Qed.

Lemma load_be_app p q : load_be (p ++ q) = load_be p * 256 ^ Z.of_nat (length q) + load_be q.
Proof. unfold load_be. rewrite rev_app_distr, load_le_app, length_rev. lia. Qed.

Lemma land_low (W w x : Z) : 0 ≤ W → 0 ≤ w < 2 ^ W → Z.land w (x mod 2 ^ W) = Z.land w x.
Proof.
  intros HW Hw. rewrite <- Z.land_ones by done. rewrite (Z.land_comm x), Z.land_assoc.
  rewrite Z.land_ones by done. by rewrite Z.mod_small.
Qed.

Lemma pow256 n : 0 ≤ n → 2 ^ (8 * n) = 256 ^ n.
Proof. intros. by rewrite Z.pow_mul_r by lia. Qed.

(** A value that stands for the first [n] octets: equal values, equal octets. *)
Definition tail_value (bytes : nat) (big : bool) (p : list Z) : Z :=
  if big then load_be p * 256 ^ (Z.of_nat bytes - Z.of_nat (length p)) else load_le p.

(** The mask of a tail, as arithmetic on a word [hi * 2^k + lo] (big-endian) and on a word
    [lo + 2^k * hi] (little-endian). *)
Lemma mask_be (W k hi lo : Z) :
  0 ≤ k ≤ W → 8 ≤ W → 8 ≤ k → 0 ≤ lo < 2 ^ k → 0 ≤ hi * 2 ^ k + lo < 2 ^ W →
  Z.land (hi * 2 ^ k + lo)
    ((Z.lnot (Z.shiftl (Z.shiftl 1 (k - 8) mod 2 ^ W) 8 mod 2 ^ W - 1)) mod 2 ^ W) = (if k =? W then 0 else hi * 2 ^ k).
Proof.
  intros Hk HW H8 Hlo Hw. rewrite land_low by lia. rewrite !Z.shiftl_mul_pow2, Z.mul_1_l by lia.
  rewrite (Z.mod_small (2 ^ (k - 8))) by (split; [lia|apply Z.pow_lt_mono_r; lia]).
  rewrite <- Z.pow_add_r by lia. replace (k - 8 + 8) with k by lia.
  destruct (Z.eqb_spec k W) as [->|Hne].
  - rewrite Z_mod_same_full. change (Z.lnot (0 - 1)) with 0. by rewrite Z.land_0_r.
  - rewrite (Z.mod_small (2 ^ k)) by (split; [lia|apply Z.pow_lt_mono_r; lia]).
    replace (2 ^ k - 1) with (Z.ones k) by (rewrite Z.ones_equiv; lia).
    rewrite <- Z.ldiff_land, Z.ldiff_ones_r, Z.shiftl_mul_pow2, Z.shiftr_div_pow2 by lia.
    rewrite Z.div_add_l, (Z.div_small lo) by lia. lia.
Qed.

Lemma mask_le (W k hi lo : Z) :
  0 ≤ k → 0 ≤ W → 0 ≤ lo < 2 ^ k → 0 ≤ lo + 2 ^ k * hi < 2 ^ W →
  Z.land (lo + 2 ^ k * hi) ((Z.shiftl 1 k - 1) mod 2 ^ W) = lo.
Proof.
  intros Hk HW Hlo Hw. rewrite land_low by lia. rewrite Z.shiftl_mul_pow2, Z.mul_1_l by lia.
  replace (2 ^ k - 1) with (Z.ones k) by (rewrite Z.ones_equiv; lia).
  rewrite Z.land_ones, Z.mul_comm, Z_mod_plus_full by lia. by apply Z.mod_small.
Qed.

Lemma word_of_full bytes big p : (bytes ≤ length p)%nat → word_of bytes big p = if big then load_be (take bytes p) else load_le (take bytes p).
Proof. intros Hl. unfold word_of. by rewrite take_app_le by done. Qed.
Lemma word_of_pad bytes big p : word_of bytes big p = word_of bytes big (p ++ replicate bytes 0).
Proof. unfold word_of. by rewrite (take_app_le (p ++ _)) by (rewrite length_app, length_replicate; lia). Qed.

Lemma span_tail_full bytes big p n :
  octets p → (n < bytes)%nat → (bytes ≤ length p)%nat →
  span_tail bytes big p n = tail_value bytes big (take n p).
Proof.
  intros Hp Hn Hl. unfold span_tail. rewrite word_of_full by done. unfold tail_value.
  assert (take bytes p = take n p ++ take (bytes - n) (drop n p)) as Ht.
  { rewrite take_take_drop. f_equal. lia. }
  assert (length (take n p) = n) as Hln by (rewrite length_take; lia).
  assert (length (take (bytes - n) (drop n p)) = bytes - n)%nat as Hlr by (rewrite length_take, length_drop; lia).
  assert (length (take bytes p) = bytes) as Hlb by (rewrite length_take; lia).
  pose proof (λ swap, load_bound swap (take bytes p) (Forall_take _ _ _ Hp)) as Hb.
  pose proof (λ swap, load_bound swap (take n p) (Forall_take _ _ _ Hp)) as Hbn.
  pose proof (λ swap, load_bound swap (take (bytes - n) (drop n p)) (Forall_take _ _ _ (Forall_drop _ _ _ Hp))) as Hbr.
  rewrite Hlb, <- pow256 in Hb by lia. rewrite Hln, <- pow256 in Hbn by lia. rewrite Hlr, <- pow256 in Hbr by lia.
  rewrite Hln. destruct big.
  - specialize (Hb false). specialize (Hbr false). unfold load in Hb, Hbr.
    rewrite Ht, load_be_app, Hlr, <- !pow256 in Hb |- * by lia.
    replace (8 * (Z.of_nat bytes - Z.of_nat n)) with (8 * Z.of_nat (bytes - n)) by lia.
    replace (8 * (Z.of_nat bytes - Z.of_nat n - 1)) with (8 * Z.of_nat (bytes - n) - 8) by lia.
    rewrite mask_be by lia. destruct (Z.eqb_spec (8 * Z.of_nat (bytes - n)) (8 * Z.of_nat bytes)). 2: { rewrite pow256 by lia. do 2 f_equal. lia. }
    assert (n = 0%nat) as -> by lia. done.
  - specialize (Hb true). specialize (Hbn true). unfold load in Hb, Hbn.
    rewrite Ht, load_le_app, Hln, <- pow256 in Hb |- * by lia. by apply mask_le; try lia.
Qed.

Lemma span_tail_value bytes big p n :
  octets p → (n < bytes)%nat → (n ≤ length p)%nat → span_tail bytes big p n = tail_value bytes big (take n p).
Proof.
  intros Hp Hn Hl. rewrite <- (take_app_le p (replicate bytes 0)) by done. rewrite <- span_tail_full; [|apply Forall_app; split; [done|]|done|rewrite length_app, length_replicate; lia].
  - unfold span_tail. by rewrite word_of_pad.
  - apply Forall_replicate. unfold is_u8. lia.
Qed.

(** A word, like a tail, stands for its octets. *)
Lemma word_of_value bytes big p : (bytes ≤ length p)%nat → word_of bytes big p = tail_value bytes big (take bytes p).
Proof.
  intros. rewrite word_of_full by done. unfold tail_value. destruct big; [|done]. rewrite length_take, Nat.min_l, Z.sub_diag by lia.
  by rewrite Z.mul_1_r.
Qed.

Lemma tail_value_inj bytes big p q :
  octets p → octets q → length p = length q → (length p ≤ bytes)%nat →
  tail_value bytes big p = tail_value bytes big q → p = q.
Proof.
  unfold tail_value. intros Hp Hq Hl Hb He. destruct big; [|by apply load_le_inj].
  apply load_be_inj; [done..|]. rewrite Hl in He. apply Z.mul_reg_r in He; [done|]. lia.
Qed.

Lemma lxor_eq_0 x y : Z.lxor x y = 0 ↔ x = y.
Proof. split; [apply Z.lxor_eq|]. intros ->. apply Z.lxor_nilpotent. Qed.

Lemma eq_loop_spec bytes big fuel diff p q n :
  (0 < bytes)%nat → octets p → octets q → (n < fuel)%nat →
  (n ≤ length p)%nat → (n ≤ length q)%nat →
  eq_loop bytes big fuel diff p q n = 0 ↔ diff = 0 ∧ take n p = take n q.
Proof.
  intros Hb. revert diff p q n; induction fuel as [|fuel IH]; intros diff p q n Hp Hq Hf Hlp Hlq; [lia|].
  cbn [eq_loop]. destruct (Nat.leb_spec bytes n) as [Hle|Hlt].
  - rewrite IH by (rewrite ?length_drop; try lia; by apply Forall_drop).
    rewrite Z.lor_eq_0_iff, lxor_eq_0, !word_of_value by lia.
    replace n with (bytes + (n - bytes))%nat at 3 4 by lia. rewrite <- !take_take_drop.
    split.
    + intros [[-> He] Hd]. split; [done|]. f_equal; [|done].
      eapply tail_value_inj; [by apply Forall_take..| | |done]; rewrite !length_take; lia.
    + intros [-> [He Hd]%app_inj_1]; [|rewrite !length_take; lia]. by rewrite He.
  - rewrite Z.lor_eq_0_iff, lxor_eq_0, !span_tail_value by (done || lia). split.
    + intros [-> He]. split; [done|].
      eapply tail_value_inj; [by apply Forall_take..| | |done]; rewrite !length_take; lia.
    + by intros [-> ->].
Qed.

(** Testing for zero is comparing with zeros. *)
Lemma zero_loop_eq bytes big fuel any p n k :
  (n ≤ k)%nat → zero_loop bytes big fuel any p n = eq_loop bytes big fuel any p (replicate k 0) n.
Proof.
  assert (∀ m, load_le (replicate m 0) = 0) as Hz by (induction m as [|m IH]; simpl; [done|by rewrite IH]).
  assert (∀ k n, word_of bytes big (replicate k 0) = 0 ∧ span_tail bytes big (replicate k 0) n = 0) as Hw.
  { intros k' n'. unfold span_tail. assert (word_of bytes big (replicate k' 0) = 0) as ->; [|by rewrite Z.land_0_l].
    unfold word_of, load_be. rewrite <- replicate_add, take_replicate, rev_alt.
    change (rev_append ?l []) with (reverse l). rewrite reverse_replicate. by destruct big; rewrite Hz. }
  revert any p n k; induction fuel as [|fuel IH]; intros any p n k Hk; [done|]. cbn [zero_loop eq_loop].
  destruct (Hw k n) as [-> ->]. rewrite !Z.lxor_0_r. destruct (Nat.leb_spec bytes n); [|done].
  rewrite drop_replicate. apply IH. lia.
Qed.

(** Equivalence: comparing two spans a word at a time, the tail masked out of a load that reads
    past the span, decides equality of exactly the first [n] octets, at every word width and byte
    order, and testing for zero decides that those octets are all zero. *)
Theorem span_tests_exact (bytes : nat) (big : bool) (p q : list Z) (n : nat)
    (Hb : (0 < bytes)%nat) (Hp : octets p) (Hq : octets q)
    (Hlp : (n ≤ length p)%nat) (Hlq : (n ≤ length q)%nat) :
  (span_eq bytes big p q n = true ↔ take n p = take n q) ∧
  (span_zero bytes big p n = true ↔ Forall (λ b, b = 0) (take n p)).
Proof.
  unfold span_eq, span_zero. rewrite !Z.eqb_eq. split.
  - rewrite eq_loop_spec by (done || lia). naive_solver.
  - rewrite (zero_loop_eq _ _ _ _ _ _ n) by lia.
    rewrite eq_loop_spec; [|done|done| |lia|done|by rewrite length_replicate].
    2: { apply Forall_replicate. unfold is_u8. lia. }
    rewrite take_replicate, Nat.min_l by lia. split.
    + intros [_ ->]. by apply Forall_replicate.
    + intros Hz. split; [done|]. symmetry. apply replicate_as_Forall. split; [rewrite length_take; lia|].
      by eapply Forall_impl; [exact Hz|].
Qed.

Lemma span_tests_exact_witness :
  (span_eq 8 true (replicate 20 7) (replicate 18 7 ++ [8; 8]) 11 = true ↔
     take 11 (replicate 20 7) = take 11 (replicate 18 7 ++ [8; 8])) ∧
  (span_zero 8 true (replicate 20 7) 11 = true ↔ Forall (λ b, b = 0) (take 11 (replicate 20 7))).
Proof.
  apply (span_tests_exact 8 true (replicate 20 7) (replicate 18 7 ++ [8; 8]) 11);
    [lia|repeat constructor; discriminate|repeat constructor; discriminate|simpl; lia|simpl; lia].
Defined.
End Span.

(** ** ms.c and clock.c *)
Module Clock.
Definition ms_from_s (seconds : Z) : Z :=
  u64 (u64 (u64 (Z.shiftl seconds 10) - u64 (Z.shiftl seconds 4)) - u64 (Z.shiftl seconds 3)).
Definition ms_hi (t : Z) : Z := u32 (Z.shiftr t 32).
Definition ms_lo (t : Z) : Z := u32 (Z.land t 0xFFFFFFFF).
Definition ms_join (hi lo : Z) : Z := Z.lor (u64 (Z.shiftl hi 32)) lo.
(** [ms_extend]: the two loose words, and the epoch. *)
Definition ms_extend (last_ms hi now_ms : Z) : Z * Z * Z :=
  let hi := if now_ms <? last_ms then u32 (hi + 1) else hi in
  (now_ms, hi, Z.lor (u64 (Z.shiftl hi 32)) now_ms).

Record IdemIpClock := mkClock { reading : Z; hi : Z; stamp : Z }.
#[export] Instance IdemIpClock_eta : Eta IdemIpClock := fun r => mkClock (reading r) (hi r) (stamp r).

Definition clock_refresh (clk : IdemIpClock) (now_ms : Z) : IdemIpClock * Z :=
  let clk := if now_ms <? reading clk then clk <| hi := u32 (hi clk + 1) |> else clk in
  let clk := clk <| reading := now_ms |> in
  (clk, Z.lor (u64 (Z.shiftl (hi clk) 32)) now_ms).
Definition clock_open (clk : IdemIpClock) : IdemIpClock := clk <| stamp := reading clk |>.
Definition clock_now (clk : IdemIpClock) : Z := reading clk.
Definition clock_stamp (clk : IdemIpClock) : Z := stamp clk.
Definition clock_elapsed (clk : IdemIpClock) : Z := u32 (reading clk - stamp clk).
Definition clock_epoch (clk : IdemIpClock) : Z := Z.lor (u64 (Z.shiftl (hi clk) 32)) (reading clk).

(** *** Time *)
Definition clock_ok (clk : IdemIpClock) : Prop := is_u32 (reading clk) ∧ is_u32 (hi clk) ∧ is_u32 (stamp clk).

Lemma join_eq h l : is_u32 h → is_u32 l → Z.lor (u64 (Z.shiftl h 32)) l = h * 4294967296 + l.
Proof.
  intros. rewrite u64_id by (rewrite shiftl_mul by lia; wrap_unfold; lia). by apply lor_shiftl.
Qed.

Lemma epoch_eq clk : clock_ok clk → clock_epoch clk = hi clk * 4294967296 + reading clk.
Proof. intros (?&?&?). unfold clock_epoch. by rewrite join_eq. Qed.

(** Functional: the epoch is time. If the epoch held the true millisecond [t], and the caller
    reads the 32-bit clock again before a whole period has passed, at the true millisecond [t'], then
    after [clock_refresh] the epoch is [t'], the returned value is the epoch, and the state is in
    range; so over any sequence of such readings the epoch never goes back. *)
Theorem clock_refresh_tracks_time (clk : IdemIpClock) (t t' : Z)
    (Hok : clock_ok clk) (Ht : clock_epoch clk = t) (Hstep : t ≤ t' < t + 4294967296)
    (Hrange : t' < 18446744073709551616) :
  let '(clk', e) := clock_refresh clk (u32 t') in
  e = t' ∧ clock_epoch clk' = t' ∧ clock_now clk' = u32 t' ∧ clock_ok clk' ∧ stamp clk' = stamp clk.
Proof.
  rewrite epoch_eq in Ht by done. destruct clk as [r h st], Hok as (Hr & Hh & Hst); cbn in *.
  pose proof (u32_range t') as Hu. pose proof (Z.div_mod t' 4294967296 ltac:(lia)) as Hq.
  fold (u32 t') in Hq. unfold clock_refresh. cbn.
  destruct (Z.ltb_spec (u32 t') r); cbn.
  - assert (u32 (h + 1) = h + 1) as -> by (apply u32_id; unfold is_u32 in *; lia).
    assert (is_u32 (h + 1)) by (unfold is_u32 in *; lia).
    rewrite join_eq, epoch_eq by done. cbn. assert (t' / 4294967296 = h + 1) by (unfold is_u32 in *; lia).
    split_and!; try done; lia.
  - rewrite join_eq, epoch_eq by done. cbn. assert (t' / 4294967296 = h) by (unfold is_u32 in *; lia).
    split_and!; try done; lia.
Qed.

Lemma clock_refresh_tracks_time_witness :
  let clk := mkClock 0xFFFFFFF0 3 0 in
  clock_epoch clk = 0x3FFFFFFF0 ∧ clock_refresh clk (u32 0x400000010) = (mkClock 0x10 4 0, 0x400000010).
Proof.
  split; [reflexivity|].
  assert (H := clock_refresh_tracks_time (mkClock 0xFFFFFFF0 3 0) 0x3FFFFFFF0 0x400000010).
  destruct H as (H & _); [repeat split; vm_compute; congruence|reflexivity|lia|lia|].
  vm_compute in H |- *. reflexivity.
Defined.

(** The seconds fields of the RFCs scale exactly, and an epoch splits and joins back. *)
Lemma ms_from_s_eq s : is_u32 s → ms_from_s s = 1000 * s.
Proof.
  intros. unfold ms_from_s. rewrite !shiftl_mul by lia. wrap_unfold.
  rewrite (Z.mod_small (s * 2 ^ 10)), (Z.mod_small (s * 2 ^ 4)), (Z.mod_small (s * 2 ^ 3)) by lia.
  rewrite (Z.mod_small (_ - s * 2 ^ 4)) by lia. rewrite Z.mod_small by lia. lia.
Qed.

Lemma ms_join_split t : is_u64 t → ms_join (ms_hi t) (ms_lo t) = t.
Proof.
  intros. unfold ms_join, ms_hi, ms_lo. autorewrite with bits.
  rewrite join_eq by apply u32_range. wrap.
Qed.

Lemma ms_extend_refresh clk now :
  ms_extend (reading clk) (hi clk) now =
  (reading (clock_refresh clk now).1, hi (clock_refresh clk now).1, (clock_refresh clk now).2).
Proof. unfold ms_extend, clock_refresh. destruct clk as [r h st]; cbn. by destruct (now <? r). Qed.
End Clock.
