(* ===== verification/Wire.v ===== *)
(** * Octets on the wire

    Big-endian fields as explicit octets, a region written from its start, and the checksum that closes a
    span over the field it is written to; shared by every builder and parser. *)
From S2P Require Import Prelude Base.

Module Wire.
Import Endian Checksum.

(** ** The C library's block writes, [off] octets into a region *)
Definition memcpy (w : list Z) (off : Z) (src : list Z) (n : Z) : list Z :=
  take (Z.to_nat off) w ++ take (Z.to_nat n) src ++ drop (Z.to_nat (off + n)) w.
Definition memset (w : list Z) (off v n : Z) : list Z :=
  take (Z.to_nat off) w ++ replicate (Z.to_nat n) v ++ drop (Z.to_nat (off + n)) w.

(** ** Big-endian fields as octets *)
Definition be16 (v : Z) : list Z := [v / 256; v mod 256].
Definition be32 (v : Z) : list Z := [v / 16777216; v / 65536 mod 256; v / 256 mod 256; v mod 256].

(** An explicit span, octet by octet. *)
Ltac octs := unfold octets; repeat (apply Forall_cons; split); try apply Forall_nil_2; try done; try (unfold is_u8 in *; lia).

Lemma be16_octets v : is_u16 v → octets (be16 v).
Proof. intros (?&?&_)%u16_octets. unfold be16. octs. Qed.
Lemma be32_octets v : is_u32 v → octets (be32 v).
Proof. intros (?&?&?&?&_)%u32_octets. unfold be32. octs. Qed.
Lemma rd16_be16 v rest : is_u16 v → endian_rd16 (be16 v ++ rest) = v.
Proof. intros H. pose proof (u16_octets v H) as (?&?&?). cbn [be16 app]. by rewrite rd16_bytes. Qed.
Lemma rd32_be32 v rest : is_u32 v → endian_rd32 (be32 v ++ rest) = v.
Proof. intros H. pose proof (u32_octets v H) as (?&?&?&?&?). cbn [be32 app]. by rewrite rd32_bytes. Qed.

(** ** Writing a region from its start *)

(** A region with its first octets written and the rest as it was. *)
Definition wr (o pre : list Z) : list Z := pre ++ drop (length pre) o.
Definition wrote (o pre : list Z) : list Z * Z := (wr o pre, Z.of_nat (length pre)).

Lemma wr_drop o pre : drop (length pre) (wr o pre) = drop (length pre) o.
Proof. apply drop_app_length. Qed.
Lemma wr_take o pre : take (length pre) (wr o pre) = pre.
Proof. apply take_app_length. Qed.
Lemma wr_app o pre bytes : pre ++ bytes ++ drop (length bytes) (drop (length pre) o) = wr o (pre ++ bytes).
Proof. unfold wr. by rewrite <- app_assoc, drop_drop, length_app. Qed.

Lemma tset_wr o pre b : (length pre < length o)%nat → tset (wr o pre) (Z.of_nat (length pre)) b = wr o (pre ++ [b]).
Proof.
  intros Hl. unfold tset, wr. rewrite Nat2Z.id. rewrite length_app, insert_app_r_alt by lia.
  rewrite Nat.sub_diag, <- app_assoc. f_equal. rewrite <- drop_drop.
  destruct (drop (length pre) o) as [|x l] eqn:E; [|done].
  apply (f_equal length) in E. rewrite length_drop in E. cbn in E. lia.
Qed.

Lemma wr32_wr o pre v : is_u32 v → (length pre + 4 ≤ length o)%nat →
  wr32 (wr o pre) (Z.of_nat (length pre)) v = wr o (pre ++ be32 v).
Proof.
  intros Hv Hl. unfold wr32. rewrite Nat2Z.id, wr_take, wr_drop, <- wr_app. f_equal.
  destruct (drop (length pre) o) as [|b0 [|b1 [|b2 [|b3 l]]]] eqn:E;
    try (apply (f_equal length) in E; rewrite length_drop in E; cbn in E; lia).
  by rewrite wr32_bytes.
Qed.

Lemma wr32_at o pre off v : off = Z.of_nat (length pre) → is_u32 v → (length pre + 4 ≤ length o)%nat →
  wr32 (wr o pre) off v = wr o (pre ++ be32 v).
Proof. intros ->. apply wr32_wr. Qed.

Lemma wr16_at o pre off v : off = Z.of_nat (length pre) → is_u16 v → (length pre + 2 ≤ length o)%nat →
  wr16 (wr o pre) off v = wr o (pre ++ be16 v).
Proof.
  intros -> Hv Hl. unfold wr16. rewrite Nat2Z.id, wr_take, wr_drop, <- wr_app. f_equal.
  destruct (drop (length pre) o) as [|b0 [|b1 l]] eqn:E;
    try (apply (f_equal length) in E; rewrite length_drop in E; cbn in E; lia).
  by rewrite wr16_bytes.
Qed.

(** ** Closing a checksum *)

(** The checksum of a span, by what its checksum field holds. *)
Lemma cksum_field word swap sum P Q c :
  build word → octets P → octets Q → Nat.even (length P) = true → 0 ≤ sum ≤ 600000 → Z.of_nat (length (P ++ be16 0 ++ Q)) ≤ 65535 → is_u16 c →
  cksum_final (cksum_accum word swap sum (P ++ be16 c ++ Q)) = 65535 - ones (sum + (words_sum P + c + words_sum Q)).
Proof.
  intros Hb HP HQ He Hs Hl Hc. pose proof (words_sum_nonneg P HP) as HwP. pose proof (words_sum_nonneg Q HQ) as HwQ.
  assert (words_sum (P ++ be16 c ++ Q) = words_sum P + (256 * (c / 256) + c mod 256) + words_sum Q) as Hw.
  { rewrite words_sum_app by done. unfold be16. cbn [app words_sum]. lia. }
  rewrite cksum_accum_eq; [|done|repeat (apply Forall_app; split); try done; by apply be16_octets|lia|rewrite !length_app in *; cbn in *; lia]. rewrite Hw.
  rewrite <- Z.div_mod by lia. unfold is_u16 in Hc. pose proof (ones_range (sum + (words_sum P + c + words_sum Q)) ltac:(lia)).
  by rewrite cksum_final_eq, ones_ones by lia.
Qed.

(** A span whose checksum field is the complement of the sum verifies. *)
Lemma cksum_closes word swap sum P Q ck :
  build word → octets P → octets Q → Nat.even (length P) = true → 0 ≤ sum ≤ 600000 → 1 ≤ sum + words_sum P + words_sum Q →
  Z.of_nat (length (P ++ be16 0 ++ Q)) ≤ 65535 →
  ck = cksum_final (cksum_accum word swap sum (P ++ be16 0 ++ Q)) →
  is_u16 ck ∧ cksum_final (cksum_accum word swap sum (P ++ be16 ck ++ Q)) = 0.
Proof.
  intros Hb HP HQ He Hs Hs1 Hl ->. pose proof (words_sum_nonneg P HP) as HwP. pose proof (words_sum_nonneg Q HQ) as HwQ.
  assert (is_u16 0) as H0 by (unfold is_u16; lia). rewrite (cksum_field _ _ _ _ _ 0) by done.
  pose proof (ones_range (sum + (words_sum P + 0 + words_sum Q)) ltac:(lia)) as Hr.
  split; [unfold is_u16; lia|]. rewrite cksum_field by (done || (unfold is_u16; lia)).
  set (S0 := sum + (words_sum P + 0 + words_sum Q)) in *.
  replace (sum + (words_sum P + (65535 - ones S0) + words_sum Q)) with (S0 + 65535 - ones S0) by lia.
  assert (1 ≤ S0) by lia. clearbody S0. unfold ones in *. rewrite (proj2 (Z.eqb_neq S0 0)) in * by lia.
  destruct (Z.eqb_spec (S0 + 65535 - ((S0 - 1) mod 65535 + 1)) 0); Z.div_mod_to_equations; lia.
Qed.

(** The same where a checksum of zero goes out as all ones. *)
Lemma cksum_closes_ones word swap sum P Q ck :
  build word → octets P → octets Q → Nat.even (length P) = true → 0 ≤ sum ≤ 600000 → 1 ≤ sum + words_sum P + words_sum Q →
  Z.of_nat (length (P ++ be16 0 ++ Q)) ≤ 65535 →
  ck = cksum_final (cksum_accum word swap sum (P ++ be16 0 ++ Q)) →
  let v := if ck =? 0 then 0xFFFF else ck in
  is_u16 v ∧ v ≠ 0 ∧ cksum_final (cksum_accum word swap sum (P ++ be16 v ++ Q)) = 0.
Proof.
  intros Hb HP HQ He Hs Hs1 Hl Hck v. destruct (cksum_closes word swap sum P Q ck) as [Hu Hz]; try done. unfold v. destruct (Z.eqb_spec ck 0) as [E|E]; [|done].
  split_and!; [unfold is_u16; lia|done|]. rewrite E in Hz. rewrite cksum_field in Hz |- * by (done || (unfold is_u16; lia)).
  pose proof (words_sum_nonneg P HP) as HwP. pose proof (words_sum_nonneg Q HQ) as HwQ. set (S0 := sum + (words_sum P + 0 + words_sum Q)) in *.
  replace (sum + (words_sum P + 65535 + words_sum Q)) with (S0 + 65535) by lia. assert (1 ≤ S0) by lia. clearbody S0. unfold ones in *.
  rewrite (proj2 (Z.eqb_neq S0 0)) in Hz by lia. rewrite (proj2 (Z.eqb_neq (S0 + 65535) 0)) by lia. Z.div_mod_to_equations; lia.
Qed.

(** ** Block writes behind what is already written *)
Lemma memcpy_wr o pre src n : 0 ≤ n ≤ Z.of_nat (length src) →
  memcpy (wr o pre) (Z.of_nat (length pre)) src n = wr o (pre ++ take (Z.to_nat n) src).
Proof.
  intros Hn. unfold memcpy. rewrite Nat2Z.id, wr_take, <- wr_app. do 2 f_equal. rewrite length_take.
  replace (Z.to_nat (Z.of_nat (length pre) + n)) with (length pre + Z.to_nat n)%nat by lia.
  rewrite <- drop_drop, wr_drop. f_equal. lia.
Qed.

Lemma memset_wr o pre v n : 0 ≤ n → memset (wr o pre) (Z.of_nat (length pre)) v n = wr o (pre ++ replicate (Z.to_nat n) v).
Proof.
  intros Hn. unfold memset. rewrite Nat2Z.id, wr_take, <- wr_app. do 2 f_equal. rewrite length_replicate.
  replace (Z.to_nat (Z.of_nat (length pre) + n)) with (length pre + Z.to_nat n)%nat by lia. by rewrite <- drop_drop, wr_drop.
Qed.

Lemma wr_nil o : wr o [] = o.
Proof. done. Qed.
Lemma memcpy_at o pre off src n : off = Z.of_nat (length pre) → 0 ≤ n ≤ Z.of_nat (length src) → memcpy (wr o pre) off src n = wr o (pre ++ take (Z.to_nat n) src).
Proof. intros ->. apply memcpy_wr. Qed.
End Wire.

(** * How far a reader looks

    Two spans that agree on their first octets give an accessor the same field, so a parser that reads only
    below a length cannot depend on what lies behind it. *)
Module Look.
Import Endian.

Lemma tget_take (f : list Z) n i : 0 ≤ i < Z.of_nat n → tget (take n f) i = tget f i.
Proof. unfold tget. intros. apply lookup_total_take_lt. lia. Qed.
Lemma tget_drop (f : list Z) off i : 0 ≤ off → 0 ≤ i → tget (drop (Z.to_nat off) f) i = tget f (off + i).
Proof. unfold tget. intros. rewrite lookup_total_drop. f_equal. lia. Qed.

(** Spans that agree on their first [n] octets. *)
Definition agree (n : Z) (f g : list Z) : Prop := take (Z.to_nat n) f = take (Z.to_nat n) g.

Lemma agree_get n f g i : agree n f g → 0 ≤ i < n → tget f i = tget g i.
Proof. intros Ha Hi. rewrite <- (tget_take f (Z.to_nat n)), <- (tget_take g (Z.to_nat n)) by lia. by rewrite Ha. Qed.
Lemma agree_rd16 n f g off : agree n f g → 0 ≤ off → off + 2 ≤ n → rd16 f off = rd16 g off.
Proof. intros Ha H0 Hn. unfold rd16, endian_rd16. rewrite !tget_drop by lia. by rewrite !(agree_get n f g) by (done || lia). Qed.
Lemma agree_rd32 n f g off : agree n f g → 0 ≤ off → off + 4 ≤ n → rd32 f off = rd32 g off.
Proof. intros Ha H0 Hn. unfold rd32, endian_rd32. rewrite !tget_drop by lia. by rewrite !(agree_get n f g) by (done || lia). Qed.

(** A span and as much of it as is looked at. *)
Lemma agree_take n k f : n ≤ k → agree n (take (Z.to_nat k) f) f.
Proof. intros. unfold agree. rewrite take_take. f_equal. lia. Qed.
Lemma rd16_take k f off : 0 ≤ off → off + 2 ≤ k → rd16 (take (Z.to_nat k) f) off = rd16 f off.
Proof. intros. apply (agree_rd16 (off + 2)); [apply agree_take|..]; lia. Qed.
Lemma rd32_take k f off : 0 ≤ off → off + 4 ≤ k → rd32 (take (Z.to_nat k) f) off = rd32 f off.
Proof. intros. apply (agree_rd32 (off + 4)); [apply agree_take|..]; lia. Qed.
Lemma get_take k (f : list Z) i : 0 ≤ i < k → tget (take (Z.to_nat k) f) i = tget f i.
Proof. intros. apply tget_take. lia. Qed.

End Look.
