(* ===== verification/Chain.v ===== *)
(** * Lists threaded through a table by index

    Several units keep a linked list inside a fixed table: a row holds the index of the next row,
    and one reserved index ends the list.  This file holds the predicate that a chain of links spells
    a given list of indices, what the pointer-chasing loops of those units compute on such a chain,
    and how splicing a link in or out changes the list. *)
From stdpp Require Import functions.
From S2P Require Import Prelude.

Section Chain.
Variable none : Z.
Implicit Types (nx : Z → Z) (h i e : Z) (l : list Z).

(** The links from [h] spell [l] and then reach [e]. *)
Fixpoint seg nx h l e : Prop :=
  match l with
  | [] => h = e
  | i :: l' => h = i ∧ i ≠ none ∧ seg nx (nx i) l' e
  end.

(** A whole list ends at the terminator. *)
Definition chain nx h l : Prop := seg nx h l none.

(** [while (cur != NONE && go(cur)) { prev = cur; cur = next(cur); }], with a bound on the number of
    iterations; [None] is a loop that has not ended within it. *)
Fixpoint walk nx (go : Z → bool) (fuel : nat) (prev cur : Z) : option (Z * Z) :=
  match fuel with
  | O => None
  | S fuel' =>
      if negb (cur =? none) && go cur then walk nx go fuel' cur (nx cur)
      else Some (prev, cur)
  end.

(** The first index of the rest of a list, and the last one before it. *)
Definition first_of l : Z := hd none l.
Definition last_of (d : Z) l : Z := default d (last l).

Lemma last_of_cons d i l : last_of d (i :: l) = last_of i l.
Proof. unfold last_of. destruct l as [|j l]; [done|]. rewrite last_cons_cons. by destruct (last (j :: l)) eqn:E; [|apply last_None in E]. Qed.

Lemma seg_app nx h l1 l2 e : seg nx h (l1 ++ l2) e ↔ ∃ m, seg nx h l1 m ∧ seg nx m l2 e.
Proof.
  revert h; induction l1 as [|i l1 IH]; intros h; simpl.
  - split; [intros; by exists h|]. intros (m & -> & ?); done.
  - rewrite IH. split.
    + intros (-> & ? & m & ? & ?). eauto.
    + intros (m & (-> & ? & ?) & ?). eauto.
Qed.

Lemma seg_ext nx nx' h l e : (∀ i, i ∈ l → nx i = nx' i) → seg nx h l e → seg nx' h l e.
Proof.
  revert h; induction l as [|i l IH]; intros h Hext; simpl; [done|].
  intros (-> & ? & ?). repeat split; [done|].
  rewrite <- Hext by left. apply IH; [|done]. intros; apply Hext; by right.
Qed.

Lemma seg_not_none nx h l e : seg nx h l e → none ∉ l.
Proof.
  revert h; induction l as [|i l IH]; intros h; simpl; [intros; apply not_elem_of_nil|].
  intros (_ & ? & ?%IH) [?|?]%elem_of_cons; [congruence|done].
Qed.

Lemma chain_head nx h l : chain nx h l → h = first_of l.
Proof. destruct l; simpl; [done|]. by intros (? & _). Qed.

Lemma chain_nil nx h l : chain nx h l → h = none ↔ l = [].
Proof. destruct l as [|i l]; simpl; [done|]. intros (-> & ? & _). naive_solver. Qed.

Lemma chain_inj nx h l l' : chain nx h l → chain nx h l' → l = l'.
Proof.
  unfold chain. revert h l'; induction l as [|i l IH]; intros h [|j l']; simpl.
  - done.
  - intros -> (-> & ? & _). done.
  - intros (-> & ? & _) ->. done.
  - intros (-> & ? & Hl) (-> & ? & Hl'). f_equal. eauto.
Qed.

Lemma chain_ext nx nx' h l : (∀ i, i ∈ l → nx i = nx' i) → chain nx h l → chain nx' h l.
Proof. apply seg_ext. Qed.

(** The next link of a row of the list, and what follows it. *)
Lemma chain_suffix nx h l1 i l2 : chain nx h (l1 ++ i :: l2) → chain nx i (i :: l2) ∧ nx i = first_of l2.
Proof.
  unfold chain. rewrite seg_app. simpl. intros (m & _ & -> & ? & Hs).
  split; [done|]. by apply chain_head in Hs.
Qed.

(** A list that reaches its terminator repeats no index. *)
Lemma chain_NoDup nx h l : chain nx h l → NoDup l.
Proof.
  unfold chain. revert h; induction l as [|i l IH]; intros h; simpl; [constructor|].
  intros (-> & Hi & Hs). constructor; [|by eapply IH].
  intros (l1 & l2 & ->)%list_elem_of_split.
  pose proof (IH _ Hs) as Hnd.
  apply seg_app in Hs as (m & Hm & Hs'). simpl in Hs'. destruct Hs' as (-> & _ & Hs').
  assert (l1 ++ i :: l2 = l2) as Heq.
  { eapply chain_inj; [|exact Hs']. unfold chain. apply seg_app. exists i. simpl. eauto. }
  apply (f_equal length) in Heq. rewrite length_app in Heq. simpl in Heq. lia.
Qed.

(** The loop on a list ends, at the first index the condition refuses. *)
Lemma walk_spec nx go fuel prev h l :
  chain nx h l → (length l < fuel)%nat →
  ∃ l1 l2, l = l1 ++ l2 ∧ walk nx go fuel prev h = Some (last_of prev l1, first_of l2) ∧
    Forall (λ i, go i = true) l1 ∧ (∀ i l2', l2 = i :: l2' → go i = false).
Proof.
  unfold chain. revert h prev l; induction fuel as [|fuel IH]; intros h prev l Hc Hf; [lia|].
  destruct l as [|i l]; simpl in Hc |- *.
  - subst h. rewrite Z.eqb_refl. simpl. by exists [], [].
  - destruct Hc as (-> & Hi & Hc). rewrite (proj2 (Z.eqb_neq i none)) by done. simpl.
    destruct (go i) eqn:Hg.
    + simpl in Hf. destruct (IH _ i _ Hc) as (l1 & l2 & -> & Hw & Hall & Hstop); [lia|].
      exists (i :: l1), l2. rewrite last_of_cons. repeat split; [done| |done].
      by constructor.
    + exists [], (i :: l). repeat split; [constructor|]. naive_solver.
Qed.

(** The loop that looks for the row in front of [i] stops on the last row before it. *)
Lemma walk_pred nx fuel prev h l1 i l2 :
  chain nx h (l1 ++ i :: l2) → l1 ≠ [] → (length (l1 ++ i :: l2) < fuel)%nat →
  ∃ pp p, walk nx (λ j, negb (nx j =? i)) fuel prev h = Some (pp, p) ∧ last l1 = Some p.
Proof.
  revert prev h l1. induction fuel as [|fuel IH]; intros prev h l1 Hc Hne Hf; [lia|].
  pose proof (chain_NoDup _ _ _ Hc) as Hnd.
  destruct l1 as [|a l1]; [done|]. unfold chain in *. simpl in Hc, Hf |- *.
  destruct Hc as (-> & Ha & Hc). rewrite (proj2 (Z.eqb_neq a none)) by done. simpl.
  destruct l1 as [|b l1].
  - simpl in Hc. destruct Hc as (-> & _). rewrite Z.eqb_refl. simpl. eauto.
  - pose proof Hc as (Hb & _). rewrite Hb in Hc |- *. rewrite last_cons_cons.
    rewrite (proj2 (Z.eqb_neq b i)). 2: { intros ->. inversion_clear Hnd. inversion_clear H0. set_solver. }
    simpl. apply IH; [done..|]. simpl in Hf |- *. lia.
Qed.

(** Redirecting the last link of a segment moves its end. *)
Lemma seg_redirect nx nx' h l m e :
  seg nx h l m → l ≠ [] → NoDup l →
  (∀ j, j ∈ l → nx' j = if decide (last l = Some j) then e else nx j) →
  seg nx' h l e.
Proof.
  revert h; induction l as [|a [|b l] IH]; intros h Hs Hne Hnd Hj; [done|..].
  - simpl in Hs |- *. destruct Hs as (-> & ? & _). split_and!; [done..|].
    rewrite Hj by set_solver. by rewrite decide_True.
  - destruct Hs as (-> & Ha & Hs). split_and!; [done..|].
    rewrite Hj by set_solver. rewrite last_cons_cons.
    apply NoDup_cons in Hnd as [Hna Hnd]. rewrite decide_False.
    2: { intros [l' Hl']%last_Some. apply Hna. rewrite Hl'. set_solver. }
    apply IH; [done..|]. intros j Hjin. rewrite Hj by set_solver. by rewrite last_cons_cons.
Qed.

(** The rest of a list is not disturbed by redirecting the last link before it. *)
Lemma seg_rest nx nx' h l1 l2 e x :
  seg nx h l2 e → (∀ j, j ∈ l1 → j ∉ l2) →
  (∀ j, j ∈ l2 → nx' j = if decide (last l1 = Some j) then x else nx j) →
  seg nx' h l2 e.
Proof.
  intros Hs Hdisj Hj. eapply seg_ext; [|exact Hs]. intros j Hj2. rewrite Hj by done.
  rewrite decide_False; [done|]. intros [l' ->]%last_Some. apply (Hdisj j); set_solver.
Qed.

(** Splicing [i] in between [l1] and [l2]: its own link goes to the rest, and the link into it
    replaces the one after [l1]. *)
Lemma chain_insert nx nx' h l1 i l2 :
  chain nx h (l1 ++ l2) → i ≠ none →
  nx' i = first_of l2 →
  (∀ j, j ∈ l1 ++ l2 → nx' j = if decide (last l1 = Some j) then i else nx j) →
  chain nx' (match l1 with [] => i | _ => h end) (l1 ++ i :: l2).
Proof.
  intros Hc Hi Hnx Hj. pose proof (chain_NoDup _ _ _ Hc) as (Hnd1 & Hdisj & _)%NoDup_app.
  unfold chain in *. apply seg_app in Hc as (m & H1 & H2). pose proof H2 as Hm%chain_head.
  assert (seg nx' i (i :: l2) none) as Htail.
  { simpl. rewrite Hnx, <- Hm. split_and!; [done..|].
    eapply seg_rest; [done..|]. intros j ?. apply Hj. set_solver. }
  destruct l1 as [|a l1]; [done|]. apply seg_app. exists i; split; [|done].
  eapply seg_redirect; [done..|]. intros j ?. apply Hj. set_solver.
Qed.

(** Splicing [i] out: the link into it takes over its own. *)
Lemma chain_remove nx nx' h l1 i l2 :
  chain nx h (l1 ++ i :: l2) →
  (∀ j, j ∈ l1 ++ l2 → nx' j = if decide (last l1 = Some j) then nx i else nx j) →
  chain nx' (match l1 with [] => nx i | _ => h end) (l1 ++ l2).
Proof.
  intros Hc Hj. pose proof (chain_NoDup _ _ _ Hc) as (Hnd1 & Hdisj & _)%NoDup_app.
  unfold chain in *. apply seg_app in Hc as (m & H1 & H2). simpl in H2. destruct H2 as (-> & Hi & H2).
  assert (seg nx' (nx i) l2 none) as Htail.
  { eapply (seg_rest _ _ _ l1); [done|set_solver|]. intros j ?. apply Hj. set_solver. }
  destruct l1 as [|a l1]; [done|]. apply seg_app. exists (nx i); split; [|done].
  eapply seg_redirect; [done..|]. intros j ?. apply Hj. set_solver.
Qed.
End Chain.

Arguments first_of none l : assert.

(** ** Which list a row is on

    Several lists share one table.  [owned n r] is every row index on the lists [r 0], ..., [r (n - 1)];
    the table's in-use marks agree with it when [owner] holds. *)
Section Owner.
Implicit Types (r : Z → list Z) (l fs : list Z) (busy : Z → bool) (n m i k : Z).

Definition owned n r : list Z := seqZ 0 n ≫= r.

Definition owner m busy l : Prop := NoDup l ∧ ∀ k, k ∈ l ↔ 0 ≤ k < m ∧ busy k = true.

Lemma elem_owned n r k : k ∈ owned n r ↔ ∃ i, 0 ≤ i < n ∧ k ∈ r i.
Proof.
  unfold owned. rewrite list_elem_of_bind. setoid_rewrite elem_of_seqZ.
  split; intros (i & ? & ?); exists i; split; (done || lia).
Qed.

Lemma bind_update r i l' (js : list Z) : i ∉ js → js ≫= <[i := l']> r = js ≫= r.
Proof.
  induction js as [|j js IH]; [done|]. intros Hn. rewrite !bind_cons, IH by set_solver.
  rewrite fn_lookup_insert_ne; [done|]. set_solver.
Qed.

Lemma bind_split r i (js : list Z) : NoDup js → i ∈ js → js ≫= r ≡ₚ r i ++ (js ≫= <[i := []]> r).
Proof.
  intros Hnd (l1 & l2 & ->)%list_elem_of_split. apply NoDup_app in Hnd as (_ & Hd & [Hn _]%NoDup_cons).
  rewrite !bind_app, !bind_cons, fn_lookup_insert, !bind_update by set_solver. simpl.
  rewrite !(assoc_L (++)). apply Permutation_app_tail. apply Permutation_app_comm.
Qed.

Lemma owned_split n r i : 0 ≤ i < n → owned n r ≡ₚ r i ++ owned n (<[i := []]> r).
Proof. intros Hi. apply bind_split; [apply NoDup_seqZ|]. apply elem_of_seqZ. lia. Qed.

Lemma owned_insert n r i l : 0 ≤ i < n → owned n (<[i := l]> r) ≡ₚ l ++ owned n (<[i := []]> r).
Proof.
  intros Hi. rewrite (owned_split n _ i) by done. rewrite fn_lookup_insert. f_equiv.
  unfold owned. erewrite list_bind_ext; [done| |done]. intros j. simpl.
  destruct (decide (i = j)) as [->|]; [by rewrite !fn_lookup_insert|by rewrite !fn_lookup_insert_ne].
Qed.

Lemma owned_length n r i l :
  0 ≤ i < n → (length (owned n (<[i := l]> r)) + length (r i) = length (owned n r) + length l)%nat.
Proof.
  intros Hi. rewrite (owned_insert n r i l), (owned_split n r i) by done. rewrite !length_app. lia.
Qed.

(** One list and the marks of the rows [fs], which hold it, change together. *)
Lemma owner_update n m r i busy busy' fs l :
  0 ≤ i < n → owner m busy (owned n r) → NoDup l → r i ⊆ fs → l ⊆ fs →
  (∀ k, k ∈ fs → 0 ≤ k < m ∧ (k ∈ r i ∨ busy k = false)) →
  (∀ k, k ∈ fs → k ∈ l ↔ busy' k = true) →
  (∀ k, 0 ≤ k → k ∉ fs → busy' k = busy k) →
  owner m busy' (owned n (<[i := l]> r)).
Proof.
  intros Hi [Hnd Hown] Hl Hr Hlfs Hfs Hb Hsame.
  rewrite (owned_split n r i Hi) in Hnd. apply NoDup_app in Hnd as (_ & Hd & Hrest).
  assert (∀ k, k ∈ owned n r ↔ k ∈ r i ∨ k ∈ owned n (<[i := []]> r)) as Hel.
  { intros k. rewrite (owned_split n r i Hi). by rewrite elem_of_app. }
  assert (∀ k, k ∈ fs → k ∉ owned n (<[i := []]> r)) as Hout.
  { intros k Hk Hin. destruct (Hfs k Hk) as [_ [?|Hf]]; [by apply (Hd k)|].
    assert (k ∈ owned n r) as [_ Ht]%Hown by (apply Hel; by right). congruence. }
  split.
  - rewrite owned_insert by done. apply NoDup_app. split_and!; [done| |done].
    intros k Hk. apply Hout. by apply Hlfs.
  - intros k. rewrite owned_insert by done. rewrite elem_of_app. destruct (decide (k ∈ fs)) as [Hk|Hk].
    + pose proof (Hout k Hk). pose proof (Hb k Hk). destruct (Hfs k Hk). tauto.
    + assert (k ∉ r i) by (intros ?; by apply Hk, Hr). assert (k ∉ l) by (intros ?; by apply Hk, Hlfs).
      transitivity (k ∈ owned n r); [rewrite Hel; tauto|]. rewrite Hown.
      split; intros [? ?]; (split; [done|]); [rewrite Hsame by (lia || done)|rewrite Hsame in * by (lia || done)]; done.
Qed.

(** A table with fewer rows in use than it has offers a free one. *)
Lemma free_slot m busy l :
  0 ≤ m → (∀ k, 0 ≤ k < m → busy k = true → k ∈ l) → Z.of_nat (length l) < m →
  ∃ k, scan (λ k, negb (busy k)) (Z.to_nat m) 0 = Some k ∧ 0 ≤ k < m ∧ busy k = false.
Proof.
  intros Hm Hbusy Hlen. destruct (scan _ _ _) as [k|] eqn:E.
  - apply scan_Some in E as (Hk & Hb & _). apply negb_true_iff in Hb. exists k. split_and!; [done|lia|lia|done].
  - rewrite scan_None in E. assert (seqZ 0 m ⊆+ l) as Hs%submseteq_length.
    { apply NoDup_submseteq; [apply NoDup_seqZ|]. intros k Hk%elem_of_seqZ. apply Hbusy; [lia|].
      specialize (E k). apply negb_false_iff, E. lia. }
    rewrite length_seqZ in Hs. lia.
Qed.
End Owner.

(** The table goes from [t] to [t'] and the list from [l] to [l'], both within rows that were on the
    list or free; [busy] is the in-use mark. *)
Definition tframe {A : Type} `{Inhabited A} (busy : A → bool) (t t' : list A) (l l' : list Z) : Prop :=
  ∃ fs, tlen t' = tlen t ∧ (∀ k, 0 ≤ k → k ∉ fs → tget t' k = tget t k) ∧ l ⊆ fs ∧ l' ⊆ fs ∧
    (∀ k, k ∈ fs → 0 ≤ k < tlen t ∧ (k ∈ l ∨ busy (tget t k) = false)) ∧
    (∀ k, k ∈ fs → k ∈ l' ↔ busy (tget t' k) = true).

Section Frame.
Context {A : Type} `{Inhabited A} (busy : A → bool).
Implicit Types (t : list A) (r : Z → list Z).

Lemma owner_list n t r i k :
  owner (tlen t) (λ k, busy (tget t k)) (owned n r) → 0 ≤ i < n → k ∈ r i → 0 ≤ k < tlen t ∧ busy (tget t k) = true.
Proof. intros [_ Hown] Hi Hk. apply Hown, elem_owned. eauto. Qed.

Lemma tframe_refl n t r i :
  owner (tlen t) (λ k, busy (tget t k)) (owned n r) → 0 ≤ i < n → tframe busy t t (r i) (r i).
Proof.
  intros Hown Hi. exists (r i). split_and!; [done..| |].
  - intros k Hk. destruct (owner_list _ _ _ _ _ Hown Hi Hk). auto.
  - intros k Hk. destruct (owner_list _ _ _ _ _ Hown Hi Hk). naive_solver.
Qed.

Lemma owner_tframe n t t' r i l' :
  owner (tlen t) (λ k, busy (tget t k)) (owned n r) → 0 ≤ i < n → NoDup l' → tframe busy t t' (r i) l' →
  owner (tlen t') (λ k, busy (tget t' k)) (owned n (<[i := l']> r)).
Proof.
  intros Hown Hi Hnd (fs & Hlen & Hsame & Hl & Hl' & Hfs & Hb). rewrite Hlen.
  eapply owner_update; eauto. intros k ? ?. by rewrite Hsame.
Qed.

(** The other lists keep their rows. *)
Lemma tframe_other n t t' r i j l' k :
  owner (tlen t) (λ k, busy (tget t k)) (owned n r) → 0 ≤ i < n → 0 ≤ j < n → i ≠ j →
  tframe busy t t' (r i) l' → k ∈ r j → tget t' k = tget t k.
Proof.
  intros Hown Hi Hj Hne (fs & _ & Hsame & _ & _ & Hfs & _) Hk.
  destruct (owner_list _ _ _ _ _ Hown Hj Hk) as [? Hb]. apply Hsame; [lia|].
  intros [_ [Hki|?]]%Hfs; [|congruence]. destruct Hown as [Hnd _].
  rewrite (owned_split n r i Hi) in Hnd. apply NoDup_app in Hnd as (_ & Hd & _). apply (Hd k Hki).
  apply elem_owned. exists j. split; [done|]. by rewrite fn_lookup_insert_ne.
Qed.
End Frame.
