(* ===== verification/Timeouts.v ===== *)
(** * The deadline list (src/core/timeouts.c)

    A table of [IDEMIP_TIMEOUTS] slots holds deadlines; the armed slots are threaded through their
    [next] octet in deadline order.  The first part translates the unit entry by entry.  The second
    part states the abstract deadline queue the unit promises and proves that every entry
    implements it, on any sequence of calls. *)
From Stdlib Require Import Sorted.
From S2P Require Import Prelude Chain.

Module Timeouts.

(** ** Data *)

(** The enumerators of [IdemIpTimeoutUnit] are consecutive, so a unit is held as its octet: the
    entries test an out-of-range one. *)
Definition IDEMIP_TIMEOUT_UNIT_NONE : Z := 0.
Definition IDEMIP_TIMEOUT_UNIT_TCP : Z := 1.
Definition IDEMIP_TIMEOUT_UNIT_ARP : Z := 2.
Definition IDEMIP_TIMEOUT_UNIT_IP4_REASS : Z := 3.
Definition IDEMIP_TIMEOUT_UNIT_IGMP : Z := 4.
Definition IDEMIP_TIMEOUT_UNIT_ND6 : Z := 5.
Definition IDEMIP_TIMEOUT_UNIT_IP6_REASS : Z := 6.
Definition IDEMIP_TIMEOUT_UNIT_MLD6 : Z := 7.
Definition IDEMIP_TIMEOUT_UNIT_DAD : Z := 8.
Definition IDEMIP_TIMEOUT_UNIT_DNS : Z := 9.
Definition IDEMIP_TIMEOUT_UNIT_ACD : Z := 10.
Definition IDEMIP_TIMEOUT_UNIT_AUTOIP : Z := 11.
Definition IDEMIP_TIMEOUT_UNIT_DHCP4 : Z := 12.
Definition IDEMIP_TIMEOUT_UNIT_DHCP6 : Z := 13.
Definition IDEMIP_TIMEOUT_UNIT_COUNT : Z := 14.
Definition IDEMIP_TIMEOUT_FLAG_ARMED : Z := 1.
Definition IDEMIP_TIMEOUT_FOREVER : Z := 0xFFFFFFFF.
Definition TIMEOUTS_MAGIC : Z := 0x54494D45.
Definition TIMEOUTS_NONE : Z := 0xFF.
Definition TIMEOUTS_HALF_PERIOD_MS : Z := 0x7FFFFFFF.

Record TimeoutEntry := mkTimeoutEntry {
  e_deadline_ms : Z;
  e_unit : Z;
  e_arg : Z;
  e_flags : Z;
  e_next : Z }.
#[export] Instance TimeoutEntry_eta : Eta TimeoutEntry := fun r =>
  mkTimeoutEntry (e_deadline_ms r) (e_unit r) (e_arg r) (e_flags r) (e_next r).
(** What [memset(.., 0, ..)] leaves in a slot. *)
Definition TimeoutEntry_zero : TimeoutEntry := mkTimeoutEntry 0 0 0 0 0.
#[export] Instance TimeoutEntry_inhabited : Inhabited TimeoutEntry := populate TimeoutEntry_zero.

Record TimeoutsCtx := mkTimeoutsCtx {
  c_magic : Z;
  c_now_ms : Z;
  c_head : Z;
  c_armed : Z }.
#[export] Instance TimeoutsCtx_eta : Eta TimeoutsCtx := fun r =>
  mkTimeoutsCtx (c_magic r) (c_now_ms r) (c_head r) (c_armed r).

Record TimeoutArmArgs := mkTimeoutArmArgs {
  arm_deadline_ms : Z;
  arm_unit : Z;
  arm_arg : Z;
  arm_flags : Z }.
Record TimeoutCancelArgs := mkTimeoutCancelArgs { cancel_unit : Z; cancel_arg : Z }.

Record TimeoutsIo := mkTimeoutsIo {
  arm_args : TimeoutArmArgs;
  cancel_args : TimeoutCancelArgs;
  tick_now_ms : Z;
  io_status : IdemIpStatus;
  io_unit : Z;
  io_arg : Z;
  io_armed : Z;
  io_deadline_ms : Z;
  io_until_ms : Z }.
#[export] Instance TimeoutsIo_eta : Eta TimeoutsIo := fun r =>
  mkTimeoutsIo (arm_args r) (cancel_args r) (tick_now_ms r) (io_status r) (io_unit r) (io_arg r)
    (io_armed r) (io_deadline_ms r) (io_until_ms r).

(** The caller's borrow: the operand block, the context, the table. *)
Record Work := mkWork { w_io : TimeoutsIo; w_ctx : TimeoutsCtx; w_tab : list TimeoutEntry }.
#[export] Instance Work_eta : Eta Work := fun r => mkWork (w_io r) (w_ctx r) (w_tab r).

Definition TIMEOUTS_AT (w : Work) (i : Z) : TimeoutEntry := tget (w_tab w) i.
Definition put_at (w : Work) (i : Z) (e : TimeoutEntry) : Work :=
  w <| w_tab := tset (w_tab w) i e |>.
Definition set_status (s : IdemIpStatus) (w : Work) : Work :=
  w <| w_io := (w_io w) <| io_status := s |> |>.

Section Unit.
(** The configured number of slots. *)
Variable IDEMIP_TIMEOUTS : Z.
Let fuel : nat := S (Z.to_nat IDEMIP_TIMEOUTS).

(** ** The list *)

Definition timeouts_before (a b : Z) : bool := TIMEOUTS_HALF_PERIOD_MS <? u32 (a - b).

Definition armed (e : TimeoutEntry) : bool :=
  negb (Z.land (e_flags e) IDEMIP_TIMEOUT_FLAG_ARMED =? 0).

Definition timeouts_find (w : Work) (unit arg : Z) : Z :=
  default TIMEOUTS_NONE
    (scan (fun i => let e := TIMEOUTS_AT w i in
                    armed e && (e_unit e =? unit) && (e_arg e =? arg))
       (Z.to_nat IDEMIP_TIMEOUTS) 0).

Definition timeouts_free (w : Work) : Z :=
  default TIMEOUTS_NONE
    (scan (fun i => negb (armed (TIMEOUTS_AT w i))) (Z.to_nat IDEMIP_TIMEOUTS) 0).

Definition timeouts_link (w : Work) (i : Z) : option Work :=
  let ins := TIMEOUTS_AT w i in
  '(prev, cur) ← walk TIMEOUTS_NONE (fun j => e_next (TIMEOUTS_AT w j))
      (fun j => negb (timeouts_before (e_deadline_ms ins) (e_deadline_ms (TIMEOUTS_AT w j))))
      fuel TIMEOUTS_NONE (c_head (w_ctx w));
  let w := put_at w i (ins <| e_next := cur |>) in
  Some (if prev =? TIMEOUTS_NONE
        then w <| w_ctx := (w_ctx w) <| c_head := i |> |>
        else put_at w prev ((TIMEOUTS_AT w prev) <| e_next := i |>)).

Definition timeouts_unlink (w : Work) (i : Z) : option Work :=
  if c_head (w_ctx w) =? i
  then Some (w <| w_ctx := (w_ctx w) <| c_head := e_next (TIMEOUTS_AT w i) |> |>)
  else
    '(_, prev) ← walk TIMEOUTS_NONE (fun j => e_next (TIMEOUTS_AT w j))
        (fun j => negb (e_next (TIMEOUTS_AT w j) =? i))
        fuel TIMEOUTS_NONE (c_head (w_ctx w));
    Some (if negb (prev =? TIMEOUTS_NONE)
          then put_at w prev ((TIMEOUTS_AT w prev) <| e_next := e_next (TIMEOUTS_AT w i) |>)
          else w).

Definition timeouts_drop (w : Work) (i : Z) : option Work :=
  w ← timeouts_unlink w i;
  let w := put_at w i TimeoutEntry_zero in
  Some (w <| w_ctx := (w_ctx w) <| c_armed := u8 (c_armed (w_ctx w) - 1) |> |>).

Definition timeouts_report (w : Work) : Work :=
  let ctx := w_ctx w in
  let io := (w_io w) <| io_armed := c_armed ctx |> in
  if c_head ctx =? TIMEOUTS_NONE
  then w <| w_io := io <| io_until_ms := IDEMIP_TIMEOUT_FOREVER |> |>
  else
    let deadline := e_deadline_ms (TIMEOUTS_AT w (c_head ctx)) in
    w <| w_io := io <| io_until_ms :=
           if timeouts_before (c_now_ms ctx) deadline then u32 (deadline - c_now_ms ctx) else 0 |> |>.

(** ** The entries *)

Definition idemip_timeouts_clear (w : Work) : Work :=
  let w := w <| w_ctx := mkTimeoutsCtx TIMEOUTS_MAGIC 0 TIMEOUTS_NONE 0 |>
             <| w_tab := replicate (Z.to_nat IDEMIP_TIMEOUTS) TimeoutEntry_zero |> in
  set_status IDEMIP_OK (timeouts_report w).

Definition bad_unit (unit : Z) : bool :=
  (unit =? IDEMIP_TIMEOUT_UNIT_NONE) || (IDEMIP_TIMEOUT_UNIT_COUNT <=? unit).

Definition idemip_timeouts_arm (w : Work) : option Work :=
  let w := set_status IDEMIP_ERR w in
  let a := arm_args (w_io w) in
  if negb (c_magic (w_ctx w) =? TIMEOUTS_MAGIC) || bad_unit (arm_unit a) then Some w
  else
    let i := timeouts_find w (arm_unit a) (arm_arg a) in
    let fill (w : Work) (i : Z) : option Work :=
      let w := put_at w i
        (mkTimeoutEntry (arm_deadline_ms a) (arm_unit a) (arm_arg a)
           (u8 (Z.lor (arm_flags a) IDEMIP_TIMEOUT_FLAG_ARMED)) (e_next (TIMEOUTS_AT w i))) in
      w ← timeouts_link w i;
      Some (set_status IDEMIP_OK (timeouts_report w)) in
    if negb (i =? TIMEOUTS_NONE)
    then w ← timeouts_unlink w i; fill w i
    else
      let i := timeouts_free w in
      if i =? TIMEOUTS_NONE
      then Some (set_status IDEMIP_BUSY (timeouts_report w))
      else fill (w <| w_ctx := (w_ctx w) <| c_armed := u8 (c_armed (w_ctx w) + 1) |> |>) i.

Definition idemip_timeouts_cancel (w : Work) : option Work :=
  let w := set_status IDEMIP_ERR w in
  let a := cancel_args (w_io w) in
  if negb (c_magic (w_ctx w) =? TIMEOUTS_MAGIC) || bad_unit (cancel_unit a) then Some w
  else
    let i := timeouts_find w (cancel_unit a) (cancel_arg a) in
    if i =? TIMEOUTS_NONE
    then Some (set_status IDEMIP_BUSY (timeouts_report w))
    else w ← timeouts_drop w i; Some (set_status IDEMIP_OK (timeouts_report w)).

Definition idemip_timeouts_tick (w : Work) : Work :=
  let w := set_status IDEMIP_ERR w in
  if negb (c_magic (w_ctx w) =? TIMEOUTS_MAGIC) then w
  else
    let w := w <| w_ctx := (w_ctx w) <| c_now_ms := tick_now_ms (w_io w) |> |> in
    set_status IDEMIP_OK (timeouts_report w).

Definition idemip_timeouts_expire (w : Work) : option Work :=
  let w := set_status IDEMIP_ERR w in
  let w := w <| w_io := (w_io w) <| io_unit := IDEMIP_TIMEOUT_UNIT_NONE |>
                                 <| io_arg := 0 |> <| io_deadline_ms := 0 |> |> in
  if negb (c_magic (w_ctx w) =? TIMEOUTS_MAGIC) then Some w
  else
    let i := c_head (w_ctx w) in
    if (i =? TIMEOUTS_NONE) ||
       timeouts_before (c_now_ms (w_ctx w)) (e_deadline_ms (TIMEOUTS_AT w i))
    then Some (set_status IDEMIP_BUSY (timeouts_report w))
    else
      let e := TIMEOUTS_AT w i in
      let w := w <| w_io := (w_io w) <| io_unit := e_unit e |> <| io_arg := e_arg e |>
                                     <| io_deadline_ms := e_deadline_ms e |> |> in
      w ← timeouts_drop w i;
      Some (set_status IDEMIP_OK (timeouts_report w)).
End Unit.

(** ** The abstract deadline queue

    What the unit promises: a bounded queue of deadlines, at most one per unit and argument, where a
    new deadline goes in front of the first one it precedes. *)
Record deadline := Deadline { d_ms : Z; d_unit : Z; d_arg : Z; d_flags : Z }.

Definition d_key (d : deadline) : Z * Z := (d_unit d, d_arg d).

Fixpoint q_insert (d : deadline) (q : list deadline) : list deadline :=
  match q with
  | [] => [d]
  | x :: q' => if timeouts_before (d_ms d) (d_ms x) then d :: q else x :: q_insert d q'
  end.

Definition q_has (k : Z * Z) (q : list deadline) : bool := bool_decide (k ∈ (d_key <$> q)).

Definition q_remove (k : Z * Z) (q : list deadline) : list deadline :=
  filter (λ d, d_key d ≠ k) q.

(** Milliseconds from [now] to the head of the queue. *)
Definition q_until (now : Z) (q : list deadline) : Z :=
  match q with
  | [] => IDEMIP_TIMEOUT_FOREVER
  | d :: _ => if timeouts_before now (d_ms d) then u32 (d_ms d - now) else 0
  end.

Definition q_arm (capacity : Z) (d : deadline) (q : list deadline) : IdemIpStatus * list deadline :=
  if q_has (d_key d) q then (IDEMIP_OK, q_insert d (q_remove (d_key d) q))
  else if capacity <=? Z.of_nat (length q) then (IDEMIP_BUSY, q)
  else (IDEMIP_OK, q_insert d q).

Definition q_cancel (k : Z * Z) (q : list deadline) : IdemIpStatus * list deadline :=
  if q_has k q then (IDEMIP_OK, q_remove k q) else (IDEMIP_BUSY, q).

Definition q_expire (now : Z) (q : list deadline) : option deadline * list deadline :=
  match q with
  | [] => (None, [])
  | d :: q' => if timeouts_before now (d_ms d) then (None, q) else (Some d, q')
  end.

(** ** The table spells a queue *)
Definition dl_of (e : TimeoutEntry) : deadline :=
  Deadline (e_deadline_ms e) (e_unit e) (e_arg e) (e_flags e).
Definition nx (w : Work) (j : Z) : Z := e_next (TIMEOUTS_AT w j).

Definition queue_of (w : Work) (l : list Z) : list deadline := (λ i, dl_of (TIMEOUTS_AT w i)) <$> l.

Section Refinement.
Context (N : Z) (HN : 0 ≤ N ≤ TIMEOUTS_NONE).

(** The links of [w] spell the slots [l]. *)
Record threaded (w : Work) (l : list Z) : Prop := {
  th_len : tlen (w_tab w) = N;
  th_chain : chain TIMEOUTS_NONE (nx w) (c_head (w_ctx w)) l;
  th_range : Forall (λ i, 0 ≤ i < N) l }.

(** The whole invariant of a cleared borrow. *)
Record wf (w : Work) (l : list Z) : Prop := {
  wf_threaded : threaded w l;
  wf_magic : c_magic (w_ctx w) = TIMEOUTS_MAGIC;
  wf_armed : Forall (λ i, armed (TIMEOUTS_AT w i) = true) l;
  wf_free : ∀ i, 0 ≤ i < N → i ∉ l → TIMEOUTS_AT w i = TimeoutEntry_zero;
  wf_count : c_armed (w_ctx w) = Z.of_nat (length l);
  wf_keys : NoDup (d_key <$> queue_of w l) }.

(** [w] holds the queue [q], and its clock reads [now]. *)
Definition rep (w : Work) (now : Z) (q : list deadline) : Prop :=
  c_now_ms (w_ctx w) = now ∧ ∃ l, wf w l ∧ q = queue_of w l.

Lemma AT_put w i j e : tlen (w_tab w) = N → 0 ≤ i < N → 0 ≤ j →
  TIMEOUTS_AT (put_at w i e) j = if decide (j = i) then e else TIMEOUTS_AT w j.
Proof.
  intros Hl Hi Hj. unfold TIMEOUTS_AT, put_at. cbn. case_decide; subst.
  - rewrite tget_tset_eq; [done|]. lia.
  - rewrite tget_tset_ne; [done|lia..].
Qed.

Lemma timeouts_threaded_length w l : threaded w l → (length l < S (Z.to_nat N))%nat.
Proof.
  intros [_ Hc Hr]. apply chain_NoDup in Hc. apply NoDup_range_length in Hr; [lia..|done].
Qed.

Lemma in_range l j : Forall (λ i, 0 ≤ i < N) l → j ∈ l → 0 ≤ j < N.
Proof. rewrite Forall_forall. auto. Qed.

(** Writing the link that enters the rest of the list: the head, or the last slot in front of it. *)
Definition relink (w : Work) (prev v : Z) : Work :=
  if prev =? TIMEOUTS_NONE
  then w <| w_ctx := (w_ctx w) <| c_head := v |> |>
  else put_at w prev ((TIMEOUTS_AT w prev) <| e_next := v |>).

(** [w'] differs from [w] in links only, and only in the slots [l]. *)
Record links_only (l : list Z) (w w' : Work) : Prop := {
  lo_len : tlen (w_tab w') = tlen (w_tab w);
  lo_io : w_io w' = w_io w;
  lo_ctx : w_ctx w' = (w_ctx w) <| c_head := c_head (w_ctx w') |>;
  lo_dl : ∀ j, 0 ≤ j < N → dl_of (TIMEOUTS_AT w' j) = dl_of (TIMEOUTS_AT w j);
  lo_at : ∀ j, 0 ≤ j < N → j ∉ l → TIMEOUTS_AT w' j = TIMEOUTS_AT w j }.

Lemma relink_spec w l1 v :
  tlen (w_tab w) = N → Forall (λ i, 0 ≤ i < N) l1 →
  let w' := relink w (last_of TIMEOUTS_NONE l1) v in
  links_only l1 w w' ∧
  c_head (w_ctx w') = (match l1 with [] => v | _ => c_head (w_ctx w) end) ∧
  (∀ j, 0 ≤ j < N → nx w' j = if decide (last l1 = Some j) then v else nx w j).
Proof.
  intros Hl Hr. cbn. unfold relink, last_of. destruct (last l1) as [p|] eqn:Hp; cbn.
  - assert (p ∈ l1) as Hpin. { apply last_Some in Hp as [? ->]. set_solver. }
    assert (0 ≤ p < N) as Hpr by (eapply in_range; eauto).
    rewrite (proj2 (Z.eqb_neq p _)) by lia. split_and!.
    + constructor; [cbn; by rewrite tlen_tset|done|by destruct w as [? []]|..];
        intros j Hj; [|intros Hnin]; rewrite AT_put by (done || lia); case_decide; naive_solver.
    + by destruct l1.
    + intros j Hj. unfold nx. rewrite AT_put by (done || lia). repeat case_decide; naive_solver.
  - apply last_None in Hp as ->. split_and!; [constructor|..]; done.
Qed.

(** Taking a slot out of the order leaves every slot's deadline alone. *)
Lemma unlink_spec w l1 i l2 :
  threaded w (l1 ++ i :: l2) →
  ∃ w', timeouts_unlink N w i = Some w' ∧ threaded w' (l1 ++ l2) ∧ links_only l1 w w'.
Proof.
  intros Hth. pose proof (timeouts_threaded_length _ _ Hth) as Hlen. destruct Hth as [Hl Hc Hr].
  pose proof Hr as [Hr1 [_ Hr2]%Forall_cons]%Forall_app.
  destruct (relink_spec w l1 (nx w i) Hl Hr1) as (Hlo & Hh & Hnx).
  exists (relink w (last_of TIMEOUTS_NONE l1) (nx w i)). split_and!; [|constructor|done].
  - unfold timeouts_unlink. destruct l1 as [|a l1].
    + pose proof Hc as (-> & _). rewrite Z.eqb_refl. done.
    + assert (c_head (w_ctx w) = a ∧ a ≠ i) as [-> Hai].
      { pose proof (chain_head _ _ _ _ Hc). split; [done|]. intros ->.
        apply chain_NoDup in Hc. inversion_clear Hc. set_solver. }
      rewrite (proj2 (Z.eqb_neq _ _)) by congruence.
      destruct (walk_pred _ _ _ TIMEOUTS_NONE _ _ _ _ Hc ltac:(done) Hlen) as (pp & p & Hw & Hp).
      pose proof (chain_head _ _ _ _ Hc) as Hhd. cbn in Hhd. rewrite Hhd in Hw.
      unfold nx in Hw at 1 2. rewrite Hw. cbn [mbind option_bind]. unfold relink, last_of. rewrite Hp. cbn.
      assert (0 ≤ p < N). { eapply in_range; [exact Hr1|]. apply last_Some in Hp as [? ->]. set_solver. }
      by rewrite (proj2 (Z.eqb_neq p _)) by lia.
  - by rewrite (lo_len _ _ _ Hlo).
  - rewrite Hh. eapply chain_remove; [done|]. intros j Hj. apply Hnx.
    apply elem_of_app in Hj as [?|?]; [apply (in_range l1)|apply (in_range l2)]; done.
  - by apply Forall_app.
Qed.

(** Threading a slot in puts it in front of the first deadline it precedes. *)
Lemma link_spec w l i :
  threaded w l → 0 ≤ i < N → i ∉ l →
  let first b := λ j, timeouts_before (e_deadline_ms (TIMEOUTS_AT w i)) (e_deadline_ms (TIMEOUTS_AT w j)) = b in
  ∃ w' l1 l2, timeouts_link N w i = Some w' ∧ l = l1 ++ l2 ∧ threaded w' (l1 ++ i :: l2) ∧
    Forall (first false) l1 ∧ (∀ j l2', l2 = j :: l2' → first true j) ∧ links_only (i :: l1) w w'.
Proof.
  intros Hth Hi Hfresh first. pose proof (timeouts_threaded_length _ _ Hth) as Hlen. destruct Hth as [Hl Hc Hr].
  destruct (walk_spec TIMEOUTS_NONE _ (λ j, negb (timeouts_before (e_deadline_ms (TIMEOUTS_AT w i))
    (e_deadline_ms (TIMEOUTS_AT w j)))) _ TIMEOUTS_NONE _ _ Hc Hlen) as (l1 & l2 & -> & Hw & Hall & Hstop).
  pose proof Hr as [Hr1 Hr2]%Forall_app.
  set (w1 := put_at w i ((TIMEOUTS_AT w i) <| e_next := first_of TIMEOUTS_NONE l2 |>)).
  assert (∀ j, 0 ≤ j → TIMEOUTS_AT w1 j = if decide (j = i)
    then (TIMEOUTS_AT w i) <| e_next := first_of TIMEOUTS_NONE l2 |> else TIMEOUTS_AT w j) as Hat.
  { intros. by apply AT_put. }
  assert (tlen (w_tab w1) = N) as Hl1 by (cbn; by rewrite tlen_tset).
  destruct (relink_spec w1 l1 i Hl1 Hr1) as ([Hlo1 Hlo2 Hlo3 Hlo4 Hlo5] & Hh & Hnx).
  exists (relink w1 (last_of TIMEOUTS_NONE l1) i), l1, l2. split_and!; [|done|constructor| | |constructor].
  - unfold timeouts_link. unfold nx in Hw at 1. by rewrite Hw.
  - by rewrite Hlo1.
  - rewrite Hh. eapply (chain_insert _ (nx w)); [done|lia|..].
    + rewrite Hnx by done. rewrite decide_False; [unfold nx; rewrite Hat by lia; by rewrite decide_True|].
      intros [? ->]%last_Some. set_solver.
    + intros j Hj. rewrite Hnx by (eapply in_range; [exact Hr|done]). case_decide; [done|]. unfold nx.
      rewrite Hat by (eapply in_range; [exact Hr|done]). rewrite decide_False; [done|]. set_solver.
  - apply Forall_app; split; [done|]. by constructor.
  - eapply Forall_impl; [exact Hall|]. intros j. apply negb_true_iff.
  - intros j l2' ->. by eapply negb_false_iff, Hstop.
  - rewrite Hlo1. cbn. by rewrite tlen_tset.
  - done.
  - done.
  - intros j Hj. rewrite Hlo4 by done. rewrite Hat by lia. case_decide; naive_solver.
  - intros j Hj Hnin. rewrite Hlo5 by set_solver. rewrite Hat by lia. rewrite decide_False; [done|]. set_solver.
Qed.

(** ** The searches *)

Lemma wf_in_armed w l i : wf w l → 0 ≤ i < N → armed (TIMEOUTS_AT w i) = true ↔ i ∈ l.
Proof.
  intros Hwf Hi. split.
  - intros Ha. destruct (decide (i ∈ l)) as [|Hn]; [done|].
    rewrite (wf_free _ _ Hwf) in Ha by done. done.
  - intros. by apply (Forall_forall (λ i, armed (TIMEOUTS_AT w i) = true) l); [apply Hwf|].
Qed.

Lemma find_spec w l u a : wf w l →
  (∃ l1 i l2, l = l1 ++ i :: l2 ∧ timeouts_find N w u a = i ∧ 0 ≤ i < N ∧
     d_key (dl_of (TIMEOUTS_AT w i)) = (u, a)) ∨
  (timeouts_find N w u a = TIMEOUTS_NONE ∧ (u, a) ∉ d_key <$> queue_of w l).
Proof.
  intros Hwf. unfold timeouts_find.
  destruct (scan _ _ 0) as [i|] eqn:E; simpl.
  - left. apply scan_Some in E as (Hi & Hp & _). bool_prop.
    assert (i ∈ l) as (l1 & l2 & ->)%list_elem_of_split by (apply (wf_in_armed w); [done|lia|done]).
    exists l1, i, l2. unfold d_key. cbn. split_and!; [done|done|lia|lia|congruence].
  - right. split; [done|]. rewrite scan_None in E. unfold queue_of. rewrite <- list_fmap_compose.
    intros (i & Hk & Hin)%list_elem_of_fmap. cbn in Hk.
    assert (0 ≤ i < N) by (eapply in_range; [apply Hwf|done]).
    pose proof (proj2 (wf_in_armed _ _ i Hwf ltac:(done)) Hin) as Ha.
    specialize (E i ltac:(lia)). unfold d_key in Hk. cbn in Hk. simplify_eq.
    by rewrite Ha, !Z.eqb_refl in E.
Qed.

Lemma free_spec w l : wf w l →
  (0 ≤ timeouts_free N w < N ∧ timeouts_free N w ∉ l) ∨
  (timeouts_free N w = TIMEOUTS_NONE ∧ Z.of_nat (length l) = N).
Proof.
  intros Hwf. unfold timeouts_free. destruct (scan _ _ 0) as [i|] eqn:E; simpl.
  - left. apply scan_Some in E as (Hi & Hp & _). bool_prop. split; [lia|].
    intros Hin%(wf_in_armed w); [congruence|done|lia].
  - right. split; [done|]. rewrite scan_None in E.
    assert (NoDup l) as Hnd by (eapply chain_NoDup; apply Hwf).
    pose proof (NoDup_range_length N l ltac:(lia) Hnd (th_range _ _ (wf_threaded _ _ Hwf))).
    assert (seqZ 0 N ⊆+ l) as Hs.
    { apply NoDup_submseteq; [apply NoDup_seqZ|]. intros i Hi%elem_of_seqZ.
      apply (wf_in_armed w); [done|lia|]. apply negb_false_iff, E. lia. }
    apply submseteq_length in Hs. rewrite length_seqZ in Hs. lia.
Qed.

(** ** Links, and the queue they spell *)

Lemma queue_of_links w w' l l' : links_only l' w w' → Forall (λ i, 0 ≤ i < N) l →
  queue_of w' l = queue_of w l.
Proof.
  intros Hlo Hr. unfold queue_of. apply list_fmap_ext. intros k i Hi.
  apply (lo_dl _ _ _ Hlo). eapply in_range; [exact Hr|]. by eapply list_elem_of_lookup_2.
Qed.

Lemma q_remove_queue w l1 i l2 :
  NoDup (d_key <$> queue_of w (l1 ++ i :: l2)) →
  q_remove (d_key (dl_of (TIMEOUTS_AT w i))) (queue_of w (l1 ++ i :: l2)) = queue_of w (l1 ++ l2).
Proof.
  unfold q_remove, queue_of. rewrite !fmap_app, fmap_cons. intros Hnd.
  apply NoDup_app in Hnd as (_ & Hd & [Hn _]%NoDup_cons).
  assert (∀ q : list deadline, d_key (dl_of (TIMEOUTS_AT w i)) ∉ d_key <$> q →
    filter (λ d, d_key d ≠ d_key (dl_of (TIMEOUTS_AT w i))) q = q) as Hf.
  { intros q; induction q as [|x q IH]; [done|]. intros [Hx Hq]%not_elem_of_cons.
    rewrite filter_cons_True by done. by rewrite IH. }
  rewrite filter_app, filter_cons_False by naive_solver. rewrite !Hf; [done|done|].
  intros Hin. apply (Hd _ Hin). set_solver.
Qed.

Lemma q_insert_split d q1 q2 :
  Forall (λ x, timeouts_before (d_ms d) (d_ms x) = false) q1 →
  (∀ x q, q2 = x :: q → timeouts_before (d_ms d) (d_ms x) = true) →
  q_insert d (q1 ++ q2) = q1 ++ d :: q2.
Proof.
  intros H1 H2. induction H1 as [|x q1 Hx H1 IH]; simpl.
  - destruct q2 as [|x q2]; [done|]. simpl. by rewrite (H2 _ _ eq_refl).
  - rewrite Hx. by f_equal.
Qed.

Lemma q_insert_perm d q : q_insert d q ≡ₚ d :: q.
Proof.
  induction q as [|x q IH]; simpl; [done|]. destruct (timeouts_before _ _); [done|].
  rewrite IH. apply Permutation_swap.
Qed.

Lemma report_spec w l now : threaded w l → c_now_ms (w_ctx w) = now →
  timeouts_report w = w <| w_io := (w_io w) <| io_armed := c_armed (w_ctx w) |>
                                            <| io_until_ms := q_until now (queue_of w l) |> |>.
Proof.
  intros [_ Hc Hr] <-. unfold timeouts_report. destruct l as [|i l]; cbn in Hc.
  - rewrite Hc, Z.eqb_refl. done.
  - destruct Hc as (-> & Hi & _). rewrite (proj2 (Z.eqb_neq _ _)) by done. done.
Qed.
Lemma armed_dl e e' : dl_of e = dl_of e' → armed e = armed e'.
Proof. intros [= _ _ _ Hf]. unfold armed. by rewrite Hf. Qed.

Lemma queue_of_put w l i e : tlen (w_tab w) = N → 0 ≤ i < N → i ∉ l → Forall (λ i, 0 ≤ i < N) l →
  queue_of (put_at w i e) l = queue_of w l.
Proof.
  intros Hl Hi Hn Hr. unfold queue_of. apply list_fmap_ext. intros k j Hj%list_elem_of_lookup_2.
  pose proof (in_range _ _ Hr Hj). rewrite AT_put by (done || lia). rewrite decide_False; [done|].
  by intros ->.
Qed.

(** What is left of the invariant while slot [i] is out of the order. *)
Record wf_but (w : Work) (l : list Z) (i : Z) : Prop := {
  wb_threaded : threaded w l;
  wb_magic : c_magic (w_ctx w) = TIMEOUTS_MAGIC;
  wb_armed : Forall (λ j, armed (TIMEOUTS_AT w j) = true) l;
  wb_free : ∀ j, 0 ≤ j < N → j ∉ l → j ≠ i → TIMEOUTS_AT w j = TimeoutEntry_zero;
  wb_slot : 0 ≤ i < N ∧ i ∉ l;
  wb_count : c_armed (w_ctx w) = Z.of_nat (length l) + 1;
  wb_keys : NoDup (d_key <$> queue_of w l) }.

(** Writing slot [i] and threading it in restores the invariant, with the deadline inserted. *)
Lemma fill_spec w l i e :
  wf_but w l i → armed e = true → d_key (dl_of e) ∉ d_key <$> queue_of w l →
  ∃ w' l', timeouts_link N (put_at w i e) i = Some w' ∧ wf w' l' ∧
    queue_of w' l' = q_insert (dl_of e) (queue_of w l) ∧ w_io w' = w_io w ∧
    c_now_ms (w_ctx w') = c_now_ms (w_ctx w).
Proof.
  intros [[Hl Hc Hr] Hm Ha Hz [Hi Hn] Hcnt Hk] Hae Hke.
  set (w1 := put_at w i e).
  assert (∀ j, 0 ≤ j → TIMEOUTS_AT w1 j = if decide (j = i) then e else TIMEOUTS_AT w j) as Hat.
  { intros. by apply AT_put. }
  assert (∀ j, j ∈ l → TIMEOUTS_AT w1 j = TIMEOUTS_AT w j) as Hat'.
  { intros j Hj. rewrite Hat by (eapply in_range; eauto). rewrite decide_False; [done|]. by intros ->. }
  assert (threaded w1 l) as Hth.
  { constructor; [cbn; by rewrite tlen_tset| |done]. eapply chain_ext; [|exact Hc].
    intros j Hj. unfold nx. by rewrite Hat'. }
  destruct (link_spec w1 l i Hth Hi Hn) as (w' & l1 & l2 & Hlk & -> & Hth' & Hf1 & Hf2 & Hlo).
  assert (queue_of w' (l1 ++ i :: l2) = q_insert (dl_of e) (queue_of w (l1 ++ l2))) as Hq.
  { rewrite (queue_of_links _ _ _ _ Hlo) by apply Hth'.
    rewrite <- (queue_of_put w (l1 ++ l2) i e) by done. unfold queue_of. fold w1. rewrite !fmap_app, fmap_cons.
    rewrite Hat, decide_True by lia || done. rewrite Hat, decide_True in Hf1, Hf2 by lia || done.
    symmetry. apply q_insert_split.
    - by apply Forall_fmap.
    - destruct l2 as [|j l2]; [done|]. intros x q [= <- _]. by apply (Hf2 j l2). }
  exists w', (l1 ++ i :: l2). destruct Hlo as [Hlen Hio Hctx Hdl Hatlo].
  split_and!; [done| |done|by rewrite Hio|by rewrite Hctx].
  constructor; [done|by rewrite Hctx|..].
  - apply Forall_forall. intros j Hj. assert (0 ≤ j < N) by (eapply in_range; [apply Hth'|done]).
    rewrite (armed_dl _ (TIMEOUTS_AT w1 j)) by by apply Hdl. rewrite Hat by lia. case_decide; [done|].
    eapply (Forall_forall (λ j, armed (TIMEOUTS_AT w j) = true)); [exact Ha|set_solver].
  - intros j Hj Hnin. rewrite Hatlo by set_solver. rewrite Hat by lia.
    rewrite decide_False by set_solver. apply Hz; set_solver.
  - rewrite Hctx. cbn. rewrite Hcnt, !length_app. simpl. lia.
  - rewrite Hq. eapply NoDup_Permutation_proper; [apply fmap_Permutation, q_insert_perm|]. by constructor.
Qed.
(** Unlinking an armed slot leaves the invariant of the rest, with its deadline removed. *)
Lemma detach_spec w l1 i l2 :
  wf w (l1 ++ i :: l2) →
  ∃ w', timeouts_unlink N w i = Some w' ∧ wf_but w' (l1 ++ l2) i ∧
    queue_of w' (l1 ++ l2) = q_remove (d_key (dl_of (TIMEOUTS_AT w i))) (queue_of w (l1 ++ i :: l2)) ∧
    w_io w' = w_io w ∧ c_now_ms (w_ctx w') = c_now_ms (w_ctx w).
Proof.
  intros [Hth Hm Ha Hz Hcnt Hk].
  destruct (unlink_spec _ _ _ _ Hth) as (w' & Hu & Hth' & Hlo).
  assert (queue_of w' (l1 ++ l2) = queue_of w (l1 ++ l2)) as Hq.
  { eapply queue_of_links; [exact Hlo|apply Hth']. }
  exists w'. split_and!; [done| |by rewrite Hq, q_remove_queue|apply Hlo|by rewrite (lo_ctx _ _ _ Hlo)].
  pose proof (chain_NoDup _ _ _ _ (th_chain _ _ Hth)) as (_ & Hd & [Hn2 _]%NoDup_cons)%NoDup_app.
  assert (0 ≤ i < N) by (eapply in_range; [apply Hth|set_solver]).
  constructor; [done|by rewrite (lo_ctx _ _ _ Hlo)|..].
  - apply Forall_forall. intros j Hj.
    rewrite (armed_dl _ (TIMEOUTS_AT w j)) by (apply Hlo; eapply in_range; [apply Hth'|done]).
    eapply (Forall_forall (λ j, armed (TIMEOUTS_AT w j) = true)); [exact Ha|set_solver].
  - intros j Hj Hnin Hne. rewrite (lo_at _ _ _ Hlo) by set_solver. apply Hz; set_solver.
  - split; [done|]. set_solver.
  - rewrite (lo_ctx _ _ _ Hlo). cbn. rewrite Hcnt, !length_app. simpl. lia.
  - rewrite Hq. unfold queue_of in *. rewrite !fmap_app, !fmap_cons in *.
    apply NoDup_app in Hk as (? & Hdk & [_ ?]%NoDup_cons). apply NoDup_app. split_and!; [done| |done].
    intros k Hk1 Hk2. apply (Hdk k Hk1). by right.
Qed.

Lemma drop_spec w l1 i l2 :
  wf w (l1 ++ i :: l2) →
  ∃ w', timeouts_drop N w i = Some w' ∧ wf w' (l1 ++ l2) ∧
    queue_of w' (l1 ++ l2) = q_remove (d_key (dl_of (TIMEOUTS_AT w i))) (queue_of w (l1 ++ i :: l2)) ∧
    w_io w' = w_io w ∧ c_now_ms (w_ctx w') = c_now_ms (w_ctx w).
Proof.
  intros Hwf. destruct (detach_spec _ _ _ _ Hwf) as (w1 & Hu & [[Hl Hc Hr] Hm Ha Hz [Hi Hn] Hcnt Hk] & Hq & Hio & Hnow).
  unfold timeouts_drop. rewrite Hu. cbn [mbind option_bind]. eexists; split; [done|].
  set (w2 := put_at w1 i TimeoutEntry_zero).
  assert (∀ j, 0 ≤ j → TIMEOUTS_AT w2 j = if decide (j = i) then TimeoutEntry_zero else TIMEOUTS_AT w1 j) as Hat.
  { intros. by apply AT_put. }
  assert (∀ j, j ∈ l1 ++ l2 → TIMEOUTS_AT w2 j = TIMEOUTS_AT w1 j) as Hat'.
  { intros j Hj. rewrite Hat by (eapply in_range; eauto). rewrite decide_False; [done|]. by intros ->. }
  assert (queue_of w2 (l1 ++ l2) = queue_of w1 (l1 ++ l2)) as Hq2 by by apply queue_of_put.
  pose proof (NoDup_range_length N _ ltac:(lia) (chain_NoDup _ _ _ _ Hc) Hr) as Hlen.
  split_and!; [|by rewrite <- Hq, <- Hq2|done|done].
  constructor; [constructor|..]; cbn [w_ctx w_tab c_magic c_armed c_head set_field].
  - cbn. by rewrite tlen_tset.
  - eapply chain_ext; [|exact Hc]. intros j Hj. symmetry. unfold nx. apply (f_equal e_next), Hat', Hj.
  - done.
  - done.
  - apply Forall_forall. intros j Hj. etrans; [apply (f_equal armed), Hat', Hj|].
    eapply (Forall_forall (λ j, armed (TIMEOUTS_AT w1 j) = true)); [exact Ha|done].
  - intros j Hj Hnin. etrans; [apply Hat; lia|]. case_decide; [done|]. by apply Hz.
  - cbn. rewrite Hcnt. replace (_ + 1 - 1) with (Z.of_nat (length (l1 ++ l2))) by lia.
    apply u8_id. unfold is_u8, TIMEOUTS_NONE in *. lia.
  - change (NoDup (d_key <$> queue_of w2 (l1 ++ l2))). by rewrite Hq2.
Qed.
(** ** The entries implement the queue *)

(** What an entry that reached the list reports: its status, and the queue it leaves. *)
Definition reported (s : IdemIpStatus) (now : Z) (q : list deadline) (io : TimeoutsIo) : TimeoutsIo :=
  io <| io_armed := Z.of_nat (length q) |> <| io_until_ms := q_until now q |> <| io_status := s |>.

Lemma rep_io w w' now q :
  w_ctx w' = w_ctx w → w_tab w' = w_tab w → rep w now q → rep w' now q.
Proof.
  destruct w as [io ctx tab], w' as [io' ctx' tab']; cbn. intros -> -> (Hn & l & Hwf & Hq).
  split; [done|]. exists l. split; [|done]. destruct Hwf as [[]]. by constructor.
Qed.

Lemma report_rep s w now q :
  rep w now q →
  rep (set_status s (timeouts_report w)) now q ∧
  w_io (set_status s (timeouts_report w)) = reported s now q (w_io w).
Proof.
  intros Hrep. pose proof Hrep as (Hn & l & Hwf & ->).
  rewrite (report_spec w l now) by (done || apply Hwf). split; [by apply (rep_io w)|].
  unfold reported, queue_of. rewrite length_fmap, <- (wf_count _ _ Hwf). done.
Qed.

Lemma armed_flag f : armed (mkTimeoutEntry 0 0 0 (u8 (Z.lor f IDEMIP_TIMEOUT_FLAG_ARMED)) 0) = true.
Proof.
  unfold armed. cbn. apply negb_true_iff, Z.eqb_neq. intros H0.
  assert (Z.testbit (Z.land (u8 (Z.lor f 1)) 1) 0 = true) as Hb; [|unfold IDEMIP_TIMEOUT_FLAG_ARMED in *; by rewrite H0 in Hb].
  unfold u8. change 256 with (2 ^ 8). rewrite Z.land_spec, Z.mod_pow2_bits_low, Z.lor_spec by lia.
  by rewrite orb_true_r.
Qed.

Lemma clear_refines w :
  rep (idemip_timeouts_clear N w) 0 [] ∧
  w_io (idemip_timeouts_clear N w) = reported IDEMIP_OK 0 [] (w_io w).
Proof.
  pose (w1 := w <| w_ctx := mkTimeoutsCtx TIMEOUTS_MAGIC 0 TIMEOUTS_NONE 0 |>
                <| w_tab := replicate (Z.to_nat N) TimeoutEntry_zero |>).
  change (idemip_timeouts_clear N w) with (set_status IDEMIP_OK (timeouts_report w1)).
  change (w_io w) with (w_io w1). apply report_rep. split; [done|]. exists []. split; [|done].
  constructor; [constructor|..]; cbn; try done.
  - unfold tlen. rewrite length_replicate. lia.
  - intros i Hi _. unfold TIMEOUTS_AT. cbn. apply tget_replicate. lia.
  - constructor.
Qed.

Definition arm_deadline (a : TimeoutArmArgs) : deadline :=
  Deadline (arm_deadline_ms a) (arm_unit a) (arm_arg a)
    (u8 (Z.lor (arm_flags a) IDEMIP_TIMEOUT_FLAG_ARMED)).

(** The part of [arm] both of its branches end in. *)
Lemma arm_fill w1 l1 i e now :
  wf_but w1 l1 i → armed e = true → d_key (dl_of e) ∉ d_key <$> queue_of w1 l1 →
  c_now_ms (w_ctx w1) = now →
  let q' := q_insert (dl_of e) (queue_of w1 l1) in
  ∃ w', (w2 ← timeouts_link N (put_at w1 i e) i; Some (set_status IDEMIP_OK (timeouts_report w2))) = Some w' ∧
    rep w' now q' ∧ w_io w' = reported IDEMIP_OK now q' (w_io w1).
Proof.
  intros Hwb He Hk Hnow q'.
  destruct (fill_spec _ _ _ _ Hwb He Hk) as (w2 & l2 & -> & Hwf2 & Hq2 & Hio2 & Hn2). cbn [mbind option_bind].
  destruct (report_rep IDEMIP_OK w2 now q') as [Hr1 Hr2].
  { split; [congruence|]. by exists l2. }
  eexists; split_and!; [done|done|]. by rewrite Hr2, Hio2.
Qed.

(** Claiming a free slot: the count goes up before the slot is written. *)
Lemma claim_spec w l i :
  wf w l → 0 ≤ i < N → i ∉ l →
  wf_but (w <| w_ctx := (w_ctx w) <| c_armed := u8 (c_armed (w_ctx w) + 1) |> |>) l i.
Proof.
  intros [[] Hm Ha Hz Hcnt Hk] Hi Hn.
  assert (Z.of_nat (length (i :: l)) ≤ N).
  { apply NoDup_range_length; [lia| |by constructor]. constructor; [done|]. by eapply chain_NoDup. }
  constructor; [constructor; done|done|done| |done| |done].
  - intros j Hj ? _. by apply Hz.
  - cbn. rewrite Hcnt. apply u8_id. unfold is_u8, TIMEOUTS_NONE in *. simpl in *. lia.
Qed.

Lemma arm_refines w now q :
  rep w now q → bad_unit (arm_unit (arm_args (w_io w))) = false →
  let '(s, q') := q_arm N (arm_deadline (arm_args (w_io w))) q in
  ∃ w', idemip_timeouts_arm N w = Some w' ∧ rep w' now q' ∧ w_io w' = reported s now q' (w_io w).
Proof.
  intros Hrep Hb. set (a := arm_args (w_io w)) in *.
  apply (rep_io _ (set_status IDEMIP_ERR w)) in Hrep; [|done..].
  pose proof Hrep as (Hn & l & Hwf & ->). set (w0 := set_status IDEMIP_ERR w) in *.
  unfold idemip_timeouts_arm. fold w0. change (arm_args (w_io w0)) with a. cbv zeta.
  rewrite (wf_magic _ _ Hwf), Z.eqb_refl, Hb. cbn [negb orb].
  unfold q_arm, q_has. change (d_key (arm_deadline a)) with (arm_unit a, arm_arg a).
  pose proof (armed_flag (arm_flags a)) as Hflag.
  destruct (find_spec w0 l (arm_unit a) (arm_arg a) Hwf) as [(l1 & i & l2 & -> & -> & Hi & Hkey)|[-> Hnk]].
  - rewrite bool_decide_true.
    2: { rewrite <- Hkey. apply list_elem_of_fmap_2. unfold queue_of. set_solver. }
    rewrite (proj2 (Z.eqb_neq i _)) by lia. cbn [negb].
    destruct (detach_spec _ _ _ _ Hwf) as (w1 & -> & Hwb & Hq & Hio & Hnow). cbn [mbind option_bind].
    rewrite <- Hkey, <- Hq. change (reported ?s ?n ?q (w_io w)) with (reported s n q (w_io w0)). rewrite <- Hio.
    apply (arm_fill _ _ _ (mkTimeoutEntry (arm_deadline_ms a) (arm_unit a) (arm_arg a) _ _));
      [done|exact Hflag| |congruence].
    rewrite Hq. change (d_key _) with (arm_unit a, arm_arg a) at 1. rewrite Hkey.
    intros (x & Hx & [Hne _]%list_elem_of_filter)%list_elem_of_fmap. congruence.
  - rewrite bool_decide_false by done. rewrite Z.eqb_refl. cbn [negb].
    unfold queue_of at 1. rewrite length_fmap.
    destruct (free_spec _ _ Hwf) as [[Hi Hni]|[-> Hfull]].
    + rewrite (proj2 (Z.eqb_neq _ _)) by lia.
      pose proof (claim_spec _ _ _ Hwf Hi Hni) as Hwb.
      assert (¬ N ≤ Z.of_nat (length l)) as Hlt.
      { pose proof (wb_count _ _ _ Hwb) as Hc. pose proof (wf_count _ _ Hwf) as Hc'. cbn in Hc.
        assert (Z.of_nat (length (timeouts_free N w0 :: l)) ≤ N); [|simpl in *; lia].
        apply NoDup_range_length; [lia|..]; constructor; [done| |done|apply Hwf].
        eapply chain_NoDup, Hwf. }
      rewrite (proj2 (Z.leb_gt _ _)) by lia.
      refine (arm_fill _ l _ (mkTimeoutEntry (arm_deadline_ms a) (arm_unit a) (arm_arg a) _ _) now Hwb _ _ _);
        [exact Hflag|done|done].
    + rewrite Z.eqb_refl, (proj2 (Z.leb_le _ _)) by lia. eexists; split; [done|]. by apply (report_rep IDEMIP_BUSY w0).
Qed.

Lemma cancel_refines w now q :
  rep w now q → bad_unit (cancel_unit (cancel_args (w_io w))) = false →
  let a := cancel_args (w_io w) in
  let '(s, q') := q_cancel (cancel_unit a, cancel_arg a) q in
  ∃ w', idemip_timeouts_cancel N w = Some w' ∧ rep w' now q' ∧ w_io w' = reported s now q' (w_io w).
Proof.
  intros Hrep Hb a.
  apply (rep_io _ (set_status IDEMIP_ERR w)) in Hrep; [|done..].
  pose proof Hrep as (Hn & l & Hwf & ->). set (w0 := set_status IDEMIP_ERR w) in *.
  unfold idemip_timeouts_cancel. fold w0. change (cancel_args (w_io w0)) with a. cbv zeta.
  rewrite (wf_magic _ _ Hwf), Z.eqb_refl. fold a in Hb. rewrite Hb. cbn [negb orb]. unfold q_cancel, q_has.
  destruct (find_spec w0 l (cancel_unit a) (cancel_arg a) Hwf) as [(l1 & i & l2 & -> & -> & Hi & Hkey)|[-> Hnk]].
  - rewrite bool_decide_true.
    2: { rewrite <- Hkey. apply list_elem_of_fmap_2. unfold queue_of. set_solver. }
    rewrite (proj2 (Z.eqb_neq i _)) by lia.
    destruct (drop_spec _ _ _ _ Hwf) as (w1 & -> & Hwf1 & Hq & Hio & Hnow). cbn [mbind option_bind].
    destruct (report_rep IDEMIP_OK w1 now (queue_of w1 (l1 ++ l2))) as [Hr1 Hr2].
    { split; [congruence|]. eauto. }
    eexists; split; [done|]. rewrite <- Hkey, <- Hq, Hr2, Hio. done.
  - rewrite bool_decide_false by done. rewrite Z.eqb_refl. eexists; split; [done|]. by apply (report_rep IDEMIP_BUSY w0).
Qed.

Lemma tick_refines w now q :
  rep w now q →
  let now' := tick_now_ms (w_io w) in
  rep (idemip_timeouts_tick w) now' q ∧
  w_io (idemip_timeouts_tick w) = reported IDEMIP_OK now' q (w_io w).
Proof.
  intros (Hn & l & Hwf & ->) now'. pose (w0 := set_status IDEMIP_ERR w).
  pose (w1 := w0 <| w_ctx := (w_ctx w0) <| c_now_ms := now' |> |>).
  assert (idemip_timeouts_tick w = set_status IDEMIP_OK (timeouts_report w1)) as ->.
  { unfold idemip_timeouts_tick. change (w_ctx (set_status _ w)) with (w_ctx w).
    by rewrite (wf_magic _ _ Hwf), Z.eqb_refl. }
  apply (report_rep IDEMIP_OK w1). split; [done|]. exists l. split; [|done].
  destruct Hwf as [[]]. by constructor.
Qed.

(** [expire] hands back the head of the queue once it is due. *)
Definition took (d : option deadline) (io : TimeoutsIo) : TimeoutsIo :=
  match d with
  | Some d => io <| io_unit := d_unit d |> <| io_arg := d_arg d |> <| io_deadline_ms := d_ms d |>
  | None => io <| io_unit := IDEMIP_TIMEOUT_UNIT_NONE |> <| io_arg := 0 |> <| io_deadline_ms := 0 |>
  end.

Lemma expire_refines w now q :
  rep w now q →
  let '(d, q') := q_expire now q in
  ∃ w', idemip_timeouts_expire N w = Some w' ∧ rep w' now q' ∧
    w_io w' = reported (if d is Some _ then IDEMIP_OK else IDEMIP_BUSY) now q' (took d (w_io w)).
Proof.
  intros Hrep.
  pose (w0 := set_status IDEMIP_ERR w <| w_io := took None (w_io (set_status IDEMIP_ERR w)) |>).
  apply (rep_io _ w0) in Hrep; [|done..].
  pose proof Hrep as (Hn & l & Hwf & ->). unfold idemip_timeouts_expire.
  change ((set_status IDEMIP_ERR w) <| w_io := _ |>) with w0. cbv zeta.
  rewrite (wf_magic _ _ Hwf), Z.eqb_refl, Hn. cbn [negb].
  destruct (wf_threaded _ _ Hwf) as [_ Hc Hr]. destruct l as [|i l].
  - change (c_head (w_ctx w0) = TIMEOUTS_NONE) in Hc. cbn [queue_of fmap list_fmap q_expire]. rewrite Hc, Z.eqb_refl. eexists; split; [done|]. by apply (report_rep IDEMIP_BUSY w0).
  - change (queue_of w0 (i :: l)) with (dl_of (TIMEOUTS_AT w0 i) :: queue_of w0 l). cbn [q_expire].
    change (d_ms (dl_of ?e)) with (e_deadline_ms e).
    destruct Hc as (-> & Hi & _). rewrite (proj2 (Z.eqb_neq i _)) by done. cbn [orb].
    destruct (timeouts_before now _) eqn:Hb.
    + eexists; split; [done|]. by apply (report_rep IDEMIP_BUSY w0).
    + set (w1 := w0 <| w_io := _ |>).
      assert (wf w1 ([] ++ i :: l)) as Hwf1. { destruct Hwf as [[]]. by constructor. }
      destruct (drop_spec _ _ _ _ Hwf1) as (w2 & -> & Hwf2 & Hq & Hio & Hnow). cbn [mbind option_bind app].
      rewrite q_remove_queue in Hq by apply Hwf1. cbn [app] in Hq, Hwf2.
      destruct (report_rep IDEMIP_OK w2 now (queue_of w2 l)) as [Hr1 Hr2].
      { split; [by rewrite Hnow|]. eauto. }
      eexists; split; [done|]. change (queue_of w0 l) with (queue_of w1 l). rewrite <- Hq, Hr2, Hio. done.
Qed.

(** ** Any sequence of calls *)

(** One call: the caller writes the operands and calls the entry. *)
Inductive op : Type :=
  | op_clear
  | op_arm (a : TimeoutArmArgs)
  | op_cancel (a : TimeoutCancelArgs)
  | op_tick (now_ms : Z)
  | op_expire.

Definition call (o : op) (w : Work) : option Work :=
  match o with
  | op_clear => Some (idemip_timeouts_clear N w)
  | op_arm a => idemip_timeouts_arm N (w <| w_io := (w_io w) <| arm_args := a |> |>)
  | op_cancel a => idemip_timeouts_cancel N (w <| w_io := (w_io w) <| cancel_args := a |> |>)
  | op_tick now => Some (idemip_timeouts_tick (w <| w_io := (w_io w) <| tick_now_ms := now |> |>))
  | op_expire => idemip_timeouts_expire N w
  end.

(** What the caller reads back: the status, what [expire] took, and, unless the call was refused, the
    number of deadlines and the wait to the first. *)
Record observation := Obs {
  ob_status : IdemIpStatus;
  ob_expired : option (Z * Z * Z);
  ob_queue : option (Z * Z) }.

Definition observe (o : op) (w : Work) : observation :=
  let io := w_io w in
  Obs (io_status io)
    (if o is op_expire then Some (io_unit io, io_arg io, io_deadline_ms io) else None)
    (if decide (io_status io = IDEMIP_ERR) then None else Some (io_armed io, io_until_ms io)).

(** The same call on the abstract queue. *)
Definition a_call (o : op) (now : Z) (q : list deadline) : IdemIpStatus * option (Z * Z * Z) * Z * list deadline :=
  match o with
  | op_clear => (IDEMIP_OK, None, 0, [])
  | op_arm a => if bad_unit (arm_unit a) then (IDEMIP_ERR, None, now, q)
                else let '(s, q') := q_arm N (arm_deadline a) q in (s, None, now, q')
  | op_cancel a => if bad_unit (cancel_unit a) then (IDEMIP_ERR, None, now, q)
                   else let '(s, q') := q_cancel (cancel_unit a, cancel_arg a) q in (s, None, now, q')
  | op_tick now' => (IDEMIP_OK, None, now', q)
  | op_expire => match q_expire now q with
                 | (Some d, q') => (IDEMIP_OK, Some (d_unit d, d_arg d, d_ms d), now, q')
                 | (None, q') => (IDEMIP_BUSY, Some (IDEMIP_TIMEOUT_UNIT_NONE, 0, 0), now, q')
                 end
  end.

Definition a_observe (s : IdemIpStatus) (x : option (Z * Z * Z)) (now : Z) (q : list deadline) : observation :=
  Obs s x (if decide (s = IDEMIP_ERR) then None else Some (Z.of_nat (length q), q_until now q)).

Fixpoint run (ops : list op) (w : Work) : option (Work * list observation) :=
  match ops with
  | [] => Some (w, [])
  | o :: ops' => w1 ← call o w; '(w2, obs) ← run ops' w1; Some (w2, observe o w1 :: obs)
  end.

Fixpoint a_run (ops : list op) (now : Z) (q : list deadline) : (Z * list deadline) * list observation :=
  match ops with
  | [] => ((now, q), [])
  | o :: ops' => let '(s, x, now', q') := a_call o now q in
                 let '(r, obs) := a_run ops' now' q' in (r, a_observe s x now' q' :: obs)
  end.

Lemma call_refines o w now q :
  rep w now q →
  let '(s, x, now', q') := a_call o now q in
  ∃ w', call o w = Some w' ∧ rep w' now' q' ∧ observe o w' = a_observe s x now' q'.
Proof.
  intros Hrep. destruct o as [|a|a|now'|]; unfold call, a_call.
  - destruct (clear_refines w) as [Hr Hio]. eexists; split_and!; [done|done|].
    unfold observe. by rewrite Hio.
  - set (w0 := w <| w_io := _ |>). apply (rep_io _ w0) in Hrep; [|done..].
    destruct (bad_unit (arm_unit a)) eqn:Hb.
    + eexists. split_and!.
      * unfold idemip_timeouts_arm. change (arm_args (w_io (set_status _ w0))) with a. by rewrite Hb, orb_true_r.
      * by apply (rep_io w0).
      * done.
    + pose proof (arm_refines _ _ _ Hrep Hb) as H. change (arm_args (w_io w0)) with a in H.
      destruct (q_arm _ _ _) as [s q'] eqn:Hq. destruct H as (w' & -> & Hr & Hio).
      eexists; split_and!; [done|done|]. unfold observe. by rewrite Hio.
  - set (w0 := w <| w_io := _ |>). apply (rep_io _ w0) in Hrep; [|done..].
    destruct (bad_unit (cancel_unit a)) eqn:Hb.
    + eexists. split_and!.
      * unfold idemip_timeouts_cancel. change (cancel_args (w_io (set_status _ w0))) with a. by rewrite Hb, orb_true_r.
      * by apply (rep_io w0).
      * done.
    + pose proof (cancel_refines _ _ _ Hrep Hb) as H. change (cancel_args (w_io w0)) with a in H. cbv zeta in H.
      destruct (q_cancel _ _) as [s q'] eqn:Hq. destruct H as (w' & -> & Hr & Hio).
      eexists; split_and!; [done|done|]. unfold observe. by rewrite Hio.
  - set (w0 := w <| w_io := _ |>). apply (rep_io _ w0) in Hrep; [|done..].
    destruct (tick_refines _ _ _ Hrep) as [Hr Hio]. eexists; split_and!; [done|done|].
    unfold observe. by rewrite Hio.
  - pose proof (expire_refines _ _ _ Hrep) as H. destruct (q_expire now q) as [[d|] q'];
      destruct H as (w' & -> & Hr & Hio); eexists; (split_and!; [done|done|]); unfold observe; by rewrite Hio.
Qed.

Lemma run_refines ops w now q :
  rep w now q →
  let '((now', q'), obs) := a_run ops now q in
  ∃ w', run ops w = Some (w', obs) ∧ rep w' now' q'.
Proof.
  revert w now q; induction ops as [|o ops IH]; intros w now q Hrep; cbn [run a_run]; [eauto|].
  pose proof (call_refines o w now q Hrep) as H. destruct (a_call o now q) as [[[s x] now'] q'].
  destruct H as (w1 & -> & Hr & Ho). cbn [mbind option_bind].
  specialize (IH w1 now' q' Hr). destruct (a_run ops now' q') as [[now'' q''] obs].
  destruct IH as (w2 & -> & Hr2). cbn [mbind option_bind]. rewrite Ho. eauto.
Qed.
End Refinement.

(** ** Deadline order

    The count wraps, so deadlines are ordered relative to a base: as long as every deadline lies
    within half the count's range of it, the queue is sorted. *)
Definition offset (base x : Z) : Z := u32 (x - base).
Definition in_window (base x : Z) : Prop := offset base x ≤ TIMEOUTS_HALF_PERIOD_MS.
Definition ordered (base : Z) (q : list deadline) : Prop :=
  StronglySorted (λ x y, offset base (d_ms x) ≤ offset base (d_ms y)) q ∧
  Forall (λ d, in_window base (d_ms d)) q.

Definition op_in_window (base : Z) (o : op) : Prop :=
  match o with op_arm a => in_window base (arm_deadline_ms a) | _ => True end.

Lemma before_window base a b :
  in_window base a → in_window base b → timeouts_before a b = (offset base a <? offset base b).
Proof.
  unfold in_window, offset, timeouts_before, TIMEOUTS_HALF_PERIOD_MS. intros Ha Hb.
  destruct (Z.ltb_spec (u32 (a - base)) (u32 (b - base))); [apply Z.ltb_lt|apply Z.ltb_ge]; wrap.
Qed.

Lemma q_insert_ordered base d q :
  in_window base (d_ms d) → ordered base q → ordered base (q_insert d q).
Proof.
  intros Hd [Hs Hw]. split; [|rewrite q_insert_perm; by constructor].
  induction Hs as [|x q Hs IH Hall]; simpl; [repeat constructor|].
  apply Forall_cons in Hw as [Hx Hw]. rewrite (before_window base) by done.
  destruct (Z.ltb_spec (offset base (d_ms d)) (offset base (d_ms x))).
  - constructor; [by constructor|]. constructor; [lia|]. eapply Forall_impl; [exact Hall|]. simpl. lia.
  - constructor; [by apply IH|]. rewrite q_insert_perm. by constructor.
Qed.

Lemma filter_ordered base (P : deadline → Prop) `{∀ x, Decision (P x)} q :
  ordered base q → ordered base (filter P q).
Proof.
  intros [Hs Hw]. split; [|by apply Forall_filter_keep].
  induction Hs as [|x q Hs IH Hall]; [constructor|]. apply Forall_cons in Hw as [_ Hw].
  rewrite filter_cons. case_decide; [|by apply IH]. constructor; [by apply IH|]. by apply Forall_filter_keep.
Qed.

Lemma a_call_ordered N base o now q :
  op_in_window base o → ordered base q → ordered base (a_call N o now q).2.
Proof.
  intros Ho Hq. destruct o as [|a|a|now'|]; simpl.
  - split; constructor.
  - destruct (bad_unit _); [done|]. unfold q_arm. repeat case_match; simplify_eq; simpl; try done;
      apply q_insert_ordered; try done; by apply filter_ordered.
  - destruct (bad_unit _); [done|]. unfold q_cancel. repeat case_match; simplify_eq; simpl; try done; by apply filter_ordered.
  - done.
  - unfold q_expire. destruct q as [|d q]; [done|]. destruct (timeouts_before _ _); simpl; [done|].
    destruct Hq as [Hs Hw]. inversion_clear Hs. inversion_clear Hw. done.
Qed.

Lemma a_run_ordered N base ops now q :
  Forall (op_in_window base) ops → ordered base q → ordered base (a_run N ops now q).1.2.
Proof.
  intros Ho. revert now q; induction Ho as [|o ops Ho Hops IH]; intros now q Hq; simpl; [done|].
  pose proof (a_call_ordered N base o now q Ho Hq) as H. destruct (a_call N o now q) as [[[s x] now'] q'].
  specialize (IH now' q' H). by destruct (a_run N ops now' q').
Qed.

(** ** Claims *)

(** C1. Refinement: for every table size the one-octet links can address, and every sequence of
    calls on a cleared borrow, each call returns (no list walk runs away), and everything the caller
    reads back - the status, the deadline [expire] handed out, the number armed, the wait to the
    first - is what the abstract bounded deadline queue answers. *)
Theorem timeouts_refines_queue (N : Z) (w : Work) (ops : list op) (HN : 0 ≤ N ≤ TIMEOUTS_NONE) :
  ∃ w', run N (op_clear :: ops) w = Some (w', (a_run N (op_clear :: ops) 0 []).2) ∧
        rep N w' (a_run N (op_clear :: ops) 0 []).1.1 (a_run N (op_clear :: ops) 0 []).1.2.
Proof.
  pose proof (clear_refines N HN w) as [Hr Hio].
  pose proof (run_refines N HN ops _ _ _ Hr) as H. simpl.
  destruct (a_run N ops 0 []) as [[now' q'] obs]. destruct H as (w' & -> & Hr').
  exists w'. simpl. split; [|done]. unfold observe. by rewrite Hio.
Qed.

(** Order: when every deadline armed since [clear] lies within half the count's range of a base,
    and so does the recorded clock, [expire] takes a deadline the clock has reached and none armed
    is earlier; it reports BUSY only when every armed deadline is still ahead of the clock. *)
Theorem expire_takes_earliest (N base : Z) (w w1 : Work) (ops : list op) (obs : list observation)
    (HN : 0 ≤ N ≤ TIMEOUTS_NONE) (Hops : Forall (op_in_window base) ops)
    (Hrun : run N (op_clear :: ops) w = Some (w1, obs))
    (Hnow : in_window base (c_now_ms (w_ctx w1))) :
  ∃ w2 q, idemip_timeouts_expire N w1 = Some w2 ∧ rep N w1 (c_now_ms (w_ctx w1)) q ∧
    ((io_status (w_io w2) = IDEMIP_OK ∧
      ∃ d q', q = d :: q' ∧ rep N w2 (c_now_ms (w_ctx w1)) q' ∧
        (io_unit (w_io w2), io_arg (w_io w2), io_deadline_ms (w_io w2)) = (d_unit d, d_arg d, d_ms d) ∧
        offset base (d_ms d) ≤ offset base (c_now_ms (w_ctx w1)) ∧
        ∀ x, x ∈ q → offset base (d_ms d) ≤ offset base (d_ms x)) ∨
     (io_status (w_io w2) = IDEMIP_BUSY ∧ rep N w2 (c_now_ms (w_ctx w1)) q ∧
      ∀ x, x ∈ q → offset base (c_now_ms (w_ctx w1)) < offset base (d_ms x))).
Proof.
  pose proof (run_refines N HN ops _ _ _ (proj1 (clear_refines N HN w))) as H.
  pose proof (a_run_ordered N base ops 0 [] Hops) as [Hs Hw]; [split; constructor|].
  destruct (a_run N ops 0 []) as [[now q] obs'] eqn:Ha. destruct H as (w' & Hr & Hrep). simpl in Hs, Hw.
  simpl in Hrun. rewrite Hr in Hrun. simpl in Hrun. injection Hrun as -> _.
  destruct Hrep as [Hn Hl]. rewrite Hn in *.
  pose proof (expire_refines N HN w1 now q (conj Hn Hl)) as He. destruct q as [|d q]; simpl in He.
  - destruct He as (w2 & -> & Hr2 & Hio). exists w2, []. split_and!; [done|done|]. right.
    rewrite Hio. split_and!; [done|done|]. set_solver.
  - inversion_clear Hs as [|? ? Hs' Hall]. inversion_clear Hw as [|? ? Hd Hw'].
    rewrite (before_window base) in He by done. rewrite Forall_forall in Hall.
    destruct (Z.ltb_spec (offset base now) (offset base (d_ms d))) as [Hlt|Hge];
      destruct He as (w2 & -> & Hr2 & Hio); exists w2, (d :: q); (split_and!; [done|done|]).
    + right. rewrite Hio. split_and!; [done|done|]. intros x [->|Hx]%elem_of_cons; [done|].
      specialize (Hall x Hx). simpl in Hall. lia.
    + left. rewrite Hio. split; [done|]. exists d, q. split_and!; [done..|].
      intros x [->|Hx]%elem_of_cons; [lia|]. by apply Hall.
Qed.

(** A concrete borrow the witnesses run on: three slots, garbage in every region. *)
Definition w_garbage : Work :=
  mkWork (mkTimeoutsIo (mkTimeoutArmArgs 0 0 0 0) (mkTimeoutCancelArgs 0 0) 0 IDEMIP_ERR 7 7 7 7 7)
    (mkTimeoutsCtx 1 2 3 4) [].

Definition arm_at (ms unit arg : Z) : op := op_arm (mkTimeoutArmArgs ms unit arg 0).

(** Four deadlines on three slots across the wrap of the count: one is rearmed, one refused, and the
    clock then stands past the first two. *)
Definition ops_wrap : list op :=
  [arm_at 0xFFFFFFF0 1 0; arm_at 0x10 2 0; arm_at 0x20 3 0; arm_at 0x30 4 0; arm_at 0x08 1 0; op_tick 0x0C].

Lemma timeouts_refines_queue_witness :
  0 ≤ 3 ≤ TIMEOUTS_NONE ∧
  ∃ w', run 3 (op_clear :: ops_wrap) w_garbage = Some (w', (a_run 3 (op_clear :: ops_wrap) 0 []).2) ∧
        rep 3 w' (a_run 3 (op_clear :: ops_wrap) 0 []).1.1 (a_run 3 (op_clear :: ops_wrap) 0 []).1.2.
Proof.
  split; [unfold TIMEOUTS_NONE; lia|].
  apply (timeouts_refines_queue 3 w_garbage ops_wrap). unfold TIMEOUTS_NONE; lia.
Defined.

Lemma expire_takes_earliest_witness :
  ∃ w1 w2, run 3 (op_clear :: ops_wrap) w_garbage = Some (w1, (a_run 3 (op_clear :: ops_wrap) 0 []).2) ∧
    idemip_timeouts_expire 3 w1 = Some w2.
Proof.
  destruct (run 3 (op_clear :: ops_wrap) w_garbage) as [[w1 obs]|] eqn:E; [|vm_compute in E; discriminate E].
  pose proof (expire_takes_earliest 3 0xFFFFFF00 w_garbage w1 ops_wrap obs) as H.
  destruct H as (w2 & q & H & _).
  - unfold TIMEOUTS_NONE; lia.
  - repeat constructor; vm_compute; discriminate.
  - exact E.
  - vm_compute in E. injection E as <- _. vm_compute. discriminate.
  - exists w1, w2. split; [|exact H]. vm_compute in E |- *. injection E as <- <-. reflexivity.
Defined.
End Timeouts.
