(* ===== verification/Ipv4.v ===== *)
(** * The IPv4 header (src/ip/ipv4.c)

    Every accessor of the header, the build and the RFC 1122 sec 3.2.1 checks, over the octets of the
    span a pointer names; then what they say of each other: a header that was built reads back, is
    accepted, and its checksum holds. *)
From S2P Require Import Prelude Base.

Module Ipv4.
Import Endian Checksum.

(** ** Layout (ipv4_defines.h) *)
Definition IDEMIP_IPV4_HDR_LEN : Z := 20.
Definition IDEMIP_IP4_OFF_VER_IHL : Z := 0.
Definition IDEMIP_IP4_OFF_TOS : Z := 1.
Definition IDEMIP_IP4_OFF_TOTAL_LEN : Z := 2.
Definition IDEMIP_IP4_OFF_ID : Z := 4.
Definition IDEMIP_IP4_OFF_FLAGS_FRAG : Z := 6.
Definition IDEMIP_IP4_OFF_TTL : Z := 8.
Definition IDEMIP_IP4_OFF_PROTO : Z := 9.
Definition IDEMIP_IP4_OFF_CKSUM : Z := 10.
Definition IDEMIP_IP4_OFF_SRC : Z := 12.
Definition IDEMIP_IP4_OFF_DST : Z := 16.
Definition IDEMIP_IP4_OFF_OPTIONS : Z := 20.
Definition IDEMIP_IP4_VERSION : Z := 4.
Definition IDEMIP_IP4_VER_SHIFT : Z := 4.
Definition IDEMIP_IP4_VER_MASK : Z := 0x0F.
Definition IDEMIP_IP4_IHL_MASK : Z := 0x0F.
Definition IDEMIP_IP4_IHL_MIN : Z := 5.
Definition IDEMIP_IP4_IHL_MAX : Z := 15.
Definition IDEMIP_IP4_IHL_SHIFT : Z := 2.
Definition IDEMIP_IP4_TOTAL_LEN_MAX : Z := 65535.
Definition IDEMIP_IP4_FLAG_RESERVED : Z := 0x8000.
Definition IDEMIP_IP4_FLAG_DF : Z := 0x4000.
Definition IDEMIP_IP4_FLAG_MF : Z := 0x2000.
Definition IDEMIP_IP4_FRAG_OFF_MASK : Z := 0x1FFF.
Definition IDEMIP_IP4_FRAG_UNIT : Z := 8.
Definition IDEMIP_IP4_FRAG_SHIFT : Z := 3.

Record IdemIpIp4Fields := mkFields {
  f_tos : Z;
  f_total_len : Z;
  f_id : Z;
  f_flags_frag : Z;
  f_ttl : Z;
  f_proto : Z;
  f_src : Z;
  f_dst : Z }.

(** ** Reading a field *)
Definition ip4_version (h : list Z) : Z :=
  u8 (Z.land (Z.shiftr (tget h IDEMIP_IP4_OFF_VER_IHL) IDEMIP_IP4_VER_SHIFT) IDEMIP_IP4_VER_MASK).
Definition ip4_ihl (h : list Z) : Z := u8 (Z.land (tget h IDEMIP_IP4_OFF_VER_IHL) IDEMIP_IP4_IHL_MASK).
Definition ip4_hdr_len (h : list Z) : Z := Z.shiftl (ip4_ihl h) IDEMIP_IP4_IHL_SHIFT.
Definition ip4_tos (h : list Z) : Z := tget h IDEMIP_IP4_OFF_TOS.
Definition ip4_total_len (h : list Z) : Z := rd16 h IDEMIP_IP4_OFF_TOTAL_LEN.
Definition ip4_id (h : list Z) : Z := rd16 h IDEMIP_IP4_OFF_ID.
Definition ip4_flags_frag (h : list Z) : Z := rd16 h IDEMIP_IP4_OFF_FLAGS_FRAG.
Definition ip4_reserved (h : list Z) : bool := negb (Z.land (ip4_flags_frag h) IDEMIP_IP4_FLAG_RESERVED =? 0).
Definition ip4_df (h : list Z) : bool := negb (Z.land (ip4_flags_frag h) IDEMIP_IP4_FLAG_DF =? 0).
Definition ip4_mf (h : list Z) : bool := negb (Z.land (ip4_flags_frag h) IDEMIP_IP4_FLAG_MF =? 0).
Definition ip4_frag_units (h : list Z) : Z := u16 (Z.land (ip4_flags_frag h) IDEMIP_IP4_FRAG_OFF_MASK).
Definition ip4_frag_offset_bytes (h : list Z) : Z := u32 (Z.shiftl (ip4_frag_units h) IDEMIP_IP4_FRAG_SHIFT).
Definition ip4_is_fragment (h : list Z) : bool :=
  negb (Z.land (ip4_flags_frag h) (Z.lor IDEMIP_IP4_FLAG_MF IDEMIP_IP4_FRAG_OFF_MASK) =? 0).
Definition ip4_ttl (h : list Z) : Z := tget h IDEMIP_IP4_OFF_TTL.
Definition ip4_proto (h : list Z) : Z := tget h IDEMIP_IP4_OFF_PROTO.
Definition ip4_cksum (h : list Z) : Z := rd16 h IDEMIP_IP4_OFF_CKSUM.
Definition ip4_src (h : list Z) : Z := rd32 h IDEMIP_IP4_OFF_SRC.
Definition ip4_dst (h : list Z) : Z := rd32 h IDEMIP_IP4_OFF_DST.
Definition ip4_payload_len (h : list Z) : Z := u16 (ip4_total_len h - u16 (ip4_hdr_len h)).
Definition ip4_options (h : list Z) : list Z := drop (Z.to_nat IDEMIP_IP4_OFF_OPTIONS) h.
(** [size_t] subtraction; read after [ip4_ihl_ok]. *)
Definition ip4_options_len (h : list Z) : Z := u64 (ip4_hdr_len h - IDEMIP_IPV4_HDR_LEN).

(** ** Writing a field *)
Definition ip4_set_ver_ihl (w : list Z) (ihl : Z) : list Z :=
  tset w IDEMIP_IP4_OFF_VER_IHL
    (u8 (Z.lor (Z.shiftl IDEMIP_IP4_VERSION IDEMIP_IP4_VER_SHIFT) (Z.land ihl IDEMIP_IP4_IHL_MASK))).
Definition ip4_set_tos (w : list Z) (v : Z) : list Z := tset w IDEMIP_IP4_OFF_TOS v.
Definition ip4_set_total_len (w : list Z) (v : Z) : list Z := wr16 w IDEMIP_IP4_OFF_TOTAL_LEN v.
Definition ip4_set_id (w : list Z) (v : Z) : list Z := wr16 w IDEMIP_IP4_OFF_ID v.
Definition ip4_set_flags_frag (w : list Z) (v : Z) : list Z := wr16 w IDEMIP_IP4_OFF_FLAGS_FRAG v.
Definition ip4_set_ttl (w : list Z) (v : Z) : list Z := tset w IDEMIP_IP4_OFF_TTL v.
Definition ip4_set_proto (w : list Z) (v : Z) : list Z := tset w IDEMIP_IP4_OFF_PROTO v.
Definition ip4_set_cksum (w : list Z) (v : Z) : list Z := wr16 w IDEMIP_IP4_OFF_CKSUM v.
Definition ip4_set_src (w : list Z) (v : Z) : list Z := wr32 w IDEMIP_IP4_OFF_SRC v.
Definition ip4_set_dst (w : list Z) (v : Z) : list Z := wr32 w IDEMIP_IP4_OFF_DST v.

Section Build.
(** The build's checksum route (see [Checksum]). *)
Variable word : option nat.
Variable swap : bool.

Definition ip4_recksum (w : list Z) : list Z :=
  let w := ip4_set_cksum w 0 in
  ip4_set_cksum w (cksum_over word swap (take (Z.to_nat (ip4_hdr_len w)) w)).

Definition ip4_build (w : list Z) (f : IdemIpIp4Fields) : list Z :=
  let w := ip4_set_ver_ihl w IDEMIP_IP4_IHL_MIN in
  let w := ip4_set_tos w (f_tos f) in
  let w := ip4_set_total_len w (f_total_len f) in
  let w := ip4_set_id w (f_id f) in
  let w := ip4_set_flags_frag w (f_flags_frag f) in
  let w := ip4_set_ttl w (f_ttl f) in
  let w := ip4_set_proto w (f_proto f) in
  let w := ip4_set_src w (f_src f) in
  let w := ip4_set_dst w (f_dst f) in
  ip4_recksum w.

(** ** The checks RFC 1122 sec 3.2.1 puts on a received datagram *)
Definition ip4_version_ok (h : list Z) : bool := ip4_version h =? IDEMIP_IP4_VERSION.
Definition ip4_ihl_ok (h : list Z) : bool :=
  (IDEMIP_IP4_IHL_MIN <=? ip4_ihl h) && (ip4_ihl h <=? IDEMIP_IP4_IHL_MAX).
Definition ip4_len_ok (h : list Z) (avail : Z) : bool :=
  let hdr := ip4_hdr_len h in
  let total := ip4_total_len h in
  (hdr <=? avail) && (hdr <=? total) && (total <=? avail).
Definition ip4_cksum_ok (h : list Z) : bool := cksum_valid word swap (take (Z.to_nat (ip4_hdr_len h)) h).

Definition ip4_verify_all (h : list Z) (avail : Z) : IdemIpStatus :=
  if avail <? IDEMIP_IPV4_HDR_LEN then IDEMIP_ERR
  else if negb (ip4_version_ok h) || negb (ip4_ihl_ok h) then IDEMIP_ERR
  else if negb (ip4_len_ok h avail) || negb (ip4_cksum_ok h) then IDEMIP_ERR
  else IDEMIP_OK.
End Build.

(** ** Arithmetic over a subnet mask *)
Definition ip4_mask_ones (mask : Z) : Z :=
  let n := u32 (mask - Z.land (Z.shiftr mask 1) 0x55555555) in
  let n := u32 (Z.land n 0x33333333 + Z.land (Z.shiftr n 2) 0x33333333) in
  let n := Z.land (u32 (n + Z.shiftr n 4)) 0x0F0F0F0F in
  let n := u32 (n + Z.shiftr n 8) in
  let n := u32 (n + Z.shiftr n 16) in
  u8 (Z.land n 0x3F).

Definition ip4_mask_contiguous (mask : Z) : bool :=
  let host := u32 (u32 (Z.lnot mask) + 1) in
  Z.land host (u32 (host - 1)) =? 0.

(** ** A built header *)
Definition fields_ok (f : IdemIpIp4Fields) : Prop :=
  is_u8 (f_tos f) ∧ is_u16 (f_total_len f) ∧ is_u16 (f_id f) ∧ is_u16 (f_flags_frag f) ∧
  is_u8 (f_ttl f) ∧ is_u8 (f_proto f) ∧ is_u32 (f_src f) ∧ is_u32 (f_dst f).

(** The twenty octets of an option-free header with the checksum field [ck]. *)
Definition header (f : IdemIpIp4Fields) (ck : Z) : list Z :=
  [0x45; f_tos f; f_total_len f / 256; f_total_len f mod 256; f_id f / 256; f_id f mod 256;
   f_flags_frag f / 256; f_flags_frag f mod 256; f_ttl f; f_proto f; ck / 256; ck mod 256;
   f_src f / 16777216; f_src f / 65536 mod 256; f_src f / 256 mod 256; f_src f mod 256;
   f_dst f / 16777216; f_dst f / 65536 mod 256; f_dst f / 256 mod 256; f_dst f mod 256].

Definition sealed (word : option nat) (swap : bool) (f : IdemIpIp4Fields) : Z :=
  cksum_over word swap (header f 0).

Lemma header_octets f ck : fields_ok f → is_u16 ck → octets (header f ck).
Proof.
  intros (?&Htl%u16_octets&Hid%u16_octets&Hfl%u16_octets&?&?&Hs%u32_octets&Hd%u32_octets) Hck%u16_octets.
  unfold octets, header. repeat constructor; unfold is_u8 in *; lia.
Qed.

Lemma header_sum f ck : fields_ok f → is_u16 ck → words_sum (header f ck) = words_sum (header f 0) + ck.
Proof.
  intros Hf Hck%u16_octets. unfold header. cbn [words_sum].
  change (0 / 256) with 0. change (0 mod 256) with 0. lia.
Qed.

Lemma header_sum_pos f : fields_ok f → 0 < words_sum (header f 0).
Proof.
  intros Hf. pose proof (header_octets f 0 Hf ltac:(unfold is_u16; lia)) as Ho.
  unfold header in *. apply Forall_cons in Ho as [_ [Ht Ho]%Forall_cons]. apply words_sum_nonneg in Ho.
  cbn [words_sum] in *. unfold is_u8 in Ht. lia.
Qed.

Lemma sealed_range word swap f : build word → fields_ok f → is_u16 (sealed word swap f).
Proof.
  intros Hb Hf. pose proof (header_octets f 0 Hf ltac:(unfold is_u16; lia)) as Ho.
  unfold sealed. rewrite cksum_over_eq by (done || simpl; lia).
  pose proof (ones_range (words_sum (header f 0)) (words_sum_nonneg _ Ho)). unfold is_u16. lia.
Qed.

(** RFC 1071 sec 1: a header that carries its checksum sums to all ones. *)
Lemma sealed_valid word swap f : build word → fields_ok f →
  cksum_valid word swap (header f (sealed word swap f)) = true.
Proof.
  intros Hb Hf. pose proof (sealed_range word swap f Hb Hf) as Hr.
  apply cksum_valid_iff; [done|by apply header_octets|simpl; lia|].
  rewrite header_sum by done. unfold sealed in *.
  pose proof (header_octets f 0 Hf ltac:(unfold is_u16; lia)) as Ho. rewrite cksum_over_eq in * by (done || simpl; lia).
  pose proof (header_sum_pos f Hf) as Hpos. unfold is_u16 in Hr.
  destruct (oc_of_ones (words_sum (header f 0)) ltac:(lia)) as (?&_&Hm&_).
  split; [lia|]. Z.div_mod_to_equations; lia.
Qed.

Lemma ip4_build_eq word swap w f : fields_ok f → build word → (20 ≤ length w)%nat →
  ip4_build word swap w f = header f (sealed word swap f) ++ drop 20 w.
Proof.
  intros Hf Hb Hl. pose proof Hf as (?&?&?&?&?&?&?&?).
  do 20 (destruct w as [|? w]; [simpl in Hl; lia|]). unfold ip4_build.
  unfold ip4_set_ver_ihl. change (u8 _) with 0x45. write_field.
  unfold ip4_set_tos. write_field. unfold ip4_set_total_len. write_field. unfold ip4_set_id. write_field.
  unfold ip4_set_flags_frag. write_field. unfold ip4_set_ttl. write_field. unfold ip4_set_proto. write_field.
  unfold ip4_set_src. write_field. unfold ip4_set_dst. write_field.
  unfold ip4_recksum, ip4_set_cksum at 2 3. assert (is_u16 0) by (unfold is_u16; lia). write_field.
  change (Z.to_nat (ip4_hdr_len _)) with 20%nat. cbn [take].
  change (cksum_over word swap _) with (sealed word swap f). unfold ip4_set_cksum.
  pose proof (sealed_range word swap f Hb Hf). by write_field.
Qed.

(** ** What an accepted header guarantees *)
Lemma tget_octet h i : octets h → is_u8 (tget h i).
Proof.
  intros Hh. unfold tget. destruct (h !! Z.to_nat i) as [b|] eqn:E.
  - rewrite (list_lookup_total_correct _ _ _ E). by eapply Forall_lookup_1.
  - rewrite list_lookup_total_alt, E. cbn. unfold is_u8. lia.
Qed.
Lemma rd32_u32 p off : octets p → is_u32 (rd32 p off).
Proof.
  intros Ho. unfold rd32, endian_rd32. assert (octets (drop (Z.to_nat off) p)) as Hd by (by apply Forall_drop). set (q := drop _ _) in *. clearbody q.
  pose proof (tget_octet q 0 Hd) as H0. pose proof (tget_octet q 1 Hd) as H1. pose proof (tget_octet q 2 Hd) as H2. pose proof (tget_octet q 3 Hd) as H3. unfold is_u8 in *.
  rewrite <- !Z.lor_assoc, (lor_shiftl (tget q 2)) by lia. rewrite (lor_shiftl (tget q 1)) by lia. rewrite lor_shiftl by lia. unfold is_u32. lia.
Qed.

Lemma rd16_range p off : is_u16 (rd16 p off).
Proof. apply u16_range. Qed.

Lemma land_0f x : Z.land x 0x0F = x mod 16.
Proof. change 0x0F with (Z.ones 4). by rewrite Z.land_ones. Qed.

Lemma ip4_ihl_eq h : octets h → ip4_ihl h = tget h 0 mod 16 ∧ 0 ≤ ip4_ihl h < 16.
Proof.
  intros Hh. unfold ip4_ihl, IDEMIP_IP4_IHL_MASK, IDEMIP_IP4_OFF_VER_IHL. rewrite land_0f.
  pose proof (Z.mod_pos_bound (tget h 0) 16). rewrite u8_id by (unfold is_u8; lia). lia.
Qed.

Lemma ip4_version_eq h : octets h → ip4_version h = tget h 0 / 16.
Proof.
  intros Hh. unfold ip4_version, IDEMIP_IP4_VER_SHIFT, IDEMIP_IP4_VER_MASK, IDEMIP_IP4_OFF_VER_IHL.
  pose proof (tget_octet h 0 Hh) as Hb. rewrite Z.shiftr_div_pow2, land_0f by lia. change (2 ^ 4) with 16. wrap.
Qed.

Lemma ip4_hdr_len_eq h : ip4_hdr_len h = 4 * ip4_ihl h.
Proof. unfold ip4_hdr_len, IDEMIP_IP4_IHL_SHIFT. rewrite shiftl_mul by lia. lia. Qed.

Lemma ip4_verify_ok word swap h avail :
  octets h → ip4_verify_all word swap h avail = IDEMIP_OK →
  IDEMIP_IPV4_HDR_LEN ≤ ip4_hdr_len h ≤ 60 ∧ ip4_hdr_len h ≤ ip4_total_len h ≤ avail ∧
  ip4_payload_len h = ip4_total_len h - ip4_hdr_len h ∧ is_u16 (ip4_total_len h).
Proof.
  intros Hh Hv. pose proof (rd16_range h IDEMIP_IP4_OFF_TOTAL_LEN) as Ht. fold (ip4_total_len h) in Ht.
  unfold ip4_verify_all in Hv. repeat split_if; try done.
  unfold ip4_ihl_ok, ip4_len_ok, IDEMIP_IP4_IHL_MIN, IDEMIP_IPV4_HDR_LEN in *. bool_prop.
  pose proof (ip4_ihl_eq h Hh) as [_ ?]. unfold ip4_payload_len. rewrite ip4_hdr_len_eq in *. wrap.
Qed.

Lemma ip4_frag_offset_eq h :
  ip4_frag_offset_bytes h = 8 * (ip4_flags_frag h mod 8192) ∧ 0 ≤ ip4_frag_offset_bytes h ≤ 65528.
Proof.
  unfold ip4_frag_offset_bytes, ip4_frag_units, IDEMIP_IP4_FRAG_OFF_MASK, IDEMIP_IP4_FRAG_SHIFT.
  change 0x1FFF with (Z.ones 13). rewrite Z.land_ones, shiftl_mul by lia. change (2 ^ 13) with 8192.
  change (2 ^ 3) with 8. pose proof (Z.mod_pos_bound (ip4_flags_frag h) 8192 ltac:(lia)).
  rewrite u16_id, u32_id by (wrap_unfold; lia). lia.
Qed.

(** Functional: [ip4_verify_all] accepts exactly the headers RFC 791 and RFC 1122 sec 3.2.1 call
    good over the readable octets - twenty of them, version 4, IHL at least five, a Total Length that
    covers the header and fits, and 16-bit words of the header that sum to a nonzero multiple of
    65535 - and on those the payload length is Total Length less the header, with no wrap. *)
Theorem ip4_verify_spec (word : option nat) (swap : bool) (h : list Z) (avail : Z)
    (Hb : build word) (Hh : octets h) (Ha : avail ≤ Z.of_nat (length h)) :
  (ip4_verify_all word swap h avail = IDEMIP_OK ↔
   20 ≤ avail ∧ tget h 0 / 16 = 4 ∧ 5 ≤ tget h 0 mod 16 ∧
   4 * (tget h 0 mod 16) ≤ ip4_total_len h ≤ avail ∧
   words_sum (take (Z.to_nat (4 * (tget h 0 mod 16))) h) ≠ 0 ∧
   words_sum (take (Z.to_nat (4 * (tget h 0 mod 16))) h) mod 65535 = 0) ∧
  (ip4_verify_all word swap h avail = IDEMIP_OK →
   ip4_payload_len h = ip4_total_len h - 4 * (tget h 0 mod 16) ∧ 0 ≤ ip4_payload_len h).
Proof.
  destruct (ip4_ihl_eq h Hh) as [Ei Hi]. pose proof (ip4_version_eq h Hh) as Ev.
  pose proof (ip4_hdr_len_eq h) as El. rewrite Ei in El. split.
  2: { intros (?&?&Hp&?)%ip4_verify_ok; [|done]. rewrite Hp, El. rewrite El in *. lia. }
  assert (ip4_cksum_ok word swap h = true ↔
    words_sum (take (Z.to_nat (4 * (tget h 0 mod 16))) h) ≠ 0 ∧
    words_sum (take (Z.to_nat (4 * (tget h 0 mod 16))) h) mod 65535 = 0) as Hck.
  { unfold ip4_cksum_ok. rewrite El. apply cksum_valid_iff; [done|by apply Forall_take|].
    rewrite length_take. lia. }
  unfold ip4_verify_all, ip4_version_ok, ip4_ihl_ok, ip4_len_ok, IDEMIP_IPV4_HDR_LEN, IDEMIP_IP4_VERSION,
    IDEMIP_IP4_IHL_MIN, IDEMIP_IP4_IHL_MAX. rewrite Ev, El, Ei.
  destruct (ip4_cksum_ok word swap h); repeat split_if; split; intros; simplify_eq; intuition (try lia; try discriminate).
Qed.

Lemma ip4_verify_spec_witness :
  let h := ip4_build (Some 4%nat) false (replicate 84 0xAA) (mkFields 0 84 1 0 64 1 2 3) in
  ip4_payload_len h = ip4_total_len h - 4 * (tget h 0 mod 16) ∧ 0 ≤ ip4_payload_len h.
Proof.
  refine (proj2 (ip4_verify_spec (Some 4%nat) false _ 84 _ _ _) _).
  - right; left; reflexivity.
  - vm_compute. repeat constructor; discriminate.
  - vm_compute. discriminate.
  - vm_compute. reflexivity.
Defined.

(** Round trip: a header built over any twenty octets reads back every field it was given,
    passes every check of [ip4_verify_all] whenever its Total Length covers the header and fits the
    readable octets, and leaves everything past the header alone. *)
Theorem ip4_build_roundtrip (word : option nat) (swap : bool) (w : list Z) (f : IdemIpIp4Fields) (avail : Z)
    (Hb : build word) (Hf : fields_ok f) (Hl : (20 ≤ length w)%nat)
    (Hlen : IDEMIP_IPV4_HDR_LEN ≤ f_total_len f ≤ avail) :
  let h := ip4_build word swap w f in
  ip4_verify_all word swap h avail = IDEMIP_OK ∧
  (ip4_tos h, ip4_total_len h, ip4_id h, ip4_flags_frag h) = (f_tos f, f_total_len f, f_id f, f_flags_frag f) ∧
  (ip4_ttl h, ip4_proto h, ip4_src h, ip4_dst h) = (f_ttl f, f_proto f, f_src f, f_dst f) ∧
  ip4_hdr_len h = IDEMIP_IPV4_HDR_LEN ∧ ip4_payload_len h = f_total_len f - IDEMIP_IPV4_HDR_LEN ∧
  length h = length w ∧ drop 20 h = drop 20 w.
Proof.
  cbv zeta. rewrite ip4_build_eq by done. pose proof (sealed_valid word swap f Hb Hf) as Hv.
  set (ck := sealed word swap f) in *. set (h := header f ck ++ drop 20 w).
  pose proof Hf as (?&Htl%u16_octets&Hid%u16_octets&Hfl%u16_octets&?&?&Hs%u32_octets&Hd%u32_octets).
  assert (ip4_total_len h = f_total_len f) as Etl.
  { unfold ip4_total_len, rd16. change (endian_rd16 _) with
      (endian_rd16 (f_total_len f / 256 :: f_total_len f mod 256 :: drop 4 h)). rewrite rd16_bytes; tauto. }
  assert (ip4_id h = f_id f) as Eid.
  { unfold ip4_id, rd16. change (endian_rd16 _) with
      (endian_rd16 (f_id f / 256 :: f_id f mod 256 :: drop 6 h)). rewrite rd16_bytes; tauto. }
  assert (ip4_flags_frag h = f_flags_frag f) as Efl.
  { unfold ip4_flags_frag, rd16. change (endian_rd16 _) with
      (endian_rd16 (f_flags_frag f / 256 :: f_flags_frag f mod 256 :: drop 8 h)). rewrite rd16_bytes; tauto. }
  assert (ip4_src h = f_src f) as Es.
  { unfold ip4_src, rd32. change (endian_rd32 _) with (endian_rd32 (f_src f / 16777216 ::
      f_src f / 65536 mod 256 :: f_src f / 256 mod 256 :: f_src f mod 256 :: drop 16 h)). rewrite rd32_bytes; tauto. }
  assert (ip4_dst h = f_dst f) as Ed.
  { unfold ip4_dst, rd32. change (endian_rd32 _) with (endian_rd32 (f_dst f / 16777216 ::
      f_dst f / 65536 mod 256 :: f_dst f / 256 mod 256 :: f_dst f mod 256 :: drop 20 h)). rewrite rd32_bytes; tauto. }
  rewrite Etl, Eid, Efl, Es, Ed. change (ip4_hdr_len h) with 20. change (ip4_tos h) with (f_tos f).
  change (ip4_ttl h) with (f_ttl f). change (ip4_proto h) with (f_proto f). unfold IDEMIP_IPV4_HDR_LEN in *.
  split_and!; try done.
  - unfold ip4_verify_all, IDEMIP_IPV4_HDR_LEN. rewrite (proj2 (Z.ltb_ge _ _)) by lia.
    change (ip4_version_ok h) with true. change (ip4_ihl_ok h) with true. cbn [negb orb].
    unfold ip4_len_ok. rewrite Etl. change (ip4_hdr_len h) with 20. rewrite !(proj2 (Z.leb_le _ _)) by lia.
    unfold ip4_cksum_ok. change (ip4_hdr_len h) with 20. change (take (Z.to_nat 20) h) with (header f ck).
    by rewrite Hv.
  - unfold ip4_payload_len. rewrite Etl. change (ip4_hdr_len h) with 20. unfold u16 at 2. wrap.
  - unfold h. rewrite length_app, length_drop. simpl. lia.
Qed.

(** The example header of a datagram from 192.168.1.2 to 192.168.1.1. *)
Definition fields_example : IdemIpIp4Fields := mkFields 0 84 0x1C46 0x4000 64 1 0xC0A80102 0xC0A80101.

Lemma ip4_build_roundtrip_witness :
  ip4_verify_all (Some 8%nat) true (ip4_build (Some 8%nat) true (replicate 30 0xAA) fields_example) 84 = IDEMIP_OK.
Proof.
  refine (proj1 (ip4_build_roundtrip (Some 8%nat) true (replicate 30 0xAA) fields_example 84 _ _ _ _)).
  - right; right; reflexivity.
  - repeat split; vm_compute; congruence.
  - simpl. lia.
  - vm_compute. split; discriminate.
Defined.
End Ipv4.
