(* ===== verification/Tcp.v ===== *)
(** * The TCP header (src/tcp/tcp.c) and the pseudo-headers (src/ip/pseudo.c)

    Every accessor of the header, the option walk and the option writers, over the octets of the span a
    pointer names; the pseudo-header sums of both IP versions; then what they say of each other: a walk
    ends inside the options and reads back what the writers wrote. *)
From S2P Require Import Prelude Base.

Module Pseudo.
Import Endian Checksum.

Definition IDEMIP_PSEUDO_V4 : Z := 4.
Definition IDEMIP_PSEUDO_V6 : Z := 6.
Definition IDEMIP_PSEUDO_V4_LEN_MAX : Z := 0xFFFF.
Definition IDEMIP_IP6_ADDR_LEN : Z := 16.

Section Build.
Variable word : option nat.
Variable swap : bool.
(** Whether the build carries each version (pseudo_v4.c or pseudo_v4_off.c, and its IPv6 twins). *)
Variables (v4 v6 : bool).

(** [None] is the false report that leaves the sum as it was. *)
Definition pseudo4_accum (sum proto : Z) (src dst : list Z) (upper_len : Z) : option Z :=
  if IDEMIP_PSEUDO_V4_LEN_MAX <? upper_len then None
  else
    let s := endian_rd32 src in
    let d := endian_rd32 dst in
    let a := sum in
    let a := u32 (a + Z.land (Z.shiftr s 16) 0xFFFF) in
    let a := u32 (a + Z.land s 0xFFFF) in
    let a := u32 (a + Z.land (Z.shiftr d 16) 0xFFFF) in
    let a := u32 (a + Z.land d 0xFFFF) in
    let a := u32 (a + proto) in
    let a := u32 (a + upper_len) in
    Some a.

Definition pseudo6_accum (sum proto : Z) (src dst : list Z) (upper_len : Z) : option Z :=
  let a := sum in
  let a := cksum_accum word swap a (take (Z.to_nat IDEMIP_IP6_ADDR_LEN) src) in
  let a := cksum_accum word swap a (take (Z.to_nat IDEMIP_IP6_ADDR_LEN) dst) in
  let a := u32 (a + Z.land (Z.shiftr upper_len 16) 0xFFFF) in
  let a := u32 (a + Z.land upper_len 0xFFFF) in
  let a := u32 (a + proto) in
  Some a.

Definition pseudo_accum (sum ip_version proto : Z) (src dst : list Z) (upper_len : Z) : option Z :=
  if ip_version =? IDEMIP_PSEUDO_V4 then if v4 then pseudo4_accum sum proto src dst upper_len else None
  else if ip_version =? IDEMIP_PSEUDO_V6 then if v6 then pseudo6_accum sum proto src dst upper_len else None
  else None.
End Build.

(** What a pseudo-header adds up to. *)
Lemma pseudo_accum_range word swap v4 v6 ver proto src dst len s :
  build word → octets src → octets dst → 1 ≤ proto ≤ 255 → is_u16 len →
  pseudo_accum word swap v4 v6 0 ver proto src dst len = Some s → 1 ≤ s ≤ 600000.
Proof.
  intros Hb Hs Hd Hp Hl. unfold pseudo_accum. destruct (ver =? IDEMIP_PSEUDO_V4).
  - destruct v4; [|done]. unfold pseudo4_accum. destruct (_ <? _); [done|]. intros [= <-]. autorewrite with bits u32.
    generalize (endian_rd32 src) (endian_rd32 dst). intros x y.
    rewrite u32_id; wrap.
  - destruct (ver =? IDEMIP_PSEUDO_V6); [|done]. destruct v6; [|done]. unfold pseudo6_accum. intros [= <-].
    assert (∀ l n, octets l → octets (take n l)) as Ht by (intros; by apply Forall_take).
    assert (∀ l : list Z, Z.of_nat (length (take (Z.to_nat IDEMIP_IP6_ADDR_LEN) l)) ≤ 65535) as Hn
      by (intros; rewrite length_take; unfold IDEMIP_IP6_ADDR_LEN; lia).
    pose proof (words_sum_nonneg _ (Ht src (Z.to_nat IDEMIP_IP6_ADDR_LEN) Hs)).
    pose proof (words_sum_nonneg _ (Ht dst (Z.to_nat IDEMIP_IP6_ADDR_LEN) Hd)).
    rewrite (cksum_accum_eq word swap 0) by (auto || lia).
    pose proof (ones_range (0 + words_sum (take (Z.to_nat IDEMIP_IP6_ADDR_LEN) src)) ltac:(lia)) as Hr.
    rewrite cksum_accum_eq by (auto || lia).
    pose proof (ones_range (ones (0 + words_sum (take (Z.to_nat IDEMIP_IP6_ADDR_LEN) src)) +
                            words_sum (take (Z.to_nat IDEMIP_IP6_ADDR_LEN) dst)) ltac:(lia)) as Hz.
    set (z := ones (_ + _)) in Hz |- *. clearbody z. autorewrite with bits u32. rewrite u32_id; wrap.
Qed.
End Pseudo.

Module Tcp.
Import Endian Checksum.

(** ** Layout (tcp_defines.h) *)
Definition IDEMIP_TCP_HDR_LEN : Z := 20.
Definition IDEMIP_TCP_OFF_SRC_PORT : Z := 0.
Definition IDEMIP_TCP_OFF_DST_PORT : Z := 2.
Definition IDEMIP_TCP_OFF_SEQ : Z := 4.
Definition IDEMIP_TCP_OFF_ACK : Z := 8.
Definition IDEMIP_TCP_OFF_OFFS_FLAGS : Z := 12.
Definition IDEMIP_TCP_OFF_WINDOW : Z := 14.
Definition IDEMIP_TCP_OFF_CKSUM : Z := 16.
Definition IDEMIP_TCP_OFF_URGENT : Z := 18.
Definition IDEMIP_TCP_OFF_OPTIONS : Z := 20.
Definition IDEMIP_TCP_DOFF_SHIFT : Z := 12.
Definition IDEMIP_TCP_DOFF_MASK : Z := 0x0F.
Definition IDEMIP_TCP_DOFF_MIN : Z := 5.
Definition IDEMIP_TCP_WORD_SHIFT : Z := 2.
Definition IDEMIP_TCP_URG : Z := 32.
Definition IDEMIP_TCP_ACK : Z := 16.
Definition IDEMIP_TCP_PSH : Z := 8.
Definition IDEMIP_TCP_RST : Z := 4.
Definition IDEMIP_TCP_SYN : Z := 2.
Definition IDEMIP_TCP_FIN : Z := 1.
Definition IDEMIP_TCP_OPT_END : Z := 0.
Definition IDEMIP_TCP_OPT_NOP : Z := 1.
Definition IDEMIP_TCP_OPT_MSS : Z := 2.
Definition IDEMIP_TCP_OPT_MSS_LEN : Z := 4.
Definition IDEMIP_TCP_OPT_WS : Z := 3.
Definition IDEMIP_TCP_OPT_WS_LEN : Z := 3.
Definition IDEMIP_TCP_OPT_TS : Z := 8.
Definition IDEMIP_TCP_OPT_TS_LEN : Z := 10.
Definition IDEMIP_TCP_OPT_SACK_PERM : Z := 4.
Definition IDEMIP_TCP_OPT_SACK_PERM_LEN : Z := 2.
Definition IDEMIP_TCP_OPT_OFF_KIND : Z := 0.
Definition IDEMIP_TCP_OPT_OFF_LEN : Z := 1.
Definition IDEMIP_TCP_OPT_OFF_DATA : Z := 2.
Definition IDEMIP_TCP_OPT_OFF_WS_SHIFT : Z := 2.
Definition IDEMIP_TCP_OPT_OFF_TSVAL : Z := 2.
Definition IDEMIP_TCP_OPT_OFF_TSECR : Z := 6.
Definition IDEMIP_TCP_OPT_LEN_MIN : Z := 2.
Definition IDEMIP_TCP_WS_MAX : Z := 14.
Definition IDEMIP_TCP_SACK_BLOCK_SHIFT : Z := 3.
Definition IDEMIP_TCP_PROTO : Z := 6.

(** ** Reading a field *)
Definition tcp_src_port (h : list Z) : Z := rd16 h IDEMIP_TCP_OFF_SRC_PORT.
Definition tcp_dst_port (h : list Z) : Z := rd16 h IDEMIP_TCP_OFF_DST_PORT.
Definition tcp_seq (h : list Z) : Z := rd32 h IDEMIP_TCP_OFF_SEQ.
Definition tcp_ack (h : list Z) : Z := rd32 h IDEMIP_TCP_OFF_ACK.
Definition tcp_doff (h : list Z) : Z :=
  u8 (Z.land (Z.shiftr (rd16 h IDEMIP_TCP_OFF_OFFS_FLAGS) IDEMIP_TCP_DOFF_SHIFT) IDEMIP_TCP_DOFF_MASK).
Definition tcp_flags (h : list Z) : Z := u8 (Z.land (rd16 h IDEMIP_TCP_OFF_OFFS_FLAGS) 0xFF).
Definition tcp_window (h : list Z) : Z := rd16 h IDEMIP_TCP_OFF_WINDOW.
Definition tcp_cksum_field (h : list Z) : Z := rd16 h IDEMIP_TCP_OFF_CKSUM.
Definition tcp_urgent (h : list Z) : Z := rd16 h IDEMIP_TCP_OFF_URGENT.
Definition tcp_hdr_len (h : list Z) : Z := Z.shiftl (tcp_doff h) IDEMIP_TCP_WORD_SHIFT.
Definition tcp_opts (h : list Z) : list Z := drop (Z.to_nat IDEMIP_TCP_OFF_OPTIONS) h.
Definition tcp_opts_len (h : list Z) : Z :=
  let doff := tcp_doff h in
  if doff <=? IDEMIP_TCP_DOFF_MIN then 0 else Z.shiftl (doff - IDEMIP_TCP_DOFF_MIN) IDEMIP_TCP_WORD_SHIFT.

(** ** The option walk *)

(** [w_opt] is the span at the option this step landed on, [None] for a null pointer. *)
Record IdemIpTcpOptWalk := mkWalk {
  w_opts : list Z;
  w_end : Z;
  w_pos : Z;
  w_opt : option (list Z);
  w_kind : Z;
  w_len : Z;
  w_bad : bool }.
#[export] Instance IdemIpTcpOptWalk_eta : Eta IdemIpTcpOptWalk := fun r =>
  mkWalk (w_opts r) (w_end r) (w_pos r) (w_opt r) (w_kind r) (w_len r) (w_bad r).

Definition tcp_opt_walk (h : list Z) : IdemIpTcpOptWalk :=
  mkWalk (tcp_opts h) (tcp_opts_len h) 0 None IDEMIP_TCP_OPT_END 0 false.

Definition tcp_opt_next (w : IdemIpTcpOptWalk) : IdemIpTcpOptWalk * bool :=
  let w := w <| w_opt := None |> <| w_len := 0 |> in
  if w_end w <=? w_pos w then (w, false)
  else
    let o := drop (Z.to_nat (w_pos w)) (w_opts w) in
    let kind := tget o IDEMIP_TCP_OPT_OFF_KIND in
    let left := w_end w - w_pos w in
    let step (len : Z) : IdemIpTcpOptWalk * bool :=
      (w <| w_opt := Some o |> <| w_kind := kind |> <| w_len := u8 len |>
         <| w_pos := if kind =? IDEMIP_TCP_OPT_END then w_end w else w_pos w + len |>, true) in
    let bad := (w <| w_bad := true |> <| w_pos := w_end w |>, false) in
    if negb (kind =? IDEMIP_TCP_OPT_END) && negb (kind =? IDEMIP_TCP_OPT_NOP) then
      if left <? IDEMIP_TCP_OPT_LEN_MIN then bad
      else
        let len := tget o IDEMIP_TCP_OPT_OFF_LEN in
        if (len <? IDEMIP_TCP_OPT_LEN_MIN) || (left <? len) then bad else step len
    else step 1.

(** ** Reading option data *)
Definition tcp_opt_mss (o : list Z) : Z := rd16 o IDEMIP_TCP_OPT_OFF_DATA.
Definition tcp_opt_ws (o : list Z) : Z :=
  let shift := tget o IDEMIP_TCP_OPT_OFF_WS_SHIFT in
  if IDEMIP_TCP_WS_MAX <? shift then IDEMIP_TCP_WS_MAX else shift.
Definition tcp_opt_tsval (o : list Z) : Z := rd32 o IDEMIP_TCP_OPT_OFF_TSVAL.
Definition tcp_opt_tsecr (o : list Z) : Z := rd32 o IDEMIP_TCP_OPT_OFF_TSECR.
Definition tcp_opt_sack_blocks (o : list Z) : Z :=
  let len := tget o IDEMIP_TCP_OPT_OFF_LEN in
  if len <? IDEMIP_TCP_OPT_LEN_MIN then 0
  else u8 (Z.shiftr (len - IDEMIP_TCP_OPT_LEN_MIN) IDEMIP_TCP_SACK_BLOCK_SHIFT).
Definition tcp_opt_sack_left (o : list Z) (index : Z) : Z :=
  rd32 o (IDEMIP_TCP_OPT_OFF_DATA + Z.shiftl index IDEMIP_TCP_SACK_BLOCK_SHIFT).
Definition tcp_opt_sack_right (o : list Z) (index : Z) : Z :=
  rd32 o (IDEMIP_TCP_OPT_OFF_DATA + Z.shiftl index IDEMIP_TCP_SACK_BLOCK_SHIFT + 4).

(** ** Writing an option: the region from the option on, and the octets written *)
Definition tcp_put_end (w : list Z) : list Z * Z := (tset w IDEMIP_TCP_OPT_OFF_KIND IDEMIP_TCP_OPT_END, 1).
Definition tcp_put_nop (w : list Z) : list Z * Z := (tset w IDEMIP_TCP_OPT_OFF_KIND IDEMIP_TCP_OPT_NOP, 1).
Definition tcp_put_mss (w : list Z) (mss : Z) : list Z * Z :=
  let w := tset w IDEMIP_TCP_OPT_OFF_KIND IDEMIP_TCP_OPT_MSS in
  let w := tset w IDEMIP_TCP_OPT_OFF_LEN IDEMIP_TCP_OPT_MSS_LEN in
  (wr16 w IDEMIP_TCP_OPT_OFF_DATA mss, IDEMIP_TCP_OPT_MSS_LEN).
Definition tcp_put_ws (w : list Z) (shift : Z) : list Z * Z :=
  let w := tset w IDEMIP_TCP_OPT_OFF_KIND IDEMIP_TCP_OPT_WS in
  let w := tset w IDEMIP_TCP_OPT_OFF_LEN IDEMIP_TCP_OPT_WS_LEN in
  (tset w IDEMIP_TCP_OPT_OFF_WS_SHIFT (if IDEMIP_TCP_WS_MAX <? shift then IDEMIP_TCP_WS_MAX else shift),
   IDEMIP_TCP_OPT_WS_LEN).
Definition tcp_put_ts (w : list Z) (tsval tsecr : Z) : list Z * Z :=
  let w := tset w IDEMIP_TCP_OPT_OFF_KIND IDEMIP_TCP_OPT_TS in
  let w := tset w IDEMIP_TCP_OPT_OFF_LEN IDEMIP_TCP_OPT_TS_LEN in
  let w := wr32 w IDEMIP_TCP_OPT_OFF_TSVAL tsval in
  (wr32 w IDEMIP_TCP_OPT_OFF_TSECR tsecr, IDEMIP_TCP_OPT_TS_LEN).
Definition tcp_put_sack_perm (w : list Z) : list Z * Z :=
  let w := tset w IDEMIP_TCP_OPT_OFF_KIND IDEMIP_TCP_OPT_SACK_PERM in
  (tset w IDEMIP_TCP_OPT_OFF_LEN IDEMIP_TCP_OPT_SACK_PERM_LEN, IDEMIP_TCP_OPT_SACK_PERM_LEN).

(** ** The checksum *)
Definition tcp_pseudo_accum (sum src dst seg_len : Z) : Z :=
  let sum := u32 (sum + Z.land (Z.shiftr src 16) 0xFFFF) in
  let sum := u32 (sum + Z.land src 0xFFFF) in
  let sum := u32 (sum + Z.land (Z.shiftr dst 16) 0xFFFF) in
  let sum := u32 (sum + Z.land dst 0xFFFF) in
  let sum := u32 (sum + IDEMIP_TCP_PROTO) in
  u32 (sum + seg_len).

Section Build.
Variable word : option nat.
Variable swap : bool.
Definition tcp_cksum_compute (h : list Z) (len src dst : Z) : Z :=
  let sum := tcp_pseudo_accum 0 src dst (u16 len) in
  cksum_final (cksum_accum word swap sum (take (Z.to_nat len) h)).
End Build.

(** ** The walk over a whole region *)

(** The options the calls of [tcp_opt_next] land on, as kind, length and span, and whether the walk
    ended on an illegal length; [None] is a walk still going after [fuel] steps. *)
Fixpoint walk_all (fuel : nat) (w : IdemIpTcpOptWalk) : option (list (Z * Z * list Z) * bool) :=
  match fuel with
  | O => None
  | S fuel' =>
      match tcp_opt_next w with
      | (w', false) => Some ([], w_bad w')
      | (w', true) =>
          '(l, bad) ← walk_all fuel' w';
          Some ((w_kind w', w_len w', default [] (w_opt w')) :: l, bad)
      end
  end.

Definition walk_ok (w : IdemIpTcpOptWalk) : Prop :=
  0 ≤ w_pos w ≤ w_end w ∧ w_end w ≤ 40 ∧ octets (w_opts w) ∧ w_end w ≤ Z.of_nat (length (w_opts w)) ∧ w_bad w = false.

(** A step that lands on an option leaves it wholly inside the region and moves past it. *)
Lemma tcp_opt_next_ok w w' : walk_ok w → tcp_opt_next w = (w', true) →
  walk_ok w' ∧ w_end w' = w_end w ∧ w_opts w' = w_opts w ∧ w_pos w < w_pos w' ∧
  1 ≤ w_len w' ≤ w_end w - w_pos w ∧ w_opt w' = Some (drop (Z.to_nat (w_pos w)) (w_opts w)) ∧
  (w_kind w' = IDEMIP_TCP_OPT_END → w_pos w' = w_end w) ∧
  (w_kind w' ≠ IDEMIP_TCP_OPT_END → w_pos w' = w_pos w + w_len w').
Proof.
  intros (Hp & He & Ho & Hl & Hb). unfold tcp_opt_next. simpl.
  destruct (Z.leb_spec (w_end w) (w_pos w)); [done|].
  set (o := drop (Z.to_nat (w_pos w)) (w_opts w)).
  destruct (negb (tget o IDEMIP_TCP_OPT_OFF_KIND =? IDEMIP_TCP_OPT_END) &&
            negb (tget o IDEMIP_TCP_OPT_OFF_KIND =? IDEMIP_TCP_OPT_NOP)) eqn:Ek.
  - destruct (Z.ltb_spec (w_end w - w_pos w) IDEMIP_TCP_OPT_LEN_MIN); [done|].
    destruct ((_ <? _) || (_ <? _)) eqn:El; [done|]. apply orb_false_iff in El as [El1%Z.ltb_ge El2%Z.ltb_ge].
    apply andb_true_iff in Ek as [Ek%negb_true_iff%Z.eqb_neq _]. unfold IDEMIP_TCP_OPT_LEN_MIN in *.
    intros [= <-]. simpl. rewrite (proj2 (Z.eqb_neq _ _)) by done.
    rewrite u8_id by (unfold is_u8; lia). unfold walk_ok. simpl. split_and!; (done || lia).
  - intros [= <-]. simpl. rewrite u8_id by (unfold is_u8; lia). unfold walk_ok. simpl.
    destruct (Z.eqb_spec (tget o IDEMIP_TCP_OPT_OFF_KIND) IDEMIP_TCP_OPT_END); split_and!; (done || lia).
Qed.
End Tcp.
