(* ===== verification/TcpTypes.v ===== *)
(** * A connection's record (src/tcp/tcp_pcb.h)

    The eleven states of RFC 9293 section 3.3.2, the sequence variables of section 3.3.1 and the control
    record every TCP unit passes a connection in: what a load of the TCB table yields, what the arrival and
    the output paths change, and what a store puts back. *)
From S2P Require Import Prelude.

(** ** The states *)
Inductive IdemIpTcpState : Type :=
  | IDEMIP_TCP_STATE_CLOSED
  | IDEMIP_TCP_STATE_LISTEN
  | IDEMIP_TCP_STATE_SYN_SENT
  | IDEMIP_TCP_STATE_SYN_RECEIVED
  | IDEMIP_TCP_STATE_ESTABLISHED
  | IDEMIP_TCP_STATE_FIN_WAIT_1
  | IDEMIP_TCP_STATE_FIN_WAIT_2
  | IDEMIP_TCP_STATE_CLOSE_WAIT
  | IDEMIP_TCP_STATE_CLOSING
  | IDEMIP_TCP_STATE_LAST_ACK
  | IDEMIP_TCP_STATE_TIME_WAIT.

#[export] Instance IdemIpTcpState_eq_dec : EqDecision IdemIpTcpState.
Proof. solve_decision. Defined.
#[export] Instance IdemIpTcpState_inhabited : Inhabited IdemIpTcpState := populate IDEMIP_TCP_STATE_CLOSED.

Definition tcp_state_eqb (a b : IdemIpTcpState) : bool := bool_decide (a = b).

(** The enumeration's values, which the arrival path compares. *)
Definition tcp_state_num (s : IdemIpTcpState) : Z :=
  match s with
  | IDEMIP_TCP_STATE_CLOSED => 0
  | IDEMIP_TCP_STATE_LISTEN => 1
  | IDEMIP_TCP_STATE_SYN_SENT => 2
  | IDEMIP_TCP_STATE_SYN_RECEIVED => 3
  | IDEMIP_TCP_STATE_ESTABLISHED => 4
  | IDEMIP_TCP_STATE_FIN_WAIT_1 => 5
  | IDEMIP_TCP_STATE_FIN_WAIT_2 => 6
  | IDEMIP_TCP_STATE_CLOSE_WAIT => 7
  | IDEMIP_TCP_STATE_CLOSING => 8
  | IDEMIP_TCP_STATE_LAST_ACK => 9
  | IDEMIP_TCP_STATE_TIME_WAIT => 10
  end.

(** ** The send and receive sequence variables *)
Record IdemIpTcpVars := mkVars {
  snd_una : Z;
  snd_nxt : Z;
  snd_wnd : Z;
  snd_up : Z;
  snd_wl1 : Z;
  snd_wl2 : Z;
  iss : Z;
  rcv_nxt : Z;
  rcv_wnd : Z;
  rcv_up : Z;
  irs : Z }.
#[export] Instance IdemIpTcpVars_eta : Eta IdemIpTcpVars := fun r =>
  mkVars (snd_una r) (snd_nxt r) (snd_wnd r) (snd_up r) (snd_wl1 r) (snd_wl2 r) (iss r) (rcv_nxt r) (rcv_wnd r)
         (rcv_up r) (irs r).
Definition vars_zero : IdemIpTcpVars := mkVars 0 0 0 0 0 0 0 0 0 0 0.
#[export] Instance IdemIpTcpVars_inhabited : Inhabited IdemIpTcpVars := populate vars_zero.

(** ** The bits of the control record's flags *)
Definition IDEMIP_TCP_CTL_SYN_RTX : Z := 1.
Definition IDEMIP_TCP_CTL_TS_OK : Z := 2.

(** ** The estimator, congestion, option and keepalive state *)
Record TcpPcbCtl := mkCtl {
  srtt : Z;
  rttvar : Z;
  rto : Z;
  rtseq : Z;
  rtx_deadline : Z;
  persist_deadline : Z;
  cwnd : Z;
  ssthresh : Z;
  bytes_acked : Z;
  max_snd_wnd : Z;
  ts_recent : Z;
  last_ack_sent : Z;
  ts_recent_ms : Z;
  last_send_ms : Z;
  keep_idle_ms : Z;
  keep_intvl_ms : Z;
  time_wait_deadline : Z;
  sack_left : list Z;
  sack_right : list Z;
  rcv_ann_wnd : Z;
  ctl_mss : Z;
  ctl_flags : Z;
  keep_cnt : Z;
  snd_scale : Z;
  rcv_scale : Z;
  nrtx : Z;
  ctl_r2 : Z;
  ctl_r2_syn : Z;
  backoff : Z;
  dupacks : Z;
  keep_cnt_sent : Z }.
#[export] Instance TcpPcbCtl_eta : Eta TcpPcbCtl := fun r =>
  mkCtl (srtt r) (rttvar r) (rto r) (rtseq r) (rtx_deadline r) (persist_deadline r) (cwnd r) (ssthresh r)
        (bytes_acked r) (max_snd_wnd r) (ts_recent r) (last_ack_sent r) (ts_recent_ms r) (last_send_ms r)
        (keep_idle_ms r) (keep_intvl_ms r) (time_wait_deadline r) (sack_left r) (sack_right r) (rcv_ann_wnd r)
        (ctl_mss r) (ctl_flags r) (keep_cnt r) (snd_scale r) (rcv_scale r) (nrtx r) (ctl_r2 r) (ctl_r2_syn r)
        (backoff r) (dupacks r) (keep_cnt_sent r).

(** The zeroed record a [memset] leaves; [IDEMIP_TCP_SACK_BLOCKS_MAX] is four. *)
Definition ctl_zero : TcpPcbCtl :=
  mkCtl 0 0 0 0 0 0 0 0 0 0 0 0 0 0 0 0 0 (replicate 4 0) (replicate 4 0) 0 0 0 0 0 0 0 0 0 0 0 0.
#[export] Instance TcpPcbCtl_inhabited : Inhabited TcpPcbCtl := populate ctl_zero.

(** A connection no listener made. *)
Definition IDEMIP_TCP_PCB_NONE : Z := 0xFFFF.

(** Every variable fits its 32 bits. *)
Definition vars_ok (v : IdemIpTcpVars) : Prop :=
  is_u32 (snd_una v) ∧ is_u32 (snd_nxt v) ∧ is_u32 (snd_wnd v) ∧ is_u32 (snd_up v) ∧ is_u32 (snd_wl1 v) ∧
  is_u32 (snd_wl2 v) ∧ is_u32 (iss v) ∧ is_u32 (rcv_nxt v) ∧ is_u32 (rcv_wnd v) ∧ is_u32 (rcv_up v) ∧ is_u32 (irs v).

(** The members of the control record the arrival path writes fit theirs. *)
Definition ctl_ok (c : TcpPcbCtl) : Prop :=
  is_u32 (max_snd_wnd c) ∧ is_u32 (ts_recent c) ∧ is_u32 (last_ack_sent c) ∧ is_u32 (ts_recent_ms c) ∧
  is_u32 (time_wait_deadline c).
