(* ===== verification/TcpIn.v ===== *)
(** * SEGMENT ARRIVES (src/tcp/tcp_in.c)

    The arrival path of RFC 9293 section 3.10.7 over one connection's record: the operand block [TcpInIo],
    the context [TcpInCtx] with the challenge-ACK throttle, the sequence-space tests, the replies, the
    eight checks and the seven entries. *)
From S2P Require Import Prelude Base Tcp TcpTypes.

Module TcpIn.
Import Endian Checksum Pseudo Tcp.

(** ** What a call asks the caller to do (tcp_in.h) *)
Definition IDEMIP_TCP_IN_ACT_ACK : Z := 0x1.
Definition IDEMIP_TCP_IN_ACT_RST : Z := 0x2.
Definition IDEMIP_TCP_IN_ACT_TEXT : Z := 0x4.
Definition IDEMIP_TCP_IN_ACT_PUSH : Z := 0x8.
Definition IDEMIP_TCP_IN_ACT_URGENT : Z := 0x10.
Definition IDEMIP_TCP_IN_ACT_ESTABLISHED : Z := 0x20.
Definition IDEMIP_TCP_IN_ACT_CLOSING : Z := 0x40.
Definition IDEMIP_TCP_IN_ACT_RESET : Z := 0x80.
Definition IDEMIP_TCP_IN_ACT_REFUSED : Z := 0x100.
Definition IDEMIP_TCP_IN_ACT_LISTEN : Z := 0x200.
Definition IDEMIP_TCP_IN_ACT_DELETE : Z := 0x400.
Definition IDEMIP_TCP_IN_ACT_FLUSH : Z := 0x800.
Definition IDEMIP_TCP_IN_ACT_ACKED : Z := 0x1000.
Definition IDEMIP_TCP_IN_ACT_HOLD : Z := 0x2000.
Definition IDEMIP_TCP_IN_ACT_2MSL : Z := 0x4000.
Definition IDEMIP_TCP_IN_ACT_DUPACK : Z := 0x8000.
Definition IDEMIP_TCP_IN_ACT_WND : Z := 0x10000.
Definition IDEMIP_TCP_IN_ACT_CHALLENGE : Z := 0x20000.
Definition IDEMIP_TCP_IN_ACT_THROTTLED : Z := 0x40000.
Definition IDEMIP_TCP_IN_ACT_PAWS : Z := 0x80000.

Definition IDEMIP_TCP_IN_OPT_MSS : Z := 1.
Definition IDEMIP_TCP_IN_OPT_WS : Z := 2.
Definition IDEMIP_TCP_IN_OPT_TS : Z := 4.
Definition IDEMIP_TCP_IN_OPT_SACK_PERM : Z := 8.

(** The build's settings (idemip_config.h), at their defaults. *)
Definition IDEMIP_TCP_MSL_MS : Z := 120000.
Definition IDEMIP_TCP_TS_RECENT_MAX_MS : Z := 2073600000.
Definition IDEMIP_TCP_CHALLENGE_ACKS : Z := 10.
Definition IDEMIP_TCP_CHALLENGE_WINDOW_MS : Z := 5000.

(** ** The operand block *)

(** [None] is a null pointer. *)
Record TcpInParseArgs := mkParseArgs {
  pa_seg : option (list Z);
  pa_local_ip : option (list Z);
  pa_remote_ip : option (list Z);
  pa_len : Z;
  pa_ip_version : Z;
  pa_snd_scale : Z }.

Record TcpInSegArgs := mkSeg {
  seg_seq : Z;
  seg_ack : Z;
  seg_wnd : Z;
  seg_len : Z;
  seg_data_len : Z;
  seg_up : Z;
  seg_flags : Z }.
Definition seg_zero : TcpInSegArgs := mkSeg 0 0 0 0 0 0 0.

Record TcpInOpts := mkOpts {
  o_tsval : Z;
  o_tsecr : Z;
  o_mss : Z;
  o_hdr_len : Z;
  o_present : Z;
  o_ws : Z }.
#[export] Instance TcpInOpts_eta : Eta TcpInOpts := fun r =>
  mkOpts (o_tsval r) (o_tsecr r) (o_mss r) (o_hdr_len r) (o_present r) (o_ws r).
Definition opts_zero : TcpInOpts := mkOpts 0 0 0 0 0 0.

Record TcpInReply := mkReply {
  reply_seq : Z;
  reply_ack : Z;
  reply_flags : Z }.

Record TcpInResult := mkResult {
  act : Z;
  acked : Z;
  text_seq : Z;
  text_off : Z;
  text_len : Z;
  acceptable : bool }.
#[export] Instance TcpInResult_eta : Eta TcpInResult := fun r =>
  mkResult (act r) (acked r) (text_seq r) (text_off r) (text_len r) (acceptable r).

Record TcpInIo := mkIo {
  parse_args : TcpInParseArgs;
  seg : TcpInSegArgs;
  vars : IdemIpTcpVars;
  ctl : TcpPcbCtl;
  state : IdemIpTcpState;
  listener : Z;
  now_ms : Z;
  status : IdemIpStatus;
  opts : TcpInOpts;
  reply : TcpInReply;
  res : TcpInResult }.
#[export] Instance TcpInIo_eta : Eta TcpInIo := fun r =>
  mkIo (parse_args r) (seg r) (vars r) (ctl r) (state r) (listener r) (now_ms r) (status r) (opts r) (reply r) (res r).

Definition TCP_IN_READY : Z := 0x54435049.

Record TcpInCtx := mkCtx {
  ready : Z;
  challenge_at : Z;
  challenges : Z }.
#[export] Instance TcpInCtx_eta : Eta TcpInCtx := fun r => mkCtx (ready r) (challenge_at r) (challenges r).

(** The borrow: the operand block, then the context. *)
Record Work := mkWork {
  w_io : TcpInIo;
  w_ctx : TcpInCtx }.
#[export] Instance Work_eta : Eta Work := fun r => mkWork (w_io r) (w_ctx r).

(** [flags & bit] *)
Definition has (flags bit : Z) : bool := negb (Z.land flags bit =? 0).
(** [io->res.act |= bits] *)
Definition act_or (io : TcpInIo) (bits : Z) : TcpInIo := io <| res := (res io) <| act := Z.lor (act (res io)) bits |> |>.

(** ** The sequence space *)
Definition tcp_in_from (seq edge : Z) : Z := u32 (seq - edge).

Definition tcp_in_ack_new (ack una nxt : Z) : bool :=
  let at_ := tcp_in_from ack una in
  negb (at_ =? 0) && (at_ <=? tcp_in_from nxt una).

Definition tcp_in_ack_within (ack una nxt : Z) : bool := tcp_in_from ack una <=? tcp_in_from nxt una.

Definition tcp_in_ack_in_range (ack una nxt max_snd_wnd : Z) : bool :=
  let left := u32 (una - max_snd_wnd) in
  tcp_in_from ack left <=? tcp_in_from nxt left.

Definition tcp_in_seg_acceptable (seq len rcv_nxt rcv_wnd : Z) : bool :=
  if len =? 0 then
    if rcv_wnd =? 0 then seq =? rcv_nxt else tcp_in_from seq rcv_nxt <? rcv_wnd
  else if rcv_wnd =? 0 then false
  else if tcp_in_from seq rcv_nxt <? rcv_wnd then true
  else tcp_in_from (u32 (seq + len - 1)) rcv_nxt <? rcv_wnd.

Definition tcp_in_ts_lt (s t : Z) : bool :=
  let d := tcp_in_from t s in negb (d =? 0) && (d <? 0x80000000).

Definition tcp_in_rst_in_window (seq rcv_nxt rcv_wnd : Z) : bool :=
  let at_ := tcp_in_from seq rcv_nxt in negb (at_ =? 0) && (at_ <? rcv_wnd).

(** ** The replies *)
Definition tcp_in_put_ack (io : TcpInIo) : TcpInIo :=
  let io := io <| reply := mkReply (snd_nxt (vars io)) (rcv_nxt (vars io)) IDEMIP_TCP_ACK |> in
  let io := act_or io IDEMIP_TCP_IN_ACT_ACK in
  io <| ctl := (ctl io) <| last_ack_sent := reply_ack (reply io) |> |>.

Definition tcp_in_put_rst (io : TcpInIo) : TcpInIo :=
  let io :=
    if has (seg_flags (seg io)) IDEMIP_TCP_ACK
    then io <| reply := mkReply (seg_ack (seg io)) 0 IDEMIP_TCP_RST |>
    else io <| reply := mkReply 0 (u32 (seg_seq (seg io) + seg_len (seg io))) (Z.lor IDEMIP_TCP_RST IDEMIP_TCP_ACK) |> in
  act_or io IDEMIP_TCP_IN_ACT_RST.

(** The reset of the LISTEN, SYN-SENT and SYN-RECEIVED checks, [<SEQ=SEG.ACK><CTL=RST>]. *)
Definition put_ack_rst (io : TcpInIo) : TcpInIo :=
  act_or (io <| reply := mkReply (seg_ack (seg io)) 0 IDEMIP_TCP_RST |>) IDEMIP_TCP_IN_ACT_RST.

(** The SYN,ACK of the LISTEN and SYN-SENT checks. *)
Definition put_syn_ack (io : TcpInIo) : TcpInIo :=
  let io := io <| reply := mkReply (iss (vars io)) (rcv_nxt (vars io)) (Z.lor IDEMIP_TCP_SYN IDEMIP_TCP_ACK) |> in
  let io := act_or io IDEMIP_TCP_IN_ACT_ACK in
  io <| ctl := (ctl io) <| last_ack_sent := reply_ack (reply io) |> |>.

(** [if (io->seg.wnd > io->ctl.max_snd_wnd) io->ctl.max_snd_wnd = io->seg.wnd] *)
Definition raise_max_wnd (io : TcpInIo) : TcpInIo :=
  if max_snd_wnd (ctl io) <? seg_wnd (seg io)
  then io <| ctl := (ctl io) <| max_snd_wnd := seg_wnd (seg io) |> |> else io.

Definition tcp_in_put_challenge (w : Work) : Work :=
  let io := act_or (w_io w) IDEMIP_TCP_IN_ACT_CHALLENGE in
  let ctx := w_ctx w in
  let ctx :=
    if IDEMIP_TCP_CHALLENGE_WINDOW_MS <=? tcp_in_from (now_ms io) (challenge_at ctx)
    then ctx <| challenge_at := now_ms io |> <| challenges := 0 |> else ctx in
  if IDEMIP_TCP_CHALLENGE_ACKS <=? challenges ctx
  then mkWork (act_or io IDEMIP_TCP_IN_ACT_THROTTLED) ctx
  else mkWork (tcp_in_put_ack io) (ctx <| challenges := u32 (challenges ctx + 1) |>).

Definition tcp_in_put_2msl (io : TcpInIo) : TcpInIo :=
  let io := act_or io IDEMIP_TCP_IN_ACT_2MSL in
  io <| ctl := (ctl io) <| time_wait_deadline := u32 (now_ms io + u32 (2 * IDEMIP_TCP_MSL_MS)) |> |>.

Definition tcp_in_result_clear (io : TcpInIo) : TcpInIo :=
  io <| reply := mkReply 0 0 0 |> <| res := mkResult 0 0 0 0 0 false |>.

(** ** The entries *)
Definition idemip_tcp_in_clear (w : Work) : Work :=
  let io := (w_io w) <| seg := seg_zero |> <| opts := opts_zero |> in
  let io := tcp_in_result_clear io in
  mkWork (io <| status := IDEMIP_OK |>) (mkCtx TCP_IN_READY 0 0).

Section Build.
(** The build's checksum word, its byte order and the IP versions it carries. *)
Variable word : option nat.
Variable swap : bool.
Variables (v4 v6 : bool).

(** What one option a step landed on leaves in the block. *)
Definition parse_option (flags kind len : Z) (o : list Z) (os : TcpInOpts) : TcpInOpts :=
  if (kind =? IDEMIP_TCP_OPT_MSS) && (len =? IDEMIP_TCP_OPT_MSS_LEN)
  then os <| o_mss := tcp_opt_mss o |> <| o_present := Z.lor (o_present os) IDEMIP_TCP_IN_OPT_MSS |>
  else if (kind =? IDEMIP_TCP_OPT_WS) && (len =? IDEMIP_TCP_OPT_WS_LEN) && has flags IDEMIP_TCP_SYN
  then os <| o_ws := tcp_opt_ws o |> <| o_present := Z.lor (o_present os) IDEMIP_TCP_IN_OPT_WS |>
  else if (kind =? IDEMIP_TCP_OPT_TS) && (len =? IDEMIP_TCP_OPT_TS_LEN)
  then os <| o_tsval := tcp_opt_tsval o |> <| o_tsecr := tcp_opt_tsecr o |>
          <| o_present := Z.lor (o_present os) IDEMIP_TCP_IN_OPT_TS |>
  else if (kind =? IDEMIP_TCP_OPT_SACK_PERM) && (len =? IDEMIP_TCP_OPT_SACK_PERM_LEN)
  then os <| o_present := Z.lor (o_present os) IDEMIP_TCP_IN_OPT_SACK_PERM |>
  else os.

(** [while (idemip_tcp_opt_next(&w))]; [None] is a walk that has not ended after [fuel] steps. *)
Fixpoint parse_opts (fuel : nat) (flags : Z) (wk : IdemIpTcpOptWalk) (os : TcpInOpts) : option (IdemIpTcpOptWalk * TcpInOpts) :=
  match fuel with
  | O => None
  | S fuel' =>
      match tcp_opt_next wk with
      | (wk', false) => Some (wk', os)
      | (wk', true) => parse_opts fuel' flags wk' (parse_option flags (w_kind wk') (w_len wk') (default [] (w_opt wk')) os)
      end
  end.

(** The segment variables a header yields: [hdr] octets of header in [len]. *)
Definition parse_seg (h : list Z) (len hdr snd_scale : Z) : TcpInSegArgs :=
  let flags := tcp_flags h in
  let data := u16 (len - hdr) in
  let slen := data in
  let slen := if has flags IDEMIP_TCP_SYN then u32 (slen + 1) else slen in
  let slen := if has flags IDEMIP_TCP_FIN then u32 (slen + 1) else slen in
  let wnd := tcp_window h in
  let wnd :=
    if negb (has flags IDEMIP_TCP_SYN)
    then u32 (Z.shiftl wnd (if IDEMIP_TCP_WS_MAX <? snd_scale then IDEMIP_TCP_WS_MAX else snd_scale)) else wnd in
  mkSeg (tcp_seq h) (tcp_ack h) wnd slen data (tcp_urgent h) flags.

(** [None] is a parse that does not return. *)
Definition idemip_tcp_in_parse (w : Work) : option Work :=
  let io := (w_io w) <| status := IDEMIP_ERR |> <| seg := seg_zero |> <| opts := opts_zero |> in
  let w := w <| w_io := io |> in
  let pa := parse_args io in
  if negb (ready (w_ctx w) =? TCP_IN_READY) then Some w
  else match pa_seg pa, pa_local_ip pa, pa_remote_ip pa with
  | Some h, Some local_ip, Some remote_ip =>
      if pa_len pa <? IDEMIP_TCP_HDR_LEN then Some w
      else
        let hdr := tcp_hdr_len h in
        if (hdr <? IDEMIP_TCP_HDR_LEN) || (pa_len pa <? hdr) then Some w
        else match pseudo_accum word swap v4 v6 0 (pa_ip_version pa) IDEMIP_TCP_PROTO remote_ip local_ip (pa_len pa) with
        | None => Some w
        | Some sum =>
            if negb (cksum_final (cksum_accum word swap sum (take (Z.to_nat (pa_len pa)) h)) =? 0) then Some w
            else
              let sg := parse_seg h (pa_len pa) hdr (pa_snd_scale pa) in
              '(wk, os) ← parse_opts 41 (seg_flags sg) (tcp_opt_walk h) (opts_zero <| o_hdr_len := u16 hdr |>);
              Some (w <| w_io := io <| seg := sg |> <| opts := os |>
                                    <| status := if w_bad wk then IDEMIP_ERR else IDEMIP_OK |> |>)
        end
  | _, _, _ => Some w
  end.
End Build.

Definition idemip_tcp_in_acceptable (w : Work) : Work :=
  let io := tcp_in_result_clear ((w_io w) <| status := IDEMIP_ERR |>) in
  if negb (ready (w_ctx w) =? TCP_IN_READY) then w <| w_io := io |>
  else
    let ok := tcp_in_seg_acceptable (seg_seq (seg io)) (seg_len (seg io)) (rcv_nxt (vars io)) (rcv_wnd (vars io)) in
    w <| w_io := io <| res := (res io) <| acceptable := ok |> |> <| status := IDEMIP_OK |> |>.

Definition idemip_tcp_in_closed (w : Work) : Work :=
  let io := tcp_in_result_clear ((w_io w) <| status := IDEMIP_ERR |>) in
  if negb (ready (w_ctx w) =? TCP_IN_READY) then w <| w_io := io |>
  else
    let io := io <| status := IDEMIP_OK |> in
    if has (seg_flags (seg io)) IDEMIP_TCP_RST then w <| w_io := io |> else w <| w_io := tcp_in_put_rst io |>.

(** The third check of LISTEN, past its guards. *)
Definition listen_syn (io : TcpInIo) : TcpInIo :=
  let s := seg io in
  let v := vars io in
  let io := io <| vars := v <| rcv_nxt := u32 (seg_seq s + 1) |> <| irs := seg_seq s |>
                            <| snd_nxt := u32 (iss v + 1) |> <| snd_una := iss v |> <| snd_wnd := seg_wnd s |>
                            <| snd_wl1 := seg_seq s |> <| snd_wl2 := iss v |> |> in
  let io := raise_max_wnd io in
  put_syn_ack (io <| state := IDEMIP_TCP_STATE_SYN_RECEIVED |>).

Definition idemip_tcp_in_listen (w : Work) : Work :=
  let io := tcp_in_result_clear ((w_io w) <| status := IDEMIP_ERR |>) in
  if negb (ready (w_ctx w) =? TCP_IN_READY) || negb (tcp_state_eqb (state io) IDEMIP_TCP_STATE_LISTEN)
  then w <| w_io := io |>
  else
    let io := io <| status := IDEMIP_OK |> in
    let flags := seg_flags (seg io) in
    if has flags IDEMIP_TCP_RST then w <| w_io := io |>
    else if has flags IDEMIP_TCP_ACK then w <| w_io := put_ack_rst io |>
    else if negb (has flags IDEMIP_TCP_SYN) then w <| w_io := io |>
    else w <| w_io := listen_syn io |>.

(** Save SEG.TSval in TS.Recent. *)
Definition save_ts (io : TcpInIo) : TcpInIo :=
  io <| ctl := (ctl io) <| ts_recent := o_tsval (opts io) |> <| ts_recent_ms := now_ms io |> |>.

(** True when rule R1 rejects the segment. *)
Definition tcp_in_paws (io : TcpInIo) : TcpInIo * bool :=
  if negb (has (ctl_flags (ctl io)) IDEMIP_TCP_CTL_TS_OK) || negb (has (o_present (opts io)) IDEMIP_TCP_IN_OPT_TS)
  then (io, false)
  else if tcp_in_ts_lt (o_tsval (opts io)) (ts_recent (ctl io)) && negb (has (seg_flags (seg io)) IDEMIP_TCP_RST) then
    if tcp_in_from (now_ms io) (ts_recent_ms (ctl io)) <=? IDEMIP_TCP_TS_RECENT_MAX_MS then (io, true)
    else (save_ts io, false)
  else if negb (tcp_in_ts_lt (o_tsval (opts io)) (ts_recent (ctl io))) &&
          (tcp_in_from (last_ack_sent (ctl io)) (seg_seq (seg io)) <? 0x80000000)
  then (save_ts io, false)
  else (io, false).

(** A state in which a remote FIN has not been taken. *)
Definition takes_text (s : IdemIpTcpState) : bool :=
  tcp_state_eqb s IDEMIP_TCP_STATE_ESTABLISHED || tcp_state_eqb s IDEMIP_TCP_STATE_FIN_WAIT_1 ||
  tcp_state_eqb s IDEMIP_TCP_STATE_FIN_WAIT_2.

Definition tcp_in_check_urg (io : TcpInIo) : TcpInIo :=
  if negb (has (seg_flags (seg io)) IDEMIP_TCP_URG) then io
  else if negb (takes_text (state io)) then io
  else
    let up := u32 (seg_seq (seg io) + seg_up (seg io)) in
    let cur := tcp_in_from (rcv_up (vars io)) (rcv_nxt (vars io)) in
    let at_ := tcp_in_from up (rcv_nxt (vars io)) in
    if (at_ =? 0) || (0x80000000 <=? at_) then io
    else if (0x80000000 <=? cur) || (cur <? at_)
    then act_or (io <| vars := (vars io) <| rcv_up := up |> |>) IDEMIP_TCP_IN_ACT_URGENT
    else io.

Definition tcp_in_text_seq (io : TcpInIo) : Z :=
  u32 (seg_seq (seg io) + (if has (seg_flags (seg io)) IDEMIP_TCP_SYN then 1 else 0)).

(** The segment's text has no octet at RCV.NXT: held when it begins inside the window, answered either way. *)
Definition text_ahead (io : TcpInIo) (seq : Z) : TcpInIo :=
  let at_ := tcp_in_from seq (rcv_nxt (vars io)) in
  let io :=
    if negb (at_ =? 0) && (at_ <? rcv_wnd (vars io))
    then act_or (io <| res := (res io) <| text_seq := seq |> <| text_off := 0 |>
                                        <| text_len := seg_data_len (seg io) |> |>) IDEMIP_TCP_IN_ACT_HOLD
    else io in
  tcp_in_put_ack io.

(** The octets from RCV.NXT on, as many as the window takes. *)
Definition text_take (io : TcpInIo) (off : Z) : TcpInIo :=
  let avail := seg_data_len (seg io) - off in
  let avail := if rcv_wnd (vars io) <? avail then rcv_wnd (vars io) else avail in
  let io := io <| res := (res io) <| text_seq := rcv_nxt (vars io) |> <| text_off := u16 off |>
                                  <| text_len := u16 avail |> |> in
  let io := io <| vars := (vars io) <| rcv_nxt := u32 (rcv_nxt (vars io) + avail) |>
                                    <| rcv_wnd := u32 (rcv_wnd (vars io) - avail) |> |> in
  let io := act_or io IDEMIP_TCP_IN_ACT_TEXT in
  let io := if has (seg_flags (seg io)) IDEMIP_TCP_PSH then act_or io IDEMIP_TCP_IN_ACT_PUSH else io in
  tcp_in_put_ack io.

Definition tcp_in_check_text (io : TcpInIo) : TcpInIo :=
  if seg_data_len (seg io) =? 0 then io
  else if negb (takes_text (state io)) then io
  else
    let seq := tcp_in_text_seq io in
    let off := tcp_in_from (rcv_nxt (vars io)) seq in
    if seg_data_len (seg io) <=? off then text_ahead io seq else text_take io off.

(** Where the eighth check's switch leaves the connection. *)
Definition fin_state (io : TcpInIo) : TcpInIo :=
  match state io with
  | IDEMIP_TCP_STATE_SYN_RECEIVED | IDEMIP_TCP_STATE_ESTABLISHED => io <| state := IDEMIP_TCP_STATE_CLOSE_WAIT |>
  | IDEMIP_TCP_STATE_FIN_WAIT_1 =>
      if snd_una (vars io) =? snd_nxt (vars io)
      then tcp_in_put_2msl (io <| state := IDEMIP_TCP_STATE_TIME_WAIT |>)
      else io <| state := IDEMIP_TCP_STATE_CLOSING |>
  | IDEMIP_TCP_STATE_FIN_WAIT_2 => tcp_in_put_2msl (io <| state := IDEMIP_TCP_STATE_TIME_WAIT |>)
  | IDEMIP_TCP_STATE_TIME_WAIT => tcp_in_put_2msl io
  | _ => io
  end.

Definition tcp_in_check_fin (io : TcpInIo) : TcpInIo :=
  if negb (has (seg_flags (seg io)) IDEMIP_TCP_FIN) then io
  else if negb (rcv_nxt (vars io) =? u32 (tcp_in_text_seq io + seg_data_len (seg io))) then io
  else
    let io := io <| vars := (vars io) <| rcv_nxt := u32 (rcv_nxt (vars io) + 1) |> |> in
    let io := act_or io IDEMIP_TCP_IN_ACT_CLOSING in
    fin_state (tcp_in_put_ack io).

(** The sixth, seventh and eighth checks. *)
Definition urg_text_fin (io : TcpInIo) : TcpInIo :=
  let io := tcp_in_check_text (tcp_in_check_urg io) in
  if negb (has (act (res io)) IDEMIP_TCP_IN_ACT_HOLD) then tcp_in_check_fin io else io.

(** The fourth check of SYN-SENT, past its guards. *)
Definition syn_sent_syn (io : TcpInIo) (ack_ok : bool) : TcpInIo :=
  let s := seg io in
  let io := io <| vars := (vars io) <| rcv_nxt := u32 (seg_seq s + 1) |> <| irs := seg_seq s |> |> in
  let io :=
    if ack_ok then
      let io := io <| res := (res io) <| acked := tcp_in_from (seg_ack s) (snd_una (vars io)) |> |> in
      act_or (io <| vars := (vars io) <| snd_una := seg_ack s |> |>) IDEMIP_TCP_IN_ACT_ACKED
    else io in
  let io := io <| vars := (vars io) <| snd_wnd := seg_wnd s |> <| snd_wl1 := seg_seq s |> <| snd_wl2 := seg_ack s |> |> in
  let io := raise_max_wnd io in
  if negb (tcp_in_from (snd_una (vars io)) (iss (vars io)) =? 0) then
    let io := act_or (io <| state := IDEMIP_TCP_STATE_ESTABLISHED |>) IDEMIP_TCP_IN_ACT_ESTABLISHED in
    let io := tcp_in_put_ack io in
    if negb (seg_data_len s =? 0) || has (seg_flags s) (Z.lor IDEMIP_TCP_FIN IDEMIP_TCP_URG) then urg_text_fin io else io
  else put_syn_ack (io <| state := IDEMIP_TCP_STATE_SYN_RECEIVED |>).

Definition idemip_tcp_in_syn_sent (w : Work) : Work :=
  let io := tcp_in_result_clear ((w_io w) <| status := IDEMIP_ERR |>) in
  if negb (ready (w_ctx w) =? TCP_IN_READY) || negb (tcp_state_eqb (state io) IDEMIP_TCP_STATE_SYN_SENT)
  then w <| w_io := io |>
  else
    let io := io <| status := IDEMIP_OK |> in
    let s := seg io in
    let flags := seg_flags s in
    if has flags IDEMIP_TCP_ACK &&
       ((tcp_in_from (seg_ack s) (iss (vars io)) =? 0) ||
        (tcp_in_from (snd_nxt (vars io)) (iss (vars io)) <? tcp_in_from (seg_ack s) (iss (vars io))))
    then if has flags IDEMIP_TCP_RST then w <| w_io := io |> else w <| w_io := put_ack_rst io |>
    else
      let ack_ok := has flags IDEMIP_TCP_ACK && tcp_in_ack_new (seg_ack s) (snd_una (vars io)) (snd_nxt (vars io)) in
      if has flags IDEMIP_TCP_RST then
        if ack_ok
        then w <| w_io := act_or (io <| state := IDEMIP_TCP_STATE_CLOSED |>)
                    (Z.lor (Z.lor IDEMIP_TCP_IN_ACT_RESET IDEMIP_TCP_IN_ACT_FLUSH) IDEMIP_TCP_IN_ACT_DELETE) |>
        else w <| w_io := io |>
      else if negb (has flags IDEMIP_TCP_SYN) then w <| w_io := io |>
      else w <| w_io := syn_sent_syn io ack_ok |>.

(** The second check's switch: a reset at exactly RCV.NXT. *)
Definition rst_state (io : TcpInIo) : TcpInIo :=
  match state io with
  | IDEMIP_TCP_STATE_SYN_RECEIVED =>
      let io := act_or io IDEMIP_TCP_IN_ACT_FLUSH in
      if negb (listener io =? IDEMIP_TCP_PCB_NONE)
      then act_or (io <| state := IDEMIP_TCP_STATE_LISTEN |>) IDEMIP_TCP_IN_ACT_LISTEN
      else act_or (io <| state := IDEMIP_TCP_STATE_CLOSED |>) (Z.lor IDEMIP_TCP_IN_ACT_REFUSED IDEMIP_TCP_IN_ACT_DELETE)
  | IDEMIP_TCP_STATE_ESTABLISHED | IDEMIP_TCP_STATE_FIN_WAIT_1 | IDEMIP_TCP_STATE_FIN_WAIT_2
  | IDEMIP_TCP_STATE_CLOSE_WAIT =>
      act_or (io <| state := IDEMIP_TCP_STATE_CLOSED |>)
        (Z.lor (Z.lor IDEMIP_TCP_IN_ACT_RESET IDEMIP_TCP_IN_ACT_FLUSH) IDEMIP_TCP_IN_ACT_DELETE)
  | IDEMIP_TCP_STATE_CLOSING | IDEMIP_TCP_STATE_LAST_ACK | IDEMIP_TCP_STATE_TIME_WAIT =>
      act_or (io <| state := IDEMIP_TCP_STATE_CLOSED |>) (Z.lor IDEMIP_TCP_IN_ACT_FLUSH IDEMIP_TCP_IN_ACT_DELETE)
  | _ => io
  end.

(** A check's report: true when processing stops there. *)
Definition tcp_in_check_rst (w : Work) : Work * bool :=
  let io := w_io w in
  let s := seg io in
  if negb (has (seg_flags s) IDEMIP_TCP_RST) then (w, false)
  else if negb (seg_seq s =? rcv_nxt (vars io)) && negb (tcp_in_rst_in_window (seg_seq s) (rcv_nxt (vars io)) (rcv_wnd (vars io)))
  then (w, true)
  else if negb (seg_seq s =? rcv_nxt (vars io)) then (tcp_in_put_challenge w, true)
  else (w <| w_io := rst_state io |>, true).

Definition tcp_in_check_syn (w : Work) : Work * bool :=
  let io := w_io w in
  if negb (has (seg_flags (seg io)) IDEMIP_TCP_SYN) then (w, false)
  else if tcp_state_eqb (state io) IDEMIP_TCP_STATE_SYN_RECEIVED && negb (listener io =? IDEMIP_TCP_PCB_NONE) &&
          acceptable (res io)
  then (w <| w_io := act_or (io <| state := IDEMIP_TCP_STATE_LISTEN |>) IDEMIP_TCP_IN_ACT_LISTEN |>, true)
  else (tcp_in_put_challenge w, true).

(** SND.WND, SND.WL1 and SND.WL2 from the segment. *)
Definition take_wnd (io : TcpInIo) : TcpInIo :=
  let s := seg io in
  raise_max_wnd (io <| vars := (vars io) <| snd_wnd := seg_wnd s |> <| snd_wl1 := seg_seq s |> <| snd_wl2 := seg_ack s |> |>).

(** The fifth check from the ESTABLISHED clause to its switch. *)
Definition ack_advance (io : TcpInIo) : TcpInIo :=
  let s := seg io in
  if tcp_in_ack_new (seg_ack s) (snd_una (vars io)) (snd_nxt (vars io)) then
    let io := io <| res := (res io) <| acked := tcp_in_from (seg_ack s) (snd_una (vars io)) |> |> in
    act_or (io <| vars := (vars io) <| snd_una := seg_ack s |> |>) IDEMIP_TCP_IN_ACT_ACKED
  else act_or io IDEMIP_TCP_IN_ACT_DUPACK.

Definition ack_window (io : TcpInIo) : TcpInIo :=
  let s := seg io in
  let v := vars io in
  if tcp_in_ack_within (seg_ack s) (snd_una v) (snd_nxt v) then
    let at_ := tcp_in_from (seg_seq s) (snd_wl1 v) in
    let newer := negb (at_ =? 0) && (at_ <? 0x80000000) in
    let same := (seg_seq s =? snd_wl1 v) && (tcp_in_from (seg_ack s) (snd_wl2 v) <? 0x80000000) in
    if newer || same then act_or (take_wnd io) IDEMIP_TCP_IN_ACT_WND else io
  else io.

Definition ack_state (io : TcpInIo) : TcpInIo * bool :=
  let fin_acked := snd_una (vars io) =? snd_nxt (vars io) in
  match state io with
  | IDEMIP_TCP_STATE_FIN_WAIT_1 => (if fin_acked then io <| state := IDEMIP_TCP_STATE_FIN_WAIT_2 |> else io, false)
  | IDEMIP_TCP_STATE_CLOSING =>
      (if fin_acked then tcp_in_put_2msl (io <| state := IDEMIP_TCP_STATE_TIME_WAIT |>) else io, true)
  | IDEMIP_TCP_STATE_LAST_ACK =>
      (if fin_acked then act_or (io <| state := IDEMIP_TCP_STATE_CLOSED |>) IDEMIP_TCP_IN_ACT_DELETE else io, true)
  | IDEMIP_TCP_STATE_TIME_WAIT => (tcp_in_put_2msl (tcp_in_put_ack io), true)
  | _ => (io, false)
  end.

Definition tcp_in_check_ack (io : TcpInIo) : TcpInIo * bool :=
  let s := seg io in
  let v := vars io in
  if negb (has (seg_flags s) IDEMIP_TCP_ACK) then (io, true)
  else if negb (tcp_in_ack_in_range (seg_ack s) (snd_una v) (snd_nxt v) (max_snd_wnd (ctl io))) then (tcp_in_put_ack io, true)
  else if tcp_state_eqb (state io) IDEMIP_TCP_STATE_SYN_RECEIVED then
    if negb (tcp_in_ack_new (seg_ack s) (snd_una v) (snd_nxt v)) then (put_ack_rst io, true)
    else
      let io := take_wnd (io <| state := IDEMIP_TCP_STATE_ESTABLISHED |>) in
      let io := act_or io (Z.lor IDEMIP_TCP_IN_ACT_ESTABLISHED IDEMIP_TCP_IN_ACT_WND) in
      ack_state (ack_window (ack_advance io))
  else ack_state (ack_window (ack_advance io)).

(** A segment the acceptability test refused. *)
Definition segment_unacceptable (w : Work) : Work :=
  let io := w_io w in
  if has (seg_flags (seg io)) IDEMIP_TCP_RST then fst (tcp_in_check_rst w)
  else if has (seg_flags (seg io)) IDEMIP_TCP_SYN then fst (tcp_in_check_syn w)
  else
    let io := tcp_in_check_urg io in
    let '(io, stop) := if rcv_wnd (vars io) =? 0 then tcp_in_check_ack io else (io, false) in
    if stop then w <| w_io := io |> else w <| w_io := tcp_in_put_ack io |>.

Definition idemip_tcp_in_segment (w : Work) : Work :=
  let io := tcp_in_result_clear ((w_io w) <| status := IDEMIP_ERR |>) in
  if negb (ready (w_ctx w) =? TCP_IN_READY) then w <| w_io := io |>
  else if (tcp_state_num (state io) <? tcp_state_num IDEMIP_TCP_STATE_SYN_RECEIVED) ||
          (tcp_state_num IDEMIP_TCP_STATE_TIME_WAIT <? tcp_state_num (state io)) then w <| w_io := io |>
  else
    let io := io <| status := IDEMIP_OK |> in
    let '(io, reject) := tcp_in_paws io in
    if reject then w <| w_io := tcp_in_put_ack (act_or io IDEMIP_TCP_IN_ACT_PAWS) |>
    else
      let ok := tcp_in_seg_acceptable (seg_seq (seg io)) (seg_len (seg io)) (rcv_nxt (vars io)) (rcv_wnd (vars io)) in
      let io := io <| res := (res io) <| acceptable := ok |> |> in
      let w := w <| w_io := io |> in
      if negb ok then segment_unacceptable w
      else
        let '(w, stop) := tcp_in_check_rst w in
        if stop then w
        else
          let '(w, stop) := tcp_in_check_syn w in
          if stop then w
          else
            let '(io, stop) := tcp_in_check_ack (w_io w) in
            if stop then w <| w_io := io |> else w <| w_io := urg_text_fin io |>.
End TcpIn.
