(* ===== verification/TcpInFacts.v ===== *)
(** * What each check of the arrival path leaves alone, and what it changes

    One lemma per helper and per check of TcpIn.v, stated on the fields the theorems of TcpInThms.v read: the
    state, the send and the receive variables, the reply and the action bits. *)
From S2P Require Import Prelude Base Tcp TcpTypes TcpIn.

Module TcpInFacts.
Import Tcp TcpIn.

Create HintDb tcpin.
Create Rewrite HintDb tcpin.

(** ** The action bits *)
Lemma has_lor x y b : has (Z.lor x y) b = has x b || has y b.
Proof.
  unfold has. rewrite Z.land_lor_distr_l.
  destruct (Z.eqb_spec (Z.land x b) 0) as [->|Hx]; [done|]. simpl. apply negb_true_iff, Z.eqb_neq.
  intros [? _]%Z.lor_eq_0_iff. done.
Qed.
Lemma act_act_or io b : act (res (act_or io b)) = Z.lor (act (res io)) b.
Proof. done. Qed.
#[export] Hint Rewrite has_lor act_act_or : tcpin.

(** [io'] differs from [io] in nothing the sequence variables, the state and the operands show. *)
Definition quiet (io io' : TcpInIo) : Prop :=
  vars io' = vars io ∧ state io' = state io ∧ seg io' = seg io ∧ listener io' = listener io ∧
  now_ms io' = now_ms io ∧ opts io' = opts io ∧ status io' = status io.

#[export] Instance quiet_refl : Reflexive quiet.
Proof. done. Qed.
#[export] Instance quiet_trans : Transitive quiet.
Proof. unfold quiet. intros x y z. intuition congruence. Qed.

Lemma quiet_act_or io b : quiet io (act_or io b).
Proof. done. Qed.
Lemma quiet_put_ack io : quiet io (tcp_in_put_ack io).
Proof. done. Qed.
Lemma quiet_put_2msl io : quiet io (tcp_in_put_2msl io).
Proof. done. Qed.
Lemma quiet_put_ack_rst io : quiet io (put_ack_rst io).
Proof. done. Qed.
Lemma quiet_raise_max_wnd io : quiet io (raise_max_wnd io).
Proof. unfold raise_max_wnd. by destruct (_ <? _). Qed.
Lemma quiet_challenge w : quiet (w_io w) (w_io (tcp_in_put_challenge w)).
Proof. unfold tcp_in_put_challenge. destruct (_ <=? challenges _); done. Qed.
Lemma quiet_paws io : quiet io (fst (tcp_in_paws io)).
Proof. unfold tcp_in_paws. repeat case_match; done. Qed.
#[export] Hint Resolve quiet_act_or quiet_put_ack quiet_put_2msl quiet_put_ack_rst quiet_raise_max_wnd
  quiet_challenge quiet_paws : tcpin.

Lemma res_raise_max_wnd io : res (raise_max_wnd io) = res io.
Proof. unfold raise_max_wnd. by destruct (_ <? _). Qed.
Lemma vars_raise_max_wnd io : vars (raise_max_wnd io) = vars io.
Proof. apply quiet_raise_max_wnd. Qed.
Lemma state_raise_max_wnd io : state (raise_max_wnd io) = state io.
Proof. apply quiet_raise_max_wnd. Qed.
Lemma seg_raise_max_wnd io : seg (raise_max_wnd io) = seg io.
Proof. apply quiet_raise_max_wnd. Qed.
Lemma res_paws io : res (fst (tcp_in_paws io)) = res io.
Proof. unfold tcp_in_paws. repeat case_match; done. Qed.
Lemma reply_paws io : reply (fst (tcp_in_paws io)) = reply io.
Proof. unfold tcp_in_paws. repeat case_match; done. Qed.
#[export] Hint Rewrite res_raise_max_wnd vars_raise_max_wnd state_raise_max_wnd seg_raise_max_wnd : tcpin.

(** ** The sixth check: RCV.UP and one action bit *)
Lemma check_urg_cases io :
  tcp_in_check_urg io = io ∨
  ∃ up, is_u32 up ∧ tcp_in_check_urg io = act_or (io <| vars := (vars io) <| rcv_up := up |> |>) IDEMIP_TCP_IN_ACT_URGENT.
Proof.
  unfold tcp_in_check_urg. repeat case_match; auto. right. eexists. split; [|done]. apply u32_range.
Qed.

(** ** The sequence space as distances *)
Lemma tcp_in_from_range a b : is_u32 (tcp_in_from a b).
Proof. apply u32_range. Qed.
Lemma tcp_in_from_0 a b : is_u32 a → is_u32 b → tcp_in_from a b = 0 ↔ a = b.
Proof. unfold tcp_in_from. intros. split; [wrap|]. intros ->. by rewrite Z.sub_diag. Qed.
Lemma tcp_in_ack_new_spec ack una nxt :
  tcp_in_ack_new ack una nxt = true ↔ 0 < tcp_in_from ack una ≤ tcp_in_from nxt una.
Proof.
  unfold tcp_in_ack_new. pose proof (tcp_in_from_range ack una) as [? ?].
  rewrite andb_true_iff, negb_true_iff, Z.eqb_neq, Z.leb_le. lia.
Qed.

(** SEG.ACK between SND.UNA and SND.NXT leaves what is outstanding as the distance from it. *)
Lemma tcp_in_from_sub ack una nxt :
  tcp_in_from ack una ≤ tcp_in_from nxt una → tcp_in_from nxt ack = tcp_in_from nxt una - tcp_in_from ack una.
Proof. unfold tcp_in_from. wrap. Qed.

(** ** The fifth check *)

(** The bits [io'] may have that [io] has not. *)
Definition adds (mask : Z) (io io' : TcpInIo) : Prop :=
  ∀ b, has mask b = false → has (act (res io')) b = has (act (res io)) b.

Lemma adds_refl mask io : adds mask io io.
Proof. done. Qed.
Lemma adds_trans mask x y z : adds mask x y → adds mask y z → adds mask x z.
Proof. intros H1 H2 b Hb. by rewrite H2, H1. Qed.
Lemma adds_act_or mask io b : Z.lor mask b = mask → adds mask io (act_or io b).
Proof.
  intros Hm b' Hb. rewrite act_act_or, has_lor. rewrite <- Hm, has_lor, orb_false_iff in Hb.
  destruct Hb as [_ ->]. apply orb_false_r.
Qed.
Lemma adds_act mask io io' io'' : act (res io'') = act (res io') → adds mask io io' → adds mask io io''.
Proof. unfold adds. by intros ->. Qed.

(** The masks' own bits, read off one by one. *)
Ltac adds_tac :=
  let b := fresh "b" in let Hb := fresh "Hb" in
  intros b Hb; cbn; autorewrite with tcpin; autounfold with tcpin in Hb; autorewrite with tcpin in Hb;
  repeat match goal with H : _ || _ = false |- _ => apply orb_false_iff in H; destruct H end;
  repeat match goal with H : has _ b = false |- _ => rewrite H; clear H end; by rewrite ?orb_false_r.

(** What the fifth check may ask for past its guards. *)
Definition ack_bits : Z :=
  Z.lor (Z.lor (Z.lor IDEMIP_TCP_IN_ACT_ACK IDEMIP_TCP_IN_ACT_ACKED) (Z.lor IDEMIP_TCP_IN_ACT_DUPACK IDEMIP_TCP_IN_ACT_WND))
        (Z.lor (Z.lor IDEMIP_TCP_IN_ACT_2MSL IDEMIP_TCP_IN_ACT_DELETE) IDEMIP_TCP_IN_ACT_ESTABLISHED).

(** A step of the fifth check: the operands, the receive variables, SND.NXT and the text report stand. *)
Definition snd_step (io io' : TcpInIo) : Prop :=
  (seg io' = seg io ∧ listener io' = listener io ∧ now_ms io' = now_ms io ∧ opts io' = opts io ∧ status io' = status io) ∧
  (snd_nxt (vars io') = snd_nxt (vars io) ∧ snd_up (vars io') = snd_up (vars io) ∧ iss (vars io') = iss (vars io)) ∧
  (rcv_nxt (vars io') = rcv_nxt (vars io) ∧ rcv_wnd (vars io') = rcv_wnd (vars io) ∧
   rcv_up (vars io') = rcv_up (vars io) ∧ irs (vars io') = irs (vars io)) ∧
  (text_seq (res io') = text_seq (res io) ∧ text_off (res io') = text_off (res io) ∧
   text_len (res io') = text_len (res io) ∧ acceptable (res io') = acceptable (res io)) ∧
  adds ack_bits io io'.

#[export] Instance snd_step_refl : Reflexive snd_step.
Proof. unfold snd_step. intros io. split_and!; try done. Qed.
#[export] Instance snd_step_trans : Transitive snd_step.
Proof.
  unfold snd_step. intros x y z (Ha1&Hb1&Hc1&Hd1&H1) (Ha2&Hb2&Hc2&Hd2&H2).
  pose proof (adds_trans _ _ _ _ H1 H2). clear H1 H2. intuition congruence.
Qed.

Lemma take_wnd_step io : snd_step io (take_wnd io).
Proof.
  unfold snd_step, take_wnd, adds, raise_max_wnd. cbn. destruct (_ <? _); done.
Qed.
Lemma act_or_step io b : Z.lor ack_bits b = ack_bits → snd_step io (act_or io b).
Proof. intros Hb. unfold snd_step. split_and!; try done. by apply adds_act_or. Qed.
Lemma put_ack_step io : snd_step io (tcp_in_put_ack io).
Proof. apply (act_or_step io IDEMIP_TCP_IN_ACT_ACK). done. Qed.
Lemma put_2msl_step io : snd_step io (tcp_in_put_2msl io).
Proof. apply (act_or_step io IDEMIP_TCP_IN_ACT_2MSL). done. Qed.
Lemma set_state_step io s : snd_step io (io <| state := s |>).
Proof. unfold snd_step. split_and!; done. Qed.

Lemma take_wnd_una io : snd_una (vars (take_wnd io)) = snd_una (vars io) ∧ state (take_wnd io) = state io ∧
  acked (res (take_wnd io)) = acked (res io) ∧ act (res (take_wnd io)) = act (res io).
Proof. unfold take_wnd. by autorewrite with tcpin. Qed.

Lemma ack_window_spec io : snd_step io (ack_window io) ∧ snd_una (vars (ack_window io)) = snd_una (vars io) ∧
  state (ack_window io) = state io ∧ acked (res (ack_window io)) = acked (res io) ∧
  adds IDEMIP_TCP_IN_ACT_WND io (ack_window io).
Proof.
  unfold ack_window. destruct (tcp_in_ack_within _ _ _); [|done]. destruct (_ || _); [|done].
  pose proof (take_wnd_una io) as (?&?&?&Ha). split_and!; try done.
  - etrans; [apply take_wnd_step|]. by apply act_or_step.
  - eapply adds_trans; [|by apply adds_act_or]. eapply adds_act; [exact Ha|apply adds_refl].
Qed.

(** SND.UNA after an acknowledgment the window of outstanding data takes, and where it was otherwise. *)
Definition una_after (io : TcpInIo) : Z :=
  if tcp_in_ack_new (seg_ack (seg io)) (snd_una (vars io)) (snd_nxt (vars io)) then seg_ack (seg io) else snd_una (vars io).

Lemma ack_advance_spec io : snd_step io (ack_advance io) ∧ snd_una (vars (ack_advance io)) = una_after io ∧
  state (ack_advance io) = state io ∧
  (una_after io = snd_una (vars io) ∧ acked (res (ack_advance io)) = acked (res io) ∨
   acked (res (ack_advance io)) = tcp_in_from (una_after io) (snd_una (vars io))) ∧
  has (act (res (ack_advance io))) IDEMIP_TCP_IN_ACT_ACKED =
    has (act (res io)) IDEMIP_TCP_IN_ACT_ACKED || tcp_in_ack_new (seg_ack (seg io)) (snd_una (vars io)) (snd_nxt (vars io)).
Proof.
  unfold ack_advance, una_after. destruct (tcp_in_ack_new _ _ _); split_and!; try done; try (by left + right).
  - etrans; [|by apply act_or_step]. by unfold snd_step.
  - rewrite act_act_or, has_lor. done.
  - by apply act_or_step.
  - rewrite act_act_or, has_lor. done.
Qed.

(** Where the fifth check's switch leaves a state, and whether it stops. *)
Definition ack_next (s : IdemIpTcpState) (fin_acked : bool) : IdemIpTcpState :=
  match s with
  | IDEMIP_TCP_STATE_FIN_WAIT_1 => if fin_acked then IDEMIP_TCP_STATE_FIN_WAIT_2 else s
  | IDEMIP_TCP_STATE_CLOSING => if fin_acked then IDEMIP_TCP_STATE_TIME_WAIT else s
  | IDEMIP_TCP_STATE_LAST_ACK => if fin_acked then IDEMIP_TCP_STATE_CLOSED else s
  | _ => s
  end.
Definition ack_stops (s : IdemIpTcpState) : bool :=
  match s with
  | IDEMIP_TCP_STATE_CLOSING | IDEMIP_TCP_STATE_LAST_ACK | IDEMIP_TCP_STATE_TIME_WAIT => true
  | _ => false
  end.

Lemma ack_state_spec io : snd_step io (fst (ack_state io)) ∧ snd_una (vars (fst (ack_state io))) = snd_una (vars io) ∧
  state (fst (ack_state io)) = ack_next (state io) (snd_una (vars io) =? snd_nxt (vars io)) ∧
  snd (ack_state io) = ack_stops (state io) ∧ acked (res (fst (ack_state io))) = acked (res io) ∧
  has (act (res (fst (ack_state io)))) IDEMIP_TCP_IN_ACT_ACKED = has (act (res io)) IDEMIP_TCP_IN_ACT_ACKED.
Proof.
  unfold ack_state. destruct (state io) eqn:Es; cbn; try (split_and!; done);
    try destruct (_ =? _); split_and!; try done; try (cbn; by autorewrite with tcpin; rewrite ?orb_false_r);
    try (etrans; [apply set_state_step|]; (apply put_2msl_step || by apply act_or_step));
    try apply set_state_step.
  etrans; [apply put_ack_step|apply put_2msl_step].
Qed.

(** An acknowledgment of our SYN establishes the connection before anything else is looked at. *)
Definition established (s : IdemIpTcpState) : IdemIpTcpState :=
  if tcp_state_eqb s IDEMIP_TCP_STATE_SYN_RECEIVED then IDEMIP_TCP_STATE_ESTABLISHED else s.

(** The three answers that stop at the guards: silence, an acknowledgment, a reset out of SYN-RECEIVED. *)
Definition ack_refused (io io' : TcpInIo) : Prop :=
  io' = io ∨ io' = tcp_in_put_ack io ∨
  io' = put_ack_rst io ∧ state io = IDEMIP_TCP_STATE_SYN_RECEIVED ∧ has (seg_flags (seg io)) IDEMIP_TCP_ACK = true.

(** The check past its guards. *)
Definition ack_taken (io io' : TcpInIo) : Prop :=
  has (seg_flags (seg io)) IDEMIP_TCP_ACK = true ∧
  (state io = IDEMIP_TCP_STATE_SYN_RECEIVED → tcp_in_ack_new (seg_ack (seg io)) (snd_una (vars io)) (snd_nxt (vars io)) = true) ∧
  snd_step io io' ∧ snd_una (vars io') = una_after io ∧
  state io' = ack_next (established (state io)) (una_after io =? snd_nxt (vars io)) ∧
  (una_after io = snd_una (vars io) ∧ acked (res io') = acked (res io) ∨
   acked (res io') = tcp_in_from (una_after io) (snd_una (vars io))) ∧
  has (act (res io')) IDEMIP_TCP_IN_ACT_ACKED =
    has (act (res io)) IDEMIP_TCP_IN_ACT_ACKED || tcp_in_ack_new (seg_ack (seg io)) (snd_una (vars io)) (snd_nxt (vars io)).

Lemma ack_body_spec io0 io : snd_step io0 io →
  snd_una (vars io) = snd_una (vars io0) → acked (res io) = acked (res io0) →
  has (act (res io)) IDEMIP_TCP_IN_ACT_ACKED = has (act (res io0)) IDEMIP_TCP_IN_ACT_ACKED →
  state io = established (state io0) →
  let r := ack_state (ack_window (ack_advance io)) in
  snd_step io0 (fst r) ∧ snd_una (vars (fst r)) = una_after io0 ∧
  state (fst r) = ack_next (established (state io0)) (una_after io0 =? snd_nxt (vars io0)) ∧
  (una_after io0 = snd_una (vars io0) ∧ acked (res (fst r)) = acked (res io0) ∨
   acked (res (fst r)) = tcp_in_from (una_after io0) (snd_una (vars io0))) ∧
  has (act (res (fst r))) IDEMIP_TCP_IN_ACT_ACKED =
    has (act (res io0)) IDEMIP_TCP_IN_ACT_ACKED || tcp_in_ack_new (seg_ack (seg io0)) (snd_una (vars io0)) (snd_nxt (vars io0)) ∧
  snd r = ack_stops (established (state io0)).
Proof.
  intros H0 Hu Ha Hb Hs r. pose proof H0 as ((Hsg&_)&(Hn&_)&_).
  assert (una_after io = una_after io0) as Hua by (unfold una_after; by rewrite Hsg, Hu, Hn).
  destruct (ack_advance_spec io) as (A1&A2&A3&A4&A5).
  destruct (ack_window_spec (ack_advance io)) as (W1&W2&W3&W4&W5).
  destruct (ack_state_spec (ack_window (ack_advance io))) as (S1&S2&S3&S4&S5&S6).
  assert (snd_step io0 (ack_window (ack_advance io))) as H1 by (do 2 (etrans; [eassumption|]); done).
  pose proof H1 as (_&(Hn'&_)&_). subst r.
  rewrite S2, S3, S4, S5, S6, W2, W3, W4, A2, A3, Hs, Hn', Hua. split_and!; try done.
  - by etrans.
  - rewrite <- Hu, <- Ha, <- Hua. done.
  - rewrite <- Hsg, <- Hu, <- Hn, <- Hb, <- A5. apply W5. done.
Qed.

(** The check takes an acknowledgment in range, in any state but SYN-RECEIVED and there once it is new. *)
Lemma check_ack_takes io : has (seg_flags (seg io)) IDEMIP_TCP_ACK = true →
  tcp_in_ack_in_range (seg_ack (seg io)) (snd_una (vars io)) (snd_nxt (vars io)) (max_snd_wnd (ctl io)) = true →
  (state io = IDEMIP_TCP_STATE_SYN_RECEIVED → tcp_in_ack_new (seg_ack (seg io)) (snd_una (vars io)) (snd_nxt (vars io)) = true) →
  snd (tcp_in_check_ack io) = ack_stops (established (state io)) ∧ ack_taken io (fst (tcp_in_check_ack io)).
Proof.
  intros Ek Hrg Hnew. unfold tcp_in_check_ack, ack_taken. rewrite Ek, Hrg. cbn [negb].
  destruct (tcp_state_eqb (state io) IDEMIP_TCP_STATE_SYN_RECEIVED) eqn:Es.
  - apply bool_decide_eq_true in Es. specialize (Hnew Es) as En. rewrite En. cbn [negb].
    pose proof (take_wnd_una (io <| state := IDEMIP_TCP_STATE_ESTABLISHED |>)) as (T1&T2&T3&T4).
    set (io1 := act_or (take_wnd (io <| state := IDEMIP_TCP_STATE_ESTABLISHED |>)) _).
    edestruct (ack_body_spec io io1) as (B1&B2&B3&B4&B5&B6).
    + etrans; [apply (set_state_step io IDEMIP_TCP_STATE_ESTABLISHED)|]. etrans; [apply take_wnd_step|]. by apply act_or_step.
    + exact T1.
    + exact T3.
    + subst io1. by rewrite act_act_or, has_lor, T4, orb_false_r.
    + transitivity (state (take_wnd (io <| state := IDEMIP_TCP_STATE_ESTABLISHED |>))); [done|]. rewrite T2.
      unfold established. by rewrite Es.
    + rewrite <- En. done.
  - assert (state io = established (state io)) as He by (unfold established; by rewrite Es).
    edestruct (ack_body_spec io io) as (B1&B2&B3&B4&B5&B6); [done..|]. done.
Qed.

Lemma check_ack_cases io :
  (snd (tcp_in_check_ack io) = true ∧ ack_refused io (fst (tcp_in_check_ack io))) ∨
  (snd (tcp_in_check_ack io) = ack_stops (established (state io)) ∧ ack_taken io (fst (tcp_in_check_ack io))).
Proof.
  destruct (has (seg_flags (seg io)) IDEMIP_TCP_ACK) eqn:Ek.
  2:{ left. unfold tcp_in_check_ack, ack_refused. rewrite Ek. auto. }
  destruct (tcp_in_ack_in_range (seg_ack (seg io)) (snd_una (vars io)) (snd_nxt (vars io)) (max_snd_wnd (ctl io))) eqn:Er.
  2:{ left. unfold tcp_in_check_ack, ack_refused. rewrite Ek, Er. auto. }
  destruct (tcp_state_eqb (state io) IDEMIP_TCP_STATE_SYN_RECEIVED) eqn:Es.
  - destruct (tcp_in_ack_new (seg_ack (seg io)) (snd_una (vars io)) (snd_nxt (vars io))) eqn:En; [right; by apply check_ack_takes|].
    left. unfold tcp_in_check_ack, ack_refused. rewrite Ek, Er, Es, En. apply bool_decide_eq_true in Es. auto 6.
  - right. apply bool_decide_eq_false in Es. by apply check_ack_takes.
Qed.

(** ** The sixth, seventh and eighth checks *)

(** The operands, the state and the send variables stand. *)
Definition rcv_step (io io' : TcpInIo) : Prop :=
  seg io' = seg io ∧ listener io' = listener io ∧ now_ms io' = now_ms io ∧ opts io' = opts io ∧ status io' = status io ∧
  snd_una (vars io') = snd_una (vars io) ∧ snd_nxt (vars io') = snd_nxt (vars io) ∧ iss (vars io') = iss (vars io) ∧
  acked (res io') = acked (res io) ∧ acceptable (res io') = acceptable (res io).

#[export] Instance rcv_step_refl : Reflexive rcv_step.
Proof. done. Qed.
#[export] Instance rcv_step_trans : Transitive rcv_step.
Proof. unfold rcv_step. intros x y z. intuition congruence. Qed.

Lemma check_urg_spec io : rcv_step io (tcp_in_check_urg io) ∧ state (tcp_in_check_urg io) = state io ∧
  rcv_nxt (vars (tcp_in_check_urg io)) = rcv_nxt (vars io) ∧ rcv_wnd (vars (tcp_in_check_urg io)) = rcv_wnd (vars io) ∧
  adds IDEMIP_TCP_IN_ACT_URGENT io (tcp_in_check_urg io).
Proof.
  destruct (check_urg_cases io) as [->|(up&_&->)]; [done|]. split_and!; try done. adds_tac.
Qed.

(** No octet of the segment is taken: the text it has is behind RCV.NXT, ahead of it, or not this state's. *)
Definition text_left (io io' : TcpInIo) : Prop :=
  rcv_nxt (vars io') = rcv_nxt (vars io) ∧ rcv_wnd (vars io') = rcv_wnd (vars io) ∧
  adds (Z.lor IDEMIP_TCP_IN_ACT_ACK IDEMIP_TCP_IN_ACT_HOLD) io io' ∧
  (takes_text (state io) = true → seg_data_len (seg io) = 0 ∨
   seg_data_len (seg io) ≤ tcp_in_from (rcv_nxt (vars io)) (tcp_in_text_seq io)).

(** [avail] octets from [off] on are taken: those at RCV.NXT, as many as the segment has and the window takes. *)
Definition text_taken (io io' : TcpInIo) : Prop :=
  let off := tcp_in_from (rcv_nxt (vars io)) (tcp_in_text_seq io) in
  let avail := Z.min (seg_data_len (seg io) - off) (rcv_wnd (vars io)) in
  takes_text (state io) = true ∧ off < seg_data_len (seg io) ∧
  text_seq (res io') = rcv_nxt (vars io) ∧ text_off (res io') = u16 off ∧ text_len (res io') = u16 avail ∧
  rcv_nxt (vars io') = u32 (rcv_nxt (vars io) + avail) ∧ rcv_wnd (vars io') = u32 (rcv_wnd (vars io) - avail) ∧
  adds (Z.lor (Z.lor IDEMIP_TCP_IN_ACT_ACK IDEMIP_TCP_IN_ACT_PUSH) IDEMIP_TCP_IN_ACT_TEXT) io io' ∧
  has (act (res io')) IDEMIP_TCP_IN_ACT_TEXT = true.

Lemma text_ahead_spec io seq : rcv_step io (text_ahead io seq) ∧ state (text_ahead io seq) = state io ∧
  rcv_nxt (vars (text_ahead io seq)) = rcv_nxt (vars io) ∧ rcv_wnd (vars (text_ahead io seq)) = rcv_wnd (vars io) ∧
  adds (Z.lor IDEMIP_TCP_IN_ACT_ACK IDEMIP_TCP_IN_ACT_HOLD) io (text_ahead io seq).
Proof.
  unfold text_ahead. destruct (_ && _); split_and!; try done; adds_tac.
Qed.

Lemma check_text_spec io : rcv_step io (tcp_in_check_text io) ∧ state (tcp_in_check_text io) = state io ∧
  (text_left io (tcp_in_check_text io) ∨ text_taken io (tcp_in_check_text io)).
Proof.
  unfold tcp_in_check_text, text_left.
  destruct (Z.eqb_spec (seg_data_len (seg io)) 0); [by split; [done|split; [done|left]]; split_and!; auto using adds_refl|].
  destruct (takes_text (state io)) eqn:Et; [|by split; [done|split; [done|left]]; split_and!; auto using adds_refl]. cbn [negb].
  destruct (Z.leb_spec (seg_data_len (seg io)) (tcp_in_from (rcv_nxt (vars io)) (tcp_in_text_seq io))) as [Ho|Ho].
  { pose proof (text_ahead_spec io (tcp_in_text_seq io)) as (?&?&?&?&?). split; [done|]. split; [done|]. left. auto 6. }
  unfold text_taken, text_take. set (off := tcp_in_from _ _) in *.
  replace (if rcv_wnd (vars io) <? seg_data_len (seg io) - off then rcv_wnd (vars io) else seg_data_len (seg io) - off)
    with (Z.min (seg_data_len (seg io) - off) (rcv_wnd (vars io))) by (destruct (Z.ltb_spec (rcv_wnd (vars io)) (seg_data_len (seg io) - off)); lia).
  cbn zeta. destruct (has _ IDEMIP_TCP_PSH); split_and!; try done; right; split_and!; try done;
    try (cbn; autorewrite with tcpin; by rewrite ?orb_true_r); adds_tac.
Qed.

(** Where a FIN leaves a state. *)
Definition fin_next (s : IdemIpTcpState) (fin_acked : bool) : IdemIpTcpState :=
  match s with
  | IDEMIP_TCP_STATE_SYN_RECEIVED | IDEMIP_TCP_STATE_ESTABLISHED => IDEMIP_TCP_STATE_CLOSE_WAIT
  | IDEMIP_TCP_STATE_FIN_WAIT_1 => if fin_acked then IDEMIP_TCP_STATE_TIME_WAIT else IDEMIP_TCP_STATE_CLOSING
  | IDEMIP_TCP_STATE_FIN_WAIT_2 => IDEMIP_TCP_STATE_TIME_WAIT
  | _ => s
  end.

(** The FIN is the next octet of the stream and the eighth check takes it. *)
Definition fin_here (io : TcpInIo) : bool :=
  has (seg_flags (seg io)) IDEMIP_TCP_FIN && (rcv_nxt (vars io) =? u32 (tcp_in_text_seq io + seg_data_len (seg io))).

Definition fin_bits : Z := Z.lor (Z.lor IDEMIP_TCP_IN_ACT_CLOSING IDEMIP_TCP_IN_ACT_ACK) IDEMIP_TCP_IN_ACT_2MSL.

Lemma fin_state_spec io : rcv_step io (fin_state io) ∧
  state (fin_state io) = fin_next (state io) (snd_una (vars io) =? snd_nxt (vars io)) ∧ vars (fin_state io) = vars io ∧
  text_off (res (fin_state io)) = text_off (res io) ∧ text_len (res (fin_state io)) = text_len (res io) ∧
  text_seq (res (fin_state io)) = text_seq (res io) ∧ adds IDEMIP_TCP_IN_ACT_2MSL io (fin_state io).
Proof.
  unfold fin_state. destruct (state io) eqn:Es; try (split_and!; done); try destruct (_ =? _); split_and!; try done; adds_tac.
Qed.

Lemma check_fin_spec io : let io' := tcp_in_check_fin io in
  rcv_step io io' ∧ rcv_wnd (vars io') = rcv_wnd (vars io) ∧
  text_off (res io') = text_off (res io) ∧ text_len (res io') = text_len (res io) ∧ text_seq (res io') = text_seq (res io) ∧
  adds fin_bits io io' ∧
  if fin_here io then
    state io' = fin_next (state io) (snd_una (vars io) =? snd_nxt (vars io)) ∧
    rcv_nxt (vars io') = u32 (rcv_nxt (vars io) + 1) ∧ has (act (res io')) IDEMIP_TCP_IN_ACT_CLOSING = true
  else io' = io.
Proof.
  unfold tcp_in_check_fin, fin_here. destruct (has _ IDEMIP_TCP_FIN); [|done]. destruct (_ =? _); [|done]. cbn [negb andb].
  set (io1 := tcp_in_put_ack _). pose proof (fin_state_spec io1) as (F1&F2&F3&F4&F5&F6&F7). cbn zeta.
  rewrite F2, F3, F4, F5, F6. split_and!; try done.
  - eapply (adds_trans _ _ io1).
    + subst io1. unfold fin_bits. adds_tac.
    + intros b Hb. apply F7. unfold fin_bits in Hb. rewrite has_lor, orb_false_iff in Hb. tauto.
  - rewrite F7 by done. subst io1. cbn. rewrite !has_lor. by rewrite orb_true_r.
Qed.
End TcpInFacts.
