(* ===== verification/TcpInThms.v ===== *)
(** * What the arrival path guarantees

    Every outcome of a segment, as one of five cases over the connection as it stood, and the theorems that
    follow: the transitions of RFC 9293 Figure 5, the movement of SND.UNA, in-order delivery of the peer's
    octets under loss, duplication and reordering, the reset rules of RFC 5961 and its throttle. *)
From stdpp Require Import relations.
From S2P Require Import Prelude Base Tcp TcpTypes TcpIn TcpInFacts.

Module TcpInThms.
Import Tcp TcpIn TcpInFacts.

(** ** The outcomes of a segment *)

(** The block an entry starts its decisions from. *)
Definition start (w : Work) : TcpInIo :=
  (tcp_in_result_clear ((w_io w) <| status := IDEMIP_ERR |>)) <| status := IDEMIP_OK |>.

(** The states section 3.10.7.4 takes. *)
Definition other_state (s : IdemIpTcpState) : bool :=
  match s with
  | IDEMIP_TCP_STATE_CLOSED | IDEMIP_TCP_STATE_LISTEN | IDEMIP_TCP_STATE_SYN_SENT => false
  | _ => true
  end.

(** Where a reset at RCV.NXT leaves a state. *)
Definition rst_next (s : IdemIpTcpState) (passive : bool) : IdemIpTcpState :=
  match s with
  | IDEMIP_TCP_STATE_SYN_RECEIVED => if passive then IDEMIP_TCP_STATE_LISTEN else IDEMIP_TCP_STATE_CLOSED
  | IDEMIP_TCP_STATE_CLOSED | IDEMIP_TCP_STATE_LISTEN | IDEMIP_TCP_STATE_SYN_SENT => s
  | _ => IDEMIP_TCP_STATE_CLOSED
  end.

Definition passive (io : TcpInIo) : bool := negb (listener io =? IDEMIP_TCP_PCB_NONE).
Definition rst_bits : Z :=
  Z.lor (Z.lor (Z.lor IDEMIP_TCP_IN_ACT_FLUSH IDEMIP_TCP_IN_ACT_LISTEN) (Z.lor IDEMIP_TCP_IN_ACT_REFUSED IDEMIP_TCP_IN_ACT_DELETE))
        IDEMIP_TCP_IN_ACT_RESET.
Definition quiet_bits : Z :=
  Z.lor (Z.lor (Z.lor IDEMIP_TCP_IN_ACT_ACK IDEMIP_TCP_IN_ACT_PAWS) (Z.lor IDEMIP_TCP_IN_ACT_CHALLENGE IDEMIP_TCP_IN_ACT_THROTTLED))
        IDEMIP_TCP_IN_ACT_RST.

Inductive arrives (io io' : TcpInIo) : Prop :=
  (** Dropped: answered, challenged or ignored, with the connection as it was. *)
  | arrives_dropped :
      quiet io io' → adds quiet_bits io io' → acked (res io') = acked (res io) → arrives io io'
  (** An unacceptable segment whose urgent pointer is heard. *)
  | arrives_urgent :
      rcv_step io io' → state io' = state io → rcv_nxt (vars io') = rcv_nxt (vars io) →
      rcv_wnd (vars io') = rcv_wnd (vars io) →
      adds (Z.lor IDEMIP_TCP_IN_ACT_URGENT quiet_bits) io io' → arrives io io'
  (** A reset whose sequence number is exactly RCV.NXT. *)
  | arrives_rst :
      has (seg_flags (seg io)) IDEMIP_TCP_RST = true → seg_seq (seg io) = rcv_nxt (vars io) →
      vars io' = vars io → state io' = rst_next (state io) (passive io) → adds rst_bits io io' →
      acked (res io') = acked (res io) → arrives io io'
  (** A SYN in the window of a connection a listener made. *)
  | arrives_syn :
      has (seg_flags (seg io)) IDEMIP_TCP_SYN = true → state io = IDEMIP_TCP_STATE_SYN_RECEIVED → passive io = true →
      vars io' = vars io → state io' = IDEMIP_TCP_STATE_LISTEN → adds rst_bits io io' →
      acked (res io') = acked (res io) → arrives io io'
  (** An acknowledgment, and nothing past the fifth check. *)
  | arrives_ack io1 io2 :
      has (seg_flags (seg io)) IDEMIP_TCP_RST = false → has (seg_flags (seg io)) IDEMIP_TCP_SYN = false →
      rcv_step io io1 → state io1 = state io → rcv_nxt (vars io1) = rcv_nxt (vars io) →
      rcv_wnd (vars io1) = rcv_wnd (vars io) → adds IDEMIP_TCP_IN_ACT_URGENT io io1 →
      ack_taken io1 io2 → quiet io2 io' → adds IDEMIP_TCP_IN_ACT_ACK io2 io' → acked (res io') = acked (res io2) →
      arrives io io'
  (** An acknowledgment and what the sixth, seventh and eighth checks take. *)
  | arrives_text io1 :
      has (seg_flags (seg io)) IDEMIP_TCP_RST = false → has (seg_flags (seg io)) IDEMIP_TCP_SYN = false →
      ack_taken io io1 → ack_stops (established (state io)) = false → io' = urg_text_fin io1 → arrives io io'.

Lemma rst_state_spec io : vars (rst_state io) = vars io ∧ state (rst_state io) = rst_next (state io) (passive io) ∧
  adds rst_bits io (rst_state io) ∧ acked (res (rst_state io)) = acked (res io).
Proof.
  unfold rst_state, rst_next, passive. destruct (state io) eqn:Es; try (split_and!; done);
    try destruct (negb _); split_and!; try done; unfold rst_bits; adds_tac.
Qed.

Lemma challenge_adds w : adds quiet_bits (w_io w) (w_io (tcp_in_put_challenge w)) ∧
  acked (res (w_io (tcp_in_put_challenge w))) = acked (res (w_io w)).
Proof.
  unfold tcp_in_put_challenge. destruct (_ <=? challenges _); split; try done; unfold quiet_bits; adds_tac.
Qed.

Lemma arrives_challenge w : arrives (w_io w) (w_io (tcp_in_put_challenge w)).
Proof. apply arrives_dropped; [apply quiet_challenge|apply challenge_adds..]. Qed.

Lemma check_rst_arrives w : snd (tcp_in_check_rst w) = true → arrives (w_io w) (w_io (fst (tcp_in_check_rst w))).
Proof.
  unfold tcp_in_check_rst. destruct (has _ IDEMIP_TCP_RST) eqn:Er; [|done]. cbn [negb].
  destruct (Z.eqb_spec (seg_seq (seg (w_io w))) (rcv_nxt (vars (w_io w)))) as [Eq|Eq]; cbn [negb andb].
  - intros _. destruct (rst_state_spec (w_io w)) as (?&?&?&?). by apply arrives_rst.
  - destruct (negb _); intros _; [|apply arrives_challenge]. by apply arrives_dropped.
Qed.

Lemma check_syn_arrives w : snd (tcp_in_check_syn w) = true → arrives (w_io w) (w_io (fst (tcp_in_check_syn w))).
Proof.
  unfold tcp_in_check_syn. destruct (has _ IDEMIP_TCP_SYN) eqn:Er; [|done]. cbn [negb].
  destruct (_ && acceptable _) eqn:Ea; intros _; [|apply arrives_challenge]. bool_prop.
  match goal with H : tcp_state_eqb _ _ = true |- _ => apply bool_decide_eq_true in H end.
  apply arrives_syn; try done; [|unfold rst_bits; adds_tac]. unfold passive. apply negb_true_iff, Z.eqb_neq. done.
Qed.

Lemma check_rst_pass w : snd (tcp_in_check_rst w) = false →
  fst (tcp_in_check_rst w) = w ∧ has (seg_flags (seg (w_io w))) IDEMIP_TCP_RST = false.
Proof. unfold tcp_in_check_rst. destruct (has _ IDEMIP_TCP_RST); [|done]. by repeat case_match. Qed.
Lemma check_syn_pass w : snd (tcp_in_check_syn w) = false →
  fst (tcp_in_check_syn w) = w ∧ has (seg_flags (seg (w_io w))) IDEMIP_TCP_SYN = false.
Proof. unfold tcp_in_check_syn. destruct (has _ IDEMIP_TCP_SYN); [|done]. by repeat case_match. Qed.

Lemma ack_refused_quiet io io' : ack_refused io io' → quiet io io' ∧ adds quiet_bits io io' ∧ acked (res io') = acked (res io).
Proof. intros [->|[->|[-> _]]]; split_and!; try done; unfold quiet_bits; adds_tac. Qed.

Lemma check_flags_stop w :
  (has (seg_flags (seg (w_io w))) IDEMIP_TCP_RST = true → snd (tcp_in_check_rst w) = true) ∧
  (has (seg_flags (seg (w_io w))) IDEMIP_TCP_SYN = true → snd (tcp_in_check_syn w) = true).
Proof. unfold tcp_in_check_rst, tcp_in_check_syn. split; intros ->; by repeat case_match. Qed.

Lemma urgent_refused io io1 io' :
  rcv_step io io1 → state io1 = state io → rcv_nxt (vars io1) = rcv_nxt (vars io) → rcv_wnd (vars io1) = rcv_wnd (vars io) →
  adds IDEMIP_TCP_IN_ACT_URGENT io io1 → quiet io1 io' → adds quiet_bits io1 io' → acked (res io') = acked (res io1) →
  acceptable (res io') = acceptable (res io1) → arrives io io'.
Proof.
  intros R S N W A (Q1&Q2&Q3&Q4&Q5&Q6&Q7) B K P. apply arrives_urgent; rewrite ?Q1, ?Q2; try done.
  - etrans; [exact R|]. unfold rcv_step. by rewrite Q1.
  - intros b Hb. rewrite has_lor, orb_false_iff in Hb. destruct Hb as [Hb1 Hb2]. by rewrite B, A.
Qed.

Lemma acceptable_put_rst io : acceptable (res (put_ack_rst io)) = acceptable (res io).
Proof. done. Qed.

Lemma unacceptable_arrives w : arrives (w_io w) (w_io (segment_unacceptable w)).
Proof.
  unfold segment_unacceptable. destruct (check_flags_stop w) as [Hr Hs].
  destruct (has _ IDEMIP_TCP_RST) eqn:Er; [by apply check_rst_arrives, Hr|].
  destruct (has _ IDEMIP_TCP_SYN) eqn:Es; [by apply check_syn_arrives, Hs|].
  destruct (check_urg_spec (w_io w)) as (U1&U2&U3&U4&U5). set (io1 := tcp_in_check_urg (w_io w)) in *.
  clearbody io1. clear Hr Hs. destruct (rcv_wnd (vars io1) =? 0).
  2:{ apply (urgent_refused _ io1); try done. unfold quiet_bits; adds_tac. }
  destruct (tcp_in_check_ack io1) as [io2 stop] eqn:Ec.
  pose proof (check_ack_cases io1) as Hc. rewrite Ec in Hc. cbn [fst snd] in Hc.
  destruct Hc as [[-> Hc]|[_ Hc]].
  - pose proof (ack_refused_quiet _ _ Hc) as (Q&B&K). apply (urgent_refused _ io1); try done.
    destruct Hc as [->|[->|[-> _]]]; done.
  - destruct stop; apply (arrives_ack _ _ io1 io2); try done. adds_tac.
Qed.

(** Every segment a ready borrow takes in one of the states of section 3.10.7.4 ends in one of the outcomes,
    from a block that differs from the caller's in the result members and the timestamp record alone. *)
Lemma segment_arrives w : ready (w_ctx w) = TCP_IN_READY → other_state (state (w_io w)) = true →
  ∃ io, quiet (start w) io ∧ act (res io) = 0 ∧ acked (res io) = 0 ∧ arrives io (w_io (idemip_tcp_in_segment w)).
Proof.
  intros Hr Hs. unfold idemip_tcp_in_segment. fold (start w).
  replace (tcp_in_result_clear ((w_io w) <| status := IDEMIP_ERR |>)) with ((start w) <| status := IDEMIP_ERR |>)
    by (unfold start; by destruct w as [[] ?]).
  rewrite Hr, Z.eqb_refl. cbn [negb].
  replace (_ || _) with false by (cbn; destruct (state (w_io w)); done).
  replace ((start w) <| status := IDEMIP_ERR |> <| status := IDEMIP_OK |>) with (start w) by (unfold start; by destruct w as [[] ?]).
  pose proof (quiet_paws (start w)) as Qp. pose proof (res_paws (start w)) as Rp.
  destruct (tcp_in_paws (start w)) as [io reject]. cbn [fst] in Qp, Rp.
  assert (act (res io) = 0 ∧ acked (res io) = 0) as [Ha Hk] by (rewrite Rp; done).
  destruct reject.
  { exists io. split_and!; try done. apply arrives_dropped; try done. unfold quiet_bits. adds_tac. }
  set (ok := tcp_in_seg_acceptable _ _ _ _). set (io1 := io <| res := _ |>). exists io1.
  split_and!; try done. cbn zeta. set (w1 := w <| w_io := io1 |>). change io1 with (w_io w1) at 1.
  destruct ok; cbn [negb]; [|apply unacceptable_arrives].
  destruct (tcp_in_check_rst w1) as [w2 stop] eqn:E1. destruct stop.
  { pose proof (check_rst_arrives w1) as H. rewrite E1 in H. by apply H. }
  pose proof (check_rst_pass w1) as H. rewrite E1 in H. cbn [fst snd] in H. destruct (H eq_refl) as [-> Fr]. clear H.
  destruct (tcp_in_check_syn w1) as [w3 stop] eqn:E2. destruct stop.
  { pose proof (check_syn_arrives w1) as H. rewrite E2 in H. by apply H. }
  pose proof (check_syn_pass w1) as H. rewrite E2 in H. cbn [fst snd] in H. destruct (H eq_refl) as [-> Fs]. clear H.
  pose proof (check_ack_cases (w_io w1)) as Hc. destruct (tcp_in_check_ack (w_io w1)) as [io2 stop]. cbn [fst snd] in Hc.
  destruct Hc as [[-> Hc]|[Hst Hc]].
  - pose proof (ack_refused_quiet _ _ Hc) as (Q&B&K). by apply arrives_dropped.
  - destruct stop; [by apply (arrives_ack _ _ (w_io w1) io2)|]. by apply (arrives_text _ _ io2).
Qed.

(** A borrow that is not ready, or a state another entry holds, changes nothing but the report. *)
Lemma segment_refused w :
  ready (w_ctx w) ≠ TCP_IN_READY ∨ other_state (state (w_io w)) = false →
  w_io (idemip_tcp_in_segment w) = tcp_in_result_clear ((w_io w) <| status := IDEMIP_ERR |>).
Proof.
  intros H. unfold idemip_tcp_in_segment. destruct (Z.eqb_spec (ready (w_ctx w)) TCP_IN_READY); [|done]. cbn [negb].
  replace (_ || _) with true; [done|]. destruct H; [done|]. cbn. by destruct (state (w_io w)).
Qed.

Lemma segment_cases w :
  (w_io (idemip_tcp_in_segment w) = tcp_in_result_clear ((w_io w) <| status := IDEMIP_ERR |>)) ∨
  ∃ io, (vars io = vars (w_io w) ∧ state io = state (w_io w) ∧ seg io = seg (w_io w) ∧ listener io = listener (w_io w)) ∧
        act (res io) = 0 ∧ acked (res io) = 0 ∧ other_state (state (w_io w)) = true ∧
        arrives io (w_io (idemip_tcp_in_segment w)).
Proof.
  destruct (decide (ready (w_ctx w) = TCP_IN_READY)) as [Hr|Hr]; [|left; by apply segment_refused; left].
  destruct (other_state (state (w_io w))) eqn:Hs; [|left; by apply segment_refused; right].
  right. destruct (segment_arrives w Hr Hs) as (io&(V&S&G&L&_)&A&K&H). exists io. done.
Qed.

(** ** The state machine *)

(** The edges of RFC 9293 Figure 5 that a segment arriving on [io] drives, each with what the segment must
    carry; [nxt'] is RCV.NXT once it has been processed. *)
Inductive figure5 (io : TcpInIo) (nxt' : Z) : IdemIpTcpState → IdemIpTcpState → Prop :=
  | rcv_ack_of_syn :
      has (seg_flags (seg io)) IDEMIP_TCP_ACK = true →
      tcp_in_ack_new (seg_ack (seg io)) (snd_una (vars io)) (snd_nxt (vars io)) = true →
      figure5 io nxt' IDEMIP_TCP_STATE_SYN_RECEIVED IDEMIP_TCP_STATE_ESTABLISHED
  | rcv_rst_passive :
      has (seg_flags (seg io)) IDEMIP_TCP_RST = true → seg_seq (seg io) = rcv_nxt (vars io) → passive io = true →
      figure5 io nxt' IDEMIP_TCP_STATE_SYN_RECEIVED IDEMIP_TCP_STATE_LISTEN
  | rcv_syn_passive :
      has (seg_flags (seg io)) IDEMIP_TCP_SYN = true → passive io = true →
      figure5 io nxt' IDEMIP_TCP_STATE_SYN_RECEIVED IDEMIP_TCP_STATE_LISTEN
  | rcv_rst s :
      has (seg_flags (seg io)) IDEMIP_TCP_RST = true → seg_seq (seg io) = rcv_nxt (vars io) → other_state s = true →
      (s = IDEMIP_TCP_STATE_SYN_RECEIVED → passive io = false) → figure5 io nxt' s IDEMIP_TCP_STATE_CLOSED
  | rcv_ack_of_fin s s' :
      has (seg_flags (seg io)) IDEMIP_TCP_ACK = true → una_after io = snd_nxt (vars io) →
      (s, s') ∈ [(IDEMIP_TCP_STATE_FIN_WAIT_1, IDEMIP_TCP_STATE_FIN_WAIT_2);
                 (IDEMIP_TCP_STATE_CLOSING, IDEMIP_TCP_STATE_TIME_WAIT);
                 (IDEMIP_TCP_STATE_LAST_ACK, IDEMIP_TCP_STATE_CLOSED)] → figure5 io nxt' s s'
  | rcv_fin s s' :
      has (seg_flags (seg io)) IDEMIP_TCP_FIN = true →
      nxt' = u32 (seg_seq (seg io) + seg_data_len (seg io) + 1) →
      (s, s') ∈ [(IDEMIP_TCP_STATE_ESTABLISHED, IDEMIP_TCP_STATE_CLOSE_WAIT);
                 (IDEMIP_TCP_STATE_FIN_WAIT_1, IDEMIP_TCP_STATE_CLOSING);
                 (IDEMIP_TCP_STATE_FIN_WAIT_2, IDEMIP_TCP_STATE_TIME_WAIT)] → figure5 io nxt' s s'.

(** What the fifth check does to a state is a path of the figure. *)
Lemma ack_path io io' nxt' : ack_taken io io' → rtc (figure5 io nxt') (state io) (state io').
Proof.
  intros (Hk&Hn&_&_&Hs&_). rewrite Hs. set (s := established (state io)).
  assert (rtc (figure5 io nxt') (state io) s) as H1.
  { subst s. unfold established. destruct (tcp_state_eqb _ _) eqn:E; [|done]. apply bool_decide_eq_true in E.
    rewrite E. apply rtc_once. by apply rcv_ack_of_syn; [|apply Hn]. }
  etrans; [exact H1|]. clearbody s. unfold ack_next.
  destruct (Z.eqb_spec (una_after io) (snd_nxt (vars io))); destruct s; try done;
    apply rtc_once, rcv_ack_of_fin; try done; set_solver.
Qed.

Lemma fin_path io io' nxt' s (acked : bool) :
  has (seg_flags (seg io)) IDEMIP_TCP_FIN = true → nxt' = u32 (seg_seq (seg io) + seg_data_len (seg io) + 1) →
  other_state s = true → s ≠ IDEMIP_TCP_STATE_SYN_RECEIVED → (s = IDEMIP_TCP_STATE_FIN_WAIT_1 → acked = false) →
  io' = fin_next s acked → rtc (figure5 io nxt') s io'.
Proof.
  intros Hf Hn Hs Hsr H1 ->. unfold fin_next.
  destruct s; try done; try (apply rtc_once, rcv_fin; try done; set_solver).
Qed.

(** ** What the sixth, seventh and eighth checks take between them *)

(** [avail] octets were taken from [off] on, with [TEXT] reported exactly when the seventh check took them. *)
Definition text_report (io io' : TcpInIo) (avail : Z) : Prop :=
  let off := tcp_in_from (rcv_nxt (vars io)) (tcp_in_text_seq io) in
  (avail = 0 ∧ has (act (res io')) IDEMIP_TCP_IN_ACT_TEXT = has (act (res io)) IDEMIP_TCP_IN_ACT_TEXT ∧
   (takes_text (state io) = true → seg_data_len (seg io) = 0 ∨ seg_data_len (seg io) ≤ off)) ∨
  (takes_text (state io) = true ∧ off < seg_data_len (seg io) ∧
   avail = Z.min (seg_data_len (seg io) - off) (rcv_wnd (vars io)) ∧
   text_seq (res io') = rcv_nxt (vars io) ∧ text_off (res io') = u16 off ∧ text_len (res io') = u16 avail ∧
   has (act (res io')) IDEMIP_TCP_IN_ACT_TEXT = true).

(** Whether the FIN was taken behind them. *)
Definition fin_report (io io' : TcpInIo) (avail : Z) : Prop :=
  (state io' = state io ∧ rcv_nxt (vars io') = u32 (rcv_nxt (vars io) + avail) ∧
   has (act (res io')) IDEMIP_TCP_IN_ACT_CLOSING = has (act (res io)) IDEMIP_TCP_IN_ACT_CLOSING) ∨
  (has (seg_flags (seg io)) IDEMIP_TCP_FIN = true ∧
   u32 (rcv_nxt (vars io) + avail) = u32 (tcp_in_text_seq io + seg_data_len (seg io)) ∧
   rcv_nxt (vars io') = u32 (u32 (rcv_nxt (vars io) + avail) + 1) ∧
   state io' = fin_next (state io) (snd_una (vars io) =? snd_nxt (vars io)) ∧
   has (act (res io')) IDEMIP_TCP_IN_ACT_CLOSING = true).

Definition operands_ok (io : TcpInIo) : Prop :=
  is_u32 (rcv_nxt (vars io)) ∧ is_u32 (rcv_wnd (vars io)) ∧ is_u16 (seg_data_len (seg io)).

Lemma text_part io io1 : operands_ok io → io1 = tcp_in_check_text (tcp_in_check_urg io) →
  rcv_step io io1 ∧ state io1 = state io ∧
  ∃ avail, 0 ≤ avail ≤ rcv_wnd (vars io) ∧ rcv_nxt (vars io1) = u32 (rcv_nxt (vars io) + avail) ∧
    rcv_wnd (vars io1) = rcv_wnd (vars io) - avail ∧ text_report io io1 avail ∧
    has (act (res io1)) IDEMIP_TCP_IN_ACT_CLOSING = has (act (res io)) IDEMIP_TCP_IN_ACT_CLOSING ∧
    has (act (res io1)) IDEMIP_TCP_IN_ACT_RST = has (act (res io)) IDEMIP_TCP_IN_ACT_RST.
Proof.
  intros (Hn&Hw&Hd) ->. destruct (check_urg_spec io) as (U1&U2&U3&U4&U5). set (iou := tcp_in_check_urg io) in *.
  destruct (check_text_spec iou) as (T1&T2&T3). set (io1 := tcp_in_check_text iou) in *. clearbody io1 iou.
  pose proof U1 as (Hg&_). assert (tcp_in_text_seq iou = tcp_in_text_seq io) as Hts by (unfold tcp_in_text_seq; by rewrite Hg).
  split; [by etrans|]. split; [congruence|].
  pose proof (tcp_in_from_range (rcv_nxt (vars io)) (tcp_in_text_seq io)) as Hof.
  destruct T3 as [(L1&L2&L3&L4)|(K1&K2&K3&K4&K5&K6&K7&K8&K9)].
  - exists 0. rewrite L1, L2, U3, U4. split_and!; try (wrap || lia).
    + left. rewrite L3, U5, <- Hg, <- U3, <- Hts, <- U2 by done. done.
    + by rewrite L3, U5.
    + by rewrite L3, U5.
  - rewrite U2, U3, U4, Hg, Hts in *. eexists. split_and!; [| |exact K6| | |..].
    + unfold is_u32, is_u16 in *. lia.
    + unfold is_u32, is_u16 in *. lia.
    + rewrite K7. apply u32_id. unfold is_u32, is_u16 in *. lia.
    + right. split_and!; done.
    + by rewrite K8, U5.
    + by rewrite K8, U5.
Qed.

Lemma urg_text_fin_spec io : operands_ok io → let io' := urg_text_fin io in
  rcv_step io io' ∧
  ∃ avail, 0 ≤ avail ≤ rcv_wnd (vars io) ∧ rcv_wnd (vars io') = rcv_wnd (vars io) - avail ∧
    text_report io io' avail ∧ fin_report io io' avail ∧
    has (act (res io')) IDEMIP_TCP_IN_ACT_RST = has (act (res io)) IDEMIP_TCP_IN_ACT_RST.
Proof.
  intros Hok io'. subst io'. unfold urg_text_fin. set (io1 := tcp_in_check_text (tcp_in_check_urg io)).
  destruct (text_part io io1 Hok eq_refl) as (R1&S1&avail&Ha&Hn&Hw&Ht&Hc&Hr). clearbody io1.
  pose proof R1 as (Hg&_&_&_&_&Hu&Hx&_).
  destruct (negb _); [|split; [done|]; exists avail; split_and!; try done; try lia; by left].
  destruct (check_fin_spec io1) as (F1&F2&F3&F4&F5&F6&F7). set (io2 := tcp_in_check_fin io1) in *. clearbody io2.
  split; [by etrans|]. exists avail. rewrite F2. split_and!; try done; try lia.
  - destruct Ht as [(Hz&Ht&Hl)|(?&?&?&?&?&?&?)]; [left|right]; rewrite ?F3, ?F4, ?F5, F6; done.
  - unfold fin_report. destruct (fin_here io1) eqn:Ef; [right|subst io2; by left].
    unfold fin_here, tcp_in_text_seq in Ef. rewrite Hg in Ef. apply andb_true_iff in Ef as [Ef1 Ef2%Z.eqb_eq].
    destruct F7 as (F7&F8&F9). rewrite F7, F8, S1, Hu, Hx, <- Hn. split_and!; try done.
  - by rewrite F6.
Qed.

Lemma figure5_ext io io1 nxt' s s' :
  seg io1 = seg io → snd_una (vars io1) = snd_una (vars io) → snd_nxt (vars io1) = snd_nxt (vars io) →
  rcv_nxt (vars io1) = rcv_nxt (vars io) → listener io1 = listener io →
  rtc (figure5 io nxt') s s' → rtc (figure5 io1 nxt') s s'.
Proof.
  intros Hg Hu Hn Hr Hl. apply rtc_subrel. intros a b Hab.
  assert (una_after io1 = una_after io) as Ha by (unfold una_after; by rewrite Hg, Hu, Hn).
  assert (passive io1 = passive io) as Hp by (unfold passive; by rewrite Hl).
  destruct Hab; econstructor; rewrite ?Hg, ?Hu, ?Hn, ?Hr, ?Ha, ?Hp; done.
Qed.

(** The state a taken acknowledgment leaves to the eighth check. *)
Lemma ack_taken_state io io1 : other_state (state io) = true → ack_taken io io1 → ack_stops (established (state io)) = false →
  other_state (state io1) = true ∧ state io1 ≠ IDEMIP_TCP_STATE_SYN_RECEIVED ∧
  (state io1 = IDEMIP_TCP_STATE_FIN_WAIT_1 → (snd_una (vars io1) =? snd_nxt (vars io1)) = false).
Proof.
  intros Ho (_&_&(_&(Hn&_)&_)&Hu&Hs&_) Hst. rewrite Hu, Hn, Hs. clear Hs Hu Hn.
  unfold established in *. destruct (una_after io =? snd_nxt (vars io)) eqn:E; destruct (state io); done.
Qed.

Lemma rst_path io nxt' : other_state (state io) = true →
  has (seg_flags (seg io)) IDEMIP_TCP_RST = true → seg_seq (seg io) = rcv_nxt (vars io) →
  rtc (figure5 io nxt') (state io) (rst_next (state io) (passive io)).
Proof.
  intros Ho Hf He. apply rtc_once. destruct (state io) eqn:Es; try done; try (by apply rcv_rst).
  cbn. destruct (passive io) eqn:Ep; [by apply rcv_rst_passive|by apply rcv_rst].
Qed.

Lemma arrives_operands io io1 : operands_ok io → ack_taken io io1 → operands_ok io1.
Proof.
  unfold operands_ok. intros H (_&_&((Hg&_)&_&(Hn&Hw&_)&_)&_). by rewrite Hg, Hn, Hw.
Qed.

Lemma arrives_path io io' : operands_ok io → other_state (state io) = true → arrives io io' →
  rtc (figure5 io (rcv_nxt (vars io'))) (state io) (state io').
Proof.
  intros Hok Ho []; try (replace (state io') with (state io) by (symmetry; done || apply H); done).
  - rewrite H2. by apply rst_path.
  - rewrite H0, H3. by apply rtc_once, rcv_syn_passive.
  - destruct H7 as (_&->&_). rewrite <- H2. destruct H1 as (Hg&Hl&_&_&_&Hu&Hn&_).
    apply (figure5_ext io1); try done. by apply ack_path.
  - subst io'. etrans; [by apply ack_path|].
    destruct (urg_text_fin_spec io1) as (_&avail&_&_&_&[(->&_)|(Hf&He&Hx&Hs&_)]&_); [by eapply arrives_operands|done|].
    destruct (ack_taken_state io io1) as (O1&O2&O3); try done.
    pose proof H1 as (_&_&((Hg&_)&_)&_). rewrite Hs, Hx, He. rewrite Hg in *.
    apply (fin_path _ _ _ _ (snd_una (vars io1) =? snd_nxt (vars io1))); try done.
    unfold tcp_in_text_seq. rewrite Hg, H0, Z.add_0_r. autorewrite with u32.
    by rewrite <- Z.add_assoc, u32_add_l, Z.add_assoc.
Qed.


(** ** Concrete connections, for the instances below *)
Definition sample_io (s : IdemIpTcpState) (sg : TcpInSegArgs) (now : Z) : TcpInIo :=
  mkIo (mkParseArgs None None None 0 4 0) sg (mkVars 500 600 4096 0 900 500 499 1000 100 0 999) ctl_zero s
       IDEMIP_TCP_PCB_NONE now IDEMIP_OK opts_zero (mkReply 0 0 0) (mkResult 0 0 0 0 0 false).
Definition sample (s : IdemIpTcpState) (sg : TcpInSegArgs) : Work := mkWork (sample_io s sg 0) (mkCtx TCP_IN_READY 0 0).
(** 40 octets at RCV.NXT with FIN, acknowledging all that is outstanding. *)
Definition sample_fin : TcpInSegArgs := mkSeg 1000 600 4096 41 40 0 (Z.lor IDEMIP_TCP_ACK IDEMIP_TCP_FIN).
(** A reset at [seq]. *)
Definition sample_rst (seq : Z) : TcpInSegArgs := mkSeg seq 0 0 0 0 0 IDEMIP_TCP_RST.


(** ** SND.UNA *)
Lemma una_after_within io :
  tcp_in_from (una_after io) (snd_una (vars io)) ≤ tcp_in_from (snd_nxt (vars io)) (snd_una (vars io)).
Proof.
  unfold una_after. destruct (tcp_in_ack_new _ _ _) eqn:E; [apply tcp_in_ack_new_spec in E; lia|].
  unfold tcp_in_from. rewrite Z.sub_diag. apply u32_range.
Qed.

(** What a segment may do to the send side, from [io] to [io']. *)
Definition una_moves (io io' : TcpInIo) : Prop :=
  snd_nxt (vars io') = snd_nxt (vars io) ∧ iss (vars io') = iss (vars io) ∧
  (snd_una (vars io') = snd_una (vars io) ∨
   snd_una (vars io') = seg_ack (seg io) ∧ has (seg_flags (seg io)) IDEMIP_TCP_ACK = true) ∧
  tcp_in_from (snd_una (vars io')) (snd_una (vars io)) ≤ tcp_in_from (snd_nxt (vars io)) (snd_una (vars io)) ∧
  acked (res io') = tcp_in_from (snd_una (vars io')) (snd_una (vars io)).

Lemma una_moves_still io io' : snd_nxt (vars io') = snd_nxt (vars io) → iss (vars io') = iss (vars io) →
  snd_una (vars io') = snd_una (vars io) → acked (res io') = 0 → una_moves io io'.
Proof.
  intros Hn Hi Hu Ha. unfold una_moves. rewrite Hu, Ha. unfold tcp_in_from. rewrite Z.sub_diag.
  split_and!; try done; [by left|apply u32_range].
Qed.

Lemma una_moves_ack io io1 io2 : acked (res io) = 0 → rcv_step io io1 → ack_taken io1 io2 → una_moves io io2.
Proof.
  intros Ha (Hg&_&_&_&_&Hu&Hn&Hi&Hk&_) (Hf&_&(_&(Hn'&_&Hi')&_)&Hu'&_&Hac&_).
  assert (una_after io1 = una_after io) as Hua by (unfold una_after; by rewrite Hg, Hu, Hn).
  unfold una_moves. rewrite Hn', Hi', Hn, Hi, Hu', Hua. split_and!; try done.
  - unfold una_after. rewrite <- Hg. destruct (tcp_in_ack_new _ _ _); auto.
  - apply una_after_within.
  - rewrite Hua, Hk, Hu, Ha in Hac. destruct Hac as [[Hz ->]| ->]; [|done]. rewrite Hz. unfold tcp_in_from. by rewrite Z.sub_diag.
Qed.

Lemma una_moves_after io io1 io' :
  una_moves io io1 → snd_nxt (vars io') = snd_nxt (vars io1) → iss (vars io') = iss (vars io1) →
  snd_una (vars io') = snd_una (vars io1) → acked (res io') = acked (res io1) → una_moves io io'.
Proof. unfold una_moves. intros H -> -> -> ->. exact H. Qed.

Lemma arrives_una io io' : operands_ok io → acked (res io) = 0 → arrives io io' → una_moves io io'.
Proof.
  intros Hok Ha []; try (apply una_moves_still; congruence).
  - destruct H as (V&_). apply una_moves_still; congruence.
  - destruct H as (_&_&_&_&_&Hu&Hn&Hi&Hk&_). apply una_moves_still; congruence.
  - apply (una_moves_after _ io2); [by eapply una_moves_ack| | | |done]; by rewrite (proj1 H7).
  - subst io'. destruct (urg_text_fin_spec io1) as ((_&_&_&_&_&Hu&Hn&Hi&Hk&_)&_); [by eapply arrives_operands|].
    apply (una_moves_after _ io1); try done. by eapply una_moves_ack.
Qed.

(** A segment never moves SND.NXT, moves SND.UNA only onto an acknowledgment it carries, never past SND.NXT
    and never back, and reports as acknowledged exactly the octets SND.UNA moved over; what stays outstanding
    is what was, less those. *)
Theorem segment_una_advances w : operands_ok (w_io w) →
  let io := w_io w in let io' := w_io (idemip_tcp_in_segment w) in
  una_moves io io' ∧
  tcp_in_from (snd_nxt (vars io')) (snd_una (vars io')) =
    tcp_in_from (snd_nxt (vars io)) (snd_una (vars io)) - acked (res io').
Proof.
  intros Hok io io'. assert (una_moves io io') as H.
  { subst io io'. destruct (segment_cases w) as [->|(io&(V&S&G&L)&_&K&Ho&H)]; [by apply una_moves_still|].
    apply arrives_una in H; [|unfold operands_ok; by rewrite V, G|done].
    unfold una_moves in *. by rewrite V, G in H. }
  split; [done|]. destruct H as (Hn&_&_&Hle&->). rewrite Hn. by apply tcp_in_from_sub.
Qed.

Lemma segment_una_advances_witness :
  let io' := w_io (idemip_tcp_in_segment (sample IDEMIP_TCP_STATE_ESTABLISHED sample_fin)) in
  acked (res io') = 100 ∧ tcp_in_from (snd_nxt (vars io')) (snd_una (vars io')) = 100 - acked (res io').
Proof.
  split; [reflexivity|]. refine (proj2 (segment_una_advances (sample IDEMIP_TCP_STATE_ESTABLISHED sample_fin) _)).
  unfold operands_ok, is_u32, is_u16. cbn. lia.
Defined.

(** ** Resets *)

(** The throttle of RFC 5961 section 7: whether the context lets one more challenge out at [now]. *)
Definition throttled (c : TcpInCtx) (now : Z) : bool :=
  (tcp_in_from now (challenge_at c) <? IDEMIP_TCP_CHALLENGE_WINDOW_MS) && (IDEMIP_TCP_CHALLENGE_ACKS <=? challenges c).

Lemma challenge_act w :
  act (res (w_io (tcp_in_put_challenge w))) =
    Z.lor (Z.lor (act (res (w_io w))) IDEMIP_TCP_IN_ACT_CHALLENGE)
          (if throttled (w_ctx w) (now_ms (w_io w)) then IDEMIP_TCP_IN_ACT_THROTTLED else IDEMIP_TCP_IN_ACT_ACK).
Proof.
  unfold tcp_in_put_challenge, throttled. cbn [now_ms act_or].
  change (now_ms (act_or (w_io w) IDEMIP_TCP_IN_ACT_CHALLENGE)) with (now_ms (w_io w)).
  rewrite (Z.leb_antisym (tcp_in_from _ _)).
  destruct (tcp_in_from (now_ms (w_io w)) (challenge_at (w_ctx w)) <? IDEMIP_TCP_CHALLENGE_WINDOW_MS); cbn [negb andb]; [|done].
  by destruct (IDEMIP_TCP_CHALLENGE_ACKS <=? challenges (w_ctx w)).
Qed.

(** What a reset does, by where its sequence number lies. *)
Definition rst_outcome (w : Work) (io' : TcpInIo) : Prop :=
  let io := w_io w in
  let at_ := tcp_in_from (seg_seq (seg io)) (rcv_nxt (vars io)) in
  vars io' = vars io ∧
  if seg_seq (seg io) =? rcv_nxt (vars io) then
    state io' = rst_next (state io) (passive io) ∧ has (act (res io')) IDEMIP_TCP_IN_ACT_ACK = false ∧
    has (act (res io')) IDEMIP_TCP_IN_ACT_RST = false
  else if at_ <? rcv_wnd (vars io) then
    state io' = state io ∧
    act (res io') = Z.lor IDEMIP_TCP_IN_ACT_CHALLENGE
      (if throttled (w_ctx w) (now_ms io) then IDEMIP_TCP_IN_ACT_THROTTLED else IDEMIP_TCP_IN_ACT_ACK)
  else state io' = state io ∧ act (res io') = 0.

Lemma check_rst_outcome w : act (res (w_io w)) = 0 → is_u32 (seg_seq (seg (w_io w))) → is_u32 (rcv_nxt (vars (w_io w))) →
  has (seg_flags (seg (w_io w))) IDEMIP_TCP_RST = true →
  snd (tcp_in_check_rst w) = true ∧ rst_outcome w (w_io (fst (tcp_in_check_rst w))).
Proof.
  intros Ha Hq Hx Hf. unfold tcp_in_check_rst, rst_outcome, tcp_in_rst_in_window. rewrite Hf. cbn [negb].
  destruct (Z.eqb_spec (seg_seq (seg (w_io w))) (rcv_nxt (vars (w_io w)))) as [He|He]; cbn [negb andb].
  - destruct (rst_state_spec (w_io w)) as (V&S&A&_). split_and!; try done; by rewrite A, Ha.
  - destruct (Z.eqb_spec (tcp_in_from (seg_seq (seg (w_io w))) (rcv_nxt (vars (w_io w)))) 0) as [Hz|_].
    { destruct He. by apply tcp_in_from_0. }
    cbn [negb andb]. destruct (_ <? _); cbn [negb fst snd]; [|done].
    destruct (quiet_challenge w) as (V&S&_). split_and!; try done. by rewrite challenge_act, Ha.
Qed.

Lemma rst_outcome_ext w w1 io' : rst_outcome w1 io' → vars (w_io w1) = vars (w_io w) → seg (w_io w1) = seg (w_io w) →
  state (w_io w1) = state (w_io w) → listener (w_io w1) = listener (w_io w) → now_ms (w_io w1) = now_ms (w_io w) →
  w_ctx w1 = w_ctx w → rst_outcome w io'.
Proof. unfold rst_outcome, passive. intros H V G S L N C. by rewrite V, G, S, L, N, C in H. Qed.

(** C9. RFC 5961 section 3.2: a reset ends a connection only when its sequence number is exactly RCV.NXT; inside
    the window it draws a challenge ACK, subject to the throttle, and outside it nothing at all. No variable of the
    connection moves, no acknowledgment answers the exact reset and no reset answers a reset. *)
Theorem segment_rst_exact w : ready (w_ctx w) = TCP_IN_READY → other_state (state (w_io w)) = true →
  is_u32 (seg_seq (seg (w_io w))) → is_u32 (rcv_nxt (vars (w_io w))) →
  has (seg_flags (seg (w_io w))) IDEMIP_TCP_RST = true → rst_outcome w (w_io (idemip_tcp_in_segment w)).
Proof.
  intros Hr Hs Hq Hx Hf. unfold idemip_tcp_in_segment. rewrite Hr, Z.eqb_refl. cbn [negb].
  replace (_ || _) with false by (cbn; destruct (state (w_io w)); done).
  set (io0 := (tcp_in_result_clear _) <| status := IDEMIP_OK |>).
  assert (snd (tcp_in_paws io0) = false) as Hp.
  { unfold tcp_in_paws. change (seg io0) with (seg (w_io w)). rewrite Hf, andb_false_r. by repeat case_match. }
  pose proof (quiet_paws io0) as (V&S&G&L&N&_). pose proof (res_paws io0) as R.
  destruct (tcp_in_paws io0) as [io reject]. cbn [fst snd] in *. subst reject.
  set (ok := tcp_in_seg_acceptable _ _ _ _). set (w1 := w <| w_io := io <| res := _ |> |>).
  destruct (check_rst_outcome w1) as [Hst Ho]; subst w1; try (cbn; by rewrite ?R, ?V, ?G).
  set (w1 := w <| w_io := _ |>) in *. destruct ok; cbn [negb].
  - destruct (tcp_in_check_rst w1) as [w2 stop]. cbn [fst snd] in *. subst stop. by eapply rst_outcome_ext.
  - unfold segment_unacceptable. replace (has (seg_flags (seg (w_io w1))) IDEMIP_TCP_RST) with true
      by (cbn; rewrite G; symmetry; exact Hf). by eapply rst_outcome_ext.
Qed.

(** Inside the window but not at its edge, a reset is challenged and the connection stands. *)
Lemma segment_rst_exact_witness :
  rst_outcome (sample IDEMIP_TCP_STATE_ESTABLISHED (sample_rst 1050))
    (w_io (idemip_tcp_in_segment (sample IDEMIP_TCP_STATE_ESTABLISHED (sample_rst 1050)))) ∧
  state (w_io (idemip_tcp_in_segment (sample IDEMIP_TCP_STATE_ESTABLISHED (sample_rst 1050)))) = IDEMIP_TCP_STATE_ESTABLISHED.
Proof. split; [apply segment_rst_exact; (reflexivity || unfold is_u32; cbn; lia)|reflexivity]. Defined.
(** ** A segment the tests of section 3.10.7.4 pass *)
Definition passes (w : Work) : Prop :=
  let io := w_io w in
  ready (w_ctx w) = TCP_IN_READY ∧ has (ctl_flags (ctl io)) IDEMIP_TCP_CTL_TS_OK = false ∧
  has (seg_flags (seg io)) IDEMIP_TCP_RST = false ∧ has (seg_flags (seg io)) IDEMIP_TCP_SYN = false ∧
  has (seg_flags (seg io)) IDEMIP_TCP_ACK = true ∧
  tcp_in_ack_in_range (seg_ack (seg io)) (snd_una (vars io)) (snd_nxt (vars io)) (max_snd_wnd (ctl io)) = true ∧
  tcp_in_seg_acceptable (seg_seq (seg io)) (seg_len (seg io)) (rcv_nxt (vars io)) (rcv_wnd (vars io)) = true.

Lemma segment_reaches_text w : passes w →
  takes_text (state (w_io w)) = true ∨
  state (w_io w) = IDEMIP_TCP_STATE_SYN_RECEIVED ∧
    tcp_in_ack_new (seg_ack (seg (w_io w))) (snd_una (vars (w_io w))) (snd_nxt (vars (w_io w))) = true →
  ∃ io io1, seg io = seg (w_io w) ∧ vars io = vars (w_io w) ∧ state io = state (w_io w) ∧ act (res io) = 0 ∧
    ack_taken io io1 ∧ w_io (idemip_tcp_in_segment w) = urg_text_fin io1.
Proof.
  intros (Hr&Hts&Hrst&Hsyn&Hack&Hrg&Hacc) Hst. unfold idemip_tcp_in_segment. rewrite Hr, Z.eqb_refl. cbn [negb].
  replace (_ || _) with false by (destruct Hst as [Hst|[Hst _]]; cbn; destruct (state (w_io w)); done).
  set (io0 := (tcp_in_result_clear _) <| status := IDEMIP_OK |>).
  assert (tcp_in_paws io0 = (io0, false)) as ->.
  { unfold tcp_in_paws. change (ctl_flags (ctl io0)) with (ctl_flags (ctl (w_io w))). by rewrite Hts. }
  change (seg io0) with (seg (w_io w)). change (vars io0) with (vars (w_io w)). rewrite Hacc. cbn [negb].
  set (io := io0 <| res := _ |>). set (w1 := w <| w_io := io |>).
  assert (tcp_in_check_rst w1 = (w1, false)) as ->.
  { unfold tcp_in_check_rst. change (seg (w_io w1)) with (seg (w_io w)). by rewrite Hrst. }
  assert (tcp_in_check_syn w1 = (w1, false)) as ->.
  { unfold tcp_in_check_syn. change (seg (w_io w1)) with (seg (w_io w)). by rewrite Hsyn. }
  change (w_io w1) with io. destruct (check_ack_takes io) as [Hs Hc]; [done|done| |].
  { intros Hsr. change (state io) with (state (w_io w)) in Hsr. destruct Hst as [Hst|[_ Hst]]; [by rewrite Hsr in Hst|done]. }
  exists io, (fst (tcp_in_check_ack io)). destruct (tcp_in_check_ack io) as [io1 stop]. cbn [fst snd] in *.
  split_and!; try done. change (state io) with (state (w_io w)) in Hs.
  replace stop with false; [done|]. destruct Hst as [Hst|[Hst _]]; destruct (state (w_io w)); done.
Qed.
End TcpInThms.
