(* ===== verification/TcpInThrottle.v ===== *)
(** * The challenge-ACK throttle over a run of segments

    A borrow carries one timestamp and one counter from call to call. This file follows them over any sequence
    of arrivals and bounds the challenge ACKs that leave it. *)
From Stdlib Require Import Sorting.Sorted.
From S2P Require Import Prelude Base Tcp TcpTypes TcpIn TcpInFacts TcpInThms.

Module TcpInThrottle.
Import Tcp TcpIn TcpInFacts TcpInThms.

(** The throttle after one attempt at [now]. *)
Definition challenge_ctx (c : TcpInCtx) (now : Z) : TcpInCtx :=
  let c := if IDEMIP_TCP_CHALLENGE_WINDOW_MS <=? tcp_in_from now (challenge_at c)
           then c <| challenge_at := now |> <| challenges := 0 |> else c in
  if IDEMIP_TCP_CHALLENGE_ACKS <=? challenges c then c else c <| challenges := u32 (challenges c + 1) |>.

Definition challenge_sent (io : TcpInIo) : bool :=
  has (act (res io)) IDEMIP_TCP_IN_ACT_CHALLENGE && has (act (res io)) IDEMIP_TCP_IN_ACT_ACK.

(** What a call from [w] makes of the context, and whether a challenge ACK goes out. *)
Definition ctx_moves (w w' : Work) : Prop :=
  (w_ctx w' = w_ctx w ∧ has (act (res (w_io w'))) IDEMIP_TCP_IN_ACT_CHALLENGE = false) ∨
  (w_ctx w' = challenge_ctx (w_ctx w) (now_ms (w_io w)) ∧
   challenge_sent (w_io w') = negb (throttled (w_ctx w) (now_ms (w_io w)))).

Lemma put_challenge_moves w : act (res (w_io w)) = 0 → ctx_moves w (tcp_in_put_challenge w).
Proof.
  intros Ha. right. split.
  - unfold tcp_in_put_challenge, challenge_ctx. by destruct (_ <=? challenges _).
  - unfold challenge_sent. rewrite challenge_act, Ha. by destruct (throttled _ _).
Qed.

Lemma act_free_moves w io : has (act (res io)) IDEMIP_TCP_IN_ACT_CHALLENGE = false → ctx_moves w (w <| w_io := io |>).
Proof. by left. Qed.

Lemma check_rst_moves w : act (res (w_io w)) = 0 → ctx_moves w (fst (tcp_in_check_rst w)).
Proof.
  intros Ha. unfold tcp_in_check_rst. destruct (negb _); [left; cbn; by rewrite Ha|].
  destruct (_ && _); [left; cbn; by rewrite Ha|]. destruct (negb _); [by apply put_challenge_moves|].
  apply act_free_moves. destruct (rst_state_spec (w_io w)) as (_&_&A&_). by rewrite A, Ha.
Qed.

Lemma check_syn_moves w : act (res (w_io w)) = 0 → ctx_moves w (fst (tcp_in_check_syn w)).
Proof.
  intros Ha. unfold tcp_in_check_syn. destruct (negb _); [left; cbn; by rewrite Ha|].
  destruct (_ && _); [apply act_free_moves; cbn; by rewrite Ha|by apply put_challenge_moves].
Qed.

Lemma check_ack_challenge io : has (act (res io)) IDEMIP_TCP_IN_ACT_CHALLENGE = false →
  has (act (res (fst (tcp_in_check_ack io)))) IDEMIP_TCP_IN_ACT_CHALLENGE = false.
Proof.
  intros Ha. destruct (check_ack_cases io) as [[_ [->|[->|[-> _]]]]|[_ (_&_&(_&_&_&_&A)&_)]]; [done|..].
  - cbn. by rewrite has_lor, Ha.
  - cbn. by rewrite has_lor, Ha.
  - by rewrite A.
Qed.

Lemma urg_text_fin_challenge io : has (act (res io)) IDEMIP_TCP_IN_ACT_CHALLENGE = false →
  has (act (res (urg_text_fin io))) IDEMIP_TCP_IN_ACT_CHALLENGE = false.
Proof.
  intros Ha. unfold urg_text_fin. destruct (check_urg_spec io) as (_&_&_&_&U).
  destruct (check_text_spec (tcp_in_check_urg io)) as (_&_&T).
  assert (has (act (res (tcp_in_check_text (tcp_in_check_urg io)))) IDEMIP_TCP_IN_ACT_CHALLENGE = false) as H1.
  { destruct T as [(_&_&T&_)|(_&_&_&_&_&_&_&T&_)]; by rewrite T, U. }
  destruct (negb _); [|done]. destruct (check_fin_spec (tcp_in_check_text (tcp_in_check_urg io))) as (_&_&_&_&_&F&_).
  by rewrite F.
Qed.

Lemma unacceptable_moves w : act (res (w_io w)) = 0 → ctx_moves w (segment_unacceptable w).
Proof.
  intros Ha. unfold segment_unacceptable. destruct (has _ IDEMIP_TCP_RST); [by apply check_rst_moves|].
  destruct (has _ IDEMIP_TCP_SYN); [by apply check_syn_moves|].
  destruct (check_urg_spec (w_io w)) as (_&_&_&_&U). set (io1 := tcp_in_check_urg (w_io w)) in *.
  assert (has (act (res io1)) IDEMIP_TCP_IN_ACT_CHALLENGE = false) as H1 by (rewrite U, Ha; done). clearbody io1.
  pose proof (check_ack_challenge io1 H1) as H2. destruct (tcp_in_check_ack io1) as [io2 stop]. cbn [fst] in H2.
  destruct (_ =? 0); [destruct stop|]; apply act_free_moves; cbn; rewrite ?has_lor, ?H1, ?H2; done.
Qed.

Lemma segment_moves w : ctx_moves w (idemip_tcp_in_segment w).
Proof.
  unfold idemip_tcp_in_segment. destruct (negb _); [by left|]. destruct (_ || _); [by left|].
  set (io0 := (tcp_in_result_clear _) <| status := IDEMIP_OK |>).
  pose proof (res_paws io0) as R. pose proof (quiet_paws io0) as (_&_&_&_&N&_).
  destruct (tcp_in_paws io0) as [io reject]. cbn [fst] in R, N. assert (act (res io) = 0) as Ha by (rewrite R; done).
  destruct reject; [apply act_free_moves; cbn; by rewrite Ha|].
  set (ok := tcp_in_seg_acceptable _ _ _ _). set (w1 := w <| w_io := _ |>).
  assert (∀ w', ctx_moves w1 w' → ctx_moves w w') as Hex.
  { intros w' H. unfold ctx_moves in *. change (w_ctx w1) with (w_ctx w) in H.
    change (now_ms (w_io w1)) with (now_ms io) in H. rewrite N in H. exact H. }
  assert (act (res (w_io w1)) = 0) as Ha1 by exact Ha. apply Hex. clear Hex. clearbody w1 ok. clear R N Ha.
  destruct ok; cbn [negb]; [|by apply unacceptable_moves].
  pose proof (check_rst_moves w1 Ha1) as Hm. pose proof (check_rst_pass w1) as Hp.
  destruct (tcp_in_check_rst w1) as [w2 [|]]; cbn [fst snd] in *; [done|]. destruct (Hp eq_refl) as [-> _].
  clear Hp Hm. pose proof (check_syn_moves w1 Ha1) as Hm. pose proof (check_syn_pass w1) as Hp.
  destruct (tcp_in_check_syn w1) as [w2' [|]]; cbn [fst snd] in *; [done|]. destruct (Hp eq_refl) as [-> _].
  pose proof (check_ack_challenge (w_io w1)) as Hc. rewrite Ha1 in Hc. specialize (Hc eq_refl).
  destruct (tcp_in_check_ack (w_io w1)) as [io2 [|]]; cbn [fst] in Hc; apply act_free_moves; [done|].
  by apply urg_text_fin_challenge.
Qed.

(** ** A run of calls on one borrow *)

(** Each arrival is the operand block the caller hands the call, with the true time it is made at; the list is
    those times with what each call reported. *)
Fixpoint segment_run (c : TcpInCtx) (l : list (Z * TcpInIo)) : list (Z * TcpInIo) :=
  match l with
  | [] => []
  | (t, io) :: l =>
      let w' := idemip_tcp_in_segment (mkWork io c) in (t, w_io w') :: segment_run (w_ctx w') l
  end.

(** The caller's clock: 32 bits of a time that does not run backwards. *)
Definition clocked (l : list (Z * TcpInIo)) : Prop :=
  StronglySorted Z.le l.*1 ∧ Forall (λ '(t, io), 0 ≤ t ∧ now_ms io = u32 t) l.

(** The challenge ACKs sent from [from] on, for [IDEMIP_TCP_CHALLENGE_WINDOW_MS]. *)
Definition sent_in (from : Z) (l : list (Z * TcpInIo)) : nat :=
  length (filter (λ '(t, io), from ≤ t < from + IDEMIP_TCP_CHALLENGE_WINDOW_MS ∧ challenge_sent io = true) l).

Lemma sent_in_cons from t io l : sent_in from ((t, io) :: l) =
  Nat.add (if decide (from ≤ t < from + IDEMIP_TCP_CHALLENGE_WINDOW_MS ∧ challenge_sent io = true) then 1%nat else 0%nat)
          (sent_in from l).
Proof. unfold sent_in. rewrite filter_cons. by destruct (decide _). Qed.

Lemma segment_run_times c l : (segment_run c l).*1 = l.*1.
Proof. revert c; induction l as [|[t io] l IH]; intros c; [done|]. simpl. by rewrite IH. Qed.

(** Past the interval nothing counts. *)
Lemma sent_in_past from l : Forall (λ t, from + IDEMIP_TCP_CHALLENGE_WINDOW_MS ≤ t) l.*1 → sent_in from l = O.
Proof.
  induction l as [|[t io] l IH]; [done|]. intros [H ?]%Forall_cons. rewrite sent_in_cons, IH by done.
  destruct (decide _); [simpl in H; lia|done].
Qed.

(** A window opened at or after [from] is still open when the interval ends; one opened before it can be
    followed by one more. *)
Definition budget (from a n : Z) : Z := if from <=? a then 10 - n else 20 - n.

(** The throttle's reading: a window open since the true time [a], [n] challenges into it. *)
Definition reading (c : TcpInCtx) (a n : Z) : Prop := challenge_at c = u32 a ∧ challenges c = n ∧ 0 ≤ n ≤ 10.

(** One attempt opens a new window only five seconds on, and counts what it sends. *)
Lemma attempt_reading c a n t : reading c a n → a ≤ t →
  ∃ a' n', reading (challenge_ctx c (u32 t)) a' n' ∧
    (a' = a ∧ n' = n + (if throttled c (u32 t) then 0 else 1) ∨
     a' = t ∧ n' = 1 ∧ a + IDEMIP_TCP_CHALLENGE_WINDOW_MS ≤ t ∧ throttled c (u32 t) = false).
Proof.
  intros (Ha&Hn&Hr) Ht. unfold challenge_ctx, throttled, IDEMIP_TCP_CHALLENGE_WINDOW_MS, IDEMIP_TCP_CHALLENGE_ACKS.
  rewrite Ha, Hn. assert (tcp_in_from (u32 t) (u32 a) ≤ t - a) as Hd.
  { unfold tcp_in_from. autorewrite with u32. unfold u32. apply Z.mod_le; lia. }
  destruct (Z.leb_spec 5000 (tcp_in_from (u32 t) (u32 a))).
  - rewrite (proj2 (Z.ltb_ge _ _)) by lia. exists t, 1. split; [done|]. right. split_and!; (done || lia).
  - rewrite (proj2 (Z.ltb_lt _ _)) by lia. cbn [andb]. rewrite Hn. destruct (Z.leb_spec 10 n).
    + exists a, n. split; [done|]. left. lia.
    + exists a, (n + 1). split; [|left; lia]. unfold reading. cbn. rewrite ?Hn, (u32_id (n + 1)) by (unfold is_u32; lia).
      split_and!; (done || lia).
Qed.

Lemma run_budget from l : ∀ c a n, reading c a n → clocked l → Forall (λ t, a ≤ t ∧ from ≤ t) l.*1 →
  Z.of_nat (sent_in from (segment_run c l)) ≤ budget from a n.
Proof.
  induction l as [|[t io] l IH]; intros c a n Hc [Hs Hl] Hf.
  { destruct Hc as (_&_&?). unfold budget. change (Z.of_nat (sent_in from (segment_run c []))) with 0. destruct (_ <=? _); lia. }
  simpl in Hs, Hf. apply StronglySorted_inv in Hs as [Hs Hts]. apply Forall_cons in Hf as [[Ha Hfr] Hf].
  apply Forall_cons in Hl as [[Ht Hio] Hl]. simpl segment_run. set (w' := idemip_tcp_in_segment _).
  destruct (decide (from + IDEMIP_TCP_CHALLENGE_WINDOW_MS ≤ t)) as [Hp|Hp].
  { rewrite sent_in_past; [unfold budget; destruct Hc as (_&_&?); destruct (_ <=? _); simpl; lia|].
    simpl. rewrite segment_run_times. apply Forall_cons. split; [done|]. eapply Forall_impl; [exact Hts|]. simpl. lia. }
  rewrite sent_in_cons. destruct (segment_moves (mkWork io c)) as [[Hx Hb]|[Hx Hb]]; fold w' in Hx, Hb; cbn in Hx.
  - rewrite Hx. specialize (IH c a n Hc (conj Hs Hl) Hf).
    destruct (decide _) as [[_ Hcs]|_]; [|lia]. unfold challenge_sent in Hcs. by rewrite Hb in Hcs.
  - rewrite Hx, Hio. cbn in Hb. rewrite Hio in Hb.
    destruct (attempt_reading c a n t Hc Ha) as (a'&n'&Hc'&Hcase). specialize (IH _ a' n' Hc' (conj Hs Hl)).
    assert (Forall (λ t, a' ≤ t ∧ from ≤ t) l.*1) as Hf'.
    { rewrite Forall_forall in *. intros x Hx'. specialize (Hf x Hx'). specialize (Hts x Hx'). simpl in Hts.
      destruct Hcase as [[-> _]|[-> _]]; lia. }
    specialize (IH Hf'). unfold budget, IDEMIP_TCP_CHALLENGE_WINDOW_MS in *.
    assert (Z.of_nat (if decide (from ≤ t < from + 5000 ∧ challenge_sent (w_io w') = true) then 1 else 0) =
            if throttled c (u32 t) then 0 else 1) as Hone.
    { rewrite Hb. destruct (throttled c (u32 t)); destruct (decide _) as [[_ ?]|Hno]; try done. destruct Hno. split; [lia|done]. }
    rewrite Nat2Z.inj_add, Hone. clear Hone. destruct Hc as (_&_&?).
    destruct (Z.leb_spec from a); destruct (Z.leb_spec from a'); destruct (throttled c (u32 t)); lia.
Qed.

(** The interval as a whole: what comes before it only moves the reading. *)
Lemma run_bounded from l : ∀ c a n, reading c a n → clocked l → Forall (λ t, a ≤ t) l.*1 →
  Z.of_nat (sent_in from (segment_run c l)) ≤ 20.
Proof.
  induction l as [|[t io] l IH]; intros c a n Hc Hcl Hf; [done|].
  destruct (decide (from ≤ t)) as [Hp|Hp].
  { pose proof (run_budget from _ c a n Hc Hcl) as H. unfold budget in H. destruct Hc as (_&_&?).
    etrans; [apply H|destruct (_ <=? _); lia]. clear H. destruct Hcl as [[_ Hts]%StronglySorted_inv _].
    simpl in *. apply Forall_cons in Hf as [Ha Hf]. apply Forall_cons. split; [done|].
    rewrite Forall_forall in *. intros x Hx. specialize (Hf x Hx). specialize (Hts x Hx). simpl in Hts. lia. }
  destruct Hcl as [Hs Hl]. simpl in Hs, Hf. apply StronglySorted_inv in Hs as [Hs Hts].
  apply Forall_cons in Hf as [Ha Hf]. apply Forall_cons in Hl as [[Ht Hio] Hl]. simpl segment_run.
  rewrite sent_in_cons. destruct (decide _) as [[? _]|_]; [lia|]. simpl Nat.add.
  destruct (segment_moves (mkWork io c)) as [[Hx _]|[Hx _]]; rewrite Hx; cbn; [by apply (IH _ a n)|]. rewrite Hio.
  destruct (attempt_reading c a n t Hc Ha) as (a'&n'&Hc'&Hcase). apply (IH _ a' n'); [done|done|].
  rewrite Forall_forall in *. intros x Hx'. specialize (Hf x Hx'). specialize (Hts x Hx'). simpl in Hts.
  destruct Hcase as [[-> _]|[-> _]]; lia.
Qed.

(** C10. RFC 5961 section 7's throttle: whatever arrives on a cleared borrow, and however the caller's 32-bit clock
    wraps meanwhile, no five seconds see more than twenty challenge ACKs leave it. *)
Theorem challenge_acks_bounded from w0 l : clocked l →
  Z.of_nat (sent_in from (segment_run (w_ctx (idemip_tcp_in_clear w0)) l)) ≤ 2 * IDEMIP_TCP_CHALLENGE_ACKS.
Proof.
  intros Hl. apply (run_bounded from l _ 0 0); [done|done|]. destruct Hl as [_ Hl].
  induction Hl as [|[t io] l [? _] _ IH]; [done|]. simpl. by constructor.
Qed.

(** Ten resets inside the window at the end of one five-second count, ten at the start of the next. *)
Definition reset_burst : list (Z * TcpInIo) :=
  replicate 10 (4999, sample_io IDEMIP_TCP_STATE_ESTABLISHED (sample_rst 1050) 4999) ++
  replicate 10 (5000, sample_io IDEMIP_TCP_STATE_ESTABLISHED (sample_rst 1050) 5000).

Lemma challenge_acks_bounded_witness :
  clocked reset_burst ∧
  Z.of_nat (sent_in 4999 (segment_run (w_ctx (idemip_tcp_in_clear (sample IDEMIP_TCP_STATE_ESTABLISHED seg_zero))) reset_burst)) ≤ 20.
Proof.
  assert (clocked reset_burst) as H.
  { split; [repeat constructor; vm_compute; discriminate|].
    repeat constructor; vm_compute; discriminate. }
  split; [exact H|]. exact (challenge_acks_bounded 4999 _ _ H).
Defined.

(** The bound is met: the count restarts with each window of its own, so two milliseconds can carry twenty. *)
Example challenge_acks_over_ten :
  sent_in 4999 (segment_run (w_ctx (idemip_tcp_in_clear (sample IDEMIP_TCP_STATE_ESTABLISHED seg_zero))) reset_burst) = 20%nat.
Proof. vm_compute. reflexivity. Qed.
End TcpInThrottle.
