(* ===== verification/TcpInStream.v ===== *)
(** * In-order delivery of the peer's octets

    A connection receiving one stream of octets: segments are cut from it anywhere, arrive in any order, more
    than once or never, with resets and forged control bits among them, while the caller moves its window, its
    send variables and closes its own side between calls. What the arrival path hands the user is a prefix of
    the stream, and the close is signalled when the whole of it has been handed over. *)
From stdpp Require Import relations.
From S2P Require Import Prelude Base Tcp TcpTypes TcpIn TcpInFacts TcpInThms.

Module TcpInStream.
Import Tcp TcpIn TcpInFacts TcpInThms.

(** The octets a call asks the caller to deliver, out of the segment's data. *)
Definition text_of (payload : list Z) (r : TcpInResult) : list Z :=
  if has (act r) IDEMIP_TCP_IN_ACT_TEXT then take (Z.to_nat (text_len r)) (drop (Z.to_nat (text_off r)) payload) else [].

(** What the user's calls do to a state between two segments: a CLOSE, an ABORT. *)
Inductive user_moves : IdemIpTcpState → IdemIpTcpState → Prop :=
  | user_idle s : user_moves s s
  | user_close_syn : user_moves IDEMIP_TCP_STATE_SYN_RECEIVED IDEMIP_TCP_STATE_FIN_WAIT_1
  | user_close : user_moves IDEMIP_TCP_STATE_ESTABLISHED IDEMIP_TCP_STATE_FIN_WAIT_1
  | user_close_wait : user_moves IDEMIP_TCP_STATE_CLOSE_WAIT IDEMIP_TCP_STATE_LAST_ACK
  | user_abort s : user_moves s IDEMIP_TCP_STATE_CLOSED.

Section Stream.
(** The peer's octets, and the sequence number of the first. *)
Variables (stream : list Z) (base : Z).

Local Abbreviation total := (Z.of_nat (length stream)).

(** The segment in [io] was cut from the stream at [k], no further than half the sequence space from what has
    been delivered, and carries a FIN only at its end. *)
Definition cut_at (io : TcpInIo) (d : list Z) (k : Z) : Prop :=
  let n := seg_data_len (seg io) in
  0 ≤ k ∧ 0 ≤ n < 65536 ∧ k + n ≤ total ∧ seg_seq (seg io) = u32 (base + k) ∧
  (has (seg_flags (seg io)) IDEMIP_TCP_FIN = true → k + n = total) ∧
  Z.abs (k - Z.of_nat (length d)) < 0x80000000.

Definition payload (io : TcpInIo) (k : Z) : list Z := take (Z.to_nat (seg_data_len (seg io))) (drop (Z.to_nat k) stream).

(** The borrow, the octets delivered so far and whether the close has been signalled. *)
Definition Conn : Type := Work * list Z * bool.

Inductive conn_step : Conn → Conn → Prop :=
  (** The caller loads the next segment, moves what is its own to move, and leaves RCV.NXT alone. *)
  | conn_caller w w' d c :
      rcv_nxt (vars (w_io w')) = rcv_nxt (vars (w_io w)) → is_u32 (rcv_wnd (vars (w_io w'))) →
      user_moves (state (w_io w)) (state (w_io w')) → conn_step (w, d, c) (w', d, c)
  (** A segment arrives; one with SYN may say anything. *)
  | conn_segment w d c k :
      is_u16 (seg_data_len (seg (w_io w))) →
      (has (seg_flags (seg (w_io w))) IDEMIP_TCP_SYN = false → cut_at (w_io w) d k) →
      let r := res (w_io (idemip_tcp_in_segment w)) in
      conn_step (w, d, c)
        (idemip_tcp_in_segment w, d ++ text_of (payload (w_io w) k) r, c || has (act r) IDEMIP_TCP_IN_ACT_CLOSING).

(** A state no text is taken in, now or after any segment. *)
Definition calm (s : IdemIpTcpState) : bool := negb (takes_text s) && negb (tcp_state_eqb s IDEMIP_TCP_STATE_SYN_RECEIVED).

Definition conn_ok (x : Conn) : Prop :=
  let '(w, d, c) := x in
  rcv_nxt (vars (w_io w)) = u32 (base + Z.of_nat (length d) + (if c then 1 else 0)) ∧
  is_u32 (rcv_wnd (vars (w_io w))) ∧ d `prefix_of` stream ∧
  (c = true → d = stream ∧ calm (state (w_io w)) = true).

(** ** One segment, seen from the receive side *)
Definition rcv_nothing (io io' : TcpInIo) : Prop :=
  rcv_nxt (vars io') = rcv_nxt (vars io) ∧ rcv_wnd (vars io') = rcv_wnd (vars io) ∧
  has (act (res io')) IDEMIP_TCP_IN_ACT_TEXT = false ∧ has (act (res io')) IDEMIP_TCP_IN_ACT_CLOSING = false ∧
  (calm (state io) = true → calm (state io') = true).

Definition rcv_something (io io' : TcpInIo) : Prop :=
  has (seg_flags (seg io)) IDEMIP_TCP_SYN = false ∧
  ∃ io1 avail, seg io1 = seg io ∧ rcv_nxt (vars io1) = rcv_nxt (vars io) ∧ rcv_wnd (vars io1) = rcv_wnd (vars io) ∧
    0 ≤ avail ≤ rcv_wnd (vars io) ∧ rcv_wnd (vars io') = rcv_wnd (vars io) - avail ∧
    text_report io1 io' avail ∧ fin_report io1 io' avail ∧
    has (act (res io1)) IDEMIP_TCP_IN_ACT_TEXT = false ∧ has (act (res io1)) IDEMIP_TCP_IN_ACT_CLOSING = false ∧
    state io1 ≠ IDEMIP_TCP_STATE_SYN_RECEIVED ∧ (calm (state io) = true → calm (state io1) = true).

Lemma ack_next_calm s b : calm s = true → calm (ack_next (established s) b) = true.
Proof. by destruct s, b. Qed.
Lemma fin_next_calm s b : s ≠ IDEMIP_TCP_STATE_SYN_RECEIVED → calm (fin_next s b) = true.
Proof. intros ?. by destruct s, b. Qed.
Lemma rst_next_calm s b : other_state s = true → calm (rst_next s b) = true.
Proof. by destruct s, b. Qed.

Lemma arrives_rcv io io' : operands_ok io → act (res io) = 0 → other_state (state io) = true → arrives io io' →
  rcv_nothing io io' ∨ rcv_something io io'.
Proof.
  intros Hok Ha Ho []; [left; unfold rcv_nothing..|right].
  - destruct H as (->&->&_). rewrite !H0, Ha by done. done.
  - rewrite H0, H1, H2, !H3, Ha by done. done.
  - rewrite H1, H2, !H3, Ha by done. split_and!; try done. intros _. by apply rst_next_calm.
  - rewrite H2, H3, !H4, Ha by done. done.
  - destruct H7 as (->&->&_). destruct H6 as (_&_&(_&_&(Hn&Hw&_)&_&A)&_&Hs&_).
    rewrite Hn, Hw, H3, H4, Hs, H2, !H8, !A, !H5, Ha by done. split_and!; try done. apply ack_next_calm.
  - subst io'. pose proof H1 as (_&_&((Hg&_)&_&(Hn&Hw&_)&_&A)&_&Hs&_). split; [done|]. exists io1.
    destruct (urg_text_fin_spec io1) as (_&avail&Hav&Hw'&Ht&Hf&_); [by eapply arrives_operands|].
    destruct (ack_taken_state io io1) as (_&O2&_); try done. rewrite Hw in *.
    exists avail. rewrite !A, Ha by done. split_and!; try done; try lia. rewrite Hs. apply ack_next_calm.
Qed.

(** Octets taken from a cut at RCV.NXT are the ones that come next. *)
Lemma text_is_next io1 io' d k avail :
  cut_at io1 d k → has (seg_flags (seg io1)) IDEMIP_TCP_SYN = false → d `prefix_of` stream →
  rcv_nxt (vars io1) = u32 (base + Z.of_nat (length d)) → 0 ≤ avail →
  has (act (res io1)) IDEMIP_TCP_IN_ACT_TEXT = false → text_report io1 io' avail →
  ∃ x, text_of (payload io1 k) (res io') = x ∧ Z.of_nat (length x) = avail ∧ d ++ x `prefix_of` stream ∧
       (avail = 0 ∨ takes_text (state io1) = true).
Proof.
  intros (Hk&Hn&Hkn&Hq&_&Hd) Hsyn [rest Hst] Hrn Ha Hnt Ht. unfold text_of.
  destruct Ht as [(->&->&_)|(Htk&Hlt&Hav&_&Hoff&Hlen&->)].
  { rewrite Hnt. exists []. rewrite app_nil_r. split_and!; try done; [by exists rest|by left]. }
  unfold tcp_in_text_seq in *. rewrite Hsyn, Hq, Hrn in *. set (n := seg_data_len (seg io1)) in *.
  set (L := Z.of_nat (length d)) in *.
  assert (tcp_in_from (u32 (base + L)) (u32 (u32 (base + k) + 0)) = L - k ∧ 0 ≤ L - k) as [Ho HoP].
  { unfold tcp_in_from in *. autorewrite with u32 in *. rewrite Z.add_0_r in *. autorewrite with u32 in *.
    replace (base + L - (base + k)) with (L - k) in * by lia. clear -Hlt Hn Hd. wrap. }
  rewrite Ho in *. rewrite Hoff, Hlen, !u16_id by (unfold is_u16; lia).
  exists (take (Z.to_nat avail) rest). unfold payload. fold n.
  assert (drop (Z.to_nat (L - k)) (take (Z.to_nat n) (drop (Z.to_nat k) stream)) = take (Z.to_nat (n - (L - k))) rest) as Hdr.
  { rewrite skipn_firstn_comm, drop_drop. rewrite Hst.
    replace (Z.to_nat k + Z.to_nat (L - k))%nat with (length d) by lia. rewrite drop_app_length. f_equal. lia. }
  rewrite Hdr, take_take. replace (_ `min` _)%nat with (Z.to_nat avail) by lia.
  assert (length rest = (length stream - length d)%nat) as Hlr by (rewrite Hst, length_app; lia).
  split_and!; [done| | |by right].
  - rewrite length_take. lia.
  - exists (drop (Z.to_nat avail) rest). by rewrite <- app_assoc, take_drop.
Qed.

(** A FIN taken behind them is the end of the stream. *)
Lemma fin_is_end io1 d k x :
  cut_at io1 d k → has (seg_flags (seg io1)) IDEMIP_TCP_SYN = false → d ++ x `prefix_of` stream →
  Z.of_nat (length x) ≤ 65536 → has (seg_flags (seg io1)) IDEMIP_TCP_FIN = true →
  u32 (base + Z.of_nat (length (d ++ x))) = u32 (tcp_in_text_seq io1 + seg_data_len (seg io1)) → d ++ x = stream.
Proof.
  intros (Hk&Hn&Hkn&Hq&Hfin&Hd) Hsyn Hpre Hx Hf He. unfold tcp_in_text_seq in He. rewrite Hsyn, Hq in He.
  specialize (Hfin Hf). rewrite Z.add_0_r in He. autorewrite with u32 in He. rewrite <- Z.add_assoc, Hfin in He.
  destruct Hpre as [rest Hst]. assert (length stream = length (d ++ x) + length rest)%nat as Hls by (by rewrite Hst, length_app at 1).
  rewrite length_app in Hls, He. assert (length rest = O) as Hr.
  { rewrite Nat2Z.inj_add in He. clear -He Hd Hx Hn Hls Hfin Hkn. wrap. }
  apply nil_length_inv in Hr. by rewrite Hst, Hr, app_nil_r.
Qed.

Lemma calm_no_text s : calm s = true → takes_text s = false.
Proof. by destruct s. Qed.

(** Behind the close nothing more is delivered and the close is not signalled again. *)
Lemma rcv_after_close io io' d k :
  rcv_something io io' → cut_at io d k → d = stream → calm (state io) = true →
  rcv_nxt (vars io) = u32 (base + total + 1) →
  rcv_nxt (vars io') = rcv_nxt (vars io) ∧ rcv_wnd (vars io') = rcv_wnd (vars io) ∧
  text_of (payload io k) (res io') = [] ∧ has (act (res io')) IDEMIP_TCP_IN_ACT_CLOSING = false ∧ calm (state io') = true.
Proof.
  intros (Hsyn&io1&avail&Hg&Hrn&Hrw&Hav&Hw'&Ht&Hf&Hnt&Hnc&_&Hcalm) (Hk&Hn&Hkn&Hq&Hfin&_) -> Hc Hx.
  specialize (Hcalm Hc). destruct Ht as [(->&Ht&_)|(Htk&_)]; [|by rewrite calm_no_text in Htk].
  unfold text_of. rewrite Ht, Hnt. unfold fin_report, tcp_in_text_seq in Hf. rewrite Hg, Hrn, Hsyn, Z.add_0_r in Hf.
  destruct Hf as [(->&->&->)|(Hfl&He&_)].
  - split_and!; try done; [|lia]. rewrite Hx. by rewrite u32_id by apply u32_range.
  - exfalso. rewrite Hx, Hq in He. specialize (Hfin Hfl). rewrite Z.add_0_r in He. autorewrite with u32 in He.
    rewrite <- (Z.add_assoc base k), Hfin in He. clear -He. wrap.
Qed.

Lemma conn_segment_ok w d c k :
  is_u16 (seg_data_len (seg (w_io w))) → (has (seg_flags (seg (w_io w))) IDEMIP_TCP_SYN = false → cut_at (w_io w) d k) →
  conn_ok (w, d, c) →
  let r := res (w_io (idemip_tcp_in_segment w)) in
  conn_ok (idemip_tcp_in_segment w, d ++ text_of (payload (w_io w) k) r, c || has (act r) IDEMIP_TCP_IN_ACT_CLOSING).
Proof.
  intros Hdl Hcut (Hrn&Hrw&Hpre&Hc) r. subst r. unfold conn_ok.
  destruct (segment_cases w) as [->|(io&(V&S&G&L)&Ha&_&Ho&H)].
  { unfold text_of. cbn. rewrite app_nil_r, orb_false_r. done. }
  apply arrives_rcv in H; [|unfold operands_ok; rewrite V, G, Hrn; split_and!; [apply u32_range|done..]|done|by rewrite S].
  set (io' := w_io (idemip_tcp_in_segment w)) in *. clearbody io'.
  destruct H as [(Hn&Hw&Ht&Hcl&Hcalm)|H].
  { unfold text_of. rewrite Ht, Hcl, Hn, Hw, V, app_nil_r, orb_false_r. split_and!; try done.
    intros [? ?]%Hc. rewrite S in Hcalm. auto. }
  assert (cut_at io d k) as Hk by (destruct H as [H _]; rewrite G in H; specialize (Hcut H); unfold cut_at in *; by rewrite G).
  replace (payload (w_io w) k) with (payload io k) by (unfold payload; by rewrite G). destruct c.
  - destruct (Hc eq_refl) as [-> Hcalm].
    destruct (rcv_after_close io io' stream k) as (->&->&->&->&?); try done; [by rewrite S|by rewrite V|].
    rewrite app_nil_r, V. done.
  - destruct H as (Hsyn&io1&avail&Hg&Hrn1&Hrw1&Hav&Hw'&Ht&Hf&Hnt&Hnc&Hsr&_). rewrite V, Hrn, Z.add_0_r in Hrn1.
    assert (cut_at io1 d k) as Hk1 by (unfold cut_at in *; by rewrite Hg). rewrite <- Hg in Hsyn.
    replace (payload io k) with (payload io1 k) by (unfold payload; by rewrite Hg).
    destruct (text_is_next io1 io' d k avail) as (x&->&Hx&Hpx&_); try done; [lia|]. cbn [orb].
    rewrite V in *. unfold fin_report in Hf. rewrite Hrn1 in Hf. autorewrite with u32 in Hf.
    destruct Hf as [(Hs&->&->)|(Hfl&He&->&->&->)]; rewrite ?Hnc, length_app, Nat2Z.inj_add, Hx.
    + rewrite Z.add_0_r, Z.add_assoc. split_and!; try done. unfold is_u32 in *. lia.
    + rewrite Z.add_assoc. split_and!; try done.
      { unfold is_u32 in *. lia. }
      intros _. split; [|by apply fin_next_calm]. apply (fin_is_end io1 d k); try done.
      * destruct Ht as [(->&_)|(_&_&->&_)]; [lia|]. rewrite <- G, <- Hg in Hdl. pose proof (tcp_in_from_range (rcv_nxt (vars io1)) (tcp_in_text_seq io1)).
        unfold is_u16, is_u32 in *. lia.
      * rewrite length_app, Nat2Z.inj_add, Hx, Z.add_assoc. done.
Qed.

Lemma conn_step_ok x y : conn_step x y → conn_ok x → conn_ok y.
Proof.
  intros []; [|by apply conn_segment_ok]. intros (Hn&_&Hp&Hc). unfold conn_ok. rewrite H. split_and!; try done.
  intros [-> Hcalm]%Hc. split; [done|]. by destruct H1.
Qed.

(** C8. Whatever the network does to the segments of a stream, and whatever resets and forged SYNs arrive among them,
    the octets delivered are always a prefix of the stream, in order and without repeats, and when the user is told
    the connection is closing they are the whole of it. *)
Theorem stream_delivered_in_order w0 w d c :
  rcv_nxt (vars (w_io w0)) = u32 base → is_u32 (rcv_wnd (vars (w_io w0))) →
  rtc conn_step (w0, [], false) (w, d, c) → d `prefix_of` stream ∧ (c = true → d = stream).
Proof.
  intros Hn Hw Hr. assert (conn_ok (w, d, c)) as (_&_&Hp&Hc); [|split; [done|by intros [? _]%Hc]].
  assert (conn_ok (w0, [], false)) as H0.
  { unfold conn_ok. cbn. rewrite !Z.add_0_r. split_and!; try done. apply prefix_nil. }
  revert H0. induction Hr as [|x y z Hxy _ IH]; [done|]. intros H. by eapply IH, conn_step_ok.
Qed.
End Stream.

(** A stream of five octets whose second half arrives first and is held, then the first half, then the second
    again with the FIN. *)
Definition five : list Z := [10; 11; 12; 13; 14].
Definition load (w : Work) (sg : TcpInSegArgs) : Work := w <| w_io := (w_io w) <| seg := sg |> |>.
Definition five_0 : Work := sample IDEMIP_TCP_STATE_ESTABLISHED (mkSeg 1002 500 4096 4 3 0 (Z.lor IDEMIP_TCP_ACK IDEMIP_TCP_FIN)).
Definition five_1 : Work := load (idemip_tcp_in_segment five_0) (mkSeg 1000 500 4096 2 2 0 IDEMIP_TCP_ACK).
Definition five_2 : Work :=
  load (idemip_tcp_in_segment five_1) (mkSeg 1002 500 4096 4 3 0 (Z.lor IDEMIP_TCP_ACK IDEMIP_TCP_FIN)).

Ltac cut_tac :=
  intros _; unfold cut_at; repeat split;
  first [vm_compute; reflexivity | vm_compute; discriminate | intros _; vm_compute; reflexivity].

Lemma five_segment w d c k d' c' :
  is_u16 (seg_data_len (seg (w_io w))) → (has (seg_flags (seg (w_io w))) IDEMIP_TCP_SYN = false → cut_at five 1000 (w_io w) d k) →
  d ++ text_of (payload five (w_io w) k) (res (w_io (idemip_tcp_in_segment w))) = d' →
  c || has (act (res (w_io (idemip_tcp_in_segment w)))) IDEMIP_TCP_IN_ACT_CLOSING = c' →
  conn_step five 1000 (w, d, c) (idemip_tcp_in_segment w, d', c').
Proof. intros H1 H2 <- <-. by apply conn_segment. Qed.

Lemma five_load w sg d c : is_u32 (rcv_wnd (vars (w_io w))) → conn_step five 1000 (w, d, c) (load w sg, d, c).
Proof. intros H. apply conn_caller; [done|done|apply user_idle]. Qed.

Lemma five_arrives : rtc (conn_step five 1000) (five_0, [], false) (idemip_tcp_in_segment five_2, five, true).
Proof.
  apply (rtc_l _ _ (idemip_tcp_in_segment five_0, [], false)).
  { apply (five_segment _ _ _ 2); [vm_compute; split; [discriminate|reflexivity]|cut_tac|vm_compute; reflexivity..]. }
  apply (rtc_l _ _ (five_1, [], false)); [apply five_load; vm_compute; split; [discriminate|reflexivity]|].
  apply (rtc_l _ _ (idemip_tcp_in_segment five_1, [10; 11], false)).
  { apply (five_segment _ _ _ 0); [vm_compute; split; [discriminate|reflexivity]|cut_tac|vm_compute; reflexivity..]. }
  apply (rtc_l _ _ (five_2, [10; 11], false)); [apply five_load; vm_compute; split; [discriminate|reflexivity]|].
  apply rtc_once. apply (five_segment _ _ _ 2); [vm_compute; split; [discriminate|reflexivity]|cut_tac|vm_compute; reflexivity..].
Qed.

Lemma stream_delivered_in_order_witness :
  rtc (conn_step five 1000) (five_0, [], false) (idemip_tcp_in_segment five_2, five, true) ∧ five `prefix_of` five ∧ (true = true → five = five).
Proof.
  split; [exact five_arrives|]. apply (stream_delivered_in_order five 1000 five_0 (idemip_tcp_in_segment five_2) five true).
  - reflexivity.
  - vm_compute. split; [discriminate|reflexivity].
  - exact five_arrives.
Defined.

(** ** The right edge *)

(** RFC 9293's "the total of RCV.NXT and RCV.WND should not be reduced": a segment leaves the right edge of the
    receive window where it was, or one further on for a FIN it took, and moves RCV.NXT forward by no more than the
    window it found, and the FIN. *)
Theorem segment_keeps_right_edge w : operands_ok (w_io w) →
  let io := w_io w in let io' := w_io (idemip_tcp_in_segment w) in
  ∃ avail fin, 0 ≤ avail ≤ rcv_wnd (vars io) ∧ rcv_nxt (vars io') = u32 (rcv_nxt (vars io) + avail + fin) ∧
    rcv_wnd (vars io') = rcv_wnd (vars io) - avail ∧
    fin = (if has (act (res io')) IDEMIP_TCP_IN_ACT_CLOSING then 1 else 0) ∧
    u32 (rcv_nxt (vars io') + rcv_wnd (vars io')) = u32 (rcv_nxt (vars io) + rcv_wnd (vars io) + fin).
Proof.
  intros Hok io io'. pose proof Hok as (Hn&Hw&_).
  assert (∃ avail fin, 0 ≤ avail ≤ rcv_wnd (vars io) ∧ rcv_nxt (vars io') = u32 (rcv_nxt (vars io) + avail + fin) ∧
    rcv_wnd (vars io') = rcv_wnd (vars io) - avail ∧
    fin = (if has (act (res io')) IDEMIP_TCP_IN_ACT_CLOSING then 1 else 0)) as (avail&fin&Ha&Hx&Hy&Hf).
  { subst io io'. destruct (segment_cases w) as [->|(io&(V&S&G&L)&A&_&Ho&H)].
    { exists 0, 0. cbn. rewrite !Z.add_0_r, u32_id by done. unfold is_u32 in *. split_and!; (done || lia). }
    apply arrives_rcv in H; [|unfold operands_ok; by rewrite V, G|done|by rewrite S]. rewrite <- V in *.
    destruct H as [(->&->&_&->&_)|(_&io1&avail&_&Hn1&Hw1&Hav&Hw'&_&Hf&_&Hc&_)].
    { exists 0, 0. rewrite !Z.add_0_r, u32_id by done. unfold is_u32 in *. split_and!; (done || lia). }
    unfold fin_report in Hf. rewrite Hn1, Hc in Hf. destruct Hf as [(_&->&->)|(_&_&->&_&->)].
    - exists avail, 0. rewrite Z.add_0_r. done.
    - exists avail, 1. by rewrite u32_add_l. }
  exists avail, fin. split_and!; try done; try lia. rewrite Hx, Hy, u32_add_l. f_equal. lia.
Qed.

Lemma segment_keeps_right_edge_witness :
  let w := sample IDEMIP_TCP_STATE_ESTABLISHED sample_fin in
  ∃ avail fin, 0 ≤ avail ≤ 100 ∧ rcv_nxt (vars (w_io (idemip_tcp_in_segment w))) = u32 (1000 + avail + fin).
Proof.
  intros w. destruct (segment_keeps_right_edge w) as (avail&fin&H1&H2&_).
  - unfold operands_ok, is_u32, is_u16. cbn. lia.
  - exists avail, fin. split; [exact H1|exact H2].
Defined.

(** ** Progress *)

(** A segment the tests pass, with text at RCV.NXT. *)
Definition carries_next (w : Work) : Prop :=
  let io := w_io w in
  passes w ∧ takes_text (state io) = true ∧ seg_data_len (seg io) ≤ seg_len (seg io) ∧
  tcp_in_from (rcv_nxt (vars io)) (seg_seq (seg io)) < seg_data_len (seg io).

(** The next octets are never refused: in ESTABLISHED, FIN-WAIT-1 and FIN-WAIT-2, a segment that passes the
    tests and reaches back to RCV.NXT has its octets from there on delivered, as many as the window takes. *)
Theorem segment_delivers_next w : carries_next w → operands_ok (w_io w) →
  let io := w_io w in let io' := w_io (idemip_tcp_in_segment w) in
  has (act (res io')) IDEMIP_TCP_IN_ACT_TEXT = true ∧ text_seq (res io') = rcv_nxt (vars io) ∧
  text_off (res io') = tcp_in_from (rcv_nxt (vars io)) (seg_seq (seg io)) ∧
  text_len (res io') = Z.min (seg_data_len (seg io) - text_off (res io')) (rcv_wnd (vars io)) ∧ 0 < text_len (res io') ∧
  rcv_wnd (vars io') = rcv_wnd (vars io) - text_len (res io').
Proof.
  intros Hc Hok. destruct Hc as (Hpass&Ht&Hle&Hlt). destruct (segment_reaches_text w Hpass) as (io&io1&G&V&S&_&Hak&->).
  { by left. }
  destruct Hpass as (_&_&_&Hsyn&_&_&Hacc). pose proof Hok as (Hn&Hw&Hd).
  pose proof Hak as (_&_&((Hg1&_)&_&(Hn1&Hw1&_)&_)&_&Hs1&_). rewrite G in Hg1. rewrite V in Hn1, Hw1. rewrite S in Hs1.
  assert (operands_ok io1) as Hok1 by (unfold operands_ok; by rewrite Hg1, Hn1, Hw1).
  assert (takes_text (state io1) = true) as Ht1.
  { rewrite Hs1. clear -Ht. destruct (state (w_io w)), (una_after io =? snd_nxt (vars io)); done. }
  destruct (urg_text_fin_spec io1 Hok1) as (_&avail&Hav&Hw'&Hrep&_). set (io' := urg_text_fin io1) in *. clearbody io'.
  assert (tcp_in_from (rcv_nxt (vars io1)) (tcp_in_text_seq io1) = tcp_in_from (rcv_nxt (vars (w_io w))) (seg_seq (seg (w_io w)))) as Ho.
  { unfold tcp_in_text_seq, tcp_in_from. rewrite Hg1, Hn1, Hsyn, Z.add_0_r. by autorewrite with u32. }
  pose proof (tcp_in_from_range (rcv_nxt (vars (w_io w))) (seg_seq (seg (w_io w)))) as Hor.
  assert (0 < rcv_wnd (vars (w_io w))) as Hwp.
  { unfold tcp_in_seg_acceptable in Hacc. unfold is_u32, is_u16 in *. clear -Hacc Hw Hlt Hor Hle.
    rewrite (proj2 (Z.eqb_neq (seg_len _) 0)) in Hacc by lia. destruct (Z.eqb_spec (rcv_wnd (vars (w_io w))) 0); [done|lia]. }
  unfold text_report in Hrep. rewrite Ho, Hg1, Hn1, Hw1 in Hrep. unfold is_u16, is_u32 in *.
  destruct Hrep as [(_&_&Hl)|(_&_&Ha&->&->&->&->)]; [specialize (Hl Ht1); lia|].
  rewrite !u16_id by (unfold is_u16; lia). subst avail. rewrite Hw', Hw1. split_and!; (done || lia).
Qed.

(** 40 octets of which the window has taken ten before. *)
Lemma segment_delivers_next_witness :
  let w := sample IDEMIP_TCP_STATE_ESTABLISHED (mkSeg 990 600 4096 40 40 0 IDEMIP_TCP_ACK) in
  has (act (res (w_io (idemip_tcp_in_segment w)))) IDEMIP_TCP_IN_ACT_TEXT = true ∧
  text_len (res (w_io (idemip_tcp_in_segment w))) = 30.
Proof.
  intros w. split; [|reflexivity].
  refine (proj1 (segment_delivers_next w _ _)); [repeat split; (reflexivity || discriminate)|].
  unfold operands_ok, is_u32, is_u16. cbn. lia.
Defined.
End TcpInStream.
