(* ===== verification/TcpInOpen.v ===== *)
(** * Opening a connection, and the acceptability test

    The Table 6 test against the window it approximates; the three-way handshake of RFC 9293 Figure 6 run
    through the entries of both ends; the entries of the unsynchronized states; and what the receive window
    and the FIN do at its right edge. *)
From S2P Require Import Prelude Base Tcp TcpTypes TcpIn TcpInFacts TcpInThms.

Module TcpInOpen.
Import Tcp TcpIn TcpInFacts TcpInThms.

(** ** Table 6 *)



(** ** The three-way handshake *)

(** A reply as the segment the other end sees, with the window its sender announces. *)
Definition segment_of (r : TcpInReply) (wnd : Z) : TcpInSegArgs :=
  mkSeg (reply_seq r) (reply_ack r) wnd (if has (reply_flags r) IDEMIP_TCP_SYN then 1 else 0) 0 0 (reply_flags r).

Definition deliver (w : Work) (sg : TcpInSegArgs) : Work := w <| w_io := (w_io w) <| seg := sg |> |>.

(** An active OPEN has sent its SYN; a passive one waits. Neither end has timestamps to check. *)
Definition opening (w : Work) : Prop :=
  ready (w_ctx w) = TCP_IN_READY ∧ state (w_io w) = IDEMIP_TCP_STATE_SYN_SENT ∧ is_u32 (iss (vars (w_io w))) ∧
  snd_una (vars (w_io w)) = iss (vars (w_io w)) ∧ snd_nxt (vars (w_io w)) = u32 (iss (vars (w_io w)) + 1).
Definition waiting (w : Work) : Prop :=
  ready (w_ctx w) = TCP_IN_READY ∧ state (w_io w) = IDEMIP_TCP_STATE_LISTEN ∧ is_u32 (iss (vars (w_io w))) ∧
  has (ctl_flags (ctl (w_io w))) IDEMIP_TCP_CTL_TS_OK = false ∧ is_u32 (max_snd_wnd (ctl (w_io w))).

(** The SYN of an active OPEN. *)
Definition syn_of (w : Work) (wnd : Z) : TcpInSegArgs := mkSeg (iss (vars (w_io w))) 0 wnd 1 0 0 IDEMIP_TCP_SYN.

Lemma from_next a : tcp_in_from (u32 (a + 1)) a = 1.
Proof. unfold tcp_in_from. autorewrite with u32. by replace (a + 1 - a) with 1 by lia. Qed.
Lemma from_self a : tcp_in_from a a = 0.
Proof. unfold tcp_in_from. by rewrite Z.sub_diag. Qed.

(** What the listener's end is once the SYN has arrived. *)
Lemma listen_syn_spec w c wnd : waiting w →
  let w' := idemip_tcp_in_listen (deliver w (mkSeg c 0 wnd 1 0 0 IDEMIP_TCP_SYN)) in
  let s := iss (vars (w_io w)) in
  w_ctx w' = w_ctx w ∧ state (w_io w') = IDEMIP_TCP_STATE_SYN_RECEIVED ∧
  reply (w_io w') = mkReply s (u32 (c + 1)) (Z.lor IDEMIP_TCP_SYN IDEMIP_TCP_ACK) ∧
  has (act (res (w_io w'))) IDEMIP_TCP_IN_ACT_ACK = true ∧ ctl_flags (ctl (w_io w')) = ctl_flags (ctl (w_io w)) ∧
  snd_una (vars (w_io w')) = s ∧ snd_nxt (vars (w_io w')) = u32 (s + 1) ∧ rcv_nxt (vars (w_io w')) = u32 (c + 1) ∧
  rcv_wnd (vars (w_io w')) = rcv_wnd (vars (w_io w)) ∧ snd_wl1 (vars (w_io w')) = c ∧
  listener (w_io w') = listener (w_io w) ∧ max_snd_wnd (ctl (w_io w')) = Z.max wnd (max_snd_wnd (ctl (w_io w))).
Proof.
  intros (Hr&Hs&_) w' s. subst w'. set (w0 := deliver w _). set (io0 := start w0).
  assert (idemip_tcp_in_listen w0 = w0 <| w_io := listen_syn io0 |>) as ->.
  { unfold idemip_tcp_in_listen. fold (start w0). fold io0. change (w_ctx w0) with (w_ctx w). rewrite Hr, Z.eqb_refl.
    change (state (tcp_in_result_clear _)) with (state (w_io w)). rewrite Hs. done. }
  unfold listen_syn. set (io1 := raise_max_wnd _).
  assert (vars io1 = (vars (w_io w)) <| rcv_nxt := u32 (c + 1) |> <| irs := c |> <| snd_nxt := u32 (s + 1) |> <| snd_una := s |>
    <| snd_wnd := wnd |> <| snd_wl1 := c |> <| snd_wl2 := s |>) as Hv by (subst io1; by rewrite vars_raise_max_wnd).
  assert (listener io1 = listener (w_io w) ∧ ctl_flags (ctl io1) = ctl_flags (ctl (w_io w)) ∧
          max_snd_wnd (ctl io1) = Z.max wnd (max_snd_wnd (ctl (w_io w)))) as (Hl&Hf&Hm).
  { subst io1. unfold raise_max_wnd. cbn -[Z.max].
    destruct (Z.ltb_spec (max_snd_wnd (ctl (w_io w))) wnd); cbn -[Z.max]; split_and!; (done || lia). }
  clearbody io1. cbn. rewrite Hv, Hl, Hf, Hm. cbn. rewrite has_lor, orb_true_r. done.
Qed.

(** What the active end is once the SYN,ACK has arrived. *)
Lemma syn_sent_synack_spec w s wnd : opening w →
  let w' := idemip_tcp_in_syn_sent (deliver w (mkSeg s (u32 (iss (vars (w_io w)) + 1)) wnd 1 0 0 (Z.lor IDEMIP_TCP_SYN IDEMIP_TCP_ACK))) in
  let c1 := u32 (iss (vars (w_io w)) + 1) in
  state (w_io w') = IDEMIP_TCP_STATE_ESTABLISHED ∧ reply (w_io w') = mkReply c1 (u32 (s + 1)) IDEMIP_TCP_ACK ∧
  has (act (res (w_io w'))) IDEMIP_TCP_IN_ACT_ACK = true ∧ has (act (res (w_io w'))) IDEMIP_TCP_IN_ACT_ESTABLISHED = true ∧
  snd_una (vars (w_io w')) = c1 ∧ snd_nxt (vars (w_io w')) = c1 ∧ rcv_nxt (vars (w_io w')) = u32 (s + 1).
Proof.
  intros (Hr&Hs&Hi&Hu&Hn) w' c1. subst w'. set (w0 := deliver w _).
  set (io0 := start w0).
  assert (idemip_tcp_in_syn_sent w0 = w0 <| w_io := syn_sent_syn io0 true |>) as ->.
  { unfold idemip_tcp_in_syn_sent. fold (start w0). fold io0. change (w_ctx w0) with (w_ctx w). rewrite Hr, Z.eqb_refl.
    change (state (tcp_in_result_clear _)) with (state (w_io w)). rewrite Hs. change (tcp_state_eqb _ _) with true. cbn [negb orb].
    change (seg_flags (seg io0)) with (Z.lor IDEMIP_TCP_SYN IDEMIP_TCP_ACK). change (seg_ack (seg io0)) with c1.
    change (vars io0) with (vars (w_io w)). change (has (Z.lor IDEMIP_TCP_SYN IDEMIP_TCP_ACK) IDEMIP_TCP_RST) with false.
    change (has (Z.lor IDEMIP_TCP_SYN IDEMIP_TCP_ACK) IDEMIP_TCP_ACK) with true.
    change (has (Z.lor IDEMIP_TCP_SYN IDEMIP_TCP_ACK) IDEMIP_TCP_SYN) with true.
    unfold tcp_in_ack_new. rewrite Hn, Hu. fold c1. unfold c1. rewrite from_next. done. }
  unfold syn_sent_syn. set (io1 := raise_max_wnd _).
  assert (vars io1 = (vars (w_io w)) <| rcv_nxt := u32 (s + 1) |> <| irs := s |> <| snd_una := c1 |>
    <| snd_wnd := wnd |> <| snd_wl1 := s |> <| snd_wl2 := c1 |>) as Hv by (subst io1; by rewrite vars_raise_max_wnd).
  clearbody io1. assert (negb (tcp_in_from (snd_una (vars io1)) (iss (vars io1)) =? 0) = true) as ->.
  { rewrite Hv. change (tcp_in_from _ _) with (tcp_in_from c1 (iss (vars (w_io w)))). unfold c1. by rewrite from_next. }
  change (negb (seg_data_len (seg io0) =? 0) || _) with false. cbn. rewrite Hv. cbn.
  rewrite Hn, !has_lor, !orb_true_r. done.
Qed.

(** An acknowledgment of its SYN, at RCV.NXT, takes the listener's end to ESTABLISHED. *)
Lemma syn_received_ack_spec w sg :
  ready (w_ctx w) = TCP_IN_READY → state (w_io w) = IDEMIP_TCP_STATE_SYN_RECEIVED →
  has (ctl_flags (ctl (w_io w))) IDEMIP_TCP_CTL_TS_OK = false → is_u32 (max_snd_wnd (ctl (w_io w))) →
  is_u32 (snd_una (vars (w_io w))) → is_u32 (rcv_nxt (vars (w_io w))) → is_u32 (rcv_wnd (vars (w_io w))) →
  snd_nxt (vars (w_io w)) = u32 (snd_una (vars (w_io w)) + 1) →
  sg = mkSeg (rcv_nxt (vars (w_io w))) (snd_nxt (vars (w_io w))) (seg_wnd sg) 0 0 0 IDEMIP_TCP_ACK →
  let w' := idemip_tcp_in_segment (deliver w sg) in
  state (w_io w') = IDEMIP_TCP_STATE_ESTABLISHED ∧ snd_una (vars (w_io w')) = snd_nxt (vars (w_io w)) ∧
  snd_nxt (vars (w_io w')) = snd_nxt (vars (w_io w)) ∧ rcv_nxt (vars (w_io w')) = rcv_nxt (vars (w_io w)).
Proof.
  intros Hr Hs Hts Hm Hu Hrn Hrw Hn Hsg w'.
  assert (tcp_in_ack_new (snd_nxt (vars (w_io w))) (snd_una (vars (w_io w))) (snd_nxt (vars (w_io w))) = true) as Hnew.
  { apply tcp_in_ack_new_spec. rewrite Hn, from_next. lia. }
  assert (tcp_in_ack_in_range (snd_nxt (vars (w_io w))) (snd_una (vars (w_io w))) (snd_nxt (vars (w_io w))) (max_snd_wnd (ctl (w_io w))) = true) as Hrg.
  { unfold tcp_in_ack_in_range. apply Z.leb_refl. }
  destruct (segment_reaches_text (deliver w sg)) as (io&io1&G&V&S&_&Hak&Hw).
  { unfold passes. cbn. rewrite Hsg. cbn. split_and!; try done. unfold tcp_in_seg_acceptable. cbn.
    destruct (Z.eqb_spec (rcv_wnd (vars (w_io w))) 0); [apply Z.eqb_refl|]. rewrite from_self. apply Z.ltb_lt. unfold is_u32 in *. lia. }
  { right. cbn. by rewrite Hsg. }
  subst w'. rewrite Hw. pose proof Hak as (_&_&((Hg1&_)&(Hn1&_)&(Hr1&Hw1&_)&_)&Hu1&Hs1&_).
  rewrite G in Hg1. rewrite V in Hn1, Hr1, Hw1. rewrite S in Hs1. cbn in *.
  assert (una_after io = snd_nxt (vars (w_io w))) as Hua.
  { unfold una_after. rewrite G, V. cbn. rewrite Hsg. cbn. by rewrite Hnew. }
  destruct (urg_text_fin_spec io1) as ((_&_&_&_&_&Hu2&Hn2&_)&avail&Ha&_&Ht&Hf&_).
  { unfold operands_ok. rewrite Hr1, Hw1, Hg1, Hsg. done. }
  assert (avail = 0) as ->.
  { destruct Ht as [(->&_)|(_&Ho&_)]; [done|]. rewrite Hg1, Hsg in Ho. cbn in Ho. exfalso.
    pose proof (tcp_in_from_range (rcv_nxt (vars io1)) (tcp_in_text_seq io1)) as [? _]. lia. }
  destruct Hf as [(Hfs&Hfn&_)|(Hff&_)]; [|by rewrite Hg1, Hsg in Hff].
  rewrite Hfs, Hu2, Hn2, Hfn, Hs1, Hu1, Hua, Hn1, Hr1, Hs, Z.add_0_r. split_and!; try done. by apply u32_id.
Qed.

(** The three-way handshake of RFC 9293 Figure 6, run through listen, syn_sent and segment for any initial
    sequence numbers and windows: both ends reach ESTABLISHED with nothing outstanding, and each expects exactly
    the sequence number the other will send next. *)
Theorem handshake_establishes wc ws wnd1 wnd2 wnd3 :
  opening wc → waiting ws → is_u32 wnd1 → is_u32 (rcv_wnd (vars (w_io ws))) →
  let ws1 := idemip_tcp_in_listen (deliver ws (syn_of wc wnd1)) in
  let wc2 := idemip_tcp_in_syn_sent (deliver wc (segment_of (reply (w_io ws1)) wnd2)) in
  let ws3 := idemip_tcp_in_segment (deliver ws1 (segment_of (reply (w_io wc2)) wnd3)) in
  state (w_io wc2) = IDEMIP_TCP_STATE_ESTABLISHED ∧ state (w_io ws3) = IDEMIP_TCP_STATE_ESTABLISHED ∧
  snd_una (vars (w_io wc2)) = snd_nxt (vars (w_io wc2)) ∧ snd_una (vars (w_io ws3)) = snd_nxt (vars (w_io ws3)) ∧
  rcv_nxt (vars (w_io ws3)) = snd_nxt (vars (w_io wc2)) ∧ rcv_nxt (vars (w_io wc2)) = snd_nxt (vars (w_io ws3)).
Proof.
  intros Hc Hs Hw1 Hrw ws1 wc2 ws3. pose proof Hs as (Hr&_&Hi&Hts&Hm).
  destruct (listen_syn_spec ws (iss (vars (w_io wc))) wnd1 Hs) as (L1&L2&L3&L4&L5&L6&L7&L8&L9&_&_&L10).
  fold (syn_of wc wnd1) in L1, L2, L3, L4, L5, L6, L7, L8, L9, L10. fold ws1 in L1, L2, L3, L4, L5, L6, L7, L8, L9, L10.
  destruct (syn_sent_synack_spec wc (iss (vars (w_io ws))) wnd2 Hc) as (S1&S2&_&_&S3&S4&S5).
  assert (wc2 = idemip_tcp_in_syn_sent (deliver wc (mkSeg (iss (vars (w_io ws))) (u32 (iss (vars (w_io wc)) + 1)) wnd2 1 0 0
            (Z.lor IDEMIP_TCP_SYN IDEMIP_TCP_ACK)))) as Hwc2 by (subst wc2; unfold segment_of; by rewrite L3).
  rewrite <- Hwc2 in *. clear Hwc2.
  destruct (syn_received_ack_spec ws1 (segment_of (reply (w_io wc2)) wnd3)) as (R1&R2&R3&R4);
    rewrite ?L1, ?L5, ?L6, ?L8, ?L9, ?L10; try done.
  - unfold is_u32 in *. lia.
  - apply u32_range.
  - unfold segment_of. by rewrite S2, L7.
  - subst ws3. rewrite S1, R1, R2, R3, R4, S3, S4, S5, L7, L8. done.
Qed.

Definition sample_open : Work :=
  mkWork ((sample_io IDEMIP_TCP_STATE_SYN_SENT seg_zero 0) <| vars := mkVars 0xFFFFFFFF 0 0 0 0 0 0xFFFFFFFF 0 100 0 0 |>)
         (mkCtx TCP_IN_READY 0 0).

(** The active end's SYN takes the last number of the sequence space. *)
Lemma handshake_establishes_witness :
  let ws1 := idemip_tcp_in_listen (deliver (sample IDEMIP_TCP_STATE_LISTEN seg_zero) (syn_of sample_open 100)) in
  let wc2 := idemip_tcp_in_syn_sent (deliver sample_open (segment_of (reply (w_io ws1)) 100)) in
  let ws3 := idemip_tcp_in_segment (deliver ws1 (segment_of (reply (w_io wc2)) 100)) in
  state (w_io wc2) = IDEMIP_TCP_STATE_ESTABLISHED ∧ state (w_io ws3) = IDEMIP_TCP_STATE_ESTABLISHED.
Proof.
  intros ws1 wc2 ws3.
  destruct (handshake_establishes sample_open (sample IDEMIP_TCP_STATE_LISTEN seg_zero) 100 100 100) as (H1&H2&_).
  - repeat split; (reflexivity || discriminate).
  - repeat split; (reflexivity || discriminate).
  - split; [discriminate|reflexivity].
  - split; [discriminate|reflexivity].
  - split; [exact H1|exact H2].
Defined.

(** ** At the right edge of the window *)

(** A segment whose text ends exactly where the window does has its FIN taken one past it. *)
Example fin_past_window_taken :
  let w := sample IDEMIP_TCP_STATE_ESTABLISHED (mkSeg 1000 600 4096 101 100 0 (Z.lor IDEMIP_TCP_ACK IDEMIP_TCP_FIN)) in
  let io' := w_io (idemip_tcp_in_segment w) in
  rcv_nxt (vars (w_io w)) + rcv_wnd (vars (w_io w)) = 1100 ∧ rcv_nxt (vars io') = 1101 ∧ rcv_wnd (vars io') = 0 ∧
  state io' = IDEMIP_TCP_STATE_CLOSE_WAIT.
Proof. repeat split; reflexivity. Qed.

(** A held segment's report counts the octets past the window with the others. *)
Example held_text_not_trimmed :
  let w := sample IDEMIP_TCP_STATE_ESTABLISHED (mkSeg 1050 600 4096 100 100 0 IDEMIP_TCP_ACK) in
  let io' := w_io (idemip_tcp_in_segment w) in
  has (act (res io')) IDEMIP_TCP_IN_ACT_HOLD = true ∧ text_seq (res io') + text_len (res io') = 1150 ∧
  rcv_nxt (vars io') + rcv_wnd (vars io') = 1100.
Proof. repeat split; reflexivity. Qed.

(** Text received before, with a FIN that was not, reaches the seventh check with a beginning outside the window. *)
Example old_text_reaches_seventh :
  let w := sample IDEMIP_TCP_STATE_ESTABLISHED (mkSeg 960 600 4096 41 40 0 (Z.lor IDEMIP_TCP_ACK IDEMIP_TCP_FIN)) in
  let io := w_io w in
  let io' := w_io (idemip_tcp_in_segment w) in
  acceptable (res io') = true ∧ seg_data_len (seg io) ≤ tcp_in_from (rcv_nxt (vars io)) (tcp_in_text_seq io) ∧
  rcv_wnd (vars io) ≤ tcp_in_from (tcp_in_text_seq io) (rcv_nxt (vars io)) ∧ state io' = IDEMIP_TCP_STATE_CLOSE_WAIT.
Proof. repeat split; discriminate. Qed.
End TcpInOpen.
