(* ===== verification/TcpOut.v ===== *)
(** * The send path (src/tcp/tcp_out.c)

    The segment builder, the sender's silly-window and Nagle decision, the round-trip estimator and the
    retransmission timer of RFC 6298 and the congestion window of RFC 5681, over one connection's record. *)
From S2P Require Import Prelude Base Tcp TcpTypes.

Module TcpOut.
Import Endian Checksum Pseudo Tcp.

(** ** Constants (tcp_out.h, tcp_defines.h, idemip_config.h at its defaults) *)
Definition IDEMIP_TCP_OUT_OPT_MSS : Z := 1.
Definition IDEMIP_TCP_OUT_OPT_WS : Z := 2.
Definition IDEMIP_TCP_OUT_OPT_TS : Z := 4.
Definition IDEMIP_TCP_OUT_OPT_SACK_PERM : Z := 8.
Definition IDEMIP_TCP_OUT_OPT_SACK : Z := 16.
Definition IDEMIP_TCP_OPT_SACK : Z := 5.
Definition IDEMIP_TCP_SACK_BLOCK_LEN : Z := 8.
Definition IDEMIP_TCP_SACK_BLOCKS_MAX : Z := 4.
Definition IDEMIP_TCP_SACK_BYTES (n : Z) : Z := IDEMIP_TCP_OPT_LEN_MIN + Z.shiftl n IDEMIP_TCP_SACK_BLOCK_SHIFT.
Definition IDEMIP_TCP_OPTS_MAX : Z := 40.
Definition IDEMIP_TCP_DOFF_FROM_BYTES (n : Z) : Z := u8 (Z.shiftr n IDEMIP_TCP_WORD_SHIFT).
Definition IDEMIP_TCP_RTO_INIT_MS : Z := 1000.
Definition IDEMIP_TCP_RTO_MIN_MS : Z := 1000.
Definition IDEMIP_TCP_RTO_MAX_MS : Z := 60000.
Definition IDEMIP_TCP_RTO_SYN_FLOOR_MS : Z := 3000.
Definition IDEMIP_TCP_RTO_G_MS : Z := 250.
Definition IDEMIP_TCP_RTO_K_SHIFT : Z := 2.
Definition IDEMIP_TCP_RTO_ALPHA_SHIFT : Z := 3.
Definition IDEMIP_TCP_RTO_BETA_SHIFT : Z := 2.
Definition IDEMIP_TCP_SWS_FS_SHIFT : Z := 1.
Definition IDEMIP_TCP_DUPACK_THRESH : Z := 3.
Definition IDEMIP_TCP_IW_SMSS_HI : Z := 2190.
Definition IDEMIP_TCP_IW_SMSS_LO : Z := 1095.
Definition IDEMIP_TCP_SSTHRESH_INIT : Z := u32 (Z.shiftl 0xFFFF IDEMIP_TCP_WS_MAX).
Definition TCP_OUT_READY : Z := 0x5443504F.
Definition TCP_OUT_RTX_OFF : Z := 0.

(** ** The operand block *)

(** [None] is a null pointer. *)
Record TcpOutBuildArgs := mkBuildArgs {
  a_buf : option (list Z);
  a_data : option (list Z);
  a_local_ip : option (list Z);
  a_remote_ip : option (list Z);
  a_seq : Z;
  a_ack : Z;
  a_wnd : Z;
  a_tsval : Z;
  a_tsecr : Z;
  a_cap : Z;
  a_len : Z;
  a_up : Z;
  a_mss : Z;
  a_local_port : Z;
  a_remote_port : Z;
  a_opts : Z;
  a_flags : Z;
  a_ws : Z;
  a_rcv_scale : Z;
  a_sack_blocks : Z;
  a_ip_version : Z }.
#[export] Instance TcpOutBuildArgs_eta : Eta TcpOutBuildArgs := fun r =>
  mkBuildArgs (a_buf r) (a_data r) (a_local_ip r) (a_remote_ip r) (a_seq r) (a_ack r) (a_wnd r) (a_tsval r) (a_tsecr r)
    (a_cap r) (a_len r) (a_up r) (a_mss r) (a_local_port r) (a_remote_port r) (a_opts r) (a_flags r) (a_ws r)
    (a_rcv_scale r) (a_sack_blocks r) (a_ip_version r).

Record TcpOutSendArgs := mkSendArgs {
  s_queued : Z;
  s_eff_snd_mss : Z;
  s_now_ms : Z;
  s_push : bool;
  s_nodelay : bool;
  s_force : bool }.

Record TcpOutTimerArgs := mkTimerArgs {
  t_now_ms : Z;
  t_sample_ms : Z;
  t_flight : Z;
  t_acked : Z;
  t_smss : Z;
  t_resent : bool }.

Record TcpOutSegArgs := mkSegArgs {
  sa_seq : Z;
  sa_ack : Z;
  sa_len : Z;
  sa_flags : Z }.

Record TcpOutReply := mkReply {
  or_seq : Z;
  or_ack : Z;
  or_flags : Z }.

Record TcpOutResult := mkResult {
  built : Z;
  hdr_len : Z;
  usable : Z;
  send_len : Z;
  send_now : bool;
  res_r2 : bool }.
#[export] Instance TcpOutResult_eta : Eta TcpOutResult := fun r =>
  mkResult (built r) (hdr_len r) (usable r) (send_len r) (send_now r) (res_r2 r).

Record TcpOutIo := mkIo {
  build_args : TcpOutBuildArgs;
  send_args : TcpOutSendArgs;
  timer_args : TcpOutTimerArgs;
  seg_args : TcpOutSegArgs;
  ovars : IdemIpTcpVars;
  octl : TcpPcbCtl;
  ostate : IdemIpTcpState;
  ostatus : IdemIpStatus;
  oreply : TcpOutReply;
  ores : TcpOutResult }.
#[export] Instance TcpOutIo_eta : Eta TcpOutIo := fun r =>
  mkIo (build_args r) (send_args r) (timer_args r) (seg_args r) (ovars r) (octl r) (ostate r) (ostatus r) (oreply r) (ores r).

Record TcpOutCtx := mkCtx { oready : Z }.

Record Work := mkWork {
  w_io : TcpOutIo;
  w_ctx : TcpOutCtx }.
#[export] Instance Work_eta : Eta Work := fun r => mkWork (w_io r) (w_ctx r).

Definition has (flags bit : Z) : bool := negb (Z.land flags bit =? 0).

(** ** The sequence space and the timer's arithmetic *)
Definition tcp_out_from (seq edge : Z) : Z := u32 (seq - edge).

Definition tcp_out_rto_bound (rto : Z) : Z :=
  if rto <? IDEMIP_TCP_RTO_MIN_MS then IDEMIP_TCP_RTO_MIN_MS
  else if IDEMIP_TCP_RTO_MAX_MS <? rto then IDEMIP_TCP_RTO_MAX_MS
  else rto.

Definition tcp_out_deadline (now rto : Z) : Z :=
  let at_ := u32 (now + rto) in
  if at_ =? TCP_OUT_RTX_OFF then u32 (at_ + 1) else at_.

Definition tcp_out_iw (smss : Z) : Z :=
  if IDEMIP_TCP_IW_SMSS_HI <? smss then u32 (Z.shiftl smss 1)
  else if IDEMIP_TCP_IW_SMSS_LO <? smss then u32 (smss + u32 (Z.shiftl smss 1))
  else u32 (Z.shiftl smss 2).

(** ** The options *)
Definition tcp_out_opts_len (a : TcpOutBuildArgs) : Z :=
  let syn := has (a_flags a) IDEMIP_TCP_SYN in
  let n := 0 in
  let n := if syn && has (a_opts a) IDEMIP_TCP_OUT_OPT_MSS then u16 (n + IDEMIP_TCP_OPT_MSS_LEN) else n in
  let n := if syn && has (a_opts a) IDEMIP_TCP_OUT_OPT_SACK_PERM then u16 (n + IDEMIP_TCP_OPT_SACK_PERM_LEN) else n in
  let n := if syn && has (a_opts a) IDEMIP_TCP_OUT_OPT_WS then u16 (n + IDEMIP_TCP_OPT_WS_LEN + 1) else n in
  let n := if has (a_opts a) IDEMIP_TCP_OUT_OPT_TS then u16 (n + IDEMIP_TCP_OPT_TS_LEN + 2) else n in
  let n := if has (a_opts a) IDEMIP_TCP_OUT_OPT_SACK && negb (a_sack_blocks a =? 0)
           then u16 (n + IDEMIP_TCP_SACK_BYTES (a_sack_blocks a) + 2) else n in
  u16 (Z.land (n + 3) (u32 (Z.lnot 3))).

(** [n += put(o + n)]: one writer at the octets it is handed. *)
Definition put (f : list Z → list Z * Z) (x : list Z * Z) : list Z * Z :=
  let '(o, n) := x in
  let '(t, k) := f (drop (Z.to_nat n) o) in
  (take (Z.to_nat n) o ++ t, u16 (n + k)).

(** [for (i = 0; i < a->sack_blocks; i++)], the blocks from [i] on. *)
Fixpoint sack_loop (blocks : nat) (i : Z) (ctl : TcpPcbCtl) (o : list Z) (at_ : Z) : list Z * Z :=
  match blocks with
  | O => (o, at_)
  | S blocks' =>
      let o := wr32 o at_ (tget (sack_left ctl) i) in
      let o := wr32 o (at_ + 4) (tget (sack_right ctl) i) in
      sack_loop blocks' (i + 1) ctl o (u16 (at_ + IDEMIP_TCP_SACK_BLOCK_LEN))
  end.

Definition tcp_out_put_opts (o : list Z) (a : TcpOutBuildArgs) (ctl : TcpPcbCtl) (room : Z) : list Z :=
  let syn := has (a_flags a) IDEMIP_TCP_SYN in
  let x := (o, 0) in
  let x := if syn && has (a_opts a) IDEMIP_TCP_OUT_OPT_MSS then put (λ w, tcp_put_mss w (a_mss a)) x else x in
  let x := if syn && has (a_opts a) IDEMIP_TCP_OUT_OPT_SACK_PERM then put tcp_put_sack_perm x else x in
  let x := if syn && has (a_opts a) IDEMIP_TCP_OUT_OPT_WS
           then put (λ w, tcp_put_ws w (a_ws a)) (put tcp_put_nop x) else x in
  let x := if has (a_opts a) IDEMIP_TCP_OUT_OPT_TS then
             let tsecr := if has (a_flags a) IDEMIP_TCP_ACK then a_tsecr a else 0 in
             put (λ w, tcp_put_ts w (a_tsval a) tsecr) (put tcp_put_nop (put tcp_put_nop x))
           else x in
  let x := if has (a_opts a) IDEMIP_TCP_OUT_OPT_SACK && negb (a_sack_blocks a =? 0) then
             let '(o, n) := put tcp_put_nop (put tcp_put_nop x) in
             let o := tset o (n + IDEMIP_TCP_OPT_OFF_KIND) IDEMIP_TCP_OPT_SACK in
             let o := tset o (n + IDEMIP_TCP_OPT_OFF_LEN) (u8 (IDEMIP_TCP_SACK_BYTES (a_sack_blocks a))) in
             sack_loop (Z.to_nat (a_sack_blocks a)) 0 ctl o (u16 (n + IDEMIP_TCP_OPT_OFF_DATA))
           else x in
  let '(o, n) := x in
  if n <? room
  then take (Z.to_nat n) o ++ replicate (Z.to_nat (room - n)) 0 ++ drop (Z.to_nat room) o
  else o.

(** ** The entries *)
Definition idemip_tcp_out_clear (w : Work) : Work :=
  mkWork ((w_io w) <| oreply := mkReply 0 0 0 |> <| ores := mkResult 0 0 0 0 false false |> <| ostatus := IDEMIP_OK |>)
         (mkCtx TCP_OUT_READY).

Section Build.
Variable word : option nat.
Variable swap : bool.
Variables (v4 v6 : bool).

(** The Window field: shifted but on a SYN, and held to sixteen bits. *)
Definition build_window (a : TcpOutBuildArgs) : Z :=
  let wnd := a_wnd a in
  let wnd :=
    if negb (has (a_flags a) IDEMIP_TCP_SYN)
    then Z.shiftr wnd (if IDEMIP_TCP_WS_MAX <? a_rcv_scale a then IDEMIP_TCP_WS_MAX else a_rcv_scale a) else wnd in
  u16 (if 0xFFFF <? wnd then 0xFFFF else wnd).

(** The fields of section 3.1, the Checksum field zero. *)
Definition build_fixed (h : list Z) (a : TcpOutBuildArgs) (hdr : Z) : list Z :=
  let h := wr16 h IDEMIP_TCP_OFF_SRC_PORT (a_local_port a) in
  let h := wr16 h IDEMIP_TCP_OFF_DST_PORT (a_remote_port a) in
  let h := wr32 h IDEMIP_TCP_OFF_SEQ (a_seq a) in
  let h := wr32 h IDEMIP_TCP_OFF_ACK (if has (a_flags a) IDEMIP_TCP_ACK then a_ack a else 0) in
  let doff := u16 (Z.shiftl (IDEMIP_TCP_DOFF_FROM_BYTES hdr) IDEMIP_TCP_DOFF_SHIFT) in
  let h := wr16 h IDEMIP_TCP_OFF_OFFS_FLAGS (u16 (Z.lor doff (a_flags a))) in
  let h := wr16 h IDEMIP_TCP_OFF_WINDOW (build_window a) in
  let h := wr16 h IDEMIP_TCP_OFF_CKSUM 0 in
  wr16 h IDEMIP_TCP_OFF_URGENT (if has (a_flags a) IDEMIP_TCP_URG then a_up a else 0).

(** The header, the options and the data. *)
Definition build_write (h : list Z) (a : TcpOutBuildArgs) (ctl : TcpPcbCtl) (opts hdr : Z) : list Z :=
  let h := build_fixed h a hdr in
  let h := if negb (opts =? 0)
           then take (Z.to_nat IDEMIP_TCP_OFF_OPTIONS) h ++
                tcp_out_put_opts (drop (Z.to_nat IDEMIP_TCP_OFF_OPTIONS) h) a ctl opts
           else h in
  if negb (a_len a =? 0)
  then take (Z.to_nat hdr) h ++ take (Z.to_nat (a_len a)) (default [] (a_data a)) ++ drop (Z.to_nat (hdr + a_len a)) h
  else h.

Definition idemip_tcp_out_build (w : Work) : Work :=
  let io := (w_io w) <| ostatus := IDEMIP_ERR |> <| ores := (ores (w_io w)) <| built := 0 |> <| hdr_len := 0 |> |> in
  let w := w <| w_io := io |> in
  if negb (oready (w_ctx w) =? TCP_OUT_READY) then w
  else
    let a := build_args io in
    match a_buf a, a_local_ip a, a_remote_ip a with
    | Some buf, Some local_ip, Some remote_ip =>
        if negb (Bool.eqb (negb (a_len a =? 0)) (bool_decide (is_Some (a_data a)))) then w
        else if IDEMIP_TCP_SACK_BLOCKS_MAX <? a_sack_blocks a then w
        else
          let opts := tcp_out_opts_len a in
          if IDEMIP_TCP_OPTS_MAX <? opts then w
          else
            let hdr := u16 (IDEMIP_TCP_HDR_LEN + opts) in
            let total := u32 (hdr + a_len a) in
            if a_cap a <? total then w
            else
              let h := build_write buf a (octl io) opts hdr in
              let io := io <| build_args := a <| a_buf := Some h |> |> in
              match pseudo_accum word swap v4 v6 0 (a_ip_version a) IDEMIP_TCP_PROTO local_ip remote_ip total with
              | None => w <| w_io := io |>
              | Some sum =>
                  let h := wr16 h IDEMIP_TCP_OFF_CKSUM (cksum_final (cksum_accum word swap sum (take (Z.to_nat total) h))) in
                  w <| w_io := io <| build_args := a <| a_buf := Some h |> |>
                                  <| ores := (ores io) <| hdr_len := hdr |> <| built := u16 total |> |>
                                  <| ostatus := IDEMIP_OK |> |>
              end
    | _, _, _ => w
    end.
End Build.

(** The restart window of an idle connection. *)
Definition send_restart (io : TcpOutIo) : TcpOutIo :=
  let c := octl io in
  if negb (last_send_ms c =? 0) && negb (rto c =? 0) && (rto c <? u32 (s_now_ms (send_args io) - last_send_ms c)) then
    let rw := tcp_out_iw (s_eff_snd_mss (send_args io)) in
    let rw := if cwnd c <? rw then cwnd c else rw in
    io <| octl := c <| cwnd := rw |> |>
  else io.

(** U, the offered window less what is outstanding, under what the congestion window leaves. *)
Definition send_usable (io : TcpOutIo) : Z :=
  let v := ovars io in
  let flight := tcp_out_from (snd_nxt v) (snd_una v) in
  let edge := tcp_out_from (u32 (snd_una v + snd_wnd v)) (snd_nxt v) in
  let u := if edge <? 0x80000000 then edge else 0 in
  if flight <? cwnd (octl io) then
    let room := cwnd (octl io) - flight in if room <? u then room else u
  else 0.

(** Rules (1) to (4) over D, U and their minimum. *)
Definition send_rules (io : TcpOutIo) (u : Z) : bool :=
  let s := send_args io in
  let flight := tcp_out_from (snd_nxt (ovars io)) (snd_una (ovars io)) in
  let d := s_queued s in
  let m := if d <? u then d else u in
  let nagle_ok := s_nodelay s || (flight =? 0) in
  if s_eff_snd_mss s <=? m then true
  else if nagle_ok && s_push s && negb (d =? 0) && (d <=? u) then true
  else if nagle_ok && negb (m =? 0) && (Z.shiftr (max_snd_wnd (octl io)) IDEMIP_TCP_SWS_FS_SHIFT <=? m) then true
  else if s_force s && negb (m =? 0) then true
  else false.

Definition idemip_tcp_out_send (w : Work) : Work :=
  let io := (w_io w) <| ostatus := IDEMIP_ERR |>
                     <| ores := (ores (w_io w)) <| usable := 0 |> <| send_len := 0 |> <| send_now := false |> |> in
  if negb (oready (w_ctx w) =? TCP_OUT_READY) || (s_eff_snd_mss (send_args io) =? 0) then w <| w_io := io |>
  else
    let io := send_restart (io <| ostatus := IDEMIP_OK |>) in
    let u := send_usable io in
    let io := io <| ores := (ores io) <| usable := u |> |> in
    if send_rules io u then
      let s := send_args io in
      let m := if s_queued s <? u then s_queued s else u in
      let len := if s_eff_snd_mss s <? m then s_eff_snd_mss s else m in
      let io := io <| ores := (ores io) <| send_now := true |> <| send_len := len |> |> in
      if len =? 0 then w <| w_io := io <| ores := (ores io) <| send_now := false |> |> |>
      else w <| w_io := io <| octl := (octl io) <| last_send_ms := if s_now_ms s =? 0 then 1 else s_now_ms s |> |> |>
    else w <| w_io := io |>.

Definition idemip_tcp_out_ack (w : Work) : Work :=
  let io := (w_io w) <| ostatus := IDEMIP_ERR |> <| oreply := mkReply 0 0 0 |> in
  if negb (oready (w_ctx w) =? TCP_OUT_READY) then w <| w_io := io |>
  else w <| w_io := io <| oreply := mkReply (snd_nxt (ovars io)) (rcv_nxt (ovars io)) IDEMIP_TCP_ACK |> <| ostatus := IDEMIP_OK |> |>.

Definition idemip_tcp_out_rst (w : Work) : Work :=
  let io := (w_io w) <| ostatus := IDEMIP_ERR |> <| oreply := mkReply 0 0 0 |> in
  if negb (oready (w_ctx w) =? TCP_OUT_READY) then w <| w_io := io |>
  else
    let s := seg_args io in
    let r := if has (sa_flags s) IDEMIP_TCP_ACK then mkReply (sa_ack s) 0 IDEMIP_TCP_RST
             else mkReply 0 (u32 (sa_seq s + sa_len s)) (Z.lor IDEMIP_TCP_RST IDEMIP_TCP_ACK) in
    w <| w_io := io <| oreply := r |> <| ostatus := IDEMIP_OK |> |>.

(** The estimator's update from one measurement. *)
Definition rtt_estimate (c : TcpPcbCtl) (r : Z) : TcpPcbCtl :=
  let c :=
    if srtt c =? 0 then c <| srtt := r |> <| rttvar := Z.shiftr r 1 |>
    else
      let diff := if r <? srtt c then srtt c - r else r - srtt c in
      let c := c <| rttvar := u32 (u32 (rttvar c - Z.shiftr (rttvar c) IDEMIP_TCP_RTO_BETA_SHIFT)
                                   + Z.shiftr diff IDEMIP_TCP_RTO_BETA_SHIFT) |> in
      c <| srtt := u32 (u32 (srtt c - Z.shiftr (srtt c) IDEMIP_TCP_RTO_ALPHA_SHIFT)
                        + Z.shiftr r IDEMIP_TCP_RTO_ALPHA_SHIFT) |> in
  let k := u32 (Z.shiftl (rttvar c) IDEMIP_TCP_RTO_K_SHIFT) in
  let k := if k <? IDEMIP_TCP_RTO_G_MS then IDEMIP_TCP_RTO_G_MS else k in
  c <| rto := tcp_out_rto_bound (u32 (srtt c + k)) |>.

Definition idemip_tcp_out_rtt (w : Work) : Work :=
  let io := (w_io w) <| ostatus := IDEMIP_ERR |> in
  if negb (oready (w_ctx w) =? TCP_OUT_READY) || (t_sample_ms (timer_args io) =? 0) then w <| w_io := io |>
  else if negb (backoff (octl io) =? 0) then w <| w_io := io <| ostatus := IDEMIP_OK |> |>
  else w <| w_io := io <| octl := rtt_estimate (octl io) (t_sample_ms (timer_args io)) |> <| ostatus := IDEMIP_OK |> |>.

(** RTO before a measurement has been made. *)
Definition rto_init (c : TcpPcbCtl) : TcpPcbCtl := if rto c =? 0 then c <| rto := IDEMIP_TCP_RTO_INIT_MS |> else c.

Definition in_handshake (s : IdemIpTcpState) : bool :=
  tcp_state_eqb s IDEMIP_TCP_STATE_SYN_SENT || tcp_state_eqb s IDEMIP_TCP_STATE_SYN_RECEIVED.

Definition idemip_tcp_out_rtx_arm (w : Work) : Work :=
  let io := (w_io w) <| ostatus := IDEMIP_ERR |> in
  if negb (oready (w_ctx w) =? TCP_OUT_READY) then w <| w_io := io |>
  else
    let c := rto_init (octl io) in
    let c := if has (ctl_flags c) IDEMIP_TCP_CTL_SYN_RTX && negb (in_handshake (ostate io)) then
               let c := if rto c <? IDEMIP_TCP_RTO_SYN_FLOOR_MS then c <| rto := IDEMIP_TCP_RTO_SYN_FLOOR_MS |> else c in
               c <| ctl_flags := Z.land (ctl_flags c) (u16 (Z.lnot IDEMIP_TCP_CTL_SYN_RTX)) |>
             else c in
    let c := if rtx_deadline c =? TCP_OUT_RTX_OFF
             then c <| rtx_deadline := tcp_out_deadline (t_now_ms (timer_args io)) (rto c) |> else c in
    w <| w_io := io <| octl := c |> <| ostatus := IDEMIP_OK |> |>.

Definition idemip_tcp_out_rtx_stop (w : Work) : Work :=
  let io := (w_io w) <| ostatus := IDEMIP_ERR |> in
  if negb (oready (w_ctx w) =? TCP_OUT_READY) then w <| w_io := io |>
  else w <| w_io := io <| octl := (octl io) <| rtx_deadline := TCP_OUT_RTX_OFF |> <| nrtx := 0 |> <| backoff := 0 |> |>
                       <| ostatus := IDEMIP_OK |> |>.

Definition idemip_tcp_out_rtx_restart (w : Work) : Work :=
  let io := (w_io w) <| ostatus := IDEMIP_ERR |> in
  if negb (oready (w_ctx w) =? TCP_OUT_READY) then w <| w_io := io |>
  else
    let c := rto_init (octl io) in
    w <| w_io := io <| octl := c <| rtx_deadline := tcp_out_deadline (t_now_ms (timer_args io)) (rto c) |>
                                 <| nrtx := 0 |> <| backoff := 0 |> |> <| ostatus := IDEMIP_OK |> |>.

(** [max(FlightSize / 2, 2 * SMSS)] *)
Definition loss_ssthresh (t : TcpOutTimerArgs) : Z :=
  let half := Z.shiftr (t_flight t) 1 in
  let floor2 := u32 (Z.shiftl (t_smss t) 1) in
  if floor2 <? half then half else floor2.

(** RFC 5681's answer to the timeout: ssthresh from what was outstanding, the loss window. *)
Definition expire_loss (t : TcpOutTimerArgs) (c : TcpPcbCtl) : TcpPcbCtl :=
  let c := if negb (t_resent t) then c <| ssthresh := loss_ssthresh t |> else c in
  c <| cwnd := t_smss t |> <| bytes_acked := 0 |> <| dupacks := 0 |>.

(** RFC 6298's: the timeout doubled under its bound and the timer started again. *)
Definition expire_backoff (now : Z) (c : TcpPcbCtl) : TcpPcbCtl :=
  let c := rto_init c in
  let c := c <| rto := tcp_out_rto_bound (u32 (Z.shiftl (rto c) 1)) |> in
  c <| rtx_deadline := tcp_out_deadline now (rto c) |>.

(** The mark of a retransmitted SYN and the two counts. *)
Definition expire_count (handshake : bool) (c : TcpPcbCtl) : TcpPcbCtl :=
  let c := if handshake then c <| ctl_flags := Z.lor (ctl_flags c) IDEMIP_TCP_CTL_SYN_RTX |> else c in
  let c := if nrtx c <? 0xFF then c <| nrtx := nrtx c + 1 |> else c in
  if backoff c <? 0xFF then c <| backoff := backoff c + 1 |> else c.

Definition idemip_tcp_out_rtx_expire (w : Work) : Work :=
  let io := (w_io w) <| ostatus := IDEMIP_ERR |> <| ores := (ores (w_io w)) <| res_r2 := false |> |> in
  if negb (oready (w_ctx w) =? TCP_OUT_READY) || (t_smss (timer_args io) =? 0) then w <| w_io := io |>
  else
    let t := timer_args io in
    let c := expire_count (in_handshake (ostate io)) (expire_backoff (t_now_ms t) (expire_loss t (octl io))) in
    let r2 := if in_handshake (ostate io) then ctl_r2_syn c else ctl_r2 c in
    let io := io <| octl := c |> in
    let io := if negb (r2 =? 0) && (r2 <=? nrtx c) then io <| ores := (ores io) <| res_r2 := true |> |> else io in
    w <| w_io := io <| ostatus := IDEMIP_OK |> |>.

Definition idemip_tcp_out_cc_init (w : Work) : Work :=
  let io := (w_io w) <| ostatus := IDEMIP_ERR |> in
  if negb (oready (w_ctx w) =? TCP_OUT_READY) || (t_smss (timer_args io) =? 0) then w <| w_io := io |>
  else w <| w_io := io <| octl := (octl io) <| cwnd := tcp_out_iw (t_smss (timer_args io)) |>
                                            <| ssthresh := IDEMIP_TCP_SSTHRESH_INIT |> <| bytes_acked := 0 |>
                                            <| dupacks := 0 |> <| last_send_ms := 0 |> |> <| ostatus := IDEMIP_OK |> |>.

(** Slow start below ssthresh, byte-counted congestion avoidance from it on. *)
Definition cc_grow (c : TcpPcbCtl) (n smss : Z) : TcpPcbCtl :=
  if cwnd c <? ssthresh c then
    let step := if n <? smss then n else smss in c <| cwnd := u32 (cwnd c + step) |>
  else
    let c := c <| bytes_acked := u32 (bytes_acked c + n) |> in
    if cwnd c <=? bytes_acked c
    then (c <| bytes_acked := u32 (bytes_acked c - cwnd c) |>) <| cwnd := u32 (cwnd c + smss) |>
    else c.

Definition idemip_tcp_out_cc_ack (w : Work) : Work :=
  let io := (w_io w) <| ostatus := IDEMIP_ERR |> in
  if negb (oready (w_ctx w) =? TCP_OUT_READY) || (t_smss (timer_args io) =? 0) then w <| w_io := io |>
  else
    let io := io <| ostatus := IDEMIP_OK |> in
    if in_handshake (ostate io) then w <| w_io := io |>
    else if t_acked (timer_args io) =? 0 then w <| w_io := io |>
    else w <| w_io := io <| octl := cc_grow (octl io) (t_acked (timer_args io)) (t_smss (timer_args io)) |> |>.

Definition idemip_tcp_out_cc_dupack (w : Work) : Work :=
  let io := (w_io w) <| ostatus := IDEMIP_ERR |> in
  if negb (oready (w_ctx w) =? TCP_OUT_READY) || (t_smss (timer_args io) =? 0) then w <| w_io := io |>
  else
    let t := timer_args io in
    let c := octl io in
    let c := if dupacks c <? 0xFF then c <| dupacks := dupacks c + 1 |> else c in
    let c :=
      if dupacks c <? IDEMIP_TCP_DUPACK_THRESH then c
      else if dupacks c =? IDEMIP_TCP_DUPACK_THRESH then
        let c := c <| ssthresh := loss_ssthresh t |> in
        c <| cwnd := u32 (u32 (ssthresh c + u32 (Z.shiftl (t_smss t) 1)) + t_smss t) |>
      else c <| cwnd := u32 (cwnd c + t_smss t) |> in
    w <| w_io := io <| octl := c |> <| ostatus := IDEMIP_OK |> |>.

Definition idemip_tcp_out_cc_recover (w : Work) : Work :=
  let io := (w_io w) <| ostatus := IDEMIP_ERR |> in
  if negb (oready (w_ctx w) =? TCP_OUT_READY) then w <| w_io := io |>
  else
    let c := octl io in
    let c := if IDEMIP_TCP_DUPACK_THRESH <=? dupacks c then c <| cwnd := ssthresh c |> else c in
    w <| w_io := io <| octl := c <| dupacks := 0 |> |> <| ostatus := IDEMIP_OK |> |>.
End TcpOut.
