(* ===== verification/TcpWire.v ===== *)
(** * The wire round trip: what tcp_out builds, tcp_in parses

    The octets [idemip_tcp_out_build] writes as an explicit span, the walk over its options, its checksum over
    the pseudo-header, and the theorem that the peer's [idemip_tcp_in_parse] reads back every field. *)
From S2P Require Import Prelude Base Wire Tcp TcpTypes TcpIn TcpInFacts TcpOut.

Module TcpWire.
Import Endian Checksum Wire Pseudo Tcp TcpOut TcpIn.

(** ** The options a segment carries *)
Inductive item : Type :=
  | Nop
  | Mss (v : Z)
  | SackPerm
  | Ws (s : Z)
  | Ts (tsval tsecr : Z)
  | Sack (blocks : list (Z * Z)).

Definition item_bytes (i : item) : list Z :=
  match i with
  | Nop => [1]
  | Mss v => [2; 4] ++ be16 v
  | SackPerm => [4; 2]
  | Ws s => [3; 3; Z.min s 14]
  | Ts v e => [8; 10] ++ be32 v ++ be32 e
  | Sack l => [5; 2 + 8 * Z.of_nat (length l)] ++ concat (map (λ '(x, y), be32 x ++ be32 y) l)
  end.

Definition item_ok (i : item) : Prop :=
  match i with
  | Nop | SackPerm => True
  | Mss v => is_u16 v
  | Ws s => is_u8 s
  | Ts v e => is_u32 v ∧ is_u32 e
  | Sack l => (length l ≤ 4)%nat ∧ Forall (λ '(x, y), is_u32 x ∧ is_u32 y) l
  end.

(** What a parse makes of each. *)
Definition item_effect (flags : Z) (i : item) (os : TcpInOpts) : TcpInOpts :=
  match i with
  | Nop | Sack _ => os
  | Mss v => os <| o_mss := v |> <| o_present := Z.lor (o_present os) IDEMIP_TCP_IN_OPT_MSS |>
  | SackPerm => os <| o_present := Z.lor (o_present os) IDEMIP_TCP_IN_OPT_SACK_PERM |>
  | Ws s => if has flags IDEMIP_TCP_SYN
            then os <| o_ws := Z.min s 14 |> <| o_present := Z.lor (o_present os) IDEMIP_TCP_IN_OPT_WS |>
            else os
  | Ts v e => os <| o_tsval := v |> <| o_tsecr := e |>
                 <| o_present := Z.lor (o_present os) IDEMIP_TCP_IN_OPT_TS |>
  end.

Definition items_bytes (l : list item) : list Z := concat (map item_bytes l).

Lemma sack_bytes_length l : length (concat (map (λ '(x, y), be32 x ++ be32 y) l)) = (8 * length l)%nat.
Proof. induction l as [|[x y] l IH]; [done|]. cbn [map concat length]. rewrite length_app, IH. simpl. lia. Qed.

Lemma item_bytes_octets i : item_ok i → octets (item_bytes i).
Proof.
  destruct i; cbn [item_ok item_bytes]; intros H.
  - octs.
  - apply Forall_app. split; [octs|by apply be16_octets].
  - octs.
  - octs.
  - apply Forall_app. split; [octs|]. apply Forall_app. split; apply be32_octets; tauto.
  - destruct H as [Hl H]. apply Forall_app. split; [octs|].
    clear Hl. induction H as [|[x y] l [? ?] _ IH]; [constructor|]. cbn [map concat].
    repeat (apply Forall_app; split); try done; by apply be32_octets.
Qed.

(** *** One step of the walk over each *)
Definition walk_at (pre : list Z) (end_ : Z) (wk : IdemIpTcpOptWalk) (rest : list Z) : Prop :=
  w_opts wk = pre ++ rest ∧ w_pos wk = Z.of_nat (length pre) ∧ w_end wk = end_ ∧ w_bad wk = false.

Lemma walk_opt pre end_ wk kind len body rest :
  walk_at pre end_ wk (kind :: len :: body ++ rest) → kind ≠ 0 → kind ≠ 1 → len = 2 + Z.of_nat (length body) →
  is_u8 len → Z.of_nat (length pre) + len ≤ end_ →
  ∃ wk', tcp_opt_next wk = (wk', true) ∧ walk_at (pre ++ kind :: len :: body) end_ wk' rest ∧
    w_kind wk' = kind ∧ w_len wk' = len ∧ w_opt wk' = Some (kind :: len :: body ++ rest).
Proof.
  intros (Ho&Hp&He&Hb) Hk0 Hk1 Hl Hu Hend. unfold tcp_opt_next. cbn [w_end w_pos w_opts set_field]. 
  destruct wk as [o e p op k l b]. cbn in *. subst o e p b. rewrite (proj2 (Z.leb_gt _ _)) by lia.
  rewrite Nat2Z.id, drop_app_length. change (tget (kind :: len :: body ++ rest) IDEMIP_TCP_OPT_OFF_KIND) with kind.
  change (tget (kind :: len :: body ++ rest) IDEMIP_TCP_OPT_OFF_LEN) with len.
  unfold IDEMIP_TCP_OPT_END, IDEMIP_TCP_OPT_NOP, IDEMIP_TCP_OPT_LEN_MIN.
  rewrite (proj2 (Z.eqb_neq kind 0)), (proj2 (Z.eqb_neq kind 1)) by done. cbn [negb andb].
  rewrite (proj2 (Z.ltb_ge _ 2)) by lia. rewrite (proj2 (Z.ltb_ge len 2)), (proj2 (Z.ltb_ge _ len)) by lia. cbn [orb].
  eexists. split; [done|]. cbn. rewrite u8_id by done. split_and!; try done.
  unfold walk_at. cbn. split_and!; try done.
  - rewrite <- app_assoc. done.
  - rewrite length_app. cbn [length]. lia.
Qed.

Lemma walk_nop pre end_ wk rest : walk_at pre end_ wk (1 :: rest) → Z.of_nat (length pre) < end_ →
  ∃ wk', tcp_opt_next wk = (wk', true) ∧ walk_at (pre ++ [1]) end_ wk' rest ∧ w_kind wk' = 1 ∧ w_len wk' = 1.
Proof.
  intros (Ho&Hp&He&Hb) Hend. unfold tcp_opt_next. destruct wk as [o e p op k l b]. cbn in *. subst o e p b.
  rewrite (proj2 (Z.leb_gt _ _)) by lia. rewrite Nat2Z.id, drop_app_length. change (tget (1 :: rest) IDEMIP_TCP_OPT_OFF_KIND) with 1.
  change (1 =? IDEMIP_TCP_OPT_END) with false. cbn -[Z.add Z.of_nat]. eexists. split; [done|].
  unfold walk_at. cbn -[Z.add Z.of_nat]. split_and!; try done; [by rewrite <- app_assoc|]. rewrite length_app. cbn [length]. lia.
Qed.

(** The end of the options: nothing left, or padding behind an End of Option List. *)
Lemma walk_done wk : w_end wk ≤ w_pos wk → ∃ wk', tcp_opt_next wk = (wk', false) ∧ w_bad wk' = w_bad wk.
Proof.
  intros H. unfold tcp_opt_next. change (w_end (_ <| w_len := 0 |>)) with (w_end wk).
  change (w_pos (_ <| w_len := 0 |>)) with (w_pos wk). rewrite (proj2 (Z.leb_le _ _)) by done. eexists. split; done.
Qed.

Lemma walk_eol pre end_ wk rest : walk_at pre end_ wk (0 :: rest) → Z.of_nat (length pre) < end_ →
  ∃ wk', tcp_opt_next wk = (wk', true) ∧ w_kind wk' = 0 ∧ w_pos wk' = end_ ∧ w_end wk' = end_ ∧ w_bad wk' = false.
Proof.
  intros (Ho&Hp&He&Hb) Hend. unfold tcp_opt_next. destruct wk as [o e p op k l b]. cbn in *. subst o e p b.
  rewrite (proj2 (Z.leb_gt _ _)) by lia. rewrite Nat2Z.id, drop_app_length. eexists. split; done.
Qed.

Lemma parse_option_other flags kind len o os :
  kind ≠ 2 → kind ≠ 3 → kind ≠ 4 → kind ≠ 8 → parse_option flags kind len o os = os.
Proof.
  intros. unfold parse_option, IDEMIP_TCP_OPT_MSS, IDEMIP_TCP_OPT_WS, IDEMIP_TCP_OPT_TS, IDEMIP_TCP_OPT_SACK_PERM.
  by rewrite !(proj2 (Z.eqb_neq kind _)).
Qed.

Lemma walk_end pre end_ wk pad rest flags os fuel :
  walk_at pre end_ wk (replicate pad 0 ++ rest) → end_ = Z.of_nat (length pre) + Z.of_nat pad → (2 ≤ fuel)%nat →
  ∃ wk', parse_opts fuel flags wk os = Some (wk', os) ∧ w_bad wk' = false.
Proof.
  intros Hw Hend Hf. destruct fuel as [|[|fuel]]; [lia|lia|]. pose proof Hw as (_&Hp&He&Hb). destruct pad as [|pad].
  - destruct (walk_done wk) as (wk'&H1&H2); [lia|]. exists wk'. cbn [parse_opts]. by rewrite H1, H2.
  - destruct (walk_eol pre end_ wk (replicate pad 0 ++ rest) Hw) as (wk'&H1&H2&H3&H4&H5); [lia|].
    destruct (walk_done wk') as (wk''&H6&H7); [lia|]. exists wk''. cbn [parse_opts]. rewrite H1, H2, H6, H7.
    by rewrite parse_option_other.
Qed.

(** What the step over an item leaves in the block. *)
Lemma walk_item pre end_ wk i rest flags os :
  item_ok i → walk_at pre end_ wk (item_bytes i ++ rest) → Z.of_nat (length pre) + Z.of_nat (length (item_bytes i)) ≤ end_ →
  ∃ wk', tcp_opt_next wk = (wk', true) ∧ walk_at (pre ++ item_bytes i) end_ wk' rest ∧
    parse_option flags (w_kind wk') (w_len wk') (default [] (w_opt wk')) os = item_effect flags i os.
Proof.
  intros Hi Hw He. destruct i as [|v| |s|v e|l]; cbn [item_ok item_bytes item_effect] in *.
  - destruct (walk_nop pre end_ wk rest Hw) as (wk'&H1&H2&H3&_); [simpl in He; lia|]. exists wk'. split_and!; try done.
    by rewrite H3, parse_option_other.
  - destruct (walk_opt pre end_ wk 2 4 (be16 v) rest Hw) as (wk'&H1&H2&H3&H4&H5); try done.
    exists wk'. split_and!; try done. rewrite H3, H4, H5. cbn. unfold tcp_opt_mss, rd16. 
    change (drop (Z.to_nat IDEMIP_TCP_OPT_OFF_DATA) _) with (be16 v ++ rest). by rewrite rd16_be16.
  - destruct (walk_opt pre end_ wk 4 2 [] rest Hw) as (wk'&H1&H2&H3&H4&H5); try done.
    exists wk'. split_and!; try done. rewrite H3, H4, H5. done.
  - destruct (walk_opt pre end_ wk 3 3 [Z.min s 14] rest Hw) as (wk'&H1&H2&H3&H4&H5); try done.
    exists wk'. split_and!; try done. rewrite H3, H4, H5. unfold parse_option. cbn [default].
    change (_ && _ && has flags IDEMIP_TCP_SYN) with (has flags IDEMIP_TCP_SYN). destruct (has flags IDEMIP_TCP_SYN); [|done].
    cbn. unfold tcp_opt_ws. change (tget _ _) with (Z.min s 14). unfold IDEMIP_TCP_WS_MAX.
    by rewrite (proj2 (Z.ltb_ge _ _)) by lia.
  - destruct (walk_opt pre end_ wk 8 10 (be32 v ++ be32 e) rest Hw) as (wk'&H1&H2&H3&H4&H5); try done.
    exists wk'. split_and!; try done. rewrite H3, H4, H5. cbn. unfold tcp_opt_tsval, tcp_opt_tsecr, rd32.
    change (drop (Z.to_nat IDEMIP_TCP_OPT_OFF_TSVAL) _) with (be32 v ++ be32 e ++ rest).
    change (drop (Z.to_nat IDEMIP_TCP_OPT_OFF_TSECR) _) with (be32 e ++ rest). by rewrite !rd32_be32 by tauto.
  - set (body := concat (map (λ '(x, y), be32 x ++ be32 y) l)) in *.
    assert (length body = (8 * length l)%nat) as Hb by apply sack_bytes_length.
    destruct (walk_opt pre end_ wk 5 (2 + 8 * Z.of_nat (length l)) body rest) as (wk'&H1&H2&H3&H4&H5); try done; try lia.
    { unfold is_u8. lia. }
    { cbn [app length] in He. lia. }
    exists wk'. split_and!; try done. by rewrite H3, parse_option_other.
Qed.

(** The whole region: the items in order, then the padding. *)
Lemma parse_items flags items : ∀ pre end_ wk pad rest os fuel,
  Forall item_ok items → walk_at pre end_ wk (items_bytes items ++ replicate pad 0 ++ rest) →
  end_ = Z.of_nat (length pre) + Z.of_nat (length (items_bytes items)) + Z.of_nat pad →
  (length items + 2 ≤ fuel)%nat →
  ∃ wk', parse_opts fuel flags wk os = Some (wk', foldl (λ o i, item_effect flags i o) os items) ∧ w_bad wk' = false.
Proof.
  induction items as [|i items IH]; intros pre end_ wk pad rest os fuel Hok Hwk Hend Hf.
  { eapply walk_end; [exact Hwk|simpl in Hend; lia|simpl in Hf; lia]. }
  apply Forall_cons in Hok as [Hi Hok]. destruct fuel as [|fuel]; [simpl in Hf; lia|]. cbn [length] in Hf.
  unfold items_bytes in *. cbn [map concat] in *. rewrite length_app in Hend. rewrite <- app_assoc in Hwk.
  destruct (walk_item pre end_ wk i _ flags os Hi Hwk) as (wk'&Hn&Hw'&He); [lia|].
  cbn [parse_opts]. rewrite Hn, He. cbn [foldl]. eapply IH; [done|exact Hw'| |lia].
  rewrite length_app. lia.
Qed.

(** ** What the writers write *)

(** [f] writes [bytes] at the octets it is handed. *)
Definition writes (f : list Z → list Z * Z) (bytes : list Z) : Prop :=
  ∀ w, (length bytes ≤ length w)%nat → f w = (bytes ++ drop (length bytes) w, Z.of_nat (length bytes)).

Lemma put_wrote f bytes o pre : writes f bytes → (length pre + length bytes ≤ length o)%nat → Z.of_nat (length o) < 65536 →
  put f (wrote o pre) = wrote o (pre ++ bytes).
Proof.
  intros Hf Hl Hu. unfold put, wrote. rewrite Nat2Z.id, wr_drop, wr_take, Hf by (rewrite length_drop; lia).
  rewrite wr_app, length_app, u16_id by (unfold is_u16; lia). f_equal. lia.
Qed.

Lemma writes_nop : writes tcp_put_nop (item_bytes Nop).
Proof. intros w Hl. destruct w as [|? w]; [cbn in Hl; lia|]. done. Qed.
Lemma writes_mss m : is_u16 m → writes (λ w, tcp_put_mss w m) (item_bytes (Mss m)).
Proof.
  intros Hm w Hl. cbn in Hl. do 4 (destruct w as [|? w]; [cbn in Hl; lia|]). unfold tcp_put_mss. write_field. done.
Qed.
Lemma writes_sack_perm : writes tcp_put_sack_perm (item_bytes SackPerm).
Proof. intros w Hl. cbn in Hl. do 2 (destruct w as [|? w]; [cbn in Hl; lia|]). done. Qed.
Lemma writes_ws s : writes (λ w, tcp_put_ws w s) (item_bytes (Ws s)).
Proof.
  intros w Hl. cbn in Hl. do 3 (destruct w as [|? w]; [cbn in Hl; lia|]). unfold tcp_put_ws, IDEMIP_TCP_WS_MAX. cbn.
  replace (if 14 <? s then 14 else s) with (Z.min s 14) by (destruct (Z.ltb_spec 14 s); lia). done.
Qed.
Lemma writes_ts v e : is_u32 v → is_u32 e → writes (λ w, tcp_put_ts w v e) (item_bytes (Ts v e)).
Proof.
  intros Hv He w Hl. cbn in Hl. do 10 (destruct w as [|? w]; [cbn in Hl; lia|]). unfold tcp_put_ts. do 2 write_field. done.
Qed.

(** The blocks of the selective acknowledgment option. *)
Definition blocks_of (ctl : TcpPcbCtl) (i : Z) (n : nat) : list (Z * Z) :=
  map (λ j, (tget (sack_left ctl) j, tget (sack_right ctl) j)) (seqZ i (Z.of_nat n)).

Definition ctl_blocks_ok (ctl : TcpPcbCtl) : Prop :=
  ∀ j, is_u32 (tget (sack_left ctl) j) ∧ is_u32 (tget (sack_right ctl) j).

Lemma sack_loop_wr ctl n : ∀ i o pre, ctl_blocks_ok ctl → (length pre + 8 * n ≤ length o)%nat → Z.of_nat (length o) < 65536 →
  sack_loop n i ctl (wr o pre) (Z.of_nat (length pre)) =
    wrote o (pre ++ concat (map (λ '(x, y), be32 x ++ be32 y) (blocks_of ctl i n))).
Proof.
  induction n as [|n IH]; intros i o pre Hc Hl Hu; [by rewrite app_nil_r|].
  cbn [sack_loop]. destruct (Hc i) as [H1 H2]. rewrite wr32_wr by (done || lia).
  replace (Z.of_nat (length pre) + 4) with (Z.of_nat (length (pre ++ be32 (tget (sack_left ctl) i)))) by (rewrite length_app; cbn; lia).
  rewrite wr32_wr by (done || rewrite length_app; cbn; lia). unfold IDEMIP_TCP_SACK_BLOCK_LEN.
  rewrite u16_id by (unfold is_u16; lia).
  replace (Z.of_nat (length pre) + 8) with
    (Z.of_nat (length ((pre ++ be32 (tget (sack_left ctl) i)) ++ be32 (tget (sack_right ctl) i)))) by (rewrite !length_app; cbn; lia).
  rewrite IH by (done || rewrite ?length_app; cbn; lia). unfold blocks_of. rewrite (seqZ_cons i (Z.of_nat (S n))) by lia.
  replace (Z.pred (Z.of_nat (S n))) with (Z.of_nat n) by lia. cbn [map concat]. rewrite <- !app_assoc. done.
Qed.

(** ** The options of a build *)
Definition with_syn (a : TcpOutBuildArgs) (bit : Z) : bool := TcpOut.has (a_flags a) IDEMIP_TCP_SYN && TcpOut.has (a_opts a) bit.
Definition with_sack (a : TcpOutBuildArgs) : bool := TcpOut.has (a_opts a) IDEMIP_TCP_OUT_OPT_SACK && negb (a_sack_blocks a =? 0).
Definition tsecr_of (a : TcpOutBuildArgs) : Z := if TcpOut.has (a_flags a) IDEMIP_TCP_ACK then a_tsecr a else 0.

Definition items_of (a : TcpOutBuildArgs) (ctl : TcpPcbCtl) : list item :=
  (if with_syn a IDEMIP_TCP_OUT_OPT_MSS then [Mss (a_mss a)] else []) ++
  (if with_syn a IDEMIP_TCP_OUT_OPT_SACK_PERM then [SackPerm] else []) ++
  (if with_syn a IDEMIP_TCP_OUT_OPT_WS then [Nop; Ws (a_ws a)] else []) ++
  (if TcpOut.has (a_opts a) IDEMIP_TCP_OUT_OPT_TS then [Nop; Nop; Ts (a_tsval a) (tsecr_of a)] else []) ++
  (if with_sack a then [Nop; Nop; Sack (blocks_of ctl 0 (Z.to_nat (a_sack_blocks a)))] else []).

Definition opts_ok (a : TcpOutBuildArgs) (ctl : TcpPcbCtl) : Prop :=
  is_u16 (a_mss a) ∧ is_u8 (a_ws a) ∧ is_u32 (a_tsval a) ∧ is_u32 (a_tsecr a) ∧ 0 ≤ a_sack_blocks a ≤ 4 ∧ ctl_blocks_ok ctl.

Lemma items_bytes_app l k : items_bytes (l ++ k) = items_bytes l ++ items_bytes k.
Proof. unfold items_bytes. by rewrite map_app, concat_app. Qed.

Lemma blocks_of_length ctl i n : length (blocks_of ctl i n) = n.
Proof. unfold blocks_of. rewrite length_map, length_seqZ. lia. Qed.

Lemma tsecr_ok a : is_u32 (a_tsecr a) → is_u32 (tsecr_of a).
Proof. unfold tsecr_of. intros. destruct (TcpOut.has (a_flags a) IDEMIP_TCP_ACK); [done|]. unfold is_u32. lia. Qed.

Lemma items_of_ok a ctl : opts_ok a ctl → Forall item_ok (items_of a ctl).
Proof.
  intros (?&?&?&?&Hs&Hc). unfold items_of. repeat apply Forall_app_2; repeat case_match; try apply Forall_nil_2;
    repeat (apply Forall_cons; split); try apply Forall_nil_2; try done.
  - split; [done|by apply tsecr_ok].
  - split; [rewrite blocks_of_length; lia|]. unfold blocks_of. apply Forall_map, Forall_true. intros j. apply Hc.
Qed.

(** Octets the items take, before padding. *)
Definition items_len (a : TcpOutBuildArgs) : Z :=
  (if with_syn a IDEMIP_TCP_OUT_OPT_MSS then 4 else 0) + (if with_syn a IDEMIP_TCP_OUT_OPT_SACK_PERM then 2 else 0) +
  (if with_syn a IDEMIP_TCP_OUT_OPT_WS then 4 else 0) + (if TcpOut.has (a_opts a) IDEMIP_TCP_OUT_OPT_TS then 12 else 0) +
  (if with_sack a then 4 + 8 * a_sack_blocks a else 0).

Lemma sack_item_length ctl n : length (items_bytes [Nop; Nop; Sack (blocks_of ctl 0 n)]) = (4 + 8 * n)%nat.
Proof.
  unfold items_bytes. cbn [map concat item_bytes app length]. rewrite !length_app, sack_bytes_length, blocks_of_length. cbn. lia.
Qed.

Lemma items_bytes_length a ctl : 0 ≤ a_sack_blocks a → Z.of_nat (length (items_bytes (items_of a ctl))) = items_len a.
Proof.
  intros Hs. unfold items_of, items_len. rewrite !items_bytes_app, !length_app.
  destruct (with_sack a); [rewrite sack_item_length|]; repeat case_match; cbn; lia.
Qed.

Lemma opts_len_eq a : 0 ≤ a_sack_blocks a ≤ 4 → tcp_out_opts_len a = 4 * ((items_len a + 3) / 4) ∧ 0 ≤ items_len a ≤ 58.
Proof.
  intros Hs. unfold tcp_out_opts_len, items_len. fold (with_syn a IDEMIP_TCP_OUT_OPT_MSS). fold (with_syn a IDEMIP_TCP_OUT_OPT_SACK_PERM).
  fold (with_syn a IDEMIP_TCP_OUT_OPT_WS). fold (with_sack a).
  destruct (with_syn a IDEMIP_TCP_OUT_OPT_MSS), (with_syn a IDEMIP_TCP_OUT_OPT_SACK_PERM), (with_syn a IDEMIP_TCP_OUT_OPT_WS),
    (TcpOut.has (a_opts a) IDEMIP_TCP_OUT_OPT_TS), (with_sack a); try (split; [reflexivity|lia]);
    (assert (a_sack_blocks a = 0 ∨ a_sack_blocks a = 1 ∨ a_sack_blocks a = 2 ∨ a_sack_blocks a = 3 ∨ a_sack_blocks a = 4) as Hb by lia;
     destruct Hb as [->|[->|[->|[->| ->]]]]; (split; [reflexivity|lia])).
Qed.

(** The region with its options and padding. *)
Definition region (a : TcpOutBuildArgs) (ctl : TcpPcbCtl) : list Z :=
  items_bytes (items_of a ctl) ++ replicate (Z.to_nat (tcp_out_opts_len a - items_len a)) 0.

Lemma region_length a ctl : 0 ≤ a_sack_blocks a ≤ 4 → Z.of_nat (length (region a ctl)) = tcp_out_opts_len a.
Proof.
  intros Hs. unfold region. rewrite length_app, length_replicate. pose proof (items_bytes_length a ctl ltac:(lia)).
  destruct (opts_len_eq a Hs) as [? ?]. rewrite Nat2Z.inj_add, H, Z2Nat.id; Z.div_mod_to_equations; lia.
Qed.

(** One conditional writer after another. *)
Lemma put_if (b : bool) f bytes o pre : writes f bytes →
  (length pre + length (if b then bytes else []) ≤ length o)%nat → Z.of_nat (length o) < 65536 →
  (if b then put f (wrote o pre) else wrote o pre) = wrote o (pre ++ if b then bytes else []).
Proof. destruct b; intros; [by apply put_wrote|by rewrite app_nil_r]. Qed.

Lemma writes_put2 f g x y o pre : writes f x → writes g y → (length pre + length (x ++ y) ≤ length o)%nat →
  Z.of_nat (length o) < 65536 → put g (put f (wrote o pre)) = wrote o (pre ++ x ++ y).
Proof.
  intros Hf Hg Hl Hu. rewrite length_app in Hl. rewrite (put_wrote f x), (put_wrote g y) by (done || rewrite ?length_app; lia).
  by rewrite <- app_assoc.
Qed.

Lemma put_nops o pre : (length pre + 2 ≤ length o)%nat → Z.of_nat (length o) < 65536 →
  put tcp_put_nop (put tcp_put_nop (wrote o pre)) = wrote o (pre ++ items_bytes [Nop; Nop]).
Proof. intros. rewrite (writes_put2 _ _ [1] [1]) by (apply writes_nop || done). done. Qed.

(** The fifth option: two NOPs, the kind, the length and the blocks. *)
Lemma put_sack o pre ctl n : ctl_blocks_ok ctl → 0 ≤ n ≤ 4 → (length pre + (4 + 8 * Z.to_nat n) ≤ length o)%nat → Z.of_nat (length o) < 65536 →
  (let '(o, n0) := put tcp_put_nop (put tcp_put_nop (wrote o pre)) in
   let o := tset o (n0 + IDEMIP_TCP_OPT_OFF_KIND) IDEMIP_TCP_OPT_SACK in
   let o := tset o (n0 + IDEMIP_TCP_OPT_OFF_LEN) (u8 (IDEMIP_TCP_SACK_BYTES n)) in
   sack_loop (Z.to_nat n) 0 ctl o (u16 (n0 + IDEMIP_TCP_OPT_OFF_DATA))) =
  wrote o (pre ++ items_bytes [Nop; Nop; Sack (blocks_of ctl 0 (Z.to_nat n))]).
Proof.
  intros Hc Hn Hl Hu. rewrite put_nops by (done || lia). unfold wrote at 1.
  set (p1 := pre ++ items_bytes [Nop; Nop]). assert (length p1 = (length pre + 2)%nat) as Hp1 by (subst p1; rewrite length_app; cbn; lia).
  unfold IDEMIP_TCP_OPT_OFF_KIND, IDEMIP_TCP_OPT_OFF_LEN, IDEMIP_TCP_OPT_OFF_DATA, IDEMIP_TCP_OPT_SACK.
  rewrite Z.add_0_r, tset_wr by lia.
  replace (Z.of_nat (length p1) + 1) with (Z.of_nat (length (p1 ++ [5]))) by (rewrite length_app; cbn; lia).
  rewrite tset_wr by (rewrite length_app; cbn; lia).
  replace (u8 (IDEMIP_TCP_SACK_BYTES n)) with (2 + 8 * n).
  2:{ unfold IDEMIP_TCP_SACK_BYTES, IDEMIP_TCP_OPT_LEN_MIN, IDEMIP_TCP_SACK_BLOCK_SHIFT. rewrite shiftl_mul by lia.
      rewrite u8_id by (unfold is_u8; lia). lia. }
  rewrite u16_id by (unfold is_u16; lia).
  replace (Z.of_nat (length p1) + 2) with (Z.of_nat (length ((p1 ++ [5]) ++ [2 + 8 * n]))) by (rewrite !length_app; cbn; lia).
  rewrite sack_loop_wr by (done || rewrite ?length_app; cbn; lia). f_equal. subst p1. unfold items_bytes.
  cbn [map concat item_bytes]. rewrite blocks_of_length, Z2Nat.id by lia. rewrite <- !app_assoc. cbn [app]. by rewrite app_nil_r.
Qed.

Lemma put_stage (b : bool) (x y : list Z * Z) o pre items : x = wrote o pre → (b = true → y = wrote o (pre ++ items_bytes items)) →
  (if b then y else x) = wrote o (pre ++ items_bytes (if b then items else [])).
Proof. intros -> Hy. destruct b; [by apply Hy|]. cbn. by rewrite app_nil_r. Qed.

Lemma put_opts_eq o a ctl : opts_ok a ctl → (Z.to_nat (tcp_out_opts_len a) ≤ length o)%nat → Z.of_nat (length o) < 65536 →
  tcp_out_put_opts o a ctl (tcp_out_opts_len a) = wr o (region a ctl).
Proof.
  intros (Hm&Hw&Hv&He&Hs&Hc) Hl Hu. pose proof (region_length a ctl Hs) as Hrl. pose proof (tsecr_ok a He) as He'.
  pose proof (items_bytes_length a ctl ltac:(lia)) as Hil. destruct (opts_len_eq a Hs) as [Hol Hir].
  assert (items_len a ≤ tcp_out_opts_len a) as Hle by (rewrite Hol; Z.div_mod_to_equations; lia).
  unfold tcp_out_put_opts. fold (with_syn a IDEMIP_TCP_OUT_OPT_MSS). fold (with_syn a IDEMIP_TCP_OUT_OPT_SACK_PERM).
  fold (with_syn a IDEMIP_TCP_OUT_OPT_WS). fold (with_sack a). fold (tsecr_of a).
  set (B1 := items_bytes (if with_syn a IDEMIP_TCP_OUT_OPT_MSS then [Mss (a_mss a)] else [])).
  set (B2 := items_bytes (if with_syn a IDEMIP_TCP_OUT_OPT_SACK_PERM then [SackPerm] else [])).
  set (B3 := items_bytes (if with_syn a IDEMIP_TCP_OUT_OPT_WS then [Nop; Ws (a_ws a)] else [])).
  set (B4 := items_bytes (if TcpOut.has (a_opts a) IDEMIP_TCP_OUT_OPT_TS then [Nop; Nop; Ts (a_tsval a) (tsecr_of a)] else [])).
  set (B5 := items_bytes (if with_sack a then [Nop; Nop; Sack (blocks_of ctl 0 (Z.to_nat (a_sack_blocks a)))] else [])).
  assert (items_bytes (items_of a ctl) = B1 ++ B2 ++ B3 ++ B4 ++ B5) as HB by (unfold items_of; by rewrite !items_bytes_app).
  assert (length B1 + length B2 + length B3 + length B4 + length B5 ≤ length o)%nat as HL.
  { rewrite HB, !length_app in Hil. lia. }
  change (o, 0) with (wrote o []). cbv zeta.
  rewrite (put_stage (with_syn a IDEMIP_TCP_OUT_OPT_MSS) _ _ o [] [Mss (a_mss a)]); [|done|]; fold B1.
  2:{ intros Eb. apply put_wrote; [by apply writes_mss| |done]. subst B1. rewrite Eb in HL. cbn in HL |- *. lia. }
  rewrite (put_stage (with_syn a IDEMIP_TCP_OUT_OPT_SACK_PERM) _ _ o ([] ++ B1) [SackPerm]); [|done|]; fold B2.
  2:{ intros Eb. apply put_wrote; [apply writes_sack_perm| |done]. subst B2. rewrite Eb in HL. cbn in HL |- *. lia. }
  rewrite (put_stage (with_syn a IDEMIP_TCP_OUT_OPT_WS) _ _ o (([] ++ B1) ++ B2) [Nop; Ws (a_ws a)]); [|done|]; fold B3.
  2:{ intros Eb. apply writes_put2; [apply writes_nop|apply writes_ws| |done]. subst B3. rewrite Eb in HL. rewrite length_app. cbn in HL |- *. lia. }
  rewrite (put_stage (TcpOut.has (a_opts a) IDEMIP_TCP_OUT_OPT_TS) _ _ o ((([] ++ B1) ++ B2) ++ B3) [Nop; Nop; Ts (a_tsval a) (tsecr_of a)]); [|done|]; fold B4.
  2:{ intros Eb. subst B4. rewrite Eb in HL. rewrite put_nops, (put_wrote _ (item_bytes (Ts (a_tsval a) (tsecr_of a))));
      rewrite ?length_app in *; cbn in HL |- *; try lia; [by rewrite <- app_assoc|]. by apply writes_ts. }
  rewrite (put_stage (with_sack a) _ _ o (((([] ++ B1) ++ B2) ++ B3) ++ B4) [Nop; Nop; Sack (blocks_of ctl 0 (Z.to_nat (a_sack_blocks a)))]); [|done|]; fold B5.
  2:{ intros Eb. apply put_sack; [done|lia| |done]. subst B5. rewrite Eb, sack_item_length in HL. rewrite !length_app.
      cbn [length]. lia. }
  rewrite app_nil_l, <- !app_assoc, <- HB. unfold wrote. rewrite Hil. unfold region.
  destruct (Z.ltb_spec (items_len a) (tcp_out_opts_len a)) as [Hlt|Hge].
  - rewrite <- Hil at 1. rewrite Nat2Z.id, wr_take. unfold wr at 2. rewrite <- app_assoc. do 2 f_equal.
    rewrite length_app, length_replicate. unfold wr. rewrite drop_app_ge by lia. rewrite drop_drop. f_equal. lia.
  - replace (tcp_out_opts_len a - items_len a) with 0 by lia. by rewrite app_nil_r.
Qed.

(** ** A built segment *)
Definition offs_flags (a : TcpOutBuildArgs) : Z :=
  u16 (Z.lor (u16 (Z.shiftl (IDEMIP_TCP_DOFF_FROM_BYTES (20 + tcp_out_opts_len a)) IDEMIP_TCP_DOFF_SHIFT)) (a_flags a)).
Definition ack_of (a : TcpOutBuildArgs) : Z := if TcpOut.has (a_flags a) IDEMIP_TCP_ACK then a_ack a else 0.
Definition up_of (a : TcpOutBuildArgs) : Z := if TcpOut.has (a_flags a) IDEMIP_TCP_URG then a_up a else 0.

(** The first twenty octets with the checksum field [ck]. *)
Definition fixed (a : TcpOutBuildArgs) (ck : Z) : list Z :=
  be16 (a_local_port a) ++ be16 (a_remote_port a) ++ be32 (a_seq a) ++ be32 (ack_of a) ++ be16 (offs_flags a) ++
  be16 (build_window a) ++ be16 ck ++ be16 (up_of a).
Definition data_of (a : TcpOutBuildArgs) : list Z := take (Z.to_nat (a_len a)) (default [] (a_data a)).
Definition message (a : TcpOutBuildArgs) (ctl : TcpPcbCtl) (ck : Z) : list Z := fixed a ck ++ region a ctl ++ data_of a.

(** What the caller hands a build. *)
Definition args_ok (a : TcpOutBuildArgs) (ctl : TcpPcbCtl) (buf : list Z) : Prop :=
  opts_ok a ctl ∧ is_u16 (a_local_port a) ∧ is_u16 (a_remote_port a) ∧ is_u32 (a_seq a) ∧ is_u32 (a_ack a) ∧
  is_u8 (a_flags a) ∧ is_u32 (a_wnd a) ∧ is_u8 (a_rcv_scale a) ∧ is_u16 (a_up a) ∧ is_u16 (a_cap a) ∧ is_u16 (a_len a) ∧
  octets (default [] (a_data a)) ∧ a_len a ≤ Z.of_nat (length (default [] (a_data a))) ∧
  a_buf a = Some buf ∧ a_cap a ≤ Z.of_nat (length buf) ∧ Z.of_nat (length buf) < 65536 ∧
  tcp_out_opts_len a ≤ 40 ∧ 20 + tcp_out_opts_len a + a_len a ≤ a_cap a.

Lemma build_window_ok a : is_u16 (build_window a).
Proof. apply u16_range. Qed.
Lemma offs_flags_ok a : is_u16 (offs_flags a).
Proof. apply u16_range. Qed.
Lemma ack_of_ok a : is_u32 (a_ack a) → is_u32 (ack_of a).
Proof. unfold ack_of. intros. destruct (TcpOut.has _ _); [done|]. unfold is_u32. lia. Qed.
Lemma up_of_ok a : is_u16 (a_up a) → is_u16 (up_of a).
Proof. unfold up_of. intros. destruct (TcpOut.has _ _); [done|]. unfold is_u16. lia. Qed.

Lemma data_of_length a ctl buf : args_ok a ctl buf → Z.of_nat (length (data_of a)) = a_len a.
Proof.
  intros (_&_&_&_&_&_&_&_&_&_&Hl&_&Hd&_). unfold data_of. rewrite length_take. unfold is_u16 in Hl. lia.
Qed.

Lemma opts_len_u16 a : is_u16 (tcp_out_opts_len a).
Proof. unfold tcp_out_opts_len. apply u16_range. Qed.

Lemma build_fixed_eq a ctl buf : args_ok a ctl buf → build_fixed buf a (20 + tcp_out_opts_len a) = wr buf (fixed a 0).
Proof.
  intros (_&Hlp&Hrp&Hsq&Hak&Hfl&Hwn&Hsc&Hup&Hcp&Hln&_&_&_&Hcl&_&_&Htot).
  pose proof (build_window_ok a) as Hw. pose proof (offs_flags_ok a) as Hof. pose proof (ack_of_ok a Hak) as Ha'.
  pose proof (up_of_ok a Hup) as Hu'. assert (is_u16 0) by (unfold is_u16; lia).
  assert (20 ≤ length buf)%nat as H20.
  { pose proof (opts_len_u16 a) as Hou. unfold is_u16 in *. lia. }
  unfold build_fixed. fold (ack_of a) (up_of a) (offs_flags a). change buf with (wr buf []) at 1. cbv zeta.
  rewrite (wr16_at buf []), (wr16_at buf), (wr32_at buf), (wr32_at buf), (wr16_at buf), (wr16_at buf), (wr16_at buf), (wr16_at buf)
    by (done || (cbn; lia)).
  unfold fixed. by rewrite app_nil_l, <- !app_assoc.
Qed.

Lemma build_write_eq a ctl buf : args_ok a ctl buf →
  build_write buf a ctl (tcp_out_opts_len a) (20 + tcp_out_opts_len a) = wr buf (message a ctl 0).
Proof.
  intros Hok. pose proof (data_of_length a ctl buf Hok) as Hdl. unfold build_write. rewrite (build_fixed_eq a ctl) by done.
  destruct Hok as (Ho&_&_&_&_&_&_&_&_&_&Hln&_&_&_&Hcl&Hbl&Hol&Htot).
  pose proof Ho as (_&_&_&_&Hsb&_). pose proof (region_length a ctl Hsb) as Hrl.
  unfold is_u16 in Hln. destruct (opts_len_eq a Hsb) as [_ Hil].
  assert (0 ≤ tcp_out_opts_len a) as Hop by lia. assert (length (fixed a 0) = 20%nat) as Hf by done.
  replace (if negb (tcp_out_opts_len a =? 0) then _ else wr buf (fixed a 0)) with (wr buf (fixed a 0 ++ region a ctl)).
  2:{ destruct (Z.eqb_spec (tcp_out_opts_len a) 0) as [E|E]; cbn [negb].
      - replace (region a ctl) with (@nil Z); [by rewrite app_nil_r|]. symmetry. apply nil_length_inv. lia.
      - change (Z.to_nat IDEMIP_TCP_OFF_OPTIONS) with (length (fixed a 0)). rewrite wr_take, wr_drop.
        rewrite put_opts_eq by (done || rewrite length_drop; lia). by rewrite <- wr_app. }
  assert (length (fixed a 0 ++ region a ctl) = Z.to_nat (20 + tcp_out_opts_len a)) as Hfr by (rewrite length_app; lia).
  unfold message. destruct (Z.eqb_spec (a_len a) 0) as [E|E]; cbn [negb].
  - replace (data_of a) with (@nil Z); [by rewrite app_nil_r|]. symmetry. apply nil_length_inv. lia.
  - rewrite <- Hfr, wr_take. fold (data_of a).
    replace (Z.to_nat (20 + tcp_out_opts_len a + a_len a)) with (length (fixed a 0 ++ region a ctl) + length (data_of a))%nat by lia.
    rewrite <- drop_drop, wr_drop, wr_app. by rewrite <- app_assoc.
Qed.
End TcpWire.
