(* ===== verification/TcpRound.v ===== *)
(** * Built segments parse back (src/tcp/tcp_out.c against src/tcp/tcp_in.c)

    The checksum a build writes over both pseudo-headers, the fields and options of the octets it leaves,
    and the round trip of the two entries; that a parse returns on any octets at all. *)
From S2P Require Import Prelude Base Wire Tcp TcpTypes TcpIn TcpInFacts TcpOut TcpWire.

Module TcpRound.
Import Endian Checksum Wire Pseudo Tcp TcpOut TcpIn TcpWire.

(** ** The octets a build leaves *)
Definition before_ck (a : TcpOutBuildArgs) : list Z :=
  be16 (a_local_port a) ++ be16 (a_remote_port a) ++ be32 (a_seq a) ++ be32 (ack_of a) ++ be16 (offs_flags a) ++
  be16 (build_window a).
Definition after_ck (a : TcpOutBuildArgs) (c : TcpPcbCtl) : list Z := be16 (up_of a) ++ region a c ++ data_of a.

Lemma message_split a c ck : message a c ck = before_ck a ++ be16 ck ++ after_ck a c.
Proof. unfold message, fixed, before_ck, after_ck. by rewrite <- !app_assoc. Qed.

Lemma wr16_message buf a c ck : is_u16 ck →
  wr16 (wr buf (message a c 0)) IDEMIP_TCP_OFF_CKSUM ck = wr buf (message a c ck).
Proof.
  intros Hk. unfold wr16. rewrite !message_split. change (Z.to_nat IDEMIP_TCP_OFF_CKSUM) with (length (before_ck a)).
  unfold wr. rewrite <- !app_assoc, take_app_length, drop_app_length. f_equal. unfold be16 at 1. cbn [app].
  rewrite wr16_bytes by done. unfold be16. cbn [app]. reflexivity.
Qed.

Lemma region_octets a c : opts_ok a c → octets (region a c).
Proof.
  intros H. apply Forall_app. split.
  - pose proof (items_of_ok a c H) as Hi. unfold items_bytes. apply Forall_concat, Forall_map.
    eapply Forall_impl; [exact Hi|]. apply item_bytes_octets.
  - apply Forall_replicate. unfold is_u8. lia.
Qed.

Lemma before_ck_octets a c buf : args_ok a c buf → octets (before_ck a).
Proof.
  intros (_&Hlp&Hrp&Hsq&Hak&_). unfold before_ck.
  repeat (apply Forall_app; split); (apply be16_octets || apply be32_octets); try done;
    [by apply ack_of_ok|apply offs_flags_ok|apply build_window_ok].
Qed.

Lemma after_ck_octets a c buf : args_ok a c buf → octets (after_ck a c).
Proof.
  intros (Ho&_&_&_&_&_&_&_&Hup&_&_&Hd&_). unfold after_ck.
  apply Forall_app. split; [by apply be16_octets, up_of_ok|]. apply Forall_app.
  split; [by apply region_octets|by apply Forall_take].
Qed.

(** The fields as a reader finds them. *)
Lemma fixed_reads a c buf ck rest : args_ok a c buf → is_u16 ck →
  let h := fixed a ck ++ rest in
  tcp_seq h = a_seq a ∧ tcp_ack h = ack_of a ∧ rd16 h IDEMIP_TCP_OFF_OFFS_FLAGS = offs_flags a ∧
  tcp_window h = build_window a ∧ tcp_urgent h = up_of a.
Proof.
  intros Hok Hk h. pose proof Hok as (_&Hlp&Hrp&Hsq&Hak&_&_&_&Hup&_).
  unfold tcp_seq, tcp_ack, tcp_window, tcp_urgent, rd16, rd32. subst h. unfold fixed. rewrite <- !app_assoc.
  split_and!.
  - by apply (rd32_be32 (a_seq a)).
  - by apply (rd32_be32 (ack_of a)), ack_of_ok.
  - apply (rd16_be16 (offs_flags a)), offs_flags_ok.
  - apply (rd16_be16 (build_window a)), build_window_ok.
  - by apply (rd16_be16 (up_of a)), up_of_ok.
Qed.

Lemma offs_flags_eq a c buf : args_ok a c buf →
  offs_flags a = 4096 * ((20 + tcp_out_opts_len a) / 4) + a_flags a ∧ (20 + tcp_out_opts_len a) mod 4 = 0 ∧
  0 ≤ tcp_out_opts_len a ≤ 40.
Proof.
  intros ((_&_&_&_&Hsb&_)&_&_&_&_&Hfl&_&_&_&_&_&_&_&_&_&_&Hol&_). destruct (opts_len_eq a Hsb) as [Heq Hil].
  unfold offs_flags, IDEMIP_TCP_DOFF_FROM_BYTES, IDEMIP_TCP_DOFF_SHIFT. 
  assert (0 ≤ tcp_out_opts_len a) as H0 by (Z.div_mod_to_equations; lia).
  assert ((20 + tcp_out_opts_len a) mod 4 = 0) as Hm by (Z.div_mod_to_equations; lia).
  split_and!; try lia. change IDEMIP_TCP_WORD_SHIFT with 2. rewrite Z.shiftr_div_pow2 by lia. change (2 ^ 2) with 4.
  set (d := (20 + tcp_out_opts_len a) / 4) in *. assert (5 ≤ d ≤ 15) as Hd by (subst d; Z.div_mod_to_equations; lia).
  clearbody d. unfold is_u8 in Hfl. rewrite u8_id by (unfold is_u8; lia).
  rewrite (u16_id (Z.shiftl d 12)) by (unfold is_u16; rewrite Z.shiftl_mul_pow2 by lia; lia).
  rewrite lor_shiftl by lia. rewrite u16_id by (unfold is_u16; lia). lia.
Qed.

Lemma message_length a c ck buf : args_ok a c buf →
  Z.of_nat (length (message a c ck)) = 20 + tcp_out_opts_len a + a_len a.
Proof.
  intros Hok. pose proof (data_of_length a c buf Hok). destruct Hok as [(_&_&_&_&Hsb&_) _].
  pose proof (region_length a c Hsb). unfold message. rewrite !length_app. change (length (fixed a ck)) with 20%nat. lia.
Qed.

(** ** The parse returns *)
Lemma parse_option_hdr flags kind len o os : o_hdr_len (parse_option flags kind len o os) = o_hdr_len os.
Proof. unfold parse_option. repeat case_match; done. Qed.

Lemma parse_opts_returns flags : ∀ fuel wk os, walk_ok wk → w_end wk - w_pos wk < Z.of_nat fuel →
  ∃ wk' os', parse_opts fuel flags wk os = Some (wk', os') ∧ o_hdr_len os' = o_hdr_len os.
Proof.
  induction fuel as [|fuel IH]; intros wk os Hw Hf; [destruct Hw; lia|].
  cbn [parse_opts]. destruct (tcp_opt_next wk) as [wk' []] eqn:E; [|by eexists _, _].
  destruct (tcp_opt_next_ok _ _ Hw E) as (Hw'&He&_&Hp&_).
  destruct (IH wk' (parse_option flags (w_kind wk') (w_len wk') (default [] (w_opt wk')) os) Hw') as (wk''&os'&Hr&Hh); [lia|].
  exists wk'', os'. split; [exact Hr|]. by rewrite Hh, parse_option_hdr.
Qed.

Lemma tcp_doff_range h : 0 ≤ tcp_doff h ≤ 15.
Proof.
  unfold tcp_doff. change IDEMIP_TCP_DOFF_MASK with (Z.ones 4). rewrite Z.land_ones by lia. wrap.
Qed.
Lemma tcp_hdr_len_eq h : tcp_hdr_len h = 4 * tcp_doff h.
Proof. unfold tcp_hdr_len. change IDEMIP_TCP_WORD_SHIFT with 2. rewrite Z.shiftl_mul_pow2 by lia. lia. Qed.

Lemma opt_walk_ok h : octets h → IDEMIP_TCP_HDR_LEN ≤ tcp_hdr_len h → tcp_hdr_len h ≤ Z.of_nat (length h) →
  walk_ok (tcp_opt_walk h) ∧ w_end (tcp_opt_walk h) = tcp_hdr_len h - 20 ∧ w_pos (tcp_opt_walk h) = 0.
Proof.
  intros Ho H20 Hl. pose proof (tcp_doff_range h). rewrite tcp_hdr_len_eq in *. unfold IDEMIP_TCP_HDR_LEN in H20.
  assert (tcp_opts_len h = 4 * tcp_doff h - 20) as E.
  { unfold tcp_opts_len, IDEMIP_TCP_DOFF_MIN, IDEMIP_TCP_WORD_SHIFT. rewrite Z.shiftl_mul_pow2 by lia.
    destruct (Z.leb_spec (tcp_doff h) 5); lia. }
  unfold walk_ok, tcp_opt_walk. cbn [w_end w_pos w_opts w_bad]. rewrite E. unfold tcp_opts, IDEMIP_TCP_OFF_OPTIONS.
  rewrite length_drop. split_and!; try done; try lia. by apply Forall_drop.
Qed.

(** The octets a caller hands a parse: as many as it says, an address of each end. *)
Definition parse_args_ok (pa : TcpInParseArgs) : Prop :=
  is_u16 (pa_len pa) ∧ ∀ h, pa_seg pa = Some h → octets h ∧ pa_len pa ≤ Z.of_nat (length h).

(** C13. A parse returns on whatever octets arrive - no option region keeps its walk going - and a segment it reports
    good has a header of at least twenty octets inside the octets it was handed, the data being the octets behind it. *)
Theorem parse_returns word swap v4 v6 w : parse_args_ok (parse_args (w_io w)) →
  ∃ w', idemip_tcp_in_parse word swap v4 v6 w = Some w' ∧
    (status (w_io w') = IDEMIP_OK →
     20 ≤ o_hdr_len (opts (w_io w')) ≤ 60 ∧
     o_hdr_len (opts (w_io w')) + seg_data_len (seg (w_io w')) = pa_len (parse_args (w_io w)) ∧
     seg_data_len (seg (w_io w')) ≤ seg_len (seg (w_io w')) ≤ seg_data_len (seg (w_io w')) + 2) ∧
    w_ctx w' = w_ctx w ∧ vars (w_io w') = vars (w_io w) ∧ ctl (w_io w') = ctl (w_io w) ∧ state (w_io w') = state (w_io w).
Proof.
  intros [Hl Hh]. unfold idemip_tcp_in_parse. cbv zeta. cbn [w_io w_ctx]. 
  change (parse_args (_ <| opts := opts_zero |>)) with (parse_args (w_io w)).
  set (pa := parse_args (w_io w)) in *. clearbody pa.
  destruct (negb _); [by eexists|]. destruct (pa_seg pa) as [h|]; [|by eexists].
  destruct (pa_local_ip pa) as [l|]; [|by eexists]. destruct (pa_remote_ip pa) as [r|]; [|by eexists].
  destruct (Z.ltb_spec (pa_len pa) IDEMIP_TCP_HDR_LEN); [by eexists|].
  destruct ((_ <? _) || (_ <? _)) eqn:E; [by eexists|]. apply orb_false_iff in E as [E1%Z.ltb_ge E2%Z.ltb_ge].
  destruct (pseudo_accum _ _ _ _ _ _ _ _ _ _) as [sum|]; [|by eexists]. destruct (negb _); [by eexists|].
  destruct (Hh h eq_refl) as [Ho Hlen]. destruct (opt_walk_ok h Ho E1 ltac:(lia)) as (Hw&He&Hp).
  set (sg := parse_seg h (pa_len pa) (tcp_hdr_len h) (pa_snd_scale pa)).
  pose proof (tcp_doff_range h) as Hd. rewrite tcp_hdr_len_eq in *.
  destruct (parse_opts_returns (seg_flags sg) 41 (tcp_opt_walk h) (opts_zero <| o_hdr_len := u16 (4 * tcp_doff h) |>) Hw)
    as (wk&os&Hr&Hos); [lia|].
  rewrite Hr. cbn [mbind option_bind]. eexists. split; [reflexivity|]. split; [|done]. intros _.
  change (20 ≤ o_hdr_len os ≤ 60 ∧ o_hdr_len os + seg_data_len sg = pa_len pa ∧ seg_data_len sg ≤ seg_len sg ≤ seg_data_len sg + 2).
  rewrite Hos. change (o_hdr_len (opts_zero <| o_hdr_len := u16 (4 * tcp_doff h) |>)) with (u16 (4 * tcp_doff h)).
  unfold IDEMIP_TCP_HDR_LEN, is_u16 in *. subst sg. unfold parse_seg. cbn [seg_data_len seg_len].
  rewrite ?tcp_hdr_len_eq, !u16_id by (unfold is_u16; lia). split; [lia|]. split; [lia|].
  destruct (has (tcp_flags h) IDEMIP_TCP_SYN), (has (tcp_flags h) IDEMIP_TCP_FIN); autorewrite with u32;
    rewrite ?u32_id by (unfold is_u32; lia); lia.
Qed.

(** ** The round trip *)

(** A borrow whose build call has everything it needs. *)
Definition buildable (v4 v6 : bool) (w : TcpOut.Work) (buf lip rip : list Z) : Prop :=
  let a := build_args (TcpOut.w_io w) in
  oready (TcpOut.w_ctx w) = TCP_OUT_READY ∧ args_ok a (octl (TcpOut.w_io w)) buf ∧
  (a_len a ≠ 0 ↔ is_Some (a_data a)) ∧ a_local_ip a = Some lip ∧ a_remote_ip a = Some rip ∧ octets lip ∧ octets rip ∧
  (a_ip_version a = 4 ∧ v4 = true ∨ a_ip_version a = 6 ∧ v6 = true).

(** The peer's borrow, handed [bytes] of which [len] are the segment. *)
Definition receives (p : Work) (bytes : list Z) (len : Z) (lip rip : list Z) (ver scale : Z) : Prop :=
  ready (w_ctx p) = TCP_IN_READY ∧
  parse_args (w_io p) = mkParseArgs (Some bytes) (Some rip) (Some lip) len ver scale.

(** What the sender put into the segment, as the receiver's block has it. *)
Definition sent_seg (a : TcpOutBuildArgs) (scale : Z) : TcpInSegArgs :=
  let syn := TcpOut.has (a_flags a) IDEMIP_TCP_SYN in
  let fin := TcpOut.has (a_flags a) IDEMIP_TCP_FIN in
  mkSeg (a_seq a) (ack_of a) (if syn then build_window a else build_window a * 2 ^ Z.min scale 14)
    (a_len a + (if syn then 1 else 0) + (if fin then 1 else 0)) (a_len a) (up_of a) (a_flags a).

Definition sent_opts (a : TcpOutBuildArgs) : TcpInOpts :=
  let mss := with_syn a IDEMIP_TCP_OUT_OPT_MSS in
  let perm := with_syn a IDEMIP_TCP_OUT_OPT_SACK_PERM in
  let ws := with_syn a IDEMIP_TCP_OUT_OPT_WS in
  let ts := TcpOut.has (a_opts a) IDEMIP_TCP_OUT_OPT_TS in
  mkOpts (if ts then a_tsval a else 0) (if ts then tsecr_of a else 0) (if mss then a_mss a else 0)
    (20 + tcp_out_opts_len a)
    ((if mss then IDEMIP_TCP_IN_OPT_MSS else 0) + (if perm then IDEMIP_TCP_IN_OPT_SACK_PERM else 0) +
     (if ws then IDEMIP_TCP_IN_OPT_WS else 0) + (if ts then IDEMIP_TCP_IN_OPT_TS else 0))
    (if ws then Z.min (a_ws a) 14 else 0).

Lemma items_effect a c hdr : hdr = 20 + tcp_out_opts_len a →
  foldl (λ o i, item_effect (a_flags a) i o) (opts_zero <| o_hdr_len := hdr |>) (items_of a c) = sent_opts a.
Proof.
  intros ->. unfold items_of, sent_opts.
  destruct (with_syn a IDEMIP_TCP_OUT_OPT_MSS), (with_syn a IDEMIP_TCP_OUT_OPT_SACK_PERM),
    (with_syn a IDEMIP_TCP_OUT_OPT_WS) eqn:Ew, (TcpOut.has (a_opts a) IDEMIP_TCP_OUT_OPT_TS), (with_sack a);
    cbn [app foldl item_effect]; try reflexivity;
    (replace (has (a_flags a) IDEMIP_TCP_SYN) with true;
      [reflexivity|unfold with_syn in Ew; apply andb_true_iff in Ew as [Ew _]; by rewrite <- Ew]).
Qed.

Section Peer.
Variables (word : option nat) (swap v4 v6 : bool).
Hypothesis Hword : build word.

(** A build on such a borrow, and the octets it leaves. *)
Lemma build_writes w buf lip rip : buildable v4 v6 w buf lip rip →
  let a := build_args (TcpOut.w_io w) in let c := octl (TcpOut.w_io w) in let w' := idemip_tcp_out_build word swap v4 v6 w in
  ∃ sum ck, is_u16 ck ∧
    pseudo_accum word swap v4 v6 0 (a_ip_version a) IDEMIP_TCP_PROTO lip rip (20 + tcp_out_opts_len a + a_len a) = Some sum ∧
    cksum_final (cksum_accum word swap sum (message a c ck)) = 0 ∧
    ostatus (TcpOut.w_io w') = IDEMIP_OK ∧ built (ores (TcpOut.w_io w')) = 20 + tcp_out_opts_len a + a_len a ∧
    hdr_len (ores (TcpOut.w_io w')) = 20 + tcp_out_opts_len a ∧
    a_buf (build_args (TcpOut.w_io w')) = Some (wr buf (message a c ck)).
Proof.
  intros (Hrd&Hok&Hdat&Hlip&Hrip&Hol&Hor&Hver) a c w'. subst w'. unfold idemip_tcp_out_build. cbv zeta.
  cbn [TcpOut.w_io TcpOut.w_ctx].
  change (build_args (_ <| ores := _ |>)) with a. change (octl (_ <| ores := _ |>)) with c. fold a c in Hok, Hdat, Hlip, Hrip, Hver.
  destruct (offs_flags_eq a c buf Hok) as (_&_&Hopl). pose proof (message_length a c 0 buf Hok) as Hml.
  pose proof Hok as ((_&_&_&_&Hsb&_)&_&_&_&_&_&_&_&_&Hcp&Hln&_&_&Hbf&Hcl&Hbl&_&Htot). unfold is_u16 in Hcp, Hln.
  change (oready (TcpOut.w_ctx (w <| TcpOut.w_io := _ |>))) with (oready (TcpOut.w_ctx w)). rewrite Hrd.
  change (negb (TCP_OUT_READY =? TCP_OUT_READY)) with false. cbv iota. rewrite Hbf, Hlip, Hrip.
  replace (negb (Bool.eqb (negb (a_len a =? 0)) (bool_decide (is_Some (a_data a))))) with false.
  2:{ destruct (Z.eqb_spec (a_len a) 0) as [E|E]; case_bool_decide; simpl; tauto. }
  unfold IDEMIP_TCP_SACK_BLOCKS_MAX, IDEMIP_TCP_OPTS_MAX, IDEMIP_TCP_HDR_LEN.
  rewrite (proj2 (Z.ltb_ge 4 _)) by lia. rewrite (proj2 (Z.ltb_ge 40 _)) by lia.
  rewrite (u16_id (20 + tcp_out_opts_len a)) by (unfold is_u16; lia).
  rewrite (u32_id (20 + tcp_out_opts_len a + a_len a)) by (unfold is_u32; lia). rewrite (proj2 (Z.ltb_ge (a_cap a) _)) by lia.
  rewrite build_write_eq by done.
  set (total := 20 + tcp_out_opts_len a + a_len a) in *.
  destruct (pseudo_accum word swap v4 v6 0 (a_ip_version a) IDEMIP_TCP_PROTO lip rip total) as [sum|] eqn:Eps.
  2:{ exfalso. destruct Hver as [[Ev ->]|[Ev ->]]; rewrite Ev in Eps; unfold pseudo_accum in Eps; cbn in Eps; [|done].
      unfold pseudo4_accum, IDEMIP_PSEUDO_V4_LEN_MAX in Eps. rewrite (proj2 (Z.ltb_ge _ _)) in Eps by lia. done. }
  pose proof (pseudo_accum_range word swap v4 v6 (a_ip_version a) IDEMIP_TCP_PROTO lip rip total sum Hword Hol Hor ltac:(split; discriminate) ltac:(unfold is_u16; lia) Eps) as Hsum.
  replace (take (Z.to_nat total) (wr buf (message a c 0))) with (message a c 0).
  2:{ rewrite <- Hml, Nat2Z.id. by rewrite wr_take. }
  set (ck := cksum_final (cksum_accum word swap sum (message a c 0))).
  destruct (cksum_closes word swap sum (before_ck a) (after_ck a c) ck) as [Hck Hz].
  { done. } { by eapply before_ck_octets. } { by eapply after_ck_octets. } { done. }
  { lia. } { pose proof (words_sum_nonneg _ (before_ck_octets a c buf Hok)). pose proof (words_sum_nonneg _ (after_ck_octets a c buf Hok)). lia. }
  { rewrite <- message_split. lia. } { subst ck. by rewrite message_split. }
  rewrite <- message_split in Hz. rewrite wr16_message by done. exists sum, ck. clearbody ck.
  split_and!; try done. cbn. apply u16_id. unfold is_u16. lia.
Qed.

(** The segment and the options a parse makes of those octets. *)
Lemma parse_message a c buf ck bytes rest scale : args_ok a c buf → is_u16 ck → is_u8 scale → bytes = message a c ck ++ rest →
  parse_seg bytes (20 + tcp_out_opts_len a + a_len a) (tcp_hdr_len bytes) scale = sent_seg a scale ∧
  tcp_hdr_len bytes = 20 + tcp_out_opts_len a ∧
  ∃ wk, parse_opts 41 (a_flags a) (tcp_opt_walk bytes) (opts_zero <| o_hdr_len := u16 (20 + tcp_out_opts_len a) |>)
        = Some (wk, sent_opts a) ∧ w_bad wk = false.
Proof.
  intros Hok Hck Hsc ->. pose proof Hok as (Ho&_&_&_&_&Hfl&Hwn&_&_&_&Hln&_&_&_&_&_&_&Htot).
  destruct (offs_flags_eq a c buf Hok) as (Hof&Hmod&Hopl).
  unfold message. rewrite <- !app_assoc. set (tl := region a c ++ data_of a ++ rest).
  destruct (fixed_reads a c buf ck tl Hok Hck) as (Hsq&Hak&Hoff&Hwin&Hup).
  set (h := fixed a ck ++ tl) in *. assert (tcp_flags h = a_flags a) as Hflags.
  { unfold tcp_flags. rewrite Hoff, Hof, land_ff. wrap. }
  assert (tcp_doff h = (20 + tcp_out_opts_len a) / 4) as Hdoff.
  { unfold tcp_doff. rewrite Hoff, Hof. change IDEMIP_TCP_DOFF_MASK with (Z.ones 4). change IDEMIP_TCP_DOFF_SHIFT with 12.
    rewrite Z.land_ones, Z.shiftr_div_pow2 by lia. wrap. }
  assert (tcp_hdr_len h = 20 + tcp_out_opts_len a) as Hhl by (rewrite tcp_hdr_len_eq, Hdoff; Z.div_mod_to_equations; lia).
  rewrite Hhl. split_and!; [|done|].
  - unfold parse_seg, sent_seg. cbv zeta. rewrite Hsq, Hak, Hflags, Hwin, Hup. unfold is_u16 in Hln.
    replace (20 + tcp_out_opts_len a + a_len a - (20 + tcp_out_opts_len a)) with (a_len a) by lia.
    rewrite (u16_id (a_len a)) by (unfold is_u16; lia). change TcpOut.has with has.
    f_equal.
    + destruct (has (a_flags a) IDEMIP_TCP_SYN); cbn [negb]; [done|]. unfold IDEMIP_TCP_WS_MAX, is_u8 in *.
      replace (if 14 <? scale then 14 else scale) with (Z.min scale 14) by (destruct (Z.ltb_spec 14 scale); lia).
      rewrite Z.shiftl_mul_pow2 by lia. apply u32_id. pose proof (build_window_ok a) as Hb. unfold is_u16 in Hb.
      assert (1 ≤ 2 ^ Z.min scale 14 ≤ 2 ^ 14) by (split; [apply (Z.pow_le_mono_r 2 0)|apply Z.pow_le_mono_r]; lia).
      unfold is_u32. nia.
    + destruct (has (a_flags a) IDEMIP_TCP_SYN), (has (a_flags a) IDEMIP_TCP_FIN); autorewrite with u32;
        rewrite ?u32_id by (unfold is_u32; lia); lia.
  - rewrite <- (items_effect a c _ (u16_id (20 + tcp_out_opts_len a) ltac:(unfold is_u16; lia))).
    pose proof Ho as (_&_&_&_&Hsb&_). pose proof (items_bytes_length a c ltac:(lia)) as Hil. destruct (opts_len_eq a Hsb) as [Heq Hil2].
    apply (parse_items (a_flags a) (items_of a c) [] (tcp_out_opts_len a) _ (Z.to_nat (tcp_out_opts_len a - items_len a)) (data_of a ++ rest)).
    + by apply items_of_ok.
    + unfold walk_at, tcp_opt_walk. cbn [w_opts w_pos w_end w_bad app length]. split_and!; try done.
      * unfold tcp_opts, h, tl, region. change (Z.to_nat IDEMIP_TCP_OFF_OPTIONS) with (length (fixed a ck)).
        by rewrite drop_app_length, <- app_assoc.
      * unfold tcp_opts_len, IDEMIP_TCP_DOFF_MIN, IDEMIP_TCP_WORD_SHIFT. rewrite Hdoff, Z.shiftl_mul_pow2 by lia.
        destruct (Z.leb_spec ((20 + tcp_out_opts_len a) / 4) 5); Z.div_mod_to_equations; lia.
    + rewrite Hil. cbn [length]. Z.div_mod_to_equations; lia.
    + unfold items_of. rewrite !length_app. repeat case_match; cbn [length]; lia.
Qed.

End Peer.

(** *** A SYN with every option, and a data segment over IPv6 *)
Definition sample_build : TcpOutBuildArgs :=
  mkBuildArgs (Some (replicate 80 255)) (Some [104; 105]) (Some (replicate 16 32)) (Some (replicate 16 33))
    0xFFFFFFFE 7 100000 1234 5678 80 2 0 1460 49152 80 15 (Z.lor IDEMIP_TCP_SYN IDEMIP_TCP_PSH) 7 7 0 6.
Definition sample_out : TcpOut.Work :=
  TcpOut.mkWork (TcpOut.mkIo sample_build (mkSendArgs 0 0 0 false false false) (mkTimerArgs 0 0 0 0 0 false)
    (TcpOut.mkSegArgs 0 0 0 0) vars_zero ctl_zero IDEMIP_TCP_STATE_ESTABLISHED IDEMIP_ERR (TcpOut.mkReply 0 0 0)
    (TcpOut.mkResult 0 0 0 0 false false)) (TcpOut.mkCtx TCP_OUT_READY).
Definition sample_sent : TcpOut.Work := idemip_tcp_out_build (Some 8%nat) true true true sample_out.
Definition sample_peer (bytes : list Z) : Work :=
  mkWork (mkIo (mkParseArgs (Some bytes) (Some (replicate 16 33)) (Some (replicate 16 32)) 46 6 3)
    seg_zero vars_zero ctl_zero IDEMIP_TCP_STATE_LISTEN IDEMIP_TCP_PCB_NONE 0 IDEMIP_ERR opts_zero (mkReply 0 0 0)
    (mkResult 0 0 0 0 0 false)) (mkCtx TCP_IN_READY 0 0).

Lemma sample_buildable : buildable true true sample_out (replicate 80 255) (replicate 16 32) (replicate 16 33).
Proof.
  unfold buildable. split_and!; try reflexivity; try (apply Forall_replicate; unfold is_u8; lia).
  - unfold args_ok. split.
    + unfold opts_ok. split_and!; try (unfold is_u16, is_u8, is_u32; cbn; lia). intros j. unfold tget.
      change (sack_left _) with (sack_left ctl_zero). change (sack_right _) with (sack_right ctl_zero).
      cbn [sack_left sack_right ctl_zero].
      destruct (Z.to_nat j) as [|[|[|[|n]]]]; vm_compute; split_and!; congruence.
    + unfold is_u16, is_u8, is_u32. split_and!; try (apply Z.leb_le; reflexivity); try (apply Z.ltb_lt; reflexivity); try reflexivity.
      repeat constructor; unfold is_u8; lia.
  - split; [by eexists|]. intros _. done.
  - right. done.
Qed.


(** A header of sixty octets in forty-six. *)
Lemma parse_returns_witness :
  ∃ w', idemip_tcp_in_parse None false true true (sample_peer (replicate 64 255)) = Some w' ∧ w_ctx w' = mkCtx TCP_IN_READY 0 0.
Proof.
  destruct (parse_returns None false true true (sample_peer (replicate 64 255))) as (w'&H&_&Hc&_).
  - split; [compute; done|]. intros h Eh. injection Eh as <-. change (_ :: _) with (replicate 64 255).
    split; [apply Forall_replicate; unfold is_u8; lia|rewrite length_replicate; cbn; lia].
  - by exists w'.
Defined.
End TcpRound.
