(* ===== verification/Udp.v ===== *)
(** * UDP and UDP-Lite (src/udp/udp.c, src/udp/udplite.c)

    The fields of both headers, the builders, both checksums; and the UDP-Lite unit's entries over either
    IP version.  A datagram is a list of octets at least as long as the IP payload. *)
From S2P Require Import Prelude Base Wire Tcp.

Module Udp.
Import Endian Checksum.

Definition IDEMIP_UDP_OFF_SRC_PORT : Z := 0.
Definition IDEMIP_UDP_OFF_DST_PORT : Z := 2.
Definition IDEMIP_UDP_OFF_LEN : Z := 4.
Definition IDEMIP_UDP_OFF_CKSUM : Z := 6.
Definition IDEMIP_UDP_HDR_LEN : Z := 8.
Definition IDEMIP_UDP_LEN_MIN : Z := IDEMIP_UDP_HDR_LEN.
Definition IDEMIP_UDP_CKSUM_NONE : Z := 0x0000.
Definition IDEMIP_UDP_CKSUM_ZERO_AS : Z := 0xFFFF.
Definition IDEMIP_UDP_PROTO : Z := 17.
Definition IDEMIP_UDPLITE_OFF_COV : Z := IDEMIP_UDP_OFF_LEN.
Definition IDEMIP_UDPLITE_HDR_LEN : Z := IDEMIP_UDP_HDR_LEN.
Definition IDEMIP_UDPLITE_COV_ALL : Z := 0.
Definition IDEMIP_UDPLITE_COV_MIN : Z := IDEMIP_UDPLITE_HDR_LEN.
Definition IDEMIP_UDPLITE_PROTO : Z := 136.

(** ** Fields *)
Definition udp_src_port (h : list Z) : Z := rd16 h IDEMIP_UDP_OFF_SRC_PORT.
Definition udp_dst_port (h : list Z) : Z := rd16 h IDEMIP_UDP_OFF_DST_PORT.
Definition udp_len (h : list Z) : Z := rd16 h IDEMIP_UDP_OFF_LEN.
Definition udp_cksum_field (h : list Z) : Z := rd16 h IDEMIP_UDP_OFF_CKSUM.
Definition udp_len_valid (h : list Z) : bool := IDEMIP_UDP_LEN_MIN <=? udp_len h.
Definition udp_payload_len (h : list Z) : Z := let len := udp_len h in if IDEMIP_UDP_LEN_MIN <=? len then u16 (len - IDEMIP_UDP_HDR_LEN) else 0.
Definition udp_cksum_present (h : list Z) : bool := negb (udp_cksum_field h =? IDEMIP_UDP_CKSUM_NONE).
Definition udp_set_src_port (w : list Z) (v : Z) : list Z := wr16 w IDEMIP_UDP_OFF_SRC_PORT v.
Definition udp_set_dst_port (w : list Z) (v : Z) : list Z := wr16 w IDEMIP_UDP_OFF_DST_PORT v.
Definition udp_set_len (w : list Z) (v : Z) : list Z := wr16 w IDEMIP_UDP_OFF_LEN v.
Definition udp_set_cksum (w : list Z) (v : Z) : list Z := wr16 w IDEMIP_UDP_OFF_CKSUM v.

Definition udp_build (w : list Z) (src_port dst_port len : Z) : list Z :=
  let w := udp_set_src_port w src_port in
  let w := udp_set_dst_port w dst_port in
  let w := udp_set_len w len in
  udp_set_cksum w IDEMIP_UDP_CKSUM_NONE.

Definition udp_pseudo_accum (sum src dst udp_len proto : Z) : Z :=
  let sum := u32 (sum + Z.land (Z.shiftr src 16) 0xFFFF) in
  let sum := u32 (sum + Z.land src 0xFFFF) in
  let sum := u32 (sum + Z.land (Z.shiftr dst 16) 0xFFFF) in
  let sum := u32 (sum + Z.land dst 0xFFFF) in
  let sum := u32 (sum + proto) in
  u32 (sum + udp_len).

Definition udplite_cov (h : list Z) : Z := rd16 h IDEMIP_UDPLITE_OFF_COV.
Definition udplite_set_cov (w : list Z) (v : Z) : list Z := wr16 w IDEMIP_UDPLITE_OFF_COV v.
Definition udplite_build (w : list Z) (src_port dst_port cov : Z) : list Z :=
  let w := udp_set_src_port w src_port in
  let w := udp_set_dst_port w dst_port in
  let w := udplite_set_cov w cov in
  udp_set_cksum w IDEMIP_UDP_CKSUM_NONE.
Definition udplite_cov_bytes (cov ip_payload_len : Z) : Z := if cov =? IDEMIP_UDPLITE_COV_ALL then ip_payload_len else cov.
Definition udplite_cov_valid (cov ip_payload_len : Z) : bool :=
  if ip_payload_len <? IDEMIP_UDPLITE_COV_MIN then false
  else if cov =? IDEMIP_UDPLITE_COV_ALL then true
  else (IDEMIP_UDPLITE_COV_MIN <=? cov) && (cov <=? ip_payload_len).

Section Sums.
Variable word : option nat.
Variable swap : bool.

Definition udp_cksum_compute (h : list Z) (len src dst : Z) : Z :=
  let sum := udp_pseudo_accum 0 src dst (u16 len) IDEMIP_UDP_PROTO in
  let v := cksum_final (cksum_accum word swap sum (take (Z.to_nat len) h)) in
  if v =? 0 then IDEMIP_UDP_CKSUM_ZERO_AS else v.
Definition udp_cksum_write (w : list Z) (len src dst : Z) : list Z :=
  let w := udp_set_cksum w IDEMIP_UDP_CKSUM_NONE in udp_set_cksum w (udp_cksum_compute w len src dst).
Definition udp_cksum_valid (h : list Z) (len src dst : Z) : bool :=
  let sum := udp_pseudo_accum 0 src dst (u16 len) IDEMIP_UDP_PROTO in
  cksum_final (cksum_accum word swap sum (take (Z.to_nat len) h)) =? 0.

Definition udplite_cksum_compute (h : list Z) (cov ip_payload_len src dst : Z) : Z :=
  let sum := udp_pseudo_accum 0 src dst ip_payload_len IDEMIP_UDPLITE_PROTO in
  let v := cksum_final (cksum_accum word swap sum (take (Z.to_nat (udplite_cov_bytes cov ip_payload_len)) h)) in
  if v =? 0 then IDEMIP_UDP_CKSUM_ZERO_AS else v.
Definition udplite_cksum_write (w : list Z) (cov ip_payload_len src dst : Z) : list Z :=
  let w := udp_set_cksum w IDEMIP_UDP_CKSUM_NONE in udp_set_cksum w (udplite_cksum_compute w cov ip_payload_len src dst).
Definition udplite_cksum_valid (h : list Z) (cov ip_payload_len src dst : Z) : bool :=
  let sum := udp_pseudo_accum 0 src dst ip_payload_len IDEMIP_UDPLITE_PROTO in
  cksum_final (cksum_accum word swap sum (take (Z.to_nat (udplite_cov_bytes cov ip_payload_len)) h)) =? 0.
End Sums.
End Udp.

(** ** udplite.c *)
Module UdpLite.
Import Endian Checksum Pseudo Udp.

Definition UDPLITE_READY : Z := 0x554C5445.

Inductive IdemIpUdpLiteReason : Type :=
  | IDEMIP_UDPLITE_REASON_NONE
  | IDEMIP_UDPLITE_REASON_ARG
  | IDEMIP_UDPLITE_REASON_SHORT
  | IDEMIP_UDPLITE_REASON_COV_ILLEGAL
  | IDEMIP_UDPLITE_REASON_COV_PAST_LEN
  | IDEMIP_UDPLITE_REASON_CKSUM_ZERO
  | IDEMIP_UDPLITE_REASON_CKSUM_BAD.

Record UdpLiteCheckArgs := mkCheckArgs { ck_dgram : option (list Z); ck_src : option (list Z); ck_dst : option (list Z); ck_ip_payload_len : Z; ck_ip_version : Z }.
Record UdpLiteBuildArgs := mkBuildArgs {
  b_dgram : option (list Z); b_src : option (list Z); b_dst : option (list Z); b_ip_payload_len : Z; b_src_port : Z; b_dst_port : Z; b_cov : Z; b_ip_version : Z }.
#[export] Instance UdpLiteBuildArgs_eta : Eta UdpLiteBuildArgs := fun r =>
  mkBuildArgs (b_dgram r) (b_src r) (b_dst r) (b_ip_payload_len r) (b_src_port r) (b_dst_port r) (b_cov r) (b_ip_version r).
Record UdpLiteResult := mkResult { r_payload : option (list Z); r_payload_len : Z; r_cov_bytes : Z; r_cov : Z; r_cksum : Z; r_covered : bool }.
#[export] Instance UdpLiteResult_eta : Eta UdpLiteResult := fun r =>
  mkResult (r_payload r) (r_payload_len r) (r_cov_bytes r) (r_cov r) (r_cksum r) (r_covered r).
Record UdpLiteIo := mkIo { check_args : UdpLiteCheckArgs; build_args : UdpLiteBuildArgs; io_status : IdemIpStatus; io_reason : IdemIpUdpLiteReason; io_res : UdpLiteResult }.
#[export] Instance UdpLiteIo_eta : Eta UdpLiteIo := fun r => mkIo (check_args r) (build_args r) (io_status r) (io_reason r) (io_res r).
Record Work := mkWork { w_io : UdpLiteIo; w_ready : Z }.
#[export] Instance Work_eta : Eta Work := fun r => mkWork (w_io r) (w_ready r).

Definition result_none : UdpLiteResult := mkResult None 0 0 0 0 false.
Definition put_io (w : Work) (io : UdpLiteIo) : Work := w <| w_io := io |>.

(** The reason, or the span. *)
Definition udplite_cov_span (cov ip_payload_len : Z) : IdemIpUdpLiteReason * Z :=
  if ip_payload_len <? IDEMIP_UDPLITE_COV_MIN then (IDEMIP_UDPLITE_REASON_SHORT, 0)
  else if cov =? IDEMIP_UDPLITE_COV_ALL then (IDEMIP_UDPLITE_REASON_NONE, ip_payload_len)
  else if cov <? IDEMIP_UDPLITE_COV_MIN then (IDEMIP_UDPLITE_REASON_COV_ILLEGAL, 0)
  else if ip_payload_len <? cov then (IDEMIP_UDPLITE_REASON_COV_PAST_LEN, 0)
  else (IDEMIP_UDPLITE_REASON_NONE, cov).

Definition udplite_refuse (io : UdpLiteIo) : UdpLiteIo :=
  io <| io_status := IDEMIP_ERR |> <| io_reason := IDEMIP_UDPLITE_REASON_ARG |> <| io_res := result_none |>.

Definition udplite_report (io : UdpLiteIo) (dgram : list Z) (cov span ip_payload_len cksum : Z) : UdpLiteIo :=
  io <| io_res := mkResult (Some (drop (Z.to_nat IDEMIP_UDPLITE_HDR_LEN) dgram)) (u32 (ip_payload_len - IDEMIP_UDPLITE_HDR_LEN)) span cov cksum (span =? ip_payload_len) |>
     <| io_reason := IDEMIP_UDPLITE_REASON_NONE |> <| io_status := IDEMIP_OK |>.

(** A refusal that reports the coverage. *)
Definition cov_refused (io : UdpLiteIo) (r : IdemIpUdpLiteReason) (cov : Z) : UdpLiteIo := io <| io_reason := r |> <| io_res := (io_res io) <| r_cov := cov |> |>.

Section Build.
Variable word : option nat.
Variable swap : bool.
Variables (v4 v6 : bool).

Definition udplite_pseudo (src dst : list Z) (ip_payload_len ip_version : Z) : option Z :=
  pseudo_accum word swap v4 v6 0 ip_version IDEMIP_UDPLITE_PROTO src dst ip_payload_len.

(** Clear zeroes the operand block with the rest. *)
Definition idemip_udplite_clear (w : Work) : Work :=
  mkWork (mkIo (mkCheckArgs None None None 0 0) (mkBuildArgs None None None 0 0 0 0 0) IDEMIP_OK IDEMIP_UDPLITE_REASON_NONE result_none) UDPLITE_READY.

Definition idemip_udplite_cover (w : Work) : Work :=
  let io := udplite_refuse (w_io w) in
  if negb (w_ready w =? UDPLITE_READY) then put_io w io
  else match ck_dgram (check_args io) with
  | None => put_io w io
  | Some dgram =>
      let len := ck_ip_payload_len (check_args io) in
      if len <? IDEMIP_UDPLITE_COV_MIN then put_io w (io <| io_reason := IDEMIP_UDPLITE_REASON_SHORT |>)
      else
        let cov := udplite_cov dgram in
        match udplite_cov_span cov len with
        | (IDEMIP_UDPLITE_REASON_NONE, span) => put_io w (udplite_report io dgram cov span len (udp_cksum_field dgram))
        | (r, _) => put_io w (cov_refused io r cov)
        end
  end.

Definition idemip_udplite_check (w : Work) : Work :=
  let io := udplite_refuse (w_io w) in
  if negb (w_ready w =? UDPLITE_READY) then put_io w io
  else match ck_dgram (check_args io), ck_src (check_args io), ck_dst (check_args io) with
  | Some dgram, Some src, Some dst =>
      let len := ck_ip_payload_len (check_args io) in
      match udplite_pseudo src dst len (ck_ip_version (check_args io)) with
      | None => put_io w io
      | Some sum =>
          if len <? IDEMIP_UDPLITE_COV_MIN then put_io w (io <| io_reason := IDEMIP_UDPLITE_REASON_SHORT |>)
          else
            let cov := udplite_cov dgram in
            match udplite_cov_span cov len with
            | (IDEMIP_UDPLITE_REASON_NONE, span) =>
                let carried := udp_cksum_field dgram in
                if carried =? IDEMIP_UDP_CKSUM_NONE then put_io w (cov_refused io IDEMIP_UDPLITE_REASON_CKSUM_ZERO cov)
                else if negb (cksum_final (cksum_accum word swap sum (take (Z.to_nat span) dgram)) =? 0) then
                  put_io w (cov_refused io IDEMIP_UDPLITE_REASON_CKSUM_BAD cov)
                else put_io w (udplite_report io dgram cov span len carried)
            | (r, _) => put_io w (cov_refused io r cov)
            end
      end
  | _, _, _ => put_io w io
  end.

(** The datagram is written where the operand points. *)
Definition idemip_udplite_build_io (w : Work) : Work :=
  let io := udplite_refuse (w_io w) in
  let a := build_args io in
  if negb (w_ready w =? UDPLITE_READY) then put_io w io
  else match b_dgram a, b_src a, b_dst a with
  | Some dgram, Some src, Some dst =>
      match udplite_pseudo src dst (b_ip_payload_len a) (b_ip_version a) with
      | None => put_io w io
      | Some sum =>
          match udplite_cov_span (b_cov a) (b_ip_payload_len a) with
          | (IDEMIP_UDPLITE_REASON_NONE, span) =>
              let dgram := udplite_build dgram (b_src_port a) (b_dst_port a) (b_cov a) in
              let c := cksum_final (cksum_accum word swap sum (take (Z.to_nat span) dgram)) in
              let c := if c =? 0 then IDEMIP_UDP_CKSUM_ZERO_AS else c in
              let dgram := udp_set_cksum dgram c in
              let io := io <| build_args := a <| b_dgram := Some dgram |> |> in
              put_io w (udplite_report io dgram (b_cov a) span (b_ip_payload_len a) c)
          | (r, _) => put_io w (io <| io_reason := r |>)
          end
      end
  | _, _, _ => put_io w io
  end.
End Build.
End UdpLite.

(** * Datagrams built, sent and checked

    A UDP datagram with the checksum written verifies at the peer; a UDP-Lite datagram verifies whatever
    became of the octets its coverage leaves out. *)
Module UdpThms.
Import Endian Checksum Wire Pseudo Udp UdpLite.

(** The eight octets both protocols share the shape of. *)
Definition ports_and (a b c : Z) : list Z := be16 a ++ be16 b ++ be16 c.

Lemma ports_octets a b c : is_u16 a → is_u16 b → is_u16 c → octets (ports_and a b c).
Proof. intros. unfold ports_and. repeat (apply Forall_app; split); by apply be16_octets. Qed.

Lemma header_written w a b c : (8 ≤ length w)%nat → is_u16 a → is_u16 b → is_u16 c →
  wr16 (wr16 (wr16 (wr16 w 0 a) 2 b) 4 c) 6 0 = ports_and a b c ++ be16 0 ++ drop 8 w.
Proof.
  intros Hl Ha Hb Hc. do 8 (destruct w as [|? w]; [cbn [length] in Hl; lia|]). assert (is_u16 0) by (unfold is_u16; lia).
  do 4 write_field. reflexivity.
Qed.
Lemma cksum_written P rest x v : length P = 6%nat → is_u16 v → udp_set_cksum (P ++ be16 x ++ rest) v = P ++ be16 v ++ rest.
Proof.
  intros HP Hv. unfold udp_set_cksum, wr16. change (Z.to_nat IDEMIP_UDP_OFF_CKSUM) with 6%nat. rewrite <- HP, take_app_length, drop_app_length.
  unfold be16. cbn [app]. by rewrite wr16_bytes.
Qed.
Lemma fields_read a b c ck rest : is_u16 a → is_u16 b → is_u16 c → is_u16 ck →
  let h := ports_and a b c ++ be16 ck ++ rest in udp_src_port h = a ∧ udp_dst_port h = b ∧ udp_len h = c ∧ udp_cksum_field h = ck ∧ drop 8 h = rest.
Proof.
  intros Ha Hb Hc Hk h. split_and!; [by apply (rd16_be16 a)|by apply (rd16_be16 b)|by apply (rd16_be16 c)|by apply (rd16_be16 ck)|done].
Qed.

(** The first [n] octets of a datagram, past its checksum field. *)
Lemma take_split P ck rest n : length P = 6%nat → (8 ≤ n)%nat → take n (P ++ be16 ck ++ rest) = P ++ be16 ck ++ take (n - 8) rest.
Proof.
  intros HP Hn. rewrite take_app_ge by lia. f_equal. rewrite take_app_ge by (rewrite HP; cbn; lia). f_equal. rewrite HP. f_equal. cbn. lia.
Qed.

(** A span closed with the checksum, zero going out as all ones. *)
Lemma span_closes word swap sum a b c rest n : build word → is_u16 a → is_u16 b → is_u16 c → octets rest → (8 ≤ n)%nat → Z.of_nat n ≤ 65535 → 1 ≤ sum ≤ 600000 →
  let d := ports_and a b c ++ be16 0 ++ rest in
  let ck := cksum_final (cksum_accum word swap sum (take n d)) in
  let v := if ck =? 0 then 0xFFFF else ck in
  is_u16 v ∧ v ≠ 0 ∧ cksum_final (cksum_accum word swap sum (take n (ports_and a b c ++ be16 v ++ rest))) = 0.
Proof.
  intros Hw Ha Hb Hc Hr Hn Hn2 Hs d ck v. assert (octets (take (n - 8) rest)) as Hro by (by apply Forall_take). pose proof (ports_octets a b c Ha Hb Hc) as Hpo.
  pose proof (words_sum_nonneg _ Hpo). pose proof (words_sum_nonneg _ Hro).
  assert (Z.of_nat (length (ports_and a b c ++ be16 0 ++ take (n - 8) rest)) ≤ 65535) as Hlen by (rewrite !length_app, length_take; cbn; lia).
  rewrite take_split by done. apply (cksum_closes_ones word swap sum); [done|done|done|done|lia|lia|done|]. unfold ck, d. by rewrite take_split by done.
Qed.

Lemma udp_pseudo_range src dst len proto : 1 ≤ proto ≤ 255 → is_u16 len → 1 ≤ udp_pseudo_accum 0 src dst len proto ≤ 600000.
Proof. intros Hp Hl. unfold udp_pseudo_accum. autorewrite with bits u32. rewrite u32_id; wrap. Qed.

(** A built UDP datagram verifies.  Over any region of at least [len] octets, with the header built and
    the checksum written: the ports and the length read back, the data are as they were, a checksum is
    present though the sum may come out zero, and it verifies over the same addresses; on every word
    width and byte order. *)
Theorem udp_datagram_verifies (word : option nat) (swap : bool) (w : list Z) (sp dp len src dst : Z) :
  build word → octets w → 8 ≤ len ≤ 65535 → len ≤ Z.of_nat (length w) → is_u16 sp → is_u16 dp →
  let d := udp_cksum_write word swap (udp_build w sp dp len) len src dst in
  udp_src_port d = sp ∧ udp_dst_port d = dp ∧ udp_len d = len ∧ udp_len_valid d = true ∧ udp_payload_len d = len - 8 ∧
  drop 8 d = drop 8 w ∧ udp_cksum_present d = true ∧ udp_cksum_valid word swap d len src dst = true.
Proof.
  intros Hw Ho Hlen Hl Hsp Hdp d. assert (is_u16 len) as Hul by (unfold is_u16; lia). assert (octets (drop 8 w)) as Hro by (by apply Forall_drop).
  pose proof (udp_pseudo_range src dst (u16 len) IDEMIP_UDP_PROTO ltac:(vm_compute; split; discriminate) (u16_range len)) as Hs.
  set (sum := udp_pseudo_accum 0 src dst (u16 len) IDEMIP_UDP_PROTO) in *.
  destruct (span_closes word swap sum sp dp len (drop 8 w) (Z.to_nat len)) as (Hv & Hv0 & Hz); [done..|lia|lia|done|].
  set (v := if _ =? 0 then _ else _) in Hv, Hv0, Hz.
  assert (d = ports_and sp dp len ++ be16 v ++ drop 8 w) as Hd.
  { unfold d, udp_cksum_write, udp_build. cbv zeta.
    change (udp_set_cksum (udp_set_len (udp_set_dst_port (udp_set_src_port w sp) dp) len) IDEMIP_UDP_CKSUM_NONE) with (wr16 (wr16 (wr16 (wr16 w 0 sp) 2 dp) 4 len) 6 0).
    rewrite header_written by (done || lia). assert (is_u16 0) by (unfold is_u16; lia). unfold IDEMIP_UDP_CKSUM_NONE. rewrite !cksum_written by done. reflexivity. }
  rewrite Hd. destruct (fields_read sp dp len v (drop 8 w) Hsp Hdp Hul Hv) as (-> & -> & Hrl & Hck & ->). unfold udp_len_valid, udp_payload_len, udp_cksum_present, udp_cksum_valid.
  rewrite Hrl, Hck. unfold IDEMIP_UDP_LEN_MIN, IDEMIP_UDP_HDR_LEN, IDEMIP_UDP_CKSUM_NONE. rewrite (proj2 (Z.leb_le 8 len)), (proj2 (Z.eqb_neq v 0)) by (done || lia).
  rewrite u16_id by (unfold is_u16; lia). split_and!; try done. fold sum. by rewrite Hz.
Qed.

Lemma udp_datagram_verifies_witness :
  let d := udp_cksum_write (Some 4%nat) true (udp_build (replicate 20 7) 53 40000 13) 13 0x0A000001 0x0A000002 in
  udp_payload_len d = 5 ∧ udp_cksum_valid (Some 4%nat) true d 13 0x0A000001 0x0A000002 = true.
Proof.
  intros d. assert (octets (replicate 20 7)) as Ho by (apply Forall_replicate; split; [discriminate|reflexivity]).
  destruct (udp_datagram_verifies (Some 4%nat) true (replicate 20 7) 53 40000 13 0x0A000001 0x0A000002
    ltac:(right; left; reflexivity) Ho ltac:(split; discriminate) ltac:(discriminate) ltac:(split; [discriminate|reflexivity]) ltac:(split; [discriminate|reflexivity])) as (_ & _ & _ & _ & Hp & _ & _ & Hv).
  split; [exact Hp|exact Hv].
Defined.
(** ** UDP-Lite *)

(** The reason and the span, by RFC 3828 section 3.1. *)
Lemma cov_span_spec cov len : is_u16 cov → 0 ≤ len →
  let '(r, span) := udplite_cov_span cov len in
  (r = IDEMIP_UDPLITE_REASON_NONE ↔ 8 ≤ len ∧ (cov = 0 ∨ 8 ≤ cov ≤ len)) ∧
  (r = IDEMIP_UDPLITE_REASON_NONE → span = (if cov =? 0 then len else cov) ∧ 8 ≤ span ≤ len).
Proof.
  intros Hc Hl. unfold udplite_cov_span, is_u16, IDEMIP_UDPLITE_COV_MIN, IDEMIP_UDPLITE_HDR_LEN, IDEMIP_UDP_HDR_LEN, IDEMIP_UDPLITE_COV_ALL in *.
  destruct (Z.ltb_spec len 8); [split; [split; [done|lia]|done]|]. destruct (Z.eqb_spec cov 0); [split; [split; [intros _; lia|done]|lia]|].
  destruct (Z.ltb_spec cov 8); [split; [split; [done|lia]|done]|]. destruct (Z.ltb_spec len cov); [split; [split; [done|lia]|done]|]. split; [split; [intros _; lia|done]|lia].
Qed.

(** What the covered octets say of a datagram's header. *)
Lemma covered_header a b c v rest rest' n d' : is_u16 a → is_u16 b → is_u16 c → is_u16 v → (8 ≤ n)%nat →
  take n d' = take n (ports_and a b c ++ be16 v ++ rest) → rest' = drop 8 d' → d' = ports_and a b c ++ be16 v ++ rest'.
Proof.
  intros Ha Hb Hc Hv Hn Ht ->. assert (take 8 d' = ports_and a b c ++ be16 v) as H8.
  { transitivity (take 8 (take n d')); [rewrite take_take; f_equal; lia|]. rewrite Ht, take_take. replace (8 `min` n)%nat with 8%nat by lia.
    rewrite take_split by done. cbn [Nat.sub take]. by rewrite app_nil_r. }
  rewrite <- (take_drop 8 d') at 1. rewrite H8. by rewrite <- app_assoc.
Qed.

(** What a build that is taken leaves in the datagram. *)
Lemma lite_built word swap v4 v6 w0 a dgram src dst sum span :
  build word → w_ready w0 = UDPLITE_READY → build_args (w_io w0) = a → b_dgram a = Some dgram → b_src a = Some src → b_dst a = Some dst →
  udplite_pseudo word swap v4 v6 src dst (b_ip_payload_len a) (b_ip_version a) = Some sum → 1 ≤ sum ≤ 600000 →
  udplite_cov_span (b_cov a) (b_ip_payload_len a) = (IDEMIP_UDPLITE_REASON_NONE, span) → 8 ≤ span ≤ 65535 →
  octets dgram → (8 ≤ length dgram)%nat → is_u16 (b_src_port a) → is_u16 (b_dst_port a) → is_u16 (b_cov a) →
  ∃ v, is_u16 v ∧ v ≠ 0 ∧ let d := ports_and (b_src_port a) (b_dst_port a) (b_cov a) ++ be16 v ++ drop 8 dgram in
    cksum_final (cksum_accum word swap sum (take (Z.to_nat span) d)) = 0 ∧
    let w := idemip_udplite_build_io word swap v4 v6 w0 in io_status (w_io w) = IDEMIP_OK ∧ b_dgram (build_args (w_io w)) = Some d.
Proof.
  intros Hw Hr Ha Hd Hs Hdst Hps Hsum Hsp Hspan Ho Hl Hsp' Hdp Hcov.
  destruct (span_closes word swap sum (b_src_port a) (b_dst_port a) (b_cov a) (drop 8 dgram) (Z.to_nat span)) as (Hv & Hv0 & Hz); [done..|by apply Forall_drop|lia|lia|done|].
  set (v := if _ =? 0 then _ else _) in Hv, Hv0, Hz. exists v. split; [done|]. split; [done|]. split; [done|].
  unfold idemip_udplite_build_io. change (build_args (udplite_refuse (w_io w0))) with (build_args (w_io w0)). rewrite Hr, Ha, Hd, Hs, Hdst, Hps, Hsp. cbn [negb Z.eqb].
  change (udplite_build dgram (b_src_port a) (b_dst_port a) (b_cov a)) with (wr16 (wr16 (wr16 (wr16 dgram 0 (b_src_port a)) 2 (b_dst_port a)) 4 (b_cov a)) 6 0).
  rewrite header_written by done. split; [reflexivity|].
  set (P := ports_and (b_src_port a) (b_dst_port a) (b_cov a)). change (Some (udp_set_cksum (P ++ be16 0 ++ drop 8 dgram) v) = Some (P ++ be16 v ++ drop 8 dgram)).
  f_equal. by apply cksum_written.
Qed.

(** UDP-Lite protects what is covered and nothing else.  On any cleared borrows, over either IP version:
    a build with a legal coverage succeeds; and any datagram that agrees with what it left on the octets
    covered, whatever the rest, checked with the same addresses and length, is accepted with that coverage
    and handed on with the payload it arrived with. *)
Theorem udplite_covers_prefix (word : option nat) (swap v4 v6 : bool) (ws wr : Work) (dgram src dst d' : list Z) (len sp dp cov ver : Z) :
  build word → w_ready ws = UDPLITE_READY → w_ready wr = UDPLITE_READY →
  build_args (w_io ws) = mkBuildArgs (Some dgram) (Some src) (Some dst) len sp dp cov ver →
  check_args (w_io wr) = mkCheckArgs (Some d') (Some src) (Some dst) len ver →
  octets dgram → octets src → octets dst → is_u16 sp → is_u16 dp → is_u16 cov → 8 ≤ len ≤ 65535 → cov = 0 ∨ 8 ≤ cov ≤ len → len ≤ Z.of_nat (length dgram) →
  is_Some (udplite_pseudo word swap v4 v6 src dst len ver) →
  let covered := if cov =? 0 then len else cov in
  ∃ d, io_status (w_io (idemip_udplite_build_io word swap v4 v6 ws)) = IDEMIP_OK ∧
    b_dgram (build_args (w_io (idemip_udplite_build_io word swap v4 v6 ws))) = Some d ∧
    (take (Z.to_nat covered) d' = take (Z.to_nat covered) d →
     let r := w_io (idemip_udplite_check word swap v4 v6 wr) in
     io_status r = IDEMIP_OK ∧ io_reason r = IDEMIP_UDPLITE_REASON_NONE ∧ r_cov (io_res r) = cov ∧ r_cov_bytes (io_res r) = covered ∧
     r_payload (io_res r) = Some (drop 8 d') ∧ r_payload_len (io_res r) = len - 8).
Proof.
  intros Hw Hrs Hrr Hb Hck Ho Hos Hod Hsp Hdp Hcov Hlen Hc Hl [sum Hps] covered.
  assert (1 ≤ sum ≤ 600000) as Hsum by (apply (pseudo_accum_range word swap v4 v6 ver IDEMIP_UDPLITE_PROTO src dst len); [done..|split; discriminate|unfold is_u16; lia|done]).
  pose proof (cov_span_spec cov len Hcov ltac:(lia)) as Hspan. destruct (udplite_cov_span cov len) as [r span] eqn:Es. destruct Hspan as [Hiff Hval].
  assert (r = IDEMIP_UDPLITE_REASON_NONE) as -> by (by apply Hiff; split; [lia|]). destruct (Hval eq_refl) as [Hse Hsr].
  destruct (lite_built word swap v4 v6 ws _ dgram src dst sum span Hw Hrs Hb eq_refl eq_refl eq_refl Hps Hsum Es ltac:(lia) Ho ltac:(lia) Hsp Hdp Hcov) as (v & Hv & Hv0 & Hz & Hst & Hd).
  cbn [b_src_port b_dst_port b_cov] in Hz, Hd. eexists. split; [exact Hst|]. split; [exact Hd|]. intros Ht. replace covered with span in * by done.
  pose proof (covered_header sp dp cov v (drop 8 dgram) _ (Z.to_nat span) d' Hsp Hdp Hcov Hv ltac:(lia) Ht eq_refl) as Hd'.
  destruct (fields_read sp dp cov v (drop 8 d') Hsp Hdp Hcov Hv) as (_ & _ & Hfc & Hfk & _). rewrite <- Hd' in Hfc, Hfk. change (udplite_cov d' = cov) in Hfc.
  unfold idemip_udplite_check. change (check_args (udplite_refuse (w_io wr))) with (check_args (w_io wr)). rewrite Hrr, Hck. cbn [ck_dgram ck_src ck_dst ck_ip_payload_len ck_ip_version negb Z.eqb].
  change (negb (UDPLITE_READY =? UDPLITE_READY)) with false. cbv iota. rewrite Hps. rewrite (proj2 (Z.ltb_ge len IDEMIP_UDPLITE_COV_MIN)) by (unfold IDEMIP_UDPLITE_COV_MIN, IDEMIP_UDPLITE_HDR_LEN, IDEMIP_UDP_HDR_LEN; lia).
  rewrite Hfc, Es, Hfk. rewrite (proj2 (Z.eqb_neq v IDEMIP_UDP_CKSUM_NONE)) by done. rewrite Ht, Hz. cbn [negb Z.eqb]. split_and!; try reflexivity.
  change (u32 (len - 8) = len - 8). apply u32_id. unfold is_u32. lia.
Qed.

Definition lite_io (c : UdpLiteCheckArgs) (b : UdpLiteBuildArgs) : Work := mkWork (mkIo c b IDEMIP_OK IDEMIP_UDPLITE_REASON_NONE result_none) UDPLITE_READY.
Definition lite_src : list Z := [10; 0; 0; 1].
Definition lite_dst : list Z := [10; 0; 0; 2].

(** Eight of twelve octets covered; the last two arrive changed. *)
Lemma udplite_covers_prefix_witness :
  let sent := replicate 12 5 in
  let ws := lite_io (mkCheckArgs None None None 0 0) (mkBuildArgs (Some sent) (Some lite_src) (Some lite_dst) 12 7 9 10 4) in
  let d := default [] (b_dgram (build_args (w_io (idemip_udplite_build_io (Some 4%nat) true true true ws)))) in
  let wr := lite_io (mkCheckArgs (Some (take 10 d ++ [0; 0])) (Some lite_src) (Some lite_dst) 12 4) (mkBuildArgs None None None 0 0 0 0 0) in
  io_status (w_io (idemip_udplite_check (Some 4%nat) true true true wr)) = IDEMIP_OK.
Proof.
  intros sent ws d wr.
  assert (octets sent ∧ octets lite_src ∧ octets lite_dst) as (H1 & H2 & H3) by (split_and!; repeat constructor; vm_compute; discriminate).
  destruct (udplite_covers_prefix (Some 4%nat) true true true ws wr sent lite_src lite_dst (take 10 d ++ [0; 0]) 12 7 9 10 4
    ltac:(right; left; reflexivity) eq_refl eq_refl eq_refl eq_refl H1 H2 H3 ltac:(split; [discriminate|reflexivity]) ltac:(split; [discriminate|reflexivity]) ltac:(split; [discriminate|reflexivity])
    ltac:(split; discriminate) ltac:(right; split; discriminate) ltac:(vm_compute; discriminate) ltac:(vm_compute; eexists; reflexivity)) as (d0 & _ & Hd & Hchk).
  assert (d0 = d) as -> by (unfold d; rewrite Hd; reflexivity).
  refine (proj1 (Hchk _)). vm_compute. reflexivity.
Defined.
End UdpThms.
