(* ===== verification/UdpPcb.v ===== *)
(** * The UDP binding table (src/udp/udp_pcb.c)

    The nine entries over a table of any configured size.  Octets are compared as common.c's word loops
    decide it (Base.v proves they decide equality and zeroness of exactly the octets named).  An address
    the operand block points at is the octets it points at. *)
From S2P Require Import Prelude Base Udp.

Module UdpPcb.
Import Udp.

Definition UDP_PCB_READY : Z := 0x55445050.
Definition UDP_PCB_V4 : Z := 4.
Definition UDP_PCB_V6 : Z := 6.
Definition UDP_PCB_ADDR4_BYTES : Z := 4.
Definition IDEMIP_UDP_PCB_ADDR_BYTES : Z := 16.
Definition IDEMIP_UDP_PCB_NONE : Z := 0xFFFF.
Definition IDEMIP_UDP_PCB_PORT_ANY : Z := 0.
Definition IDEMIP_UDP_PCB_PORT_FIRST : Z := 0xC000.
Definition IDEMIP_UDP_PCB_PORT_LAST : Z := 0xFFFF.
Definition UDP_PCB_PORT_MASK : Z := u16 (IDEMIP_UDP_PCB_PORT_LAST - IDEMIP_UDP_PCB_PORT_FIRST).

Record UdpPcbFields := mkFields {
  f_local_ip : list Z; f_remote_ip : list Z; f_local_port : Z; f_remote_port : Z; f_cksum_len_tx : Z; f_cksum_len_rx : Z;
  f_local_zone : Z; f_remote_zone : Z; f_netif : Z; f_tos : Z; f_ttl : Z; f_mcast_ttl : Z; f_mcast_netif : Z; f_flags : Z;
  f_ip_version : Z; f_lite : bool; f_connected : bool; f_in_use : bool }.
#[export] Instance UdpPcbFields_eta : Eta UdpPcbFields := fun r =>
  mkFields (f_local_ip r) (f_remote_ip r) (f_local_port r) (f_remote_port r) (f_cksum_len_tx r) (f_cksum_len_rx r) (f_local_zone r)
    (f_remote_zone r) (f_netif r) (f_tos r) (f_ttl r) (f_mcast_ttl r) (f_mcast_netif r) (f_flags r) (f_ip_version r) (f_lite r)
    (f_connected r) (f_in_use r).
Definition addr_zero : list Z := replicate (Z.to_nat IDEMIP_UDP_PCB_ADDR_BYTES) 0.
Definition fields_zero : UdpPcbFields := mkFields addr_zero addr_zero 0 0 0 0 0 0 0 0 0 0 0 0 0 false false false.
#[export] Instance UdpPcbFields_inhabited : Inhabited UdpPcbFields := populate fields_zero.

Record UdpPcbOpenArgs := mkOpenArgs { oa_ip_version : Z; oa_lite : bool }.
Record UdpPcbAddrArgs := mkAddrArgs { aa_ip : option (list Z); aa_rand : Z; aa_index : Z; aa_port : Z; aa_zone : Z; aa_netif : Z }.
Record UdpPcbOptArgs := mkOptArgs {
  op_index : Z; op_cksum_len_tx : Z; op_cksum_len_rx : Z; op_tos : Z; op_ttl : Z; op_mcast_ttl : Z; op_mcast_netif : Z; op_flags : Z }.
Record UdpPcbFindArgs := mkFindArgs {
  fa_local_ip : option (list Z); fa_remote_ip : option (list Z); fa_local_port : Z; fa_remote_port : Z; fa_cksum_len : Z; fa_ip_version : Z;
  fa_local_zone : Z; fa_remote_zone : Z; fa_netif : Z }.
(** What a load reports: the entry's fields without its mark, or nothing. *)
Definition UdpPcbInfo : Type := option UdpPcbFields.

Record UdpPcbIo := mkIo {
  open_args : UdpPcbOpenArgs; bind_args : UdpPcbAddrArgs; connect_args : UdpPcbAddrArgs; pcb_index : Z; opt_args : UdpPcbOptArgs;
  find_args : UdpPcbFindArgs; io_status : IdemIpStatus; io_index : Z; io_port : Z; io_info : UdpPcbInfo }.
#[export] Instance UdpPcbIo_eta : Eta UdpPcbIo := fun r =>
  mkIo (open_args r) (bind_args r) (connect_args r) (pcb_index r) (opt_args r) (find_args r) (io_status r) (io_index r) (io_port r) (io_info r).

Record Work := mkWork { w_io : UdpPcbIo; w_ready : Z; w_tab : list UdpPcbFields }.
#[export] Instance Work_eta : Eta Work := fun r => mkWork (w_io r) (w_ready r) (w_tab r).

Definition UDP_PCB_AT (w : Work) (i : Z) : UdpPcbFields := tget (w_tab w) i.
Definition put_io (w : Work) (io : UdpPcbIo) : Work := w <| w_io := io |>.
Definition put_pcb (w : Work) (i : Z) (f : UdpPcbFields) : Work := w <| w_tab := tset (w_tab w) i f |>.
Definition udp_ready (w : Work) : bool := w_ready w =? UDP_PCB_READY.

(** ** The statics *)
Definition udp_pcb_addr_len (ip_version : Z) : Z := if ip_version =? UDP_PCB_V6 then IDEMIP_UDP_PCB_ADDR_BYTES else UDP_PCB_ADDR4_BYTES.
Definition udp_pcb_addr_eq (a b : list Z) (n : Z) : bool := bool_decide (take (Z.to_nat n) a = take (Z.to_nat n) b).
Definition udp_pcb_addr_any (a : list Z) (n : Z) : bool := forallb (λ x, x =? 0) (take (Z.to_nat n) a).
Definition udp_pcb_addr_store (src : list Z) (n : Z) : list Z :=
  take (Z.to_nat n) src ++ replicate (Z.to_nat (IDEMIP_UDP_PCB_ADDR_BYTES - n)) 0.
Definition udp_pcb_addr_same (a : list Z) (az : Z) (b : list Z) (bz n : Z) : bool := udp_pcb_addr_eq a b n && (az =? bz).
Definition udp_pcb_netif_overlap (a b : Z) : bool := (a =? 0) || (b =? 0) || (a =? b).

Definition udp_pcb_local_admits (f : UdpPcbFields) (local_ip : list Z) (local_zone n : Z) : bool :=
  if udp_pcb_addr_any (f_local_ip f) n then true
  else udp_pcb_addr_eq (f_local_ip f) local_ip n && (f_local_zone f =? local_zone).

Definition udp_pcb_remote_admits (f : UdpPcbFields) (a : UdpPcbFindArgs) (remote_ip : list Z) (n : Z) : bool :=
  (f_remote_port f =? fa_remote_port a) && udp_pcb_addr_eq (f_remote_ip f) remote_ip n && (f_remote_zone f =? fa_remote_zone a).

Definition udp_pcb_cov_admits (f : UdpPcbFields) (cov : Z) : bool :=
  if cov =? IDEMIP_UDPLITE_COV_ALL then true
  else if negb (f_lite f) then false
  else if f_cksum_len_rx f =? IDEMIP_UDPLITE_COV_ALL then false
  else f_cksum_len_rx f <=? cov.

(** Whether an entry is a candidate for the datagram, and how it ranks. *)
Definition pcb_admits (f : UdpPcbFields) (a : UdpPcbFindArgs) (local_ip remote_ip : list Z) (n : Z) : bool :=
  if negb (f_in_use f) || negb (f_ip_version f =? fa_ip_version a) || (f_local_port f =? IDEMIP_UDP_PCB_PORT_ANY) || negb (f_local_port f =? fa_local_port a) then false
  else if negb (f_netif f =? 0) && negb (f_netif f =? fa_netif a) then false
  else if negb (udp_pcb_local_admits f local_ip (fa_local_zone a) n) || negb (udp_pcb_cov_admits f (fa_cksum_len a)) then false
  else negb (f_connected f && negb (udp_pcb_remote_admits f a remote_ip n)).
Definition pcb_rank (f : UdpPcbFields) (n : Z) : Z :=
  u8 (Z.lor (if f_connected f then 2 else 0) (if udp_pcb_addr_any (f_local_ip f) n then 0 else 1)).

Section Build.
Variable IDEMIP_UDP_PCBS : Z.
Variable IDEMIP_IP_DEFAULT_TTL : Z.

Definition udp_pcb_free_entry (w : Work) : Z := default IDEMIP_UDP_PCB_NONE (scan (λ i, negb (f_in_use (UDP_PCB_AT w i))) (Z.to_nat IDEMIP_UDP_PCBS) 0).

Definition udp_pcb_port_held (w : Work) (port skip : Z) : bool :=
  existsb (λ i, let f := UDP_PCB_AT w i in negb (i =? skip) && f_in_use f && (f_local_port f =? port)) (seqZ 0 IDEMIP_UDP_PCBS).

(** The [n]-th port of the walk. *)
Definition port_try (rand n : Z) : Z := u16 (Z.lor IDEMIP_UDP_PCB_PORT_FIRST (u16 (Z.land (u16 rand + n) UDP_PCB_PORT_MASK))).
Definition udp_pcb_free_port (w : Work) (skip rand : Z) : Z :=
  match scan (λ n, negb (udp_pcb_port_held w (port_try rand n) skip)) (Z.to_nat (IDEMIP_UDP_PCBS + 1)) 0 with
  | Some n => port_try rand n
  | None => IDEMIP_UDP_PCB_PORT_ANY
  end.

(** The identity of a bind against one other entry. *)
Definition bind_clashes (o e : UdpPcbFields) (ip : list Z) (zone netif port n : Z) : bool :=
  if negb (f_in_use o) || negb (f_ip_version o =? f_ip_version e) || negb (f_local_port o =? port) || negb (eqb (f_connected o) (f_connected e)) then false
  else if negb (udp_pcb_addr_same (f_local_ip o) (f_local_zone o) ip zone n) || negb (udp_pcb_netif_overlap (f_netif o) netif) then false
  else negb (f_connected e) ||
       (udp_pcb_addr_same (f_remote_ip o) (f_remote_zone o) (f_remote_ip e) (f_remote_zone e) n && (f_remote_port o =? f_remote_port e)).
Definition udp_pcb_bind_taken (w : Work) (skip : Z) (e : UdpPcbFields) (a : UdpPcbAddrArgs) (ip : list Z) (port : Z) : bool :=
  let n := udp_pcb_addr_len (f_ip_version e) in
  existsb (λ i, negb (i =? skip) && bind_clashes (UDP_PCB_AT w i) e ip (aa_zone a) (aa_netif a) port n) (seqZ 0 IDEMIP_UDP_PCBS).

(** The identity of a connect against one other entry. *)
Definition connect_clashes (o e : UdpPcbFields) (a : UdpPcbAddrArgs) (ip : list Z) (netif n : Z) : bool :=
  if negb (f_in_use o) || negb (f_ip_version o =? f_ip_version e) || negb (f_local_port o =? f_local_port e) || negb (f_connected o) ||
     negb (f_remote_port o =? aa_port a) then false
  else udp_pcb_addr_same (f_local_ip o) (f_local_zone o) (f_local_ip e) (f_local_zone e) n &&
       udp_pcb_addr_same (f_remote_ip o) (f_remote_zone o) ip (aa_zone a) n && udp_pcb_netif_overlap (f_netif o) netif.
Definition udp_pcb_connect_taken (w : Work) (skip : Z) (e : UdpPcbFields) (a : UdpPcbAddrArgs) (ip : list Z) : bool :=
  let n := udp_pcb_addr_len (f_ip_version e) in
  let netif := if negb (aa_netif a =? 0) then aa_netif a else f_netif e in
  if f_local_port e =? IDEMIP_UDP_PCB_PORT_ANY then false
  else existsb (λ i, negb (i =? skip) && connect_clashes (UDP_PCB_AT w i) e a ip netif n) (seqZ 0 IDEMIP_UDP_PCBS).

Definition udp_pcb_match (w : Work) (a : UdpPcbFindArgs) (local_ip remote_ip : list Z) : Z :=
  let n := udp_pcb_addr_len (fa_ip_version a) in
  (fold_left (λ '(best, best_rank) i,
     let f := UDP_PCB_AT w i in
     if negb (pcb_admits f a local_ip remote_ip n) then (best, best_rank)
     else let rank := pcb_rank f n in
          if (best =? IDEMIP_UDP_PCB_NONE) || (best_rank <? rank) then (i, rank) else (best, best_rank))
   (seqZ 0 IDEMIP_UDP_PCBS) (IDEMIP_UDP_PCB_NONE, 0)).1.

(** ** The entries *)
Definition idemip_udp_pcb_clear (w : Work) : Work :=
  mkWork ((w_io w) <| io_info := None |> <| io_index := IDEMIP_UDP_PCB_NONE |> <| io_port := IDEMIP_UDP_PCB_PORT_ANY |> <| io_status := IDEMIP_OK |>)
    UDP_PCB_READY (replicate (Z.to_nat IDEMIP_UDP_PCBS) fields_zero).

Definition idemip_udp_pcb_open (w : Work) : Work :=
  let io := (w_io w) <| io_status := IDEMIP_ERR |> <| io_index := IDEMIP_UDP_PCB_NONE |> in
  if negb (udp_ready w) then put_io w io
  else if negb (oa_ip_version (open_args io) =? UDP_PCB_V4) && negb (oa_ip_version (open_args io) =? UDP_PCB_V6) then put_io w io
  else
    let i := udp_pcb_free_entry w in
    if i =? IDEMIP_UDP_PCB_NONE then put_io w (io <| io_status := IDEMIP_BUSY |>)
    else
      let f := fields_zero <| f_ip_version := oa_ip_version (open_args io) |> <| f_lite := oa_lite (open_args io) |> <| f_ttl := u8 IDEMIP_IP_DEFAULT_TTL |>
                 <| f_mcast_ttl := 1 |> <| f_local_port := IDEMIP_UDP_PCB_PORT_ANY |> <| f_remote_port := IDEMIP_UDP_PCB_PORT_ANY |>
                 <| f_cksum_len_tx := IDEMIP_UDPLITE_COV_ALL |> <| f_cksum_len_rx := IDEMIP_UDPLITE_COV_ALL |> <| f_in_use := true |> in
      put_io (put_pcb w i f) (io <| io_index := i |> <| io_status := IDEMIP_OK |>).

Definition idemip_udp_pcb_close (w : Work) : Work :=
  let io := (w_io w) <| io_status := IDEMIP_ERR |> in
  if negb (udp_ready w) || (IDEMIP_UDP_PCBS <=? pcb_index io) then put_io w io
  else if negb (f_in_use (UDP_PCB_AT w (pcb_index io))) then put_io w io
  else put_io (put_pcb w (pcb_index io) fields_zero) (io <| io_status := IDEMIP_OK |>).

Definition idemip_udp_pcb_bind (w : Work) : Work :=
  let io := (w_io w) <| io_status := IDEMIP_ERR |> <| io_port := IDEMIP_UDP_PCB_PORT_ANY |> in
  let a := bind_args io in
  if negb (udp_ready w) || (IDEMIP_UDP_PCBS <=? aa_index a) then put_io w io
  else match aa_ip a with
  | None => put_io w io
  | Some ip =>
      let e := UDP_PCB_AT w (aa_index a) in
      if negb (f_in_use e) then put_io w io
      else
        let bound port :=
          put_io (put_pcb w (aa_index a) (e <| f_local_ip := udp_pcb_addr_store ip (udp_pcb_addr_len (f_ip_version e)) |> <| f_local_zone := aa_zone a |>
                                             <| f_netif := aa_netif a |> <| f_local_port := port |>))
            (io <| io_port := port |> <| io_status := IDEMIP_OK |>) in
        if aa_port a =? IDEMIP_UDP_PCB_PORT_ANY then
          let port := udp_pcb_free_port w (aa_index a) (aa_rand a) in
          if port =? IDEMIP_UDP_PCB_PORT_ANY then put_io w (io <| io_status := IDEMIP_BUSY |>) else bound port
        else if udp_pcb_bind_taken w (aa_index a) e a ip (aa_port a) then put_io w io
        else bound (aa_port a)
  end.

Definition idemip_udp_pcb_connect (w : Work) : Work :=
  let io := (w_io w) <| io_status := IDEMIP_ERR |> in
  let a := connect_args io in
  if negb (udp_ready w) || (IDEMIP_UDP_PCBS <=? aa_index a) then put_io w io
  else match aa_ip a with
  | None => put_io w io
  | Some ip =>
      if aa_port a =? IDEMIP_UDP_PCB_PORT_ANY then put_io w io
      else
        let e := UDP_PCB_AT w (aa_index a) in
        if negb (f_in_use e) then put_io w io
        else
          let n := udp_pcb_addr_len (f_ip_version e) in
          if udp_pcb_addr_any ip n || udp_pcb_connect_taken w (aa_index a) e a ip then put_io w io
          else
            let f := e <| f_remote_ip := udp_pcb_addr_store ip n |> <| f_remote_zone := aa_zone a |>
                       <| f_netif := if negb (aa_netif a =? 0) then aa_netif a else f_netif e |>
                       <| f_remote_port := aa_port a |> <| f_connected := true |> in
            put_io (put_pcb w (aa_index a) f) (io <| io_status := IDEMIP_OK |>)
  end.

Definition idemip_udp_pcb_disconnect (w : Work) : Work :=
  let io := (w_io w) <| io_status := IDEMIP_ERR |> in
  if negb (udp_ready w) || (IDEMIP_UDP_PCBS <=? pcb_index io) then put_io w io
  else
    let e := UDP_PCB_AT w (pcb_index io) in
    if negb (f_in_use e) then put_io w io
    else
      put_io (put_pcb w (pcb_index io) (e <| f_remote_ip := addr_zero |> <| f_remote_port := IDEMIP_UDP_PCB_PORT_ANY |> <| f_remote_zone := 0 |> <| f_connected := false |>))
        (io <| io_status := IDEMIP_OK |>).

(** A coverage the field may hold. *)
Definition cov_legal (cov : Z) : bool := (cov =? IDEMIP_UDPLITE_COV_ALL) || (IDEMIP_UDPLITE_COV_MIN <=? cov).

Definition idemip_udp_pcb_set_opts (w : Work) : Work :=
  let io := (w_io w) <| io_status := IDEMIP_ERR |> in
  let a := opt_args io in
  if negb (udp_ready w) || (IDEMIP_UDP_PCBS <=? op_index a) then put_io w io
  else
    let e := UDP_PCB_AT w (op_index a) in
    if negb (f_in_use e) || (op_ttl a =? 0) || (op_mcast_ttl a =? 0) then put_io w io
    else if negb (cov_legal (op_cksum_len_tx a)) || negb (cov_legal (op_cksum_len_rx a)) then put_io w io
    else if negb (f_lite e) && (negb (op_cksum_len_tx a =? IDEMIP_UDPLITE_COV_ALL) || negb (op_cksum_len_rx a =? IDEMIP_UDPLITE_COV_ALL)) then put_io w io
    else
      put_io (put_pcb w (op_index a) (e <| f_cksum_len_tx := op_cksum_len_tx a |> <| f_cksum_len_rx := op_cksum_len_rx a |> <| f_tos := op_tos a |>
                                         <| f_ttl := op_ttl a |> <| f_mcast_ttl := op_mcast_ttl a |> <| f_mcast_netif := op_mcast_netif a |> <| f_flags := op_flags a |>))
        (io <| io_status := IDEMIP_OK |>).

Definition idemip_udp_pcb_load (w : Work) : Work :=
  let io := (w_io w) <| io_status := IDEMIP_ERR |> <| io_info := None |> in
  if negb (udp_ready w) || (IDEMIP_UDP_PCBS <=? pcb_index io) then put_io w io
  else
    let e := UDP_PCB_AT w (pcb_index io) in
    if negb (f_in_use e) then put_io w io else put_io w (io <| io_info := Some e |> <| io_status := IDEMIP_OK |>).

Definition idemip_udp_pcb_find (w : Work) : Work :=
  let io := (w_io w) <| io_status := IDEMIP_ERR |> <| io_index := IDEMIP_UDP_PCB_NONE |> in
  let a := find_args io in
  if negb (udp_ready w) then put_io w io
  else match fa_local_ip a, fa_remote_ip a with
  | Some local_ip, Some remote_ip =>
      if negb (fa_ip_version a =? UDP_PCB_V4) && negb (fa_ip_version a =? UDP_PCB_V6) then put_io w io
      else if negb (cov_legal (fa_cksum_len a)) then put_io w io
      else
        let i := udp_pcb_match w a local_ip remote_ip in
        put_io w (io <| io_index := i |> <| io_status := if i =? IDEMIP_UDP_PCB_NONE then IDEMIP_ERR else IDEMIP_OK |>)
  | _, _ => put_io w io
  end.
End Build.
End UdpPcb.

(** * Properties of the UDP binding table

    Which binding a datagram belongs to; that bindings the table accepts stay apart; and how two of its
    entries and a port in use can come to clash all the same. *)
Module UdpPcbThms.
Import Udp UdpPcb.

Local Abbreviation NONE := IDEMIP_UDP_PCB_NONE.

(** ** Which binding takes a datagram *)

(** The datagram may go to the binding: RFC 768's port, the interface, the address or the wild one, the
    coverage, and the peer of a connected binding. *)
Record fits (f : UdpPcbFields) (a : UdpPcbFindArgs) (local_ip remote_ip : list Z) : Prop := mkFits {
  fit_open : f_in_use f = true;
  fit_version : f_ip_version f = fa_ip_version a;
  fit_bound : f_local_port f ≠ 0;
  fit_port : f_local_port f = fa_local_port a;
  fit_netif : f_netif f = 0 ∨ f_netif f = fa_netif a;
  fit_local : let n := Z.to_nat (udp_pcb_addr_len (fa_ip_version a)) in
    Forall (λ x, x = 0) (take n (f_local_ip f)) ∨ (take n (f_local_ip f) = take n local_ip ∧ f_local_zone f = fa_local_zone a);
  fit_cov : fa_cksum_len a = 0 ∨ (f_lite f = true ∧ f_cksum_len_rx f ≠ 0 ∧ f_cksum_len_rx f ≤ fa_cksum_len a);
  fit_remote : f_connected f = true → let n := Z.to_nat (udp_pcb_addr_len (fa_ip_version a)) in
    f_remote_port f = fa_remote_port a ∧ take n (f_remote_ip f) = take n remote_ip ∧ f_remote_zone f = fa_remote_zone a }.

(** A connected binding before an unconnected one, then one with an address before the wild one. *)
Definition specific (f : UdpPcbFields) (a : UdpPcbFindArgs) : bool := negb (udp_pcb_addr_any (f_local_ip f) (udp_pcb_addr_len (fa_ip_version a))).
Definition rank (f : UdpPcbFields) (a : UdpPcbFindArgs) : Z := (if f_connected f then 2 else 0) + (if specific f a then 1 else 0).

Lemma rank_eq f a : pcb_rank f (udp_pcb_addr_len (fa_ip_version a)) = rank f a.
Proof. unfold pcb_rank, rank, specific. by destruct (f_connected f), (udp_pcb_addr_any _ _). Qed.
Lemma rank_parts f g a : rank f a = rank g a → f_connected f = f_connected g ∧ specific f a = specific g a.
Proof. unfold rank. destruct (f_connected f), (f_connected g), (specific f a), (specific g a); done || lia. Qed.

Lemma any_iff ip n : udp_pcb_addr_any ip n = true ↔ Forall (λ x, x = 0) (take (Z.to_nat n) ip).
Proof. unfold udp_pcb_addr_any. rewrite forallb_forall, Forall_forall. setoid_rewrite <- list_elem_of_In. setoid_rewrite Z.eqb_eq. done. Qed.
Lemma addr_eq_iff x y n : udp_pcb_addr_eq x y n = true ↔ take (Z.to_nat n) x = take (Z.to_nat n) y.
Proof. apply bool_decide_eq_true. Qed.

Lemma admits_iff f a l r : pcb_admits f a l r (udp_pcb_addr_len (fa_ip_version a)) = true ↔ fits f a l r.
Proof.
  unfold pcb_admits, udp_pcb_local_admits, udp_pcb_cov_admits, udp_pcb_remote_admits, IDEMIP_UDP_PCB_PORT_ANY, IDEMIP_UDPLITE_COV_ALL. set (n := udp_pcb_addr_len _).
  pose proof (any_iff (f_local_ip f) n) as Hany. pose proof (addr_eq_iff (f_local_ip f) l n) as Heq. pose proof (addr_eq_iff (f_remote_ip f) r n) as Hreq.
  split.
  - intros H. destruct (f_in_use f) eqn:E1; cbn [negb orb] in H; [|done]. destruct (Z.eqb_spec (f_ip_version f) (fa_ip_version a)) as [E2|]; cbn [negb orb] in H; [|done].
    destruct (Z.eqb_spec (f_local_port f) 0) as [|E3]; cbn [orb] in H; [done|]. destruct (Z.eqb_spec (f_local_port f) (fa_local_port a)) as [E4|]; cbn [negb orb] in H; [|done].
    destruct (negb (f_netif f =? 0) && negb (f_netif f =? fa_netif a)) eqn:E5; [done|]. apply andb_false_iff in E5. rewrite !negb_false_iff, !Z.eqb_eq in E5.
    match goal with H : (if ?x || ?y then _ else _) = true |- _ => destruct x eqn:E6; [done|]; destruct y eqn:E7; [done|] end. cbn [orb] in H. apply negb_false_iff in E6, E7.
    split; try done.
    + destruct (udp_pcb_addr_any (f_local_ip f) n); [left; by apply Hany|right]. apply andb_true_iff in E6 as [Ea Ez]. split; [by apply Heq|by apply Z.eqb_eq].
    + destruct (Z.eqb_spec (fa_cksum_len a) 0); [by left|right]. destruct (f_lite f); [|done]. cbn [negb] in E7. destruct (Z.eqb_spec (f_cksum_len_rx f) 0); [done|].
      apply Z.leb_le in E7. done.
    + intros Hc. rewrite Hc in H. cbn [andb] in H. rewrite negb_involutive in H. bool_prop. split_and!; try done. by apply Hreq.
  - intros [H1 H2 H3 H4 H5 H6 H7 H8]. rewrite H1, H2, Z.eqb_refl, (proj2 (Z.eqb_neq _ _) H3), H4, Z.eqb_refl. cbn [negb orb].
    assert (negb (f_netif f =? 0) && negb (f_netif f =? fa_netif a) = false) as -> by (destruct H5 as [-> | ->]; rewrite ?Z.eqb_refl; cbn [negb]; by rewrite ?andb_false_r).
    assert ((if udp_pcb_addr_any (f_local_ip f) n then true else udp_pcb_addr_eq (f_local_ip f) l n && (f_local_zone f =? fa_local_zone a)) = true) as ->.
    { destruct H6 as [H6|[H6 Hz]]; [by rewrite (proj2 Hany H6)|]. rewrite (proj2 Heq H6), Hz, Z.eqb_refl. by destruct (udp_pcb_addr_any _ _). }
    assert ((if fa_cksum_len a =? 0 then true else if negb (f_lite f) then false else if f_cksum_len_rx f =? 0 then false else f_cksum_len_rx f <=? fa_cksum_len a) = true) as ->.
    { destruct H7 as [-> |(-> & Hn & Hle)]; [done|]. destruct (fa_cksum_len a =? 0); [done|]. cbn [negb]. rewrite (proj2 (Z.eqb_neq _ _) Hn). by apply Z.leb_le. }
    cbn [negb orb]. destruct (f_connected f); [|done]. destruct (H8 eq_refl) as (-> & Hr & ->). rewrite !Z.eqb_refl, (proj2 Hreq Hr). done.
Qed.

Section Table.
Variable N : Z.
Variable TTL : Z.
Context (HN : 0 ≤ N < NONE).
Implicit Types (w : Work).

(** What the walk over the first [k] entries has found. *)
Definition best_of w a l r (k : Z) (b : Z * Z) : Prop :=
  (b = (NONE, 0) ∧ ∀ j, 0 ≤ j < k → ¬ fits (UDP_PCB_AT w j) a l r) ∨
  (0 ≤ b.1 < k ∧ fits (UDP_PCB_AT w b.1) a l r ∧ b.2 = rank (UDP_PCB_AT w b.1) a ∧
   ∀ j, 0 ≤ j < k → fits (UDP_PCB_AT w j) a l r → rank (UDP_PCB_AT w j) a ≤ b.2 ∧ (rank (UDP_PCB_AT w j) a = b.2 → b.1 ≤ j)).

Lemma match_best w a l r : ∃ b, udp_pcb_match N w a l r = b.1 ∧ best_of w a l r N b.
Proof.
  unfold udp_pcb_match. cbv zeta. set (step := λ '(best, best_rank) i, _).
  assert (∀ k : nat, Z.of_nat k < NONE → best_of w a l r (Z.of_nat k) (fold_left step (seqZ 0 (Z.of_nat k)) (NONE, 0))) as Hall.
  2: { eexists. split; [reflexivity|]. specialize (Hall (Z.to_nat N) ltac:(lia)). by rewrite Z2Nat.id in Hall by lia. }
  induction k as [|k IH]; intros Hk; [left; split; [done|lia]|]. replace (Z.of_nat (S k)) with (Z.of_nat k + 1) by lia. rewrite seqZ_app, fold_left_app by lia. rewrite Z.add_0_l.
  change (seqZ (Z.of_nat k) 1) with [Z.of_nat k]. cbn [fold_left]. specialize (IH ltac:(lia)). destruct (fold_left step _ _) as [best br]. unfold step at 1.
  set (f := UDP_PCB_AT w (Z.of_nat k)). pose proof (admits_iff f a l r) as Had. rewrite rank_eq. destruct (pcb_admits f a l r _) eqn:E; cbn [negb].
  - assert (fits f a l r) as Hf by (by apply Had). unfold best_of in *. cbn [fst snd] in *. assert (0 ≤ rank f a) as Hr0 by (unfold rank; destruct (f_connected f), (specific f a); lia).
    destruct IH as [[[= -> ->] Hno]|(Hb & Hfb & -> & Hmax)].
    + rewrite Z.eqb_refl. cbn [orb]. right. cbn [fst snd]. split_and!; [lia|lia|done|done|]. intros j Hj Hfj. destruct (decide (j = Z.of_nat k)) as [->|]; [by split; [|lia]|]. by destruct (Hno j); [lia|].
    + rewrite (proj2 (Z.eqb_neq _ _)) by (unfold IDEMIP_UDP_PCB_NONE in *; lia). cbn [orb]. fold f. destruct (Z.ltb_spec (rank (UDP_PCB_AT w best) a) (rank f a)) as [Hlt|Hge]; right; cbn [fst snd].
      * split_and!; [lia|lia|done|done|]. intros j Hj Hfj. destruct (decide (j = Z.of_nat k)) as [->|]; [by split; [|lia]|]. destruct (Hmax j ltac:(lia) Hfj). split; lia.
      * split_and!; [lia|lia|done|done|]. intros j Hj Hfj. destruct (decide (j = Z.of_nat k)) as [->|]; [split; [exact Hge|lia]|]. apply Hmax; [lia|done].
  - assert (¬ fits f a l r) as Hf by (intros Hf; apply Had in Hf; congruence). unfold best_of in *. cbn [fst snd] in *. destruct IH as [[Hb Hno]|(Hb & Hfb & Hbr & Hmax)].
    + left. split; [done|]. intros j Hj. destruct (decide (j = Z.of_nat k)) as [->|]; [done|]. apply Hno. lia.
    + right. split_and!; [lia|lia|done|done|]. intros j Hj Hfj. destruct (decide (j = Z.of_nat k)) as [->|]; [done|]. apply Hmax; [lia|done].
Qed.

(** ** Bindings kept apart *)

(** Two open bindings no datagram could tell apart. *)
Record clash (f g : UdpPcbFields) : Prop := mkClash {
  cl_open : f_in_use f = true ∧ f_in_use g = true;
  cl_version : f_ip_version f = f_ip_version g;
  cl_port : f_local_port f = f_local_port g;
  cl_bound : f_local_port f ≠ 0;
  cl_netif : udp_pcb_netif_overlap (f_netif f) (f_netif g) = true;
  cl_connected : f_connected f = f_connected g;
  cl_local : let n := Z.to_nat (udp_pcb_addr_len (f_ip_version g)) in take n (f_local_ip f) = take n (f_local_ip g) ∧ f_local_zone f = f_local_zone g;
  cl_remote : f_connected g = true → let n := Z.to_nat (udp_pcb_addr_len (f_ip_version g)) in
    take n (f_remote_ip f) = take n (f_remote_ip g) ∧ f_remote_zone f = f_remote_zone g ∧ f_remote_port f = f_remote_port g }.

Lemma overlap_sym x y : udp_pcb_netif_overlap x y = udp_pcb_netif_overlap y x.
Proof. unfold udp_pcb_netif_overlap. rewrite (Z.eqb_sym x y). by destruct (x =? 0), (y =? 0), (y =? x). Qed.
Lemma clash_sym f g : clash f g → clash g f.
Proof.
  intros [[? ?] Hv Hp Hb Hn Hc [Hl Hz] Hr]. split; try done; [by rewrite <- Hp|by rewrite overlap_sym|by rewrite Hv|]. intros Hcf. rewrite Hv. destruct Hr as (? & ? & ?); [congruence|]. done.
Qed.

(** An open binding's local address fills its field, and the wild one is in zone zero. *)
Definition local_ok (f : UdpPcbFields) : Prop :=
  f_in_use f = true → length (f_local_ip f) = 16%nat ∧ (udp_pcb_addr_any (f_local_ip f) (udp_pcb_addr_len (f_ip_version f)) = true → f_local_zone f = 0).

Record apart w : Prop := mkApart {
  ap_len : tlen (w_tab w) = N;
  ap_local : ∀ i, 0 ≤ i < N → local_ok (UDP_PCB_AT w i);
  ap_apart : ∀ i j, 0 ≤ i < N → 0 ≤ j < N → i ≠ j → ¬ clash (UDP_PCB_AT w i) (UDP_PCB_AT w j) }.

Lemma apart_io w io : apart w → apart (put_io w io).
Proof. by intros [? ? ?]. Qed.

(** One entry written. *)
Lemma apart_put w i f : apart w → 0 ≤ i < N → local_ok f → (∀ j, 0 ≤ j < N → j ≠ i → ¬ clash (UDP_PCB_AT w j) f) → apart (put_pcb w i f).
Proof.
  intros [Hl Hloc Hap] Hi Hf Hcl. assert (∀ j, 0 ≤ j < N → UDP_PCB_AT (put_pcb w i f) j = if decide (j = i) then f else UDP_PCB_AT w j) as Hat.
  { intros j Hj. unfold UDP_PCB_AT, put_pcb. change (w_tab (w <| w_tab := ?x |>)) with x. case_decide as E; [subst; apply tget_tset_eq; lia|apply tget_tset_ne; lia]. }
  split.
  - unfold put_pcb. change (w_tab (w <| w_tab := ?x |>)) with x. by rewrite tlen_tset.
  - intros j Hj. rewrite Hat by done. case_decide; [done|by apply Hloc].
  - intros j k Hj Hk Hjk. rewrite !Hat by done. destruct (decide (j = i)) as [->|Hji]; [rewrite decide_False by done; intros Hc; by apply (Hcl k Hk), clash_sym|].
    destruct (decide (k = i)) as [->|Hki]; [by apply Hcl|by apply Hap].
Qed.

Lemma unbound_clash f g : f_local_port g = 0 → ¬ clash f g.
Proof. intros Hg [_ _ Hp Hb _ _ _ _]. congruence. Qed.
Lemma closed_clash f g : f_in_use g = false → ¬ clash f g.
Proof. intros Hg [[_ H] _ _ _ _ _ _ _]. congruence. Qed.

Lemma existsb_none (P : Z → bool) : existsb P (seqZ 0 N) = false → ∀ j, 0 ≤ j < N → P j = false.
Proof.
  intros H j Hj. destruct (P j) eqn:E; [|done]. rewrite <- H. symmetry. apply existsb_exists. exists j. split; [apply list_elem_of_In, elem_of_seqZ; lia|done].
Qed.

Lemma store_take ip n : (16 ≤ length ip)%nat → 0 ≤ n ≤ 16 → take (Z.to_nat n) (udp_pcb_addr_store ip n) = take (Z.to_nat n) ip ∧ length (udp_pcb_addr_store ip n) = 16%nat.
Proof.
  intros Hl Hn. unfold udp_pcb_addr_store, IDEMIP_UDP_PCB_ADDR_BYTES. split.
  - rewrite take_app_le by (rewrite length_take; lia). rewrite take_take. f_equal. lia.
  - rewrite length_app, length_take, length_replicate. lia.
Qed.
Lemma addr_len_range v : 0 ≤ udp_pcb_addr_len v ≤ 16.
Proof. unfold udp_pcb_addr_len, IDEMIP_UDP_PCB_ADDR_BYTES, UDP_PCB_ADDR4_BYTES. destruct (_ =? _); lia. Qed.
Lemma any_take x y n : take (Z.to_nat n) x = take (Z.to_nat n) y → udp_pcb_addr_any x n = udp_pcb_addr_any y n.
Proof. unfold udp_pcb_addr_any. by intros ->. Qed.

(** What a bind's test rules out. *)
Lemma bind_apart w e o a ip port i : clash o (e <| f_local_ip := udp_pcb_addr_store ip (udp_pcb_addr_len (f_ip_version e)) |> <| f_local_zone := aa_zone a |>
    <| f_netif := aa_netif a |> <| f_local_port := port |>) → (16 ≤ length ip)%nat → o = UDP_PCB_AT w i →
  bind_clashes o e ip (aa_zone a) (aa_netif a) port (udp_pcb_addr_len (f_ip_version e)) = true.
Proof.
  intros [[Ho _] Hv Hp _ Hn Hc [Hl Hz] Hr] Hlen _. change (f_ip_version o = f_ip_version e) in Hv. change (f_local_port o = port) in Hp. change (udp_pcb_netif_overlap (f_netif o) (aa_netif a) = true) in Hn.
  change (f_connected o = f_connected e) in Hc. change (f_local_zone o = aa_zone a) in Hz.
  change (take (Z.to_nat (udp_pcb_addr_len (f_ip_version e))) (f_local_ip o) = take (Z.to_nat (udp_pcb_addr_len (f_ip_version e))) (udp_pcb_addr_store ip (udp_pcb_addr_len (f_ip_version e)))) in Hl.
  rewrite (proj1 (store_take ip _ Hlen (addr_len_range _))) in Hl. unfold bind_clashes, udp_pcb_addr_same. rewrite Ho, Hv, Hp, Hc, Hn, Hz, !Z.eqb_refl, eqb_reflx. cbn [negb orb].
  rewrite (proj2 (addr_eq_iff _ _ _) Hl). cbn [andb negb orb]. destruct (f_connected e) eqn:E; [|done]. cbn [negb orb]. destruct (Hr E) as (Hra & Hrz & Hrp).
  change (f_remote_zone o = f_remote_zone e) in Hrz. change (f_remote_port o = f_remote_port e) in Hrp. rewrite Hrz, Hrp, !Z.eqb_refl.
  rewrite (proj2 (addr_eq_iff (f_remote_ip o) (f_remote_ip e) _)); [done|exact Hra].
Qed.

(** What a connect's test rules out. *)
Lemma connect_apart e o a ip netif : clash o (e <| f_remote_ip := udp_pcb_addr_store ip (udp_pcb_addr_len (f_ip_version e)) |> <| f_remote_zone := aa_zone a |>
    <| f_netif := netif |> <| f_remote_port := aa_port a |> <| f_connected := true |>) → (16 ≤ length ip)%nat →
  connect_clashes o e a ip netif (udp_pcb_addr_len (f_ip_version e)) = true ∧ f_local_port e ≠ 0.
Proof.
  intros [[Ho _] Hv Hp Hb Hn Hc [Hl Hz] Hr] Hlen. change (f_ip_version o = f_ip_version e) in Hv. change (f_local_port o = f_local_port e) in Hp. change (udp_pcb_netif_overlap (f_netif o) netif = true) in Hn.
  change (f_connected o = true) in Hc. change (f_local_zone o = f_local_zone e) in Hz. destruct (Hr eq_refl) as (Hra & Hrz & Hrp). change (f_remote_zone o = aa_zone a) in Hrz. change (f_remote_port o = aa_port a) in Hrp.
  change (take (Z.to_nat (udp_pcb_addr_len (f_ip_version e))) (f_remote_ip o) = take (Z.to_nat (udp_pcb_addr_len (f_ip_version e))) (udp_pcb_addr_store ip (udp_pcb_addr_len (f_ip_version e)))) in Hra.
  change (take (Z.to_nat (udp_pcb_addr_len (f_ip_version e))) (f_local_ip o) = take (Z.to_nat (udp_pcb_addr_len (f_ip_version e))) (f_local_ip e)) in Hl.
  rewrite (proj1 (store_take ip _ Hlen (addr_len_range _))) in Hra. split; [|by rewrite <- Hp]. unfold connect_clashes, udp_pcb_addr_same.
  rewrite Ho, Hv, Hp, Hc, Hrp, Hz, Hrz, Hn, !Z.eqb_refl. cbn [negb orb]. rewrite (proj2 (addr_eq_iff _ _ _) Hl), (proj2 (addr_eq_iff _ _ _) Hra). done.
Qed.

(** A port another open entry does not hold. *)
Lemma held_none w port skip j : udp_pcb_port_held N w port skip = false → 0 ≤ j < N → j ≠ skip → f_in_use (UDP_PCB_AT w j) = true → f_local_port (UDP_PCB_AT w j) ≠ port.
Proof.
  intros H Hj Hs Hu Hp. pose proof (existsb_none _ H j Hj) as Hn. cbv beta zeta in Hn. by rewrite (proj2 (Z.eqb_neq _ _) Hs), Hu, Hp, Z.eqb_refl in Hn.
Qed.
Lemma free_port_unheld w skip rand : udp_pcb_free_port N w skip rand ≠ 0 → udp_pcb_port_held N w (udp_pcb_free_port N w skip rand) skip = false.
Proof.
  unfold udp_pcb_free_port. destruct (scan _ _ _) as [n|] eqn:E; [|done]. intros _. apply scan_Some in E as (_ & E & _). by apply negb_true_iff in E.
Qed.

(** ** The calls of a run *)
Inductive Call : Type :=
| CClear | COpen (a : UdpPcbOpenArgs) | CClose (i : Z) | CBind (a : UdpPcbAddrArgs) | CConnect (a : UdpPcbAddrArgs)
| CSetOpts (a : UdpPcbOptArgs) | CLoad (i : Z) | CFind (a : UdpPcbFindArgs).

Definition step (w : Work) (c : Call) : Work :=
  match c with
  | CClear => idemip_udp_pcb_clear N w
  | COpen a => idemip_udp_pcb_open N TTL (put_io w ((w_io w) <| open_args := a |>))
  | CClose i => idemip_udp_pcb_close N (put_io w ((w_io w) <| pcb_index := i |>))
  | CBind a => idemip_udp_pcb_bind N (put_io w ((w_io w) <| bind_args := a |>))
  | CConnect a => idemip_udp_pcb_connect N (put_io w ((w_io w) <| connect_args := a |>))
  | CSetOpts a => idemip_udp_pcb_set_opts N (put_io w ((w_io w) <| opt_args := a |>))
  | CLoad i => idemip_udp_pcb_load N (put_io w ((w_io w) <| pcb_index := i |>))
  | CFind a => idemip_udp_pcb_find N (put_io w ((w_io w) <| find_args := a |>))
  end.
Definition run (cs : list Call) (w : Work) : Work := fold_left step cs w.

(** Indices are unsigned, an address is sixteen octets, and the wild address is named without a zone. *)
Definition addr_ok (a : UdpPcbAddrArgs) : Prop :=
  0 ≤ aa_index a ∧ ∀ ip, aa_ip a = Some ip → (16 ≤ length ip)%nat ∧ (∀ n, (4 ≤ n)%nat → Forall (λ x, x = 0) (take n ip) → aa_zone a = 0).
Definition call_ok (c : Call) : Prop :=
  match c with
  | CClose i | CLoad i => 0 ≤ i
  | CBind a | CConnect a => addr_ok a
  | CSetOpts a => 0 ≤ op_index a
  | CClear | COpen _ | CFind _ => True
  end.

Lemma clear_apart w : apart (idemip_udp_pcb_clear N w).
Proof.
  assert (∀ i, 0 ≤ i < N → UDP_PCB_AT (idemip_udp_pcb_clear N w) i = fields_zero) as Hat.
  { intros i Hi. unfold UDP_PCB_AT, tget. cbn [w_tab idemip_udp_pcb_clear]. apply list_lookup_total_correct, lookup_replicate. split; [done|lia]. }
  split.
  - unfold tlen. cbn [w_tab idemip_udp_pcb_clear]. rewrite length_replicate. lia.
  - intros i Hi. rewrite Hat by done. done.
  - intros i j Hi Hj _. rewrite !Hat by done. by apply closed_clash.
Qed.
Lemma open_apart w : apart w → apart (idemip_udp_pcb_open N TTL w).
Proof.
  intros Ha. unfold idemip_udp_pcb_open. cbv zeta. repeat (case_match; [by apply apart_io|]). apply apart_io. apply apart_put; [done| | |].
  - match goal with H : (udp_pcb_free_entry N w =? _) = false |- _ => apply Z.eqb_neq in H; revert H end.
    unfold udp_pcb_free_entry. destruct (scan _ _ _) as [i|] eqn:E; [|done]. apply scan_Some in E as (? & _). intros _. change (0 ≤ i < N). lia.
  - intros _. split; [done|]. done.
  - intros j Hj _. by apply unbound_clash.
Qed.
Lemma close_apart w : apart w → 0 ≤ pcb_index (w_io w) → apart (idemip_udp_pcb_close N w).
Proof.
  intros Ha Hi. unfold idemip_udp_pcb_close. cbv zeta. case_match eqn:E1; [by apply apart_io|]. case_match; [by apply apart_io|]. apply orb_false_iff in E1 as [_ E1].
  apply Z.leb_gt in E1. apply apart_io, apart_put; [done|by split|done|]. intros j _ _. by apply closed_clash.
Qed.
Lemma bind_keeps w : apart w → addr_ok (bind_args (w_io w)) → apart (idemip_udp_pcb_bind N w).
Proof.
  intros Ha [Hi Hip]. unfold idemip_udp_pcb_bind. cbv zeta. change (bind_args (_ <| io_port := _ |>)) with (bind_args (w_io w)). set (a := bind_args (w_io w)) in *.
  case_match eqn:E1; [by apply apart_io|]. apply orb_false_iff in E1 as [_ E1]. apply Z.leb_gt in E1. destruct (aa_ip a) as [ip|]; [|by apply apart_io]. destruct (Hip ip eq_refl) as [Hlen Hz].
  set (e := UDP_PCB_AT w (aa_index a)). destruct (f_in_use e) eqn:Hu; cbn [negb]; [|by apply apart_io].
  assert (∀ port io, (∀ j, 0 ≤ j < N → j ≠ aa_index a → ¬ clash (UDP_PCB_AT w j) (e <| f_local_ip := udp_pcb_addr_store ip (udp_pcb_addr_len (f_ip_version e)) |>
    <| f_local_zone := aa_zone a |> <| f_netif := aa_netif a |> <| f_local_port := port |>)) →
    apart (put_io (put_pcb w (aa_index a) (e <| f_local_ip := udp_pcb_addr_store ip (udp_pcb_addr_len (f_ip_version e)) |>
    <| f_local_zone := aa_zone a |> <| f_netif := aa_netif a |> <| f_local_port := port |>)) io)) as Hput.
  { intros port io Hcl. apply apart_io, apart_put; [done|by split| |done]. intros _. change (length (udp_pcb_addr_store ip (udp_pcb_addr_len (f_ip_version e))) = 16%nat ∧
      (udp_pcb_addr_any (udp_pcb_addr_store ip (udp_pcb_addr_len (f_ip_version e))) (udp_pcb_addr_len (f_ip_version e)) = true → aa_zone a = 0)).
    destruct (store_take ip (udp_pcb_addr_len (f_ip_version e)) Hlen (addr_len_range _)) as [Ht Hl].
    split; [done|]. rewrite (any_take _ _ _ Ht). intros Hany%any_iff. apply (Hz _) in Hany; [done|].
    unfold udp_pcb_addr_len, IDEMIP_UDP_PCB_ADDR_BYTES, UDP_PCB_ADDR4_BYTES. case_match; lia. }
  case_match.
  - case_match eqn:E2; [by apply apart_io|]. apply Hput. intros j Hj Hji Hcl. apply Z.eqb_neq in E2.
    apply (held_none _ _ _ j (free_port_unheld _ _ _ E2) Hj Hji); [apply Hcl|apply Hcl].
  - case_match eqn:E2; [by apply apart_io|]. apply Hput. intros j Hj Hji Hcl. pose proof (existsb_none _ E2 j Hj) as Hn. cbv beta in Hn.
    rewrite (proj2 (Z.eqb_neq _ _) Hji), (bind_apart w e _ a ip (aa_port a) j Hcl Hlen eq_refl) in Hn. done.
Qed.
Lemma connect_keeps w : apart w → addr_ok (connect_args (w_io w)) → apart (idemip_udp_pcb_connect N w).
Proof.
  intros Ha [Hi Hip]. unfold idemip_udp_pcb_connect. cbv zeta. change (connect_args (_ <| io_status := _ |>)) with (connect_args (w_io w)). set (a := connect_args (w_io w)) in *.
  case_match eqn:E1; [by apply apart_io|]. apply orb_false_iff in E1 as [_ E1]. apply Z.leb_gt in E1. destruct (aa_ip a) as [ip|]; [|by apply apart_io]. destruct (Hip ip eq_refl) as [Hlen _].
  case_match; [by apply apart_io|]. set (e := UDP_PCB_AT w (aa_index a)). destruct (f_in_use e) eqn:Hu; cbn [negb]; [|by apply apart_io].
  case_match eqn:E2; [by apply apart_io|]. apply orb_false_iff in E2 as [_ E2]. apply apart_io, apart_put; [done|by split| |].
  - intros _. apply (ap_local w Ha (aa_index a) ltac:(lia) Hu).
  - intros j Hj Hji Hcl. destruct (connect_apart e _ a ip _ Hcl Hlen) as [Hcc Hb]. unfold udp_pcb_connect_taken in E2. rewrite (proj2 (Z.eqb_neq _ _)) in E2 by exact Hb.
    pose proof (existsb_none _ E2 j Hj) as Hn. cbv beta in Hn. rewrite (proj2 (Z.eqb_neq _ _) Hji), Hcc in Hn. done.
Qed.
Lemma set_opts_apart w : apart w → 0 ≤ op_index (opt_args (w_io w)) → apart (idemip_udp_pcb_set_opts N w).
Proof.
  intros Ha Hi. unfold idemip_udp_pcb_set_opts. cbv zeta. change (opt_args (_ <| io_status := _ |>)) with (opt_args (w_io w)). set (a := opt_args (w_io w)) in *.
  case_match eqn:E1; [by apply apart_io|]. apply orb_false_iff in E1 as [_ E1]. apply Z.leb_gt in E1. repeat (case_match; [by apply apart_io|]).
  apply apart_io, apart_put; [done|by split| |].
  - exact (ap_local w Ha (op_index a) ltac:(lia)).
  - intros j Hj Hji [Ho Hv Hp Hb Hn Hc Hl Hr]. apply (ap_apart w Ha j (op_index a) Hj ltac:(lia) Hji). by split.
Qed.
Lemma load_find_apart w : apart w → apart (idemip_udp_pcb_load N w) ∧ apart (idemip_udp_pcb_find N w).
Proof. intros Ha. split; [unfold idemip_udp_pcb_load|unfold idemip_udp_pcb_find]; cbv zeta; repeat case_match; by apply apart_io. Qed.

Lemma step_apart w c : apart w → call_ok c → apart (step w c).
Proof.
  intros Ha Hc. destruct c; cbn [step call_ok] in *.
  - apply clear_apart.
  - by apply open_apart, apart_io.
  - by apply close_apart; [apply apart_io|].
  - by apply bind_keeps; [apply apart_io|].
  - by apply connect_keeps; [apply apart_io|].
  - by apply set_opts_apart; [apply apart_io|].
  - by apply load_find_apart, apart_io.
  - by apply load_find_apart, apart_io.
Qed.
Lemma run_apart cs w : apart w → Forall call_ok cs → apart (run cs w).
Proof. intros Ha H. revert w Ha. induction H as [|c cs Hc Hcs IH]; intros w Ha; [done|]. cbn [run fold_left]. apply IH. by apply step_apart. Qed.

(** Two bindings one datagram fits at one rank are a clash. *)
Lemma fits_clash f g a l r : local_ok f → local_ok g → fits f a l r → fits g a l r → rank f a = rank g a → clash f g.
Proof.
  intros Hf Hg [F1 F2 F3 F4 F5 F6 F7 F8] [G1 G2 G3 G4 G5 G6 G7 G8] Hr. destruct (Hf F1) as [Fl Fz]. destruct (Hg G1) as [Gl Gz]. rewrite F2 in Fz. rewrite G2 in Gz. apply rank_parts in Hr as [Hc Hs].
  unfold specific in Hs. pose proof (addr_len_range (fa_ip_version a)) as Hlen. set (n := udp_pcb_addr_len (fa_ip_version a)) in *. cbv zeta in F6, G6.
  split; try done; [congruence|congruence| | |].
  - unfold udp_pcb_netif_overlap. destruct F5 as [-> | ->]; [done|]. destruct G5 as [-> | ->]; [by rewrite orb_true_r|]. by rewrite Z.eqb_refl, orb_true_r.
  - cbv zeta. rewrite G2. fold n. destruct (udp_pcb_addr_any (f_local_ip f) n) eqn:Ef, (udp_pcb_addr_any (f_local_ip g) n) eqn:Eg; try done.
    + rewrite Fz, Gz by done. split; [|done]. apply any_iff in Ef, Eg.
      assert (∀ x : list Z, length x = 16%nat → Forall (λ y, y = 0) (take (Z.to_nat n) x) → take (Z.to_nat n) x = replicate (Z.to_nat n) 0) as Hz.
      { intros x Hx Hall. symmetry. apply replicate_as_elem_of. split; [rewrite length_take; lia|]. by apply Forall_forall. }
      by rewrite (Hz _ Fl Ef), (Hz _ Gl Eg).
    + destruct F6 as [F6|[F6 F6']]; [by apply any_iff in F6; congruence|]. destruct G6 as [G6|[G6 G6']]; [by apply any_iff in G6; congruence|]. split; congruence.
  - intros Hcg. cbv zeta. rewrite G2. fold n. destruct (F8 ltac:(congruence)) as (? & ? & ?). destruct (G8 Hcg) as (? & ? & ?). split_and!; congruence.
Qed.

(** C29. A find on a ready table, given both addresses, a version and a legal coverage, answers with the
    first of the bindings of the highest rank among those the datagram fits (a connected one before an
    unconnected one, then one with an address before the wild one), and fails, naming none, exactly when
    the datagram fits no binding.  It changes nothing but its own answer. *)
Theorem udp_find_best w l r : udp_ready w = true → fa_local_ip (find_args (w_io w)) = Some l → fa_remote_ip (find_args (w_io w)) = Some r →
  fa_ip_version (find_args (w_io w)) = UDP_PCB_V4 ∨ fa_ip_version (find_args (w_io w)) = UDP_PCB_V6 → cov_legal (fa_cksum_len (find_args (w_io w))) = true →
  let a := find_args (w_io w) in let w' := idemip_udp_pcb_find N w in let i := io_index (w_io w') in
  w_tab w' = w_tab w ∧ w_ready w' = w_ready w ∧
  (io_status (w_io w') = IDEMIP_OK ∧ 0 ≤ i < N ∧ fits (UDP_PCB_AT w i) a l r ∧
     (∀ j, 0 ≤ j < N → fits (UDP_PCB_AT w j) a l r → rank (UDP_PCB_AT w j) a < rank (UDP_PCB_AT w i) a ∨ rank (UDP_PCB_AT w j) a = rank (UDP_PCB_AT w i) a ∧ i ≤ j) ∨
   io_status (w_io w') = IDEMIP_ERR ∧ i = NONE ∧ ∀ j, 0 ≤ j < N → ¬ fits (UDP_PCB_AT w j) a l r).
Proof.
  intros Hr Hl Hrem Hv Hcov. cbv zeta. unfold idemip_udp_pcb_find. rewrite Hr. cbn [negb]. cbv zeta. change (find_args (_ <| io_index := _ |>)) with (find_args (w_io w)). set (a := find_args (w_io w)) in *.
  rewrite Hl, Hrem, Hcov. assert (negb (fa_ip_version a =? UDP_PCB_V4) && negb (fa_ip_version a =? UDP_PCB_V6) = false) as -> by (by destruct Hv as [-> | ->]). cbn [negb].
  destruct (match_best w a l r) as (b & Hm & Hb). rewrite Hm. split_and!; [done..|]. change (io_index (w_io (put_io w (_ <| io_index := ?v |> <| io_status := _ |>)))) with v.
  change (io_status (w_io (put_io w (_ <| io_status := ?v |>)))) with v.
  destruct Hb as [[-> Hno]|(Hi & Hf & Hbr & Hmax)]; [right; by split_and!|left]. rewrite (proj2 (Z.eqb_neq _ _)) by lia. split_and!; [done|lia|lia|done|].
  intros j Hj Hfj. destruct (Hmax j Hj Hfj) as [Hle Heq]. rewrite <- Hbr. destruct (decide (rank (UDP_PCB_AT w j) a = b.2)); [right; auto|left; lia].
Qed.

(** Whatever opens, closes, binds, connects, option changes, loads and finds a cleared table has
    seen, no datagram fits two bindings equally well, so the best one is better than every other the
    datagram fits: a bind or connect that would make two bindings indistinguishable was refused.  The
    wild address is taken to be named without a zone, and no binding to be disconnected. *)
Theorem udp_bindings_apart w cs i j a l r : Forall call_ok cs → 0 ≤ i < N → 0 ≤ j < N → i ≠ j →
  let w' := run cs (idemip_udp_pcb_clear N w) in
  fits (UDP_PCB_AT w' i) a l r → fits (UDP_PCB_AT w' j) a l r → rank (UDP_PCB_AT w' i) a ≠ rank (UDP_PCB_AT w' j) a.
Proof.
  intros Hcs Hi Hj Hij w' Hfi Hfj Hr. pose proof (run_apart cs _ (clear_apart w) Hcs) as [Hlen Hloc Hap].
  apply (Hap i j Hi Hj Hij). by apply (fits_clash _ _ a l r); [apply Hloc|apply Hloc| | |].
Qed.
End Table.

(** ** Examples *)
Definition ip4 (a b c d : Z) : list Z := [a; b; c; d] ++ replicate 12 0.
Definition bind_to (i : Z) (ip : list Z) (port zone : Z) : UdpPcbAddrArgs := mkAddrArgs (Some ip) 0 i port zone 0.
Definition sample_io : UdpPcbIo :=
  mkIo (mkOpenArgs 4 false) (mkAddrArgs None 0 0 0 0 0) (mkAddrArgs None 0 0 0 0 0) 0 (mkOptArgs 0 0 0 0 0 0 0 0) (mkFindArgs None None 0 0 0 0 0 0 0) IDEMIP_OK 0 0 None.
Definition sample_work : Work := idemip_udp_pcb_clear 4 (mkWork sample_io 0 []).
(** The wild binding, one with an address, and one of a peer, on one port. *)
Definition sample_calls : list Call :=
  [COpen (mkOpenArgs 4 false); CBind (bind_to 0 addr_zero 53 0); COpen (mkOpenArgs 4 false); CBind (bind_to 1 (ip4 10 0 0 1) 53 0);
   COpen (mkOpenArgs 4 false); CConnect (bind_to 2 (ip4 10 0 0 2) 5353 0); CBind (bind_to 2 (ip4 10 0 0 1) 53 0);
   COpen (mkOpenArgs 4 false); CBind (bind_to 3 (ip4 10 0 0 1) 53 0)].
Definition sample_datagram (from : list Z) : UdpPcbFindArgs := mkFindArgs (Some (ip4 10 0 0 1)) (Some from) 53 5353 0 4 0 0 1.
Definition found (from : list Z) : Work := let w := run 4 64 sample_calls sample_work in put_io w ((w_io w) <| find_args := sample_datagram from |>).

Lemma sample_fits i : i = 0 ∨ i = 1 → fits (UDP_PCB_AT (run 4 64 sample_calls sample_work) i) (sample_datagram (ip4 10 0 0 3)) (ip4 10 0 0 1) (ip4 10 0 0 3).
Proof. by intros [-> | ->]; apply admits_iff; vm_compute. Qed.
Lemma sample_calls_legal : Forall call_ok sample_calls.
Proof.
  assert (∀ i ip p, 0 ≤ i → length ip = 16%nat → addr_ok (bind_to i ip p 0)) as H by (intros i ip p Hi Hl; split; [done|]; intros ? [= <-]; split; [lia|done]).
  unfold sample_calls. repeat (apply List.Forall_cons; [first [exact I|apply H; [lia|done]]|]). apply List.Forall_nil.
Qed.

Lemma udp_find_best_witness : let a := sample_datagram (ip4 10 0 0 2) in let w := found (ip4 10 0 0 2) in
  io_index (w_io (idemip_udp_pcb_find 4 w)) = 2 ∧
  ∀ j, 0 ≤ j < 4 → fits (UDP_PCB_AT w j) a (ip4 10 0 0 1) (ip4 10 0 0 2) → rank (UDP_PCB_AT w j) a < 3 ∨ rank (UDP_PCB_AT w j) a = 3 ∧ 2 ≤ j.
Proof.
  assert (io_index (w_io (idemip_udp_pcb_find 4 (found (ip4 10 0 0 2)))) = 2) as Hi by (by vm_compute).
  assert (rank (UDP_PCB_AT (found (ip4 10 0 0 2)) 2) (sample_datagram (ip4 10 0 0 2)) = 3) as Hr by (by vm_compute).
  destruct (udp_find_best 4 ltac:(unfold IDEMIP_UDP_PCB_NONE; lia) (found (ip4 10 0 0 2)) (ip4 10 0 0 1) (ip4 10 0 0 2) ltac:(by vm_compute) eq_refl eq_refl ltac:(by left) ltac:(by vm_compute))
    as (_ & _ & [(_ & _ & _ & H)|(_ & H & _)]); rewrite Hi in H; [|done].
  change (find_args (w_io (found (ip4 10 0 0 2)))) with (sample_datagram (ip4 10 0 0 2)) in H. rewrite Hr in H. split; [exact Hi|exact H].
Defined.

Lemma udp_bindings_apart_witness : let w := run 4 64 sample_calls sample_work in let a := sample_datagram (ip4 10 0 0 3) in
  rank (UDP_PCB_AT w 0) a ≠ rank (UDP_PCB_AT w 1) a.
Proof.
  exact (udp_bindings_apart 4 64 ltac:(unfold IDEMIP_UDP_PCB_NONE; lia) (mkWork sample_io 0 []) sample_calls 0 1 _ _ _ sample_calls_legal ltac:(lia) ltac:(lia) ltac:(done)
    (sample_fits 0 ltac:(by left)) (sample_fits 1 ltac:(by right))).
Defined.

(** The fourth binding, a second claim to an address and port, is refused. *)
Example second_claim_refused : f_local_port (UDP_PCB_AT (run 4 64 sample_calls sample_work) 3) = 0.
Proof. by vm_compute. Qed.

(** Two connected bindings may share their local endpoint; once both are disconnected every datagram
    that fits one fits the other at the same rank, and the second never gets one. *)
Definition two_connected : Work :=
  run 4 64 [COpen (mkOpenArgs 4 false); CConnect (bind_to 0 (ip4 10 0 0 2) 5353 0); CBind (bind_to 0 (ip4 10 0 0 1) 53 0);
            COpen (mkOpenArgs 4 false); CConnect (bind_to 1 (ip4 10 0 0 3) 5353 0); CBind (bind_to 1 (ip4 10 0 0 1) 53 0)] sample_work.
Definition disconnect (i : Z) (w : Work) : Work := idemip_udp_pcb_disconnect 4 (put_io w ((w_io w) <| pcb_index := i |>)).
Example disconnect_collapses : let w := disconnect 1 (disconnect 0 two_connected) in
  io_status (w_io w) = IDEMIP_OK ∧ UDP_PCB_AT w 0 = UDP_PCB_AT w 1 ∧ f_local_port (UDP_PCB_AT w 1) = 53.
Proof. by vm_compute. Qed.

(** The wild address named in two zones gives two bindings on one port that rank the same for every datagram. *)
Example wild_zones_collide :
  let w := run 4 64 [COpen (mkOpenArgs 4 false); CBind (bind_to 0 addr_zero 53 0); COpen (mkOpenArgs 4 false); CBind (bind_to 1 addr_zero 53 1)] sample_work in
  io_status (w_io w) = IDEMIP_OK ∧ ∀ a, rank (UDP_PCB_AT w 0) a = rank (UDP_PCB_AT w 1) a.
Proof. split; [by vm_compute|]. intros a. unfold rank, specific. by vm_compute. Qed.
End UdpPcbThms.
