(* ===== verification/Isn.v ===== *)
(** * Initial sequence numbers (src/tcp/tcp_isn.c)

    RFC 6528's generator and the SHA-256 it takes its pseudorandom function from, working in the regions of
    the borrow: the connection-id block, the eight running words, the window of sixteen schedule words and
    the padded block.  The octets of the working set past those are never written but to zero. *)
From S2P Require Import Prelude Base Wire.

Module Isn.
Import Endian Wire.

Definition IDEMIP_TCP_ISN_ADDR_BYTES : Z := 16.
Definition IDEMIP_TCP_ISN_TICKS_PER_MS : Z := 250.
Definition TCP_ISN_READY : Z := 0x54494E31.
Definition TCP_ISN_SHA_WORDS : Z := 8.
Definition TCP_ISN_SHA_BLOCK : Z := 64.
Definition TCP_ISN_SHA_WINDOW : Z := 16.
Definition TCP_ISN_SHA_LEN_OFF : Z := TCP_ISN_SHA_BLOCK - 8.

Record TcpIsnSeedArgs := mkSeedArgs { sd_key : option (list Z); sd_key_len : Z; sd_base : Z }.
Record TcpIsnGenArgs := mkGenArgs {
  ga_local_ip : option (list Z); ga_remote_ip : option (list Z); ga_now_ms : Z; ga_local_port : Z; ga_remote_port : Z; ga_ip_version : Z }.
Record TcpIsnIo := mkIo { seed_args : TcpIsnSeedArgs; gen_args : TcpIsnGenArgs; io_status : IdemIpStatus; io_isn : Z }.
#[export] Instance TcpIsnIo_eta : Eta TcpIsnIo := fun r => mkIo (seed_args r) (gen_args r) (io_status r) (io_isn r).

Record TcpIsnCtx := mkCtx { c_ready : Z; c_base : Z; c_secret : list Z; c_keyed : bool }.
#[export] Instance TcpIsnCtx_eta : Eta TcpIsnCtx := fun r => mkCtx (c_ready r) (c_base r) (c_secret r) (c_keyed r).

Record Work := mkWork { w_io : TcpIsnIo; w_ctx : TcpIsnCtx; w_block : list Z; w_state : list Z; w_sched : list Z; w_pad : list Z }.
#[export] Instance Work_eta : Eta Work := fun r => mkWork (w_io r) (w_ctx r) (w_block r) (w_state r) (w_sched r) (w_pad r).
Definition put_io (w : Work) (io : TcpIsnIo) : Work := w <| w_io := io |>.

(** ** SHA-256 *)
(** A row of the code's table, eight words written as one number. *)
Definition words8 (x : Z) : list Z := map (λ i, Z.land (Z.shiftr x (32 * (7 - i))) 0xFFFFFFFF) (seqZ 0 8).
Definition tcp_isn_k : list Z := Eval vm_compute in concat (map words8 [
    0x428a2f98_71374491_b5c0fbcf_e9b5dba5_3956c25b_59f111f1_923f82a4_ab1c5ed5;
    0xd807aa98_12835b01_243185be_550c7dc3_72be5d74_80deb1fe_9bdc06a7_c19bf174;
    0xe49b69c1_efbe4786_0fc19dc6_240ca1cc_2de92c6f_4a7484aa_5cb0a9dc_76f988da;
    0x983e5152_a831c66d_b00327c8_bf597fc7_c6e00bf3_d5a79147_06ca6351_14292967;
    0x27b70a85_2e1b2138_4d2c6dfc_53380d13_650a7354_766a0abb_81c2c92e_92722c85;
    0xa2bfe8a1_a81a664b_c24b8b70_c76c51a3_d192e819_d6990624_f40e3585_106aa070;
    0x19a4c116_1e376c08_2748774c_34b0bcb5_391c0cb3_4ed8aa4a_5b9cca4f_682e6ff3;
    0x748f82ee_78a5636f_84c87814_8cc70208_90befffa_a4506ceb_bef9a3f7_c67178f2]).
Definition tcp_isn_h0 : list Z := Eval vm_compute in words8 0x6a09e667_bb67ae85_3c6ef372_a54ff53a_510e527f_9b05688c_1f83d9ab_5be0cd19.

Definition tcp_isn_rotr (x n : Z) : Z := Z.lor (Z.shiftr x n) (u32 (Z.shiftl x (32 - n))).
Definition lnot32 (x : Z) : Z := Z.lxor x 0xFFFFFFFF.
Definition tcp_isn_ch (x y z : Z) : Z := Z.lxor (Z.land x y) (Z.land (lnot32 x) z).
Definition tcp_isn_maj (x y z : Z) : Z := Z.lxor (Z.lxor (Z.land x y) (Z.land x z)) (Z.land y z).
Definition tcp_isn_bsig0 (x : Z) : Z := Z.lxor (Z.lxor (tcp_isn_rotr x 2) (tcp_isn_rotr x 13)) (tcp_isn_rotr x 22).
Definition tcp_isn_bsig1 (x : Z) : Z := Z.lxor (Z.lxor (tcp_isn_rotr x 6) (tcp_isn_rotr x 11)) (tcp_isn_rotr x 25).
Definition tcp_isn_ssig0 (x : Z) : Z := Z.lxor (Z.lxor (tcp_isn_rotr x 7) (tcp_isn_rotr x 18)) (Z.shiftr x 3).
Definition tcp_isn_ssig1 (x : Z) : Z := Z.lxor (Z.lxor (tcp_isn_rotr x 17) (tcp_isn_rotr x 19)) (Z.shiftr x 10).

(** The eight working variables. *)
Record Vars := mkVars { va : Z; vb : Z; vc : Z; vd : Z; ve : Z; vf : Z; vg : Z; vh : Z }.

(** One round, on the constant and the schedule word of its number. *)
Definition sha_round (v : Vars) (k wd : Z) : Vars :=
  let t1 := u32 (vh v + tcp_isn_bsig1 (ve v) + tcp_isn_ch (ve v) (vf v) (vg v) + k + wd) in
  let t2 := u32 (tcp_isn_bsig0 (va v) + tcp_isn_maj (va v) (vb v) (vc v)) in
  mkVars (u32 (t1 + t2)) (va v) (vb v) (vc v) (u32 (vd v + t1)) (ve v) (vf v) (vg v).

(** Round [r]'s word of the window, written over the one sixteen rounds before. *)
Definition sched_step (sched : list Z) (r : Z) : list Z :=
  let j := Z.land r (TCP_ISN_SHA_WINDOW - 1) in
  let at_ i := tget sched (Z.land (j + i) (TCP_ISN_SHA_WINDOW - 1)) in
  if TCP_ISN_SHA_WINDOW <=? r
  then tset sched j (u32 (tget sched j + (tcp_isn_ssig0 (at_ 1) + at_ 9 + tcp_isn_ssig1 (at_ 14))))
  else sched.

Definition vars_of (h : list Z) : Vars := mkVars (tget h 0) (tget h 1) (tget h 2) (tget h 3) (tget h 4) (tget h 5) (tget h 6) (tget h 7).
(** The feed-forward. *)
Definition sha_add (h : list Z) (v : Vars) : list Z :=
  [u32 (tget h 0 + va v); u32 (tget h 1 + vb v); u32 (tget h 2 + vc v); u32 (tget h 3 + vd v);
   u32 (tget h 4 + ve v); u32 (tget h 5 + vf v); u32 (tget h 6 + vg v); u32 (tget h 7 + vh v)].

Definition sha_rounds (v : Vars) (sched : list Z) : Vars * list Z :=
  fold_left (λ '(v, sched) r,
    let sched' := sched_step sched r in
    (sha_round v (tget tcp_isn_k r) (tget sched' (Z.land r (TCP_ISN_SHA_WINDOW - 1))), sched')) (seqZ 0 64) (v, sched).

Definition tcp_isn_sha_block (w : Work) (blk : list Z) : Work :=
  let h := w_state w in
  let sched := fold_left (λ s i, tset s i (rd32 blk (Z.shiftl i 2))) (seqZ 0 TCP_ISN_SHA_WINDOW) (w_sched w) in
  let '(v, sched') := sha_rounds (vars_of h) sched in
  w <| w_sched := sched' |> <| w_state := sha_add h v |>.

(** The loop over whole blocks: the borrow, how far the message pointer has moved and what is left. *)
Fixpoint prf_loop (fuel : nat) (w : Work) (off rem : Z) : Work * Z * Z :=
  match fuel with
  | O => (w, off, rem)
  | S fuel =>
      if TCP_ISN_SHA_BLOCK <=? rem
      then prf_loop fuel (tcp_isn_sha_block w (drop (Z.to_nat off) (w_block w))) (off + TCP_ISN_SHA_BLOCK) (rem - TCP_ISN_SHA_BLOCK)
      else (w, off, rem)
  end.

Definition tcp_isn_prf (w : Work) (len : Z) : Work :=
  let w := w <| w_state := tcp_isn_h0 |> in
  let '(w, off, rem) := prf_loop (Z.to_nat len) w 0 len in
  let pad := memset (w_pad w) 0 0 TCP_ISN_SHA_BLOCK in
  let pad := memcpy pad 0 (drop (Z.to_nat off) (w_block w)) rem in
  let w := w <| w_pad := tset pad rem 0x80 |> in
  let w := if TCP_ISN_SHA_LEN_OFF <=? rem
           then let w := tcp_isn_sha_block w (w_pad w) in w <| w_pad := memset (w_pad w) 0 0 TCP_ISN_SHA_BLOCK |>
           else w in
  let bits := u64 (Z.shiftl len 3) in
  let pad := wr32 (w_pad w) TCP_ISN_SHA_LEN_OFF (u32 (Z.shiftr bits 32)) in
  let w := w <| w_pad := wr32 pad (TCP_ISN_SHA_LEN_OFF + 4) (u32 (Z.land bits 0xFFFFFFFF)) |> in
  tcp_isn_sha_block w (w_pad w).

(** ** The connection-id *)
Definition tcp_isn_addr_len (ip_version : Z) : Z :=
  if ip_version =? 4 then 4 else if ip_version =? 6 then IDEMIP_TCP_ISN_ADDR_BYTES else 0.

Section Build.
Variables (IDEMIP_TCP_ISN_SECRET_BYTES IDEMIP_TCP_ISN_BLOCK_BYTES : Z).

Definition tcp_isn_lay (w : Work) (local_ip remote_ip : list Z) (addr_len : Z) : Work * Z :=
  let a := gen_args (w_io w) in
  let blk := memcpy (w_block w) 0 local_ip addr_len in
  let at_ := addr_len in
  let blk := wr16 blk at_ (ga_local_port a) in
  let at_ := at_ + 2 in
  let blk := memcpy blk at_ remote_ip addr_len in
  let at_ := at_ + addr_len in
  let blk := wr16 blk at_ (ga_remote_port a) in
  let at_ := at_ + 2 in
  let blk := memcpy blk at_ (c_secret (w_ctx w)) IDEMIP_TCP_ISN_SECRET_BYTES in
  (w <| w_block := blk |>, at_ + IDEMIP_TCP_ISN_SECRET_BYTES).

(** The block and the working set, zeroed. *)
Definition scratch_zero (w : Work) : Work :=
  w <| w_block := replicate (Z.to_nat IDEMIP_TCP_ISN_BLOCK_BYTES) 0 |> <| w_state := replicate 8 0 |> <| w_sched := replicate 16 0 |> <| w_pad := replicate 64 0 |>.

Definition tcp_isn_derive (w : Work) (local_ip remote_ip : list Z) (addr_len : Z) : Work * Z :=
  let '(w, len) := tcp_isn_lay w local_ip remote_ip addr_len in
  let w := tcp_isn_prf w len in
  let f := tget (w_state w) 0 in
  let m := u32 (c_base (w_ctx w) + u32 (ga_now_ms (gen_args (w_io w)) * IDEMIP_TCP_ISN_TICKS_PER_MS)) in
  (scratch_zero w, u32 (m + f)).

(** ** The entries *)
Definition idemip_tcp_isn_reset (w : Work) : Work :=
  put_io ((scratch_zero w) <| w_ctx := mkCtx TCP_ISN_READY 0 (replicate (Z.to_nat IDEMIP_TCP_ISN_SECRET_BYTES) 0) false |>)
    ((w_io w) <| io_isn := 0 |> <| io_status := IDEMIP_OK |>).

Definition idemip_tcp_isn_seed (w : Work) : Work :=
  let io := (w_io w) <| io_status := IDEMIP_ERR |> in
  match sd_key (seed_args io) with
  | Some key =>
      if negb (c_ready (w_ctx w) =? TCP_ISN_READY) || (sd_key_len (seed_args io) <? IDEMIP_TCP_ISN_SECRET_BYTES) then put_io w io
      else
        put_io (w <| w_ctx := (w_ctx w) <| c_secret := memcpy (c_secret (w_ctx w)) 0 key IDEMIP_TCP_ISN_SECRET_BYTES |>
                                        <| c_base := sd_base (seed_args io) |> <| c_keyed := true |> |>)
          (io <| io_status := IDEMIP_OK |>)
  | None => put_io w io
  end.

Definition idemip_tcp_isn_generate (w : Work) : Work :=
  let io := (w_io w) <| io_status := IDEMIP_ERR |> <| io_isn := 0 |> in
  match ga_local_ip (gen_args io), ga_remote_ip (gen_args io) with
  | Some local_ip, Some remote_ip =>
      if negb (c_ready (w_ctx w) =? TCP_ISN_READY) || negb (c_keyed (w_ctx w)) then put_io w io
      else
        let addr_len := tcp_isn_addr_len (ga_ip_version (gen_args io)) in
        if addr_len =? 0 then put_io w io
        else
          let '(w', isn) := tcp_isn_derive (put_io w io) local_ip remote_ip addr_len in
          put_io w' (io <| io_isn := isn |> <| io_status := IDEMIP_OK |>)
  | _, _ => put_io w io
  end.
End Build.
End Isn.

(** * SHA-256 as FIPS 180-4 states it, and the numbers RFC 6528 asks for *)
Module IsnThms.
Import Endian Wire Isn.

(** ** The standard: sixty-four schedule words, and padding of the whole message first *)
Definition fips_next (ws : list Z) : Z :=
  let t := length ws in
  u32 (tcp_isn_ssig1 (ws !!! (t - 2)%nat) + ws !!! (t - 7)%nat + tcp_isn_ssig0 (ws !!! (t - 15)%nat) + ws !!! (t - 16)%nat).
Fixpoint fips_extend (n : nat) (ws : list Z) : list Z :=
  match n with O => ws | S n => fips_extend n (ws ++ [fips_next ws]) end.
Definition fips_w (blk : list Z) : list Z := fips_extend 48 (map (λ i : nat, rd32 blk (4 * Z.of_nat i)) (seq 0 16)).

Definition fips_compress (h : list Z) (blk : list Z) : list Z :=
  let W := fips_w blk in sha_add h (fold_left (λ v t, sha_round v (tcp_isn_k !!! t) (W !!! t)) (seq 0 64) (vars_of h)).

(** Section 5.1.1: the mark, the fewest zeros that make room, and the length in bits. *)
Definition fips_pad (m : list Z) : list Z :=
  let len := Z.of_nat (length m) in
  m ++ [0x80] ++ replicate (Z.to_nat ((55 - len) mod 64)) 0 ++ be32 (8 * len / 4294967296) ++ be32 (8 * len mod 4294967296).
Fixpoint fips_blocks (n : nat) (h : list Z) (m : list Z) : list Z :=
  match n with O => h | S n => fips_blocks n (fips_compress h m) (drop 64 m) end.
Definition sha256 (m : list Z) : list Z := let p := fips_pad m in fips_blocks (length p / 64) tcp_isn_h0 p.

Example sha256_abc : sha256 [0x61; 0x62; 0x63] = words8 0xba7816bf_8f01cfea_414140de_5dae2223_b00361a3_96177a9c_b410ff61_f20015ad.
Proof. vm_compute. reflexivity. Qed.

(** ** The window against the sixty-four words *)
Definition fips_at (ws : list Z) (t : nat) : Z :=
  u32 (tcp_isn_ssig1 (ws !!! (t - 2)%nat) + ws !!! (t - 7)%nat + tcp_isn_ssig0 (ws !!! (t - 15)%nat) + ws !!! (t - 16)%nat).

Lemma extend_spec n ws : (16 ≤ length ws)%nat → length (fips_extend n ws) = (length ws + n)%nat ∧
  (∀ i, (i < length ws)%nat → fips_extend n ws !!! i = ws !!! i) ∧
  ∀ t, (length ws ≤ t < length ws + n)%nat → fips_extend n ws !!! t = fips_at (fips_extend n ws) t.
Proof.
  revert ws. induction n as [|n IH]; intros ws Hl; cbn [fips_extend]; [split; [lia|]; split; [done|lia]|].
  destruct (IH (ws ++ [fips_next ws])) as (H1 & H2 & H3); [rewrite length_app; cbn [length]; lia|]. rewrite length_app in H1, H2, H3. cbn [length] in H1, H2, H3.
  assert (∀ i, (i < length ws)%nat → fips_extend n (ws ++ [fips_next ws]) !!! i = ws !!! i) as Hlow by (intros i Hi; rewrite H2 by lia; by apply lookup_total_app_l).
  split_and!; [lia|done|]. intros t Ht. destruct (decide (t = length ws)) as [->|]; [|apply H3; lia]. rewrite H2 by lia. unfold fips_at. rewrite !Hlow by lia.
  rewrite list_lookup_total_middle by done. done.
Qed.

Lemma fips_w_spec blk : length (fips_w blk) = 64%nat ∧ (∀ i, (i < 16)%nat → fips_w blk !!! i = rd32 blk (4 * Z.of_nat i)) ∧
  ∀ t, (16 ≤ t < 64)%nat → fips_w blk !!! t = fips_at (fips_w blk) t.
Proof.
  unfold fips_w. destruct (extend_spec 48 (map (λ i : nat, rd32 blk (4 * Z.of_nat i)) (seq 0 16))) as (H1 & H2 & H3); [rewrite length_map, length_seq; lia|].
  rewrite length_map, length_seq in *. split_and!; [done| |apply H3]. intros i Hi. rewrite H2 by done. apply list_lookup_total_correct.
  rewrite list_lookup_fmap, lookup_seq_lt by done. done.
Qed.

(** Before round [k] the window holds the last sixteen words of the schedule, each in its place. *)
Definition window (W sched : list Z) (k : nat) : Prop :=
  length sched = 16%nat ∧ ∀ t, (k `max` 16 - 16 ≤ t < k `max` 16)%nat → sched !!! (t mod 16)%nat = W !!! t.

Lemma land_15 (x : nat) : Z.land (Z.of_nat x) (TCP_ISN_SHA_WINDOW - 1) = Z.of_nat (x mod 16).
Proof. change (TCP_ISN_SHA_WINDOW - 1) with (Z.ones 4). rewrite Z.land_ones, Nat2Z.inj_mod by lia. done. Qed.

Lemma window_at W sched k t i : window W sched k → (k `max` 16 - 16 ≤ t < k `max` 16)%nat → (t mod 16 = i mod 16)%nat →
  tget sched (Z.land (Z.of_nat i) (TCP_ISN_SHA_WINDOW - 1)) = W !!! t.
Proof. intros [_ H] Ht Hi. rewrite land_15, <- Hi. unfold tget. rewrite Nat2Z.id. by apply H. Qed.

Lemma sched_step_window blk sched r : (r < 64)%nat → window (fips_w blk) sched r → window (fips_w blk) (sched_step sched (Z.of_nat r)) (S r) ∧
  tget (sched_step sched (Z.of_nat r)) (Z.land (Z.of_nat r) (TCP_ISN_SHA_WINDOW - 1)) = fips_w blk !!! r.
Proof.
  intros Hr Hw. destruct (fips_w_spec blk) as (_ & _ & HW). unfold sched_step. destruct (Z.leb_spec TCP_ISN_SHA_WINDOW (Z.of_nat r)) as [Hge|Hlt]; unfold TCP_ISN_SHA_WINDOW in *.
  - assert (∀ (i : nat) z, (i = 1 ∨ i = 9 ∨ i = 14)%nat → z = Z.of_nat i → tget sched (Z.land (Z.land (Z.of_nat r) (16 - 1) + z) (16 - 1)) = fips_w blk !!! (r - (16 - i))%nat) as Hat.
    { intros i z Hi ->. change (16 - 1) with (TCP_ISN_SHA_WINDOW - 1). rewrite land_15, <- Nat2Z.inj_add. apply (window_at _ _ r); [done|lia|].
      rewrite (Nat.div_mod_eq r 16) at 1. pose proof (Nat.mod_upper_bound r 16 ltac:(lia)).
      replace (16 * (r / 16) + r mod 16 - (16 - i))%nat with (r mod 16 + i + (r / 16 - 1) * 16)%nat; [by rewrite Nat.Div0.mod_add|].
      assert (1 ≤ r / 16)%nat by (apply Nat.div_le_lower_bound; lia). lia. }
    rewrite (Hat 1%nat 1), (Hat 9%nat 9), (Hat 14%nat 14) by (lia || tauto). change (16 - 1) with (TCP_ISN_SHA_WINDOW - 1). rewrite (window_at _ _ r (r - 16)%nat r Hw).
    2: lia. 2: { rewrite (Nat.div_mod_eq r 16) at 1. assert (1 ≤ r / 16)%nat by (apply Nat.div_le_lower_bound; lia).
      replace (16 * (r / 16) + r mod 16 - 16)%nat with (r mod 16 + (r / 16 - 1) * 16)%nat by lia. by rewrite Nat.Div0.mod_add, Nat.Div0.mod_mod. }
    assert (u32 (fips_w blk !!! (r - 16)%nat + (tcp_isn_ssig0 (fips_w blk !!! (r - (16 - 1))%nat) + fips_w blk !!! (r - (16 - 9))%nat +
      tcp_isn_ssig1 (fips_w blk !!! (r - (16 - 14))%nat))) = fips_w blk !!! r) as ->.
    { rewrite (HW r) by lia. unfold fips_at. f_equal. cbn [Nat.sub]. lia. }
    rewrite land_15. pose proof (Nat.mod_upper_bound r 16 ltac:(lia)). destruct Hw as [Hl Hw]. split.
    + split; [unfold tset; by rewrite length_insert|]. intros t Ht. unfold tset. rewrite Nat2Z.id. destruct (decide (t mod 16 = r mod 16)%nat) as [E|E].
      * rewrite E, list_lookup_total_insert_eq by lia. f_equal. rewrite (Nat.div_mod_eq t 16), (Nat.div_mod_eq r 16), E.
        assert (t / 16 = r / 16)%nat; [|lia]. rewrite (Nat.div_mod_eq t 16), (Nat.div_mod_eq r 16) in Ht. lia.
      * rewrite list_lookup_total_insert_ne by done. apply Hw. assert (t ≠ r) by congruence. lia.
    + unfold tget, tset. rewrite Nat2Z.id, list_lookup_total_insert_eq by lia. done.
  - assert (window (fips_w blk) sched (S r)) as Hw' by (destruct Hw as [Hl Hw]; split; [done|]; intros t Ht; apply Hw; lia). split; [done|].
    by apply (window_at _ _ (S r)); [done|lia|].
Qed.

Lemma rounds_spec blk v sched : window (fips_w blk) sched 0 → ∃ sched', sha_rounds v sched = (fold_left (λ v t, sha_round v (tcp_isn_k !!! t) (fips_w blk !!! t)) (seq 0 64) v, sched') ∧ length sched' = 16%nat.
Proof.
  intros Hw. unfold sha_rounds. set (f := λ '(v, sched) r, _). set (g := λ v t, _).
  assert (∀ k : nat, (k ≤ 64)%nat → ∃ s', fold_left f (seqZ 0 (Z.of_nat k)) (v, sched) = (fold_left g (seq 0 k) v, s') ∧ window (fips_w blk) s' k) as H.
  2: { destruct (H 64%nat ltac:(lia)) as (s' & E & Hs & _). change (Z.of_nat 64) with 64 in E. exists s'. split; [exact E|exact Hs]. }
  induction k as [|k IH]; intros Hk; [by exists sched|]. destruct (IH ltac:(lia)) as (s' & E & Hs). replace (Z.of_nat (S k)) with (Z.of_nat k + 1) by lia.
  rewrite seqZ_app, fold_left_app, E, seq_S, fold_left_app by lia. rewrite Z.add_0_l, Nat.add_0_l. change (seqZ (Z.of_nat k) 1) with [Z.of_nat k]. cbn [fold_left]. unfold f at 1, g at 1. cbv zeta.
  destruct (sched_step_window blk s' k ltac:(lia) Hs) as [Hs' ->]. eexists. split; [|exact Hs']. f_equal. f_equal. unfold tget. by rewrite Nat2Z.id.
Qed.

(** ** Blocks *)
Lemma isn_rd32_take m m' i : (i < 16)%nat → take 64 m = take 64 m' → rd32 m (4 * Z.of_nat i) = rd32 m' (4 * Z.of_nat i).
Proof.
  intros Hi H. assert (∀ j, (j < 4)%nat → tget (drop (Z.to_nat (4 * Z.of_nat i)) m) (Z.of_nat j) = tget (drop (Z.to_nat (4 * Z.of_nat i)) m') (Z.of_nat j)) as Hj.
  { intros j Hj. unfold tget. rewrite !lookup_total_drop, Nat2Z.id. rewrite <- (lookup_total_take_lt m 64), <- (lookup_total_take_lt m' 64) by lia. by rewrite H. }
  unfold rd32, endian_rd32. pose proof (Hj 0%nat ltac:(lia)) as H0. pose proof (Hj 1%nat ltac:(lia)) as H1. pose proof (Hj 2%nat ltac:(lia)) as H2. pose proof (Hj 3%nat ltac:(lia)) as H3.
  change (Z.of_nat 0) with 0 in H0. change (Z.of_nat 1) with 1 in H1. change (Z.of_nat 2) with 2 in H2. change (Z.of_nat 3) with 3 in H3. by rewrite H0, H1, H2, H3.
Qed.
Lemma compress_take h m m' : take 64 m = take 64 m' → fips_compress h m = fips_compress h m'.
Proof.
  intros H. assert (fips_w m = fips_w m') as E; [|unfold fips_compress; by rewrite E]. unfold fips_w. f_equal. apply map_ext_in. intros i Hi%in_seq. apply isn_rd32_take; [lia|done].
Qed.
Lemma blocks_take n h m m' : take (64 * n) m = take (64 * n) m' → fips_blocks n h m = fips_blocks n h m'.
Proof.
  revert h m m'. induction n as [|n IH]; intros h m m' H; [done|]. cbn [fips_blocks]. rewrite (compress_take h m m').
  - apply IH. apply (f_equal (drop 64)) in H. rewrite !skipn_firstn_comm in H. by replace (64 * S n - 64)%nat with (64 * n)%nat in H by lia.
  - apply (f_equal (take 64)) in H. rewrite !take_take in H. by replace (64 `min` (64 * S n))%nat with 64%nat in H by lia.
Qed.
Lemma blocks_add a b h m : fips_blocks (a + b) h m = fips_blocks b (fips_blocks a h m) (drop (64 * a) m).
Proof.
  revert h m. induction a as [|a IH]; intros h m; [done|]. cbn [fips_blocks Nat.add]. rewrite IH, drop_drop. f_equal. f_equal. lia.
Qed.

(** The parts of the borrow a digest works in. *)
Record shaped (w : Work) : Prop := mkShaped { sh_sched : length (w_sched w) = 16%nat; sh_pad : length (w_pad w) = 64%nat }.

Lemma load_window blk s : length s = 16%nat → window (fips_w blk) (fold_left (λ s i, tset s i (rd32 blk (Z.shiftl i 2))) (seqZ 0 TCP_ISN_SHA_WINDOW) s) 0.
Proof.
  intros Hs. set (g := λ s i, _). assert (∀ k : nat, (k ≤ 16)%nat → length (fold_left g (seqZ 0 (Z.of_nat k)) s) = 16%nat ∧
    ∀ t, (t < k)%nat → fold_left g (seqZ 0 (Z.of_nat k)) s !!! t = rd32 blk (4 * Z.of_nat t)) as H.
  - induction k as [|k IH]; intros Hk; [split; [done|lia]|]. destruct (IH ltac:(lia)) as [IHl IHt]. replace (Z.of_nat (S k)) with (Z.of_nat k + 1) by lia.
    rewrite seqZ_app, fold_left_app by lia. rewrite Z.add_0_l. change (seqZ (Z.of_nat k) 1) with [Z.of_nat k]. cbn [fold_left]. unfold g at 1 3, tset. rewrite Nat2Z.id. split; [by rewrite length_insert|].
    intros t Ht. destruct (decide (t = k)) as [->|].
    + rewrite list_lookup_total_insert_eq by lia. rewrite Z.shiftl_mul_pow2 by lia. f_equal. lia.
    + rewrite list_lookup_total_insert_ne by done. apply IHt. lia.
  - destruct (H 16%nat ltac:(lia)) as [Hl Ht]. split; [exact Hl|]. intros t Hb. destruct (fips_w_spec blk) as (_ & HW & _). rewrite Nat.mod_small, HW by lia. apply Ht. lia.
Qed.

Lemma sha_block_spec w blk : shaped w → let w' := tcp_isn_sha_block w blk in
  w_state w' = fips_compress (w_state w) blk ∧ shaped w' ∧ w_pad w' = w_pad w ∧ w_block w' = w_block w ∧ w_ctx w' = w_ctx w ∧ w_io w' = w_io w.
Proof.
  intros [Hs Hp]. cbv zeta. unfold tcp_isn_sha_block, fips_compress. destruct (rounds_spec blk (vars_of (w_state w)) _ (load_window blk (w_sched w) Hs)) as (s' & -> & Hs').
  by split_and!.
Qed.

Lemma prf_loop_spec fuel w off rem : shaped w → 0 ≤ off → 0 ≤ rem → rem < 64 * Z.of_nat fuel + 64 →
  ∃ w', prf_loop fuel w off rem = (w', off + 64 * (rem / 64), rem mod 64) ∧ shaped w' ∧
    w_state w' = fips_blocks (Z.to_nat (rem / 64)) (w_state w) (drop (Z.to_nat off) (w_block w)) ∧
    w_pad w' = w_pad w ∧ w_block w' = w_block w ∧ w_ctx w' = w_ctx w ∧ w_io w' = w_io w.
Proof.
  revert w off rem. induction fuel as [|fuel IH]; intros w off rem Hw Ho Hr Hf; cbn [prf_loop].
  - exists w. rewrite Z.div_small, Z.mod_small by lia. by rewrite Z.mul_0_r, Z.add_0_r.
  - destruct (Z.leb_spec TCP_ISN_SHA_BLOCK rem) as [Hge|Hlt]; unfold TCP_ISN_SHA_BLOCK in *.
    + destruct (sha_block_spec w (drop (Z.to_nat off) (w_block w)) Hw) as (Hst & Hsh & Hp & Hb & Hc & Hi).
      destruct (IH _ (off + 64) (rem - 64) Hsh ltac:(lia) ltac:(lia) ltac:(lia)) as (w' & E & Hsh' & Hst' & Hp' & Hb' & Hc' & Hi'). exists w'.
      assert (rem / 64 = (rem - 64) / 64 + 1 ∧ rem mod 64 = (rem - 64) mod 64) as [Hd Hm] by (Z.div_mod_to_equations; lia). rewrite E, Hm, Hd. split_and!; try congruence.
      * f_equal. f_equal. lia.
      * rewrite Hst', Hst, Hb. replace (Z.to_nat ((rem - 64) / 64 + 1)) with (S (Z.to_nat ((rem - 64) / 64))) by (Z.div_mod_to_equations; lia).
        cbn [fips_blocks]. rewrite drop_drop. f_equal. f_equal. lia.
    + exists w. rewrite Z.div_small, Z.mod_small by lia. by rewrite Z.mul_0_r, Z.add_0_r.
Qed.

(** ** The last blocks *)
Lemma close_pad P len : length P = 64%nat → 0 ≤ len < 2305843009213693952 →
  wr32 (wr32 P TCP_ISN_SHA_LEN_OFF (u32 (Z.shiftr (u64 (Z.shiftl len 3)) 32))) (TCP_ISN_SHA_LEN_OFF + 4) (u32 (Z.land (u64 (Z.shiftl len 3)) 0xFFFFFFFF)) =
  take 56 P ++ be32 (8 * len / 4294967296) ++ be32 (8 * len mod 4294967296).
Proof.
  intros HP Hlen. rewrite Z.shiftl_mul_pow2 by lia. change (2 ^ 3) with 8. rewrite (u64_id (len * 8)) by (unfold is_u64; lia). rewrite shiftr_32, land_ffffffff.
  assert (is_u32 (8 * len / 4294967296) ∧ is_u32 (8 * len mod 4294967296)) as [H1 H2] by (unfold is_u32; Z.div_mod_to_equations; lia).
  rewrite (Z.mul_comm len 8). rewrite !u32_id by done. assert (length (take 56 P) = 56%nat) as Ht by (rewrite length_take; lia).
  assert (P = wr P (take 56 P)) as E by (unfold wr; by rewrite Ht, take_drop). rewrite E at 1.
  rewrite wr32_at; [|rewrite Ht; done|done|lia]. rewrite wr32_at; [|rewrite length_app, Ht; done|done|rewrite length_app, Ht, HP; cbn; lia].
  unfold wr. rewrite drop_ge, app_nil_r, <- app_assoc; [done|]. rewrite !length_app, Ht, HP. cbn. lia.
Qed.

(** The octets the tail of a message is padded to. *)
Definition tail_of (t : list Z) (len : Z) : list Z :=
  t ++ [0x80] ++ replicate (Z.to_nat ((55 - len) mod 64)) 0 ++ be32 (8 * len / 4294967296) ++ be32 (8 * len mod 4294967296).

Lemma length_tail t len : 0 ≤ len → Z.of_nat (length t) = len mod 64 → length (tail_of t len) = (if (length t <? 56)%nat then 64 else 128)%nat.
Proof.
  intros Hlen Ht. unfold tail_of. rewrite !length_app, length_replicate. cbn [length be32]. destruct (Nat.ltb_spec (length t) 56); Z.div_mod_to_equations; lia.
Qed.

Lemma sha256_split m : sha256 m = fips_blocks (if (length m mod 64 <? 56)%nat then 1 else 2)%nat (fips_blocks (length m / 64) tcp_isn_h0 m)
  (tail_of (drop (64 * (length m / 64)) m) (Z.of_nat (length m))).
Proof.
  unfold sha256. set (a := (length m / 64)%nat). set (t := drop (64 * a) m). pose proof (Nat.div_mod_eq (length m) 64) as Hdm. fold a in Hdm.
  assert (length t = (length m mod 64)%nat) as Ht by (unfold t; rewrite length_drop; lia). pose proof (Nat.mod_upper_bound (length m) 64 ltac:(lia)) as Hu.
  assert (fips_pad m = take (64 * a) m ++ tail_of t (Z.of_nat (length m))) as E.
  { unfold fips_pad, tail_of, t. by rewrite (app_assoc (take _ _)), take_drop. }
  assert (Z.of_nat (length t) = Z.of_nat (length m) mod 64) as Htz by (rewrite Ht, Nat2Z.inj_mod; done).
  pose proof (length_tail t (Z.of_nat (length m)) ltac:(lia) Htz) as Hlt. rewrite Ht in Hlt. set (c := if (length m mod 64 <? 56)%nat then 1%nat else 2%nat).
  assert (length (fips_pad m) / 64 = a + c)%nat as ->.
  { rewrite E, length_app, Hlt, length_take. unfold c. symmetry. apply (Nat.div_unique _ 64 _ 0); [lia|]. destruct (_ <? _)%nat; lia. }
  rewrite blocks_add. rewrite (blocks_take a _ (fips_pad m) m); [|rewrite E, take_app_le by (rewrite length_take; lia); rewrite take_take; f_equal; lia].
  f_equal. rewrite E. apply drop_app_length'. rewrite length_take. lia.
Qed.

Lemma memset_all P v : length P = 64%nat → memset P 0 v TCP_ISN_SHA_BLOCK = replicate 64 v.
Proof. intros H. unfold memset. rewrite drop_ge by (change (Z.to_nat (0 + TCP_ISN_SHA_BLOCK)) with 64%nat; lia). by rewrite app_nil_r. Qed.
Lemma first_pad t r : (length t < 64)%nat → r = Z.of_nat (length t) →
  tset (memcpy (replicate 64 0) 0 t r) r 0x80 = t ++ 0x80 :: replicate (63 - length t) 0.
Proof.
  intros Ht ->. unfold memcpy, tset. rewrite Z.add_0_l, !Nat2Z.id, firstn_all, drop_replicate. change (take (Z.to_nat 0) _) with (@nil Z). cbn [app].
  rewrite insert_app_r_alt, Nat.sub_diag by lia. f_equal. by replace (64 - length t)%nat with (S (63 - length t)) by lia.
Qed.
Lemma memcpy_take P src n : memcpy P 0 src n = memcpy P 0 (take (Z.to_nat n) src) n.
Proof. unfold memcpy. by rewrite take_take, Nat.min_id. Qed.

Lemma prf_spec w len : shaped w → 0 ≤ len ≤ Z.of_nat (length (w_block w)) → len < 2305843009213693952 → let w' := tcp_isn_prf w len in
  w_state w' = sha256 (take (Z.to_nat len) (w_block w)) ∧ w_ctx w' = w_ctx w ∧ w_io w' = w_io w.
Proof.
  intros Hw Hlen Hmax. cbv zeta. unfold tcp_isn_prf. set (w0 := w <| w_state := tcp_isn_h0 |>). assert (shaped w0) as Hw0 by (by destruct Hw).
  destruct (prf_loop_spec (Z.to_nat len) w0 0 len Hw0 ltac:(lia) ltac:(lia) ltac:(lia)) as (w1 & -> & Hw1 & Hst & Hp1 & Hb1 & Hc1 & Hi1). cbv zeta. rewrite Z.add_0_l.
  set (m := take (Z.to_nat len) (w_block w)). assert (Z.of_nat (length m) = len) as Hm by (unfold m; rewrite length_take; lia).
  assert (Z.of_nat (length m / 64) = len / 64 ∧ Z.of_nat (length m mod 64) = len mod 64) as [Hdiv Hmod] by (rewrite Nat2Z.inj_div, Nat2Z.inj_mod, Hm; done).
  rewrite sha256_split, Hm. set (a := (length m / 64)%nat) in *. set (t := drop (64 * a) m). pose proof (Z.mod_pos_bound len 64 ltac:(lia)) as Hr. set (r := len mod 64) in *.
  assert (Z.of_nat (length t) = r) as Ht by (unfold t; rewrite length_drop; pose proof (Nat.div_mod_eq (length m) 64); lia).
  rewrite Hb1. change (w_block w0) with (w_block w). rewrite (memset_all (w_pad w1)) by apply Hw1. rewrite memcpy_take.
  assert (take (Z.to_nat r) (drop (Z.to_nat (64 * (len / 64))) (w_block w)) = t) as ->.
  { unfold t, m. rewrite skipn_firstn_comm. f_equal; [|f_equal; lia]. unfold r. Z.div_mod_to_equations. lia. }
  rewrite first_pad by lia. change (drop (Z.to_nat 0) ?x) with x in Hst. change (w_state w0) with tcp_isn_h0 in Hst. change (w_block w0) with (w_block w) in Hst.
  replace (Z.to_nat (len / 64)) with a in Hst by lia. rewrite (blocks_take a _ _ m) in Hst by (unfold m; rewrite take_take; f_equal; unfold r in *; Z.div_mod_to_equations; lia).
  set (P := t ++ 0x80 :: replicate (63 - length t) 0). assert (length P = 64%nat) as HP by (unfold P; rewrite length_app; cbn [length]; rewrite length_replicate; lia).
  assert ((length m mod 64 <? 56)%nat = negb (TCP_ISN_SHA_LEN_OFF <=? r)) as ->.
  { unfold TCP_ISN_SHA_LEN_OFF, TCP_ISN_SHA_BLOCK. destruct (Nat.ltb_spec (length m mod 64) 56), (Z.leb_spec (64 - 8) r); done || lia. }
  set (w2 := w1 <| w_pad := P |>). assert (shaped w2) as Hw2 by (by destruct Hw1; split). change (w_state w2) with (w_state w1) in *.
  destruct (Z.leb_spec TCP_ISN_SHA_LEN_OFF r) as [Hbig|Hsmall]; unfold TCP_ISN_SHA_LEN_OFF, TCP_ISN_SHA_BLOCK in Hbig || unfold TCP_ISN_SHA_LEN_OFF, TCP_ISN_SHA_BLOCK in Hsmall; cbn [negb fips_blocks].
  - change (w_pad w2) with P. destruct (sha_block_spec w2 P Hw2) as (Hst3 & Hw3 & Hp3 & _ & Hc3 & Hi3). set (w3 := tcp_isn_sha_block w2 P) in *. rewrite (memset_all (w_pad w3)) by apply Hw3.
    set (w4 := w3 <| w_pad := replicate 64 0 |>). change (w_pad w4) with (replicate 64 0). rewrite close_pad; [|first [exact HP|reflexivity]|lia].
    set (Q := take 56 _ ++ _). set (w5 := w4 <| w_pad := Q |>). assert (shaped w5) as Hw5.
    { destruct Hw3; split; [done|]. change (w_pad w5) with Q. unfold Q. rewrite !length_app. done. }
    destruct (sha_block_spec w5 Q Hw5) as (Hst6 & _ & _ & _ & Hc6 & Hi6). change (w_pad w5) with Q. split_and!; [|exact (eq_trans Hc6 (eq_trans Hc3 Hc1))|exact (eq_trans Hi6 (eq_trans Hi3 Hi1))].
    rewrite Hst6. change (w_state w5) with (w_state w3). rewrite Hst3. change (w_state w2) with (w_state w1). rewrite Hst. change (be32 (8 * len / 4294967296) ++ be32 (8 * len mod 4294967296)) with (drop 56 Q).
    assert (tail_of t len = P ++ Q) as ->.
    { assert (Z.to_nat ((55 - len) mod 64) = (63 - length t + 56)%nat) as E by (unfold r in *; Z.div_mod_to_equations; lia). unfold tail_of, P, Q. change (take 56 (replicate 64 0)) with (replicate 56 0).
      rewrite E, replicate_add, <- !app_assoc. cbn [app]. done. }
    rewrite (drop_app_length' P Q 64) by done. rewrite (compress_take _ P (P ++ Q)); [reflexivity|]. by rewrite take_app_le, (take_ge P) by lia.
  - change (w_pad w2) with P. rewrite close_pad; [|first [exact HP|reflexivity]|lia]. set (Q := take 56 P ++ _). set (w5 := w2 <| w_pad := Q |>). assert (shaped w5) as Hw5.
    { destruct Hw2; split; [done|]. change (w_pad w5) with Q. unfold Q. rewrite !length_app, length_take, HP. done. }
    destruct (sha_block_spec w5 Q Hw5) as (Hst6 & _ & _ & _ & Hc6 & Hi6). change (w_pad w5) with Q. split_and!; [|exact (eq_trans Hc6 Hc1)|exact (eq_trans Hi6 Hi1)].
    rewrite Hst6. change (w_state w5) with (w_state w1). rewrite Hst. f_equal. unfold Q, P, tail_of. rewrite take_app_ge by lia.
    replace (56 - length t)%nat with (S (55 - length t)) by lia. cbn [take]. rewrite <- app_assoc. f_equal. cbn [app]. f_equal. rewrite take_replicate.
    f_equal. f_equal. unfold r in *. Z.div_mod_to_equations. lia.
Qed.

(** ** The connection-id *)
Section Build.
Variables (SECRET BLOCK : Z).
Context (Hsecret : 0 ≤ SECRET < 1048576) (Hblock : 2 * IDEMIP_TCP_ISN_ADDR_BYTES + 4 + SECRET ≤ BLOCK).

(** RFC 6528's concatenation. *)
Definition connection_id (secret : list Z) (a : TcpIsnGenArgs) (local_ip remote_ip : list Z) : list Z :=
  let n := Z.to_nat (tcp_isn_addr_len (ga_ip_version a)) in
  take n local_ip ++ be16 (ga_local_port a) ++ take n remote_ip ++ be16 (ga_remote_port a) ++ secret.
(** M + F. *)
Definition isn_of (secret : list Z) (base : Z) (a : TcpIsnGenArgs) (local_ip remote_ip : list Z) : Z :=
  u32 (base + 250 * ga_now_ms a + tget (sha256 (connection_id secret a local_ip remote_ip)) 0).

Lemma lay_spec w a l r n : gen_args (w_io w) = a → n = tcp_isn_addr_len (ga_ip_version a) → length (w_block w) = Z.to_nat BLOCK → length (c_secret (w_ctx w)) = Z.to_nat SECRET →
  is_u16 (ga_local_port a) → is_u16 (ga_remote_port a) → n ≤ Z.of_nat (length l) → n ≤ Z.of_nat (length r) →
  ∃ w', tcp_isn_lay SECRET w l r n = (w', 2 * n + 4 + SECRET) ∧
    w' = w <| w_block := wr (w_block w) (connection_id (c_secret (w_ctx w)) a l r) |> ∧ Z.of_nat (length (connection_id (c_secret (w_ctx w)) a l r)) = 2 * n + 4 + SECRET.
Proof.
  intros Ha Hn Hb Hs Hlp Hrp Hl Hr. unfold tcp_isn_lay. cbv zeta. rewrite Ha. assert (n = 0 ∨ n = 4 ∨ n = 16) as Hv by (subst n; unfold tcp_isn_addr_len; repeat case_match; auto).
  assert (length (take (Z.to_nat n) l) = Z.to_nat n ∧ length (take (Z.to_nat n) r) = Z.to_nat n) as [Htl Htr] by (rewrite !length_take; lia).
  unfold IDEMIP_TCP_ISN_ADDR_BYTES in *. eexists. split; [apply f_equal; lia|]. split.
  - f_equal. assert (memcpy (w_block w) 0 l n = memcpy (wr (w_block w) []) 0 l n) as -> by done. rewrite memcpy_at by (cbn [length]; lia). cbn [app].
    rewrite wr16_at by (done || lia). rewrite memcpy_at by (rewrite ?length_app; cbn [length be16]; lia). rewrite wr16_at by (done || (rewrite ?length_app; cbn [length be16]; lia)).
    rewrite memcpy_at by (rewrite ?length_app; cbn [length be16]; lia). unfold connection_id. rewrite <- Hn, (take_ge (c_secret _)) by lia. by rewrite <- !app_assoc.
  - unfold connection_id. rewrite <- Hn, !length_app, Htl, Htr, Hs. cbn [length be16]. lia.
Qed.

(** ** The calls of a run, and what each must answer *)
Inductive Call : Type := CReset | CSeed (a : TcpIsnSeedArgs) | CGenerate (a : TcpIsnGenArgs).
Definition step (w : Work) (c : Call) : Work :=
  match c with
  | CReset => idemip_tcp_isn_reset SECRET BLOCK w
  | CSeed a => idemip_tcp_isn_seed SECRET (put_io w (mkIo a (gen_args (w_io w)) (io_status (w_io w)) (io_isn (w_io w))))
  | CGenerate a => idemip_tcp_isn_generate SECRET BLOCK (put_io w (mkIo (seed_args (w_io w)) a (io_status (w_io w)) (io_isn (w_io w))))
  end.
Definition run (cs : list Call) (w : Work) : Work := fold_left step cs w.

(** What the caller must know: the key and base of the last seed taken; and what a call answers. *)
Record Spec := mkSpec { s_key : option (list Z * Z); s_status : IdemIpStatus; s_isn : Z }.
Definition spec_step (s : Spec) (c : Call) : Spec :=
  match c with
  | CReset => mkSpec None IDEMIP_OK 0
  | CSeed a => match sd_key a with
      | Some k => if SECRET <=? sd_key_len a then mkSpec (Some (take (Z.to_nat SECRET) k, sd_base a)) IDEMIP_OK (s_isn s) else mkSpec (s_key s) IDEMIP_ERR (s_isn s)
      | None => mkSpec (s_key s) IDEMIP_ERR (s_isn s)
      end
  | CGenerate a => match s_key s, ga_local_ip a, ga_remote_ip a with
      | Some (k, base), Some l, Some r =>
          if (ga_ip_version a =? 4) || (ga_ip_version a =? 6) then mkSpec (s_key s) IDEMIP_OK (isn_of k base a l r) else mkSpec (s_key s) IDEMIP_ERR 0
      | _, _, _ => mkSpec (s_key s) IDEMIP_ERR 0
      end
  end.

(** A key has the octets it says, an address the octets of its version, a port sixteen bits. *)
Definition call_ok (c : Call) : Prop :=
  match c with
  | CReset => True
  | CSeed a => ∀ k, sd_key a = Some k → sd_key_len a ≤ Z.of_nat (length k)
  | CGenerate a => is_u16 (ga_local_port a) ∧ is_u16 (ga_remote_port a) ∧
      (∀ l, ga_local_ip a = Some l → tcp_isn_addr_len (ga_ip_version a) ≤ Z.of_nat (length l)) ∧
      (∀ r, ga_remote_ip a = Some r → tcp_isn_addr_len (ga_ip_version a) ≤ Z.of_nat (length r))
  end.

(** Between calls nothing of a key is left but the context's. *)
Record clean (w : Work) : Prop := mkClean {
  cl_block : w_block w = replicate (Z.to_nat BLOCK) 0; cl_state : w_state w = replicate 8 0; cl_sched : w_sched w = replicate 16 0; cl_pad : w_pad w = replicate 64 0 }.
Record follows (w : Work) (s : Spec) : Prop := mkFollows {
  fo_clean : clean w;
  fo_ready : c_ready (w_ctx w) = TCP_ISN_READY;
  fo_len : length (c_secret (w_ctx w)) = Z.to_nat SECRET;
  fo_key : s_key s = if c_keyed (w_ctx w) then Some (c_secret (w_ctx w), c_base (w_ctx w)) else None;
  fo_status : io_status (w_io w) = s_status s;
  fo_isn : io_isn (w_io w) = s_isn s }.

Lemma clean_zero w : clean (scratch_zero BLOCK w).
Proof. done. Qed.

Lemma reset_follows w s : follows (idemip_tcp_isn_reset SECRET BLOCK w) (spec_step s CReset).
Proof. split; [done|done| |done..]. change (c_secret _) with (replicate (Z.to_nat SECRET) 0). by rewrite length_replicate. Qed.

Lemma seed_follows w s a : follows w s → call_ok (CSeed a) → follows (step w (CSeed a)) (spec_step s (CSeed a)).
Proof.
  intros [[Hb Hst Hsc Hp] Hrd Hlen Hk _ Hisn] Hok. cbn [step spec_step call_ok] in *. unfold idemip_tcp_isn_seed. cbv zeta. change (sd_key (seed_args _)) with (sd_key a).
  destruct (sd_key a) as [k|]; [|by split]. specialize (Hok k eq_refl). change (c_ready (w_ctx (put_io w _))) with (c_ready (w_ctx w)). rewrite Hrd, Z.eqb_refl. cbn [negb orb].
  change (sd_key_len (seed_args _)) with (sd_key_len a). rewrite Z.ltb_antisym. destruct (Z.leb_spec SECRET (sd_key_len a)) as [Hle|Hlt]; cbn [negb]; [|by split].
  assert (memcpy (c_secret (w_ctx w)) 0 k SECRET = take (Z.to_nat SECRET) k) as E.
  { unfold memcpy. change (take (Z.to_nat 0) _) with (@nil Z). cbn [app]. rewrite drop_ge by (rewrite Hlen, Z.add_0_l; lia). apply app_nil_r. }
  assert (length (take (Z.to_nat SECRET) k) = Z.to_nat SECRET) as El by (rewrite length_take; lia).
  split; [done|done| | |done|done].
  - change (length (memcpy (c_secret (w_ctx w)) 0 k SECRET) = Z.to_nat SECRET). by rewrite E.
  - change (Some (take (Z.to_nat SECRET) k, sd_base a) = Some (memcpy (c_secret (w_ctx w)) 0 k SECRET, sd_base a)). by rewrite E.
Qed.

Lemma derive_spec w a l r n : clean w → gen_args (w_io w) = a → n = tcp_isn_addr_len (ga_ip_version a) → length (c_secret (w_ctx w)) = Z.to_nat SECRET → call_ok (CGenerate a) →
  ga_local_ip a = Some l → ga_remote_ip a = Some r →
  ∃ w', tcp_isn_derive SECRET BLOCK w l r n = (scratch_zero BLOCK w', isn_of (c_secret (w_ctx w)) (c_base (w_ctx w)) a l r) ∧ w_ctx w' = w_ctx w ∧ w_io w' = w_io w.
Proof.
  intros [Hb Hst Hsc Hp] Ha Hn Hs (Hlp & Hrp & Hl & Hr) El Er. rewrite <- Hn in Hl, Hr. unfold tcp_isn_derive.
  assert (length (w_block w) = Z.to_nat BLOCK) as Hbl by (by rewrite Hb, length_replicate).
  destruct (lay_spec w a l r n Ha Hn Hbl Hs Hlp Hrp (Hl l El) (Hr r Er)) as (w1 & -> & Ew & Hid). set (id := connection_id (c_secret (w_ctx w)) a l r) in *. cbv zeta.
  assert (n ≤ 16) as Hn16 by (subst n; unfold tcp_isn_addr_len, IDEMIP_TCP_ISN_ADDR_BYTES; repeat case_match; lia).
  assert (0 ≤ n) as Hn0 by (subst n; unfold tcp_isn_addr_len, IDEMIP_TCP_ISN_ADDR_BYTES; repeat case_match; lia). unfold IDEMIP_TCP_ISN_ADDR_BYTES in Hblock.
  assert (w_block w1 = wr (w_block w) id) as Hb1 by (by rewrite Ew).
  assert (shaped w1) as Hsh by (rewrite Ew; split; [change (w_sched _) with (w_sched w); by rewrite Hsc|change (w_pad _) with (w_pad w); by rewrite Hp]).
  destruct (prf_spec w1 (2 * n + 4 + SECRET) Hsh) as (Hf & Hc & Hi); [|lia|].
  { rewrite Hb1. unfold wr. rewrite length_app, length_drop, Hbl. lia. }
  exists (tcp_isn_prf w1 (2 * n + 4 + SECRET)). rewrite Hf, Hc, Hi, Hb1. unfold wr. rewrite take_app_length' by lia. rewrite Ew.
  change (w_ctx (w <| w_block := _ |>)) with (w_ctx w). change (w_io (w <| w_block := _ |>)) with (w_io w). rewrite Ha. split_and!; [|done|done]. f_equal.
  unfold isn_of. fold id. rewrite u32_add_l, <- Z.add_assoc, (Z.add_comm (c_base _)), <- Z.add_assoc, u32_add_l. f_equal. unfold IDEMIP_TCP_ISN_TICKS_PER_MS. lia.
Qed.

Lemma addr_len_zero v : (tcp_isn_addr_len v =? 0) = negb ((v =? 4) || (v =? 6)).
Proof. unfold tcp_isn_addr_len. by destruct (v =? 4), (v =? 6). Qed.

Lemma generate_follows w s a : follows w s → call_ok (CGenerate a) → follows (step w (CGenerate a)) (spec_step s (CGenerate a)).
Proof.
  intros [Hcl Hrd Hlen Hk _ _] Hok. cbn [step spec_step]. unfold idemip_tcp_isn_generate. cbv zeta. set (w0 := put_io w _). set (io := _ <| io_isn := 0 |>).
  change (ga_local_ip (gen_args io)) with (ga_local_ip a). change (ga_remote_ip (gen_args io)) with (ga_remote_ip a). change (ga_ip_version (gen_args io)) with (ga_ip_version a).
  change (c_ready (w_ctx w0)) with (c_ready (w_ctx w)). change (c_keyed (w_ctx w0)) with (c_keyed (w_ctx w)). rewrite Hk, Hrd, Z.eqb_refl, addr_len_zero. cbn [negb orb].
  assert (∀ st, follows (put_io w0 (io <| io_status := st |>)) (mkSpec (if c_keyed (w_ctx w) then Some (c_secret (w_ctx w), c_base (w_ctx w)) else None) st 0)) as Href by (intros st; destruct Hcl; by split).
  destruct (c_keyed (w_ctx w)) eqn:Ek; cbn [negb]; [|by destruct (ga_local_ip a), (ga_remote_ip a); apply (Href IDEMIP_ERR)].
  destruct (ga_local_ip a) as [l|] eqn:El; [|by apply (Href IDEMIP_ERR)]. destruct (ga_remote_ip a) as [r|] eqn:Er; [|by apply (Href IDEMIP_ERR)].
  destruct ((ga_ip_version a =? 4) || (ga_ip_version a =? 6)); cbn [negb]; [|by apply (Href IDEMIP_ERR)].
  destruct (derive_spec (put_io w0 io) a l r _ ltac:(by destruct Hcl) eq_refl eq_refl Hlen Hok El Er) as (w' & -> & Hc & Hi).
  split; [by split| | | |done|done]; change (w_ctx (put_io (scratch_zero BLOCK w') _)) with (w_ctx w'); rewrite Hc; [exact Hrd|exact Hlen|].
  change (w_ctx (put_io w0 io)) with (w_ctx w). by rewrite Ek.
Qed.

Lemma step_follows w s c : follows w s → call_ok c → follows (step w c) (spec_step s c).
Proof. intros Hf Hc. destruct c; [apply reset_follows|by apply seed_follows|by apply generate_follows]. Qed.

(** C30. From a reset, every call answers as RFC 6528 has it: a generate reports the seeded base, plus 250
    ticks for every millisecond, plus the first word of the SHA-256 of FIPS 180-4 over the addresses, the
    ports and the secret of the last seed, modulo 2^32; it is refused before a seed, without both addresses
    and for any version but 4 and 6; a seed is refused without a key of the length; and after any call the
    block and the hash's working set hold nothing of the key. *)
Theorem isn_follows_rfc6528 w cs s0 : Forall call_ok cs →
  let w' := run cs (idemip_tcp_isn_reset SECRET BLOCK w) in let s := fold_left spec_step cs (spec_step s0 CReset) in
  io_status (w_io w') = s_status s ∧ io_isn (w_io w') = s_isn s ∧ clean w'.
Proof.
  intros Hcs. cbv zeta. pose proof (reset_follows w s0) as Hf. revert Hf. generalize (idemip_tcp_isn_reset SECRET BLOCK w), (spec_step s0 CReset).
  induction Hcs as [|c cs Hc Hcs IH]; intros w1 s Hf; [by destruct Hf|]. cbn [run fold_left]. apply IH. by apply step_follows.
Qed.

(** One connection's numbers rise by 250 a millisecond, across the wrap of the clock too. *)
Lemma isn_rises k base a l r d : let later := mkGenArgs (ga_local_ip a) (ga_remote_ip a) (u32 (ga_now_ms a + d)) (ga_local_port a) (ga_remote_port a) (ga_ip_version a) in
  isn_of k base later l r = u32 (isn_of k base a l r + 250 * d).
Proof.
  cbv zeta. unfold isn_of, connection_id. cbn [ga_ip_version ga_local_port ga_remote_port ga_now_ms]. set (F := tget _ _). unfold u32. Z.div_mod_to_equations. lia.
Qed.
End Build.

(** ** A key, and a connection's number a second apart *)
Definition sample_key : list Z := seqZ 1 16.
Definition sample_gen (now : Z) : TcpIsnGenArgs := mkGenArgs (Some [192; 0; 2; 1]) (Some [192; 0; 2; 2]) now 49152 80 4.
Definition sample_calls : list Call := [CSeed (mkSeedArgs (Some sample_key) 16 7); CGenerate (sample_gen 1000); CGenerate (sample_gen 2000)].
Definition sample_work : Work := mkWork (mkIo (mkSeedArgs None 0 0) (sample_gen 0) IDEMIP_OK 0) (mkCtx 0 0 [] false) [] [] [] [].

Lemma isn_follows_rfc6528_witness : let w' := run 16 64 sample_calls (idemip_tcp_isn_reset 16 64 sample_work) in
  io_status (w_io w') = IDEMIP_OK ∧ w_block w' = replicate 64 0 ∧
  io_isn (w_io w') = u32 (7 + 250 * 2000 + tget (sha256 ([192; 0; 2; 1; 192; 0; 192; 0; 2; 2; 0; 80] ++ sample_key)) 0).
Proof.
  destruct (isn_follows_rfc6528 16 64 ltac:(lia) ltac:(unfold IDEMIP_TCP_ISN_ADDR_BYTES; lia) sample_work sample_calls (mkSpec None IDEMIP_OK 0)) as (Hs & Hi & Hc).
  - assert (∀ now, call_ok (CGenerate (sample_gen now))) as Hg by (intros now; split_and!; [unfold is_u16; cbn; lia..| |]; intros ? [= <-]; cbn; lia).
    unfold sample_calls. apply List.Forall_cons; [intros ? [= <-]; vm_compute; done|]. apply List.Forall_cons; [apply Hg|]. apply List.Forall_cons; [apply Hg|apply List.Forall_nil].
  - cbv zeta. split; [rewrite Hs; vm_compute; reflexivity|]. split; [apply Hc|]. rewrite Hi. vm_compute. reflexivity.
Defined.
End IsnThms.
