(* ===== verification/TcpOutThms.v ===== *)
(** * The send decision (src/tcp/tcp_out.c)

    The send decision against RFC 9293 section 3.8.6.2.1, stated in unbounded arithmetic. *)
From S2P Require Import Prelude Base Tcp TcpTypes TcpOut.

Module TcpOutThms.
Import Tcp TcpOut.

(** ** The send decision *)

(** A borrow a send accepts: its variables fit their widths and no more is outstanding than the sequence space's half. *)
Definition sendable (w : Work) : Prop :=
  let io := w_io w in
  oready (w_ctx w) = TCP_OUT_READY ∧ 0 < s_eff_snd_mss (send_args io) ∧ vars_ok (ovars io) ∧
  is_u32 (s_queued (send_args io)) ∧ is_u32 (cwnd (octl io)) ∧ is_u32 (max_snd_wnd (octl io)) ∧
  s_eff_snd_mss (send_args io) < 65536 ∧
  u32 (snd_nxt (ovars io) - snd_una (ovars io)) ≤ 0x80000000 ∧
  snd_wnd (ovars io) - u32 (snd_nxt (ovars io) - snd_una (ovars io)) < 0x80000000.

(** RFC 5681 section 3.1's initial window, over unbounded integers. *)
Definition initial_window (smss : Z) : Z :=
  if decide (2190 < smss) then 2 * smss else if decide (1095 < smss) then 3 * smss else 4 * smss.

(** RFC 5681 section 4.1: an idle connection restarts from no more than the initial window. *)
Definition restart_cwnd (io : TcpOutIo) : Z :=
  let c := octl io in
  if decide (last_send_ms c ≠ 0 ∧ rto c ≠ 0 ∧ rto c < u32 (s_now_ms (send_args io) - last_send_ms c))
  then Z.min (cwnd c) (initial_window (s_eff_snd_mss (send_args io))) else cwnd c.

(** The usable window of section 3.8.6.2.1 under what the congestion window leaves outstanding. *)
Definition usable_window (io : TcpOutIo) : Z :=
  let flight := u32 (snd_nxt (ovars io) - snd_una (ovars io)) in
  Z.max 0 (Z.min (snd_wnd (ovars io) - flight) (restart_cwnd io - flight)).

(** The four rules that transmit now, Nagle's condition on the second and third. *)
Definition sends (io : TcpOutIo) : Prop :=
  let s := send_args io in
  let u := usable_window io in
  let m := Z.min (s_queued s) u in
  let nagle := s_nodelay s = true ∨ snd_nxt (ovars io) = snd_una (ovars io) in
  s_eff_snd_mss s ≤ m ∨ (nagle ∧ s_push s = true ∧ 0 < s_queued s ≤ u) ∨
  (nagle ∧ 0 < m ∧ max_snd_wnd (octl io) / 2 ≤ m) ∨ (s_force s = true ∧ 0 < m).

Lemma tcp_out_iw_eq smss : 0 < smss < 65536 → tcp_out_iw smss = initial_window smss.
Proof.
  intros H. unfold tcp_out_iw, initial_window, IDEMIP_TCP_IW_SMSS_HI, IDEMIP_TCP_IW_SMSS_LO.
  rewrite !Z.shiftl_mul_pow2 by lia. repeat case_decide; repeat split_if; try lia; autorewrite with u32;
    rewrite ?u32_id by (unfold is_u32; lia); lia.
Qed.

Lemma send_restart_eq io : 0 < s_eff_snd_mss (send_args io) < 65536 →
  send_restart io = io <| octl := (octl io) <| cwnd := restart_cwnd io |> |>.
Proof.
  intros H. unfold send_restart, restart_cwnd. rewrite tcp_out_iw_eq by done.
  destruct (Z.eqb_spec (last_send_ms (octl io)) 0); cbn [negb andb].
  2: destruct (Z.eqb_spec (rto (octl io)) 0); cbn [negb andb].
  3: destruct (Z.ltb_spec (rto (octl io)) (u32 (s_now_ms (send_args io) - last_send_ms (octl io)))).
  3:{ rewrite decide_True by done. cbv zeta. set (iw := initial_window _).
      replace (if cwnd (octl io) <? iw then cwnd (octl io) else iw) with (Z.min (cwnd (octl io)) iw); [done|].
      destruct (Z.ltb_spec (cwnd (octl io)) iw); lia. }
  all: rewrite decide_False by tauto || lia; destruct io as [? ? ? ? ? []]; done.
Qed.

Lemma send_usable_eq w : sendable w → send_usable ((w_io w) <| octl := (octl (w_io w)) <| cwnd := restart_cwnd (w_io w) |> |>) =
  usable_window (w_io w).
Proof.
  intros (_&Hm&Hv&_&Hc&_&Hm'&Hf&Hd). unfold send_usable, usable_window, tcp_out_from.
  change (cwnd (octl (_ <| octl := _ |>))) with (restart_cwnd (w_io w)). change (ovars (_ <| octl := _ |>)) with (ovars (w_io w)).
  autorewrite with u32. destruct Hv as (Hu&Hn&Hw&_). set (v := ovars (w_io w)) in *.
  set (f := u32 (snd_nxt v - snd_una v)) in *. pose proof (u32_range (snd_nxt v - snd_una v)) as Hfr. fold f in Hfr.
  assert (u32 (snd_una v + snd_wnd v - snd_nxt v) = u32 (snd_wnd v - f)) as ->.
  { subst f. autorewrite with u32. f_equal. lia. }
  clearbody f. generalize (restart_cwnd (w_io w)). intros c. cbv zeta.
  assert (u32 (snd_wnd v - f) = if decide (f ≤ snd_wnd v) then snd_wnd v - f else snd_wnd v - f + 4294967296) as ->.
  { case_decide; wrap. }
  unfold is_u32 in *. repeat case_decide; repeat split_if; lia.
Qed.

Lemma send_rules_iff w : sendable w →
  send_rules ((w_io w) <| octl := (octl (w_io w)) <| cwnd := restart_cwnd (w_io w) |> |>) (usable_window (w_io w)) = true ↔
  sends (w_io w).
Proof.
  intros (_&Hm&Hv&Hq&_&Hx&Hm'&_). unfold send_rules, sends. cbv zeta.
  change (send_args (_ <| octl := _ |>)) with (send_args (w_io w)). change (ovars (_ <| octl := _ |>)) with (ovars (w_io w)).
  change (max_snd_wnd (octl (_ <| octl := _ |>))) with (max_snd_wnd (octl (w_io w))). unfold IDEMIP_TCP_SWS_FS_SHIFT, tcp_out_from.
  rewrite Z.shiftr_div_pow2 by lia. change (2 ^ 1) with 2. destruct Hv as (Hu&Hn&_).
  set (u := usable_window (w_io w)). assert (0 ≤ u) as H0 by (subst u; unfold usable_window; lia). clearbody u.
  set (s := send_args (w_io w)) in *. clearbody s.
  set (d := s_queued s) in *. replace (if d <? u then d else u) with (Z.min d u) by (destruct (Z.ltb_spec d u); lia).
  assert (u32 (snd_nxt (ovars (w_io w)) - snd_una (ovars (w_io w))) = 0 ↔ snd_nxt (ovars (w_io w)) = snd_una (ovars (w_io w))) as Hfl by wrap.
  set (fl := u32 _) in *. clearbody fl. unfold is_u32 in *.
  rewrite <- Hfl. destruct (s_nodelay s), (s_push s), (s_force s); cbn [orb andb];
    repeat split_if; bool_prop; rewrite ?andb_true_iff, ?orb_true_iff, ?negb_true_iff, ?Z.eqb_eq, ?Z.eqb_neq, ?Z.leb_le in *; split; intros; try done;
    try lia; intuition (discriminate || lia).
Qed.

(** C14. The send decision is RFC 9293 section 3.8.6.2.1's, computed without a wrap: it transmits exactly when one of the
    four rules holds of the usable window under the congestion window an idle connection restarts from, never more
    than a segment, than is queued, than the peer's window or than the congestion window leaves. *)
Theorem send_follows_rfc9293 w : sendable w →
  let io := w_io w in let io' := w_io (idemip_tcp_out_send w) in
  let flight := u32 (snd_nxt (ovars io) - snd_una (ovars io)) in
  ostatus io' = IDEMIP_OK ∧ usable (ores io') = usable_window io ∧ cwnd (octl io') = restart_cwnd io ∧
  (send_now (ores io') = true ↔ sends io) ∧
  send_len (ores io') = (if send_now (ores io') then Z.min (s_eff_snd_mss (send_args io)) (Z.min (s_queued (send_args io)) (usable_window io)) else 0) ∧
  (send_now (ores io') = true → 0 < send_len (ores io') ∧ flight + send_len (ores io') ≤ snd_wnd (ovars io) ∧
     flight + send_len (ores io') ≤ cwnd (octl io')) ∧
  ovars io' = ovars io.
Proof.
  intros Hs io io' flight. subst io'. unfold idemip_tcp_out_send. cbv zeta.
  pose proof Hs as (Hr&Hm&Hv&Hq&Hc&_&Hm'&Hf&Hd). fold io in Hm, Hv, Hq, Hc, Hm', Hf, Hd.
  fold io. set (r0 := (ores io) <| usable := 0 |> <| send_len := 0 |> <| send_now := false |>).
  set (io1 := (io <| ostatus := IDEMIP_ERR |> <| ores := r0 |>) <| ostatus := IDEMIP_OK |>).
  change (s_eff_snd_mss (send_args (io <| ostatus := IDEMIP_ERR |> <| ores := r0 |>))) with (s_eff_snd_mss (send_args io)).
  rewrite Hr. change (negb (TCP_OUT_READY =? TCP_OUT_READY)) with false. rewrite (proj2 (Z.eqb_neq (s_eff_snd_mss _) 0)) by lia.
  cbn [orb].
  set (w1 := w <| w_io := io1 |>). assert (sendable w1) as Hs1 by exact Hs.
  rewrite (send_restart_eq io1) by (change (send_args io1) with (send_args io); lia).
  pose proof (send_usable_eq w1 Hs1) as Hu. change (w_io w1) with io1 in Hu. rewrite Hu. clear Hu.
  pose proof (send_rules_iff w1 Hs1) as Hi. change (w_io w1) with io1 in Hi.
  change (usable_window io1) with (usable_window io) in *. change (sends io1) with (sends io) in Hi.
  change (restart_cwnd io1) with (restart_cwnd io) in *.
  set (io2 := io1 <| octl := (octl io1) <| cwnd := restart_cwnd io |> |>) in *.
  set (u := usable_window io) in *.
  change (send_rules (io2 <| ores := (ores io2) <| usable := u |> |>) u) with (send_rules io2 u).
  change (send_args (io2 <| ores := (ores io2) <| usable := u |> |>)) with (send_args io).
  set (d := s_queued (send_args io)) in *. set (mss := s_eff_snd_mss (send_args io)) in *.
  replace (if d <? u then d else u) with (Z.min d u) by (destruct (Z.ltb_spec d u); lia).
  replace (if mss <? Z.min d u then mss else Z.min d u) with (Z.min mss (Z.min d u)) by (destruct (Z.ltb_spec mss (Z.min d u)); lia).
  assert (u = Z.max 0 (Z.min (snd_wnd (ovars io) - flight) (restart_cwnd io - flight))) as Hu by done.
  destruct (send_rules io2 u) eqn:E.
  - assert (0 < Z.min mss (Z.min d u)) as Hpos.
    { assert (sends io) as Hse by tauto. unfold sends in Hse. fold d u mss in Hse. lia. }
    rewrite (proj2 (Z.eqb_neq (Z.min mss (Z.min d u)) 0)) by lia. split_and!; try done.
    intros _. change (0 < Z.min mss (Z.min d u) ∧ flight + Z.min mss (Z.min d u) ≤ snd_wnd (ovars io) ∧
      flight + Z.min mss (Z.min d u) ≤ restart_cwnd io). lia.
  - split_and!; done.
Qed.

(** Two segments' worth left by the congestion window on a busy connection, the sequence numbers about to wrap. *)
Definition sending : Work :=
  mkWork (mkIo (mkBuildArgs None None None None 0 0 0 0 0 0 0 0 0 0 0 0 0 0 0 0 0) (mkSendArgs 5000 1460 900 false false false)
    (mkTimerArgs 0 0 0 0 0 false) (mkSegArgs 0 0 0 0)
    (vars_zero <| snd_una := 0xFFFFFF00 |> <| snd_nxt := 0x100 |> <| snd_wnd := 65535 |>)
    (ctl_zero <| cwnd := 4000 |> <| max_snd_wnd := 65535 |>) IDEMIP_TCP_STATE_ESTABLISHED IDEMIP_ERR (mkReply 0 0 0)
    (mkResult 0 0 0 0 false false)) (mkCtx TCP_OUT_READY).

Lemma sending_ok : sendable sending.
Proof. unfold sendable, vars_ok, is_u32. vm_compute. split_and!; (reflexivity || discriminate). Qed.

Lemma send_follows_rfc9293_witness :
  sends (w_io sending) ∧ send_now (ores (w_io (idemip_tcp_out_send sending))) = true ∧
  send_len (ores (w_io (idemip_tcp_out_send sending))) = 1460.
Proof.
  destruct (send_follows_rfc9293 sending sending_ok) as (_&_&_&Hi&Hl&_).
  assert (sends (w_io sending)) as Hs by (left; vm_compute; congruence).
  split; [exact Hs|]. split; [by apply Hi|]. rewrite Hl. reflexivity.
Defined.
End TcpOutThms.
