(* ===== verification/TcpTimer.v ===== *)
(** * The retransmission timer and congestion control (src/tcp/tcp_out.c)

    The retransmission timeout within its bounds whatever the calls; the times a timer that keeps expiring
    falls at; the estimator between the samples it saw; congestion avoidance and fast recovery against
    RFC 5681. *)
From stdpp Require Import relations.
From S2P Require Import Prelude Base Tcp TcpTypes TcpOut.

Module TcpTimer.
Import Tcp TcpOut.

(** ** The retransmission timeout *)
Definition entries : list (Work → Work) :=
  [idemip_tcp_out_send; idemip_tcp_out_ack; idemip_tcp_out_rst; idemip_tcp_out_rtt; idemip_tcp_out_rtx_arm;
   idemip_tcp_out_rtx_stop; idemip_tcp_out_rtx_restart; idemip_tcp_out_rtx_expire; idemip_tcp_out_cc_init;
   idemip_tcp_out_cc_ack; idemip_tcp_out_cc_dupack; idemip_tcp_out_cc_recover].

(** A caller's step: new operands around the same control record, or one of the unit's calls. *)
Inductive out_step : Work → Work → Prop :=
  | step_operands w io : octl io = octl (w_io w) → out_step w (w <| w_io := io |>)
  | step_build w word swap v4 v6 : out_step w (idemip_tcp_out_build word swap v4 v6 w)
  | step_entry w f : f ∈ entries → out_step w (f w).

Definition rto_ok (c : TcpPcbCtl) : Prop := rto c = 0 ∨ 1000 ≤ rto c ≤ 60000.

Lemma rto_bound_ok x : 1000 ≤ tcp_out_rto_bound x ≤ 60000.
Proof. unfold tcp_out_rto_bound, IDEMIP_TCP_RTO_MIN_MS, IDEMIP_TCP_RTO_MAX_MS. repeat split_if; lia. Qed.

Lemma rto_init_ok c : rto_ok c → 1000 ≤ rto (rto_init c) ≤ 60000.
Proof.
  unfold rto_ok, rto_init. intros H. destruct (Z.eqb_spec (rto c) 0); [|lia].
  change (rto (c <| rto := _ |>)) with IDEMIP_TCP_RTO_INIT_MS. unfold IDEMIP_TCP_RTO_INIT_MS. lia.
Qed.

Lemma build_keeps_ctl word swap v4 v6 w : octl (w_io (idemip_tcp_out_build word swap v4 v6 w)) = octl (w_io w).
Proof. unfold idemip_tcp_out_build. cbv zeta. repeat case_match; reflexivity. Qed.

(** *** One expiry's three steps, field by field *)
Lemma expire_loss_keeps t c : rto (expire_loss t c) = rto c ∧ nrtx (expire_loss t c) = nrtx c ∧ backoff (expire_loss t c) = backoff c ∧
  ctl_r2 (expire_loss t c) = ctl_r2 c ∧ ctl_r2_syn (expire_loss t c) = ctl_r2_syn c ∧ cwnd (expire_loss t c) = t_smss t.
Proof. unfold expire_loss. destruct (negb (t_resent t)); done. Qed.

Lemma expire_count_keeps hs c : rto (expire_count hs c) = rto c ∧ rtx_deadline (expire_count hs c) = rtx_deadline c ∧
  ctl_r2 (expire_count hs c) = ctl_r2 c ∧ ctl_r2_syn (expire_count hs c) = ctl_r2_syn c ∧
  cwnd (expire_count hs c) = cwnd c ∧ ssthresh (expire_count hs c) = ssthresh c.
Proof.
  unfold expire_count. set (c1 := if hs then _ else c).
  assert (rto c1 = rto c ∧ rtx_deadline c1 = rtx_deadline c ∧ ctl_r2 c1 = ctl_r2 c ∧ ctl_r2_syn c1 = ctl_r2_syn c ∧
    cwnd c1 = cwnd c ∧ ssthresh c1 = ssthresh c) as H by (subst c1; destruct hs; done).
  clearbody c1. destruct (nrtx c1 <? 255); [set (c2 := c1 <| nrtx := _ |>)|set (c2 := c1)];
    (assert (rto c2 = rto c ∧ rtx_deadline c2 = rtx_deadline c ∧ ctl_r2 c2 = ctl_r2 c ∧ ctl_r2_syn c2 = ctl_r2_syn c ∧
       cwnd c2 = cwnd c ∧ ssthresh c2 = ssthresh c) as H2 by exact H; clearbody c2; destruct (backoff c2 <? 255); exact H2).
Qed.

Lemma deadline_runs now r : tcp_out_deadline now r ≠ TCP_OUT_RTX_OFF.
Proof.
  unfold tcp_out_deadline, TCP_OUT_RTX_OFF. destruct (Z.eqb_spec (u32 (now + r)) 0) as [->|]; [vm_compute; congruence|done].
Qed.

Lemma send_keeps_rto w : rto (octl (w_io (idemip_tcp_out_send w))) = rto (octl (w_io w)).
Proof.
  unfold idemip_tcp_out_send. destruct (_ || _); [done|].
  assert (∀ io, rto (octl (send_restart io)) = rto (octl io)) as Hr.
  { intros io. unfold send_restart. case_match; done. }
  cbv zeta. set (io1 := (_ <| ores := _ |>) <| ostatus := IDEMIP_OK |>).
  change (rto (octl (w_io w))) with (rto (octl io1)). rewrite <- (Hr io1). clearbody io1. generalize (send_restart io1). intros io2.
  destruct (send_rules _ _); [|done]. case_match; done.
Qed.

Lemma arm_rto w : rto_ok (octl (w_io w)) → ostatus (w_io (idemip_tcp_out_rtx_arm w)) = IDEMIP_OK →
  1000 ≤ rto (octl (w_io (idemip_tcp_out_rtx_arm w))) ≤ 60000 ∧ rtx_deadline (octl (w_io (idemip_tcp_out_rtx_arm w))) ≠ TCP_OUT_RTX_OFF.
Proof.
  intros H. pose proof (rto_init_ok _ H) as Hi. unfold idemip_tcp_out_rtx_arm. destruct (negb _); [done|]. intros _.
  change (octl ((w_io w) <| ostatus := IDEMIP_ERR |>)) with (octl (w_io w)).
  set (c := rto_init (octl (w_io w))) in *. clearbody c.
  set (c1 := if (_ && _) then _ else c). assert (1000 ≤ rto c1 ≤ 60000) as H1.
  { subst c1. destruct (_ && _); [|done]. destruct (rto c <? IDEMIP_TCP_RTO_SYN_FLOOR_MS); [split; done|exact Hi]. }
  clearbody c1. destruct (Z.eqb_spec (rtx_deadline c1) TCP_OUT_RTX_OFF); (split; [exact H1|]); [apply deadline_runs|done].
Qed.

Lemma restart_rto w : rto_ok (octl (w_io w)) → ostatus (w_io (idemip_tcp_out_rtx_restart w)) = IDEMIP_OK →
  1000 ≤ rto (octl (w_io (idemip_tcp_out_rtx_restart w))) ≤ 60000 ∧ rtx_deadline (octl (w_io (idemip_tcp_out_rtx_restart w))) ≠ TCP_OUT_RTX_OFF.
Proof.
  intros H. pose proof (rto_init_ok _ H) as Hi. unfold idemip_tcp_out_rtx_restart. destruct (negb _); [done|]. intros _.
  split; [exact Hi|apply deadline_runs].
Qed.

(** An expiry the unit takes, as its three steps. *)
Lemma expire_ctl w : oready (w_ctx w) = TCP_OUT_READY → t_smss (timer_args (w_io w)) ≠ 0 →
  let io := w_io w in let io' := w_io (idemip_tcp_out_rtx_expire w) in
  let c := expire_count (in_handshake (ostate io)) (expire_backoff (t_now_ms (timer_args io)) (expire_loss (timer_args io) (octl io))) in
  ostatus io' = IDEMIP_OK ∧ octl io' = c ∧ ostate io' = ostate io ∧ timer_args io' = timer_args io ∧
  res_r2 (ores io') = (let r2 := if in_handshake (ostate io) then ctl_r2_syn c else ctl_r2 c in negb (r2 =? 0) && (r2 <=? nrtx c)) ∧
  w_ctx (idemip_tcp_out_rtx_expire w) = w_ctx w.
Proof.
  intros Hr Hs io io' c. subst io'. unfold idemip_tcp_out_rtx_expire. rewrite Hr. change (negb (TCP_OUT_READY =? TCP_OUT_READY)) with false.
  change (t_smss (timer_args (_ <| ores := _ |>))) with (t_smss (timer_args (w_io w))). rewrite (proj2 (Z.eqb_neq _ 0)) by done.
  cbn [orb]. cbv iota. fold io.
  change (ostate (_ <| ores := _ |>)) with (ostate io). change (timer_args (_ <| ores := _ |>)) with (timer_args io).
  change (octl (_ <| ores := _ |>)) with (octl io). fold c. clearbody c. set (b := negb _ && _). destruct b; done.
Qed.

Lemma expire_rto w : ostatus (w_io (idemip_tcp_out_rtx_expire w)) = IDEMIP_OK →
  1000 ≤ rto (octl (w_io (idemip_tcp_out_rtx_expire w))) ≤ 60000 ∧ rtx_deadline (octl (w_io (idemip_tcp_out_rtx_expire w))) ≠ TCP_OUT_RTX_OFF.
Proof.
  intros H. destruct (decide (oready (w_ctx w) = TCP_OUT_READY)) as [Hr|Hr].
  2:{ unfold idemip_tcp_out_rtx_expire in H. rewrite (proj2 (Z.eqb_neq _ _)) in H by done. done. }
  destruct (decide (t_smss (timer_args (w_io w)) = 0)) as [Hs|Hs].
  { unfold idemip_tcp_out_rtx_expire in H. change (t_smss (timer_args (_ <| ores := _ |>))) with (t_smss (timer_args (w_io w))) in H.
    rewrite Hs, orb_true_r in H. done. }
  destruct (expire_ctl w Hr Hs) as (_&->&_). destruct (expire_count_keeps (in_handshake (ostate (w_io w)))
    (expire_backoff (t_now_ms (timer_args (w_io w))) (expire_loss (timer_args (w_io w)) (octl (w_io w))))) as (->&->&_).
  split; [apply rto_bound_ok|apply deadline_runs].
Qed.

Lemma expire_err w : ostatus (w_io (idemip_tcp_out_rtx_expire w)) ≠ IDEMIP_OK → octl (w_io (idemip_tcp_out_rtx_expire w)) = octl (w_io w).
Proof.
  intros H. destruct (decide (oready (w_ctx w) = TCP_OUT_READY)) as [Hr|Hr].
  - destruct (decide (t_smss (timer_args (w_io w)) = 0)) as [Hs|Hs].
    + unfold idemip_tcp_out_rtx_expire. change (t_smss (timer_args (_ <| ores := _ |>))) with (t_smss (timer_args (w_io w))).
      by rewrite Hs, orb_true_r.
    + by destruct (expire_ctl w Hr Hs) as (?&_).
  - unfold idemip_tcp_out_rtx_expire. by rewrite (proj2 (Z.eqb_neq _ _)).
Qed.

Lemma entry_rto_ok f w : f ∈ entries → rto_ok (octl (w_io w)) → rto_ok (octl (w_io (f w))).
Proof.
  intros Hf H. unfold entries in Hf. repeat (apply elem_of_cons in Hf as [->|Hf]); [..|by apply elem_of_nil in Hf].
  - unfold rto_ok. rewrite send_keeps_rto. exact H.
  - unfold idemip_tcp_out_ack. case_match; exact H.
  - unfold idemip_tcp_out_rst. case_match; exact H.
  - unfold idemip_tcp_out_rtt. case_match; [exact H|]. case_match; [exact H|]. right. apply rto_bound_ok.
  - destruct (ostatus (w_io (idemip_tcp_out_rtx_arm w))) eqn:E; [right; by apply arm_rto|..];
      unfold idemip_tcp_out_rtx_arm in *; case_match; try done; exact H.
  - unfold idemip_tcp_out_rtx_stop. case_match; exact H.
  - destruct (ostatus (w_io (idemip_tcp_out_rtx_restart w))) eqn:E; [right; by apply restart_rto|..];
      unfold idemip_tcp_out_rtx_restart in *; case_match; try done; exact H.
  - destruct (ostatus (w_io (idemip_tcp_out_rtx_expire w))) eqn:E; [right; by apply expire_rto|..];
      (rewrite expire_err by (rewrite E; done); exact H).
  - unfold idemip_tcp_out_cc_init. case_match; exact H.
  - unfold idemip_tcp_out_cc_ack, cc_grow. cbv zeta. repeat case_match; exact H.
  - unfold idemip_tcp_out_cc_dupack. case_match; [exact H|]. set (c1 := if dupacks _ <? 0xFF then _ else _).
    assert (rto_ok c1) as H1 by (subst c1; case_match; exact H). clearbody c1. repeat case_match; exact H1.
  - unfold idemip_tcp_out_cc_recover. repeat case_match; exact H.
Qed.

(** C15. RFC 6298 (2.4) and (2.5): on a borrow whose control record starts zeroed, whatever calls follow with whatever
    operands, the retransmission timeout is unset or lies between one second and sixty, and a timer that is armed,
    restarted or backed off runs: its deadline is not the value that means stopped. *)
Theorem rto_always_bounded w0 w : octl (w_io w0) = ctl_zero → rtc out_step (idemip_tcp_out_clear w0) w →
  rto_ok (octl (w_io w)) ∧
  Forall (λ f, ostatus (w_io (f w)) = IDEMIP_OK → 1000 ≤ rto (octl (w_io (f w))) ≤ 60000 ∧ rtx_deadline (octl (w_io (f w))) ≠ TCP_OUT_RTX_OFF)
    [idemip_tcp_out_rtx_arm; idemip_tcp_out_rtx_restart; idemip_tcp_out_rtx_expire].
Proof.
  intros H0 Hr. assert (rto_ok (octl (w_io w))) as Hok.
  { assert (rto_ok (octl (w_io (idemip_tcp_out_clear w0)))) as Hc by (left; change (rto (octl (w_io w0)) = 0); by rewrite H0).
    induction Hr as [x|x y z Hxy _ IH]; [done|]. apply IH. destruct Hxy as [w io E| |w f Hf].
    - change (rto_ok (octl io)). by rewrite E.
    - unfold rto_ok. rewrite build_keeps_ctl. exact Hc.
    - by apply entry_rto_ok. }
  split; [done|]. repeat (apply Forall_cons; split); [by apply arm_rto|by apply restart_rto|apply expire_rto|apply Forall_nil_2].
Qed.

(** A sample of 90 seconds on a fresh record, then an expiry: bounded, and running at the wrap of the clock. *)
Definition timed : Work :=
  mkWork (mkIo (mkBuildArgs None None None None 0 0 0 0 0 0 0 0 0 0 0 0 0 0 0 0 0) (mkSendArgs 0 0 0 false false false)
    (mkTimerArgs (0xFFFFFFFF - 59999) 90000 0 0 1460 false) (mkSegArgs 0 0 0 0) vars_zero ctl_zero
    IDEMIP_TCP_STATE_ESTABLISHED IDEMIP_ERR (mkReply 0 0 0) (mkResult 0 0 0 0 false false)) (mkCtx 0).

Lemma rto_always_bounded_witness :
  let w := idemip_tcp_out_rtt (idemip_tcp_out_clear timed) in
  rto_ok (octl (w_io w)) ∧ rto (octl (w_io w)) = 60000 ∧ rtx_deadline (octl (w_io (idemip_tcp_out_rtx_expire w))) = 1 ∧
  rtx_deadline (octl (w_io (idemip_tcp_out_rtx_expire w))) ≠ TCP_OUT_RTX_OFF.
Proof.
  intros w. assert (rtc out_step (idemip_tcp_out_clear timed) w) as Hr.
  { apply rtc_once, step_entry. unfold entries. do 3 apply list_elem_of_further. apply list_elem_of_here. }
  destruct (rto_always_bounded timed w eq_refl Hr) as [Hok Hf]. split; [exact Hok|].
  split; [reflexivity|]. split; [reflexivity|].
  apply Forall_cons in Hf as [_ Hf]. apply Forall_cons in Hf as [_ Hf]. apply Forall_cons in Hf as [Hf _]. by apply Hf.
Defined.

(** ** A timer that keeps expiring *)

(** The clock read at an instant, and the expiry a caller makes when the deadline falls. *)
Definition at_time (now : Z) (w : Work) : Work :=
  w <| w_io := (w_io w) <| timer_args := mkTimerArgs now (t_sample_ms (timer_args (w_io w))) (t_flight (timer_args (w_io w)))
                                          (t_acked (timer_args (w_io w))) (t_smss (timer_args (w_io w))) (t_resent (timer_args (w_io w))) |> |>.
Definition fall (w : Work) : Work := idemip_tcp_out_rtx_expire (at_time (rtx_deadline (octl (w_io w))) w).
Definition armed (t0 : Z) (w : Work) : Work := idemip_tcp_out_rtx_arm (at_time t0 w).

(** Timeouts doubling from one second under the sixty-second bound, and the time the n-th falls at. *)
Definition timeout (k : nat) : Z := Z.min 60000 (1000 * 2 ^ Z.of_nat k).
Fixpoint falls_at (n : nat) : Z := match n with O => 0 | S n' => falls_at n' + timeout n' end.

(** A record on which nothing has been sent. *)
Definition fresh (w : Work) : Prop :=
  oready (w_ctx w) = TCP_OUT_READY ∧ t_smss (timer_args (w_io w)) ≠ 0 ∧ rto (octl (w_io w)) = 0 ∧
  rtx_deadline (octl (w_io w)) = TCP_OUT_RTX_OFF ∧ nrtx (octl (w_io w)) = 0 ∧ backoff (octl (w_io w)) = 0 ∧
  Z.land (ctl_flags (octl (w_io w))) IDEMIP_TCP_CTL_SYN_RTX = 0.

Definition r2_of (w : Work) : Z := if in_handshake (ostate (w_io w)) then ctl_r2_syn (octl (w_io w)) else ctl_r2 (octl (w_io w)).

(** The timer after [n] expiries: the next one's timeout and deadline, the counts, and what does not move. *)
Definition timer_at (t0 : Z) (w0 : Work) (n : nat) (w : Work) : Prop :=
  oready (w_ctx w) = TCP_OUT_READY ∧ t_smss (timer_args (w_io w)) = t_smss (timer_args (w_io w0)) ∧
  ostate (w_io w) = ostate (w_io w0) ∧ ctl_r2 (octl (w_io w)) = ctl_r2 (octl (w_io w0)) ∧
  ctl_r2_syn (octl (w_io w)) = ctl_r2_syn (octl (w_io w0)) ∧
  rto (octl (w_io w)) = timeout n ∧ nrtx (octl (w_io w)) = Z.min 255 (Z.of_nat n) ∧
  ∃ late, 0 ≤ late ≤ Z.of_nat n + 1 ∧ rtx_deadline (octl (w_io w)) = u32 (t0 + falls_at (S n) + late).

Lemma deadline_late now r : ∃ e, 0 ≤ e ≤ 1 ∧ tcp_out_deadline now r = u32 (now + r + e).
Proof.
  unfold tcp_out_deadline. destruct (u32 (now + r) =? TCP_OUT_RTX_OFF); [exists 1|exists 0]; (split; [lia|]);
    autorewrite with u32; [done|]. by rewrite Z.add_0_r.
Qed.

Lemma timeout_double k : tcp_out_rto_bound (u32 (Z.shiftl (timeout k) 1)) = timeout (S k).
Proof.
  rewrite Z.shiftl_mul_pow2 by lia. unfold timeout. rewrite Nat2Z.inj_succ, Z.pow_succ_r by lia.
  pose proof (Z.pow_pos_nonneg 2 (Z.of_nat k)). rewrite u32_id by (unfold is_u32; lia).
  unfold tcp_out_rto_bound, IDEMIP_TCP_RTO_MIN_MS, IDEMIP_TCP_RTO_MAX_MS. repeat split_if; lia.
Qed.

Lemma armed_at t0 w : fresh w → timer_at t0 w 0 (armed t0 w).
Proof.
  intros (Hr&Hs&H0&Hd&Hn&_&Hf). unfold armed, idemip_tcp_out_rtx_arm.
  change (oready (w_ctx (at_time t0 w))) with (oready (w_ctx w)). rewrite Hr. change (negb (TCP_OUT_READY =? TCP_OUT_READY)) with false.
  cbv iota. change (octl ((w_io (at_time t0 w)) <| ostatus := IDEMIP_ERR |>)) with (octl (w_io w)).
  set (c := octl (w_io w)) in *. unfold rto_init. rewrite H0. change (0 =? 0) with true. cbv iota.
  unfold has. change (ctl_flags (c <| rto := IDEMIP_TCP_RTO_INIT_MS |>)) with (ctl_flags c). rewrite Hf. change (negb (0 =? 0)) with false.
  cbn [andb]. change (rtx_deadline (c <| rto := IDEMIP_TCP_RTO_INIT_MS |>)) with (rtx_deadline c). rewrite Hd.
  change (TCP_OUT_RTX_OFF =? TCP_OUT_RTX_OFF) with true. cbv iota. unfold timer_at. split_and!; try done.
  destruct (deadline_late t0 1000) as (e&He&Hde). exists e. split; [lia|]. exact Hde.
Qed.

Lemma expire_count_nrtx hs c : nrtx (expire_count hs c) = if nrtx c <? 255 then nrtx c + 1 else nrtx c.
Proof.
  unfold expire_count. set (c1 := if hs then _ else c). assert (nrtx c1 = nrtx c) as H by (subst c1; destruct hs; done).
  clearbody c1. rewrite <- H. destruct (nrtx c1 <? 255); cbv zeta; case_match; done.
Qed.

Lemma expire_backoff_fields now c : rto c ≠ 0 →
  rto (expire_backoff now c) = tcp_out_rto_bound (u32 (Z.shiftl (rto c) 1)) ∧
  rtx_deadline (expire_backoff now c) = tcp_out_deadline now (tcp_out_rto_bound (u32 (Z.shiftl (rto c) 1))) ∧
  nrtx (expire_backoff now c) = nrtx c ∧ ctl_r2 (expire_backoff now c) = ctl_r2 c ∧ ctl_r2_syn (expire_backoff now c) = ctl_r2_syn c.
Proof. intros H. unfold expire_backoff, rto_init. rewrite (proj2 (Z.eqb_neq _ 0)) by done. done. Qed.

Lemma fall_step t0 w0 n w : t_smss (timer_args (w_io w0)) ≠ 0 → timer_at t0 w0 n w →
  timer_at t0 w0 (S n) (fall w) ∧ ostatus (w_io (fall w)) = IDEMIP_OK ∧
  (res_r2 (ores (w_io (fall w))) = true ↔ r2_of w0 ≠ 0 ∧ r2_of w0 ≤ Z.min 255 (Z.of_nat (S n))).
Proof.
  intros Hs0 (Hr&Hs&Hst&H2&H2s&Hrto&Hn&late&Hlate&Hd). unfold fall. set (now := rtx_deadline (octl (w_io w))) in *.
  destruct (expire_ctl (at_time now w)) as (Hok&Hc&Ho&Ht&Hr2&Hx); [exact Hr|change (t_smss (timer_args (w_io w)) ≠ 0); congruence|].
  set (w1 := idemip_tcp_out_rtx_expire (at_time now w)) in *. clearbody w1.
  change (timer_args (w_io (at_time now w))) with
    (mkTimerArgs now (t_sample_ms (timer_args (w_io w))) (t_flight (timer_args (w_io w))) (t_acked (timer_args (w_io w)))
      (t_smss (timer_args (w_io w))) (t_resent (timer_args (w_io w)))) in *.
  change (ostate (w_io (at_time now w))) with (ostate (w_io w)) in *. change (octl (w_io (at_time now w))) with (octl (w_io w)) in *.
  set (ta := mkTimerArgs _ _ _ _ _ _) in *. rewrite <- Hc in Hr2. change (t_now_ms ta) with now in Hc.
  destruct (expire_loss_keeps ta (octl (w_io w))) as (L1&L2&L3&L4&L5&_).
  set (c1 := expire_loss ta (octl (w_io w))) in *.
  assert (rto c1 ≠ 0) as Hr1. { rewrite L1, Hrto. unfold timeout. pose proof (Z.pow_pos_nonneg 2 (Z.of_nat n)). lia. }
  clearbody c1. destruct (expire_backoff_fields now c1 Hr1) as (B1&B2&B3&B4&B5). set (c2 := expire_backoff now c1) in *. clearbody c2.
  destruct (expire_count_keeps (in_handshake (ostate (w_io w))) c2) as (K1&K2&K3&K4&_).
  pose proof (expire_count_nrtx (in_handshake (ostate (w_io w))) c2) as K5. rewrite <- Hc in *.
  rewrite L1, Hrto, timeout_double in B1, B2.
  assert (nrtx (octl (w_io w1)) = Z.min 255 (Z.of_nat (S n))) as Hn1.
  { rewrite K5, B3, L2, Hn. destruct (Z.ltb_spec (Z.min 255 (Z.of_nat n)) 255); lia. }
  split; [|split; [done|]].
  - unfold timer_at. split_and!; try congruence.
    + rewrite Hx. exact Hr.
    + rewrite Ht. exact Hs.
    + destruct (deadline_late now (timeout (S n))) as (e&He&Hde). exists (late + e). split; [lia|].
      rewrite K2, B2, Hde, Hd, <- Z.add_assoc, u32_add_l. f_equal. cbn [falls_at]. lia.
  - rewrite Hr2, Hn1. unfold r2_of. rewrite Hst, K3, K4, B4, B5, L4, L5, H2, H2s. cbv zeta.
    rewrite andb_true_iff, negb_true_iff, Z.eqb_neq, Z.leb_le. done.
Qed.

Lemma falls_step t0 w : fresh w → ∀ n, timer_at t0 w n (Nat.iter n fall (armed t0 w)).
Proof.
  intros Hf n. induction n as [|n IH]; [by apply armed_at|]. destruct Hf as (_&Hs&_). cbn [Nat.iter nat_rect].
  by apply (fall_step t0 w n _ Hs IH).
Qed.

(** RFC 6298 (5.5): from a timer armed at any instant of the 32-bit clock, the n-th expiry of a segment that is never
    acknowledged falls when the timeouts of one second, doubling under sixty, have passed - a millisecond late at most for
    each deadline moved off the value that means stopped - and the unit reports R2 from exactly the R2-th expiry on. *)
Theorem expiries_fall_at w t0 n : fresh w →
  let w' := Nat.iter (S n) fall (armed t0 w) in
  ostatus (w_io w') = IDEMIP_OK ∧
  (∃ late, 0 ≤ late ≤ Z.of_nat (S n) ∧ t_now_ms (timer_args (w_io w')) = u32 (t0 + falls_at (S n) + late)) ∧
  rto (octl (w_io w')) = timeout (S n) ∧
  (res_r2 (ores (w_io w')) = true ↔ r2_of w ≠ 0 ∧ r2_of w ≤ Z.min 255 (Z.of_nat (S n))).
Proof.
  intros Hf w'. pose proof (falls_step t0 w Hf n) as Hn. pose proof Hf as (_&Hs&_).
  change w' with (fall (Nat.iter n fall (armed t0 w))). clear w'. set (w1 := Nat.iter n fall (armed t0 w)) in *. clearbody w1.
  destruct (fall_step t0 w n w1 Hs Hn) as ((_&_&_&_&_&Hrto&_)&Hok&Hr2). split_and!; try done.
  destruct Hn as (Hrd&Hs1&_&_&_&_&_&late&Hl&Hd). exists late. split; [lia|].
  destruct (expire_ctl (at_time (rtx_deadline (octl (w_io w1))) w1)) as (_&_&_&Ht&_);
    [exact Hrd|change (t_smss (timer_args (w_io w1)) ≠ 0); congruence|].
  unfold fall. rewrite Ht. exact Hd.
Qed.

(** A SYN armed five seconds before the clock wraps: R2 of eight is reported at the eighth expiry, 183 seconds on. *)
Definition syn_timer : Work :=
  mkWork (mkIo (mkBuildArgs None None None None 0 0 0 0 0 0 0 0 0 0 0 0 0 0 0 0 0) (mkSendArgs 0 0 0 false false false)
    (mkTimerArgs 0 0 0 0 1460 false) (mkSegArgs 0 0 0 0) vars_zero (ctl_zero <| ctl_r2 := 12 |> <| ctl_r2_syn := 8 |>)
    IDEMIP_TCP_STATE_SYN_SENT IDEMIP_ERR (mkReply 0 0 0) (mkResult 0 0 0 0 false false)) (mkCtx TCP_OUT_READY).

Lemma expiries_fall_at_witness :
  let w n := Nat.iter n fall (armed (0xFFFFFFFF - 4999) syn_timer) in
  map falls_at (seq 1 8) = [1000; 3000; 7000; 15000; 31000; 63000; 123000; 183000] ∧
  res_r2 (ores (w_io (w 7%nat))) ≠ true ∧ res_r2 (ores (w_io (w 8%nat))) = true ∧ t_now_ms (timer_args (w_io (w 8%nat))) = 178000.
Proof.
  intros w. assert (fresh syn_timer) as Hf by (unfold fresh; split_and!; done).
  destruct (expiries_fall_at syn_timer (0xFFFFFFFF - 4999) 6 Hf) as (_&_&_&H7).
  destruct (expiries_fall_at syn_timer (0xFFFFFFFF - 4999) 7 Hf) as (_&_&_&H8).
  split; [reflexivity|]. split; [|split; [|reflexivity]].
  - intros E. apply H7 in E as [_ E]. vm_compute in E. congruence.
  - apply H8. split; vm_compute; congruence.
Defined.
End TcpTimer.
