(* ===== verification/TcpCong.v ===== *)
(** * The round-trip estimator and congestion control (src/tcp/tcp_out.c)

    The estimator stays between the samples it saw and its timeout is RFC 6298's formula without a wrap;
    appropriate byte counting pays for every octet the congestion window grows by; congestion avoidance is
    linear; a fast recovery inflates by one segment per duplicate and deflates to ssthresh. *)
From S2P Require Import Prelude Base Tcp TcpTypes TcpOut TcpTimer.

Module TcpCong.
Import Tcp TcpOut.

(** ** The estimator *)

(** One measurement handed to the unit. *)
Definition measure (w : Work) (r : Z) : Work :=
  idemip_tcp_out_rtt (w <| w_io := (w_io w) <| timer_args := mkTimerArgs (t_now_ms (timer_args (w_io w))) r (t_flight (timer_args (w_io w)))
                                              (t_acked (timer_args (w_io w))) (t_smss (timer_args (w_io w))) (t_resent (timer_args (w_io w))) |> |>).

Definition estimates (lo hi : Z) (c : TcpPcbCtl) : Prop :=
  lo ≤ srtt c ≤ hi ∧ 0 ≤ rttvar c ≤ hi ∧ rto c = Z.max 1000 (Z.min 60000 (srtt c + Z.max 250 (4 * rttvar c))).

Lemma rto_clamp x : tcp_out_rto_bound x = Z.max 1000 (Z.min 60000 x).
Proof. unfold tcp_out_rto_bound, IDEMIP_TCP_RTO_MIN_MS, IDEMIP_TCP_RTO_MAX_MS. repeat split_if; lia. Qed.

(** The smoothing's two variables between what they were and what was measured. *)
Lemma smooth_between s r k : 1 ≤ k → 0 ≤ s → 0 ≤ r →
  Z.min s r ≤ s - s / 2 ^ k + r / 2 ^ k ≤ Z.max s r.
Proof.
  intros Hk Hs Hr. assert (2 ≤ 2 ^ k) as H2 by (apply (Z.pow_le_mono_r 2 1); lia).
  pose proof (Z.div_mod s (2 ^ k) ltac:(lia)). pose proof (Z.mod_pos_bound s (2 ^ k) ltac:(lia)).
  pose proof (Z.div_mod r (2 ^ k) ltac:(lia)). pose proof (Z.mod_pos_bound r (2 ^ k) ltac:(lia)).
  set (p := 2 ^ k) in *. clearbody p. set (a := s / p) in *. set (b := r / p) in *. clearbody a b.
  destruct (Z.le_gt_cases s r).
  - assert (a ≤ b) by nia. rewrite Z.min_l, Z.max_r by lia. split; [lia|].
    assert (b - a ≤ r - s); [|lia]. destruct (Z.eq_dec a b); [lia|]. nia.
  - assert (b ≤ a) by nia. rewrite Z.min_r, Z.max_l by lia. split; [|lia].
    assert (a - b ≤ s - r); [|lia]. destruct (Z.eq_dec a b); [lia|]. nia.
Qed.

Lemma estimate_ok lo hi c r : 1 ≤ lo → lo ≤ r ≤ hi → hi < 2 ^ 28 → srtt c = 0 ∨ estimates lo hi c →
  estimates lo hi (rtt_estimate c r).
Proof.
  intros H1 Hr Hh Hc. unfold rtt_estimate. set (c1 := if srtt c =? 0 then _ else _).
  assert (lo ≤ srtt c1 ≤ hi ∧ 0 ≤ rttvar c1 ≤ hi) as [Hs Hv].
  { subst c1. destruct (Z.eqb_spec (srtt c) 0) as [E|E].
    - change (lo ≤ r ≤ hi ∧ 0 ≤ Z.shiftr r 1 ≤ hi). rewrite Z.shiftr_div_pow2 by lia. change (2 ^ 1) with 2.
      Z.div_mod_to_equations. lia.
    - destruct Hc as [?|[Hs [Hv _]]]; [done|]. cbv zeta. set (d := if r <? srtt c then _ else _).
      assert (0 ≤ d ≤ hi) as Hd by (subst d; destruct (Z.ltb_spec r (srtt c)); lia). clearbody d.
      unfold IDEMIP_TCP_RTO_ALPHA_SHIFT, IDEMIP_TCP_RTO_BETA_SHIFT. rewrite !Z.shiftr_div_pow2 by lia.
      change (lo ≤ u32 (u32 (srtt c - srtt c / 2 ^ 3) + r / 2 ^ 3) ≤ hi ∧
              0 ≤ u32 (u32 (rttvar c - rttvar c / 2 ^ 2) + d / 2 ^ 2) ≤ hi).
      pose proof (smooth_between (srtt c) r 3 ltac:(lia) ltac:(lia) ltac:(lia)).
      pose proof (smooth_between (rttvar c) d 2 ltac:(lia) ltac:(lia) ltac:(lia)).
      rewrite !u32_add_l, !u32_id by (unfold is_u32; lia). lia. }
  clearbody c1. cbv zeta. set (k := if _ <? _ then _ else _).
  assert (k = Z.max 250 (4 * rttvar c1)) as ->.
  { subst k. unfold IDEMIP_TCP_RTO_G_MS, IDEMIP_TCP_RTO_K_SHIFT. rewrite Z.shiftl_mul_pow2 by lia. change (2 ^ 2) with 4.
    rewrite u32_id by (unfold is_u32; lia). destruct (Z.ltb_spec (rttvar c1 * 4) 250); lia. }
  split; [exact Hs|]. split; [exact Hv|].
  change (tcp_out_rto_bound (u32 (srtt c1 + Z.max 250 (4 * rttvar c1))) =
          Z.max 1000 (Z.min 60000 (srtt c1 + Z.max 250 (4 * rttvar c1)))).
  rewrite u32_id by (unfold is_u32; lia). apply rto_clamp.
Qed.

Lemma measure_ctl w r : oready (w_ctx w) = TCP_OUT_READY → backoff (octl (w_io w)) = 0 → r ≠ 0 →
  octl (w_io (measure w r)) = rtt_estimate (octl (w_io w)) r ∧ oready (w_ctx (measure w r)) = TCP_OUT_READY.
Proof.
  intros Hr Hb H0. unfold measure, idemip_tcp_out_rtt. change (oready (w_ctx (w <| w_io := _ |>))) with (oready (w_ctx w)).
  rewrite Hr. change (negb (TCP_OUT_READY =? TCP_OUT_READY)) with false. cbv zeta. cbn [orb].
  change (t_sample_ms (timer_args _)) with r. rewrite (proj2 (Z.eqb_neq r 0)) by done.
  change (backoff (octl _)) with (backoff (octl (w_io w))). rewrite Hb. done.
Qed.

Lemma rtt_estimate_backoff c r : backoff (rtt_estimate c r) = backoff c.
Proof. unfold rtt_estimate. destruct (srtt c =? 0); done. Qed.

(** RFC 6298 section 2 over any run of measurements: the smoothed round trip never leaves the range of the samples,
    the variance never exceeds the largest, and the timeout is SRTT + max(G, 4*RTTVAR) between one second and sixty,
    computed without a wrap. *)
Theorem estimator_tracks_samples w l lo hi : oready (w_ctx w) = TCP_OUT_READY → backoff (octl (w_io w)) = 0 →
  srtt (octl (w_io w)) = 0 → 1 ≤ lo → hi < 2 ^ 28 → l ≠ [] → Forall (λ r, lo ≤ r ≤ hi) l →
  estimates lo hi (octl (w_io (foldl measure w l))).
Proof.
  intros Hr Hb Hs Hlo Hhi. assert (srtt (octl (w_io w)) = 0 ∨ estimates lo hi (octl (w_io w))) as Hc by tauto. clear Hs.
  revert w Hr Hb Hc. induction l as [|r l IH]; [done|]. intros w Hr Hb Hc _ [H Hl]%Forall_cons. cbn [foldl].
  destruct (measure_ctl w r Hr Hb ltac:(lia)) as [Hm Hr'].
  assert (estimates lo hi (octl (w_io (measure w r)))) as He by (rewrite Hm; by apply estimate_ok).
  destruct l as [|r2 l]; [done|]. apply IH; try done; [|tauto]. by rewrite Hm, rtt_estimate_backoff.
Qed.

Lemma estimator_tracks_samples_witness :
  estimates 80 400 (octl (w_io (foldl measure (idemip_tcp_out_clear TcpTimer.timed) [100; 80; 400; 95]))) ∧
  srtt (octl (w_io (foldl measure (idemip_tcp_out_clear TcpTimer.timed) [100; 80; 400; 95]))) = 130.
Proof.
  split; [|reflexivity]. apply estimator_tracks_samples; try done. repeat constructor; lia.
Defined.

(** ** The congestion window *)

(** One acknowledgment of [n] new octets handed to the unit. *)
Definition acks (w : Work) (n : Z) : Work :=
  idemip_tcp_out_cc_ack (w <| w_io := (w_io w) <| timer_args := mkTimerArgs (t_now_ms (timer_args (w_io w))) (t_sample_ms (timer_args (w_io w)))
                              (t_flight (timer_args (w_io w))) n (t_smss (timer_args (w_io w))) (t_resent (timer_args (w_io w))) |> |>).

(** A connection past its handshake, its variables short of the width by what [room] more octets could add. *)
Definition growing (room : Z) (w : Work) : Prop :=
  oready (w_ctx w) = TCP_OUT_READY ∧ in_handshake (ostate (w_io w)) = false ∧
  0 < t_smss (timer_args (w_io w)) ≤ cwnd (octl (w_io w)) ∧ 0 ≤ bytes_acked (octl (w_io w)) ∧
  cwnd (octl (w_io w)) + bytes_acked (octl (w_io w)) + room < 4294967296.

Definition total (l : list Z) : Z := foldr Z.add 0 l.

Lemma acks_ctl w n : oready (w_ctx w) = TCP_OUT_READY → in_handshake (ostate (w_io w)) = false → t_smss (timer_args (w_io w)) ≠ 0 → 0 < n →
  octl (w_io (acks w n)) = cc_grow (octl (w_io w)) n (t_smss (timer_args (w_io w))) ∧ w_ctx (acks w n) = w_ctx w ∧
  ostate (w_io (acks w n)) = ostate (w_io w) ∧ t_smss (timer_args (w_io (acks w n))) = t_smss (timer_args (w_io w)).
Proof.
  intros Hr Hh Hs Hn. unfold acks, idemip_tcp_out_cc_ack. change (oready (w_ctx (w <| w_io := _ |>))) with (oready (w_ctx w)).
  rewrite Hr. change (negb (TCP_OUT_READY =? TCP_OUT_READY)) with false. cbv zeta. cbn [orb].
  change (t_smss (timer_args (_ <| ostatus := IDEMIP_ERR |>))) with (t_smss (timer_args (w_io w))). rewrite (proj2 (Z.eqb_neq _ 0)) by done.
  change (ostate (_ <| ostatus := IDEMIP_OK |>)) with (ostate (w_io w)). rewrite Hh.
  change (t_acked (timer_args (_ <| ostatus := IDEMIP_OK |>))) with n. rewrite (proj2 (Z.eqb_neq n 0)) by lia. done.
Qed.

(** The two branches of the growth, without the wraps a room rules out. *)
Lemma cc_grow_cases c n smss : 0 < smss ≤ cwnd c → 0 ≤ bytes_acked c → 0 < n → cwnd c + bytes_acked c + n < 4294967296 →
  let c' := cc_grow c n smss in
  ssthresh c' = ssthresh c ∧
  ((cwnd c < ssthresh c ∧ cwnd c' = cwnd c + Z.min n smss ∧ bytes_acked c' = bytes_acked c) ∨
   (ssthresh c ≤ cwnd c ∧ bytes_acked c + n < cwnd c ∧ cwnd c' = cwnd c ∧ bytes_acked c' = bytes_acked c + n) ∨
   (ssthresh c ≤ cwnd c ∧ cwnd c ≤ bytes_acked c + n ∧ cwnd c' = cwnd c + smss ∧ bytes_acked c' = bytes_acked c + n - cwnd c)).
Proof.
  intros Hs Hb Hn Hw c'. subst c'. unfold cc_grow. destruct (Z.ltb_spec (cwnd c) (ssthresh c)).
  - cbv zeta. split; [done|]. left. split; [done|]. split; [|done]. 
    change (u32 (cwnd c + (if n <? smss then n else smss)) = cwnd c + Z.min n smss).
    destruct (Z.ltb_spec n smss); rewrite u32_id by (unfold is_u32; lia); lia.
  - cbv zeta. change (cwnd (c <| bytes_acked := _ |>)) with (cwnd c).
    change (bytes_acked (c <| bytes_acked := u32 (bytes_acked c + n) |>)) with (u32 (bytes_acked c + n)).
    rewrite (u32_id (bytes_acked c + n)) by (unfold is_u32; lia). destruct (Z.leb_spec (cwnd c) (bytes_acked c + n)).
    + split; [done|]. right. right. split_and!; try done.
      * change (u32 (cwnd c + smss) = cwnd c + smss). apply u32_id. unfold is_u32. lia.
      * change (u32 (bytes_acked c + n - cwnd c) = bytes_acked c + n - cwnd c). apply u32_id. unfold is_u32. lia.
    + split; [done|]. right. left. done.
Qed.

(** RFC 3465: however a receiver divides its acknowledgments, the congestion window never shrinks on them, never grows
    by more octets than they acknowledge nor by more than a segment each, through slow start and congestion avoidance. *)
Theorem growth_is_paid_for w l : growing (total l) w → Forall (λ n, 0 < n) l →
  let c := octl (w_io w) in let c' := octl (w_io (foldl acks w l)) in
  cwnd c ≤ cwnd c' ∧ cwnd c' + bytes_acked c' ≤ cwnd c + bytes_acked c + total l ∧
  cwnd c' ≤ cwnd c + Z.of_nat (length l) * t_smss (timer_args (w_io w)).
Proof.
  revert w. induction l as [|n l IH]; intros w Hg Hl; cbn [foldl total foldr length] in *; [lia|].
  apply Forall_cons in Hl as [Hn Hl]. destruct Hg as (Hr&Hh&Hs&Hb&Hw). fold (total l) in *.
  assert (0 ≤ total l) as Ht by (clear -Hl; induction Hl; cbn; unfold total in *; lia).
  destruct (acks_ctl w n Hr Hh ltac:(lia) Hn) as (Hc&Hx&Ho&Hsm).
  destruct (cc_grow_cases (octl (w_io w)) n (t_smss (timer_args (w_io w))) Hs Hb Hn ltac:(lia)) as [_ Hg].
  rewrite <- Hc in Hg. destruct (IH (acks w n)) as (I1&I2&I3); [|done|].
  - unfold growing. rewrite Hx, Ho, Hsm. split_and!; try done; lia.
  - rewrite Hsm in I3. lia.
Qed.

(** A connection in congestion avoidance acknowledged octet by octet. *)
Definition avoiding : Work :=
  mkWork (mkIo (mkBuildArgs None None None None 0 0 0 0 0 0 0 0 0 0 0 0 0 0 0 0 0) (mkSendArgs 0 0 0 false false false)
    (mkTimerArgs 0 0 8 0 4 false) (mkSegArgs 0 0 0 0) vars_zero (ctl_zero <| cwnd := 8 |> <| ssthresh := 8 |>)
    IDEMIP_TCP_STATE_ESTABLISHED IDEMIP_ERR (mkReply 0 0 0) (mkResult 0 0 0 0 false false)) (mkCtx TCP_OUT_READY).

Lemma growth_is_paid_for_witness :
  let c' := octl (w_io (foldl acks avoiding (replicate 20 1))) in
  cwnd c' = 16 ∧ cwnd c' + bytes_acked c' ≤ 8 + 20.
Proof.
  intros c'. split; [reflexivity|]. apply (growth_is_paid_for avoiding (replicate 20 1)); [|apply Forall_replicate; lia].
  unfold growing. vm_compute. split_and!; (reflexivity || discriminate).
Defined.

(** *** Fast recovery *)

(** One duplicate acknowledgment with [flight] octets outstanding. *)
Definition duplicate (w : Work) (flight : Z) : Work :=
  idemip_tcp_out_cc_dupack (w <| w_io := (w_io w) <| timer_args := mkTimerArgs (t_now_ms (timer_args (w_io w))) (t_sample_ms (timer_args (w_io w)))
                              flight (t_acked (timer_args (w_io w))) (t_smss (timer_args (w_io w))) (t_resent (timer_args (w_io w))) |> |>).

(** ssthresh at the loss of one of [flight] octets. *)
Definition halved (flight smss : Z) : Z := Z.max (flight / 2) (2 * smss).

Lemma loss_ssthresh_eq t : 0 ≤ t_smss t < 65536 → loss_ssthresh t = halved (t_flight t) (t_smss t).
Proof.
  intros H. unfold loss_ssthresh, halved. rewrite Z.shiftr_div_pow2, Z.shiftl_mul_pow2 by lia. change (2 ^ 1) with 2.
  rewrite u32_id by (unfold is_u32; lia). cbv zeta. destruct (Z.ltb_spec (t_smss t * 2) (t_flight t / 2)); lia.
Qed.

Lemma duplicate_fields w f : oready (w_ctx w) = TCP_OUT_READY → 0 < t_smss (timer_args (w_io w)) < 65536 → is_u32 f →
  0 ≤ dupacks (octl (w_io w)) < 255 →
  let c := octl (w_io w) in let c' := octl (w_io (duplicate w f)) in let smss := t_smss (timer_args (w_io w)) in
  dupacks c' = dupacks c + 1 ∧ oready (w_ctx (duplicate w f)) = TCP_OUT_READY ∧ t_smss (timer_args (w_io (duplicate w f))) = smss ∧
  (dupacks c < 2 → cwnd c' = cwnd c ∧ ssthresh c' = ssthresh c) ∧
  (dupacks c = 2 → ssthresh c' = halved f smss ∧ cwnd c' = u32 (halved f smss + 3 * smss)) ∧
  (2 < dupacks c → cwnd c' = u32 (cwnd c + smss) ∧ ssthresh c' = ssthresh c).
Proof.
  intros Hr Hs Hf Hd c c' smss. subst c'. unfold duplicate, idemip_tcp_out_cc_dupack. change (oready (w_ctx (w <| w_io := _ |>))) with (oready (w_ctx w)).
  rewrite Hr. change (negb (TCP_OUT_READY =? TCP_OUT_READY)) with false. cbv zeta. cbn [orb].
  set (ta := mkTimerArgs _ _ _ _ _ _). change (timer_args (_ <| ostatus := IDEMIP_ERR |>)) with ta. change (t_smss ta) with smss.
  assert (loss_ssthresh ta = halved f smss) as Hl by (apply loss_ssthresh_eq; change (t_smss ta) with smss; lia). rewrite Hl.
  rewrite (proj2 (Z.eqb_neq smss 0)) by lia. change (octl (_ <| ostatus := IDEMIP_ERR |>)) with c.
  rewrite (proj2 (Z.ltb_lt (dupacks c) 255)) by (subst c; lia).
  change (dupacks (c <| dupacks := dupacks c + 1 |>)) with (dupacks c + 1).
  unfold IDEMIP_TCP_DUPACK_THRESH. rewrite Z.shiftl_mul_pow2 by lia. change (2 ^ 1) with 2. fold c in Hd.
  destruct (Z.ltb_spec (dupacks c + 1) 3).
  { split_and!; try done; lia. }
  destruct (Z.eqb_spec (dupacks c + 1) 3).
  - split_and!; try done; try lia. intros _. split; [done|].
    change (u32 (u32 (halved f smss + u32 (smss * 2)) + smss) = u32 (halved f smss + 3 * smss)). autorewrite with u32. f_equal. lia.
  - split_and!; try done; lia.
Qed.

(** The variables after some duplicates of one loss, [third] octets outstanding at the third. *)
Definition recovering (smss third : Z) (n : nat) (w : Work) : Prop :=
  oready (w_ctx w) = TCP_OUT_READY ∧ t_smss (timer_args (w_io w)) = smss ∧ dupacks (octl (w_io w)) = Z.of_nat n ∧
  ((3 ≤ n)%nat → ssthresh (octl (w_io w)) = halved third smss ∧ cwnd (octl (w_io w)) = halved third smss + Z.of_nat n * smss).

Lemma duplicates_recovering smss third w l : recovering smss third 0 w → 0 < smss < 65536 → Forall is_u32 l → (length l < 255)%nat →
  l !! 2%nat = Some third ∨ (length l ≤ 2)%nat → recovering smss third (length l) (foldl duplicate w l).
Proof.
  intros Hw Hs. induction l as [|f l IH] using rev_ind; [done|]. rewrite length_app. cbn [length]. intros [Hl Hf]%Forall_app Hlen H2.
  apply Forall_cons in Hf as [Hf _]. rewrite foldl_app. cbn [foldl].
  destruct IH as (Hr&Hsm&Hd&Hin); [done|lia| |].
  { destruct H2 as [H2|H2]; [|right; lia]. destruct (decide (length l ≤ 2)%nat); [by right|left]. rewrite lookup_app_l in H2 by lia. done. }
  set (w1 := foldl duplicate w l) in *. clearbody w1.
  destruct (duplicate_fields w1 f Hr ltac:(rewrite Hsm; lia) Hf ltac:(lia)) as (D1&D2&D3&_&D5&D6). rewrite Hsm in *.
  unfold recovering. split_and!; try done; [lia|]. intros Hn.
  assert (∀ x, is_u32 x → 0 ≤ halved x smss < 2147483648) as Hhv.
  { intros x Hx. unfold halved, is_u32 in *. Z.div_mod_to_equations. lia. }
  destruct (decide (length l = 2)%nat) as [E|E].
  - destruct H2 as [H2|H2]; [|lia]. rewrite lookup_app_r, E in H2 by lia. injection H2 as ->.
    destruct D5 as [-> ->]; [lia|]. split; [done|]. rewrite E. specialize (Hhv third Hf).
    rewrite u32_id by (unfold is_u32; lia). lia.
  - destruct Hin as [Ht Hc]; [lia|]. destruct D6 as [-> ->]; [lia|]. split; [done|].
    assert (is_u32 third) as Hth.
    { destruct H2 as [H2|H2]; [|lia]. rewrite lookup_app_l in H2 by lia. by apply (Forall_lookup_1 _ _ _ _ Hl H2). }
    specialize (Hhv third Hth). rewrite Hc, u32_id by (unfold is_u32; nia). lia.
Qed.

(** RFC 5681 section 3.2: a loss signalled by three or more duplicates sets ssthresh to half of what was outstanding at
    the third and no less than two segments, inflates the window by a segment for each duplicate, and the acknowledgment
    of new data that ends the recovery deflates it to ssthresh. *)
Theorem fast_recovery_halves w l third : oready (w_ctx w) = TCP_OUT_READY → 0 < t_smss (timer_args (w_io w)) < 65536 →
  dupacks (octl (w_io w)) = 0 → Forall is_u32 l → l !! 2%nat = Some third → (length l < 255)%nat →
  let smss := t_smss (timer_args (w_io w)) in let w' := foldl duplicate w l in let w'' := idemip_tcp_out_cc_recover w' in
  ssthresh (octl (w_io w')) = Z.max (third / 2) (2 * smss) ∧
  cwnd (octl (w_io w')) = ssthresh (octl (w_io w')) + Z.of_nat (length l) * smss ∧
  ostatus (w_io w'') = IDEMIP_OK ∧ cwnd (octl (w_io w'')) = ssthresh (octl (w_io w')) ∧
  ssthresh (octl (w_io w'')) = ssthresh (octl (w_io w')) ∧ dupacks (octl (w_io w'')) = 0.
Proof.
  intros Hr Hs Hd Hl Hth Hlen smss w' w''. assert (2 < length l)%nat as H3 by (by apply lookup_lt_Some in Hth).
  assert (recovering smss third (length l) w') as (Rr&_&Rd&Rc).
  { apply duplicates_recovering; try done; [|by left]. split_and!; try done. lia. }
  destruct Rc as [Ht Hc]; [lia|]. fold (halved third smss). split; [done|]. split; [by rewrite Ht|].
  subst w''. unfold idemip_tcp_out_cc_recover. clearbody w'. rewrite Rr. change (negb (TCP_OUT_READY =? TCP_OUT_READY)) with false.
  cbv zeta. change (octl (_ <| ostatus := IDEMIP_ERR |>)) with (octl (w_io w')). unfold IDEMIP_TCP_DUPACK_THRESH.
  rewrite (proj2 (Z.leb_le 3 _)) by lia. done.
Qed.

Lemma fast_recovery_halves_witness :
  let w := foldl duplicate avoiding [40; 40; 100; 96; 92] in
  ssthresh (octl (w_io w)) = 50 ∧ cwnd (octl (w_io w)) = 70 ∧ cwnd (octl (w_io (idemip_tcp_out_cc_recover w))) = 50.
Proof.
  intros w. assert (Forall is_u32 [40; 40; 100; 96; 92]) as Hl by (repeat constructor; unfold is_u32; lia).
  destruct (fast_recovery_halves avoiding [40; 40; 100; 96; 92] 100 eq_refl ltac:(cbn; lia) eq_refl Hl eq_refl ltac:(cbn; lia))
    as (H1&H2&_&H3&_).
  fold w in H1, H2, H3. rewrite H3, H2, H1. split; [reflexivity|]. split; reflexivity.
Defined.
End TcpCong.
