(* ===== verification/Cover.v ===== *)
(** * Intervals of octets and how often they cover one

    Reassembly keeps two lists of intervals, the held fragments and the holes.  What makes them right is
    a statement about octets: each one below the datagram's length is in exactly one interval of the two
    lists together.  [cover l x] counts the intervals of [l] that hold the octet [x]; this file relates the
    count to what the C loops compute on the bounds. *)
From Stdlib Require Import Sorted.
From S2P Require Import Prelude.

Section Cover.
Implicit Types (l : list (Z * Z)) (x lo hi : Z).

(** The interval [(a, b)] holds the octets from [a] up to but not including [b]. *)
Definition within (p : Z * Z) x : Prop := p.1 ≤ x < p.2.
Definition ind (p : Z * Z) x : Z := if (p.1 <=? x) && (x <? p.2) then 1 else 0.

Fixpoint cover l x : Z :=
  match l with
  | [] => 0
  | p :: l' => ind p x + cover l' x
  end.

(** How many octets of [lo, hi) an interval holds, and the sum over a list. *)
Definition overlap (p : Z * Z) lo hi : Z := Z.max 0 (Z.min p.2 hi - Z.max p.1 lo).
Fixpoint osum l lo hi : Z :=
  match l with
  | [] => 0
  | p :: l' => overlap p lo hi + osum l' lo hi
  end.

(** Each interval starts where the one in front of it ended. *)
Fixpoint contiguous (s : Z) l (e : Z) : Prop :=
  match l with
  | [] => s = e
  | p :: l' => p.1 = s ∧ p.1 < p.2 ∧ contiguous p.2 l' e
  end.

(** No interval ends where another starts. *)
Definition apart l : Prop := ∀ p q, p ∈ l → q ∈ l → p.2 ≠ q.1.

Definition nonempty l : Prop := Forall (λ p, p.1 < p.2) l.

Lemma ind_cases p x : (within p x ∧ ind p x = 1) ∨ (¬ within p x ∧ ind p x = 0).
Proof. unfold ind, within. destruct (Z.leb_spec p.1 x), (Z.ltb_spec x p.2); simpl; lia. Qed.

Lemma cover_app l1 l2 x : cover (l1 ++ l2) x = cover l1 x + cover l2 x.
Proof. induction l1 as [|p l1 IH]; simpl; [done|]. rewrite IH. lia. Qed.

Lemma cover_nonneg l x : 0 ≤ cover l x.
Proof. induction l as [|p l IH]; simpl; [lia|]. destruct (ind_cases p x); lia. Qed.

Lemma cover_elem l p x : p ∈ l → within p x → 1 ≤ cover l x.
Proof.
  intros (l1 & l2 & ->)%list_elem_of_split Hx. rewrite cover_app. simpl.
  pose proof (cover_nonneg l1 x). pose proof (cover_nonneg l2 x). destruct (ind_cases p x); lia || tauto.
Qed.

Lemma cover_pos l x : 1 ≤ cover l x → ∃ p, p ∈ l ∧ within p x.
Proof.
  induction l as [|p l IH]; simpl; [lia|]. destruct (ind_cases p x) as [[? _]|[_ ->]].
  - exists p. set_solver.
  - intros (q & ? & ?)%IH. exists q. set_solver.
Qed.

Lemma cover_zero l x : cover l x = 0 → ∀ p, p ∈ l → ¬ within p x.
Proof. intros Hz p Hp Hx. pose proof (cover_elem _ _ _ Hp Hx). lia. Qed.

(** In a list that covers nothing twice, an interval that meets [p] is [p] itself. *)
Lemma cover_split l1 p l2 q x :
  cover (l1 ++ p :: l2) x ≤ 1 → within p x → q ∈ l1 ++ l2 → ¬ within q x.
Proof.
  rewrite cover_app. simpl. intros Hc Hp Hq Hx.
  pose proof (cover_elem _ _ _ Hq Hx) as Hle. rewrite cover_app in Hle. destruct (ind_cases p x); lia || tauto.
Qed.

(** ** Summing the overlaps *)
Lemma osum_step l lo hi : lo ≤ hi → osum l lo (hi + 1) = osum l lo hi + cover l hi.
Proof.
  intros. induction l as [|p l IH]; simpl; [lia|]. rewrite IH. unfold overlap.
  destruct (ind_cases p hi) as [[Hw ->]|[Hw ->]]; unfold within in Hw; lia.
Qed.

Lemma osum_empty l lo : osum l lo lo = 0.
Proof. induction l as [|p l IH]; simpl; [done|]. rewrite IH. unfold overlap. lia. Qed.

(** The sum lies between no octet and every octet, and says which. *)
Lemma osum_spec l lo hi :
  lo ≤ hi → (∀ x, lo ≤ x < hi → cover l x ≤ 1) →
  0 ≤ osum l lo hi ≤ hi - lo ∧
  (osum l lo hi = 0 ↔ ∀ x, lo ≤ x < hi → cover l x = 0) ∧
  (osum l lo hi = hi - lo ↔ ∀ x, lo ≤ x < hi → cover l x = 1).
Proof.
  intros Hle. replace hi with (lo + (hi - lo)) by lia.
  assert (0 ≤ hi - lo) as Hn by lia. revert Hn. generalize (hi - lo) as n. clear Hle hi.
  intros n Hn. pattern n. apply natlike_ind; [..|exact Hn]; clear n Hn.
  - rewrite Z.add_0_r, osum_empty. intros _. split; [lia|]. split; split; lia.
  - intros n Hn IH H1. replace (lo + Z.succ n) with ((lo + n) + 1) by lia.
    rewrite osum_step by lia. destruct IH as ((?&?)&[IH0 IH0']&[IH1 IH1']); [intros; apply H1; lia|].
    pose proof (cover_nonneg l (lo + n)). assert (cover l (lo + n) ≤ 1) by (apply H1; lia).
    split; [lia|]. split; split; intros Hx.
    + intros x Hxr. destruct (decide (x = lo + n)) as [->|]; [lia|]. apply IH0; lia.
    + rewrite IH0' by (intros; apply Hx; lia). rewrite Hx by lia. lia.
    + intros x Hxr. destruct (decide (x = lo + n)) as [->|]; [lia|]. apply IH1; lia.
    + rewrite IH1' by (intros; apply Hx; lia). rewrite Hx by lia. lia.
Qed.

(** Two different intervals that hold [x] count twice. *)
Lemma cover_two l p q x : p ∈ l → q ∈ l → p ≠ q → within p x → within q x → 2 ≤ cover l x.
Proof.
  intros (l1 & l2 & ->)%list_elem_of_split Hq Hne Hp Hx. rewrite cover_app. simpl.
  assert (q ∈ l1 ++ l2) as Hq' by set_solver. pose proof (cover_elem _ _ _ Hq' Hx) as Hle.
  rewrite cover_app in Hle. destruct (ind_cases p x); lia || tauto.
Qed.

(** What is covered once and without a seam lies in one interval. *)
Lemma apart_inside l lo hi :
  lo < hi → apart l → (∀ x, lo ≤ x < hi → cover l x = 1) → ∃ p, p ∈ l ∧ p.1 ≤ lo ∧ hi ≤ p.2.
Proof.
  intros Hlt Hap. replace hi with (lo + 1 + (hi - (lo + 1))) by lia.
  assert (0 ≤ hi - (lo + 1)) as Hn by lia. revert Hn. generalize (hi - (lo + 1)) as n. clear Hlt hi.
  intros n Hn. pattern n. apply natlike_ind; [..|exact Hn]; clear n Hn.
  - intros Hc. destruct (cover_pos l lo) as (p & Hp & Hw); [rewrite Hc; lia|].
    exists p. unfold within in Hw. split; [done|lia].
  - intros n Hn IH Hc. destruct IH as (p & Hp & Hlo & Hhi); [intros; apply Hc; lia|].
    destruct (decide (lo + 1 + n < p.2)); [exists p; split; [done|lia]|].
    destruct (cover_pos l (lo + 1 + n)) as (q & Hq & Hw); [rewrite Hc; lia|]. unfold within in Hw.
    (* [p] ends at [lo + 1 + n] and [q] does not start there, so they share the octet below *)
    pose proof (Hap p q Hp Hq). exfalso.
    assert (2 ≤ cover l (lo + n)) as H2.
    { apply (cover_two l p q); [done..| | |]; [intros ->|..]; unfold within; lia. }
    rewrite Hc in H2; lia.
Qed.

(** A list in ascending order that covers [s, e) exactly once spells it out end to end. *)
Lemma sorted_contiguous l s e :
  s ≤ e → nonempty l → StronglySorted (λ p q, p.1 ≤ q.1) l →
  (∀ x, cover l x = if bool_decide (s ≤ x < e) then 1 else 0) → contiguous s l e.
Proof.
  revert s; induction l as [|p l IH]; intros s Hse Hne Hs Hc; simpl.
  - destruct (decide (s = e)); [done|]. specialize (Hc s). rewrite bool_decide_true in Hc by lia. done.
  - apply Forall_cons in Hne as [Hp Hne]. apply StronglySorted_inv in Hs as [Hs Hall].
    rewrite Forall_forall in Hall.
    assert (∀ x, within p x → s ≤ x < e ∧ cover l x = 0) as Hin.
    { intros x Hx. specialize (Hc x). simpl in Hc. pose proof (cover_nonneg l x).
      destruct (ind_cases p x) as [[_ Hi]|]; [|tauto]. case_bool_decide; lia. }
    assert (p.1 = s) as Hps.
    { destruct (Hin p.1) as [Hr _]; [unfold within; lia|].
      destruct (cover_pos (p :: l) s) as (q & Hq & Hw).
      { rewrite Hc, bool_decide_true by lia. lia. }
      unfold within in Hw. apply elem_of_cons in Hq as [->|Hq]; [lia|]. specialize (Hall _ Hq). lia. }
    split_and!; [done..|]. destruct (Hin (p.2 - 1)) as [Hr _]; [unfold within; lia|].
    apply IH; [lia|done..|]. intros x. specialize (Hc x). simpl in Hc.
    destruct (ind_cases p x) as [[Hx Hi]|[Hx Hi]]; rewrite Hi in Hc.
    + rewrite (proj2 (Hin x Hx)). unfold within in Hx. rewrite bool_decide_false; [done|lia].
    + rewrite Z.add_0_l in Hc. rewrite Hc. unfold within in Hx. repeat case_bool_decide; lia.
Qed.

Lemma contiguous_total s l e : contiguous s l e → foldr (λ p n, (p.2 - p.1) + n) 0 l = e - s.
Proof. revert s; induction l as [|p l IH]; simpl; intros s; [lia|]. intros (<- & _ & ->%IH). lia. Qed.
End Cover.
