(* ===== verification/Ip4Reass.v ===== *)
(** * IPv4 reassembly (src/ip/ip4_reass.c): the unit

    Three tables - datagram rows, held fragments, holes - whose rows are threaded into lists by
    one-octet links, and the entries that gather the fragments of a datagram by the RFC 815 hole list.
    A function that chases links returns [None] when it has not ended within more steps than the table
    has rows; [Ip4ReassInv] and [Ip4ReassSpec] prove that no reachable borrow gets there. *)
From S2P Require Import Prelude Base Chain Ipv4.

Module Ip4Reass.
Import Ipv4.

Definition IP4_REASS_READY : Z := 0x52415334.
Definition IP4_REASS_NONE : Z := 0xFF.
Definition IP4_REASS_MS_PER_S : Z := 1000.
Definition IDEMIP_IP4_REASS_INFINITY : Z := 0xFFFF.

(** [IdemIpIp4ReassState], held in a [uint8_t] of each row. *)
Inductive IdemIpIp4ReassState : Type :=
  | FREE
  | HOLDING
  | COMPLETE
  | ABANDONED
  | RECLAIM.
#[export] Instance state_eq_dec : EqDecision IdemIpIp4ReassState.
Proof. solve_decision. Defined.
Definition state_eqb (a b : IdemIpIp4ReassState) : bool := bool_decide (a = b).

Record Ip4ReassDatagram := mkDatagram {
  d_src : Z;
  d_dst : Z;
  d_deadline_ms : Z;
  d_id : Z;
  d_total_len : Z;
  d_proto : Z;
  d_frag_head : Z;
  d_hole_head : Z;
  d_first_frag : Z;
  d_cursor : Z;
  d_state : IdemIpIp4ReassState }.
#[export] Instance Ip4ReassDatagram_eta : Eta Ip4ReassDatagram := fun r =>
  mkDatagram (d_src r) (d_dst r) (d_deadline_ms r) (d_id r) (d_total_len r) (d_proto r)
    (d_frag_head r) (d_hole_head r) (d_first_frag r) (d_cursor r) (d_state r).
Definition Ip4ReassDatagram_zero : Ip4ReassDatagram := mkDatagram 0 0 0 0 0 0 0 0 0 0 FREE.
#[export] Instance Ip4ReassDatagram_inhabited : Inhabited Ip4ReassDatagram := populate Ip4ReassDatagram_zero.

Record Ip4ReassFrag := mkFrag {
  f_desc : Z;
  f_off : Z;
  f_len : Z;
  f_hdr_len : Z;
  f_next : Z;
  f_state : IdemIpIp4ReassState }.
#[export] Instance Ip4ReassFrag_eta : Eta Ip4ReassFrag := fun r =>
  mkFrag (f_desc r) (f_off r) (f_len r) (f_hdr_len r) (f_next r) (f_state r).
Definition Ip4ReassFrag_zero : Ip4ReassFrag := mkFrag 0 0 0 0 0 FREE.
#[export] Instance Ip4ReassFrag_inhabited : Inhabited Ip4ReassFrag := populate Ip4ReassFrag_zero.

Record Ip4ReassHole := mkHole {
  h_first : Z;
  h_last : Z;
  h_next : Z;
  h_state : IdemIpIp4ReassState }.
#[export] Instance Ip4ReassHole_eta : Eta Ip4ReassHole := fun r =>
  mkHole (h_first r) (h_last r) (h_next r) (h_state r).
Definition Ip4ReassHole_zero : Ip4ReassHole := mkHole 0 0 0 FREE.
#[export] Instance Ip4ReassHole_inhabited : Inhabited Ip4ReassHole := populate Ip4ReassHole_zero.

Record Ip4ReassCtx := mkCtx { c_ready : Z; c_held : Z }.
#[export] Instance Ip4ReassCtx_eta : Eta Ip4ReassCtx := fun r => mkCtx (c_ready r) (c_held r).

(** [hdr] is the span at the pointer, or [None] for a null one. *)
Record Ip4ReassHoldArgs := mkHoldArgs { a_hdr : option (list Z); a_desc : Z; a_len : Z }.

Record Ip4ReassIo := mkIo {
  hold_args : Ip4ReassHoldArgs;
  next_index : Z;
  release_index : Z;
  io_now_ms : Z;
  io_src : Z;
  io_total_len : Z;
  io_off : Z;
  io_len : Z;
  io_desc : Z;
  io_hdr_len : Z;
  io_status : IdemIpStatus;
  io_state : IdemIpIp4ReassState;
  io_index : Z;
  io_complete : bool;
  io_frag_zero : bool }.
#[export] Instance Ip4ReassIo_eta : Eta Ip4ReassIo := fun r =>
  mkIo (hold_args r) (next_index r) (release_index r) (io_now_ms r) (io_src r) (io_total_len r)
    (io_off r) (io_len r) (io_desc r) (io_hdr_len r) (io_status r) (io_state r) (io_index r)
    (io_complete r) (io_frag_zero r).

Record Work := mkWork {
  w_io : Ip4ReassIo;
  w_ctx : Ip4ReassCtx;
  w_dgram : list Ip4ReassDatagram;
  w_frag : list Ip4ReassFrag;
  w_hole : list Ip4ReassHole }.
#[export] Instance Work_eta : Eta Work := fun r =>
  mkWork (w_io r) (w_ctx r) (w_dgram r) (w_frag r) (w_hole r).

Definition DGRAM (w : Work) (i : Z) : Ip4ReassDatagram := tget (w_dgram w) i.
Definition FRAG (w : Work) (i : Z) : Ip4ReassFrag := tget (w_frag w) i.
Definition HOLE (w : Work) (i : Z) : Ip4ReassHole := tget (w_hole w) i.
Definition put_dgram (w : Work) (i : Z) (x : Ip4ReassDatagram) : Work := w <| w_dgram := tset (w_dgram w) i x |>.
Definition put_frag (w : Work) (i : Z) (x : Ip4ReassFrag) : Work := w <| w_frag := tset (w_frag w) i x |>.
Definition put_hole (w : Work) (i : Z) (x : Ip4ReassHole) : Work := w <| w_hole := tset (w_hole w) i x |>.
Definition set_io (f : Ip4ReassIo → Ip4ReassIo) (w : Work) : Work := w <| w_io := f (w_io w) |>.
Definition set_status (s : IdemIpStatus) : Work → Work := set_io (fun io => io <| io_status := s |>).

Section Unit.
(** The configured counts, and the build's checksum route. *)
Variables (IDEMIP_IP4_REASS_DATAGRAMS IDEMIP_IP4_REASS_FRAGS IDEMIP_IP4_REASS_HOLES : Z).
Variable IDEMIP_IP_REASS_MAXAGE_S : Z.
Variable word : option nat.
Variable swap : bool.
Let dgrams : nat := Z.to_nat IDEMIP_IP4_REASS_DATAGRAMS.
Let frags : nat := Z.to_nat IDEMIP_IP4_REASS_FRAGS.
Let holes : nat := Z.to_nat IDEMIP_IP4_REASS_HOLES.

Definition ip4_reass_ready (w : Work) : bool := c_ready (w_ctx w) =? IP4_REASS_READY.

(** ** The tables *)

Definition ip4_reass_reached (now_ms deadline_ms : Z) : bool := u32 (now_ms - deadline_ms) <? 0x80000000.

Definition bufid_eqb (row : Ip4ReassDatagram) (src dst proto id : Z) : bool :=
  (d_src row =? src) && (d_dst row =? dst) && (d_proto row =? proto) && (d_id row =? id).

Definition ip4_reass_find (w : Work) (src dst proto id : Z) : Z :=
  default IP4_REASS_NONE
    (scan (fun i => let row := DGRAM w i in
                    (state_eqb (d_state row) HOLDING || state_eqb (d_state row) ABANDONED) &&
                    bufid_eqb row src dst proto id) dgrams 0).

Definition ip4_reass_row_alloc (w : Work) : Work * Z :=
  match scan (fun i => state_eqb (d_state (DGRAM w i)) FREE) dgrams 0 with
  | Some i =>
      (put_dgram w i ((DGRAM w i) <| d_state := HOLDING |> <| d_frag_head := IP4_REASS_NONE |>
                        <| d_hole_head := IP4_REASS_NONE |> <| d_first_frag := IP4_REASS_NONE |>
                        <| d_cursor := IP4_REASS_NONE |> <| d_total_len := 0 |>), i)
  | None => (w, IP4_REASS_NONE)
  end.

Definition ip4_reass_frag_alloc (w : Work) : Work * Z :=
  match scan (fun i => state_eqb (f_state (FRAG w i)) FREE) frags 0 with
  | Some i => (put_frag w i ((FRAG w i) <| f_state := HOLDING |> <| f_next := IP4_REASS_NONE |>), i)
  | None => (w, IP4_REASS_NONE)
  end.

Definition ip4_reass_hole_alloc (w : Work) (first last : Z) : Work * Z :=
  match scan (fun i => state_eqb (h_state (HOLE w i)) FREE) holes 0 with
  | Some i => (put_hole w i (mkHole (u16 first) (u16 last) IP4_REASS_NONE HOLDING), i)
  | None => (w, IP4_REASS_NONE)
  end.

Fixpoint free_holes_loop (fuel : nat) (w : Work) (h : Z) : option Work :=
  match fuel with
  | O => None
  | S fuel' =>
      if h =? IP4_REASS_NONE then Some w
      else
        let next := h_next (HOLE w h) in
        free_holes_loop fuel' (put_hole w h ((HOLE w h) <| h_state := FREE |> <| h_next := IP4_REASS_NONE |>)) next
  end.

Definition ip4_reass_free_holes (w : Work) (index : Z) : option Work :=
  w ← free_holes_loop (S holes) w (d_hole_head (DGRAM w index));
  Some (put_dgram w index ((DGRAM w index) <| d_hole_head := IP4_REASS_NONE |> <| d_cursor := IP4_REASS_NONE |>)).

Definition ip4_reass_flush (w : Work) (index : Z) : option Work :=
  w ← ip4_reass_free_holes w index;
  let row := DGRAM w index in
  Some (put_dgram w index (row <| d_state := if d_frag_head row =? IP4_REASS_NONE then FREE else RECLAIM |>)).

Definition ip4_reass_abandon (w : Work) (index : Z) : option Work :=
  w ← ip4_reass_free_holes w index;
  Some (put_dgram w index ((DGRAM w index) <| d_state := ABANDONED |>)).

Fixpoint fills_loop (fuel : nat) (w : Work) (first last fills h : Z) : option Z :=
  match fuel with
  | O => None
  | S fuel' =>
      if h =? IP4_REASS_NONE then Some fills
      else
        let hole := HOLE w h in
        let lo := if h_first hole <? first then first else h_first hole in
        let hi := if last <? h_last hole then last else h_last hole in
        let fills := if lo <=? hi then u32 (fills + u32 (u32 (hi - lo) + 1)) else fills in
        fills_loop fuel' w first last fills (h_next hole)
  end.

Definition ip4_reass_fills (w : Work) (index first last : Z) : option Z :=
  fills_loop (S holes) w first last 0 (d_hole_head (DGRAM w index)).

Definition ip4_reass_frag_link (w : Work) (index frag : Z) : option Work :=
  let added := FRAG w frag in
  '(prev, cur) ← walk IP4_REASS_NONE (fun j => f_next (FRAG w j))
      (fun j => f_off (FRAG w j) <=? f_off added) (S frags) IP4_REASS_NONE (d_frag_head (DGRAM w index));
  let w := put_frag w frag (added <| f_next := cur |>) in
  Some (if prev =? IP4_REASS_NONE
        then put_dgram w index ((DGRAM w index) <| d_frag_head := frag |>)
        else put_frag w prev ((FRAG w prev) <| f_next := frag |>)).

Fixpoint end_loop (fuel : nat) (w : Work) (last f : Z) : option Z :=
  match fuel with
  | O => None
  | S fuel' =>
      if f =? IP4_REASS_NONE then Some last
      else
        let frag := FRAG w f in
        let frag_end := u32 (f_off frag + f_len frag) in
        end_loop fuel' w (if last <? frag_end then frag_end else last) (f_next frag)
  end.

Definition ip4_reass_end (w : Work) (index : Z) : option Z :=
  end_loop (S frags) w 0 (d_frag_head (DGRAM w index)).

Definition ip4_reass_hole_thread (w : Work) (index at_ to_ : Z) : Work :=
  if at_ =? IP4_REASS_NONE
  then put_dgram w index ((DGRAM w index) <| d_hole_head := to_ |>)
  else put_hole w at_ ((HOLE w at_) <| h_next := to_ |>).

(** Step 6 of RFC 815 sec 3, behind the slot [tail]: the piece past the fragment, if more follow it.
    [inr] is the table running out, [inl] the slot the walk goes on behind. *)
Definition split_tail (w : Work) (index last hole_last : Z) (mf : bool) (prev next tail : Z) : Work * (Z + unit) :=
  if (last <? hole_last) && mf then
    let '(w, piece) := ip4_reass_hole_alloc w (u32 (last + 1)) hole_last in
    if piece =? IP4_REASS_NONE then
      (if tail =? prev then ip4_reass_hole_thread w index prev next else w, inr ())
    else
      let w := put_hole w piece ((HOLE w piece) <| h_next := next |>) in
      let w := ip4_reass_hole_thread w index tail piece in
      (if piece =? prev then ip4_reass_hole_thread w index prev next else w, inl piece)
  else
    (if tail =? prev then ip4_reass_hole_thread w index prev next else w, inl tail).

(** One round of the walk that found a hole the fragment reaches: steps 4 to 6 of RFC 815 sec 3. *)
Definition split_hole (w : Work) (index first last : Z) (mf : bool) (prev h : Z) : Work * (Z + unit) :=
  let next := h_next (HOLE w h) in
  let hole_first := h_first (HOLE w h) in
  let hole_last := h_last (HOLE w h) in
  let w := put_hole w h ((HOLE w h) <| h_state := FREE |> <| h_next := IP4_REASS_NONE |>) in
  if hole_first <? first then
    let '(w, piece) := ip4_reass_hole_alloc w hole_first (u32 (first - 1)) in
    if piece =? IP4_REASS_NONE then (ip4_reass_hole_thread w index prev next, inr ())
    else
      let w := put_hole w piece ((HOLE w piece) <| h_next := next |>) in
      let w := ip4_reass_hole_thread w index prev piece in
      split_tail w index last hole_last mf prev next piece
  else split_tail w index last hole_last mf prev next prev.

Fixpoint holes_loop (fuel : nat) (w : Work) (index first last : Z) (mf : bool) (deleted prev h : Z)
    : option (Work * Z) :=
  match fuel with
  | O => None
  | S fuel' =>
      if h =? IP4_REASS_NONE then Some (w, deleted)
      else
        let hole := HOLE w h in
        let next := h_next hole in
        if (h_last hole <? first) || (last <? h_first hole)
        then holes_loop fuel' w index first last mf deleted h next
        else
          match split_hole w index first last mf prev h with
          | (w, inl tail) => holes_loop fuel' w index first last mf (u8 (deleted + 1)) tail next
          | (w, inr _) => Some (w, IP4_REASS_NONE)
          end
  end.

Definition ip4_reass_holes (w : Work) (index first last : Z) (mf : bool) : option (Work * Z) :=
  holes_loop (S holes) w index first last mf 0 IP4_REASS_NONE (d_hole_head (DGRAM w index)).

(** ** The bodies *)

(** The rows from [i] on, [n] of them. *)
Fixpoint flush_bufid_loop (n : nat) (w : Work) (src dst proto id first i : Z) : option (Work * Z) :=
  match n with
  | O => Some (w, first)
  | S n' =>
      let row := DGRAM w i in
      if state_eqb (d_state row) FREE || state_eqb (d_state row) RECLAIM
      then flush_bufid_loop n' w src dst proto id first (i + 1)
      else if negb (bufid_eqb row src dst proto id)
      then flush_bufid_loop n' w src dst proto id first (i + 1)
      else
        w ← ip4_reass_flush w (u8 i);
        flush_bufid_loop n' w src dst proto id (if first =? IP4_REASS_NONE then u8 i else first) (i + 1)
  end.

Definition ip4_reass_flush_bufid (w : Work) (src dst proto id : Z) : option (Work * Z) :=
  flush_bufid_loop dgrams w src dst proto id IP4_REASS_NONE 0.

(** What [ip4_reass_take] reads out of the header before anything else. *)
Record Fragment := mkFragment {
  hdr_len : Z;
  data_len : Z;
  off : Z;
  mf : bool;
  src : Z;
  dst : Z;
  proto : Z;
  id : Z }.
Definition fragment_of (hdr : list Z) : Fragment :=
  {| hdr_len := u8 (ip4_hdr_len hdr);
     data_len := ip4_payload_len hdr;
     off := ip4_frag_offset_bytes hdr;
     mf := ip4_mf hdr;
     src := ip4_src hdr;
     dst := ip4_dst hdr;
     proto := ip4_proto hdr;
     id := ip4_id hdr |}.
Definition frag_end (x : Fragment) : Z := u32 (off x + data_len x).

(** The row of the buffer identifier, found or opened: [inl] carries it and whether this call opened
    it, [inr] is a full table, reported. *)
Definition take_row (w : Work) (x : Fragment) : Work * (Z * bool + unit) :=
  let index := ip4_reass_find w (src x) (dst x) (proto x) (id x) in
  if negb (index =? IP4_REASS_NONE) then (w, inl (index, false))
  else
    let '(w, index) := ip4_reass_row_alloc w in
    if index =? IP4_REASS_NONE then (set_status IDEMIP_BUSY w, inr ())
    else
      let '(w, head) := ip4_reass_hole_alloc w 0 IDEMIP_IP4_REASS_INFINITY in
      let w := put_dgram w index ((DGRAM w index) <| d_hole_head := head |>) in
      if head =? IP4_REASS_NONE
      then (set_status IDEMIP_BUSY (put_dgram w index ((DGRAM w index) <| d_state := FREE |>)), inr ())
      else
        (put_dgram w index
           ((DGRAM w index) <| d_src := src x |> <| d_dst := dst x |> <| d_proto := proto x |> <| d_id := id x |>
              <| d_deadline_ms := u32 (io_now_ms (w_io w) + u32 (IDEMIP_IP_REASS_MAXAGE_S * IP4_REASS_MS_PER_S)) |>),
         inl (index, true)).

Definition report_row (index : Z) (state : IdemIpIp4ReassState) : Work → Work :=
  set_io (fun io => io <| io_index := index |> <| io_state := state |>).

(** The fragment, already allocated, threaded into the row whose holes it filled: steps (10), (11) and
    step 8's test for an empty hole list. *)
Definition take_land (w : Work) (x : Fragment) (index frag : Z) : option Work :=
  let w := put_frag w frag
             ((FRAG w frag) <| f_desc := a_desc (hold_args (w_io w)) |> <| f_off := u16 (off x) |>
                <| f_len := u16 (data_len x) |> <| f_hdr_len := hdr_len x |>) in
  w ← ip4_reass_frag_link w index frag;
  let w := w <| w_ctx := (w_ctx w) <| c_held := u8 (c_held (w_ctx w) + 1) |> |> in
  let w := if mf x then w else put_dgram w index ((DGRAM w index) <| d_total_len := u16 (frag_end x) |>) in
  let w := if off x =? 0 then put_dgram w index ((DGRAM w index) <| d_first_frag := frag |>) else w in
  let row := DGRAM w index in
  let w :=
    if (d_hole_head row =? IP4_REASS_NONE) && negb (d_first_frag row =? IP4_REASS_NONE)
    then set_io (fun io => io <| io_complete := true |>)
           (put_dgram w index (row <| d_state := COMPLETE |> <| d_cursor := d_frag_head row |>))
    else w in
  let row := DGRAM w index in
  Some (set_io (fun io => io <| io_index := index |> <| io_state := d_state row |>
                             <| io_total_len := d_total_len row |> <| io_status := IDEMIP_OK |>) w).

(** What the row makes of the fragment: refused, a duplicate, an overlap, or taken. *)
Definition take_fragment (w : Work) (x : Fragment) (index : Z) (opened : bool) : option Work :=
  let row := DGRAM w index in
  if state_eqb (d_state row) ABANDONED then Some (report_row index ABANDONED w)
  else
    held_end ← ip4_reass_end w index;
    if (negb (d_total_len row =? 0) && (d_total_len row <? frag_end x)) ||
       (negb (mf x) && negb (d_total_len row =? 0) && negb (frag_end x =? d_total_len row)) ||
       (negb (mf x) && (frag_end x <? held_end))
    then if opened then ip4_reass_flush w index else Some w
    else
      fills ← ip4_reass_fills w index (off x) (u32 (frag_end x - 1));
      if fills =? 0 then Some (report_row index (d_state row) w)
      else if negb (fills =? data_len x) then
        w ← ip4_reass_abandon w index;
        Some (report_row index ABANDONED w)
      else
        let '(w, frag) := ip4_reass_frag_alloc w in
        if frag =? IP4_REASS_NONE then
          w ← (if opened then ip4_reass_flush w index else Some w);
          Some (set_status IDEMIP_BUSY w)
        else
          '(w, deleted) ← ip4_reass_holes w index (off x) (u32 (frag_end x - 1)) (mf x);
          if deleted =? IP4_REASS_NONE then
            w ← ip4_reass_flush (put_frag w frag ((FRAG w frag) <| f_state := FREE |>)) index;
            Some (set_status IDEMIP_BUSY w)
          else take_land w x index frag.

(** The refusals the header alone decides, then the row. *)
Definition take_held (w : Work) (x : Fragment) : option Work :=
  if (off x =? 0) && negb (mf x) then
    '(w, index) ← ip4_reass_flush_bufid w (src x) (dst x) (proto x) (id x);
    let w := set_io (fun io => io <| io_index := index |>) w in
    Some (if index =? IP4_REASS_NONE then w
          else set_io (fun io => io <| io_state := d_state (DGRAM w index) |>) w)
  else if (data_len x =? 0) || (mf x && negb (Z.land (data_len x) (IDEMIP_IP4_FRAG_UNIT - 1) =? 0)) then Some w
  else if IDEMIP_IP4_TOTAL_LEN_MAX <? u32 (u32 (off x + data_len x) + hdr_len x) then Some w
  else if IDEMIP_IP4_REASS_FRAGS <=? c_held (w_ctx w) then Some (set_status IDEMIP_BUSY w)
  else
    match take_row w x with
    | (w, inr _) => Some w
    | (w, inl (index, opened)) => take_fragment w x index opened
    end.

Definition ip4_reass_take (w : Work) : option Work :=
  let args := hold_args (w_io w) in
  match a_hdr args with
  | None => Some w
  | Some hdr =>
      if decide (ip4_verify_all word swap hdr (a_len args) = IDEMIP_OK)
      then take_held w (fragment_of hdr) else Some w
  end.

Definition ip4_reass_report (w : Work) : Work :=
  let index := next_index (w_io w) in
  if IDEMIP_IP4_REASS_DATAGRAMS <=? index then w
  else
    let row := DGRAM w index in
    let w := report_row index (d_state row) w in
    if state_eqb (d_state row) HOLDING then set_status IDEMIP_BUSY w
    else if negb (state_eqb (d_state row) COMPLETE) then w
    else
      let frag := d_cursor row in
      if frag =? IP4_REASS_NONE
      then set_status IDEMIP_BUSY (put_dgram w index (row <| d_cursor := d_frag_head row |>))
      else
        let held := FRAG w frag in
        let w := set_io (fun io => io <| io_off := f_off held |> <| io_len := f_len held |>
                                      <| io_desc := f_desc held |> <| io_hdr_len := f_hdr_len held |>) w in
        set_status IDEMIP_OK (put_dgram w index (row <| d_cursor := f_next held |>)).

Definition ip4_reass_done (w : Work) : option Work :=
  let index := release_index (w_io w) in
  if IDEMIP_IP4_REASS_DATAGRAMS <=? index then Some w
  else
    let row := DGRAM w index in
    if negb (state_eqb (d_state row) HOLDING) && negb (state_eqb (d_state row) COMPLETE) &&
       negb (state_eqb (d_state row) ABANDONED)
    then Some w
    else
      w ← ip4_reass_flush w index;
      Some (set_status IDEMIP_OK (report_row index (d_state (DGRAM w index)) w)).

(** The row the loop of [ip4_reass_unpin] stops at gives its first fragment back. *)
Definition unpin_row (w : Work) (i : Z) : Work :=
  let row := DGRAM w i in
  let f := d_frag_head row in
  let held := FRAG w f in
  let w := set_io (fun io => io <| io_desc := f_desc held |> <| io_len := f_len held |> <| io_index := u8 i |>) w in
  let row := row <| d_frag_head := f_next held |> in
  let w := put_dgram w i row in
  let w := put_frag w f (held <| f_state := FREE |> <| f_next := IP4_REASS_NONE |>) in
  let ctx := w_ctx w in
  let w := if negb (c_held ctx =? 0) then w <| w_ctx := ctx <| c_held := u8 (c_held ctx - 1) |> |> else w in
  let w := if d_frag_head row =? IP4_REASS_NONE
           then put_dgram w i (row <| d_state := FREE |> <| d_first_frag := IP4_REASS_NONE |> <| d_total_len := 0 |>)
           else w in
  set_status IDEMIP_OK w.

Definition ip4_reass_unpin (w : Work) : Work :=
  match scan (fun i => let row := DGRAM w i in
                       state_eqb (d_state row) RECLAIM && negb (d_frag_head row =? IP4_REASS_NONE)) dgrams 0 with
  | Some i => unpin_row w i
  | None => set_status IDEMIP_BUSY w
  end.

Definition ip4_reass_expire (w : Work) : option Work :=
  match scan (fun i => let row := DGRAM w i in
                       (state_eqb (d_state row) HOLDING || state_eqb (d_state row) COMPLETE ||
                        state_eqb (d_state row) ABANDONED) &&
                       ip4_reass_reached (io_now_ms (w_io w)) (d_deadline_ms row)) dgrams 0 with
  | Some i =>
      let row := DGRAM w i in
      let abandoned := state_eqb (d_state row) ABANDONED in
      let w := set_io (fun io => io <| io_src := if abandoned then 0 else d_src row |>
                                    <| io_frag_zero := negb abandoned && negb (d_first_frag row =? IP4_REASS_NONE) |>) w in
      w ← ip4_reass_flush w (u8 i);
      Some (set_status IDEMIP_OK (report_row (u8 i) (d_state (DGRAM w i)) w))
  | None => Some (set_status IDEMIP_BUSY w)
  end.

(** ** The entries *)

Definition idemip_ip4_reass_clear (w : Work) : Work :=
  set_status IDEMIP_OK
    (mkWork (w_io w) (mkCtx IP4_REASS_READY 0) (replicate dgrams Ip4ReassDatagram_zero)
       (replicate frags Ip4ReassFrag_zero) (replicate holes Ip4ReassHole_zero)).

Definition idemip_ip4_reass_hold (w : Work) : option Work :=
  let w := set_io (fun io => io <| io_status := IDEMIP_ERR |> <| io_complete := false |> <| io_total_len := 0 |>
                                <| io_index := IP4_REASS_NONE |> <| io_state := FREE |>) w in
  if ip4_reass_ready w then ip4_reass_take w else Some w.

Definition idemip_ip4_reass_next (w : Work) : Work :=
  let w := set_io (fun io => io <| io_status := IDEMIP_ERR |> <| io_off := 0 |> <| io_len := 0 |> <| io_desc := 0 |>
                                <| io_hdr_len := 0 |> <| io_index := IP4_REASS_NONE |> <| io_state := FREE |>) w in
  if ip4_reass_ready w then ip4_reass_report w else w.

Definition idemip_ip4_reass_release (w : Work) : option Work :=
  let w := set_io (fun io => io <| io_status := IDEMIP_ERR |> <| io_index := IP4_REASS_NONE |>
                                <| io_state := FREE |>) w in
  if ip4_reass_ready w then ip4_reass_done w else Some w.

Definition idemip_ip4_reass_reclaim (w : Work) : Work :=
  let w := set_io (fun io => io <| io_status := IDEMIP_ERR |> <| io_desc := 0 |> <| io_len := 0 |>
                                <| io_index := IP4_REASS_NONE |>) w in
  if ip4_reass_ready w then ip4_reass_unpin w else w.

Definition idemip_ip4_reass_tick (w : Work) : option Work :=
  let w := set_io (fun io => io <| io_status := IDEMIP_ERR |> <| io_index := IP4_REASS_NONE |> <| io_state := FREE |>
                                <| io_src := 0 |> <| io_frag_zero := false |>) w in
  if ip4_reass_ready w then ip4_reass_expire w else Some w.
End Unit.
End Ip4Reass.
