(* ===== verification/Ip4ReassSpec.v ===== *)
(** * IPv4 reassembly: what it promises

    The abstract reassembler has no links, no fragment table and no holes.  A row is the list of fragments
    it holds in ascending order; a fragment is taken when none of its octets is held, dropped when all of
    them are, and makes the row give up otherwise; the datagram is complete when its length is known and
    every octet below it is held.  [Ip4ReassProof] shows that the unit reports the same on every sequence
    of calls. *)
From Stdlib Require Import Sorted.
From S2P Require Import Prelude Base Ipv4 Cover Ip4Reass.

Module Ip4ReassSpec.
Import Ipv4 Ip4Reass.

(** ** Abstract rows *)
Record AFrag := mkAFrag { a_desc' : Z; a_off : Z; a_flen : Z; a_hdr_len : Z }.

Definition BufId : Type := Z * Z * Z * Z.

Inductive ARow : Type :=
  | AFree
  | AHolding (key : BufId) (deadline total : Z) (fs : list AFrag)
  | AComplete (key : BufId) (deadline total : Z) (fs cursor : list AFrag)
  | AAbandoned (key : BufId) (deadline : Z) (fs : list AFrag)
  | AReclaim (fs : list AFrag).
#[export] Instance ARow_inhabited : Inhabited ARow := populate AFree.

Definition a_state (r : ARow) : IdemIpIp4ReassState :=
  match r with
  | AFree => FREE
  | AHolding _ _ _ _ => HOLDING
  | AComplete _ _ _ _ _ => COMPLETE
  | AAbandoned _ _ _ => ABANDONED
  | AReclaim _ => RECLAIM
  end.

Definition a_frags (r : ARow) : list AFrag :=
  match r with
  | AFree => []
  | AHolding _ _ _ fs | AComplete _ _ _ fs _ | AAbandoned _ _ fs | AReclaim fs => fs
  end.

Definition a_key (r : ARow) : option BufId :=
  match r with
  | AHolding k _ _ _ | AComplete k _ _ _ _ | AAbandoned k _ _ => Some k
  | _ => None
  end.

Definition ival (a : AFrag) : Z * Z := (a_off a, a_off a + a_flen a).
Definition ivals (fs : list AFrag) : list (Z * Z) := map ival fs.

(** One past the last octet held. *)
Definition a_end (fs : list AFrag) : Z := foldr (λ a n, Z.max (a_off a + a_flen a) n) 0 fs.

(** Behind every fragment that does not start past it. *)
Fixpoint a_insert (a : AFrag) (fs : list AFrag) : list AFrag :=
  match fs with
  | [] => [a]
  | b :: fs' => if a_off b <=? a_off a then b :: a_insert a fs' else a :: fs
  end.

Definition a_whole (total : Z) (fs : list AFrag) : bool :=
  negb (total =? 0) && (osum (ivals fs) 0 total =? total).

(** Done with: what it pins goes back one by one. *)
Definition a_flush (r : ARow) : ARow :=
  match a_frags r with
  | [] => AFree
  | fs => AReclaim fs
  end.

Section Unit.
Variables (IDEMIP_IP4_REASS_DATAGRAMS IDEMIP_IP4_REASS_FRAGS : Z).
Variable IDEMIP_IP_REASS_MAXAGE_S : Z.
Variable word : option nat.
Variable swap : bool.
Let dgrams : nat := Z.to_nat IDEMIP_IP4_REASS_DATAGRAMS.

Definition AState : Type := Ip4ReassIo * list ARow.

Definition a_held (rows : list ARow) : Z := foldr (λ r n, Z.of_nat (length (a_frags r)) + n) 0 rows.

Definition x_key (x : Fragment) : BufId := (src x, dst x, proto x, id x).

Definition a_report (index : Z) (state : IdemIpIp4ReassState) (io : Ip4ReassIo) : Ip4ReassIo :=
  io <| io_index := index |> <| io_state := state |>.
Definition a_status (s : IdemIpStatus) (io : Ip4ReassIo) : Ip4ReassIo := io <| io_status := s |>.

(** A fragment against the row it belongs to. *)
Definition a_fragment (io : Ip4ReassIo) (rows : list ARow) (x : Fragment) (i : Z) : AState :=
  match tget rows i with
  | AHolding key deadline total fs =>
      let e := off x + data_len x in
      if (negb (total =? 0) && (total <? e)) || (negb (mf x) && negb (total =? 0) && negb (e =? total)) ||
         (negb (mf x) && (e <? a_end fs))
      then (io, rows)
      else
        let already := osum (ivals fs) (off x) e in
        if already =? data_len x then (a_report i HOLDING io, rows)
        else if negb (already =? 0) then (a_report i ABANDONED io, tset rows i (AAbandoned key deadline fs))
        else
          let fs := a_insert (mkAFrag (a_desc (hold_args io)) (off x) (data_len x) (hdr_len x)) fs in
          let total := if mf x then total else e in
          let whole := a_whole total fs in
          let row := if whole then AComplete key deadline total fs fs else AHolding key deadline total fs in
          ((a_report i (a_state row) (if whole then io <| io_complete := true |> else io))
             <| io_total_len := total |> <| io_status := IDEMIP_OK |>,
           tset rows i row)
  | r => (a_report i (a_state r) io, rows)
  end.

Definition a_open (io : Ip4ReassIo) (x : Fragment) : ARow :=
  AHolding (x_key x) (u32 (io_now_ms io + u32 (IDEMIP_IP_REASS_MAXAGE_S * IP4_REASS_MS_PER_S))) 0 [].

(** A row that still gathers, or that holds the identifier of a datagram it gave up on. *)
Definition a_matches (x : Fragment) (r : ARow) : bool :=
  match r with
  | AHolding k _ _ _ | AAbandoned k _ _ => bool_decide (k = x_key x)
  | _ => false
  end.

(** A row a whole datagram of that identifier supersedes. *)
Definition a_superseded (x : Fragment) (r : ARow) : bool := bool_decide (a_key r = Some (x_key x)).

Definition a_take (io : Ip4ReassIo) (rows : list ARow) (x : Fragment) : AState :=
  if (off x =? 0) && negb (mf x) then
    let rows' := map (λ r, if a_superseded x r then a_flush r else r) rows in
    match scan (λ i, a_superseded x (tget rows i)) dgrams 0 with
    | Some i => (a_report i (a_state (tget rows' i)) io, rows')
    | None => (io <| io_index := IP4_REASS_NONE |>, rows')
    end
  else if (data_len x =? 0) || (mf x && negb (Z.land (data_len x) (IDEMIP_IP4_FRAG_UNIT - 1) =? 0)) then (io, rows)
  else if IDEMIP_IP4_TOTAL_LEN_MAX <? off x + data_len x + hdr_len x then (io, rows)
  else if IDEMIP_IP4_REASS_FRAGS <=? a_held rows then (a_status IDEMIP_BUSY io, rows)
  else
    match scan (λ i, a_matches x (tget rows i)) dgrams 0 with
    | Some i => a_fragment io rows x i
    | None =>
        match scan (λ i, state_eqb (a_state (tget rows i)) FREE) dgrams 0 with
        | Some i => a_fragment io (tset rows i (a_open io x)) x i
        | None => (a_status IDEMIP_BUSY io, rows)
        end
    end.

Definition a_hold (s : AState) : AState :=
  let '(io, rows) := s in
  let io := io <| io_status := IDEMIP_ERR |> <| io_complete := false |> <| io_total_len := 0 |>
               <| io_index := IP4_REASS_NONE |> <| io_state := FREE |> in
  match a_hdr (hold_args io) with
  | None => (io, rows)
  | Some hdr =>
      if decide (ip4_verify_all word swap hdr (a_len (hold_args io)) = IDEMIP_OK)
      then a_take io rows (fragment_of hdr) else (io, rows)
  end.

Definition a_next (s : AState) : AState :=
  let '(io, rows) := s in
  let io := io <| io_status := IDEMIP_ERR |> <| io_off := 0 |> <| io_len := 0 |> <| io_desc := 0 |>
               <| io_hdr_len := 0 |> <| io_index := IP4_REASS_NONE |> <| io_state := FREE |> in
  let i := next_index io in
  if IDEMIP_IP4_REASS_DATAGRAMS <=? i then (io, rows)
  else
    let io := a_report i (a_state (tget rows i)) io in
    match tget rows i with
    | AHolding _ _ _ _ => (a_status IDEMIP_BUSY io, rows)
    | AComplete k d t fs [] => (a_status IDEMIP_BUSY io, tset rows i (AComplete k d t fs fs))
    | AComplete k d t fs (a :: rest) =>
        (io <| io_off := a_off a |> <| io_len := a_flen a |> <| io_desc := a_desc' a |> <| io_hdr_len := a_hdr_len a |>
            <| io_status := IDEMIP_OK |>,
         tset rows i (AComplete k d t fs rest))
    | _ => (io, rows)
    end.

Definition a_live (r : ARow) : bool := bool_decide (is_Some (a_key r)).

Definition a_release (s : AState) : AState :=
  let '(io, rows) := s in
  let io := io <| io_status := IDEMIP_ERR |> <| io_index := IP4_REASS_NONE |> <| io_state := FREE |> in
  let i := release_index io in
  if IDEMIP_IP4_REASS_DATAGRAMS <=? i then (io, rows)
  else if negb (a_live (tget rows i)) then (io, rows)
  else
    let row := a_flush (tget rows i) in
    (a_status IDEMIP_OK (a_report i (a_state row) io), tset rows i row).

Definition a_reclaim (s : AState) : AState :=
  let '(io, rows) := s in
  let io := io <| io_status := IDEMIP_ERR |> <| io_desc := 0 |> <| io_len := 0 |> <| io_index := IP4_REASS_NONE |> in
  match scan (λ i, state_eqb (a_state (tget rows i)) RECLAIM) dgrams 0 with
  | Some i =>
      match a_frags (tget rows i) with
      | a :: rest =>
          (io <| io_desc := a_desc' a |> <| io_len := a_flen a |> <| io_index := i |> <| io_status := IDEMIP_OK |>,
           tset rows i (match rest with [] => AFree | _ => AReclaim rest end))
      | [] => (io, rows)
      end
  | None => (a_status IDEMIP_BUSY io, rows)
  end.

Definition a_deadline (r : ARow) : Z :=
  match r with AHolding _ d _ _ | AComplete _ d _ _ _ | AAbandoned _ d _ => d | _ => 0 end.

Definition a_expired (now : Z) (r : ARow) : bool := a_live r && ip4_reass_reached now (a_deadline r).

Definition a_src (r : ARow) : Z :=
  match r with AHolding k _ _ _ | AComplete k _ _ _ _ => k.1.1.1 | _ => 0 end.
Definition a_frag_zero (r : ARow) : bool :=
  match r with AHolding _ _ _ fs | AComplete _ _ _ fs _ => existsb (λ a, a_off a =? 0) fs | _ => false end.

Definition a_tick (s : AState) : AState :=
  let '(io, rows) := s in
  let io := io <| io_status := IDEMIP_ERR |> <| io_index := IP4_REASS_NONE |> <| io_state := FREE |>
               <| io_src := 0 |> <| io_frag_zero := false |> in
  match scan (λ i, a_expired (io_now_ms io) (tget rows i)) dgrams 0 with
  | Some i =>
      let r := tget rows i in
      let io := io <| io_src := a_src r |> <| io_frag_zero := a_frag_zero r |> in
      (a_status IDEMIP_OK (a_report i (a_state (a_flush r)) io), tset rows i (a_flush r))
  | None => (a_status IDEMIP_BUSY io, rows)
  end.

Definition a_clear (s : AState) : AState := (a_status IDEMIP_OK s.1, replicate dgrams AFree).
End Unit.
End Ip4ReassSpec.
