(* ===== verification/Ip4ReassRep.v ===== *)
(** * IPv4 reassembly: the hole list as a statement about octets

    [gathering total H A]: the holes [H] and the fragments [A] of a row split the octets of the datagram
    between them.  What the RFC 815 arithmetic does to the bounds keeps that so, and what the code reads off
    the holes (how many octets a fragment fills, whether the list is empty) is what the abstract
    reassembler reads off the fragments. *)
From Stdlib Require Import Sorted.
From stdpp Require Import functions.
From S2P Require Import Prelude Chain Cover Ip4Reass Ip4ReassSpec.

Module Ip4ReassHoles.
Import Ip4Reass Ip4ReassSpec.

(** Before the last fragment the datagram runs to the hole list's infinity. *)
Definition span (total : Z) : Z := if total =? 0 then 65536 else total.

Definition frag_fits (a : AFrag) : Prop := 0 ≤ a_off a ∧ 0 < a_flen a ∧ a_off a + a_flen a ≤ 65515.

Record gathering (total : Z) (H : list (Z * Z)) (A : list AFrag) : Prop := {
  g_total : 0 ≤ total < 65536;
  g_cover : ∀ x, cover H x + cover (ivals A) x = ind (0, span total) x;
  g_apart : apart H;
  g_holes : nonempty H;
  g_frags : Forall frag_fits A;
  g_sorted : StronglySorted (λ a b, a_off a ≤ a_off b) A;
  g_end : total ≠ 0 → cover H (total - 1) = 0 }.

(** ** Counting *)
Lemma cover_perm l l' x : l ≡ₚ l' → cover l x = cover l' x.
Proof. induction 1; simpl; lia. Qed.

Lemma osum_app l1 l2 lo hi : osum (l1 ++ l2) lo hi = osum l1 lo hi + osum l2 lo hi.
Proof. induction l1 as [|p l IH]; simpl; [done|]. rewrite IH. lia. Qed.

Lemma ind_span total x : 0 ≤ x < span total → ind (0, span total) x = 1.
Proof. intros. destruct (ind_cases (0, span total) x) as [[_ ?]|[Hn _]]; [done|]. destruct Hn. unfold within; simpl; lia. Qed.

Lemma ind_le p x : 0 ≤ ind p x ≤ 1.
Proof. destruct (ind_cases p x); lia. Qed.

Lemma gathering_le {total H A} (G : gathering total H A) x : cover H x ≤ 1 ∧ cover (ivals A) x ≤ 1.
Proof.
  pose proof (g_cover _ _ _ G x). pose proof (ind_le (0, span total) x).
  pose proof (cover_nonneg H x). pose proof (cover_nonneg (ivals A) x). lia.
Qed.

Lemma gathering_span {total H A} (G : gathering total H A) x : 1 ≤ cover H x + cover (ivals A) x → 0 ≤ x < span total.
Proof.
  rewrite (g_cover _ _ _ G). destruct (ind_cases (0, span total) x) as [[Hw _]|[_ ->]]; [|lia].
  intros _. exact Hw.
Qed.

Lemma hole_bounds {total H A} (G : gathering total H A) p : p ∈ H → 0 ≤ p.1 < p.2 ∧ p.2 ≤ span total.
Proof.
  intros Hp. pose proof (g_holes _ _ _ G) as Hne. unfold nonempty in Hne. rewrite Forall_forall in Hne.
  specialize (Hne p Hp). simpl in Hne.
  assert (1 ≤ cover H p.1) by (apply (cover_elem _ p); [done|unfold within; lia]).
  assert (1 ≤ cover H (p.2 - 1)) by (apply (cover_elem _ p); [done|unfold within; lia]).
  pose proof (cover_nonneg (ivals A) p.1). pose proof (cover_nonneg (ivals A) (p.2 - 1)).
  pose proof (gathering_span G p.1). pose proof (gathering_span G (p.2 - 1)). lia.
Qed.

(** The octets of a stretch are in holes or in fragments. *)
Lemma fills_already {total H A} (G : gathering total H A) lo hi : 0 ≤ lo ≤ hi → hi ≤ span total → osum H lo hi + osum (ivals A) lo hi = hi - lo.
Proof.
  intros Hlo Hhi. rewrite <- osum_app.
  apply (osum_spec (H ++ ivals A) lo hi); [lia| |];
    intros x Hx; rewrite cover_app, (g_cover _ _ _ G), ind_span; lia.
Qed.

Lemma ival_end {total H A} (G : gathering total H A) a : a ∈ A → a_off a + a_flen a ≤ 65515.
Proof. intros Ha. pose proof (g_frags _ _ _ G) as Hf. rewrite Forall_forall in Hf. by apply Hf. Qed.

Lemma cover_ivals A x : 1 ≤ cover (ivals A) x → ∃ a, a ∈ A ∧ a_off a ≤ x < a_off a + a_flen a.
Proof. intros (p & (a & -> & Ha)%list_elem_of_fmap & Hw)%cover_pos. exists a. done. Qed.

(** RFC 815 sec 3 step 8: no hole is left exactly when the length is known and every octet below is held. *)
Lemma no_hole_whole {total H A} (G : gathering total H A) : bool_decide (H = []) = a_whole total A.
Proof.
  unfold a_whole. pose proof (g_total _ _ _ G) as Ht. case_bool_decide as HH; symmetry.
  - subst H. assert (total ≠ 0) as Hne.
    { intros ->. pose proof (g_cover _ _ _ G 65535) as Hc. rewrite ind_span in Hc by (unfold span; simpl; lia).
      simpl in Hc. destruct (cover_ivals A 65535) as (a & Ha & ?); [lia|]. pose proof (ival_end G a Ha). lia. }
    apply andb_true_iff; split; [by apply negb_true_iff, Z.eqb_neq|]. apply Z.eqb_eq.
    pose proof (fills_already G 0 total) as Hf. unfold span in Hf. simpl in Hf.
    destruct (Z.eqb_spec total 0); lia.
  - destruct (Z.eqb_spec total 0) as [|Hne]; [done|]. simpl. apply Z.eqb_neq. intros Hs.
    destruct H as [|p H']; [done|]. destruct (hole_bounds G p) as [? Hp]; [left|].
    pose proof (fills_already G 0 total) as Hf. unfold span in *. rewrite (proj2 (Z.eqb_neq total 0)) in * by done.
    assert (osum (p :: H') 0 total = 0) as H0 by lia.
    apply osum_spec with (x := p.1) in H0; [|lia|intros x ?; apply (gathering_le G)|lia].
    assert (1 ≤ cover (p :: H') p.1) by (apply (cover_elem _ p); [left|unfold within; lia]). lia.
Qed.

(** A complete datagram is held end to end, from octet zero to its length. *)
Lemma whole_contiguous {total H A} (G : gathering total H A) : H = [] → contiguous 0 (ivals A) total.
Proof.
  intros HH. pose proof (no_hole_whole G) as Hw. rewrite bool_decide_true in Hw by done. symmetry in Hw.
  unfold a_whole in Hw. bool_prop. pose proof (g_total _ _ _ G).
  apply sorted_contiguous; [lia|..].
  - pose proof (g_frags _ _ _ G) as Hf. unfold nonempty, ivals. apply Forall_fmap.
    eapply Forall_impl; [exact Hf|]. unfold frag_fits, ival. simpl. lia.
  - pose proof (g_sorted _ _ _ G) as Hs. unfold ivals. clear -Hs. induction Hs as [|a l Hl IH Ha]; simpl; [constructor|].
    constructor; [done|]. by apply Forall_fmap.
  - intros x. pose proof (g_cover _ _ _ G x) as Hc. rewrite HH in Hc. simpl in Hc. rewrite Z.add_0_l in Hc. rewrite Hc.
    unfold ind, span. simpl. rewrite (proj2 (Z.eqb_neq total 0)) by lia.
    destruct (Z.leb_spec 0 x), (Z.ltb_spec x total); simpl; case_bool_decide; lia.
Qed.

(** A fragment none of whose octets is held lies in one hole. *)
Lemma fits_one_hole {total H A} (G : gathering total H A) lo hi :
  0 ≤ lo < hi → hi ≤ span total → osum (ivals A) lo hi = 0 → ∃ p, p ∈ H ∧ p.1 ≤ lo ∧ hi ≤ p.2.
Proof.
  intros Hlo Hhi H0. apply apart_inside; [lia|apply G|].
  intros x Hx. apply osum_spec with (x := x) in H0; [|lia|intros; apply (gathering_le G)|lia].
  pose proof (g_cover _ _ _ G x) as Hc. rewrite ind_span in Hc by lia. lia.
Qed.

(** The last octet of a datagram whose length is known is held. *)
Lemma last_octet_held {total H A} (G : gathering total H A) lo : total ≠ 0 → 0 ≤ lo < total → osum (ivals A) lo total ≠ 0.
Proof.
  intros Ht Hlo H0. apply osum_spec with (x := total - 1) in H0; [|lia|intros; apply (gathering_le G)|lia].
  pose proof (g_cover _ _ _ G (total - 1)) as Hc. rewrite ind_span, (g_end _ _ _ G) in Hc; [lia|done|].
  unfold span. destruct (Z.eqb_spec total 0); lia.
Qed.

Lemma held_below_end A x : 1 ≤ cover (ivals A) x → x < a_end A.
Proof.
  intros (a & Ha & Hx)%(cover_ivals A). revert Ha. induction A as [|b A' IH]; intros Ha; [by apply elem_of_nil in Ha|].
  simpl. apply elem_of_cons in Ha as [->|Ha]; [lia|]. specialize (IH Ha). lia.
Qed.

(** A hole that reaches the end of what is held, of a datagram of unknown length, is the open one. *)
Lemma last_hole {total H A} (G : gathering total H A) p : total = 0 → p ∈ H → a_end A ≤ p.2 → p.2 = 65536.
Proof.
  intros Ht Hp He. destruct (hole_bounds G p Hp) as [? Hs]. subst total. unfold span in Hs. simpl in Hs.
  destruct (decide (p.2 = 65536)); [done|exfalso].
  pose proof (g_cover _ _ _ G p.2) as Hc. rewrite ind_span in Hc by (unfold span; simpl; lia).
  destruct (decide (1 ≤ cover H p.2)) as [Hq|].
  - apply cover_pos in Hq as (q & Hq & Hw). unfold within in Hw. pose proof (g_apart _ _ _ G p q Hp Hq).
    assert (2 ≤ cover H (p.2 - 1)) as H2.
    { apply (cover_two H p q); [done..| | |]; [intros ->|..]; unfold within; lia. }
    pose proof (gathering_le G (p.2 - 1)). lia.
  - pose proof (cover_nonneg H p.2). pose proof (held_below_end A p.2). lia.
Qed.

(** ** One fragment into one hole *)
Lemma gathering_open : gathering 0 [(0, 65536)] [].
Proof.
  split.
  - lia.
  - intros x. simpl. unfold span. simpl. lia.
  - intros p q ->%list_elem_of_singleton ->%list_elem_of_singleton. simpl. lia.
  - repeat constructor; simpl; lia.
  - constructor.
  - constructor.
  - done.
Qed.

Lemma a_insert_perm a fs : a_insert a fs ≡ₚ a :: fs.
Proof. induction fs as [|b fs IH]; simpl; [done|]. destruct (_ <=? _); [|done]. rewrite IH. constructor. Qed.

Lemma a_insert_sorted a fs :
  StronglySorted (λ a b, a_off a ≤ a_off b) fs → StronglySorted (λ a b, a_off a ≤ a_off b) (a_insert a fs).
Proof.
  induction 1 as [|b fs Hs IH Hb]; simpl; [repeat constructor|].
  destruct (Z.leb_spec (a_off b) (a_off a)).
  - constructor; [done|]. rewrite Forall_forall in *. intros c Hc. rewrite a_insert_perm in Hc.
    apply elem_of_cons in Hc as [->|Hc]; [done|]. by apply Hb.
  - constructor; [by constructor|]. constructor; [lia|]. eapply Forall_impl; [exact Hb|]. simpl. lia.
Qed.

(** The pieces RFC 815 steps 5 and 6 leave of a hole. *)
Definition pieces (p : Z * Z) (a : AFrag) (mf : bool) : list (Z * Z) :=
  (if p.1 <? a_off a then [(p.1, a_off a)] else []) ++
  (if (a_off a + a_flen a <? p.2) && mf then [(a_off a + a_flen a, p.2)] else []).

Lemma cover_pieces p a mf x :
  p.1 ≤ a_off a → 0 < a_flen a → a_off a + a_flen a ≤ p.2 →
  cover (pieces p a mf) x + ind (ival a) x + (if mf then 0 else ind (a_off a + a_flen a, p.2) x) = ind p x.
Proof.
  intros. unfold pieces. rewrite cover_app.
  assert (cover (if p.1 <? a_off a then [(p.1, a_off a)] else []) x = ind (p.1, a_off a) x) as ->.
  { destruct (Z.ltb_spec p.1 (a_off a)); simpl; [lia|].
    destruct (ind_cases (p.1, a_off a) x) as [[Hw _]|[_ ->]]; [|done]. unfold within in Hw. simpl in Hw. lia. }
  assert (cover (if (a_off a + a_flen a <? p.2) && mf then [(a_off a + a_flen a, p.2)] else []) x =
          if mf then ind (a_off a + a_flen a, p.2) x else 0) as ->.
  { destruct (Z.ltb_spec (a_off a + a_flen a) p.2), mf; simpl; try lia.
    destruct (ind_cases (a_off a + a_flen a, p.2) x) as [[Hw _]|[_ ->]]; [|done]. unfold within in Hw. simpl in Hw. lia. }
  destruct (ind_cases (p.1, a_off a) x) as [[Hi1 ->]|[Hi1 ->]], (ind_cases (ival a) x) as [[Hi2 ->]|[Hi2 ->]],
    (ind_cases (a_off a + a_flen a, p.2) x) as [[Hi3 ->]|[Hi3 ->]], (ind_cases p x) as [[Hi4 ->]|[Hi4 ->]];
    unfold within, ival in *; simpl in *; destruct mf; lia.
Qed.

Lemma elem_pieces p a mf q :
  q ∈ pieces p a mf → (q = (p.1, a_off a) ∧ p.1 < a_off a) ∨
                       (q = (a_off a + a_flen a, p.2) ∧ a_off a + a_flen a < p.2 ∧ mf = true).
Proof.
  unfold pieces. destruct (Z.ltb_spec p.1 (a_off a)), (Z.ltb_spec (a_off a + a_flen a) p.2), mf; simpl; set_solver.
Qed.

(** The holes left of one that was split do not touch the others. *)
Lemma apart_pieces total H1 p H2 A a mf :
  gathering total (H1 ++ p :: H2) A → p.1 ≤ a_off a → 0 < a_flen a → a_off a + a_flen a ≤ p.2 →
  apart (H1 ++ pieces p a mf ++ H2).
Proof.
  intros G Hlo Hlen Hhi.
  assert (∀ q, q ∈ H1 ++ pieces p a mf ++ H2 → q ∈ H1 ++ H2 ∨ q ∈ pieces p a mf) as Hcase by set_solver.
  assert (∀ q x, q ∈ H1 ++ H2 → within p x → ¬ within q x) as Hout.
  { intros q x Hq Hx. apply (cover_split H1 p H2); [apply (gathering_le G)|done..]. }
  assert (∀ q, q ∈ H1 ++ H2 → q.1 < q.2 ∧ p.2 ≠ q.1 ∧ q.2 ≠ p.1) as Hoth.
  { intros q Hq. split_and!; [|apply (g_apart _ _ _ G); set_solver..].
    destruct (hole_bounds G q); [set_solver|lia]. }
  intros q r Hq%Hcase Hr%Hcase.
  destruct Hq as [Hq|[[-> ?]|(-> & ? & _)]%elem_pieces], Hr as [Hr|[[-> ?]|(-> & ? & _)]%elem_pieces]; simpl.
  - apply (g_apart _ _ _ G); set_solver.
  - by apply Hoth.
  - intros E. apply (Hout q (q.2 - 1)); [done|..]; destruct (Hoth q Hq); unfold within; lia.
  - intros E. apply (Hout r r.1); [done|..]; destruct (Hoth r Hr); unfold within; lia.
  - lia.
  - lia.
  - by apply Hoth.
  - lia.
  - lia.
Qed.

Lemma gathering_take total H1 p H2 A a mf :
  gathering total (H1 ++ p :: H2) A → frag_fits a → p.1 ≤ a_off a → a_off a + a_flen a ≤ p.2 →
  (mf = false → total = 0 ∧ a_end A ≤ a_off a + a_flen a) →
  gathering (if mf then total else a_off a + a_flen a) (H1 ++ pieces p a mf ++ H2) (a_insert a A).
Proof.
  intros G Ha Hlo Hhi Hlast. pose proof Ha as (Ha0 & Ha1 & Ha2).
  assert (p ∈ H1 ++ p :: H2) as Hp by set_solver. pose proof (hole_bounds G p Hp) as [Hpb Hps].
  assert (∀ x, cover (H1 ++ pieces p a mf ++ H2) x + ind (ival a) x +
     (if mf then 0 else ind (a_off a + a_flen a, p.2) x) = cover (H1 ++ p :: H2) x) as Hcov.
  { intros x. pose proof (cover_pieces p a mf x Hlo Ha1 Hhi). rewrite !cover_app. simpl. lia. }
  split.
  - destruct mf; [apply G|]. lia.
  - intros x. rewrite (cover_perm (ivals _) (ivals (a :: A))) by (unfold ivals; by rewrite a_insert_perm).
    simpl. pose proof (g_cover _ _ _ G x) as Hc. specialize (Hcov x). destruct mf; [lia|].
    destruct (Hlast eq_refl) as [-> He]. assert (p.2 = 65536) as Hp2 by (apply (last_hole G p); [done..|lia]).
    rewrite Hp2 in *. unfold span in *. simpl (0 =? 0) in *. cbv iota in *.
    rewrite (proj2 (Z.eqb_neq (a_off a + a_flen a) 0)) by lia.
    destruct (ind_cases (0, 65536) x) as [[? ?]|[? ?]], (ind_cases (0, a_off a + a_flen a) x) as [[? ?]|[? ?]],
      (ind_cases (a_off a + a_flen a, 65536) x) as [[? ?]|[? ?]]; unfold within in *; simpl in *; lia.
  - by eapply apart_pieces.
  - pose proof (g_holes _ _ _ G) as Hne. unfold nonempty in *. rewrite Forall_forall in *. intros q Hq.
    assert (q ∈ H1 ++ p :: H2 ∨ q ∈ pieces p a mf) as [?|[[-> ?]|(-> & ? & _)]%elem_pieces] by set_solver;
      [by apply Hne|simpl; lia..].
  - rewrite a_insert_perm. constructor; [done|apply G].
  - apply a_insert_sorted, G.
  - intros Ht. specialize (Hcov (if mf then total - 1 else a_off a + a_flen a - 1)).
    pose proof (cover_nonneg (H1 ++ pieces p a mf ++ H2) (if mf then total - 1 else a_off a + a_flen a - 1)).
    destruct mf.
    + rewrite (g_end _ _ _ G) in Hcov by done. pose proof (ind_le (ival a) (total - 1)). lia.
    + pose proof (gathering_le G (a_off a + a_flen a - 1)).
      pose proof (ind_le (a_off a + a_flen a, p.2) (a_off a + a_flen a - 1)).
      destruct (ind_cases (ival a) (a_off a + a_flen a - 1)) as [[_ ?]|[Hn _]]; [lia|].
      destruct Hn. unfold within, ival. simpl. lia.
Qed.
End Ip4ReassHoles.

(** * IPv4 reassembly: the borrow as a set of abstract rows

    [rep w fr hr rows]: row [i] of the borrow threads the fragments [fr i] and the holes [hr i], no table
    row is on two lists, the in-use marks and the count of held fragments agree with the lists, and what
    the lists hold is the abstract row [rows[i]].  The lemmas here change one row at a time. *)
Module Ip4ReassRep.
Import Ip4Reass Ip4ReassSpec Ip4ReassHoles.




(** ** Rows *)
Definition afrag (f : Ip4ReassFrag) : AFrag := mkAFrag (f_desc f) (f_off f) (f_len f) (f_hdr_len f).
Definition hole (h : Ip4ReassHole) : Z * Z := (h_first h, h_last h + 1).
Definition afrags (w : Work) (fl : list Z) : list AFrag := map (λ k, afrag (FRAG w k)) fl.
Definition aholes (w : Work) (hl : list Z) : list (Z * Z) := map (λ k, hole (HOLE w k)) hl.
Definition key (row : Ip4ReassDatagram) : BufId := (d_src row, d_dst row, d_proto row, d_id row).

Definition frag_busy (f : Ip4ReassFrag) : bool := negb (state_eqb (f_state f) FREE).
Definition hole_busy (h : Ip4ReassHole) : bool := negb (state_eqb (h_state h) FREE).
Definition has_zero (A : list AFrag) : bool := existsb (λ a, a_off a =? 0) A.

Definition links (w : Work) (row : Ip4ReassDatagram) (fl hl : list Z) : Prop :=
  chain IP4_REASS_NONE (λ k, f_next (FRAG w k)) (d_frag_head row) fl ∧
  chain IP4_REASS_NONE (λ k, h_next (HOLE w k)) (d_hole_head row) hl.

Definition row_ok (w : Work) (row : Ip4ReassDatagram) (fl hl : list Z) (a : ARow) : Prop :=
  match d_state row with
  | FREE => fl = [] ∧ hl = [] ∧ a = AFree
  | HOLDING =>
      links w row fl hl ∧ gathering (d_total_len row) (aholes w hl) (afrags w fl) ∧ hl ≠ [] ∧
      (length hl ≤ S (length fl))%nat ∧ negb (d_first_frag row =? IP4_REASS_NONE) = has_zero (afrags w fl) ∧
      a = AHolding (key row) (d_deadline_ms row) (d_total_len row) (afrags w fl)
  | COMPLETE =>
      links w row fl hl ∧ gathering (d_total_len row) [] (afrags w fl) ∧ hl = [] ∧ fl ≠ [] ∧
      negb (d_first_frag row =? IP4_REASS_NONE) = has_zero (afrags w fl) ∧
      ∃ l1 l2, fl = l1 ++ l2 ∧ d_cursor row = first_of IP4_REASS_NONE l2 ∧
        a = AComplete (key row) (d_deadline_ms row) (d_total_len row) (afrags w fl) (afrags w l2)
  | ABANDONED =>
      links w row fl hl ∧ hl = [] ∧ fl ≠ [] ∧ a = AAbandoned (key row) (d_deadline_ms row) (afrags w fl)
  | RECLAIM => links w row fl hl ∧ hl = [] ∧ fl ≠ [] ∧ a = AReclaim (afrags w fl)
  end.

Lemma map_tget_ext {A B} (f : A → B) (g g' : Z → A) (l : list Z) :
  (∀ k, k ∈ l → g' k = g k) → map (λ k, f (g' k)) l = map (λ k, f (g k)) l.
Proof. intros Hg. apply map_ext_in. intros k Hk%list_elem_of_In. by rewrite Hg. Qed.

(** A row depends only on itself and on the table rows of its two lists. *)
Lemma row_ok_ext w w' row fl hl a :
  (∀ k, k ∈ fl → FRAG w' k = FRAG w k) → (∀ k, k ∈ hl → HOLE w' k = HOLE w k) →
  row_ok w row fl hl a → row_ok w' row fl hl a.
Proof.
  intros Hf Hh. unfold row_ok.
  assert (afrags w' fl = afrags w fl) as -> by (by apply map_tget_ext).
  assert (aholes w' hl = aholes w hl) as -> by (by apply map_tget_ext).
  assert (links w row fl hl → links w' row fl hl) as Hl.
  { intros [H1 H2]. split; [eapply chain_ext; [|exact H1]|eapply chain_ext; [|exact H2]]; intros k Hk; simpl.
    - by rewrite Hf. - by rewrite Hh. }
  destruct (d_state row); try naive_solver.
  intros (?&?&?&?&?&l1&l2&->&Hc&Ha). split_and!; [auto..|]. exists l1, l2. split_and!; [done..|].
  rewrite Ha. f_equal. symmetry. apply map_tget_ext. intros k Hk. apply Hf. set_solver.
Qed.

Lemma row_ok_state w row fl hl a : row_ok w row fl hl a → d_state row = a_state a.
Proof. unfold row_ok. destruct (d_state row); naive_solver. Qed.

Lemma row_ok_frags w row fl hl a : row_ok w row fl hl a → a_frags a = afrags w fl.
Proof. unfold row_ok. destruct (d_state row); naive_solver. Qed.

Lemma row_ok_links w row fl hl a : row_ok w row fl hl a → d_state row ≠ FREE → links w row fl hl.
Proof. unfold row_ok. destruct (d_state row); naive_solver. Qed.

Lemma row_ok_NoDup w row fl hl a : row_ok w row fl hl a → NoDup fl ∧ NoDup hl.
Proof.
  intros Hr. destruct (decide (d_state row = FREE)) as [E|E].
  - unfold row_ok in Hr. rewrite E in Hr. destruct Hr as (-> & -> & _). split; constructor.
  - destruct (row_ok_links _ _ _ _ _ Hr E) as [Hf Hh]. split; by eapply chain_NoDup.
Qed.

Lemma row_ok_holes w row fl hl a : row_ok w row fl hl a → (length hl ≤ S (length fl))%nat.
Proof. unfold row_ok. destruct (d_state row); intros; destruct_and?; subst; simpl; lia. Qed.

Section Unit.
Variables (D F HO : Z).

Record rep (w : Work) (fr hr : Z → list Z) (rows : list ARow) : Prop := {
  r_dgrams : tlen (w_dgram w) = D;
  r_frags : tlen (w_frag w) = F;
  r_holes : tlen (w_hole w) = HO;
  r_arows : tlen rows = D;
  r_rows : ∀ i, 0 ≤ i < D → row_ok w (DGRAM w i) (fr i) (hr i) (tget rows i);
  r_fown : owner (tlen (w_frag w)) (λ k, frag_busy (tget (w_frag w) k)) (owned D fr);
  r_hown : owner (tlen (w_hole w)) (λ k, hole_busy (tget (w_hole w) k)) (owned D hr);
  r_held : c_held (w_ctx w) = Z.of_nat (length (owned D fr));
  r_ready : c_ready (w_ctx w) = IP4_REASS_READY }.

(** One row, its fragments and its holes change; the rest of the borrow stands. *)
Lemma rep_update w w' fr hr rows i fl hl a :
  rep w fr hr rows → 0 ≤ i < D →
  w_dgram w' = tset (w_dgram w) i (DGRAM w' i) →
  tframe frag_busy (w_frag w) (w_frag w') (fr i) fl →
  tframe hole_busy (w_hole w) (w_hole w') (hr i) hl →
  c_ready (w_ctx w') = c_ready (w_ctx w) →
  c_held (w_ctx w') + Z.of_nat (length (fr i)) = c_held (w_ctx w) + Z.of_nat (length fl) →
  row_ok w' (DGRAM w' i) fl hl a →
  rep w' (<[i := fl]> fr) (<[i := hl]> hr) (tset rows i a).
Proof.
  intros [Hd Hf Hh Ha Hrows Hfo Hho Hheld Hready] Hi Hdg Hff Hhf Hrdy Hcnt Hrow.
  destruct (row_ok_NoDup _ _ _ _ _ Hrow) as [Hnf Hnh]. split.
  - by rewrite Hdg, tlen_tset.
  - destruct Hff as (?&->&_). done.
  - destruct Hhf as (?&->&_). done.
  - by rewrite tlen_tset.
  - intros j Hj. destruct (decide (i = j)) as [<-|Hne].
    + rewrite !fn_lookup_insert, tget_tset_eq by lia. done.
    + rewrite !fn_lookup_insert_ne, tget_tset_ne by lia.
      assert (DGRAM w' j = DGRAM w j) as ->.
      { unfold DGRAM. rewrite Hdg. apply tget_tset_ne; lia. }
      eapply row_ok_ext; [..|by apply Hrows].
      * intros k Hk. exact (tframe_other frag_busy D _ _ fr i j fl k Hfo Hi Hj Hne Hff Hk).
      * intros k Hk. exact (tframe_other hole_busy D _ _ hr i j hl k Hho Hi Hj Hne Hhf Hk).
  - by eapply owner_tframe.
  - by eapply owner_tframe.
  - pose proof (owned_length D fr i fl Hi). lia.
  - congruence.
Qed.

Lemma reass_rep_io f w fr hr rows : rep w fr hr rows → rep (set_io f w) fr hr rows.
Proof. intros [? ? ? ? Hr ? ? ? ?]. by split. Qed.

Lemma rep_frag_range w fr hr rows i k : rep w fr hr rows → 0 ≤ i < D → k ∈ fr i → 0 ≤ k < F.
Proof. intros R Hi Hk. rewrite <- (r_frags _ _ _ _ R). by eapply owner_list; [apply R|..]. Qed.
Lemma rep_hole_range w fr hr rows i k : rep w fr hr rows → 0 ≤ i < D → k ∈ hr i → 0 ≤ k < HO.
Proof. intros R Hi Hk. rewrite <- (r_holes _ _ _ _ R). by eapply owner_list; [apply R|..]. Qed.

Lemma rep_frag_len w fr hr rows i : rep w fr hr rows → 0 ≤ F → 0 ≤ i < D → Z.of_nat (length (fr i)) ≤ F.
Proof.
  intros R HF Hi. apply NoDup_range_length; [done| |].
  - destruct (row_ok_NoDup _ _ _ _ _ (r_rows _ _ _ _ R i Hi)); done.
  - apply Forall_forall. intros k Hk. by eapply rep_frag_range.
Qed.
Lemma rep_hole_len w fr hr rows i : rep w fr hr rows → 0 ≤ HO → 0 ≤ i < D → Z.of_nat (length (hr i)) ≤ HO.
Proof.
  intros R HF Hi. apply NoDup_range_length; [done| |].
  - destruct (row_ok_NoDup _ _ _ _ _ (r_rows _ _ _ _ R i Hi)); done.
  - apply Forall_forall. intros k Hk. by eapply rep_hole_range.
Qed.

(** Each row has at most one hole more than it has fragments. *)
Lemma holes_le_held w fr hr rows :
  rep w fr hr rows → 0 ≤ D → (length (owned D hr) ≤ length (owned D fr) + Z.to_nat D)%nat.
Proof.
  intros R HD.
  assert (∀ js, (∀ j, j ∈ js → 0 ≤ j < D) → (length (js ≫= hr) ≤ length (js ≫= fr) + length js)%nat) as H.
  { induction js as [|j js IH]; intros Hjs; [simpl; lia|]. rewrite !bind_cons, !length_app. simpl.
    assert (length (js ≫= hr) ≤ length (js ≫= fr) + length js)%nat by (apply IH; set_solver).
    assert (length (hr j) ≤ S (length (fr j)))%nat by (eapply row_ok_holes, (r_rows _ _ _ _ R); apply Hjs; set_solver). lia. }
  specialize (H (seqZ 0 D)). rewrite length_seqZ in H. apply H. intros j ?%elem_of_seqZ. lia.
Qed.

(** The abstract rows hold as many fragments as the count says. *)
Lemma rep_held w fr hr rows : rep w fr hr rows → 0 ≤ D → c_held (w_ctx w) = a_held rows.
Proof.
  intros R HD. rewrite (r_held _ _ _ _ R). unfold owned, a_held.
  assert (∀ n m (rs : list ARow), 0 ≤ m → m + Z.of_nat n = D → (drop (Z.to_nat m) rows = rs) → 
    Z.of_nat (length (seqZ m (Z.of_nat n) ≫= fr)) = foldr (λ r n, Z.of_nat (length (a_frags r)) + n) 0 rs) as H.
  { induction n as [|n IH]; intros m rs Hm Hn Hrs.
    - pose proof (r_arows _ _ _ _ R) as Hl. unfold tlen in Hl. rewrite drop_ge in Hrs by lia. by subst rs.
    - rewrite seqZ_cons by lia. rewrite bind_cons, length_app.
      assert (is_Some (rows !! Z.to_nat m)) as [r Hr].
      { apply lookup_lt_is_Some. pose proof (r_arows _ _ _ _ R) as Hl. unfold tlen in Hl. lia. }
      rewrite (drop_S _ _ _ Hr) in Hrs. subst rs. simpl.
      replace (Z.pred (Z.of_nat (S n))) with (Z.of_nat n) by lia.
      rewrite Nat2Z.inj_add, (IH (Z.succ m) (drop (S (Z.to_nat m)) rows)) by (lia || (f_equal; lia)).
      f_equal. pose proof (r_rows _ _ _ _ R m) as Hrow. unfold tget in Hrow at 1.
      rewrite (list_lookup_total_correct _ _ _ Hr) in Hrow.
      erewrite row_ok_frags by (apply Hrow; lia). unfold afrags. by rewrite length_map. }
  specialize (H (Z.to_nat D) 0 rows). rewrite Z2Nat.id in H by done. apply H; [lia|lia|]. done.
Qed.
End Unit.
End Ip4ReassRep.
