(* ===== verification/Ip4ReassProof.v ===== *)
(** * IPv4 reassembly: the unit implements the abstract reassembler

    Each static function of src/ip/ip4_reass.c on a borrow that represents abstract rows: the loops end, the
    tables do not run out, and the borrow it leaves represents the rows the abstract operation leaves. *)
From Stdlib Require Import Sorted.
From stdpp Require Import functions.
From S2P Require Import Prelude Base Chain Ipv4 Cover Ip4Reass Ip4ReassSpec Ip4ReassRep.

Module Ip4ReassProof.
Import Ipv4 Ip4Reass Ip4ReassSpec Ip4ReassHoles Ip4ReassRep.
Local Abbreviation none := IP4_REASS_NONE.

Section Unit.
Variables (D F HO : Z).
(** The bounds idemip_config.h and ip4_reass.h assert of the configured counts. *)
Hypothesis HD : 0 ≤ D < 255.
Hypothesis HF : 0 ≤ F < 255.
Hypothesis HHO : D + F ≤ HO < 255.

Local Abbreviation rep := (rep D F HO).
Definition Rep (w : Work) (rows : list ARow) : Prop := ∃ fr hr, rep w fr hr rows.

(** ** Giving holes back *)
Lemma free_holes_loop_spec fuel w h l :
  chain none (λ k, h_next (HOLE w k)) h l → Forall (λ k, 0 ≤ k < tlen (w_hole w)) l → (length l < fuel)%nat →
  ∃ t, free_holes_loop fuel w h = Some (w <| w_hole := t |>) ∧ tlen t = tlen (w_hole w) ∧
    (∀ k, k ∈ l → h_state (tget t k) = FREE) ∧ (∀ k, 0 ≤ k → k ∉ l → tget t k = HOLE w k).
Proof.
  revert w h l. induction fuel as [|fuel IH]; intros w h l Hc Hr Hl; [lia|]. simpl.
  destruct l as [|i l].
  - unfold chain in Hc; simpl in Hc. subst h. rewrite Z.eqb_refl. exists (w_hole w).
    split_and!; [by destruct w|done|set_solver|done].
  - pose proof (chain_NoDup _ _ _ _ Hc) as [Hni Hnd]%NoDup_cons.
    destruct Hc as (-> & Hne & Hc). apply Forall_cons in Hr as [Hi Hr].
    rewrite (proj2 (Z.eqb_neq i none)) by done.
    set (w1 := put_hole w i _). edestruct (IH w1 (h_next (HOLE w i)) l) as (t & -> & Ht & Hin & Hout).
    + eapply chain_ext; [|exact Hc]. intros k Hk. unfold w1, put_hole, HOLE. simpl.
      rewrite tget_tset_ne; [done|lia| |set_solver]. rewrite Forall_forall in Hr. specialize (Hr k Hk). lia.
    + unfold w1, put_hole. simpl. by rewrite tlen_tset.
    + simpl in Hl. lia.
    + exists t. split_and!; [done|..].
      * rewrite Ht. unfold w1, put_hole. simpl. by rewrite tlen_tset.
      * intros k [->|Hk]%elem_of_cons; [|by apply Hin]. rewrite Hout by (lia || done).
        unfold w1, put_hole, HOLE. simpl. by rewrite tget_tset_eq.
      * intros k Hk Hn. rewrite Hout by set_solver. unfold w1, put_hole, HOLE. simpl.
        rewrite tget_tset_ne; [done|lia..|set_solver].
Qed.

(** A row in use gives its holes back: the hole table offers them again, and the list is empty. *)
Lemma free_holes_spec w fr hr rows i :
  rep w fr hr rows → 0 ≤ i < D → d_state (DGRAM w i) ≠ FREE →
  ∃ t, ip4_reass_free_holes HO w i =
       Some (put_dgram (w <| w_hole := t |>) i ((DGRAM w i) <| d_hole_head := none |> <| d_cursor := none |>)) ∧
    tframe hole_busy (w_hole w) t (hr i) [].
Proof.
  intros R Hi Hs. pose proof (r_rows _ _ _ _ _ _ _ R i Hi) as Hrow.
  destruct (row_ok_links _ _ _ _ _ Hrow Hs) as [_ Hc].
  assert (∀ k, k ∈ hr i → 0 ≤ k < tlen (w_hole w)) as Hrange.
  { intros k Hk. rewrite (r_holes _ _ _ _ _ _ _ R). by eapply rep_hole_range. }
  destruct (free_holes_loop_spec (S (Z.to_nat HO)) w _ _ Hc) as (t & Hl & Ht & Hin & Hout).
  { by apply Forall_forall. }
  { pose proof (rep_hole_len _ _ _ _ _ _ _ i R). lia. }
  exists t. unfold ip4_reass_free_holes. rewrite Hl. split; [done|].
  exists (hr i). split_and!; [done..|set_solver| |].
  - intros k Hk. split; [by apply Hrange|by left].
  - intros k Hk. unfold hole_busy. rewrite Hin by done. set_solver.
Qed.

Lemma links_no_holes w w' row row' fl hl :
  links w row fl hl → w_frag w' = w_frag w → d_frag_head row' = d_frag_head row → d_hole_head row' = none →
  links w' row' fl [].
Proof.
  intros [Hf _] Ef Eh Eo. split; [|by rewrite Eo].
  rewrite Eh. unfold FRAG in *. by rewrite Ef.
Qed.

(** [ip4_reass_flush]: the row is free, or waits on reclaim with every fragment it held. *)
Lemma flush_spec w rows i :
  Rep w rows → 0 ≤ i < D → d_state (DGRAM w i) ≠ FREE →
  ∃ w', ip4_reass_flush HO w i = Some w' ∧ Rep w' (tset rows i (a_flush (tget rows i))) ∧ w_io w' = w_io w.
Proof.
  intros (fr & hr & R) Hi Hs. pose proof (r_rows _ _ _ _ _ _ _ R i Hi) as Hrow.
  destruct (row_ok_links _ _ _ _ _ Hrow Hs) as [Hfl Hhl].
  pose proof (r_dgrams _ _ _ _ _ _ _ R) as Hd.
  destruct (free_holes_spec _ _ _ _ _ R Hi Hs) as (t & He & Hfr).
  unfold ip4_reass_flush. rewrite He. simpl. unfold put_dgram, DGRAM. simpl.
  rewrite tget_tset_eq, tset_tset_eq by lia.
  eexists; split; [reflexivity|]. split; [|done].
  exists (<[i := fr i]> fr), (<[i := []]> hr). eapply rep_update; [exact R|done|..].
  - unfold DGRAM. simpl. by rewrite tget_tset_eq by lia.
  - by eapply tframe_refl; [apply R|].
  - exact Hfr.
  - done.
  - done.
  - unfold DGRAM at 1. simpl. rewrite tget_tset_eq by lia.
    assert (a_flush (tget rows i) = if d_frag_head (DGRAM w i) =? none then AFree
            else AReclaim (afrags w (fr i))) as ->.
    { unfold a_flush. rewrite (row_ok_frags _ _ _ _ _ Hrow). pose proof (chain_nil _ _ _ _ Hfl) as Hnil.
      destruct (Z.eqb_spec (d_frag_head (DGRAM w i)) none) as [Hn|Hn].
      - rewrite (proj1 Hnil Hn). done.
      - destruct (fr i) as [|k l] eqn:Ek; [tauto|done]. }
    unfold row_ok, DGRAM. simpl. destruct (Z.eqb_spec (d_frag_head (tget (w_dgram w) i)) none) as [Hn|Hn]; simpl.
    + split_and!; [|done..]. by apply (chain_nil _ _ _ _ Hfl).
    + split_and!; [by apply (links_no_holes w _ (DGRAM w i) _ _ (hr i))|done| |done].
      intros Hx. apply Hn. by apply (chain_nil _ _ _ _ Hfl).
Qed.

(** [ip4_reass_abandon] on a row that gathers: the identifier stays, and so do the fragments. *)
Lemma abandon_spec w rows i k d t fs :
  Rep w rows → 0 ≤ i < D → tget rows i = AHolding k d t fs → fs ≠ [] →
  ∃ w', ip4_reass_abandon HO w i = Some w' ∧ Rep w' (tset rows i (AAbandoned k d fs)) ∧ w_io w' = w_io w.
Proof.
  intros (fr & hr & R) Hi Ha Hfs. pose proof (r_rows _ _ _ _ _ _ _ R i Hi) as Hrow.
  assert (d_state (DGRAM w i) = HOLDING) as Hst by (rewrite (row_ok_state _ _ _ _ _ Hrow), Ha; done).
  assert (d_state (DGRAM w i) ≠ FREE) as Hs by congruence.
  destruct (row_ok_links _ _ _ _ _ Hrow Hs) as [Hfl Hhl].
  pose proof (r_dgrams _ _ _ _ _ _ _ R) as Hd.
  destruct (free_holes_spec _ _ _ _ _ R Hi Hs) as (t' & He & Hfr).
  unfold ip4_reass_abandon. rewrite He. simpl. unfold put_dgram, DGRAM. simpl.
  rewrite tget_tset_eq, tset_tset_eq by lia.
  eexists; split; [reflexivity|]. split; [|done].
  exists (<[i := fr i]> fr), (<[i := []]> hr). eapply rep_update; [exact R|done|..].
  - unfold DGRAM. simpl. by rewrite tget_tset_eq by lia.
  - by eapply tframe_refl; [apply R|].
  - exact Hfr.
  - done.
  - done.
  - unfold DGRAM at 1. simpl. rewrite tget_tset_eq by lia.
    unfold row_ok in Hrow. rewrite Hst, Ha in Hrow. destruct Hrow as (_ & _ & _ & _ & _ & [= -> -> -> ->]).
    unfold row_ok. simpl. split_and!; [by apply (links_no_holes w _ (DGRAM w i) _ _ (hr i))|done| |done].
    intros Hx. apply Hfs. by rewrite Hx.
Qed.

(** ** Threading the hole list

    While a fragment is put in, only the hole table and the head of the row's list change. *)
Definition at_holes (w : Work) (i : Z) (t : list Ip4ReassHole) (hd : Z) : Work :=
  put_dgram (w <| w_hole := t |>) i ((DGRAM w i) <| d_hole_head := hd |>).
Definition nx (t : list Ip4ReassHole) (k : Z) : Z := h_next (tget t k).

Definition thread (l : list Z) (to : Z) (t : list Ip4ReassHole) (hd : Z) : list Ip4ReassHole * Z :=
  match last l with
  | None => (t, to)
  | Some p => (tset t p ((tget t p) <| h_next := to |>), hd)
  end.

Lemma hole_thread_spec w i t hd l to :
  0 ≤ i < tlen (w_dgram w) → none ∉ l →
  ip4_reass_hole_thread (at_holes w i t hd) i (last_of none l) to =
  at_holes w i (thread l to t hd).1 (thread l to t hd).2.
Proof.
  intros Hi Hn. unfold ip4_reass_hole_thread, thread, last_of. destruct (last l) as [p|] eqn:E; simpl.
  - rewrite (proj2 (Z.eqb_neq p none)); [done|]. intros ->. apply last_Some in E as [l' ->]. set_solver.
  - unfold at_holes, put_dgram, DGRAM. simpl. by rewrite tget_tset_eq, tset_tset_eq by done.
Qed.

Lemma thread_seg l to t hd m :
  seg none (nx t) hd l m → NoDup l → (∀ k, k ∈ l → 0 ≤ k < tlen t) →
  seg none (nx (thread l to t hd).1) (thread l to t hd).2 l to ∧ tlen (thread l to t hd).1 = tlen t ∧
  ∀ k, 0 ≤ k → tget (thread l to t hd).1 k =
    if decide (last l = Some k) then (tget t k) <| h_next := to |> else tget t k.
Proof.
  intros Hs Hnd Hr. unfold thread. destruct (last l) as [p|] eqn:E; simpl.
  - assert (p ∈ l) as Hp by (apply last_Some in E as [l' ->]; set_solver). specialize (Hr p Hp) as Hpr.
    assert (∀ k, 0 ≤ k → tget (tset t p ((tget t p) <| h_next := to |>)) k =
      if decide (Some p = Some k) then (tget t k) <| h_next := to |> else tget t k) as Hk.
    { intros k Hk. case_decide as Ek; [injection Ek as <-; by rewrite tget_tset_eq|].
      apply tget_tset_ne; [lia..|congruence]. }
    split_and!; [|by rewrite tlen_tset|done].
    eapply seg_redirect; [exact Hs|by intros ->|done|]. intros j Hj. unfold nx.
    rewrite Hk by (specialize (Hr j Hj); lia). rewrite E. by case_decide.
  - apply last_None in E as ->. done.
Qed.

(** The table [t'] has the entries [ms] in use besides those of [t]; only links of [l] moved else. *)
Definition grown (t t' : list Ip4ReassHole) (l ms : list Z) : Prop :=
  tlen t' = tlen t ∧
  (∀ k, 0 ≤ k → k ∉ ms → hole (tget t' k) = hole (tget t k) ∧ h_state (tget t' k) = h_state (tget t k)) ∧
  (∀ k, 0 ≤ k → k ∉ ms → k ∉ l → tget t' k = tget t k) ∧
  (∀ k, k ∈ ms → 0 ≤ k < tlen t ∧ hole_busy (tget t k) = false ∧ hole_busy (tget t' k) = true).

Lemma hole_alloc_spec w i t hd a b l :
  tlen t = HO → (∀ k, 0 ≤ k < HO → hole_busy (tget t k) = true → k ∈ l) → Z.of_nat (length l) < HO →
  ∃ k, ip4_reass_hole_alloc HO (at_holes w i t hd) a b =
       (at_holes w i (tset t k (mkHole (u16 a) (u16 b) none HOLDING)) hd, k) ∧
    0 ≤ k < HO ∧ hole_busy (tget t k) = false.
Proof.
  intros Ht Hl Hlen. destruct (free_slot HO (λ k, hole_busy (tget t k)) l) as (k & Hk & Hr & Hb); [lia|done..|].
  exists k. split; [|done]. unfold ip4_reass_hole_alloc.
  erewrite scan_ext with (q := λ k, negb (hole_busy (tget t k))); [by rewrite Hk|].
  intros j Hj. unfold hole_busy, HOLE. by rewrite negb_involutive.
Qed.

(** A new entry, linked to the rest and put behind [l]. *)
Lemma grow_one w i t hd a b l next l2 m rest :
  0 ≤ i < tlen (w_dgram w) → tlen t = HO →
  seg none (nx t) hd l m → chain none (nx t) next l2 → NoDup (l ++ l2) →
  (∀ k, k ∈ l ++ l2 → 0 ≤ k < HO ∧ hole_busy (tget t k) = true) →
  (∀ k, 0 ≤ k < HO → hole_busy (tget t k) = true → k ∈ rest) → Z.of_nat (length rest) < HO →
  ∃ t' hd' p,
    (let '(w1, piece) := ip4_reass_hole_alloc HO (at_holes w i t hd) a b in
     (piece =? none, piece, ip4_reass_hole_thread (put_hole w1 piece ((HOLE w1 piece) <| h_next := next |>)) i
                              (last_of none l) piece)) = (false, p, at_holes w i t' hd') ∧
    grown t t' l [p] ∧ seg none (nx t') hd' (l ++ [p]) next ∧ chain none (nx t') next l2 ∧ NoDup ((l ++ [p]) ++ l2) ∧
    hole (tget t' p) = (u16 a, u16 b + 1) ∧ p ≠ none ∧ p ∉ l.
Proof.
  intros Hi Ht Hs Hc Hnd Hall Hrest Hlen.
  destruct (hole_alloc_spec w i t hd a b rest Ht Hrest Hlen) as (p & -> & Hp & Hpb).
  assert (p ∉ l ++ l2) as Hpn by (intros [_ ?]%Hall; congruence).
  set (t1 := tset (tset t p (mkHole (u16 a) (u16 b) none HOLDING)) p (mkHole (u16 a) (u16 b) next HOLDING)).
  assert (∀ k, 0 ≤ k → k ≠ p → tget t1 k = tget t k) as Ht1.
  { intros k Hk Hne. unfold t1. rewrite !tget_tset_ne by lia. done. }
  assert (tget t1 p = mkHole (u16 a) (u16 b) next HOLDING) as Ht1p.
  { unfold t1. rewrite tget_tset_eq; [done|]. rewrite tlen_tset. lia. }
  assert (tlen t1 = HO) as Hl1 by (unfold t1; by rewrite !tlen_tset).
  apply NoDup_app in Hnd as (Hn1 & Hdis & Hn2).
  destruct (thread_seg l p t1 hd m) as (Hseg & Hlen' & Hget).
  { eapply seg_ext; [|exact Hs]. intros k Hk. unfold nx. rewrite Ht1; [done| |set_solver].
    destruct (Hall k); [set_solver|lia]. }
  { done. }
  { intros k Hk. rewrite Hl1. apply Hall. set_solver. }
  exists (thread l p t1 hd).1, (thread l p t1 hd).2, p. split.
  { rewrite (proj2 (Z.eqb_neq p none)) by (unfold none; lia). f_equal.
    rewrite <- hole_thread_spec.
    - f_equal. unfold at_holes, put_hole, put_dgram, HOLE. simpl. rewrite tget_tset_eq by lia. done.
    - done.
    - by eapply seg_not_none. }
  assert (∀ k, 0 ≤ k → k ∉ l → tget (thread l p t1 hd).1 k = tget t1 k) as Hout.
  { intros k Hk Hn. rewrite Hget by done. rewrite decide_False; [done|].
    intros [l' ->]%last_Some. set_solver. }
  split_and!.
  - split_and!; [congruence|..].
    + intros k Hk Hkp. rewrite Hget, <- (Ht1 k) by set_solver. by case_decide.
    + intros k Hk Hkp Hkl. rewrite Hout, Ht1 by set_solver. done.
    + intros k ->%list_elem_of_singleton. rewrite Ht. split_and!; [lia..|done|].
      rewrite Hout, Ht1p by (lia || set_solver). done.
  - apply seg_app. exists p. split; [done|]. simpl. split_and!; [done|unfold none; lia|].
    unfold nx. rewrite Hout, Ht1p by (lia || set_solver). done.
  - eapply chain_ext; [|exact Hc]. intros k Hk. unfold nx.
    rewrite Hout, Ht1; [done|..]; [destruct (Hall k); [set_solver|lia]|set_solver| |set_solver].
    destruct (Hall k); [set_solver|lia].
  - apply NoDup_app. split_and!; [|set_solver|done]. apply NoDup_app. split_and!; [done|set_solver|]. apply NoDup_singleton.
  - rewrite Hout, Ht1p by (lia || set_solver). done.
  - unfold none. lia.
  - set_solver.
Qed.

Lemma last_of_snoc d (l : list Z) p : last_of d (l ++ [p]) = p.
Proof. unfold last_of. by rewrite last_snoc. Qed.

Lemma last_of_elem d (l : list Z) p : last_of d l = p → p ≠ d → p ∈ l.
Proof.
  unfold last_of. destruct (last l) as [q|] eqn:E; simpl; [|congruence]. intros -> _.
  apply last_Some in E as [l' ->]. set_solver.
Qed.

(** Step 6: behind the last entry of [l] comes the piece past the fragment, or the rest. *)
Lemma split_tail_spec w i t hd last hole_last mf prev next l l2 m rest :
  0 ≤ i < tlen (w_dgram w) → tlen t = HO →
  seg none (nx t) hd l m → chain none (nx t) next l2 → NoDup (l ++ l2) →
  (∀ k, k ∈ l ++ l2 → 0 ≤ k < HO ∧ hole_busy (tget t k) = true) →
  (∀ k, 0 ≤ k < HO → hole_busy (tget t k) = true → k ∈ rest) → Z.of_nat (length rest) < HO →
  (last_of none l = prev ∨ (last_of none l ≠ prev ∧ m = next)) → (prev = none ∨ prev ∈ l) →
  0 ≤ last ≤ hole_last → hole_last < 65536 →
  ∃ t' hd' ms,
    split_tail HO (at_holes w i t hd) i last hole_last mf prev next (last_of none l) =
      (at_holes w i t' hd', inl (last_of none (l ++ ms))) ∧
    grown t t' l ms ∧ chain none (nx t') hd' (l ++ ms ++ l2) ∧ chain none (nx t') next l2 ∧
    map (λ k, hole (tget t' k)) ms = (if (last <? hole_last) && mf then [(last + 1, hole_last + 1)] else []).
Proof.
  intros Hi Ht Hs Hc Hnd Hall Hrest Hlen Hpv Hpl Hlast Hinf. unfold split_tail.
  destruct ((last <? hole_last) && mf) eqn:E.
  - apply andb_true_iff in E as [E%Z.ltb_lt _].
    destruct (grow_one w i t hd (u32 (last + 1)) hole_last l next l2 m rest)
      as (t' & hd' & p & He & Hg & Hseg & Hc2 & Hnd' & Hv & Hpn & Hpnl); [done..|].
    destruct (ip4_reass_hole_alloc HO (at_holes w i t hd) (u32 (last + 1)) hole_last) as [w1 piece].
    injection He as Hb -> Hw. rewrite Hb, Hw.
    rewrite (proj2 (Z.eqb_neq p prev)) by (intros ->; destruct Hpl; done). exists t', hd', [p]. rewrite last_of_snoc. split_and!; [done..| |done|].
    + rewrite (assoc_L (++)). unfold chain. apply seg_app. eauto.
    + simpl. rewrite Hv. rewrite u32_id, !u16_id by (wrap_unfold; lia). done.
  - pose proof Hnd as (Hn1 & Hdis & Hn2)%NoDup_app.
    assert (none ∉ l) as Hnn by (by eapply seg_not_none).
    assert (∀ k, k ∈ l → 0 ≤ k < tlen t) as Hr by (intros k Hk; rewrite Ht; apply Hall; set_solver).
    destruct (thread_seg l next t hd m Hs Hn1 Hr) as (Hseg & Hl' & Hget).
    destruct (Z.eqb_spec (last_of none l) prev) as [<-|Hne].
    + rewrite hole_thread_spec by done. exists (thread l next t hd).1, (thread l next t hd).2, [].
      rewrite app_nil_r. simpl.
      assert (∀ k, 0 ≤ k → k ∉ l → tget (thread l next t hd).1 k = tget t k) as Hout.
      { intros k Hk Hn. rewrite Hget by done. rewrite decide_False; [done|].
        intros [l' ->]%last_Some. set_solver. }
      assert (chain none (nx (thread l next t hd).1) next l2) as Hc2.
      { eapply chain_ext; [|exact Hc]. intros k Hk. unfold nx.
        rewrite Hout; [done|destruct (Hall k); [set_solver|lia]|set_solver]. }
      split_and!; [done| | |done|done].
      * split_and!; [done| |by intros; apply Hout|set_solver].
        intros k Hk _. rewrite Hget by done. by case_decide.
      * unfold chain. apply seg_app. eauto.
    + destruct Hpv as [?|[_ ->]]; [done|]. exists t, hd, []. rewrite app_nil_r.
      split_and!; [done| | |done|done].
      * split_and!; [done..|set_solver].
      * unfold chain. apply seg_app. eauto.
Qed.

Lemma busy_state x y : h_state x = h_state y → hole_busy x = hole_busy y.
Proof. unfold hole_busy. by intros ->. Qed.

Lemma grown_trans t1 t2 t3 l m1 m2 :
  grown t1 t2 l m1 → grown t2 t3 (l ++ m1) m2 → grown t1 t3 l (m1 ++ m2).
Proof.
  intros (L1 & V1 & S1 & B1) (L2 & V2 & S2 & B2).
  assert (∀ k, k ∈ m1 → k ∉ m2) as Hd.
  { intros k H1 H2. destruct (B1 k H1) as (_ & _ & ?), (B2 k H2) as (_ & ? & _). congruence. }
  split_and!; [congruence|..].
  - intros k Hk Hn. destruct (V2 k Hk) as [-> ->]; [set_solver|]. apply V1; [done|set_solver].
  - intros k Hk Hn Hl. rewrite S2, S1 by set_solver. done.
  - intros k [H1|H2]%elem_of_app.
    + destruct (B1 k H1) as (? & ? & Hb). split_and!; [lia|lia|done|]. rewrite <- Hb.
      apply busy_state, V2; [lia|by apply Hd].
    + destruct (B2 k H2) as (? & Hb & ?). split_and!; [lia|lia| |done]. rewrite <- Hb. symmetry.
      apply busy_state, V1; [lia|]. intros H1. by apply (Hd k).
Qed.

(** Steps 4 to 6: the hole [h] between [l1] and [l2] makes way for the pieces the fragment leaves of it. *)
Lemma split_hole_spec w i first last mf l1 h l2 rest :
  0 ≤ i < tlen (w_dgram w) → tlen (w_hole w) = HO →
  chain none (nx (w_hole w)) (d_hole_head (DGRAM w i)) (l1 ++ h :: l2) →
  (∀ k, k ∈ l1 ++ h :: l2 → 0 ≤ k < HO ∧ hole_busy (HOLE w k) = true) →
  (∀ k, 0 ≤ k < HO → hole_busy (HOLE w k) = true → k = h ∨ k ∈ rest) → Z.of_nat (length rest) + 1 < HO →
  0 ≤ h_first (HOLE w h) ≤ first → first ≤ last ≤ h_last (HOLE w h) → h_last (HOLE w h) < 65536 →
  ∃ t hd ms,
    split_hole HO w i first last mf (last_of none l1) h = (at_holes w i t hd, inl (last_of none (l1 ++ ms))) ∧
    grown (tset (w_hole w) h ((HOLE w h) <| h_state := FREE |> <| h_next := none |>)) t l1 ms ∧
    chain none (nx t) hd (l1 ++ ms ++ l2) ∧ chain none (nx t) (h_next (HOLE w h)) l2 ∧
    map (λ k, hole (tget t k)) ms =
      (if h_first (HOLE w h) <? first then [(h_first (HOLE w h), first)] else []) ++
      (if (last <? h_last (HOLE w h)) && mf then [(last + 1, h_last (HOLE w h) + 1)] else []).
Proof.
  intros Hi Ht Hc Hall Hrest Hlen Hf Hfl Hinf. unfold split_hole.
  pose proof (chain_NoDup _ _ _ _ Hc) as Hnd. pose proof Hnd as (Hn1 & Hd1 & [Hh Hn2]%NoDup_cons)%NoDup_app.
  set (t0 := tset (w_hole w) h _). destruct (Hall h) as [Hhr Hhb]; [set_solver|].
  set (hd0 := d_hole_head (DGRAM w i)).
  assert (put_hole w h ((HOLE w h) <| h_state := FREE |> <| h_next := none |>) = at_holes w i t0 hd0) as ->.
  { unfold at_holes, put_dgram, put_hole, hd0, DGRAM. simpl. destruct w as [io ctx dg fg hg]. simpl in *.
    assert (tset dg i (tget dg i) <| d_hole_head := d_hole_head (tget dg i) |> = dg) as E.
    { rewrite <- (tset_tget dg i) at 3 by done. f_equal. by destruct (tget dg i). }
    by rewrite E. }
  assert (∀ k, 0 ≤ k → k ≠ h → tget t0 k = tget (w_hole w) k) as Hout.
  { intros k Hk Hne. apply tget_tset_ne; lia. }
  assert (tlen t0 = HO) as Hl0 by (unfold t0; by rewrite tlen_tset).
  assert (hole_busy (tget t0 h) = false) as Hfree by (unfold t0; rewrite tget_tset_eq by lia; done).
  pose proof Hc as Hc'. unfold chain in Hc'. apply seg_app in Hc' as (m & Hs1 & Hs2). simpl in Hs2.
  destruct Hs2 as (-> & Hhn & Hs2).
  assert (∀ k, k ∈ l1 ++ l2 → 0 ≤ k < HO ∧ hole_busy (tget t0 k) = true) as Hall0.
  { intros k Hk. destruct (Hall k) as [? ?]; [set_solver|]. rewrite Hout; [done|lia|]. set_solver. }
  assert (seg none (nx t0) hd0 l1 h) as Hseg0.
  { eapply seg_ext; [|exact Hs1]. intros k Hk. unfold nx. rewrite Hout; [done|..]; [|set_solver].
    destruct (Hall k); [set_solver|lia]. }
  assert (chain none (nx t0) (h_next (HOLE w h)) l2) as Hc0.
  { eapply chain_ext; [|exact Hs2]. intros k Hk. unfold nx. rewrite Hout; [done|..]; [|set_solver].
    destruct (Hall k); [set_solver|lia]. }
  assert (NoDup (l1 ++ l2)) as Hnd0 by (apply NoDup_app; split_and!; [done|set_solver|done]).
  assert (∀ k, 0 ≤ k < HO → hole_busy (tget t0 k) = true → k ∈ rest) as Hrest0.
  { intros k Hk Hb. destruct (decide (k = h)) as [->|Hne]; [congruence|].
    destruct (Hrest k Hk) as [?|?]; [|done..]. unfold HOLE. rewrite <- Hout by lia. done. }
  destruct (Z.ltb_spec (h_first (HOLE w h)) first) as [Hlt|Hge].
  - destruct (grow_one w i t0 hd0 (h_first (HOLE w h)) (u32 (first - 1)) l1 (h_next (HOLE w h)) l2 h rest)
      as (t1 & hd1 & p & He & Hg & Hseg1 & Hc1 & Hnd1 & Hv & Hpn & Hpl); [done..|lia|].
    destruct (ip4_reass_hole_alloc HO (at_holes w i t0 hd0) _ _) as [w1 piece].
    injection He as Hb -> Hw. rewrite Hb, Hw. pose proof Hg as (L1 & V1 & S1 & B1).
    destruct (split_tail_spec w i t1 hd1 last (h_last (HOLE w h)) mf (last_of none l1) (h_next (HOLE w h))
                (l1 ++ [p]) l2 (h_next (HOLE w h)) (p :: rest)) as (t & hd & ms & He2 & Hg2 & Hch & Hc2 & Hm);
      [done|lia|done|done|done| | | | | |lia|lia|].
    + intros k Hk. destruct (decide (k = p)) as [->|Hne].
      * destruct (B1 p) as (? & _ & ?); [set_solver|]. split; [lia|done].
      * destruct (Hall0 k) as [Hr Hbk]; [set_solver|]. split; [done|]. rewrite <- Hbk. apply busy_state, V1; set_solver.
    + intros k Hk Hbk. destruct (decide (k = p)) as [->|Hne]; [left|right].
      apply Hrest0; [done|]. rewrite <- Hbk. symmetry. apply busy_state, V1; set_solver.
    + simpl. lia.
    + right. rewrite last_of_snoc. split; [|done]. intros E. apply Hpl. by apply (last_of_elem none).
    + destruct (decide (last_of none l1 = none)) as [|Hne]; [by left|right].
      apply elem_of_app; left. by apply (last_of_elem none).
    + rewrite last_of_snoc in He2. rewrite He2. exists t, hd, ([p] ++ ms).
      rewrite <- (assoc_L (++)) in Hch |- *. split_and!; [by rewrite (assoc_L (++))|by eapply grown_trans|done..|].
      rewrite map_app, Hm. simpl. f_equal. destruct Hg2 as (_ & V2 & _ & B2).
      destruct (V2 p) as [-> _]; [destruct (B1 p); [set_solver|lia]| |].
      * intros Hp. destruct (B2 p Hp) as (_ & ? & _), (B1 p) as (_ & _ & ?); [set_solver|congruence].
      * rewrite Hv. rewrite u32_id, !u16_id by (wrap_unfold; lia). f_equal; lia.
  - destruct (split_tail_spec w i t0 hd0 last (h_last (HOLE w h)) mf (last_of none l1) (h_next (HOLE w h))
                l1 l2 h rest) as (t & hd & ms & He2 & Hg2 & Hch & Hc2 & Hm);
      [done..|lia|by left| |lia|lia|].
    { destruct (decide (last_of none l1 = none)) as [|Hne]; [by left|right]. by apply (last_of_elem none). }
    rewrite He2. exists t, hd, ms. split_and!; done.
Qed.

(** ** The walk over the holes *)
Definition untouched (w : Work) (first last k : Z) : Prop :=
  (h_last (HOLE w k) <? first) || (last <? h_first (HOLE w k)) = true.

Lemma holes_skip fuel w i first last mf deleted prev h l m :
  seg none (nx (w_hole w)) h l m → Forall (untouched w first last) l →
  holes_loop HO (length l + fuel) w i first last mf deleted prev h =
  holes_loop HO fuel w i first last mf deleted (last_of prev l) m.
Proof.
  revert h prev. induction l as [|k l IH]; intros h prev Hs Hu; simpl in Hs.
  - by subst h.
  - destruct Hs as (-> & Hk & Hs). apply Forall_cons in Hu as [Hu1 Hu]. simpl.
    rewrite (proj2 (Z.eqb_neq k none)) by done. rewrite Hu1. rewrite last_of_cons. by apply IH.
Qed.

Lemma holes_spec w i first last mf l1 h l2 rest :
  0 ≤ i < tlen (w_dgram w) → tlen (w_hole w) = HO →
  chain none (nx (w_hole w)) (d_hole_head (DGRAM w i)) (l1 ++ h :: l2) →
  (∀ k, k ∈ l1 ++ h :: l2 → 0 ≤ k < HO ∧ hole_busy (HOLE w k) = true) →
  (∀ k, 0 ≤ k < HO → hole_busy (HOLE w k) = true → k = h ∨ k ∈ rest) → Z.of_nat (length rest) + 1 < HO →
  0 ≤ h_first (HOLE w h) ≤ first → first ≤ last ≤ h_last (HOLE w h) → h_last (HOLE w h) < 65536 →
  Forall (untouched w first last) (l1 ++ l2) →
  ∃ t hd ms,
    ip4_reass_holes HO w i first last mf = Some (at_holes w i t hd, 1) ∧
    grown (tset (w_hole w) h ((HOLE w h) <| h_state := FREE |> <| h_next := none |>)) t l1 ms ∧
    chain none (nx t) hd (l1 ++ ms ++ l2) ∧
    map (λ k, hole (tget t k)) ms =
      (if h_first (HOLE w h) <? first then [(h_first (HOLE w h), first)] else []) ++
      (if (last <? h_last (HOLE w h)) && mf then [(last + 1, h_last (HOLE w h) + 1)] else []).
Proof.
  intros Hi Ht Hc Hall Hrest Hlen Hf Hfl Hinf Hu.
  destruct (split_hole_spec w i first last mf l1 h l2 rest) as (t & hd & ms & He & Hg & Hch & Hc2 & Hm); [done..|].
  exists t, hd, ms. split_and!; [|done..].
  apply Forall_app in Hu as [Hu1 Hu2].
  pose proof (chain_NoDup _ _ _ _ Hc) as Hnd.
  assert (Z.of_nat (length (l1 ++ h :: l2)) ≤ HO) as Hle.
  { apply NoDup_range_length; [lia|done|]. apply Forall_forall. intros k Hk. by apply Hall. }
  rewrite length_app in Hle. simpl in Hle. unfold ip4_reass_holes.
  replace (S (Z.to_nat HO)) with (length l1 + S (length l2 + S (Z.to_nat HO - length l1 - length l2 - 1)))%nat by lia.
  unfold chain in Hc. apply seg_app in Hc as (m & Hs1 & Hs2). simpl in Hs2. destruct Hs2 as (-> & Hhn & Hs2).
  rewrite (holes_skip _ _ _ _ _ _ _ _ _ l1 h) by done. cbn [holes_loop].
  rewrite (proj2 (Z.eqb_neq h none)) by done.
  rewrite (proj2 (Z.ltb_ge _ first)) by lia. rewrite (proj2 (Z.ltb_ge last _)) by lia. simpl orb. cbv iota.
  rewrite He. simpl u8. rewrite (holes_skip _ (at_holes w i t hd) _ _ _ _ _ _ _ l2 none).
  - simpl. done.
  - exact Hc2.
  - (* the entries of [l2] read as before *)
    destruct Hg as (_ & _ & S & B). apply NoDup_app in Hnd as (_ & Hd1 & [Hh _]%NoDup_cons).
    rewrite Forall_forall in *. intros k Hk. specialize (Hu2 k Hk). unfold untouched in *. unfold HOLE at 1 2. simpl.
    destruct (Hall k) as [Hr Hb]; [set_solver|]. assert (k ≠ h) by set_solver.
    destruct (Hall h) as [? _]; [set_solver|]. assert (k ∉ ms) as Hms.
    { intros Hx. destruct (B k Hx) as (_ & Hf0 & _). rewrite tget_tset_ne in Hf0 by lia. unfold HOLE in Hb. congruence. }
    rewrite S by (lia || set_solver). by rewrite tget_tset_ne by lia.
Qed.

(** ** What the walks over a list compute *)
Lemma fills_loop_spec fuel w first last acc h l :
  chain none (nx (w_hole w)) h l → (length l < fuel)%nat → 0 ≤ first ≤ last → last < 65536 → 0 ≤ acc →
  (∀ k, k ∈ l → 0 ≤ h_first (HOLE w k) ∧ h_last (HOLE w k) < 65536) →
  acc + osum (aholes w l) first (last + 1) < 4294967296 →
  fills_loop fuel w first last acc h = Some (acc + osum (aholes w l) first (last + 1)).
Proof.
  revert acc h l. induction fuel as [|fuel IH]; intros acc h l Hc Hfu Hfl Hl Hacc Hb Hsum; [lia|].
  destruct l as [|k l].
  - unfold chain in Hc; simpl in Hc. subst h. simpl. f_equal. lia.
  - destruct Hc as (-> & Hk & Hc). cbn [fills_loop]. rewrite (proj2 (Z.eqb_neq k none)) by done.
    simpl in Hsum |- *. destruct (Hb k) as [Hb1 Hb2]; [set_solver|].
    assert (0 ≤ osum (aholes w l) first (last + 1)) as Hn.
    { clear. induction (aholes w l) as [|p q IHq]; simpl; [lia|]. unfold overlap. lia. }
    assert (∀ x, (if (if h_first (HOLE w k) <? first then first else h_first (HOLE w k)) <=?
                      (if last <? h_last (HOLE w k) then last else h_last (HOLE w k))
              then u32 (acc + u32 (u32 ((if last <? h_last (HOLE w k) then last else h_last (HOLE w k)) -
                       (if h_first (HOLE w k) <? first then first else h_first (HOLE w k))) + 1)) else acc) = x →
              x = acc + overlap (hole (HOLE w k)) first (last + 1)) as Hov.
    { intros x <-. unfold overlap, hole in *. simpl in *.
      destruct (Z.ltb_spec (h_first (HOLE w k)) first), (Z.ltb_spec last (h_last (HOLE w k)));
        (match goal with |- context [?a <=? ?b] => destruct (Z.leb_spec a b) end); try lia;
        (match goal with |- context [u32 (u32 ?d + 1)] =>
           rewrite (u32_id d) by (wrap_unfold; lia); rewrite (u32_id (d + 1)) by (wrap_unfold; lia) end);
        rewrite u32_id by (wrap_unfold; lia); lia. }
    rewrite (Hov _ eq_refl). rewrite IH with (l := l).
    + f_equal. lia.
    + exact Hc.
    + simpl in Hfu. lia.
    + done.
    + done.
    + unfold overlap. lia.
    + intros j Hj. apply Hb. set_solver.
    + lia.
Qed.

Lemma end_loop_spec fuel w acc h l :
  chain none (λ k, f_next (FRAG w k)) h l → (length l < fuel)%nat →
  Forall frag_fits (afrags w l) →
  end_loop fuel w acc h = Some (foldr (λ a n, Z.max (a_off a + a_flen a) n) acc (rev (afrags w l))).
Proof.
  revert acc h l. induction fuel as [|fuel IH]; intros acc h l Hc Hfu Hfit; [lia|].
  destruct l as [|k l].
  - unfold chain in Hc; simpl in Hc. subst h. done.
  - destruct Hc as (-> & Hk & Hc). cbn [end_loop]. rewrite (proj2 (Z.eqb_neq k none)) by done.
    simpl in Hfit |- *. apply Forall_cons in Hfit as [(? & ? & ?) Hfit]. simpl in *.
    rewrite IH with (l := l); [|exact Hc|lia|done]. rewrite foldr_app. simpl. do 2 f_equal.
    rewrite u32_id by (wrap_unfold; lia). destruct (Z.ltb_spec acc (f_off (FRAG w k) + f_len (FRAG w k))); lia.
Qed.

Lemma a_end_rev fs : foldr (λ a n, Z.max (a_off a + a_flen a) n) 0 (rev fs) = a_end fs.
Proof.
  unfold a_end. assert (∀ m, foldr (λ a n, Z.max (a_off a + a_flen a) n) m (rev fs) =
    foldr (λ a n, Z.max (a_off a + a_flen a) n) m fs) as H; [|done].
  induction fs as [|a fs IH]; intros m; simpl; [done|]. rewrite foldr_app. simpl. rewrite IH.
  clear. induction fs as [|b fs IH]; simpl; lia.
Qed.
End Unit.
End Ip4ReassProof.
