(* ===== verification/Ip4ReassTake.v ===== *)
(** * IPv4 reassembly: taking a fragment

    [ip4_reass_take] on a borrow that represents abstract rows: the row it picks or opens, what it makes of
    the fragment there, and the fragment threaded into the row whose hole it filled. *)
From Stdlib Require Import Sorted.
From stdpp Require Import functions.
From S2P Require Import Prelude Base Chain Ipv4 Cover Ip4Reass Ip4ReassSpec Ip4ReassRep Ip4ReassProof.

Module Ip4ReassTake.
Import Ipv4 Ip4Reass Ip4ReassSpec Ip4ReassHoles Ip4ReassRep Ip4ReassProof.
Local Abbreviation none := IP4_REASS_NONE.

Lemma a_insert_split a A1 A2 :
  Forall (λ b, a_off b ≤ a_off a) A1 → (∀ b A', A2 = b :: A' → a_off a < a_off b) →
  a_insert a (A1 ++ A2) = A1 ++ a :: A2.
Proof.
  induction 1 as [|b A1 Hb _ IH]; intros H2; simpl.
  - destruct A2 as [|b A']; simpl; [done|]. by rewrite (proj2 (Z.leb_gt _ _)) by (by eapply H2).
  - rewrite (proj2 (Z.leb_le _ _)) by done. by rewrite IH.
Qed.

Lemma Work_ext w w' :
  w_io w = w_io w' → w_ctx w = w_ctx w' → w_dgram w = w_dgram w' → w_frag w = w_frag w' → w_hole w = w_hole w' → w = w'.
Proof. destruct w, w'. simpl. by intros -> -> -> -> ->. Qed.

Section Unit.
Variables (D F HO : Z).
Hypothesis HD : 0 ≤ D < 255.
Hypothesis HF : 0 ≤ F < 255.
Hypothesis HHO : D + F ≤ HO < 255.
Variable MAXAGE : Z.
Local Abbreviation rep := (rep D F HO).
Local Abbreviation Rep := (Rep D F HO).

(** ** The fragment list *)
Lemma frag_link_spec w i g fl :
  0 ≤ i < tlen (w_dgram w) → tlen (w_frag w) = F →
  chain none (λ k, f_next (FRAG w k)) (d_frag_head (DGRAM w i)) fl →
  (∀ k, k ∈ fl → 0 ≤ k < F) → 0 ≤ g < F → g ∉ fl →
  ∃ tf hd l1 l2, ip4_reass_frag_link F w i g =
      Some (put_dgram (w <| w_frag := tf |>) i ((DGRAM w i) <| d_frag_head := hd |>)) ∧
    fl = l1 ++ l2 ∧ chain none (λ k, f_next (tget tf k)) hd (l1 ++ g :: l2) ∧ tlen tf = F ∧
    (∀ k, 0 ≤ k → afrag (tget tf k) = afrag (FRAG w k) ∧ f_state (tget tf k) = f_state (FRAG w k)) ∧
    (∀ k, 0 ≤ k → k ≠ g → k ∉ fl → tget tf k = FRAG w k) ∧
    Forall (λ k, f_off (FRAG w k) ≤ f_off (FRAG w g)) l1 ∧
    (∀ k l', l2 = k :: l' → f_off (FRAG w g) < f_off (FRAG w k)).
Proof.
  intros Hi Ht Hc Hr Hg Hgn. pose proof (chain_NoDup _ _ _ _ Hc) as Hnd.
  assert (Z.of_nat (length fl) ≤ F) by (apply NoDup_range_length; [lia|done|by apply Forall_forall]).
  destruct (walk_spec none _ (λ j, f_off (FRAG w j) <=? f_off (FRAG w g)) (S (Z.to_nat F)) none _ _ Hc)
    as (l1 & l2 & -> & Hw & Hgo & Hstop); [lia|].
  unfold ip4_reass_frag_link. rewrite Hw. simpl.
  assert (none ∉ l1) as Hn1.
  { intros Hx. specialize (Hr none). unfold none in *. assert (0 ≤ 255 < F) by (apply Hr; set_solver). lia. }
  set (t1 := tset (w_frag w) g ((FRAG w g) <| f_next := first_of none l2 |>)).
  assert (∀ k, 0 ≤ k → tget t1 k = if decide (k = g) then (FRAG w k) <| f_next := first_of none l2 |> else FRAG w k) as Ht1.
  { intros k Hk. unfold t1. case_decide as E; [subst k; by rewrite tget_tset_eq by lia|by rewrite tget_tset_ne by lia]. }
  assert (∃ tf hd, (if last_of none l1 =? none then put_dgram (put_frag w g ((FRAG w g) <| f_next := first_of none l2 |>)) i
       ((DGRAM w i) <| d_frag_head := g |>) else put_frag (put_frag w g ((FRAG w g) <| f_next := first_of none l2 |>))
        (last_of none l1) ((tget t1 (last_of none l1)) <| f_next := g |>)) =
       put_dgram (w <| w_frag := tf |>) i ((DGRAM w i) <| d_frag_head := hd |>) ∧
     hd = (match l1 with [] => g | _ => d_frag_head (DGRAM w i) end) ∧ tlen tf = F ∧
     ∀ k, 0 ≤ k → tget tf k = if decide (last l1 = Some k) then (tget t1 k) <| f_next := g |> else tget t1 k)
    as (tf & hd & He & Hhd & Hlen & Hget).
  { unfold last_of. destruct (last l1) as [p|] eqn:El; simpl.
    - assert (p ∈ l1) as Hp by (apply last_Some in El as [l' ->]; set_solver).
      rewrite (proj2 (Z.eqb_neq p none)) by (intros ->; done).
      exists (tset t1 p ((tget t1 p) <| f_next := g |>)), (d_frag_head (DGRAM w i)).
      assert (0 ≤ p < F) by (apply Hr; set_solver). split_and!.
      + unfold put_dgram, put_frag. simpl. destruct w as [io ctx dg fg hg]. simpl in *.
        assert (tset dg i (tget dg i) <| d_frag_head := d_frag_head (tget dg i) |> = dg) as E.
        { rewrite <- (tset_tget dg i) at 3 by done. f_equal. by destruct (tget dg i). }
        unfold DGRAM. simpl. by rewrite E.
      + by destruct l1.
      + unfold t1. by rewrite !tlen_tset.
      + intros k Hk. case_decide as Ek.
        * injection Ek as <-. rewrite tget_tset_eq; [done|]. unfold t1. rewrite tlen_tset. lia.
        * rewrite tget_tset_ne; [done|lia..|congruence].
    - apply last_None in El as ->. exists t1, g. split_and!; [done..| |].
      + unfold t1. by rewrite tlen_tset.
      + done. }
  exists tf, hd, l1, l2. split; [by rewrite <- He|]. split_and!; [done| |done|..].
  - subst hd. eapply (chain_insert none (λ k, f_next (FRAG w k))); [done|unfold none; lia| |].
    + simpl. rewrite Hget, Ht1 by lia. rewrite decide_False, decide_True by (done || (intros [? ->]%last_Some; set_solver)). done.
    + intros j Hj. simpl. assert (0 ≤ j) by (specialize (Hr j Hj); lia). rewrite Hget, Ht1 by done.
      rewrite (decide_False (P := j = g)) by set_solver. by case_decide.
  - intros k Hk. rewrite Hget, Ht1 by done. by repeat case_decide.
  - intros k Hk Hne Hn. rewrite Hget, Ht1 by done. rewrite decide_False by (intros [? ->]%last_Some; set_solver).
    by rewrite decide_False.
  - eapply Forall_impl; [exact Hgo|]. simpl. intros k. apply Z.leb_le.
  - intros k l' E. specialize (Hstop k l' E). by apply Z.leb_gt.
Qed.

(** ** Landing *)
Definition taken (io : Ip4ReassIo) (x : Fragment) : AFrag :=
  mkAFrag (a_desc (hold_args io)) (off x) (data_len x) (hdr_len x).

(** The row once the fragment [g] is threaded in: steps (10) and (11), then the test for an empty list. *)
Definition landed_row (row : Ip4ReassDatagram) (x : Fragment) (g fh hd : Z) : Ip4ReassDatagram :=
  let row := row <| d_hole_head := hd |> <| d_frag_head := fh |> in
  let row := if mf x then row else row <| d_total_len := u16 (frag_end x) |> in
  let row := if off x =? 0 then row <| d_first_frag := g |> else row in
  if (hd =? none) && negb (d_first_frag row =? none) then row <| d_state := COMPLETE |> <| d_cursor := fh |> else row.

Definition landed_io (io : Ip4ReassIo) (row : Ip4ReassDatagram) (i : Z) : Ip4ReassIo :=
  (a_report i (d_state row)
     (if state_eqb (d_state row) COMPLETE then io <| io_complete := true |> else io))
    <| io_total_len := d_total_len row |> <| io_status := IDEMIP_OK |>.

Definition with_frag (w : Work) (g : Z) : Work :=
  put_frag w g ((FRAG w g) <| f_state := HOLDING |> <| f_next := none |>).

Definition landed_frag (w : Work) (x : Fragment) : Ip4ReassFrag :=
  mkFrag (a_desc (hold_args (w_io w))) (u16 (off x)) (u16 (data_len x)) (hdr_len x) none HOLDING.

Lemma take_land_eq w x i g fl t hd :
  0 ≤ i < tlen (w_dgram w) → tlen (w_frag w) = F → d_state (DGRAM w i) = HOLDING →
  chain none (λ k, f_next (FRAG w k)) (d_frag_head (DGRAM w i)) fl →
  (∀ k, k ∈ fl → 0 ≤ k < F) → 0 ≤ g < F → g ∉ fl →
  ∃ tf fh l1 l2,
    take_land F (at_holes (with_frag w g) i t hd) x i g =
      Some (mkWork (landed_io (w_io w) (landed_row (DGRAM w i) x g fh hd) i)
              ((w_ctx w) <| c_held := u8 (c_held (w_ctx w) + 1) |>)
              (tset (w_dgram w) i (landed_row (DGRAM w i) x g fh hd)) tf t) ∧
    fl = l1 ++ l2 ∧ chain none (λ k, f_next (tget tf k)) fh (l1 ++ g :: l2) ∧ tlen tf = F ∧
    afrag (tget tf g) = afrag (landed_frag w x) ∧ f_state (tget tf g) = HOLDING ∧
    (∀ k, 0 ≤ k → k ≠ g → afrag (tget tf k) = afrag (FRAG w k) ∧ f_state (tget tf k) = f_state (FRAG w k)) ∧
    (∀ k, 0 ≤ k → k ≠ g → k ∉ fl → tget tf k = FRAG w k) ∧
    Forall (λ k, f_off (FRAG w k) ≤ u16 (off x)) l1 ∧
    (∀ k l', l2 = k :: l' → u16 (off x) < f_off (FRAG w k)).
Proof.
  intros Hi Ht Hst Hc Hr Hg Hgn. unfold take_land.
  set (w3 := put_frag _ _ _).
  assert (∀ k, 0 ≤ k → k ≠ g → FRAG w3 k = FRAG w k) as Hfr.
  { intros k Hk Hne. unfold w3, at_holes, with_frag, put_dgram, put_frag, FRAG. simpl. by rewrite !tget_tset_ne by lia. }
  assert (FRAG w3 g = landed_frag w x) as Hfg.
  { unfold w3, at_holes, with_frag, put_dgram, put_frag, FRAG. simpl.
    rewrite tget_tset_eq by (rewrite tlen_tset; lia). rewrite tget_tset_eq by lia. done. }
  assert (DGRAM w3 i = (DGRAM w i) <| d_hole_head := hd |>) as Hdg.
  { unfold w3, at_holes, with_frag, put_dgram, put_frag, DGRAM. simpl. by rewrite tget_tset_eq. }
  destruct (frag_link_spec w3 i g fl) as (tf & fh & l1 & l2 & He & -> & Hch & Hlen & Hsame & Hout & H1 & H2).
  - unfold w3, at_holes, with_frag, put_dgram, put_frag. simpl. by rewrite tlen_tset.
  - unfold w3, at_holes, with_frag, put_dgram, put_frag. simpl. by rewrite !tlen_tset.
  - rewrite Hdg. eapply chain_ext; [|exact Hc]. intros k Hk. simpl. rewrite Hfr; [done| |set_solver].
    specialize (Hr k Hk). lia.
  - done.
  - done.
  - done.
  - rewrite He. exists tf, fh, l1, l2. split_and!; [|done..| | | | | |].
    + rewrite Hdg. unfold w3, at_holes, with_frag, put_dgram, put_frag, set_io, DGRAM, landed_row. simpl.
      destruct (mf x), (off x =? 0); simpl;
        repeat (rewrite tget_tset_eq by (rewrite ?tlen_tset; done) || rewrite tset_tset_eq); simpl;
        (match goal with |- context [if ?b then _ else _] => destruct b end); simpl;
        repeat (rewrite tget_tset_eq by (rewrite ?tlen_tset; done) || rewrite tset_tset_eq);
        unfold landed_io; simpl; unfold DGRAM in Hst; rewrite ?Hst; f_equal; apply Work_ext; simpl;
        by rewrite ?tset_tset_eq.
    + destruct (Hsame g) as [-> _]; [lia|]. by rewrite Hfg.
    + destruct (Hsame g) as [_ ->]; [lia|]. by rewrite Hfg.
    + intros k Hk Hne. rewrite <- Hfr by done. by apply Hsame.
    + intros k Hk Hne Hn. rewrite <- Hfr by done. by apply Hout.
    + rewrite Forall_forall in *. intros k Hk. specialize (H1 k Hk). rewrite Hfg in H1. simpl in H1.
      rewrite Hfr in H1; [done| |set_solver]. destruct (Hr k); [set_solver|lia].
    + intros k l' ->. specialize (H2 k l' eq_refl). rewrite Hfg in H2. simpl in H2.
      rewrite Hfr in H2; [done| |set_solver]. destruct (Hr k); [set_solver|lia].
Qed.

Lemma has_zero_insert a A : has_zero (a_insert a A) = (a_off a =? 0) || has_zero A.
Proof.
  induction A as [|b A IH]; simpl; [done|]. destruct (_ <=? _); simpl; [|done].
  unfold has_zero in *. simpl. rewrite IH. destruct (a_off b =? 0), (a_off a =? 0); done.
Qed.

(** Every octet of a complete datagram is held, octet zero included. *)
Lemma whole_has_zero total A : gathering total [] A → has_zero A = true.
Proof.
  intros G. pose proof (no_hole_whole G) as Hw. rewrite bool_decide_true in Hw by done. symmetry in Hw.
  unfold a_whole in Hw. bool_prop. pose proof (g_total _ _ _ G).
  pose proof (g_cover _ _ _ G 0) as Hc. rewrite ind_span in Hc by (unfold span; destruct (Z.eqb_spec total 0); lia).
  simpl in Hc. destruct (cover_ivals A 0) as (a & Ha & Hr); [lia|].
  pose proof (g_frags _ _ _ G) as Hf. rewrite Forall_forall in Hf. destruct (Hf a Ha).
  apply existsb_exists. exists a. split; [by apply list_elem_of_In|]. apply Z.eqb_eq. lia.
Qed.

(** The hole table after the split, against the list of the row. *)
Lemma tframe_grown w t l1 h l2 ms :
  tlen (w_hole w) = HO → NoDup (l1 ++ h :: l2) →
  (∀ k, k ∈ l1 ++ h :: l2 → 0 ≤ k < HO ∧ hole_busy (HOLE w k) = true) →
  grown (tset (w_hole w) h ((HOLE w h) <| h_state := FREE |> <| h_next := none |>)) t l1 ms →
  tframe hole_busy (w_hole w) t (l1 ++ h :: l2) (l1 ++ ms ++ l2).
Proof.
  intros Ht Hnd Hall (Hl & V & S & B). rewrite tlen_tset in Hl, B.
  destruct (Hall h) as [Hh _]; [set_solver|]. apply NoDup_app in Hnd as (_ & Hd & [Hh2 _]%NoDup_cons).
  assert (∀ k, 0 ≤ k → k ≠ h → tget (tset (w_hole w) h ((HOLE w h) <| h_state := FREE |> <| h_next := none |>)) k
    = HOLE w k) as Hne by (intros; by rewrite tget_tset_ne by lia).
  exists (ms ++ l1 ++ h :: l2). split_and!; [done| |set_solver|set_solver|..].
  - intros k Hk Hn. rewrite S, Hne by set_solver. done.
  - intros k [Hk|Hk]%elem_of_app.
    + destruct (B k Hk) as (? & Hb & _). split; [done|]. destruct (decide (k = h)) as [->|]; [left; set_solver|right].
      rewrite Hne in Hb by lia. done.
    + split; [|by left]. rewrite Ht. by apply Hall.
  - intros k Hk. destruct (decide (k ∈ ms)) as [Hm|Hm].
    + destruct (B k Hm) as (_ & _ & ->). set_solver.
    + destruct (Hall k) as [Hr Hb]; [set_solver|]. destruct (V k) as [_ Hst]; [lia|done|].
      rewrite (busy_state _ _ Hst). destruct (decide (k = h)) as [->|Hkh].
      * rewrite tget_tset_eq by lia. unfold hole_busy. simpl. set_solver.
      * rewrite Hne, Hb by lia. set_solver.
Qed.

Lemma pieces_eq h x io :
  0 < data_len x →
  (if h_first h <? off x then [(h_first h, off x)] else []) ++
  (if (off x + data_len x - 1 <? h_last h) && mf x then [(off x + data_len x - 1 + 1, h_last h + 1)] else []) =
  pieces (hole h) (taken io x) (mf x).
Proof.
  intros. unfold pieces, hole, taken. simpl. f_equal. rewrite Z.sub_add.
  replace (off x + data_len x <? h_last h + 1) with (off x + data_len x - 1 <? h_last h); [done|].
  destruct (Z.ltb_spec (off x + data_len x - 1) (h_last h)), (Z.ltb_spec (off x + data_len x) (h_last h + 1)); lia.
Qed.

(** The abstract row a taken fragment leaves. *)
Definition a_landed (k : BufId) (d total : Z) (fs : list AFrag) : ARow :=
  if a_whole total fs then AComplete k d total fs fs else AHolding k d total fs.

Lemma landed_test hd first (hl : list Z) H total A :
  (hd = none ↔ hl = []) → (hl = [] ↔ H = []) → negb (first =? none) = has_zero A → gathering total H A →
  (hd =? none) && negb (first =? none) = a_whole total A.
Proof.
  intros Hn Hm Hz G. rewrite <- (no_hole_whole G), Hz. case_bool_decide as HH.
  - rewrite (proj2 (Z.eqb_eq hd none)) by tauto. subst H. by rewrite (whole_has_zero total A).
  - rewrite (proj2 (Z.eqb_neq hd none)) by tauto. done.
Qed.

Lemma landed_ok w w' i x g fh hd fl hl fs k d total fl' hl' :
  row_ok w (DGRAM w i) fl hl (AHolding k d total fs) →
  0 ≤ off x → off x + data_len x < 65536 → 0 < data_len x → g ≠ none →
  chain none (λ k, f_next (FRAG w' k)) fh fl' → chain none (λ k, h_next (HOLE w' k)) hd hl' →
  afrags w' fl' = a_insert (taken (w_io w) x) fs →
  gathering (if mf x then total else off x + data_len x) (aholes w' hl') (afrags w' fl') →
  (length hl' ≤ S (length fl'))%nat →
  row_ok w' (landed_row (DGRAM w i) x g fh hd) fl' hl'
    (a_landed k d (if mf x then total else off x + data_len x) (afrags w' fl')).
Proof.
  intros Hrow Ho Ho2 Hlen Hg Hcf Hch Haf G Hle.
  pose proof (row_ok_state _ _ _ _ _ Hrow) as Hst. simpl in Hst.
  unfold row_ok in Hrow. rewrite Hst in Hrow. destruct Hrow as (_ & _ & _ & _ & Hz & [= -> -> -> Hfs]).
  rewrite Haf in *. rewrite Hfs in *.
  set (first' := if off x =? 0 then g else d_first_frag (DGRAM w i)).
  assert (negb (first' =? none) = has_zero (a_insert (taken (w_io w) x) (afrags w fl))) as Hz'.
  { rewrite has_zero_insert. unfold first', taken. simpl. destruct (off x =? 0); simpl; [|done].
    by rewrite (proj2 (Z.eqb_neq g none)). }
  assert (frag_end x = off x + data_len x) as Hfe.
  { unfold frag_end. rewrite u32_id; [done|]. wrap_unfold. lia. }
  pose proof (landed_test hd first' hl' _ _ _ (chain_nil _ _ _ _ Hch)
    (conj (λ E, f_equal (aholes w') E) (λ E, map_eq_nil _ _ E)) Hz' G) as Ht.
  assert (landed_row (DGRAM w i) x g fh hd =
    let row := (DGRAM w i) <| d_hole_head := hd |> <| d_frag_head := fh |>
       <| d_total_len := if mf x then d_total_len (DGRAM w i) else off x + data_len x |> <| d_first_frag := first' |> in
    if a_whole (if mf x then d_total_len (DGRAM w i) else off x + data_len x)
         (a_insert (taken (w_io w) x) (afrags w fl))
    then row <| d_state := COMPLETE |> <| d_cursor := fh |> else row) as ->.
  { rewrite <- Ht. unfold landed_row, first'. rewrite Hfe, u16_id by (wrap_unfold; lia).
    destruct (mf x), (off x =? 0); simpl; destruct (DGRAM w i); done. }
  unfold a_landed. destruct (a_whole _ _) eqn:Ew.
  - unfold row_ok. simpl. rewrite Haf.
    pose proof (no_hole_whole G) as Hw. rewrite Ew in Hw. apply bool_decide_eq_true in Hw. rewrite Hw in G.
    split_and!; [done..| | |done|].
    + by apply map_eq_nil in Hw.
    + intros ->. apply (f_equal length) in Haf. by rewrite a_insert_perm in Haf.
    + exists [], fl'. simpl. split_and!; [done|by eapply chain_head|]. by rewrite Haf.
  - unfold row_ok. simpl. rewrite Hst, Haf. split_and!; [done..| |done|done|done].
    intros ->. pose proof (no_hole_whole G) as Hw. rewrite Ew in Hw. done.
Qed.

(** What the header of a fragment that got past the length checks says. *)
Definition frag_ok (x : Fragment) : Prop := 0 ≤ off x ∧ 0 < data_len x ∧ off x + data_len x ≤ 65515.

Lemma frag_alloc_spec w fr hr rows :
  rep w fr hr rows → c_held (w_ctx w) < F →
  ∃ g, ip4_reass_frag_alloc F w = (with_frag w g, g) ∧ 0 ≤ g < F ∧ frag_busy (FRAG w g) = false.
Proof.
  intros R Hheld. destruct (free_slot F (λ k, frag_busy (FRAG w k)) (owned D fr)) as (g & Hg & Hr & Hb); [lia|..].
  - intros k Hk Hbk. apply (r_fown _ _ _ _ _ _ _ R). by rewrite (r_frags _ _ _ _ _ _ _ R).
  - rewrite <- (r_held _ _ _ _ _ _ _ R). done.
  - exists g. split; [|done]. unfold ip4_reass_frag_alloc.
    erewrite scan_ext with (q := λ k, negb (frag_busy (FRAG w k))); [by rewrite Hg|].
    intros j Hj. unfold frag_busy. by rewrite negb_involutive.
Qed.

(** The fragment table after the landing, against the list of the row. *)
Lemma tframe_landed w fr hr rows i tf g l1 l2 :
  rep w fr hr rows → 0 ≤ i < D → fr i = l1 ++ l2 → 0 ≤ g < F → frag_busy (FRAG w g) = false → tlen tf = F →
  f_state (tget tf g) = HOLDING →
  (∀ k, 0 ≤ k → k ≠ g → afrag (tget tf k) = afrag (FRAG w k) ∧ f_state (tget tf k) = f_state (FRAG w k)) →
  (∀ k, 0 ≤ k → k ≠ g → k ∉ l1 ++ l2 → tget tf k = FRAG w k) →
  tframe frag_busy (w_frag w) tf (fr i) (l1 ++ g :: l2).
Proof.
  intros R Hi Hfl Hg Hb Hlen Hst Hsame Hout. pose proof (r_frags _ _ _ _ _ _ _ R) as HwF.
  exists (g :: fr i). rewrite Hfl. split_and!; [lia| |set_solver|set_solver|..].
  - intros k Hk Hn. rewrite Hout by set_solver. done.
  - intros k [->|Hk]%elem_of_cons; [split; [lia|by right]|]. split; [|by left].
    rewrite HwF. eapply (rep_frag_range _ _ _ _ _ _ _ i); [done..|by rewrite Hfl].
  - intros k [->|Hk]%elem_of_cons.
    + unfold frag_busy. rewrite Hst. set_solver.
    + rewrite <- Hfl in Hk. destruct (owner_list frag_busy D (w_frag w) fr i k) as [? Hbk]; [apply R|done..|].
      assert (k ≠ g) by (intros ->; unfold FRAG in Hb; congruence).
      destruct (Hsame k) as [_ Hs]; [lia|done|]. unfold frag_busy in *. rewrite Hs. unfold FRAG. rewrite Hbk.
      rewrite Hfl, elem_of_app in Hk. rewrite elem_of_app, elem_of_cons. tauto.
Qed.

Lemma land_spec w fr hr rows i k d total fs x g l1 h l2 t hd ms :
  rep w fr hr rows → 0 ≤ i < D → tget rows i = AHolding k d total fs → c_held (w_ctx w) < F → frag_ok x →
  0 ≤ g < F → frag_busy (FRAG w g) = false → hr i = l1 ++ h :: l2 →
  h_first (HOLE w h) ≤ off x → off x + data_len x ≤ h_last (HOLE w h) + 1 →
  (mf x = false → total = 0 ∧ a_end fs ≤ off x + data_len x) →
  grown (tset (w_hole w) h ((HOLE w h) <| h_state := FREE |> <| h_next := none |>)) t l1 ms →
  chain none (nx t) hd (l1 ++ ms ++ l2) →
  map (λ k, hole (tget t k)) ms = pieces (hole (HOLE w h)) (taken (w_io w) x) (mf x) →
  let total' := if mf x then total else off x + data_len x in
  let fs' := a_insert (taken (w_io w) x) fs in
  ∃ w', take_land F (at_holes (with_frag w g) i t hd) x i g = Some w' ∧
    Rep w' (tset rows i (a_landed k d total' fs')) ∧
    w_io w' = (a_report i (a_state (a_landed k d total' fs'))
                 (if a_whole total' fs' then (w_io w) <| io_complete := true |> else w_io w))
                <| io_total_len := total' |> <| io_status := IDEMIP_OK |>.
Proof.
  intros R Hi Ha Hheld (Ho & Hdl & Hoe) Hg Hgb Hhr Hlo Hhi Hlast Hgr Hch Hms total' fs'.
  pose proof (r_rows _ _ _ _ _ _ _ R i Hi) as Hrow. rewrite Ha, Hhr in Hrow.
  pose proof (row_ok_state _ _ _ _ _ Hrow) as Hst. simpl in Hst.
  pose proof Hrow as Hrow'. unfold row_ok in Hrow'. rewrite Hst in Hrow'.
  destruct Hrow' as ([Hcf Hcho] & G & _ & Hle & _ & [= -> -> -> Efs]).
  pose proof (r_dgrams _ _ _ _ _ _ _ R) as HwD. pose proof (r_frags _ _ _ _ _ _ _ R) as HwF.
  destruct (take_land_eq w x i g (fr i) t hd) as (tf & fh & f1 & f2 & He & Hf12 & Hcf' & Hlt & Hvg & Hsg & Hsame & Hout & H1 & H2);
    [lia|done|done|done| |done| |].
  { intros j Hj. by eapply rep_frag_range. }
  { intros Hx. destruct (owner_list frag_busy D (w_frag w) fr i g) as [_ ?]; [apply R|done..|]. unfold FRAG in Hgb. congruence. }
  set (w' := mkWork _ _ _ tf t) in He.
  assert (∀ j, j ∈ fr i → 0 ≤ j < F ∧ j ≠ g) as Hfi.
  { intros j Hj. split; [by eapply rep_frag_range|]. intros ->.
    destruct (owner_list frag_busy D (w_frag w) fr i g) as [_ ?]; [apply R|done..|]. unfold FRAG in Hgb. congruence. }
  assert (∀ l, l ⊆ fr i → afrags w' l = afrags w l) as Hafr.
  { intros l Hl. apply map_ext_in. intros j Hj%list_elem_of_In. destruct (Hfi j) as [? ?]; [by apply Hl|].
    destruct (Hsame j); [lia|done|]. done. }
  assert (afrag (FRAG w' g) = taken (w_io w) x) as Hvg'.
  { unfold FRAG. simpl. rewrite Hvg. unfold landed_frag, afrag, taken. simpl.
    rewrite !u16_id by (wrap_unfold; lia). done. }
  assert (afrags w' (f1 ++ g :: f2) = fs') as Haf.
  { unfold fs', afrags. rewrite map_app. simpl. rewrite Hvg'.
    change (map (λ k0, afrag (FRAG w' k0)) f1) with (afrags w' f1).
    change (map (λ k0, afrag (FRAG w' k0)) f2) with (afrags w' f2).
    rewrite !Hafr by (intros j Hj; rewrite Hf12, elem_of_app; tauto).
    rewrite Efs, Hf12. unfold afrags. rewrite map_app. symmetry. apply a_insert_split.
    - apply Forall_fmap. eapply Forall_impl; [exact H1|]. simpl. intros j. rewrite u16_id by (wrap_unfold; lia). done.
    - intros b A' Eb. destruct f2 as [|j f2']; [done|]. injection Eb as <- _. simpl.
      specialize (H2 j f2' eq_refl). rewrite u16_id in H2 by (wrap_unfold; lia). done. }
  pose proof Hgr as (Hlg & V & S & B).
  pose proof (chain_NoDup _ _ _ _ Hcho) as Hnd.
  assert (∀ j, j ∈ l1 ++ h :: l2 → 0 ≤ j < HO ∧ hole_busy (HOLE w j) = true) as Hall.
  { intros j Hj. rewrite <- Hhr in Hj. rewrite <- (r_holes _ _ _ _ _ _ _ R). eapply (owner_list hole_busy D); [apply R|done..]. }
  assert (aholes w' (l1 ++ ms ++ l2) = aholes w l1 ++ pieces (hole (HOLE w h)) (taken (w_io w) x) (mf x) ++ aholes w l2) as Hah.
  { unfold aholes at 1. rewrite !map_app. unfold HOLE at 2. simpl w_hole. rewrite Hms.
    apply NoDup_app in Hnd as (_ & Hd & [Hh _]%NoDup_cons).
    assert (∀ l, l ⊆ l1 ++ l2 → map (λ k0, hole (HOLE w' k0)) l = aholes w l) as Hl.
    { intros l Hl. apply map_ext_in. intros j Hj%list_elem_of_In%Hl. 
      rewrite elem_of_app in Hj. destruct (Hall j) as [? Hb]; [rewrite elem_of_app, elem_of_cons; tauto|].
      assert (j ≠ h) by (intros ->; destruct Hj as [Hj|Hj]; [apply (Hd h Hj); left|done]).
      assert (0 ≤ h) by (destruct (Hall h); [rewrite elem_of_app, elem_of_cons; tauto|lia]).
      change (hole (HOLE w' j)) with (hole (tget t j)). destruct (V j) as [-> _]; [lia| |].
      - intros Hm. destruct (B j Hm) as (_ & Hx & _). rewrite tget_tset_ne in Hx by lia. unfold HOLE in Hb. congruence.
      - by rewrite tget_tset_ne by lia. }
    rewrite !Hl by (intros j Hj; rewrite elem_of_app; tauto). done. }
  unfold aholes in G at 1. rewrite map_app in G. simpl in G. fold (aholes w l1) (aholes w l2) in G.
  rewrite <- Efs in G.
  pose proof (gathering_take _ _ _ _ _ (taken (w_io w) x) (mf x) G) as G'. unfold taken, hole, frag_fits in G'. simpl in G'.
  fold (taken (w_io w) x) in G'. fold (hole (HOLE w h)) in G'. fold fs' total' in G'.
  specialize (G' (conj Ho (conj Hdl Hoe)) Hlo Hhi Hlast). rewrite <- Hah in G'.
  assert (row_ok w' (landed_row (DGRAM w i) x g fh hd) (f1 ++ g :: f2) (l1 ++ ms ++ l2)
            (a_landed (key (DGRAM w i)) (d_deadline_ms (DGRAM w i)) total' fs')) as Hok.
  { rewrite <- Haf. eapply landed_ok; [exact Hrow|lia|lia|lia|unfold none; lia|exact Hcf'|exact Hch| | |].
    - rewrite Haf. done.
    - rewrite Haf. exact G'.
    - rewrite !length_app in *. simpl in *. rewrite Hf12, length_app in Hle.
      assert (length ms ≤ 2)%nat; [|lia]. rewrite <- (length_map (λ k, hole (tget t k))), Hms.
      unfold pieces. rewrite length_app. destruct (_ <? _), (_ && _); simpl; lia. }
  exists w'. split; [exact He|]. split.
  - exists (<[i := f1 ++ g :: f2]> fr), (<[i := l1 ++ ms ++ l2]> hr).
    eapply rep_update; [exact R|done|..].
    + unfold w', DGRAM. simpl. by rewrite tget_tset_eq by lia.
    + rewrite Hf12 in Hout. by eapply tframe_landed.
    + rewrite Hhr. eapply tframe_grown; [apply R|done|done|exact Hgr].
    + done.
    + unfold w'. simpl. pose proof (r_held _ _ _ _ _ _ _ R). rewrite Hf12, !length_app. simpl.
      rewrite u8_id by (wrap_unfold; lia). lia.
    + unfold w' at 2, DGRAM. simpl. rewrite tget_tset_eq by lia. exact Hok.
  - unfold w'. simpl. unfold landed_io. pose proof (row_ok_state _ _ _ _ _ Hok) as Es. rewrite Es.
    assert (d_total_len (landed_row (DGRAM w i) x g fh hd) = total') as ->.
    { unfold total', landed_row. unfold frag_end. rewrite u32_id, u16_id by (wrap_unfold; lia).
      destruct (mf x), (off x =? 0), (_ && _); done. }
    unfold a_landed. by destruct (a_whole total' fs').
Qed.
End Unit.
End Ip4ReassTake.
