(* ===== verification/Ip4ReassRefine.v ===== *)
(** * IPv4 reassembly: the refinement

    Every entry of the unit against the abstract reassembler, and what follows on every sequence of calls. *)
From Stdlib Require Import Sorted.
From stdpp Require Import functions.
From S2P Require Import Prelude Base Chain Ipv4 Cover Ip4Reass Ip4ReassSpec Ip4ReassRep Ip4ReassProof Ip4ReassTake.

Module Ip4ReassRefine.
Import Ipv4 Ip4Reass Ip4ReassSpec Ip4ReassHoles Ip4ReassRep Ip4ReassProof Ip4ReassTake.
Local Abbreviation none := IP4_REASS_NONE.

Section Unit.
Variables (D F HO : Z).
Hypothesis HD : 0 ≤ D < 255.
Hypothesis HF : 0 ≤ F < 255.
Hypothesis HHO : D + F ≤ HO < 255.
Variable MAXAGE : Z.
Variable word : option nat.
Variable swap : bool.
Local Abbreviation rep := (rep D F HO).
Local Abbreviation Rep := (Rep D F HO).

(** [w'] is what the abstract step says. *)
Definition simulates (w' : Work) (s : AState) : Prop := w_io w' = s.1 ∧ Rep w' s.2.

(** ** A fragment against its row *)
Lemma end_spec w fr hr rows i k d total fs :
  rep w fr hr rows → 0 ≤ i < D → tget rows i = AHolding k d total fs → ip4_reass_end F w i = Some (a_end fs).
Proof.
  intros R Hi Ha. pose proof (r_rows _ _ _ _ _ _ _ R i Hi) as Hrow. rewrite Ha in Hrow.
  pose proof (row_ok_state _ _ _ _ _ Hrow) as Hst. simpl in Hst. unfold row_ok in Hrow. rewrite Hst in Hrow.
  destruct Hrow as ([Hcf _] & G & _ & _ & _ & [= _ _ _ ->]).
  unfold ip4_reass_end. rewrite (end_loop_spec _ _ _ _ (fr i)); [by rewrite a_end_rev|exact Hcf| |apply G].
  pose proof (rep_frag_len _ _ _ _ _ _ _ i R). lia.
Qed.

Lemma fills_spec w fr hr rows i k d total fs x :
  rep w fr hr rows → 0 ≤ i < D → tget rows i = AHolding k d total fs → frag_ok x →
  (total ≠ 0 → off x + data_len x ≤ total) →
  ip4_reass_fills HO w i (off x) (off x + data_len x - 1) =
    Some (data_len x - osum (ivals fs) (off x) (off x + data_len x)) ∧
  0 ≤ osum (ivals fs) (off x) (off x + data_len x) ≤ data_len x.
Proof.
  intros R Hi Ha (Ho & Hd & He) Ht. pose proof (r_rows _ _ _ _ _ _ _ R i Hi) as Hrow. rewrite Ha in Hrow.
  pose proof (row_ok_state _ _ _ _ _ Hrow) as Hst. simpl in Hst. unfold row_ok in Hrow. rewrite Hst in Hrow.
  destruct Hrow as ([_ Hch] & G & _ & _ & _ & [= _ _ -> ->]).
  assert (off x + data_len x ≤ span (d_total_len (DGRAM w i))) as Hsp.
  { unfold span. destruct (Z.eqb_spec (d_total_len (DGRAM w i)) 0); lia. }
  pose proof (fills_already G (off x) (off x + data_len x)) as Hfa.
  destruct (osum_spec (aholes w (hr i)) (off x) (off x + data_len x)) as [[Hn1 Hn2] _]; [lia|intros; apply (gathering_le G)|].
  unfold ip4_reass_fills. rewrite (fills_loop_spec D F HO HD HF HHO _ _ _ _ _ _ (hr i)).
  - rewrite Z.sub_add. split; [f_equal|]; lia.
  - exact Hch.
  - pose proof (rep_hole_len _ _ _ _ _ _ _ i R). lia.
  - lia.
  - lia.
  - lia.
  - intros j Hj. destruct (hole_bounds G (hole (HOLE w j))) as [Hb Hs].
    { by apply (elem_map (λ k, hole (HOLE w k))). }
    unfold hole in *. simpl in *. pose proof (g_total _ _ _ G). unfold span in Hs.
    destruct (Z.eqb_spec (d_total_len (DGRAM w i)) 0); lia.
  - rewrite Z.sub_add. lia.
Qed.

(** A fragment none of whose octets is held lands in the one hole it fits. *)
Lemma take_new w fr hr rows i k d total fs x :
  rep w fr hr rows → 0 ≤ i < D → tget rows i = AHolding k d total fs → c_held (w_ctx w) < F → frag_ok x →
  (total ≠ 0 → off x + data_len x ≤ total) → (mf x = false → total ≠ 0 → off x + data_len x = total) →
  (mf x = false → a_end fs ≤ off x + data_len x) → osum (ivals fs) (off x) (off x + data_len x) = 0 →
  let total' := if mf x then total else off x + data_len x in
  let fs' := a_insert (taken (w_io w) x) fs in
  ∃ g w2 w', ip4_reass_frag_alloc F w = (with_frag w g, g) ∧ g ≠ none ∧
    ip4_reass_holes HO (with_frag w g) i (off x) (off x + data_len x - 1) (mf x) = Some (w2, 1) ∧
    take_land F w2 x i g = Some w' ∧
    Rep w' (tset rows i (a_landed k d total' fs')) ∧
    w_io w' = (a_report i (a_state (a_landed k d total' fs'))
                 (if a_whole total' fs' then (w_io w) <| io_complete := true |> else w_io w))
                <| io_total_len := total' |> <| io_status := IDEMIP_OK |>.
Proof.
  intros R Hi Ha Hheld Hx Ht1 Ht2 Hte Hnew total' fs'. pose proof Hx as (Ho & Hdl & He).
  pose proof (r_rows _ _ _ _ _ _ _ R i Hi) as Hrow. rewrite Ha in Hrow.
  pose proof (row_ok_state _ _ _ _ _ Hrow) as Hst. simpl in Hst. unfold row_ok in Hrow. rewrite Hst in Hrow.
  destruct Hrow as ([_ Hch] & G & _ & _ & _ & [= _ _ Et Efs]). rewrite <- Et, <- Efs in G.
  destruct (frag_alloc_spec D F HO HF _ _ _ _ R Hheld) as (g & Hg & Hgr & Hgb).
  assert (off x + data_len x ≤ span total) as Hsp by (unfold span; destruct (Z.eqb_spec total 0); lia).
  destruct (fits_one_hole G (off x) (off x + data_len x)) as (p & Hp & Hp1 & Hp2); [lia|done..|].
  unfold aholes in Hp. apply list_elem_of_fmap in Hp as (h & -> & Hh).
  apply list_elem_of_split in Hh as (l1 & l2 & Hhr). rewrite Hhr in Hch, G. simpl in Hp1, Hp2.
  unfold aholes in G. rewrite map_app in G. simpl in G.
  pose proof (chain_NoDup _ _ _ _ Hch) as Hnd.
  destruct (hole_bounds G (hole (HOLE w h))) as [Hb Hbs]; [apply elem_of_app; right; left|]. simpl in Hb, Hbs.
  assert (span total ≤ 65536) by (pose proof (g_total _ _ _ G); unfold span; destruct (Z.eqb_spec total 0); lia).
  assert (∀ j, j ∈ hr i → 0 ≤ j < HO ∧ hole_busy (HOLE w j) = true) as Hall.
  { intros j Hj. rewrite <- (r_holes _ _ _ _ _ _ _ R). eapply (owner_list hole_busy D); [apply R|done..]. }
  pose proof (owned_split D hr i Hi) as Hos. rewrite Hhr in Hos.
  rewrite Hhr in Hall.
  destruct (holes_spec D F HO HD HF HHO (with_frag w g) i (off x) (off x + data_len x - 1) (mf x) l1 h l2
    ((l1 ++ l2) ++ owned D (<[i := []]> hr))) as (t & hd & ms & Hhs & Hgrown & Hch' & Hms).
  - simpl. rewrite (r_dgrams _ _ _ _ _ _ _ R). done.
  - apply (r_holes _ _ _ _ _ _ _ R).
  - exact Hch.
  - exact Hall.
  - intros j Hj Hbj. assert (j ∈ owned D hr) as Hjo.
    { apply (r_hown _ _ _ _ _ _ _ R). rewrite (r_holes _ _ _ _ _ _ _ R). done. }
    rewrite Hos in Hjo. rewrite !elem_of_app, elem_of_cons in *. tauto.
  - pose proof (holes_le_held _ _ _ _ _ _ _ R) as Hle. rewrite Hos in Hle. rewrite !length_app in *. simpl in *.
    pose proof (r_held _ _ _ _ _ _ _ R). lia.
  - change (HOLE (with_frag w g) h) with (HOLE w h). lia.
  - change (HOLE (with_frag w g) h) with (HOLE w h). lia.
  - change (HOLE (with_frag w g) h) with (HOLE w h). lia.
  - apply Forall_forall. intros j Hj.
    assert (∀ y, off x ≤ y < off x + data_len x → ¬ within (hole (HOLE w j)) y) as Hno.
    { intros y Hy. eapply (cover_split (map (λ k, hole (HOLE w k)) l1) (hole (HOLE w h))).
      - apply (gathering_le G).
      - unfold within, hole. simpl. lia.
      - rewrite <- map_app. by apply (elem_map (λ k, hole (HOLE w k))). }
    destruct (hole_bounds G (hole (HOLE w j))) as [Hbj _].
    { assert (hole (HOLE w j) ∈ map (λ k, hole (HOLE w k)) (l1 ++ h :: l2)) as Hin.
      { apply (elem_map (λ k, hole (HOLE w k))). rewrite elem_of_app, elem_of_cons. rewrite elem_of_app in Hj. tauto. }
      by rewrite map_app in Hin. }
    change (untouched w (off x) (off x + data_len x - 1) j). unfold untouched, within, hole in *. simpl in *.
    apply orb_true_iff. rewrite !Z.ltb_lt.
    destruct (decide (h_last (HOLE w j) < off x)); [by left|right].
    destruct (decide (off x + data_len x - 1 < h_first (HOLE w j))); [done|].
    exfalso. apply (Hno (Z.max (off x) (h_first (HOLE w j)))); lia.
  - destruct (land_spec D F HO HD HF HHO w fr hr rows i k d total fs x g l1 h l2 t hd ms) as (w' & Hl & HR & Hio);
      [done..|lia|lia| |done|done| |].
    + intros Hm. destruct (decide (total = 0)) as [|Hne]; [split; [done|by apply Hte]|exfalso].
      specialize (Ht2 Hm Hne). rewrite Ht2 in Hnew.
      eapply (last_octet_held G (off x)); [done|lia|done].
    + rewrite Hms. apply pieces_eq. lia.
    + exists g, (at_holes (with_frag w g) i t hd), w'. split_and!; [done|unfold none; lia|done..].
Qed.

Lemma take_fragment_spec w rows i x opened :
  Rep w rows → 0 ≤ i < D → c_held (w_ctx w) < F → frag_ok x →
  (∀ k d t fs, tget rows i = AHolding k d t fs → opened = true → t = 0 ∧ fs = []) →
  a_state (tget rows i) = HOLDING ∨ a_state (tget rows i) = ABANDONED →
  ∃ w', take_fragment F HO w x i opened = Some w' ∧ simulates w' (a_fragment (w_io w) rows x i).
Proof.
  intros (fr & hr & R) Hi Hheld Hx Hop Hcase. pose proof Hx as (Ho & Hdl & He).
  pose proof (r_rows _ _ _ _ _ _ _ R i Hi) as Hrow. pose proof (row_ok_state _ _ _ _ _ Hrow) as Hst.
  unfold take_fragment, a_fragment. rewrite Hst.
  destruct (tget rows i) as [|k d total fs|? ? ? ? ?|k d fs|?] eqn:Ea; simpl in Hcase; try (destruct Hcase; done).
  2: { simpl. eexists; split; [done|]. split; [done|]. exists fr, hr. by apply reass_rep_io. }
  simpl. rewrite (end_spec _ _ _ _ _ _ _ _ _ R Hi Ea). simpl.
  assert (frag_end x = off x + data_len x) as -> by (unfold frag_end; rewrite u32_id; [done|wrap_unfold; lia]).
  assert (d_total_len (DGRAM w i) = total) as Htot.
  { unfold row_ok in Hrow. rewrite Hst in Hrow. simpl in Hrow. destruct Hrow as (_ & _ & _ & _ & _ & [= _ _ -> _]). done. }
  rewrite Htot. destruct (_ || _ || _) eqn:Ec.
  { destruct opened; [|eexists; split; [done|]; split; [done|by exists fr, hr]].
    exfalso. destruct (Hop _ _ _ _ eq_refl eq_refl) as [-> ->]. simpl in Ec. rewrite andb_false_r in Ec. simpl in Ec.
    destruct (mf x); [done|]. simpl in Ec. apply Z.ltb_lt in Ec. lia. }
  rewrite !orb_false_iff, !andb_false_iff, !negb_false_iff, !Z.ltb_ge, !Z.eqb_eq in Ec.
  rewrite (u32_id (off x + data_len x - 1)) by (wrap_unfold; lia).
  destruct (fills_spec _ _ _ _ _ _ _ _ _ x R Hi Ea Hx) as [-> Hos]; [lia|]. simpl.
  destruct (Z.eqb_spec (data_len x - osum (ivals fs) (off x) (off x + data_len x)) 0) as [Hz|Hz].
  { rewrite (proj2 (Z.eqb_eq _ (data_len x))) by lia. eexists; split; [done|]. split; [done|].
    exists fr, hr. by apply reass_rep_io. }
  rewrite (proj2 (Z.eqb_neq (osum (ivals fs) (off x) (off x + data_len x)) (data_len x))) by lia.
  destruct (Z.eqb_spec (osum (ivals fs) (off x) (off x + data_len x)) 0) as [Hn|Hn].
  - rewrite Hn, Z.sub_0_r, Z.eqb_refl. simpl.
    destruct (take_new w fr hr rows i k d total fs x) as (g & w2 & w' & -> & Hg & Hh & Hl & HR & Hio);
      [done..|lia| | |done|].
    { intros Hm ?. rewrite Hm in Ec. destruct Ec as [[_ [[?|?]|?]] _]; done || lia. }
    { intros Hm. rewrite Hm in Ec. destruct Ec as [_ [?|?]]; done || lia. }
    rewrite (proj2 (Z.eqb_neq g none)) by done. rewrite Hh. simpl. rewrite Hl. eexists; split; [done|].
    split; simpl; [rewrite Hio|exact HR]. unfold a_landed, taken. by destruct (a_whole _ _).
  - rewrite (proj2 (Z.eqb_neq (data_len x - _) (data_len x))) by lia. simpl.
    destruct (abandon_spec D F HO HD HF HHO w rows i k d total fs) as (w' & -> & HR & Hio); [by exists fr, hr|done..| |].
    { intros ->. done. }
    simpl. eexists; split; [done|]. split; simpl; [by rewrite Hio|].
    destruct HR as (fr' & hr' & R'). exists fr', hr'. by apply reass_rep_io.
Qed.

(** ** The row of a fragment *)
Lemma bufid_eqb_key row x : bufid_eqb row (src x) (dst x) (proto x) (id x) = bool_decide (key row = x_key x).
Proof.
  apply eq_bool_prop_intro. rewrite bool_decide_spec. unfold bufid_eqb, key, x_key.
  rewrite !andb_True, !Is_true_true, !Z.eqb_eq. split; [by intros [[[-> ->] ->] ->]|by intros [= -> -> -> ->]].
Qed.

Lemma row_ok_key w row fl hl a : row_ok w row fl hl a → ∀ k, a_key a = Some k → key row = k.
Proof. unfold row_ok. destruct (d_state row); naive_solver. Qed.

Lemma Rep_row w rows i : Rep w rows → 0 ≤ i < D →
  d_state (DGRAM w i) = a_state (tget rows i) ∧ ∀ k, a_key (tget rows i) = Some k → key (DGRAM w i) = k.
Proof.
  intros (fr & hr & R) Hi. pose proof (r_rows _ _ _ _ _ _ _ R i Hi) as Hrow.
  split; [by eapply row_ok_state|by eapply row_ok_key].
Qed.

Lemma matches_spec w rows i x : Rep w rows → 0 ≤ i < D →
  (state_eqb (d_state (DGRAM w i)) HOLDING || state_eqb (d_state (DGRAM w i)) ABANDONED) &&
    bufid_eqb (DGRAM w i) (src x) (dst x) (proto x) (id x) = a_matches x (tget rows i).
Proof.
  intros HR Hi. destruct (Rep_row _ _ _ HR Hi) as [-> Hk]. rewrite bufid_eqb_key.
  destruct (tget rows i); simpl in *; try rewrite (Hk _ eq_refl); done.
Qed.

Lemma superseded_spec w rows i x : Rep w rows → 0 ≤ i < D →
  negb (state_eqb (d_state (DGRAM w i)) FREE || state_eqb (d_state (DGRAM w i)) RECLAIM) &&
    bufid_eqb (DGRAM w i) (src x) (dst x) (proto x) (id x) = a_superseded x (tget rows i).
Proof.
  intros HR Hi. destruct (Rep_row _ _ _ HR Hi) as [-> Hk]. rewrite bufid_eqb_key. unfold a_superseded.
  destruct (tget rows i); simpl in *; try rewrite (Hk _ eq_refl); simpl; try done;
    by apply bool_decide_ext; split; [intros ->|intros [= ->]].
Qed.

Lemma reass_find_spec w rows x : Rep w rows →
  ip4_reass_find D w (src x) (dst x) (proto x) (id x) =
  default none (scan (λ i, a_matches x (tget rows i)) (Z.to_nat D) 0).
Proof.
  intros HR. unfold ip4_reass_find. f_equal. apply scan_ext. intros i Hi. apply matches_spec; [done|lia].
Qed.

Lemma free_row_spec w rows : Rep w rows →
  scan (λ i, state_eqb (d_state (DGRAM w i)) FREE) (Z.to_nat D) 0 =
  scan (λ i, state_eqb (a_state (tget rows i)) FREE) (Z.to_nat D) 0.
Proof.
  intros HR. apply scan_ext. intros i Hi. destruct (Rep_row w rows i HR) as [-> _]; [lia|done].
Qed.

(** ** A row opened by its first fragment *)
Definition open_row (row : Ip4ReassDatagram) (x : Fragment) (now h : Z) : Ip4ReassDatagram :=
  mkDatagram (src x) (dst x) (u32 (now + u32 (MAXAGE * IP4_REASS_MS_PER_S))) (id x) 0 (proto x) none h none none HOLDING.

Lemma open_spec w rows i x :
  Rep w rows → 0 ≤ i < D → a_state (tget rows i) = FREE → c_held (w_ctx w) < F →
  ∃ h, ip4_reass_hole_alloc HO w 0 IDEMIP_IP4_REASS_INFINITY = (put_hole w h (mkHole 0 65535 none HOLDING), h) ∧
    0 ≤ h < HO ∧
    Rep (put_dgram (put_hole w h (mkHole 0 65535 none HOLDING)) i (open_row (DGRAM w i) x (io_now_ms (w_io w)) h))
      (tset rows i (a_open MAXAGE (w_io w) x)).
Proof.
  intros (fr & hr & R) Hi Hfree Hheld. pose proof (r_rows _ _ _ _ _ _ _ R i Hi) as Hrow.
  pose proof (row_ok_state _ _ _ _ _ Hrow) as Hst. unfold row_ok in Hrow. rewrite Hst, Hfree in Hrow.
  destruct Hrow as (Hfr & Hhr & _).
  pose proof (r_holes _ _ _ _ _ _ _ R) as HwH. pose proof (r_dgrams _ _ _ _ _ _ _ R) as HwD.
  destruct (free_slot HO (λ k, hole_busy (HOLE w k)) (owned D hr)) as (h & Hs & Hh & Hb); [lia|..].
  { intros k Hk Hbk. apply (r_hown _ _ _ _ _ _ _ R). by rewrite HwH. }
  { pose proof (holes_le_held _ _ _ _ _ _ _ R). pose proof (r_held _ _ _ _ _ _ _ R). lia. }
  exists h. split_and!; [|lia|lia|].
  { unfold ip4_reass_hole_alloc. erewrite scan_ext with (q := λ k, negb (hole_busy (HOLE w k))); [by rewrite Hs|].
    intros j Hj. unfold hole_busy. by rewrite negb_involutive. }
  exists (<[i := []]> fr), (<[i := [h]]> hr). eapply rep_update; [exact R|done|..].
  - unfold put_dgram, DGRAM. simpl. by rewrite tget_tset_eq by lia.
  - pose proof (tframe_refl frag_busy D (w_frag w) fr i (r_fown _ _ _ _ _ _ _ R) Hi) as Hx. rewrite Hfr in Hx |- *. exact Hx.
  - exists [h]. rewrite Hhr. simpl. split_and!; [by rewrite tlen_tset| |set_solver|set_solver|..].
    + intros k Hk Hn. apply tget_tset_ne; [lia..|set_solver].
    + intros k ->%list_elem_of_singleton. split; [lia|by right].
    + intros k ->%list_elem_of_singleton. rewrite tget_tset_eq by lia. set_solver.
  - done.
  - rewrite Hfr. done.
  - unfold put_dgram, DGRAM at 2. simpl. rewrite tget_tset_eq by lia.
    unfold row_ok, links, aholes, afrags, HOLE. simpl. rewrite tget_tset_eq by lia.
    split_and!; [done| |apply gathering_open|done|lia|done|done].
    unfold chain. simpl. split_and!; [done|unfold none; lia|]. by rewrite tget_tset_eq by lia.
Qed.

Lemma hole_alloc_row w i r h :
  0 ≤ h < HO → ip4_reass_hole_alloc HO w 0 IDEMIP_IP4_REASS_INFINITY = (put_hole w h (mkHole 0 65535 none HOLDING), h) →
  ip4_reass_hole_alloc HO (put_dgram w i r) 0 IDEMIP_IP4_REASS_INFINITY =
  (put_hole (put_dgram w i r) h (mkHole 0 65535 none HOLDING), h).
Proof.
  intros Hh. unfold ip4_reass_hole_alloc.
  change (λ i0, state_eqb (h_state (HOLE (put_dgram w i r) i0)) FREE) with (λ i0, state_eqb (h_state (HOLE w i0)) FREE).
  destruct (scan _ _ _) as [k|]; [intros [= _ ->]; done|]. intros [= _ E]. unfold none in E. lia.
Qed.

(** [take_row]: the row that gathers the datagram, the first free one, or none. *)
Lemma take_row_spec w rows x :
  Rep w rows → c_held (w_ctx w) < F →
  match scan (λ i, a_matches x (tget rows i)) (Z.to_nat D) 0 with
  | Some i => take_row D HO MAXAGE w x = (w, inl (i, false))
  | None =>
      match scan (λ i, state_eqb (a_state (tget rows i)) FREE) (Z.to_nat D) 0 with
      | Some i => ∃ w', take_row D HO MAXAGE w x = (w', inl (i, true)) ∧
                    Rep w' (tset rows i (a_open MAXAGE (w_io w) x)) ∧ w_io w' = w_io w ∧ w_ctx w' = w_ctx w
      | None => take_row D HO MAXAGE w x = (set_status IDEMIP_BUSY w, inr ())
      end
  end.
Proof.
  intros HR Hheld. unfold take_row. rewrite (reass_find_spec _ _ x HR).
  destruct (scan (λ i, a_matches x (tget rows i)) _ _) as [i|] eqn:Es; simpl.
  { apply scan_Some in Es as (Hi & _). rewrite (proj2 (Z.eqb_neq i none)) by (unfold none; lia). done. }
  unfold ip4_reass_row_alloc. rewrite (free_row_spec _ _ HR).
  destruct (scan (λ i, state_eqb (a_state (tget rows i)) FREE) _ _) as [i|] eqn:Ef; simpl; [|done].
  apply scan_Some in Ef as (Hi & Hfree & _). apply bool_decide_eq_true in Hfree.
  rewrite (proj2 (Z.eqb_neq i none)) by (unfold none; lia).
  destruct (open_spec w rows i x HR) as (h & Hal & Hh & HR'); [lia|done..|].
  assert (tlen (w_dgram w) = D) as HwD by (destruct HR as (? & ? & R); apply R).
  rewrite (hole_alloc_row _ _ _ h) by done. rewrite (proj2 (Z.eqb_neq h none)) by (unfold none; lia).
  eexists; split; [reflexivity|]. split_and!; [|done..].
  match goal with |- Rep ?a _ => match type of HR' with Rep ?b _ => replace a with b; [exact HR'|] end end.
  apply Work_ext; try done. unfold put_dgram, put_hole, DGRAM. simpl.
  repeat (first [rewrite tget_tset_eq by (rewrite ?tlen_tset; lia)|rewrite tset_tset_eq]). done.
Qed.

(** ** A whole datagram of the same identifier *)
Lemma flush_bufid_spec n w rows x first i :
  Rep w rows → 0 ≤ i → i + Z.of_nat n = D →
  ∃ w' rows', flush_bufid_loop HO n w (src x) (dst x) (proto x) (id x) first i =
      Some (w', if first =? none then default none (scan (λ j, a_superseded x (tget rows j)) n i) else first) ∧
    Rep w' rows' ∧ w_io w' = w_io w ∧
    ∀ j, 0 ≤ j < D → tget rows' j = if (i <=? j) && a_superseded x (tget rows j) then a_flush (tget rows j) else tget rows j.
Proof.
  revert w rows first i. induction n as [|n IH]; intros w rows first i HR Hi Hn.
  - exists w, rows. simpl. split_and!; [by destruct (Z.eqb_spec first none) as [->|]|done..|].
    intros j Hj. by rewrite (proj2 (Z.leb_gt i j)) by lia.
  - cbn [flush_bufid_loop scan]. pose proof (superseded_spec w rows i x HR) as Hs. rewrite <- Hs by lia.
    destruct (state_eqb (d_state (DGRAM w i)) FREE || state_eqb (d_state (DGRAM w i)) RECLAIM) eqn:E1; simpl in *.
    { destruct (IH w rows first (i + 1)) as (w' & rows' & -> & HR' & Hio & Hr); [done|lia..|].
      exists w', rows'. split_and!; [done..|]. intros j Hj. rewrite Hr by done.
      destruct (decide (i = j)) as [<-|]; [rewrite <- Hs by lia; by rewrite !andb_false_r|].
      destruct (Z.leb_spec (i + 1) j), (Z.leb_spec i j); done || lia. }
    destruct (bufid_eqb (DGRAM w i) (src x) (dst x) (proto x) (id x)) eqn:E2; simpl.
    2: { destruct (IH w rows first (i + 1)) as (w' & rows' & -> & HR' & Hio & Hr); [done|lia..|].
      exists w', rows'. split_and!; [done..|]. intros j Hj. rewrite Hr by done.
      destruct (decide (i = j)) as [<-|]; [rewrite <- Hs by lia; by rewrite !andb_false_r|].
      destruct (Z.leb_spec (i + 1) j), (Z.leb_spec i j); done || lia. }
    rewrite (u8_id i) by (wrap_unfold; lia). apply orb_false_iff in E1 as [E1 _]. apply bool_decide_eq_false in E1.
    destruct (flush_spec D F HO HD HF HHO w rows i HR) as (w1 & -> & HR1 & Hio1); [lia|done|]. simpl.
    assert (tlen rows = D) as HwR by (destruct HR as (? & ? & R); apply R).
    destruct (IH w1 _ (if first =? none then i else first) (i + 1) HR1) as (w' & rows' & -> & HR' & Hio & Hr); [lia..|].
    exists w', rows'. split_and!; [|done|congruence|].
    + destruct (Z.eqb_spec first none) as [->|Hf]; simpl.
      * by rewrite (proj2 (Z.eqb_neq i none)) by (unfold none; lia).
      * by rewrite (proj2 (Z.eqb_neq first none)).
    + intros j Hj. rewrite Hr by done. destruct (decide (i = j)) as [<-|Hne].
      * rewrite (proj2 (Z.leb_gt _ _)), (proj2 (Z.leb_le _ _)), <- Hs by lia. simpl. by rewrite tget_tset_eq by lia.
      * rewrite tget_tset_ne by lia. destruct (Z.leb_spec (i + 1) j), (Z.leb_spec i j); done || lia.
Qed.

(** ** The entries *)
Lemma Rep_io f w rows : Rep w rows → Rep (set_io f w) rows.
Proof. intros (fr & hr & R). exists fr, hr. by apply reass_rep_io. Qed.

Lemma Rep_lens w rows : Rep w rows →
  tlen (w_dgram w) = D ∧ tlen rows = D ∧ c_held (w_ctx w) = a_held rows ∧ c_ready (w_ctx w) = IP4_REASS_READY.
Proof.
  intros (fr & hr & R). split_and!; [apply R|apply R| |apply R]. eapply rep_held; [exact R|lia].
Qed.

Lemma take_held_spec w rows x :
  Rep w rows → 20 ≤ hdr_len x ≤ 60 → 0 ≤ off x ≤ 65528 → 0 ≤ data_len x < 65536 →
  ∃ w', take_held D F HO MAXAGE w x = Some w' ∧ simulates w' (a_take D F MAXAGE (w_io w) rows x).
Proof.
  intros HR Hh Ho Hd. destruct (Rep_lens _ _ HR) as (_ & HlR & Hheld & _). unfold take_held, a_take.
  destruct ((off x =? 0) && negb (mf x)).
  { unfold ip4_reass_flush_bufid.
    destruct (flush_bufid_spec (Z.to_nat D) w rows x none 0 HR) as (w' & rows' & -> & HR' & Hio & Hr); [lia..|]. simpl.
    assert (rows' = map (λ r, if a_superseded x r then a_flush r else r) rows) as Er.
    { destruct (Rep_lens _ _ HR') as (_ & HlR' & _). apply tget_ext.
      - unfold tlen in *. rewrite length_map. lia.
      - intros j Hj. rewrite Hr, tget_map by lia. by rewrite (proj2 (Z.leb_le 0 j)) by lia. }
    rewrite <- Er. destruct (scan _ _ _) as [i|] eqn:Es; simpl.
    - apply scan_Some in Es as (Hi & _). rewrite (proj2 (Z.eqb_neq i none)) by (unfold none; lia).
      eexists; split; [done|]. split; simpl; [|by do 2 apply Rep_io].
      unfold DGRAM. simpl. destruct (Rep_row w' rows' i HR') as [Hst _]; [lia|].
      unfold DGRAM in Hst. rewrite Hst, Hio. done.
    - eexists; split; [done|]. split; simpl; [by rewrite Hio|by apply Rep_io]. }
  destruct ((data_len x =? 0) || _) eqn:E0; [eexists; split; [done|by split]|].
  apply orb_false_iff in E0 as [E0%Z.eqb_neq _].
  rewrite (u32_id (off x + data_len x)) by (wrap_unfold; lia). rewrite u32_id by (wrap_unfold; lia).
  destruct (Z.ltb_spec IDEMIP_IP4_TOTAL_LEN_MAX (off x + data_len x + hdr_len x)) as [|Hmax];
    [eexists; split; [done|by split]|]. unfold IDEMIP_IP4_TOTAL_LEN_MAX in Hmax.
  rewrite Hheld. destruct (Z.leb_spec F (a_held rows)) as [|Hlt].
  { eexists; split; [done|]. split; [done|]. by apply Rep_io. }
  assert (frag_ok x) as Hok by (unfold frag_ok; lia).
  pose proof (take_row_spec w rows x HR ltac:(lia)) as Ht.
  destruct (scan (λ i, a_matches x (tget rows i)) _ _) as [i|] eqn:Es.
  { rewrite Ht. apply scan_Some in Es as (Hi & Hm & _).
    apply take_fragment_spec; [done|lia|lia|done|done|].
    destruct (tget rows i); simpl in *; try done; [by left|by right]. }
  destruct (scan (λ i, state_eqb (a_state (tget rows i)) FREE) _ _) as [i|] eqn:Ef.
  - destruct Ht as (w1 & -> & HR1 & Hio & Hctx). rewrite <- Hio. apply scan_Some in Ef as (Hi & _).
    rewrite Hio. rewrite <- Hio. apply take_fragment_spec; [by rewrite Hio|lia|rewrite Hctx; lia|done|..].
    + rewrite tget_tset_eq by lia. unfold a_open. intros k d t fs [= _ _ <- <-] _. done.
    + rewrite tget_tset_eq by lia. by left.
  - rewrite Ht. eexists; split; [done|]. split; [done|]. by apply Rep_io.
Qed.

Lemma state_eqb_spec a b : state_eqb a b = true ↔ a = b.
Proof. unfold state_eqb. apply bool_decide_eq_true. Qed.

Definition io_ok (io : Ip4ReassIo) : Prop :=
  is_u8 (next_index io) ∧ is_u8 (release_index io) ∧ (∀ h, a_hdr (hold_args io) = Some h → Checksum.octets h).

Lemma hold_refines w rows :
  Rep w rows → io_ok (w_io w) →
  ∃ w', idemip_ip4_reass_hold D F HO MAXAGE word swap w = Some w' ∧
        simulates w' (a_hold D F MAXAGE word swap (w_io w, rows)).
Proof.
  intros HR (_ & _ & Hoct). destruct (Rep_lens _ _ HR) as (_ & _ & _ & Hrdy).
  unfold idemip_ip4_reass_hold, ip4_reass_ready. simpl. rewrite Hrdy, Z.eqb_refl.
  unfold ip4_reass_take. simpl. destruct (a_hdr (hold_args (w_io w))) as [h|] eqn:Eh.
  2: { eexists; split; [done|]. split; [done|]. by apply Rep_io. }
  case_decide as Hv; [|eexists; split; [done|]; split; [done|]; by apply Rep_io].
  apply ip4_verify_ok in Hv as (Hhl & _ & _ & _); [|by apply Hoct]. unfold IDEMIP_IPV4_HDR_LEN in Hhl.
  apply take_held_spec; [by apply Rep_io|..]; simpl.
  - rewrite u8_id by (wrap_unfold; lia). lia.
  - apply ip4_frag_offset_eq.
  - unfold ip4_payload_len. pose proof (u16_range (ip4_total_len h - u16 (ip4_hdr_len h))). wrap_unfold. lia.
Qed.

Lemma release_refines w rows :
  Rep w rows → io_ok (w_io w) →
  ∃ w', idemip_ip4_reass_release D HO w = Some w' ∧ simulates w' (a_release D (w_io w, rows)).
Proof.
  intros HR (_ & Hri & _). destruct (Rep_lens _ _ HR) as (_ & _ & _ & Hrdy).
  unfold idemip_ip4_reass_release, ip4_reass_ready. simpl. rewrite Hrdy, Z.eqb_refl. unfold ip4_reass_done. simpl.
  destruct (Z.leb_spec D (release_index (w_io w))) as [|Hlt].
  { eexists; split; [done|]. split; [done|]. by apply Rep_io. }
  unfold is_u8 in Hri. set (i := release_index (w_io w)) in *.
  destruct (Rep_row w rows i HR) as [Hst _]; [lia|].
  match goal with |- context [DGRAM ?w1 i] => change (DGRAM w1 i) with (DGRAM w i) end.
  assert (negb (state_eqb (d_state (DGRAM w i)) HOLDING) && negb (state_eqb (d_state (DGRAM w i)) COMPLETE) &&
          negb (state_eqb (d_state (DGRAM w i)) ABANDONED) = negb (a_live (tget rows i))) as ->.
  { rewrite Hst. by destruct (tget rows i). }
  destruct (a_live (tget rows i)) eqn:El; simpl; [|eexists; split; [done|]; split; [done|]; by apply Rep_io].
  match goal with |- context [ip4_reass_flush HO ?w1 i] =>
    destruct (flush_spec D F HO HD HF HHO w1 rows i) as (w' & -> & HR' & Hio) end; [by apply Rep_io|lia| |].
  { change (d_state (DGRAM w i) ≠ FREE). rewrite Hst. by destruct (tget rows i). }
  simpl. eexists; split; [done|]. split; simpl; [|by do 2 apply Rep_io].
  destruct (Rep_row _ _ i HR') as [-> _]; [lia|]. rewrite tget_tset_eq by (destruct (Rep_lens _ _ HR); lia).
  by rewrite Hio.
Qed.

Lemma reass_tick_refines w rows :
  Rep w rows → ∃ w', idemip_ip4_reass_tick D HO w = Some w' ∧ simulates w' (a_tick D (w_io w, rows)).
Proof.
  intros HR. destruct (Rep_lens _ _ HR) as (_ & HlR & _ & Hrdy).
  unfold idemip_ip4_reass_tick, ip4_reass_ready. simpl. rewrite Hrdy, Z.eqb_refl. unfold ip4_reass_expire. simpl.
  set (w1 := set_io _ w). assert (Rep w1 rows) as HR1 by (by apply Rep_io).
  assert (∀ i, 0 ≤ i < D → d_state (DGRAM w i) = a_state (tget rows i) ∧
     (a_live (tget rows i) = true → d_deadline_ms (DGRAM w i) = a_deadline (tget rows i))) as Hrow.
  { intros i Hi. destruct HR as (fr & hr & R). pose proof (r_rows _ _ _ _ _ _ _ R i Hi) as Hr.
    split; [by eapply row_ok_state|]. unfold row_ok in Hr. destruct (tget rows i), (d_state (DGRAM w i)); try done; naive_solver. }
  erewrite scan_ext with (q := λ i, a_expired (io_now_ms (w_io w)) (tget rows i)).
  2: { intros i Hi. change (DGRAM w1 i) with (DGRAM w i). destruct (Hrow i) as [-> Hdl]; [lia|]. unfold a_expired.
       destruct (tget rows i) eqn:Ea; simpl in *; try done; by rewrite Hdl. }
  destruct (scan _ _ _) as [i|] eqn:Es.
  2: { eexists; split; [done|]. split; [done|]. by apply Rep_io. }
  apply scan_Some in Es as (Hi & Hex & _). unfold a_expired in Hex. apply andb_true_iff in Hex as [Hlive _].
  rewrite (u8_id i) by (wrap_unfold; lia). change (DGRAM w1 i) with (DGRAM w i). destruct (Hrow i) as [Hst _]; [lia|].
  match goal with |- context [ip4_reass_flush HO ?w2 i] =>
    destruct (flush_spec D F HO HD HF HHO w2 rows i) as (w' & -> & HR' & Hio) end; [by apply Rep_io|lia| |].
  { change (d_state (DGRAM w i) ≠ FREE). rewrite Hst. by destruct (tget rows i). }
  simpl. eexists; split; [done|]. split; simpl; [|by do 2 apply Rep_io].
  destruct (Rep_row _ _ i HR') as [-> _]; [lia|]. rewrite tget_tset_eq by lia. rewrite Hio. simpl.
  destruct HR as (fr & hr & R). pose proof (r_rows _ _ _ _ _ _ _ R i ltac:(lia)) as Hr.
  assert ((if state_eqb (d_state (DGRAM w i)) ABANDONED then 0 else d_src (DGRAM w i)) = a_src (tget rows i) ∧
    negb (state_eqb (d_state (DGRAM w i)) ABANDONED) && negb (d_first_frag (DGRAM w i) =? none) = a_frag_zero (tget rows i))
    as [-> ->]; [|done].
  unfold row_ok in Hr. destruct (d_state (DGRAM w i)); simpl; destruct (tget rows i); try done; naive_solver.
Qed.

(** Only the row itself changes. *)
Lemma rep_row_only w fr hr rows i row a :
  rep w fr hr rows → 0 ≤ i < D → row_ok w row (fr i) (hr i) a → Rep (put_dgram w i row) (tset rows i a).
Proof.
  intros R Hi Hrow. exists (<[i := fr i]> fr), (<[i := hr i]> hr).
  pose proof (r_dgrams _ _ _ _ _ _ _ R) as HwD.
  assert (DGRAM (put_dgram w i row) i = row) as Er by (unfold DGRAM, put_dgram; simpl; by rewrite tget_tset_eq by lia).
  eapply rep_update; [exact R|done|rewrite Er; done| | |done|done|rewrite Er; exact Hrow].
  - by eapply tframe_refl; [apply R|].
  - by eapply tframe_refl; [apply R|].
Qed.

Lemma Rep_ext w w' rows :
  w_ctx w' = w_ctx w → w_dgram w' = w_dgram w → w_frag w' = w_frag w → w_hole w' = w_hole w → Rep w rows → Rep w' rows.
Proof.
  intros E1 E2 E3 E4 (fr & hr & R). exists fr, hr. destruct w as [io ctx dg fg hg], w' as [io' ctx' dg' fg' hg']. simpl in *.
  subst. by apply (reass_rep_io _ _ _ (λ _, io')) in R.
Qed.

(** What [ip4_reass_report] makes of a row, by its state. *)
Lemma report_complete w i :
  next_index (w_io w) = i → i < D → d_state (DGRAM w i) = COMPLETE →
  let w' := ip4_reass_report D w in
  w_ctx w' = w_ctx w ∧ w_frag w' = w_frag w ∧ w_hole w' = w_hole w ∧
  w_dgram w' = tset (w_dgram w) i ((DGRAM w i) <| d_cursor :=
    if d_cursor (DGRAM w i) =? none then d_frag_head (DGRAM w i) else f_next (FRAG w (d_cursor (DGRAM w i))) |>) ∧
  w_io w' = if d_cursor (DGRAM w i) =? none then a_status IDEMIP_BUSY (a_report i COMPLETE (w_io w))
            else let a := afrag (FRAG w (d_cursor (DGRAM w i))) in
                 (a_report i COMPLETE (w_io w)) <| io_off := a_off a |> <| io_len := a_flen a |>
                    <| io_desc := a_desc' a |> <| io_hdr_len := a_hdr_len a |> <| io_status := IDEMIP_OK |>.
Proof.
  intros Hi Hlt Hst. unfold ip4_reass_report. rewrite Hi. rewrite (proj2 (Z.leb_gt D i)) by done. rewrite Hst. simpl.
  destruct (d_cursor (DGRAM w i) =? none); simpl; by split_and!.
Qed.

Lemma next_complete w rows i k d t fs cur :
  Rep w rows → 0 ≤ i < D → tget rows i = AComplete k d t fs cur →
  d_state (DGRAM w i) = COMPLETE ∧
  (d_cursor (DGRAM w i) =? none) = (match cur with [] => true | _ => false end) ∧
  (∀ a rest, cur = a :: rest → afrag (FRAG w (d_cursor (DGRAM w i))) = a) ∧
  ∀ c, c = (if d_cursor (DGRAM w i) =? none then d_frag_head (DGRAM w i) else f_next (FRAG w (d_cursor (DGRAM w i)))) →
  Rep (put_dgram w i ((DGRAM w i) <| d_cursor := c |>))
    (tset rows i (AComplete k d t fs (match cur with [] => fs | _ :: rest => rest end))).
Proof.
  intros (fr & hr & R) Hi Ea. pose proof (r_rows _ _ _ _ _ _ _ R i Hi) as Hrow.
  pose proof (row_ok_state _ _ _ _ _ Hrow) as Hst. rewrite Ea in Hst, Hrow. simpl in Hst.
  unfold row_ok in Hrow. rewrite Hst in Hrow.
  destruct Hrow as (Hl & G & Hhr & Hne & Hz & l1 & l2 & Hfl & Hcur & [= Ek Ed Et Efs Ecu]). split; [done|].
  rewrite Hcur. destruct l2 as [|j l2]; simpl in *; subst cur.
  - split_and!; [done..|]. intros c ->. eapply rep_row_only; [exact R|done|].
    unfold row_ok. simpl. rewrite Hst. split_and!; [done..|]. exists [], (fr i). split_and!; [done| |by subst].
    simpl. eapply chain_head, Hl.
  - assert (0 ≤ j < F) as Hj by (eapply (rep_frag_range _ _ _ _ _ _ _ i); [exact R|done|rewrite Hfl; set_solver]).
    rewrite (proj2 (Z.eqb_neq j none)) by (unfold none; lia).
    split_and!; [done|by intros a rest [= <- <-]|]. intros c ->. eapply rep_row_only; [exact R|done|].
    unfold row_ok. simpl. rewrite Hst. split_and!; [done..|]. exists (l1 ++ [j]), l2.
    split_and!; [by rewrite <- (assoc_L (++))| |by subst].
    destruct Hl as [Hcf _]. rewrite Hfl in Hcf. by destruct (chain_suffix _ _ _ _ _ _ Hcf) as [_ Hnx].
Qed.

Lemma next_refines w rows :
  Rep w rows → is_u8 (next_index (w_io w)) → simulates (idemip_ip4_reass_next D w) (a_next D (w_io w, rows)).
Proof.
  intros HR Hni. destruct (Rep_lens _ _ HR) as (_ & _ & _ & Hrdy).
  unfold idemip_ip4_reass_next, ip4_reass_ready. set (w1 := set_io _ w).
  assert (Rep w1 rows) as HR1 by (by apply Rep_io).
  change (c_ready (w_ctx w1)) with (c_ready (w_ctx w)). rewrite Hrdy, Z.eqb_refl. unfold a_next.
  change ((w_io w) <| io_status := IDEMIP_ERR |> <| io_off := 0 |> <| io_len := 0 |> <| io_desc := 0 |>
               <| io_hdr_len := 0 |> <| io_index := IP4_REASS_NONE |> <| io_state := FREE |>) with (w_io w1).
  unfold is_u8 in Hni. change (next_index (w_io w)) with (next_index (w_io w1)) in Hni. clearbody w1. clear HR Hrdy w.
  destruct (Z.leb_spec D (next_index (w_io w1))) as [Hle|Hlt].
  { unfold ip4_reass_report. by rewrite (proj2 (Z.leb_le _ _)). }
  set (i := next_index (w_io w1)) in *. destruct (Rep_row _ _ i HR1) as [Hst _]; [lia|].
  destruct (tget rows i) as [|k d t fs|k d t fs cur|k d fs|fs] eqn:Ea; simpl in Hst.
  3: { destruct (next_complete w1 rows i k d t fs cur) as (_ & Hc & Hv & HR2); [done|lia|done|].
       destruct (report_complete w1 i) as (E1 & E2 & E3 & E4 & E5); [done..|].
       split; [|eapply Rep_ext in HR2; [|exact E1|exact E4|exact E2|exact E3|reflexivity]].
       - rewrite E5, Hc. destruct cur as [|a rest]; [done|]. cbv zeta. by rewrite (Hv a rest eq_refl).
       - destruct cur; exact HR2. }
  all: unfold ip4_reass_report; rewrite (proj2 (Z.leb_gt _ _)) by done; fold i; rewrite Hst; simpl; split;
    [done|by repeat apply Rep_io].
Qed.

(** ** Reclaim *)
Lemma tframe_unpin w fr hr rows i j rest :
  rep w fr hr rows → 0 ≤ i < D → fr i = j :: rest → j ∉ rest →
  tframe frag_busy (w_frag w) (tset (w_frag w) j ((FRAG w j) <| f_state := FREE |> <| f_next := none |>)) (fr i) rest.
Proof.
  intros R Hi Hfl Hj.
  assert (∀ k, k ∈ fr i → 0 ≤ k < tlen (w_frag w) ∧ frag_busy (tget (w_frag w) k) = true) as Hr.
  { intros k Hk. eapply (owner_list frag_busy D); [apply R|done..]. }
  destruct (Hr j) as [Hjr _]; [rewrite Hfl; left|].
  exists (fr i). split_and!; [by rewrite tlen_tset| |done|rewrite Hfl; set_solver|..].
  - intros k Hk Hn. apply tget_tset_ne; [lia..|]. intros ->. apply Hn. rewrite Hfl. left.
  - intros k Hk. split; [by apply Hr|by left].
  - intros k Hk. destruct (Hr k Hk) as [Hkr Hb]. destruct (decide (k = j)) as [->|Hne].
    + rewrite tget_tset_eq by lia. done.
    + rewrite tget_tset_ne by lia. rewrite Hb. rewrite Hfl, elem_of_cons in Hk. tauto.
Qed.

(** The row [unpin_row] leaves, once its first fragment has gone back. *)
Definition unpinned (row : Ip4ReassDatagram) (next : Z) : Ip4ReassDatagram :=
  let row := row <| d_frag_head := next |> in
  if next =? none then row <| d_state := FREE |> <| d_first_frag := none |> <| d_total_len := 0 |> else row.

Lemma unpin_row_eq w i j :
  d_frag_head (DGRAM w i) = j → is_u8 i → 0 < c_held (w_ctx w) < 256 →
  let w' := unpin_row w i in
  w_ctx w' = (w_ctx w) <| c_held := c_held (w_ctx w) - 1 |> ∧
  w_dgram w' = tset (w_dgram w) i (unpinned (DGRAM w i) (f_next (FRAG w j))) ∧
  w_frag w' = tset (w_frag w) j ((FRAG w j) <| f_state := FREE |> <| f_next := none |>) ∧
  w_hole w' = w_hole w ∧
  w_io w' = (w_io w) <| io_desc := f_desc (FRAG w j) |> <| io_len := f_len (FRAG w j) |> <| io_index := i |>
              <| io_status := IDEMIP_OK |>.
Proof.
  intros <- Hi Hh. unfold unpin_row, unpinned. simpl. rewrite (proj2 (Z.eqb_neq (c_held (w_ctx w)) 0)) by lia. simpl.
  rewrite (u8_id i) by done. rewrite (u8_id (c_held (w_ctx w) - 1)) by (wrap_unfold; lia).
  destruct (f_next (FRAG w (d_frag_head (DGRAM w i))) =? none); simpl; rewrite ?tset_tset_eq; by split_and!.
Qed.

Lemma unpinned_ok w' row j rest fs :
  chain none (λ k, f_next (FRAG w' k)) (f_next j) rest → d_state row = RECLAIM → d_hole_head row = none →
  afrags w' rest = fs →
  row_ok w' (unpinned row (f_next j)) rest [] (match rest with [] => AFree | _ => AReclaim fs end).
Proof.
  intros Hc Hst Hh <-. unfold unpinned. destruct rest as [|k rest].
  - unfold chain in Hc. simpl in Hc. rewrite Hc. by rewrite Z.eqb_refl.
  - rewrite (proj2 (Z.eqb_neq (f_next j) none)) by (destruct Hc as (-> & Hk & _); exact Hk).
    unfold row_ok. simpl. rewrite Hst. split_and!; [|done..]. split; [exact Hc|]. simpl. by rewrite Hh.
Qed.

Lemma unpin_spec w rows i :
  Rep w rows → 0 ≤ i < D → a_state (tget rows i) = RECLAIM →
  ∃ a rest, a_frags (tget rows i) = a :: rest ∧
    Rep (unpin_row w i) (tset rows i (match rest with [] => AFree | _ => AReclaim rest end)) ∧
    w_io (unpin_row w i) = (w_io w) <| io_desc := a_desc' a |> <| io_len := a_flen a |> <| io_index := i |>
                             <| io_status := IDEMIP_OK |>.
Proof.
  intros (fr & hr & R) Hi Hm. pose proof (r_rows _ _ _ _ _ _ _ R i Hi) as Hrow.
  pose proof (row_ok_state _ _ _ _ _ Hrow) as Hst. pose proof (row_ok_frags _ _ _ _ _ Hrow) as Hfs.
  unfold row_ok in Hrow. rewrite Hst, Hm in Hrow. destruct Hrow as ([Hcf Hch] & Hhr & Hne & _).
  destruct (fr i) as [|j rest] eqn:Hfl; [done|]. rewrite Hhr in Hch. rewrite Hm in Hst.
  pose proof (chain_NoDup _ _ _ _ Hcf) as [Hjn _]%NoDup_cons. destruct Hcf as (Hjh & Hjne & Hcf).
  pose proof (r_held _ _ _ _ _ _ _ R) as Hcnt. pose proof (owned_length D fr i rest Hi) as Hol.
  rewrite Hfl in Hol. simpl in Hol.
  assert (Z.of_nat (length (owned D fr)) ≤ F) as Hcf'.
  { rewrite <- (r_frags _ _ _ _ _ _ _ R). destruct (r_fown _ _ _ _ _ _ _ R) as [Hnd Hin].
    apply NoDup_range_length; [unfold tlen; lia|done|]. apply Forall_forall. intros k Hk. by apply Hin. }
  destruct (unpin_row_eq w i j Hjh) as (E1 & E2 & E3 & E4 & E5); [unfold is_u8; lia|lia|].
  set (w' := unpin_row w i) in *. pose proof (r_dgrams _ _ _ _ _ _ _ R) as HwD.
  assert (∀ k, k ∈ rest → FRAG w' k = FRAG w k) as Hkeep.
  { intros k Hk. unfold FRAG. rewrite E3. apply tget_tset_ne; [..|by intros ->];
      eapply (rep_frag_range _ _ _ _ _ _ _ i); try exact R; try done; rewrite Hfl, elem_of_cons; auto. }
  assert (DGRAM w' i = unpinned (DGRAM w i) (f_next (FRAG w j))) as Er.
  { unfold DGRAM at 1. rewrite E2. by rewrite tget_tset_eq by lia. }
  exists (afrag (FRAG w j)), (afrags w rest). split_and!; [done| |done].
  exists (<[i := rest]> fr), (<[i := hr i]> hr). eapply rep_update; [exact R|done|rewrite Er; exact E2|..].
  - rewrite E3. by eapply tframe_unpin.
  - rewrite E4. by eapply tframe_refl; [apply R|].
  - by rewrite E1.
  - rewrite E1, Hfl. simpl. lia.
  - rewrite Er, Hhr. pose proof (unpinned_ok w' (DGRAM w i) (FRAG w j) rest (afrags w rest)) as Hok.
    unfold afrags at 2 in Hok. destruct rest; apply Hok; try done; try (by apply map_tget_ext);
      (eapply chain_ext; [|exact Hcf]); intros k Hk; simpl; by rewrite Hkeep.
Qed.

Lemma reclaim_refines w rows :
  Rep w rows → simulates (idemip_ip4_reass_reclaim D w) (a_reclaim D (w_io w, rows)).
Proof.
  intros HR. destruct (Rep_lens _ _ HR) as (_ & _ & _ & Hrdy).
  unfold idemip_ip4_reass_reclaim, ip4_reass_ready. set (w1 := set_io _ w).
  assert (Rep w1 rows) as HR1 by (by apply Rep_io).
  change (c_ready (w_ctx w1)) with (c_ready (w_ctx w)). rewrite Hrdy, Z.eqb_refl. unfold a_reclaim.
  change ((w_io w) <| io_status := IDEMIP_ERR |> <| io_desc := 0 |> <| io_len := 0 |> <| io_index := IP4_REASS_NONE |>)
    with (w_io w1). clearbody w1. clear HR Hrdy w. unfold ip4_reass_unpin.
  erewrite scan_ext with (q := λ i, state_eqb (a_state (tget rows i)) RECLAIM).
  2: { intros i Hi. destruct HR1 as (fr & hr & R). pose proof (r_rows _ _ _ _ _ _ _ R i ltac:(lia)) as Hrow.
    pose proof (row_ok_state _ _ _ _ _ Hrow) as Hst. rewrite Hst.
    destruct (state_eqb (a_state (tget rows i)) RECLAIM) eqn:E; [|done]. simpl. apply state_eqb_spec in E.
    unfold row_ok in Hrow. rewrite Hst, E in Hrow. destruct Hrow as ([Hcf _] & _ & Hne & _).
    apply negb_true_iff, Z.eqb_neq. intros Hn. by apply (chain_nil _ _ _ _ Hcf) in Hn. }
  destruct (scan _ _ _) as [i|] eqn:Es; [|split; [done|]; by apply Rep_io].
  apply scan_Some in Es as (Hi & Hm & _). apply state_eqb_spec in Hm.
  destruct (unpin_spec w1 rows i HR1) as (a & rest & -> & HR2 & Hio); [lia|done|]. by split.
Qed.

Lemma reass_clear_refines w rows : simulates (idemip_ip4_reass_clear D F HO w) (a_clear D (w_io w, rows)).
Proof.
  split; [done|]. unfold idemip_ip4_reass_clear. apply Rep_io. exists (λ _, []), (λ _, []).
  assert (owned D (λ _, [] : list Z) = []) as Ho.
  { unfold owned. induction (seqZ 0 D) as [|j l IH]; [done|]. by rewrite bind_cons, IH. }
  split; simpl; unfold tlen; rewrite ?length_replicate; try lia; try done.
  - intros i Hi. unfold DGRAM. simpl. rewrite !tget_replicate by lia. done.
  - rewrite Ho. split; [constructor|]. intros k. split; [by intros ?%elem_of_nil|]. intros [Hk Hb].
    rewrite tget_replicate in Hb by lia. done.
  - rewrite Ho. split; [constructor|]. intros k. split; [by intros ?%elem_of_nil|]. intros [Hk Hb].
    rewrite tget_replicate in Hb by lia. done.
  - by rewrite Ho.
Qed.
End Unit.
End Ip4ReassRefine.
