(* ===== verification/Ip4ReassThms.v ===== *)
(** * IPv4 reassembly: the theorems

    What holds of the unit on every sequence of calls from a cleared borrow: it reports what the abstract
    reassembler reports, a datagram it calls complete is handed on end to end, every descriptor it pins is
    given back exactly once, and it is BUSY only when one of the two tables its caller can drain is full. *)
From Stdlib Require Import Sorted.
From stdpp Require Import functions.
From S2P Require Import Prelude Base Chain Ipv4 Cover Ip4Reass Ip4ReassSpec Ip4ReassRep Ip4ReassProof Ip4ReassTake Ip4ReassRefine.

Module Ip4ReassThms.
Import Ipv4 Ip4Reass Ip4ReassSpec Ip4ReassHoles Ip4ReassRep Ip4ReassProof Ip4ReassTake Ip4ReassRefine.
Local Abbreviation none := IP4_REASS_NONE.

(** ** Sequences of calls

    A call is the entry and the operand block the caller left for it. *)
Inductive op : Type := OClear | OHold | ONext | ORelease | OReclaim | OTick.

Record config := mkConfig {
  cf_datagrams : Z;
  cf_frags : Z;
  cf_holes : Z;
  cf_maxage_s : Z;
  cf_word : option nat;
  cf_swap : bool }.

(** What idemip_config.h and ip4_reass.h assert of the counts. *)
Definition config_ok (c : config) : Prop :=
  0 ≤ cf_datagrams c < 255 ∧ 0 ≤ cf_frags c < 255 ∧ cf_datagrams c + cf_frags c ≤ cf_holes c < 255.

Section Calls.
Variable c : config.

Definition call (o : op) (w : Work) : option Work :=
  match o with
  | OClear => Some (idemip_ip4_reass_clear (cf_datagrams c) (cf_frags c) (cf_holes c) w)
  | OHold => idemip_ip4_reass_hold (cf_datagrams c) (cf_frags c) (cf_holes c) (cf_maxage_s c) (cf_word c) (cf_swap c) w
  | ONext => Some (idemip_ip4_reass_next (cf_datagrams c) w)
  | ORelease => idemip_ip4_reass_release (cf_datagrams c) (cf_holes c) w
  | OReclaim => Some (idemip_ip4_reass_reclaim (cf_datagrams c) w)
  | OTick => idemip_ip4_reass_tick (cf_datagrams c) (cf_holes c) w
  end.

Definition a_call (o : op) : AState → AState :=
  match o with
  | OClear => a_clear (cf_datagrams c)
  | OHold => a_hold (cf_datagrams c) (cf_frags c) (cf_maxage_s c) (cf_word c) (cf_swap c)
  | ONext => a_next (cf_datagrams c)
  | ORelease => a_release (cf_datagrams c)
  | OReclaim => a_reclaim (cf_datagrams c)
  | OTick => a_tick (cf_datagrams c)
  end.

(** The operand blocks the calls leave, and the borrow after the last one. *)
Fixpoint run (calls : list (Ip4ReassIo * op)) (w : Work) : option (list Ip4ReassIo * Work) :=
  match calls with
  | [] => Some ([], w)
  | (io, o) :: calls' =>
      w1 ← call o (w <| w_io := io |>);
      '(obs, w2) ← run calls' w1;
      Some (w_io w1 :: obs, w2)
  end.

Fixpoint a_run (calls : list (Ip4ReassIo * op)) (rows : list ARow) : list Ip4ReassIo * list ARow :=
  match calls with
  | [] => ([], rows)
  | (io, o) :: calls' =>
      let s := a_call o (io, rows) in
      let '(obs, rows') := a_run calls' s.2 in
      (s.1 :: obs, rows')
  end.

Definition calls_ok (calls : list (Ip4ReassIo * op)) : Prop := Forall (λ p, io_ok p.1) calls.

Local Abbreviation Rep := (Rep (cf_datagrams c) (cf_frags c) (cf_holes c)).
Local Abbreviation simulates := (simulates (cf_datagrams c) (cf_frags c) (cf_holes c)).

Lemma reass_call_refines o w rows : config_ok c → Rep w rows → io_ok (w_io w) →
  ∃ w', call o w = Some w' ∧ simulates w' (a_call o (w_io w, rows)).
Proof.
  intros (HD & HF & HH) HR Hio. destruct o; cbv beta iota delta [call a_call].
  - eexists; split; [reflexivity|]. by apply reass_clear_refines.
  - by apply hold_refines.
  - eexists; split; [reflexivity|]. by apply next_refines; [..|apply Hio].
  - by apply release_refines.
  - eexists; split; [reflexivity|]. by apply reclaim_refines.
  - by apply reass_tick_refines.
Qed.

Lemma Rep_set_io w rows io : Rep w rows → Rep (w <| w_io := io |>) rows.
Proof. intros HR. exact (Rep_io _ _ _ (λ _, io) w rows HR). Qed.

Lemma reass_run_refines calls w rows : config_ok c → Rep w rows → calls_ok calls →
  ∃ w', run calls w = Some ((a_run calls rows).1, w') ∧ Rep w' (a_run calls rows).2.
Proof.
  intros Hc. revert w rows. induction calls as [|[io o] calls IH]; intros w rows HR Hok.
  - by exists w.
  - apply Forall_cons in Hok as [Hio Hok]. simpl in Hio.
    destruct (reass_call_refines o (w <| w_io := io |>) rows) as (w1 & Hcall & Hs1 & HR1); [done|by apply Rep_set_io|done|].
    simpl. rewrite Hcall. simpl. change (w_io (w <| w_io := io |>)) with io in *.
    destruct (IH w1 _ HR1 Hok) as (w2 & Hrun & HR2). rewrite Hrun. simpl. rewrite Hs1.
    destruct (a_run calls (a_call o (io, rows)).2) as [obs rows']. by exists w2.
Qed.

Definition start (w : Work) : Work := idemip_ip4_reass_clear (cf_datagrams c) (cf_frags c) (cf_holes c) w.
Definition a_start : list ARow := replicate (Z.to_nat (cf_datagrams c)) AFree.

Lemma start_Rep w : config_ok c → Rep (start w) a_start.
Proof. intros (HD & HF & HH). by destruct (reass_clear_refines _ _ _ HD HF HH w []). Qed.

(** Every borrow the calls reach represents the rows the abstract calls reach. *)
Lemma reached calls w obs w' :
  config_ok c → calls_ok calls → run calls (start w) = Some (obs, w') → ∃ rows, Rep w' rows.
Proof.
  intros Hc Hok Hr. destruct (reass_run_refines calls (start w) a_start) as (w1 & Hr1 & HR); [done|by apply start_Rep|done|].
  rewrite Hr in Hr1. injection Hr1 as _ ->. eauto.
Qed.
End Calls.

(** C3. On a cleared borrow of any configured size, every sequence of clear, hold, next, release, reclaim
    and tick calls, whatever operand blocks the caller leaves, returns, and every operand block it leaves is
    the one the abstract reassembler leaves: the hole list decides overlap, duplication and completion
    exactly as the set of held octets does. *)
Theorem reass_refines_spec (c : config) (calls : list (Ip4ReassIo * op)) (w : Work)
    (Hc : config_ok c) (Hok : calls_ok calls) :
  ∃ w', run c calls (start c w) = Some ((a_run c calls (a_start c)).1, w').
Proof.
  destruct (reass_run_refines c calls (start c w) (a_start c)) as (w' & -> & _); [done|by apply start_Rep|done|eauto].
Qed.

(** ** A configuration, and a datagram in two fragments *)
Definition cfg_example : config := mkConfig 2 3 5 15 None false.
Definition io_example (hdr : option (list Z)) (desc len : Z) : Ip4ReassIo :=
  mkIo (mkHoldArgs hdr desc len) 0 0 1000 0 0 0 0 0 0 IDEMIP_ERR FREE 0 false false.
Definition fragment_example (flags_frag data : Z) : list Z :=
  ip4_build None false (replicate 20 0) (mkFields 0 (20 + data) 7 flags_frag 64 17 0x0A000001 0x0A000002) ++
  replicate (Z.to_nat data) 0x5A.
Definition hold_example (desc flags_frag data : Z) : Ip4ReassIo * op :=
  (io_example (Some (fragment_example flags_frag data)) desc (20 + data), OHold).
(** The last fragment first: octets 16 to 26, then octets 0 to 16. *)
Definition calls_example : list (Ip4ReassIo * op) := [hold_example 4 2 10; hold_example 9 0x2000 16].
Definition work_example : Work := mkWork (io_example None 0 0) (mkCtx 0 0) [] [] [].

Lemma octets_dec h : forallb (λ b, (0 <=? b) && (b <? 256)) h = true → Checksum.octets h.
Proof.
  intros Hh. apply Forall_forall. intros b Hb. rewrite forallb_forall in Hh.
  apply list_elem_of_In, Hh, andb_true_iff in Hb as [?%Z.leb_le ?%Z.ltb_lt]. unfold is_u8. lia.
Qed.

Lemma hold_example_ok desc flags data :
  forallb (λ b, (0 <=? b) && (b <? 256)) (fragment_example flags data) = true → io_ok (hold_example desc flags data).1.
Proof.
  intros Hh. unfold io_ok, is_u8, hold_example, io_example. simpl. split_and!; [lia..|].
  intros h [= <-]. by apply octets_dec.
Qed.

Lemma calls_example_ok : calls_ok calls_example.
Proof. repeat constructor; apply hold_example_ok; vm_compute; reflexivity. Qed.

Lemma cfg_example_ok : config_ok cfg_example.
Proof. unfold config_ok. simpl. lia. Qed.

Lemma reass_refines_spec_witness :
  ∃ obs w', run cfg_example calls_example (start cfg_example work_example) = Some (obs, w') ∧
    map (λ io, (io_status io, io_complete io, io_total_len io)) obs =
      [(IDEMIP_OK, false, 26); (IDEMIP_OK, true, 26)].
Proof.
  destruct (reass_refines_spec cfg_example calls_example work_example cfg_example_ok calls_example_ok) as [w' Hr].
  eexists _, w'. split; [exact Hr|]. vm_compute. reflexivity.
Defined.

(** ** A complete datagram *)
Section Complete.
Variable c : config.
Hypothesis Hc : config_ok c.
Local Abbreviation Rep := (Rep (cf_datagrams c) (cf_frags c) (cf_holes c)).

(** What [n] calls of next on row [i] report: the status, the offset and the length. *)
Fixpoint nexts (n : nat) (w : Work) (i : Z) : list (IdemIpStatus * (Z * Z)) :=
  match n with
  | O => []
  | S n' =>
      let w1 := idemip_ip4_reass_next (cf_datagrams c) (w <| w_io := (w_io w) <| next_index := i |> |>) in
      (io_status (w_io w1), (io_off (w_io w1), io_len (w_io w1))) :: nexts n' w1 i
  end.

Lemma a_next_complete io rows i k d t fs cur :
  next_index io = i → i < cf_datagrams c → tget rows i = AComplete k d t fs cur →
  let s := a_next (cf_datagrams c) (io, rows) in
  (io_status s.1, (io_off s.1, io_len s.1)) =
    (match cur with [] => (IDEMIP_BUSY, (0, 0)) | a :: _ => (IDEMIP_OK, (a_off a, a_flen a)) end) ∧
  s.2 = tset rows i (AComplete k d t fs (match cur with [] => fs | _ :: rest => rest end)).
Proof.
  intros Hn Hlt Ha. unfold a_next. set (io0 := set_field io_state _ _).
  assert (next_index io0 = i ∧ io_off io0 = 0 ∧ io_len io0 = 0) as (Hn0 & Ho & Hl) by done. clearbody io0.
  rewrite Hn0, (proj2 (Z.leb_gt _ i)), Ha by done. destruct cur; split; try done. simpl. by rewrite Ho, Hl.
Qed.

Lemma next_step w rows i k d t fs cur :
  Rep w rows → 0 ≤ i < cf_datagrams c → tget rows i = AComplete k d t fs cur →
  let w1 := idemip_ip4_reass_next (cf_datagrams c) (w <| w_io := (w_io w) <| next_index := i |> |>) in
  (io_status (w_io w1), (io_off (w_io w1), io_len (w_io w1))) =
    (match cur with [] => (IDEMIP_BUSY, (0, 0)) | a :: _ => (IDEMIP_OK, (a_off a, a_flen a)) end) ∧
  ∃ rows', Rep w1 rows' ∧ tget rows' i = AComplete k d t fs (match cur with [] => fs | _ :: rest => rest end).
Proof.
  intros HR Hi Ha w1. destruct Hc as (HD & HF & HH).
  destruct (next_refines _ _ _ HD HF HH (w <| w_io := (w_io w) <| next_index := i |> |>) rows) as [E HR1];
    [by apply Rep_set_io|change (is_u8 i); unfold is_u8; lia|].
  destruct (Rep_lens _ _ _ HD _ _ HR) as (_ & HlR & _).
  destruct (a_next_complete (w_io (w <| w_io := (w_io w) <| next_index := i |> |>)) rows i k d t fs cur) as [E1 E2];
    [done|lia|done|].
  fold w1 in E, HR1. rewrite E2 in HR1. split; [by rewrite E|]. eexists; split; [exact HR1|by rewrite tget_tset_eq by lia].
Qed.

Lemma nexts_complete w rows i k d t fs cur :
  Rep w rows → 0 ≤ i < cf_datagrams c → tget rows i = AComplete k d t fs cur →
  nexts (S (length cur)) w i = map (λ a, (IDEMIP_OK, (a_off a, a_flen a))) cur ++ [(IDEMIP_BUSY, (0, 0))].
Proof.
  revert w rows. induction cur as [|a cur IH]; intros w rows HR Hi Ha.
  - cbn [nexts length]. destruct (next_step w rows i k d t fs []) as (-> & _); done.
  - destruct (next_step w rows i k d t fs (a :: cur)) as (E & rows1 & HR1 & Ha1); [done..|].
    cbn [length]. change (nexts (S (S (length cur))) w i) with
      (let w1 := idemip_ip4_reass_next (cf_datagrams c) (w <| w_io := (w_io w) <| next_index := i |> |>) in
       (io_status (w_io w1), (io_off (w_io w1), io_len (w_io w1))) :: nexts (S (length cur)) w1 i).
    cbv zeta. rewrite E. simpl map. simpl app. f_equal. by apply (IH _ rows1).
Qed.

Lemma Rep_complete w rows i k d t fs cur :
  Rep w rows → 0 ≤ i < cf_datagrams c → tget rows i = AComplete k d t fs cur → contiguous 0 (ivals fs) t.
Proof.
  intros (fr & hr & R) Hi Ha. pose proof (r_rows _ _ _ _ _ _ _ R i Hi) as Hrow.
  pose proof (row_ok_state _ _ _ _ _ Hrow) as Hst. rewrite Ha in Hst, Hrow. simpl in Hst.
  unfold row_ok in Hrow. rewrite Hst in Hrow.
  destruct Hrow as (_ & G & _ & _ & _ & l1 & l2 & _ & _ & [= _ _ -> -> _]). by eapply whole_contiguous.
Qed.

(** A hold that reports completion left a complete row, its walk at the first fragment. *)
Lemma a_fragment_complete io rows x i :
  io_complete io = false → 0 ≤ i < tlen rows → io_complete (a_fragment io rows x i).1 = true →
  ∃ k d t fs, io_index (a_fragment io rows x i).1 = i ∧ io_total_len (a_fragment io rows x i).1 = t ∧
    tget (a_fragment io rows x i).2 i = AComplete k d t fs fs.
Proof.
  intros Hio Hi. unfold a_fragment. destruct (tget rows i) as [|k d t fs| | |]; simpl; try congruence.
  destruct (_ || _ || _); [simpl; congruence|]. destruct (_ =? data_len x); [simpl; congruence|].
  destruct (negb _); [simpl; congruence|]. destruct (a_whole _ _) eqn:Ew; simpl; [|congruence].
  intros _. eexists _, _, _, _. split_and!; [done..|]. by rewrite tget_tset_eq.
Qed.

Lemma a_hold_complete io rows :
  tlen rows = cf_datagrams c → io_complete (a_call c OHold (io, rows)).1 = true →
  ∃ i k d t fs, io_index (a_call c OHold (io, rows)).1 = i ∧ 0 ≤ i < cf_datagrams c ∧
    io_total_len (a_call c OHold (io, rows)).1 = t ∧ tget (a_call c OHold (io, rows)).2 i = AComplete k d t fs fs.
Proof.
  intros Hl. cbn [a_call]. unfold a_hold. set (io0 := io <| io_status := IDEMIP_ERR |> <| io_complete := false |>
    <| io_total_len := 0 |> <| io_index := none |> <| io_state := FREE |>).
  assert (io_complete io0 = false) as H0 by done. clearbody io0.
  destruct (a_hdr (hold_args io0)) as [h|]; [|simpl; congruence]. case_decide; [|simpl; congruence].
  unfold a_take. destruct (_ && _).
  { destruct (scan _ _ _); simpl; congruence. }
  destruct (_ || _); [simpl; congruence|]. destruct (_ <? _); [simpl; congruence|].
  destruct (_ <=? _); [simpl; congruence|].
  destruct (scan (λ i, a_matches (fragment_of h) (tget rows i)) _ _) as [i|] eqn:Es;
    [|destruct (scan (λ i, state_eqb (a_state (tget rows i)) FREE) _ _) as [i|] eqn:Ef; [|simpl; congruence]].
  - apply scan_Some in Es as (Hi & _). intros Hcm.
    destruct (a_fragment_complete io0 rows (fragment_of h) i) as (k & d & t & fs & E1 & E2 & E3); [done|lia|done|].
    exists i, k, d, t, fs. split_and!; [done|lia..|done|done].
  - apply scan_Some in Ef as (Hi & _). intros Hcm.
    destruct (a_fragment_complete io0 (tset rows i (a_open (cf_maxage_s c) io0 (fragment_of h))) (fragment_of h) i)
      as (k & d & t & fs & E1 & E2 & E3); [done|rewrite tlen_tset; lia|done|].
    exists i, k, d, t, fs. split_and!; [done|lia..|done|done].
Qed.
End Complete.

(** C4. When hold reports a datagram complete, the next calls on its row report fragments that follow one
    another without a gap or an overlap from octet zero to the reported total length, each exactly once, and
    then say that every fragment has been reported. *)
Theorem complete_reports_whole (c : config) (calls : list (Ip4ReassIo * op)) (w : Work) (obs : list Ip4ReassIo)
    (w1 w2 : Work) (io : Ip4ReassIo)
    (Hc : config_ok c) (Hok : calls_ok calls) (Hio : io_ok io)
    (Hrun : run c calls (start c w) = Some (obs, w1))
    (Hhold : call c OHold (w1 <| w_io := io |>) = Some w2)
    (Hcomplete : io_complete (w_io w2) = true) :
  ∃ L, contiguous 0 L (io_total_len (w_io w2)) ∧
    nexts c (S (length L)) w2 (io_index (w_io w2)) =
      map (λ p, (IDEMIP_OK, (p.1, p.2 - p.1))) L ++ [(IDEMIP_BUSY, (0, 0))].
Proof.
  destruct (reached c calls w obs w1) as [rows HR]; [done..|].
  destruct (reass_call_refines c OHold (w1 <| w_io := io |>) rows) as (w' & Hw & Hs & HR2); [done|by apply Rep_set_io|done|].
  rewrite Hhold in Hw. injection Hw as <-. change (w_io (w1 <| w_io := io |>)) with io in Hs, HR2.
  rewrite Hs in Hcomplete. destruct (Rep_lens _ _ _ (proj1 Hc) _ _ HR) as (_ & Hl & _).
  destruct (a_hold_complete c io rows Hl Hcomplete) as (i & k & d & t & fs & Ei & Hi & Et & Ea).
  rewrite Hs, Ei, Et. exists (ivals fs). split; [by eapply (Rep_complete c w2)|].
  unfold ivals at 1. rewrite length_map, (nexts_complete c Hc w2 _ i k d t fs fs) by done.
  f_equal. unfold ivals. rewrite map_map. apply map_ext. intros a. simpl. do 2 f_equal. lia.
Qed.

Lemma complete_reports_whole_witness :
  ∃ L w2, contiguous 0 L (io_total_len (w_io w2)) ∧
    nexts cfg_example (S (length L)) w2 (io_index (w_io w2)) =
      map (λ p, (IDEMIP_OK, (p.1, p.2 - p.1))) L ++ [(IDEMIP_BUSY, (0, 0))].
Proof.
  edestruct (complete_reports_whole cfg_example [hold_example 4 2 10] work_example) as [L HL].
  - exact cfg_example_ok.
  - constructor; [|constructor]. apply hold_example_ok. vm_compute. reflexivity.
  - apply (hold_example_ok 9 0x2000 16). vm_compute. reflexivity.
  - vm_compute. reflexivity.
  - vm_compute. reflexivity.
  - vm_compute. reflexivity.
  - exists L. eexists. exact HL.
Defined.

(** ** The descriptors *)

(** What the unit pins: the descriptors of the fragment entries in use. *)
Definition pinned (w : Work) : list Z := map f_desc (filter (λ f, f_state f ≠ FREE) (w_frag w)).

Definition a_pinned (rows : list ARow) : list Z := map a_desc' (rows ≫= a_frags).

Lemma filter_owner {A} `{Inhabited A} (P : A → Prop) `{∀ x, Decision (P x)} (t : list A) (l : list Z) :
  owner (tlen t) (λ k, bool_decide (P (tget t k))) l → map (tget t) l ≡ₚ filter P t.
Proof.
  intros [Hnd Hin].
  assert (t = tget t <$> seqZ 0 (tlen t)) as Et.
  { unfold tget. apply list_eq. intros k. rewrite list_lookup_fmap. destruct (decide (k < length t)%nat).
    - rewrite lookup_seqZ_lt by (unfold tlen; lia). simpl. rewrite list_lookup_lookup_total_lt by done.
      f_equal. f_equal. lia.
    - rewrite lookup_ge_None_2 by lia. rewrite lookup_seqZ_ge by (unfold tlen; lia). done. }
  rewrite Et at 2. rewrite filter_map. change (map (tget t) l) with (tget t <$> l). apply fmap_Permutation.
  apply NoDup_Permutation; [done|apply NoDup_filter, NoDup_seqZ|]. intros k.
  rewrite Hin, list_elem_of_filter, elem_of_seqZ, bool_decide_eq_true. simpl. split; intros []; split; (lia || done).
Qed.

Lemma bind_tset (rows : list ARow) i r : 0 ≤ i < tlen rows →
  (tset rows i r ≫= a_frags) ++ a_frags (tget rows i) ≡ₚ (rows ≫= a_frags) ++ a_frags r.
Proof.
  intros Hi. unfold tset, tget, tlen in *. destruct (lookup_lt_is_Some_2 rows (Z.to_nat i)) as [x Hx]; [lia|].
  rewrite (list_lookup_total_correct _ _ _ Hx). rewrite insert_take_drop by lia.
  rewrite <- (take_drop_middle rows _ x Hx) at 3. rewrite !bind_app, !bind_cons. solve_Permutation.
Qed.

Lemma a_pinned_tset rows i r : 0 ≤ i < tlen rows →
  a_pinned (tset rows i r) ++ map a_desc' (a_frags (tget rows i)) ≡ₚ a_pinned rows ++ map a_desc' (a_frags r).
Proof. intros Hi. unfold a_pinned. rewrite <- !map_app. by rewrite (bind_tset rows i r Hi). Qed.

Lemma a_pinned_same rows i r : 0 ≤ i < tlen rows → a_frags r ≡ₚ a_frags (tget rows i) →
  a_pinned (tset rows i r) ≡ₚ a_pinned rows.
Proof.
  intros Hi Hp. pose proof (a_pinned_tset rows i r Hi) as Ht. rewrite Hp in Ht. by apply Permutation_app_inv_r in Ht.
Qed.

Section Pins.
Variable c : config.
Hypothesis Hc : config_ok c.
Local Abbreviation Rep := (Rep (cf_datagrams c) (cf_frags c) (cf_holes c)).

Lemma pinned_rows w rows : Rep w rows → pinned w ≡ₚ a_pinned rows.
Proof.
  intros HR. destruct (Rep_lens _ _ _ (proj1 Hc) _ _ HR) as (_ & HlR & _). destruct HR as (fr & hr & R).
  unfold pinned, a_pinned.
  rewrite <- (filter_owner (λ f, f_state f ≠ FREE) (w_frag w) (owned (cf_datagrams c) fr)).
  2: { destruct (r_fown _ _ _ _ _ _ _ R) as [Hnd Hin]. split; [done|]. intros k. rewrite Hin.
       unfold frag_busy, state_eqb. rewrite negb_true_iff, bool_decide_eq_false, bool_decide_eq_true. done. }
  assert (rows ≫= a_frags = map (λ k, afrag (FRAG w k)) (owned (cf_datagrams c) fr)) as ->.
  { unfold owned. assert (∀ n m, 0 ≤ m → m + Z.of_nat n = cf_datagrams c →
      drop (Z.to_nat m) rows ≫= a_frags = map (λ k, afrag (FRAG w k)) (seqZ m (Z.of_nat n) ≫= fr)) as H.
    { induction n as [|n IH]; intros m Hm Hn; unfold tlen in HlR.
      - by rewrite drop_ge by lia.
      - destruct (lookup_lt_is_Some_2 rows (Z.to_nat m)) as [r Hr]; [lia|].
        rewrite (drop_S _ _ _ Hr), seqZ_cons by lia. rewrite !bind_cons, map_app.
        replace (Z.pred (Z.of_nat (S n))) with (Z.of_nat n) by lia.
        rewrite <- (IH (Z.succ m)) by lia. replace (Z.to_nat (Z.succ m)) with (S (Z.to_nat m)) by lia. f_equal.
        pose proof (r_rows _ _ _ _ _ _ _ R m ltac:(lia)) as Hrow. unfold tget in Hrow at 1.
        rewrite (list_lookup_total_correct _ _ _ Hr) in Hrow. by rewrite (row_ok_frags _ _ _ _ _ Hrow). }
    specialize (H (Z.to_nat (cf_datagrams c)) 0). rewrite Z2Nat.id in H by apply (proj1 Hc). apply H; [lia|].
    destruct Hc as [? _]. lia. }
  rewrite !map_map. done.
Qed.

Lemma a_fragment_pins io rows x i :
  0 ≤ i < tlen rows → io_status io = IDEMIP_ERR →
  let s := a_fragment io rows x i in
  (io_status s.1 = IDEMIP_OK ∧ a_pinned s.2 ≡ₚ a_desc (hold_args io) :: a_pinned rows) ∨
  (io_status s.1 = IDEMIP_ERR ∧ a_pinned s.2 ≡ₚ a_pinned rows).
Proof.
  intros Hi Hio. unfold a_fragment. destruct (tget rows i) as [|k d t fs| | |] eqn:Ea; try (right; done).
  destruct (_ || _ || _); [right; done|]. destruct (_ =? data_len x); [right; done|].
  destruct (negb _).
  { right. split; [done|]. simpl. apply a_pinned_same; [done|]. by rewrite Ea. }
  left. split; [done|]. simpl. set (fs' := a_insert _ fs). match goal with |- context [tset rows i ?x] => set (r := x) end.
  assert (a_frags r = fs') as Er by (unfold r; by destruct (a_whole _ _)).
  pose proof (a_pinned_tset rows i r Hi) as Ht. rewrite Er, Ea in Ht. simpl in Ht. unfold fs' in Ht.
  rewrite (a_insert_perm _ fs) in Ht. simpl in Ht.
  apply (Permutation_app_inv_r (map a_desc' fs)). rewrite Ht. solve_Permutation.
Qed.

Lemma a_flush_frags r : a_frags (a_flush r) = a_frags r.
Proof. unfold a_flush. by destruct (a_frags r). Qed.

Lemma a_hold_pins io rows : tlen rows = cf_datagrams c →
  let s := a_call c OHold (io, rows) in
  (io_status s.1 = IDEMIP_OK ∧ a_pinned s.2 ≡ₚ a_desc (hold_args io) :: a_pinned rows) ∨
  (io_status s.1 ≠ IDEMIP_OK ∧ a_pinned s.2 ≡ₚ a_pinned rows).
Proof.
  intros Hl. cbn [a_call]. unfold a_hold. set (io0 := set_field io_state _ _).
  assert (io_status io0 = IDEMIP_ERR ∧ hold_args io0 = hold_args io) as [H0 Hh] by done. clearbody io0.
  rewrite <- Hh. destruct (a_hdr (hold_args io0)) as [h|]; [|right; simpl; by rewrite H0].
  case_decide; [|right; simpl; by rewrite H0].
  unfold a_take. destruct (_ && _).
  { right. assert (a_pinned (map (λ r, if a_superseded (fragment_of h) r then a_flush r else r) rows) = a_pinned rows) as E.
    { unfold a_pinned. f_equal. clear. induction rows as [|r rows IH]; [done|]. simpl map. rewrite !bind_cons, IH.
      f_equal. destruct (a_superseded _ r); [by apply a_flush_frags|done]. }
    destruct (scan _ _ _); simpl; by rewrite H0, E. }
  destruct (_ || _); [right; simpl; by rewrite H0|]. destruct (_ <? _); [right; simpl; by rewrite H0|].
  destruct (_ <=? _); [right; done|].
  destruct (scan (λ i, a_matches (fragment_of h) (tget rows i)) _ _) as [i|] eqn:Es;
    [|destruct (scan (λ i, state_eqb (a_state (tget rows i)) FREE) _ _) as [i|] eqn:Ef; [|right; done]].
  - apply scan_Some in Es as (Hi & _). destruct (a_fragment_pins io0 rows (fragment_of h) i) as [?|[E ?]]; [lia|done|by left|].
    right. by rewrite E.
  - apply scan_Some in Ef as (Hi & Hf & _). apply bool_decide_eq_true in Hf.
    set (rows1 := tset rows i (a_open (cf_maxage_s c) io0 (fragment_of h))).
    assert (a_pinned rows1 ≡ₚ a_pinned rows) as E1.
    { apply a_pinned_same; [lia|]. by destruct (tget rows i). }
    destruct (a_fragment_pins io0 rows1 (fragment_of h) i) as [[? E]|[E E2]]; [unfold rows1; rewrite tlen_tset; lia|done|..].
    + left. split; [done|]. by rewrite E, E1.
    + right. split; [by rewrite E|]. by rewrite E2, E1.
Qed.

Lemma a_reclaim_pins io rows : tlen rows = cf_datagrams c →
  (∀ i, 0 ≤ i < cf_datagrams c → a_state (tget rows i) = RECLAIM → a_frags (tget rows i) ≠ []) →
  let s := a_call c OReclaim (io, rows) in
  (io_status s.1 = IDEMIP_OK ∧ a_pinned rows ≡ₚ io_desc s.1 :: a_pinned s.2) ∨
  (io_status s.1 ≠ IDEMIP_OK ∧ a_pinned s.2 ≡ₚ a_pinned rows).
Proof.
  intros Hl Hne. cbn [a_call]. unfold a_reclaim. set (io0 := set_field io_index _ _). clearbody io0.
  destruct (scan _ _ _) as [i|] eqn:Es; [|right; done]. apply scan_Some in Es as (Hi & Hm & _).
  apply bool_decide_eq_true in Hm. specialize (Hne i ltac:(lia) Hm).
  destruct (a_frags (tget rows i)) as [|a rest] eqn:Ef; [done|]. left. split; [done|]. simpl.
  pose proof (a_pinned_tset rows i (match rest with [] => AFree | _ => AReclaim rest end) ltac:(lia)) as Ht.
  rewrite Ef in Ht. assert (a_frags (match rest with [] => AFree | _ => AReclaim rest end) = rest) as Er by (by destruct rest).
  rewrite Er in Ht. simpl in Ht. apply (Permutation_app_inv_r (map a_desc' rest)). rewrite <- Ht. simpl. solve_Permutation.
Qed.

Lemma a_next_pins io rows : tlen rows = cf_datagrams c → is_u8 (next_index io) →
  a_pinned (a_call c ONext (io, rows)).2 ≡ₚ a_pinned rows.
Proof.
  intros Hl Hi. cbn [a_call]. unfold a_next. set (io0 := set_field io_state _ _).
  assert (next_index io0 = next_index io) as -> by done. unfold is_u8 in Hi.
  destruct (Z.leb_spec (cf_datagrams c) (next_index io)); [done|].
  destruct (tget rows (next_index io)) as [| |k d t fs [|a rest]| |] eqn:Ea; try done; simpl;
    (apply a_pinned_same; [lia|by rewrite Ea]).
Qed.

Lemma a_release_pins io rows : tlen rows = cf_datagrams c → is_u8 (release_index io) →
  a_pinned (a_call c ORelease (io, rows)).2 ≡ₚ a_pinned rows.
Proof.
  intros Hl Hi. cbn [a_call]. unfold a_release. set (io0 := set_field io_state _ _).
  assert (release_index io0 = release_index io) as -> by done. unfold is_u8 in Hi.
  destruct (Z.leb_spec (cf_datagrams c) (release_index io)); [done|]. destruct (negb _); [done|]. simpl.
  apply a_pinned_same; [lia|by rewrite a_flush_frags].
Qed.

Lemma a_tick_pins io rows : tlen rows = cf_datagrams c → a_pinned (a_call c OTick (io, rows)).2 ≡ₚ a_pinned rows.
Proof.
  intros Hl. cbn [a_call]. unfold a_tick. set (io0 := set_field io_frag_zero _ _). clearbody io0.
  destruct (scan _ _ _) as [i|] eqn:Es; [|done]. apply scan_Some in Es as (Hi & _). simpl.
  apply a_pinned_same; [lia|by rewrite a_flush_frags].
Qed.
End Pins.

(** How a call changes the descriptors the unit pins. *)
Definition pins_change (o : op) (io : Ip4ReassIo) (w1 w2 : Work) : Prop :=
  match o with
  | OClear => pinned w2 = []
  | OHold => if decide (io_status (w_io w2) = IDEMIP_OK) then pinned w2 ≡ₚ a_desc (hold_args io) :: pinned w1
             else pinned w2 ≡ₚ pinned w1
  | OReclaim => if decide (io_status (w_io w2) = IDEMIP_OK) then pinned w1 ≡ₚ io_desc (w_io w2) :: pinned w2
                else pinned w2 ≡ₚ pinned w1
  | _ => pinned w2 ≡ₚ pinned w1
  end.

(** C5. A receive descriptor is pinned by a hold that reports OK and by nothing else, and it leaves the unit
    through the one reclaim that reports it: no call loses a descriptor or hands one back twice, whatever
    becomes of its datagram. *)
Theorem descriptors_conserved (c : config) (calls : list (Ip4ReassIo * op)) (w : Work) (obs : list Ip4ReassIo)
    (w1 w2 : Work) (io : Ip4ReassIo) (o : op)
    (Hc : config_ok c) (Hok : calls_ok calls) (Hio : io_ok io)
    (Hrun : run c calls (start c w) = Some (obs, w1)) (Hcall : call c o (w1 <| w_io := io |>) = Some w2) :
  pins_change o io w1 w2.
Proof.
  destruct (reached c calls w obs w1) as [rows HR]; [done..|]. pose proof Hio as (Hn & Hr & _).
  destruct (reass_call_refines c o (w1 <| w_io := io |>) rows) as (w' & Hw & Hs & HR2); [done|by apply Rep_set_io|done|].
  rewrite Hcall in Hw. injection Hw as <-. change (w_io (w1 <| w_io := io |>)) with io in Hs, HR2.
  destruct (Rep_lens _ _ _ (proj1 Hc) _ _ HR) as (_ & Hl & _).
  pose proof (pinned_rows c Hc _ _ HR) as P1. pose proof (pinned_rows c Hc _ _ HR2) as P2.
  unfold pins_change. rewrite Hs. destruct o.
  - apply Permutation_nil. rewrite P2. cbn [a_call]. unfold a_clear, a_pinned. simpl.
    clear. induction (Z.to_nat (cf_datagrams c)) as [|n IH]; simpl; done.
  - destruct (a_hold_pins c io rows Hl) as [[E P]|[E P]].
    + rewrite decide_True by done. by rewrite P2, P, P1.
    + rewrite decide_False by done. by rewrite P2, P, P1.
  - by rewrite P2, (a_next_pins c io rows), P1.
  - by rewrite P2, (a_release_pins c io rows), P1.
  - destruct (a_reclaim_pins c io rows Hl) as [[E P]|[E P]].
    + intros i Hi Hst. destruct HR as (fr & hr & R). pose proof (r_rows _ _ _ _ _ _ _ R i Hi) as Hrow.
      rewrite (row_ok_frags _ _ _ _ _ Hrow). pose proof (row_ok_state _ _ _ _ _ Hrow) as Hd. unfold row_ok in Hrow.
      rewrite Hd, Hst in Hrow. destruct Hrow as (_ & _ & Hne & _). by destruct (fr i).
    + rewrite decide_True by done. by rewrite P1, P, P2.
    + rewrite decide_False by done. by rewrite P2, P, P1.
  - by rewrite P2, (a_tick_pins c io rows), P1.
Qed.

Lemma descriptors_conserved_witness :
  ∃ w1 w2, run cfg_example [hold_example 4 2 10] (start cfg_example work_example) = Some w1 ∧
    io_status (w_io w2) = IDEMIP_OK ∧ pins_change OHold (hold_example 9 0x2000 16).1 w1.2 w2.
Proof.
  eexists (_, _), _. split; [vm_compute; reflexivity|]. split.
  2: { eapply (descriptors_conserved cfg_example [hold_example 4 2 10] work_example).
       - exact cfg_example_ok.
       - constructor; [|constructor]. apply hold_example_ok. vm_compute. reflexivity.
       - apply (hold_example_ok 9 0x2000 16). vm_compute. reflexivity.
       - vm_compute. reflexivity.
       - vm_compute. reflexivity. }
  vm_compute. reflexivity.
Defined.

(** ** Why hold is BUSY *)
Lemma a_fragment_not_busy io rows x i :
  io_status io = IDEMIP_ERR → io_status (a_fragment io rows x i).1 ≠ IDEMIP_BUSY.
Proof.
  intros Hio. unfold a_fragment. destruct (tget rows i) as [|k d t fs| | |]; simpl; try congruence.
  destruct (_ || _ || _); [simpl; congruence|]. destruct (_ =? data_len x); [simpl; congruence|].
  destruct (negb _); simpl; congruence.
Qed.

(** C6. hold asks for a retry only when the fragment table is full or when every datagram row is in use: a
    refusal the header earns is never BUSY, and the hole table, which the caller cannot drain, never runs out. *)
Theorem hold_busy_only_full (c : config) (calls : list (Ip4ReassIo * op)) (w : Work) (obs : list Ip4ReassIo)
    (w1 w2 : Work) (io : Ip4ReassIo)
    (Hc : config_ok c) (Hok : calls_ok calls) (Hio : io_ok io)
    (Hrun : run c calls (start c w) = Some (obs, w1)) (Hhold : call c OHold (w1 <| w_io := io |>) = Some w2)
    (Hbusy : io_status (w_io w2) = IDEMIP_BUSY) :
  cf_frags c ≤ c_held (w_ctx w1) ∨ ∀ i, 0 ≤ i < cf_datagrams c → d_state (DGRAM w1 i) ≠ FREE.
Proof.
  destruct (reached c calls w obs w1) as [rows HR]; [done..|].
  destruct (reass_call_refines c OHold (w1 <| w_io := io |>) rows) as (w' & Hw & Hs & _); [done|by apply Rep_set_io|done|].
  rewrite Hhold in Hw. injection Hw as <-. change (w_io (w1 <| w_io := io |>)) with io in Hs. rewrite Hs in Hbusy.
  destruct (Rep_lens _ _ _ (proj1 Hc) _ _ HR) as (_ & _ & -> & _). revert Hbusy.
  cbn [a_call]. unfold a_hold. set (io0 := set_field io_state _ _). assert (io_status io0 = IDEMIP_ERR) as H0 by done.
  clearbody io0. destruct (a_hdr (hold_args io0)) as [h|]; [|simpl; congruence]. case_decide; [|simpl; congruence].
  unfold a_take. destruct (_ && _); [destruct (scan _ _ _); simpl; congruence|].
  destruct (_ || _); [simpl; congruence|]. destruct (_ <? _); [simpl; congruence|].
  destruct (Z.leb_spec (cf_frags c) (a_held rows)); [by left|].
  destruct (scan (λ i, a_matches (fragment_of h) (tget rows i)) _ _) as [i|] eqn:Es;
    [|destruct (scan (λ i, state_eqb (a_state (tget rows i)) FREE) _ _) as [i|] eqn:Ef].
  - intros Hb. by apply a_fragment_not_busy in Hb.
  - intros Hb. by apply a_fragment_not_busy in Hb.
  - intros _. right. intros i Hi. rewrite scan_None in Ef. specialize (Ef i ltac:(lia)). apply bool_decide_eq_false in Ef.
    destruct (Rep_row _ _ _ (proj1 Hc) (proj1 (proj2 Hc)) (proj2 (proj2 Hc)) _ _ i HR) as [-> _]; done.
Qed.

Lemma hold_busy_only_full_witness :
  ∃ w1, cf_frags (mkConfig 2 1 3 15 None false) ≤ c_held (w_ctx w1) ∨
    ∀ i, 0 ≤ i < cf_datagrams (mkConfig 2 1 3 15 None false) → d_state (DGRAM w1 i) ≠ FREE.
Proof.
  eexists. eapply (hold_busy_only_full (mkConfig 2 1 3 15 None false) [hold_example 4 2 10] work_example).
  - unfold config_ok. simpl. lia.
  - constructor; [|constructor]. apply hold_example_ok. vm_compute. reflexivity.
  - apply (hold_example_ok 9 0x2000 16). vm_compute. reflexivity.
  - vm_compute. reflexivity.
  - vm_compute. reflexivity.
  - vm_compute. reflexivity.
Defined.

(** ** The timeout sweep *)
Section Sweep.
Variable c : config.
Hypothesis Hc : config_ok c.
Local Abbreviation Rep := (Rep (cf_datagrams c) (cf_frags c) (cf_holes c)).

(** [n] ticks at one clock reading, and what each reports. *)
Fixpoint sweep (n : nat) (now : Z) (w : Work) : option (list IdemIpStatus * Work) :=
  match n with
  | O => Some ([], w)
  | S n' =>
      w1 ← call c OTick (w <| w_io := (w_io w) <| io_now_ms := now |> |>);
      '(l, w2) ← sweep n' now w1;
      Some (io_status (w_io w1) :: l, w2)
  end.

Definition expired (now : Z) (rows : list ARow) : nat := length (filter (λ r, a_expired now r = true) rows).

Lemma flush_not_live r : a_live (a_flush r) = false.
Proof. unfold a_flush. by destruct (a_frags r). Qed.

Lemma expired_flush now rows i :
  0 ≤ i < tlen rows → a_expired now (tget rows i) = true →
  S (expired now (tset rows i (a_flush (tget rows i)))) = expired now rows.
Proof.
  intros Hi He. unfold expired, tset, tget, tlen in *.
  destruct (lookup_lt_is_Some_2 rows (Z.to_nat i)) as [x Hx]; [lia|].
  rewrite (list_lookup_total_correct _ _ _ Hx) in *. rewrite insert_take_drop by lia.
  rewrite <- (take_drop_middle rows _ x Hx) at 3. rewrite !filter_app, !filter_cons, !length_app.
  rewrite (decide_True (P := a_expired now x = true)) by done.
  rewrite decide_False by (unfold a_expired; by rewrite flush_not_live). simpl. lia.
Qed.

Lemma a_tick_step io rows :
  let s := a_tick (cf_datagrams c) (io, rows) in
  match scan (λ i, a_expired (io_now_ms io) (tget rows i)) (Z.to_nat (cf_datagrams c)) 0 with
  | Some i => io_status s.1 = IDEMIP_OK ∧ s.2 = tset rows i (a_flush (tget rows i))
  | None => io_status s.1 = IDEMIP_BUSY ∧ s.2 = rows
  end.
Proof.
  unfold a_tick. set (io0 := set_field io_frag_zero _ _). assert (io_now_ms io0 = io_now_ms io) as -> by done.
  clearbody io0. by destruct (scan _ _ _).
Qed.

Lemma no_expired now rows :
  tlen rows = cf_datagrams c → scan (λ i, a_expired now (tget rows i)) (Z.to_nat (cf_datagrams c)) 0 = None →
  expired now rows = O.
Proof.
  intros Hl Es. rewrite scan_None in Es. unfold expired. destruct (filter _ rows) as [|r l] eqn:Ef; [done|exfalso].
  assert (r ∈ filter (λ r, a_expired now r = true) rows) as [He Hr]%list_elem_of_filter by (rewrite Ef; left).
  apply list_elem_of_lookup in Hr as [k Hk]. pose proof (lookup_lt_Some _ _ _ Hk).
  specialize (Es (Z.of_nat k)). unfold tget in Es. rewrite Nat2Z.id, (list_lookup_total_correct _ _ _ Hk) in Es.
  unfold tlen in Hl. rewrite Es in He; [done|lia].
Qed.

Lemma sweep_spec now n w rows :
  Rep w rows → expired now rows = n →
  ∃ w' rows', sweep (S n) now w = Some (replicate n IDEMIP_OK ++ [IDEMIP_BUSY], w') ∧ Rep w' rows' ∧
    expired now rows' = O.
Proof.
  destruct Hc as (HD & HF & HH). revert w rows. induction n as [|n IH]; intros w rows HR Hn;
    destruct (Rep_lens _ _ _ HD _ _ HR) as (_ & Hl & _);
    destruct (reass_tick_refines _ _ _ HD HF HH (w <| w_io := (w_io w) <| io_now_ms := now |> |>) rows) as (w1 & Hw1 & Hs1 & HR1);
      try (by apply Rep_set_io);
    pose proof (a_tick_step (w_io (w <| w_io := (w_io w) <| io_now_ms := now |> |>)) rows) as Ht;
    cbv zeta in Ht; change (io_now_ms (w_io (w <| w_io := (w_io w) <| io_now_ms := now |> |>))) with now in Ht;
    rewrite <- Hs1 in Ht;
    (destruct (scan _ _ _) as [i|] eqn:Es in Ht;
      [apply scan_Some in Es as (Hi & He & _); pose proof (expired_flush now rows i ltac:(lia) He) as Hx
      |apply no_expired in Es; [|done]]; destruct Ht as [Hst Hrows]; rewrite Hrows in HR1); try lia.
  - exists w1, rows. cbn [sweep call]. rewrite Hw1. simpl. by rewrite Hst.
  - destruct (IH w1 _ HR1) as (w' & rows' & Hsw & HR' & Hz); [lia|].
    exists w', rows'. split_and!; [|done..].
    change (sweep (S (S n)) now w) with (w1 ← call c OTick (w <| w_io := (w_io w) <| io_now_ms := now |> |>);
      '(l, w2) ← sweep (S n) now w1; Some (io_status (w_io w1) :: l, w2)).
    cbn [call]. rewrite Hw1. cbn [mbind option_bind]. rewrite Hsw. simpl. by rewrite Hst.
Qed.
End Sweep.

(** Ticks at one clock reading come to an end: after at most one OK per row they report BUSY, and then no
    row that still gathers, holds a whole datagram or was abandoned has a deadline the clock has reached. *)
Theorem sweep_retires_expired (c : config) (calls : list (Ip4ReassIo * op)) (w : Work) (obs : list Ip4ReassIo)
    (w1 : Work) (now : Z)
    (Hc : config_ok c) (Hok : calls_ok calls) (Hrun : run c calls (start c w) = Some (obs, w1)) :
  ∃ n w2, Z.of_nat n ≤ cf_datagrams c ∧ sweep c (S n) now w1 = Some (replicate n IDEMIP_OK ++ [IDEMIP_BUSY], w2) ∧
    ∀ i, 0 ≤ i < cf_datagrams c → d_state (DGRAM w2 i) ∈ [HOLDING; COMPLETE; ABANDONED] →
      ip4_reass_reached now (d_deadline_ms (DGRAM w2 i)) = false.
Proof.
  destruct (reached c calls w obs w1) as [rows HR]; [done..|]. destruct (Rep_lens _ _ _ (proj1 Hc) _ _ HR) as (_ & Hl & _).
  destruct (sweep_spec c Hc now (expired now rows) w1 rows HR eq_refl) as (w2 & rows2 & Hsw & HR2 & Hz).
  exists (expired now rows), w2. split_and!; [|done|].
  - unfold tlen in Hl. rewrite <- Hl. unfold expired. pose proof (length_filter (λ r, a_expired now r = true) rows). lia.
  - intros i Hi Hlive. destruct (Rep_lens _ _ _ (proj1 Hc) _ _ HR2) as (_ & Hl2 & _).
    destruct (a_expired now (tget rows2 i)) eqn:He.
    + exfalso. pose proof (expired_flush now rows2 i ltac:(lia) He). lia.
    + destruct HR2 as (fr & hr & R). pose proof (r_rows _ _ _ _ _ _ _ R i Hi) as Hrow.
      unfold a_expired in He. unfold row_ok in Hrow.
      destruct (d_state (DGRAM w2 i)), (tget rows2 i); try (set_solver); naive_solver.
Qed.

Lemma sweep_retires_expired_witness :
  ∃ w1 n w2, Z.of_nat n ≤ 2 ∧ sweep cfg_example (S n) 16000 w1 = Some (replicate n IDEMIP_OK ++ [IDEMIP_BUSY], w2) ∧
    ∀ i, 0 ≤ i < 2 → d_state (DGRAM w2 i) ∈ [HOLDING; COMPLETE; ABANDONED] →
      ip4_reass_reached 16000 (d_deadline_ms (DGRAM w2 i)) = false.
Proof.
  eexists. eapply (sweep_retires_expired cfg_example [hold_example 4 2 10] work_example).
  - exact cfg_example_ok.
  - constructor; [|constructor]. apply hold_example_ok. vm_compute. reflexivity.
  - vm_compute. reflexivity.
Defined.
End Ip4ReassThms.
