(* ===== verification/Ip4Frag.v ===== *)
(** * IPv4 fragmentation (src/ip/ip4_frag.c)

    The cursor the RFC 791 section 3.2 procedure walks a datagram with: the option walk that decides the
    reduced header, the fragmentation test, the two shapes a fragment takes, and the three entries.  The
    octets of the datagram and of the caller's buffer are in the operand block, as the pointers name them. *)
From S2P Require Import Prelude Base Wire Ipv4.

Module Ip4Frag.
Import Endian Checksum Wire Ipv4.

Definition IDEMIP_IP4_FRAG_OPT_COPIED : Z := 0x80.
Definition IDEMIP_IP4_FRAG_OPT_EOL : Z := 0.
Definition IDEMIP_IP4_FRAG_OPT_NOP : Z := 1.
Definition IDEMIP_IP4_FRAG_OPT_MIN_LEN : Z := 2.
Definition IDEMIP_IP4_MIN_FORWARD_MTU : Z := 68.
Definition IP4_FRAG_READY : Z := 0x49503446.
Definition IP4_FRAG_UNIT_MASK : Z := u16 (IDEMIP_IP4_FRAG_UNIT - 1).

Inductive IdemIpIp4FragError : Type :=
  | IDEMIP_IP4_FRAG_ERR_NONE
  | IDEMIP_IP4_FRAG_ERR_DF
  | IDEMIP_IP4_FRAG_ERR_HEADER
  | IDEMIP_IP4_FRAG_ERR_MTU
  | IDEMIP_IP4_FRAG_ERR_OFFSET
  | IDEMIP_IP4_FRAG_ERR_ROOM
  | IDEMIP_IP4_FRAG_ERR_DONE
  | IDEMIP_IP4_FRAG_ERR_STATE.

(** [None] is a null pointer. *)
Record Ip4FragBeginArgs := mkBeginArgs { b_dgram : option (list Z); b_len : Z; b_mtu : Z }.
Record Ip4FragNextArgs := mkNextArgs { n_out : option (list Z); n_cap : Z }.

Record Ip4FragIo := mkIo {
  begin_args : Ip4FragBeginArgs;
  next_args : Ip4FragNextArgs;
  io_status : IdemIpStatus;
  io_err : IdemIpIp4FragError;
  io_split : bool;
  io_more : bool;
  io_index : Z;
  io_units : Z;
  io_offset : Z;
  io_len : Z;
  io_hdr_len : Z;
  io_data_len : Z }.
#[export] Instance Ip4FragIo_eta : Eta Ip4FragIo := fun r =>
  mkIo (begin_args r) (next_args r) (io_status r) (io_err r) (io_split r) (io_more r) (io_index r) (io_units r)
    (io_offset r) (io_len r) (io_hdr_len r) (io_data_len r).

Record Ip4FragCtx := mkCtx {
  c_ready : Z;
  c_dgram : option (list Z);
  c_data_len : Z;
  c_cursor : Z;
  c_chunk0 : Z;
  c_chunk : Z;
  c_units : Z;
  c_index : Z;
  c_hdr_len : Z;
  c_hdr2_len : Z;
  c_omf : bool;
  c_split : bool;
  c_open : bool;
  c_done : bool }.
#[export] Instance Ip4FragCtx_eta : Eta Ip4FragCtx := fun r =>
  mkCtx (c_ready r) (c_dgram r) (c_data_len r) (c_cursor r) (c_chunk0 r) (c_chunk r) (c_units r) (c_index r)
    (c_hdr_len r) (c_hdr2_len r) (c_omf r) (c_split r) (c_open r) (c_done r).

(** The borrow: the operand block, then the context. *)
Record Work := mkWork { w_io : Ip4FragIo; w_ctx : Ip4FragCtx }.
#[export] Instance Work_eta : Eta Work := fun r => mkWork (w_io r) (w_ctx r).

Section Build.
Variable word : option nat.
Variable swap : bool.

Definition ip4_frag_ready (w : Work) : bool := c_ready (w_ctx w) =? IP4_FRAG_READY.

(** ** The option area *)

(** [while (i < hdr_len)]: the octets written at [out], if any, and how many; [None] is a walk still going
    after [fuel] steps. *)
Fixpoint copy_loop (fuel : nat) (dgram : list Z) (hdr_len i : Z) (out : option (list Z)) (copied : Z) : option (option (list Z) * Z) :=
  match fuel with
  | O => None
  | S fuel' =>
      if negb (i <? hdr_len) then Some (out, copied)
      else
        let type := tget dgram i in
        if type =? IDEMIP_IP4_FRAG_OPT_EOL then Some (out, copied)
        else
          let single := type =? IDEMIP_IP4_FRAG_OPT_NOP in
          if negb single && (hdr_len <=? i + 1) then Some (out, copied)
          else
            let step := if single then 1 else tget dgram (i + 1) in
            if negb single && ((step <? IDEMIP_IP4_FRAG_OPT_MIN_LEN) || (hdr_len <? i + step)) then Some (out, copied)
            else
              let copies := negb (Z.land type IDEMIP_IP4_FRAG_OPT_COPIED =? 0) in
              let out' := if copies then (λ o, memcpy o copied (drop (Z.to_nat i) dgram) step) <$> out else out in
              let copied' := if copies then u16 (copied + step) else copied in
              copy_loop fuel' dgram hdr_len (i + step) out' copied'
  end.

(** A header is at most sixty octets, so its options are at most forty. *)
Definition ip4_frag_copy_options (dgram : list Z) (hdr_len : Z) (out : option (list Z)) : option (option (list Z) * Z) :=
  copy_loop 41 dgram hdr_len IDEMIP_IPV4_HDR_LEN out 0.

(** ** The fragmentation test *)

(** What the context holds of a datagram that passed it whole. *)
Definition take_whole (ctx : Ip4FragCtx) (dgram : list Z) (total_len hdr_len : Z) : Ip4FragCtx :=
  let data_len := u16 (total_len - hdr_len) in
  ctx <| c_dgram := Some dgram |> <| c_hdr_len := hdr_len |> <| c_hdr2_len := hdr_len |>
      <| c_data_len := data_len |> <| c_units := ip4_frag_units dgram |> <| c_omf := ip4_mf dgram |>
      <| c_cursor := 0 |> <| c_index := 0 |> <| c_chunk0 := data_len |> <| c_chunk := data_len |> <| c_split := false |>.

(** The reduced header and the data octets of each fragment. *)
Definition take_cut (ctx : Ip4FragCtx) (hdr_len mtu kept : Z) : Ip4FragCtx :=
  let ihl2 := u8 (Z.shiftr (IDEMIP_IPV4_HDR_LEN + kept + (Z.shiftl 1 IDEMIP_IP4_IHL_SHIFT - 1)) IDEMIP_IP4_IHL_SHIFT) in
  let ctx := ctx <| c_hdr2_len := u8 (Z.shiftl ihl2 IDEMIP_IP4_IHL_SHIFT) |> in
  ctx <| c_chunk0 := u16 (Z.land (mtu - hdr_len) (u16 (Z.lnot IP4_FRAG_UNIT_MASK))) |>
      <| c_chunk := u16 (Z.land (mtu - c_hdr2_len ctx) (u16 (Z.lnot IP4_FRAG_UNIT_MASK))) |> <| c_split := true |>.

Definition ip4_frag_take (w : Work) : option Work :=
  let io := w_io w in
  let ctx := (w_ctx w) <| c_open := false |> <| c_done := false |> <| c_dgram := None |> in
  let refuse ctx err := Some (mkWork (io <| io_err := err |>) ctx) in
  let mtu := b_mtu (begin_args io) in
  match b_dgram (begin_args io) with
  | None => refuse ctx IDEMIP_IP4_FRAG_ERR_HEADER
  | Some dgram =>
      if (b_len (begin_args io) <? IDEMIP_IPV4_HDR_LEN) ||
         negb (bool_decide (ip4_verify_all word swap dgram (b_len (begin_args io)) = IDEMIP_OK))
      then refuse ctx IDEMIP_IP4_FRAG_ERR_HEADER
      else if mtu <? IDEMIP_IP4_MIN_FORWARD_MTU then refuse ctx IDEMIP_IP4_FRAG_ERR_MTU
      else
        let total_len := ip4_total_len dgram in
        let hdr_len := u8 (ip4_hdr_len dgram) in
        let in_data_len := u16 (total_len - hdr_len) in
        if ip4_mf dgram && ((in_data_len =? 0) || negb (Z.land in_data_len IP4_FRAG_UNIT_MASK =? 0))
        then refuse ctx IDEMIP_IP4_FRAG_ERR_HEADER
        else
          let ctx := take_whole ctx dgram total_len hdr_len in
          let accept ctx := Some (mkWork (io <| io_split := c_split ctx |> <| io_status := IDEMIP_OK |>) (ctx <| c_open := true |>)) in
          if mtu <? total_len then
            if ip4_df dgram then refuse (ctx <| c_dgram := None |>) IDEMIP_IP4_FRAG_ERR_DF
            else
              '(_, kept) ← ip4_frag_copy_options dgram hdr_len None;
              let ctx := take_cut ctx hdr_len mtu kept in
              if IDEMIP_IP4_FRAG_OFF_MASK <? c_units ctx + Z.shiftr (c_data_len ctx) IDEMIP_IP4_FRAG_SHIFT
              then refuse (ctx <| c_dgram := None |> <| c_split := false |>) IDEMIP_IP4_FRAG_ERR_OFFSET
              else accept ctx
          else accept ctx
  end.

(** ** One fragment *)
Definition ip4_frag_emit_first (ctx : Ip4FragCtx) (dgram out : list Z) (chunk : Z) : list Z :=
  let out := memcpy out 0 dgram (c_hdr_len ctx) in
  let out := ip4_set_total_len out (u16 (c_hdr_len ctx + chunk)) in
  let out := ip4_set_flags_frag out (u16 (Z.lor IDEMIP_IP4_FLAG_MF (c_units ctx))) in
  let out := ip4_recksum word swap out in
  memcpy out (c_hdr_len ctx) (drop (Z.to_nat (c_hdr_len ctx)) dgram) chunk.

Definition ip4_frag_emit_rest (ctx : Ip4FragCtx) (dgram out : list Z) (chunk units : Z) (more : bool) : option (list Z) :=
  let out := memcpy out 0 dgram IDEMIP_IPV4_HDR_LEN in
  '(opts, kept) ← ip4_frag_copy_options dgram (c_hdr_len ctx) (Some (drop (Z.to_nat IDEMIP_IPV4_HDR_LEN) out));
  let out := take (Z.to_nat IDEMIP_IPV4_HDR_LEN) out ++ default [] opts in
  let out := memset out (IDEMIP_IPV4_HDR_LEN + kept) IDEMIP_IP4_FRAG_OPT_EOL (c_hdr2_len ctx - IDEMIP_IPV4_HDR_LEN - kept) in
  let out := ip4_set_ver_ihl out (Z.shiftr (c_hdr2_len ctx) IDEMIP_IP4_IHL_SHIFT) in
  let out := ip4_set_total_len out (u16 (c_hdr2_len ctx + chunk)) in
  let out := ip4_set_flags_frag out (u16 (Z.lor (if more then IDEMIP_IP4_FLAG_MF else 0) units)) in
  let out := ip4_recksum word swap out in
  Some (memcpy out (c_hdr2_len ctx) (drop (Z.to_nat (c_hdr_len ctx + c_cursor ctx)) dgram) chunk).

(** The data octets of the fragment the cursor stands on. *)
Definition write_chunk (ctx : Ip4FragCtx) : Z :=
  if c_split ctx then
    let room := if c_index ctx =? 0 then c_chunk0 ctx else c_chunk ctx in
    let left := u16 (c_data_len ctx - c_cursor ctx) in
    if room <? left then room else left
  else c_data_len ctx.

Definition ip4_frag_write (w : Work) : option Work :=
  let io := w_io w in
  let ctx := w_ctx w in
  let refuse err := Some (mkWork (io <| io_err := err |>) ctx) in
  if negb (c_open ctx) then refuse IDEMIP_IP4_FRAG_ERR_STATE
  else if c_done ctx then refuse IDEMIP_IP4_FRAG_ERR_DONE
  else
    let first := c_index ctx =? 0 in
    let hdr_len := if negb (c_split ctx) || first then c_hdr_len ctx else c_hdr2_len ctx in
    let chunk := write_chunk ctx in
    let len := u16 (hdr_len + chunk) in
    match n_out (next_args io) with
    | None => refuse IDEMIP_IP4_FRAG_ERR_ROOM
    | Some out =>
        if n_cap (next_args io) <? len then refuse IDEMIP_IP4_FRAG_ERR_ROOM
        else
          let units := u16 (c_units ctx + Z.shiftr (c_cursor ctx) IDEMIP_IP4_FRAG_SHIFT) in
          let more := if c_cursor ctx + chunk <? c_data_len ctx then true else c_omf ctx in
          let dgram := default [] (c_dgram ctx) in
          out ← (if negb (c_split ctx) then Some (memcpy out 0 dgram len)
                 else if first then Some (ip4_frag_emit_first ctx dgram out chunk)
                 else ip4_frag_emit_rest ctx dgram out chunk units more);
          Some (mkWork
            (io <| next_args := mkNextArgs (Some out) (n_cap (next_args io)) |> <| io_index := c_index ctx |> <| io_units := units |>
                <| io_offset := u16 (Z.shiftl units IDEMIP_IP4_FRAG_SHIFT) |> <| io_more := more |> <| io_len := len |>
                <| io_hdr_len := hdr_len |> <| io_data_len := chunk |> <| io_status := IDEMIP_OK |>)
            (let cursor := u16 (c_cursor ctx + chunk) in
             ctx <| c_cursor := cursor |> <| c_index := u16 (c_index ctx + 1) |> <| c_done := c_data_len ctx <=? cursor |>))
    end.

(** ** The entries *)
Definition ctx_zero : Ip4FragCtx := mkCtx 0 None 0 0 0 0 0 0 0 0 false false false false.

Definition idemip_ip4_frag_clear (w : Work) : Work :=
  mkWork ((w_io w) <| io_status := IDEMIP_OK |>) (ctx_zero <| c_ready := IP4_FRAG_READY |>).

(** What both calls report before they decide anything. *)
Definition report_clear (io : Ip4FragIo) : Ip4FragIo :=
  io <| io_status := IDEMIP_ERR |> <| io_err := IDEMIP_IP4_FRAG_ERR_STATE |> <| io_more := false |> <| io_index := 0 |>
     <| io_units := 0 |> <| io_offset := 0 |> <| io_len := 0 |> <| io_hdr_len := 0 |> <| io_data_len := 0 |>.

Definition idemip_ip4_frag_begin (w : Work) : option Work :=
  let w := w <| w_io := (report_clear (w_io w)) <| io_split := false |> |> in
  if negb (ip4_frag_ready w) then Some w
  else ip4_frag_take (w <| w_io := (w_io w) <| io_err := IDEMIP_IP4_FRAG_ERR_NONE |> |>).

Definition idemip_ip4_frag_next (w : Work) : option Work :=
  let w := w <| w_io := report_clear (w_io w) |> in
  if negb (ip4_frag_ready w) then Some w
  else ip4_frag_write (w <| w_io := (w_io w) <| io_err := IDEMIP_IP4_FRAG_ERR_NONE |> |>).
End Build.
End Ip4Frag.
