(* ===== verification/Ip4FragFacts.v ===== *)
(** * The octets of a fragment

    A header as explicit octets with the fields a fragment rewrites, what the checks make of it once its
    checksum is written again, and the two shapes the emitters leave in the caller's buffer. *)
From S2P Require Import Prelude Base Wire Ipv4 Ip4Frag.

Module Ip4FragFacts.
Import Endian Checksum Wire Ipv4 Ip4Frag.

(** ** A header with the rewritten fields apart *)
Definition stamped (b0 b1 b4 b5 b8 b9 : Z) (rest : list Z) (tl ff ck : Z) : list Z :=
  [b0; b1] ++ be16 tl ++ [b4; b5] ++ be16 ff ++ [b8; b9] ++ be16 ck ++ rest.

Lemma wr16_mid pre old suf off v : off = Z.of_nat (length pre) → is_u16 v → length old = 2%nat →
  wr16 (pre ++ old ++ suf) off v = pre ++ be16 v ++ suf.
Proof.
  intros -> Hv Ho. unfold wr16. rewrite Nat2Z.id, take_app_length, drop_app_length. f_equal.
  destruct old as [|x [|y [|]]]; try done. cbn [app]. by rewrite wr16_bytes.
Qed.

Section Stamp.
Variables (b0 b1 b4 b5 b8 b9 : Z) (rest : list Z).
Hypothesis Hoct : octets ([b0; b1; b4; b5; b8; b9] ++ rest).
Local Abbreviation st := (stamped b0 b1 b4 b5 b8 b9 rest).

Lemma stamped_octets tl ff ck : is_u16 tl → is_u16 ff → is_u16 ck → octets (st tl ff ck).
Proof.
  intros. unfold stamped. apply Forall_app in Hoct as [H6 Hr].
  repeat match goal with H : Forall is_u8 (_ :: _) |- _ => apply Forall_cons in H as [? H] | H : octets (_ :: _) |- _ => apply Forall_cons in H as [? H] end.
  repeat (apply Forall_app; split); try (by apply be16_octets); try done; octs.
Qed.

Lemma set_total_len_stamped tl ff ck tl' suf : is_u16 tl' →
  ip4_set_total_len (st tl ff ck ++ suf) tl' = st tl' ff ck ++ suf.
Proof. intros. unfold ip4_set_total_len, stamped. rewrite <- !app_assoc. by rewrite (wr16_mid [b0; b1]). Qed.

Lemma set_flags_stamped tl ff ck ff' suf : is_u16 ff' →
  ip4_set_flags_frag (st tl ff ck ++ suf) ff' = st tl ff' ck ++ suf.
Proof.
  intros. unfold ip4_set_flags_frag, stamped. rewrite <- !app_assoc.
  rewrite !(app_assoc _ (be16 tl)), !(app_assoc _ [b4; b5]). rewrite wr16_mid by done. by rewrite <- !app_assoc.
Qed.

Lemma set_cksum_stamped tl ff ck ck' suf : is_u16 ck' →
  ip4_set_cksum (st tl ff ck ++ suf) ck' = st tl ff ck' ++ suf.
Proof.
  intros. unfold ip4_set_cksum, stamped. rewrite <- !app_assoc.
  rewrite !(app_assoc _ (be16 tl)), !(app_assoc _ [b4; b5]), !(app_assoc _ (be16 ff)), !(app_assoc _ [b8; b9]).
  rewrite wr16_mid by done. by rewrite <- !app_assoc.
Qed.

Lemma stamped_reads tl ff ck suf : is_u16 tl → is_u16 ff →
  let h := st tl ff ck ++ suf in
  tget h 0 = b0 ∧ ip4_total_len h = tl ∧ ip4_flags_frag h = ff ∧ ip4_proto h = b9 ∧ ip4_id h = 256 * b4 + b5 ∧
  ip4_src h = rd32 (rest ++ suf) 0 ∧ ip4_dst h = rd32 (rest ++ suf) 4.
Proof.
  intros Ht Hf h. apply Forall_app in Hoct as [H6 _].
  repeat match goal with H : Forall is_u8 (_ :: _) |- _ => apply Forall_cons in H as [? H] | H : octets (_ :: _) |- _ => apply Forall_cons in H as [? H] end.
  subst h. unfold stamped. rewrite <- !app_assoc. split_and!; try done.
  - apply (rd16_be16 tl); done.
  - apply (rd16_be16 ff); done.
  - by apply (rd16_bytes b4 b5).
Qed.

(** The checksum written again over a header whose IHL names its octets. *)
Lemma recksum_stamped word swap tl ff ck suf : build word → is_u16 tl → is_u16 ff → is_u16 ck → 64 ≤ b0 →
  Z.of_nat (length (st tl ff ck)) = 4 * (b0 mod 16) →
  ∃ ck', is_u16 ck' ∧ ip4_recksum word swap (st tl ff ck ++ suf) = st tl ff ck' ++ suf ∧ 
    cksum_valid word swap (st tl ff ck') = true.
Proof.
  intros Hb Ht Hf Hc H0 Hl. assert (is_u16 0) as Hz by (unfold is_u16; lia). unfold ip4_recksum.
  rewrite set_cksum_stamped by done.
  set (P := [b0; b1] ++ be16 tl ++ [b4; b5] ++ be16 ff ++ [b8; b9]).
  assert (∀ x, st tl ff x = P ++ be16 x ++ rest) as Hst by (intros; unfold stamped, P; by rewrite <- !app_assoc).
  assert (∀ x, is_u16 x → octets (P ++ be16 x ++ rest)) as Ho by (intros; rewrite <- Hst; by apply stamped_octets).
  pose proof (Ho 0 Hz) as [HP [_ HR]%Forall_app]%Forall_app.
  assert (ip4_hdr_len (st tl ff 0 ++ suf) = 4 * (b0 mod 16)) as Hh.
  { rewrite ip4_hdr_len_eq. f_equal. unfold ip4_ihl. change (tget (st tl ff 0 ++ suf) _) with b0.
    unfold IDEMIP_IP4_IHL_MASK. rewrite land_0f. apply u8_id. unfold is_u8. pose proof (Z.mod_pos_bound b0 16). lia. }
  assert (length (st tl ff 0) = length (st tl ff ck)) as Hlen by done.
  rewrite Hh, <- Hl, Nat2Z.id, <- Hlen, take_app_length. unfold cksum_over.
    destruct (cksum_closes word swap 0 P rest (cksum_final (cksum_accum word swap 0 (P ++ be16 0 ++ rest)))) as [Hck Hv]; try done.
  - pose proof (words_sum_nonneg rest HR). unfold P in HP |- *. cbn [app] in HP |- *.
    do 2 apply Forall_cons in HP as [? HP]. pose proof (words_sum_nonneg _ HP). cbn [words_sum] in *. unfold is_u8 in *. lia.
  - rewrite <- Hst, Hlen, Hl. pose proof (Z.mod_pos_bound b0 16). lia.
  - exists (cksum_final (cksum_accum word swap 0 (P ++ be16 0 ++ rest))). split; [exact Hck|].
    split; [rewrite <- (Hst 0); apply set_cksum_stamped; by rewrite Hst|].
    unfold cksum_valid, cksum_over. rewrite Hst. apply Z.eqb_eq. exact Hv.
Qed.

(** The checks on such a header in front of its payload. *)
Lemma stamped_verifies word swap tl ff ck suf : is_u16 tl → is_u16 ff → b0 / 16 = 4 → 5 ≤ b0 mod 16 →
  Z.of_nat (length (st tl ff ck)) = 4 * (b0 mod 16) → cksum_valid word swap (st tl ff ck) = true →
  tl = Z.of_nat (length (st tl ff ck ++ suf)) →
  ip4_verify_all word swap (st tl ff ck ++ suf) tl = IDEMIP_OK ∧ ip4_hdr_len (st tl ff ck ++ suf) = 4 * (b0 mod 16).
Proof.
  intros Ht Hf Hv Hi Hl Hck Htl. destruct (stamped_reads tl ff ck suf Ht Hf) as (E0&Et&_). cbv zeta in E0, Et.
  pose proof (Z.mod_pos_bound b0 16 ltac:(lia)).
  assert (is_u8 b0) as Hb0. { apply Forall_app in Hoct as [H6 _]. by apply Forall_cons in H6 as [H6 _]. }
  assert (ip4_ihl (st tl ff ck ++ suf) = b0 mod 16) as Hihl.
  { unfold ip4_ihl, IDEMIP_IP4_OFF_VER_IHL. rewrite E0. unfold IDEMIP_IP4_IHL_MASK. rewrite land_0f. apply u8_id. unfold is_u8. lia. }
  assert (ip4_hdr_len (st tl ff ck ++ suf) = 4 * (b0 mod 16)) as Hh by (rewrite ip4_hdr_len_eq, Hihl; done).
  split; [|done]. rewrite length_app in Htl. unfold ip4_verify_all, ip4_version_ok, ip4_ihl_ok, ip4_len_ok, ip4_cksum_ok.
  rewrite Hihl, Hh, Et, <- Hl, Nat2Z.id, take_app_length, Hck. unfold ip4_version, IDEMIP_IP4_OFF_VER_IHL. rewrite E0.
  unfold IDEMIP_IP4_VER_SHIFT, IDEMIP_IP4_VER_MASK, IDEMIP_IPV4_HDR_LEN, IDEMIP_IP4_VERSION, IDEMIP_IP4_IHL_MIN, IDEMIP_IP4_IHL_MAX.
  rewrite Z.shiftr_div_pow2, land_0f by lia. change (2 ^ 4) with 16. rewrite Hv. change (u8 (4 mod 16)) with 4.
  unfold is_u16, is_u8 in *.
  rewrite (proj2 (Z.ltb_ge _ 20)), (proj2 (Z.leb_le 5 _)), (proj2 (Z.leb_le _ 15)), !(proj2 (Z.leb_le _ tl)) by lia. done.
Qed.
End Stamp.


(** ** The options a reduced header keeps *)
Lemma copy_loop_keeps dgram hl : octets dgram → hl ≤ 60 → hl ≤ Z.of_nat (length dgram) →
  ∀ fuel i K0, 0 ≤ i → hl - i < Z.of_nat fuel → (0 < fuel)%nat → Z.of_nat (length K0) ≤ i →
  ∃ K, octets K ∧ (i ≤ hl → Z.of_nat (length K) ≤ hl - i) ∧ (hl < i → K = []) ∧
    copy_loop fuel dgram hl i None (Z.of_nat (length K0)) = Some (None, Z.of_nat (length (K0 ++ K))) ∧
    ∀ o, copy_loop fuel dgram hl i (Some (wr o K0)) (Z.of_nat (length K0)) = Some (Some (wr o (K0 ++ K)), Z.of_nat (length (K0 ++ K))).
Proof.
  intros Ho H60 Hl. induction fuel as [|fuel IH]; intros i K0 Hi Hf H0 HK; [lia|]. clear H0. cbn [copy_loop].
  assert (∃ K, octets K ∧ (i ≤ hl → Z.of_nat (length K) ≤ hl - i) ∧ (hl < i → K = []) ∧
    Some (@None (list Z), Z.of_nat (length K0)) = Some (None, Z.of_nat (length (K0 ++ K))) ∧
    ∀ o, Some (Some (wr o K0), Z.of_nat (length K0)) = Some (Some (wr o (K0 ++ K)), Z.of_nat (length (K0 ++ K)))) as Hstop.
  { exists []. rewrite app_nil_r. split_and!; try done; [constructor|cbn; lia]. }
  destruct (Z.ltb_spec i hl) as [Hlt|]; cbn [negb]; [|exact Hstop].
  destruct (tget dgram i =? IDEMIP_IP4_FRAG_OPT_EOL); [exact Hstop|].
  set (single := tget dgram i =? IDEMIP_IP4_FRAG_OPT_NOP).
  destruct (negb single && (hl <=? i + 1)) eqn:E1; [exact Hstop|].
  set (step := if single then 1 else tget dgram (i + 1)).
  destruct (negb single && ((step <? IDEMIP_IP4_FRAG_OPT_MIN_LEN) || (hl <? i + step))) eqn:E2; [exact Hstop|].
  assert (1 ≤ step ≤ hl - i) as Hst.
  { subst step. destruct single; [lia|]. cbn [negb andb] in E2. apply orb_false_iff in E2 as [E2%Z.ltb_ge E3%Z.ltb_ge].
    unfold IDEMIP_IP4_FRAG_OPT_MIN_LEN in *. lia. }
  clearbody step single. clear E1 E2 Hstop. destruct (Z.land (tget dgram i) IDEMIP_IP4_FRAG_OPT_COPIED =? 0); cbn [negb].
  - destruct (IH (i + step) K0) as (K&HoK&HlK&HnK&Hcnt&Hw); try lia. exists K. split_and!; try done; lia.
  - set (opt := take (Z.to_nat step) (drop (Z.to_nat i) dgram)).
    assert (Z.of_nat (length opt) = step) as Hopt. { subst opt. rewrite length_take, length_drop. lia. }
    destruct (IH (i + step) (K0 ++ opt)) as (K&HoK&HlK&HnK&Hcnt&Hw); try lia.
    { rewrite length_app. lia. }
    exists (opt ++ K). rewrite !app_assoc. rewrite u16_id by (unfold is_u16; lia).
    replace (Z.of_nat (length K0) + step) with (Z.of_nat (length (K0 ++ opt))) by (rewrite length_app; lia).
    split_and!; try done.
    + apply Forall_app. split; [|done]. by apply Forall_take, Forall_drop.
    + intros _. rewrite length_app. specialize (HlK ltac:(lia)). lia.
    + lia.
    + intros o. cbn [fmap option_fmap option_map]. rewrite memcpy_wr by (rewrite length_drop; lia). apply Hw.
Qed.

Lemma copy_options_keeps dgram hl : octets dgram → 20 ≤ hl ≤ 60 → hl ≤ Z.of_nat (length dgram) →
  ∃ K, octets K ∧ Z.of_nat (length K) ≤ hl - 20 ∧
    ip4_frag_copy_options dgram hl None = Some (None, Z.of_nat (length K)) ∧
    ∀ o, ip4_frag_copy_options dgram hl (Some o) = Some (Some (wr o K), Z.of_nat (length K)).
Proof.
  intros Ho Hh Hl. destruct (copy_loop_keeps dgram hl Ho ltac:(lia) Hl 41%nat 20 [] ltac:(lia) ltac:(lia) ltac:(lia) ltac:(cbn; lia)) as (K&HK&Hn&_&H1&H2).
  exists K. split_and!; try done. lia.
Qed.

(** ** A fragment *)

(** [f] carries [payload] of [dgram], [units] into it: a header every check accepts, the datagram's identity, and the
    flag and offset that place it. *)
Definition piece (word : option nat) (swap : bool) (dgram : list Z) (units : Z) (more : bool) (payload f : list Z) : Prop :=
  octets f ∧ ip4_verify_all word swap f (Z.of_nat (length f)) = IDEMIP_OK ∧ ip4_total_len f = Z.of_nat (length f) ∧
  ip4_hdr_len f + Z.of_nat (length payload) = Z.of_nat (length f) ∧ drop (Z.to_nat (ip4_hdr_len f)) f = payload ∧
  ip4_frag_units f = units ∧ ip4_mf f = more ∧
  ip4_id f = ip4_id dgram ∧ ip4_proto f = ip4_proto dgram ∧ ip4_src f = ip4_src dgram ∧ ip4_dst f = ip4_dst dgram.

Lemma flags_units (m : bool) u : 0 ≤ u ≤ 8191 →
  let ff := u16 (Z.lor (if m then IDEMIP_IP4_FLAG_MF else 0) u) in
  is_u16 ff ∧ negb (Z.land ff IDEMIP_IP4_FLAG_MF =? 0) = m ∧ u16 (Z.land ff IDEMIP_IP4_FRAG_OFF_MASK) = u.
Proof.
  intros Hu ff. assert (ff = (if m then 8192 else 0) + u) as ->.
  { subst ff. destruct m; [|cbn [Z.lor]; apply u16_id; unfold is_u16; lia].
    change IDEMIP_IP4_FLAG_MF with (Z.shiftl 1 13). rewrite lor_shiftl by lia. apply u16_id. unfold is_u16. lia. }
  split; [unfold is_u16; destruct m; lia|]. split.
  - assert (∀ x, 0 ≤ x < 16384 → (Z.land x IDEMIP_IP4_FLAG_MF =? 0) = (x <? 8192)) as Hb.
    { intros x Hx. change IDEMIP_IP4_FLAG_MF with (2 ^ 13). 
      assert (Z.land x (2 ^ 13) = if Z.testbit x 13 then 2 ^ 13 else 0) as ->.
      { apply Z.bits_inj'. intros k Hk. rewrite Z.land_spec, Z.pow2_bits_eqb by lia.
        destruct (Z.testbit x 13) eqn:E; rewrite ?Z.bits_0, ?Z.pow2_bits_eqb by lia;
          destruct (Z.eqb_spec 13 k) as [<-|]; rewrite ?E, ?andb_false_r; done. }
      assert (Z.testbit x 13 = (8192 <=? x)) as ->.
      { rewrite Z.testbit_eqb by lia. change (2 ^ 13) with 8192. destruct (Z.leb_spec 8192 x).
        - apply Z.eqb_eq. Z.div_mod_to_equations. lia.
        - apply Z.eqb_neq. Z.div_mod_to_equations. lia. }
      destruct (Z.leb_spec 8192 x), (Z.ltb_spec x 8192); try lia; done. }
    rewrite Hb by (destruct m; lia). destruct m; [rewrite (proj2 (Z.ltb_ge _ _)) by lia|rewrite (proj2 (Z.ltb_lt _ _)) by lia]; done.
  - change IDEMIP_IP4_FRAG_OFF_MASK with (Z.ones 13). rewrite Z.land_ones by lia. change (2 ^ 13) with 8192.
    rewrite u16_id; destruct m; unfold is_u16; Z.div_mod_to_equations; lia.
Qed.

Lemma be16_of x y : is_u8 x → is_u8 y → [x; y] = be16 (256 * x + y) ∧ is_u16 (256 * x + y).
Proof. unfold is_u8, is_u16, be16. intros. split; [|lia]. f_equal; [|f_equal]; Z.div_mod_to_equations; lia. Qed.

(** The header of a datagram, its rewritten fields apart. *)
Lemma header_stamped dgram hl : octets dgram → (20 ≤ hl ≤ length dgram)%nat →
  ∃ b0 b1 b4 b5 b8 b9 rest tl ff ck, take hl dgram = stamped b0 b1 b4 b5 b8 b9 rest tl ff ck ∧ is_u16 tl ∧ is_u16 ff ∧ is_u16 ck ∧
    octets ([b0; b1; b4; b5; b8; b9] ++ rest) ∧ length rest = (hl - 12)%nat ∧ rest = take (hl - 12) (drop 12 dgram).
Proof.
  intros Ho Hl.
  do 12 (destruct dgram as [|? dgram]; [cbn in Hl; lia|]; apply Forall_cons in Ho as [? Ho]).
  assert (∃ k, hl = (12 + k)%nat) as [k ->] by (exists (hl - 12)%nat; lia).
  cbn [Nat.add take].
  match goal with |- context [?a :: ?b :: ?c :: ?d :: ?e :: ?f :: ?g :: ?h :: ?i :: ?j :: ?k' :: ?l :: take k ?r] =>
    destruct (be16_of c d) as [E1 U1]; [done|done|]; destruct (be16_of g h) as [E2 U2]; [done|done|];
    destruct (be16_of k' l) as [E3 U3]; [done|done|];
    exists a, b, e, f, i, j, (take k r), (256 * c + d), (256 * g + h), (256 * k' + l);
    unfold stamped; rewrite <- E1, <- E2, <- E3 end.
  split_and!; try done.
  - cbn [app]. repeat (apply Forall_cons; split); try done. by apply Forall_take.
  - rewrite length_take. cbn in Hl. lia.
  - cbn [drop]. f_equal. lia.
Qed.

(** Two lists that begin with the same eight octets hold the same addresses. *)
Lemma addresses_same (r x y : list Z) : (8 ≤ length r)%nat →
  rd32 (r ++ x) 0 = rd32 (r ++ y) 0 ∧ rd32 (r ++ x) 4 = rd32 (r ++ y) 4.
Proof. intros H. do 8 (destruct r as [|? r]; [cbn in H; lia|]). done. Qed.

Lemma stamped_piece word swap dgram b0 b1 b4 b5 b8 b9 r8 rest0 tl0 ff0 ck0 P0 b0' rest u (m : bool) ck payload :
  dgram = stamped b0 b1 b4 b5 b8 b9 (r8 ++ rest0) tl0 ff0 ck0 ++ P0 → octets ([b0; b1; b4; b5; b8; b9] ++ r8 ++ rest0) →
  is_u16 tl0 → is_u16 ff0 → (8 ≤ length r8)%nat →
  let tl := 4 * (b0' mod 16) + Z.of_nat (length payload) in
  let ff := u16 (Z.lor (if m then IDEMIP_IP4_FLAG_MF else 0) u) in
  let h := stamped b0' b1 b4 b5 b8 b9 (r8 ++ rest) tl ff ck in
  0 ≤ u ≤ 8191 → is_u16 tl → b0' / 16 = 4 → 5 ≤ b0' mod 16 → is_u16 ck → octets (r8 ++ rest) → octets payload →
  Z.of_nat (length (r8 ++ rest)) = 4 * (b0' mod 16) - 12 → cksum_valid word swap h = true →
  piece word swap dgram u m payload (h ++ payload).
Proof.
  intros Hd Hoct Ht0 Hf0 H8 tl ff h Hu Htl Hv Hi Hck Hr Hp Hlr Hcv.
  destruct (flags_units m u Hu) as (Hff&Hmf&Hun). fold ff in Hff, Hmf, Hun.
  assert (Z.of_nat (length h) = 4 * (b0' mod 16)) as Hlh.
  { transitivity (12 + Z.of_nat (length (r8 ++ rest))); [|lia]. subst h. unfold stamped. rewrite !length_app. cbn [length be16]. lia. }
  assert (octets ([b0'; b1; b4; b5; b8; b9] ++ r8 ++ rest)) as Ho.
  { pose proof Hoct as [H6 _]%Forall_app. apply Forall_cons in H6 as [_ H5]. apply Forall_app. split; [|done].
    apply Forall_cons. split; [|done]. unfold is_u8. Z.div_mod_to_equations. lia. }
  destruct (stamped_reads b0 b1 b4 b5 b8 b9 (r8 ++ rest0) Hoct tl0 ff0 ck0 P0 Ht0 Hf0) as (_&_&_&Ep&Ei&Es&Ed).
  destruct (stamped_reads b0' b1 b4 b5 b8 b9 (r8 ++ rest) Ho tl ff ck payload Htl Hff) as (_&Et&Ef&Ep'&Ei'&Es'&Ed').
  cbv zeta in *. fold h in Et, Ef, Ep', Ei', Es', Ed'. rewrite <- Hd in Ep, Ei, Es, Ed.
  destruct (stamped_verifies b0' b1 b4 b5 b8 b9 (r8 ++ rest) Ho word swap tl ff ck payload) as [Hver Hhl]; try done.
  { fold h. rewrite length_app. lia. }
  fold h in Hver, Hhl. assert (Z.of_nat (length (h ++ payload)) = tl) as Hlen by (rewrite length_app; lia).
  destruct (addresses_same r8 (rest0 ++ P0) (rest ++ payload) H8) as [A1 A2].
  unfold piece. rewrite Hlen, Hhl. split_and!; try done.
  - apply Forall_app. split; [|done]. apply stamped_octets; done.
  - rewrite <- Hlh, Nat2Z.id. apply drop_app_length.
  - unfold ip4_frag_units. by rewrite Ef.
  - unfold ip4_mf. by rewrite Ef.
  - congruence.
  - rewrite Es, Es', <- !app_assoc. done.
  - rewrite Ed, Ed', <- !app_assoc. done.
Qed.

(** ** The first fragment *)
Lemma emit_first_piece word swap ctx dgram out chunk : build word → octets dgram → 
  20 ≤ c_hdr_len ctx ≤ 60 → c_hdr_len ctx = 4 * (tget dgram 0 mod 16) → tget dgram 0 / 16 = 4 →
  0 ≤ chunk → c_hdr_len ctx + chunk ≤ Z.of_nat (length dgram) → c_hdr_len ctx + chunk ≤ 65535 → 0 ≤ c_units ctx ≤ 8191 →
  ∃ f, ip4_frag_emit_first word swap ctx dgram out chunk = wr out f ∧
    piece word swap dgram (c_units ctx) true (take (Z.to_nat chunk) (drop (Z.to_nat (c_hdr_len ctx)) dgram)) f ∧
    Z.of_nat (length f) = c_hdr_len ctx + chunk.
Proof.
  intros Hb Ho Hh Hhl Hv Hc Hl Hl' Hu. set (hl := c_hdr_len ctx) in *.
  destruct (header_stamped dgram (Z.to_nat hl) Ho) as (b0&b1&b4&b5&b8&b9&rest&tl&ff&ck&Et&Htl&Hff&Hck&Hoct&Hlr&_); [lia|].
  assert (dgram = stamped b0 b1 b4 b5 b8 b9 rest tl ff ck ++ drop (Z.to_nat hl) dgram) as Hd by (rewrite <- Et, take_drop; done).
  assert (tget dgram 0 = b0) as E0 by (by rewrite Hd). rewrite E0 in *.
  set (pay := take (Z.to_nat chunk) (drop (Z.to_nat hl) dgram)).
  assert (Z.of_nat (length pay) = chunk) as Hpl by (subst pay; rewrite length_take, length_drop; lia).
  destruct (flags_units true (c_units ctx) Hu) as (Hff'&_&_). set (ff' := u16 _) in Hff'.
  unfold ip4_frag_emit_first. fold hl. change (u16 (Z.lor IDEMIP_IP4_FLAG_MF (c_units ctx))) with ff'.
  rewrite (u16_id (hl + chunk)) by (unfold is_u16; lia).
  assert (memcpy out 0 dgram hl = stamped b0 b1 b4 b5 b8 b9 rest tl ff ck ++ drop (Z.to_nat hl) out) as ->.
  { unfold memcpy. rewrite Et. done. }
  rewrite set_total_len_stamped by (unfold is_u16; lia). rewrite set_flags_stamped by done.
  assert (∀ x y z, Z.of_nat (length (stamped b0 b1 b4 b5 b8 b9 rest x y z)) = hl) as Hsl.
  { intros. unfold stamped. rewrite !length_app, Hlr. cbn [length be16]. lia. }
  destruct (recksum_stamped b0 b1 b4 b5 b8 b9 rest Hoct word swap (hl + chunk) ff' ck (drop (Z.to_nat hl) out)) as (ck'&Hck'&->&Hcv); try done.
  { unfold is_u16. lia. } { Z.div_mod_to_equations. lia. } { rewrite Hsl. done. }
  set (h := stamped b0 b1 b4 b5 b8 b9 rest (hl + chunk) ff' ck') in *.
  assert (h ++ drop (Z.to_nat hl) out = wr out h) as -> by (unfold wr; do 2 f_equal; specialize (Hsl (hl + chunk) ff' ck'); fold h in Hsl; lia).
  assert (Z.of_nat (length h) = hl) as E by apply Hsl.
  exists (h ++ pay). split; [rewrite <- E at 1; apply memcpy_wr; rewrite length_drop; lia|]. split; [|rewrite length_app; lia].
  pose proof (stamped_piece word swap dgram b0 b1 b4 b5 b8 b9 rest [] tl ff ck (drop (Z.to_nat hl) dgram) b0 [] (c_units ctx) true ck' pay) as HP.
  rewrite app_nil_r in HP. cbv zeta in HP. fold ff' in HP. replace (4 * (b0 mod 16) + Z.of_nat (length pay)) with (hl + chunk) in HP by lia.
  fold h in HP. apply HP; try done; try (unfold is_u16; lia); try lia.
  - by apply Forall_app in Hoct as [_ ?].
  - by apply Forall_take, Forall_drop.
Qed.

(** ** The others *)

(** The octets of a header that keeps [kept] octets of options. *)
Definition reduced (kept : Z) : Z := 4 * ((20 + kept + 3) / 4).

Lemma set_ver_ihl_stamped b0 b1 b4 b5 b8 b9 rest tl ff ck suf ihl : 0 ≤ ihl < 16 →
  ip4_set_ver_ihl (stamped b0 b1 b4 b5 b8 b9 rest tl ff ck ++ suf) ihl = stamped (64 + ihl) b1 b4 b5 b8 b9 rest tl ff ck ++ suf.
Proof.
  intros H. unfold ip4_set_ver_ihl, IDEMIP_IP4_IHL_MASK. rewrite land_0f, (Z.mod_small ihl 16) by lia.
  unfold IDEMIP_IP4_VERSION, IDEMIP_IP4_VER_SHIFT. rewrite lor_shiftl by lia. rewrite u8_id by (unfold is_u8; lia). done.
Qed.

Lemma emit_rest_piece word swap ctx dgram out chunk units more K : build word → octets dgram → octets K →
  (∀ o, ip4_frag_copy_options dgram (c_hdr_len ctx) (Some o) = Some (Some (wr o K), Z.of_nat (length K))) →
  Z.of_nat (length K) ≤ c_hdr_len ctx - 20 → c_hdr_len ctx ≤ 60 → c_hdr_len ctx = 4 * (tget dgram 0 mod 16) →
  c_hdr2_len ctx = reduced (Z.of_nat (length K)) → 0 ≤ c_cursor ctx →
  0 ≤ chunk → c_hdr_len ctx + c_cursor ctx + chunk ≤ Z.of_nat (length dgram) → c_hdr2_len ctx + chunk ≤ 65535 → 0 ≤ units ≤ 8191 →
  ∃ f, ip4_frag_emit_rest word swap ctx dgram out chunk units more = Some (wr out f) ∧
    piece word swap dgram units more (take (Z.to_nat chunk) (drop (Z.to_nat (c_hdr_len ctx + c_cursor ctx)) dgram)) f ∧
    Z.of_nat (length f) = c_hdr2_len ctx + chunk.
Proof.
  intros Hb Ho HK Hcopy HlK Hh Hhl Hh2 Hcur Hc Hl Hl' Hu. set (hl := c_hdr_len ctx) in *. set (h2 := c_hdr2_len ctx) in *.
  assert (20 + Z.of_nat (length K) ≤ h2 ≤ 60 ∧ h2 mod 4 = 0) as [Hh2b Hh2m] by (rewrite Hh2; unfold reduced; Z.div_mod_to_equations; lia).
  destruct (header_stamped dgram 20 Ho) as (b0&b1&b4&b5&b8&b9&r8&tl&ff&ck&Et&Htl&Hff&Hck&Hoct&Hlr&_); [lia|].
  assert (dgram = stamped b0 b1 b4 b5 b8 b9 r8 tl ff ck ++ drop 20 dgram) as Hd by (rewrite <- Et, take_drop; done).
  set (pay := take (Z.to_nat chunk) (drop (Z.to_nat (hl + c_cursor ctx)) dgram)).
  assert (Z.of_nat (length pay) = chunk) as Hpl by (subst pay; rewrite length_take, length_drop; lia).
  destruct (flags_units more units Hu) as (Hff'&_&_). set (ff' := u16 _) in Hff'.
  set (pad := replicate (Z.to_nat (h2 - 20 - Z.of_nat (length K))) 0).
  assert (length (stamped b0 b1 b4 b5 b8 b9 r8 tl ff ck) = 20%nat) as Hl20.
  { unfold stamped. rewrite !length_app, Hlr. done. }
  unfold ip4_frag_emit_rest. fold hl h2. change (u16 (Z.lor (if more then IDEMIP_IP4_FLAG_MF else 0) units)) with ff'.
  change (Z.to_nat IDEMIP_IPV4_HDR_LEN) with 20%nat. rewrite (u16_id (h2 + chunk)) by (unfold is_u16; lia).
  assert (memcpy out 0 dgram IDEMIP_IPV4_HDR_LEN = wr out (stamped b0 b1 b4 b5 b8 b9 r8 tl ff ck)) as ->.
  { unfold memcpy, wr. rewrite Hl20. change (Z.to_nat IDEMIP_IPV4_HDR_LEN) with 20%nat. by rewrite Et. }
  rewrite Hcopy. cbn [mbind option_bind from_option id]. set (D := stamped b0 b1 b4 b5 b8 b9 r8 tl ff ck) in *.
  assert (take 20 (wr out D) ++ wr (drop 20 (wr out D)) K = wr out (D ++ K)) as ->.
  { rewrite <- Hl20, wr_take, wr_drop. unfold wr at 1. apply wr_app. }
  assert (IDEMIP_IPV4_HDR_LEN + Z.of_nat (length K) = Z.of_nat (length (D ++ K))) as -> by (unfold IDEMIP_IPV4_HDR_LEN; rewrite length_app, Hl20; lia).
  change IDEMIP_IPV4_HDR_LEN with 20. rewrite memset_wr by lia. fold pad. change IDEMIP_IP4_FRAG_OPT_EOL with 0. fold pad.
  set (rest := K ++ pad). assert (Z.of_nat (length (r8 ++ rest)) = h2 - 12) as Hlrest.
  { subst rest pad. rewrite !length_app, length_replicate, Hlr. lia. }
  assert (octets rest) as Hrest. { apply Forall_app. split; [done|]. apply Forall_replicate. unfold is_u8. lia. }
  assert (octets ([b0; b1; b4; b5; b8; b9] ++ r8 ++ rest)) as Hoct2.
  { rewrite app_assoc. apply Forall_app. done. }
  assert (∀ x y z t, Z.of_nat (length (stamped x b1 b4 b5 b8 b9 (r8 ++ rest) y z t)) = h2) as Hsl.
  { intros. transitivity (12 + Z.of_nat (length (r8 ++ rest))); [|lia]. unfold stamped. rewrite !length_app. cbn [length be16]. lia. }
  assert (wr out ((D ++ K) ++ pad) = stamped b0 b1 b4 b5 b8 b9 (r8 ++ rest) tl ff ck ++ drop (Z.to_nat h2) out) as ->.
  { unfold wr. replace ((D ++ K) ++ pad) with (stamped b0 b1 b4 b5 b8 b9 (r8 ++ rest) tl ff ck).
    - do 2 f_equal. specialize (Hsl b0 tl ff ck). lia.
    - subst D rest. unfold stamped. by rewrite <- !app_assoc. }
  unfold IDEMIP_IP4_IHL_SHIFT. rewrite Z.shiftr_div_pow2 by lia. change (2 ^ 2) with 4.
  set (b0' := 64 + h2 / 4). assert (5 ≤ h2 / 4 ≤ 15) as Hq by (Z.div_mod_to_equations; lia).
  rewrite set_ver_ihl_stamped by lia. fold b0'.
  assert (b0' mod 16 = h2 / 4 ∧ b0' / 16 = 4 ∧ 4 * (h2 / 4) = h2) as (Hm16&Hd16&H4) by (subst b0'; Z.div_mod_to_equations; lia).
  assert (octets ([b0'; b1; b4; b5; b8; b9] ++ r8 ++ rest)) as Hoct3.
  { apply Forall_cons in Hoct2 as [_ Hoct2]. apply Forall_cons. split; [unfold is_u8; subst b0'; lia|done]. }
  rewrite set_total_len_stamped by (unfold is_u16; lia). rewrite set_flags_stamped by done.
  destruct (recksum_stamped b0' b1 b4 b5 b8 b9 (r8 ++ rest) Hoct3 word swap (h2 + chunk) ff' ck (drop (Z.to_nat h2) out)) as (ck'&Hck'&->&Hcv); try done.
  { unfold is_u16. lia. } { subst b0'. lia. } { rewrite Hsl. lia. }
  set (h := stamped b0' b1 b4 b5 b8 b9 (r8 ++ rest) (h2 + chunk) ff' ck') in *.
  assert (Z.of_nat (length h) = h2) as E by apply Hsl.
  assert (h ++ drop (Z.to_nat h2) out = wr out h) as -> by (unfold wr; do 2 f_equal; lia).
  exists (h ++ pay). split; [rewrite <- E at 1; f_equal; apply memcpy_wr; rewrite length_drop; lia|].
  split; [|rewrite length_app; lia].
  pose proof (stamped_piece word swap dgram b0 b1 b4 b5 b8 b9 r8 [] tl ff ck (drop 20 dgram) b0' rest units more ck' pay) as HP.
  rewrite app_nil_r in HP. cbv zeta in HP. fold ff' in HP. replace (4 * (b0' mod 16) + Z.of_nat (length pay)) with (h2 + chunk) in HP by lia.
  fold h in HP. apply HP; try done; try (unfold is_u16; lia); try lia.
  - apply Forall_app. split; [|done]. by apply Forall_app in Hoct as [_ ?].
  - by apply Forall_take, Forall_drop.
Qed.
End Ip4FragFacts.
