(* ===== verification/Ip4FragThms.v ===== *)
(** * What fragmentation guarantees

    The caller's loop over [idemip_ip4_frag_next] ends, and the fragments it sends carry the datagram's data
    once, in order, each within the MTU and each a datagram every check accepts. *)
From S2P Require Import Prelude Base Wire Ipv4 Ip4Frag Ip4FragFacts.

Module Ip4FragThms.
Import Endian Checksum Wire Ipv4 Ip4Frag Ip4FragFacts.

Lemma land_unit x : 0 ≤ x < 65536 → u16 (Z.land x (u16 (Z.lnot IP4_FRAG_UNIT_MASK))) = 8 * (x / 8).
Proof.
  intros Hx. change (u16 (Z.lnot IP4_FRAG_UNIT_MASK)) with (Z.shiftl (Z.ones 13) 3).
  assert (Z.land x (Z.shiftl (Z.ones 13) 3) = Z.shiftl (Z.land (Z.shiftr x 3) (Z.ones 13)) 3) as ->.
  { apply Z.bits_inj'. intros k Hk. rewrite Z.land_spec, !Z.shiftl_spec, Z.land_spec by done.
    destruct (Z.lt_ge_cases k 3); [by rewrite !(Z.testbit_neg_r _ (k - 3)), andb_false_r by lia|].
    rewrite Z.shiftr_spec by lia. do 2 f_equal. lia. }
  rewrite Z.land_ones, Z.shiftr_div_pow2, Z.shiftl_mul_pow2 by lia. wrap.
Qed.

Lemma land_unit_mask x : Z.land x IP4_FRAG_UNIT_MASK = x mod 8.
Proof. change IP4_FRAG_UNIT_MASK with (Z.ones 3). by rewrite Z.land_ones by lia. Qed.

Section Cut.
Variables (word : option nat) (swap : bool).
Hypothesis Hword : build word.

(** ** The caller's loop *)

(** [while (Ip4Frag.next(work), io->status == IDEMIP_OK) send(buf, io->len)]; [None] is a loop still going after [fuel] calls. *)
Fixpoint pieces (fuel : nat) (w : Work) : option (list (list Z) * Work) :=
  match fuel with
  | O => None
  | S fuel' =>
      w ← idemip_ip4_frag_next word swap w;
      if bool_decide (io_status (w_io w) = IDEMIP_OK) then
        '(l, w') ← pieces fuel' w;
        Some (take (Z.to_nat (io_len (w_io w))) (default [] (n_out (next_args (w_io w)))) :: l, w')
      else Some ([], w)
  end.

(** Fragments of [dgram] that carry [data] from [units] on: in order, on eight-octet boundaries, within the MTU. *)
Fixpoint laid (dgram : list Z) (mtu units : Z) (data : list Z) (l : list (list Z)) : Prop :=
  match l with
  | [] => False
  | f :: l' =>
      Z.of_nat (length f) ≤ mtu ∧ ip4_hdr_len f ≤ ip4_hdr_len dgram ∧
      match l' with
      | [] => piece word swap dgram units (ip4_mf dgram) data f
      | _ => ∃ d d', data = d ++ d' ∧ d ≠ [] ∧ d' ≠ [] ∧ Z.of_nat (length d) mod 8 = 0 ∧ piece word swap dgram units true d f ∧
                     laid dgram mtu (units + Z.of_nat (length d) / 8) d' l'
      end
  end.

(** A datagram every check accepts and the room its fragments need. *)
Definition datagram (dgram : list Z) (len : Z) : Prop :=
  octets dgram ∧ ip4_verify_all word swap dgram len = IDEMIP_OK ∧ len ≤ Z.of_nat (length dgram).
Definition payload_of (dgram : list Z) : list Z :=
  take (Z.to_nat (ip4_payload_len dgram)) (drop (Z.to_nat (ip4_hdr_len dgram)) dgram).

(** *** A split in progress *)
Definition cutting (dgram : list Z) (mtu : Z) (K : list Z) (cursor index : Z) (w : Work) : Prop :=
  let c := w_ctx w in
  c_ready c = IP4_FRAG_READY ∧ c_open c = true ∧ c_split c = true ∧ c_dgram c = Some dgram ∧
  c_hdr_len c = ip4_hdr_len dgram ∧ c_hdr2_len c = reduced (Z.of_nat (length K)) ∧
  c_data_len c = ip4_payload_len dgram ∧ c_units c = ip4_frag_units dgram ∧ c_omf c = ip4_mf dgram ∧
  c_chunk0 c = 8 * ((mtu - c_hdr_len c) / 8) ∧ c_chunk c = 8 * ((mtu - c_hdr2_len c) / 8) ∧
  c_cursor c = cursor ∧ c_index c = index ∧ c_done c = bool_decide (c_data_len c ≤ cursor).

(** What the test left behind of a datagram it lets be cut. *)
Definition cuttable (dgram : list Z) (mtu : Z) (K : list Z) : Prop :=
  68 ≤ mtu < 65536 ∧ mtu < ip4_total_len dgram ∧ ip4_frag_units dgram + ip4_payload_len dgram / 8 ≤ 8191 ∧
  (ip4_mf dgram = true → ip4_payload_len dgram mod 8 = 0) ∧
  octets K ∧ Z.of_nat (length K) ≤ ip4_hdr_len dgram - 20 ∧
  (∀ o, ip4_frag_copy_options dgram (ip4_hdr_len dgram) (Some o) = Some (Some (wr o K), Z.of_nat (length K))).

Definition roomy (mtu : Z) (w : Work) : Prop :=
  ∃ out, n_out (next_args (w_io w)) = Some out ∧ mtu ≤ n_cap (next_args (w_io w)) ≤ Z.of_nat (length out).

Lemma datagram_facts dgram len : datagram dgram len →
  20 ≤ ip4_hdr_len dgram ≤ 60 ∧ ip4_hdr_len dgram = 4 * (tget dgram 0 mod 16) ∧ tget dgram 0 / 16 = 4 ∧
  ip4_total_len dgram = ip4_hdr_len dgram + ip4_payload_len dgram ∧ 0 ≤ ip4_payload_len dgram ∧
  ip4_total_len dgram ≤ 65535 ∧ ip4_total_len dgram ≤ len ∧ Z.of_nat (length (payload_of dgram)) = ip4_payload_len dgram ∧
  0 ≤ ip4_frag_units dgram ≤ 8191.
Proof.
  intros (Ho&Hv&Hl). destruct (ip4_verify_ok word swap dgram len Ho Hv) as (H1&H2&H3&H4). unfold IDEMIP_IPV4_HDR_LEN, is_u16 in *.
  destruct (ip4_ihl_eq dgram Ho) as [Ei _]. pose proof (ip4_hdr_len_eq dgram) as Eh. rewrite Ei in Eh.
  assert (tget dgram 0 / 16 = 4) as Hv4.
  { unfold ip4_verify_all in Hv. repeat split_if; try done. bool_prop. unfold ip4_version_ok in *. bool_prop.
    rewrite <- ip4_version_eq by done. done. }
  split_and!; try lia.
  - unfold payload_of. rewrite length_take, length_drop. lia.
  - apply (u16_range (Z.land (ip4_flags_frag dgram) IDEMIP_IP4_FRAG_OFF_MASK)).
  - unfold ip4_frag_units. change IDEMIP_IP4_FRAG_OFF_MASK with (Z.ones 13). rewrite Z.land_ones by lia.
    pose proof (Z.mod_pos_bound (ip4_flags_frag dgram) (2 ^ 13) ltac:(lia)). rewrite u16_id by (unfold is_u16; lia). lia.
Qed.

Lemma payload_chunk dgram len cursor chunk : datagram dgram len → 0 ≤ cursor → 0 ≤ chunk → cursor + chunk ≤ ip4_payload_len dgram →
  take (Z.to_nat chunk) (drop (Z.to_nat (ip4_hdr_len dgram + cursor)) dgram) =
  take (Z.to_nat chunk) (drop (Z.to_nat cursor) (payload_of dgram)).
Proof.
  intros Hd Hc Hk Hl. destruct (datagram_facts dgram len Hd) as (Hh&_). unfold payload_of.
  rewrite Z2Nat.inj_add, <- drop_drop by lia. rewrite !take_drop_commute, take_take. do 3 f_equal. lia.
Qed.

(** The data octets the fragment at the cursor has room for. *)
Definition room_at (dgram : list Z) (mtu : Z) (K : list Z) (index : Z) : Z :=
  8 * ((mtu - (if index =? 0 then ip4_hdr_len dgram else reduced (Z.of_nat (length K)))) / 8).
Definition chunk_at (dgram : list Z) (mtu : Z) (K : list Z) (cursor index : Z) : Z :=
  Z.min (room_at dgram mtu K index) (ip4_payload_len dgram - cursor).

Lemma room_at_bounds dgram len mtu K index : datagram dgram len → cuttable dgram mtu K →
  20 ≤ reduced (Z.of_nat (length K)) ≤ ip4_hdr_len dgram ∧ 8 ≤ room_at dgram mtu K index ∧ room_at dgram mtu K index mod 8 = 0 ∧
  (if index =? 0 then ip4_hdr_len dgram else reduced (Z.of_nat (length K))) + room_at dgram mtu K index ≤ mtu.
Proof.
  intros Hd (Hm&Hmt&_&_&_&HK&_). destruct (datagram_facts dgram len Hd) as (Hh&Hh4&_).
  assert (20 ≤ reduced (Z.of_nat (length K)) ≤ ip4_hdr_len dgram) as Hr by (unfold reduced; Z.div_mod_to_equations; lia).
  unfold room_at. destruct (index =? 0); Z.div_mod_to_equations; lia.
Qed.

Lemma cut_step dgram len mtu K cursor index w : datagram dgram len → cuttable dgram mtu K → cutting dgram mtu K cursor index w → roomy mtu w →
  0 ≤ cursor < ip4_payload_len dgram → cursor mod 8 = 0 → 0 ≤ index ≤ cursor / 8 → (index = 0 ↔ cursor = 0) →
  let chunk := chunk_at dgram mtu K cursor index in
  ∃ f w', idemip_ip4_frag_next word swap w = Some w' ∧ io_status (w_io w') = IDEMIP_OK ∧
    take (Z.to_nat (io_len (w_io w'))) (default [] (n_out (next_args (w_io w')))) = f ∧
    cutting dgram mtu K (cursor + chunk) (index + 1) w' ∧ roomy mtu w' ∧ Z.of_nat (length f) ≤ mtu ∧ ip4_hdr_len f ≤ ip4_hdr_len dgram ∧
    piece word swap dgram (ip4_frag_units dgram + cursor / 8) (if cursor + chunk <? ip4_payload_len dgram then true else ip4_mf dgram)
      (take (Z.to_nat chunk) (drop (Z.to_nat cursor) (payload_of dgram))) f.
Proof.
  intros Hd Hcut Hc Hroom Hcur Hc8 Hix Hix0 chunk.
  destruct (datagram_facts dgram len Hd) as (Hh&Hh4&Hv4&Htot&Hp0&Htl&Hlen&Hpl&Hun).
  destruct (room_at_bounds dgram len mtu K index Hd Hcut) as (Hred&Hr8&Hrm&Hfit).
  pose proof Hcut as (Hm&Hmt&Hunits&Hmf8&HoK&HlK&Hcopy).
  destruct Hc as (C1&C2&C3&C4&C5&C6&C7&C8&C9&C10&C11&C12&C13&C14). destruct Hroom as (out&Hout&Hcap).
  assert (0 < chunk ≤ ip4_payload_len dgram - cursor ∧ chunk ≤ room_at dgram mtu K index) as (Hch&Hchr) by (subst chunk; unfold chunk_at; lia).
  assert (write_chunk (w_ctx w) = chunk) as Hwc.
  { unfold write_chunk. rewrite C3, C13, C7, C12, C10, C11, C5, C6. cbv zeta.
    rewrite (u16_id (ip4_payload_len dgram - cursor)) by (unfold is_u16; lia). subst chunk. unfold chunk_at, room_at.
    destruct (index =? 0); match goal with |- (if ?a <? ?b then _ else _) = _ => destruct (Z.ltb_spec a b) end; lia. }
  set (hl := if index =? 0 then ip4_hdr_len dgram else reduced (Z.of_nat (length K))) in *.
  assert (∃ f, (if index =? 0 then Some (ip4_frag_emit_first word swap (w_ctx w) dgram out chunk)
     else ip4_frag_emit_rest word swap (w_ctx w) dgram out chunk (ip4_frag_units dgram + cursor / 8)
            (if cursor + chunk <? ip4_payload_len dgram then true else ip4_mf dgram)) = Some (wr out f) ∧
     piece word swap dgram (ip4_frag_units dgram + cursor / 8) (if cursor + chunk <? ip4_payload_len dgram then true else ip4_mf dgram)
       (take (Z.to_nat chunk) (drop (Z.to_nat cursor) (payload_of dgram))) f ∧ Z.of_nat (length f) = hl + chunk) as (f&Hf&Hpiece&Hlf).
  { rewrite <- (payload_chunk dgram len) by (done || lia). destruct Hd as (Ho&Hv&Hl). destruct (Z.eqb_spec index 0) as [E|E].
    - assert (cursor = 0) as -> by tauto.
      destruct (emit_first_piece word swap (w_ctx w) dgram out chunk) as (f&Hf&Hp&Hfl); try done; try lia.
      exists f. rewrite Hf, C5 in *. rewrite C8 in Hp. split; [done|]. split; [|done]. rewrite Z.add_0_r in *.
      change (0 / 8) with 0. rewrite Z.add_0_r, (proj2 (Z.ltb_lt (0 + chunk) _)) by lia. done.
    - destruct (emit_rest_piece word swap (w_ctx w) dgram out chunk (ip4_frag_units dgram + cursor / 8)
        (if cursor + chunk <? ip4_payload_len dgram then true else ip4_mf dgram) K) as (f&Hf&Hp&Hfl); rewrite ?C5, ?C12, ?C6; try done; try lia.
      + Z.div_mod_to_equations. lia.
      + exists f. rewrite Hf, C5, C12, C6 in *. done. }
  unfold idemip_ip4_frag_next, ip4_frag_ready. change (c_ready (w_ctx (w <| w_io := _ |>))) with (c_ready (w_ctx w)).
  rewrite C1. change (negb (IP4_FRAG_READY =? IP4_FRAG_READY)) with false. cbv iota. unfold ip4_frag_write. cbv zeta.
  change (w_ctx (_ <| w_io := _ |>)) with (w_ctx w). change (next_args (w_io (_ <| w_io := _ |>))) with (next_args (w_io w)).
  rewrite C2, C14, C3, C13, C7, C12, C9, Hwc, Hout, C4, C5, C6, C8. cbn [negb orb]. cbv iota. fold hl.
  rewrite (bool_decide_eq_false_2 (ip4_payload_len dgram ≤ cursor)) by lia. cbn [negb from_option id].
  rewrite (u16_id (hl + chunk)) by (unfold is_u16; lia). rewrite (proj2 (Z.ltb_ge (n_cap _) _)) by lia.
  unfold IDEMIP_IP4_FRAG_SHIFT. rewrite Z.shiftr_div_pow2 by lia. change (2 ^ 3) with 8.
  rewrite (u16_id (ip4_frag_units dgram + cursor / 8)) by (unfold is_u16; Z.div_mod_to_equations; lia).
  rewrite Hf. cbn [mbind option_bind]. rewrite (u16_id (cursor + chunk)) by (unfold is_u16; lia).
  rewrite (u16_id (index + 1)) by (unfold is_u16; Z.div_mod_to_equations; lia).
  exists f. eexists. split; [reflexivity|]. split; [done|]. split_and!.
  - change (take (Z.to_nat (hl + chunk)) (wr out f) = f). rewrite <- Hlf, Nat2Z.id. apply wr_take.
  - unfold cutting. split_and!; try done.
    change ((ip4_payload_len dgram <=? cursor + chunk) = bool_decide (c_data_len (w_ctx w) ≤ cursor + chunk)). rewrite C7.
    destruct (Z.leb_spec (ip4_payload_len dgram) (cursor + chunk)); [by rewrite bool_decide_eq_true_2|by rewrite bool_decide_eq_false_2 by lia].
  - exists (wr out f). split; [done|]. change (mtu ≤ n_cap (next_args (w_io w)) ≤ Z.of_nat (length (wr out f))).
    unfold wr. rewrite length_app, length_drop. lia.
  - lia.
  - destruct Hpiece as (_&_&_&Hhf&_). rewrite length_take, length_drop in Hhf. subst hl. destruct (index =? 0); lia.
  - done.
Qed.

(** The cursor at the end of the data: the call reports that every fragment has been written. *)
Lemma cut_done dgram mtu K cursor index w : cutting dgram mtu K cursor index w → ip4_payload_len dgram ≤ cursor →
  ∃ w', idemip_ip4_frag_next word swap w = Some w' ∧ io_status (w_io w') = IDEMIP_ERR ∧ io_err (w_io w') = IDEMIP_IP4_FRAG_ERR_DONE.
Proof.
  intros (C1&C2&_&_&_&_&C7&_&_&_&_&C12&_&C14) Hle. unfold idemip_ip4_frag_next, ip4_frag_ready.
  change (c_ready (w_ctx (w <| w_io := _ |>))) with (c_ready (w_ctx w)). rewrite C1.
  change (negb (IP4_FRAG_READY =? IP4_FRAG_READY)) with false. cbv iota. unfold ip4_frag_write. cbv zeta.
  change (w_ctx (_ <| w_io := _ |>)) with (w_ctx w). rewrite C2, C14, C7, bool_decide_eq_true_2 by done. cbn [negb]. by eexists.
Qed.

(** From any point of a split: the rest of the fragments, then the end. *)
Lemma cut_rest dgram len mtu K : datagram dgram len → cuttable dgram mtu K → ∀ fuel cursor index w,
  cutting dgram mtu K cursor index w → roomy mtu w → 0 ≤ cursor < ip4_payload_len dgram → cursor mod 8 = 0 →
  0 ≤ index ≤ cursor / 8 → (index = 0 ↔ cursor = 0) → ip4_payload_len dgram - cursor < 8 * Z.of_nat fuel →
  ∃ l w', pieces (S fuel) w = Some (l, w') ∧ io_err (w_io w') = IDEMIP_IP4_FRAG_ERR_DONE ∧
    laid dgram mtu (ip4_frag_units dgram + cursor / 8) (drop (Z.to_nat cursor) (payload_of dgram)) l ∧
    (chunk_at dgram mtu K cursor index < ip4_payload_len dgram - cursor → (2 ≤ length l)%nat).
Proof.
  intros Hd Hcut. induction fuel as [|fuel IH]; intros cursor index w Hc Hr Hcur Hc8 Hix Hix0 Hf; [lia|].
  destruct (cut_step dgram len mtu K cursor index w Hd Hcut Hc Hr Hcur Hc8 Hix Hix0) as (f&w1&Hn&Hok&Hfr&Hc1&Hr1&Hlf&Hhf&Hp).
  destruct (room_at_bounds dgram len mtu K index Hd Hcut) as (_&Hr8&Hrm&_).
  destruct (datagram_facts dgram len Hd) as (_&_&_&_&_&_&_&Hpl&_).
  set (chunk := chunk_at dgram mtu K cursor index) in *.
  assert (0 < chunk ≤ ip4_payload_len dgram - cursor) as Hch by (subst chunk; unfold chunk_at; lia).
  change (pieces (S (S fuel)) w) with (w ← idemip_ip4_frag_next word swap w;
      if bool_decide (io_status (w_io w) = IDEMIP_OK) then
        '(l, w') ← pieces (S fuel) w;
        Some (take (Z.to_nat (io_len (w_io w))) (default [] (n_out (next_args (w_io w)))) :: l, w')
      else Some ([], w)).
  rewrite Hn. cbn [mbind option_bind]. rewrite bool_decide_eq_true_2 by done. rewrite Hfr.
  destruct (Z.ltb_spec (cursor + chunk) (ip4_payload_len dgram)) as [Hlt|Hge].
  - assert (chunk = room_at dgram mtu K index) as Hcr by (subst chunk; unfold chunk_at in *; lia).
    destruct (IH (cursor + chunk) (index + 1) w1) as (l&w2&Hpi&Hdone&Hlaid&_); try done; try lia.
    { rewrite Hcr. Z.div_mod_to_equations. lia. } { Z.div_mod_to_equations. lia. }
    rewrite Hpi. exists (f :: l), w2. split; [done|]. split; [done|]. split.
    + destruct l as [|f2 l]; [done|]. split; [done|]. split; [done|].
      exists (take (Z.to_nat chunk) (drop (Z.to_nat cursor) (payload_of dgram))), (drop (Z.to_nat (cursor + chunk)) (payload_of dgram)).
      assert (Z.of_nat (length (take (Z.to_nat chunk) (drop (Z.to_nat cursor) (payload_of dgram)))) = chunk) as Hlc.
      { rewrite length_take, length_drop. lia. }
      split_and!.
      * rewrite Z2Nat.inj_add, <- drop_drop by lia. by rewrite take_drop.
      * intros E. rewrite E in Hlc. cbn in Hlc. lia.
      * intros E%(f_equal length). rewrite length_drop in E. cbn in E. lia.
      * rewrite Hlc, Hcr. done.
      * done.
      * rewrite Hlc. replace (ip4_frag_units dgram + cursor / 8 + chunk / 8) with (ip4_frag_units dgram + (cursor + chunk) / 8); [done|].
        rewrite Hcr in *. Z.div_mod_to_equations. lia.
    + intros _. destruct l; [done|]. cbn [length]. lia.
  - destruct (cut_done dgram mtu K (cursor + chunk) (index + 1) w1 Hc1 Hge) as (w2&Hn2&Hst&Herr).
    cbn [pieces]. rewrite Hn2. cbn [mbind option_bind]. rewrite bool_decide_eq_false_2 by (rewrite Hst; done).
    exists [f], w2. split; [done|]. split; [done|]. split; [|lia]. split; [done|]. split; [done|].
    replace (drop (Z.to_nat cursor) (payload_of dgram)) with (take (Z.to_nat chunk) (drop (Z.to_nat cursor) (payload_of dgram))); [done|].
    apply take_ge. rewrite length_drop. lia.
Qed.

(** ** The test *)

(** What begin is handed. *)
Definition handed (w : Work) (dgram : list Z) (len mtu : Z) : Prop :=
  c_ready (w_ctx w) = IP4_FRAG_READY ∧ begin_args (w_io w) = mkBeginArgs (Some dgram) len mtu ∧ octets dgram ∧
  len ≤ Z.of_nat (length dgram) ∧ is_u16 mtu ∧ roomy mtu w.

(** The datagrams RFC 791 section 3.2 sends on, whole or cut. *)
Definition sendable (dgram : list Z) (len mtu : Z) : Prop :=
  ip4_verify_all word swap dgram len = IDEMIP_OK ∧ 68 ≤ mtu ∧
  (ip4_mf dgram = true → ip4_payload_len dgram ≠ 0 ∧ ip4_payload_len dgram mod 8 = 0) ∧
  (mtu < ip4_total_len dgram → ip4_df dgram = false ∧ ip4_frag_units dgram + ip4_payload_len dgram / 8 ≤ 8191).

(** A datagram the test lets through whole. *)
Definition passing (dgram : list Z) (w : Work) : Prop :=
  let c := w_ctx w in
  c_ready c = IP4_FRAG_READY ∧ c_open c = true ∧ c_split c = false ∧ c_dgram c = Some dgram ∧ c_hdr_len c = ip4_hdr_len dgram ∧
  c_data_len c = ip4_payload_len dgram ∧ c_units c = ip4_frag_units dgram ∧ c_omf c = ip4_mf dgram ∧ c_cursor c = 0 ∧
  c_index c = 0 ∧ c_done c = false.

Lemma take_whole_fields ctx dgram tl hl : let c := take_whole ctx dgram tl hl in
  c_ready c = c_ready ctx ∧ c_done c = c_done ctx ∧ c_split c = false ∧ c_dgram c = Some dgram ∧ c_hdr_len c = hl ∧
  c_data_len c = u16 (tl - hl) ∧ c_units c = ip4_frag_units dgram ∧ c_omf c = ip4_mf dgram ∧ c_cursor c = 0 ∧ c_index c = 0.
Proof. split_and!; reflexivity. Qed.

Lemma take_cut_fields ctx hl mtu kept : 0 ≤ kept ≤ 40 → 0 ≤ hl ≤ 60 → 68 ≤ mtu < 65536 → let c := take_cut ctx hl mtu kept in
  (c_hdr2_len c = reduced kept ∧ c_chunk0 c = 8 * ((mtu - hl) / 8) ∧ c_chunk c = 8 * ((mtu - reduced kept) / 8)) ∧
  c_ready c = c_ready ctx ∧ c_done c = c_done ctx ∧ c_split c = true ∧ c_dgram c = c_dgram ctx ∧ c_hdr_len c = c_hdr_len ctx ∧
  c_data_len c = c_data_len ctx ∧ c_units c = c_units ctx ∧ c_omf c = c_omf ctx ∧ c_cursor c = c_cursor ctx ∧ c_index c = c_index ctx.
Proof.
  intros Hk Hh Hm c.
  assert (u8 (Z.shiftl (u8 (Z.shiftr (IDEMIP_IPV4_HDR_LEN + kept + (Z.shiftl 1 IDEMIP_IP4_IHL_SHIFT - 1)) IDEMIP_IP4_IHL_SHIFT)) IDEMIP_IP4_IHL_SHIFT)
    = reduced kept) as Hh2.
  { unfold IDEMIP_IPV4_HDR_LEN, IDEMIP_IP4_IHL_SHIFT, reduced. change (Z.shiftl 1 2 - 1) with 3.
    rewrite Z.shiftr_div_pow2, Z.shiftl_mul_pow2 by lia. wrap. }
  assert (20 ≤ reduced kept ≤ 64) as Hrd by (unfold reduced; Z.div_mod_to_equations; lia).
  subst c. unfold take_cut. cbv zeta. rewrite Hh2. clear Hh2. generalize dependent (reduced kept). intros r Hr.
  split; [|split_and!; reflexivity]. split_and!; [reflexivity| |].
  - transitivity (u16 (Z.land (mtu - hl) (u16 (Z.lnot IP4_FRAG_UNIT_MASK)))); [reflexivity|]. apply land_unit. lia.
  - transitivity (u16 (Z.land (mtu - r) (u16 (Z.lnot IP4_FRAG_UNIT_MASK)))); [reflexivity|]. apply land_unit. lia.
Qed.

Lemma open_fields c : let c' := c <| c_open := true |> in
  c_ready c' = c_ready c ∧ c_done c' = c_done c ∧ c_split c' = c_split c ∧ c_dgram c' = c_dgram c ∧ c_hdr_len c' = c_hdr_len c ∧
  c_data_len c' = c_data_len c ∧ c_units c' = c_units c ∧ c_omf c' = c_omf c ∧ c_cursor c' = c_cursor c ∧ c_index c' = c_index c ∧
  c_hdr2_len c' = c_hdr2_len c ∧ c_chunk0 c' = c_chunk0 c ∧ c_chunk c' = c_chunk c ∧ c_open c' = true.
Proof. split_and!; reflexivity. Qed.

(** What a call of the test on this datagram comes to. *)
Definition tested (dgram : list Z) (len mtu : Z) (na : Ip4FragNextArgs) (w1 : Work) : Prop :=
  next_args (w_io w1) = na ∧
  ((io_status (w_io w1) = IDEMIP_ERR ∧ ¬ sendable dgram len mtu) ∨
   (io_status (w_io w1) = IDEMIP_OK ∧ sendable dgram len mtu ∧ datagram dgram len ∧
    ((io_split (w_io w1) = false ∧ ip4_total_len dgram ≤ mtu ∧ passing dgram w1) ∨
     (io_split (w_io w1) = true ∧ ∃ K, cuttable dgram mtu K ∧ cutting dgram mtu K 0 0 w1)))).

Lemma tested_refuse dgram len mtu io ctx e : io_status io = IDEMIP_ERR → ¬ sendable dgram len mtu →
  tested dgram len mtu (next_args io) (mkWork (io <| io_err := e |>) ctx).
Proof. intros Hs Hn. split; [reflexivity|]. left. split; [exact Hs|exact Hn]. Qed.

Definition accept (io : Ip4FragIo) (ctx : Ip4FragCtx) : Work :=
  mkWork (io <| io_split := c_split ctx |> <| io_status := IDEMIP_OK |>) (ctx <| c_open := true |>).

(** The context of a datagram that fits, before the test opens it. *)
Definition whole (dgram : list Z) (c : Ip4FragCtx) : Prop :=
  c_ready c = IP4_FRAG_READY ∧ c_done c = false ∧ c_split c = false ∧ c_dgram c = Some dgram ∧ c_hdr_len c = ip4_hdr_len dgram ∧
  c_data_len c = ip4_payload_len dgram ∧ c_units c = ip4_frag_units dgram ∧ c_omf c = ip4_mf dgram ∧ c_cursor c = 0 ∧ c_index c = 0.

Lemma tested_whole dgram len mtu io c : sendable dgram len mtu → datagram dgram len → ip4_total_len dgram ≤ mtu → whole dgram c →
  tested dgram len mtu (next_args io) (accept io c).
Proof.
  intros Hs Hd Ht (W1&W2&W3&W4&W5&W6&W7&W8&W9&W10). split; [reflexivity|]. right. split; [reflexivity|]. split; [done|]. split; [done|]. left.
  split; [exact W3|]. split; [done|]. unfold passing, accept. cbn [w_ctx].
  destruct (open_fields c) as (V1&V2&V3&V4&V5&V6&V7&V8&V9&V10&_&_&_&V14). cbv zeta in *. split_and!; congruence.
Qed.

Lemma tested_cut dgram len mtu io cw K : sendable dgram len mtu → datagram dgram len → mtu < ip4_total_len dgram → mtu < 65536 → whole dgram cw →
  octets K → Z.of_nat (length K) ≤ ip4_hdr_len dgram - 20 →
  (∀ o, ip4_frag_copy_options dgram (ip4_hdr_len dgram) (Some o) = Some (Some (wr o K), Z.of_nat (length K))) →
  tested dgram len mtu (next_args io) (accept io (take_cut cw (ip4_hdr_len dgram) mtu (Z.of_nat (length K)))).
Proof.
  intros Hs Hd Ht Hm (W1&W2&W3&W4&W5&W6&W7&W8&W9&W10) HoK HlK Hcopy. pose proof Hs as (_&H68&Hmf&Hcut). destruct (Hcut Ht) as [_ Hoff].
  destruct (datagram_facts dgram len Hd) as (Hh&_&_&Htot&Hp0&Htl&_).
  destruct (take_cut_fields cw (ip4_hdr_len dgram) mtu (Z.of_nat (length K))) as ((T1&T2&T3)&U1&U2&U3&U4&U5&U6&U7&U8&U9&U10); try lia.
  generalize dependent (take_cut cw (ip4_hdr_len dgram) mtu (Z.of_nat (length K))). intros c2. intros.
  split; [reflexivity|]. right. split; [reflexivity|]. split; [done|]. split; [done|]. right. split; [exact U3|]. exists K. split.
  - unfold cuttable. split_and!; try done; try lia. intros E. by apply Hmf.
  - unfold cutting, accept. cbn [w_ctx]. destruct (open_fields c2) as (V1&V2&V3&V4&V5&V6&V7&V8&V9&V10&V11&V12&V13&V14).
    generalize dependent (c2 <| c_open := true |>). intros c3. intros. cbv zeta in *.
    split_and!; try congruence. rewrite bool_decide_eq_false_2 by (rewrite V6, U6, W6; lia). congruence.
Qed.

Lemma take_cases io ctx dgram len mtu : begin_args io = mkBeginArgs (Some dgram) len mtu → io_status io = IDEMIP_ERR →
  c_ready ctx = IP4_FRAG_READY → octets dgram → len ≤ Z.of_nat (length dgram) → is_u16 mtu →
  ∃ w1, ip4_frag_take word swap (mkWork io ctx) = Some w1 ∧ tested dgram len mtu (next_args io) w1.
Proof.
  intros Hb Hst Hrc Ho Hl Hm. unfold ip4_frag_take. cbn [w_io w_ctx]. rewrite Hb. cbn [b_dgram b_len b_mtu].
  set (ctx0 := ctx <| c_open := false |> <| c_done := false |> <| c_dgram := None |>).
  assert (c_ready ctx0 = IP4_FRAG_READY ∧ c_done ctx0 = false) as [Hrc0 Hdc0] by (split; [exact Hrc|reflexivity]). clearbody ctx0.
  destruct (decide (ip4_verify_all word swap dgram len = IDEMIP_OK)) as [Hv|Hv].
  2:{ rewrite (bool_decide_eq_false_2 _ Hv), orb_true_r. eexists. split; [reflexivity|]. apply tested_refuse; [done|]. intros [? _]. done. }
  assert (datagram dgram len) as Hd by done. destruct (datagram_facts dgram len Hd) as (Hh&Hh4&Hv4&Htot&Hp0&Htl&Hlen&Hpl&Hun).
  rewrite (bool_decide_eq_true_2 _ Hv). rewrite (proj2 (Z.ltb_ge len IDEMIP_IPV4_HDR_LEN)) by (unfold IDEMIP_IPV4_HDR_LEN; lia). cbn [orb negb].
  destruct (Z.ltb_spec mtu IDEMIP_IP4_MIN_FORWARD_MTU) as [H68|H68]; unfold IDEMIP_IP4_MIN_FORWARD_MTU in H68.
  { eexists. split; [reflexivity|]. apply tested_refuse; [done|]. intros (_&?&_). lia. }
  rewrite (u8_id (ip4_hdr_len dgram)) by (unfold is_u8; lia).
  assert (u16 (ip4_total_len dgram - ip4_hdr_len dgram) = ip4_payload_len dgram) as Hdl by (rewrite u16_id; [lia|unfold is_u16; lia]).
  rewrite Hdl, land_unit_mask.
  destruct (ip4_mf dgram && ((ip4_payload_len dgram =? 0) || negb (ip4_payload_len dgram mod 8 =? 0))) eqn:Emf.
  { eexists. split; [reflexivity|]. apply tested_refuse; [done|]. intros (_&_&Hs&_). apply andb_true_iff in Emf as [E1 E2].
    destruct (Hs E1) as [Hs1 Hs2]. apply orb_true_iff in E2 as [E2|E2]; bool_prop; done. }
  assert (ip4_mf dgram = true → ip4_payload_len dgram ≠ 0 ∧ ip4_payload_len dgram mod 8 = 0) as Hmf.
  { intros E. rewrite E in Emf. cbn [andb] in Emf. apply orb_false_iff in Emf as [E1 E2]. bool_prop. done. }
  destruct (take_whole_fields ctx0 dgram (ip4_total_len dgram) (ip4_hdr_len dgram)) as (W1&W2&W3&W4&W5&W6&W7&W8&W9&W10).
  set (cw := take_whole ctx0 dgram (ip4_total_len dgram) (ip4_hdr_len dgram)) in *. rewrite Hdl in W6. rewrite Hrc0 in W1. rewrite Hdc0 in W2.
  clearbody cw. assert (whole dgram cw) as Hw by (split_and!; done).
  destruct (Z.ltb_spec mtu (ip4_total_len dgram)) as [Hcut|Hfit].
  2:{ eexists. split; [reflexivity|]. apply (tested_whole dgram len mtu io cw); try done. split_and!; try done. lia. }
  destruct (ip4_df dgram) eqn:Edf.
  { eexists. split; [reflexivity|]. apply tested_refuse; [done|]. intros (_&_&_&Hs). destruct (Hs Hcut) as [? _]. congruence. }
  destruct (copy_options_keeps dgram (ip4_hdr_len dgram) Ho Hh ltac:(lia)) as (K&HoK&HlK&Hnone&Hsome). rewrite Hnone. cbn [mbind option_bind].
  unfold is_u16 in Hm. destruct (take_cut_fields cw (ip4_hdr_len dgram) mtu (Z.of_nat (length K))) as (_&_&_&_&_&_&U6&U7&_); try lia.
  rewrite U6, U7, W6, W7. unfold IDEMIP_IP4_FRAG_SHIFT. rewrite Z.shiftr_div_pow2 by lia. change (2 ^ 3) with 8.
  destruct (Z.ltb_spec IDEMIP_IP4_FRAG_OFF_MASK (ip4_frag_units dgram + ip4_payload_len dgram / 8)) as [Hoff|Hoff]; unfold IDEMIP_IP4_FRAG_OFF_MASK in Hoff.
  { eexists. split; [reflexivity|]. apply tested_refuse; [done|]. intros (_&_&_&Hs). destruct (Hs Hcut) as [_ ?]. lia. }
  eexists. split; [reflexivity|]. apply (tested_cut dgram len mtu io cw K); try done; try lia.
Qed.

Lemma begin_cases w dgram len mtu : handed w dgram len mtu →
  ∃ w1, idemip_ip4_frag_begin word swap w = Some w1 ∧ tested dgram len mtu (next_args (w_io w)) w1.
Proof.
  intros (Hr&Hb&Ho&Hl&Hm&_). unfold idemip_ip4_frag_begin, ip4_frag_ready.
  change (c_ready (w_ctx (w <| w_io := _ |>))) with (c_ready (w_ctx w)). rewrite Hr.
  change (negb (IP4_FRAG_READY =? IP4_FRAG_READY)) with false. cbv iota.
  set (io1 := (report_clear (w_io w)) <| io_split := false |> <| io_err := IDEMIP_IP4_FRAG_ERR_NONE |>).
  match goal with |- ∃ w1, ip4_frag_take _ _ ?x = _ ∧ _ => change x with (mkWork io1 (w_ctx w)) end.
  assert (begin_args io1 = begin_args (w_io w) ∧ io_status io1 = IDEMIP_ERR ∧ next_args io1 = next_args (w_io w)) as (E1&E2&E3) by (split_and!; reflexivity).
  rewrite <- E3. rewrite Hb in E1. by apply take_cases.
Qed.

(** ** A datagram sent on whole *)
Lemma whole_piece dgram len : datagram dgram len →
  piece word swap dgram (ip4_frag_units dgram) (ip4_mf dgram) (payload_of dgram) (take (Z.to_nat (ip4_total_len dgram)) dgram).
Proof.
  intros Hd. destruct (datagram_facts dgram len Hd) as (Hh&Hh4&Hv4&Htot&Hp0&Htl&Hlen&Hpl&Hun). destruct Hd as (Ho&Hv&Hl).
  set (n := Z.to_nat (ip4_total_len dgram)). set (f := take n dgram).
  assert (Z.of_nat (length f) = ip4_total_len dgram) as Hlf by (subst f n; rewrite length_take; lia).
  assert (∃ pre, f = pre ++ drop 20 f ∧ dgram = pre ++ drop 20 dgram ∧ length pre = 20%nat) as (pre&Hf&Hdg&Hp20).
  { exists (take 20 dgram). rewrite length_take. split_and!; [|by rewrite take_drop|lia].
    assert (take 20 f = take 20 dgram) as <- by (subst f n; rewrite take_take; f_equal; lia). by rewrite take_drop. }
  assert (ip4_hdr_len f = ip4_hdr_len dgram ∧ ip4_total_len f = ip4_total_len dgram ∧ ip4_frag_units f = ip4_frag_units dgram ∧ ip4_mf f = ip4_mf dgram ∧
    ip4_id f = ip4_id dgram ∧ ip4_proto f = ip4_proto dgram ∧ ip4_src f = ip4_src dgram ∧ ip4_dst f = ip4_dst dgram ∧
    ip4_version_ok f = ip4_version_ok dgram ∧ ip4_ihl_ok f = ip4_ihl_ok dgram) as (F1&F2&F3&F4&F5&F6&F7&F8&F9&F10).
  { rewrite Hf, Hdg. clear -Hp20. generalize (drop 20 f) (drop 20 (pre ++ drop 20 dgram)). intros x y.
    do 20 (destruct pre as [|? pre]; [done|]). split_and!; reflexivity. }
  assert (ip4_cksum_ok word swap f = ip4_cksum_ok word swap dgram) as F11.
  { unfold ip4_cksum_ok. rewrite F1. f_equal. subst f n. rewrite take_take. f_equal. lia. }
  unfold piece. rewrite Hlf, F1, F2. split_and!; try done.
  - by apply Forall_take.
  - revert Hv. unfold ip4_verify_all, ip4_len_ok. rewrite F9, F10, F11, F1, F2. unfold IDEMIP_IPV4_HDR_LEN.
    destruct (len <? 20); [done|]. rewrite (proj2 (Z.ltb_ge _ 20)) by lia. destruct (_ || _); [done|].
    destruct (ip4_cksum_ok word swap dgram); [|by rewrite orb_true_r].
    rewrite !(proj2 (Z.leb_le _ (ip4_total_len dgram))) by lia. done.
  - lia.
  - subst f n. unfold payload_of. rewrite take_drop_commute. do 2 f_equal. lia.
Qed.

(** A call on a borrow whose split is open and written, and one on a datagram that passed. *)
Lemma next_done w : c_ready (w_ctx w) = IP4_FRAG_READY → c_open (w_ctx w) = true → c_done (w_ctx w) = true →
  ∃ w', idemip_ip4_frag_next word swap w = Some w' ∧ io_status (w_io w') = IDEMIP_ERR ∧ io_err (w_io w') = IDEMIP_IP4_FRAG_ERR_DONE.
Proof.
  intros C1 C2 C3. unfold idemip_ip4_frag_next, ip4_frag_ready.
  change (c_ready (w_ctx (w <| w_io := _ |>))) with (c_ready (w_ctx w)). rewrite C1.
  change (negb (IP4_FRAG_READY =? IP4_FRAG_READY)) with false. cbv iota. unfold ip4_frag_write. cbv zeta.
  change (w_ctx (_ <| w_io := _ |>)) with (w_ctx w). rewrite C2, C3. cbn [negb]. by eexists.
Qed.

Lemma write_passing io ctx dgram mtu out : passing dgram (mkWork io ctx) → n_out (next_args io) = Some out →
  0 ≤ ip4_payload_len dgram → 0 ≤ ip4_hdr_len dgram → ip4_total_len dgram = ip4_hdr_len dgram + ip4_payload_len dgram → ip4_total_len dgram ≤ 65535 →
  ip4_total_len dgram ≤ mtu → mtu ≤ n_cap (next_args io) →
  ∃ w1, ip4_frag_write word swap (mkWork io ctx) = Some w1 ∧ io_status (w_io w1) = IDEMIP_OK ∧ io_len (w_io w1) = ip4_total_len dgram ∧
    n_out (next_args (w_io w1)) = Some (memcpy out 0 dgram (ip4_total_len dgram)) ∧
    c_ready (w_ctx w1) = IP4_FRAG_READY ∧ c_open (w_ctx w1) = true ∧ c_done (w_ctx w1) = true.
Proof.
  intros (P1&P2&P3&P4&P5&P6&P7&P8&P9&P10&P11) Hout Hp0 Hh Htot Htl Hm Hcap. cbn [w_ctx] in *. unfold ip4_frag_write, write_chunk. cbn [w_io w_ctx].
  rewrite P2, P11, P3, P10, P9, P6, Hout, P4, P5. cbn [negb orb from_option id].
  rewrite (u16_id (ip4_hdr_len dgram + ip4_payload_len dgram)) by (unfold is_u16; lia). rewrite <- Htot.
  rewrite (proj2 (Z.ltb_ge (n_cap _) _)) by lia. cbn [mbind option_bind]. eexists. split; [reflexivity|]. cbn [w_io w_ctx].
  split; [reflexivity|]. split; [reflexivity|]. split; [reflexivity|]. split; [exact P1|]. split; [exact P2|].
  transitivity (ip4_payload_len dgram <=? u16 (0 + ip4_payload_len dgram)); [reflexivity|].
  rewrite Z.add_0_l, u16_id by (unfold is_u16; lia). apply Z.leb_refl.
Qed.

Lemma pass_pieces dgram len mtu w fuel : datagram dgram len → ip4_total_len dgram ≤ mtu → passing dgram w → roomy mtu w →
  ∃ w', pieces (S (S fuel)) w = Some ([take (Z.to_nat (ip4_total_len dgram)) dgram], w') ∧ io_err (w_io w') = IDEMIP_IP4_FRAG_ERR_DONE.
Proof.
  intros Hd Ht Hpass (out&Hout&Hcap).
  destruct (datagram_facts dgram len Hd) as (Hh&_&_&Htot&Hp0&Htl&Hlen&_&Hun). destruct Hd as (_&_&Hl).
  set (io1 := (report_clear (w_io w)) <| io_err := IDEMIP_IP4_FRAG_ERR_NONE |>).
  assert (idemip_ip4_frag_next word swap w = ip4_frag_write word swap (mkWork io1 (w_ctx w))) as Hn.
  { destruct Hpass as (P1&_). unfold idemip_ip4_frag_next, ip4_frag_ready.
    change (c_ready (w_ctx (w <| w_io := _ |>))) with (c_ready (w_ctx w)). rewrite P1. reflexivity. }
  destruct (write_passing io1 (w_ctx w) dgram mtu out) as (w1&Hw&Hok&Hl1&Ho1&Q1&Q2&Q3); try done; try lia; [exact (proj1 Hcap)|].
  cbn [pieces]. rewrite Hn, Hw. cbn [mbind option_bind]. rewrite bool_decide_eq_true_2 by done.
  destruct (next_done w1 Q1 Q2 Q3) as (w2&Hn2&Hs2&He2).
  rewrite Hn2. cbn [mbind option_bind]. rewrite bool_decide_eq_false_2 by (rewrite Hs2; done). rewrite Hl1, Ho1. cbn [from_option id].
  exists w2. split; [|done]. rewrite <- (wr_nil out). change 0 with (Z.of_nat (length (@nil Z))) at 1.
  rewrite memcpy_wr by lia. cbn [app]. set (f := take (Z.to_nat (ip4_total_len dgram)) dgram).
  replace (Z.to_nat (ip4_total_len dgram)) with (length f) by (subst f; rewrite length_take; lia). by rewrite wr_take.
Qed.

Lemma fragments_of w dgram len mtu : handed w dgram len mtu →
  ∃ w1, idemip_ip4_frag_begin word swap w = Some w1 ∧ (io_status (w_io w1) = IDEMIP_OK ↔ sendable dgram len mtu) ∧
    (io_status (w_io w1) = IDEMIP_OK → ∀ fuel, 8193 ≤ Z.of_nat fuel → ∃ l w2, pieces fuel w1 = Some (l, w2) ∧ io_err (w_io w2) = IDEMIP_IP4_FRAG_ERR_DONE ∧
       laid dgram mtu (ip4_frag_units dgram) (payload_of dgram) l ∧ (mtu < ip4_total_len dgram ↔ (2 ≤ length l)%nat)).
Proof.
  intros Hh. destruct (begin_cases w dgram len mtu Hh) as (w1&Hb&Hna&Hc). exists w1. split; [done|].
  destruct Hh as (_&_&_&_&_&out&Hout&Hcap). assert (roomy mtu w1) as Hr by (exists out; by rewrite Hna).
  destruct Hc as [[He Hns]|(Hok&Hs&Hd&Hc)]. { rewrite He. split; [split; done|done]. }
  split; [done|]. intros _ fuel Hfuel. destruct (datagram_facts dgram len Hd) as (Hhl&_&_&Htot&Hp0&Htl&_&Hpl&_).
  destruct fuel as [|[|fuel]]; [lia|lia|].
  destruct Hc as [(_&Hfit&Hp)|(_&K&Hcut&Hc)].
  - destruct (pass_pieces dgram len mtu w1 fuel Hd Hfit Hp Hr) as (w2&Hpi&Hdn).
    eexists _, w2. split; [exact Hpi|]. split; [done|]. split; [|cbn [length]; lia].
    pose proof (whole_piece dgram len Hd) as Hwp. split; [rewrite length_take; lia|]. split; [|done].
    destruct Hwp as (_&_&_&Hhf&_). rewrite Hpl, length_take in Hhf. lia.
  - pose proof Hcut as (H68&Hmt&_). destruct (room_at_bounds dgram len mtu K 0 Hd Hcut) as (_&_&_&Hfit). change (0 =? 0) with true in Hfit. cbv iota in Hfit.
    destruct (cut_rest dgram len mtu K Hd Hcut (S fuel) 0 0 w1 Hc Hr) as (l&w2&Hpi&Hdn&Hl&H2); try done; try lia.
    change (0 / 8) with 0 in Hl. rewrite Z.add_0_r in Hl. change (drop (Z.to_nat 0) (payload_of dgram)) with (payload_of dgram) in Hl.
    exists l, w2. split_and!; try done. split; [|done]. intros _. apply H2. unfold chunk_at. lia.
Qed.

(** C16. RFC 791 section 3.2: begin accepts exactly the datagrams the section sends on; the caller's loop then ends, and
    the fragments it sent carry the datagram's data once and in order on eight-octet boundaries, each no longer than the
    MTU, each with a header every check accepts, the datagram's addresses, protocol and identification, and More Fragments
    on all but the last, which has the datagram's own. *)
Theorem fragments_carry_datagram w dgram len mtu : handed w dgram len mtu →
  ∃ w1, idemip_ip4_frag_begin word swap w = Some w1 ∧ (io_status (w_io w1) = IDEMIP_OK ↔ sendable dgram len mtu) ∧
    (io_status (w_io w1) = IDEMIP_OK → ∀ fuel, 8193 ≤ Z.of_nat fuel → ∃ l w2, pieces fuel w1 = Some (l, w2) ∧ io_err (w_io w2) = IDEMIP_IP4_FRAG_ERR_DONE ∧
       laid dgram mtu (ip4_frag_units dgram) (payload_of dgram) l ∧ (mtu < ip4_total_len dgram ↔ (2 ≤ length l)%nat)).
Proof. apply fragments_of. Qed.
End Cut.

(** A datagram of 28 octets of options and 121 of data through an MTU of 100: the record route stays behind, the router alert is copied. *)
Definition long_header : list Z :=
  [0x48; 0; 0; 153; 0x1C; 0x46; 0; 0; 64; 17; 0; 0; 192; 168; 1; 2; 192; 168; 1; 1; 7; 7; 4; 0; 0; 0; 0; 0x94; 4; 0; 0; 0].
Definition long_datagram : list Z := ip4_recksum None false long_header ++ map (λ i, i mod 256) (seqZ 1 121).
Definition long_work : Work :=
  mkWork (mkIo (mkBeginArgs (Some long_datagram) 153 100) (mkNextArgs (Some (replicate 100 0)) 100) IDEMIP_ERR IDEMIP_IP4_FRAG_ERR_NONE
    false false 0 0 0 0 0 0) (ctx_zero <| c_ready := IP4_FRAG_READY |>).

Lemma octets_of_forallb h : forallb (λ b, (0 <=? b) && (b <? 256)) h = true → octets h.
Proof.
  intros H. apply Forall_forall. intros x Hx. rewrite forallb_forall in H. apply list_elem_of_In, H in Hx. bool_prop. unfold is_u8. lia.
Qed.

Lemma fragments_carry_datagram_witness :
  ∃ w1 l w2, idemip_ip4_frag_begin None false long_work = Some w1 ∧ pieces None false (Z.to_nat 8193) w1 = Some (l, w2) ∧
    laid None false long_datagram 100 0 (payload_of long_datagram) l ∧ (2 ≤ length l)%nat.
Proof.
  destruct (fragments_carry_datagram None false I long_work long_datagram 153 100) as (w1&Hb&Hiff&H).
  - split; [reflexivity|]. split; [reflexivity|]. split; [apply octets_of_forallb; vm_compute; reflexivity|].
    split; [vm_compute; discriminate|]. split; [split; [discriminate|reflexivity]|].
    exists (replicate 100 0). split; [reflexivity|]. split; [discriminate|vm_compute; discriminate].
  - assert (io_status (w_io w1) = IDEMIP_OK) as Hok.
    { apply Hiff. split; [vm_compute; reflexivity|]. split; [discriminate|].
      split; [vm_compute; discriminate|]. intros _. split; [vm_compute; reflexivity|vm_compute; discriminate]. }
    destruct (H Hok (Z.to_nat 8193) ltac:(lia)) as (l&w2&Hp&_&Hl&H2). exists w1, l, w2. split; [exact Hb|]. split; [exact Hp|]. split; [exact Hl|].
    apply H2. vm_compute. reflexivity.
Defined.
End Ip4FragThms.
