(* ===== verification/Ip4Path.v ===== *)
(** * An IPv4 datagram from one end to the other

    The fragmenter and the reassembler put together: what [Ip4Frag] cuts, [Ip4Reass] gathers, in whatever
    order the network hands the fragments over.  The first section is about the abstract reassembler and
    any set of fragments that tiles a datagram; the second shows the fragmenter's are such a set. *)
From S2P Require Import Prelude Base Wire Ipv4 Cover Ip4Reass Ip4ReassSpec Ip4ReassRep Ip4ReassRefine Ip4ReassThms Ip4Frag Ip4FragFacts Ip4FragThms.

Module Ip4Path.
Import Checksum Ipv4 Ip4Reass Ip4ReassSpec Ip4ReassHoles Ip4ReassRep Ip4ReassRefine Ip4ReassThms Ip4FragFacts Ip4FragThms.

Definition x_ival (x : Fragment) : Z * Z := (off x, off x + data_len x).

(** Fragments of the datagram [k] that hold each of its [T] octets of data once. *)
Definition tiles (k : BufId) (T : Z) (X : list Fragment) : Prop :=
  (∀ y, cover (map x_ival X) y = if bool_decide (0 ≤ y < T) then 1 else 0) ∧
  ∀ x, x ∈ X → x_key x = k ∧ 0 ≤ off x ∧ 0 < data_len x < T ∧ mf x = bool_decide (off x + data_len x ≠ T) ∧
    (mf x = true → Z.land (data_len x) 7 = 0) ∧ off x + data_len x + hdr_len x ≤ 65535.

Lemma tiles_perm k T X X' : X ≡ₚ X' → tiles k T X → tiles k T X'.
Proof.
  intros HP [Hc Hx]. split.
  - intros y. rewrite <- Hc. apply cover_perm. by rewrite HP.
  - intros x Hin. apply Hx. by rewrite HP.
Qed.

Lemma a_end_le fs T : 0 ≤ T → (∀ a, a ∈ fs → a_off a + a_flen a ≤ T) → a_end fs ≤ T.
Proof.
  intros HT. induction fs as [|a fs IH]; intros Ha; simpl; [done|].
  pose proof (Ha a ltac:(left)). pose proof (IH ltac:(intros; apply Ha; by right)). lia.
Qed.

(** ** One more tile *)
Section Tile.
Variables (k : BufId) (T : Z) (fs : list AFrag) (tot : Z) (seen : list Fragment) (x : Fragment) (todo : list Fragment) (desc : Z).
Hypothesis Htiles : tiles k T (seen ++ x :: todo).
Hypothesis Hiv : ivals fs ≡ₚ map x_ival seen.

Definition landed : list AFrag := a_insert (mkAFrag desc (off x) (data_len x) (hdr_len x)) fs.
Definition known (X : list Fragment) : Z := if existsb (λ x, negb (mf x)) X then T else 0.

Lemma tile_in : x ∈ seen ++ x :: todo.
Proof using. apply elem_of_app. right. left. Qed.

Lemma tile_of z : z ∈ seen ++ x :: todo → 0 ≤ off z ∧ 0 < data_len z ∧ off z + data_len z ≤ T.
Proof.
  intros Hz. destruct Htiles as [Hc Hx]. destruct (Hx z Hz) as (_&Ho&Hd&_). split_and!; [lia..|].
  destruct (decide (off z + data_len z ≤ T)); [done|exfalso]. pose proof (Hc (Z.max T (off z))) as Hm.
  rewrite bool_decide_eq_false_2 in Hm by lia.
  assert (1 ≤ cover (map x_ival (seen ++ x :: todo)) (Z.max T (off z))); [|lia].
  apply (cover_elem _ (x_ival z)); [apply list_elem_of_fmap; by exists z|]. unfold within, x_ival. simpl. lia.
Qed.

Lemma tile_landed : ivals landed ≡ₚ map x_ival (seen ++ [x]).
Proof. unfold ivals, landed. rewrite a_insert_perm, map_app. simpl. rewrite <- Hiv. apply Permutation_cons_append. Qed.

Lemma tile_cover y :
  cover (ivals landed) y = cover (ivals fs) y + ind (x_ival x) y ∧
  cover (ivals landed) y + cover (map x_ival todo) y = if bool_decide (0 ≤ y < T) then 1 else 0.
Proof.
  destruct Htiles as [Hc _]. rewrite <- Hc, (cover_perm _ _ y tile_landed), (cover_perm _ _ y Hiv), !map_app, !cover_app. simpl. lia.
Qed.

Lemma tile_once y : cover (ivals landed) y ≤ 1 ∧ cover (ivals fs) y ≤ 1.
Proof.
  destruct (tile_cover y) as [H1 H2]. pose proof (cover_nonneg (map x_ival todo) y). destruct (ind_cases (x_ival x) y) as [[_ E]|[_ E]];
    case_bool_decide; lia.
Qed.

Lemma tile_fresh : osum (ivals fs) (off x) (off x + data_len x) = 0.
Proof.
  pose proof (tile_of x tile_in). apply osum_spec; [lia|intros; apply tile_once|]. intros y Hy.
  destruct (tile_cover y) as [H1 _]. destruct (tile_once y) as [H2 _]. pose proof (cover_nonneg (ivals fs) y).
  destruct (ind_cases (x_ival x) y) as [[_ E]|[Hn _]]; [lia|]. exfalso. apply Hn. unfold within, x_ival. simpl. lia.
Qed.

Lemma tile_end : a_end fs ≤ T.
Proof.
  pose proof (tile_of x tile_in). apply a_end_le; [lia|]. intros a Ha. assert (ival a ∈ map x_ival seen) as Hin.
  { rewrite <- Hiv. unfold ivals. apply list_elem_of_fmap. by exists a. }
  apply list_elem_of_fmap in Hin as (z & Ez & Hz). pose proof (tile_of z ltac:(set_solver)).
  unfold ival, x_ival in Ez. injection Ez as E1 E2. lia.
Qed.

Lemma tile_osum : osum (ivals landed) 0 T = T ↔ ∀ y, 0 ≤ y < T → cover (ivals landed) y = 1.
Proof.
  pose proof (tile_of x tile_in). pose proof (osum_spec (ivals landed) 0 T ltac:(lia) (λ y _, proj1 (tile_once y))) as (_&_&H1).
  by rewrite Z.sub_0_r in H1.
Qed.

(** Something is still missing, so the fragments held do not reach the length. *)
Lemma tile_partial : todo ≠ [] → a_whole (known (seen ++ [x])) landed = false.
Proof.
  intros Htd. unfold a_whole. destruct (Z.eqb_spec (known (seen ++ [x])) 0); [done|]. simpl. apply Z.eqb_neq.
  assert (known (seen ++ [x]) = T) as -> by (unfold known in *; destruct (existsb _ _); done). rewrite tile_osum. intros Ho.
  assert (∃ z, z ∈ todo) as [z Hz] by (clear -Htd; destruct todo as [|z l]; [done|exists z; left]).
  pose proof (tile_of z ltac:(set_solver)). pose proof (Ho (off z) ltac:(lia)). destruct (tile_cover (off z)) as [_ Hc].
  assert (1 ≤ cover (map x_ival todo) (off z)).
  { apply (cover_elem _ (x_ival z)); [apply list_elem_of_fmap; by exists z|]. unfold within, x_ival. simpl. lia. }
  rewrite bool_decide_eq_true_2 in Hc by lia. lia.
Qed.

(** The one that ends the datagram is among those seen when none is missing. *)
Lemma tile_known : todo = [] → known (seen ++ [x]) = T.
Proof.
  intros Htd. pose proof (tile_of x tile_in) as Hx. destruct Htiles as [Hc Hm]. specialize (Hc (T - 1)).
  rewrite bool_decide_eq_true_2 in Hc by lia.
  destruct (cover_pos (map x_ival (seen ++ x :: todo)) (T - 1)) as (p & Hp & Hw); [lia|].
  apply list_elem_of_fmap in Hp as (z & -> & Hz). unfold within, x_ival in Hw. simpl in Hw. pose proof (tile_of z Hz).
  destruct (Hm z Hz) as (_&_&_&Hmz&_). unfold known. rewrite (proj2 (existsb_exists _ _)); [done|]. exists z.
  rewrite Htd in Hz. split; [by apply list_elem_of_In|]. rewrite Hmz, bool_decide_eq_false_2; [done|]. lia.
Qed.

Lemma tile_whole : todo = [] → a_whole (known (seen ++ [x])) landed = true.
Proof.
  intros Htd. pose proof (tile_of x tile_in) as Hx. unfold a_whole. rewrite tile_known by done.
  rewrite (proj2 (Z.eqb_neq T 0)) by lia. simpl. apply Z.eqb_eq, tile_osum.
  intros y Hy. destruct (tile_cover y) as [_ Hc]. rewrite Htd, bool_decide_eq_true_2 in Hc by lia. simpl in Hc. lia.
Qed.

Hypothesis Htot : tot = known seen.

Lemma tile_accepted :
  (negb (tot =? 0) && (tot <? off x + data_len x)) || (negb (mf x) && negb (tot =? 0) && negb (off x + data_len x =? tot)) ||
  (negb (mf x) && (off x + data_len x <? a_end fs)) = false.
Proof.
  pose proof (tile_of x tile_in) as Hx. pose proof tile_end. destruct Htiles as [_ Hm]. destruct (Hm x tile_in) as (_&_&_&Hmx&_).
  assert (tot = 0 ∨ tot = T) as Ht by (rewrite Htot; unfold known; destruct (existsb _ _); auto).
  rewrite Hmx. case_bool_decide; simpl; destruct Ht as [-> | -> ]; simpl; rewrite ?orb_false_r.
  - done.
  - rewrite (proj2 (Z.ltb_ge _ _)) by lia. by rewrite andb_false_r.
  - apply Z.ltb_ge. lia.
  - rewrite (proj2 (Z.ltb_ge T _)), (proj2 (Z.ltb_ge _ (a_end fs))) by lia. rewrite (proj2 (Z.eqb_eq (off x + data_len x) T)) by lia.
    simpl. by rewrite !andb_false_r.
Qed.

Lemma tile_total : (if mf x then tot else off x + data_len x) = known (seen ++ [x]).
Proof.
  pose proof (tile_of x tile_in) as Hx. destruct Htiles as [_ Hm]. destruct (Hm x tile_in) as (_&_&_&Hmx&_).
  rewrite Htot. unfold known. rewrite existsb_app. simpl. destruct (mf x) eqn:E; simpl; rewrite ?orb_false_r; [done|].
  rewrite orb_true_r. symmetry in Hmx. apply bool_decide_eq_false in Hmx. lia.
Qed.
End Tile.

(** What one fragment makes of a row that gathers. *)
Lemma tile_lands io rows k T d tot fs seen x todo :
  tiles k T (seen ++ x :: todo) → ivals fs ≡ₚ map x_ival seen → tot = known T seen → tget rows 0 = AHolding k d tot fs →
  let s := a_fragment io rows x 0 in
  let fs' := landed fs x (a_desc (hold_args io)) in
  let tot' := known T (seen ++ [x]) in
  io_status s.1 = IDEMIP_OK ∧ io_total_len s.1 = tot' ∧ io_complete s.1 = (if bool_decide (todo = []) then true else io_complete io) ∧
  s.2 = tset rows 0 (if bool_decide (todo = []) then AComplete k d tot' fs' fs' else AHolding k d tot' fs').
Proof.
  intros Ht Hiv Htot Hrow s fs' tot'. unfold s, a_fragment. rewrite Hrow. cbv zeta.
  rewrite (tile_accepted k T fs tot seen x todo), (tile_fresh k T fs seen x todo 0), (tile_total k T tot seen x todo) by done.
  pose proof (tile_of k T seen x todo Ht x ltac:(set_solver)).
  rewrite (proj2 (Z.eqb_neq 0 (data_len x))) by lia. change (negb (0 =? 0)) with false. cbv iota. fold (landed fs x (a_desc (hold_args io))). fold fs' tot'.
  case_bool_decide as Hn.
  - pose proof (tile_whole k T fs seen x todo (a_desc (hold_args io)) Ht Hiv Hn) as E. fold tot' fs' in E. by rewrite E.
  - pose proof (tile_partial k T fs seen x todo (a_desc (hold_args io)) Ht Hiv Hn) as E. fold tot' fs' in E. by rewrite E.
Qed.
(** ** Any order *)
Section Gather.
Variable c : config.
Hypothesis HD : 1 ≤ cf_datagrams c.
Variables (k : BufId) (T : Z).

(** The rows when [seen] has arrived: all free, or the first one gathering it. *)
Definition gathering (rows : list ARow) (seen : list Fragment) : Prop :=
  tlen rows = cf_datagrams c ∧ (∀ i, 1 ≤ i < cf_datagrams c → tget rows i = AFree) ∧
  ((tget rows 0 = AFree ∧ seen = []) ∨
   ∃ d fs, tget rows 0 = AHolding k d (known T seen) fs ∧ ivals fs ≡ₚ map x_ival seen).

(** A call that holds [x]. *)
Definition holds (call : Ip4ReassIo * op) (x : Fragment) : Prop :=
  call.2 = OHold ∧ ∃ h, a_hdr (hold_args call.1) = Some h ∧
    ip4_verify_all (cf_word c) (cf_swap c) h (a_len (hold_args call.1)) = IDEMIP_OK ∧ fragment_of h = x.

Lemma a_held_first rows : 0 < tlen rows → (∀ i, 1 ≤ i < tlen rows → tget rows i = AFree) →
  a_held rows = Z.of_nat (length (a_frags (tget rows 0))).
Proof.
  unfold tlen. destruct rows as [|r rows]; [simpl; lia|]. intros _ Hf. change (tget (r :: rows) 0) with r.
  assert (a_held rows = 0) as E; [|unfold a_held in *; simpl; lia].
  assert (∀ r', r' ∈ rows → r' = AFree) as Hall.
  { intros r' (j & Hj)%list_elem_of_lookup. pose proof (lookup_lt_Some _ _ _ Hj). specialize (Hf (Z.of_nat (S j))).
    unfold tget in Hf. rewrite Nat2Z.id in Hf. change ((r :: rows) !!! S j) with (rows !!! j) in Hf.
    rewrite (list_lookup_total_correct _ _ _ Hj) in Hf. apply Hf. simpl. lia. }
  clear Hf. induction rows as [|r' rows IH]; [done|]. simpl. rewrite (Hall r') by left. simpl.
  apply IH. intros; apply Hall; by right.
Qed.

Lemma scan_first p n : (0 < n)%nat → p 0 = true → scan p n 0 = Some 0.
Proof. destruct n; [lia|]. simpl. by intros _ ->. Qed.

Lemma gather_hold io rows seen x todo :
  tiles k T (seen ++ x :: todo) → Z.of_nat (length (seen ++ x :: todo)) ≤ cf_frags c → gathering rows seen → holds (io, OHold) x →
  let s := a_call c OHold (io, rows) in
  io_status s.1 = IDEMIP_OK ∧ io_total_len s.1 = known T (seen ++ [x]) ∧ io_complete s.1 = bool_decide (todo = []) ∧
  (todo ≠ [] → gathering s.2 (seen ++ [x])).
Proof.
  intros Ht HF (Hl & Hfree & Hrow0) (_ & h & Hh & Hv & Hx). simpl in Hh, Hv.
  destruct (proj2 Ht x) as (Hk & Hox & Hdx & Hmx & Hm8 & Hmax); [set_solver|].
  cbn [a_call]. unfold a_hold. set (io0 := set_field io_state _ _).
  assert (io_complete io0 = false) as Hc0 by done. assert (hold_args io0 = hold_args io) as Ha by done.
  rewrite Ha, Hh. clearbody io0. rewrite decide_True by done. rewrite Hx. unfold a_take.
  assert ((off x =? 0) && negb (mf x) = false) as ->.
  { rewrite Hmx. case_bool_decide; [by rewrite andb_false_r|]. rewrite (proj2 (Z.eqb_neq _ _)) by lia. done. }
  assert ((data_len x =? 0) || (mf x && negb (Z.land (data_len x) (IDEMIP_IP4_FRAG_UNIT - 1) =? 0)) = false) as ->.
  { rewrite (proj2 (Z.eqb_neq _ _)) by lia. simpl. destruct (mf x); [|done]. change (IDEMIP_IP4_FRAG_UNIT - 1) with 7. by rewrite Hm8. }
  unfold IDEMIP_IP4_TOTAL_LEN_MAX. rewrite (proj2 (Z.ltb_ge _ _)) by lia.
  rewrite a_held_first by (try rewrite Hl; try done; lia).
  assert (∀ rows1 d fs, rows1 = tset rows 0 (AHolding k d (known T seen) fs) → ivals fs ≡ₚ map x_ival seen →
    let s := a_fragment io0 rows1 x 0 in
    io_status s.1 = IDEMIP_OK ∧ io_total_len s.1 = known T (seen ++ [x]) ∧ io_complete s.1 = bool_decide (todo = []) ∧
    (todo ≠ [] → gathering s.2 (seen ++ [x]))) as Hgo.
  { intros rows1 d fs -> Hiv s.
    destruct (tile_lands io0 (tset rows 0 (AHolding k d (known T seen) fs)) k T d (known T seen) fs seen x todo) as (H1&H2&H3&H4); try done.
    { rewrite tget_tset_eq by lia. done. }
    fold s in H1, H2, H3, H4. rewrite H1, H2, H3, H4, Hc0. split_and!; [done..|by case_bool_decide|].
    intros Htd. rewrite bool_decide_eq_false_2 by done. rewrite tset_tset_eq. split_and!; [by rewrite tlen_tset| |right].
    - intros i Hi. rewrite tget_tset_ne by lia. by apply Hfree.
    - eexists d, _. rewrite tget_tset_eq by lia. split; [done|]. by apply (tile_landed fs seen x). }
  destruct Hrow0 as [[Hr0 Hs]|(d & fs & Hr0 & Hiv)].
  - subst seen. rewrite Hr0. simpl (length _). simpl in HF. rewrite (proj2 (Z.leb_gt _ _)) by lia.
    assert (scan (λ i, a_matches x (tget rows i)) (Z.to_nat (cf_datagrams c)) 0 = None) as ->.
    { apply scan_None. intros j Hj. destruct (decide (j = 0)) as [->|]; [by rewrite Hr0|]. by rewrite Hfree by lia. }
    rewrite scan_first by (try lia; rewrite Hr0; done). eapply (Hgo _ _ []); [|done]. unfold a_open. rewrite Hk. done.
  - assert (length fs = length seen) as Hlen. { apply Permutation_length in Hiv. unfold ivals in Hiv. by rewrite !length_map in Hiv. }
    rewrite Hr0. simpl (length _). rewrite length_app in HF. simpl in HF. rewrite (proj2 (Z.leb_gt _ _)) by lia.
    rewrite scan_first; [|lia|rewrite Hr0; simpl; by rewrite bool_decide_eq_true_2].
    eapply (Hgo rows d fs); [|done]. rewrite <- Hr0. by rewrite tset_tget by lia.
Qed.

(** Every one of them is taken, and the last to arrive completes the datagram. *)
Lemma gather_run calls todo : Forall2 holds calls todo → ∀ seen rows, todo ≠ [] →
  tiles k T (seen ++ todo) → Z.of_nat (length (seen ++ todo)) ≤ cf_frags c → gathering rows seen →
  ∃ init last, (a_run c calls rows).1 = init ++ [last] ∧
    Forall (λ io, io_status io = IDEMIP_OK ∧ io_complete io = false) init ∧
    io_status last = IDEMIP_OK ∧ io_complete last = true ∧ io_total_len last = T.
Proof.
  induction 1 as [|[io o] x calls todo [Ho Hh] Hrest IH]; intros seen rows Hne Ht HF Hg; [done|]. simpl in Ho. subst o.
  destruct (gather_hold io rows seen x todo Ht HF Hg (conj eq_refl Hh)) as (H1&H2&H3&H4).
  cbn [a_run]. set (s := a_call c OHold (io, rows)) in *. destruct todo as [|y todo].
  - inversion Hrest; subst. simpl. exists [], s.1. split_and!; try done. rewrite H2. by apply (tile_known k T seen x []).
  - destruct (IH (seen ++ [x]) s.2) as (init & last & E & Hall & Hrest'); [done|by rewrite <- app_assoc|by rewrite <- app_assoc|by apply H4|].
    destruct (a_run c calls s.2) as [obs rows']. simpl in E. subst obs. exists (s.1 :: init), last. split; [done|]. split; [|done].
    constructor; [|done]. split; [done|]. rewrite H3. by rewrite bool_decide_eq_false_2.
Qed.
End Gather.

(** ** The fragmenter's fragments *)

(** Whether a header is good does not depend on the machine that looks. *)
Lemma verify_any_build word swap word' swap' h len : build word → build word' → octets h → 
  ip4_verify_all word swap h len = IDEMIP_OK → ip4_verify_all word' swap' h len = IDEMIP_OK.
Proof.
  intros Hb Hb' Hh. assert (ip4_cksum_ok word swap h = ip4_cksum_ok word' swap' h) as E; [|unfold ip4_verify_all; by rewrite E].
  unfold ip4_cksum_ok. pose proof (ip4_hdr_len_eq h). destruct (ip4_ihl_eq h Hh).
  apply eq_true_iff_eq. rewrite !cksum_valid_iff; try done; try (by apply Forall_take); rewrite length_take; lia.
Qed.

Definition key_of (dgram : list Z) : BufId := (ip4_src dgram, ip4_dst dgram, ip4_proto dgram, ip4_id dgram).

(** A fragment of a datagram whose data ends at [T]. *)
Definition fragment_ok (word : option nat) (swap : bool) (dgram : list Z) (T : Z) (f : list Z) : Prop :=
  octets f ∧ ip4_verify_all word swap f (Z.of_nat (length f)) = IDEMIP_OK ∧
  let x := fragment_of f in
  x_key x = key_of dgram ∧ 0 ≤ off x ∧ 0 < data_len x ∧ off x + data_len x ≤ T ∧ mf x = bool_decide (off x + data_len x ≠ T) ∧
  (mf x = true → Z.land (data_len x) 7 = 0) ∧ hdr_len x ≤ ip4_hdr_len dgram.

Lemma piece_fragment word swap dgram units more data f T : piece word swap dgram units more data f → data ≠ [] →
  ip4_hdr_len f ≤ ip4_hdr_len dgram → (more = true → Z.of_nat (length data) mod 8 = 0) → 
  8 * units + Z.of_nat (length data) ≤ T → more = bool_decide (8 * units + Z.of_nat (length data) ≠ T) →
  x_ival (fragment_of f) = (8 * units, 8 * units + Z.of_nat (length data)) ∧ fragment_ok word swap dgram T f.
Proof.
  intros (Ho&Hv&Htl&Hhl&_&Hu&Hm&Hid&Hpr&Hs&Hd) Hne Hh H8 HT Hmore.
  destruct (ip4_verify_ok _ _ _ _ Ho Hv) as (Hr&Hr2&Hpl&_). unfold IDEMIP_IPV4_HDR_LEN in Hr.
  assert (data_len (fragment_of f) = Z.of_nat (length data)) as Ed by (simpl; lia).
  assert (0 < Z.of_nat (length data)) by (destruct data; [done|simpl; lia]).
  assert (off (fragment_of f) = 8 * units ∧ 0 ≤ units) as [Eo Hu0].
  { simpl. unfold ip4_frag_offset_bytes. rewrite Hu. unfold IDEMIP_IP4_FRAG_SHIFT. rewrite Z.shiftl_mul_pow2 by lia.
    assert (0 ≤ units < 65536) by (rewrite <- Hu; unfold ip4_frag_units; apply Z.mod_pos_bound; lia).
    rewrite u32_id by (unfold is_u32; lia). lia. }
  unfold x_ival, fragment_ok. rewrite Ed, Eo. split; [done|]. cbv zeta. split_and!; try done; try lia.
  - unfold x_key, key_of. simpl. congruence.
  - simpl. by rewrite Hm.
  - simpl. rewrite Hm. intros Hmt. change 7 with (Z.ones 3). rewrite Z.land_ones by lia. by apply H8.
  - simpl. rewrite u8_id by (unfold is_u8; lia). done.
Qed.

Lemma laid_tiles word swap dgram mtu l : ip4_mf dgram = false → ∀ units data, laid word swap dgram mtu units data l → data ≠ [] →
  let T := 8 * units + Z.of_nat (length data) in
  (∀ y, cover (map x_ival (map fragment_of l)) y = if bool_decide (8 * units ≤ y < T) then 1 else 0) ∧ Forall (fragment_ok word swap dgram T) l.
Proof.
  intros Hmf. induction l as [|f l IH]; intros units data Hl Hne T; [done|]. destruct Hl as (_&Hh&Hl).
  assert (∀ a b y, ind (a, b) y = if bool_decide (a ≤ y < b) then 1 else 0) as Hind.
  { intros. unfold ind. simpl. case_bool_decide; destruct (Z.leb_spec a y), (Z.ltb_spec y b); simpl; lia. }
  destruct l as [|f' l].
  - rewrite Hmf in Hl. destruct (piece_fragment _ _ _ _ _ _ _ T Hl Hne Hh) as [Ei Hok]; [done|subst T; lia| |].
    { symmetry. apply bool_decide_eq_false_2. subst T. lia. }
    split; [|by constructor]. intros y. cbn [map cover]. by rewrite Ei, Hind, Z.add_0_r.
  - destruct Hl as (d&d'&->&Hd&Hd'&H8&Hp&Hrest). assert (0 < Z.of_nat (length d')) by (destruct d'; [done|simpl; lia]).
    assert (T = 8 * (units + Z.of_nat (length d) / 8) + Z.of_nat (length d')) as ET.
    { subst T. rewrite length_app. Z.div_mod_to_equations. lia. }
    destruct (piece_fragment _ _ _ _ _ _ _ T Hp Hd Hh) as [Ei Hok]; [done|subst T; rewrite length_app; lia| |].
    { symmetry. apply bool_decide_eq_true_2. subst T. rewrite length_app. lia. }
    destruct (IH _ _ Hrest Hd') as [Hc Hall]. rewrite <- ET in Hc, Hall. split; [|by constructor].
    intros y. change (cover (map x_ival (map fragment_of (f :: f' :: l))) y) with
      (ind (x_ival (fragment_of f)) y + cover (map x_ival (map fragment_of (f' :: l))) y).
    rewrite Hc, Ei, Hind. assert (8 * (Z.of_nat (length d) / 8) = Z.of_nat (length d)) by (Z.div_mod_to_equations; lia).
    repeat case_bool_decide; lia.
Qed.

Lemma tiles_intro word swap dgram T l : (2 ≤ length l)%nat → T + ip4_hdr_len dgram ≤ 65535 → Forall (fragment_ok word swap dgram T) l →
  (∀ y, cover (map x_ival (map fragment_of l)) y = if bool_decide (0 ≤ y < T) then 1 else 0) → tiles (key_of dgram) T (map fragment_of l).
Proof.
  intros H2 HT Hall Hc. split; [done|]. intros x (f & -> & Hf)%list_elem_of_fmap.
  pose proof (proj1 (Forall_forall _ _) Hall f Hf) as (_&_&Hk&Ho&Hd&He&Hm&H8&Hh).
  split_and!; try done; try lia. destruct (decide (data_len (fragment_of f) < T)); [done|exfalso].
  apply list_elem_of_split in Hf as (l1 & l2 & Ef). assert (l ≡ₚ f :: (l1 ++ l2)) as HP by (rewrite Ef; symmetry; apply Permutation_middle).
  clear Ef. remember (l1 ++ l2) as l' eqn:El'. clear El'. rewrite HP in H2. simpl in H2. destruct l' as [|g l']; [simpl in H2; lia|].
  pose proof (proj1 (Forall_forall _ _) Hall g) as (_&_&_&Hog&Hdg&Heg&_); [rewrite HP; set_solver|].
  specialize (Hc (off (fragment_of g))). rewrite (cover_perm _ (map x_ival (map fragment_of (f :: g :: l')))) in Hc by (by rewrite HP).
  rewrite bool_decide_eq_true_2 in Hc by lia. cbn [map cover] in Hc. pose proof (cover_nonneg (map x_ival (map fragment_of l')) (off (fragment_of g))).
  destruct (ind_cases (x_ival (fragment_of f)) (off (fragment_of g))) as [[_ E1]|[Hn _]]; [|apply Hn; unfold within, x_ival; cbn [fst snd]; lia].
  destruct (ind_cases (x_ival (fragment_of g)) (off (fragment_of g))) as [[_ E2]|[Hn _]]; [|apply Hn; unfold within, x_ival; cbn [fst snd]; lia].
  lia.
Qed.

(** Calls that hold the fragments [l], each once, in whatever order and with whatever descriptors. *)
Definition arrivals (l : list (list Z)) (calls : list (Ip4ReassIo * op)) : Prop :=
  map (λ call, a_hdr (hold_args call.1)) calls ≡ₚ map Some l ∧
  Forall (λ call, call.2 = OHold ∧ is_u8 (next_index call.1) ∧ is_u8 (release_index call.1) ∧
                  ∀ h, a_hdr (hold_args call.1) = Some h → a_len (hold_args call.1) = Z.of_nat (length h)) calls.

Lemma arrivals_hold c word swap dgram T l calls : build word → build (cf_word c) → Forall (fragment_ok word swap dgram T) l → arrivals l calls →
  calls_ok calls ∧ ∃ X, Forall2 (holds c) calls X ∧ X ≡ₚ map fragment_of l.
Proof.
  intros Hb Hb' Hl [HP Hall]. 
  assert (∃ hs, map (λ call : Ip4ReassIo * op, a_hdr (hold_args call.1)) calls = map Some hs ∧ hs ≡ₚ l) as (hs & Ehs & HP').
  { apply Permutation_map_inv in HP as (hs & E & P'). exists hs. split; [done|]. by symmetry. }
  assert (Forall (fragment_ok word swap dgram T) hs) as Hhs by (by rewrite HP').
  clear Hl HP. assert (calls_ok calls ∧ Forall2 (holds c) calls (map fragment_of hs)) as [H1 H2].
  { clear HP'. revert hs Ehs Hhs. induction Hall as [|call calls (Ho&Hn&Hr&Hlen) Hall IH]; intros [|h hs] Ehs Hhs; try done.
    { split; constructor. }
    simpl in Ehs. injection Ehs as Eh Ehs. apply Forall_cons in Hhs as [Hok Hhs]. destruct (IH hs Ehs Hhs) as [I1 I2].
    destruct Hok as (Hoct&Hv&_). split; constructor; try done.
    - split_and!; [done..|]. rewrite Eh. by intros ? [= <-].
    - split; [done|]. exists h. split_and!; [done| |done]. rewrite (Hlen _ Eh). by apply (verify_any_build word swap). }
  split; [done|]. exists (map fragment_of hs). split; [done|]. by rewrite HP'.
Qed.

(** C17. A datagram longer than the MTU, cut by one machine and its fragments held by another in any order: every fragment is
    taken, the last to arrive and no other completes the datagram, and the length reported is the datagram's data length. *)
Theorem fragmented_datagram_reassembles c rw word swap fw dgram len mtu : config_ok c → 1 ≤ cf_datagrams c → build word → build (cf_word c) →
  handed fw dgram len mtu → sendable word swap dgram len mtu → mtu < ip4_total_len dgram → ip4_frag_units dgram = 0 → ip4_mf dgram = false →
  ∃ w1, Ip4Frag.idemip_ip4_frag_begin word swap fw = Some w1 ∧ ∀ fuel, 8193 ≤ Z.of_nat fuel →
  ∃ l w2, pieces word swap fuel w1 = Some (l, w2) ∧ (2 ≤ length l)%nat ∧
    ∀ calls, Z.of_nat (length l) ≤ cf_frags c → arrivals l calls →
    ∃ init last w', run c calls (start c rw) = Some (init ++ [last], w') ∧
      Forall (λ io, io_status io = IDEMIP_OK ∧ io_complete io = false) init ∧
      io_status last = IDEMIP_OK ∧ io_complete last = true ∧ io_total_len last = ip4_payload_len dgram.
Proof.
  intros Hc HD Hb Hb' Hh Hs Hmtu Hu Hmf. destruct (fragments_of word swap Hb fw dgram len mtu Hh) as (w1&Hbe&Hiff&H).
  exists w1. split; [done|]. intros fuel Hfuel. destruct (H (proj2 Hiff Hs) fuel Hfuel) as (l&w2&Hp&_&Hl&H2). exists l, w2.
  apply proj1 in H2. specialize (H2 Hmtu). split; [done|]. split; [done|]. intros calls HF Harr.
  assert (datagram word swap dgram len) as Hd by (destruct Hs as (Hv&_); destruct Hh as (_&_&Ho&Hle&_); done).
  destruct (datagram_facts word swap dgram len Hd) as (Hhl&_&_&Htot&_&Htl&_&Hpl&_).
  assert (payload_of dgram ≠ []) as Hne.
  { destruct l as [|f [|f' l]]; [done|simpl in H2; lia|]. destruct Hl as (_&_&d&d'&->&Hd0&_). by destruct d. }
  rewrite Hu in Hl. destruct (laid_tiles word swap dgram mtu l Hmf 0 _ Hl Hne) as [Hcov Hall]. rewrite Z.add_0_l, Hpl in Hcov, Hall.
  destruct (arrivals_hold c word swap dgram (ip4_payload_len dgram) l calls Hb Hb' Hall Harr) as (Hok & X & HX & HPX).
  assert (tiles (key_of dgram) (ip4_payload_len dgram) X) as Ht.
  { eapply tiles_perm; [symmetry; exact HPX|]. apply (tiles_intro word swap); try done. lia. }
  destruct (gather_run c HD (key_of dgram) (ip4_payload_len dgram) calls X HX [] (a_start c)) as (init&last&Er&Hinit&Hlast).
  - intros ->. apply Permutation_nil in HPX. destruct l; [done|done].
  - done.
  - simpl. by rewrite HPX, length_map.
  - unfold a_start. split; [unfold tlen; rewrite length_replicate; lia|]. split; [|left]; intros; rewrite ?tget_replicate by lia; done.
  - destruct (reass_run_refines c calls (start c rw) (a_start c)) as (w'&Hr&_); [done|by apply start_Rep|done|].
    exists init, last, w'. rewrite Hr, Er. done.
Qed.

(** Two fragments of a 153-octet datagram, the last one first. *)
Definition arriving (f : list Z) : Ip4ReassIo * op := (io_example (Some f) 4 (Z.of_nat (length f)), OHold).
Definition cut_example : option (list (list Z)) :=
  w1 ← Ip4Frag.idemip_ip4_frag_begin None false long_work; '(l, _) ← pieces None false (Z.to_nat 8193) w1; Some l.

Lemma arriving_arrivals l : arrivals l (map arriving (rev l)).
Proof.
  split.
  - rewrite map_map. change (map Some (rev l) ≡ₚ map Some l). by rewrite <- Permutation_rev.
  - apply Forall_forall. intros call (f & -> & _)%list_elem_of_fmap. simpl. unfold is_u8.
    split_and!; [done|lia..|]. by intros h [= <-].
Qed.

Lemma fragmented_datagram_reassembles_witness :
  ∃ l init last w', cut_example = Some l ∧ run cfg_example (map arriving (rev l)) (start cfg_example work_example) = Some (init ++ [last], w') ∧
    Forall (λ io, io_status io = IDEMIP_OK ∧ io_complete io = false) init ∧
    io_status last = IDEMIP_OK ∧ io_complete last = true ∧ io_total_len last = ip4_payload_len long_datagram.
Proof.
  destruct (fragmented_datagram_reassembles cfg_example work_example None false long_work long_datagram 153 100) as (w1&Hb&H).
  - exact cfg_example_ok.
  - discriminate.
  - exact I.
  - exact I.
  - split; [reflexivity|]. split; [reflexivity|]. split; [apply octets_of_forallb; vm_compute; reflexivity|].
    split; [vm_compute; discriminate|]. split; [split; [discriminate|reflexivity]|].
    exists (replicate 100 0). split; [reflexivity|]. split; [discriminate|vm_compute; discriminate].
  - split; [vm_compute; reflexivity|]. split; [discriminate|].
    split; [vm_compute; discriminate|]. intros _. split; [vm_compute; reflexivity|vm_compute; discriminate].
  - vm_compute. reflexivity.
  - vm_compute. reflexivity.
  - vm_compute. reflexivity.
  - destruct (H (Z.to_nat 8193) ltac:(lia)) as (l&w2&Hp&_&Hall).
    assert (cut_example = Some l) as Hcut by (unfold cut_example; rewrite Hb; cbn [mbind option_bind]; rewrite Hp; reflexivity).
    assert (option_map (@length (list Z)) cut_example = Some 2%nat) as Hlen by (vm_compute; reflexivity).
    rewrite Hcut in Hlen. injection Hlen as Hlen.
    destruct (Hall (map arriving (rev l)) ltac:(rewrite Hlen; discriminate) (arriving_arrivals l)) as (init&last&w'&Hr).
    exists l, init, last, w'. split; [exact Hcut|exact Hr].
Defined.
End Ip4Path.
