(* ===== verification/Ip4Route.v ===== *)
(** * The IPv4 routing table (src/ip/ip4_route.c)

    A table of [IDEMIP_IP4_ROUTES] rows, each a route of RFC 1122 section 3.3.1.3.  [lookup] applies the
    pruning rules of RFC 1812 section 5.2.4.3 in four passes over the table; a Redirect and a path MTU
    estimate write the row of one host, which they make when there is none. *)
From S2P Require Import Prelude Ipv4 Ip4Frag.

Module Ip4Route.
Import Ipv4.

(** ** Data *)
Definition IDEMIP_IP4_ROUTE_INDEX_NONE : Z := 0xFF.
Definition IDEMIP_IP4_ROUTE_FREE : Z := 0.
Definition IDEMIP_IP4_ROUTE_USED : Z := 1.
Definition IDEMIP_IP4_ROUTE_F_GATEWAY : Z := Z.shiftl 1 0.
Definition IDEMIP_IP4_ROUTE_F_STATIC : Z := Z.shiftl 1 1.
Definition IDEMIP_IP4_ROUTE_F_REDIRECT_OK : Z := Z.shiftl 1 2.
Definition IDEMIP_IP4_ROUTE_F_HOST : Z := Z.shiftl 1 3.
Definition IP4_ROUTE_READY : Z := 0x52543400.
Definition IP4_ROUTE_MASK_HOST : Z := 0xFFFFFFFF.
Definition IP4_ROUTE_TOS_DEFAULT : Z := 0.

Record Ip4RouteAddArgs := mkAddArgs {
  add_dst : Z; add_mask : Z; add_gw : Z; add_metric : Z; add_netif : Z; add_tos : Z; add_flags : Z }.
Record Ip4RouteRemoveArgs := mkRemoveArgs { rm_dst : Z; rm_mask : Z }.
Record Ip4RouteLookupArgs := mkLookupArgs { lk_dst : Z; lk_tos : Z }.
Record Ip4RouteRedirectArgs := mkRedirectArgs { rd_dst : Z; rd_gw : Z }.
Record Ip4RoutePmtuArgs := mkPmtuArgs { pm_dst : Z; pm_mtu : Z }.

Record Ip4RouteIo := mkIo {
  add_args : Ip4RouteAddArgs;
  remove_args : Ip4RouteRemoveArgs;
  lookup_args : Ip4RouteLookupArgs;
  redirect_args : Ip4RouteRedirectArgs;
  pmtu_args : Ip4RoutePmtuArgs;
  io_now_ms : Z;
  io_next_hop : Z;
  io_pmtu : Z;
  io_status : IdemIpStatus;
  io_index : Z;
  io_netif : Z;
  io_direct : bool;
  io_tos_blocked : bool }.
#[export] Instance Ip4RouteIo_eta : Eta Ip4RouteIo := fun r =>
  mkIo (add_args r) (remove_args r) (lookup_args r) (redirect_args r) (pmtu_args r) (io_now_ms r) (io_next_hop r)
    (io_pmtu r) (io_status r) (io_index r) (io_netif r) (io_direct r) (io_tos_blocked r).

(** The padding of the row is left out: no entry reads it. *)
Record Ip4RouteEntry := mkEntry {
  e_dst : Z;
  e_mask : Z;
  e_gw : Z;
  e_pmtu_ms : Z;
  e_pmtu : Z;
  e_metric : Z;
  e_netif : Z;
  e_tos : Z;
  e_flags : Z;
  e_state : Z;
  e_plen : Z }.
#[export] Instance Ip4RouteEntry_eta : Eta Ip4RouteEntry := fun r =>
  mkEntry (e_dst r) (e_mask r) (e_gw r) (e_pmtu_ms r) (e_pmtu r) (e_metric r) (e_netif r) (e_tos r) (e_flags r)
    (e_state r) (e_plen r).
(** What [memset(.., 0, ..)] leaves in a row. *)
Definition entry_zero : Ip4RouteEntry := mkEntry 0 0 0 0 0 0 0 0 0 0 0.
#[export] Instance Ip4RouteEntry_inhabited : Inhabited Ip4RouteEntry := populate entry_zero.

Record Ip4RouteCtx := mkCtx { c_ready : Z; c_tick_ms : Z }.
#[export] Instance Ip4RouteCtx_eta : Eta Ip4RouteCtx := fun r => mkCtx (c_ready r) (c_tick_ms r).

(** What rule 2 left: [Ip4RouteBest]. *)
Record Ip4RouteBest := mkBest { matched : bool; direct : bool }.

Record Work := mkWork { w_io : Ip4RouteIo; w_ctx : Ip4RouteCtx; w_tab : list Ip4RouteEntry }.
#[export] Instance Work_eta : Eta Work := fun r => mkWork (w_io r) (w_ctx r) (w_tab r).

Definition ip4_route_ready (w : Work) : bool := c_ready (w_ctx w) =? IP4_ROUTE_READY.
Definition has_flag (e : Ip4RouteEntry) (f : Z) : bool := negb (Z.land (e_flags e) f =? 0).

Definition ip4_route_mask_ok (mask : Z) : bool := ip4_mask_contiguous mask.
Definition ip4_route_prefix_len (mask : Z) : Z := ip4_mask_ones mask.

Section Unit.
Variables (IDEMIP_IP4_ROUTES IDEMIP_IP4_ROUTE_PMTU_SWEEP_MS IDEMIP_IP4_ROUTE_PMTU_TIMEOUT_MS : Z).
Let routes : nat := Z.to_nat IDEMIP_IP4_ROUTES.

(** [for (i = 0; i < IDEMIP_IP4_ROUTES; i++)], over what the loop carries. *)
Definition each {A} (body : A → Z → A) (a : A) : A := foldl body a (seqZ 0 IDEMIP_IP4_ROUTES).

(** ** The row helpers *)
Definition ip4_route_find_key (t : list Ip4RouteEntry) (dst mask tos gw : Z) : Z :=
  default IDEMIP_IP4_ROUTE_INDEX_NONE
    (scan (λ i, let e := tget t i in
       (e_state e =? IDEMIP_IP4_ROUTE_USED) && (e_mask e =? mask) && (e_dst e =? Z.land dst mask) && (e_tos e =? tos) &&
       (e_gw e =? gw)) routes 0).

Definition ip4_route_find_free (t : list Ip4RouteEntry) : Z :=
  default IDEMIP_IP4_ROUTE_INDEX_NONE (scan (λ i, negb (e_state (tget t i) =? IDEMIP_IP4_ROUTE_USED)) routes 0).

Definition ip4_route_basic_match (e : Ip4RouteEntry) (dst : Z) : bool :=
  (e_state e =? IDEMIP_IP4_ROUTE_USED) && (Z.land dst (e_mask e) =? e_dst e).

(** Rules 1 and 2: whether a row matches, and the longest prefix of those that do. *)
Definition best_length (t : list Ip4RouteEntry) (dst : Z) : Z * bool :=
  each (λ '(best_len, matched) i,
    let e := tget t i in
    if negb (ip4_route_basic_match e dst) then (best_len, matched)
    else if negb matched || (best_len <? e_plen e) then (e_plen e, true) else (best_len, matched)) (0, false).

(** Rule 3. *)
Definition exact_tos (t : list Ip4RouteEntry) (dst best_len tos : Z) : bool :=
  each (λ exact i,
    let e := tget t i in
    if ip4_route_basic_match e dst && (e_plen e =? best_len) && (e_tos e =? tos) then true else exact) false.

(** Rule 4. *)
Definition best_metric (t : list Ip4RouteEntry) (dst best_len want : Z) : Z * Z :=
  each (λ '(best, metric) i,
    let e := tget t i in
    if negb (ip4_route_basic_match e dst) || negb (e_plen e =? best_len) || negb (e_tos e =? want) then (best, metric)
    else if (best =? IDEMIP_IP4_ROUTE_INDEX_NONE) || (e_metric e <? metric) then (i, e_metric e) else (best, metric))
    (IDEMIP_IP4_ROUTE_INDEX_NONE, 0).

Definition any_direct (t : list Ip4RouteEntry) (dst best_len : Z) : bool :=
  each (λ direct i,
    let e := tget t i in
    if ip4_route_basic_match e dst && (e_plen e =? best_len) && negb (has_flag e IDEMIP_IP4_ROUTE_F_GATEWAY) then true
    else direct) false.

(** A caller that passes NULL for [out] drops the second component. *)
Definition ip4_route_best (t : list Ip4RouteEntry) (dst tos : Z) : Z * Ip4RouteBest :=
  let '(best_len, matched) := best_length t dst in
  if negb matched then (IDEMIP_IP4_ROUTE_INDEX_NONE, mkBest matched false)
  else
    let exact := exact_tos t dst best_len tos in
    let want := if exact then tos else IP4_ROUTE_TOS_DEFAULT in
    let '(best, _) := best_metric t dst best_len want in
    (best, mkBest matched (any_direct t dst best_len)).

Definition ip4_route_derive_host (e from : Ip4RouteEntry) (dst : Z) : Ip4RouteEntry :=
  e <| e_dst := dst |> <| e_mask := IP4_ROUTE_MASK_HOST |> <| e_plen := ip4_route_prefix_len IP4_ROUTE_MASK_HOST |>
    <| e_gw := e_gw from |> <| e_pmtu_ms := 0 |> <| e_pmtu := 0 |> <| e_metric := e_metric from |>
    <| e_netif := e_netif from |> <| e_tos := IP4_ROUTE_TOS_DEFAULT |>
    <| e_flags := u8 (Z.lor (Z.land (e_flags from) IDEMIP_IP4_ROUTE_F_GATEWAY) IDEMIP_IP4_ROUTE_F_HOST) |>
    <| e_state := IDEMIP_IP4_ROUTE_USED |>.

(** ** The entries *)
Definition ctx_zero : Ip4RouteCtx := mkCtx 0 0.

Definition idemip_ip4_route_clear (w : Work) : Work :=
  w <| w_ctx := ctx_zero <| c_ready := IP4_ROUTE_READY |> |> <| w_tab := replicate routes entry_zero |>
    <| w_io := (w_io w) <| io_status := IDEMIP_OK |> |>.

(** The row [add] writes over [e]. *)
Definition add_row (e : Ip4RouteEntry) (a : Ip4RouteAddArgs) : Ip4RouteEntry :=
  let mask := add_mask a in
  let flags := u8 (Z.land (add_flags a) (Z.lnot IDEMIP_IP4_ROUTE_F_HOST)) in
  e <| e_dst := Z.land (add_dst a) mask |> <| e_mask := mask |> <| e_plen := ip4_route_prefix_len mask |>
    <| e_gw := add_gw a |> <| e_pmtu_ms := 0 |> <| e_pmtu := 0 |> <| e_metric := add_metric a |>
    <| e_netif := add_netif a |> <| e_tos := add_tos a |>
    <| e_flags := if mask =? IP4_ROUTE_MASK_HOST then u8 (Z.lor flags IDEMIP_IP4_ROUTE_F_HOST) else flags |>
    <| e_state := IDEMIP_IP4_ROUTE_USED |>.

(** The row an [add] lands in, or none. *)
Definition add_index (t : list Ip4RouteEntry) (a : Ip4RouteAddArgs) : Z :=
  let i := ip4_route_find_key t (Z.land (add_dst a) (add_mask a)) (add_mask a) (add_tos a) (add_gw a) in
  if i =? IDEMIP_IP4_ROUTE_INDEX_NONE then ip4_route_find_free t else i.

Definition idemip_ip4_route_add (w : Work) : Work :=
  let io := (w_io w) <| io_status := IDEMIP_ERR |> <| io_index := IDEMIP_IP4_ROUTE_INDEX_NONE |> in
  let a := add_args io in
  if negb (ip4_route_ready w) then w <| w_io := io |>
  else if negb (ip4_route_mask_ok (add_mask a)) then w <| w_io := io |>
  else if negb (Z.land (add_flags a) IDEMIP_IP4_ROUTE_F_GATEWAY =? 0) && (add_gw a =? 0) then w <| w_io := io |>
  else
    let i := add_index (w_tab w) a in
    if i =? IDEMIP_IP4_ROUTE_INDEX_NONE then w <| w_io := io <| io_status := IDEMIP_BUSY |> |>
    else
      let e := add_row (tget (w_tab w) i) a in
      w <| w_tab := tset (w_tab w) i e |>
        <| w_io := io <| io_index := i |> <| io_netif := e_netif e |> <| io_status := IDEMIP_OK |> |>.

Definition remove_one (dst mask : Z) (w : Work) (i : Z) : Work :=
  let e := tget (w_tab w) i in
  if negb (e_state e =? IDEMIP_IP4_ROUTE_USED) || negb (e_mask e =? mask) || negb (e_dst e =? dst) then w
  else
    let io := w_io w in
    let io := if io_index io =? IDEMIP_IP4_ROUTE_INDEX_NONE then io <| io_index := i |> else io in
    w <| w_tab := tset (w_tab w) i entry_zero |> <| w_io := io <| io_status := IDEMIP_OK |> |>.

Definition idemip_ip4_route_remove (w : Work) : Work :=
  let io := (w_io w) <| io_status := IDEMIP_ERR |> <| io_index := IDEMIP_IP4_ROUTE_INDEX_NONE |> in
  let w := w <| w_io := io |> in
  if negb (ip4_route_ready w) then w
  else
    let mask := rm_mask (remove_args io) in
    each (remove_one (Z.land (rm_dst (remove_args io)) mask) mask) w.

Definition idemip_ip4_route_lookup (w : Work) : Work :=
  let io := (w_io w) <| io_status := IDEMIP_ERR |> <| io_next_hop := 0 |> <| io_pmtu := 0 |> <| io_netif := 0 |>
               <| io_direct := false |> <| io_tos_blocked := false |> <| io_index := IDEMIP_IP4_ROUTE_INDEX_NONE |> in
  if negb (ip4_route_ready w) then w <| w_io := io |>
  else
    let '(i, best) := ip4_route_best (w_tab w) (lk_dst (lookup_args io)) (lk_tos (lookup_args io)) in
    if i =? IDEMIP_IP4_ROUTE_INDEX_NONE then
      w <| w_io := io <| io_tos_blocked := matched best |> <| io_direct := direct best |> <| io_status := IDEMIP_BUSY |> |>
    else
      let e := tget (w_tab w) i in
      let d := Z.land (e_flags e) IDEMIP_IP4_ROUTE_F_GATEWAY =? 0 in
      w <| w_io := io <| io_index := i |> <| io_netif := e_netif e |> <| io_pmtu := e_pmtu e |> <| io_direct := d |>
             <| io_next_hop := if d then lk_dst (lookup_args io) else e_gw e |> <| io_status := IDEMIP_OK |> |>.

(** The row of the one host: [cur] when it keys on the whole address, or a free row derived from it. *)
Definition host_row (t : list Ip4RouteEntry) (cur dst : Z) : option (list Ip4RouteEntry * Z) :=
  if negb (e_mask (tget t cur) =? IP4_ROUTE_MASK_HOST) then
    let n := ip4_route_find_free t in
    if n =? IDEMIP_IP4_ROUTE_INDEX_NONE then None
    else Some (tset t n (ip4_route_derive_host (tget t n) (tget t cur) dst), n)
  else Some (t, cur).

(** A gateway on a connected net: it resolves to a row that transmits directly. *)
Definition gateway_connected (t : list Ip4RouteEntry) (gw : Z) : bool :=
  let g := (ip4_route_best t gw IP4_ROUTE_TOS_DEFAULT).1 in
  negb ((g =? IDEMIP_IP4_ROUTE_INDEX_NONE) || has_flag (tget t g) IDEMIP_IP4_ROUTE_F_GATEWAY).

Definition idemip_ip4_route_redirect (w : Work) : Work :=
  let io := (w_io w) <| io_status := IDEMIP_ERR |> <| io_index := IDEMIP_IP4_ROUTE_INDEX_NONE |> in
  let t := w_tab w in
  let gw := rd_gw (redirect_args io) in
  let dst := rd_dst (redirect_args io) in
  if negb (ip4_route_ready w) then w <| w_io := io |>
  else if gw =? 0 then w <| w_io := io |>
  else if negb (gateway_connected t gw) then w <| w_io := io |>
  else
    let cur := (ip4_route_best t dst IP4_ROUTE_TOS_DEFAULT).1 in
    if cur =? IDEMIP_IP4_ROUTE_INDEX_NONE then w <| w_io := io <| io_status := IDEMIP_BUSY |> |>
    else if has_flag (tget t cur) IDEMIP_IP4_ROUTE_F_STATIC && negb (has_flag (tget t cur) IDEMIP_IP4_ROUTE_F_REDIRECT_OK)
    then w <| w_io := io |>
    else
      match host_row t cur dst with
      | None => w <| w_io := io <| io_status := IDEMIP_BUSY |> |>
      | Some (t, i) =>
          let e := (tget t i) <| e_gw := gw |> <| e_flags := u8 (Z.lor (e_flags (tget t i)) IDEMIP_IP4_ROUTE_F_GATEWAY) |>
                     <| e_pmtu := 0 |> <| e_pmtu_ms := 0 |> in
          w <| w_tab := tset t i e |>
            <| w_io := io <| io_index := i |> <| io_netif := e_netif e |> <| io_status := IDEMIP_OK |> |>
      end.

Definition idemip_ip4_route_set_pmtu (w : Work) : Work :=
  let io := (w_io w) <| io_status := IDEMIP_ERR |> <| io_pmtu := 0 |> <| io_index := IDEMIP_IP4_ROUTE_INDEX_NONE |> in
  let t := w_tab w in
  let mtu := pm_mtu (pmtu_args io) in
  let dst := pm_dst (pmtu_args io) in
  if negb (ip4_route_ready w) then w <| w_io := io |>
  else if mtu <? Ip4Frag.IDEMIP_IP4_MIN_FORWARD_MTU then w <| w_io := io |>
  else
    let cur := (ip4_route_best t dst IP4_ROUTE_TOS_DEFAULT).1 in
    if cur =? IDEMIP_IP4_ROUTE_INDEX_NONE then w <| w_io := io <| io_status := IDEMIP_BUSY |> |>
    else
      match host_row t cur dst with
      | None => w <| w_io := io <| io_status := IDEMIP_BUSY |> |>
      | Some (t, i) =>
          let e := tget t i in
          let e := if (e_pmtu e =? 0) || (mtu <? e_pmtu e) then e <| e_pmtu := mtu |> <| e_pmtu_ms := io_now_ms io |> else e in
          w <| w_tab := tset t i e |>
            <| w_io := io <| io_pmtu := e_pmtu e |> <| io_index := i |> <| io_netif := e_netif e |> <| io_status := IDEMIP_OK |> |>
      end.

Definition age_one (w : Work) (i : Z) : Work :=
  let e := tget (w_tab w) i in
  let io := w_io w in
  if negb (e_state e =? IDEMIP_IP4_ROUTE_USED) || (e_pmtu e =? 0) then w
  else if u32 (io_now_ms io - e_pmtu_ms e) <? u32 IDEMIP_IP4_ROUTE_PMTU_TIMEOUT_MS then w
  else
    w <| w_tab := tset (w_tab w) i (e <| e_pmtu := 0 |> <| e_pmtu_ms := 0 |>) |>
      <| w_io := if io_index io =? IDEMIP_IP4_ROUTE_INDEX_NONE then io <| io_index := i |> else io |>.

Definition idemip_ip4_route_tick (w : Work) : Work :=
  let io := (w_io w) <| io_status := IDEMIP_ERR |> <| io_index := IDEMIP_IP4_ROUTE_INDEX_NONE |> in
  let w := w <| w_io := io |> in
  if negb (ip4_route_ready w) then w
  else if u32 (io_now_ms io - c_tick_ms (w_ctx w)) <? u32 IDEMIP_IP4_ROUTE_PMTU_SWEEP_MS
  then w <| w_io := io <| io_status := IDEMIP_BUSY |> |>
  else
    let w := each age_one (w <| w_ctx := (w_ctx w) <| c_tick_ms := io_now_ms io |> |>) in
    w <| w_io := (w_io w) <| io_status := IDEMIP_OK |> |>.
End Unit.
End Ip4Route.

(** * The routing table: masks, the pruning rules and what keeps the table well formed

    The reference for [ip4_route_best] is RFC 1812 section 5.2.4.3 as the section words it: each rule takes
    a set of routes and leaves a subset. *)
Module Ip4RouteFacts.
Import Ipv4 Ip4Route.

(** ** Masks *)
Definition prefix_mask (p : Z) : Z := 2 ^ 32 - 2 ^ (32 - p).

Lemma pow2_of_land n : 0 < n → Z.land n (n - 1) = 0 → ∃ k, 0 ≤ k ∧ n = 2 ^ k.
Proof.
  intros Hn Hl. exists (Z.log2 n). split; [apply Z.log2_nonneg|].
  destruct (Z.log2_spec n Hn) as [Hlo Hhi]. pose proof (Z.log2_nonneg n) as Hk.
  destruct (decide (n = 2 ^ Z.log2 n)) as [|Hne]; [done|exfalso].
  (* both n and n - 1 have the top bit *)
  assert (Z.testbit (Z.land n (n - 1)) (Z.log2 n) = true) as Hb; [|by rewrite Hl, Z.bits_0 in Hb].
  rewrite Z.land_spec, Z.bit_log2 by done. simpl.
  assert (Z.log2 (n - 1) = Z.log2 n) as <- by (apply Z.log2_unique; lia). apply Z.bit_log2. pose proof (Z.pow_pos_nonneg 2 (Z.log2 n)). lia.
Qed.

Lemma u32_lnot x : is_u32 x → u32 (Z.lnot x) = 2 ^ 32 - 1 - x.
Proof.
  intros Hx. unfold u32, is_u32 in *. pose proof (Z.add_lnot_diag x). replace (Z.lnot x) with (2 ^ 32 - 1 - x + (-1) * 4294967296) by lia.
  rewrite Z.mod_add by lia. rewrite Z.mod_small; lia.
Qed.

(** The masks RFC 1812 knows: [p] ones from the top. *)
Lemma mask_contiguous_iff mask : is_u32 mask → ip4_mask_contiguous mask = true → ∃ p, 0 ≤ p ≤ 32 ∧ mask = prefix_mask p.
Proof.
  intros Hm. unfold ip4_mask_contiguous. rewrite u32_lnot by done. unfold is_u32 in Hm.
  destruct (decide (mask = 0)) as [->|Hne]. { intros _. exists 0. split; [lia|reflexivity]. }
  rewrite (u32_id (2 ^ 32 - 1 - mask + 1)) by (unfold is_u32; lia). rewrite u32_id by (unfold is_u32; lia). intros Hl%Z.eqb_eq.
  destruct (pow2_of_land (2 ^ 32 - 1 - mask + 1)) as (k & Hk & E); [lia|done|].
  assert (k < 32). { apply (Z.pow_lt_mono_r_iff 2); lia. }
  exists (32 - k). split; [lia|]. unfold prefix_mask. replace (32 - (32 - k)) with k by lia. lia.
Qed.

Lemma mask_ones_prefix p : 0 ≤ p ≤ 32 → ip4_mask_ones (prefix_mask p) = p.
Proof.
  intros Hp. assert (forallb (λ p, ip4_mask_ones (prefix_mask p) =? p) (seqZ 0 33) = true) as H by (vm_compute; reflexivity).
  rewrite forallb_forall in H. apply Z.eqb_eq, H. apply list_elem_of_In, elem_of_seqZ. lia.
Qed.

Lemma land_prefix x p : is_u32 x → 0 ≤ p ≤ 32 → Z.land x (prefix_mask p) = x / 2 ^ (32 - p) * 2 ^ (32 - p).
Proof.
  intros Hx Hp. assert (prefix_mask p = Z.shiftl (Z.ones p) (32 - p)) as ->.
  { unfold prefix_mask. rewrite Z.shiftl_mul_pow2, Z.ones_equiv by lia.
    replace (2 ^ 32) with (2 ^ p * 2 ^ (32 - p)) by (rewrite <- Z.pow_add_r by lia; f_equal; lia). lia. }
  rewrite <- (Z.shiftl_mul_pow2 _ (32 - p)), <- (Z.shiftr_div_pow2 x) by lia. apply Z.bits_inj'. intros i Hi.
  rewrite Z.land_spec, !Z.shiftl_spec by lia. destruct (Z.lt_ge_cases i (32 - p)).
  { rewrite !(Z.testbit_neg_r _ (i - (32 - p))) by lia. by rewrite andb_false_r. }
  rewrite Z.shiftr_spec by lia. replace (i - (32 - p) + (32 - p)) with i by lia.
  destruct (Z.lt_ge_cases i 32).
  - rewrite Z.ones_spec_low by lia. by rewrite andb_true_r.
  - rewrite (testbit_high 32 x i) by (unfold is_u32 in Hx; lia). done.
Qed.

(** ** The table's invariant *)
Definition row_ok (e : Ip4RouteEntry) : Prop :=
  e_state e = IDEMIP_IP4_ROUTE_USED →
  is_u32 (e_dst e) ∧ 0 ≤ e_plen e ≤ 32 ∧ e_mask e = prefix_mask (e_plen e) ∧ e_dst e mod 2 ^ (32 - e_plen e) = 0 ∧
  (has_flag e IDEMIP_IP4_ROUTE_F_GATEWAY = true → e_gw e ≠ 0) ∧
  (e_pmtu e = 0 ∨ Ip4Frag.IDEMIP_IP4_MIN_FORWARD_MTU ≤ e_pmtu e ∧ e_plen e = 32) ∧
  (has_flag e IDEMIP_IP4_ROUTE_F_HOST = true ↔ e_plen e = 32).

(** RFC 1812 rule 1: "the most significant route.length bits of route.dest and ip.dest are equal". *)
Definition basic (e : Ip4RouteEntry) (dst : Z) : Prop :=
  e_state e = IDEMIP_IP4_ROUTE_USED ∧ e_dst e / 2 ^ (32 - e_plen e) = dst / 2 ^ (32 - e_plen e).
#[export] Instance basic_dec e dst : Decision (basic e dst).
Proof. unfold basic. apply _. Defined.

Lemma basic_match_iff e dst : row_ok e → is_u32 dst → ip4_route_basic_match e dst = true ↔ basic e dst.
Proof.
  intros Hr Hd. unfold ip4_route_basic_match, basic. rewrite andb_true_iff, !Z.eqb_eq.
  split; intros [Hu Hm]; (split; [done|]); destruct (Hr Hu) as (Hde&Hp&Hmask&Hz&_); rewrite Hmask, land_prefix in * by done;
    pose proof (Z.pow_pos_nonneg 2 (32 - e_plen e) ltac:(lia) ltac:(lia)); Z.div_mod_to_equations; nia.
Qed.

(** ** The rules as the RFC words them *)
Section Rules.
Variable IDEMIP_IP4_ROUTES : Z.
Variable t : list Ip4RouteEntry.

Definition rule1 (dst : Z) : list Z := filter (λ i, basic (tget t i) dst) (seqZ 0 IDEMIP_IP4_ROUTES).
(** "... the longest": every route with a shorter route.length than another's is discarded. *)
Definition rule2 (c : list Z) : list Z := filter (λ i, Forall (λ j, e_plen (tget t j) ≤ e_plen (tget t i)) c) c.
Definition rule3 (tos : Z) (c : list Z) : list Z :=
  match filter (λ i, e_tos (tget t i) = tos) c with
  | [] => filter (λ i, e_tos (tget t i) = 0) c
  | ex => ex
  end.
Definition rule4 (c : list Z) : list Z := filter (λ i, Forall (λ j, e_metric (tget t i) ≤ e_metric (tget t j)) c) c.
(** Rule 5, the vendor's policy: the lowest row. *)
Definition rfc1812 (dst tos : Z) : option Z := head (rule4 (rule3 tos (rule2 (rule1 dst)))).
End Rules.

(** ** The passes *)
Lemma foldl_step {A B} (f g : A → B → A) a l : (∀ a b, f a b = g a b) → foldl f a l = foldl g a l.
Proof. intros H. revert a. induction l as [|b l IH]; intros a; simpl; [done|]. by rewrite H, IH. Qed.

Section Passes.
Variable t : list Ip4RouteEntry.

Definition length_step (dst : Z) (a : Z * bool) (i : Z) : Z * bool :=
  let '(best_len, matched) := a in
  let e := tget t i in
  if negb (ip4_route_basic_match e dst) then (best_len, matched)
  else if negb matched || (best_len <? e_plen e) then (e_plen e, true) else (best_len, matched).

Lemma length_pass dst l : 
  let c := filter (λ i, ip4_route_basic_match (tget t i) dst = true) l in
  let r := foldl (length_step dst) (0, false) l in
  (c = [] ∧ r = (0, false)) ∨ (r.2 = true ∧ Exists (λ i, e_plen (tget t i) = r.1) c ∧ Forall (λ i, e_plen (tget t i) ≤ r.1) c).
Proof.
  induction l as [|i l IH] using rev_ind; cbv zeta; [by left|]. cbv zeta in IH. rewrite foldl_app, filter_app. simpl.
  destruct (foldl (length_step dst) (0, false) l) as [b m] eqn:Er. unfold length_step at 1 2 3 4. rewrite filter_cons, filter_nil.
  destruct (ip4_route_basic_match (tget t i) dst) eqn:Em; simpl.
  2: { rewrite app_nil_r. done. }
  right. rewrite Exists_app, Forall_app, Exists_cons, Exists_nil, Forall_singleton.
  destruct IH as [[-> [= -> ->]]|(Hm & He & Hf)]; simpl in *.
  - split_and!; [done|right; by left|constructor|lia].
  - subst m. simpl. destruct (Z.ltb_spec b (e_plen (tget t i))); simpl.
    + split_and!; [done|right; by left| |lia]. eapply Forall_impl; [exact Hf|]. simpl. lia.
    + split_and!; [done|by left|done|lia].
Qed.

Lemma any_pass (p : Z → bool) l : foldl (λ b i, if p i then true else b) false l = existsb p l.
Proof.
  induction l as [|i l IH] using rev_ind; [done|]. rewrite foldl_app, existsb_app, IH. simpl. destruct (p i), (existsb p l); done.
Qed.

Definition metric_step (sel : Z → bool) (a : Z * Z) (i : Z) : Z * Z :=
  let '(best, metric) := a in
  let e := tget t i in
  if negb (sel i) then (best, metric)
  else if (best =? IDEMIP_IP4_ROUTE_INDEX_NONE) || (e_metric e <? metric) then (i, e_metric e) else (best, metric).

Lemma metric_pass sel l : Forall (λ i, i ≠ IDEMIP_IP4_ROUTE_INDEX_NONE) l →
  let c := filter (λ i, sel i = true) l in
  let r := foldl (metric_step sel) (IDEMIP_IP4_ROUTE_INDEX_NONE, 0) l in
  r.1 = default IDEMIP_IP4_ROUTE_INDEX_NONE (head (rule4 t c)) ∧ (c = [] ∨ r.1 ∈ c ∧ r.2 = e_metric (tget t r.1) ∧ Forall (λ j, r.2 ≤ e_metric (tget t j)) c).
Proof.
  induction l as [|i l IH] using rev_ind; intros Hne; cbv zeta; [split; [done|by left]|]. apply Forall_app in Hne as [Hne Hi].
  rewrite Forall_singleton in Hi. specialize (IH Hne). cbv zeta in IH. rewrite foldl_app, filter_app. simpl.
  destruct (foldl (metric_step sel) _ l) as [b m] eqn:Er. unfold metric_step at 1 2 3 4 5. rewrite filter_cons, filter_nil.
  set (c := filter (λ i, sel i = true) l) in *. simpl in IH.
  destruct (sel i) eqn:Em; simpl; [|by rewrite app_nil_r].
  assert (c ≠ [] → b ≠ IDEMIP_IP4_ROUTE_INDEX_NONE) as Hbn.
  { intros Hc. destruct IH as [_ [?|(Hb & _)]]; [done|]. rewrite Forall_forall in Hne. apply Hne. subst c. by apply list_elem_of_filter in Hb as [_ ?]. }
  destruct (decide (c = [])) as [Ec|Ec].
  - rewrite Ec in *. simpl in IH. destruct IH as [-> _]. simpl. unfold rule4. rewrite filter_cons, filter_nil, decide_True by (constructor; [lia|constructor]).
    split; [done|]. right. split_and!; [by left|done|]. constructor; [simpl; lia|constructor].
  - destruct IH as [Hb [?|(Hbc & Hm & Hall)]]; [done|]. rewrite (proj2 (Z.eqb_neq b _)) by auto. simpl. subst m.
    assert (∀ X, X = filter (λ x, Forall (λ j, e_metric (tget t x) ≤ e_metric (tget t j)) (c ++ [i])) c → 
      rule4 t (c ++ [i]) = X ++ (if decide (Forall (λ j, e_metric (tget t i) ≤ e_metric (tget t j)) (c ++ [i])) then [i] else [])) as H4.
    { intros X ->. unfold rule4. rewrite filter_app, filter_cons, filter_nil. done. }
    destruct (Z.ltb_spec (e_metric (tget t i)) (e_metric (tget t b))) as [Hlt|Hge]; simpl.
    + rewrite (H4 []). 
      * assert (Forall (λ j, e_metric (tget t i) ≤ e_metric (tget t j)) (c ++ [i])) as Hf.
        { apply Forall_app. split; [|constructor; [lia|constructor]]. eapply Forall_impl; [exact Hall|]. simpl. lia. }
        rewrite decide_True by done. split; [done|]. right. split_and!; [set_solver|done|done].
      * symmetry. apply filter_empty. intros x Hx [_ Hxi]%Forall_app. rewrite Forall_singleton in Hxi.
        rewrite Forall_forall in Hall. specialize (Hall x Hx). simpl in *. lia.
    + rewrite (H4 (rule4 t c)).
      * split; [|right; split_and!; [set_solver|done|]; apply Forall_app; split; [done|constructor; [lia|constructor]]].
        rewrite Hb. destruct (rule4 t c) eqn:E4; [|done]. simpl in Hb. exfalso. by apply Hbn.
      * unfold rule4. apply filter_ext_in. intros x Hx. rewrite Forall_app, Forall_singleton. split; [|tauto].
        intros Hf. split; [done|]. rewrite Forall_forall in Hf. specialize (Hf b Hbc). simpl in *. lia.
Qed.
End Passes.
End Ip4RouteFacts.
