(* ===== verification/Ip4RouteThms.v ===== *)
(** * The routing table: the theorems

    On every table a sequence of calls can build, [lookup] is RFC 1812 section 5.2.4.3; a Redirect and a
    path MTU estimate change what one destination's datagrams do and no other's. *)
From S2P Require Import Prelude Ipv4 Ip4Frag Ip4Route.

Module Ip4RouteThms.
Import Ipv4 Ip4Route Ip4RouteFacts.
Local Abbreviation none := IDEMIP_IP4_ROUTE_INDEX_NONE.

Section Table.
Variable N : Z.
Hypothesis HN : 0 ≤ N < 255.

Definition table_ok (t : list Ip4RouteEntry) : Prop := tlen t = N ∧ ∀ i, 0 ≤ i < N → row_ok (tget t i).

(** *** Each pass against its rule *)
Section Passes.
Variables (t : list Ip4RouteEntry) (dst : Z).
Hypothesis Ht : table_ok t.
Hypothesis Hd : is_u32 dst.
Local Abbreviation c1 := (rule1 N t dst).
Local Abbreviation c2 := (rule2 t (rule1 N t dst)).

Lemma elem_rule1 i : i ∈ c1 ↔ 0 ≤ i < N ∧ ip4_route_basic_match (tget t i) dst = true.
Proof.
  destruct Ht as [_ Hrows]. unfold rule1. rewrite list_elem_of_filter, elem_of_seqZ. split.
  - intros [Hb Hi]. split; [lia|]. apply basic_match_iff; [apply Hrows; lia|done..].
  - intros [Hi Hb]. split; [|lia]. apply basic_match_iff; [apply Hrows; lia|done..].
Qed.

Lemma best_length_spec :
  (c1 = [] ∧ best_length N t dst = (0, false)) ∨
  ∃ m, best_length N t dst = (m, true) ∧ c2 ≠ [] ∧ c2 = filter (λ i, e_plen (tget t i) = m) c1.
Proof.
  unfold best_length, each. pose proof (length_pass t dst (seqZ 0 N)) as HL. cbv zeta in HL.
  rewrite (foldl_step _ (length_step t dst)) by (by intros [b m] i).
  assert (filter (λ i, ip4_route_basic_match (tget t i) dst = true) (seqZ 0 N) = c1) as E1.
  { apply filter_ext_in. intros i Hi%elem_of_seqZ. destruct Ht as [_ Hrows]. apply basic_match_iff; [apply Hrows; lia|done]. }
  rewrite E1 in HL. destruct (foldl (length_step t dst) (0, false) (seqZ 0 N)) as [m b]. simpl in HL.
  destruct HL as [[Ec [= -> ->]]|(-> & Hex & Hall)]; [by left|right]. apply Exists_exists in Hex as (k & Hk & Hkm).
  exists m. split; [done|]. rewrite Forall_forall in Hall.
  assert (c2 = filter (λ i, e_plen (tget t i) = m) c1) as E2.
  { apply filter_ext_in. intros i Hi. rewrite Forall_forall. split.
    - intros Hf. specialize (Hf k Hk). specialize (Hall i Hi). simpl in *. lia.
    - intros Hm j Hj. specialize (Hall j Hj). simpl in Hall. lia. }
  split; [|done]. rewrite E2. intros Ec. assert (k ∈ filter (λ i, e_plen (tget t i) = m) c1) as Hin by (by apply list_elem_of_filter).
  rewrite Ec in Hin. by apply elem_of_nil in Hin.
Qed.

Variable m : Z.
Hypothesis Hm : c2 = filter (λ i, e_plen (tget t i) = m) c1.

Lemma elem_rule2 i : i ∈ c2 ↔ 0 ≤ i < N ∧ ip4_route_basic_match (tget t i) dst = true ∧ e_plen (tget t i) = m.
Proof. rewrite Hm, list_elem_of_filter, elem_rule1. tauto. Qed.

Lemma any_spec (p : Ip4RouteEntry → bool) :
  existsb (λ i, ip4_route_basic_match (tget t i) dst && (e_plen (tget t i) =? m) && p (tget t i)) (seqZ 0 N) = existsb (λ i, p (tget t i)) c2.
Proof.
  apply eq_true_iff_eq. rewrite !existsb_exists. split; intros (i & Hi & Hp); exists i.
  - bool_prop. apply list_elem_of_In, elem_of_seqZ in Hi. split; [|done]. apply list_elem_of_In, elem_rule2. split_and!; [lia..|done|done].
  - apply list_elem_of_In, elem_rule2 in Hi as (Hi & Hb & He). split; [apply list_elem_of_In, elem_of_seqZ; lia|].
    rewrite Hb, He, Z.eqb_refl. done.
Qed.

Lemma rule3_want tos :
  rule3 t tos c2 = filter (λ i, e_tos (tget t i) = (if existsb (λ i, e_tos (tget t i) =? tos) c2 then tos else IP4_ROUTE_TOS_DEFAULT)) c2.
Proof.
  unfold rule3. destruct (existsb (λ i, e_tos (tget t i) =? tos) c2) eqn:Ee.
  - apply existsb_exists in Ee as (i & Hi%list_elem_of_In & Hp). bool_prop.
    assert (i ∈ filter (λ i, e_tos (tget t i) = tos) c2) as Hin by (by apply list_elem_of_filter).
    destruct (filter (λ i, e_tos (tget t i) = tos) c2); [by apply elem_of_nil in Hin|done].
  - rewrite (filter_empty (λ i, e_tos (tget t i) = tos)); [done|]. intros i Hi Hp. apply not_true_iff_false in Ee. apply Ee, existsb_exists.
    exists i. split; [by apply list_elem_of_In|]. by apply Z.eqb_eq.
Qed.

Lemma best_metric_spec want :
  (best_metric N t dst m want).1 = default none (head (rule4 t (filter (λ i, e_tos (tget t i) = want) c2))).
Proof.
  unfold best_metric, each.
  set (sel := λ i, ip4_route_basic_match (tget t i) dst && (e_plen (tget t i) =? m) && (e_tos (tget t i) =? want)).
  rewrite (foldl_step _ (metric_step t sel)).
  2: { intros [bst mt] i. unfold metric_step, sel. cbv zeta. by rewrite !negb_andb. }
  destruct (metric_pass t sel (seqZ 0 N)) as [-> _].
  { apply Forall_forall. intros i Hi%elem_of_seqZ. unfold none. lia. }
  do 3 f_equal. rewrite Hm. unfold rule1. rewrite !list_filter_filter. apply filter_ext_in. intros i Hi%elem_of_seqZ. destruct Ht as [_ Hrows].
  unfold sel. rewrite !andb_true_iff, !Z.eqb_eq, (basic_match_iff _ _ (Hrows i ltac:(lia)) Hd). tauto.
Qed.
End Passes.

(** The passes leave what the rules leave. *)
Lemma best_spec t dst tos : table_ok t → is_u32 dst →
  let c := rule2 t (rule1 N t dst) in
  ip4_route_best N t dst tos =
    (default none (rfc1812 N t dst tos), mkBest (bool_decide (c ≠ [])) (existsb (λ i, negb (has_flag (tget t i) IDEMIP_IP4_ROUTE_F_GATEWAY)) c)).
Proof.
  intros Ht Hd c. unfold ip4_route_best. destruct (best_length_spec t dst Ht Hd) as [[Ec ->]|(m & -> & Hne & E2)].
  { unfold c, rfc1812. rewrite Ec. done. }
  rewrite bool_decide_eq_true_2 by done. cbn [negb]. unfold exact_tos, any_direct, each.
  rewrite !any_pass, (any_spec t dst Ht Hd m E2 (λ e, e_tos e =? tos)), (any_spec t dst Ht Hd m E2 (λ e, negb (has_flag e IDEMIP_IP4_ROUTE_F_GATEWAY))).
  pose proof (best_metric_spec t dst Ht Hd m E2) as HM. fold c. specialize (HM (if existsb (λ i, e_tos (tget t i) =? tos) c then tos else IP4_ROUTE_TOS_DEFAULT)).
  destruct (best_metric N t dst m _) as [bst mt]. simpl in HM. subst bst. unfold rfc1812. by rewrite rule3_want.
Qed.

(** ** Every call keeps the table well formed *)
Lemma flag_bit x k : 0 ≤ k → negb (Z.land x (Z.shiftl 1 k) =? 0) = Z.testbit x k.
Proof.
  intros Hk. rewrite Z.shiftl_1_l. assert (Z.land x (2 ^ k) = if Z.testbit x k then 2 ^ k else 0) as ->.
  { apply Z.bits_inj'. intros i Hi. rewrite Z.land_spec, Z.pow2_bits_eqb by done. destruct (Z.eqb_spec k i) as [->|Hne].
    - rewrite andb_true_r. destruct (Z.testbit x i); [by rewrite Z.pow2_bits_true|by rewrite Z.bits_0].
    - rewrite andb_false_r. destruct (Z.testbit x k); [by rewrite Z.pow2_bits_false|by rewrite Z.bits_0]. }
  destruct (Z.testbit x k); [|done]. rewrite (proj2 (Z.eqb_neq _ _)); [done|]. pose proof (Z.pow_pos_nonneg 2 k). lia.
Qed.

Lemma u8_bit x k : 0 ≤ k < 8 → Z.testbit (u8 x) k = Z.testbit x k.
Proof. intros Hk. unfold u8. change 256 with (2 ^ 8). apply Z.mod_pow2_bits_low. lia. Qed.

Definition live (w : Work) : Prop := c_ready (w_ctx w) = IP4_ROUTE_READY ∧ table_ok (w_tab w).

Lemma table_tset t i e : table_ok t → 0 ≤ i < N → row_ok e → table_ok (tset t i e).
Proof.
  intros [Hl Hr] Hi He. split; [by rewrite tlen_tset|]. intros j Hj. destruct (decide (j = i)) as [->|].
  - by rewrite tget_tset_eq by lia.
  - rewrite tget_tset_ne by lia. by apply Hr.
Qed.

Lemma each_inv {A} (P : A → Prop) (body : A → Z → A) a : P a → (∀ a i, 0 ≤ i < N → P a → P (body a i)) → P (each N body a).
Proof.
  intros Ha Hs. unfold each. assert (Forall (λ i, 0 ≤ i < N) (seqZ 0 N)) as Hl by (apply Forall_forall; intros i Hi%elem_of_seqZ; lia).
  revert a Ha. induction Hl as [|i l Hi Hl IH]; intros a Ha; [done|]. simpl. apply IH. by apply Hs.
Qed.

Lemma row_ok_zero : row_ok entry_zero.
Proof. intros [=]. Qed.

Lemma find_range p : let i := default none (scan p (Z.to_nat N) 0) in i = none ∨ (0 ≤ i < N ∧ p i = true).
Proof.
  cbv zeta. destruct (scan p (Z.to_nat N) 0) as [i|] eqn:E; [|by left]. apply scan_Some in E as (Hi & Hp & _). right. simpl. split; [lia|done].
Qed.

(** A host's row keeps its invariant when only the next hop or the estimate of it changes. *)
Lemma prefix_host p : 0 ≤ p ≤ 32 → prefix_mask p = IP4_ROUTE_MASK_HOST → p = 32.
Proof.
  intros Hp E. unfold prefix_mask, IP4_ROUTE_MASK_HOST in E. destruct (decide (p = 32)); [done|].
  assert (2 ^ 1 ≤ 2 ^ (32 - p)) by (apply Z.pow_le_mono_r; lia). lia.
Qed.

Lemma derive_ok e from dst : is_u32 dst → row_ok from → e_state from = IDEMIP_IP4_ROUTE_USED → row_ok (ip4_route_derive_host e from dst).
Proof.
  intros Hd Hf Hu _. destruct (Hf Hu) as (_&_&_&_&Hg&_).
  assert (has_flag (ip4_route_derive_host e from dst) IDEMIP_IP4_ROUTE_F_GATEWAY = has_flag from IDEMIP_IP4_ROUTE_F_GATEWAY ∧
    has_flag (ip4_route_derive_host e from dst) IDEMIP_IP4_ROUTE_F_HOST = true) as [F1 F2].
  { unfold has_flag, IDEMIP_IP4_ROUTE_F_GATEWAY, IDEMIP_IP4_ROUTE_F_HOST. rewrite !flag_bit by lia. unfold ip4_route_derive_host. cbn [e_flags set_field].
    cbv beta. rewrite !u8_bit, !Z.lor_spec, !Z.land_spec by lia.
    split; [|by rewrite orb_true_r]. change (Z.testbit (Z.shiftl 1 3) 0) with false. change (Z.testbit (Z.shiftl 1 0) 0) with true.
    by rewrite orb_false_r, andb_true_r. }
  rewrite F1, F2. split_and!; try done; try (by left); apply Z.mod_1_r.
Qed.

Lemma add_row_ok e a : is_u32 (add_dst a) → is_u32 (add_mask a) → ip4_mask_contiguous (add_mask a) = true →
  (Z.land (add_flags a) IDEMIP_IP4_ROUTE_F_GATEWAY ≠ 0 → add_gw a ≠ 0) → row_ok (add_row e a).
Proof.
  intros Hd Hm Hc Hg _. destruct (mask_contiguous_iff _ Hm Hc) as (p & Hp & Ep).
  assert (e_plen (add_row e a) = p) as El.
  { change (ip4_mask_ones (add_mask a) = p). rewrite Ep. by apply mask_ones_prefix. }
  assert (e_dst (add_row e a) = add_dst a / 2 ^ (32 - p) * 2 ^ (32 - p)) as Ed.
  { change (Z.land (add_dst a) (add_mask a) = add_dst a / 2 ^ (32 - p) * 2 ^ (32 - p)). rewrite Ep. by apply land_prefix. }
  pose proof (Z.pow_pos_nonneg 2 (32 - p) ltac:(lia) ltac:(lia)) as Hpos.
  assert (has_flag (add_row e a) IDEMIP_IP4_ROUTE_F_GATEWAY = Z.testbit (add_flags a) 0 ∧
    has_flag (add_row e a) IDEMIP_IP4_ROUTE_F_HOST = (add_mask a =? IP4_ROUTE_MASK_HOST)) as [F1 F2].
  { unfold has_flag, IDEMIP_IP4_ROUTE_F_GATEWAY, IDEMIP_IP4_ROUTE_F_HOST. rewrite !flag_bit by lia. unfold add_row. cbn [e_flags set_field]. cbv beta.
    destruct (add_mask a =? IP4_ROUTE_MASK_HOST); rewrite !u8_bit, ?Z.lor_spec, ?u8_bit, !Z.land_spec, !Z.lnot_spec by lia;
      unfold IDEMIP_IP4_ROUTE_F_HOST; change (Z.testbit (Z.shiftl 1 3) 0) with false; change (Z.testbit (Z.shiftl 1 3) 3) with true; cbn [negb];
      rewrite ?andb_true_r, ?orb_false_r, ?andb_false_r; done. }
  rewrite El, Ed, F1, F2. unfold is_u32 in *. split_and!; try lia.
  - apply Z.mul_nonneg_nonneg; [apply Z.div_pos; lia|lia].
  - eapply Z.le_lt_trans; [|exact (proj2 Hd)]. rewrite Z.mul_comm. apply Z.mul_div_le. lia.
  - done.
  - apply Z_mod_mult.
  - intros Ht. change (add_gw a ≠ 0). apply Hg. unfold IDEMIP_IP4_ROUTE_F_GATEWAY. pose proof (flag_bit (add_flags a) 0) as Hf.
    rewrite Ht in Hf. specialize (Hf ltac:(lia)). bool_prop. done.
  - by left.
  - rewrite Z.eqb_eq, Ep. split; [by apply prefix_host|intros ->; reflexivity].
Qed.

(** The row of the host a Redirect or an estimate is for. *)
Lemma host_row_spec t dst cur t1 i : table_ok t → is_u32 dst → 0 ≤ cur < N → basic (tget t cur) dst → host_row N t cur dst = Some (t1, i) →
  table_ok t1 ∧ 0 ≤ i < N ∧ e_state (tget t1 i) = IDEMIP_IP4_ROUTE_USED ∧ e_dst (tget t1 i) = dst ∧ e_plen (tget t1 i) = 32 ∧
  ((t1 = t ∧ i = cur ∧ e_plen (tget t cur) = 32) ∨
   (e_state (tget t i) ≠ IDEMIP_IP4_ROUTE_USED ∧ e_plen (tget t cur) < 32 ∧ t1 = tset t i (ip4_route_derive_host (tget t i) (tget t cur) dst))).
Proof.
  intros Ht Hd Hcur [Hu Hb] Hh. pose proof Ht as [Hl Hr]. destruct (Hr cur Hcur Hu) as (_&Hp&Hmask&_).
  unfold host_row in Hh. destruct (Z.eqb_spec (e_mask (tget t cur)) IP4_ROUTE_MASK_HOST) as [E|E]; simpl in Hh.
  - injection Hh as <- <-. rewrite Hmask in E. apply prefix_host in E; [|done]. rewrite E in Hb. change (2 ^ (32 - 32)) with 1 in Hb.
    rewrite !Z.div_1_r in Hb. split_and!; try done; try lia. left. done.
  - unfold ip4_route_find_free in Hh. destruct (find_range (λ i, negb (e_state (tget t i) =? IDEMIP_IP4_ROUTE_USED))) as [Ef|[Hi Hf]].
    { rewrite Ef in Hh. done. }
    set (n := default none _) in *. rewrite (proj2 (Z.eqb_neq n none)) in Hh by (unfold none; lia). injection Hh as <- <-. bool_prop.
    split_and!; try lia.
    + apply table_tset; [done..|]. apply derive_ok; [done|by apply Hr|done].
    + by rewrite tget_tset_eq by lia.
    + by rewrite tget_tset_eq by lia.
    + by rewrite tget_tset_eq by lia.
    + right. split_and!; [done| |done]. destruct (decide (e_plen (tget t cur) = 32)) as [E32|]; [|lia].
      exfalso. apply E. rewrite Hmask, E32. reflexivity.
Qed.

Lemma rfc1812_elem t dst tos i : rfc1812 N t dst tos = Some i →
  0 ≤ i < N ∧ basic (tget t i) dst ∧ Forall (λ j, e_plen (tget t j) ≤ e_plen (tget t i)) (rule1 N t dst) ∧ (tos = 0 → e_tos (tget t i) = 0).
Proof.
  unfold rfc1812. intros Hh. assert (i ∈ rule4 t (rule3 t tos (rule2 t (rule1 N t dst)))) as Hi.
  { destruct (rule4 _ _); [done|]. injection Hh as ->. left. }
  apply list_elem_of_filter in Hi as [_ Hi].
  assert (i ∈ rule2 t (rule1 N t dst) ∧ (tos = 0 → e_tos (tget t i) = 0)) as [H2 Htos].
  { unfold rule3 in Hi. destruct (filter (λ i, e_tos (tget t i) = tos) _) as [|k l] eqn:Ef.
    - by apply list_elem_of_filter in Hi as [? ?].
    - rewrite <- Ef in Hi. apply list_elem_of_filter in Hi as [Ht ?]. split; [done|]. intros ->. done. }
  apply list_elem_of_filter in H2 as [Hf H1]. apply list_elem_of_filter in H1 as [Hb Hr%elem_of_seqZ]. split_and!; [lia..|done|done|done].
Qed.

(** What [ip4_route_best] returns, when it returns a row. *)
Lemma best_cases t dst tos : table_ok t → is_u32 dst →
  (ip4_route_best N t dst tos).1 = none ∨
  ∃ i, (ip4_route_best N t dst tos).1 = i ∧ i ≠ none ∧ rfc1812 N t dst tos = Some i.
Proof.
  intros Ht Hd. rewrite best_spec by done. simpl. destruct (rfc1812 N t dst tos) as [i|] eqn:E; [right|by left].
  exists i. destruct (rfc1812_elem _ _ _ _ E) as (Hi&_). split_and!; [done|unfold none; simpl; lia|done].
Qed.

Lemma table_each (body : Work → Z → Work) w : live w → (∀ w i, 0 ≤ i < N → live w → live (body w i)) → live (each N body w).
Proof. apply each_inv. Qed.

Lemma remove_one_live dst mask w i : 0 ≤ i < N → live w → live (remove_one dst mask w i).
Proof.
  intros Hi [Hr Ht]. unfold remove_one. destruct (_ || _ || _); [done|]. split; [done|]. simpl. apply table_tset; [done..|apply row_ok_zero].
Qed.

Lemma pmtu_row_ok e pmtu ms : row_ok e → pmtu = 0 ∨ 68 ≤ pmtu ∧ e_plen e = 32 → row_ok (e <| e_pmtu := pmtu |> <| e_pmtu_ms := ms |>).
Proof. intros He Hp Hu. destruct (He Hu) as (H1&H2&H3&H4&H5&_&H7). split_and!; try done; try apply H1; try apply H2; try apply H7. Qed.

Lemma age_one_live TIMEOUT w i : 0 ≤ i < N → live w → live (age_one TIMEOUT w i).
Proof.
  intros Hi [Hr Ht]. unfold age_one. destruct (_ || _); [done|]. destruct (_ <? _); [done|]. split; [done|]. simpl. apply table_tset; [done..|].
  apply (pmtu_row_ok _ 0 0); [by apply Ht|by left].
Qed.

Lemma redirect_row_ok e gw : row_ok e → gw ≠ 0 →
  row_ok (e <| e_gw := gw |> <| e_flags := u8 (Z.lor (e_flags e) IDEMIP_IP4_ROUTE_F_GATEWAY) |> <| e_pmtu := 0 |> <| e_pmtu_ms := 0 |>).
Proof.
  intros He Hg Hu. destruct (He Hu) as (H1&H2&H3&H4&H5&_&H7). split_and!; try done; try apply H1; try apply H2; [by left|].
  revert H7. unfold has_flag, IDEMIP_IP4_ROUTE_F_HOST. rewrite !flag_bit by lia. cbn [e_flags set_field]. cbv beta.
  rewrite u8_bit, Z.lor_spec by lia. unfold IDEMIP_IP4_ROUTE_F_GATEWAY. change (Z.testbit (Z.shiftl 1 0) 3) with false. rewrite orb_false_r. done.
Qed.
End Table.

(** ** Sequences of calls *)
Inductive op : Type := OClear | OAdd | ORemove | OLookup | ORedirect | OSetPmtu | OTick.
Record config := mkConfig { cf_routes : Z; cf_sweep_ms : Z; cf_timeout_ms : Z }.
Definition config_ok (c : config) : Prop := 0 ≤ cf_routes c < 255.

(** Operands at their width. *)
Definition io_ok (io : Ip4RouteIo) : Prop :=
  is_u32 (add_dst (add_args io)) ∧ is_u32 (add_mask (add_args io)) ∧ is_u32 (lk_dst (lookup_args io)) ∧
  is_u32 (rd_dst (redirect_args io)) ∧ is_u32 (rd_gw (redirect_args io)) ∧ is_u32 (pm_dst (pmtu_args io)).

Section Calls.
Variable c : config.
Hypothesis Hc : config_ok c.
Local Abbreviation N := (cf_routes c).

Definition call (o : op) (w : Work) : Work :=
  match o with
  | OClear => idemip_ip4_route_clear N w
  | OAdd => idemip_ip4_route_add N w
  | ORemove => idemip_ip4_route_remove N w
  | OLookup => idemip_ip4_route_lookup N w
  | ORedirect => idemip_ip4_route_redirect N w
  | OSetPmtu => idemip_ip4_route_set_pmtu N w
  | OTick => idemip_ip4_route_tick N (cf_sweep_ms c) (cf_timeout_ms c) w
  end.

(** Each call on the operand block the caller left for it. *)
Fixpoint run (calls : list (Ip4RouteIo * op)) (w : Work) : Work :=
  match calls with
  | [] => w
  | (io, o) :: calls' => run calls' (call o (w <| w_io := io |>))
  end.
Definition calls_ok (calls : list (Ip4RouteIo * op)) : Prop := Forall (λ p, io_ok p.1) calls.
Definition start (w : Work) : Work := idemip_ip4_route_clear N w.

Lemma clear_live w : live N (start w).
Proof.
  split; [done|]. split; [unfold tlen; simpl; rewrite length_replicate; unfold config_ok in Hc; lia|].
  intros i Hi. simpl. rewrite tget_replicate by lia. apply row_ok_zero.
Qed.

Lemma add_live w : live N w → io_ok (w_io w) → live N (idemip_ip4_route_add N w).
Proof.
  intros [Hr Ht] (Hd&Hm&_). unfold idemip_ip4_route_add, ip4_route_ready. rewrite Hr. simpl.
  destruct (ip4_route_mask_ok _) eqn:Em; simpl; [|done]. destruct (negb _ && _) eqn:Eg; simpl; [done|].
  set (i := add_index _ _ _). destruct (Z.eqb_spec i none) as [|Hne]; [done|]. split; [done|]. simpl.
  assert (0 ≤ i < N) as Hi.
  { unfold i, add_index, ip4_route_find_key, ip4_route_find_free in *.
    match goal with |- context [scan ?p _ _] => destruct (find_range N p) as [E|[H1 _]] end.
    - rewrite E in Hne |- *. simpl in Hne |- *.
      match goal with |- context [scan ?p _ _] => destruct (find_range N p) as [E2|[H2 _]] end; [by rewrite E2 in Hne|done].
    - rewrite (proj2 (Z.eqb_neq _ none)) by (unfold none, config_ok in *; lia). done. }
  apply table_tset; [done..|]. apply add_row_ok; [done..|]. intros Hf Hg. bool_prop.
  destruct Eg as [Eg|Eg]; bool_prop; done.
Qed.

(** The row a Redirect leaves of [e], and the one an estimate does. *)
Definition redirected (gw : Z) (e : Ip4RouteEntry) : Ip4RouteEntry :=
  e <| e_gw := gw |> <| e_flags := u8 (Z.lor (e_flags e) IDEMIP_IP4_ROUTE_F_GATEWAY) |> <| e_pmtu := 0 |> <| e_pmtu_ms := 0 |>.
Definition estimated (mtu now : Z) (e : Ip4RouteEntry) : Ip4RouteEntry :=
  if (e_pmtu e =? 0) || (mtu <? e_pmtu e) then e <| e_pmtu := mtu |> <| e_pmtu_ms := now |> else e.

(** A call that leaves the table alone, or one that writes the row of the host [dst]. *)
Definition host_update (f : Ip4RouteEntry → Ip4RouteEntry) (dst : Z) (w w' : Work) : Prop :=
  w_ctx w' = w_ctx w ∧
  ((w_tab w' = w_tab w ∧ io_status (w_io w') ≠ IDEMIP_OK) ∨
   (io_status (w_io w') = IDEMIP_OK ∧ ∃ cur t1 i, rfc1812 N (w_tab w) dst 0 = Some cur ∧ host_row N (w_tab w) cur dst = Some (t1, i) ∧
      w_tab w' = tset t1 i (f (tget t1 i)) ∧ io_index (w_io w') = i)).

Lemma host_update_live f dst w w' : live N w → is_u32 dst → (io_status (w_io w') = IDEMIP_OK → ∀ e, row_ok e → e_plen e = 32 → row_ok (f e)) →
  host_update f dst w w' → live N w'.
Proof.
  intros [Hr Ht] Hd Hf [Hctx H]. split; [by rewrite Hctx|]. destruct H as [[-> _]|(Hok&cur&t1&i&Hb&Hh&->&_)]; [done|].
  destruct (rfc1812_elem _ _ _ _ _ Hb) as (Hcur&Hba&_).
  destruct (host_row_spec N Hc _ _ _ _ _ Ht Hd Hcur Hba Hh) as (Ht1&Hi&_&_&H32&_). apply table_tset; [done..|]. apply Hf; [done| |done]. by apply Ht1.
Qed.

Lemma redirect_cases w : live N w → io_ok (w_io w) →
  let a := redirect_args (w_io w) in
  let w' := idemip_ip4_route_redirect N w in
  host_update (redirected (rd_gw a)) (rd_dst a) w w' ∧ (io_status (w_io w') = IDEMIP_OK → rd_gw a ≠ 0 ∧ gateway_connected N (w_tab w) (rd_gw a) = true).
Proof.
  intros [Hr Ht] (_&_&_&Hd&Hg&_) a w'. unfold w', idemip_ip4_route_redirect, ip4_route_ready. rewrite Hr, Z.eqb_refl. cbn [negb].
  change (redirect_args (_ <| io_index := _ |>)) with a. set (io := set_field io_index _ _). assert (io_status io = IDEMIP_ERR) as Hio by done. clearbody io.
  assert (∀ st, st ≠ IDEMIP_OK → ∀ w1, w1 = w <| w_io := io <| io_status := st |> |> ∨ w1 = w <| w_io := io |> →
    host_update (redirected (rd_gw a)) (rd_dst a) w w1 ∧ (io_status (w_io w1) = IDEMIP_OK → rd_gw a ≠ 0 ∧ gateway_connected N (w_tab w) (rd_gw a) = true)) as Hno.
  { intros st Hst w1 [-> | ->]; (split; [split; [done|left; split; [done|]]|]); simpl; congruence. }
  destruct (Z.eqb_spec (rd_gw a) 0) as [|Hg0]; [by apply (Hno IDEMIP_ERR); [|right]|].
  destruct (gateway_connected N (w_tab w) (rd_gw a)) eqn:Egw; cbn [negb]; [|by apply (Hno IDEMIP_ERR); [|right]].
  destruct (best_cases N Hc (w_tab w) (rd_dst a) IP4_ROUTE_TOS_DEFAULT Ht Hd) as [E|(cur&E&Hn&Hb)]; rewrite E; [by apply (Hno IDEMIP_BUSY); [|left]|].
  rewrite (proj2 (Z.eqb_neq _ _) Hn). destruct (_ && _); [by apply (Hno IDEMIP_ERR); [|right]|].
  destruct (host_row N (w_tab w) cur (rd_dst a)) as [[t1 i]|] eqn:Eh; [|by apply (Hno IDEMIP_BUSY); [|left]].
  split; [|done]. split; [done|]. right. split; [done|]. by exists cur, t1, i.
Qed.

Lemma pmtu_cases w : live N w → io_ok (w_io w) →
  let a := pmtu_args (w_io w) in
  let w' := idemip_ip4_route_set_pmtu N w in
  host_update (estimated (pm_mtu a) (io_now_ms (w_io w))) (pm_dst a) w w' ∧
  (io_status (w_io w') = IDEMIP_OK → 68 ≤ pm_mtu a ∧ io_pmtu (w_io w') = e_pmtu (tget (w_tab w') (io_index (w_io w')))).
Proof.
  intros [Hr Ht] (_&_&_&_&_&Hd) a w'. unfold w', idemip_ip4_route_set_pmtu, ip4_route_ready. rewrite Hr, Z.eqb_refl. cbn [negb].
  change (pmtu_args (_ <| io_index := _ |>)) with a. set (io := set_field io_index _ _). assert (io_status io = IDEMIP_ERR) as Hio by done.
  assert (io_now_ms io = io_now_ms (w_io w)) as Hnow by done. clearbody io. cbv zeta. rewrite Hnow.
  set (Q := λ w1, host_update (estimated (pm_mtu a) (io_now_ms (w_io w))) (pm_dst a) w w1 ∧
    (io_status (w_io w1) = IDEMIP_OK → 68 ≤ pm_mtu a ∧ io_pmtu (w_io w1) = e_pmtu (tget (w_tab w1) (io_index (w_io w1))))).
  assert (∀ st, st ≠ IDEMIP_OK → ∀ w1, w1 = w <| w_io := io <| io_status := st |> |> ∨ w1 = w <| w_io := io |> → Q w1) as Hno.
  { intros st Hst w1 [-> | ->]; (split; [split; [done|left; split; [done|]]|]); simpl; congruence. }
  fold Q. unfold Ip4Frag.IDEMIP_IP4_MIN_FORWARD_MTU. destruct (Z.ltb_spec (pm_mtu a) 68) as [|Hm]; [by apply (Hno IDEMIP_ERR); [|right]|].
  destruct (best_cases N Hc (w_tab w) (pm_dst a) IP4_ROUTE_TOS_DEFAULT Ht Hd) as [E|(cur&E&Hn&Hb)]; rewrite E; [by apply (Hno IDEMIP_BUSY); [|left]|].
  rewrite (proj2 (Z.eqb_neq _ _) Hn).
  destruct (host_row N (w_tab w) cur (pm_dst a)) as [[t1 i]|] eqn:Eh; [|by apply (Hno IDEMIP_BUSY); [|left]].
  destruct (rfc1812_elem _ _ _ _ _ Hb) as (Hcur&Hba&_). destruct (host_row_spec N Hc _ _ _ _ _ Ht Hd Hcur Hba Eh) as ([Hl1 _]&Hi&_).
  split. { split; [done|]. right. split; [done|]. by exists cur, t1, i. }
  intros _. split; [done|]. fold (estimated (pm_mtu a) (io_now_ms (w_io w)) (tget t1 i)). set (e := estimated _ _ _).
  change (e_pmtu e = e_pmtu (tget (tset t1 i e) i)). by rewrite tget_tset_eq by lia.
Qed.

Lemma estimated_ok mtu now e : 68 ≤ mtu → row_ok e → e_plen e = 32 → row_ok (estimated mtu now e).
Proof. intros Hm He H32. unfold estimated. destruct (_ || _); [|done]. by apply pmtu_row_ok; [|right]. Qed.

Lemma call_live o w : live N w → io_ok (w_io w) → live N (call o w).
Proof.
  intros Hl Hio. pose proof Hl as [Hr Ht]. destruct o; cbn [call].
  - apply clear_live.
  - by apply add_live.
  - unfold idemip_ip4_route_remove. destruct (negb _); [done|]. apply table_each; [done|]. intros. by apply remove_one_live.
  - unfold idemip_ip4_route_lookup. destruct (negb _); [done|]. destruct (ip4_route_best _ _ _ _) as [i b]. by destruct (_ =? _).
  - destruct (redirect_cases w Hl Hio) as [Hu Hok]. eapply host_update_live; [exact Hl| | |exact Hu]; [apply Hio|].
    intros [Hg _]%Hok e He _. by apply redirect_row_ok.
  - destruct (pmtu_cases w Hl Hio) as [Hu Hok]. eapply host_update_live; [exact Hl| | |exact Hu]; [apply Hio|].
    intros [Hm _]%Hok e He H32. by apply estimated_ok.
  - unfold idemip_ip4_route_tick. destruct (negb _); [done|]. destruct (_ <? _); [done|].
    match goal with |- context [each N ?b ?a] => assert (live N (each N b a)) as [H1 H2] end; [|done].
    apply table_each; [done|]. intros. by apply age_one_live.
Qed.

Lemma set_io_live w io : live N w → live N (w <| w_io := io |>).
Proof. done. Qed.

Lemma run_live calls w : live N w → calls_ok calls → live N (run calls w).
Proof.
  intros Hl Hok. revert w Hl. induction Hok as [|[io o] calls Hio Hok IH]; intros w Hl; [done|]. cbn [run]. apply IH. by apply call_live.
Qed.

(** ** What [lookup] sees of a table *)

(** The rows two tables agree on for [dst]. *)
Lemma best_same t t' dst tos : table_ok N t → table_ok N t' → is_u32 dst →
  (∀ i, 0 ≤ i < N → basic (tget t i) dst ∨ basic (tget t' i) dst → tget t' i = tget t i) →
  ip4_route_best N t' dst tos = ip4_route_best N t dst tos ∧ rfc1812 N t' dst tos = rfc1812 N t dst tos.
Proof.
  intros Ht Ht' Hd Hs. rewrite !best_spec by done.
  assert (rule1 N t' dst = rule1 N t dst) as E1.
  { apply filter_ext_in. intros i Hi%elem_of_seqZ. split; intros Hb; [rewrite <- (Hs i) by (auto || lia)|rewrite (Hs i) by (auto || lia)]; done. }
  assert (∀ i, i ∈ rule1 N t dst → tget t' i = tget t i) as Hin.
  { intros i Hi. apply list_elem_of_filter in Hi as [Hb Hi%elem_of_seqZ]. apply Hs; [lia|by left]. }
  assert (rule2 t' (rule1 N t dst) = rule2 t (rule1 N t dst)) as E2.
  { apply filter_ext_in. intros i Hi. rewrite (Hin i Hi), !Forall_forall. split; intros Hf j Hj; [rewrite <- (Hin j Hj)|rewrite (Hin j Hj)]; by apply Hf. }
  assert (∀ i, i ∈ rule2 t (rule1 N t dst) → tget t' i = tget t i) as Hin2 by (intros i [_ Hi]%list_elem_of_filter; by apply Hin).
  assert (∀ x, filter (λ i, e_tos (tget t' i) = x) (rule2 t (rule1 N t dst)) = filter (λ i, e_tos (tget t i) = x) (rule2 t (rule1 N t dst))) as Ef.
  { intros x. apply filter_ext_in. intros i Hi. by rewrite Hin2. }
  assert (rule3 t' tos (rule2 t (rule1 N t dst)) = rule3 t tos (rule2 t (rule1 N t dst))) as E3 by (unfold rule3; by rewrite !Ef).
  assert (∀ i, i ∈ rule3 t tos (rule2 t (rule1 N t dst)) → tget t' i = tget t i) as Hin3.
  { intros i Hi. apply Hin2. unfold rule3 in Hi. destruct (filter (λ i, e_tos (tget t i) = tos) _) as [|k l] eqn:Ek; [|rewrite <- Ek in Hi];
      by apply list_elem_of_filter in Hi as [_ ?]. }
  assert (rfc1812 N t' dst tos = rfc1812 N t dst tos) as E4.
  { unfold rfc1812. rewrite E1, E2, E3. f_equal. apply filter_ext_in. intros i Hi. rewrite (Hin3 i Hi), !Forall_forall.
    split; intros Hf j Hj; [rewrite <- (Hin3 j Hj)|rewrite (Hin3 j Hj)]; by apply Hf. }
  split; [|done]. rewrite E1, E2, E4. do 2 f_equal. apply eq_true_iff_eq. rewrite !existsb_exists.
  split; intros (i & Hi & Hp); exists i; (split; [done|]); apply list_elem_of_In in Hi; [rewrite <- (Hin2 i Hi)|rewrite (Hin2 i Hi)]; done.
Qed.

(** The report of a lookup of [dst] at [tos] that follows the rules. *)
Definition answers (t : list Ip4RouteEntry) (dst tos : Z) (r : Ip4RouteIo) : Prop :=
  let longest := rule2 t (rule1 N t dst) in
  match rfc1812 N t dst tos with
  | Some i =>
      let e := tget t i in
      io_status r = IDEMIP_OK ∧ io_index r = i ∧ io_netif r = e_netif e ∧ io_pmtu r = e_pmtu e ∧
      io_direct r = negb (has_flag e IDEMIP_IP4_ROUTE_F_GATEWAY) ∧
      io_next_hop r = (if has_flag e IDEMIP_IP4_ROUTE_F_GATEWAY then e_gw e else dst)
  | None =>
      io_status r = IDEMIP_BUSY ∧ io_index r = none ∧ io_tos_blocked r = bool_decide (longest ≠ []) ∧
      (io_direct r = true ↔ ∃ i, i ∈ longest ∧ has_flag (tget t i) IDEMIP_IP4_ROUTE_F_GATEWAY = false)
  end.

Lemma lookup_answers w : live N w → is_u32 (lk_dst (lookup_args (w_io w))) →
  answers (w_tab w) (lk_dst (lookup_args (w_io w))) (lk_tos (lookup_args (w_io w))) (w_io (call OLookup w)).
Proof.
  intros [Hr Ht] Hd. cbn [call]. unfold idemip_ip4_route_lookup, ip4_route_ready. rewrite Hr, Z.eqb_refl. cbn [negb].
  set (io := set_field io_index _ _). change (lookup_args io) with (lookup_args (w_io w)). set (a := lookup_args (w_io w)) in *.
  assert (io_index io = none) as Hix by done. clearbody io. rewrite best_spec by done. cbv zeta. unfold answers.
  destruct (rfc1812 N (w_tab w) (lk_dst a) (lk_tos a)) as [i|] eqn:E.
  - destruct (rfc1812_elem _ _ _ _ _ E) as (Hi&_). cbn [from_option]; unfold id. rewrite (proj2 (Z.eqb_neq i none)) by (unfold none, config_ok in *; simpl; lia).
    unfold has_flag. set (b := Z.land _ _ =? 0). split_and!; try done; by destruct b.
  - cbn [from_option]; unfold id. rewrite Z.eqb_refl. split_and!; try done. cbn [w_io io_direct set_field direct]. cbv beta. rewrite existsb_exists.
    setoid_rewrite <- list_elem_of_In. setoid_rewrite negb_true_iff. done.
Qed.

(** C18. RFC 1812 section 5.2.4.3: whatever sequence of calls built the table, [lookup] reports the row the five pruning
    rules leave, basic match on the most significant route.length bits, longest match, weak type of service, best metric
    and then the lowest row, with that row's interface, path MTU and next hop; with no row left it asks for a retry, and
    says whether only the type of service kept the destination's routes out. *)
Theorem lookup_follows_rfc1812 calls w io : calls_ok calls → io_ok io →
  let w1 := run calls (start w) in
  answers (w_tab w1) (lk_dst (lookup_args io)) (lk_tos (lookup_args io)) (w_io (call OLookup (w1 <| w_io := io |>))).
Proof.
  intros Hok Hio w1. assert (live N w1) as Hl by (apply run_live; [apply clear_live|done]). clearbody w1. destruct w1 as [io1 ctx1 t1].
  apply (lookup_answers (mkWork io ctx1 t1)); [done|apply Hio].
Qed.

(** ** One host's row *)
Definition keeps (f : Ip4RouteEntry → Ip4RouteEntry) : Prop :=
  ∀ e, e_state (f e) = e_state e ∧ e_dst (f e) = e_dst e ∧ e_plen (f e) = e_plen e ∧ e_tos (f e) = e_tos e ∧ e_metric (f e) = e_metric e ∧ e_netif (f e) = e_netif e.

(** The rules read the key, the length, the type of service and the metric of a row and nothing else. *)
Lemma rules_same t t' dst tos : (∀ i, 0 ≤ i < N → basic (tget t' i) dst ↔ basic (tget t i) dst) →
  (∀ i, 0 ≤ i < N → e_plen (tget t' i) = e_plen (tget t i) ∧ e_tos (tget t' i) = e_tos (tget t i) ∧ e_metric (tget t' i) = e_metric (tget t i)) →
  rfc1812 N t' dst tos = rfc1812 N t dst tos.
Proof.
  intros Hb Hk. assert (rule1 N t' dst = rule1 N t dst) as E1 by (apply filter_ext_in; intros i Hi%elem_of_seqZ; apply Hb; lia).
  assert (∀ i, i ∈ rule1 N t dst → 0 ≤ i < N) as Hr by (intros i [_ Hi%elem_of_seqZ]%list_elem_of_filter; lia).
  unfold rfc1812. rewrite E1. set (c1 := rule1 N t dst) in *. clearbody c1. clear E1 Hb.
  assert (rule2 t' c1 = rule2 t c1) as ->.
  { apply filter_ext_in. intros i Hi. destruct (Hk i) as (-> & _); [auto|]. rewrite !Forall_forall.
    split; intros Hf j Hj; destruct (Hk j) as (Ej & _); auto; [rewrite <- Ej|rewrite Ej]; by apply Hf. }
  assert (∀ i, i ∈ rule2 t c1 → 0 ≤ i < N) as Hr2 by (intros i [_ ?]%list_elem_of_filter; auto). clear Hr. set (c2 := rule2 t c1) in *. clearbody c2.
  assert (∀ x, filter (λ i, e_tos (tget t' i) = x) c2 = filter (λ i, e_tos (tget t i) = x) c2) as Ef.
  { intros x. apply filter_ext_in. intros i Hi. destruct (Hk i) as (_ & -> & _); auto. }
  assert (rule3 t' tos c2 = rule3 t tos c2) as -> by (unfold rule3; by rewrite !Ef).
  assert (∀ i, i ∈ rule3 t tos c2 → 0 ≤ i < N) as Hr3.
  { intros i Hi. apply Hr2. unfold rule3 in Hi. destruct (filter (λ i, e_tos (tget t i) = tos) c2) as [|k l] eqn:Ek; [|rewrite <- Ek in Hi];
      by apply list_elem_of_filter in Hi as [_ ?]. }
  f_equal. apply filter_ext_in. intros i Hi. destruct (Hk i) as (_ & _ & ->); [auto|]. rewrite !Forall_forall.
  split; intros Hf j Hj; destruct (Hk j) as (_ & _ & Ej); auto; [rewrite <- Ej|rewrite Ej]; by apply Hf.
Qed.

Lemma basic_keeps f e dst : keeps f → basic (f e) dst ↔ basic e dst.
Proof. intros Hk. destruct (Hk e) as (H1&H2&H3&_). unfold basic. by rewrite H1, H2, H3. Qed.

(** A host's route is the longest there can be. *)
Lemma host_wins t dst i : 0 ≤ i < N → basic (tget t i) dst → e_plen (tget t i) = 32 → e_tos (tget t i) = 0 →
  (∀ j, 0 ≤ j < N → basic (tget t j) dst → j ≠ i → e_plen (tget t j) < 32) → rfc1812 N t dst 0 = Some i.
Proof.
  intros Hi Hb H32 H0 Hlt.
  assert (∀ j, j ∈ rule1 N t dst ↔ 0 ≤ j < N ∧ basic (tget t j) dst) as H1.
  { intros j. unfold rule1. rewrite list_elem_of_filter, elem_of_seqZ. split; intros [? ?]; (split; [|done]); lia || done. }
  unfold rfc1812. assert (rule2 t (rule1 N t dst) = [i]) as ->.
  { apply filter_one; [apply NoDup_filter, NoDup_seqZ|by apply H1| |].
    - apply Forall_forall. intros j [Hj Hbj]%H1. destruct (decide (j = i)) as [->|Hn]; [done|]. pose proof (Hlt j Hj Hbj Hn). lia.
    - intros j [Hj Hbj]%H1 Hf. rewrite Forall_forall in Hf. specialize (Hf i (proj2 (H1 i) (conj Hi Hb))). simpl in Hf.
      destruct (decide (j = i)) as [|Hn]; [done|]. pose proof (Hlt j Hj Hbj Hn). lia. }
  unfold rule3. rewrite filter_cons, filter_nil, decide_True by done. unfold rule4.
  rewrite filter_cons, filter_nil, decide_True; [done|]. constructor; [lia|constructor].
Qed.

Lemma host_update_best f dst w w' : live N w → is_u32 dst → keeps f → io_status (w_io w') = IDEMIP_OK → host_update f dst w w' →
  let i := io_index (w_io w') in
  ∃ cur, rfc1812 N (w_tab w) dst 0 = Some cur ∧ rfc1812 N (w_tab w') dst 0 = Some i ∧
    ((i = cur ∧ tget (w_tab w') i = f (tget (w_tab w) cur)) ∨
     (tget (w_tab w') i = f (ip4_route_derive_host (tget (w_tab w) i) (tget (w_tab w) cur) dst) ∧ e_plen (tget (w_tab w) cur) < 32)).
Proof.
  intros [_ Ht] Hd Hk Hok [_ [[_ Hn]|(_&cur&t1&i&Hb&Hh&Etab&Eix)]]; [done|]. rewrite Eix, Etab. exists cur. split; [done|].
  destruct (rfc1812_elem _ _ _ _ _ Hb) as (Hcur&Hba&Hmax&Htos). specialize (Htos eq_refl).
  destruct (host_row_spec N Hc _ _ _ _ _ Ht Hd Hcur Hba Hh) as ([Hl1 _]&Hi&Hu1&Hd1&Hp1&Hcase). pose proof Ht as [Hl _].
  rewrite tget_tset_eq by lia.
  destruct Hcase as [(->&->&H32)|(Hfree&H32&->)].
  - split; [|by left]. rewrite <- Hb. apply rules_same; intros j Hj; destruct (decide (j = cur)) as [->|].
    + rewrite tget_tset_eq by lia. by apply basic_keeps.
    + by rewrite tget_tset_ne by lia.
    + rewrite tget_tset_eq by lia. destruct (Hk (tget (w_tab w) cur)) as (_&_&?&?&?&_). done.
    + by rewrite tget_tset_ne by lia.
  - rewrite tset_tset_eq. rewrite tget_tset_eq in * by lia. split; [|by right].
    destruct (Hk (ip4_route_derive_host (tget (w_tab w) i) (tget (w_tab w) cur) dst)) as (K1&K2&K3&K4&_).
    apply host_wins; [done|..].
    + rewrite tget_tset_eq by lia. apply basic_keeps; [done|]. split; [done|]. by rewrite Hd1.
    + rewrite tget_tset_eq by lia. by rewrite K3.
    + rewrite tget_tset_eq by lia. by rewrite K4.
    + intros j Hj Hbj Hne. rewrite tget_tset_ne in Hbj |- * by lia. rewrite Forall_forall in Hmax. specialize (Hmax j). simpl in Hmax.
      assert (j ∈ rule1 N (w_tab w) dst) as Hj1 by (apply list_elem_of_filter; split; [done|apply elem_of_seqZ; lia]). specialize (Hmax Hj1). lia.
Qed.

Lemma host_update_others f dst w w' dst' tos : live N w → live N w' → is_u32 dst → is_u32 dst' → dst' ≠ dst → keeps f → host_update f dst w w' →
  ip4_route_best N (w_tab w') dst' tos = ip4_route_best N (w_tab w) dst' tos ∧
  ∀ i, rfc1812 N (w_tab w) dst' tos = Some i → tget (w_tab w') i = tget (w_tab w) i.
Proof.
  intros [_ Ht] [_ Ht'] Hd Hd' Hne Hk [_ [[-> _]|(_&cur&t1&i&Hb&Hh&Etab&Eix)]]; [done|].
  destruct (rfc1812_elem _ _ _ _ _ Hb) as (Hcur&Hba&_).
  destruct (host_row_spec N Hc _ _ _ _ _ Ht Hd Hcur Hba Hh) as ([Hl1 _]&Hi&Hu1&Hd1&Hp1&Hcase). pose proof Ht as [Hl _].
  assert (∀ e, e_dst e = dst → e_plen e = 32 → ¬ basic e dst') as Hno.
  { intros e He Hpe [_ E]. rewrite Hpe, He in E. change (2 ^ (32 - 32)) with 1 in E. rewrite !Z.div_1_r in E. done. }
  assert (∀ j, 0 ≤ j < N → basic (tget (w_tab w) j) dst' ∨ basic (tget (w_tab w') j) dst' → tget (w_tab w') j = tget (w_tab w) j) as Hsame.
  { intros j Hj Hbj. rewrite Etab in *. destruct (decide (j = i)) as [->|Hji].
    - exfalso. rewrite tget_tset_eq in Hbj by lia. destruct Hbj as [Hbj|Hbj].
      + destruct Hcase as [(->&->&H32)|(Hfree&_)]; [by eapply Hno|]. destruct Hbj as [Hbu _]. done.
      + apply basic_keeps in Hbj; [|done]. by eapply Hno.
    - rewrite tget_tset_ne by lia. destruct Hcase as [(->&->&H32)|(Hfree&_&->)]; [done|]. by rewrite tget_tset_ne by lia. }
  destruct (best_same (w_tab w) (w_tab w') dst' tos Ht Ht' Hd' Hsame) as [E _]. split; [done|].
  intros k Hk'. destruct (rfc1812_elem _ _ _ _ _ Hk') as (Hkr&Hkb&_). apply Hsame; [done|by left].
Qed.

Lemma lookup_same w w' q : live N w → live N w' → is_u32 (lk_dst (lookup_args q)) →
  (let a := lookup_args q in ip4_route_best N (w_tab w') (lk_dst a) (lk_tos a) = ip4_route_best N (w_tab w) (lk_dst a) (lk_tos a) ∧
     ∀ i, rfc1812 N (w_tab w) (lk_dst a) (lk_tos a) = Some i → tget (w_tab w') i = tget (w_tab w) i) →
  w_io (call OLookup (w' <| w_io := q |>)) = w_io (call OLookup (w <| w_io := q |>)).
Proof.
  intros [Hr Ht] [Hr' _] Hd [Hb Hi]. destruct w as [io ctx t], w' as [io' ctx' t']. cbn [w_tab w_ctx] in *. cbn [call].
  unfold idemip_ip4_route_lookup, ip4_route_ready. cbn [w_io w_ctx w_tab set_field Work_eta]. cbv beta. rewrite Hr, Hr', Z.eqb_refl. cbn [negb].
  change (lookup_args (_ <| io_index := _ |>)) with (lookup_args q). set (a := lookup_args q) in *. set (q0 := set_field io_index _ _). clearbody q0.
  rewrite Hb, best_spec by done. destruct (rfc1812 N t (lk_dst a) (lk_tos a)) as [i|] eqn:E; cbn [from_option]; unfold id; [|by rewrite Z.eqb_refl].
  destruct (rfc1812_elem _ _ _ _ _ E) as (Hir&_). rewrite (proj2 (Z.eqb_neq i none)) by (unfold none, config_ok in *; simpl; lia).
  rewrite (Hi i) by done. done.
Qed.

Lemma keeps_redirected gw : keeps (redirected gw).
Proof. intros e. split_and!; done. Qed.
Lemma keeps_estimated mtu now : keeps (estimated mtu now).
Proof. intros e. unfold estimated. destruct (_ || _); split_and!; done. Qed.

Lemma redirected_gateway gw e : has_flag (redirected gw e) IDEMIP_IP4_ROUTE_F_GATEWAY = true.
Proof.
  unfold has_flag, IDEMIP_IP4_ROUTE_F_GATEWAY. rewrite flag_bit by lia. unfold redirected. cbn [e_flags set_field]. cbv beta.
  rewrite u8_bit, Z.lor_spec by lia. apply orb_true_r.
Qed.

Lemma derive_gateway e from dst : has_flag (ip4_route_derive_host e from dst) IDEMIP_IP4_ROUTE_F_GATEWAY = has_flag from IDEMIP_IP4_ROUTE_F_GATEWAY.
Proof.
  unfold has_flag, IDEMIP_IP4_ROUTE_F_GATEWAY, ip4_route_derive_host. rewrite !flag_bit by lia. cbn [e_flags set_field]. cbv beta.
  rewrite u8_bit, Z.lor_spec, Z.land_spec by lia. unfold IDEMIP_IP4_ROUTE_F_HOST, IDEMIP_IP4_ROUTE_F_GATEWAY.
  change (Z.testbit (Z.shiftl 1 3) 0) with false. change (Z.testbit (Z.shiftl 1 0) 0) with true. by rewrite orb_false_r, andb_true_r.
Qed.

Lemma estimated_fields mtu now e : let e' := estimated mtu now e in
  e_gw e' = e_gw e ∧ e_netif e' = e_netif e ∧ e_flags e' = e_flags e ∧ e_pmtu e' = (if e_pmtu e =? 0 then mtu else Z.min mtu (e_pmtu e)).
Proof.
  destruct e as [dst mask gw ms pmtu metric netif tos flags state plen]. unfold estimated. cbn [e_pmtu].
  destruct (Z.eqb_spec pmtu 0); cbn [orb]; [done|]. destruct (Z.ltb_spec mtu pmtu); (split_and!; [done..|]); cbn; lia.
Qed.

Lemma derive_fields e from dst : let e' := ip4_route_derive_host e from dst in
  e_gw e' = e_gw from ∧ e_netif e' = e_netif from ∧ e_pmtu e' = 0.
Proof. by destruct e. Qed.

(** A lookup of one address, on the operand block the caller leaves. *)
Definition asks (q : Ip4RouteIo) (dst tos : Z) : Prop := lookup_args q = mkLookupArgs dst tos.

Lemma lookup_asks w q dst tos : live N w → is_u32 dst → asks q dst tos → answers (w_tab w) dst tos (w_io (call OLookup (w <| w_io := q |>))).
Proof.
  intros Hl Hd Hq. destruct w as [io ctx t]. pose proof (lookup_answers (mkWork q ctx t) Hl) as H. cbn [w_io] in H. rewrite Hq in H. by apply H.
Qed.

Lemma host_update_quiet f dst w w' q dst' tos : live N w → live N w' → is_u32 dst → is_u32 dst' → keeps f → host_update f dst w w' →
  asks q dst' tos → dst' ≠ dst ∨ io_status (w_io w') ≠ IDEMIP_OK →
  w_io (call OLookup (w' <| w_io := q |>)) = w_io (call OLookup (w <| w_io := q |>)).
Proof.
  intros Hl Hl' Hd Hd' Hk Hu Hq Hor. apply lookup_same; [done..|by rewrite Hq|]. rewrite Hq. cbv zeta. cbn [lk_dst lk_tos].
  destruct (decide (dst' = dst)) as [->|Hne].
  - destruct Hor as [|Hn]; [done|]. destruct Hu as [_ [[-> _]|[? _]]]; [|done]. by split.
  - by apply (host_update_others f dst).
Qed.

(** RFC 1122 section 3.3.1.2 (c): a Redirect that is taken sends the datagrams of the one destination it names to the
    gateway it names, over the interface they took before, with the path MTU unknown again, and it is taken only when the
    table says that gateway is on a connected net; it changes no other destination's lookup, and one that is refused
    changes none. *)
Theorem redirect_moves_one_host calls w io : calls_ok calls → io_ok io →
  let w1 := run calls (start w) in
  let w2 := call ORedirect (w1 <| w_io := io |>) in
  let a := redirect_args io in
  (∀ q dst tos, is_u32 dst → asks q dst tos → dst ≠ rd_dst a ∨ io_status (w_io w2) ≠ IDEMIP_OK →
     w_io (call OLookup (w2 <| w_io := q |>)) = w_io (call OLookup (w1 <| w_io := q |>))) ∧
  (io_status (w_io w2) = IDEMIP_OK →
     (∀ q, asks q (rd_gw a) 0 → let r := w_io (call OLookup (w1 <| w_io := q |>)) in io_status r = IDEMIP_OK ∧ io_direct r = true) ∧
     ∀ q, asks q (rd_dst a) 0 →
       let before := w_io (call OLookup (w1 <| w_io := q |>)) in
       let after := w_io (call OLookup (w2 <| w_io := q |>)) in
       io_status before = IDEMIP_OK ∧ io_status after = IDEMIP_OK ∧ io_next_hop after = rd_gw a ∧ io_direct after = false ∧
       io_pmtu after = 0 ∧ io_netif after = io_netif before ∧ io_index after = io_index (w_io w2)).
Proof.
  intros Hok Hio w1. assert (live N w1) as Hl by (apply run_live; [apply clear_live|done]). clearbody w1. destruct w1 as [io1 ctx t].
  change ((mkWork io1 ctx t) <| w_io := io |>) with (mkWork io ctx t). intros w2 a.
  assert (live N w2) as Hl2 by (by apply call_live). destruct (redirect_cases (mkWork io ctx t) Hl Hio) as [Hu Hif].
  change (idemip_ip4_route_redirect N (mkWork io ctx t)) with w2 in *. clearbody w2. cbn [w_io] in Hu, Hif.
  fold a in Hu, Hif. pose proof Hio as (_&_&_&Hd&Hg&_). fold a in Hd, Hg. split.
  { intros q dst tos Hq1 Hq2 Hor. by apply (host_update_quiet (redirected (rd_gw a)) (rd_dst a) (mkWork io ctx t) w2 q dst tos); try apply keeps_redirected. }
  intros HOK. destruct (Hif HOK) as [Hg0 Hcon]. split.
  - intros q Hq r. pose proof (lookup_asks _ q _ _ Hl Hg Hq) as Ha. fold r in Ha. cbn [w_tab set_field Work_eta] in Hcon, Ha. cbv beta in Hcon.
    unfold gateway_connected in Hcon. rewrite best_spec in Hcon by (done || apply Hl). cbn [fst] in Hcon. unfold answers in Ha. unfold IP4_ROUTE_TOS_DEFAULT in Hcon.
    destruct (rfc1812 N t (rd_gw a) 0) as [i|] eqn:E; cbn [from_option] in Hcon; [|done]. unfold id in Hcon. bool_prop.
    destruct Ha as (?&_&_&_&->&_). split; [done|]. by rewrite H0.
  - intros q Hq before after. destruct (host_update_best _ _ (mkWork io ctx t) w2 Hl Hd (keeps_redirected _) HOK Hu) as (cur&Hb&Ha&Hcase).
    pose proof (lookup_asks _ q _ _ Hl Hd Hq) as Qb. pose proof (lookup_asks _ q _ _ Hl2 Hd Hq) as Qa. fold before in Qb. fold after in Qa.
    unfold answers in Qa, Qb. cbn [w_tab] in *. rewrite Hb in Qb. rewrite Ha in Qa. cbv zeta in Qa, Qb. destruct Qb as (B1&_&B3&_). destruct Qa as (A1&A2&A3&A4&A5&A6).
    rewrite A1, A2, A3, A4, A5, A6, B1, B3. destruct Hcase as [[_ ->]|[-> _]]; rewrite redirected_gateway; done.
Qed.

(** RFC 1191 sections 6.2 and 6.3: an estimate that is taken lowers the path MTU of the one destination it names, to the
    estimate or to the lower one already known, and leaves its next hop and interface and every other destination's lookup
    alone; the estimate is never below 68 octets, and one that is refused changes nothing. *)
Theorem pmtu_only_lowers_one_host calls w io : calls_ok calls → io_ok io →
  let w1 := run calls (start w) in
  let w2 := call OSetPmtu (w1 <| w_io := io |>) in
  let a := pmtu_args io in
  (∀ q dst tos, is_u32 dst → asks q dst tos → dst ≠ pm_dst a ∨ io_status (w_io w2) ≠ IDEMIP_OK →
     w_io (call OLookup (w2 <| w_io := q |>)) = w_io (call OLookup (w1 <| w_io := q |>))) ∧
  (io_status (w_io w2) = IDEMIP_OK → 68 ≤ pm_mtu a ∧
     ∀ q, asks q (pm_dst a) 0 →
       let before := w_io (call OLookup (w1 <| w_io := q |>)) in
       let after := w_io (call OLookup (w2 <| w_io := q |>)) in
       io_status before = IDEMIP_OK ∧ io_status after = IDEMIP_OK ∧ io_next_hop after = io_next_hop before ∧
       io_direct after = io_direct before ∧ io_netif after = io_netif before ∧ io_pmtu after = io_pmtu (w_io w2) ∧
       68 ≤ io_pmtu after ∧ io_pmtu after = (if io_pmtu before =? 0 then pm_mtu a else Z.min (pm_mtu a) (io_pmtu before))).
Proof.
  intros Hok Hio w1. assert (live N w1) as Hl by (apply run_live; [apply clear_live|done]). clearbody w1. destruct w1 as [io1 ctx t].
  change ((mkWork io1 ctx t) <| w_io := io |>) with (mkWork io ctx t). intros w2 a.
  assert (live N w2) as Hl2 by (by apply call_live). destruct (pmtu_cases (mkWork io ctx t) Hl Hio) as [Hu Hif].
  change (idemip_ip4_route_set_pmtu N (mkWork io ctx t)) with w2 in *. clearbody w2. cbn [w_io] in Hu, Hif.
  fold a in Hu, Hif. pose proof Hio as (_&_&_&_&_&Hd). fold a in Hd. split.
  { intros q dst tos Hq1 Hq2 Hor. by apply (host_update_quiet (estimated (pm_mtu a) (io_now_ms io)) (pm_dst a) (mkWork io ctx t) w2 q dst tos); try apply keeps_estimated. }
  intros HOK. destruct (Hif HOK) as [H68 Hrep]. split; [done|]. intros q Hq before after.
  destruct (host_update_best _ _ (mkWork io ctx t) w2 Hl Hd (keeps_estimated _ _) HOK Hu) as (cur&Hb&Ha&Hcase).
  pose proof (lookup_asks _ q _ _ Hl Hd Hq) as Qb. pose proof (lookup_asks _ q _ _ Hl2 Hd Hq) as Qa. fold before in Qb. fold after in Qa.
  unfold answers in Qa, Qb. cbn [w_tab] in *. rewrite Hb in Qb. rewrite Ha in Qa. cbv zeta in Qa, Qb.
  destruct Qb as (B1&_&B3&B4&B5&B6). destruct Qa as (A1&A2&A3&A4&A5&A6). rewrite A1, A3, A4, A5, A6, B1, B3, B4, B5, B6, Hrep.
  destruct (rfc1812_elem _ _ _ _ _ Hb) as (Hcur&[Hcu _]&_). destruct Hl as [_ [_ Hrows]]. cbn [w_tab] in Hrows.
  destruct (Hrows cur Hcur Hcu) as (_&_&_&_&_&Hpm&_). unfold Ip4Frag.IDEMIP_IP4_MIN_FORWARD_MTU in Hpm.
  destruct Hcase as [[_ ->]|[-> H32]].
  - destruct (estimated_fields (pm_mtu a) (io_now_ms io) (tget t cur)) as (-> & -> & Ef & ->). unfold has_flag. rewrite Ef.
    destruct (Z.eqb_spec (e_pmtu (tget t cur)) 0); split_and!; reflexivity || lia.
  - assert (e_pmtu (tget t cur) = 0) as -> by lia. pose proof (derive_gateway (tget t (io_index (w_io w2))) (tget t cur) (pm_dst a)) as Eg.
    destruct (derive_fields (tget t (io_index (w_io w2))) (tget t cur) (pm_dst a)) as (D1 & D2 & D3).
    destruct (ip4_route_derive_host _ _ _) as [d1 d2 d3 d4 d5 d6 d7 d8 d9 d10 d11]. 
    destruct (estimated_fields (pm_mtu a) (io_now_ms io) (mkEntry d1 d2 d3 d4 d5 d6 d7 d8 d9 d10 d11)) as (E1 & E2 & Ef & E4).
    rewrite E1, E2, E4, D1, D2, D3. unfold has_flag in *. rewrite Ef, Eg. split_and!; reflexivity || exact H68.
Qed.
End Calls.

(** ** A connected net, two default gateways and a host behind the second *)
Definition cfg_example : config := mkConfig 5 60000 600000.
Definition io_example (a : Ip4RouteAddArgs) (dst gw mtu : Z) : Ip4RouteIo :=
  mkIo a (mkRemoveArgs 0 0) (mkLookupArgs dst 0) (mkRedirectArgs dst gw) (mkPmtuArgs dst mtu) 1000 0 0 IDEMIP_ERR 0 0 false false.
Definition add_example (dst mask gw metric flags : Z) : Ip4RouteIo * op := (io_example (mkAddArgs dst mask gw metric 1 0 flags) 0 0 0, OAdd).
Definition calls_example : list (Ip4RouteIo * op) :=
  [add_example 0x0A000000 0xFF000000 0 0 0; add_example 0 0 0x0A000001 5 1; add_example 0 0 0x0A000002 7 1].
Definition work_example : Work := mkWork (io_example (mkAddArgs 0 0 0 0 0 0 0) 0 0 0) (mkCtx 0 0) [].
(** A host far away, the second gateway, an MTU. *)
Definition far_example : Ip4RouteIo := io_example (mkAddArgs 0 0 0 0 0 0 0) 0x08080808 0x0A000002 1280.

Lemma route_calls_ok : calls_ok calls_example.
Proof. unfold calls_ok, calls_example. do 3 (apply Forall_cons; split; [unfold io_ok, is_u32; vm_compute; split_and!; discriminate || reflexivity|]). constructor. Qed.
Lemma far_example_ok : io_ok far_example.
Proof. unfold io_ok, is_u32. vm_compute. split_and!; discriminate || reflexivity. Qed.

Lemma lookup_follows_rfc1812_witness :
  let w1 := run cfg_example calls_example (start cfg_example work_example) in
  rfc1812 5 (w_tab w1) 0x08080808 0 = Some 1 ∧ io_next_hop (w_io (call cfg_example OLookup (w1 <| w_io := far_example |>))) = 0x0A000001 ∧
  answers cfg_example (w_tab w1) 0x08080808 0 (w_io (call cfg_example OLookup (w1 <| w_io := far_example |>))).
Proof.
  split; [vm_compute; reflexivity|]. split; [vm_compute; reflexivity|].
  apply (lookup_follows_rfc1812 cfg_example ltac:(split; [discriminate|reflexivity]) calls_example work_example far_example route_calls_ok far_example_ok).
Defined.

Lemma redirect_moves_one_host_witness :
  let w1 := run cfg_example calls_example (start cfg_example work_example) in
  let w2 := call cfg_example ORedirect (w1 <| w_io := far_example |>) in
  io_status (w_io w2) = IDEMIP_OK ∧
  io_next_hop (w_io (call cfg_example OLookup (w1 <| w_io := far_example |>))) = 0x0A000001 ∧
  io_next_hop (w_io (call cfg_example OLookup (w2 <| w_io := far_example |>))) = 0x0A000002.
Proof.
  destruct (redirect_moves_one_host cfg_example ltac:(split; [discriminate|reflexivity]) calls_example work_example far_example route_calls_ok far_example_ok)
    as [_ H].
  split; [vm_compute; reflexivity|]. split; [vm_compute; reflexivity|].
  destruct H as [_ H]; [vm_compute; reflexivity|]. destruct (H far_example eq_refl) as (_&_&E&_). exact E.
Defined.

Lemma pmtu_only_lowers_one_host_witness :
  let w1 := run cfg_example calls_example (start cfg_example work_example) in
  let w2 := call cfg_example OSetPmtu (w1 <| w_io := far_example |>) in
  io_status (w_io w2) = IDEMIP_OK ∧
  io_pmtu (w_io (call cfg_example OLookup (w1 <| w_io := far_example |>))) = 0 ∧
  io_pmtu (w_io (call cfg_example OLookup (w2 <| w_io := far_example |>))) = 1280.
Proof.
  destruct (pmtu_only_lowers_one_host cfg_example ltac:(split; [discriminate|reflexivity]) calls_example work_example far_example route_calls_ok far_example_ok)
    as [_ H].
  split; [vm_compute; reflexivity|]. split; [vm_compute; reflexivity|].
  destruct H as [_ H]; [vm_compute; reflexivity|]. destruct (H far_example eq_refl) as (_&_&_&_&_&_&_&E).
  rewrite E. vm_compute. reflexivity.
Defined.

(** Two routes to one host over two gateways, and a Redirect from the first to the second: both rows now carry the same
    destination, mask, type of service and gateway. *)
Example redirect_doubles_key :
  let w1 := run cfg_example (calls_example ++ [add_example 0x08080808 0xFFFFFFFF 0x0A000001 1 1; add_example 0x08080808 0xFFFFFFFF 0x0A000002 2 1])
              (start cfg_example work_example) in
  let t := w_tab (call cfg_example ORedirect (w1 <| w_io := far_example |>)) in
  map (λ i, let e := tget t i in (e_dst e, e_mask e, e_tos e, e_gw e)) [3; 4] =
    [(0x08080808, 0xFFFFFFFF, 0, 0x0A000002); (0x08080808, 0xFFFFFFFF, 0, 0x0A000002)].
Proof. vm_compute. reflexivity. Qed.
End Ip4RouteThms.
