(* ===== verification/IpAddr.v ===== *)
(** * IPv4 and IPv6 addresses (src/ip/ip4_addr.c, ip6_addr.c and their inline tests)

    Which kind of address one is, its class or scope, what it maps to on a link, and when two name the
    same thing.  The spans are compared a word at a time, so the tests over octets take the word size and
    byte order of the build. *)
From S2P Require Import Prelude Base Ipv4.

Module Ip4Addr.
Import Ipv4.

Definition IDEMIP_IP4_CLASS_A_MASK : Z := 0x80000000.
Definition IDEMIP_IP4_CLASS_A_TAG : Z := 0.
Definition IDEMIP_IP4_CLASS_B_MASK : Z := 0xC0000000.
Definition IDEMIP_IP4_CLASS_B_TAG : Z := 0x80000000.
Definition IDEMIP_IP4_CLASS_C_MASK : Z := 0xE0000000.
Definition IDEMIP_IP4_CLASS_C_TAG : Z := 0xC0000000.
Definition IDEMIP_IP4_CLASS_D_MASK : Z := 0xF0000000.
Definition IDEMIP_IP4_CLASS_D_TAG : Z := 0xE0000000.
Definition IDEMIP_IP4_CLASS_E_MASK : Z := 0xF0000000.
Definition IDEMIP_IP4_CLASS_E_TAG : Z := 0xF0000000.
Definition IDEMIP_IP4_LOOPBACK_MASK : Z := 0xFF000000.
Definition IDEMIP_IP4_LOOPBACK_TAG : Z := 0x7F000000.
Definition IDEMIP_IP4_LINK_LOCAL_MASK : Z := 0xFFFF0000.
Definition IDEMIP_IP4_LINK_LOCAL_TAG : Z := 0xA9FE0000.
Definition IDEMIP_IP4_BROADCAST : Z := 0xFFFFFFFF.
Definition IDEMIP_IP4_ANY : Z := 0.
Definition IDEMIP_IP4_THIS_NET_MASK : Z := 0xFF000000.
Definition IDEMIP_IP4_THIS_NET_TAG : Z := 0.
Definition IDEMIP_IP4_MCAST_MAC_0 : Z := 0x01.
Definition IDEMIP_IP4_MCAST_MAC_1 : Z := 0x00.
Definition IDEMIP_IP4_MCAST_MAC_2 : Z := 0x5E.
Definition IDEMIP_IP4_MCAST_MAC_MASK : Z := 0x007FFFFF.

Inductive IdemIpIp4Class : Type :=
  | IDEMIP_IP4_CLASS_A | IDEMIP_IP4_CLASS_B | IDEMIP_IP4_CLASS_C | IDEMIP_IP4_CLASS_D | IDEMIP_IP4_CLASS_E.
Inductive IdemIpIp4AddrType : Type :=
  | IDEMIP_IP4_TYPE_UNSPECIFIED | IDEMIP_IP4_TYPE_THIS_NETWORK | IDEMIP_IP4_TYPE_LOOPBACK | IDEMIP_IP4_TYPE_LINK_LOCAL
  | IDEMIP_IP4_TYPE_MULTICAST | IDEMIP_IP4_TYPE_RESERVED | IDEMIP_IP4_TYPE_BROADCAST | IDEMIP_IP4_TYPE_UNICAST.
#[export] Instance IdemIpIp4AddrType_eq_dec : EqDecision IdemIpIp4AddrType.
Proof. solve_decision. Defined.

Definition idemip_ip4_addr_tagged (addr mask tag : Z) : bool := Z.land addr mask =? tag.

Definition idemip_ip4_addr_class (addr : Z) : IdemIpIp4Class :=
  if idemip_ip4_addr_tagged addr IDEMIP_IP4_CLASS_A_MASK IDEMIP_IP4_CLASS_A_TAG then IDEMIP_IP4_CLASS_A
  else if idemip_ip4_addr_tagged addr IDEMIP_IP4_CLASS_B_MASK IDEMIP_IP4_CLASS_B_TAG then IDEMIP_IP4_CLASS_B
  else if idemip_ip4_addr_tagged addr IDEMIP_IP4_CLASS_C_MASK IDEMIP_IP4_CLASS_C_TAG then IDEMIP_IP4_CLASS_C
  else if idemip_ip4_addr_tagged addr IDEMIP_IP4_CLASS_D_MASK IDEMIP_IP4_CLASS_D_TAG then IDEMIP_IP4_CLASS_D
  else IDEMIP_IP4_CLASS_E.

Definition idemip_ip4_addr_is_mcast (addr : Z) : bool :=
  idemip_ip4_addr_tagged addr IDEMIP_IP4_CLASS_D_MASK IDEMIP_IP4_CLASS_D_TAG.

Definition idemip_ip4_addr_type (addr : Z) : IdemIpIp4AddrType :=
  if addr =? IDEMIP_IP4_BROADCAST then IDEMIP_IP4_TYPE_BROADCAST
  else if addr =? IDEMIP_IP4_ANY then IDEMIP_IP4_TYPE_UNSPECIFIED
  else if idemip_ip4_addr_tagged addr IDEMIP_IP4_THIS_NET_MASK IDEMIP_IP4_THIS_NET_TAG then IDEMIP_IP4_TYPE_THIS_NETWORK
  else if idemip_ip4_addr_tagged addr IDEMIP_IP4_LOOPBACK_MASK IDEMIP_IP4_LOOPBACK_TAG then IDEMIP_IP4_TYPE_LOOPBACK
  else if idemip_ip4_addr_tagged addr IDEMIP_IP4_LINK_LOCAL_MASK IDEMIP_IP4_LINK_LOCAL_TAG then IDEMIP_IP4_TYPE_LINK_LOCAL
  else if idemip_ip4_addr_is_mcast addr then IDEMIP_IP4_TYPE_MULTICAST
  else if idemip_ip4_addr_tagged addr IDEMIP_IP4_CLASS_E_MASK IDEMIP_IP4_CLASS_E_TAG then IDEMIP_IP4_TYPE_RESERVED
  else IDEMIP_IP4_TYPE_UNICAST.

(** The six octets written. *)
Definition idemip_ip4_addr_mcast_mac (group : Z) : list Z :=
  let low := Z.land group IDEMIP_IP4_MCAST_MAC_MASK in
  [IDEMIP_IP4_MCAST_MAC_0; IDEMIP_IP4_MCAST_MAC_1; IDEMIP_IP4_MCAST_MAC_2;
   u8 (Z.land (Z.shiftr low 16) 0xFF); u8 (Z.land (Z.shiftr low 8) 0xFF); u8 (Z.land low 0xFF)].

Record Ip4AddrMatchArgs := mkMatchArgs { m_addr : Z; m_net : Z; m_mask : Z }.
Record Ip4AddrIo := mkIo {
  classify_addr : Z;
  match_args : Ip4AddrMatchArgs;
  mcast_group : Z;
  io_status : IdemIpStatus;
  io_network : Z;
  io_broadcast : Z;
  io_host : Z;
  io_mac : list Z;
  io_type : IdemIpIp4AddrType;
  io_addr_class : IdemIpIp4Class;
  io_prefix_len : Z;
  io_on_subnet : bool;
  io_is_broadcast : bool;
  io_contiguous : bool }.
#[export] Instance Ip4AddrIo_eta : Eta Ip4AddrIo := fun r =>
  mkIo (classify_addr r) (match_args r) (mcast_group r) (io_status r) (io_network r) (io_broadcast r) (io_host r) (io_mac r)
    (io_type r) (io_addr_class r) (io_prefix_len r) (io_on_subnet r) (io_is_broadcast r) (io_contiguous r).
(** [Ip4AddrCtx] is its one member, [ready]. *)
Record Work := mkWork { w_io : Ip4AddrIo; w_ready : bool }.
#[export] Instance Work_eta : Eta Work := fun r => mkWork (w_io r) (w_ready r).

Definition idemip_ip4_addr_clear (w : Work) : Work := mkWork ((w_io w) <| io_status := IDEMIP_OK |>) true.

Definition idemip_ip4_addr_classify (w : Work) : Work :=
  let io := (w_io w) <| io_status := IDEMIP_ERR |> in
  if negb (w_ready w) then w <| w_io := io |>
  else
    let addr := classify_addr io in
    w <| w_io := io <| io_addr_class := idemip_ip4_addr_class addr |> <| io_type := idemip_ip4_addr_type addr |>
                    <| io_status := IDEMIP_OK |> |>.

Definition idemip_ip4_addr_match (w : Work) : Work :=
  let io := (w_io w) <| io_status := IDEMIP_ERR |> <| io_network := 0 |> <| io_broadcast := 0 |> <| io_host := 0 |>
               <| io_prefix_len := 0 |> <| io_on_subnet := false |> <| io_is_broadcast := false |> <| io_contiguous := false |> in
  if negb (w_ready w) then w <| w_io := io |>
  else
    let addr := m_addr (match_args io) in
    let mask := m_mask (match_args io) in
    let network := Z.land (m_net (match_args io)) mask in
    let has_bcast := negb (mask =? 0xFFFFFFFF) && negb (mask =? 0xFFFFFFFE) in
    let broadcast := if has_bcast then Z.lor network (u32 (Z.lnot mask)) else 0 in
    let on_subnet := Z.land (Z.lxor addr (m_net (match_args io))) mask =? 0 in
    w <| w_io := io <| io_network := network |> <| io_broadcast := broadcast |> <| io_host := Z.land addr (u32 (Z.lnot mask)) |>
           <| io_prefix_len := ip4_mask_ones mask |> <| io_contiguous := ip4_mask_contiguous mask |>
           <| io_on_subnet := on_subnet |>
           <| io_is_broadcast := (addr =? IDEMIP_IP4_BROADCAST) || (has_bcast && on_subnet && (addr =? broadcast)) |>
           <| io_status := IDEMIP_OK |> |>.

Definition idemip_ip4_addr_mcast_mac_io (w : Work) : Work :=
  let io := (w_io w) <| io_status := IDEMIP_ERR |> <| io_mac := replicate 6 0 |> in
  if negb (w_ready w) then w <| w_io := io |>
  else if negb (idemip_ip4_addr_is_mcast (mcast_group io)) then w <| w_io := io |>
  else w <| w_io := io <| io_mac := idemip_ip4_addr_mcast_mac (mcast_group io) |> <| io_status := IDEMIP_OK |> |>.
End Ip4Addr.

Module Ip6Addr.
Import Span.

Definition IDEMIP_IP6_ADDR_LEN : Z := 16.
Definition IDEMIP_IP6_MULTICAST_TAG : Z := 0xFF.
Definition IDEMIP_IP6_LINK_LOCAL_TAG0 : Z := 0xFE.
Definition IDEMIP_IP6_LINK_LOCAL_MASK1 : Z := 0xC0.
Definition IDEMIP_IP6_LINK_LOCAL_TAG1 : Z := 0x80.
Definition IDEMIP_IP6_SITE_LOCAL_TAG0 : Z := 0xFE.
Definition IDEMIP_IP6_SITE_LOCAL_MASK1 : Z := 0xC0.
Definition IDEMIP_IP6_SITE_LOCAL_TAG1 : Z := 0xC0.
Definition IDEMIP_IP6_V4_EMBED_ZEROS : Z := 10.
Definition IDEMIP_IP6_V4_MAPPED_TAG : Z := 0xFF.
Definition IDEMIP_IP6_V4_EMBED_OFF : Z := 12.
Definition IDEMIP_IP6_ADDR_BITS : Z := 128.
Definition IDEMIP_IP6_MCAST_FLAGS_SHIFT : Z := 4.
Definition IDEMIP_IP6_MCAST_FLAGS_MASK : Z := 0x0F.
Definition IDEMIP_IP6_MCAST_SCOP_MASK : Z := 0x0F.
Definition IDEMIP_IP6_ZONE_DEFAULT : Z := 0.
(** [IdemIpIp6Scope]: the values of the scop field, some of which have no name, so the scope is an octet. *)
Definition IDEMIP_IP6_SCOPE_RESERVED : Z := 0x0.
Definition IDEMIP_IP6_SCOPE_INTERFACE_LOCAL : Z := 0x1.
Definition IDEMIP_IP6_SCOPE_LINK_LOCAL : Z := 0x2.
Definition IDEMIP_IP6_SCOPE_SITE_LOCAL : Z := 0x5.
Definition IDEMIP_IP6_SCOPE_GLOBAL : Z := 0xE.
Definition IDEMIP_IP6_SCOPE_RESERVED_F : Z := 0xF.

Inductive IdemIpIp6Type : Type :=
  | IDEMIP_IP6_TYPE_UNSPECIFIED | IDEMIP_IP6_TYPE_LOOPBACK | IDEMIP_IP6_TYPE_V4_COMPAT | IDEMIP_IP6_TYPE_V4_MAPPED
  | IDEMIP_IP6_TYPE_LINK_LOCAL | IDEMIP_IP6_TYPE_SITE_LOCAL | IDEMIP_IP6_TYPE_MULTICAST | IDEMIP_IP6_TYPE_GLOBAL.
#[export] Instance IdemIpIp6Type_eq_dec : EqDecision IdemIpIp6Type.
Proof. solve_decision. Defined.

Section Build.
Variable bytes : nat.
Variable big : bool.

Definition idemip_ip6_addr_leading_zero (addr : list Z) (n : Z) : bool := span_zero bytes big addr (Z.to_nat n).

Definition idemip_ip6_addr_type (addr : list Z) : IdemIpIp6Type :=
  if tget addr 0 =? IDEMIP_IP6_MULTICAST_TAG then IDEMIP_IP6_TYPE_MULTICAST
  else if (tget addr 0 =? IDEMIP_IP6_LINK_LOCAL_TAG0) && (u8 (Z.land (tget addr 1) IDEMIP_IP6_LINK_LOCAL_MASK1) =? IDEMIP_IP6_LINK_LOCAL_TAG1)
  then IDEMIP_IP6_TYPE_LINK_LOCAL
  else if (tget addr 0 =? IDEMIP_IP6_SITE_LOCAL_TAG0) && (u8 (Z.land (tget addr 1) IDEMIP_IP6_SITE_LOCAL_MASK1) =? IDEMIP_IP6_SITE_LOCAL_TAG1)
  then IDEMIP_IP6_TYPE_SITE_LOCAL
  else if idemip_ip6_addr_leading_zero addr IDEMIP_IP6_V4_EMBED_ZEROS then
    if (tget addr 10 =? IDEMIP_IP6_V4_MAPPED_TAG) && (tget addr 11 =? IDEMIP_IP6_V4_MAPPED_TAG) then IDEMIP_IP6_TYPE_V4_MAPPED
    else if (tget addr 10 =? 0) && (tget addr 11 =? 0) then
      let rest := drop (Z.to_nat IDEMIP_IP6_V4_EMBED_OFF) addr in
      if idemip_ip6_addr_leading_zero rest 3 && (tget addr 15 =? 1) then IDEMIP_IP6_TYPE_LOOPBACK
      else if idemip_ip6_addr_leading_zero rest 4 then IDEMIP_IP6_TYPE_UNSPECIFIED
      else IDEMIP_IP6_TYPE_V4_COMPAT
    else IDEMIP_IP6_TYPE_GLOBAL
  else IDEMIP_IP6_TYPE_GLOBAL.

Definition idemip_ip6_addr_scope_of (addr : list Z) (type : IdemIpIp6Type) : Z :=
  match type with
  | IDEMIP_IP6_TYPE_MULTICAST =>
      let scop := u8 (Z.land (tget addr 1) IDEMIP_IP6_MCAST_SCOP_MASK) in
      if scop =? IDEMIP_IP6_SCOPE_RESERVED_F then IDEMIP_IP6_SCOPE_GLOBAL else scop
  | IDEMIP_IP6_TYPE_LINK_LOCAL | IDEMIP_IP6_TYPE_LOOPBACK => IDEMIP_IP6_SCOPE_LINK_LOCAL
  | IDEMIP_IP6_TYPE_SITE_LOCAL => IDEMIP_IP6_SCOPE_SITE_LOCAL
  | IDEMIP_IP6_TYPE_UNSPECIFIED => IDEMIP_IP6_SCOPE_RESERVED
  | _ => IDEMIP_IP6_SCOPE_GLOBAL
  end.

Definition idemip_ip6_addr_scope (addr : list Z) : Z := idemip_ip6_addr_scope_of addr (idemip_ip6_addr_type addr).

Definition idemip_ip6_addr_mcast_flags (addr : list Z) : Z :=
  if tget addr 0 =? IDEMIP_IP6_MULTICAST_TAG
  then u8 (Z.land (Z.shiftr (tget addr 1) IDEMIP_IP6_MCAST_FLAGS_SHIFT) IDEMIP_IP6_MCAST_FLAGS_MASK) else 0.

Definition idemip_ip6_addr_prefix_eq (a b : list Z) (len : Z) : bool :=
  let whole := Z.shiftr len 3 in
  let bits := u8 (Z.land len 7) in
  if negb (whole =? 0) && negb (span_eq bytes big a b (Z.to_nat whole)) then false
  else if negb (bits =? 0) then
    let mask := u8 (Z.shiftl 0xFF (8 - bits)) in
    if negb (u8 (Z.land (Z.lxor (tget a whole) (tget b whole)) mask) =? 0) then false else true
  else true.

Definition idemip_ip6_addr_solicited (addr : list Z) : list Z :=
  [0xFF; 0x02; 0; 0; 0; 0; 0; 0; 0; 0; 0; 0x01; 0xFF; tget addr 13; tget addr 14; tget addr 15].

Definition idemip_ip6_addr_is_all_nodes (addr : list Z) : bool :=
  if negb (tget addr 0 =? IDEMIP_IP6_MULTICAST_TAG) || negb (idemip_ip6_addr_mcast_flags addr =? 0) then false
  else
    let scope := Z.land (tget addr 1) IDEMIP_IP6_MCAST_SCOP_MASK in
    if negb (scope =? IDEMIP_IP6_SCOPE_INTERFACE_LOCAL) && negb (scope =? IDEMIP_IP6_SCOPE_LINK_LOCAL) then false
    else idemip_ip6_addr_leading_zero (drop 2 addr) (IDEMIP_IP6_ADDR_LEN - 3) && (tget addr (IDEMIP_IP6_ADDR_LEN - 1) =? 0x01).

(** ** The unit *)
Record Ip6AddrZoneArgs := mkZoneArgs { z_addr : option (list Z); z_netif : Z }.
Record Ip6AddrMatchArgs := mkMatchArgs { m_a : option (list Z); m_b : option (list Z); m_a_zone : Z; m_b_zone : Z; m_prefix_len : Z }.
Record Ip6AddrIo := mkIo {
  classify_addr : option (list Z);
  solicited_addr : option (list Z);
  zone_args : Ip6AddrZoneArgs;
  match_args : Ip6AddrMatchArgs;
  io_status : IdemIpStatus;
  io_zone : Z;
  io_solicited : list Z;
  io_type : IdemIpIp6Type;
  io_scope : Z;
  io_flags : Z;
  io_equal : bool;
  io_prefix_equal : bool;
  io_zone_derived : bool }.
#[export] Instance Ip6AddrIo_eta : Eta Ip6AddrIo := fun r =>
  mkIo (classify_addr r) (solicited_addr r) (zone_args r) (match_args r) (io_status r) (io_zone r) (io_solicited r)
    (io_type r) (io_scope r) (io_flags r) (io_equal r) (io_prefix_equal r) (io_zone_derived r).
Record Work := mkWork { w_io : Ip6AddrIo; w_ready : bool }.
#[export] Instance Work_eta : Eta Work := fun r => mkWork (w_io r) (w_ready r).

Definition idemip_ip6_addr_clear (w : Work) : Work := mkWork ((w_io w) <| io_status := IDEMIP_OK |>) true.

Definition idemip_ip6_addr_classify (w : Work) : Work :=
  let io := (w_io w) <| io_status := IDEMIP_ERR |> <| io_type := IDEMIP_IP6_TYPE_UNSPECIFIED |>
               <| io_scope := IDEMIP_IP6_SCOPE_RESERVED |> <| io_flags := 0 |> in
  match w_ready w, classify_addr io with
  | true, Some addr =>
      let type := idemip_ip6_addr_type addr in
      w <| w_io := io <| io_type := type |> <| io_scope := idemip_ip6_addr_scope_of addr type |>
             <| io_flags := idemip_ip6_addr_mcast_flags addr |> <| io_status := IDEMIP_OK |> |>
  | _, _ => w <| w_io := io |>
  end.

Definition idemip_ip6_addr_solicited_io (w : Work) : Work :=
  let io := (w_io w) <| io_status := IDEMIP_ERR |> <| io_solicited := replicate (Z.to_nat IDEMIP_IP6_ADDR_LEN) 0 |> in
  match w_ready w, solicited_addr io with
  | true, Some addr =>
      match idemip_ip6_addr_type addr with
      | IDEMIP_IP6_TYPE_MULTICAST | IDEMIP_IP6_TYPE_UNSPECIFIED => w <| w_io := io |>
      | _ => w <| w_io := io <| io_solicited := idemip_ip6_addr_solicited addr |> <| io_status := IDEMIP_OK |> |>
      end
  | _, _ => w <| w_io := io |>
  end.

Definition idemip_ip6_addr_zone (w : Work) : Work :=
  let io := (w_io w) <| io_status := IDEMIP_ERR |> <| io_zone := IDEMIP_IP6_ZONE_DEFAULT |> <| io_zone_derived := false |> in
  match w_ready w, z_addr (zone_args io) with
  | true, Some addr =>
      let type := idemip_ip6_addr_type addr in
      let scope := idemip_ip6_addr_scope_of addr type in
      let io := io <| io_type := type |> <| io_scope := scope |> in
      if scope =? IDEMIP_IP6_SCOPE_RESERVED then w <| w_io := io |>
      else
        let io :=
          if (scope =? IDEMIP_IP6_SCOPE_INTERFACE_LOCAL) || (scope =? IDEMIP_IP6_SCOPE_LINK_LOCAL)
          then io <| io_zone := u32 (z_netif (zone_args io) + 1) |> <| io_zone_derived := true |>
          else if (scope =? IDEMIP_IP6_SCOPE_GLOBAL) || (scope =? IDEMIP_IP6_SCOPE_RESERVED_F)
          then io <| io_zone := IDEMIP_IP6_ZONE_DEFAULT |> <| io_zone_derived := true |>
          else io <| io_zone := IDEMIP_IP6_ZONE_DEFAULT |> <| io_zone_derived := false |> in
        w <| w_io := io <| io_status := IDEMIP_OK |> |>
  | _, _ => w <| w_io := io |>
  end.

Definition idemip_ip6_addr_match (w : Work) : Work :=
  let io := (w_io w) <| io_status := IDEMIP_ERR |> <| io_equal := false |> <| io_prefix_equal := false |> in
  match w_ready w, m_a (match_args io), m_b (match_args io) with
  | true, Some a, Some b =>
      if IDEMIP_IP6_ADDR_BITS <? m_prefix_len (match_args io) then w <| w_io := io |>
      else
        let io := io <| io_prefix_equal := idemip_ip6_addr_prefix_eq a b (m_prefix_len (match_args io)) |> in
        let io :=
          if span_eq bytes big a b (Z.to_nat IDEMIP_IP6_ADDR_LEN) then
            io <| io_equal := (idemip_ip6_addr_scope a =? IDEMIP_IP6_SCOPE_GLOBAL) ||
                              (m_a_zone (match_args io) =? m_b_zone (match_args io)) ||
                              (m_a_zone (match_args io) =? IDEMIP_IP6_ZONE_DEFAULT) ||
                              (m_b_zone (match_args io) =? IDEMIP_IP6_ZONE_DEFAULT) |>
          else io in
        w <| w_io := io <| io_status := IDEMIP_OK |> |>
  | _, _, _ => w <| w_io := io |>
  end.
End Build.
End Ip6Addr.
