(* ===== verification/TcpPcb.v ===== *)
(** * The connection table (src/tcp/tcp_pcb.c)

    The transmission control blocks, the listeners, and the two shared tables their queues are threaded
    through: the send-queue segments, on a connection's unsent or unacknowledged queue, and the held
    out-of-order segments.  A queue is a head in the connection's record and a [next] in each entry.

    Addresses are spans of octets compared a word at a time; a segment's data is a pointer no entry
    follows, so it is its value, zero for NULL.  The addresses a load reports point into the table: they
    are the octets they point at when the load returns. *)
From S2P Require Import Prelude Base TcpTypes IpAddr.

Module TcpPcb.
Import Endian Span.

(** ** Data *)
Definition IDEMIP_TCP_PCB_ADDR_BYTES : Z := 16.
Definition IDEMIP_TCP_PCB_PORT_ANY : Z := 0.
Definition IDEMIP_TCP_PCB_PORT_EPH_FIRST : Z := 32768.
Definition IDEMIP_TCP_PCB_PORT_EPH_LAST : Z := 65535.
Definition IDEMIP_TCP_PCB_PORT_EPH_COUNT : Z := IDEMIP_TCP_PCB_PORT_EPH_LAST - IDEMIP_TCP_PCB_PORT_EPH_FIRST + 1.
Definition IDEMIP_TCP_PCB_PORT_EPH_MASK : Z := IDEMIP_TCP_PCB_PORT_EPH_COUNT - 1.
Definition TCP_PCB_READY : Z := 0x54435042.

Record TcpPcbOptArgs := mkOptArgs { opt_index : Z; opt_tos : Z; opt_ttl : Z; opt_r2 : Z; opt_r2_syn : Z }.
Record TcpPcbAddrArgs := mkAddrArgs {
  ad_ip : option (list Z); ad_rand : Z; ad_index : Z; ad_port : Z; ad_zone : Z; ad_netif : Z }.
Record TcpPcbAcceptArgs := mkAcceptArgs { ac_index : Z; ac_listener : Z }.
Record TcpPcbListenArgs := mkListenArgs {
  ls_ip : option (list Z); ls_port : Z; ls_zone : Z; ls_netif : Z; ls_backlog : Z; ls_version : Z }.
Record TcpPcbFindArgs := mkFindArgs {
  fd_local_ip : option (list Z); fd_remote_ip : option (list Z); fd_local_port : Z; fd_remote_port : Z; fd_version : Z;
  fd_local_zone : Z; fd_remote_zone : Z; fd_netif : Z }.
Record TcpPcbSegArgs := mkSegArgs {
  sg_data : Z; sg_seq : Z; sg_pcb : Z; sg_index : Z; sg_len : Z; sg_flags : Z; sg_opts : Z }.
Record TcpPcbOosArgs := mkOosArgs { os_seq : Z; os_pcb : Z; os_index : Z; os_desc : Z; os_offset : Z; os_len : Z }.

Record TcpPcbInfo := mkInfo {
  in_local_ip : option (list Z); in_remote_ip : option (list Z); in_local_port : Z; in_remote_port : Z; in_listener : Z;
  in_unsent : Z; in_unacked : Z; in_ooseq : Z; in_local_zone : Z; in_remote_zone : Z; in_netif : Z; in_tos : Z; in_ttl : Z;
  in_version : Z }.
Definition info_zero : TcpPcbInfo := mkInfo None None 0 0 0 0 0 0 0 0 0 0 0 0.
Record TcpPcbSegInfo := mkSegInfo { si_data : Z; si_seq : Z; si_next : Z; si_pcb : Z; si_len : Z; si_flags : Z; si_opts : Z }.
Definition seg_info_zero : TcpPcbSegInfo := mkSegInfo 0 0 0 0 0 0 0.
Record TcpPcbOosInfo := mkOosInfo { oi_seq : Z; oi_next : Z; oi_pcb : Z; oi_desc : Z; oi_offset : Z; oi_len : Z }.
Definition oos_info_zero : TcpPcbOosInfo := mkOosInfo 0 0 0 0 0 0.

Record TcpPcbIo := mkIo {
  open_version : Z;
  opt_args : TcpPcbOptArgs;
  bind_args : TcpPcbAddrArgs;
  connect_args : TcpPcbAddrArgs;
  pcb_index : Z;
  accept_args : TcpPcbAcceptArgs;
  listen_args : TcpPcbListenArgs;
  find_args : TcpPcbFindArgs;
  seg_args : TcpPcbSegArgs;
  oos_args : TcpPcbOosArgs;
  io_vars : IdemIpTcpVars;
  io_ctl : TcpPcbCtl;
  io_state : IdemIpTcpState;
  io_status : IdemIpStatus;
  io_index : Z;
  io_port : Z;
  io_info : TcpPcbInfo;
  io_seg : TcpPcbSegInfo;
  io_oos : TcpPcbOosInfo }.
#[export] Instance TcpPcbIo_eta : Eta TcpPcbIo := fun r =>
  mkIo (open_version r) (opt_args r) (bind_args r) (connect_args r) (pcb_index r) (accept_args r) (listen_args r)
    (find_args r) (seg_args r) (oos_args r) (io_vars r) (io_ctl r) (io_state r) (io_status r) (io_index r) (io_port r)
    (io_info r) (io_seg r) (io_oos r).

Record TcpPcbTcbFields := mkTcb {
  t_local_ip : list Z;
  t_remote_ip : list Z;
  t_vars : IdemIpTcpVars;
  t_ctl : TcpPcbCtl;
  t_local_port : Z;
  t_remote_port : Z;
  t_listener : Z;
  t_unsent : Z;
  t_unacked : Z;
  t_ooseq : Z;
  t_local_zone : Z;
  t_remote_zone : Z;
  t_netif : Z;
  t_tos : Z;
  t_ttl : Z;
  t_version : Z;
  t_state : IdemIpTcpState;
  t_in_use : bool }.
#[export] Instance TcpPcbTcbFields_eta : Eta TcpPcbTcbFields := fun r =>
  mkTcb (t_local_ip r) (t_remote_ip r) (t_vars r) (t_ctl r) (t_local_port r) (t_remote_port r) (t_listener r) (t_unsent r)
    (t_unacked r) (t_ooseq r) (t_local_zone r) (t_remote_zone r) (t_netif r) (t_tos r) (t_ttl r) (t_version r) (t_state r)
    (t_in_use r).
Definition addr_zero : list Z := replicate (Z.to_nat IDEMIP_TCP_PCB_ADDR_BYTES) 0.
Definition tcb_zero : TcpPcbTcbFields :=
  mkTcb addr_zero addr_zero vars_zero ctl_zero 0 0 0 0 0 0 0 0 0 0 0 0 IDEMIP_TCP_STATE_CLOSED false.
#[export] Instance TcpPcbTcbFields_inhabited : Inhabited TcpPcbTcbFields := populate tcb_zero.

Record TcpPcbListenFields := mkListen {
  l_local_ip : list Z;
  l_local_port : Z;
  l_local_zone : Z;
  l_netif : Z;
  l_backlog : Z;
  l_version : Z;
  l_state : IdemIpTcpState;
  l_in_use : bool }.
#[export] Instance TcpPcbListenFields_eta : Eta TcpPcbListenFields := fun r =>
  mkListen (l_local_ip r) (l_local_port r) (l_local_zone r) (l_netif r) (l_backlog r) (l_version r) (l_state r) (l_in_use r).
Definition listen_zero : TcpPcbListenFields := mkListen addr_zero 0 0 0 0 0 IDEMIP_TCP_STATE_CLOSED false.
#[export] Instance TcpPcbListenFields_inhabited : Inhabited TcpPcbListenFields := populate listen_zero.

Record TcpPcbSegFields := mkSeg {
  s_data : Z; s_seq : Z; s_next : Z; s_pcb : Z; s_len : Z; s_flags : Z; s_opts : Z; s_in_use : bool }.
#[export] Instance TcpPcbSegFields_eta : Eta TcpPcbSegFields := fun r =>
  mkSeg (s_data r) (s_seq r) (s_next r) (s_pcb r) (s_len r) (s_flags r) (s_opts r) (s_in_use r).
Definition seg_zero : TcpPcbSegFields := mkSeg 0 0 0 0 0 0 0 false.
#[export] Instance TcpPcbSegFields_inhabited : Inhabited TcpPcbSegFields := populate seg_zero.

Record TcpPcbOosFields := mkOos {
  o_seq : Z; o_next : Z; o_pcb : Z; o_desc : Z; o_offset : Z; o_len : Z; o_in_use : bool }.
#[export] Instance TcpPcbOosFields_eta : Eta TcpPcbOosFields := fun r =>
  mkOos (o_seq r) (o_next r) (o_pcb r) (o_desc r) (o_offset r) (o_len r) (o_in_use r).
Definition oos_zero : TcpPcbOosFields := mkOos 0 0 0 0 0 0 false.
#[export] Instance TcpPcbOosFields_inhabited : Inhabited TcpPcbOosFields := populate oos_zero.

(** The caller's borrow: the operand block, the context's one member and the four tables. *)
Record Work := mkWork {
  w_io : TcpPcbIo;
  w_ready : Z;
  w_tcb : list TcpPcbTcbFields;
  w_listen : list TcpPcbListenFields;
  w_seg : list TcpPcbSegFields;
  w_oos : list TcpPcbOosFields }.
#[export] Instance Work_eta : Eta Work := fun r =>
  mkWork (w_io r) (w_ready r) (w_tcb r) (w_listen r) (w_seg r) (w_oos r).

Definition TCB (w : Work) (i : Z) : TcpPcbTcbFields := tget (w_tcb w) i.
Definition put_tcb (w : Work) (i : Z) (t : TcpPcbTcbFields) : Work := w <| w_tcb := tset (w_tcb w) i t |>.
Definition set_io (w : Work) (io : TcpPcbIo) : Work := w <| w_io := io |>.
Definition report (w : Work) (s : IdemIpStatus) : Work := w <| w_io := (w_io w) <| io_status := s |> |>.
Definition report_at (w : Work) (i : Z) : Work := w <| w_io := (w_io w) <| io_index := i |> <| io_status := IDEMIP_OK |> |>.

Definition tcp_pcb_seq_from (seq edge : Z) : Z := u32 (seq - edge).

(** ** The RFC 9293 state machine *)
Definition TCP_PCB_S (s : IdemIpTcpState) : Z := Z.shiftl 1 (tcp_state_num s).
Definition state_set (l : list IdemIpTcpState) : Z := u16 (foldr (λ s n, Z.lor (TCP_PCB_S s) n) 0 l).

Definition tcp_pcb_transitions (from : IdemIpTcpState) : Z :=
  match from with
  | IDEMIP_TCP_STATE_CLOSED =>
      state_set [IDEMIP_TCP_STATE_CLOSED; IDEMIP_TCP_STATE_LISTEN; IDEMIP_TCP_STATE_SYN_SENT; IDEMIP_TCP_STATE_SYN_RECEIVED]
  | IDEMIP_TCP_STATE_LISTEN =>
      state_set [IDEMIP_TCP_STATE_LISTEN; IDEMIP_TCP_STATE_CLOSED; IDEMIP_TCP_STATE_SYN_SENT; IDEMIP_TCP_STATE_SYN_RECEIVED]
  | IDEMIP_TCP_STATE_SYN_SENT =>
      state_set [IDEMIP_TCP_STATE_SYN_SENT; IDEMIP_TCP_STATE_CLOSED; IDEMIP_TCP_STATE_SYN_RECEIVED;
                 IDEMIP_TCP_STATE_ESTABLISHED; IDEMIP_TCP_STATE_TIME_WAIT]
  | IDEMIP_TCP_STATE_SYN_RECEIVED =>
      state_set [IDEMIP_TCP_STATE_SYN_RECEIVED; IDEMIP_TCP_STATE_CLOSED; IDEMIP_TCP_STATE_LISTEN;
                 IDEMIP_TCP_STATE_ESTABLISHED; IDEMIP_TCP_STATE_FIN_WAIT_1; IDEMIP_TCP_STATE_CLOSE_WAIT;
                 IDEMIP_TCP_STATE_TIME_WAIT]
  | IDEMIP_TCP_STATE_ESTABLISHED =>
      state_set [IDEMIP_TCP_STATE_ESTABLISHED; IDEMIP_TCP_STATE_CLOSED; IDEMIP_TCP_STATE_FIN_WAIT_1;
                 IDEMIP_TCP_STATE_CLOSE_WAIT; IDEMIP_TCP_STATE_TIME_WAIT]
  | IDEMIP_TCP_STATE_FIN_WAIT_1 =>
      state_set [IDEMIP_TCP_STATE_FIN_WAIT_1; IDEMIP_TCP_STATE_CLOSED; IDEMIP_TCP_STATE_FIN_WAIT_2;
                 IDEMIP_TCP_STATE_CLOSING; IDEMIP_TCP_STATE_TIME_WAIT]
  | IDEMIP_TCP_STATE_FIN_WAIT_2 =>
      state_set [IDEMIP_TCP_STATE_FIN_WAIT_2; IDEMIP_TCP_STATE_CLOSED; IDEMIP_TCP_STATE_TIME_WAIT]
  | IDEMIP_TCP_STATE_CLOSE_WAIT =>
      state_set [IDEMIP_TCP_STATE_CLOSE_WAIT; IDEMIP_TCP_STATE_CLOSED; IDEMIP_TCP_STATE_LAST_ACK; IDEMIP_TCP_STATE_TIME_WAIT]
  | IDEMIP_TCP_STATE_CLOSING =>
      state_set [IDEMIP_TCP_STATE_CLOSING; IDEMIP_TCP_STATE_CLOSED; IDEMIP_TCP_STATE_TIME_WAIT]
  | IDEMIP_TCP_STATE_LAST_ACK =>
      state_set [IDEMIP_TCP_STATE_LAST_ACK; IDEMIP_TCP_STATE_CLOSED; IDEMIP_TCP_STATE_TIME_WAIT]
  | IDEMIP_TCP_STATE_TIME_WAIT => state_set [IDEMIP_TCP_STATE_TIME_WAIT; IDEMIP_TCP_STATE_CLOSED]
  end.

Definition past_states (s : IdemIpTcpState) : bool := tcp_state_num IDEMIP_TCP_STATE_TIME_WAIT <? tcp_state_num s.

Definition tcp_pcb_transition_ok (from to : IdemIpTcpState) : bool :=
  if past_states from || past_states to then false
  else negb (Z.land (Z.shiftr (tcp_pcb_transitions from) (tcp_state_num to)) 1 =? 0).

(** ** What the build configures *)
Record config := mkConfig {
  cf_pcbs : Z;           (** [IDEMIP_TCP_PCBS] *)
  cf_listen_pcbs : Z;    (** [IDEMIP_TCP_LISTEN_PCBS] *)
  cf_segs : Z;           (** [IDEMIP_TCP_SEGS] *)
  cf_ooseq_segs : Z;     (** [IDEMIP_TCP_OOSEQ_SEGS] *)
  cf_maxrtx : Z;         (** [IDEMIP_TCP_MAXRTX] *)
  cf_synmaxrtx : Z;      (** [IDEMIP_TCP_SYNMAXRTX] *)
  cf_ttl : Z;            (** [IDEMIP_IP_DEFAULT_TTL] *)
  cf_ipv4 : bool;        (** [IDEMIP_ENABLE_IPV4] *)
  cf_ipv6 : bool;        (** [IDEMIP_ENABLE_IPV6] *)
  cf_bytes : nat;        (** [sizeof(IdemIpWord)] *)
  cf_big : bool }.       (** the byte order *)

Section Unit.
Variable c : config.
Local Abbreviation IDEMIP_TCP_PCBS := (cf_pcbs c).
Local Abbreviation IDEMIP_TCP_LISTEN_PCBS := (cf_listen_pcbs c).
Local Abbreviation IDEMIP_TCP_SEGS := (cf_segs c).
Definition TCP_PCB_OOSEQ_ENTRIES : Z := cf_pcbs c * cf_ooseq_segs c.

(** ** The address pair *)
Definition tcp_pcb_addr_bytes (ip_version : Z) : Z :=
  if cf_ipv4 c && (ip_version =? 4) then 4 else if cf_ipv6 c && (ip_version =? 6) then 16 else 0.

Definition tcp_pcb_addr_eq (a b : list Z) (n : Z) : bool := span_eq (cf_bytes c) (cf_big c) a b (Z.to_nat n).
Definition tcp_pcb_addr_unspecified (a : list Z) (n : Z) : bool := span_zero (cf_bytes c) (cf_big c) a (Z.to_nat n).
Definition tcp_pcb_addr_set (src : list Z) (n : Z) : list Z :=
  take (Z.to_nat n) src ++ replicate (Z.to_nat (IDEMIP_TCP_PCB_ADDR_BYTES - n)) 0.

(** ** The three queues *)

(** One queue, zeroed entry by entry: [n] bounds the walk. *)
Fixpoint free_queue (n : nat) (segs : list TcpPcbSegFields) (at_ : Z) : list TcpPcbSegFields :=
  match n with
  | O => segs
  | S n' =>
      if at_ <? IDEMIP_TCP_SEGS then free_queue n' (tset segs at_ seg_zero) (s_next (tget segs at_)) else segs
  end.

Definition tcp_pcb_send_queues_free (w : Work) (pcb : Z) : Work :=
  let t := TCB w pcb in
  let segs := free_queue (Z.to_nat IDEMIP_TCP_SEGS) (w_seg w) (t_unsent t) in
  let segs := free_queue (Z.to_nat IDEMIP_TCP_SEGS) segs (t_unacked t) in
  put_tcb (w <| w_seg := segs |>) pcb (t <| t_unsent := IDEMIP_TCP_PCB_NONE |> <| t_unacked := IDEMIP_TCP_PCB_NONE |>).

(** The entry in front of [seg] on the queue [at_] starts, linked past it. *)
Fixpoint unlink_seg (n : nat) (segs : list TcpPcbSegFields) (seg at_ : Z) : option (list TcpPcbSegFields) :=
  match n with
  | O => None
  | S n' =>
      if at_ <? IDEMIP_TCP_SEGS then
        if s_next (tget segs at_) =? seg
        then Some (tset segs at_ ((tget segs at_) <| s_next := s_next (tget segs seg) |>))
        else unlink_seg n' segs seg (s_next (tget segs at_))
      else None
  end.

Definition tcp_pcb_seg_unlink (w : Work) (pcb seg : Z) : option Work :=
  let t := TCB w pcb in
  let next := s_next (tget (w_seg w) seg) in
  if t_unsent t =? seg then Some (put_tcb w pcb (t <| t_unsent := next |>))
  else
    match unlink_seg (Z.to_nat IDEMIP_TCP_SEGS) (w_seg w) seg (t_unsent t) with
    | Some segs => Some (w <| w_seg := segs |>)
    | None =>
        if t_unacked t =? seg then Some (put_tcb w pcb (t <| t_unacked := next |>))
        else
          match unlink_seg (Z.to_nat IDEMIP_TCP_SEGS) (w_seg w) seg (t_unacked t) with
          | Some segs => Some (w <| w_seg := segs |>)
          | None => None
          end
    end.

Fixpoint unlink_oos (n : nat) (ooss : list TcpPcbOosFields) (oos at_ : Z) : option (list TcpPcbOosFields) :=
  match n with
  | O => None
  | S n' =>
      if at_ <? TCP_PCB_OOSEQ_ENTRIES then
        if o_next (tget ooss at_) =? oos
        then Some (tset ooss at_ ((tget ooss at_) <| o_next := o_next (tget ooss oos) |>))
        else unlink_oos n' ooss oos (o_next (tget ooss at_))
      else None
  end.

Definition tcp_pcb_oos_unlink (w : Work) (pcb oos : Z) : option Work :=
  let t := TCB w pcb in
  if t_ooseq t =? oos then Some (put_tcb w pcb (t <| t_ooseq := o_next (tget (w_oos w) oos) |>))
  else
    match unlink_oos (Z.to_nat TCP_PCB_OOSEQ_ENTRIES) (w_oos w) oos (t_ooseq t) with
    | Some ooss => Some (w <| w_oos := ooss |>)
    | None => None
    end.

(** ** The local port *)
Definition tcp_pcb_port_taken (w : Work) (port except : Z) : bool :=
  existsb (λ i, t_in_use (TCB w i) && negb (i =? except) && (t_local_port (TCB w i) =? port)) (seqZ 0 IDEMIP_TCP_PCBS).

Definition tcp_pcb_port_listening (w : Work) (port : Z) : bool :=
  existsb (λ i, let l := tget (w_listen w) i in l_in_use l && (l_local_port l =? port)) (seqZ 0 IDEMIP_TCP_LISTEN_PCBS).

Fixpoint draw_loop (n : nat) (w : Work) (except at_ : Z) : Z :=
  match n with
  | O => IDEMIP_TCP_PCB_PORT_ANY
  | S n' =>
      let next := u16 (Z.lor IDEMIP_TCP_PCB_PORT_EPH_FIRST (u16 (Z.land (at_ + 1) IDEMIP_TCP_PCB_PORT_EPH_MASK))) in
      if negb (tcp_pcb_port_taken w at_ except) && negb (tcp_pcb_port_listening w at_) then at_
      else draw_loop n' w except next
  end.

Definition tcp_pcb_port_draw (w : Work) (except rand : Z) : Z :=
  draw_loop (Z.to_nat IDEMIP_TCP_PCB_PORT_EPH_COUNT) w except
    (u16 (Z.lor IDEMIP_TCP_PCB_PORT_EPH_FIRST (u16 (Z.land rand IDEMIP_TCP_PCB_PORT_EPH_MASK)))).

(** ** Matching an arriving segment *)
Definition tcp_pcb_tcb_matches (t : TcpPcbTcbFields) (a : TcpPcbFindArgs) (local_ip remote_ip : list Z) (n : Z) : bool :=
  if negb (t_in_use t) || negb (t_version t =? fd_version a) then false
  else if negb (t_local_port t =? fd_local_port a) || negb (t_remote_port t =? fd_remote_port a) then false
  else if negb (t_netif t =? 0) && negb (t_netif t =? fd_netif a) then false
  else if negb (tcp_pcb_addr_eq (t_local_ip t) local_ip n) || negb (tcp_pcb_addr_eq (t_remote_ip t) remote_ip n) then false
  else if (fd_version a =? 6) && (negb (t_local_zone t =? fd_local_zone a) || negb (t_remote_zone t =? fd_remote_zone a)) then false
  else true.

Definition tcp_pcb_listener_matches (l : TcpPcbListenFields) (a : TcpPcbFindArgs) (local_ip : list Z) (n : Z) (wildcard : bool) : bool :=
  if negb (l_in_use l) || negb (l_version l =? fd_version a) || negb (l_local_port l =? fd_local_port a) then false
  else if negb (l_netif l =? 0) && negb (l_netif l =? fd_netif a) then false
  else if wildcard then tcp_pcb_addr_unspecified (l_local_ip l) n
  else if tcp_pcb_addr_unspecified (l_local_ip l) n || negb (tcp_pcb_addr_eq (l_local_ip l) local_ip n) then false
  else if (fd_version a =? 6) && negb (l_local_zone l =? fd_local_zone a) then false
  else true.

(** ** The entries *)
Definition idemip_tcp_pcb_clear (w : Work) : Work :=
  mkWork ((w_io w) <| io_vars := vars_zero |> <| io_ctl := ctl_zero |> <| io_info := info_zero |> <| io_seg := seg_info_zero |>
            <| io_oos := oos_info_zero |> <| io_state := IDEMIP_TCP_STATE_CLOSED |> <| io_index := IDEMIP_TCP_PCB_NONE |>
            <| io_port := IDEMIP_TCP_PCB_PORT_ANY |> <| io_status := IDEMIP_OK |>)
    TCP_PCB_READY (replicate (Z.to_nat IDEMIP_TCP_PCBS) tcb_zero) (replicate (Z.to_nat IDEMIP_TCP_LISTEN_PCBS) listen_zero)
    (replicate (Z.to_nat IDEMIP_TCP_SEGS) seg_zero) (replicate (Z.to_nat TCP_PCB_OOSEQ_ENTRIES) oos_zero).

Definition unready (w : Work) : bool := negb (w_ready w =? TCP_PCB_READY).

(** The record [open] leaves in an entry. *)
Definition open_tcb (ip_version : Z) : TcpPcbTcbFields :=
  tcb_zero <| t_listener := IDEMIP_TCP_PCB_NONE |> <| t_unsent := IDEMIP_TCP_PCB_NONE |> <| t_unacked := IDEMIP_TCP_PCB_NONE |>
    <| t_ooseq := IDEMIP_TCP_PCB_NONE |> <| t_ttl := u8 (cf_ttl c) |>
    <| t_ctl := ctl_zero <| ctl_r2 := u8 (cf_maxrtx c) |> <| ctl_r2_syn := u8 (cf_synmaxrtx c) |> |>
    <| t_version := ip_version |> <| t_state := IDEMIP_TCP_STATE_CLOSED |> <| t_in_use := true |>.

Definition idemip_tcp_pcb_open (w : Work) : Work :=
  let w := set_io w ((w_io w) <| io_status := IDEMIP_ERR |> <| io_index := IDEMIP_TCP_PCB_NONE |>) in
  if unready w then w
  else if tcp_pcb_addr_bytes (open_version (w_io w)) =? 0 then w
  else
    match scan (λ i, negb (t_in_use (TCB w i))) (Z.to_nat IDEMIP_TCP_PCBS) 0 with
    | Some i => report_at (put_tcb w i (open_tcb (open_version (w_io w)))) i
    | None => report w IDEMIP_BUSY
    end.

Definition idemip_tcp_pcb_opt (w : Work) : Work :=
  let w := report w IDEMIP_ERR in
  let a := opt_args (w_io w) in
  if unready w || (IDEMIP_TCP_PCBS <=? opt_index a) then w
  else
    let t := TCB w (opt_index a) in
    if negb (t_in_use t) then w
    else
      report (put_tcb w (opt_index a)
        (t <| t_tos := opt_tos a |> <| t_ttl := opt_ttl a |>
           <| t_ctl := (t_ctl t) <| ctl_r2 := opt_r2 a |> <| ctl_r2_syn := opt_r2_syn a |> |>)) IDEMIP_OK.

Definition idemip_tcp_pcb_close (w : Work) : Work :=
  let w := report w IDEMIP_ERR in
  let i := pcb_index (w_io w) in
  if unready w || (IDEMIP_TCP_PCBS <=? i) then w
  else if negb (t_in_use (TCB w i)) then w
  else if negb (t_ooseq (TCB w i) =? IDEMIP_TCP_PCB_NONE) then report w IDEMIP_BUSY
  else report (put_tcb (tcp_pcb_send_queues_free w i) i tcb_zero) IDEMIP_OK.

Definition idemip_tcp_pcb_bind (w : Work) : Work :=
  let w := set_io w ((w_io w) <| io_status := IDEMIP_ERR |> <| io_port := IDEMIP_TCP_PCB_PORT_ANY |>) in
  let a := bind_args (w_io w) in
  if unready w || (IDEMIP_TCP_PCBS <=? ad_index a) then w
  else
    match ad_ip a with
    | None => w
    | Some ip =>
        let t := TCB w (ad_index a) in
        let n := tcp_pcb_addr_bytes (t_version t) in
        if negb (t_in_use t) || (n =? 0) || negb (tcp_state_eqb (t_state t) IDEMIP_TCP_STATE_CLOSED) then w
        else
          let port := if ad_port a =? IDEMIP_TCP_PCB_PORT_ANY then tcp_pcb_port_draw w (ad_index a) (ad_rand a) else ad_port a in
          if port =? IDEMIP_TCP_PCB_PORT_ANY then report w IDEMIP_BUSY
          else
            let t := t <| t_local_ip := tcp_pcb_addr_set ip n |> <| t_local_port := port |> <| t_local_zone := ad_zone a |>
                       <| t_netif := ad_netif a |> in
            let w := put_tcb w (ad_index a) t in
            set_io w ((w_io w) <| io_port := port |> <| io_status := IDEMIP_OK |>)
    end.

Definition tcp_pcb_remote_invalid (ip_version : Z) (ip : list Z) : bool :=
  if cf_ipv4 c && (ip_version =? 4) then
    match Ip4Addr.idemip_ip4_addr_type (rd32 ip 0) with
    | Ip4Addr.IDEMIP_IP4_TYPE_MULTICAST | Ip4Addr.IDEMIP_IP4_TYPE_BROADCAST | Ip4Addr.IDEMIP_IP4_TYPE_UNSPECIFIED => true
    | _ => false
    end
  else if cf_ipv6 c then
    match Ip6Addr.idemip_ip6_addr_type (cf_bytes c) (cf_big c) ip with
    | Ip6Addr.IDEMIP_IP6_TYPE_MULTICAST | Ip6Addr.IDEMIP_IP6_TYPE_UNSPECIFIED => true
    | _ => false
    end
  else true.

(** Another open connection has the pair of sockets [t] would have with this remote. *)
Definition pair_taken (w : Work) (index : Z) (t : TcpPcbTcbFields) (ip : list Z) (port n : Z) : bool :=
  existsb (λ i,
    let o := TCB w i in
    if negb (t_in_use o) || (i =? index) || negb (t_version o =? t_version t) then false
    else (t_local_port o =? t_local_port t) && (t_remote_port o =? port) && tcp_pcb_addr_eq (t_local_ip o) (t_local_ip t) n &&
         tcp_pcb_addr_eq (t_remote_ip o) ip n) (seqZ 0 IDEMIP_TCP_PCBS).

Definition idemip_tcp_pcb_connect (w : Work) : Work :=
  let w := report w IDEMIP_ERR in
  let a := connect_args (w_io w) in
  if unready w || (IDEMIP_TCP_PCBS <=? ad_index a) then w
  else
    match ad_ip a with
    | None => w
    | Some ip =>
        let t := TCB w (ad_index a) in
        let n := tcp_pcb_addr_bytes (t_version t) in
        if negb (t_in_use t) || (n =? 0) || negb (tcp_state_eqb (t_state t) IDEMIP_TCP_STATE_CLOSED) then w
        else if ad_port a =? IDEMIP_TCP_PCB_PORT_ANY then w
        else if tcp_pcb_remote_invalid (t_version t) ip then w
        else if pair_taken w (ad_index a) t ip (ad_port a) n then report w IDEMIP_BUSY
        else
          report (put_tcb w (ad_index a)
            (t <| t_remote_ip := tcp_pcb_addr_set ip n |> <| t_remote_port := ad_port a |> <| t_remote_zone := ad_zone a |>)) IDEMIP_OK
    end.

Definition info_of (t : TcpPcbTcbFields) : TcpPcbInfo :=
  mkInfo (Some (t_local_ip t)) (Some (t_remote_ip t)) (t_local_port t) (t_remote_port t) (t_listener t) (t_unsent t)
    (t_unacked t) (t_ooseq t) (t_local_zone t) (t_remote_zone t) (t_netif t) (t_tos t) (t_ttl t) (t_version t).

Definition idemip_tcp_pcb_load (w : Work) : Work :=
  let w := set_io w ((w_io w) <| io_status := IDEMIP_ERR |> <| io_vars := vars_zero |> <| io_ctl := ctl_zero |>
                       <| io_info := info_zero |> <| io_state := IDEMIP_TCP_STATE_CLOSED |>) in
  let i := pcb_index (w_io w) in
  if unready w || (IDEMIP_TCP_PCBS <=? i) then w
  else
    let t := TCB w i in
    if negb (t_in_use t) then w
    else
      set_io w ((w_io w) <| io_vars := t_vars t |> <| io_ctl := t_ctl t |> <| io_state := t_state t |> <| io_info := info_of t |>
                  <| io_status := IDEMIP_OK |>).

Definition idemip_tcp_pcb_store (w : Work) : Work :=
  let w := report w IDEMIP_ERR in
  let i := pcb_index (w_io w) in
  if unready w || (IDEMIP_TCP_PCBS <=? i) || past_states (io_state (w_io w)) then w
  else
    let t := TCB w i in
    if negb (t_in_use t) || negb (tcp_pcb_transition_ok (t_state t) (io_state (w_io w))) then w
    else
      report (put_tcb w i (t <| t_vars := io_vars (w_io w) |> <| t_ctl := io_ctl (w_io w) |> <| t_state := io_state (w_io w) |>)) IDEMIP_OK.

Definition tcp_pcb_syn_received_on (w : Work) (listener except : Z) : Z :=
  foldl (λ n i,
    let t := TCB w i in
    if negb (i =? except) && t_in_use t && (t_listener t =? listener) && tcp_state_eqb (t_state t) IDEMIP_TCP_STATE_SYN_RECEIVED
    then u8 (n + 1) else n) 0 (seqZ 0 IDEMIP_TCP_PCBS).

Definition idemip_tcp_pcb_accept (w : Work) : Work :=
  let w := report w IDEMIP_ERR in
  let a := accept_args (w_io w) in
  if unready w || (IDEMIP_TCP_PCBS <=? ac_index a) then w
  else
    let t := TCB w (ac_index a) in
    let take_it := report (put_tcb w (ac_index a) (t <| t_listener := ac_listener a |>)) IDEMIP_OK in
    if negb (t_in_use t) then w
    else if negb (ac_listener a =? IDEMIP_TCP_PCB_NONE) then
      let l := tget (w_listen w) (ac_listener a) in
      if (IDEMIP_TCP_LISTEN_PCBS <=? ac_listener a) || negb (l_in_use l) then w
      else if l_backlog l <=? tcp_pcb_syn_received_on w (ac_listener a) (ac_index a) then report w IDEMIP_BUSY
      else take_it
    else take_it.

Definition idemip_tcp_pcb_listen (w : Work) : Work :=
  let w := set_io w ((w_io w) <| io_status := IDEMIP_ERR |> <| io_index := IDEMIP_TCP_PCB_NONE |>) in
  let a := listen_args (w_io w) in
  if unready w then w
  else
    match ls_ip a with
    | None => w
    | Some ip =>
        let n := tcp_pcb_addr_bytes (ls_version a) in
        if (n =? 0) || (ls_port a =? IDEMIP_TCP_PCB_PORT_ANY) || (ls_backlog a =? 0) then w
        else if existsb (λ i, let l := tget (w_listen w) i in
                  l_in_use l && (l_local_port l =? ls_port a) && (l_version l =? ls_version a) && tcp_pcb_addr_eq (l_local_ip l) ip n)
                  (seqZ 0 IDEMIP_TCP_LISTEN_PCBS)
        then report w IDEMIP_BUSY
        else
          match scan (λ i, negb (l_in_use (tget (w_listen w) i))) (Z.to_nat IDEMIP_TCP_LISTEN_PCBS) 0 with
          | Some i =>
              report_at (w <| w_listen := tset (w_listen w) i
                (mkListen (tcp_pcb_addr_set ip n) (ls_port a) (ls_zone a) (ls_netif a) (ls_backlog a) (ls_version a)
                   IDEMIP_TCP_STATE_LISTEN true) |>) i
          | None => report w IDEMIP_BUSY
          end
    end.

Definition idemip_tcp_pcb_unlisten (w : Work) : Work :=
  let w := report w IDEMIP_ERR in
  let i := pcb_index (w_io w) in
  if unready w || (IDEMIP_TCP_LISTEN_PCBS <=? i) then w
  else if negb (l_in_use (tget (w_listen w) i)) then w
  else report (w <| w_listen := tset (w_listen w) i listen_zero |>) IDEMIP_OK.

Definition idemip_tcp_pcb_find (w : Work) : Work :=
  let w := set_io w ((w_io w) <| io_status := IDEMIP_ERR |> <| io_index := IDEMIP_TCP_PCB_NONE |>) in
  let a := find_args (w_io w) in
  match unready w, fd_local_ip a, fd_remote_ip a with
  | false, Some local_ip, Some remote_ip =>
      let n := tcp_pcb_addr_bytes (fd_version a) in
      if n =? 0 then w
      else
        match scan (λ i, tcp_pcb_tcb_matches (TCB w i) a local_ip remote_ip n) (Z.to_nat IDEMIP_TCP_PCBS) 0 with
        | Some i => report_at w i
        | None => w
        end
  | _, _, _ => w
  end.

Definition idemip_tcp_pcb_find_listener (w : Work) : Work :=
  let w := set_io w ((w_io w) <| io_status := IDEMIP_ERR |> <| io_index := IDEMIP_TCP_PCB_NONE |>) in
  let a := find_args (w_io w) in
  match unready w, fd_local_ip a with
  | false, Some local_ip =>
      let n := tcp_pcb_addr_bytes (fd_version a) in
      if n =? 0 then w
      else
        let pass wildcard := scan (λ i, tcp_pcb_listener_matches (tget (w_listen w) i) a local_ip n wildcard)
                               (Z.to_nat IDEMIP_TCP_LISTEN_PCBS) 0 in
        match pass false with
        | Some i => report_at w i
        | None => match pass true with Some i => report_at w i | None => w end
        end
  | _, _ => w
  end.

(** The last entry of the queue [at_] starts, linked to [i]: [None] is a walk that ran out of entries. *)
Fixpoint append_seg (n : nat) (segs : list TcpPcbSegFields) (at_ i : Z) : option (list TcpPcbSegFields) :=
  match n with
  | O => None
  | S n' =>
      let tail := tget segs at_ in
      if IDEMIP_TCP_SEGS <=? s_next tail then Some (tset segs at_ (tail <| s_next := i |>))
      else append_seg n' segs (s_next tail) i
  end.

(** A free entry filled in and put on the tail of the unsent queue. *)
Definition seg_put (w : Work) (i : Z) : Work :=
  let a := seg_args (w_io w) in
  let t := TCB w (sg_pcb a) in
  let segs := tset (w_seg w) i (mkSeg (sg_data a) (sg_seq a) IDEMIP_TCP_PCB_NONE (sg_pcb a) (sg_len a) (sg_flags a) (sg_opts a) true) in
  let w := w <| w_seg := segs |> in
  if IDEMIP_TCP_SEGS <=? t_unsent t then put_tcb w (sg_pcb a) (t <| t_unsent := i |>)
  else w <| w_seg := default segs (append_seg (Z.to_nat IDEMIP_TCP_SEGS) segs (t_unsent t) i) |>.

Definition idemip_tcp_pcb_seg_alloc (w : Work) : Work :=
  let w := set_io w ((w_io w) <| io_status := IDEMIP_ERR |> <| io_index := IDEMIP_TCP_PCB_NONE |>) in
  let a := seg_args (w_io w) in
  if unready w || (IDEMIP_TCP_PCBS <=? sg_pcb a) then w
  else if negb (t_in_use (TCB w (sg_pcb a))) then w
  else if negb (Bool.eqb (negb (sg_len a =? 0)) (negb (sg_data a =? 0))) then w
  else
    match scan (λ i, negb (s_in_use (tget (w_seg w) i))) (Z.to_nat IDEMIP_TCP_SEGS) 0 with
    | Some i => report_at (seg_put w i) i
    | None => report w IDEMIP_BUSY
    end.

Definition idemip_tcp_pcb_seg_load (w : Work) : Work :=
  let w := set_io w ((w_io w) <| io_status := IDEMIP_ERR |> <| io_seg := seg_info_zero |>) in
  let i := sg_index (seg_args (w_io w)) in
  if unready w || (IDEMIP_TCP_SEGS <=? i) then w
  else
    let s := tget (w_seg w) i in
    if negb (s_in_use s) then w
    else
      set_io w ((w_io w) <| io_seg := mkSegInfo (s_data s) (s_seq s) (s_next s) (s_pcb s) (s_len s) (s_flags s) (s_opts s) |>
                  <| io_status := IDEMIP_OK |>).

Definition idemip_tcp_pcb_seg_sent (w : Work) : Work :=
  let w := report w IDEMIP_ERR in
  let i := sg_index (seg_args (w_io w)) in
  if unready w || (IDEMIP_TCP_SEGS <=? i) then w
  else
    let s := tget (w_seg w) i in
    if negb (s_in_use s) || (IDEMIP_TCP_PCBS <=? s_pcb s) then w
    else
      let t := TCB w (s_pcb s) in
      if negb (t_unsent t =? i) then w
      else
        let t := t <| t_unsent := s_next s |> in
        let w := put_tcb w (s_pcb s) t in
        let w := w <| w_seg := tset (w_seg w) i (s <| s_next := IDEMIP_TCP_PCB_NONE |>) |> in
        if IDEMIP_TCP_SEGS <=? t_unacked t then report (put_tcb w (s_pcb s) (t <| t_unacked := i |>)) IDEMIP_OK
        else
          match append_seg (Z.to_nat IDEMIP_TCP_SEGS) (w_seg w) (t_unacked t) i with
          | Some segs => report (w <| w_seg := segs |>) IDEMIP_OK
          | None => w
          end.

Definition idemip_tcp_pcb_seg_free (w : Work) : Work :=
  let w := report w IDEMIP_ERR in
  let i := sg_index (seg_args (w_io w)) in
  if unready w || (IDEMIP_TCP_SEGS <=? i) then w
  else
    let s := tget (w_seg w) i in
    if negb (s_in_use s) || (IDEMIP_TCP_PCBS <=? s_pcb s) then w
    else
      match tcp_pcb_seg_unlink w (s_pcb s) i with
      | Some w => report (w <| w_seg := tset (w_seg w) i seg_zero |>) IDEMIP_OK
      | None => w
      end.

(** How many entries hang off [at_]. *)
Fixpoint count_oos (n : nat) (ooss : list TcpPcbOosFields) (at_ : Z) : Z :=
  match n with
  | O => 0
  | S n' => if at_ <? TCP_PCB_OOSEQ_ENTRIES then 1 + count_oos n' ooss (o_next (tget ooss at_)) else 0
  end.

(** Where [seq] belongs on the queue [cur] starts: the entry in front and the entry behind. *)
Fixpoint place_oos (n : nat) (ooss : list TcpPcbOosFields) (seq edge prev cur : Z) : Z * Z :=
  match n with
  | O => (prev, cur)
  | S n' =>
      if cur <? TCP_PCB_OOSEQ_ENTRIES then
        if tcp_pcb_seq_from seq edge <? tcp_pcb_seq_from (o_seq (tget ooss cur)) edge then (prev, cur)
        else place_oos n' ooss seq edge cur (o_next (tget ooss cur))
      else (prev, cur)
  end.

(** A free entry filled in and threaded into the hold. *)
Definition oos_put (w : Work) (i : Z) : Work :=
  let a := oos_args (w_io w) in
  let t := TCB w (os_pcb a) in
  let o := mkOos (os_seq a) IDEMIP_TCP_PCB_NONE (os_pcb a) (os_desc a) (os_offset a) (os_len a) true in
  let ooss := tset (w_oos w) i o in
  let '(prev, cur) := place_oos (Z.to_nat TCP_PCB_OOSEQ_ENTRIES) ooss (os_seq a) (rcv_nxt (t_vars t)) IDEMIP_TCP_PCB_NONE (t_ooseq t) in
  let ooss := tset ooss i (o <| o_next := cur |>) in
  if TCP_PCB_OOSEQ_ENTRIES <=? prev then put_tcb (w <| w_oos := ooss |>) (os_pcb a) (t <| t_ooseq := i |>)
  else w <| w_oos := tset ooss prev ((tget ooss prev) <| o_next := i |>) |>.

Definition idemip_tcp_pcb_oos_alloc (w : Work) : Work :=
  let w := set_io w ((w_io w) <| io_status := IDEMIP_ERR |> <| io_index := IDEMIP_TCP_PCB_NONE |>) in
  let a := oos_args (w_io w) in
  if unready w || (IDEMIP_TCP_PCBS <=? os_pcb a) then w
  else
    let t := TCB w (os_pcb a) in
    if negb (t_in_use t) || (os_len a =? 0) then w
    else if cf_ooseq_segs c <=? count_oos (Z.to_nat TCP_PCB_OOSEQ_ENTRIES) (w_oos w) (t_ooseq t) then report w IDEMIP_BUSY
    else
      match scan (λ i, negb (o_in_use (tget (w_oos w) i))) (Z.to_nat TCP_PCB_OOSEQ_ENTRIES) 0 with
      | Some i => report_at (oos_put w i) i
      | None => report w IDEMIP_BUSY
      end.

Definition idemip_tcp_pcb_oos_load (w : Work) : Work :=
  let w := set_io w ((w_io w) <| io_status := IDEMIP_ERR |> <| io_oos := oos_info_zero |>) in
  let i := os_index (oos_args (w_io w)) in
  if unready w || (TCP_PCB_OOSEQ_ENTRIES <=? i) then w
  else
    let o := tget (w_oos w) i in
    if negb (o_in_use o) then w
    else
      set_io w ((w_io w) <| io_oos := mkOosInfo (o_seq o) (o_next o) (o_pcb o) (o_desc o) (o_offset o) (o_len o) |>
                  <| io_status := IDEMIP_OK |>).

Definition idemip_tcp_pcb_oos_free (w : Work) : Work :=
  let w := report w IDEMIP_ERR in
  let i := os_index (oos_args (w_io w)) in
  if unready w || (TCP_PCB_OOSEQ_ENTRIES <=? i) then w
  else
    let o := tget (w_oos w) i in
    if negb (o_in_use o) || (IDEMIP_TCP_PCBS <=? o_pcb o) then w
    else
      match tcp_pcb_oos_unlink w (o_pcb o) i with
      | Some w => report (w <| w_oos := tset (w_oos w) i oos_zero |>) IDEMIP_OK
      | None => w
      end.
End Unit.
End TcpPcb.
