(* ===== verification/Threaded.v ===== *)
(** * Queues that share a table

    [n] queues are threaded through one table: queue [q] starts at row [head q], each row names the row
    behind it, and a row in use is on exactly one queue.  What splicing a row in or out, and emptying a
    queue, does to the queues as lists. *)
From stdpp Require Import functions.
From S2P Require Import Prelude Chain.

Section Threaded.
Context {A : Type} `{Inhabited A}.
Variable none : Z.
Variables (next : A → Z) (busy : A → bool) (n : Z).
Implicit Types (t : list A) (head : Z → Z) (live : Z → bool) (r : Z → list Z).

Definition links t (k : Z) : Z := next (tget t k).
Definition marks t (k : Z) : bool := busy (tget t k).

(** A queue that is not live is empty and its head is not read. *)
Definition threaded t head live r : Prop :=
  owner (tlen t) (marks t) (owned n r) ∧
  ∀ q, 0 ≤ q < n → if live q then chain none (links t) (head q) (r q) else r q = [].

Lemma threaded_row t head live r q k : threaded t head live r → 0 ≤ q < n → k ∈ r q → 0 ≤ k < tlen t ∧ marks t k = true.
Proof. intros [Ho _] Hq Hk. apply (owner_list busy n t r q k Ho Hq Hk). Qed.

Lemma threaded_live t head live r q : threaded t head live r → 0 ≤ q < n → r q ≠ [] → live q = true.
Proof. intros [_ Hc] Hq Hne. specialize (Hc q Hq). destruct (live q); done. Qed.

Lemma threaded_disjoint t head live r q q' k : threaded t head live r → 0 ≤ q < n → 0 ≤ q' < n → k ∈ r q → k ∈ r q' → q = q'.
Proof.
  intros [[Hnd _] _] Hq Hq' Hk Hk'. destruct (decide (q = q')) as [|Hne]; [done|exfalso].
  rewrite (owned_split n r q Hq) in Hnd. apply NoDup_app in Hnd as (_ & Hd & _). apply (Hd k Hk), elem_owned. exists q'.
  split; [done|]. by rewrite fn_lookup_insert_ne.
Qed.

(** A row in use is on a queue. *)
Lemma threaded_on t head live r k : threaded t head live r → 0 ≤ k < tlen t → marks t k = true → ∃ q, 0 ≤ q < n ∧ k ∈ r q.
Proof. intros [[_ Ho] _] Hk Hm. by apply elem_owned, Ho. Qed.

Lemma threaded_NoDup t head live r q : threaded t head live r → 0 ≤ q < n → NoDup (r q).
Proof.
  intros [Ho Hc] Hq. specialize (Hc q Hq). destruct (live q); [by eapply chain_NoDup|]. rewrite Hc. constructor.
Qed.

Lemma threaded_length t head live r q : threaded t head live r → 0 ≤ q < n → Z.of_nat (length (r q)) ≤ tlen t.
Proof.
  intros HT Hq. apply NoDup_range_length; [unfold tlen; lia|by eapply threaded_NoDup|]. apply Forall_forall. intros k Hk.
  by eapply threaded_row.
Qed.

(** Which rows a queue names may not change; where its head is kept and whether it is live may. *)
Lemma threaded_heads t head head' live live' r : threaded t head live r →
  (∀ q, 0 ≤ q < n → if live' q then (live q = true ∧ head' q = head q) ∨ (r q = [] ∧ head' q = none) else r q = []) →
  threaded t head' live' r.
Proof.
  intros [Ho Hc] Hh. split; [done|]. intros q Hq. specialize (Hc q Hq). specialize (Hh q Hq). destruct (live' q); [|done].
  destruct Hh as [[El ->]|[-> ->]]; [by rewrite El in Hc|done].
Qed.

(** The other queues keep their chains when the rows they name keep their links. *)
Lemma threaded_update t t' head head' live live' r q l :
  threaded t head live r → 0 ≤ q < n → owner (tlen t') (marks t') (owned n (<[q := l]> r)) →
  live' q = true → chain none (links t') (head' q) l →
  (∀ q' k, 0 ≤ q' < n → q' ≠ q → k ∈ r q' → links t' k = links t k) →
  (∀ q', 0 ≤ q' < n → q' ≠ q → live' q' = live q' ∧ head' q' = head q') →
  threaded t' head' live' (<[q := l]> r).
Proof.
  intros [_ Hc] Hq Ho Hl Hch Hk Hh. split; [done|]. intros q' Hq'. destruct (decide (q' = q)) as [->|Hne].
  - rewrite fn_lookup_insert, Hl. done.
  - rewrite fn_lookup_insert_ne by done. destruct (Hh q' Hq' Hne) as [-> ->]. specialize (Hc q' Hq'). destruct (live q'); [|done].
    eapply chain_ext; [|exact Hc]. intros k Hkr. symmetry. by apply (Hk q').
Qed.

(** A free row goes between [l1] and [l2] of queue [q]. *)
Lemma threaded_insert t t' head head' live live' r q l1 l2 i :
  threaded t head live r → 0 ≤ q < n → live q = true → r q = l1 ++ l2 →
  0 ≤ i < tlen t → i ≠ none → marks t i = false → tlen t' = tlen t → marks t' i = true → links t' i = first_of none l2 →
  (∀ k, 0 ≤ k → k ≠ i → marks t' k = marks t k ∧ links t' k = if decide (last l1 = Some k) then i else links t k) →
  (∀ q', 0 ≤ q' < n → live' q' = live q' ∧ head' q' = if decide (q' = q) then match l1 with [] => i | _ => head q end else head q') →
  threaded t' head' live' (<[q := l1 ++ i :: l2]> r).
Proof.
  intros HT Hq Hlive Hr Hi Hin Hmi Hlen Hmi' Hnx Hoth Hh. pose proof HT as [Ho Hc].
  assert (∀ q' k, 0 ≤ q' < n → k ∈ r q' → k ≠ i) as Hni.
  { intros q' k Hq' Hk ->. destruct (threaded_row t head live r q' i HT Hq' Hk). congruence. }
  assert (∀ k, k ∈ l1 ++ l2 → 0 ≤ k < tlen t ∧ k ≠ i) as Hrow.
  { intros k Hk. rewrite <- Hr in Hk. split; [by eapply threaded_row|by eapply Hni]. }
  eapply threaded_update; [exact HT|done|..].
  - assert (NoDup (l1 ++ i :: l2)) as Hnd.
    { pose proof (threaded_NoDup t head live r q HT Hq) as Hnd. rewrite Hr in Hnd. rewrite <- Permutation_middle. constructor; [|done].
      intros Hk. by destruct (Hrow i Hk). }
    rewrite Hlen. eapply (owner_update n (tlen t) r q (marks t) (marks t') (i :: r q)); [done|exact Ho|done|set_solver| | | |].
    + rewrite Hr. set_solver.
    + intros k [->|Hk]%elem_of_cons; [auto|]. rewrite Hr in Hk. split; [by apply Hrow|left; by rewrite Hr].
    + intros k [->|Hk]%elem_of_cons; [set_solver|]. assert (marks t k = true) as Hmk by (eapply threaded_row; [exact HT|done..]).
      rewrite Hr in Hk. destruct (Hoth k) as [-> _]; [apply Hrow in Hk; lia|by apply Hrow|]. set_solver.
    + intros k Hk0 Hk. apply Hoth; [done|set_solver].
  - rewrite (proj1 (Hh q Hq)). done.
  - specialize (Hc q Hq). rewrite Hlive, Hr in Hc. rewrite (proj2 (Hh q Hq)), decide_True by done.
    eapply chain_insert; [exact Hc|done|done|]. intros j Hj. destruct (Hrow j Hj). by apply Hoth; [lia|].
  - intros q' k Hq' Hne Hk. pose proof (Hni q' k Hq' Hk) as Hki. destruct (threaded_row t head live r q' k HT Hq' Hk).
    rewrite (proj2 (Hoth k ltac:(lia) Hki)). rewrite decide_False; [done|]. intros [l' El]%last_Some.
    apply Hne. eapply threaded_disjoint; [exact HT|done|done|exact Hk|]. rewrite Hr, El. set_solver.
  - intros q' Hq' Hne. destruct (Hh q' Hq') as [-> ->]. by rewrite decide_False.
Qed.

(** Row [i] leaves queue [q] and is free. *)
Lemma threaded_remove t t' head head' live live' r q l1 l2 i :
  threaded t head live r → 0 ≤ q < n → r q = l1 ++ i :: l2 → tlen t' = tlen t → marks t' i = false →
  (∀ k, 0 ≤ k → k ≠ i → marks t' k = marks t k ∧ links t' k = if decide (last l1 = Some k) then links t i else links t k) →
  (∀ q', 0 ≤ q' < n → live' q' = live q' ∧ head' q' = if decide (q' = q) then match l1 with [] => links t i | _ => head q end else head q') →
  threaded t' head' live' (<[q := l1 ++ l2]> r).
Proof.
  intros HT Hq Hr Hlen Hmi' Hoth Hh. pose proof HT as [Ho Hc].
  assert (live q = true) as Hlive by (eapply threaded_live; [exact HT|done|]; rewrite Hr; by destruct l1).
  pose proof (threaded_NoDup t head live r q HT Hq) as Hnd. rewrite Hr in Hnd.
  assert (i ∉ l1 ++ l2) as Hni by (rewrite <- Permutation_middle in Hnd; by apply NoDup_cons in Hnd as [? _]).
  assert (∀ k, k ∈ r q → 0 ≤ k < tlen t) as Hrow by (intros k Hk; by eapply threaded_row).
  assert (∀ k, k ∈ l1 ++ l2 → k ∈ r q ∧ k ≠ i) as Hsub by (intros k Hk; rewrite Hr; set_solver).
  eapply threaded_update; [exact HT|done|..].
  - rewrite Hlen. eapply (owner_update n (tlen t) r q (marks t) (marks t') (r q)); [done|exact Ho| |done| | | |].
    + rewrite <- Permutation_middle in Hnd. by apply NoDup_cons in Hnd as [_ ?].
    + intros k Hk. by apply Hsub.
    + intros k Hk. split; [by apply Hrow|by left].
    + intros k Hk. assert (marks t k = true) as Hmk by (eapply threaded_row; [exact HT|done..]). destruct (decide (k = i)) as [->|Hne].
      * rewrite Hmi'. split; [set_solver|done].
      * rewrite (proj1 (Hoth k ltac:(apply Hrow in Hk; lia) Hne)), Hmk. rewrite Hr in Hk. set_solver.
    + intros k Hk0 Hk. apply Hoth; [done|]. intros ->. apply Hk. rewrite Hr. set_solver.
  - rewrite (proj1 (Hh q Hq)). done.
  - specialize (Hc q Hq). rewrite Hlive, Hr in Hc. rewrite (proj2 (Hh q Hq)), decide_True by done.
    eapply chain_remove; [exact Hc|]. intros j Hj. destruct (Hsub j Hj) as [Hjr Hji]. apply Hoth; [apply Hrow in Hjr; lia|done].
  - intros q' k Hq' Hne Hk. assert (k ∉ r q) as Hkq by (intros Hkq; apply Hne; by eapply threaded_disjoint).
    destruct (threaded_row t head live r q' k HT Hq' Hk). rewrite (proj2 (Hoth k ltac:(lia) ltac:(intros ->; apply Hkq; rewrite Hr; set_solver))).
    rewrite decide_False; [done|]. intros [l' El]%last_Some. apply Hkq. rewrite Hr, El. set_solver.
  - intros q' Hq' Hne. destruct (Hh q' Hq') as [-> ->]. by rewrite decide_False.
Qed.

(** Every row of queue [q] is freed. *)
Lemma threaded_drain t t' head head' live live' r q :
  threaded t head live r → 0 ≤ q < n → tlen t' = tlen t →
  (∀ k, 0 ≤ k → if decide (k ∈ r q) then marks t' k = false else marks t' k = marks t k ∧ links t' k = links t k) →
  live' q = true → head' q = none → (∀ q', 0 ≤ q' < n → q' ≠ q → live' q' = live q' ∧ head' q' = head q') →
  threaded t' head' live' (<[q := []]> r).
Proof.
  intros HT Hq Hlen Hk Hl Hh Hoth. pose proof HT as [Ho _].
  assert (∀ k, k ∈ r q → 0 ≤ k < tlen t) as Hrow by (intros k Hkr; by eapply threaded_row).
  eapply threaded_update; [exact HT|done|..].
  - rewrite Hlen. eapply (owner_update n (tlen t) r q (marks t) (marks t') (r q)); [done|exact Ho|constructor|done|set_solver| | |].
    + intros k Hkr. split; [by apply Hrow|by left].
    + intros k Hkr. specialize (Hk k ltac:(apply Hrow in Hkr; lia)). rewrite decide_True in Hk by done. rewrite Hk. set_solver.
    + intros k Hk0 Hkr. specialize (Hk k Hk0). rewrite decide_False in Hk by done. by destruct Hk.
  - done.
  - by rewrite Hh.
  - intros q' k Hq' Hne Hkr. destruct (threaded_row t head live r q' k HT Hq' Hkr). specialize (Hk k ltac:(lia)).
    rewrite decide_False in Hk; [by destruct Hk|]. intros Hkq. apply Hne. by eapply threaded_disjoint.
  - done.
Qed.

(** ** Reading a queue back as a list *)
Fixpoint follow (m : nat) (nx : Z → Z) (len h : Z) : list Z :=
  match m with
  | O => []
  | S m' => if h <? len then h :: follow m' nx len (nx h) else []
  end.

Lemma chain_follow m nx len h l : chain none nx h l → len ≤ none → (∀ k, k ∈ l → 0 ≤ k < len) → (length l ≤ m)%nat → follow m nx len h = l.
Proof.
  intros Hc Hlen. revert h l Hc; induction m as [|m IH]; intros h [|i l] Hc Hr Hm; simpl in Hm |- *; [done|lia|..].
  - assert (h = none) as -> by exact Hc. by rewrite (proj2 (Z.ltb_ge none len)).
  - destruct Hc as (-> & _ & Hc). rewrite (proj2 (Z.ltb_lt i len)) by (apply Hr; left). f_equal. apply IH; [done| |lia]. intros; apply Hr; by right.
Qed.

Lemma threaded_read t head live r q : threaded t head live r → 0 ≤ q < n → tlen t ≤ none →
  (if live q then follow (Z.to_nat (tlen t)) (links t) (tlen t) (head q) else []) = r q.
Proof.
  intros HT Hq Hlen. pose proof (threaded_length t head live r q HT Hq) as Hl. pose proof HT as [_ Hc]. specialize (Hc q Hq).
  destruct (live q); [|done]. apply chain_follow; [done|done| |lia]. intros k Hk. by eapply threaded_row.
Qed.
End Threaded.
