(* ===== verification/TcpPcbRep.v ===== *)
(** * The loops over the connection table's queues

    What the walks of src/tcp/tcp_pcb.c compute on a queue that is a proper list: each ends inside its
    bound, frees exactly the rows of the list, stops on the row in front of the one it looks for, or on
    the last one. *)
From stdpp Require Import functions.
From S2P Require Import Prelude Chain TcpTypes TcpPcb Threaded.

Module TcpPcbQueue.
Import TcpPcb.

Local Abbreviation NONE := IDEMIP_TCP_PCB_NONE.

(** Every row of [l] is a row of a table of [len], which does not reach the terminator. *)
Definition rows (len : Z) (l : list Z) : Prop := len ≤ NONE ∧ ∀ k, k ∈ l → 0 ≤ k < len.

Lemma rows_cons len i l : rows len (i :: l) → 0 ≤ i < len ∧ rows len l.
Proof. intros [? H]. split; [apply H; left|]. split; [done|]. intros; apply H; by right. Qed.

Lemma chain_end_high len nx h : rows len [] → chain NONE nx h [] → (h <? len) = false.
Proof. intros [? _] ->. apply Z.ltb_ge. lia. Qed.

Lemma chain_row len nx h i l :
  rows len (i :: l) → chain NONE nx h (i :: l) → h = i ∧ (i <? len) = true ∧ rows len l ∧ chain NONE nx (nx i) l.
Proof. intros [Hi Hr]%rows_cons (-> & _ & Hc). split_and!; [done|apply Z.ltb_lt; lia|done|done]. Qed.

(** ** The row in front of another *)

(** The walk both unlinks share, as the row it stops on. *)
Fixpoint before_row (n : nat) (nx : Z → Z) (len i at_ : Z) : option Z :=
  match n with
  | O => None
  | S n' => if at_ <? len then if nx at_ =? i then Some at_ else before_row n' nx len i (nx at_) else None
  end.

Lemma unlink_seg_row c n segs i h :
  unlink_seg c n segs i h =
  (λ p, tset segs p ((tget segs p) <| s_next := s_next (tget segs i) |>)) <$> before_row n (links s_next segs) (cf_segs c) i h.
Proof.
  revert h; induction n as [|n IH]; intros h; simpl; [done|]. unfold links at 1 2. rewrite IH.
  destruct (h <? cf_segs c); [|done]. by destruct (s_next (tget segs h) =? i).
Qed.

Lemma unlink_oos_row c n ooss i h :
  unlink_oos c n ooss i h =
  (λ p, tset ooss p ((tget ooss p) <| o_next := o_next (tget ooss i) |>)) <$>
    before_row n (links o_next ooss) (TCP_PCB_OOSEQ_ENTRIES c) i h.
Proof.
  revert h; induction n as [|n IH]; intros h; simpl; [done|]. unfold links at 1 2. rewrite IH.
  destruct (h <? TCP_PCB_OOSEQ_ENTRIES c); [|done]. by destruct (o_next (tget ooss h) =? i).
Qed.

Lemma before_row_found n nx len h l1 i l2 :
  chain NONE nx h (l1 ++ i :: l2) → rows len (l1 ++ i :: l2) → l1 ≠ [] → (length l1 ≤ n)%nat →
  ∃ p, before_row n nx len i h = Some p ∧ last l1 = Some p.
Proof.
  revert h l1; induction n as [|n IH]; intros h [|a l1] Hc Hr Hne Hn; simpl in Hn |- *; [done|lia|done|].
  pose proof (chain_NoDup _ _ _ _ Hc) as Hnd. simpl in Hnd. apply NoDup_cons in Hnd as [Ha Hnd].
  destruct (chain_row _ _ _ _ _ Hr Hc) as (-> & -> & Hr' & Hc'). destruct l1 as [|b l1].
  - destruct (chain_row _ _ _ _ _ Hr' Hc') as (-> & _). rewrite Z.eqb_refl. by exists a.
  - rewrite last_cons_cons. destruct (chain_row _ _ _ _ _ Hr' Hc') as (Hb & _).
    rewrite (proj2 (Z.eqb_neq _ _)); [apply IH; [done..|simpl in *; lia]|].
    rewrite Hb. intros ->. simpl in Hnd. apply NoDup_cons in Hnd as [Hnd _]. set_solver.
Qed.

Lemma before_row_absent n nx len h l i : chain NONE nx h l → rows len l → i ∉ l → 0 ≤ i < len → before_row n nx len i h = None.
Proof.
  revert h l; induction n as [|n IH]; intros h l Hc Hr Hi Hlen; simpl; [done|]. destruct l as [|a l].
  - by rewrite (chain_end_high len nx h).
  - destruct (chain_row _ _ _ _ _ Hr Hc) as (-> & -> & Hr' & Hc'). rewrite (proj2 (Z.eqb_neq _ _)); [apply (IH _ l); set_solver|].
    destruct l as [|b l]; [rewrite Hc'; destruct Hr; lia|]. destruct (chain_row _ _ _ _ _ Hr' Hc') as (-> & _). set_solver.
Qed.

(** ** The other walks *)
Lemma append_seg_spec c n segs h l i :
  chain NONE (links s_next segs) h l → rows (cf_segs c) l → l ≠ [] → (length l ≤ n)%nat →
  ∃ p, append_seg c n segs h i = Some (tset segs p ((tget segs p) <| s_next := i |>)) ∧ last l = Some p.
Proof.
  revert h l; induction n as [|n IH]; intros h [|a l] Hc Hr Hne Hn; simpl in Hn |- *; [done|lia|done|].
  destruct (chain_row _ _ _ _ _ Hr Hc) as (-> & _ & Hr' & Hc'). change (s_next (tget segs a)) with (links s_next segs a). destruct l as [|b l].
  - unfold chain, seg in Hc'. rewrite Hc', (proj2 (Z.leb_le _ _)) by apply Hr. by exists a.
  - rewrite last_cons_cons. pose proof Hc' as (Hb & _). rewrite Hb in *. destruct (rows_cons _ _ _ Hr') as [Hrb _].
    rewrite (proj2 (Z.leb_gt _ _)) by lia. apply IH; [done..|simpl in *; lia].
Qed.

Lemma free_queue_spec c n segs h l :
  chain NONE (links s_next segs) h l → rows (cf_segs c) l → tlen segs = cf_segs c → (length l ≤ n)%nat →
  tlen (free_queue c n segs h) = tlen segs ∧
  ∀ k, 0 ≤ k → tget (free_queue c n segs h) k = if decide (k ∈ l) then seg_zero else tget segs k.
Proof.
  revert segs h l; induction n as [|n IH]; intros segs h [|a l] Hc Hr Hlen Hn; simpl in Hn |- *; [done|lia|..].
  - by rewrite (chain_end_high (cf_segs c) (links s_next segs) h).
  - pose proof (chain_NoDup _ _ _ _ Hc) as Hnd. apply NoDup_cons in Hnd as [Ha _].
    destruct (rows_cons _ _ _ Hr) as [Hra _]. destruct (chain_row _ _ _ _ _ Hr Hc) as (-> & -> & Hr' & Hc').
    change (s_next (tget segs a)) with (links s_next segs a).
    assert (chain NONE (links s_next (tset segs a seg_zero)) (links s_next segs a) l) as Hc''.
    { eapply chain_ext; [|exact Hc']. intros i Hi. unfold links. rewrite tget_tset_ne; [done|lia| |set_solver].
      destruct Hr' as [_ Hr']. apply Hr' in Hi. lia. }
    destruct (IH _ _ _ Hc'' Hr') as [Hl Hg]; [by rewrite tlen_tset|lia|]. rewrite Hl, tlen_tset. split; [done|].
    intros k Hk. rewrite Hg by done. destruct (decide (k ∈ l)) as [Hkl|Hkl]; [by rewrite decide_True by (by right)|].
    destruct (decide (k = a)) as [->|Hne]; [by rewrite decide_True, tget_tset_eq by (by left || lia)|].
    rewrite decide_False, tget_tset_ne by (set_solver || lia). done.
Qed.

Lemma count_oos_spec c n ooss h l :
  chain NONE (links o_next ooss) h l → rows (TCP_PCB_OOSEQ_ENTRIES c) l → (length l ≤ n)%nat →
  count_oos c n ooss h = Z.of_nat (length l).
Proof.
  revert h l; induction n as [|n IH]; intros h [|a l] Hc Hr Hn; simpl in Hn |- *; [done|lia|..].
  - by rewrite (chain_end_high _ (links o_next ooss) h).
  - destruct (chain_row _ _ _ _ _ Hr Hc) as (-> & -> & Hr' & Hc'). unfold links in Hc'. rewrite (IH _ l) by (done || lia). lia.
Qed.

(** Where the hold's order puts [seq]: behind the entries at or before it, from [edge] on. *)
Lemma place_oos_spec c n ooss seq edge prev h l :
  chain NONE (links o_next ooss) h l → rows (TCP_PCB_OOSEQ_ENTRIES c) l → (length l ≤ n)%nat →
  let ahead k := tcp_pcb_seq_from seq edge <? tcp_pcb_seq_from (o_seq (tget ooss k)) edge in
  ∃ l1 l2, l = l1 ++ l2 ∧ place_oos c n ooss seq edge prev h = (last_of prev l1, first_of NONE l2) ∧
    Forall (λ k, ahead k = false) l1 ∧ (∀ k l2', l2 = k :: l2' → ahead k = true).
Proof.
  intros Hc Hr Hn ahead. revert prev h l Hc Hr Hn; induction n as [|n IH]; intros prev h [|a l] Hc Hr Hn; simpl in Hn |- *; [| lia|..].
  - exists [], []. by rewrite Hc.
  - exists [], []. by rewrite (chain_end_high _ (links o_next ooss) h), Hc.
  - destruct (chain_row _ _ _ _ _ Hr Hc) as (-> & -> & Hr' & Hc'). fold (ahead a). destruct (ahead a) eqn:Ea.
    + exists [], (a :: l). split_and!; [done..|]. naive_solver.
    + destruct (IH a _ _ Hc' Hr') as (l1 & l2 & -> & Hp & Hall & Hst); [lia|]. exists (a :: l1), l2.
      rewrite last_of_cons. split_and!; [done|exact Hp|by constructor|done].
Qed.
End TcpPcbQueue.

(** * The queues of the connection table, as lists

    The calls of src/tcp/tcp_pcb.c as one step function, the lists its links spell, and what each call
    promises about them.  The send queues are numbered two to a connection: [2 * p] is the unsent queue of
    connection [p] and [2 * p + 1] its retransmission queue. *)
Module TcpPcbRep.
Import TcpPcb TcpPcbQueue.

Local Abbreviation NONE := IDEMIP_TCP_PCB_NONE.

(** What the static assertions of tcp_pcb.c require of a configuration. *)
Definition config_ok (c : config) : Prop :=
  0 ≤ cf_pcbs c < NONE ∧ 0 ≤ cf_listen_pcbs c < NONE ∧ 0 ≤ cf_segs c < NONE ∧ 0 ≤ cf_ooseq_segs c ∧
  TCP_PCB_OOSEQ_ENTRIES c < NONE.
#[export] Instance config_ok_dec c : Decision (config_ok c) := _.

(** ** The entries as one step *)
Inductive pcb_op : Type :=
  | PClear | POpen | POpt | PClose | PBind | PConnect | PLoad | PStore | PAccept | PListen | PUnlisten | PFind | PFindListener
  | PSegAlloc | PSegLoad | PSegSent | PSegFree | POosAlloc | POosLoad | POosFree.

Definition step (c : config) (o : pcb_op) : Work → Work :=
  match o with
  | PClear => idemip_tcp_pcb_clear c
  | POpen => idemip_tcp_pcb_open c
  | POpt => idemip_tcp_pcb_opt c
  | PClose => idemip_tcp_pcb_close c
  | PBind => idemip_tcp_pcb_bind c
  | PConnect => idemip_tcp_pcb_connect c
  | PLoad => idemip_tcp_pcb_load c
  | PStore => idemip_tcp_pcb_store c
  | PAccept => idemip_tcp_pcb_accept c
  | PListen => idemip_tcp_pcb_listen c
  | PUnlisten => idemip_tcp_pcb_unlisten c
  | PFind => idemip_tcp_pcb_find c
  | PFindListener => idemip_tcp_pcb_find_listener c
  | PSegAlloc => idemip_tcp_pcb_seg_alloc c
  | PSegLoad => idemip_tcp_pcb_seg_load c
  | PSegSent => idemip_tcp_pcb_seg_sent c
  | PSegFree => idemip_tcp_pcb_seg_free c
  | POosAlloc => idemip_tcp_pcb_oos_alloc c
  | POosLoad => idemip_tcp_pcb_oos_load c
  | POosFree => idemip_tcp_pcb_oos_free c
  end.

(** The indices a caller writes in its operands are unsigned. *)
Definition io_ok (io : TcpPcbIo) : Prop :=
  0 ≤ pcb_index io ∧ 0 ≤ opt_index (opt_args io) ∧ 0 ≤ ad_index (bind_args io) ∧ 0 ≤ ad_index (connect_args io) ∧
  0 ≤ ac_index (accept_args io) ∧ 0 ≤ sg_pcb (seg_args io) ∧ 0 ≤ sg_index (seg_args io) ∧ 0 ≤ os_pcb (oos_args io) ∧
  0 ≤ os_index (oos_args io).
#[export] Instance io_ok_dec io : Decision (io_ok io) := _.

(** A caller writes its operand block and calls an entry; a run is calls in sequence. *)
Definition call (c : config) (w : Work) (x : pcb_op * TcpPcbIo) : Work := step c x.1 (set_io w x.2).
Definition run (c : config) (w : Work) (l : list (pcb_op * TcpPcbIo)) : Work := foldl (call c) (idemip_tcp_pcb_clear c w) l.

Section Views.
Variable c : config.
Implicit Types (w : Work) (q p k : Z).

Definition seg_head w q : Z := if Z.even q then t_unsent (TCB w (q / 2)) else t_unacked (TCB w (q / 2)).
Definition seg_live w q : bool := t_in_use (TCB w (q / 2)).
Definition seg_queue w q : list Z :=
  if seg_live w q then follow (Z.to_nat (cf_segs c)) (links s_next (w_seg w)) (cf_segs c) (seg_head w q) else [].
Definition oos_head w p : Z := t_ooseq (TCB w p).
Definition oos_live w p : bool := t_in_use (TCB w p).
Definition oos_queue w p : list Z :=
  if oos_live w p
  then follow (Z.to_nat (TCP_PCB_OOSEQ_ENTRIES c)) (links o_next (w_oos w)) (TCP_PCB_OOSEQ_ENTRIES c) (oos_head w p) else [].

(** A queue's entries: the slot and what it holds, its link aside. *)
Definition seg_entry w k : Z * TcpPcbSegFields := (k, (tget (w_seg w) k) <| s_next := 0 |>).
Definition oos_entry w k : Z * TcpPcbOosFields := (k, (tget (w_oos w) k) <| o_next := 0 |>).
Definition sends w q : list (Z * TcpPcbSegFields) := seg_entry w <$> seg_queue w q.
Definition holds w p : list (Z * TcpPcbOosFields) := oos_entry w <$> oos_queue w p.

(** Whether a slot is on some queue. *)
Definition queued w k : bool := existsb (λ q, bool_decide (k ∈ seg_queue w q)) (seqZ 0 (2 * cf_pcbs c)).
Definition pinned w k : bool := existsb (λ p, bool_decide (k ∈ oos_queue w p)) (seqZ 0 (cf_pcbs c)).

(** No slot is on two queues, nor twice on one. *)
Definition distinct w : Prop :=
  NoDup (owned (2 * cf_pcbs c) (seg_queue w)) ∧ NoDup (owned (cf_pcbs c) (oos_queue w)).

(** ** What each call promises *)
Definition seg_of (a : TcpPcbSegArgs) : TcpPcbSegFields :=
  mkSeg (sg_data a) (sg_seq a) 0 (sg_pcb a) (sg_len a) (sg_flags a) (sg_opts a) true.
Definition oos_of (a : TcpPcbOosArgs) : TcpPcbOosFields :=
  mkOos (os_seq a) 0 (os_pcb a) (os_desc a) (os_offset a) (os_len a) true.

Definition open_at w p : bool := (p <? cf_pcbs c) && t_in_use (TCB w p).
Definition can_queue w : bool :=
  let a := seg_args (w_io w) in open_at w (sg_pcb a) && Bool.eqb (negb (sg_len a =? 0)) (negb (sg_data a =? 0)).

Definition sends_keep w w' : Prop := ∀ q, 0 ≤ q < 2 * cf_pcbs c → sends w' q = sends w q.
Definition holds_keep w w' : Prop := ∀ p, 0 ≤ p < cf_pcbs c → holds w' p = holds w p.

Definition alloc_effect w w' : Prop :=
  let a := seg_args (w_io w) in
  if can_queue w then
    match scan (λ k, negb (queued w k)) (Z.to_nat (cf_segs c)) 0 with
    | Some k =>
        io_status (w_io w') = IDEMIP_OK ∧ io_index (w_io w') = k ∧
        ∀ q, 0 ≤ q < 2 * cf_pcbs c → sends w' q = if q =? 2 * sg_pcb a then sends w q ++ [(k, seg_of a)] else sends w q
    | None => io_status (w_io w') = IDEMIP_BUSY ∧ sends_keep w w'
    end
  else io_status (w_io w') = IDEMIP_ERR ∧ sends_keep w w'.

Definition sent_effect w w' : Prop :=
  let k := sg_index (seg_args (w_io w)) in
  (∃ p s l, 0 ≤ p < cf_pcbs c ∧ sends w (2 * p) = (k, s) :: l ∧ io_status (w_io w') = IDEMIP_OK ∧
     ∀ q, 0 ≤ q < 2 * cf_pcbs c → sends w' q = if q =? 2 * p then l else if q =? 2 * p + 1 then sends w q ++ [(k, s)] else sends w q) ∨
  ((∀ p e l, 0 ≤ p < cf_pcbs c → sends w (2 * p) = e :: l → e.1 ≠ k) ∧ io_status (w_io w') = IDEMIP_ERR ∧ sends_keep w w').

Definition seg_load_effect w w' : Prop :=
  let k := sg_index (seg_args (w_io w)) in
  sends_keep w w' ∧ io_status (w_io w') = (if queued w k then IDEMIP_OK else IDEMIP_ERR) ∧
  ∀ q l1 s l2, 0 ≤ q < 2 * cf_pcbs c → sends w q = l1 ++ (k, s) :: l2 →
    io_seg (w_io w') = mkSegInfo (s_data s) (s_seq s) (first_of NONE l2.*1) (q / 2) (s_len s) (s_flags s) (s_opts s).

Definition seg_free_effect w w' : Prop :=
  let k := sg_index (seg_args (w_io w)) in
  io_status (w_io w') = (if queued w k then IDEMIP_OK else IDEMIP_ERR) ∧
  ∀ q, 0 ≤ q < 2 * cf_pcbs c → sends w' q = filter (λ e, e.1 ≠ k) (sends w q).

Definition close_effect w w' : Prop :=
  let p := pcb_index (w_io w) in
  io_status (w_io w') = (if open_at w p then if bool_decide (holds w p = []) then IDEMIP_OK else IDEMIP_BUSY else IDEMIP_ERR) ∧
  ∀ q, 0 ≤ q < 2 * cf_pcbs c →
    sends w' q = if bool_decide (io_status (w_io w') = IDEMIP_OK) && (q / 2 =? p) then [] else sends w q.

Definition send_effect (o : pcb_op) w w' : Prop :=
  match o with
  | PClear => ∀ q, 0 ≤ q < 2 * cf_pcbs c → sends w' q = []
  | PClose => close_effect w w'
  | PSegAlloc => alloc_effect w w'
  | PSegLoad => seg_load_effect w w'
  | PSegSent => sent_effect w w'
  | PSegFree => seg_free_effect w w'
  | _ => sends_keep w w'
  end.

(** An entry goes behind those at or before its own sequence number, counted from [edge]. *)
Fixpoint hold_insert (edge : Z) (e : Z * TcpPcbOosFields) (l : list (Z * TcpPcbOosFields)) : list (Z * TcpPcbOosFields) :=
  match l with
  | [] => [e]
  | x :: l' => if u32 (o_seq e.2 - edge) <? u32 (o_seq x.2 - edge) then e :: l else x :: hold_insert edge e l'
  end.

Definition oos_alloc_effect w w' : Prop :=
  let a := oos_args (w_io w) in
  let p := os_pcb a in
  if open_at w p && negb (os_len a =? 0) then
    if cf_ooseq_segs c <=? Z.of_nat (length (holds w p)) then io_status (w_io w') = IDEMIP_BUSY ∧ holds_keep w w'
    else
      ∃ k, scan (λ k, negb (pinned w k)) (Z.to_nat (TCP_PCB_OOSEQ_ENTRIES c)) 0 = Some k ∧
        io_status (w_io w') = IDEMIP_OK ∧ io_index (w_io w') = k ∧
        ∀ p', 0 ≤ p' < cf_pcbs c →
          holds w' p' = if p' =? p then hold_insert (rcv_nxt (t_vars (TCB w p))) (k, oos_of a) (holds w p) else holds w p'
  else io_status (w_io w') = IDEMIP_ERR ∧ holds_keep w w'.

Definition oos_load_effect w w' : Prop :=
  let k := os_index (oos_args (w_io w)) in
  holds_keep w w' ∧ io_status (w_io w') = (if pinned w k then IDEMIP_OK else IDEMIP_ERR) ∧
  ∀ p l1 o l2, 0 ≤ p < cf_pcbs c → holds w p = l1 ++ (k, o) :: l2 →
    io_oos (w_io w') = mkOosInfo (o_seq o) (first_of NONE l2.*1) p (o_desc o) (o_offset o) (o_len o).

Definition oos_free_effect w w' : Prop :=
  let k := os_index (oos_args (w_io w)) in
  io_status (w_io w') = (if pinned w k then IDEMIP_OK else IDEMIP_ERR) ∧
  ∀ p, 0 ≤ p < cf_pcbs c → holds w' p = filter (λ e, e.1 ≠ k) (holds w p).

Definition hold_effect (o : pcb_op) w w' : Prop :=
  match o with
  | PClear => ∀ p, 0 ≤ p < cf_pcbs c → holds w' p = []
  | POosAlloc => oos_alloc_effect w w'
  | POosLoad => oos_load_effect w w'
  | POosFree => oos_free_effect w w'
  | _ => holds_keep w w'
  end.

(** ** The invariant *)
Record Table w : Prop := mkTable { tb_ready : w_ready w = TCP_PCB_READY; tb_len : tlen (w_tcb w) = cf_pcbs c }.

Record SendRep w : Prop := mkSendRep {
  sr_len : tlen (w_seg w) = cf_segs c;
  sr_thread : threaded NONE s_next s_in_use (2 * cf_pcbs c) (w_seg w) (seg_head w) (seg_live w) (seg_queue w);
  sr_pcb : ∀ q k, 0 ≤ q < 2 * cf_pcbs c → k ∈ seg_queue w q → s_pcb (tget (w_seg w) k) = q / 2 }.

Record HoldRep w : Prop := mkHoldRep {
  hr_len : tlen (w_oos w) = TCP_PCB_OOSEQ_ENTRIES c;
  hr_thread : threaded NONE o_next o_in_use (cf_pcbs c) (w_oos w) (oos_head w) (oos_live w) (oos_queue w);
  hr_pcb : ∀ p k, 0 ≤ p < cf_pcbs c → k ∈ oos_queue w p → o_pcb (tget (w_oos w) k) = p;
  hr_bound : ∀ p, 0 ≤ p < cf_pcbs c → Z.of_nat (length (oos_queue w p)) ≤ cf_ooseq_segs c }.

Record Rep w : Prop := mkRep { rep_table : Table w; rep_send : SendRep w; rep_hold : HoldRep w }.
End Views.

(** ** Reading the queues of a table back *)
Section Facts.
Variable c : config.
Hypothesis Hc : config_ok c.
Implicit Types (w : Work) (q p k : Z) (r : Z → list Z).

Lemma threaded_rows {A} `{Inhabited A} (next : A → Z) busy n (t : list A) head live r q len :
  threaded NONE next busy n t head live r → 0 ≤ q < n → tlen t = len → len ≤ NONE → rows len (r q).
Proof. intros HT Hq <- Hl. split; [done|]. intros k Hk. by eapply threaded_row. Qed.

Lemma threaded_follow {A} `{Inhabited A} (next : A → Z) busy n (t : list A) head live r q len :
  threaded NONE next busy n t head live r → 0 ≤ q < n → tlen t = len → len ≤ NONE →
  (if live q then follow (Z.to_nat len) (links next t) len (head q) else []) = r q.
Proof. intros HT Hq <- Hn. by eapply threaded_read. Qed.

Lemma owned_ext n r r' : (∀ q, 0 ≤ q < n → r q = r' q) → owned n r = owned n r'.
Proof.
  intros Hr. unfold owned. assert (∀ l : list Z, (∀ q, q ∈ l → 0 ≤ q < n) → l ≫= r = l ≫= r') as Hl.
  { induction l as [|q l IH]; intros Hq; [done|]. rewrite !bind_cons, Hr by (apply Hq; left). f_equal. apply IH. intros; apply Hq; by right. }
  apply Hl. intros q Hq%elem_of_seqZ. lia.
Qed.

Lemma threaded_ext {A} `{Inhabited A} (next : A → Z) busy n (t : list A) head live r r' :
  (∀ q, 0 ≤ q < n → r q = r' q) → threaded NONE next busy n t head live r → threaded NONE next busy n t head live r'.
Proof.
  intros Hr [Ho HT]. split; [by rewrite <- (owned_ext n r r')|]. intros q Hq. specialize (HT q Hq). rewrite <- Hr by done. done.
Qed.

Lemma half_range q n : 0 ≤ q < 2 * n → 0 ≤ q / 2 < n.
Proof. intros. split; [apply Z.div_pos|apply Z.div_lt_upper_bound]; lia. Qed.

(** Any lists the links spell are the ones the views read. *)
Lemma send_rep_of w r :
  tlen (w_seg w) = cf_segs c → threaded NONE s_next s_in_use (2 * cf_pcbs c) (w_seg w) (seg_head w) (seg_live w) r →
  (∀ q k, 0 ≤ q < 2 * cf_pcbs c → k ∈ r q → s_pcb (tget (w_seg w) k) = q / 2) →
  SendRep c w ∧ ∀ q, 0 ≤ q < 2 * cf_pcbs c → seg_queue c w q = r q.
Proof.
  intros Hl HT Hp. assert (∀ q, 0 ≤ q < 2 * cf_pcbs c → seg_queue c w q = r q) as Hq.
  { intros q Hq. apply (threaded_follow s_next s_in_use (2 * cf_pcbs c)); [done|done|done|]. destruct Hc as (_ & _ & ? & _). lia. }
  split; [|done]. split; [done| |].
  - eapply threaded_ext; [|exact HT]. intros q ?. by rewrite Hq.
  - intros q k Hqr. rewrite Hq by done. by apply Hp.
Qed.

Lemma hold_rep_of w r :
  tlen (w_oos w) = TCP_PCB_OOSEQ_ENTRIES c → threaded NONE o_next o_in_use (cf_pcbs c) (w_oos w) (oos_head w) (oos_live w) r →
  (∀ p k, 0 ≤ p < cf_pcbs c → k ∈ r p → o_pcb (tget (w_oos w) k) = p) →
  (∀ p, 0 ≤ p < cf_pcbs c → Z.of_nat (length (r p)) ≤ cf_ooseq_segs c) →
  HoldRep c w ∧ ∀ p, 0 ≤ p < cf_pcbs c → oos_queue c w p = r p.
Proof.
  intros Hl HT Hp Hb. assert (∀ p, 0 ≤ p < cf_pcbs c → oos_queue c w p = r p) as Hq.
  { intros q Hq. apply (threaded_follow o_next o_in_use (cf_pcbs c)); [done|done|done|]. destruct Hc as (_ & _ & _ & _ & ?). lia. }
  split; [|done]. split; [done| | |].
  - eapply threaded_ext; [|exact HT]. intros q ?. by rewrite Hq.
  - intros q k Hqr. rewrite Hq by done. by apply Hp.
  - intros p Hpr. rewrite Hq by done. by apply Hb.
Qed.

(** A table whose links, heads and marks did not change has the queues it had. *)
Lemma send_keep w w' :
  SendRep c w → w_seg w' = w_seg w →
  (∀ p, 0 ≤ p < cf_pcbs c → t_in_use (TCB w' p) = t_in_use (TCB w p) ∧
     (t_in_use (TCB w p) = true → t_unsent (TCB w' p) = t_unsent (TCB w p) ∧ t_unacked (TCB w' p) = t_unacked (TCB w p))) →
  SendRep c w' ∧ sends_keep c w w'.
Proof.
  intros [Hl HT Hp] Hs Ht.
  destruct (send_rep_of w' (seg_queue c w)) as [HR Hq].
  - by rewrite Hs.
  - rewrite Hs. eapply threaded_heads; [exact HT|]. intros q Hq. unfold seg_live, seg_head. destruct (Ht (q / 2)) as [-> Hh]; [by apply half_range|].
    destruct (t_in_use (TCB w (q / 2))) eqn:E.
    + left. destruct Hh as [-> ->]; done.
    + unfold seg_queue, seg_live. by rewrite E.
  - by rewrite Hs.
  - split; [done|]. intros q ?. unfold sends, seg_entry. by rewrite Hq, Hs.
Qed.

Lemma hold_keep w w' :
  HoldRep c w → w_oos w' = w_oos w →
  (∀ p, 0 ≤ p < cf_pcbs c → t_in_use (TCB w' p) = t_in_use (TCB w p) ∧
     (t_in_use (TCB w p) = true → t_ooseq (TCB w' p) = t_ooseq (TCB w p))) →
  HoldRep c w' ∧ holds_keep c w w'.
Proof.
  intros [Hl HT Hp Hb] Hs Ht. destruct (hold_rep_of w' (oos_queue c w)) as [HR Hq].
  - by rewrite Hs.
  - rewrite Hs. eapply threaded_heads; [exact HT|]. intros p Hq. unfold oos_live, oos_head. destruct (Ht p) as [-> Hh]; [done|].
    destruct (t_in_use (TCB w p)) eqn:E; [left; by rewrite Hh|]. unfold oos_queue, oos_live. by rewrite E.
  - by rewrite Hs.
  - done.
  - split; [done|]. intros q ?. unfold holds, oos_entry. by rewrite Hq, Hs.
Qed.

(** Being on a queue is the in-use mark. *)
Lemma queued_mark w k : SendRep c w → 0 ≤ k < cf_segs c → queued c w k = s_in_use (tget (w_seg w) k).
Proof.
  intros [Hl HT _] Hk. unfold queued. apply eq_bool_prop_intro. rewrite !Is_true_true, existsb_exists. split.
  - intros (q & Hq%list_elem_of_In%elem_of_seqZ & Hin%bool_decide_eq_true). exact (proj2 (threaded_row _ _ _ _ _ _ _ _ q k HT ltac:(lia) Hin)).
  - intros Hm. destruct (threaded_on _ _ _ _ _ _ _ _ k HT ltac:(lia) Hm) as (q & Hq & Hin). exists q.
    split; [apply list_elem_of_In, elem_of_seqZ; lia|by apply bool_decide_eq_true].
Qed.

Lemma pinned_mark w k : HoldRep c w → 0 ≤ k < TCP_PCB_OOSEQ_ENTRIES c → pinned c w k = o_in_use (tget (w_oos w) k).
Proof.
  intros [Hl HT _ _] Hk. unfold pinned. apply eq_bool_prop_intro. rewrite !Is_true_true, existsb_exists. split.
  - intros (q & Hq%list_elem_of_In%elem_of_seqZ & Hin%bool_decide_eq_true). exact (proj2 (threaded_row _ _ _ _ _ _ _ _ q k HT ltac:(lia) Hin)).
  - intros Hm. destruct (threaded_on _ _ _ _ _ _ _ _ k HT ltac:(lia) Hm) as (q & Hq & Hin). exists q.
    split; [apply list_elem_of_In, elem_of_seqZ; lia|by apply bool_decide_eq_true].
Qed.

Lemma queued_range w k : SendRep c w → cf_segs c ≤ k → queued c w k = false.
Proof.
  intros [Hl HT _] Hk. apply not_true_iff_false. unfold queued. rewrite existsb_exists.
  intros (q & Hq%list_elem_of_In%elem_of_seqZ & Hin%bool_decide_eq_true).
  destruct (threaded_row _ _ _ _ _ _ _ _ q k HT ltac:(lia) Hin). lia.
Qed.

Lemma pinned_range w k : HoldRep c w → TCP_PCB_OOSEQ_ENTRIES c ≤ k → pinned c w k = false.
Proof.
  intros [Hl HT _] Hk. apply not_true_iff_false. unfold pinned. rewrite existsb_exists.
  intros (q & Hq%list_elem_of_In%elem_of_seqZ & Hin%bool_decide_eq_true).
  destruct (threaded_row _ _ _ _ _ _ _ _ q k HT ltac:(lia) Hin). lia.
Qed.

Lemma distinct_rep w : SendRep c w → HoldRep c w → distinct c w.
Proof. intros [_ [[? _] _] _] [_ [[? _] _] _ _]. done. Qed.
End Facts.
End TcpPcbRep.

(** * The calls that leave the connection table's queues alone

    Every entry but those of the queues, open and close changes neither a link, a head nor an in-use mark;
    open starts a connection with three empty queues. *)
Module TcpPcbKeep.
Import TcpPcb TcpPcbQueue TcpPcbRep.

Lemma TCB_put w i t j : 0 ≤ i < tlen (w_tcb w) → 0 ≤ j → TCB (put_tcb w i t) j = if decide (j = i) then t else TCB w j.
Proof.
  intros Hi Hj. unfold TCB. change (w_tcb (put_tcb w i t)) with (tset (w_tcb w) i t).
  destruct (decide (j = i)) as [->|]; [by rewrite tget_tset_eq|]. by rewrite tget_tset_ne by lia.
Qed.

(** Two connection records with the same marks and heads. *)
Definition heads_eq (t t' : TcpPcbTcbFields) : Prop :=
  t_in_use t' = t_in_use t ∧ t_unsent t' = t_unsent t ∧ t_unacked t' = t_unacked t ∧ t_ooseq t' = t_ooseq t.

Record quiet (w w' : Work) : Prop := mkQuiet {
  qt_ready : w_ready w' = w_ready w;
  qt_seg : w_seg w' = w_seg w;
  qt_oos : w_oos w' = w_oos w;
  qt_len : tlen (w_tcb w') = tlen (w_tcb w);
  qt_heads : ∀ p, 0 ≤ p → heads_eq (TCB w p) (TCB w' p) }.

#[export] Instance quiet_preorder : PreOrder quiet.
Proof.
  split.
  - intros w. by split.
  - intros w1 w2 w3 [? ? ? ? H1] [? ? ? ? H2]. split; [congruence..|]. intros p Hp.
    destruct (H1 p Hp) as (? & ? & ? & ?), (H2 p Hp) as (? & ? & ? & ?). repeat split; congruence.
Qed.

Lemma quiet_io w io : quiet w (set_io w io).
Proof. by split. Qed.

Lemma quiet_put w i t : 0 ≤ i < tlen (w_tcb w) → heads_eq (TCB w i) t → quiet w (put_tcb w i t).
Proof.
  intros Hi Ht. split; [done..|apply tlen_tset|]. intros p Hp. rewrite TCB_put by done. case_decide; [by subst|by repeat split].
Qed.

Lemma quiet_listen w l : quiet w (w <| w_listen := l |>).
Proof. by split. Qed.

Lemma quiet_table c w w' : quiet w w' → Table c w → Table c w'.
Proof. intros [? _ _ ? _] [? ?]. split; congruence. Qed.

Lemma quiet_send c w w' : config_ok c → quiet w w' → SendRep c w → SendRep c w' ∧ sends_keep c w w'.
Proof. intros Hc [_ ? _ _ Hh] HR. apply send_keep; [done..|]. intros p Hp. destruct (Hh p) as (? & ? & ? & ?); [lia|done]. Qed.

Lemma quiet_hold c w w' : config_ok c → quiet w w' → HoldRep c w → HoldRep c w' ∧ holds_keep c w w'.
Proof. intros Hc [_ _ ? _ Hh] HR. apply hold_keep; [done..|]. intros p Hp. destruct (Hh p) as (? & ? & ? & ?); [lia|done]. Qed.

(** Past the reset of the reported status and values, with the operands as the caller wrote them. *)
Ltac enter_call w :=
  match goal with
  | H : io_ok (w_io w) |- quiet w (let _ := ?e in _) =>
      let w1 := fresh "w1" in let Hq := fresh "Hq" in let Hi := fresh "Hi" in
      set (w1 := e);
      assert (quiet w w1) as Hq by apply (quiet_io w);
      assert (io_ok (w_io w1)) as Hi by exact H;
      transitivity w1; [exact Hq|];
      match goal with HT : Table _ w |- _ => apply (quiet_table _ _ _ Hq) in HT end;
      clearbody w1; clear w Hq H; cbv zeta
  end.

Section Quiet.
Variable c : config.
Implicit Types w : Work.

(** The operand index of a call is a row of the table once the bound test has passed. *)
Lemma row_ok w i b : Table c w → 0 ≤ i → b || (cf_pcbs c <=? i) = false → 0 ≤ i < tlen (w_tcb w).
Proof. intros [_ ->] Hi [_ H%Z.leb_gt]%orb_false_iff. lia. Qed.

Lemma row_ok_more w i b d : Table c w → 0 ≤ i → b || (cf_pcbs c <=? i) || d = false → 0 ≤ i < tlen (w_tcb w).
Proof. intros HT Hi [H _]%orb_false_iff. by eapply row_ok. Qed.

Lemma quiet_put_io w i t io : 0 ≤ i < tlen (w_tcb w) → heads_eq (TCB w i) t → quiet w (set_io (put_tcb w i t) io).
Proof. intros. transitivity (put_tcb w i t); [by apply quiet_put|apply quiet_io]. Qed.

Lemma quiet_listen_io w l io : quiet w (set_io (w <| w_listen := l |>) io).
Proof. by split. Qed.

(** A path of an entry changes the reports, a listener, or one record's other fields. *)
Ltac quiet_path :=
  first [reflexivity
        |apply quiet_put_io; [first [eapply row_ok; [eassumption|match goal with H : io_ok _ |- _ => apply H end|eassumption]
                              |eapply row_ok_more; [eassumption|match goal with H : io_ok _ |- _ => apply H end|eassumption]]|by repeat split]
        |apply quiet_listen_io
        |apply quiet_io].
Ltac quiet_call w := enter_call w; repeat (case_match; try quiet_path).

Lemma opt_quiet w : Table c w → io_ok (w_io w) → quiet w (idemip_tcp_pcb_opt c w).
Proof. intros HT Hio. cbv beta delta [idemip_tcp_pcb_opt]. quiet_call w. Qed.

Lemma bind_quiet w : Table c w → io_ok (w_io w) → quiet w (idemip_tcp_pcb_bind c w).
Proof. intros HT Hio. cbv beta delta [idemip_tcp_pcb_bind]. quiet_call w. Qed.

Lemma connect_quiet w : Table c w → io_ok (w_io w) → quiet w (idemip_tcp_pcb_connect c w).
Proof. intros HT Hio. cbv beta delta [idemip_tcp_pcb_connect]. quiet_call w. Qed.

Lemma load_quiet w : Table c w → io_ok (w_io w) → quiet w (idemip_tcp_pcb_load c w).
Proof. intros HT Hio. cbv beta delta [idemip_tcp_pcb_load]. quiet_call w. Qed.

Lemma store_quiet w : Table c w → io_ok (w_io w) → quiet w (idemip_tcp_pcb_store c w).
Proof. intros HT Hio. cbv beta delta [idemip_tcp_pcb_store]. quiet_call w. Qed.

Lemma accept_quiet w : Table c w → io_ok (w_io w) → quiet w (idemip_tcp_pcb_accept c w).
Proof. intros HT Hio. cbv beta delta [idemip_tcp_pcb_accept]. quiet_call w. Qed.

Lemma listen_quiet w : Table c w → io_ok (w_io w) → quiet w (idemip_tcp_pcb_listen c w).
Proof. intros HT Hio. cbv beta delta [idemip_tcp_pcb_listen]. quiet_call w. Qed.

Lemma unlisten_quiet w : Table c w → io_ok (w_io w) → quiet w (idemip_tcp_pcb_unlisten c w).
Proof. intros HT Hio. cbv beta delta [idemip_tcp_pcb_unlisten]. quiet_call w. Qed.

Lemma find_quiet w : Table c w → io_ok (w_io w) → quiet w (idemip_tcp_pcb_find c w).
Proof. intros HT Hio. cbv beta delta [idemip_tcp_pcb_find]. quiet_call w. Qed.

Lemma find_listener_quiet w : Table c w → io_ok (w_io w) → quiet w (idemip_tcp_pcb_find_listener c w).
Proof. intros HT Hio. cbv beta delta [idemip_tcp_pcb_find_listener]. quiet_call w. Qed.

Lemma seg_load_quiet w : Table c w → io_ok (w_io w) → quiet w (idemip_tcp_pcb_seg_load c w).
Proof. intros HT Hio. cbv beta delta [idemip_tcp_pcb_seg_load]. quiet_call w. Qed.

Lemma oos_load_quiet w : Table c w → io_ok (w_io w) → quiet w (idemip_tcp_pcb_oos_load c w).
Proof. intros HT Hio. cbv beta delta [idemip_tcp_pcb_oos_load]. quiet_call w. Qed.

(** The calls this is true of. *)
Definition leaves_queues (o : pcb_op) : bool :=
  match o with
  | PClear | POpen | PClose | PSegAlloc | PSegSent | PSegFree | POosAlloc | POosFree => false
  | _ => true
  end.

Lemma step_quiet o w : leaves_queues o = true → Table c w → io_ok (w_io w) → quiet w (step c o w).
Proof.
  destruct o; intros Ho; try discriminate Ho; simpl;
    auto using opt_quiet, bind_quiet, connect_quiet, load_quiet, store_quiet, accept_quiet, listen_quiet, unlisten_quiet, find_quiet,
      find_listener_quiet, seg_load_quiet, oos_load_quiet.
Qed.
End Quiet.
End TcpPcbKeep.
