(* ===== verification/TcpPcbSend.v ===== *)
(** * The send queues of the connection table

    What seg_alloc, seg_sent, seg_free, seg_load, open, close and clear do to the lists of segments a
    connection has yet to send and has yet to hear acknowledged. *)
From stdpp Require Import functions.
From S2P Require Import Prelude Chain TcpTypes TcpPcb Threaded TcpPcbRep.

Module TcpPcbSend.
Import TcpPcb TcpPcbQueue TcpPcbRep TcpPcbKeep.

Local Abbreviation NONE := IDEMIP_TCP_PCB_NONE.

(** ** Tables that differ in one row and in links *)

(** Every row but [i] is as it was, its link aside, which is [link]. *)
Definition relinked (segs segs' : list TcpPcbSegFields) (i : Z) (link : Z → Z) : Prop :=
  tlen segs' = tlen segs ∧ ∀ j, 0 ≤ j → j ≠ i → tget segs' j = (tget segs j) <| s_next := link j |>.

Lemma seg_same_link (s : TcpPcbSegFields) : s <| s_next := s_next s |> = s.
Proof. by destruct s. Qed.

(** One row's own content. *)
Lemma relinked_row segs i s : 0 ≤ i → relinked segs (tset segs i s) i (links s_next segs).
Proof. intros Hi. split; [apply tlen_tset|]. intros j Hj Hne. rewrite tget_tset_ne by lia. symmetry. apply seg_same_link. Qed.

(** One row's link. *)
Lemma relinked_link segs segs' i link p x :
  relinked segs segs' i link → 0 ≤ p < tlen segs → p ≠ i →
  relinked segs (tset segs' p ((tget segs' p) <| s_next := x |>)) i (λ j, if decide (j = p) then x else link j).
Proof.
  intros [Hl Hr] Hp Hne. split; [by rewrite tlen_tset|]. intros j Hj Hji. destruct (decide (j = p)) as [->|Hjp].
  - rewrite tget_tset_eq by lia. by rewrite Hr.
  - rewrite tget_tset_ne by lia. by apply Hr.
Qed.

(** The row itself rewritten, behind the links. *)
Lemma relinked_self segs segs' i link s : 0 ≤ i → relinked segs segs' i link → relinked segs (tset segs' i s) i link.
Proof. intros Hi [Hl Hr]. split; [by rewrite tlen_tset|]. intros j Hj Hne. rewrite tget_tset_ne by lia. by apply Hr. Qed.

Lemma relinked_entry w w' i link j :
  relinked (w_seg w) (w_seg w') i link → 0 ≤ j → j ≠ i → seg_entry w' j = seg_entry w j.
Proof. intros [_ Hr] Hj Hne. unfold seg_entry. by rewrite Hr. Qed.

(** ** Entries without one slot *)
Lemma filter_absent {A} (f : Z → Z * A) (l : list Z) i :
  (∀ j, (f j).1 = j) → i ∉ l → filter (λ e, e.1 ≠ i) (f <$> l) = f <$> l.
Proof.
  intros Hf. induction l as [|j l IH]; [done|]. intros Hn. rewrite fmap_cons, filter_cons, decide_True by (rewrite Hf; set_solver).
  f_equal. apply IH. set_solver.
Qed.

Lemma filter_out {A} (f : Z → Z * A) (l1 : list Z) i l2 :
  (∀ j, (f j).1 = j) → NoDup (l1 ++ i :: l2) → filter (λ e, e.1 ≠ i) (f <$> l1 ++ i :: l2) = f <$> l1 ++ l2.
Proof.
  intros Hf (_ & Hd & [Hnd _]%NoDup_cons)%NoDup_app. rewrite fmap_app, filter_app, fmap_cons, filter_cons, decide_False by (rewrite Hf; auto).
  rewrite fmap_app, !filter_absent; [done|done|done|done|]. intros Hi. apply (Hd i Hi). left.
Qed.

Section Send.
Variable c : config.
Hypothesis Hc : config_ok c.
Implicit Types (w : Work) (q p k i : Z).
Local Abbreviation threads := (threaded NONE s_next s_in_use (2 * cf_pcbs c)).

Lemma segs_bound : 0 ≤ cf_segs c ≤ NONE.
Proof. destruct Hc as (_ & _ & ? & _). lia. Qed.

(** ** Splicing *)

(** The rows of a queue keep their entries when none of them is the one rewritten. *)
Lemma relinked_entries w w' i link (l : list Z) :
  relinked (w_seg w) (w_seg w') i link → (∀ j, j ∈ l → 0 ≤ j ∧ j ≠ i) → seg_entry w' <$> l = seg_entry w <$> l.
Proof.
  intros HR Hl. apply list_fmap_ext. intros n j Hj%list_elem_of_lookup_2. destruct (Hl j Hj). by eapply relinked_entry.
Qed.

(** The invariant and the queues, from the lists after the call. *)
Lemma send_splice w w' r i link :
  SendRep c w → relinked (w_seg w) (w_seg w') i link → 0 ≤ i →
  threads (w_seg w') (seg_head w') (seg_live w') r →
  (∀ q, 0 ≤ q < 2 * cf_pcbs c → i ∈ r q → s_pcb (tget (w_seg w') i) = q / 2) →
  (∀ q j, 0 ≤ q < 2 * cf_pcbs c → j ∈ r q → j ≠ i → j ∈ seg_queue c w q) →
  SendRep c w' ∧ ∀ q, 0 ≤ q < 2 * cf_pcbs c → seg_queue c w' q = r q.
Proof.
  intros HS [Hl Hr] Hi HT Hp Hsub. apply send_rep_of; [done|rewrite Hl; apply HS|done|]. intros q k Hq Hk.
  destruct (decide (k = i)) as [->|Hne]; [by apply Hp|].
  assert (0 ≤ k) by (apply (threaded_row _ _ _ _ _ _ _ _ q k HT Hq) in Hk; lia).
  rewrite Hr by done. change (s_pcb (tget (w_seg w) k) = q / 2). apply (sr_pcb c w HS q k Hq). by apply Hsub.
Qed.

Lemma queue_rows w q k : SendRep c w → 0 ≤ q < 2 * cf_pcbs c → k ∈ seg_queue c w q → 0 ≤ k < cf_segs c ∧ s_in_use (tget (w_seg w) k) = true.
Proof. intros [<- HT _] Hq Hk. apply (threaded_row _ _ _ _ _ _ _ _ q k HT Hq Hk). Qed.

Lemma queue_rows_len w q : SendRep c w → 0 ≤ q < 2 * cf_pcbs c → rows (cf_segs c) (seg_queue c w q) ∧ (length (seg_queue c w q) ≤ Z.to_nat (cf_segs c))%nat.
Proof.
  intros HS Hq. pose proof segs_bound. split.
  - split; [lia|]. intros k Hk. by eapply queue_rows.
  - destruct HS as [Hl HT _]. pose proof (threaded_length _ _ _ _ _ _ _ _ q HT Hq). lia.
Qed.

Lemma queue_chain w q : SendRep c w → 0 ≤ q < 2 * cf_pcbs c → seg_live w q = true → chain NONE (links s_next (w_seg w)) (seg_head w q) (seg_queue c w q).
Proof. intros [_ [_ HT] _] Hq Hl. specialize (HT q Hq). by rewrite Hl in HT. Qed.

Lemma queue_of_entry w q k : k ∈ seg_queue c w q → seg_entry w k ∈ sends c w q.
Proof. intros. apply list_elem_of_fmap. eauto. Qed.
(** Connection [p] owns queues [2 * p] and [2 * p + 1]. *)
Lemma queue_no p : (2 * p) / 2 = p ∧ (2 * p + 1) / 2 = p ∧ Z.even (2 * p) = true ∧ Z.even (2 * p + 1) = false.
Proof.
  split_and!; [rewrite Z.mul_comm; by apply Z.div_mul|rewrite Z.add_comm, Z.mul_comm, Z.div_add; [done|lia]|..].
  - apply Z.even_spec. by exists p.
  - rewrite Z.add_comm. apply Z.even_add_mul_2.
Qed.

Lemma queue_cases q : q = 2 * (q / 2) ∨ q = 2 * (q / 2) + 1.
Proof. pose proof (Z.div_mod q 2 ltac:(lia)). pose proof (Z.mod_pos_bound q 2 ltac:(lia)). lia. Qed.

Lemma queue_even q : q = 2 * (q / 2) → Z.even q = true.
Proof. intros E. apply Z.even_spec. by exists (q / 2). Qed.

Lemma queue_odd q : q = 2 * (q / 2) + 1 → Z.even q = false.
Proof. intros E. rewrite <- Z.negb_odd. apply negb_false_iff, Z.odd_spec. by exists (q / 2). Qed.

(** A row goes on the tail of connection [p]'s unsent or unacknowledged queue. *)
Lemma threads_append (t t' : list TcpPcbSegFields) head head' live live' r q i link :
  threads t head live r → 0 ≤ q < 2 * cf_pcbs c → live q = true → tlen t = cf_segs c → 0 ≤ i < cf_segs c → s_in_use (tget t i) = false →
  relinked t t' i link → tget t' i = (tget t' i) <| s_next := NONE |> <| s_in_use := true |> →
  (∀ j, 0 ≤ j → j ≠ i → link j = if decide (last (r q) = Some j) then i else links s_next t j) →
  (∀ q', 0 ≤ q' < 2 * cf_pcbs c → live' q' = live q' ∧ head' q' = if decide (q' = q) then match r q with [] => i | _ => head q end else head q') →
  threads t' head' live' (<[q := r q ++ [i]]> r).
Proof.
  intros HT Hq Hl Hlen Hi Hf [Hrl Hr] Hrow Hlink Hh. pose proof segs_bound.
  assert (i ≠ NONE) by (destruct Hc as (_ & _ & ? & _); lia).
  apply (threaded_insert NONE s_next s_in_use (2 * cf_pcbs c) t t' head head' live live' r q (r q) [] i);
    [done|done|done|by rewrite app_nil_r|lia|done|done|done| | | |done].
  - unfold marks. by rewrite Hrow.
  - unfold links. by rewrite Hrow.
  - intros j Hj Hji. unfold marks, links at 1. rewrite Hr by done. split; [done|]. change (link j = if decide (last (r q) = Some j) then i else links s_next t j).
    by apply Hlink.
Qed.

Lemma threads_remove (t t' : list TcpPcbSegFields) head head' live live' r q l1 l2 i link :
  threads t head live r → 0 ≤ q < 2 * cf_pcbs c → r q = l1 ++ i :: l2 → relinked t t' i link → s_in_use (tget t' i) = false →
  (∀ j, 0 ≤ j → j ≠ i → link j = if decide (last l1 = Some j) then links s_next t i else links s_next t j) →
  (∀ q', 0 ≤ q' < 2 * cf_pcbs c → live' q' = live q' ∧
     head' q' = if decide (q' = q) then match l1 with [] => links s_next t i | _ => head q end else head q') →
  threads t' head' live' (<[q := l1 ++ l2]> r).
Proof.
  intros HT Hq Hrq [Hrl Hr] Hf Hlink Hh.
  apply (threaded_remove NONE s_next s_in_use (2 * cf_pcbs c) t t' head head' live live' r q l1 l2 i); [done|done|done|done|done| |done].
  intros j Hj Hji. unfold marks, links at 1. rewrite Hr by done. split; [done|]. by apply Hlink.
Qed.
(** ** The heads *)
Lemma head_unsent w p x q :
  Table c w → 0 ≤ p < cf_pcbs c → 0 ≤ q < 2 * cf_pcbs c →
  let w' := put_tcb w p ((TCB w p) <| t_unsent := x |>) in
  seg_live w' q = seg_live w q ∧ seg_head w' q = if decide (q = 2 * p) then x else seg_head w q.
Proof.
  intros [_ Hl] Hp Hq w'. pose proof (half_range _ _ Hq). unfold seg_live, seg_head, w'. rewrite TCB_put by lia.
  destruct (decide (q / 2 = p)) as [<-|Hne].
  - split; [done|]. destruct (queue_cases q) as [E|E].
    + rewrite (decide_True _ _ E), (queue_even q E). done.
    + rewrite decide_False by lia. by rewrite (queue_odd q E).
  - rewrite decide_False; [done|]. intros ->. apply Hne, queue_no.
Qed.

Lemma head_unacked w p x q :
  Table c w → 0 ≤ p < cf_pcbs c → 0 ≤ q < 2 * cf_pcbs c →
  let w' := put_tcb w p ((TCB w p) <| t_unacked := x |>) in
  seg_live w' q = seg_live w q ∧ seg_head w' q = if decide (q = 2 * p + 1) then x else seg_head w q.
Proof.
  intros [_ Hl] Hp Hq w'. pose proof (half_range _ _ Hq). unfold seg_live, seg_head, w'. rewrite TCB_put by lia.
  destruct (decide (q / 2 = p)) as [<-|Hne].
  - split; [done|]. destruct (queue_cases q) as [E|E].
    + rewrite decide_False by lia. by rewrite (queue_even q E).
    + rewrite (decide_True _ _ E), (queue_odd q E). done.
  - rewrite decide_False; [done|]. intros ->. apply Hne, queue_no.
Qed.

(** An empty queue is a head past the table. *)
Lemma head_empty w q : SendRep c w → 0 ≤ q < 2 * cf_pcbs c → seg_live w q = true → (cf_segs c <=? seg_head w q) = bool_decide (seg_queue c w q = []).
Proof.
  intros HS Hq Hl. pose proof (queue_chain w q HS Hq Hl) as Hch. destruct (queue_rows_len w q HS Hq) as [Hr _].
  destruct (seg_queue c w q) as [|k l].
  - rewrite Hch. rewrite (proj2 (Z.leb_le _ _)) by (apply segs_bound). done.
  - destruct (chain_row _ _ _ _ _ Hr Hch) as (-> & Hlt & _). apply Z.ltb_lt in Hlt. by rewrite (proj2 (Z.leb_gt _ _)) by lia.
Qed.

(** What a call of the send queues leaves to the holds. *)
Record hold_quiet w w' : Prop := mkHoldQuiet {
  hq_ready : w_ready w' = w_ready w;
  hq_oos : w_oos w' = w_oos w;
  hq_len : tlen (w_tcb w') = tlen (w_tcb w);
  hq_heads : ∀ p, 0 ≤ p → t_in_use (TCB w' p) = t_in_use (TCB w p) ∧ t_ooseq (TCB w' p) = t_ooseq (TCB w p) }.

Lemma hold_quiet_put w p t segs :
  0 ≤ p < tlen (w_tcb w) → t_in_use t = t_in_use (TCB w p) → t_ooseq t = t_ooseq (TCB w p) → hold_quiet w (put_tcb (w <| w_seg := segs |>) p t).
Proof.
  intros Hp Hu Ho. split; [done..|apply tlen_tset|]. intros j Hj. rewrite TCB_put by done. case_decide; [by subst|done].
Qed.

Lemma hold_quiet_rep w w' : hold_quiet w w' → Table c w → HoldRep c w → Table c w' ∧ HoldRep c w' ∧ holds_keep c w w'.
Proof.
  intros [? ? ? Hh] [? ?] HH. split; [split; congruence|]. apply hold_keep; [done..|]. intros p Hp. destruct (Hh p); [lia|]. done.
Qed.

(** ** seg_alloc *)

(** The tail of queue [q] linked to [i], or its head. *)
Lemma append_step segs q r head i s :
  tlen segs = cf_segs c → 0 ≤ i < cf_segs c → i ∉ r q → rows (cf_segs c) (r q) → (length (r q) ≤ Z.to_nat (cf_segs c))%nat →
  chain NONE (links s_next segs) (head q) (r q) → r q ≠ [] →
  ∃ segs', append_seg c (Z.to_nat (cf_segs c)) (tset segs i s) (head q) i = Some segs' ∧ tget segs' i = s ∧
    relinked segs segs' i (λ j, if decide (last (r q) = Some j) then i else links s_next segs j).
Proof.
  intros Hlen Hi Hni Hr Hn Hch Hne.
  assert (chain NONE (links s_next (tset segs i s)) (head q) (r q)) as Hch'.
  { eapply chain_ext; [|exact Hch]. intros j Hj. unfold links. rewrite tget_tset_ne; [done|lia|by apply Hr in Hj as []|set_solver]. }
  destruct (append_seg_spec c _ _ _ _ i Hch' Hr Hne Hn) as (p & -> & Hp). assert (p ∈ r q) as Hpr by (apply last_Some in Hp as [l' ->]; set_solver).
  assert (p ≠ i) by congruence. assert (0 ≤ p < tlen segs) by (rewrite Hlen; by apply Hr). eexists. split; [done|]. split.
  - rewrite tget_tset_ne, tget_tset_eq by lia. done.
  - pose proof (relinked_link segs (tset segs i s) i _ p i (relinked_row segs i s ltac:(lia)) ltac:(done) ltac:(done)) as [Hl Hrl].
    split; [done|]. intros j Hj Hji. rewrite Hrl by done. rewrite Hp.
    repeat case_decide; congruence.
Qed.
Lemma sends_eq w' q l : seg_queue c w' q = l → sends c w' q = seg_entry w' <$> l.
Proof. unfold sends. by intros ->. Qed.

(** The queues after row [i] went on the tail of queue [q]. *)
Lemma append_sends w w' q i link :
  SendRep c w → relinked (w_seg w) (w_seg w') i link → s_in_use (tget (w_seg w) i) = false →
  (∀ q', 0 ≤ q' < 2 * cf_pcbs c → seg_queue c w' q' = (<[q := seg_queue c w q ++ [i]]> (seg_queue c w)) q') →
  ∀ q', 0 ≤ q' < 2 * cf_pcbs c → sends c w' q' = if q' =? q then sends c w q' ++ [seg_entry w' i] else sends c w q'.
Proof.
  intros HS HR Hf Hq q' Hq'. rewrite (sends_eq w' q' _ (Hq q' Hq')).
  assert (seg_entry w' <$> seg_queue c w q' = sends c w q') as E.
  { eapply relinked_entries; [exact HR|]. intros j Hj. destruct (queue_rows w q' j HS Hq' Hj). split; [lia|congruence]. }
  destruct (Z.eqb_spec q' q) as [->|Hne].
  - rewrite fn_lookup_insert, fmap_app, E. done.
  - by rewrite fn_lookup_insert_ne.
Qed.

Lemma seg_put_spec w i :
  let a := seg_args (w_io w) in
  Table c w → SendRep c w → 0 ≤ sg_pcb a < cf_pcbs c → t_in_use (TCB w (sg_pcb a)) = true → 0 ≤ i < cf_segs c →
  s_in_use (tget (w_seg w) i) = false →
  SendRep c (seg_put c w i) ∧ hold_quiet w (seg_put c w i) ∧
  ∀ q, 0 ≤ q < 2 * cf_pcbs c → sends c (seg_put c w i) q = if q =? 2 * sg_pcb a then sends c w q ++ [(i, seg_of a)] else sends c w q.
Proof.
  intros a HT HS Hp Hu Hi Hf. set (p := sg_pcb a) in *. set (q := 2 * p).
  assert (0 ≤ q < 2 * cf_pcbs c) as Hq by lia. assert (seg_live w q = true) as Hl by (unfold seg_live, q; by rewrite (proj1 (queue_no p))).
  assert (seg_head w q = t_unsent (TCB w p)) as Hh by (unfold seg_head, q; destruct (queue_no p) as (-> & _ & -> & _); done).
  set (s := mkSeg (sg_data a) (sg_seq a) NONE p (sg_len a) (sg_flags a) (sg_opts a) true).
  pose proof (head_empty w q HS Hq Hl) as He. pose proof HS as [Hlen HTh _].
  destruct (queue_rows_len w q HS Hq) as [Hr Hn].
  assert (i ∉ seg_queue c w q) as Hni by (intros Hin; destruct (queue_rows w q i HS Hq Hin); congruence).
  assert (∃ w' link, seg_put c w i = w' ∧ hold_quiet w w' ∧ relinked (w_seg w) (w_seg w') i link ∧ tget (w_seg w') i = s ∧
    (∀ j, 0 ≤ j → j ≠ i → link j = if decide (last (seg_queue c w q) = Some j) then i else links s_next (w_seg w) j) ∧
    (∀ q', 0 ≤ q' < 2 * cf_pcbs c → seg_live w' q' = seg_live w q' ∧
       seg_head w' q' = if decide (q' = q) then match seg_queue c w q with [] => i | _ => seg_head w q end else seg_head w q'))
    as (w' & link & -> & Hhq & HR & Hs & Hlink & Hheads).
  { unfold seg_put. fold a p s. rewrite <- Hh, He. destruct (seg_queue c w q) as [|k l] eqn:E.
    - set (w1 := w <| w_seg := tset (w_seg w) i s |>). exists (put_tcb w1 p ((TCB w1 p) <| t_unsent := i |>)), (links s_next (w_seg w)).
      split_and!; [done|apply hold_quiet_put; [destruct HT as [_ ->]; done|done|done]|apply relinked_row; lia|apply tget_tset_eq; lia|done|].
      intros q' Hq'. apply (head_unsent w1 p i q'); [by destruct HT|done|done].
    - destruct (append_step (w_seg w) q (seg_queue c w) (seg_head w) i s) as (segs' & Hap & Hgi & HR);
        [done|done|by rewrite E|by rewrite E|by rewrite E|by apply queue_chain|by rewrite E|].
      rewrite E in HR. rewrite bool_decide_false by done. exists (w <| w_seg := segs' |>). eexists. split_and!; [|by split|exact HR|done|done|].
      + change (w_seg (w <| w_seg := tset (w_seg w) i s |>)) with (tset (w_seg w) i s). rewrite Hap. done.
      + intros q' Hq'. split; [done|]. case_decide; by subst. }
  assert (threads (w_seg w') (seg_head w') (seg_live w') (<[q := seg_queue c w q ++ [i]]> (seg_queue c w))) as HT'.
  { eapply threads_append; [exact HTh|done|done|done|done|done|exact HR|by rewrite Hs|exact Hlink|exact Hheads]. }
  destruct (send_splice w w' _ i link HS HR ltac:(lia) HT') as [HS' Hqs].
  - intros q' Hq'. rewrite Hs. destruct (decide (q' = q)) as [->|Hne]; [intros _; symmetry; apply queue_no|].
    rewrite fn_lookup_insert_ne by done. intros Hin. destruct (queue_rows w q' i HS Hq' Hin). congruence.
  - intros q' j Hq' Hj Hji. destruct (decide (q' = q)) as [->|Hne]; [rewrite fn_lookup_insert in Hj; set_solver|].
    by rewrite fn_lookup_insert_ne in Hj.
  - split_and!; [done|done|]. intros q' Hq'. rewrite (append_sends w w' q i link HS HR Hf Hqs q' Hq').
    assert (seg_entry w' i = (i, seg_of a)) as -> by (unfold seg_entry; by rewrite Hs). done.
Qed.
(** A call that only reported kept everything. *)
Lemma rep_quiet w w' : Rep c w → quiet w w' → Rep c w' ∧ sends_keep c w w' ∧ holds_keep c w w'.
Proof.
  intros [HT HS HH] Hq. destruct (quiet_send c w w' Hc Hq HS), (quiet_hold c w w' Hc Hq HH).
  split_and!; [split; [by eapply quiet_table|done..]|done..].
Qed.

Lemma unready_rep w : Table c w → unready w = false.
Proof. intros [H _]. unfold unready. rewrite H. done. Qed.

Lemma free_scan w : SendRep c w → scan (λ i, negb (s_in_use (tget (w_seg w) i))) (Z.to_nat (cf_segs c)) 0 = scan (λ k, negb (queued c w k)) (Z.to_nat (cf_segs c)) 0.
Proof. intros HS. apply scan_ext. intros j Hj. rewrite (queued_mark c w j HS); [done|]. lia. Qed.

Lemma seg_alloc_spec w : Rep c w → io_ok (w_io w) →
  let w' := idemip_tcp_pcb_seg_alloc c w in Rep c w' ∧ alloc_effect c w w' ∧ holds_keep c w w'.
Proof.
  intros HR Hio w'. unfold w'. clear w'. cbv beta delta [idemip_tcp_pcb_seg_alloc].
  match goal with |- context [let _ := ?e in _] => set (w1 := e) end.
  assert (quiet w w1) as Hq by apply quiet_io. destruct (rep_quiet w w1 HR Hq) as (HR1 & Hk1 & Hh1). pose proof HR1 as [HT1 HS1 HH1].
  cbv zeta. rewrite (unready_rep w1 HT1). unfold alloc_effect, can_queue, open_at.
  change (w_io w1) with ((w_io w) <| io_status := IDEMIP_ERR |> <| io_index := NONE |>). set (a := seg_args (w_io w)).
  change (seg_args _) with a. change (TCB w1 (sg_pcb a)) with (TCB w (sg_pcb a)). rewrite Z.leb_antisym. cbn [orb].
  destruct (sg_pcb a <? cf_pcbs c) eqn:Ep; [|by split_and!]. destruct (t_in_use (TCB w (sg_pcb a))) eqn:Eu; [|by split_and!].
  destruct (Bool.eqb _ _); [|by split_and!]. cbn [negb orb andb]. rewrite (free_scan w1 HS1). change (queued c w1) with (queued c w).
  destruct (scan _ _ _) as [k|] eqn:Es.
  - apply scan_Some in Es as (Hk & Hkf & _). apply negb_true_iff in Hkf. change (queued c w k) with (queued c w1 k) in Hkf.
    rewrite (queued_mark c w1 k HS1) in Hkf by lia. apply Z.ltb_lt in Ep.
    destruct (seg_put_spec w1 k HT1 HS1) as (HS' & Hhq & Hs'); [split; [apply Hio|done]|done|lia|done|].
    destruct (hold_quiet_rep w1 _ Hhq HT1 HH1) as (HT' & HH' & Hhk).
    assert (quiet (seg_put c w1 k) (report_at (seg_put c w1 k) k)) as Hq' by apply quiet_io.
    destruct (rep_quiet _ _ (mkRep _ _ HT' HS' HH') Hq') as (HR'' & Hsk & Hhk''). split_and!; [done|done|done| |].
    + intros q Hqr. rewrite (Hsk q Hqr). apply (Hs' q Hqr).
    + intros p Hpr. rewrite (Hhk'' p Hpr). apply (Hhk p Hpr).
  - assert (quiet w1 (report w1 IDEMIP_BUSY)) as Hq' by apply quiet_io. destruct (rep_quiet _ _ HR1 Hq') as (? & ? & ?). by split_and!.
Qed.
(** ** seg_sent *)

(** The queues while row [i], the head of queue [q], is on none. *)
Lemma threads_pop w q i l (t' : list TcpPcbSegFields) :
  SendRep c w → 0 ≤ q < 2 * cf_pcbs c → seg_queue c w q = i :: l → t' = tset (w_seg w) i seg_zero →
  threads t' (λ q', if decide (q' = q) then links s_next (w_seg w) i else seg_head w q') (seg_live w) (<[q := l]> (seg_queue c w)).
Proof.
  intros HS Hq Hr ->. destruct (queue_rows w q i HS Hq) as [Hi _]; [rewrite Hr; left|]. pose proof HS as [Hlen HT _].
  apply (threads_remove (w_seg w) _ (seg_head w) _ (seg_live w) _ (seg_queue c w) q [] l i (links s_next (w_seg w)));
    [done|done|done|apply relinked_row; lia|by rewrite tget_tset_eq by lia|done|done].
Qed.

Lemma relinked_from segs segs' i link s : 0 ≤ i → relinked segs segs' i link → relinked (tset segs i s) segs' i link.
Proof. intros Hi [Hl Hr]. split; [by rewrite tlen_tset|]. intros j Hj Hne. rewrite tget_tset_ne by lia. by apply Hr. Qed.

Lemma sent_move w w' q q2 i l link :
  SendRep c w → 0 ≤ q < 2 * cf_pcbs c → 0 ≤ q2 < 2 * cf_pcbs c → q2 ≠ q → q / 2 = q2 / 2 → seg_live w q2 = true → seg_queue c w q = i :: l →
  relinked (w_seg w) (w_seg w') i link → tget (w_seg w') i = (tget (w_seg w) i) <| s_next := NONE |> →
  (∀ j, 0 ≤ j → j ≠ i → link j = if decide (last (seg_queue c w q2) = Some j) then i else links s_next (w_seg w) j) →
  (∀ q', 0 ≤ q' < 2 * cf_pcbs c → seg_live w' q' = seg_live w q' ∧
     seg_head w' q' = if decide (q' = q2) then match seg_queue c w q2 with [] => i | _ => seg_head w q2 end
                      else if decide (q' = q) then links s_next (w_seg w) i else seg_head w q') →
  SendRep c w' ∧ ∀ q', 0 ≤ q' < 2 * cf_pcbs c →
    sends c w' q' = if q' =? q then seg_entry w <$> l else if q' =? q2 then sends c w q' ++ [seg_entry w i] else sends c w q'.
Proof.
  intros HS Hq Hq2 Hne Hhalf Hl2 Hr HR Hrow Hlink Hh. pose proof HS as [Hlen HT _].
  assert (i ∈ seg_queue c w q) as Hin by (rewrite Hr; left). destruct (queue_rows w q i HS Hq Hin) as [Hi Hui].
  assert (∀ q' j, 0 ≤ q' < 2 * cf_pcbs c → j ∈ seg_queue c w q' → (q' ≠ q ∨ j ∈ l) → 0 ≤ j ∧ j ≠ i) as Hoth.
  { intros q' j Hq' Hj Hor. split; [by apply (queue_rows w q' j HS Hq') in Hj as [? _]; lia|]. intros ->. destruct Hor as [Hn|Hl].
    - apply Hn. by apply (threaded_disjoint _ _ _ _ _ _ _ _ q' q i HT).
    - pose proof (threaded_NoDup _ _ _ _ _ _ _ _ q HT Hq) as Hnd. rewrite Hr in Hnd. by apply NoDup_cons in Hnd as [? _]. }
  set (t1 := tset (w_seg w) i seg_zero). pose proof (threads_pop w q i l t1 HS Hq Hr eq_refl) as HT1.
  set (r1 := <[q := l]> (seg_queue c w)) in *. assert (r1 q2 = seg_queue c w q2) as Er by (unfold r1; by rewrite fn_lookup_insert_ne).
  assert (threads (w_seg w') (seg_head w') (seg_live w') (<[q2 := r1 q2 ++ [i]]> r1)) as HT'.
  { eapply threads_append; [exact HT1|done|done|unfold t1; by rewrite tlen_tset|done|unfold t1; by rewrite tget_tset_eq by lia| | | |].
    - apply relinked_from; [lia|exact HR].
    - rewrite Hrow. by destruct (tget (w_seg w) i); simpl in *; rewrite <- Hui.
    - intros j Hj Hji. rewrite Er, (Hlink j Hj Hji). case_decide; [done|]. unfold links, t1. by rewrite tget_tset_ne by lia.
    - intros q' Hq'. destruct (Hh q' Hq') as [-> ->]. rewrite Er. split; [done|]. repeat case_decide; congruence. }
  destruct (send_splice w w' _ i link HS HR ltac:(lia) HT') as [HS' Hqs].
  - intros q' Hq'. rewrite Hrow. change (s_pcb _) with (s_pcb (tget (w_seg w) i)). rewrite (sr_pcb c w HS q i Hq Hin), Hhalf.
    destruct (decide (q' = q2)) as [->|Hn]; [done|]. rewrite fn_lookup_insert_ne by done. unfold r1. intros Hj. exfalso.
    destruct (decide (q' = q)) as [->|Hn']; [rewrite fn_lookup_insert in Hj; destruct (Hoth q i Hq Hin (or_intror Hj)); done|].
    rewrite fn_lookup_insert_ne in Hj by done. destruct (Hoth q' i Hq' Hj); [by left|done].
  - intros q' j Hq' Hj Hji. destruct (decide (q' = q2)) as [->|Hn].
    + rewrite fn_lookup_insert, Er in Hj. set_solver.
    + rewrite fn_lookup_insert_ne in Hj by done. unfold r1 in Hj. destruct (decide (q' = q)) as [->|Hn'].
      * rewrite fn_lookup_insert in Hj. rewrite Hr. by right.
      * by rewrite fn_lookup_insert_ne in Hj.
  - split; [done|]. intros q' Hq'. rewrite (sends_eq w' q' _ (Hqs q' Hq')).
    assert (seg_entry w' i = seg_entry w i) as Ei by (unfold seg_entry; by rewrite Hrow).
    destruct (Z.eqb_spec q' q) as [->|Hn].
    + rewrite fn_lookup_insert_ne by done. unfold r1. rewrite fn_lookup_insert. eapply relinked_entries; [exact HR|].
      intros j Hj. apply (Hoth q); [done|rewrite Hr; by right|by right].
    + destruct (Z.eqb_spec q' q2) as [->|Hn2].
      * rewrite fn_lookup_insert, Er, fmap_app. cbn [fmap list_fmap]. rewrite Ei. f_equal. eapply relinked_entries; [exact HR|].
        intros j Hj. apply (Hoth q2); [done|done|by left].
      * rewrite fn_lookup_insert_ne by done. unfold r1. rewrite fn_lookup_insert_ne by done. eapply relinked_entries; [exact HR|].
        intros j Hj. apply (Hoth q'); [done|done|by left].
Qed.
(** The state seg_sent leaves once the head of the unsent queue is found, before its report. *)
Lemma sent_core w p i l :
  Table c w → SendRep c w → 0 ≤ p < cf_pcbs c → seg_queue c w (2 * p) = i :: l →
  let s := tget (w_seg w) i in
  let t := (TCB w p) <| t_unsent := s_next s |> in
  let w3 := (put_tcb w p t) <| w_seg := tset (w_seg w) i (s <| s_next := NONE |>) |> in
  ∃ w', (if cf_segs c <=? t_unacked t then Some (put_tcb w3 p (t <| t_unacked := i |>))
         else (λ segs, w3 <| w_seg := segs |>) <$> append_seg c (Z.to_nat (cf_segs c)) (w_seg w3) (t_unacked t) i) = Some w' ∧
    SendRep c w' ∧ hold_quiet w w' ∧
    ∀ q', 0 ≤ q' < 2 * cf_pcbs c →
      sends c w' q' = if q' =? 2 * p then seg_entry w <$> l else if q' =? 2 * p + 1 then sends c w q' ++ [seg_entry w i] else sends c w q'.
Proof.
  intros HT HS Hp Hr s t w3. destruct (queue_no p) as (E1 & E2 & E3 & E4). set (q2 := 2 * p + 1) in *. set (q := 2 * p) in *.
  assert (0 ≤ q < 2 * cf_pcbs c) as Hq by lia. assert (0 ≤ q2 < 2 * cf_pcbs c) as Hq2 by lia.
  assert (i ∈ seg_queue c w q) as Hin by (rewrite Hr; left). destruct (queue_rows w q i HS Hq Hin) as [Hi Hui]. pose proof HS as [Hlen HTh _].
  assert (seg_live w q = true) as Hl by (eapply threaded_live; [exact HTh|done|by rewrite Hr]).
  assert (seg_live w q2 = true) as Hl2 by (unfold seg_live in *; by rewrite E1 in Hl; rewrite E2).
  assert (seg_head w q2 = t_unacked t) as Hh2 by (unfold seg_head; by rewrite E2, E4).
  assert (∀ w4, w_tcb w4 = w_tcb (put_tcb w p t) → ∀ q', 0 ≤ q' < 2 * cf_pcbs c → seg_live w4 q' = seg_live w q' ∧
    seg_head w4 q' = if decide (q' = q) then links s_next (w_seg w) i else seg_head w q') as Hw4.
  { intros w4 H4 q' Hq'. destruct (head_unsent w p (s_next s) q' HT Hp Hq') as [A B]. unfold seg_live, seg_head, TCB in *. rewrite H4. done. }
  assert (hold_quiet w w3) as Hhq3. { apply (hold_quiet_put w p t); [destruct HT as [_ ->]; done|done|done]. }
  assert (i ∉ seg_queue c w q2) as Hni by (intros H2; assert (q2 = q) by (by apply (threaded_disjoint _ _ _ _ _ _ _ _ q2 q i HTh)); lia).
  destruct (queue_rows_len w q2 HS Hq2) as [Hrw Hn]. rewrite <- Hh2, (head_empty w q2 HS Hq2 Hl2).
  destruct (seg_queue c w q2) as [|k l2] eqn:E.
  - exists (put_tcb w3 p (t <| t_unacked := i |>)). split; [done|].
    assert (Table c w3) as HT3 by (destruct HT as [? HTl]; split; [done|rewrite <- HTl; exact (tlen_tset (w_tcb w) p t)]).
    assert (TCB w3 p = t) as Ht. { change (TCB (put_tcb w p t) p = t). rewrite TCB_put; [by rewrite decide_True|destruct HT as [_ ->]; done|lia]. }
    destruct (sent_move w (put_tcb w3 p (t <| t_unacked := i |>)) q q2 i l (links s_next (w_seg w))) as [A B];
      [done|done|done|lia|by rewrite E1, E2|done|done|apply relinked_row; lia|apply tget_tset_eq; lia|by rewrite E| |].
    + intros q' Hq'. pose proof (head_unacked w3 p i q' HT3 Hp Hq') as [U V]. rewrite Ht in U, V. rewrite U, V. rewrite E.
      destruct (Hw4 w3 eq_refl q' Hq') as [-> ->]. by fold q2.
    + split_and!; [done| |done]. destruct HT3 as [_ HL3], HT as [_ HL].
      split; [done..|etrans; [apply tlen_tset|by rewrite HL3, HL]|]. intros j Hj. rewrite TCB_put by (done || rewrite HL3; lia).
      destruct Hhq3 as [_ _ _ Hh3]. destruct (Hh3 j Hj) as [U V]. case_decide; [subst j; rewrite Ht in U, V; done|done].
  - destruct (append_step (w_seg w) q2 (seg_queue c w) (seg_head w) i (s <| s_next := NONE |>)) as (segs' & Hap & Hgi & HR);
      [done|done|by rewrite E|by rewrite E|by rewrite E|by apply queue_chain|by rewrite E|].
    rewrite bool_decide_false by done. set (w4 := w3 <| w_seg := segs' |>). exists w4.
    change (w_seg w3) with (tset (w_seg w) i (s <| s_next := NONE |>)). rewrite Hap. split; [done|].
    destruct (sent_move w w4 q q2 i l (λ j, if decide (last (seg_queue c w q2) = Some j) then i else links s_next (w_seg w) j)) as [A B];
      [done|done|done|lia|by rewrite E1, E2|done|done|done|done|done| |].
    + intros q' Hq'. destruct (Hw4 w4 eq_refl q' Hq') as [-> ->]. rewrite E. split; [done|].
      destruct (decide (q' = q2)) as [->|]; [by rewrite decide_False by lia|done].
    + split_and!; [done| |done]. destruct Hhq3 as [? ? ? ?]. by split.
Qed.
(** A queued row names the connection whose queue it is on. *)
Lemma queued_on w k : SendRep c w → 0 ≤ k < cf_segs c → s_in_use (tget (w_seg w) k) = true →
  ∃ q, 0 ≤ q < 2 * cf_pcbs c ∧ k ∈ seg_queue c w q ∧ s_pcb (tget (w_seg w) k) = q / 2.
Proof.
  intros HS Hk Hu. pose proof HS as [Hl HT _]. destruct (threaded_on _ _ _ _ _ _ _ _ k HT ltac:(lia) Hu) as (q & Hq & Hin).
  exists q. split_and!; [lia|lia|done|]. by apply (sr_pcb c w HS).
Qed.

Lemma sends_head w q e l : sends c w q = e :: l → ∃ k l', seg_queue c w q = k :: l' ∧ e = seg_entry w k ∧ l = seg_entry w <$> l'.
Proof. unfold sends. destruct (seg_queue c w q) as [|k l']; [done|]. intros [= <- <-]. eauto. Qed.

Lemma seg_sent_spec w : Rep c w → io_ok (w_io w) →
  let w' := idemip_tcp_pcb_seg_sent c w in Rep c w' ∧ sent_effect c w w' ∧ holds_keep c w w'.
Proof.
  intros HR Hio w'. unfold w'. clear w'. cbv beta delta [idemip_tcp_pcb_seg_sent].
  match goal with |- context [let _ := ?e in _] => set (w1 := e) end.
  assert (quiet w w1) as Hq by apply quiet_io. destruct (rep_quiet w w1 HR Hq) as (HR1 & Hk1 & Hh1). pose proof HR1 as [HT1 HS1 HH1].
  set (k := sg_index (seg_args (w_io w))). assert (0 ≤ k) as Hk0 by apply Hio.
  assert ((∀ p l, 0 ≤ p < cf_pcbs c → seg_queue c w1 (2 * p) ≠ k :: l) →
    Rep c w1 ∧ sent_effect c w w1 ∧ holds_keep c w w1) as Herr.
  { intros Hno. split_and!; [done| |done]. right. split_and!; [|done|done]. intros p e l Hp (k' & l' & E & -> & _)%sends_head Hk'.
    apply (Hno p l' Hp). etrans; [exact E|]. f_equal. exact Hk'. }
  cbv zeta. rewrite (unready_rep w1 HT1). change (sg_index (seg_args (w_io w1))) with k. cbn [orb].
  destruct (cf_segs c <=? k) eqn:Ek; bool_prop.
  { apply Herr. intros p l Hp E. destruct (queue_rows w1 (2 * p) k HS1) as [? _]; [lia|rewrite E; left|lia]. }
  destruct (s_in_use (tget (w_seg w1) k)) eqn:Eu; cbn [negb orb].
  2: { apply Herr. intros p l Hp E. destruct (queue_rows w1 (2 * p) k HS1) as [_ ?]; [lia|rewrite E; left|congruence]. }
  destruct (queued_on w1 k HS1) as (q & Hqr & Hin & Hpq); [lia|done|]. rewrite Hpq. pose proof (half_range _ _ Hqr) as Hp.
  rewrite (proj2 (Z.leb_gt _ _)) by lia. set (p := q / 2) in *.
  destruct (queue_no p) as (E1 & E2 & E3 & E4). assert (0 ≤ 2 * p < 2 * cf_pcbs c) as Hq2 by lia.
  assert (seg_live w1 (2 * p) = true) as Hl.
  { assert (seg_live w1 q = true) as Hlq by (eapply threaded_live; [apply HS1|done|]; intros E; rewrite E in Hin; by apply not_elem_of_nil in Hin).
    unfold seg_live in *. by rewrite E1. }
  assert (seg_head w1 (2 * p) = t_unsent (TCB w1 p)) as Hh by (unfold seg_head; by rewrite E1, E3).
  pose proof (queue_chain w1 (2 * p) HS1 Hq2 Hl) as Hch. rewrite Hh in Hch. destruct (Z.eqb_spec (t_unsent (TCB w1 p)) k) as [Ehd|Ehd].
  2: { apply Herr. intros p' l Hp' E.
    assert (q = 2 * p') as -> by (apply (threaded_disjoint _ _ _ _ _ _ _ _ q (2 * p') k (sr_thread c w1 HS1)); [done|lia|done|rewrite E; left]).
    unfold p in *. rewrite (proj1 (queue_no p')) in *. rewrite E in Hch. apply Ehd. apply Hch. }
  destruct (seg_queue c w1 (2 * p)) as [|k' l] eqn:E.
  { exfalso. rewrite Hch in Ehd. destruct Hc as (_ & _ & ? & _). lia. }
  assert (k' = k) as -> by (destruct Hch; congruence). cbn [negb].
  destruct (sent_core w1 p k l HT1 HS1 Hp E) as (w' & Hw' & HS' & Hhq & Hs'). destruct (hold_quiet_rep w1 w' Hhq HT1 HH1) as (HT' & HH' & Hhk).
  assert (quiet w' (report w' IDEMIP_OK)) as Hq' by apply quiet_io.
  destruct (rep_quiet _ _ (mkRep _ _ HT' HS' HH') Hq') as (HR'' & Hsk & Hhk'').
  match goal with |- Rep c ?x ∧ _ => assert (x = report w' IDEMIP_OK) as -> end.
  { destruct (cf_segs c <=? _); [by injection Hw' as <-|]. destruct (append_seg _ _ _ _ _); [|done]. by injection Hw' as <-. }
  split_and!; [done| |].
  - left. exists p, (seg_entry w k).2, (seg_entry w <$> l). split_and!; [lia|lia| |done|].
    + change (sends c w1 (2 * p) = (seg_entry w1 k) :: (seg_entry w1 <$> l)). unfold sends. by rewrite E.
    + intros q' Hqr'. rewrite (Hsk q' Hqr'). apply (Hs' q' Hqr').
  - intros p' Hp'. rewrite (Hhk'' p' Hp'). apply (Hhk p' Hp').
Qed.
(** ** seg_free *)
(** Row [i] leaves queue [q]. *)
Lemma free_splice w w' q l1 l2 i link :
  SendRep c w → 0 ≤ q < 2 * cf_pcbs c → seg_queue c w q = l1 ++ i :: l2 → relinked (w_seg w) (w_seg w') i link →
  s_in_use (tget (w_seg w') i) = false →
  (∀ j, 0 ≤ j → j ≠ i → link j = if decide (last l1 = Some j) then links s_next (w_seg w) i else links s_next (w_seg w) j) →
  (∀ q', 0 ≤ q' < 2 * cf_pcbs c → seg_live w' q' = seg_live w q' ∧
     seg_head w' q' = if decide (q' = q) then match l1 with [] => links s_next (w_seg w) i | _ => seg_head w q end else seg_head w q') →
  SendRep c w' ∧ ∀ q', 0 ≤ q' < 2 * cf_pcbs c → sends c w' q' = filter (λ e, e.1 ≠ i) (sends c w q').
Proof.
  intros HS Hq Hr HR Hf Hlink Hh. pose proof HS as [Hlen HT _]. assert (i ∈ seg_queue c w q) as Hin by (rewrite Hr; set_solver).
  destruct (queue_rows w q i HS Hq Hin) as [Hi _]. pose proof (threaded_NoDup _ _ _ _ _ _ _ _ q HT Hq) as Hnd. rewrite Hr in Hnd.
  assert (i ∉ l1 ++ l2) as Hni by (rewrite <- Permutation_middle in Hnd; by apply NoDup_cons in Hnd as [? _]).
  assert (∀ q', 0 ≤ q' < 2 * cf_pcbs c → q' ≠ q → i ∉ seg_queue c w q') as Hoth.
  { intros q' Hq' Hne H'. apply Hne. by apply (threaded_disjoint _ _ _ _ _ _ _ _ q' q i HT). }
  pose proof (threads_remove (w_seg w) (w_seg w') _ (seg_head w') _ (seg_live w') _ q l1 l2 i link HT Hq Hr HR Hf Hlink Hh) as HT'.
  destruct (send_splice w w' _ i link HS HR ltac:(lia) HT') as [HS' Hqs].
  - intros q' Hq' Hin'. exfalso. destruct (decide (q' = q)) as [->|Hne]; [by rewrite fn_lookup_insert in Hin'|].
    rewrite fn_lookup_insert_ne in Hin' by done. by apply (Hoth q' Hq').
  - intros q' j Hq' Hj Hji. destruct (decide (q' = q)) as [->|Hne]; [rewrite fn_lookup_insert in Hj; rewrite Hr; set_solver|].
    by rewrite fn_lookup_insert_ne in Hj.
  - split; [done|]. intros q' Hq'. rewrite (sends_eq w' q' _ (Hqs q' Hq')). unfold sends at 1.
    destruct (decide (q' = q)) as [->|Hne].
    + rewrite fn_lookup_insert, Hr, filter_out by done. eapply relinked_entries; [exact HR|]. intros j Hj. split; [|set_solver].
      apply (queue_rows w q j HS Hq). rewrite Hr. set_solver.
    + rewrite fn_lookup_insert_ne by done. rewrite filter_absent by auto. eapply relinked_entries; [exact HR|]. intros j Hj.
      split; [by apply (queue_rows w q' j HS Hq')|]. intros ->. by apply (Hoth q' Hq').
Qed.
(** Looking for row [i] on the queue that has it, and on one that has not. *)
Lemma unlink_found w q l1 i l2 :
  SendRep c w → 0 ≤ q < 2 * cf_pcbs c → seg_live w q = true → seg_queue c w q = l1 ++ i :: l2 →
  match l1 with
  | [] => seg_head w q = i
  | _ => seg_head w q ≠ i ∧ ∃ j, last l1 = Some j ∧
      unlink_seg c (Z.to_nat (cf_segs c)) (w_seg w) i (seg_head w q) =
        Some (tset (w_seg w) j ((tget (w_seg w) j) <| s_next := links s_next (w_seg w) i |>))
  end.
Proof.
  intros HS Hq Hl Hr. pose proof (queue_chain w q HS Hq Hl) as Hch. destruct (queue_rows_len w q HS Hq) as [Hrw Hn]. rewrite Hr in *.
  destruct l1 as [|a l1]; [by destruct Hch|]. split.
  - destruct Hch as (-> & _ & Hch). intros ->. pose proof (chain_NoDup _ _ _ _ (queue_chain w q HS Hq Hl)) as Hnd. rewrite Hr in Hnd.
    apply NoDup_cons in Hnd as [Hnd _]. set_solver.
  - destruct (before_row_found (Z.to_nat (cf_segs c)) _ _ _ (a :: l1) i l2 Hch Hrw) as (j & Hj & Hlast); [done|rewrite length_app in Hn; lia|].
    exists j. split; [done|]. by rewrite unlink_seg_row, Hj.
Qed.

Lemma unlink_absent w q i :
  SendRep c w → 0 ≤ q < 2 * cf_pcbs c → seg_live w q = true → i ∉ seg_queue c w q → 0 ≤ i < cf_segs c →
  seg_head w q ≠ i ∧ unlink_seg c (Z.to_nat (cf_segs c)) (w_seg w) i (seg_head w q) = None.
Proof.
  intros HS Hq Hl Hni Hi. pose proof (queue_chain w q HS Hq Hl) as Hch. destruct (queue_rows_len w q HS Hq) as [Hrw Hn]. split.
  - destruct (seg_queue c w q) as [|a l]; [rewrite Hch; destruct Hc as (_ & _ & ? & _); lia|]. destruct Hch as (-> & _). set_solver.
  - by rewrite unlink_seg_row, (before_row_absent _ _ _ _ (seg_queue c w q)).
Qed.

(** What the unlink leaves. *)
Definition unlinked w q l1 i w1 : Prop :=
  hold_quiet w w1 ∧
  (∃ link, relinked (w_seg w) (w_seg w1) i link ∧
     ∀ j, 0 ≤ j → j ≠ i → link j = if decide (last l1 = Some j) then links s_next (w_seg w) i else links s_next (w_seg w) j) ∧
  (∀ q', 0 ≤ q' < 2 * cf_pcbs c → seg_live w1 q' = seg_live w q' ∧
     seg_head w1 q' = if decide (q' = q) then match l1 with [] => links s_next (w_seg w) i | _ => seg_head w q end else seg_head w q').

Lemma unlinked_inner w q l1 l2 i j :
  SendRep c w → 0 ≤ q < 2 * cf_pcbs c → seg_queue c w q = l1 ++ i :: l2 → l1 ≠ [] → last l1 = Some j →
  unlinked w q l1 i (w <| w_seg := tset (w_seg w) j ((tget (w_seg w) j) <| s_next := links s_next (w_seg w) i |>) |>).
Proof.
  intros HS Hq Hr Hne Hj. pose proof HS as [Hlen HT _]. pose proof (threaded_NoDup _ _ _ _ _ _ _ _ q HT Hq) as Hnd. rewrite Hr in Hnd.
  apply NoDup_app in Hnd as (_ & Hd & _). assert (j ∈ l1) as Hjl by (apply last_Some in Hj as [l' ->]; set_solver).
  assert (j ≠ i) as Hji by (intros ->; apply (Hd i Hjl); left).
  destruct (queue_rows w q j HS Hq) as [Hjr _]; [rewrite Hr; set_solver|]. split_and!; [by split| |].
  - exists (λ k, if decide (k = j) then links s_next (w_seg w) i else links s_next (w_seg w) k). split.
    + destruct (relinked_link (w_seg w) (w_seg w) i (links s_next (w_seg w)) j (links s_next (w_seg w) i)) as [A B]; [|lia|done|by split].
      split; [done|]. intros k Hk _. symmetry. apply seg_same_link.
    + intros k Hk Hki. rewrite Hj. repeat case_decide; congruence.
  - intros q' Hq'. split; [done|]. destruct l1; [done|]. destruct (decide (q' = q)) as [->|]; done.
Qed.

Lemma seg_unlink_spec w q l1 i l2 :
  Table c w → SendRep c w → 0 ≤ q < 2 * cf_pcbs c → seg_queue c w q = l1 ++ i :: l2 →
  ∃ w1, tcp_pcb_seg_unlink c w (q / 2) i = Some w1 ∧ unlinked w q l1 i w1.
Proof.
  intros HT HS Hq Hr. set (p := q / 2). destruct (queue_no p) as (E1 & E2 & E3 & E4). pose proof (half_range _ _ Hq) as Hp. fold p in Hp.
  pose proof HS as [Hlen HTh _]. assert (i ∈ seg_queue c w q) as Hin by (rewrite Hr; set_solver).
  destruct (queue_rows w q i HS Hq Hin) as [Hi _].
  assert (seg_live w q = true) as Hl by (eapply threaded_live; [exact HTh|done|rewrite Hr; by destruct l1]).
  assert (seg_live w (2 * p) = true) as Hl0 by (unfold seg_live in *; by rewrite E1).
  assert (seg_live w (2 * p + 1) = true) as Hl1 by (unfold seg_live in *; by rewrite E2).
  assert (seg_head w (2 * p) = t_unsent (TCB w p)) as Hh0 by (unfold seg_head; by rewrite E1, E3).
  assert (seg_head w (2 * p + 1) = t_unacked (TCB w p)) as Hh1 by (unfold seg_head; by rewrite E2, E4).
  unfold tcp_pcb_seg_unlink. rewrite <- Hh0, <- Hh1. destruct (queue_cases q) as [Eq|Eq]; fold p in Eq.
  - rewrite <- Eq. pose proof (unlink_found w q l1 i l2 HS Hq Hl Hr) as Hf. destruct l1 as [|a l1].
    + rewrite Hf, Z.eqb_refl. eexists. split; [done|]. split_and!.
      * apply (hold_quiet_put w p _ (w_seg w)); [destruct HT as [_ ->]; done|done|done].
      * exists (links s_next (w_seg w)). split; [|done]. split; [done|]. intros k Hk _. symmetry. apply seg_same_link.
      * intros q' Hq'. rewrite Eq. apply (head_unsent w p (links s_next (w_seg w) i) q' HT Hp Hq').
    + destruct Hf as (Hne & j & Hj & Hu). rewrite (proj2 (Z.eqb_neq _ _)), Hu by done. eexists. split; [done|]. by eapply unlinked_inner.
  - assert (0 ≤ 2 * p < 2 * cf_pcbs c) as Hq0 by lia.
    assert (i ∉ seg_queue c w (2 * p)) as Hni.
    { intros H0. assert (q = 2 * p) by (by apply (threaded_disjoint _ _ _ _ _ _ _ _ q (2 * p) i HTh)). lia. }
    destruct (unlink_absent w (2 * p) i HS Hq0 Hl0 Hni Hi) as [Hne0 Hu0]. rewrite (proj2 (Z.eqb_neq _ _)), Hu0 by done.
    rewrite <- Eq. pose proof (unlink_found w q l1 i l2 HS Hq Hl Hr) as Hf. destruct l1 as [|a l1].
    + rewrite Hf, Z.eqb_refl. eexists. split; [done|]. split_and!.
      * apply (hold_quiet_put w p _ (w_seg w)); [destruct HT as [_ ->]; done|done|done].
      * exists (links s_next (w_seg w)). split; [|done]. split; [done|]. intros k Hk _. symmetry. apply seg_same_link.
      * intros q' Hq'. rewrite Eq. apply (head_unacked w p (links s_next (w_seg w) i) q' HT Hp Hq').
    + destruct Hf as (Hne & j & Hj & Hu). rewrite (proj2 (Z.eqb_neq _ _)), Hu by done. eexists. split; [done|]. by eapply unlinked_inner.
Qed.
End Send.
End TcpPcbSend.
