(* ===== verification/TcpPcbSendOps.v ===== *)
(** * The send queues: seg_free, seg_load, close, open and clear

    The remaining calls that read or change the send queues, each with what it does to every queue. *)
From stdpp Require Import functions.
From S2P Require Import Prelude Chain TcpTypes TcpPcb Threaded TcpPcbRep TcpPcbSend.

Module TcpPcbSendOps.
Import TcpPcb TcpPcbQueue TcpPcbRep TcpPcbKeep TcpPcbSend.

Local Abbreviation NONE := IDEMIP_TCP_PCB_NONE.

(** Past the reset of the report, with the invariant of the state there. *)
Ltac enter_rep Hc w HR :=
  let w1 := fresh "w1" in let Hq := fresh "Hq" in let HR1 := fresh "HR1" in let Hk1 := fresh "Hk1" in let Hh1 := fresh "Hh1" in
  let HT1 := fresh "HT1" in let HS1 := fresh "HS1" in let HH1 := fresh "HH1" in
  match goal with |- context [let _ := ?e in _] => set (w1 := e) end;
  assert (quiet w w1) as Hq by apply quiet_io;
  destruct (rep_quiet _ Hc w w1 HR Hq) as (HR1 & Hk1 & Hh1); pose proof HR1 as [HT1 HS1 HH1];
  cbv zeta; rewrite (unready_rep _ w1 HT1).

Section Ops.
Variable c : config.
Hypothesis Hc : config_ok c.
Implicit Types (w : Work) (q p k i : Z).

Lemma queued_split w k : SendRep c w → queued c w k = true → ∃ q l1 l2, 0 ≤ q < 2 * cf_pcbs c ∧ seg_queue c w q = l1 ++ k :: l2.
Proof.
  intros HS (q & Hq%list_elem_of_In%elem_of_seqZ & (l1 & l2 & E)%bool_decide_eq_true%list_elem_of_split)%existsb_exists.
  exists q, l1, l2. split; [lia|done].
Qed.

Lemma queued_not w q k : SendRep c w → 0 ≤ q < 2 * cf_pcbs c → queued c w k = false → k ∉ seg_queue c w q.
Proof.
  intros HS Hq Hn Hin. apply not_true_iff_false in Hn. apply Hn, existsb_exists. exists q.
  split; [apply list_elem_of_In, elem_of_seqZ; lia|by apply bool_decide_eq_true].
Qed.

Lemma sends_filter_absent w k : SendRep c w → queued c w k = false →
  ∀ q, 0 ≤ q < 2 * cf_pcbs c → sends c w q = filter (λ e, e.1 ≠ k) (sends c w q).
Proof. intros HS Hn q Hq. unfold sends. rewrite (filter_absent (seg_entry w)); [done|done|]. by eapply queued_not. Qed.

Lemma seg_free_spec w : Rep c w → io_ok (w_io w) →
  let w' := idemip_tcp_pcb_seg_free c w in Rep c w' ∧ seg_free_effect c w w' ∧ holds_keep c w w'.
Proof.
  intros HR Hio w'. unfold w'. clear w'. cbv beta delta [idemip_tcp_pcb_seg_free]. enter_rep Hc w HR.
  change (sg_index (seg_args (w_io w1))) with (sg_index (seg_args (w_io w))). unfold seg_free_effect.
  set (k := sg_index (seg_args (w_io w))). assert (0 ≤ k) as Hk0 by apply Hio. cbn [orb].
  change (queued c w k) with (queued c w1 k).
  assert (queued c w1 k = false → Rep c w1 ∧ (io_status (w_io w1) = (if queued c w1 k then IDEMIP_OK else IDEMIP_ERR) ∧
    ∀ q, 0 ≤ q < 2 * cf_pcbs c → sends c w1 q = filter (λ e, e.1 ≠ k) (sends c w1 q)) ∧ holds_keep c w w1) as Herr.
  { intros Hn. rewrite Hn. split_and!; [done|done|by apply sends_filter_absent|done]. }
  destruct (Z.leb_spec (cf_segs c) k) as [Hle|Hlt]; [by apply Herr, queued_range|].
  pose proof (queued_mark c w1 k HS1 ltac:(lia)) as Hm. destruct (s_in_use (tget (w_seg w1) k)) eqn:Eu; [|by apply Herr].
  cbn [negb orb]. destruct (queued_split w1 k HS1 Hm) as (q & l1 & l2 & Hqr & Er).
  assert (k ∈ seg_queue c w1 q) as Hin by (rewrite Er; set_solver). rewrite (sr_pcb c w1 HS1 q k Hqr Hin).
  pose proof (half_range _ _ Hqr) as Hp. rewrite (proj2 (Z.leb_gt _ _)) by lia.
  destruct (seg_unlink_spec c Hc w1 q l1 k l2 HT1 HS1 Hqr Er) as (w2 & -> & Hhq & (link & Hrl & Hlink) & Hheads).
  set (w3 := w2 <| w_seg := tset (w_seg w2) k seg_zero |>).
  assert (hold_quiet w1 w3) as Hhq3 by (destruct Hhq; by split).
  destruct (hold_quiet_rep c Hc w1 w3 Hhq3 HT1 HH1) as (HT3 & HH3 & Hhk).
  destruct (free_splice c Hc w1 w3 q l1 l2 k link HS1 Hqr Er) as [HS3 Hs3]; [by apply relinked_self| |done|exact Hheads|].
  { change (w_seg w3) with (tset (w_seg w2) k seg_zero). rewrite tget_tset_eq; [done|]. destruct Hrl as [-> _]. rewrite (sr_len c w1 HS1). lia. }
  assert (quiet w3 (report w3 IDEMIP_OK)) as Hq' by apply quiet_io.
  destruct (rep_quiet c Hc _ _ (mkRep _ _ HT3 HS3 HH3) Hq') as (HR'' & Hsk & Hhk''). rewrite Hm. split_and!; [done|done| |].
  - intros q' Hqr'. rewrite (Hsk q' Hqr'). apply (Hs3 q' Hqr').
  - intros p' Hp'. rewrite (Hhk'' p' Hp'). apply (Hhk p' Hp').
Qed.

(** ** seg_load *)
Lemma sends_split w q l1 k s l2 : sends c w q = l1 ++ (k, s) :: l2 →
  ∃ l1' l2', seg_queue c w q = l1' ++ k :: l2' ∧ (k, s) = seg_entry w k ∧ l2 = seg_entry w <$> l2'.
Proof.
  unfold sends. intros (l1' & r & _ & Hr & ->)%fmap_app_inv. symmetry in Hr. apply fmap_cons_inv in Hr as (k' & l2' & Ek & -> & ->).
  assert (k' = k) as -> by (by injection Ek). eauto.
Qed.

Lemma fst_entries w (l : list Z) : (seg_entry w <$> l).*1 = l.
Proof. rewrite <- list_fmap_compose. by apply list_fmap_id. Qed.

Lemma seg_load_spec w : Rep c w → io_ok (w_io w) →
  let w' := idemip_tcp_pcb_seg_load c w in Rep c w' ∧ seg_load_effect c w w' ∧ holds_keep c w w'.
Proof.
  intros HR Hio w'. assert (quiet w w') as Hqt by (apply (seg_load_quiet c w); [apply HR|done]).
  destruct (rep_quiet c Hc w w' HR Hqt) as (HR' & Hsk & Hhk). split_and!; [done| |done]. split; [done|]. unfold w'.
  clear Hqt Hsk Hhk HR' w'. cbv beta delta [idemip_tcp_pcb_seg_load]. enter_rep Hc w HR.
  change (sg_index (seg_args (w_io w1))) with (sg_index (seg_args (w_io w))).
  set (k := sg_index (seg_args (w_io w))). assert (0 ≤ k) as Hk0 by apply Hio. cbn [orb]. change (queued c w k) with (queued c w1 k).
  assert (∀ q l1 s l2, 0 ≤ q < 2 * cf_pcbs c → sends c w q = l1 ++ (k, s) :: l2 → queued c w1 k = true ∧ s_pcb (tget (w_seg w1) k) = q / 2 ∧
    links s_next (w_seg w1) k = first_of NONE l2.*1 ∧ (k, s) = seg_entry w1 k) as Hon.
  { intros q l1 s l2 Hqr (l1' & l2' & Er & Es & ->)%(sends_split w1). assert (k ∈ seg_queue c w1 q) as Hin by (rewrite Er; set_solver).
    split_and!; [| |rewrite fst_entries|done].
    - apply existsb_exists. exists q. split; [apply list_elem_of_In, elem_of_seqZ; lia|by apply bool_decide_eq_true].
    - by apply (sr_pcb c w1 HS1).
    - pose proof (sr_thread c w1 HS1) as HTh. assert (seg_live w1 q = true) as Hl by (eapply threaded_live; [exact HTh|done|rewrite Er; by destruct l1']).
      pose proof (queue_chain c w1 q HS1 Hqr Hl) as Hch. rewrite Er in Hch. by apply chain_suffix in Hch as [_ ?]. }
  assert (queued c w1 k = false → io_status (w_io w1) = (if queued c w1 k then IDEMIP_OK else IDEMIP_ERR) ∧
    ∀ q l1 s l2, 0 ≤ q < 2 * cf_pcbs c → sends c w q = l1 ++ (k, s) :: l2 →
    io_seg (w_io w1) = mkSegInfo (s_data s) (s_seq s) (first_of NONE l2.*1) (q / 2) (s_len s) (s_flags s) (s_opts s)) as Herr.
  { intros Hn. rewrite Hn. split; [done|]. intros q l1 s l2 Hqr Es. destruct (Hon q l1 s l2 Hqr Es). congruence. }
  destruct (Z.leb_spec (cf_segs c) k) as [Hle|Hlt]; [by apply Herr, queued_range|].
  pose proof (queued_mark c w1 k HS1 ltac:(lia)) as Hm. destruct (s_in_use (tget (w_seg w1) k)) eqn:Eu; [|by apply Herr].
  cbn [negb orb]. rewrite Hm. split; [done|]. intros q l1 s l2 Hqr Es. destruct (Hon q l1 s l2 Hqr Es) as (_ & Hp & Hnx & Hk).
  rewrite <- Hp, <- Hnx. injection Hk as ->. done.
Qed.
(** ** open *)
Lemma send_open w i t :
  Table c w → SendRep c w → 0 ≤ i < cf_pcbs c → t_in_use (TCB w i) = false → t_in_use t = true → t_unsent t = NONE → t_unacked t = NONE →
  SendRep c (put_tcb w i t) ∧ sends_keep c w (put_tcb w i t).
Proof.
  intros [_ HL] HS Hi Hf Ht Hu Ha. pose proof HS as [Hlen HT Hp].
  destruct (send_rep_of c Hc (put_tcb w i t) (seg_queue c w)) as [HR Hqs]; [done| |done|].
  - apply (threaded_heads _ _ _ _ _ _ _ _ _ _ HT). intros q Hq. pose proof (half_range _ _ Hq). unfold seg_live, seg_head. rewrite TCB_put by lia.
    destruct (decide (q / 2 = i)) as [<-|Hne].
    + rewrite Ht, Hu, Ha. right. split; [unfold seg_queue, seg_live; by rewrite Hf|by destruct (Z.even q)].
    + destruct (t_in_use (TCB w (q / 2))) eqn:E; [by left|]. unfold seg_queue, seg_live. by rewrite E.
  - split; [done|]. intros q Hq. unfold sends. rewrite Hqs by done. done.
Qed.

Lemma hold_open w i t :
  Table c w → HoldRep c w → 0 ≤ i < cf_pcbs c → t_in_use (TCB w i) = false → t_in_use t = true → t_ooseq t = NONE →
  HoldRep c (put_tcb w i t) ∧ holds_keep c w (put_tcb w i t).
Proof.
  intros [_ HL] HS Hi Hf Ht Ho. pose proof HS as [Hlen HT Hp Hb].
  destruct (hold_rep_of c Hc (put_tcb w i t) (oos_queue c w)) as [HR Hqs]; [done| |done|done|].
  - apply (threaded_heads _ _ _ _ _ _ _ _ _ _ HT). intros q Hq. unfold oos_live, oos_head. rewrite TCB_put by lia.
    destruct (decide (q = i)) as [->|Hne].
    + rewrite Ht, Ho. right. split; [unfold oos_queue, oos_live; by rewrite Hf|done].
    + destruct (t_in_use (TCB w q)) eqn:E; [by left|]. unfold oos_queue, oos_live. by rewrite E.
  - split; [done|]. intros q Hq. unfold holds. rewrite Hqs by done. done.
Qed.

Lemma pcb_open_spec w : Rep c w →
  let w' := idemip_tcp_pcb_open c w in Rep c w' ∧ sends_keep c w w' ∧ holds_keep c w w'.
Proof.
  intros HR w'. unfold w'. clear w'. cbv beta delta [idemip_tcp_pcb_open]. enter_rep Hc w HR.
  destruct (tcp_pcb_addr_bytes _ _ =? 0); [done|]. destruct (scan _ _ _) as [i|] eqn:Es.
  - apply scan_Some in Es as (Hi & Hf & _). apply negb_true_iff in Hf. assert (0 ≤ i < cf_pcbs c) as Hi' by lia.
    set (w2 := put_tcb w1 i (open_tcb c (open_version (w_io w1)))).
    destruct (send_open w1 i (open_tcb c (open_version (w_io w1))) HT1 HS1 Hi' Hf eq_refl eq_refl eq_refl) as [HS2 Hs2].
    destruct (hold_open w1 i (open_tcb c (open_version (w_io w1))) HT1 HH1 Hi' Hf eq_refl eq_refl) as [HH2 Hh2].
    assert (Table c w2) as HT2. { destruct HT1 as [? HL]. split; [done|]. rewrite <- HL. apply tlen_tset. }
    assert (quiet w2 (report_at w2 i)) as Hq' by apply quiet_io.
    destruct (rep_quiet c Hc _ _ (mkRep _ _ HT2 HS2 HH2) Hq') as (HR'' & Hsk & Hhk). split_and!; [done| |].
    + intros q Hqr. rewrite (Hsk q Hqr). apply (Hs2 q Hqr).
    + intros p Hp. rewrite (Hhk p Hp). apply (Hh2 p Hp).
  - assert (quiet w1 (report w1 IDEMIP_BUSY)) as Hq' by apply quiet_io. destruct (rep_quiet c Hc _ _ HR1 Hq') as (? & ? & ?). by split_and!.
Qed.

(** ** clear *)
Lemma threaded_empty {A} `{Inhabited A} (next : A → Z) (busy : A → bool) n (t : list A) head live :
  (∀ k, 0 ≤ k < tlen t → busy (tget t k) = false) → (∀ q, 0 ≤ q < n → live q = false) →
  threaded NONE next busy n t head live (λ _, []).
Proof.
  intros Hb Hl. split; [|intros q Hq; by rewrite Hl]. assert (owned n (λ _, []) = @nil Z) as ->.
  { unfold owned. induction (seqZ 0 n) as [|x l IH]; [done|]. by rewrite bind_cons, IH. }
  split; [constructor|]. intros k. split; [intros H'; by apply not_elem_of_nil in H'|]. intros [Hk Hm]. unfold marks in Hm. by rewrite Hb in Hm.
Qed.

Lemma zeroes {A} `{Inhabited A} (busy : A → bool) (x : A) n t :
  t = replicate n x → busy x = false → ∀ k, 0 ≤ k < tlen t → busy (tget t k) = false.
Proof. intros -> Hx k Hk. unfold tlen in Hk. rewrite length_replicate in Hk. by rewrite tget_replicate. Qed.

Lemma pcb_clear_spec w :
  let w' := idemip_tcp_pcb_clear c w in Rep c w' ∧ (∀ q, 0 ≤ q < 2 * cf_pcbs c → sends c w' q = []) ∧ (∀ p, 0 ≤ p < cf_pcbs c → holds c w' p = []).
Proof.
  intros w'. destruct Hc as (HP & _ & HS & HO & HE). assert (0 ≤ TCP_PCB_OOSEQ_ENTRIES c) as HE0 by (unfold TCP_PCB_OOSEQ_ENTRIES; lia).
  assert (∀ (A : Type) n (x : A), 0 ≤ n → tlen (replicate (Z.to_nat n) x) = n) as Hlen.
  { intros A n x Hn. unfold tlen. rewrite length_replicate. lia. }
  assert (∀ p, 0 ≤ p < cf_pcbs c → t_in_use (TCB w' p) = false) as Hu.
  { intros p Hp. change (TCB w' p) with (tget (replicate (Z.to_nat (cf_pcbs c)) tcb_zero) p). rewrite tget_replicate; [done|lia]. }
  destruct (send_rep_of c Hc w' (λ _, [])) as [HS' Hqs]; [exact (Hlen _ (cf_segs c) seg_zero ltac:(lia))| |set_solver|].
  { apply threaded_empty; [|intros q Hq; apply Hu, half_range, Hq]. by eapply (zeroes s_in_use seg_zero). }
  destruct (hold_rep_of c Hc w' (λ _, [])) as [HH' Hhs]; [exact (Hlen _ (TCP_PCB_OOSEQ_ENTRIES c) oos_zero HE0)| |set_solver|done|].
  { apply threaded_empty; [|intros q Hq; by apply Hu]. by eapply (zeroes o_in_use oos_zero). }
  split_and!.
  - split; [split; [done|exact (Hlen _ (cf_pcbs c) tcb_zero ltac:(lia))]|done|done].
  - intros q Hq. unfold sends. by rewrite Hqs.
  - intros p Hp. unfold holds. by rewrite Hhs.
Qed.
(** ** close *)
Local Abbreviation threads := (threaded NONE s_next s_in_use (2 * cf_pcbs c)).

(** One queue freed. *)
Lemma threads_free (t : list TcpPcbSegFields) head live r q :
  threads t head live r → tlen t = cf_segs c → 0 ≤ q < 2 * cf_pcbs c → live q = true →
  let t' := free_queue c (Z.to_nat (cf_segs c)) t (head q) in
  tlen t' = cf_segs c ∧ (∀ k, 0 ≤ k → tget t' k = if decide (k ∈ r q) then seg_zero else tget t k) ∧
  threads t' (λ q', if decide (q' = q) then NONE else head q') live (<[q := []]> r).
Proof.
  intros HT Hlen Hq Hl t'. pose proof (segs_bound c Hc). pose proof (threaded_length _ _ _ _ _ _ _ _ q HT Hq) as Hn.
  pose proof (threaded_rows s_next s_in_use _ t head live r q _ HT Hq Hlen ltac:(lia)) as Hr.
  pose proof HT as [_ Hch]. specialize (Hch q Hq). rewrite Hl in Hch.
  destruct (free_queue_spec c (Z.to_nat (cf_segs c)) t (head q) (r q) Hch Hr Hlen) as [Hlen' Hg]; [lia|]. fold t' in Hlen', Hg.
  split_and!; [lia|done|].
  apply (threaded_drain NONE s_next s_in_use (2 * cf_pcbs c) t t' head _ live live r q HT Hq Hlen'); [|done|by rewrite decide_True|].
  - intros k Hk. unfold marks, links. rewrite Hg by done. by case_decide.
  - intros q' Hq' Hne. by rewrite decide_False.
Qed.

Lemma close_queues w p :
  Table c w → SendRep c w → 0 ≤ p < cf_pcbs c → t_in_use (TCB w p) = true →
  let w' := put_tcb (tcp_pcb_send_queues_free c w p) p tcb_zero in
  SendRep c w' ∧ (∀ j, 0 ≤ j → TCB w' j = if decide (j = p) then tcb_zero else TCB w j) ∧
  ∀ q, 0 ≤ q < 2 * cf_pcbs c → sends c w' q = if q / 2 =? p then [] else sends c w q.
Proof.
  intros [_ HL] HS Hp Hu w'. pose proof HS as [Hlen HT _]. destruct (queue_no p) as (E1 & E2 & E3 & E4).
  assert (seg_live w (2 * p) = true) as Hl0 by (unfold seg_live; by rewrite E1).
  assert (seg_live w (2 * p + 1) = true) as Hl1 by (unfold seg_live; by rewrite E2).
  assert (seg_head w (2 * p) = t_unsent (TCB w p)) as Hh0 by (unfold seg_head; by rewrite E1, E3).
  assert (seg_head w (2 * p + 1) = t_unacked (TCB w p)) as Hh1 by (unfold seg_head; by rewrite E2, E4).
  destruct (threads_free (w_seg w) (seg_head w) (seg_live w) (seg_queue c w) (2 * p) HT Hlen ltac:(lia) Hl0) as (Hlen1 & Hg1 & HT1).
  set (t1 := free_queue c (Z.to_nat (cf_segs c)) (w_seg w) (seg_head w (2 * p))) in *.
  set (head1 := λ q', if decide (q' = 2 * p) then NONE else seg_head w q') in *. set (r1 := <[2 * p := []]> (seg_queue c w)) in *.
  destruct (threads_free t1 head1 (seg_live w) r1 (2 * p + 1) HT1 Hlen1 ltac:(lia) Hl1) as (Hlen2 & Hg2 & HT2).
  assert (head1 (2 * p + 1) = seg_head w (2 * p + 1)) as Eh by (unfold head1; by rewrite decide_False by lia). rewrite Eh in *.
  set (t2 := free_queue c (Z.to_nat (cf_segs c)) t1 (seg_head w (2 * p + 1))) in *.
  assert (w_seg w' = t2) as Ew by (unfold t2, t1; by rewrite Hh0, Hh1).
  assert (∀ j, 0 ≤ j → TCB w' j = if decide (j = p) then tcb_zero else TCB w j) as HTCB.
  { assert (tlen (w_tcb (tcp_pcb_send_queues_free c w p)) = cf_pcbs c) as HLf by (rewrite <- HL; apply tlen_tset).
    intros j Hj. unfold w'. rewrite TCB_put by (done || rewrite HLf; lia).
    destruct (decide (j = p)) as [|Hne]; [done|]. unfold tcp_pcb_send_queues_free. rewrite TCB_put by (done || by rewrite <- HL in Hp).
    by rewrite decide_False. }
  set (r2 := <[2 * p + 1 := []]> r1) in *.
  assert (∀ q, r2 q = if decide (q / 2 = p) then [] else seg_queue c w q) as Hr2.
  { intros q. unfold r2, r1. destruct (decide (q / 2 = p)) as [E|Hne].
    - destruct (queue_cases q) as [Eq|Eq]; rewrite E in Eq; rewrite Eq; [|by rewrite fn_lookup_insert].
      rewrite fn_lookup_insert_ne by lia. by rewrite fn_lookup_insert.
    - rewrite !fn_lookup_insert_ne; [done|intros <-; by apply Hne|intros <-; by apply Hne]. }
  assert (∀ q k, 0 ≤ q < 2 * cf_pcbs c → q / 2 ≠ p → k ∈ seg_queue c w q → tget t2 k = tget (w_seg w) k) as Hkeep.
  { intros q k Hq Hne Hk. destruct (queue_rows c w q k HS Hq Hk) as [Hkr _].
    assert (∀ q', 0 ≤ q' < 2 * cf_pcbs c → q' / 2 = p → k ∉ seg_queue c w q') as Hno.
    { intros q' Hq' E' Hk'. apply Hne. by rewrite (threaded_disjoint _ _ _ _ _ _ _ _ q q' k HT Hq Hq' Hk Hk'). }
    rewrite Hg2, decide_False by (lia || unfold r1; rewrite fn_lookup_insert_ne by lia; by apply Hno; [lia|]).
    rewrite Hg1, decide_False by (lia || by apply Hno; [lia|]). done. }
  destruct (send_rep_of c Hc w' r2) as [HS' Hqs].
  - by rewrite Ew.
  - rewrite Ew. apply (threaded_heads _ _ _ _ _ _ _ _ _ _ HT2). intros q Hq. pose proof (half_range _ _ Hq). unfold seg_live at 1, seg_head at 1.
    rewrite HTCB by lia. rewrite Hr2. destruct (decide (q / 2 = p)) as [E|Hne]; [done|]. fold (seg_live w q) (seg_head w q).
    destruct (seg_live w q) eqn:El; [|unfold seg_queue; by rewrite El]. left. split; [done|]. unfold head1.
    rewrite !decide_False by (intros ->; by apply Hne). done.
  - intros q k Hq. rewrite Hr2. destruct (decide (q / 2 = p)) as [|Hne]; [intros H'; by apply not_elem_of_nil in H'|]. intros Hk.
    rewrite Ew, (Hkeep q k Hq Hne Hk). by apply (sr_pcb c w HS).
  - split_and!; [done|done|]. intros q Hq. rewrite (sends_eq c w' q _ (Hqs q Hq)), Hr2. destruct (Z.eqb_spec (q / 2) p) as [E|Hne].
    + by rewrite decide_True.
    + rewrite decide_False by done. apply list_fmap_ext. intros n k Hk%list_elem_of_lookup_2. unfold seg_entry. by rewrite Ew, (Hkeep q k Hq Hne Hk).
Qed.

Lemma hold_empty w p : HoldRep c w → 0 ≤ p < cf_pcbs c → t_in_use (TCB w p) = true → (t_ooseq (TCB w p) =? NONE) = bool_decide (holds c w p = []).
Proof.
  intros [_ [_ HT] _ _] Hp Hu. specialize (HT p Hp). unfold oos_live in HT. rewrite Hu in HT. apply eq_bool_prop_intro.
  rewrite !Is_true_true, Z.eqb_eq, bool_decide_eq_true. unfold oos_head in HT. rewrite (chain_nil _ _ _ _ HT). unfold holds.
  split; [by intros ->|apply fmap_nil_inv].
Qed.

(** A connection with nothing held is dropped from the holds' table. *)
Lemma hold_close w w' p :
  HoldRep c w → w_oos w' = w_oos w → 0 ≤ p < cf_pcbs c → oos_queue c w p = [] →
  (∀ j, 0 ≤ j → TCB w' j = if decide (j = p) then tcb_zero else TCB w j) → HoldRep c w' ∧ holds_keep c w w'.
Proof.
  intros HH Eo Hp Hn HTCB. pose proof HH as [Hlen HT Hpc Hb].
  destruct (hold_rep_of c Hc w' (oos_queue c w)) as [HR Hqs]; [by rewrite Eo| |by rewrite Eo|done|].
  - rewrite Eo. apply (threaded_heads _ _ _ _ _ _ _ _ _ _ HT). intros q Hq. unfold oos_live, oos_head. rewrite HTCB by lia.
    destruct (decide (q = p)) as [->|Hne]; [done|]. destruct (t_in_use (TCB w q)) eqn:E; [by left|]. unfold oos_queue, oos_live. by rewrite E.
  - split; [done|]. intros q Hq. unfold holds, oos_entry. by rewrite Hqs, Eo.
Qed.

Lemma pcb_close_spec w : Rep c w → io_ok (w_io w) →
  let w' := idemip_tcp_pcb_close c w in Rep c w' ∧ close_effect c w w' ∧ holds_keep c w w'.
Proof.
  intros HR Hio w'. unfold w'. clear w'. cbv beta delta [idemip_tcp_pcb_close]. enter_rep Hc w HR.
  change (pcb_index (w_io w1)) with (pcb_index (w_io w)). unfold close_effect, open_at.
  set (p := pcb_index (w_io w)). assert (0 ≤ p) as Hp0 by apply Hio. rewrite Z.leb_antisym. cbn [orb].
  destruct (Z.ltb_spec p (cf_pcbs c)) as [Hlt|Hge]; [|by split_and!]. cbn [negb andb]. change (TCB w p) with (TCB w1 p).
  destruct (t_in_use (TCB w1 p)) eqn:Eu; [|by split_and!]. cbn [negb].
  rewrite (hold_empty w1 p HH1) by (done || lia). change (holds c w p) with (holds c w1 p). case_bool_decide as Hn; cbn [negb].
  2: { assert (quiet w1 (report w1 IDEMIP_BUSY)) as Hq' by apply quiet_io. destruct (rep_quiet c Hc _ _ HR1 Hq') as (? & ? & ?). by split_and!. }
  destruct (close_queues w1 p HT1 HS1 ltac:(lia) Eu) as (HS2 & HTCB & Hs2). set (w2 := put_tcb _ p tcb_zero) in *.
  destruct (hold_close w1 w2 p HH1 eq_refl ltac:(lia)) as [HH2 Hh2]; [by apply fmap_nil_inv in Hn|done|].
  assert (Table c w2) as HT2. { destruct HT1 as [? HL]. split; [done|]. rewrite <- HL. etrans; [apply tlen_tset|apply tlen_tset]. }
  assert (quiet w2 (report w2 IDEMIP_OK)) as Hq' by apply quiet_io.
  destruct (rep_quiet c Hc _ _ (mkRep _ _ HT2 HS2 HH2) Hq') as (HR'' & Hsk & Hhk). split_and!; [done|done| |].
  - intros q Hqr. rewrite (Hsk q Hqr), (Hs2 q Hqr). done.
  - intros j Hj. rewrite (Hhk j Hj). apply (Hh2 j Hj).
Qed.
End Ops.
End TcpPcbSendOps.
