(* ===== verification/TcpPcbHold.v ===== *)
(** * The out-of-order holds of the connection table

    What oos_alloc, oos_free and oos_load do to the lists of segments held for each connection: the order
    a new one is put in, the room every connection is kept, and that the table never runs out first. *)
From stdpp Require Import functions.
From S2P Require Import Prelude Chain TcpTypes TcpPcb Threaded TcpPcbRep TcpPcbSend TcpPcbSendOps.

Module TcpPcbHold.
Import TcpPcb TcpPcbQueue TcpPcbRep TcpPcbKeep TcpPcbSend TcpPcbSendOps.

Local Abbreviation NONE := IDEMIP_TCP_PCB_NONE.

(** ** Tables that differ in one row and in links *)
Definition moved (ooss ooss' : list TcpPcbOosFields) (i : Z) (link : Z → Z) : Prop :=
  tlen ooss' = tlen ooss ∧ ∀ j, 0 ≤ j → j ≠ i → tget ooss' j = (tget ooss j) <| o_next := link j |>.

Lemma oos_same_link (o : TcpPcbOosFields) : o <| o_next := o_next o |> = o.
Proof. by destruct o. Qed.

Lemma moved_row ooss i o : 0 ≤ i → moved ooss (tset ooss i o) i (links o_next ooss).
Proof. intros Hi. split; [apply tlen_tset|]. intros j Hj Hne. rewrite tget_tset_ne by lia. symmetry. apply oos_same_link. Qed.

Lemma moved_refl ooss i : moved ooss ooss i (links o_next ooss).
Proof. split; [done|]. intros j Hj Hne. symmetry. apply oos_same_link. Qed.

Lemma moved_link ooss ooss' i link p x :
  moved ooss ooss' i link → 0 ≤ p < tlen ooss → p ≠ i →
  moved ooss (tset ooss' p ((tget ooss' p) <| o_next := x |>)) i (λ j, if decide (j = p) then x else link j).
Proof.
  intros [Hl Hr] Hp Hne. split; [by rewrite tlen_tset|]. intros j Hj Hji. destruct (decide (j = p)) as [->|Hjp].
  - rewrite tget_tset_eq by lia. by rewrite Hr.
  - rewrite tget_tset_ne by lia. by apply Hr.
Qed.

Lemma moved_self ooss ooss' i link o : 0 ≤ i → moved ooss ooss' i link → moved ooss (tset ooss' i o) i link.
Proof. intros Hi [Hl Hr]. split; [by rewrite tlen_tset|]. intros j Hj Hne. rewrite tget_tset_ne by lia. by apply Hr. Qed.

Lemma moved_entries w w' i link (l : list Z) :
  moved (w_oos w) (w_oos w') i link → (∀ j, j ∈ l → 0 ≤ j ∧ j ≠ i) → oos_entry w' <$> l = oos_entry w <$> l.
Proof.
  intros [_ Hr] Hl. apply list_fmap_ext. intros n j Hj%list_elem_of_lookup_2. destruct (Hl j Hj). unfold oos_entry. by rewrite Hr.
Qed.

(** ** Counting *)
Lemma bind_length_le (r : Z → list Z) (js : list Z) (m : nat) :
  (∀ j, j ∈ js → (length (r j) ≤ m)%nat) → (length (js ≫= r) ≤ length js * m)%nat.
Proof.
  induction js as [|j js IH]; intros Hm; [done|]. rewrite bind_cons, length_app. cbn [length].
  pose proof (Hm j ltac:(left)). specialize (IH ltac:(intros; apply Hm; by right)). lia.
Qed.

(** Queues of at most [m], one of them shorter, take less than [n * m]. *)
Lemma owned_length_lt n r p m :
  0 ≤ p < n → (∀ q, 0 ≤ q < n → Z.of_nat (length (r q)) ≤ m) → Z.of_nat (length (r p)) < m → Z.of_nat (length (owned n r)) < n * m.
Proof.
  intros Hp Hm Hlt. unfold owned. assert (p ∈ seqZ 0 n) as (j1 & j2 & E)%list_elem_of_split by (apply elem_of_seqZ; lia).
  assert (∀ j, j ∈ j1 ++ p :: j2 → (length (r j) ≤ Z.to_nat m)%nat) as Hb.
  { intros j Hj. rewrite <- E in Hj. apply elem_of_seqZ in Hj. specialize (Hm j ltac:(lia)). lia. }
  assert (length (j1 ++ p :: j2) = Z.to_nat n) as Hlen by (by rewrite <- E, length_seqZ).
  rewrite E, bind_app, bind_cons, !length_app. rewrite length_app in Hlen. cbn [length] in Hlen.
  pose proof (bind_length_le r j1 (Z.to_nat m) ltac:(intros; apply Hb; set_solver)).
  pose proof (bind_length_le r j2 (Z.to_nat m) ltac:(intros; apply Hb; set_solver)). nia.
Qed.

Section Hold.
Variable c : config.
Hypothesis Hc : config_ok c.
Implicit Types (w : Work) (q p k i : Z).
Local Abbreviation ENTRIES := (TCP_PCB_OOSEQ_ENTRIES c).
Local Abbreviation holding := (threaded NONE o_next o_in_use (cf_pcbs c)).

Lemma entries_bound : 0 ≤ ENTRIES < NONE.
Proof. destruct Hc as (? & _ & _ & ? & ?). split; [unfold TCP_PCB_OOSEQ_ENTRIES; lia|done]. Qed.

Lemma hold_rows w p k : HoldRep c w → 0 ≤ p < cf_pcbs c → k ∈ oos_queue c w p → 0 ≤ k < ENTRIES ∧ o_in_use (tget (w_oos w) k) = true.
Proof. intros [<- HT _ _] Hp Hk. apply (threaded_row _ _ _ _ _ _ _ _ p k HT Hp Hk). Qed.

Lemma hold_rows_len w p : HoldRep c w → 0 ≤ p < cf_pcbs c → rows ENTRIES (oos_queue c w p) ∧ (length (oos_queue c w p) ≤ Z.to_nat ENTRIES)%nat.
Proof.
  intros HS Hp. pose proof entries_bound. split.
  - split; [lia|]. intros k Hk. by eapply hold_rows.
  - destruct HS as [Hl HT _ _]. pose proof (threaded_length _ _ _ _ _ _ _ _ p HT Hp). lia.
Qed.

Lemma hold_chain w p : HoldRep c w → 0 ≤ p < cf_pcbs c → t_in_use (TCB w p) = true → chain NONE (links o_next (w_oos w)) (t_ooseq (TCB w p)) (oos_queue c w p).
Proof. intros [_ [_ HT] _ _] Hp Hl. specialize (HT p Hp). unfold oos_live in HT. by rewrite Hl in HT. Qed.

(** What a call of the holds leaves to the send queues. *)
Record send_quiet w w' : Prop := mkSendQuiet {
  sq_ready : w_ready w' = w_ready w;
  sq_seg : w_seg w' = w_seg w;
  sq_len : tlen (w_tcb w') = tlen (w_tcb w);
  sq_heads : ∀ p, 0 ≤ p → t_in_use (TCB w' p) = t_in_use (TCB w p) ∧ t_unsent (TCB w' p) = t_unsent (TCB w p) ∧
    t_unacked (TCB w' p) = t_unacked (TCB w p) }.

Lemma send_quiet_rep w w' : send_quiet w w' → Table c w → SendRep c w → Table c w' ∧ SendRep c w' ∧ sends_keep c w w'.
Proof.
  intros [? ? ? Hh] [? ?] HS. split; [split; congruence|]. apply send_keep; [done..|]. intros p Hp. destruct (Hh p) as (? & ? & ?); [lia|]. done.
Qed.

Lemma send_quiet_put w p x ooss : 0 ≤ p < tlen (w_tcb w) → send_quiet w (put_tcb (w <| w_oos := ooss |>) p ((TCB w p) <| t_ooseq := x |>)).
Proof. intros Hp. split; [done..|apply tlen_tset|]. intros j Hj. rewrite TCB_put by done. case_decide; [by subst|done]. Qed.

Lemma head_ooseq w p x j : Table c w → 0 ≤ p < cf_pcbs c → 0 ≤ j →
  let w' := put_tcb w p ((TCB w p) <| t_ooseq := x |>) in
  oos_live w' j = oos_live w j ∧ oos_head w' j = if decide (j = p) then x else oos_head w j.
Proof. intros [_ HL] Hp Hj w'. unfold oos_live, oos_head, w'. rewrite TCB_put by lia. case_decide; [by subst|done]. Qed.

Lemma holds_eq w' p l : oos_queue c w' p = l → holds c w' p = oos_entry w' <$> l.
Proof. unfold holds. by intros ->. Qed.
(** The invariant and the holds after connection [p]'s list became [l]. *)
Lemma hold_splice w w' p i link l :
  HoldRep c w → 0 ≤ p < cf_pcbs c → moved (w_oos w) (w_oos w') i link →
  holding (w_oos w') (oos_head w') (oos_live w') (<[p := l]> (oos_queue c w)) →
  (∀ p', 0 ≤ p' < cf_pcbs c → p' ≠ p → i ∉ oos_queue c w p') → (i ∈ l → o_pcb (tget (w_oos w') i) = p) →
  (∀ j, j ∈ l → j ≠ i → j ∈ oos_queue c w p) → Z.of_nat (length l) ≤ cf_ooseq_segs c →
  HoldRep c w' ∧ ∀ p', 0 ≤ p' < cf_pcbs c → holds c w' p' = if p' =? p then oos_entry w' <$> l else holds c w p'.
Proof.
  intros HH Hp [Hl Hr] HT Hoth Hpi Hsub Hn. pose proof HH as [Hlen HT0 Hpc Hb].
  destruct (hold_rep_of c Hc w' (<[p := l]> (oos_queue c w))) as [HH' Hqs]; [by rewrite Hl|done| | |].
  - intros p' k Hp' Hk. destruct (decide (p' = p)) as [->|Hne].
    + rewrite fn_lookup_insert in Hk. destruct (decide (k = i)) as [->|Hki]; [by apply Hpi|].
      pose proof (Hsub k Hk Hki) as Hkq. destruct (hold_rows w p k HH Hp Hkq). rewrite Hr by (done || lia).
      change (o_pcb (tget (w_oos w) k) = p). by apply Hpc.
    + rewrite fn_lookup_insert_ne in Hk by done. destruct (hold_rows w p' k HH Hp' Hk). rewrite Hr; [|lia|intros ->; by apply (Hoth p')].
      change (o_pcb (tget (w_oos w) k) = p'). by apply Hpc.
  - intros p' Hp'. destruct (decide (p' = p)) as [->|Hne]; [by rewrite fn_lookup_insert|]. rewrite fn_lookup_insert_ne by done. by apply Hb.
  - split; [done|]. intros p' Hp'. rewrite (holds_eq w' p' _ (Hqs p' Hp')). destruct (Z.eqb_spec p' p) as [->|Hne]; [by rewrite fn_lookup_insert|].
    rewrite fn_lookup_insert_ne by done. apply (moved_entries w w' i link); [by split|]. intros j Hj. destruct (hold_rows w p' j HH Hp' Hj).
    split; [lia|]. intros ->. by apply (Hoth p').
Qed.

(** ** oos_alloc *)
Lemma hold_insert_at edge e l1 l2 :
  Forall (λ x : Z * TcpPcbOosFields, (u32 (o_seq e.2 - edge) <? u32 (o_seq x.2 - edge)) = false) l1 →
  (∀ x l2', l2 = x :: l2' → (u32 (o_seq e.2 - edge) <? u32 (o_seq x.2 - edge)) = true) →
  hold_insert edge e (l1 ++ l2) = l1 ++ e :: l2.
Proof.
  induction 1 as [|x l1 Hx Hall IH]; intros Hst; cbn [app hold_insert].
  - destruct l2 as [|x l2]; [done|]. cbn [hold_insert]. by rewrite (Hst x l2 eq_refl).
  - rewrite Hx. f_equal. by apply IH.
Qed.

Lemma oos_put_spec w i :
  let a := oos_args (w_io w) in
  let p := os_pcb a in
  Table c w → HoldRep c w → 0 ≤ p < cf_pcbs c → t_in_use (TCB w p) = true → 0 ≤ i < ENTRIES → o_in_use (tget (w_oos w) i) = false →
  Z.of_nat (length (oos_queue c w p)) < cf_ooseq_segs c →
  HoldRep c (oos_put c w i) ∧ send_quiet w (oos_put c w i) ∧
  ∀ p', 0 ≤ p' < cf_pcbs c →
    holds c (oos_put c w i) p' = if p' =? p then hold_insert (rcv_nxt (t_vars (TCB w p))) (i, oos_of a) (holds c w p) else holds c w p'.
Proof.
  intros a p HT HH Hp Hu Hi Hf Hlt. pose proof entries_bound as HE. pose proof HH as [Hlen HTh _ _]. pose proof HT as [_ HL].
  destruct (hold_rows_len w p HH Hp) as [Hrw Hn]. pose proof (hold_chain w p HH Hp Hu) as Hch.
  assert (∀ p', 0 ≤ p' < cf_pcbs c → i ∉ oos_queue c w p') as Hni by (intros p' Hp' Hin; destruct (hold_rows w p' i HH Hp' Hin); congruence).
  set (o := mkOos (os_seq a) NONE p (os_desc a) (os_offset a) (os_len a) true). set (edge := rcv_nxt (t_vars (TCB w p))).
  set (ooss1 := tset (w_oos w) i o).
  assert (∀ j, j ∈ oos_queue c w p → tget ooss1 j = tget (w_oos w) j) as Hsame.
  { intros j Hj. destruct (hold_rows w p j HH Hp Hj). unfold ooss1. rewrite tget_tset_ne; [done|lia|lia|]. intros ->. by apply (Hni p). }
  assert (chain NONE (links o_next ooss1) (t_ooseq (TCB w p)) (oos_queue c w p)) as Hch1.
  { eapply chain_ext; [|exact Hch]. intros j Hj. unfold links. by rewrite Hsame. }
  destruct (place_oos_spec c (Z.to_nat ENTRIES) ooss1 (os_seq a) edge NONE _ _ Hch1 Hrw Hn) as (l1 & l2 & El & Hpl & Hall & Hst).
  assert (hold_insert edge (i, oos_of a) (holds c w p) = (oos_entry w <$> l1) ++ (i, oos_of a) :: (oos_entry w <$> l2)) as ->.
  { unfold holds. rewrite El, fmap_app. apply hold_insert_at.
    - apply Forall_fmap. eapply Forall_impl; [apply Forall_and; split; [exact Hall|apply Forall_forall; intros k Hk; exact Hk]|].
      intros k [Hk Hkl]. cbn in Hk. rewrite Hsame in Hk by (rewrite El; set_solver). exact Hk.
    - intros x l2' Ex. apply fmap_cons_inv in Ex as (k & l2'' & -> & _ & El2). specialize (Hst k l2'' El2). cbn in Hst.
      rewrite Hsame in Hst by (rewrite El, El2; set_solver). exact Hst. }
  set (cur := first_of NONE l2) in *. set (ooss2 := tset ooss1 i (o <| o_next := cur |>)).
  assert (∃ w' link, oos_put c w i = w' ∧ send_quiet w w' ∧ moved (w_oos w) (w_oos w') i link ∧ tget (w_oos w') i = o <| o_next := cur |> ∧
    (∀ j, 0 ≤ j → j ≠ i → link j = if decide (last l1 = Some j) then i else links o_next (w_oos w) j) ∧
    (∀ p', 0 ≤ p' < cf_pcbs c → oos_live w' p' = oos_live w p' ∧
       oos_head w' p' = if decide (p' = p) then match l1 with [] => i | _ => oos_head w p end else oos_head w p'))
    as (w' & link & -> & Hsq & HM & Hrow & Hlink & Hheads).
  { assert (moved (w_oos w) ooss2 i (links o_next (w_oos w))) as HM2 by (apply moved_self; [lia|apply moved_row; lia]).
    unfold oos_put. fold a p o edge ooss1. rewrite Hpl. fold ooss2. destruct l1 as [|b l1].
    - cbn [last_of default last]. rewrite (proj2 (Z.leb_le _ _)) by (unfold last_of; simpl; lia).
      set (w2 := w <| w_oos := ooss2 |>). exists (put_tcb w2 p ((TCB w2 p) <| t_ooseq := i |>)), (links o_next (w_oos w)).
      split_and!; [done|apply (send_quiet_put w p i ooss2); by rewrite HL|done|unfold w2; apply tget_tset_eq; unfold ooss1; rewrite tlen_tset; lia|done|].
      intros p' Hp'. apply (head_ooseq w2 p i p'); [by destruct HT|done|lia].
    - assert (∃ j, last (b :: l1) = Some j) as [j Hj] by (destruct (last (b :: l1)) eqn:E; [by eexists|by apply last_None in E]).
      assert (last_of NONE (b :: l1) = j) as -> by (unfold last_of; by rewrite Hj).
      assert (j ∈ oos_queue c w p) as Hjq by (rewrite El; apply last_Some in Hj as [l' ->]; set_solver).
      destruct (hold_rows w p j HH Hp Hjq) as [Hjr _]. rewrite (proj2 (Z.leb_gt _ _)) by lia.
      assert (j ≠ i) as Hji by (intros ->; by apply (Hni p)).
      exists (w <| w_oos := tset ooss2 j ((tget ooss2 j) <| o_next := i |>) |>). eexists. split_and!; [done|by split|apply moved_link; [exact HM2|lia|done]| | |].
      + change (w_oos _) with (tset ooss2 j ((tget ooss2 j) <| o_next := i |>)). rewrite tget_tset_ne by lia. apply tget_tset_eq. unfold ooss1. rewrite tlen_tset. lia.
      + intros k Hk Hki. cbn beta. rewrite Hj. repeat case_decide; congruence.
      + intros p' Hp'. split; [done|]. destruct (decide (p' = p)) as [->|]; done. }
  assert (holding (w_oos w') (oos_head w') (oos_live w') (<[p := l1 ++ i :: l2]> (oos_queue c w))) as HT'.
  { destruct HM as [Hml Hmr].
    apply (threaded_insert NONE o_next o_in_use (cf_pcbs c) (w_oos w) (w_oos w') (oos_head w) (oos_head w') (oos_live w) (oos_live w') (oos_queue c w) p l1 l2 i);
      [done|done|done|done|lia|lia|done|done|unfold marks; by rewrite Hrow|unfold links; by rewrite Hrow| |done].
    intros j Hj Hji. unfold marks, links at 1. rewrite Hmr by done. split; [done|]. by apply Hlink. }
  destruct (hold_splice w w' p i link (l1 ++ i :: l2) HH Hp HM HT') as [HH' Hhs].
  - intros p' Hp' _. by apply Hni.
  - intros _. by rewrite Hrow.
  - intros j Hj Hji. rewrite El. set_solver.
  - rewrite El in Hlt. rewrite length_app in *. cbn [length]. lia.
  - split_and!; [done|done|]. intros p' Hp'. rewrite (Hhs p' Hp'). destruct (p' =? p); [|done]. rewrite fmap_app, fmap_cons.
    assert (∀ j, j ∈ l1 ++ l2 → 0 ≤ j ∧ j ≠ i) as Hnj.
    { intros j Hj. rewrite <- El in Hj. split; [by apply (hold_rows w p j HH Hp) in Hj as [? _]; lia|]. intros ->. by apply (Hni p). }
    rewrite !(moved_entries w w' i link) by (done || intros; apply Hnj; set_solver). do 2 f_equal. unfold oos_entry. by rewrite Hrow.
Qed.
(** A connection with room left has an entry waiting for it. *)
Lemma entry_waiting w p : HoldRep c w → 0 ≤ p < cf_pcbs c → Z.of_nat (length (oos_queue c w p)) < cf_ooseq_segs c →
  ∃ k, scan (λ i, negb (o_in_use (tget (w_oos w) i))) (Z.to_nat ENTRIES) 0 = Some k ∧ 0 ≤ k < ENTRIES ∧ o_in_use (tget (w_oos w) k) = false.
Proof.
  intros HH Hp Hlt. pose proof HH as [Hlen HT _ Hb]. pose proof entries_bound.
  apply (free_slot ENTRIES (λ k, o_in_use (tget (w_oos w) k)) (owned (cf_pcbs c) (oos_queue c w))); [lia| |].
  - intros k Hk Hu. destruct (threaded_on _ _ _ _ _ _ _ _ k HT ltac:(lia) Hu) as (q & Hq & Hin). apply elem_owned. by exists q.
  - by apply (owned_length_lt (cf_pcbs c) (oos_queue c w) p (cf_ooseq_segs c)).
Qed.

Lemma oos_alloc_spec w : Rep c w → io_ok (w_io w) →
  let w' := idemip_tcp_pcb_oos_alloc c w in Rep c w' ∧ sends_keep c w w' ∧ oos_alloc_effect c w w'.
Proof.
  intros HR Hio w'. unfold w'. clear w'. cbv beta delta [idemip_tcp_pcb_oos_alloc]. enter_rep Hc w HR.
  unfold oos_alloc_effect, open_at. change (oos_args (w_io w1)) with (oos_args (w_io w)). set (a := oos_args (w_io w)).
  change (TCB w (os_pcb a)) with (TCB w1 (os_pcb a)). set (p := os_pcb a). rewrite Z.leb_antisym. cbn [orb].
  destruct (Z.ltb_spec p (cf_pcbs c)) as [Hlt|Hge]; [|by split_and!]. cbn [negb andb]. assert (0 ≤ p < cf_pcbs c) as Hp by (split; [apply Hio|done]).
  destruct (t_in_use (TCB w1 p)) eqn:Eu; [|by split_and!]. cbn [negb andb orb]. destruct (os_len a =? 0); [by split_and!|]. cbn [negb].
  destruct (hold_rows_len w1 p HH1 Hp) as [Hrw Hn]. rewrite (count_oos_spec c _ _ _ _ (hold_chain w1 p HH1 Hp Eu) Hrw Hn).
  assert (length (holds c w p) = length (oos_queue c w1 p)) as -> by apply length_fmap.
  destruct (Z.leb_spec (cf_ooseq_segs c) (Z.of_nat (length (oos_queue c w1 p)))) as [Hfull|Hroom].
  { assert (quiet w1 (report w1 IDEMIP_BUSY)) as Hq' by apply quiet_io. destruct (rep_quiet c Hc _ _ HR1 Hq') as (? & ? & ?). by split_and!. }
  destruct (entry_waiting w1 p HH1 Hp Hroom) as (k & Hk & Hkr & Hkf). rewrite Hk.
  destruct (oos_put_spec w1 k HT1 HH1 Hp Eu Hkr Hkf Hroom) as (HH2 & Hsq & Hh2).
  destruct (send_quiet_rep w1 _ Hsq HT1 HS1) as (HT2 & HS2 & Hs2).
  assert (quiet (oos_put c w1 k) (report_at (oos_put c w1 k) k)) as Hq' by apply quiet_io.
  destruct (rep_quiet c Hc _ _ (mkRep _ _ HT2 HS2 HH2) Hq') as (HR'' & Hsk & Hhk). split_and!; [done| |].
  - intros q Hqr. rewrite (Hsk q Hqr). apply (Hs2 q Hqr).
  - exists k. split_and!; [|done|done|].
    + rewrite <- Hk. apply scan_ext. intros j Hj. change (pinned c w j) with (pinned c w1 j). rewrite (pinned_mark c w1 j HH1); [done|]. lia.
    + intros p' Hp'. rewrite (Hhk p' Hp'). apply (Hh2 p' Hp').
Qed.

(** ** oos_free *)
Lemma pinned_split w k : HoldRep c w → pinned c w k = true → ∃ p l1 l2, 0 ≤ p < cf_pcbs c ∧ oos_queue c w p = l1 ++ k :: l2.
Proof.
  intros HS (q & Hq%list_elem_of_In%elem_of_seqZ & (l1 & l2 & E)%bool_decide_eq_true%list_elem_of_split)%existsb_exists.
  exists q, l1, l2. split; [lia|done].
Qed.

Lemma holds_filter_absent w k : HoldRep c w → pinned c w k = false →
  ∀ p, 0 ≤ p < cf_pcbs c → holds c w p = filter (λ e, e.1 ≠ k) (holds c w p).
Proof.
  intros HS Hn p Hp. unfold holds. rewrite (filter_absent (oos_entry w)); [done|done|]. intros Hin. apply not_true_iff_false in Hn.
  apply Hn, existsb_exists. exists p. split; [apply list_elem_of_In, elem_of_seqZ; lia|by apply bool_decide_eq_true].
Qed.

Lemma oos_unlink_spec w p l1 i l2 :
  Table c w → HoldRep c w → 0 ≤ p < cf_pcbs c → oos_queue c w p = l1 ++ i :: l2 →
  ∃ w1 link, tcp_pcb_oos_unlink c w p i = Some w1 ∧ send_quiet w w1 ∧ moved (w_oos w) (w_oos w1) i link ∧
    (∀ j, 0 ≤ j → j ≠ i → link j = if decide (last l1 = Some j) then links o_next (w_oos w) i else links o_next (w_oos w) j) ∧
    (∀ p', 0 ≤ p' < cf_pcbs c → oos_live w1 p' = oos_live w p' ∧
       oos_head w1 p' = if decide (p' = p) then match l1 with [] => links o_next (w_oos w) i | _ => oos_head w p end else oos_head w p').
Proof.
  intros HT HH Hp Hr. pose proof HH as [Hlen HTh _ _]. pose proof HT as [_ HL].
  assert (t_in_use (TCB w p) = true) as Hu by (apply (threaded_live _ _ _ _ _ _ _ _ p HTh Hp); rewrite Hr; by destruct l1).
  pose proof (hold_chain w p HH Hp Hu) as Hch. destruct (hold_rows_len w p HH Hp) as [Hrw Hn].
  pose proof (chain_NoDup _ _ _ _ Hch) as Hnd. rewrite Hr in Hch, Hrw, Hn, Hnd. unfold tcp_pcb_oos_unlink. destruct l1 as [|a l1].
  - destruct Hch as (-> & _). rewrite Z.eqb_refl. eexists _, (links o_next (w_oos w)). split_and!; [done| | |done|].
    + apply (send_quiet_put w p _ (w_oos w)). by rewrite HL.
    + apply moved_refl.
    + intros p' Hp'. apply (head_ooseq w p (links o_next (w_oos w) i) p'); [done|done|lia].
  - rewrite (proj2 (Z.eqb_neq _ _)).
    2: { destruct Hch as (-> & _). apply NoDup_cons in Hnd as [Hnd _]. set_solver. }
    destruct (before_row_found (Z.to_nat ENTRIES) _ ENTRIES _ (a :: l1) i l2 Hch Hrw) as (j & Hj & Hlast); [done|rewrite length_app in Hn; lia|].
    rewrite unlink_oos_row, Hj. assert (j ∈ a :: l1) as Hjl by (apply last_Some in Hlast as [l' ->]; set_solver).
    apply NoDup_app in Hnd as (_ & Hd & _). assert (j ≠ i) as Hji by (intros ->; apply (Hd i Hjl); left).
    destruct (hold_rows w p j HH Hp) as [Hjr _]; [rewrite Hr; set_solver|]. eexists _, _. split_and!; [done|by split| | |].
    + apply moved_link; [apply moved_refl|lia|done].
    + intros k Hk Hki. cbn beta. rewrite Hlast. unfold links. repeat case_decide; congruence.
    + intros p' Hp'. split; [done|]. destruct (decide (p' = p)) as [->|]; done.
Qed.

Lemma oos_free_spec w : Rep c w → io_ok (w_io w) →
  let w' := idemip_tcp_pcb_oos_free c w in Rep c w' ∧ sends_keep c w w' ∧ oos_free_effect c w w'.
Proof.
  intros HR Hio w'. unfold w'. clear w'. cbv beta delta [idemip_tcp_pcb_oos_free]. enter_rep Hc w HR.
  change (os_index (oos_args (w_io w1))) with (os_index (oos_args (w_io w))). unfold oos_free_effect.
  set (k := os_index (oos_args (w_io w))). assert (0 ≤ k) as Hk0 by apply Hio. cbn [orb]. change (pinned c w k) with (pinned c w1 k).
  assert (pinned c w1 k = false → Rep c w1 ∧ sends_keep c w w1 ∧ (io_status (w_io w1) = (if pinned c w1 k then IDEMIP_OK else IDEMIP_ERR) ∧
    ∀ p, 0 ≤ p < cf_pcbs c → holds c w1 p = filter (λ e, e.1 ≠ k) (holds c w1 p))) as Herr.
  { intros Hn. rewrite Hn. split_and!; [done|done|done|by apply holds_filter_absent]. }
  destruct (Z.leb_spec ENTRIES k) as [Hle|Hlt]; [by apply Herr, pinned_range|].
  pose proof (pinned_mark c w1 k HH1 ltac:(lia)) as Hm. destruct (o_in_use (tget (w_oos w1) k)) eqn:Eu; [|by apply Herr].
  cbn [negb orb]. destruct (pinned_split w1 k HH1 Hm) as (p & l1 & l2 & Hp & Er).
  assert (k ∈ oos_queue c w1 p) as Hin by (rewrite Er; set_solver). rewrite (hr_pcb c w1 HH1 p k Hp Hin). rewrite (proj2 (Z.leb_gt _ _)) by lia.
  destruct (oos_unlink_spec w1 p l1 k l2 HT1 HH1 Hp Er) as (w2 & link & -> & Hsq & HM & Hlink & Hheads).
  set (w3 := w2 <| w_oos := tset (w_oos w2) k oos_zero |>). assert (send_quiet w1 w3) as Hsq3 by (destruct Hsq; by split).
  destruct (send_quiet_rep w1 w3 Hsq3 HT1 HS1) as (HT3 & HS3 & Hsk3). pose proof HH1 as [Hlen HTh _ Hb].
  assert (moved (w_oos w1) (w_oos w3) k link) as HM3 by (by apply moved_self).
  assert (holding (w_oos w3) (oos_head w3) (oos_live w3) (<[p := l1 ++ l2]> (oos_queue c w1))) as HT'.
  { destruct HM3 as [Hml Hmr].
    apply (threaded_remove NONE o_next o_in_use (cf_pcbs c) (w_oos w1) (w_oos w3) (oos_head w1) (oos_head w3) (oos_live w1) (oos_live w3) (oos_queue c w1) p l1 l2 k);
      [done|done|done|done| | |exact Hheads].
    - unfold marks. change (w_oos w3) with (tset (w_oos w2) k oos_zero). rewrite tget_tset_eq; [done|]. destruct HM as [-> _]. lia.
    - intros j Hj Hji. unfold marks, links at 1. rewrite Hmr by done. split; [done|]. by apply Hlink. }
  pose proof (threaded_NoDup _ _ _ _ _ _ _ _ p HTh Hp) as Hnd. rewrite Er in Hnd.
  assert (k ∉ l1 ++ l2) as Hkn by (pose proof Hnd as Hnd'; rewrite <- Permutation_middle in Hnd'; by apply NoDup_cons in Hnd' as [? _]).
  assert (∀ p', 0 ≤ p' < cf_pcbs c → p' ≠ p → k ∉ oos_queue c w1 p') as Hoth.
  { intros p' Hp' Hne H'. apply Hne. by apply (threaded_disjoint _ _ _ _ _ _ _ _ p' p k HTh). }
  destruct (hold_splice w1 w3 p k link (l1 ++ l2) HH1 Hp HM3 HT' Hoth) as [HH3 Hh3].
  - done.
  - intros j Hj _. rewrite Er. set_solver.
  - specialize (Hb p Hp). rewrite Er in Hb. rewrite length_app in *. cbn [length] in Hb. lia.
  - assert (quiet w3 (report w3 IDEMIP_OK)) as Hq' by apply quiet_io.
    destruct (rep_quiet c Hc _ _ (mkRep _ _ HT3 HS3 HH3) Hq') as (HR'' & Hsk & Hhk). rewrite Hm. split_and!; [done| |done|].
    + intros q Hqr. rewrite (Hsk q Hqr). apply (Hsk3 q Hqr).
    + intros p' Hp'. rewrite (Hhk p' Hp'), (Hh3 p' Hp'). change (holds c w p') with (holds c w1 p'). unfold holds. destruct (Z.eqb_spec p' p) as [->|Hne].
      * rewrite Er, filter_out by done. apply (moved_entries w1 w3 k link); [done|]. intros j Hj. split; [|set_solver].
        apply (hold_rows w1 p j HH1 Hp). rewrite Er. set_solver.
      * rewrite filter_absent; [done|done|by apply Hoth].
Qed.
(** ** oos_load *)
Lemma holds_split w p l1 k o l2 : holds c w p = l1 ++ (k, o) :: l2 →
  ∃ l1' l2', oos_queue c w p = l1' ++ k :: l2' ∧ (k, o) = oos_entry w k ∧ l2 = oos_entry w <$> l2'.
Proof.
  unfold holds. intros (l1' & r & _ & Hr & ->)%fmap_app_inv. symmetry in Hr. apply fmap_cons_inv in Hr as (k' & l2' & Ek & -> & ->).
  assert (k' = k) as -> by (by injection Ek). eauto.
Qed.

Lemma oos_load_spec w : Rep c w → io_ok (w_io w) →
  let w' := idemip_tcp_pcb_oos_load c w in Rep c w' ∧ sends_keep c w w' ∧ oos_load_effect c w w'.
Proof.
  intros HR Hio w'. assert (quiet w w') as Hqt by (apply (oos_load_quiet c w); [apply HR|done]).
  destruct (rep_quiet c Hc w w' HR Hqt) as (HR' & Hsk & Hhk). split_and!; [done|done|]. split; [done|]. unfold w'.
  clear Hqt Hsk Hhk HR' w'. cbv beta delta [idemip_tcp_pcb_oos_load]. enter_rep Hc w HR.
  change (os_index (oos_args (w_io w1))) with (os_index (oos_args (w_io w))).
  set (k := os_index (oos_args (w_io w))). assert (0 ≤ k) as Hk0 by apply Hio. cbn [orb]. change (pinned c w k) with (pinned c w1 k).
  assert (∀ p l1 o l2, 0 ≤ p < cf_pcbs c → holds c w p = l1 ++ (k, o) :: l2 → pinned c w1 k = true ∧ o_pcb (tget (w_oos w1) k) = p ∧
    links o_next (w_oos w1) k = first_of NONE l2.*1 ∧ (k, o) = oos_entry w1 k) as Hon.
  { intros p l1 o l2 Hp (l1' & l2' & Er & Es & ->)%(holds_split w1). assert (k ∈ oos_queue c w1 p) as Hin by (rewrite Er; set_solver).
    assert ((oos_entry w1 <$> l2').*1 = l2') as -> by (rewrite <- list_fmap_compose; by apply list_fmap_id). split_and!; [| | |done].
    - apply existsb_exists. exists p. split; [apply list_elem_of_In, elem_of_seqZ; lia|by apply bool_decide_eq_true].
    - by apply (hr_pcb c w1 HH1).
    - pose proof (hr_thread c w1 HH1) as HTh. assert (oos_live w1 p = true) as Hl by (eapply threaded_live; [exact HTh|done|rewrite Er; by destruct l1']).
      pose proof (hold_chain w1 p HH1 Hp Hl) as Hch. rewrite Er in Hch. by apply chain_suffix in Hch as [_ ?]. }
  assert (pinned c w1 k = false → io_status (w_io w1) = (if pinned c w1 k then IDEMIP_OK else IDEMIP_ERR) ∧
    ∀ p l1 o l2, 0 ≤ p < cf_pcbs c → holds c w p = l1 ++ (k, o) :: l2 →
    io_oos (w_io w1) = mkOosInfo (o_seq o) (first_of NONE l2.*1) p (o_desc o) (o_offset o) (o_len o)) as Herr.
  { intros Hn. rewrite Hn. split; [done|]. intros p l1 o l2 Hp Es. destruct (Hon p l1 o l2 Hp Es). congruence. }
  destruct (Z.leb_spec ENTRIES k) as [Hle|Hlt]; [by apply Herr, pinned_range|].
  pose proof (pinned_mark c w1 k HH1 ltac:(lia)) as Hm. destruct (o_in_use (tget (w_oos w1) k)) eqn:Eu; [|by apply Herr].
  cbn [negb orb]. rewrite Hm. split; [done|]. intros p l1 o l2 Hp Es. destruct (Hon p l1 o l2 Hp Es) as (_ & Hpc & Hnx & Hk).
  rewrite <- Hpc, <- Hnx. injection Hk as ->. done.
Qed.
End Hold.
End TcpPcbHold.
