(* ===== verification/TcpPcbThms.v ===== *)
(** * What the connection table promises

    The send queues and the holds of every connection follow the calls exactly; a bind without a port finds
    one; and what the arrival path makes of a connection, the table takes back. *)
From stdpp Require Import functions.
From S2P Require Import Prelude Chain TcpTypes IpAddr TcpPcb Threaded TcpPcbRep TcpPcbSend TcpPcbSendOps TcpPcbHold.

Module TcpPcbThms.
Import TcpPcb TcpPcbQueue TcpPcbRep TcpPcbKeep TcpPcbSend TcpPcbSendOps TcpPcbHold.

(** ** Every call *)
Section Calls.
Variable c : config.
Hypothesis Hc : config_ok c.

Lemma step_rep o w : Rep c w → io_ok (w_io w) → Rep c (step c o w) ∧ send_effect c o w (step c o w) ∧ hold_effect c o w (step c o w).
Proof.
  intros HR Hio. destruct (leaves_queues o) eqn:Ho.
  - pose proof (step_quiet c o w Ho (rep_table c w HR) Hio) as Hq. destruct (rep_quiet c Hc _ _ HR Hq) as (HR' & Hs & Hh).
    destruct o; try discriminate Ho; try done.
    + by apply seg_load_spec.
    + by apply oos_load_spec.
  - destruct o; try discriminate Ho.
    + apply (pcb_clear_spec c Hc w).
    + by apply pcb_open_spec.
    + by apply pcb_close_spec.
    + by apply seg_alloc_spec.
    + by apply seg_sent_spec.
    + by apply seg_free_spec.
    + by apply oos_alloc_spec.
    + by apply oos_free_spec.
Qed.

Lemma set_io_rep w io : Rep c w → Rep c (set_io w io).
Proof. intros HR. by apply (rep_quiet c Hc w (set_io w io) HR (quiet_io w io)). Qed.

Lemma run_rep w l : Forall (λ x, io_ok x.2) l → Rep c (run c w l).
Proof.
  intros Hl. unfold run. assert (Rep c (idemip_tcp_pcb_clear c w)) as HR by apply (pcb_clear_spec c Hc w). revert HR.
  generalize (idemip_tcp_pcb_clear c w). induction Hl as [|x l Hx Hl IH]; intros w1 HR; [done|]. cbn [foldl]. apply IH.
  apply (step_rep x.1 (set_io w1 x.2)); [by apply set_io_rep|done].
Qed.
End Calls.

(** C19. The send queues.  After any calls, a call leaves every connection's unsent and retransmission
    queues exactly as its contract says: seg_alloc puts the caller's segment on the tail of the unsent queue
    in the first slot on no queue, and is BUSY only when there is none; seg_sent moves the head of an unsent
    queue to the tail of the same connection's retransmission queue and refuses any other slot; seg_free
    takes the slot off the queue it is on, and fails only on a slot that is on none; close empties both
    queues of the one connection; seg_load reports the segment and the one behind it; no other call changes
    a queue; and no slot is ever on two queues or twice on one. *)
Theorem send_queues_follow_calls (c : config) (w0 : Work) (calls : list (pcb_op * TcpPcbIo)) (o : pcb_op) (io : TcpPcbIo) :
  config_ok c → Forall (λ x, io_ok x.2) calls → io_ok io →
  let w := set_io (run c w0 calls) io in
  let w' := step c o w in
  send_effect c o w w' ∧ NoDup (owned (2 * cf_pcbs c) (seg_queue c w')).
Proof.
  intros Hc Hl Hio w w'. assert (Rep c w) as HR by (by apply set_io_rep, run_rep). destruct (step_rep c Hc o w HR Hio) as (HR' & Hs & _).
  split; [done|]. apply (distinct_rep c w'); apply HR'.
Qed.


(** A table of two connections, three segments and one held segment each, and calls on it. *)
Definition sample_config : config := mkConfig 2 1 3 1 15 6 64 true true 4 false.
Definition io_zero : TcpPcbIo :=
  mkIo 4 (mkOptArgs 0 0 0 0 0) (mkAddrArgs None 0 0 0 0 0) (mkAddrArgs None 0 0 0 0 0) 0 (mkAcceptArgs 0 0) (mkListenArgs None 0 0 0 0 0)
    (mkFindArgs None None 0 0 0 0 0 0) (mkSegArgs 0 0 0 0 0 0 0) (mkOosArgs 0 0 0 0 0 0) vars_zero ctl_zero IDEMIP_TCP_STATE_CLOSED
    IDEMIP_OK 0 0 info_zero seg_info_zero oos_info_zero.
Definition work_zero : Work := mkWork io_zero 0 [] [] [] [].
Definition sample_seg (pcb seq : Z) : TcpPcbIo := io_zero <| seg_args := mkSegArgs 1 seq pcb 0 10 16 0 |>.
Definition sample_oos (pcb seq : Z) : TcpPcbIo := io_zero <| oos_args := mkOosArgs seq pcb 0 7 54 10 |>.
Definition sample_calls : list (pcb_op * TcpPcbIo) :=
  [(POpen, io_zero); (POpen, io_zero); (PSegAlloc, sample_seg 0 100); (PSegAlloc, sample_seg 1 500); (PSegAlloc, sample_seg 0 110);
   (POosAlloc, sample_oos 0 900)].

Lemma sample_config_ok : config_ok sample_config.
Proof. vm_compute. split_and!; (reflexivity || discriminate). Qed.

Lemma sample_calls_ok : Forall (λ x, io_ok x.2) sample_calls.
Proof. repeat constructor; vm_compute; discriminate. Qed.

(** The head of connection 0's unsent queue is sent. *)
Lemma send_queues_follow_calls_witness :
  send_effect sample_config PSegSent (set_io (run sample_config work_zero sample_calls) io_zero)
    (step sample_config PSegSent (set_io (run sample_config work_zero sample_calls) io_zero)) ∧
  (sends sample_config (step sample_config PSegSent (set_io (run sample_config work_zero sample_calls) io_zero)) 1).*1 = [0].
Proof.
  split; [|vm_compute; reflexivity].
  assert (io_ok io_zero) as Hio by (vm_compute; split_and!; discriminate).
  exact (proj1 (send_queues_follow_calls sample_config work_zero sample_calls PSegSent io_zero sample_config_ok sample_calls_ok Hio)).
Defined.

End TcpPcbThms.

(** * Ephemeral ports

    A bind that names no port draws one by RFC 6056 section 3.3.1's Algorithm 1: from where the caller's
    random word points, the first of the 32768 dynamic ports no other connection and no listener holds.
    The pool is larger than the tables, so there is one. *)
Module TcpPcbPort.
Import TcpPcb TcpPcbRep TcpPcbKeep TcpPcbThms.

(** The [k]-th port of the walk from [rand]. *)
Definition port_at (rand k : Z) : Z := 32768 + (rand + k) mod 32768.

(** No other connection and no listener holds the port. *)
Definition suitable (c : config) (w : Work) (except port : Z) : Prop :=
  (∀ i, 0 ≤ i < cf_pcbs c → i ≠ except → t_in_use (TCB w i) = true → t_local_port (TCB w i) ≠ port) ∧
  (∀ i, 0 ≤ i < cf_listen_pcbs c → l_in_use (tget (w_listen w) i) = true → l_local_port (tget (w_listen w) i) ≠ port).

Lemma eph_port x : u16 (Z.lor IDEMIP_TCP_PCB_PORT_EPH_FIRST (u16 (Z.land x IDEMIP_TCP_PCB_PORT_EPH_MASK))) = 32768 + x mod 32768.
Proof.
  change IDEMIP_TCP_PCB_PORT_EPH_MASK with (Z.ones 15). rewrite Z.land_ones by lia. change (2 ^ 15) with 32768.
  pose proof (Z.mod_pos_bound x 32768 ltac:(lia)). rewrite (u16_id (x mod 32768)) by wrap.
  change IDEMIP_TCP_PCB_PORT_EPH_FIRST with (Z.shiftl 1 15). rewrite lor_shiftl by (change (2 ^ 15) with 32768; lia). apply u16_id. wrap.
Qed.

Section Draw.
Variable c : config.
Implicit Types w : Work.

Definition free_port w (except port : Z) : bool := negb (tcp_pcb_port_taken c w port except) && negb (tcp_pcb_port_listening c w port).

Lemma free_port_suitable w except port : free_port w except port = true ↔ suitable c w except port.
Proof.
  unfold free_port, suitable, tcp_pcb_port_taken, tcp_pcb_port_listening. rewrite andb_true_iff, !negb_true_iff, <- !not_true_iff_false, !existsb_exists.
  split; intros [H1 H2]; split.
  - intros i Hi Hne Hu Hp. apply H1. exists i. rewrite Hu, (proj2 (Z.eqb_neq i except)), Hp, Z.eqb_refl by done.
    split; [apply list_elem_of_In, elem_of_seqZ; lia|done].
  - intros i Hi Hu Hp. apply H2. exists i. rewrite Hu, Hp, Z.eqb_refl. split; [apply list_elem_of_In, elem_of_seqZ; lia|done].
  - intros (i & Hi%list_elem_of_In%elem_of_seqZ & Hx). bool_prop. by apply (H1 i); [lia|..].
  - intros (i & Hi%list_elem_of_In%elem_of_seqZ & Hx). bool_prop. by apply (H2 i); [lia|..].
Qed.

Lemma port_next rand k : u16 (Z.lor IDEMIP_TCP_PCB_PORT_EPH_FIRST (u16 (Z.land (port_at rand k + 1) IDEMIP_TCP_PCB_PORT_EPH_MASK))) = port_at rand (k + 1).
Proof.
  rewrite eph_port. unfold port_at. f_equal. rewrite <- Z.add_assoc, (Z.add_comm 32768). 
  replace ((rand + k) mod 32768 + 1 + 32768) with ((rand + k) mod 32768 + 1 + 1 * 32768) by lia. rewrite Z.mod_add by lia.
  rewrite Zplus_mod_idemp_l. f_equal. lia.
Qed.

Lemma draw_scan n w except rand k :
  draw_loop c n w except (port_at rand k) =
  match scan (λ d, free_port w except (port_at rand d)) n k with Some d => port_at rand d | None => IDEMIP_TCP_PCB_PORT_ANY end.
Proof.
  revert k; induction n as [|n IH]; intros k; [done|]. cbn [draw_loop scan]. rewrite port_next. fold (free_port w except (port_at rand k)).
  destruct (free_port w except (port_at rand k)); [done|]. apply IH.
Qed.

(** The ports the tables hold. *)
Definition held_ports w : list Z :=
  ((λ i, t_local_port (TCB w i)) <$> seqZ 0 (cf_pcbs c)) ++ ((λ i, l_local_port (tget (w_listen w) i)) <$> seqZ 0 (cf_listen_pcbs c)).

Lemma unfree_held w except port : free_port w except port = false → port ∈ held_ports w.
Proof.
  intros Hf. unfold free_port in Hf. apply andb_false_iff in Hf. unfold held_ports. rewrite elem_of_app, !list_elem_of_fmap.
  destruct Hf as [Hf|Hf]; apply negb_false_iff, existsb_exists in Hf as (i & Hi%list_elem_of_In & Hx); cbv beta zeta in Hx; bool_prop; [left|right]; exists i; (split; [by symmetry|done]).
Qed.

Lemma port_at_inj rand d e : 0 ≤ d < 32768 → 0 ≤ e < 32768 → port_at rand d = port_at rand e → d = e.
Proof.
  intros Hd He H. unfold port_at in H. assert ((rand + d) mod 32768 = (rand + e) mod 32768) as E by lia. clear H.
  Z.div_mod_to_equations. lia.
Qed.

(** Some port of the pool is free. *)
Lemma draw_found w except rand : 0 ≤ cf_pcbs c → 0 ≤ cf_listen_pcbs c → cf_pcbs c + cf_listen_pcbs c < 32768 →
  ∃ d, 0 ≤ d < 32768 ∧ tcp_pcb_port_draw c w except rand = port_at rand d ∧ suitable c w except (port_at rand d) ∧
    ∀ e, 0 ≤ e < d → ¬ suitable c w except (port_at rand e).
Proof.
  intros HP HL Hlt. unfold tcp_pcb_port_draw. rewrite eph_port.
  replace (32768 + rand mod 32768) with (port_at rand 0) by (unfold port_at; by rewrite Z.add_0_r). rewrite draw_scan.
  change (Z.to_nat IDEMIP_TCP_PCB_PORT_EPH_COUNT) with (Z.to_nat 32768). destruct (scan _ _ _) as [d|] eqn:Es.
  - apply scan_Some in Es as (Hd & Hf & Hbefore). exists d. split_and!; [lia|lia|done|by apply free_port_suitable|].
    intros e He Hs%free_port_suitable. rewrite Hbefore in Hs by lia. done.
  - exfalso. rewrite scan_None in Es. assert (port_at rand <$> seqZ 0 32768 ⊆+ held_ports w) as Hsub.
    { apply NoDup_submseteq.
      - apply NoDup_fmap_2_strong; [|apply NoDup_seqZ]. intros d e Hd%elem_of_seqZ He%elem_of_seqZ. apply port_at_inj; lia.
      - intros port (d & -> & Hd%elem_of_seqZ)%list_elem_of_fmap. apply (unfree_held w except), Es. lia. }
    apply submseteq_length in Hsub. unfold held_ports in Hsub. rewrite length_app, !length_fmap, !length_seqZ in Hsub. lia.
Qed.
End Draw.

(** What a bind leaves in the record. *)
Definition bound_tcb (c : config) (t : TcpPcbTcbFields) (a : TcpPcbAddrArgs) (ip : list Z) (port : Z) : TcpPcbTcbFields :=
  t <| t_local_ip := tcp_pcb_addr_set ip (tcp_pcb_addr_bytes c (t_version t)) |> <| t_local_port := port |> <| t_local_zone := ad_zone a |>
    <| t_netif := ad_netif a |>.

(** C21. A bind that names no port always gets one: on a CLOSED connection of a family the build carries,
    with fewer connections and listeners than dynamic ports, the call is OK, the port it reports and records
    is dynamic and held by no other connection and no listener, and it is the first such from where the
    random word points, whatever is in the tables; the record's other fields and every other connection are
    as they were.  The walk that gives up is dead code. *)
Theorem ephemeral_bind_succeeds (c : config) (w : Work) (ip : list Z) :
  let a := bind_args (w_io w) in
  0 ≤ cf_pcbs c → 0 ≤ cf_listen_pcbs c → cf_pcbs c + cf_listen_pcbs c < 32768 → Table c w → 0 ≤ ad_index a < cf_pcbs c →
  ad_ip a = Some ip → ad_port a = IDEMIP_TCP_PCB_PORT_ANY → t_in_use (TCB w (ad_index a)) = true →
  t_state (TCB w (ad_index a)) = IDEMIP_TCP_STATE_CLOSED → tcp_pcb_addr_bytes c (t_version (TCB w (ad_index a))) ≠ 0 →
  let w' := idemip_tcp_pcb_bind c w in
  io_status (w_io w') = IDEMIP_OK ∧
  (∃ d, 0 ≤ d < 32768 ∧ io_port (w_io w') = port_at (ad_rand a) d ∧ suitable c w (ad_index a) (port_at (ad_rand a) d) ∧
     ∀ e, 0 ≤ e < d → ¬ suitable c w (ad_index a) (port_at (ad_rand a) e)) ∧
  ∀ i, 0 ≤ i → TCB w' i = if decide (i = ad_index a) then bound_tcb c (TCB w i) a ip (io_port (w_io w')) else TCB w i.
Proof.
  intros a HP HL Hlt HT Hi Hip Hport Hu Hst Hn w'. unfold w'. clear w'. cbv beta delta [idemip_tcp_pcb_bind].
  match goal with |- context [let _ := ?e in _] => set (w1 := e) end. cbv zeta. change (bind_args (w_io w1)) with a.
  assert (unready w1 = false) as -> by (unfold unready; change (w_ready w1) with (w_ready w); by rewrite (tb_ready c w HT)).
  rewrite Hip, Hport, (proj2 (Z.leb_gt _ _)) by lia. cbn [orb]. change (TCB w1 (ad_index a)) with (TCB w (ad_index a)).
  rewrite Hu, (proj2 (Z.eqb_neq _ _) Hn), Hst. cbn [negb orb tcp_state_eqb].
  change (tcp_state_eqb IDEMIP_TCP_STATE_CLOSED IDEMIP_TCP_STATE_CLOSED) with true. cbn [negb]. rewrite Z.eqb_refl.
  destruct (draw_found c w1 (ad_index a) (ad_rand a) HP HL Hlt) as (d & Hd & -> & Hs & Hbefore).
  rewrite (proj2 (Z.eqb_neq _ _)) by (unfold port_at; pose proof (Z.mod_pos_bound (ad_rand a + d) 32768 ltac:(lia)); change IDEMIP_TCP_PCB_PORT_ANY with 0; lia).
  split_and!; [done|by exists d|]. intros i Hi0. fold (bound_tcb c (TCB w (ad_index a)) a ip (port_at (ad_rand a) d)).
  set (t := bound_tcb _ _ _ _ _). change (TCB (put_tcb w1 (ad_index a) t) i = if decide (i = ad_index a) then bound_tcb c (TCB w i) a ip (port_at (ad_rand a) d) else TCB w i).
  rewrite TCB_put by (done || change (w_tcb w1) with (w_tcb w); rewrite (tb_len c w HT); lia). destruct (decide (i = ad_index a)) as [->|]; done.
Qed.

(** Two connections of a small table; the second is bound while the first holds the port the random word
    points at. *)
Definition sample_bind (index port : Z) : TcpPcbIo := io_zero <| bind_args := mkAddrArgs (Some (replicate 16 0)) 5 index port 0 0 |>.
Definition sample_bound : Work :=
  set_io (run sample_config work_zero [(POpen, io_zero); (POpen, io_zero); (PBind, sample_bind 0 32773)]) (sample_bind 1 0).

Lemma ephemeral_bind_succeeds_witness :
  io_status (w_io (idemip_tcp_pcb_bind sample_config sample_bound)) = IDEMIP_OK ∧
  io_port (w_io (idemip_tcp_pcb_bind sample_config sample_bound)) = 32774.
Proof.
  split; [|vm_compute; reflexivity].
  apply (ephemeral_bind_succeeds sample_config sample_bound (replicate 16 0));
    vm_compute; try split; (reflexivity || discriminate).
Defined.

(** A named port another connection holds is bound as given. *)
Example bind_takes_held_port :
  io_status (w_io (idemip_tcp_pcb_bind sample_config
    (set_io (run sample_config work_zero [(POpen, io_zero); (POpen, io_zero); (PBind, sample_bind 0 80)]) (sample_bind 1 80)))) = IDEMIP_OK.
Proof. vm_compute. reflexivity. Qed.

(** Two connections get one pair of sockets: the second connects from its own port and is then bound to the
    first one's, which a connection still CLOSED may be. *)
Definition sample_connect (index : Z) : TcpPcbIo :=
  io_zero <| connect_args := mkAddrArgs (Some ([192; 0; 2; 1] ++ replicate 12 0)) 0 index 443 0 0 |>.
Definition sample_pair : Work :=
  run sample_config work_zero
    [(POpen, io_zero); (POpen, io_zero); (PBind, sample_bind 0 80); (PConnect, sample_connect 0); (PBind, sample_bind 1 81);
     (PConnect, sample_connect 1); (PBind, sample_bind 1 80)].
Example pair_not_unique :
  let socket i := (t_local_ip (TCB sample_pair i), t_local_port (TCB sample_pair i), t_remote_ip (TCB sample_pair i), t_remote_port (TCB sample_pair i)) in
  io_status (w_io sample_pair) = IDEMIP_OK ∧ socket 0 = socket 1.
Proof. vm_compute. split; reflexivity. Qed.
End TcpPcbPort.
