(* ===== verification/TcpArrival.v ===== *)
(** * A segment's effect, put back in the table

    The round a caller makes for an arriving segment: load the connection's record from the table
    (src/tcp/tcp_pcb.c), hand it to the arrival path (src/tcp/tcp_in.c), and store what it made of it.  The
    store checks the move against the table's own transition sets. *)
From S2P Require Import Prelude Tcp TcpTypes TcpIn TcpInFacts TcpInThms TcpPcb TcpPcbRep TcpPcbThms.

Module TcpArrival.
Import Tcp TcpIn TcpInFacts TcpInThms.
Import TcpPcb TcpPcbRep TcpPcbKeep TcpPcbThms.

(** ** The round *)
Inductive arrival : Type := Closed | Listen | SynSent | Segment.

Definition arrive (a : arrival) : TcpIn.Work → TcpIn.Work :=
  match a with
  | Closed => TcpIn.idemip_tcp_in_closed
  | Listen => TcpIn.idemip_tcp_in_listen
  | SynSent => TcpIn.idemip_tcp_in_syn_sent
  | Segment => TcpIn.idemip_tcp_in_segment
  end.

(** The record the load reported, in the arrival path's operands. *)
Definition hand_over (io : TcpPcbIo) (x : TcpIn.Work) : TcpIn.Work :=
  TcpIn.mkWork ((TcpIn.w_io x) <| TcpIn.vars := io_vars io |> <| TcpIn.ctl := io_ctl io |> <| TcpIn.state := io_state io |>
                  <| TcpIn.listener := in_listener (io_info io) |>) (TcpIn.w_ctx x).

(** What the arrival path left, in the store's operands. *)
Definition hand_back (x : TcpIn.Work) (io : TcpPcbIo) : TcpPcbIo :=
  io <| io_vars := TcpIn.vars (TcpIn.w_io x) |> <| io_ctl := TcpIn.ctl (TcpIn.w_io x) |> <| io_state := TcpIn.state (TcpIn.w_io x) |>.

Definition loaded (c : config) (w : Work) (x : TcpIn.Work) : TcpIn.Work := hand_over (w_io (idemip_tcp_pcb_load c w)) x.
Definition arrival_round (c : config) (a : arrival) (w : Work) (x : TcpIn.Work) : Work :=
  let w1 := idemip_tcp_pcb_load c w in
  idemip_tcp_pcb_store c (set_io w1 (hand_back (arrive a (hand_over (w_io w1) x)) (w_io w1))).

(** ** The moves of the arrival path *)

(** The states one segment can leave a connection in, by the state it found it in. *)
Definition moves (s : IdemIpTcpState) : list IdemIpTcpState :=
  match s with
  | IDEMIP_TCP_STATE_LISTEN => [IDEMIP_TCP_STATE_LISTEN; IDEMIP_TCP_STATE_SYN_RECEIVED]
  | IDEMIP_TCP_STATE_SYN_SENT =>
      [IDEMIP_TCP_STATE_SYN_SENT; IDEMIP_TCP_STATE_CLOSED; IDEMIP_TCP_STATE_SYN_RECEIVED; IDEMIP_TCP_STATE_ESTABLISHED; IDEMIP_TCP_STATE_CLOSE_WAIT]
  | IDEMIP_TCP_STATE_SYN_RECEIVED =>
      [IDEMIP_TCP_STATE_SYN_RECEIVED; IDEMIP_TCP_STATE_CLOSED; IDEMIP_TCP_STATE_LISTEN; IDEMIP_TCP_STATE_ESTABLISHED; IDEMIP_TCP_STATE_CLOSE_WAIT]
  | IDEMIP_TCP_STATE_ESTABLISHED => [IDEMIP_TCP_STATE_ESTABLISHED; IDEMIP_TCP_STATE_CLOSED; IDEMIP_TCP_STATE_CLOSE_WAIT]
  | IDEMIP_TCP_STATE_FIN_WAIT_1 =>
      [IDEMIP_TCP_STATE_FIN_WAIT_1; IDEMIP_TCP_STATE_CLOSED; IDEMIP_TCP_STATE_FIN_WAIT_2; IDEMIP_TCP_STATE_CLOSING; IDEMIP_TCP_STATE_TIME_WAIT]
  | IDEMIP_TCP_STATE_FIN_WAIT_2 => [IDEMIP_TCP_STATE_FIN_WAIT_2; IDEMIP_TCP_STATE_CLOSED; IDEMIP_TCP_STATE_TIME_WAIT]
  | IDEMIP_TCP_STATE_CLOSING => [IDEMIP_TCP_STATE_CLOSING; IDEMIP_TCP_STATE_CLOSED; IDEMIP_TCP_STATE_TIME_WAIT]
  | s => [s; IDEMIP_TCP_STATE_CLOSED]
  end.

Lemma moves_refl s : s ∈ moves s.
Proof. destruct s; cbn; set_solver. Qed.

Lemma figure5_moves io n s s1 s2 : figure5 io n s s1 → s2 ∈ moves s1 → s2 ∈ moves s.
Proof.
  intros [| | |s0 ? ? Ho|s0 s1' ? ? Hin|s0 s1' ? ? Hin] H2.
  1-3: cbn in *; set_solver.
  - destruct s0; try discriminate Ho; cbn in *; set_solver.
  - rewrite !elem_of_cons, elem_of_nil in Hin. destruct Hin as [[= -> ->]|[[= -> ->]|[[= -> ->]|[]]]]; cbn in *; set_solver.
  - rewrite !elem_of_cons, elem_of_nil in Hin. destruct Hin as [[= -> ->]|[[= -> ->]|[[= -> ->]|[]]]]; cbn in *; set_solver.
Qed.

Lemma segment_state_moves x : operands_ok (TcpIn.w_io x) → TcpIn.state (TcpIn.w_io (TcpIn.idemip_tcp_in_segment x)) ∈ moves (TcpIn.state (TcpIn.w_io x)).
Proof.
  intros Hok. destruct (segment_cases x) as [->|(io & (V & S & G & L) & _ & _ & Ho & H)]; [apply moves_refl|].
  rewrite <- S in Ho |- *. assert (operands_ok io) as Hok' by (unfold operands_ok in *; by rewrite V, G).
  pose proof (arrives_path io _ Hok' Ho H) as Hp. remember (TcpIn.state _) as s2 eqn:E2 in Hp. rewrite <- E2. clear -Hp.
  induction Hp as [|s s1 s2 Hs _ IH]; [apply moves_refl|]. by eapply figure5_moves.
Qed.

Lemma closed_moves x : TcpIn.state (TcpIn.w_io (TcpIn.idemip_tcp_in_closed x)) = TcpIn.state (TcpIn.w_io x).
Proof.
  unfold TcpIn.idemip_tcp_in_closed. destruct (negb _); [done|]. destruct (has _ _); [done|]. unfold tcp_in_put_rst. by destruct (has _ _).
Qed.

Lemma listen_moves x : TcpIn.state (TcpIn.w_io (TcpIn.idemip_tcp_in_listen x)) ∈ moves (TcpIn.state (TcpIn.w_io x)).
Proof.
  unfold TcpIn.idemip_tcp_in_listen. destruct (_ || _) eqn:E; [apply moves_refl|]. apply orb_false_iff in E as [_ E%negb_false_iff%bool_decide_eq_true].
  assert (TcpIn.state (TcpIn.w_io x) = IDEMIP_TCP_STATE_LISTEN) as -> by exact E.
  destruct (has _ _); [rewrite <- E; apply moves_refl|]. destruct (has _ _); [rewrite <- E; apply moves_refl|].
  destruct (negb _); [rewrite <- E; apply moves_refl|]. right. left.
Qed.

(** The fourth check of SYN-SENT, split where it has read the segment. *)
Lemma syn_sent_split io b : operands_ok io → ∃ io3, operands_ok io3 ∧
  syn_sent_syn io b =
    if negb (tcp_in_from (snd_una (TcpIn.vars io3)) (iss (TcpIn.vars io3)) =? 0) then
      let io4 := tcp_in_put_ack (act_or (io3 <| TcpIn.state := IDEMIP_TCP_STATE_ESTABLISHED |>) IDEMIP_TCP_IN_ACT_ESTABLISHED) in
      if negb (seg_data_len (TcpIn.seg io) =? 0) || has (seg_flags (TcpIn.seg io)) (Z.lor IDEMIP_TCP_FIN IDEMIP_TCP_URG) then urg_text_fin io4 else io4
    else put_syn_ack (io3 <| TcpIn.state := IDEMIP_TCP_STATE_SYN_RECEIVED |>).
Proof.
  intros (Hn & Hw & Hd). eexists. split; [|reflexivity]. unfold operands_ok. rewrite vars_raise_max_wnd, seg_raise_max_wnd.
  destruct b; split_and!; (apply u32_range || exact Hw || exact Hd).
Qed.

Lemma syn_sent_moves x : operands_ok (TcpIn.w_io x) → TcpIn.state (TcpIn.w_io (TcpIn.idemip_tcp_in_syn_sent x)) ∈ moves (TcpIn.state (TcpIn.w_io x)).
Proof.
  intros Hok. cbv beta delta [TcpIn.idemip_tcp_in_syn_sent]. set (io0 := tcp_in_result_clear _). cbv zeta.
  destruct (_ || _) eqn:E; [apply moves_refl|]. apply orb_false_iff in E as [_ E%negb_false_iff%bool_decide_eq_true].
  change (TcpIn.state io0) with (TcpIn.state (TcpIn.w_io x)) in E. rewrite E. set (io1 := io0 <| status := IDEMIP_OK |>).
  assert (TcpIn.state io1 = IDEMIP_TCP_STATE_SYN_SENT) as E1 by exact E. assert (operands_ok io1) as Hok1 by exact Hok. clearbody io1. clear E Hok io0.
  assert (∀ y, TcpIn.state (TcpIn.w_io y) = TcpIn.state io1 → TcpIn.state (TcpIn.w_io y) ∈ moves IDEMIP_TCP_STATE_SYN_SENT) as Hst.
  { intros y ->. rewrite E1. left. }
  destruct (has _ _ && _); [destruct (has _ _); by apply Hst|]. destruct (has _ _); [destruct (_ && _); [right; left|by apply Hst]|].
  destruct (negb _); [by apply Hst|]. clear Hst. match goal with |- context [syn_sent_syn io1 ?b] => destruct (syn_sent_split io1 b Hok1) as (io3 & Hok3 & E3) end.
  match goal with |- TcpIn.state (TcpIn.w_io ?y) ∈ _ => change (TcpIn.w_io y) with (syn_sent_syn io1 (has (seg_flags (TcpIn.seg io1)) IDEMIP_TCP_ACK && tcp_in_ack_new (seg_ack (TcpIn.seg io1)) (snd_una (TcpIn.vars io1)) (snd_nxt (TcpIn.vars io1)))) end.
  rewrite E3. clear E3. destruct (negb (tcp_in_from _ _ =? 0)); [|right; right; left].
  cbv zeta. set (io4 := tcp_in_put_ack _). assert (TcpIn.state io4 = IDEMIP_TCP_STATE_ESTABLISHED) as E4 by done.
  assert (operands_ok io4) as Hok4 by exact Hok3. clearbody io4. destruct (_ || _); [|rewrite E4; set_solver].
  destruct (urg_text_fin_spec io4 Hok4) as (_ & avail & _ & _ & _ & [(-> & _)|(_ & _ & _ & -> & _)] & _); rewrite E4; cbn; set_solver.
Qed.

Lemma arrive_moves a x : operands_ok (TcpIn.w_io x) → TcpIn.state (TcpIn.w_io (arrive a x)) ∈ moves (TcpIn.state (TcpIn.w_io x)).
Proof.
  intros Hok. destruct a; cbn [arrive]; [rewrite closed_moves; apply moves_refl|apply listen_moves|by apply syn_sent_moves|by apply segment_state_moves].
Qed.

(** The table's sets admit every move but one. *)
Lemma moves_admitted s s' : s' ∈ moves s →
  tcp_pcb_transition_ok s s' = negb (tcp_state_eqb s IDEMIP_TCP_STATE_SYN_SENT && tcp_state_eqb s' IDEMIP_TCP_STATE_CLOSE_WAIT).
Proof. destruct s; cbn [moves]; rewrite !elem_of_cons, elem_of_nil; intros; destruct_or?; subst; try done; reflexivity. Qed.

(** ** The round, put together *)
Lemma load_found c w : Table c w → 0 ≤ pcb_index (w_io w) < cf_pcbs c → t_in_use (TCB w (pcb_index (w_io w))) = true →
  let w1 := idemip_tcp_pcb_load c w in let t := TCB w (pcb_index (w_io w)) in
  w_ready w1 = w_ready w ∧ w_tcb w1 = w_tcb w ∧ pcb_index (w_io w1) = pcb_index (w_io w) ∧
  io_vars (w_io w1) = t_vars t ∧ io_ctl (w_io w1) = t_ctl t ∧ io_state (w_io w1) = t_state t ∧ io_info (w_io w1) = info_of t.
Proof.
  intros [Hr _] Hi Hu w1. unfold w1. clear w1. cbv beta delta [idemip_tcp_pcb_load]. match goal with |- context [let _ := ?e in _] => set (w0 := e) end. cbv zeta.
  assert (unready w0 = false) as -> by (unfold unready; change (w_ready w0) with (w_ready w); by rewrite Hr).
  change (pcb_index (w_io w0)) with (pcb_index (w_io w)). rewrite (proj2 (Z.leb_gt _ _)) by lia. cbn [orb].
  change (TCB w0 (pcb_index (w_io w))) with (TCB w (pcb_index (w_io w))). rewrite Hu. done.
Qed.

Lemma store_found c w : Table c w → 0 ≤ pcb_index (w_io w) < cf_pcbs c → t_in_use (TCB w (pcb_index (w_io w))) = true →
  let t := TCB w (pcb_index (w_io w)) in
  let io := w_io w in
  let w' := idemip_tcp_pcb_store c w in
  if tcp_pcb_transition_ok (t_state t) (io_state io) then
    io_status (w_io w') = IDEMIP_OK ∧
    ∀ j, 0 ≤ j → TCB w' j = if decide (j = pcb_index io) then t <| t_vars := io_vars io |> <| t_ctl := io_ctl io |> <| t_state := io_state io |> else TCB w j
  else io_status (w_io w') = IDEMIP_ERR ∧ ∀ j, TCB w' j = TCB w j.
Proof.
  intros [Hr HL] Hi Hu t io w'. unfold w'. clear w'. cbv beta delta [idemip_tcp_pcb_store]. match goal with |- context [let _ := ?e in _] => set (w0 := e) end. cbv zeta.
  assert (unready w0 = false) as -> by (unfold unready; change (w_ready w0) with (w_ready w); by rewrite Hr).
  change (pcb_index (w_io w0)) with (pcb_index io). change (io_state (w_io w0)) with (io_state io). rewrite (proj2 (Z.leb_gt _ _)) by (subst io; lia).
  assert (past_states (io_state io) = false) as -> by (by destruct (io_state io)). cbn [orb]. change (TCB w0 (pcb_index io)) with t.
  assert (t_in_use t = true) as -> by done. cbn [negb orb]. destruct (tcp_pcb_transition_ok _ _); [|done]. cbn [negb]. split; [done|]. intros j Hj.
  match goal with |- TCB (report (put_tcb _ _ ?t') _) _ = _ => change (TCB (put_tcb w0 (pcb_index io) t') j = if decide (j = pcb_index io) then t' else TCB w0 j) end.
  apply TCB_put; [|done]. change (w_tcb w0) with (w_tcb w). subst io; lia.
Qed.

(** C22. What a segment makes of a connection, the table takes back.  For every connection in the table and
    every entry of the arrival path, loading the record, handing it to the entry and storing what it left
    is OK, the record then has exactly the sequence variables, control record and state the entry left and
    keeps the rest, and no other connection's record changes; the one exception is a connection in SYN-SENT
    that the entry took straight to CLOSE-WAIT, which the store refuses, leaving the table as it was. *)
Theorem arrival_stored_back (c : config) (a : arrival) (w : Work) (x : TcpIn.Work) :
  let i := pcb_index (w_io w) in
  Table c w → 0 ≤ i < cf_pcbs c → t_in_use (TCB w i) = true → operands_ok (TcpIn.w_io (loaded c w x)) →
  let io' := TcpIn.w_io (arrive a (loaded c w x)) in
  let w' := arrival_round c a w x in
  if bool_decide (t_state (TCB w i) = IDEMIP_TCP_STATE_SYN_SENT ∧ TcpIn.state io' = IDEMIP_TCP_STATE_CLOSE_WAIT)
  then io_status (w_io w') = IDEMIP_ERR ∧ ∀ j, TCB w' j = TCB w j
  else io_status (w_io w') = IDEMIP_OK ∧
    ∀ j, 0 ≤ j → TCB w' j =
      if decide (j = i) then (TCB w i) <| t_vars := TcpIn.vars io' |> <| t_ctl := TcpIn.ctl io' |> <| t_state := TcpIn.state io' |> else TCB w j.
Proof.
  intros i HT Hi Hu Hok io' w'. unfold loaded in *. destruct (load_found c w HT Hi Hu) as (Hr & HL & Hpi & Hv & Hk & Hs & Hin).
  unfold arrival_round in w'. set (w1 := idemip_tcp_pcb_load c w) in *. set (x1 := hand_over (w_io w1) x) in *.
  set (w2 := set_io w1 (hand_back (arrive a x1) (w_io w1))) in *.
  assert (∀ j, TCB w2 j = TCB w j) as HTCB by (intros j; unfold TCB; change (w_tcb w2) with (w_tcb w1); by rewrite HL).
  assert (pcb_index (w_io w2) = i) as Ei by exact Hpi. assert (Table c w2) as HT2.
  { destruct HT as [HTr HTl]. split; [change (w_ready w1 = TCP_PCB_READY); by rewrite Hr|change (tlen (w_tcb w1) = cf_pcbs c); by rewrite HL]. }
  pose proof (store_found c w2 HT2) as Hst. rewrite Ei, HTCB in Hst. specialize (Hst Hi Hu). cbv zeta in Hst.
  change (io_state (w_io w2)) with (TcpIn.state io') in Hst. change (io_vars (w_io w2)) with (TcpIn.vars io') in Hst.
  change (io_ctl (w_io w2)) with (TcpIn.ctl io') in Hst. change (idemip_tcp_pcb_store c w2) with w' in Hst.
  pose proof (arrive_moves a x1 Hok) as Hm. change (TcpIn.state (TcpIn.w_io x1)) with (io_state (w_io w1)) in Hm. rewrite Hs in Hm. fold i io' in Hm.
  rewrite (moves_admitted _ _ Hm) in Hst. unfold tcp_state_eqb in Hst. fold io' in Hst.
  rewrite bool_decide_and. destruct (_ && _); cbn [negb] in Hst; destruct Hst as [Hst1 Hst2]; (split; [exact Hst1|]).
  - intros j. by rewrite Hst2, HTCB.
  - intros j Hj. rewrite (Hst2 j Hj), Ei. destruct (decide (j = i)); [done|apply HTCB].
Qed.

(** A connection that has sent its SYN, 100, and a peer's segment at 700. *)
Definition sample_open : Work :=
  set_io (run sample_config work_zero
    [(POpen, io_zero); (PStore, io_zero <| io_vars := mkVars 100 101 0 0 0 0 100 0 1000 0 0 |> <| io_state := IDEMIP_TCP_STATE_SYN_SENT |>)]) io_zero.
Definition sample_in (len flags : Z) : TcpIn.Work :=
  TcpIn.mkWork (TcpIn.mkIo (TcpIn.mkParseArgs None None None 0 4 0) (TcpIn.mkSeg 700 101 4096 len 0 0 flags) vars_zero ctl_zero
    IDEMIP_TCP_STATE_CLOSED 0 0 IDEMIP_OK TcpIn.opts_zero (TcpIn.mkReply 0 0 0) (TcpIn.mkResult 0 0 0 0 0 false)) (TcpIn.mkCtx TcpIn.TCP_IN_READY 0 0).
Definition sample_syn_ack : TcpIn.Work := sample_in 1 (Z.lor IDEMIP_TCP_SYN IDEMIP_TCP_ACK).

(** The peer's SYN,ACK establishes it. *)
Lemma arrival_stored_back_witness :
  io_status (w_io (arrival_round sample_config SynSent sample_open sample_syn_ack)) = IDEMIP_OK ∧
  t_state (TCB (arrival_round sample_config SynSent sample_open sample_syn_ack) 0) = IDEMIP_TCP_STATE_ESTABLISHED.
Proof.
  split; [|vm_compute; reflexivity].
  assert (Table sample_config sample_open) as HT by (split; vm_compute; reflexivity).
  assert (operands_ok (TcpIn.w_io (loaded sample_config sample_open sample_syn_ack))) as Hok
    by (vm_compute; split_and!; (reflexivity || discriminate)).
  pose proof (arrival_stored_back sample_config SynSent sample_open sample_syn_ack HT ltac:(vm_compute; split; [discriminate|reflexivity])
    ltac:(vm_compute; reflexivity) Hok) as H.
  cbv zeta in H. rewrite bool_decide_false in H by (vm_compute; intros [_ [=]]). exact (proj1 H).
Defined.

(** A SYN,ACK that carries a FIN takes it to CLOSE-WAIT, and the table does not take that back. *)
Example syn_fin_not_stored :
  let x := sample_in 2 (Z.lor (Z.lor IDEMIP_TCP_SYN IDEMIP_TCP_ACK) IDEMIP_TCP_FIN) in
  TcpIn.state (TcpIn.w_io (arrive SynSent (loaded sample_config sample_open x))) = IDEMIP_TCP_STATE_CLOSE_WAIT ∧
  io_status (w_io (arrival_round sample_config SynSent sample_open x)) = IDEMIP_ERR ∧
  t_state (TCB (arrival_round sample_config SynSent sample_open x) 0) = IDEMIP_TCP_STATE_SYN_SENT.
Proof. vm_compute. split_and!; reflexivity. Qed.
End TcpArrival.
