(* ===== verification/Phy.v ===== *)
(** * The link driver and the physical layer (src/ethernet/phy.h, phy.c)

    A driver is code of the port, reached through a table of function pointers any of which may be NULL.
    Its own state is a type [D]: a hook takes the state before the call and returns the state after.  A
    call through a NULL pointer has no meaning in C; here it is [None], so an entry returns an option and
    the theorems say when it is not [None].  A buffer address is its value, zero for NULL. *)
From stdpp Require Import option.
From S2P Require Import Prelude Base.

Module Phy.
Section Driver.
Context {D : Type}.

Definition IDEMIP_MII_PHY_ADDR_MAX : Z := 32.
Definition IDEMIP_MII_REG_MAX : Z := 32.
Definition IDEMIP_ETH_FRAME_MAX : Z := 1514.

Inductive IdemIpPhySpeed : Type :=
  | IDEMIP_PHY_SPEED_NONE | IDEMIP_PHY_SPEED_10 | IDEMIP_PHY_SPEED_100 | IDEMIP_PHY_SPEED_1000.
Record IdemIpPhyLink := mkLink { speed : IdemIpPhySpeed; full_duplex : bool; up : bool }.

(** The hooks.  [rx_claim] returns the length and what it left in the frame pointer it was handed;
    [mdio_read] returns whether it answered and what is in the word it was handed, given what was in it. *)
Record IdemIpPhyDriver := mkDriver {
  link : option (D → IdemIpPhyLink * D);
  mac : option (D → Z * D);
  rx_claim : option (D → Z * Z * D);
  rx_release : option (D → D);
  tx_claim : option (Z → D → Z * D);
  tx_commit : option (Z → D → bool * D);
  cache_invalidate : option (Z → Z → D → D);
  cache_clean : option (Z → Z → D → D);
  mdio_read : option (Z → Z → Z → D → bool * Z * D);
  mdio_write : option (Z → Z → Z → D → bool * D) }.

(** [p == NULL] *)
Definition null {A : Type} (p : option A) : bool := match p with None => true | Some _ => false end.

Record PhyIo := mkPhyIo {
  b_drv : option IdemIpPhyDriver;
  b_addr : Z;
  tx_len : Z;
  r_reg : Z;
  r_val : Z;
  io_status : IdemIpStatus;
  io_link : IdemIpPhyLink;
  io_mac : Z;
  io_frame : Z;
  io_len : Z;
  io_tx : Z;
  io_reg : Z }.
#[export] Instance PhyIo_eta : Eta PhyIo := fun r =>
  mkPhyIo (b_drv r) (b_addr r) (tx_len r) (r_reg r) (r_val r) (io_status r) (io_link r) (io_mac r) (io_frame r) (io_len r)
    (io_tx r) (io_reg r).

Record PhyCtx := mkPhyCtx { c_drv : option IdemIpPhyDriver; c_addr : Z; c_claimed : bool }.
#[export] Instance PhyCtx_eta : Eta PhyCtx := fun r => mkPhyCtx (c_drv r) (c_addr r) (c_claimed r).

Record PhyWork := mkPhyWork { w_io : PhyIo; w_ctx : PhyCtx }.
Definition with_io (w : PhyWork) (io : PhyIo) : PhyWork := mkPhyWork io (w_ctx w).

Definition idemip_phy_bind (w : PhyWork) (d : D) : option (PhyWork * D) :=
  let io := (w_io w) <| io_status := IDEMIP_ERR |> in
  match b_drv io with
  | None => Some (with_io w io, d)
  | Some drv =>
      if IDEMIP_MII_PHY_ADDR_MAX <=? b_addr io then Some (with_io w io, d)
      else if null (link drv) || null (mac drv) || null (rx_claim drv) || null (rx_release drv) || null (tx_claim drv) ||
              null (tx_commit drv) || null (cache_invalidate drv) || null (cache_clean drv) || null (mdio_read drv) ||
              null (mdio_write drv)
      then Some (with_io w io, d)
      else Some (mkPhyWork (io <| io_status := IDEMIP_OK |>) (mkPhyCtx (Some drv) (b_addr io) false), d)
  end.

Definition idemip_phy_poll_link (w : PhyWork) (d : D) : option (PhyWork * D) :=
  let io := (w_io w) <| io_status := IDEMIP_ERR |> in
  match c_drv (w_ctx w) with
  | None => Some (with_io w io, d)
  | Some drv =>
      f_link ← link drv;
      let '(lk, d1) := f_link d in
      f_mac ← mac drv;
      let '(m, d2) := f_mac d1 in
      Some (with_io w (io <| io_link := lk |> <| io_mac := m |> <| io_status := IDEMIP_OK |>), d2)
  end.

Definition idemip_phy_rx_claim (w : PhyWork) (d : D) : option (PhyWork * D) :=
  let io := (w_io w) <| io_status := IDEMIP_ERR |> <| io_frame := 0 |> <| io_len := 0 |> in
  match c_drv (w_ctx w) with
  | None => Some (with_io w io, d)
  | Some drv =>
      if c_claimed (w_ctx w) then Some (with_io w io, d) else
      f ← rx_claim drv;
      let '(len, frame, d1) := f d in
      if (len =? 0) || (frame =? 0) then Some (with_io w (io <| io_status := IDEMIP_BUSY |>), d1) else
      g ← cache_invalidate drv;
      let d2 := g frame len d1 in
      Some (mkPhyWork (io <| io_frame := frame |> <| io_len := len |> <| io_status := IDEMIP_OK |>)
              ((w_ctx w) <| c_claimed := true |>), d2)
  end.

Definition idemip_phy_rx_release (w : PhyWork) (d : D) : option (PhyWork * D) :=
  let io := (w_io w) <| io_status := IDEMIP_ERR |> in
  match c_drv (w_ctx w) with
  | None => Some (with_io w io, d)
  | Some drv =>
      if negb (c_claimed (w_ctx w)) then Some (with_io w io, d) else
      f ← rx_release drv;
      Some (mkPhyWork (io <| io_frame := 0 |> <| io_len := 0 |> <| io_status := IDEMIP_OK |>)
              ((w_ctx w) <| c_claimed := false |>), f d)
  end.

Definition idemip_phy_tx_claim (w : PhyWork) (d : D) : option (PhyWork * D) :=
  let io := (w_io w) <| io_status := IDEMIP_ERR |> <| io_tx := 0 |> in
  match c_drv (w_ctx w) with
  | None => Some (with_io w io, d)
  | Some drv =>
      if (tx_len io =? 0) || (IDEMIP_ETH_FRAME_MAX <? tx_len io) then Some (with_io w io, d) else
      f ← tx_claim drv;
      let '(buf, d1) := f (tx_len io) d in
      Some (with_io w (io <| io_tx := buf |> <| io_status := if negb (buf =? 0) then IDEMIP_OK else IDEMIP_BUSY |>), d1)
  end.

Definition idemip_phy_tx_commit (w : PhyWork) (d : D) : option (PhyWork * D) :=
  let io := (w_io w) <| io_status := IDEMIP_ERR |> in
  match c_drv (w_ctx w) with
  | None => Some (with_io w io, d)
  | Some drv =>
      if (io_tx io =? 0) || (tx_len io =? 0) then Some (with_io w io, d) else
      g ← cache_clean drv;
      let d1 := g (io_tx io) (tx_len io) d in
      f ← tx_commit drv;
      let '(queued, d2) := f (tx_len io) d1 in
      if negb queued then Some (with_io w (io <| io_status := IDEMIP_BUSY |>), d2)
      else Some (with_io w (io <| io_tx := 0 |> <| io_status := IDEMIP_OK |>), d2)
  end.

Definition idemip_phy_mdio_read (w : PhyWork) (d : D) : option (PhyWork * D) :=
  let io := (w_io w) <| io_status := IDEMIP_ERR |> <| io_reg := 0 |> in
  match c_drv (w_ctx w) with
  | None => Some (with_io w io, d)
  | Some drv =>
      if IDEMIP_MII_REG_MAX <=? r_reg io then Some (with_io w io, d) else
      f ← mdio_read drv;
      let '(ok, v, d1) := f (c_addr (w_ctx w)) (r_reg io) (io_reg io) d in
      Some (with_io w (io <| io_reg := v |> <| io_status := if (ok : bool) then IDEMIP_OK else IDEMIP_BUSY |>), d1)
  end.

Definition idemip_phy_mdio_write (w : PhyWork) (d : D) : option (PhyWork * D) :=
  let io := (w_io w) <| io_status := IDEMIP_ERR |> in
  match c_drv (w_ctx w) with
  | None => Some (with_io w io, d)
  | Some drv =>
      if IDEMIP_MII_REG_MAX <=? r_reg io then Some (with_io w io, d) else
      f ← mdio_write drv;
      let '(ok, d1) := f (c_addr (w_ctx w)) (r_reg io) (r_val io) d in
      Some (with_io w (io <| io_status := if (ok : bool) then IDEMIP_OK else IDEMIP_BUSY |>), d1)
  end.

End Driver.
Arguments IdemIpPhyDriver : clear implicits.
Arguments PhyIo : clear implicits.
Arguments PhyCtx : clear implicits.
Arguments PhyWork : clear implicits.
End Phy.
