(* ===== verification/Dma.v ===== *)
(** * The descriptor rings (src/netif/dma.c)

    One interface's receive and transmit descriptors and the pin count on each receive descriptor.  The
    driver is the port's, as in Phy.v: an entry threads its state and is [None] if it calls through a NULL
    hook.  The ring sizes and bounds are the build's, as one record.  [memset] of the borrow past the
    operand block is the zero context and two rings of zero descriptors. *)
From stdpp Require Import option.
From S2P Require Import Prelude Base Phy.

Module Dma.
Import Phy.

Definition IDEMIP_DMA_FLAG_OWN : Z := 0x0001.
Definition IDEMIP_DMA_FLAG_HELD : Z := 0x0002.
Definition IDEMIP_DMA_FLAG_ERR : Z := 0x0004.
Definition IDEMIP_DMA_FLAG_LAST : Z := 0x0008.
Definition DMA_READY : Z := 0x444D4131.

Record config := mkConfig {
  IDEMIP_RX_DESCRIPTORS : Z;
  IDEMIP_TX_DESCRIPTORS : Z;
  IDEMIP_DMA_FRAME_MAX : Z;
  IDEMIP_CACHE_LINE_BYTES : Z;
  IDEMIP_MAX_PINNED_FRAMES : Z }.

(** [IDEMIP_ROUND_UP(n, a)], [a] a power of two *)
Definition IDEMIP_ROUND_UP (n a : Z) : Z := Z.land (n + (a - 1)) (Z.lnot (a - 1)).
Definition IDEMIP_DMA_BUF_STRIDE (cf : config) : Z := IDEMIP_ROUND_UP (IDEMIP_DMA_FRAME_MAX cf) (IDEMIP_CACHE_LINE_BYTES cf).

Record DmaDesc := mkDesc { d_buf : Z; d_len : Z; d_flags : Z; d_pins : Z }.
#[export] Instance DmaDesc_eta : Eta DmaDesc := fun r => mkDesc (d_buf r) (d_len r) (d_flags r) (d_pins r).
Definition desc_zero : DmaDesc := mkDesc 0 0 0 0.
#[export] Instance DmaDesc_inhabited : Inhabited DmaDesc := populate desc_zero.

(** [(flags & bit) != 0] *)
Definition has (flags bit : Z) : bool := negb (Z.land flags bit =? 0).

Section Rings.
Context {D : Type}.

Record DmaIo := mkDmaIo {
  b_drv : option (IdemIpPhyDriver D);
  b_rx_base : Z;
  b_tx_base : Z;
  a_len : Z;
  a_index : Z;
  io_status : IdemIpStatus;
  io_buf : Z;
  io_len : Z;
  io_flags : Z;
  io_pinned : Z;
  io_index : Z;
  io_pins : Z }.
#[export] Instance DmaIo_eta : Eta DmaIo := fun r =>
  mkDmaIo (b_drv r) (b_rx_base r) (b_tx_base r) (a_len r) (a_index r) (io_status r) (io_buf r) (io_len r) (io_flags r)
    (io_pinned r) (io_index r) (io_pins r).

Record DmaCtx := mkDmaCtx {
  c_drv : option (IdemIpPhyDriver D); c_ready : Z; c_rx_head : Z; c_tx_head : Z; c_tx_tail : Z; c_pinned : Z }.
#[export] Instance DmaCtx_eta : Eta DmaCtx := fun r =>
  mkDmaCtx (c_drv r) (c_ready r) (c_rx_head r) (c_tx_head r) (c_tx_tail r) (c_pinned r).
Definition ctx_zero : DmaCtx := mkDmaCtx None 0 0 0 0 0.

Record DmaWork := mkDmaWork { w_io : DmaIo; w_ctx : DmaCtx; w_rx : list DmaDesc; w_tx : list DmaDesc }.
#[export] Instance DmaWork_eta : Eta DmaWork := fun r => mkDmaWork (w_io r) (w_ctx r) (w_rx r) (w_tx r).

Variable cf : config.
Local Abbreviation RX := (IDEMIP_RX_DESCRIPTORS cf).
Local Abbreviation TX := (IDEMIP_TX_DESCRIPTORS cf).

(** The walk over a ring from [start]; [count] when no descriptor points at the address. *)
Definition dma_slot_of (ring : list DmaDesc) (count start addr : Z) : Z :=
  match scan (λ n, d_buf (tget ring (Z.land (u32 (start + n)) (count - 1))) =? addr) (Z.to_nat count) 0 with
  | Some n => Z.land (u32 (start + n)) (count - 1)
  | None => count
  end.

(** The descriptor given back, the driver told first. *)
Definition dma_rx_give_back (drv : IdemIpPhyDriver D) (x : DmaDesc) (d : D) : option (DmaDesc * D) :=
  f ← rx_release drv;
  Some (x <| d_len := 0 |> <| d_flags := IDEMIP_DMA_FLAG_OWN |>, f d).

Definition idemip_dma_clear (w : DmaWork) (d : D) : option (DmaWork * D) :=
  Some (mkDmaWork ((w_io w) <| io_status := IDEMIP_OK |>) (ctx_zero <| c_ready := DMA_READY |>)
          (replicate (Z.to_nat RX) desc_zero) (replicate (Z.to_nat TX) desc_zero), d).

(** Descriptor [i] of a ring as [bind] leaves it. *)
Definition bound_ring (count base flags : Z) : list DmaDesc :=
  map (λ i, mkDesc (base + i * IDEMIP_DMA_BUF_STRIDE cf) 0 flags 0) (seqZ 0 count).

Definition idemip_dma_bind (w : DmaWork) (d : D) : option (DmaWork * D) :=
  let io := (w_io w) <| io_status := IDEMIP_ERR |> in
  let stop := Some (w <| w_io := io |>, d) in
  match b_drv io with
  | None => stop
  | Some drv =>
      if negb (c_ready (w_ctx w) =? DMA_READY) || (b_rx_base io =? 0) || (b_tx_base io =? 0) ||
         null (cache_invalidate drv) || null (cache_clean drv) then stop
      else if null (rx_claim drv) || null (rx_release drv) || null (tx_claim drv) || null (tx_commit drv) then stop
      else if negb (Z.land (Z.lor (b_rx_base io) (b_tx_base io)) (IDEMIP_CACHE_LINE_BYTES cf - 1) =? 0) then stop
      else
        Some (mkDmaWork (io <| io_status := IDEMIP_OK |>)
                (mkDmaCtx (Some drv) (c_ready (w_ctx w)) 0 0 0 0)
                (bound_ring RX (b_rx_base io) IDEMIP_DMA_FLAG_OWN) (bound_ring TX (b_tx_base io) 0), d)
  end.

(** The result members rx_take, tx_take and tx_reap blank first. *)
Definition io_blank (io : DmaIo) : DmaIo :=
  io <| io_status := IDEMIP_ERR |> <| io_buf := 0 |> <| io_len := 0 |> <| io_flags := 0 |> <| io_pins := 0 |>
     <| io_index := 0 |>.

Definition idemip_dma_rx_take (w : DmaWork) (d : D) : option (DmaWork * D) :=
  let io := io_blank (w_io w) in
  let ctx := w_ctx w in
  let stop d' := Some (w <| w_io := io |>, d') in
  if negb (c_ready ctx =? DMA_READY) then stop d else
  match c_drv ctx with
  | None => stop d
  | Some drv =>
      claim ← rx_claim drv;
      let '(len, frame, d1) := claim d in
      if (len =? 0) || (frame =? 0) then Some (w <| w_io := io <| io_status := IDEMIP_BUSY |> |>, d1)
      else if IDEMIP_DMA_FRAME_MAX cf <? len then
        release ← rx_release drv;
        Some (w <| w_io := io <| io_flags := IDEMIP_DMA_FLAG_ERR |> |>, release d1)
      else
        let slot := dma_slot_of (w_rx w) RX (Z.land (c_rx_head ctx) (RX - 1)) frame in
        if RX <=? slot then stop d1
        else
          let x := tget (w_rx w) slot in
          if negb (has (d_flags x) IDEMIP_DMA_FLAG_OWN) then stop d1
          else
            invalidate ← cache_invalidate drv;
            let d2 := invalidate frame len d1 in
            let x1 := x <| d_len := u16 len |> <| d_flags := Z.lor IDEMIP_DMA_FLAG_HELD IDEMIP_DMA_FLAG_LAST |> in
            Some (w <| w_io := io <| io_buf := d_buf x1 |> <| io_len := d_len x1 |> <| io_flags := d_flags x1 |>
                                 <| io_pins := d_pins x1 |> <| io_index := u8 slot |> <| io_pinned := c_pinned ctx |>
                                 <| io_status := IDEMIP_OK |> |>
                    <| w_ctx := ctx <| c_rx_head := u32 (slot + 1) |> |>
                    <| w_rx := tset (w_rx w) slot x1 |>, d2)
  end.

(** The guard [rx_post], [pin] and [unpin] share: the driver, when the borrow is bound and the index
    names a receive descriptor. *)
Definition rx_named (w : DmaWork) : option (IdemIpPhyDriver D) :=
  if negb (c_ready (w_ctx w) =? DMA_READY) then None else
  match c_drv (w_ctx w) with
  | None => None
  | Some drv => if RX <=? a_index (w_io w) then None else Some drv
  end.

Definition idemip_dma_rx_post (w : DmaWork) (d : D) : option (DmaWork * D) :=
  let io := (w_io w) <| io_status := IDEMIP_ERR |> in
  let stop := Some (w <| w_io := io |>, d) in
  match rx_named w with
  | None => stop
  | Some drv =>
      let i := a_index io in
      let x := tget (w_rx w) i in
      if negb (has (d_flags x) IDEMIP_DMA_FLAG_HELD) then stop
      else
        '(x1, d1) ←
          (if 0 <? d_pins x then Some (x <| d_flags := Z.land (d_flags x) (u16 (Z.lnot IDEMIP_DMA_FLAG_HELD)) |>, d)
           else dma_rx_give_back drv x d);
        Some (w <| w_io := io <| io_index := i |> <| io_flags := d_flags x1 |> <| io_pins := d_pins x1 |>
                             <| io_pinned := c_pinned (w_ctx w) |> <| io_buf := 0 |> <| io_len := 0 |>
                             <| io_status := IDEMIP_OK |> |>
                <| w_rx := tset (w_rx w) i x1 |>, d1)
  end.

Definition idemip_dma_pin (w : DmaWork) (d : D) : option (DmaWork * D) :=
  let io := (w_io w) <| io_status := IDEMIP_ERR |> <| io_pins := 0 |> in
  match rx_named w with
  | None => Some (w <| w_io := io |>, d)
  | Some drv =>
      let ctx := w_ctx w in
      let i := a_index io in
      let x := tget (w_rx w) i in
      let io1 := io <| io_pinned := c_pinned ctx |> in
      if negb (has (d_flags x) IDEMIP_DMA_FLAG_HELD) && (d_pins x =? 0) then Some (w <| w_io := io1 |>, d)
      else if IDEMIP_MAX_PINNED_FRAMES cf <=? c_pinned ctx then
        Some (w <| w_io := io1 <| io_pins := d_pins x |> <| io_status := IDEMIP_BUSY |> |>, d)
      else
        let x1 := x <| d_pins := u8 (d_pins x + 1) |> in
        let ctx1 := ctx <| c_pinned := u16 (c_pinned ctx + 1) |> in
        Some (w <| w_io := io1 <| io_index := i |> <| io_flags := d_flags x1 |> <| io_pins := d_pins x1 |>
                              <| io_pinned := c_pinned ctx1 |> <| io_status := IDEMIP_OK |> |>
                <| w_ctx := ctx1 |> <| w_rx := tset (w_rx w) i x1 |>, d)
  end.

Definition idemip_dma_unpin (w : DmaWork) (d : D) : option (DmaWork * D) :=
  let io := (w_io w) <| io_status := IDEMIP_ERR |> <| io_pins := 0 |> in
  match rx_named w with
  | None => Some (w <| w_io := io |>, d)
  | Some drv =>
      let ctx := w_ctx w in
      let i := a_index io in
      let x := tget (w_rx w) i in
      let io1 := io <| io_pinned := c_pinned ctx |> in
      if d_pins x =? 0 then Some (w <| w_io := io1 |>, d)
      else
        let x1 := x <| d_pins := u8 (d_pins x - 1) |> in
        let ctx1 := ctx <| c_pinned := u16 (c_pinned ctx - 1) |> in
        '(x2, d1) ←
          (if (d_pins x1 =? 0) && negb (has (d_flags x1) IDEMIP_DMA_FLAG_HELD) then dma_rx_give_back drv x1 d
           else Some (x1, d));
        Some (w <| w_io := io1 <| io_index := i |> <| io_flags := d_flags x2 |> <| io_pins := d_pins x2 |>
                              <| io_pinned := c_pinned ctx1 |> <| io_status := IDEMIP_OK |> |>
                <| w_ctx := ctx1 |> <| w_rx := tset (w_rx w) i x2 |>, d1)
  end.

Definition idemip_dma_tx_take (w : DmaWork) (d : D) : option (DmaWork * D) :=
  let io := io_blank (w_io w) in
  let ctx := w_ctx w in
  let stop d' := Some (w <| w_io := io |>, d') in
  if negb (c_ready ctx =? DMA_READY) then stop d else
  match c_drv ctx with
  | None => stop d
  | Some drv =>
      claim ← tx_claim drv;
      let '(buf, d1) := claim (IDEMIP_DMA_FRAME_MAX cf) d in
      if buf =? 0 then Some (w <| w_io := io <| io_status := IDEMIP_BUSY |> |>, d1)
      else
        let slot := dma_slot_of (w_tx w) TX (Z.land (c_tx_head ctx) (TX - 1)) buf in
        if TX <=? slot then stop d1
        else
          let x := tget (w_tx w) slot in
          if has (d_flags x) (Z.lor IDEMIP_DMA_FLAG_OWN IDEMIP_DMA_FLAG_HELD) then stop d1
          else
            let x1 := x <| d_len := 0 |> <| d_flags := IDEMIP_DMA_FLAG_HELD |> in
            Some (w <| w_io := io <| io_buf := d_buf x1 |> <| io_index := u8 slot |> <| io_flags := d_flags x1 |>
                                 <| io_status := IDEMIP_OK |> |>
                    <| w_ctx := ctx <| c_tx_head := u32 (slot + 1) |> |>
                    <| w_tx := tset (w_tx w) slot x1 |>, d1)
  end.

Definition idemip_dma_tx_post (w : DmaWork) (d : D) : option (DmaWork * D) :=
  let io := (w_io w) <| io_status := IDEMIP_ERR |> in
  let ctx := w_ctx w in
  let stop := Some (w <| w_io := io |>, d) in
  if negb (c_ready ctx =? DMA_READY) then stop else
  match c_drv ctx with
  | None => stop
  | Some drv =>
      if (TX <=? a_index io) || (a_len io =? 0) || (IDEMIP_ETH_FRAME_MAX <? a_len io) then stop
      else
        let i := a_index io in
        let x := tget (w_tx w) i in
        if negb (has (d_flags x) IDEMIP_DMA_FLAG_HELD) || (d_buf x =? 0) then stop
        else
          let x1 := x <| d_len := a_len io |> in
          clean ← cache_clean drv;
          let d1 := clean (d_buf x1) (d_len x1) d in
          let io1 := io <| io_index := i |> <| io_buf := d_buf x1 |> <| io_len := d_len x1 |> in
          commit ← tx_commit drv;
          let '(queued, d2) := commit (d_len x1) d1 in
          if negb queued then
            Some (w <| w_io := io1 <| io_flags := d_flags x1 |> <| io_status := IDEMIP_BUSY |> |>
                    <| w_tx := tset (w_tx w) i x1 |>, d2)
          else
            let x2 := x1 <| d_flags := Z.lor IDEMIP_DMA_FLAG_OWN IDEMIP_DMA_FLAG_LAST |> in
            Some (w <| w_io := io1 <| io_flags := d_flags x2 |> <| io_status := IDEMIP_OK |> |>
                    <| w_tx := tset (w_tx w) i x2 |>, d2)
  end.

(** The body of the reap: one descriptor of the walk from [tx_tail]; the ring, the index reported and
    the number taken back so far. *)
Definition reap_one (tail n : Z) (s : list DmaDesc * Z * Z) : list DmaDesc * Z * Z :=
  let '(ring, index, taken) := s in
  let slot := Z.land (u32 (tail + n)) (TX - 1) in
  let x := tget ring slot in
  if negb (has (d_flags x) IDEMIP_DMA_FLAG_OWN) then s
  else (tset ring slot (x <| d_len := 0 |> <| d_flags := 0 |>), u8 slot, u32 (taken + 1)).

Definition idemip_dma_tx_reap (w : DmaWork) (d : D) : option (DmaWork * D) :=
  let io := io_blank (w_io w) in
  let ctx := w_ctx w in
  let stop := Some (w <| w_io := io |>, d) in
  if negb (c_ready ctx =? DMA_READY) then stop else
  match c_drv ctx with
  | None => stop
  | Some _ =>
      let '(ring, index, taken) :=
        fold_left (λ s n, reap_one (c_tx_tail ctx) n s) (seqZ 0 TX) (w_tx w, io_index io, 0) in
      Some (w <| w_io := io <| io_index := index |> <| io_status := if 0 <? taken then IDEMIP_OK else IDEMIP_BUSY |> |>
              <| w_ctx := ctx <| c_tx_tail := u32 (c_tx_tail ctx + taken) |> |> <| w_tx := ring |>, d)
  end.

Definition idemip_dma_pinned (w : DmaWork) (d : D) : option (DmaWork * D) :=
  let io := (w_io w) <| io_status := IDEMIP_ERR |> <| io_pinned := 0 |> in
  if negb (c_ready (w_ctx w) =? DMA_READY) then Some (w <| w_io := io |>, d)
  else Some (w <| w_io := io <| io_pinned := c_pinned (w_ctx w) |> <| io_status := IDEMIP_OK |> |>, d).

End Rings.
Arguments DmaIo : clear implicits.
Arguments DmaCtx : clear implicits.
Arguments DmaWork : clear implicits.
End Dma.

(** * What the descriptor rings promise

    The rings as a machine over owners: a receive descriptor is the engine's, held by the tick with some
    pins on it, or kept by its pins alone; a transmit descriptor is free, being built into, or the
    engine's.  Here there are no flags, no ring positions and no counters: a buffer's descriptor is
    computed from its address, and a pin is refused when the pins over the whole ring are at the bound.
    DmaThms.v shows that dma.c implements it. *)
Module DmaSpec.
Import Phy Dma.

Inductive Owner : Type :=
  | Engine
  | Held (pins : Z)
  | Kept (pins : Z).
#[export] Instance Owner_inhabited : Inhabited Owner := populate Engine.

Inductive TxOwner : Type := TxFree | TxBuilding | TxEngine.
#[export] Instance TxOwner_eq_dec : EqDecision TxOwner.
Proof. solve_decision. Defined.
#[export] Instance TxOwner_inhabited : Inhabited TxOwner := populate TxFree.

Definition pins_of (o : Owner) : Z := match o with Engine => 0 | Held n | Kept n => n end.

(** The sum of [f] over a list. *)
Definition total {A : Type} (f : A → Z) (l : list A) : Z := foldr (λ x a, f x + a) 0 l.

(** The buffer of an array of [count] buffers [stride] apart that starts at an address. *)
Definition slot_at (base stride count addr : Z) : option Z :=
  let o := addr - base in
  if (0 <=? o) && (o mod stride =? 0) && (o / stride <? count) then Some (o / stride) else None.

Inductive dma_op : Type := DClear | DBind | DRxTake | DRxPost | DPin | DUnpin | DTxTake | DTxPost | DTxReap | DPinned.
#[export] Instance dma_op_eq_dec : EqDecision dma_op.
Proof. solve_decision. Defined.

Section Machine.
Context {D : Type} (cf : config).
Local Abbreviation RX := (IDEMIP_RX_DESCRIPTORS cf).
Local Abbreviation TX := (IDEMIP_TX_DESCRIPTORS cf).
Local Abbreviation STRIDE := (IDEMIP_DMA_BUF_STRIDE cf).

Inductive Rings : Type :=
  | Unready
  | Unbound
  | Bound (drv : IdemIpPhyDriver D) (rx_base tx_base : Z) (rx : list Owner) (tx : list TxOwner).

Definition complete (drv : IdemIpPhyDriver D) : Prop :=
  is_Some (rx_claim drv) ∧ is_Some (rx_release drv) ∧ is_Some (tx_claim drv) ∧ is_Some (tx_commit drv) ∧
  is_Some (cache_invalidate drv) ∧ is_Some (cache_clean drv).
Definition complete_b (drv : IdemIpPhyDriver D) : bool :=
  negb (null (rx_claim drv) || null (rx_release drv) || null (tx_claim drv) || null (tx_commit drv) ||
        null (cache_invalidate drv) || null (cache_clean drv)).

(** What a call does to the rings and to the driver, and what it reports. *)
Definition outcome : Type := Rings * IdemIpStatus * D.

(** A driver with every hook of the frame path, and two arrays on cache lines. *)
Definition bindable (io : DmaIo D) (drv : IdemIpPhyDriver D) : bool :=
  complete_b drv && negb (b_rx_base io =? 0) && negb (b_tx_base io =? 0) &&
  (b_rx_base io mod IDEMIP_CACHE_LINE_BYTES cf =? 0) && (b_tx_base io mod IDEMIP_CACHE_LINE_BYTES cf =? 0).

Definition spec_bind (io : DmaIo D) (r : Rings) (d : D) : outcome :=
  match r, b_drv io with
  | Unready, _ | _, None => (r, IDEMIP_ERR, d)
  | _, Some drv =>
      if bindable io drv
      then (Bound drv (b_rx_base io) (b_tx_base io) (replicate (Z.to_nat RX) Engine) (replicate (Z.to_nat TX) TxFree),
            IDEMIP_OK, d)
      else (r, IDEMIP_ERR, d)
  end.

(** A frame in a buffer of the array whose descriptor is the engine's is taken, and only such a one. *)
Definition spec_rx_take (drv : IdemIpPhyDriver D) (rxb txb : Z) (rx : list Owner) (tx : list TxOwner) (d : D) : option outcome :=
  let r := Bound drv rxb txb rx tx in
  claim ← rx_claim drv;
  release ← rx_release drv;
  invalidate ← cache_invalidate drv;
  let '(len, frame, d1) := claim d in
  Some (if (len =? 0) || (frame =? 0) then (r, IDEMIP_BUSY, d1)
        else if IDEMIP_DMA_FRAME_MAX cf <? len then (r, IDEMIP_ERR, release d1)
        else match slot_at rxb STRIDE RX frame with
             | None => (r, IDEMIP_ERR, d1)
             | Some i => match tget rx i with
                         | Engine => (Bound drv rxb txb (tset rx i (Held 0)) tx, IDEMIP_OK, invalidate frame len d1)
                         | _ => (r, IDEMIP_ERR, d1)
                         end
             end).

(** The hold ends; the engine gets the descriptor if no pin is on it. *)
Definition spec_rx_post (drv : IdemIpPhyDriver D) (rxb txb : Z) (rx : list Owner) (tx : list TxOwner) (i : Z) (d : D) : option outcome :=
  let r := Bound drv rxb txb rx tx in
  release ← rx_release drv;
  Some (if RX <=? i then (r, IDEMIP_ERR, d)
        else match tget rx i with
             | Held n => if n =? 0 then (Bound drv rxb txb (tset rx i Engine) tx, IDEMIP_OK, release d)
                         else (Bound drv rxb txb (tset rx i (Kept n)) tx, IDEMIP_OK, d)
             | _ => (r, IDEMIP_ERR, d)
             end).

Definition spec_pin (drv : IdemIpPhyDriver D) (rxb txb : Z) (rx : list Owner) (tx : list TxOwner) (i : Z) (d : D) : outcome :=
  let r := Bound drv rxb txb rx tx in
  let full := IDEMIP_MAX_PINNED_FRAMES cf <=? total pins_of rx in
  if RX <=? i then (r, IDEMIP_ERR, d)
  else match tget rx i with
       | Engine => (r, IDEMIP_ERR, d)
       | Held n => if full then (r, IDEMIP_BUSY, d) else (Bound drv rxb txb (tset rx i (Held (n + 1))) tx, IDEMIP_OK, d)
       | Kept n => if full then (r, IDEMIP_BUSY, d) else (Bound drv rxb txb (tset rx i (Kept (n + 1))) tx, IDEMIP_OK, d)
       end.

(** A pin goes; the engine gets the descriptor with the last one, the hold being over. *)
Definition spec_unpin (drv : IdemIpPhyDriver D) (rxb txb : Z) (rx : list Owner) (tx : list TxOwner) (i : Z) (d : D) : option outcome :=
  let r := Bound drv rxb txb rx tx in
  release ← rx_release drv;
  Some (if RX <=? i then (r, IDEMIP_ERR, d)
        else match tget rx i with
             | Engine => (r, IDEMIP_ERR, d)
             | Held n => if n =? 0 then (r, IDEMIP_ERR, d)
                         else (Bound drv rxb txb (tset rx i (Held (n - 1))) tx, IDEMIP_OK, d)
             | Kept n => if n =? 1 then (Bound drv rxb txb (tset rx i Engine) tx, IDEMIP_OK, release d)
                         else (Bound drv rxb txb (tset rx i (Kept (n - 1))) tx, IDEMIP_OK, d)
             end).

Definition spec_tx_take (drv : IdemIpPhyDriver D) (rxb txb : Z) (rx : list Owner) (tx : list TxOwner) (d : D) : option outcome :=
  let r := Bound drv rxb txb rx tx in
  claim ← tx_claim drv;
  let '(buf, d1) := claim (IDEMIP_DMA_FRAME_MAX cf) d in
  Some (if buf =? 0 then (r, IDEMIP_BUSY, d1)
        else match slot_at txb STRIDE TX buf with
             | None => (r, IDEMIP_ERR, d1)
             | Some i => match tget tx i with
                         | TxFree => (Bound drv rxb txb rx (tset tx i TxBuilding), IDEMIP_OK, d1)
                         | _ => (r, IDEMIP_ERR, d1)
                         end
             end).

(** The buffer is cleaned out of the cache, then committed; a driver that refuses leaves it as it was. *)
Definition spec_tx_post (drv : IdemIpPhyDriver D) (rxb txb : Z) (rx : list Owner) (tx : list TxOwner) (i len : Z) (d : D) : option outcome :=
  let r := Bound drv rxb txb rx tx in
  clean ← cache_clean drv;
  commit ← tx_commit drv;
  Some (if (TX <=? i) || (len =? 0) || (IDEMIP_ETH_FRAME_MAX <? len) then (r, IDEMIP_ERR, d)
        else match tget tx i with
             | TxBuilding =>
                 let '(queued, d1) := commit len (clean (txb + i * STRIDE) len d) in
                 if (queued : bool) then (Bound drv rxb txb rx (tset tx i TxEngine), IDEMIP_OK, d1) else (r, IDEMIP_BUSY, d1)
             | _ => (r, IDEMIP_ERR, d)
             end).

Definition reaped (o : TxOwner) : TxOwner := match o with TxEngine => TxFree | _ => o end.
Definition spec_tx_reap (drv : IdemIpPhyDriver D) (rxb txb : Z) (rx : list Owner) (tx : list TxOwner) (d : D) : outcome :=
  (Bound drv rxb txb rx (map reaped tx), if decide (TxEngine ∈ tx) then IDEMIP_OK else IDEMIP_BUSY, d).

Definition spec_step (c : dma_op) (io : DmaIo D) (r : Rings) (d : D) : option outcome :=
  match c, r with
  | DClear, _ => Some (Unbound, IDEMIP_OK, d)
  | DBind, _ => Some (spec_bind io r d)
  | DPinned, Unready => Some (r, IDEMIP_ERR, d)
  | DPinned, _ => Some (r, IDEMIP_OK, d)
  | _, Unready | _, Unbound => Some (r, IDEMIP_ERR, d)
  | DRxTake, Bound drv rxb txb rx tx => spec_rx_take drv rxb txb rx tx d
  | DRxPost, Bound drv rxb txb rx tx => spec_rx_post drv rxb txb rx tx (a_index io) d
  | DPin, Bound drv rxb txb rx tx => Some (spec_pin drv rxb txb rx tx (a_index io) d)
  | DUnpin, Bound drv rxb txb rx tx => spec_unpin drv rxb txb rx tx (a_index io) d
  | DTxTake, Bound drv rxb txb rx tx => spec_tx_take drv rxb txb rx tx d
  | DTxPost, Bound drv rxb txb rx tx => spec_tx_post drv rxb txb rx tx (a_index io) (a_len io) d
  | DTxReap, Bound drv rxb txb rx tx => Some (spec_tx_reap drv rxb txb rx tx d)
  end.

Fixpoint spec_run (calls : list (dma_op * DmaIo D)) (r : Rings) (d : D) : option (Rings * D * list IdemIpStatus) :=
  match calls with
  | [] => Some (r, d, [])
  | (c, io) :: rest =>
      '(r1, st, d1) ← spec_step c io r d;
      '(r2, d2, sts) ← spec_run rest r1 d1;
      Some (r2, d2, st :: sts)
  end.

(** The code's calls, each on the operand block the caller wrote. *)
Definition dma_call (c : dma_op) : DmaWork D → D → option (DmaWork D * D) :=
  match c with
  | DClear => idemip_dma_clear cf
  | DBind => idemip_dma_bind cf
  | DRxTake => idemip_dma_rx_take cf
  | DRxPost => idemip_dma_rx_post cf
  | DPin => idemip_dma_pin cf
  | DUnpin => idemip_dma_unpin cf
  | DTxTake => idemip_dma_tx_take cf
  | DTxPost => idemip_dma_tx_post cf
  | DTxReap => idemip_dma_tx_reap cf
  | DPinned => idemip_dma_pinned
  end.
Definition put_io (w : DmaWork D) (io : DmaIo D) : DmaWork D := w <| w_io := io |>.

Fixpoint dma_run (calls : list (dma_op * DmaIo D)) (w : DmaWork D) (d : D) : option (DmaWork D * D * list IdemIpStatus) :=
  match calls with
  | [] => Some (w, d, [])
  | (c, io) :: rest =>
      '(w1, d1) ← dma_call c (put_io w io) d;
      '(w2, d2, sts) ← dma_run rest w1 d1;
      Some (w2, d2, io_status (w_io w1) :: sts)
  end.

(** What a borrow says of the owners. *)
Definition owner_of (x : DmaDesc) : Owner :=
  if has (d_flags x) IDEMIP_DMA_FLAG_OWN then Engine
  else if has (d_flags x) IDEMIP_DMA_FLAG_HELD then Held (d_pins x)
  else Kept (d_pins x).
Definition tx_owner_of (x : DmaDesc) : TxOwner :=
  if has (d_flags x) IDEMIP_DMA_FLAG_OWN then TxEngine
  else if has (d_flags x) IDEMIP_DMA_FLAG_HELD then TxBuilding
  else TxFree.
Definition view (w : DmaWork D) : Rings :=
  if negb (c_ready (w_ctx w) =? DMA_READY) then Unready
  else match c_drv (w_ctx w) with
       | None => Unbound
       | Some drv => Bound drv (d_buf (tget (w_rx w) 0)) (d_buf (tget (w_tx w) 0)) (map owner_of (w_rx w)) (map tx_owner_of (w_tx w))
       end.

(** The bounds dma.c and idemip_config.h assert of a build. *)
Definition pow2 (n : Z) : Prop := ∃ k, 0 ≤ k ∧ n = 2 ^ k.
Definition config_ok : Prop :=
  pow2 RX ∧ pow2 TX ∧ pow2 (IDEMIP_CACHE_LINE_BYTES cf) ∧ RX ≤ 255 ∧ TX ≤ 255 ∧
  IDEMIP_ETH_FRAME_MAX ≤ IDEMIP_DMA_FRAME_MAX cf ≤ 65535 ∧
  0 ≤ IDEMIP_MAX_PINNED_FRAMES cf ≤ 255 ∧ IDEMIP_MAX_PINNED_FRAMES cf < RX.

(** Operands of their types: pointers are not negative, an index is an octet, a length 16 bits. *)
Definition io_ok (io : DmaIo D) : Prop := 0 ≤ b_rx_base io ∧ 0 ≤ b_tx_base io ∧ is_u8 (a_index io) ∧ is_u16 (a_len io).
End Machine.
Arguments Rings : clear implicits.
Arguments outcome : clear implicits.
End DmaSpec.
