(* ===== verification/DmaSim.v ===== *)
(** * The entries of dma.c against the machine of DmaSpec.v

    The invariant of a borrow (descriptor [i] points at buffer [i], its flags spell one owner, and the count
    of pins is the sum over the ring, within the bound), and for each entry that it returns, keeps the
    invariant, and does to the owners and the driver what the machine does. *)
From stdpp Require Import option.
From S2P Require Import Prelude Base Phy Dma.

Module DmaSim.
Import Phy Dma DmaSpec.

(** ** Sums and masks *)
Lemma total_tset {A} `{Inhabited A} (f : A → Z) (l : list A) i x :
  0 ≤ i < tlen l → total f (tset l i x) = total f l - f (tget l i) + f x.
Proof.
  unfold tlen, tset, tget. intros Hi. remember (Z.to_nat i) as n eqn:Hn. assert (n < length l)%nat as Hlt by lia. clear Hn Hi.
  revert n Hlt. induction l as [|y l IH]; intros [|n] Hlt; simpl in *; [lia..|].
  change ((y :: l) !!! S n) with (l !!! n). rewrite IH by lia. lia.
Qed.

Lemma total_pos {A} (f : A → Z) (l : list A) : Forall (λ x, 0 ≤ f x) l → 0 ≤ total f l.
Proof. induction 1; simpl; lia. Qed.

Lemma total_ge {A} `{Inhabited A} (f : A → Z) (l : list A) i :
  0 ≤ i < tlen l → Forall (λ x, 0 ≤ f x) l → f (tget l i) ≤ total f l.
Proof.
  intros Hi Hl. pose proof (total_tset f l i inhabitant Hi) as Ht.
  cut (f inhabitant ≤ total f (tset l i inhabitant)); [lia|].
  unfold tset, tlen, tget in *. remember (Z.to_nat i) as n eqn:Hn. assert (n < length l)%nat as Hlt by lia.
  clear -Hlt Hl. revert n Hlt. induction Hl as [|y l Hy Hl IH]; intros [|n] Hlt; simpl in *; [lia..| |].
  - pose proof (total_pos f l Hl). lia.
  - specialize (IH n ltac:(lia)). lia.
Qed.

Lemma land_mask n x : pow2 n → Z.land x (n - 1) = x mod n.
Proof.
  intros (k & Hk & ->). replace (2 ^ k - 1) with (Z.ones k) by (rewrite Z.ones_equiv; lia). by rewrite Z.land_ones.
Qed.

Lemma pow2_pos n : pow2 n → 0 < n.
Proof. intros (k & ? & ->). by apply Z.pow_pos_nonneg. Qed.

Lemma map_tset {A B} (f : A → B) (l : list A) i x : map f (tset l i x) = tset (map f l) i (f x).
Proof. unfold tset. change (map f) with (fmap (M := list) f). by rewrite list_fmap_insert. Qed.

Lemma tlen_map {A B} (f : A → B) (l : list A) : tlen (map f l) = tlen l.
Proof. unfold tlen. by rewrite length_map. Qed.

Lemma aligned_both a b c : pow2 c → 0 ≤ a → 0 ≤ b →
  (Z.land (Z.lor a b) (c - 1) =? 0) = (a mod c =? 0) && (b mod c =? 0).
Proof.
  intros Hc Ha Hb. rewrite Z.land_lor_distr_l, !land_mask by done. pose proof (pow2_pos c Hc).
  pose proof (Z.mod_pos_bound a c). pose proof (Z.mod_pos_bound b c).
  apply eq_true_iff_eq. rewrite andb_true_iff, !Z.eqb_eq. rewrite Z.lor_eq_0_iff. done.
Qed.

Section Sim.
Context {D : Type} (cf : config) (Hcf : config_ok cf).
Local Abbreviation RX := (IDEMIP_RX_DESCRIPTORS cf).
Local Abbreviation TX := (IDEMIP_TX_DESCRIPTORS cf).
Local Abbreviation STRIDE := (IDEMIP_DMA_BUF_STRIDE cf).
Implicit Types (w : DmaWork D) (d : D) (io : DmaIo D).

Lemma rx_pos : 0 < RX.
Proof. apply pow2_pos, Hcf. Qed.
Lemma tx_pos : 0 < TX.
Proof. apply pow2_pos, Hcf. Qed.

(** A buffer is a whole number of cache lines and holds the longest frame. *)
Lemma stride_pos : 0 < STRIDE.
Proof.
  destruct Hcf as (_ & _ & Hc & _ & _ & Hf & _). unfold IDEMIP_DMA_BUF_STRIDE, IDEMIP_ROUND_UP, IDEMIP_ETH_FRAME_MAX in *.
  set (n := IDEMIP_DMA_FRAME_MAX cf) in *. set (c := IDEMIP_CACHE_LINE_BYTES cf) in *.
  pose proof (pow2_pos c Hc) as Hp.
  pose proof (Z.land_ldiff (n + (c - 1)) (c - 1)) as Hl.
  assert (Z.land (n + (c - 1)) (Z.lnot (c - 1)) = Z.ldiff (n + (c - 1)) (c - 1)) as -> by (symmetry; apply Z.ldiff_land).
  destruct Hc as (k & Hk & ->). replace (2 ^ k - 1) with (Z.ones k) by (rewrite Z.ones_equiv; lia).
  rewrite Z.ldiff_ones_r, Z.shiftl_mul_pow2, Z.shiftr_div_pow2 by done.
  rewrite Z.ones_equiv. apply Z.mul_pos_pos; [|lia]. apply Z.div_str_pos. lia.
Qed.

(** ** The descriptor an address names *)
Definition buffers (ring : list DmaDesc) (base : Z) : Prop := ∀ i, 0 ≤ i < tlen ring → d_buf (tget ring i) = base + i * STRIDE.

Lemma slot_at_Some base n a i : slot_at base STRIDE n a = Some i ↔ 0 ≤ i < n ∧ a = base + i * STRIDE.
Proof.
  pose proof stride_pos. unfold slot_at. destruct (_ && _) eqn:E; bool_prop.
  - split; [intros [= <-]|intros [Hi ->]].
    + split; [split; [apply Z.div_pos; lia|done]|]. pose proof (Z.div_mod (a - base) STRIDE). lia.
    + f_equal. replace (base + i * STRIDE - base) with (i * STRIDE) by lia. by rewrite Z.div_mul by lia.
  - split; [done|]. intros [Hi ->]. exfalso. replace (base + i * STRIDE - base) with (i * STRIDE) in E by lia.
    rewrite Z.mod_mul, Z.div_mul in E by lia. rewrite (proj2 (Z.leb_le 0 (i * STRIDE))) in E by nia.
    rewrite (proj2 (Z.ltb_lt i n)) in E by lia. destruct E; done.
Qed.

Lemma dma_slot_of_spec ring n start base a :
  pow2 n → n ≤ 255 → tlen ring = n → buffers ring base → 0 ≤ start < n →
  dma_slot_of ring n start a = default n (slot_at base STRIDE n a).
Proof.
  intros Hn Hn' Hl Hb Hs. unfold dma_slot_of. pose proof (pow2_pos n Hn).
  assert (∀ k, 0 ≤ k < n → Z.land (u32 (start + k)) (n - 1) = (start + k) mod n) as Hidx.
  { intros k Hk. rewrite land_mask by done. unfold u32. by rewrite (Z.mod_small (start + k)) by lia. }
  destruct (scan _ _ _) as [k|] eqn:E.
  - apply scan_Some in E as (Hk & Hp & _). rewrite Z.add_0_l, Z2Nat.id in Hk by lia. apply Z.eqb_eq in Hp. rewrite Hidx in * by lia.
    pose proof (Z.mod_pos_bound (start + k) n). rewrite Hb in Hp by lia.
    assert (slot_at base STRIDE n a = Some ((start + k) mod n)) as -> by (apply slot_at_Some; lia). done.
  - destruct (slot_at _ _ _ _) as [i|] eqn:E'; [|done]. apply slot_at_Some in E' as [Hi ->]. exfalso.
    rewrite scan_None in E. pose proof (Z.mod_pos_bound (i - start) n).
    specialize (E ((i - start) mod n) ltac:(lia)). apply Z.eqb_neq in E. rewrite Hidx in E by lia. apply E.
    rewrite Zplus_mod_idemp_r. replace (start + (i - start)) with i by lia. rewrite Z.mod_small by lia. apply Hb. lia.
Qed.

(** ** The invariant *)
Definition rx_ok (x : DmaDesc) : Prop :=
  (d_flags x = 1 ∧ d_pins x = 0) ∨ (d_flags x = 10 ∧ 0 ≤ d_pins x) ∨ (d_flags x = 8 ∧ 0 < d_pins x).
Definition tx_ok (x : DmaDesc) : Prop := d_flags x = 0 ∨ d_flags x = 2 ∨ d_flags x = 9.

Record BoundRep w (drv : IdemIpPhyDriver D) (rxb txb : Z) : Prop := mkBoundRep {
  br_complete : complete drv;
  br_rx_len : tlen (w_rx w) = RX;
  br_tx_len : tlen (w_tx w) = TX;
  br_bases : 0 < rxb ∧ 0 < txb;
  br_rx_bufs : buffers (w_rx w) rxb;
  br_tx_bufs : buffers (w_tx w) txb;
  br_rx : Forall rx_ok (w_rx w);
  br_tx : Forall tx_ok (w_tx w);
  br_pinned : c_pinned (w_ctx w) = total d_pins (w_rx w);
  br_bound : c_pinned (w_ctx w) ≤ IDEMIP_MAX_PINNED_FRAMES cf }.

Definition Rep w : Prop :=
  c_ready (w_ctx w) = DMA_READY → ∀ drv, c_drv (w_ctx w) = Some drv → ∃ rxb txb, BoundRep w drv rxb txb.

(** What one call does, as the machine has it. *)
Definition sim (c : dma_op) w d : Prop :=
  ∃ w' d', dma_call cf c w d = Some (w', d') ∧ Rep w' ∧
    spec_step cf c (w_io w) (view w) d = Some (view w', io_status (w_io w'), d').

Lemma ring_rep_io w io : Rep w → Rep (put_io w io).
Proof. intros HR H drv Hd. destruct (HR H drv Hd) as (rxb & txb & [? ? ? ? ? ? ? ? ? ?]). exists rxb, txb. by split. Qed.

Lemma view_io w io : view (put_io w io) = view w.
Proof. done. Qed.

Lemma rx_ok_get w drv rxb txb i : BoundRep w drv rxb txb → 0 ≤ i < RX → rx_ok (tget (w_rx w) i).
Proof.
  intros HB Hi. rewrite <- (br_rx_len _ _ _ _ HB) in Hi. pose proof (br_rx _ _ _ _ HB) as Hf. rewrite Forall_forall in Hf. apply Hf.
  unfold tget, tlen in *. apply list_elem_of_lookup_total_2. lia.
Qed.
Lemma tx_ok_get w drv rxb txb i : BoundRep w drv rxb txb → 0 ≤ i < TX → tx_ok (tget (w_tx w) i).
Proof.
  intros HB Hi. rewrite <- (br_tx_len _ _ _ _ HB) in Hi. pose proof (br_tx _ _ _ _ HB) as Hf. rewrite Forall_forall in Hf. apply Hf.
  unfold tget, tlen in *. apply list_elem_of_lookup_total_2. lia.
Qed.

Lemma view_bound w drv rxb txb : c_ready (w_ctx w) = DMA_READY → c_drv (w_ctx w) = Some drv → BoundRep w drv rxb txb →
  view w = Bound drv rxb txb (map owner_of (w_rx w)) (map tx_owner_of (w_tx w)).
Proof.
  intros Hr Hd HB. unfold view. rewrite Hr, Hd, Z.eqb_refl. cbn [negb].
  pose proof rx_pos. pose proof tx_pos. destruct HB as [? Hl Hl' ? Hb Hb' ? ? ? ?].
  rewrite Hb, Hb' by lia. f_equal; lia.
Qed.

(** ** The owner a descriptor's flags spell *)
Lemma owner_engine x : rx_ok x → has (d_flags x) IDEMIP_DMA_FLAG_OWN = true → owner_of x = Engine ∧ d_pins x = 0.
Proof. unfold owner_of. intros [[-> ?]|[[-> ?]|[-> ?]]] Ho; try discriminate Ho. done. Qed.
Lemma owner_out x : rx_ok x → has (d_flags x) IDEMIP_DMA_FLAG_OWN = false →
  (owner_of x = Held (d_pins x) ∧ has (d_flags x) IDEMIP_DMA_FLAG_HELD = true ∧ d_flags x = 10 ∧ 0 ≤ d_pins x) ∨
  (owner_of x = Kept (d_pins x) ∧ has (d_flags x) IDEMIP_DMA_FLAG_HELD = false ∧ d_flags x = 8 ∧ 0 < d_pins x).
Proof.
  unfold owner_of. intros [[-> ?]|[[-> ?]|[-> ?]]] Ho; try discriminate Ho; [left|right]; repeat split; (reflexivity || done).
Qed.
Lemma owner_cases x : rx_ok x →
  (owner_of x = Engine ∧ has (d_flags x) IDEMIP_DMA_FLAG_HELD = false ∧ d_pins x = 0) ∨
  (owner_of x = Held (d_pins x) ∧ has (d_flags x) IDEMIP_DMA_FLAG_HELD = true ∧ d_flags x = 10 ∧ 0 ≤ d_pins x) ∨
  (owner_of x = Kept (d_pins x) ∧ has (d_flags x) IDEMIP_DMA_FLAG_HELD = false ∧ d_flags x = 8 ∧ 0 < d_pins x).
Proof.
  intros Hx. destruct (has (d_flags x) IDEMIP_DMA_FLAG_OWN) eqn:Ho.
  - left. destruct (owner_engine x Hx Ho) as [He Hp]. split_and!; [done| |done].
    destruct Hx as [[Hf ?]|[[Hf ?]|[Hf ?]]]; rewrite Hf in *; [reflexivity|discriminate Ho..].
  - right. by apply owner_out.
Qed.

Lemma pins_owner x : rx_ok x → pins_of (owner_of x) = d_pins x.
Proof. intros [(He & _ & Hp)|[(He & _)|(He & _)]]%owner_cases; rewrite He; simpl; lia. Qed.
Lemma pins_owners l : Forall rx_ok l → total pins_of (map owner_of l) = total d_pins l.
Proof. induction 1; simpl; [done|]. rewrite pins_owner by done. lia. Qed.
Lemma pins_nonneg l : Forall rx_ok l → Forall (λ x, 0 ≤ d_pins x) l.
Proof. intros Hl. eapply Forall_impl; [exact Hl|]. intros x [[_ ?]|[[_ ?]|[_ ?]]]; lia. Qed.

(** ** One descriptor replaced *)
Lemma bound_update w w' drv rxb txb i x' :
  BoundRep w drv rxb txb → 0 ≤ i < RX → d_buf x' = d_buf (tget (w_rx w) i) → rx_ok x' →
  w_rx w' = tset (w_rx w) i x' → w_tx w' = w_tx w →
  c_pinned (w_ctx w') = c_pinned (w_ctx w) - d_pins (tget (w_rx w) i) + d_pins x' →
  c_pinned (w_ctx w') ≤ IDEMIP_MAX_PINNED_FRAMES cf → BoundRep w' drv rxb txb.
Proof.
  intros [? Hl ? ? Hb ? Hf ? Hp ?] Hi Hbuf Hx Hrx Htx Hpin Hmax. split; rewrite ?Htx; try done.
  - by rewrite Hrx, tlen_tset.
  - intros j. rewrite Hrx, tlen_tset. intros Hj. destruct (decide (j = i)) as [->|].
    + rewrite tget_tset_eq by lia. rewrite Hbuf. apply Hb. lia.
    + rewrite tget_tset_ne by lia. by apply Hb.
  - rewrite Hrx. unfold tset. by apply Forall_insert.
  - rewrite Hpin, Hrx, Hp. symmetry. apply total_tset. lia.
Qed.

Lemma bound_update_tx w w' drv rxb txb i x' :
  BoundRep w drv rxb txb → 0 ≤ i < TX → d_buf x' = d_buf (tget (w_tx w) i) → tx_ok x' →
  w_tx w' = tset (w_tx w) i x' → w_rx w' = w_rx w → c_pinned (w_ctx w') = c_pinned (w_ctx w) → BoundRep w' drv rxb txb.
Proof.
  intros [? ? Hl ? ? Hb ? Hf Hp ?] Hi Hbuf Hx Htx Hrx Hpin. split; rewrite ?Hrx, ?Hpin; try done.
  - by rewrite Htx, tlen_tset.
  - intros j. rewrite Htx, tlen_tset. intros Hj. destruct (decide (j = i)) as [->|].
    + rewrite tget_tset_eq by lia. rewrite Hbuf. apply Hb. lia.
    + rewrite tget_tset_ne by lia. by apply Hb.
  - rewrite Htx. unfold tset. by apply Forall_insert.
Qed.

Lemma owners_get w drv rxb txb i : BoundRep w drv rxb txb → 0 ≤ i < RX → tget (map owner_of (w_rx w)) i = owner_of (tget (w_rx w) i).
Proof. intros HB Hi. apply tget_map. by rewrite (br_rx_len _ _ _ _ HB). Qed.
Lemma tx_owners_get w drv rxb txb i : BoundRep w drv rxb txb → 0 ≤ i < TX → tget (map tx_owner_of (w_tx w)) i = tx_owner_of (tget (w_tx w) i).
Proof. intros HB Hi. apply tget_map. by rewrite (br_tx_len _ _ _ _ HB). Qed.

(** A borrow is not ready, not bound, or bound with its invariant. *)
Lemma rep_cases w : Rep w →
  (c_ready (w_ctx w) =? DMA_READY) = false ∧ view w = Unready ∨
  (c_ready (w_ctx w) =? DMA_READY) = true ∧ c_drv (w_ctx w) = None ∧ view w = Unbound ∨
  ∃ drv rxb txb, (c_ready (w_ctx w) =? DMA_READY) = true ∧ c_drv (w_ctx w) = Some drv ∧ BoundRep w drv rxb txb ∧
    view w = Bound drv rxb txb (map owner_of (w_rx w)) (map tx_owner_of (w_tx w)).
Proof.
  intros HR. destruct (c_ready (w_ctx w) =? DMA_READY) eqn:Hr; [|left; unfold view; by rewrite Hr].
  right. destruct (c_drv (w_ctx w)) as [drv|] eqn:Hd; [|left; unfold view; by rewrite Hr, Hd].
  right. apply Z.eqb_eq in Hr. destruct (HR Hr drv Hd) as (rxb & txb & HB). exists drv, rxb, txb.
  split_and!; try done. by apply view_bound.
Qed.

(** A call that leaves both rings, the context and the driver as they were. *)
Lemma sim_stay c w d io' :
  Rep w → dma_call cf c w d = Some (put_io w io', d) → spec_step cf c (w_io w) (view w) d = Some (view w, io_status io', d) → sim c w d.
Proof. intros HR Hc Hs. exists (put_io w io'), d. split_and!; [done|by apply ring_rep_io|done]. Qed.

Lemma bound_rep w drv rxb txb : c_drv (w_ctx w) = Some drv → BoundRep w drv rxb txb → Rep w.
Proof. intros Hd HB _ drv' Hd'. assert (drv' = drv) as -> by congruence. eauto. Qed.

(** ** The entries *)
Lemma clear_sim w d : sim DClear w d.
Proof.
  eexists _, d. split; [reflexivity|]. split; [|reflexivity]. intros _ drv [=].
Qed.

Lemma complete_iff (drv : IdemIpPhyDriver D) : complete_b drv = true → complete drv.
Proof.
  unfold complete_b, complete, null. intros H.
  destruct (rx_claim drv), (rx_release drv), (tx_claim drv), (tx_commit drv), (cache_invalidate drv), (cache_clean drv); try discriminate H.
  split_and!; by eexists.
Qed.

Lemma bound_ring_spec n base flags : 0 < n → tlen (bound_ring cf n base flags) = n ∧ buffers (bound_ring cf n base flags) base ∧
  Forall (λ x, d_flags x = flags ∧ d_pins x = 0) (bound_ring cf n base flags).
Proof.
  intros Hn. assert (tlen (bound_ring cf n base flags) = n) as Hl.
  { unfold bound_ring, tlen. rewrite length_map, length_seqZ. lia. }
  split_and!; [done| |].
  - intros i Hi. unfold bound_ring. rewrite tget_map by (unfold tlen; rewrite length_seqZ; lia).
    replace (tget (seqZ 0 n) i) with i; [done|]. unfold tget. symmetry. apply list_lookup_total_correct.
    apply lookup_seqZ. lia.
  - unfold bound_ring. change (map ?f ?l) with (f <$> l). apply Forall_fmap, Forall_true. done.
Qed.

Lemma total_zero l : Forall (λ x, d_pins x = 0) l → total d_pins l = 0.
Proof. induction 1; simpl; lia. Qed.

Lemma map_const {A B} (f : A → B) (y : B) (l : list A) : Forall (λ x, f x = y) l → map f l = replicate (length l) y.
Proof. induction 1; simpl; congruence. Qed.

Lemma bind_eq w d drv : b_drv (w_io w) = Some drv → io_ok (w_io w) → (c_ready (w_ctx w) =? DMA_READY) = true →
  idemip_dma_bind cf w d =
    if bindable cf (w_io w) drv
    then Some (mkDmaWork ((w_io w) <| io_status := IDEMIP_ERR |> <| io_status := IDEMIP_OK |>)
                 (mkDmaCtx (Some drv) (c_ready (w_ctx w)) 0 0 0 0)
                 (bound_ring cf RX (b_rx_base (w_io w)) IDEMIP_DMA_FLAG_OWN) (bound_ring cf TX (b_tx_base (w_io w)) 0), d)
    else Some (put_io w ((w_io w) <| io_status := IDEMIP_ERR |>), d).
Proof.
  intros Hdrv (Hb1 & Hb2 & _) Hr. unfold idemip_dma_bind, bindable, complete_b.
  change (b_drv ((w_io w) <| io_status := IDEMIP_ERR |>)) with (b_drv (w_io w)).
  change (b_rx_base ((w_io w) <| io_status := IDEMIP_ERR |>)) with (b_rx_base (w_io w)).
  change (b_tx_base ((w_io w) <| io_status := IDEMIP_ERR |>)) with (b_tx_base (w_io w)).
  rewrite Hdrv, Hr, aligned_both by (apply Hcf || done).
  destruct (null (rx_claim drv)), (null (rx_release drv)), (null (tx_claim drv)), (null (tx_commit drv)),
    (null (cache_invalidate drv)), (null (cache_clean drv)), (b_rx_base _ =? 0), (b_tx_base _ =? 0),
    (b_rx_base _ mod _ =? 0), (b_tx_base _ mod _ =? 0); reflexivity.
Qed.

Lemma bindable_true io drv : bindable cf io drv = true → complete drv ∧ b_rx_base io ≠ 0 ∧ b_tx_base io ≠ 0.
Proof. unfold bindable. intros Hg. bool_prop. split_and!; [by apply complete_iff|done..]. Qed.

(** A ring just bound is the engine's, or free. *)
Lemma bound_fresh w' drv rxb txb : complete drv → 0 < rxb → 0 < txb →
  c_pinned (w_ctx w') = 0 → w_rx w' = bound_ring cf RX rxb IDEMIP_DMA_FLAG_OWN → w_tx w' = bound_ring cf TX txb 0 →
  BoundRep w' drv rxb txb ∧ map owner_of (w_rx w') = replicate (Z.to_nat RX) Engine ∧
  map tx_owner_of (w_tx w') = replicate (Z.to_nat TX) TxFree.
Proof.
  intros Hc Hrb Htb Hp Hrx Htx.
  destruct (bound_ring_spec RX rxb IDEMIP_DMA_FLAG_OWN rx_pos) as (Hl1 & Hb1 & Hf1).
  destruct (bound_ring_spec TX txb 0 tx_pos) as (Hl2 & Hb2 & Hf2). rewrite <- Hrx in *. rewrite <- Htx in *.
  assert (total d_pins (w_rx w') = 0) as Ht.
  { apply total_zero. eapply Forall_impl; [exact Hf1|]. by intros x []. }
  split_and!.
  - split; try done.
    + eapply Forall_impl; [exact Hf1|]. intros x [? ?]. by left.
    + eapply Forall_impl; [exact Hf2|]. intros x [? _]. by left.
    + by rewrite Ht.
    + rewrite Hp. apply Hcf.
  - rewrite (map_const owner_of Engine); [f_equal; unfold tlen in Hl1; lia|].
    eapply Forall_impl; [exact Hf1|]. intros x [Hx _]. unfold owner_of. by rewrite Hx.
  - rewrite (map_const tx_owner_of TxFree); [f_equal; unfold tlen in Hl2; lia|].
    eapply Forall_impl; [exact Hf2|]. intros x [Hx _]. unfold tx_owner_of. by rewrite Hx.
Qed.

Lemma spec_bind_eq io r d drv : b_drv io = Some drv → r ≠ Unready →
  spec_bind cf io r d =
    if bindable cf io drv
    then (Bound drv (b_rx_base io) (b_tx_base io) (replicate (Z.to_nat RX) Engine) (replicate (Z.to_nat TX) TxFree), IDEMIP_OK, d)
    else (r, IDEMIP_ERR, d).
Proof. intros Hd Hr. unfold spec_bind. rewrite Hd. by destruct r. Qed.

Lemma bind_ready_sim w d drv : Rep w → io_ok (w_io w) → b_drv (w_io w) = Some drv → (c_ready (w_ctx w) =? DMA_READY) = true →
  view w ≠ Unready → sim DBind w d.
Proof.
  intros HR Hio Hdrv Hr Hne. unfold sim, dma_call, spec_step. rewrite (bind_eq w d drv) by done. rewrite (spec_bind_eq _ _ _ drv) by done.
  destruct (bindable cf (w_io w) drv) eqn:Hg; [|eexists _, d; split; [reflexivity|split; [by apply ring_rep_io|by rewrite view_io]]].
  destruct (bindable_true _ _ Hg) as (Hc & H1 & H2). eexists _, d. split; [reflexivity|].
  match goal with |- Rep ?w1 ∧ _ => set (w' := w1) end. destruct Hio as (? & ? & _).
  destruct (bound_fresh w' drv (b_rx_base (w_io w)) (b_tx_base (w_io w))) as (HB & Ho & Hto); [done|lia|lia|done..|].
  split; [by apply (bound_rep w' drv _ _ eq_refl HB)|].
  rewrite (view_bound w' drv _ _ (proj1 (Z.eqb_eq _ _) Hr) eq_refl HB). by rewrite Ho, Hto.
Qed.

Lemma bind_sim w d : Rep w → io_ok (w_io w) → sim DBind w d.
Proof.
  intros HR Hio. set (io' := (w_io w) <| io_status := IDEMIP_ERR |>). destruct (b_drv (w_io w)) as [drv|] eqn:Hdrv.
  - destruct (rep_cases w HR) as [[Hr Hv]|[(Hr & _ & Hv)|(? & ? & ? & Hr & _ & _ & Hv)]].
    + apply (sim_stay _ _ _ io'); [done| |by rewrite Hv].
      unfold dma_call, idemip_dma_bind. change (b_drv ((w_io w) <| io_status := IDEMIP_ERR |>)) with (b_drv (w_io w)). by rewrite Hdrv, Hr.
    + apply (bind_ready_sim w d drv); rewrite ?Hv; done.
    + apply (bind_ready_sim w d drv); rewrite ?Hv; done.
  - apply (sim_stay _ _ _ io'); [done| |].
    + unfold dma_call, idemip_dma_bind. change (b_drv ((w_io w) <| io_status := IDEMIP_ERR |>)) with (b_drv (w_io w)). by rewrite Hdrv.
    + unfold spec_step, spec_bind. rewrite Hdrv. by destruct (view w).
Qed.

(** A receive descriptor changed owner. *)
Lemma sim_move c w d w' d' drv rxb txb i x' st :
  dma_call cf c w d = Some (w', d') → w_rx w' = tset (w_rx w) i x' → w_tx w' = w_tx w →
  BoundRep w drv rxb txb → (c_ready (w_ctx w) =? DMA_READY) = true →
  0 ≤ i < RX → d_buf x' = d_buf (tget (w_rx w) i) → rx_ok x' → c_ready (w_ctx w') = c_ready (w_ctx w) → c_drv (w_ctx w') = Some drv →
  c_pinned (w_ctx w') = c_pinned (w_ctx w) - d_pins (tget (w_rx w) i) + d_pins x' →
  c_pinned (w_ctx w') ≤ IDEMIP_MAX_PINNED_FRAMES cf → io_status (w_io w') = st →
  spec_step cf c (w_io w) (view w) d =
    Some (Bound drv rxb txb (tset (map owner_of (w_rx w)) i (owner_of x')) (map tx_owner_of (w_tx w)), st, d') →
  sim c w d.
Proof.
  intros Hc Hrx Htx HB Hr Hi Hb Hx Hr' Hd' Hp Hm Hst Hs. exists w', d'. split; [done|].
  assert (BoundRep w' drv rxb txb) as HB' by (eapply bound_update; eauto).
  split; [by apply (bound_rep w' drv _ _ Hd' HB')|].
  rewrite (view_bound w' drv rxb txb) by (done || (rewrite Hr'; by apply Z.eqb_eq)). rewrite Hrx, Htx, map_tset, Hst. done.
Qed.

Lemma sim_move_tx c w d w' d' drv rxb txb i x' st :
  dma_call cf c w d = Some (w', d') → w_tx w' = tset (w_tx w) i x' → w_rx w' = w_rx w →
  BoundRep w drv rxb txb → (c_ready (w_ctx w) =? DMA_READY) = true →
  0 ≤ i < TX → d_buf x' = d_buf (tget (w_tx w) i) → tx_ok x' → c_ready (w_ctx w') = c_ready (w_ctx w) → c_drv (w_ctx w') = Some drv →
  c_pinned (w_ctx w') = c_pinned (w_ctx w) → io_status (w_io w') = st →
  spec_step cf c (w_io w) (view w) d =
    Some (Bound drv rxb txb (map owner_of (w_rx w)) (tset (map tx_owner_of (w_tx w)) i (tx_owner_of x')), st, d') →
  sim c w d.
Proof.
  intros Hc Htx Hrx HB Hr Hi Hb Hx Hr' Hd' Hp Hst Hs. exists w', d'. split; [done|].
  assert (BoundRep w' drv rxb txb) as HB' by (eapply bound_update_tx; eauto).
  split; [by apply (bound_rep w' drv _ _ Hd' HB')|].
  rewrite (view_bound w' drv rxb txb) by (done || (rewrite Hr'; by apply Z.eqb_eq)). rewrite Hrx, Htx, map_tset, Hst. done.
Qed.

(** Only the operand block and the driver changed. *)
Lemma sim_driver c w d io' d' : Rep w → dma_call cf c w d = Some (put_io w io', d') →
  spec_step cf c (w_io w) (view w) d = Some (view w, io_status io', d') → sim c w d.
Proof. intros HR Hc Hs. exists (put_io w io'), d'. split_and!; [done|by apply ring_rep_io|done]. Qed.

(** The entries that need a bound borrow refuse one that is not. *)
Definition needs_bound (c : dma_op) : bool := match c with DClear | DBind | DPinned => false | _ => true end.

Lemma unbound_sim c w d : needs_bound c = true → Rep w → view w = Unready ∨ view w = Unbound → sim c w d.
Proof.
  intros Hc HR Hv. assert (negb (c_ready (w_ctx w) =? DMA_READY) = true ∨
    negb (c_ready (w_ctx w) =? DMA_READY) = false ∧ c_drv (w_ctx w) = None) as Hg.
  { destruct (rep_cases w HR) as [[-> _]|[(-> & -> & _)|(? & ? & ? & _ & _ & _ & Hb)]]; [by left|by right|].
    rewrite Hb in Hv. by destruct Hv. }
  destruct c; try discriminate Hc;
    destruct Hg as [Hg|[Hg Hg']];
    (eapply sim_stay;
     [done
     |unfold dma_call, idemip_dma_rx_take, idemip_dma_rx_post, idemip_dma_pin, idemip_dma_unpin, idemip_dma_tx_take,
        idemip_dma_tx_post, idemip_dma_tx_reap, rx_named; rewrite Hg, ?Hg'; reflexivity
     |destruct Hv as [-> | ->]; reflexivity]).
Qed.

(** Leaves the bound case of a lemma about an entry that needs one. *)
Ltac bound_start w HR Hv Hr Hd HB :=
  destruct (rep_cases w HR) as [[_ Hv]|[(_ & _ & Hv)|(drv & rxb & txb & Hr & Hd & HB & Hv)]];
  [apply unbound_sim; [reflexivity|done|by left]|apply unbound_sim; [reflexivity|done|by right]|].

(** Names the call's result, to be computed case by case. *)
Ltac expose c w d E Hcall :=
  destruct (ex_intro (λ r, dma_call cf c w d = r) _ eq_refl) as [r E]; pose proof E as Hcall.

Lemma rx_slot w drv rxb txb frame : BoundRep w drv rxb txb →
  dma_slot_of (w_rx w) RX (Z.land (c_rx_head (w_ctx w)) (RX - 1)) frame = default RX (slot_at rxb STRIDE RX frame).
Proof.
  intros HB. apply dma_slot_of_spec; [apply Hcf..|apply HB|apply HB|].
  rewrite land_mask by apply Hcf. apply Z.mod_pos_bound, rx_pos.
Qed.
Lemma tx_slot w drv rxb txb buf : BoundRep w drv rxb txb →
  dma_slot_of (w_tx w) TX (Z.land (c_tx_head (w_ctx w)) (TX - 1)) buf = default TX (slot_at txb STRIDE TX buf).
Proof.
  intros HB. apply dma_slot_of_spec; [apply Hcf..|apply HB|apply HB|].
  rewrite land_mask by apply Hcf. apply Z.mod_pos_bound, tx_pos.
Qed.

Lemma rx_take_sim w d : Rep w → sim DRxTake w d.
Proof.
  intros HR. bound_start w HR Hv Hr Hd HB. destruct (br_complete _ _ _ _ HB) as ([claim Hcl] & [rel Hrel] & _ & _ & [inv Hinv] & _).
  destruct (claim d) as [[len frame] d1] eqn:Ecl.
  assert (Hsp : spec_step cf DRxTake (w_io w) (view w) d = spec_rx_take cf drv rxb txb (map owner_of (w_rx w)) (map tx_owner_of (w_tx w)) d)
    by (by rewrite Hv).
  unfold spec_rx_take in Hsp. rewrite Hcl, Hrel, Hinv in Hsp. cbn [mbind option_bind] in Hsp. rewrite Ecl, <- Hv in Hsp.
  expose DRxTake w d E Hcall. unfold dma_call, idemip_dma_rx_take in Hcall. rewrite Hr, Hd, Hcl in Hcall. cbn [negb mbind option_bind] in Hcall.
  rewrite Ecl, Hrel, Hinv, (rx_slot w drv rxb txb) in Hcall by done. cbn [mbind option_bind] in Hcall.
  destruct ((len =? 0) || (frame =? 0)); [subst r; by eapply sim_driver|].
  destruct (IDEMIP_DMA_FRAME_MAX cf <? len); [subst r; by eapply sim_driver|].
  destruct (slot_at rxb STRIDE RX frame) as [i|] eqn:Hslot; cbn [from_option id] in Hcall.
  2:{ rewrite (proj2 (Z.leb_le RX RX)) in Hcall by lia. subst r. by eapply sim_driver. }
  apply slot_at_Some in Hslot as [Hi _]. rewrite (proj2 (Z.leb_gt RX i)) in Hcall by lia.
  rewrite (owners_get w drv rxb txb) in Hsp by done. pose proof (rx_ok_get w drv rxb txb i HB Hi) as Hx.
  destruct (has (d_flags (tget (w_rx w) i)) IDEMIP_DMA_FLAG_OWN) eqn:Ho; cbn [negb] in Hcall.
  - destruct (owner_engine _ Hx Ho) as [Hown Hpin]. rewrite Hown in Hsp. rewrite <- Hcall in E.
    eapply (sim_move _ _ _ _ _ drv rxb txb i _ IDEMIP_OK E); [reflexivity|try done..].
    + right; left. change (10 = 10 ∧ 0 ≤ d_pins (tget (w_rx w) i)). lia.
    + change (c_pinned (w_ctx w) = c_pinned (w_ctx w) - d_pins (tget (w_rx w) i) + d_pins (tget (w_rx w) i)). lia.
    + apply HB.
    + rewrite Hsp. rewrite <- Hpin. reflexivity.
  - destruct (owner_out _ Hx Ho) as [[Hown _]|[Hown _]]; rewrite Hown in Hsp; subst r; by eapply sim_driver.
Qed.

(** The spec entry and the code's guard on a named receive descriptor. *)
Lemma rx_named_bound w drv : (c_ready (w_ctx w) =? DMA_READY) = true → c_drv (w_ctx w) = Some drv →
  rx_named cf w = if RX <=? a_index (w_io w) then None else Some drv.
Proof. intros Hr Hd. unfold rx_named. by rewrite Hr, Hd. Qed.

Lemma rx_post_sim w d : Rep w → io_ok (w_io w) → sim DRxPost w d.
Proof.
  intros HR (_ & _ & [Hi0 _] & _). bound_start w HR Hv Hr Hd HB. destruct (br_complete _ _ _ _ HB) as (_ & [rel Hrel] & _).
  assert (Hsp : spec_step cf DRxPost (w_io w) (view w) d =
    spec_rx_post cf drv rxb txb (map owner_of (w_rx w)) (map tx_owner_of (w_tx w)) (a_index (w_io w)) d) by (by rewrite Hv).
  unfold spec_rx_post in Hsp. rewrite Hrel, <- Hv in Hsp. cbn [mbind option_bind] in Hsp.
  expose DRxPost w d E Hcall. unfold dma_call, idemip_dma_rx_post in Hcall. rewrite (rx_named_bound w drv) in Hcall by done.
  destruct (RX <=? a_index (w_io w)) eqn:Hix; [subst r; by eapply sim_driver|]. apply Z.leb_gt in Hix.
  change (a_index ((w_io w) <| io_status := IDEMIP_ERR |>)) with (a_index (w_io w)) in Hcall. set (i := a_index (w_io w)) in *.
  rewrite (owners_get w drv rxb txb) in Hsp by (done || lia).
  destruct (owner_cases _ (rx_ok_get w drv rxb txb i HB ltac:(lia))) as [(Hown & Hh & Hp)|[(Hown & Hh & Hf & Hp)|(Hown & Hh & Hf & Hp)]];
    rewrite Hown in Hsp; rewrite Hh in Hcall; cbn [negb] in Hcall; [subst r; by eapply sim_driver| |subst r; by eapply sim_driver].
  destruct (Z.eqb_spec (d_pins (tget (w_rx w) i)) 0) as [Hz|Hz].
  - rewrite (proj2 (Z.ltb_ge 0 _)) in Hcall by lia. unfold dma_rx_give_back in Hcall. rewrite Hrel in Hcall. cbn [mbind option_bind] in Hcall.
    rewrite <- Hcall in E. eapply (sim_move _ _ _ _ _ drv rxb txb i _ IDEMIP_OK E); [reflexivity|try done..].
    + by left.
    + change (c_pinned (w_ctx w) = c_pinned (w_ctx w) - d_pins (tget (w_rx w) i) + d_pins (tget (w_rx w) i)). lia.
    + apply HB.
  - rewrite (proj2 (Z.ltb_lt 0 _)) in Hcall by lia. cbn [mbind option_bind] in Hcall. rewrite Hf in Hcall.
    rewrite <- Hcall in E. eapply (sim_move _ _ _ _ _ drv rxb txb i _ IDEMIP_OK E); [reflexivity|try done..].
    + right; right. change (8 = 8 ∧ 0 < d_pins (tget (w_rx w) i)). lia.
    + change (c_pinned (w_ctx w) = c_pinned (w_ctx w) - d_pins (tget (w_rx w) i) + d_pins (tget (w_rx w) i)). lia.
    + apply HB.
Qed.

(** No count wraps. *)
Lemma pins_range w drv rxb txb i : BoundRep w drv rxb txb → 0 ≤ i < RX →
  0 ≤ d_pins (tget (w_rx w) i) ≤ c_pinned (w_ctx w) ∧ c_pinned (w_ctx w) ≤ IDEMIP_MAX_PINNED_FRAMES cf ∧ IDEMIP_MAX_PINNED_FRAMES cf ≤ 255.
Proof.
  intros HB Hi. rewrite (br_pinned _ _ _ _ HB). pose proof (br_bound _ _ _ _ HB) as Hb. rewrite (br_pinned _ _ _ _ HB) in Hb.
  pose proof (pins_nonneg _ (br_rx _ _ _ _ HB)) as Hn. pose proof (br_rx_len _ _ _ _ HB) as Hl.
  assert (0 ≤ d_pins (tget (w_rx w) i)).
  { destruct (rx_ok_get w drv rxb txb i HB Hi) as [[_ ?]|[[_ ?]|[_ ?]]]; lia. }
  pose proof (total_ge d_pins (w_rx w) i ltac:(lia) Hn). destruct Hcf as (_ & _ & _ & _ & _ & _ & ? & _). lia.
Qed.

Lemma pin_sim w d : Rep w → io_ok (w_io w) → sim DPin w d.
Proof.
  intros HR (_ & _ & [Hi0 _] & _). bound_start w HR Hv Hr Hd HB.
  assert (Hsp : spec_step cf DPin (w_io w) (view w) d =
    Some (spec_pin cf drv rxb txb (map owner_of (w_rx w)) (map tx_owner_of (w_tx w)) (a_index (w_io w)) d)) by (by rewrite Hv).
  unfold spec_pin in Hsp. rewrite <- Hv, pins_owners, <- (br_pinned _ _ _ _ HB) in Hsp by apply HB.
  expose DPin w d E Hcall. unfold dma_call, idemip_dma_pin in Hcall. rewrite (rx_named_bound w drv) in Hcall by done.
  destruct (RX <=? a_index (w_io w)) eqn:Hix; [subst r; by eapply sim_driver|]. apply Z.leb_gt in Hix.
  change (a_index ((w_io w) <| io_status := IDEMIP_ERR |> <| io_pins := 0 |>)) with (a_index (w_io w)) in Hcall. set (i := a_index (w_io w)) in *.
  rewrite (owners_get w drv rxb txb) in Hsp by (done || lia).
  pose proof (pins_range w drv rxb txb i HB ltac:(lia)) as Hrange.
  destruct (owner_cases _ (rx_ok_get w drv rxb txb i HB ltac:(lia))) as [(Hown & Hh & Hp)|[(Hown & Hh & Hf & Hp)|(Hown & Hh & Hf & Hp)]];
    rewrite Hown in Hsp; rewrite Hh in Hcall; cbn [negb andb] in Hcall; [rewrite Hp, Z.eqb_refl in Hcall; subst r; by eapply sim_driver| |].
  - destruct (IDEMIP_MAX_PINNED_FRAMES cf <=? c_pinned (w_ctx w)) eqn:Hfull; [subst r; by eapply sim_driver|]. apply Z.leb_gt in Hfull.
    unfold u8, u16 in Hcall. rewrite !Z.mod_small in Hcall by lia. rewrite <- Hcall in E.
    eapply (sim_move _ _ _ _ _ drv rxb txb i _ IDEMIP_OK E); [reflexivity|try done..].
    + right; left. change (d_flags (tget (w_rx w) i) = 10 ∧ 0 ≤ d_pins (tget (w_rx w) i) + 1). lia.
    + change (c_pinned (w_ctx w) + 1 = c_pinned (w_ctx w) - d_pins (tget (w_rx w) i) + (d_pins (tget (w_rx w) i) + 1)). lia.
    + change (c_pinned (w_ctx w) + 1 ≤ IDEMIP_MAX_PINNED_FRAMES cf). lia.
    + rewrite Hsp. unfold owner_of at 3. cbn [d_flags d_pins set_field]. by rewrite Hf.
  - rewrite (proj2 (Z.eqb_neq _ 0)) in Hcall by lia.
    destruct (IDEMIP_MAX_PINNED_FRAMES cf <=? c_pinned (w_ctx w)) eqn:Hfull; [subst r; by eapply sim_driver|]. apply Z.leb_gt in Hfull.
    unfold u8, u16 in Hcall. rewrite !Z.mod_small in Hcall by lia. rewrite <- Hcall in E.
    eapply (sim_move _ _ _ _ _ drv rxb txb i _ IDEMIP_OK E); [reflexivity|try done..].
    + right; right. change (d_flags (tget (w_rx w) i) = 8 ∧ 0 < d_pins (tget (w_rx w) i) + 1). lia.
    + change (c_pinned (w_ctx w) + 1 = c_pinned (w_ctx w) - d_pins (tget (w_rx w) i) + (d_pins (tget (w_rx w) i) + 1)). lia.
    + change (c_pinned (w_ctx w) + 1 ≤ IDEMIP_MAX_PINNED_FRAMES cf). lia.
    + rewrite Hsp. unfold owner_of at 3. cbn [d_flags d_pins set_field]. by rewrite Hf.
Qed.

Lemma unpin_sim w d : Rep w → io_ok (w_io w) → sim DUnpin w d.
Proof.
  intros HR (_ & _ & [Hi0 _] & _). bound_start w HR Hv Hr Hd HB. destruct (br_complete _ _ _ _ HB) as (_ & [rel Hrel] & _).
  assert (Hsp : spec_step cf DUnpin (w_io w) (view w) d =
    spec_unpin cf drv rxb txb (map owner_of (w_rx w)) (map tx_owner_of (w_tx w)) (a_index (w_io w)) d) by (by rewrite Hv).
  unfold spec_unpin in Hsp. rewrite Hrel, <- Hv in Hsp. cbn [mbind option_bind] in Hsp.
  expose DUnpin w d E Hcall. unfold dma_call, idemip_dma_unpin in Hcall. rewrite (rx_named_bound w drv) in Hcall by done.
  destruct (RX <=? a_index (w_io w)) eqn:Hix; [subst r; by eapply sim_driver|]. apply Z.leb_gt in Hix.
  change (a_index ((w_io w) <| io_status := IDEMIP_ERR |> <| io_pins := 0 |>)) with (a_index (w_io w)) in Hcall. set (i := a_index (w_io w)) in *.
  rewrite (owners_get w drv rxb txb) in Hsp by (done || lia).
  pose proof (pins_range w drv rxb txb i HB ltac:(lia)) as Hrange. set (x := tget (w_rx w) i) in *.
  destruct (Z.eqb_spec (d_pins x) 0) as [Hz|Hz].
  { destruct (owner_cases _ (rx_ok_get w drv rxb txb i HB ltac:(lia))) as [(Hown & _)|[(Hown & _)|(Hown & _ & _ & Hp)]]; fold x in Hown;
      rewrite Hown, ?Hz in Hsp; [subst r; by eapply sim_driver..|fold x in Hp; lia]. }
  change (d_flags (x <| d_pins := u8 (d_pins x - 1) |>)) with (d_flags x) in Hcall.
  change (d_pins (x <| d_pins := u8 (d_pins x - 1) |>)) with (u8 (d_pins x - 1)) in Hcall.
  assert (u8 (d_pins x - 1) = d_pins x - 1) as Hu by (apply u8_id; unfold is_u8; lia). rewrite Hu in Hcall.
  assert (u16 (c_pinned (w_ctx w) - 1) = c_pinned (w_ctx w) - 1) as Hu' by (apply u16_id; unfold is_u16; lia). rewrite Hu' in Hcall.
  assert (c_pinned (w_ctx w) - 1 = c_pinned (w_ctx w) - d_pins x + (d_pins x - 1)) as Hsum by lia.
  assert (c_pinned (w_ctx w) - 1 ≤ IDEMIP_MAX_PINNED_FRAMES cf) as Hle by lia.
  destruct (owner_cases _ (rx_ok_get w drv rxb txb i HB ltac:(lia))) as [(_ & _ & Hp)|[(Hown & Hh & Hf & Hp)|(Hown & Hh & Hf & Hp)]];
    [done|..]; fold x in Hown, Hh, Hf, Hp; rewrite Hown in Hsp; rewrite Hh in Hcall; cbn [negb] in Hcall.
  - rewrite andb_false_r in Hcall. cbn [mbind option_bind] in Hcall. rewrite (proj2 (Z.eqb_neq _ 0)) in Hsp by done. rewrite <- Hcall in E.
    eapply (sim_move _ _ _ _ _ drv rxb txb i _ IDEMIP_OK E); [reflexivity|try done..].
    + right; left. change (d_flags x = 10 ∧ 0 ≤ d_pins x - 1). lia.
    + rewrite Hsp. unfold owner_of at 3. cbn [d_flags d_pins set_field]. by rewrite Hf.
  - rewrite andb_true_r in Hcall. destruct (Z.eqb_spec (d_pins x) 1) as [H1|H1].
    + rewrite (proj2 (Z.eqb_eq (d_pins x - 1) 0)) in Hcall by lia. unfold dma_rx_give_back in Hcall. rewrite Hrel in Hcall.
      cbn [mbind option_bind] in Hcall. rewrite <- Hcall in E.
      eapply (sim_move _ _ _ _ _ drv rxb txb i _ IDEMIP_OK E); [reflexivity|try done..].
      left. change (1 = 1 ∧ d_pins x - 1 = 0). lia.
    + rewrite (proj2 (Z.eqb_neq (d_pins x - 1) 0)) in Hcall by lia. cbn [mbind option_bind] in Hcall. rewrite <- Hcall in E.
      eapply (sim_move _ _ _ _ _ drv rxb txb i _ IDEMIP_OK E); [reflexivity|try done..].
      * right; right. change (d_flags x = 8 ∧ 0 < d_pins x - 1). lia.
      * rewrite Hsp. unfold owner_of at 3. cbn [d_flags d_pins set_field]. by rewrite Hf.
Qed.

(** ** Transmit *)
Lemma tx_owner_cases x : tx_ok x →
  (tx_owner_of x = TxFree ∧ d_flags x = 0) ∨ (tx_owner_of x = TxBuilding ∧ d_flags x = 2) ∨ (tx_owner_of x = TxEngine ∧ d_flags x = 9).
Proof. unfold tx_owner_of. intros [Hf|[Hf|Hf]]; rewrite Hf; [left|right; left|right; right]; done. Qed.

Lemma tx_take_sim w d : Rep w → sim DTxTake w d.
Proof.
  intros HR. bound_start w HR Hv Hr Hd HB. destruct (br_complete _ _ _ _ HB) as (_ & _ & [claim Hcl] & _).
  destruct (claim (IDEMIP_DMA_FRAME_MAX cf) d) as [buf d1] eqn:Ecl.
  assert (Hsp : spec_step cf DTxTake (w_io w) (view w) d = spec_tx_take cf drv rxb txb (map owner_of (w_rx w)) (map tx_owner_of (w_tx w)) d)
    by (by rewrite Hv).
  unfold spec_tx_take in Hsp. rewrite Hcl in Hsp. cbn [mbind option_bind] in Hsp. rewrite Ecl, <- Hv in Hsp.
  expose DTxTake w d E Hcall. unfold dma_call, idemip_dma_tx_take in Hcall. rewrite Hr, Hd, Hcl in Hcall. cbn [negb mbind option_bind] in Hcall.
  rewrite Ecl, (tx_slot w drv rxb txb) in Hcall by done.
  destruct (buf =? 0); [subst r; by eapply sim_driver|].
  destruct (slot_at txb STRIDE TX buf) as [i|] eqn:Hslot; cbn [from_option id] in Hcall.
  2:{ rewrite (proj2 (Z.leb_le TX TX)) in Hcall by lia. subst r. by eapply sim_driver. }
  apply slot_at_Some in Hslot as [Hi _]. rewrite (proj2 (Z.leb_gt TX i)) in Hcall by lia.
  rewrite (tx_owners_get w drv rxb txb) in Hsp by done.
  destruct (tx_owner_cases _ (tx_ok_get w drv rxb txb i HB Hi)) as [(Hown & Hf)|[(Hown & Hf)|(Hown & Hf)]];
    rewrite Hown in Hsp; rewrite Hf in Hcall; cbv beta iota delta [has] in Hcall.
  - change (negb (Z.land 0 (Z.lor IDEMIP_DMA_FLAG_OWN IDEMIP_DMA_FLAG_HELD) =? 0)) with false in Hcall. cbv iota in Hcall. rewrite <- Hcall in E.
    eapply (sim_move_tx _ _ _ _ _ drv rxb txb i _ IDEMIP_OK E); [reflexivity|try done..]. by right; left.
  - change (negb (Z.land 2 (Z.lor IDEMIP_DMA_FLAG_OWN IDEMIP_DMA_FLAG_HELD) =? 0)) with true in Hcall. cbv iota in Hcall. subst r.
    by eapply sim_driver.
  - change (negb (Z.land 9 (Z.lor IDEMIP_DMA_FLAG_OWN IDEMIP_DMA_FLAG_HELD) =? 0)) with true in Hcall. cbv iota in Hcall. subst r.
    by eapply sim_driver.
Qed.

Lemma tset_same {A} `{Inhabited A} (l : list A) i x : 0 ≤ i < tlen l → tget l i = x → tset l i x = l.
Proof. intros Hi <-. by apply tset_tget. Qed.

Lemma tx_post_sim w d : Rep w → io_ok (w_io w) → sim DTxPost w d.
Proof.
  intros HR (_ & _ & [Hi0 _] & _). bound_start w HR Hv Hr Hd HB. destruct (br_complete _ _ _ _ HB) as (_ & _ & _ & [commit Hcm] & _ & [clean Hcl]).
  assert (Hsp : spec_step cf DTxPost (w_io w) (view w) d =
    spec_tx_post cf drv rxb txb (map owner_of (w_rx w)) (map tx_owner_of (w_tx w)) (a_index (w_io w)) (a_len (w_io w)) d) by (by rewrite Hv).
  unfold spec_tx_post in Hsp. rewrite Hcm, Hcl, <- Hv in Hsp. cbn [mbind option_bind] in Hsp.
  expose DTxPost w d E Hcall. unfold dma_call, idemip_dma_tx_post in Hcall. rewrite Hr, Hd, Hcm, Hcl in Hcall. cbn [negb mbind option_bind] in Hcall.
  change (a_index ((w_io w) <| io_status := IDEMIP_ERR |>)) with (a_index (w_io w)) in Hcall.
  change (a_len ((w_io w) <| io_status := IDEMIP_ERR |>)) with (a_len (w_io w)) in Hcall.
  destruct ((TX <=? _) || _ || _) eqn:Hix; [subst r; by eapply sim_driver|]. bool_prop. apply Z.eqb_eq in Hr. set (i := a_index (w_io w)) in *.
  set (x := tget (w_tx w) i) in *. rewrite (tx_owners_get w drv rxb txb) in Hsp by (done || lia). fold x in Hsp.
  assert (0 ≤ i < TX) as Hi by lia. assert (d_buf x = txb + i * STRIDE) as Hbuf by (apply (br_tx_bufs _ _ _ _ HB); rewrite (br_tx_len _ _ _ _ HB); lia).
  assert (d_buf x ≠ 0) as Hbz by (pose proof (br_bases _ _ _ _ HB); pose proof stride_pos; nia).
  rewrite (proj2 (Z.eqb_neq (d_buf x) 0)), orb_false_r in Hcall by done.
  destruct (tx_owner_cases _ (tx_ok_get w drv rxb txb i HB ltac:(lia))) as [(Hown & Hf)|[(Hown & Hf)|(Hown & Hf)]]; fold x in Hown, Hf;
    rewrite Hown in Hsp; rewrite Hf in Hcall.
  - change (has 0 IDEMIP_DMA_FLAG_HELD) with false in Hcall. cbn [negb] in Hcall. subst r. by eapply sim_driver.
  - change (has 2 IDEMIP_DMA_FLAG_HELD) with true in Hcall. cbn [negb] in Hcall. rewrite <- Hbuf in Hsp.
    change (d_buf (x <| d_len := a_len (w_io w) |>)) with (d_buf x) in Hcall.
    change (d_len (x <| d_len := a_len (w_io w) |>)) with (a_len (w_io w)) in Hcall.
    destruct (commit (a_len (w_io w)) (clean (d_buf x) (a_len (w_io w)) d)) as [[] d2]; cbn [negb] in Hcall; rewrite <- Hcall in E.
    + eapply (sim_move_tx _ _ _ _ _ drv rxb txb i _ IDEMIP_OK E); [reflexivity|try done..]. by right; right.
    + eapply (sim_move_tx _ _ _ _ _ drv rxb txb i _ IDEMIP_BUSY E); [reflexivity|try done..].
      * right; left. exact Hf.
      * rewrite Hsp, Hv. rewrite (tset_same (map tx_owner_of (w_tx w)) i); [done|rewrite tlen_map, (br_tx_len _ _ _ _ HB); lia|].
        rewrite (tx_owners_get w drv rxb txb) by (done || lia). done.
  - change (has 9 IDEMIP_DMA_FLAG_HELD) with false in Hcall. cbn [negb] in Hcall. subst r. by eapply sim_driver.
Qed.

Lemma pinned_sim w d : Rep w → sim DPinned w d.
Proof.
  intros HR. destruct (rep_cases w HR) as [[Hr Hv]|[(Hr & _ & Hv)|(? & ? & ? & Hr & _ & _ & Hv)]];
    (eapply sim_stay; [done|unfold dma_call, idemip_dma_pinned; rewrite Hr; reflexivity|rewrite Hv; reflexivity]).
Qed.


(** ** The reap: every descriptor the engine owns comes back *)
Definition reset (x : DmaDesc) : DmaDesc :=
  if has (d_flags x) IDEMIP_DMA_FLAG_OWN then x <| d_len := 0 |> <| d_flags := 0 |> else x.

Lemma reap_slot tail n : Z.land (u32 (tail + n)) (TX - 1) = (tail + n) mod TX.
Proof.
  rewrite land_mask by apply Hcf. unfold u32. destruct Hcf as (_ & (k & Hk & Htx) & _ & _ & Hle & _).
  assert (k < 8) by (apply (Z.pow_lt_mono_r_iff 2); lia).
  apply Z.mod_mod_divide.
  rewrite Htx. exists (2 ^ (32 - k)). rewrite <- Z.pow_add_r by lia. by replace (32 - k + k) with 32 by lia.
Qed.

(** Position [j] is the [n]th of the walk. *)
Lemma walk_pos tail n j : 0 ≤ n < TX → 0 ≤ j < TX → (tail + n) mod TX = j ↔ (j - tail) mod TX = n.
Proof.
  intros Hn Hj. split.
  - intros <-. rewrite Zminus_mod_idemp_l. replace (tail + n - tail) with n by lia. by apply Z.mod_small.
  - intros <-. rewrite Zplus_mod_idemp_r. replace (tail + (j - tail)) with j by lia. by apply Z.mod_small.
Qed.

Definition reap_state (ring : list DmaDesc) (tail k : Z) (s : list DmaDesc * Z * Z) : Prop :=
  let '(ring', _, taken) := s in
  tlen ring' = TX ∧ (∀ j, 0 ≤ j < TX → tget ring' j = if (j - tail) mod TX <? k then reset (tget ring j) else tget ring j) ∧
  0 ≤ taken ≤ k ∧
  (0 < taken ↔ ∃ j, 0 ≤ j < TX ∧ (j - tail) mod TX < k ∧ has (d_flags (tget ring j)) IDEMIP_DMA_FLAG_OWN = true).

Lemma reap_one_state ring tail k s : 0 ≤ k < TX → reap_state ring tail k s → reap_state ring tail (k + 1) (reap_one cf tail k s).
Proof.
  destruct s as [[ring' index] taken]. intros Hk (Hl & Hg & Ht & Hiff). unfold reap_one. rewrite reap_slot.
  set (slot := (tail + k) mod TX). assert (0 ≤ slot < TX) as Hs by (apply Z.mod_pos_bound; lia).
  assert ((slot - tail) mod TX = k) as Hpos by (apply (proj1 (walk_pos tail k slot Hk Hs)); reflexivity).
  assert (∀ j, 0 ≤ j < TX → (j - tail) mod TX = k → j = slot) as Huniq by (intros j Hj Hjk; symmetry; by apply (proj2 (walk_pos tail k j Hk Hj))).
  assert (tget ring' slot = tget ring slot) as Hcur by (rewrite Hg by done; rewrite Hpos, Z.ltb_irrefl; done). rewrite Hcur.
  assert (∀ j, 0 ≤ j < TX → j ≠ slot → ((j - tail) mod TX <? k + 1) = ((j - tail) mod TX <? k)) as Hne.
  { intros j Hj Hjs. assert ((j - tail) mod TX ≠ k) by (intros ?; apply Hjs; auto).
    destruct (Z.ltb_spec ((j - tail) mod TX) (k + 1)), (Z.ltb_spec ((j - tail) mod TX) k); (done || lia). }
  destruct (has (d_flags (tget ring slot)) IDEMIP_DMA_FLAG_OWN) eqn:Ho; cbn [negb].
  - unfold u32. rewrite (Z.mod_small (taken + 1)) by (pose proof tx_pos; destruct Hcf as (_ & _ & _ & _ & ? & _); lia).
    split_and!; [by rewrite tlen_tset| |lia..|].
    + intros j Hj. destruct (decide (j = slot)) as [->|Hjs].
      * rewrite tget_tset_eq by lia. rewrite Hpos, (proj2 (Z.ltb_lt k (k + 1))) by lia. unfold reset. by rewrite Ho.
      * rewrite tget_tset_ne by lia. rewrite Hne by done. by apply Hg.
    + split; [intros _; exists slot; split_and!; [lia..|done]|lia].
  - split_and!; [done| |lia..|].
    + intros j Hj. destruct (decide (j = slot)) as [->|Hjs]; [|rewrite Hne by done; by apply Hg].
      rewrite Hcur, Hpos, (proj2 (Z.ltb_lt k (k + 1))) by lia. unfold reset. by rewrite Ho.
    + rewrite Hiff. split; intros (j & Hj & Hlt & Hoj); exists j; split_and!; try (done || lia).
      destruct (decide ((j - tail) mod TX = k)) as [Heq|]; [|lia]. rewrite (Huniq j Hj Heq) in Hoj. congruence.
Qed.

Lemma reap_fold ring tail index : tlen ring = TX →
  reap_state ring tail TX (fold_left (λ s n, reap_one cf tail n s) (seqZ 0 TX) (ring, index, 0)).
Proof.
  intros Hl. assert (∀ k : nat, Z.of_nat k ≤ TX →
    reap_state ring tail (Z.of_nat k) (fold_left (λ s n, reap_one cf tail n s) (seqZ 0 (Z.of_nat k)) (ring, index, 0))) as Hk.
  { induction k as [|k IH]; intros Hle.
    - cbn. split_and!; [done| |lia..|]; [intros j Hj|split; [lia|intros (j & Hj & Hlt & _)]]; pose proof (Z.mod_pos_bound (j - tail) TX); [|lia].
      by rewrite (proj2 (Z.ltb_ge _ 0)) by lia.
    - replace (Z.of_nat (S k)) with (Z.of_nat k + 1) by lia. rewrite seqZ_app by lia. rewrite fold_left_app.
      apply reap_one_state; [lia|]. apply IH. lia. }
  specialize (Hk (Z.to_nat TX)). pose proof tx_pos. rewrite Z2Nat.id in Hk by lia. apply Hk. lia.
Qed.

Lemma tx_reap_sim w d : Rep w → sim DTxReap w d.
Proof.
  intros HR. bound_start w HR Hv Hr Hd HB.
  assert (Hsp : spec_step cf DTxReap (w_io w) (view w) d =
    Some (spec_tx_reap drv rxb txb (map owner_of (w_rx w)) (map tx_owner_of (w_tx w)) d)) by (by rewrite Hv).
  expose DTxReap w d E Hcall. unfold dma_call, idemip_dma_tx_reap in Hcall. rewrite Hr, Hd in Hcall. cbn [negb] in Hcall.
  pose proof (reap_fold (w_tx w) (c_tx_tail (w_ctx w)) (io_index (io_blank (w_io w))) (br_tx_len _ _ _ _ HB)) as Hst.
  destruct (fold_left _ _ _) as [[ring index] taken]. destruct Hst as (Hl & Hg & Ht & Hiff). rewrite <- Hcall in E.
  assert (ring = map reset (w_tx w)) as Hring.
  { apply tget_ext; [rewrite tlen_map, (br_tx_len _ _ _ _ HB); done|]. intros j Hj. rewrite Hl in Hj. rewrite Hg by done.
    pose proof (Z.mod_pos_bound (j - c_tx_tail (w_ctx w)) TX). rewrite (proj2 (Z.ltb_lt _ TX)) by lia.
    rewrite tget_map by (rewrite (br_tx_len _ _ _ _ HB); lia). done. }
  eexists _, d. split; [exact E|]. match goal with |- Rep ?w1 ∧ _ => set (w' := w1) end.
  assert (BoundRep w' drv rxb txb) as HB'.
  { destruct HB as [? ? Hl' ? ? Hb ? Hf ? ?]. split; try done.
    - intros j. change (w_tx w') with ring. rewrite Hring, tlen_map. intros Hj. rewrite tget_map by done. rewrite <- Hb by done.
      unfold reset. by destruct (has _ _).
    - change (w_tx w') with ring. rewrite Hring. change (map reset (w_tx w)) with (reset <$> w_tx w). apply Forall_fmap.
      eapply Forall_impl; [exact Hf|]. intros x Hx. unfold reset, compose. destruct (has _ _) eqn:Hh; [by left|done]. }
  split; [by apply (bound_rep w' drv _ _ Hd HB')|].
  rewrite (view_bound w' drv rxb txb (proj1 (Z.eqb_eq _ _) Hr) Hd HB'), Hsp. unfold spec_tx_reap.
  change (w_rx w') with (w_rx w). change (w_tx w') with ring. rewrite Hring.
  change (io_status (w_io w')) with (if 0 <? taken then IDEMIP_OK else IDEMIP_BUSY).
  replace (map reaped (map tx_owner_of (w_tx w))) with (map tx_owner_of (map reset (w_tx w))).
  2:{ rewrite !map_map. apply map_ext. intros x. unfold reset, tx_owner_of. destruct (has (d_flags x) IDEMIP_DMA_FLAG_OWN) eqn:Hh; [done|].
      rewrite Hh. by destruct (has (d_flags x) IDEMIP_DMA_FLAG_HELD). }
  assert (TxEngine ∈ map tx_owner_of (w_tx w) ↔ 0 < taken) as Hin.
  { rewrite Hiff. split.
    - intros (x & Hx & Hin)%list_elem_of_In%in_map_iff. apply list_elem_of_In, list_elem_of_lookup in Hin as [j Hj].
      exists (Z.of_nat j). pose proof (lookup_lt_Some _ _ _ Hj). pose proof (br_tx_len _ _ _ _ HB) as Hlen. unfold tlen in Hlen.
      split_and!; [lia..|apply Z.mod_pos_bound; lia|]. unfold tget. rewrite Nat2Z.id, (list_lookup_total_correct _ _ _ Hj).
      unfold tx_owner_of in Hx. destruct (has _ IDEMIP_DMA_FLAG_OWN); [done|]. by destruct (has _ _) in Hx.
    - intros (j & Hj & _ & Ho). pose proof (br_tx_len _ _ _ _ HB) as Hlen.
      replace TxEngine with (tx_owner_of (tget (w_tx w) j)) by (unfold tx_owner_of; by rewrite Ho).
      apply elem_map. unfold tget, tlen in *. apply list_elem_of_lookup_total_2. lia. }
  destruct (decide (TxEngine ∈ map tx_owner_of (w_tx w))) as [Hd1|Hd1]; rewrite Hin in Hd1.
  - by rewrite (proj2 (Z.ltb_lt 0 taken) Hd1).
  - by rewrite (proj2 (Z.ltb_ge 0 taken)) by lia.
Qed.

(** Every entry is simulated. *)
Lemma call_sim c w d : Rep w → io_ok (w_io w) → sim c w d.
Proof.
  intros HR Hio. destruct c; [by apply clear_sim|by apply bind_sim|by apply rx_take_sim|by apply rx_post_sim|by apply pin_sim|
    by apply unpin_sim|by apply tx_take_sim|by apply tx_post_sim|by apply tx_reap_sim|by apply pinned_sim].
Qed.

End Sim.
End DmaSim.
