(* ===== verification/DmaThms.v ===== *)
(** * The descriptor rings implement their owners' machine

    Calls in any order, with any operands and any driver, never go through a NULL hook and are answered as
    the machine of DmaSpec.v answers them; the pins stay within the bound, so a ring with nothing held
    always has a descriptor to receive into; and a pinned frame keeps its buffer through any calls with
    fewer unpins of it than it has pins.  The last section runs the rings over a driver that gives buffers
    back in the order it handed them out. *)
From stdpp Require Import option.
From S2P Require Import Prelude Base Phy Dma DmaSim.

Module DmaThms.
Import Phy Dma DmaSpec DmaSim.

Section Runs.
Context {D : Type} (cf : config) (Hcf : config_ok cf).
Local Abbreviation RX := (IDEMIP_RX_DESCRIPTORS cf).
Implicit Types (w : DmaWork D) (d : D) (io : DmaIo D) (calls : list (dma_op * DmaIo D)).

Lemma ring_unready_rep w : c_ready (w_ctx w) ≠ DMA_READY → Rep cf w.
Proof. intros Hn Hr. done. Qed.

Lemma run_sim calls : ∀ w d, Rep cf w → Forall (λ x, io_ok x.2) calls →
  ∃ w' d' sts, dma_run cf calls w d = Some (w', d', sts) ∧ Rep cf w' ∧ spec_run cf calls (view w) d = Some (view w', d', sts).
Proof.
  induction calls as [|[c io] calls IH]; intros w d HR Hok; [by exists w, d, []|]. apply Forall_cons in Hok as [Hio Hok]. cbn [snd] in Hio.
  destruct (call_sim cf Hcf c (put_io w io) d) as (w1 & d1 & Hc & HR1 & Hs); [by apply ring_rep_io|done|].
  destruct (IH w1 d1 HR1 Hok) as (w2 & d2 & sts & Hrun & HR2 & Hspec).
  exists w2, d2, (io_status (w_io w1) :: sts). cbn [dma_run spec_run]. rewrite Hc. cbn [mbind option_bind]. rewrite Hrun. cbn [mbind option_bind].
  change (w_io (put_io w io)) with io in Hs. rewrite view_io in Hs. rewrite Hs. cbn [mbind option_bind]. rewrite Hspec. done.
Qed.

(** ** What a call leaves of a pinned descriptor *)
Definition unpins (i : Z) (c : dma_op) (io : DmaIo D) : Z := if decide (c = DUnpin) then if a_index io =? i then 1 else 0 else 0.

Definition keeps (i n : Z) w w' : Prop :=
  d_buf (tget (w_rx w') i) = d_buf (tget (w_rx w) i) ∧ d_pins (tget (w_rx w) i) - n ≤ d_pins (tget (w_rx w') i) ∧
  (n < d_pins (tget (w_rx w) i) → d_len (tget (w_rx w') i) = d_len (tget (w_rx w) i)).

Lemma keeps_same i n w w' : 0 ≤ n → w_rx w' = w_rx w → keeps i n w w'.
Proof. intros Hn Hrx. unfold keeps. rewrite Hrx. split_and!; (done || lia). Qed.

Lemma keeps_other i n w w' j x : 0 ≤ n → 0 ≤ i → 0 ≤ j → j ≠ i → w_rx w' = tset (w_rx w) j x → keeps i n w w'.
Proof. intros Hn Hi Hj Hne Hrx. unfold keeps. rewrite Hrx, tget_tset_ne by done. split_and!; (done || lia). Qed.

Lemma keeps_set i n w w' x : 0 ≤ i < tlen (w_rx w) → w_rx w' = tset (w_rx w) i x →
  d_buf x = d_buf (tget (w_rx w) i) → d_pins (tget (w_rx w) i) - n ≤ d_pins x →
  (n < d_pins (tget (w_rx w) i) → d_len x = d_len (tget (w_rx w) i)) → keeps i n w w'.
Proof. intros Hi Hrx Hb Hp Hl. unfold keeps. by rewrite Hrx, tget_tset_eq by done. Qed.

(** The code's results, one case per path. *)
Ltac paths H :=
  unfold mbind, option_bind in H; repeat (case_match; try discriminate H); simplify_eq.

Lemma call_keeps c w d w' d' i drv rxb txb :
  BoundRep cf w drv rxb txb → io_ok (w_io w) → 0 ≤ i < RX → 0 < d_pins (tget (w_rx w) i) → c ≠ DClear → c ≠ DBind →
  dma_call cf c w d = Some (w', d') → keeps i (unpins i c (w_io w)) w w'.
Proof.
  intros HB (_ & _ & [Hix _] & _) Hi Hpos Hc Hb H. pose proof (br_rx_len _ _ _ _ _ HB) as Hlen.
  assert (0 ≤ unpins i c (w_io w)) as Hn by (unfold unpins; repeat case_match; lia).
  destruct c; try done; cbn [dma_call] in H.
  - unfold idemip_dma_rx_take in H. paths H; try by apply keeps_same.
    match goal with Hs : (RX <=? dma_slot_of _ _ _ ?f) = false |- _ =>
      rewrite (rx_slot cf Hcf w drv rxb txb f) in * by done; destruct (slot_at rxb (IDEMIP_DMA_BUF_STRIDE cf) RX f) as [j|] eqn:Hj end;
      cbn [from_option id] in *; bool_prop; [|lia].
    apply (slot_at_Some cf Hcf) in Hj as [Hj _]. destruct (decide (j = i)) as [->|Hne]; [|by eapply keeps_other; [..|reflexivity]; lia].
    destruct (owner_engine _ (rx_ok_get cf w drv rxb txb i HB Hi)); [done|lia].
  - unfold idemip_dma_rx_post, rx_named, dma_rx_give_back in H. paths H; try by apply keeps_same.
    all: destruct (decide (a_index (w_io w) = i)) as [Heq|Hne]; [|eapply keeps_other; [..|reflexivity]; (done || lia)].
    all: bool_prop; change (a_index ((w_io w) <| io_status := IDEMIP_ERR |>)) with (a_index (w_io w)) in *; rewrite Heq in *; try lia.
    eapply keeps_set; [lia|reflexivity|done|change (d_pins (tget (w_rx w) i) - unpins i DRxPost (w_io w) ≤ d_pins (tget (w_rx w) i)); lia|done].
  - unfold idemip_dma_pin, rx_named in H. paths H; try by apply keeps_same.
    destruct (decide (a_index (w_io w) = i)) as [Heq|Hne]; [|eapply keeps_other; [..|reflexivity]; (done || lia)]. bool_prop.
    pose proof (pins_range cf Hcf w drv rxb txb i HB Hi) as Hr. 
    change (a_index ((w_io w) <| io_status := IDEMIP_ERR |> <| io_pins := 0 |>)) with (a_index (w_io w)) in *. rewrite Heq in *.
    eapply keeps_set; [lia|reflexivity|done| |done].
    change (d_pins (tget (w_rx w) i) - unpins i DPin (w_io w) ≤ u8 (d_pins (tget (w_rx w) i) + 1)). rewrite u8_id; [lia|unfold is_u8; lia].
  - unfold idemip_dma_unpin, rx_named, dma_rx_give_back in H. pose proof (pins_range cf Hcf w drv rxb txb i HB Hi) as Hr.
    assert (u8 (d_pins (tget (w_rx w) i) - 1) = d_pins (tget (w_rx w) i) - 1) as Hu by (apply u8_id; unfold is_u8; lia).
    paths H; try by apply keeps_same.
    all: destruct (decide (a_index (w_io w) = i)) as [Heq|Hne]; [|eapply keeps_other; [..|reflexivity]; (done || lia)].
    all: assert (unpins i DUnpin (w_io w) = 1) as Hone by (unfold unpins; rewrite decide_True by done; by rewrite (proj2 (Z.eqb_eq _ _) Heq)).
    all: rewrite Hone.
    all: change (a_index ((w_io w) <| io_status := IDEMIP_ERR |> <| io_pins := 0 |>)) with (a_index (w_io w)) in *; rewrite Heq in *.
    all: eapply keeps_set; [lia|reflexivity|done| |].
    1, 3: change (d_pins (tget (w_rx w) i) - 1 ≤ u8 (d_pins (tget (w_rx w) i) - 1)); lia.
    + intros Hgt. bool_prop.
      match goal with Hz : d_pins (tget (w_rx w) i) <| d_pins := _ |> = 0 |- _ => change (u8 (d_pins (tget (w_rx w) i) - 1) = 0) in Hz end. lia.
    + done.
  - unfold idemip_dma_tx_take in H. paths H; by apply keeps_same.
  - unfold idemip_dma_tx_post in H. paths H; by apply keeps_same.
  - unfold idemip_dma_tx_reap in H. paths H; by apply keeps_same.
  - unfold idemip_dma_pinned in H. paths H; by apply keeps_same.
Qed.

(** ** Runs that clear and bind nothing *)
Fixpoint unpins_in (i : Z) calls : Z :=
  match calls with
  | [] => 0
  | (c, io) :: rest => unpins i c io + unpins_in i rest
  end.

Lemma unpins_nonneg i c io : 0 ≤ unpins i c io.
Proof. unfold unpins. repeat case_match; lia. Qed.
Lemma unpins_in_nonneg i calls : 0 ≤ unpins_in i calls.
Proof. induction calls as [|[c io] calls IH]; simpl; [lia|]. pose proof (unpins_nonneg i c io). lia. Qed.

(** Such a call leaves a bound borrow bound to the same driver. *)
Lemma call_bound c w d w' d' : dma_call cf c w d = Some (w', d') → c ≠ DClear → c ≠ DBind →
  c_ready (w_ctx w') = c_ready (w_ctx w) ∧ c_drv (w_ctx w') = c_drv (w_ctx w).
Proof.
  intros H Hc Hb. destruct c; try done; cbn [dma_call] in H.
  - unfold idemip_dma_rx_take in H. paths H; done.
  - unfold idemip_dma_rx_post, rx_named, dma_rx_give_back in H. paths H; done.
  - unfold idemip_dma_pin, rx_named in H. paths H; done.
  - unfold idemip_dma_unpin, rx_named, dma_rx_give_back in H. paths H; done.
  - unfold idemip_dma_tx_take in H. paths H; done.
  - unfold idemip_dma_tx_post in H. paths H; done.
  - unfold idemip_dma_tx_reap in H. paths H; done.
  - unfold idemip_dma_pinned in H. paths H; done.
Qed.

Lemma run_bound calls : ∀ w d w' d' sts, Forall (λ x, x.1 ≠ DClear ∧ x.1 ≠ DBind) calls → dma_run cf calls w d = Some (w', d', sts) →
  c_ready (w_ctx w') = c_ready (w_ctx w) ∧ c_drv (w_ctx w') = c_drv (w_ctx w).
Proof.
  induction calls as [|[c io] calls IH]; intros w d w' d' sts Hk H; cbn [dma_run] in H; [by simplify_eq|].
  apply Forall_cons in Hk as [[Hc Hb] Hk]. destruct (dma_call cf c (put_io w io) d) as [[w1 d1]|] eqn:Hcall; [|done]. cbn [mbind option_bind] in H.
  destruct (dma_run cf calls w1 d1) as [[[w2 d2] sts2]|] eqn:Hrun; [|done]. cbn [mbind option_bind] in H. simplify_eq.
  destruct (IH _ _ _ _ _ Hk Hrun) as [-> ->]. by apply (call_bound c (put_io w io) d w1 d1).
Qed.

Lemma run_keeps i calls : ∀ w d w' d' sts drv, Rep cf w → c_ready (w_ctx w) = DMA_READY → c_drv (w_ctx w) = Some drv →
  Forall (λ x, io_ok x.2) calls → Forall (λ x, x.1 ≠ DClear ∧ x.1 ≠ DBind) calls → 0 ≤ i < RX →
  unpins_in i calls < d_pins (tget (w_rx w) i) → dma_run cf calls w d = Some (w', d', sts) →
  keeps i (unpins_in i calls) w w'.
Proof.
  induction calls as [|[c io] calls IH]; intros w d w' d' sts drv HR Hr Hd Hok Hk Hi Hlt H; cbn [dma_run unpins_in] in *.
  { simplify_eq. by apply keeps_same. }
  apply Forall_cons in Hok as [Hio Hok]. apply Forall_cons in Hk as [[Hc Hb] Hk]. cbn [fst snd] in *.
  pose proof (unpins_nonneg i c io). pose proof (unpins_in_nonneg i calls).
  assert (Rep cf (put_io w io)) as HRio by (by apply ring_rep_io).
  destruct (call_sim cf Hcf c (put_io w io) d HRio Hio) as (w1 & d1 & Hcall & HR1 & _). rewrite Hcall in H. cbn [mbind option_bind] in H.
  destruct (dma_run cf calls w1 d1) as [[[w2 d2] sts2]|] eqn:Hrun; [|done]. cbn [mbind option_bind] in H. simplify_eq.
  destruct (HRio Hr drv Hd) as (rxb & txb & HB).
  destruct (call_keeps c (put_io w io) d w1 d1 i drv rxb txb HB Hio Hi ltac:(change (0 < d_pins (tget (w_rx w) i)); lia) Hc Hb Hcall) as (Hbuf & Hpins & Hlen).
  change (w_rx (put_io w io)) with (w_rx w) in *. change (w_io (put_io w io)) with io in *.
  destruct (call_bound c (put_io w io) d w1 d1 Hcall Hc Hb) as [Hr1 Hd1].
  destruct (IH w1 d1 w' d' sts2 drv HR1) as (Hbuf2 & Hpins2 & Hlen2);
    [by rewrite Hr1|by rewrite Hd1|done|done|done|lia|done|].
  split_and!; [congruence|lia|]. intros _. rewrite Hlen2 by lia. apply Hlen. lia.
Qed.
End Runs.

(** C23. The descriptor rings implement the owners' machine.  From a borrow that was never cleared, for any
    sequence of calls with operands of their types, any configuration the build asserts admit and any
    driver: no call goes through a NULL hook, and the statuses reported, the driver's state and the owners
    the borrow spells are those of the machine, whose descriptors are computed from addresses and whose
    bound is on the sum of the pins. *)
Theorem dma_follows_owners {D : Type} (cf : config) (calls : list (dma_op * DmaIo D)) (w : DmaWork D) (d : D) :
  config_ok cf → c_ready (w_ctx w) ≠ DMA_READY → Forall (λ x, io_ok x.2) calls →
  ∃ w' d' sts, dma_run cf calls w d = Some (w', d', sts) ∧ spec_run cf calls Unready d = Some (view w', d', sts).
Proof.
  intros Hcf Hw Hok. destruct (run_sim cf Hcf calls w d (ring_unready_rep cf w Hw) Hok) as (w' & d' & sts & Hr & _ & Hs).
  exists w', d', sts. split; [done|]. rewrite <- Hs. unfold view. by rewrite (proj2 (Z.eqb_neq _ _) Hw).
Qed.

(** A driver whose state is the buffers waiting, with their lengths, and the number released. *)
Definition sample_driver : IdemIpPhyDriver (list (Z * Z) * Z) :=
  mkDriver None None (Some (λ d, match d.1 with [] => (0, 0, d) | (a, n) :: q => (n, a, (q, d.2)) end)) (Some (λ d, (d.1, d.2 + 1)))
    (Some (λ _ d, (0x9000, d))) (Some (λ _ d, (true, d))) (Some (λ _ _ d, d)) (Some (λ _ _ d, d)) None None.
Definition sample_cf : config := mkConfig 4 2 1514 32 3.
Definition sample_io {D : Type} (drv : option (IdemIpPhyDriver D)) (i : Z) : DmaIo D := mkDmaIo drv 0x1000 0x9000 60 i IDEMIP_OK 0 0 0 0 0 0.
Definition sample_work {D : Type} : DmaWork D := mkDmaWork (sample_io None 0) ctx_zero [] [].

Lemma sample_cf_ok : config_ok sample_cf.
Proof. split_and!; try (vm_compute; discriminate); [exists 2|exists 1|exists 5|]; vm_compute; (split; [discriminate|reflexivity]) || reflexivity. Qed.

(** Two frames are received; the first is pinned and its hold ends, the second goes straight back. *)
Definition sample_calls {D : Type} (drv : IdemIpPhyDriver D) : list (dma_op * DmaIo D) :=
  [(DClear, sample_io None 0); (DBind, sample_io (Some drv) 0); (DRxTake, sample_io None 0); (DPin, sample_io None 0);
   (DRxPost, sample_io None 0); (DRxTake, sample_io None 0); (DRxPost, sample_io None 1)].

Lemma dma_sample_calls_ok {D : Type} (drv : IdemIpPhyDriver D) : Forall (λ x, io_ok x.2) (sample_calls drv).
Proof. repeat constructor; vm_compute; discriminate. Qed.

Lemma dma_follows_owners_witness :
  ∃ w' d' sts, dma_run sample_cf (sample_calls sample_driver) sample_work ([(0x1000, 60); (0x1600, 90)], 0) = Some (w', d', sts) ∧
    spec_run sample_cf (sample_calls sample_driver) Unready ([(0x1000, 60); (0x1600, 90)], 0) = Some (view w', d', sts).
Proof.
  assert (c_ready (w_ctx (sample_work (D := list (Z * Z) * Z))) ≠ DMA_READY) as Hw by (vm_compute; discriminate).
  exact (dma_follows_owners sample_cf (sample_calls sample_driver) sample_work _ sample_cf_ok Hw (dma_sample_calls_ok sample_driver)).
Defined.

(** C24. The pins never pass the bound, and the receive ring never starves: after any calls, on a bound
    borrow, the context's count is the sum of the pins on the descriptors and within
    IDEMIP_MAX_PINNED_FRAMES, so no octet count wraps; and when the tick holds nothing, some descriptor is
    the engine's to receive into. *)
Theorem ring_never_starves {D : Type} (cf : config) (calls : list (dma_op * DmaIo D)) (w w' : DmaWork D) (d d' : D) sts :
  config_ok cf → c_ready (w_ctx w) ≠ DMA_READY → Forall (λ x, io_ok x.2) calls →
  dma_run cf calls w d = Some (w', d', sts) → is_Some (c_drv (w_ctx w')) → c_ready (w_ctx w') = DMA_READY →
  c_pinned (w_ctx w') = total d_pins (w_rx w') ∧ c_pinned (w_ctx w') ≤ IDEMIP_MAX_PINNED_FRAMES cf ∧
  Forall (λ x, 0 ≤ d_pins x ≤ 255) (w_rx w') ∧
  (Forall (λ x, has (d_flags x) IDEMIP_DMA_FLAG_HELD = false) (w_rx w') →
   Exists (λ x, has (d_flags x) IDEMIP_DMA_FLAG_OWN = true ∧ d_pins x = 0) (w_rx w')).
Proof.
  intros Hcf Hw Hok Hrun [drv Hd] Hr. destruct (run_sim cf Hcf calls w d (ring_unready_rep cf w Hw) Hok) as (w1 & d1 & sts1 & Hr1 & HR & _).
  assert (w1 = w') as -> by congruence. destruct (HR Hr drv Hd) as (rxb & txb & HB).
  pose proof (br_rx _ _ _ _ _ HB) as Hrx. pose proof (br_rx_len _ _ _ _ _ HB) as Hlen. pose proof (br_pinned _ _ _ _ _ HB) as Hp.
  pose proof (br_bound _ _ _ _ _ HB) as Hm. split_and!; [done|done| |].
  - apply Forall_lookup. intros k x Hx. pose proof (lookup_lt_Some _ _ _ Hx). unfold tlen in Hlen.
    pose proof (pins_range cf Hcf w' drv rxb txb (Z.of_nat k) HB ltac:(lia)) as Hk. unfold tget in Hk.
    rewrite Nat2Z.id, (list_lookup_total_correct _ _ _ Hx) in Hk. lia.
  - intros Hheld. destruct (Exists_dec (λ x, has (d_flags x) IDEMIP_DMA_FLAG_OWN = true ∧ d_pins x = 0) (w_rx w')) as [|Hn]; [done|].
    exfalso. assert (Z.of_nat (length (w_rx w')) ≤ total d_pins (w_rx w')) as Hge.
    { clear -Hrx Hheld Hn. apply not_Exists_Forall in Hn; [|intros; apply _]. induction Hrx as [|x l Hx Hl IH]; [done|].
      apply Forall_cons in Hheld as [Hh Hheld]. apply Forall_cons in Hn as [Hn1 Hn]. specialize (IH Hheld Hn). change (Z.of_nat (S (length l)) ≤ d_pins x + total d_pins l).
      destruct (owner_cases x Hx) as [(Ho & _ & Hz)|[(_ & Hh' & _)|(_ & _ & _ & Hz)]]; [|congruence|lia]. exfalso. apply Hn1. split; [|done].
      unfold owner_of in Ho. destruct (has (d_flags x) IDEMIP_DMA_FLAG_OWN); [done|]. by destruct (has (d_flags x) IDEMIP_DMA_FLAG_HELD). }
    unfold tlen in Hlen. destruct Hcf as (_ & _ & _ & _ & _ & _ & _ & Hlt). lia.
Qed.

Lemma ring_never_starves_witness :
  ∃ w' d' sts, dma_run sample_cf (sample_calls sample_driver) sample_work ([(0x1000, 60); (0x1600, 90)], 0) = Some (w', d', sts) ∧
    c_pinned (w_ctx w') = 1 ∧ c_pinned (w_ctx w') ≤ IDEMIP_MAX_PINNED_FRAMES sample_cf.
Proof.
  assert (c_ready (w_ctx (sample_work (D := list (Z * Z) * Z))) ≠ DMA_READY) as Hw by (vm_compute; discriminate).
  eexists _, _, _. split; [vm_compute; reflexivity|]. split; [reflexivity|].
  exact (proj1 (proj2 (ring_never_starves sample_cf (sample_calls sample_driver) sample_work _ ([(0x1000, 60); (0x1600, 90)], 0) _ _
    sample_cf_ok Hw (dma_sample_calls_ok sample_driver) ltac:(vm_compute; reflexivity) ltac:(vm_compute; eexists; reflexivity) ltac:(vm_compute; reflexivity)))).
Defined.

(** A pinned frame stays where it is.  From any state reached by calls, a receive descriptor with [p]
    pins, through any further calls that neither clear nor bind and that unpin it fewer than [p] times:
    the calls return, and the descriptor still points at the same buffer with the same length, is still
    pinned, and is not the engine's. *)
Theorem pinned_frame_kept {D : Type} (cf : config) (before calls : list (dma_op * DmaIo D)) (w0 w : DmaWork D) (d0 d : D) sts0 drv i :
  config_ok cf → c_ready (w_ctx w0) ≠ DMA_READY → Forall (λ x, io_ok x.2) before → dma_run cf before w0 d0 = Some (w, d, sts0) →
  c_ready (w_ctx w) = DMA_READY → c_drv (w_ctx w) = Some drv →
  Forall (λ x, io_ok x.2) calls → Forall (λ x, x.1 ≠ DClear ∧ x.1 ≠ DBind) calls → 0 ≤ i < IDEMIP_RX_DESCRIPTORS cf →
  unpins_in i calls < d_pins (tget (w_rx w) i) →
  ∃ w' d' sts, dma_run cf calls w d = Some (w', d', sts) ∧
    d_buf (tget (w_rx w') i) = d_buf (tget (w_rx w) i) ∧ d_len (tget (w_rx w') i) = d_len (tget (w_rx w) i) ∧
    0 < d_pins (tget (w_rx w') i) ∧ has (d_flags (tget (w_rx w') i)) IDEMIP_DMA_FLAG_OWN = false.
Proof.
  intros Hcf Hw0 Hok0 Hrun0 Hr Hd Hok Hk Hi Hlt.
  destruct (run_sim cf Hcf before w0 d0 (ring_unready_rep cf w0 Hw0) Hok0) as (w1 & d1 & sts1 & Hr1 & HR & _).
  assert (w1 = w ∧ d1 = d) as [-> ->] by (split; congruence).
  destruct (run_sim cf Hcf calls w d HR Hok) as (w' & d' & sts & Hrun & HR' & _).
  destruct (run_keeps cf Hcf i calls w d w' d' sts drv HR Hr Hd Hok Hk Hi Hlt Hrun) as (Hbuf & Hpins & Hlen).
  exists w', d', sts. split_and!; [done|done|by apply Hlen|lia|].
  destruct (run_bound cf calls w d w' d' sts Hk Hrun) as [Hr' Hd'].
  destruct (HR' ltac:(congruence) drv ltac:(congruence)) as (rxb & txb & HB).
  destruct (has (d_flags (tget (w_rx w') i)) IDEMIP_DMA_FLAG_OWN) eqn:Ho; [|done].
  destruct (owner_engine _ (rx_ok_get cf w' drv rxb txb i HB Hi) Ho). lia.
Qed.

(** The first frame above stays pinned while a third arrives and goes back. *)
Lemma pinned_frame_kept_witness :
  ∃ w d sts0 w' d' sts,
    dma_run sample_cf (sample_calls sample_driver) sample_work ([(0x1000, 60); (0x1600, 90); (0x1c00, 70)], 0) = Some (w, d, sts0) ∧
    dma_run sample_cf [(DRxTake, sample_io None 0); (DRxPost, sample_io None 2); (DUnpin, sample_io None 1)] w d = Some (w', d', sts) ∧
    d_buf (tget (w_rx w') 0) = d_buf (tget (w_rx w) 0) ∧ 0 < d_pins (tget (w_rx w') 0).
Proof.
  assert (c_ready (w_ctx (sample_work (D := list (Z * Z) * Z))) ≠ DMA_READY) as Hw by (vm_compute; discriminate).
  eexists _, _, _. set (calls := [(DRxTake, sample_io None 0); (DRxPost, sample_io None 2); (DUnpin, sample_io None 1)]).
  assert (Forall (λ x : dma_op * DmaIo (list (Z * Z) * Z), io_ok x.2) calls) as Hok by (repeat constructor; vm_compute; discriminate).
  assert (Forall (λ x : dma_op * DmaIo (list (Z * Z) * Z), x.1 ≠ DClear ∧ x.1 ≠ DBind) calls) as Hk by (repeat constructor; discriminate).
  destruct (pinned_frame_kept sample_cf (sample_calls sample_driver) calls sample_work _ ([(0x1000, 60); (0x1600, 90); (0x1c00, 70)], 0) _ _
    sample_driver 0 sample_cf_ok Hw (dma_sample_calls_ok sample_driver) ltac:(vm_compute; reflexivity) ltac:(vm_compute; reflexivity)
    ltac:(vm_compute; reflexivity) Hok Hk ltac:(vm_compute; split; [discriminate|reflexivity]) ltac:(vm_compute; reflexivity))
    as (w' & d' & sts & Hrun & Hb & _ & Hp & _).
  eexists w', d', sts. split; [vm_compute; reflexivity|]. split; [exact Hrun|]. split; [exact Hb|exact Hp].
Defined.

(** ** Giving back out of order

    [rx_release] names no buffer.  A driver that gives back in the order it handed out returns the first
    buffer when the second descriptor is posted, though the first is pinned. *)
Record Fifo := mkFifo { waiting : list (Z * Z); out : list Z; engine : list Z }.
Definition fifo_driver : IdemIpPhyDriver Fifo :=
  mkDriver None None
    (Some (λ d, match waiting d with [] => (0, 0, d) | (a, n) :: q => (n, a, mkFifo q (out d ++ [a]) (engine d)) end))
    (Some (λ d, match out d with [] => d | a :: q => mkFifo (waiting d) q (a :: engine d) end))
    (Some (λ _ d, (0, d))) (Some (λ _ d, (true, d))) (Some (λ _ _ d, d)) (Some (λ _ _ d, d)) None None.

Example pinned_buffer_released :
  match dma_run sample_cf (sample_calls fifo_driver) sample_work (mkFifo [(0x1000, 60); (0x1600, 90)] [] []) with
  | Some (w, d, sts) =>
      sts = [IDEMIP_OK; IDEMIP_OK; IDEMIP_OK; IDEMIP_OK; IDEMIP_OK; IDEMIP_OK; IDEMIP_OK] ∧
      d_buf (tget (w_rx w) 0) = 0x1000 ∧ d_pins (tget (w_rx w) 0) = 1 ∧ engine d = [0x1000]
  | None => False
  end.
Proof. vm_compute. split_and!; reflexivity. Qed.

End DmaThms.
