(* ===== verification/Arp.v ===== *)
(** * The ARP packet (src/arp/arp.c)

    Reading the twenty-eight octets of RFC 826's <Ethernet, IPv4> packet, building a request and a reply,
    and turning a request into its reply in the octets it arrived in.  A hardware address a read reports is
    a pointer into the packet: it is the six octets it points at. *)
From S2P Require Import Prelude Base Wire.

Module Arp.
Import Endian Wire.

Definition IDEMIP_ARP_HRD_ETHERNET : Z := 1.
Definition IDEMIP_ARP_PRO_IPV4 : Z := 0x0800.
Definition IDEMIP_ARP_PLN_IPV4 : Z := 4.
Definition IDEMIP_ARP_HLN_ETHERNET : Z := 6.
Definition IDEMIP_ARP_OFF_HRD : Z := 0.
Definition IDEMIP_ARP_OFF_PRO : Z := 2.
Definition IDEMIP_ARP_OFF_HLN : Z := 4.
Definition IDEMIP_ARP_OFF_PLN : Z := 5.
Definition IDEMIP_ARP_OFF_OP : Z := 6.
Definition IDEMIP_ARP_OFF_SHA : Z := 8.
Definition IDEMIP_ARP_OFF_SPA : Z := 14.
Definition IDEMIP_ARP_OFF_THA : Z := 18.
Definition IDEMIP_ARP_OFF_TPA : Z := 24.
Definition IDEMIP_ARP_LEN : Z := 28.
Definition IDEMIP_ARP_OP_REQUEST : Z := 1.
Definition IDEMIP_ARP_OP_REPLY : Z := 2.

(** The six octets at an offset. *)
Definition mac_at (h : list Z) (off : Z) : list Z := take (Z.to_nat IDEMIP_ARP_HLN_ETHERNET) (drop (Z.to_nat off) h).

Definition arp_hrd (h : list Z) : Z := rd16 h IDEMIP_ARP_OFF_HRD.
Definition arp_pro (h : list Z) : Z := rd16 h IDEMIP_ARP_OFF_PRO.
Definition arp_hln (h : list Z) : Z := tget h IDEMIP_ARP_OFF_HLN.
Definition arp_pln (h : list Z) : Z := tget h IDEMIP_ARP_OFF_PLN.
Definition arp_op (h : list Z) : Z := rd16 h IDEMIP_ARP_OFF_OP.
Definition arp_sha (h : list Z) : list Z := mac_at h IDEMIP_ARP_OFF_SHA.
Definition arp_spa (h : list Z) : Z := rd32 h IDEMIP_ARP_OFF_SPA.
Definition arp_tha (h : list Z) : list Z := mac_at h IDEMIP_ARP_OFF_THA.
Definition arp_tpa (h : list Z) : Z := rd32 h IDEMIP_ARP_OFF_TPA.

Definition arp_is_ethernet_ipv4 (h : list Z) : bool :=
  (arp_hrd h =? IDEMIP_ARP_HRD_ETHERNET) && (arp_pro h =? IDEMIP_ARP_PRO_IPV4) && (arp_hln h =? IDEMIP_ARP_HLN_ETHERNET) &&
  (arp_pln h =? IDEMIP_ARP_PLN_IPV4).
Definition arp_is_request (h : list Z) : bool := arp_op h =? IDEMIP_ARP_OP_REQUEST.
Definition arp_is_reply (h : list Z) : bool := arp_op h =? IDEMIP_ARP_OP_REPLY.
Definition arp_is_target (h : list Z) (pa : Z) : bool := arp_tpa h =? pa.

Definition arp_build_pkt (w : list Z) (op : Z) (sha : list Z) (spa tpa : Z) : list Z :=
  let w := wr16 w IDEMIP_ARP_OFF_HRD IDEMIP_ARP_HRD_ETHERNET in
  let w := wr16 w IDEMIP_ARP_OFF_PRO IDEMIP_ARP_PRO_IPV4 in
  let w := tset w IDEMIP_ARP_OFF_HLN IDEMIP_ARP_HLN_ETHERNET in
  let w := tset w IDEMIP_ARP_OFF_PLN IDEMIP_ARP_PLN_IPV4 in
  let w := wr16 w IDEMIP_ARP_OFF_OP op in
  let w := memcpy w IDEMIP_ARP_OFF_SHA sha IDEMIP_ARP_HLN_ETHERNET in
  let w := wr32 w IDEMIP_ARP_OFF_SPA spa in
  wr32 w IDEMIP_ARP_OFF_TPA tpa.

Definition arp_request (w sha : list Z) (spa tpa : Z) : list Z :=
  memset (arp_build_pkt w IDEMIP_ARP_OP_REQUEST sha spa tpa) IDEMIP_ARP_OFF_THA 0 IDEMIP_ARP_HLN_ETHERNET.

Definition arp_reply (w sha : list Z) (spa : Z) (tha : list Z) (tpa : Z) : list Z :=
  memcpy (arp_build_pkt w IDEMIP_ARP_OP_REPLY sha spa tpa) IDEMIP_ARP_OFF_THA tha IDEMIP_ARP_HLN_ETHERNET.

Definition arp_reply_in_place (w sha : list Z) : list Z :=
  let spa := rd32 w IDEMIP_ARP_OFF_SPA in
  let tpa := rd32 w IDEMIP_ARP_OFF_TPA in
  let w := memcpy w IDEMIP_ARP_OFF_THA (drop (Z.to_nat IDEMIP_ARP_OFF_SHA) w) IDEMIP_ARP_HLN_ETHERNET in
  let w := memcpy w IDEMIP_ARP_OFF_SHA sha IDEMIP_ARP_HLN_ETHERNET in
  let w := wr32 w IDEMIP_ARP_OFF_SPA tpa in
  let w := wr32 w IDEMIP_ARP_OFF_TPA spa in
  wr16 w IDEMIP_ARP_OFF_OP IDEMIP_ARP_OP_REPLY.
End Arp.

(** * The ARP packet's octets

    What the builders of arp.c write and what its readers read back: one layout, RFC 826's, for requests
    and replies. *)
Module ArpPacket.
Import Endian Checksum Wire Arp.

(** RFC 826's packet for <Ethernet, IPv4>. *)
Definition packet (op : Z) (sha : list Z) (spa : Z) (tha : list Z) (tpa : Z) : list Z :=
  be16 IDEMIP_ARP_HRD_ETHERNET ++ be16 IDEMIP_ARP_PRO_IPV4 ++ [IDEMIP_ARP_HLN_ETHERNET; IDEMIP_ARP_PLN_IPV4] ++ be16 op ++
  sha ++ be32 spa ++ tha ++ be32 tpa.

Definition is_mac (m : list Z) : Prop := length m = 6%nat ∧ octets m.
Definition mac_zero : list Z := [0; 0; 0; 0; 0; 0].

Lemma six (m : list Z) : length m = 6%nat → ∃ a b c d e f, m = [a; b; c; d; e; f].
Proof. do 7 (destruct m as [|? m]; [try discriminate|]); [|discriminate]. intros _. eauto 8. Qed.

(** A span long enough, octet by octet. *)
Tactic Notation "split_span" ident(o) integer(n) := do n (destruct o as [|? o]; [cbn [length] in *; lia|]).
Ltac blocks := unfold memcpy, memset;
  repeat match goal with |- context [Z.to_nat ?k] => let n := eval compute in (Z.to_nat k) in change (Z.to_nat k) with n end;
  cbn [take drop app replicate].

Lemma build_layout o op sha spa tpa : (28 ≤ length o)%nat → length sha = 6%nat → is_u16 op → is_u32 spa → is_u32 tpa →
  arp_build_pkt o op sha spa tpa = packet op sha spa (take 6 (drop 18 o)) tpa ++ drop 28 o.
Proof.
  intros Hl Hs Hop Hspa Htpa. destruct (six sha Hs) as (a & b & c & d & e & f & ->). split_span o 28.
  assert (is_u16 IDEMIP_ARP_HRD_ETHERNET ∧ is_u16 IDEMIP_ARP_PRO_IPV4) as [? ?] by (split; unfold is_u16; vm_compute; split; (discriminate || reflexivity)).
  unfold arp_build_pkt. cbv zeta. do 9 (blocks; write_field). reflexivity.
Qed.

Lemma request_layout o sha spa tpa : (28 ≤ length o)%nat → length sha = 6%nat → is_u32 spa → is_u32 tpa →
  arp_request o sha spa tpa = packet IDEMIP_ARP_OP_REQUEST sha spa mac_zero tpa ++ drop 28 o.
Proof.
  intros Hl Hs Hspa Htpa. unfold arp_request. rewrite build_layout by (done || (unfold is_u16; vm_compute; split; (discriminate || reflexivity))).
  destruct (six sha Hs) as (a & b & c & d & e & f & ->). split_span o 28. unfold packet, be16, be32. blocks. reflexivity.
Qed.

Lemma reply_layout o sha spa tha tpa : (28 ≤ length o)%nat → length sha = 6%nat → length tha = 6%nat → is_u32 spa → is_u32 tpa →
  arp_reply o sha spa tha tpa = packet IDEMIP_ARP_OP_REPLY sha spa tha tpa ++ drop 28 o.
Proof.
  intros Hl Hs Ht Hspa Htpa. unfold arp_reply. rewrite build_layout by (done || (unfold is_u16; vm_compute; split; (discriminate || reflexivity))).
  destruct (six sha Hs) as (a & b & c & d & e & f & ->). destruct (six tha Ht) as (a' & b' & c' & d' & e' & f' & ->).
  split_span o 28. unfold packet, be16, be32. blocks. reflexivity.
Qed.

(** The fields of a packet read back. *)
Lemma packet_fields op sha spa tha tpa rest : is_mac sha → is_mac tha → is_u16 op → is_u32 spa → is_u32 tpa →
  let p := packet op sha spa tha tpa ++ rest in
  arp_is_ethernet_ipv4 p = true ∧ arp_pro p = IDEMIP_ARP_PRO_IPV4 ∧ arp_op p = op ∧ arp_sha p = sha ∧ arp_spa p = spa ∧ arp_tha p = tha ∧ arp_tpa p = tpa.
Proof.
  intros [Hs Hso] [Ht Hto] Hop Hspa Htpa p. destruct (six sha Hs) as (a & b & c & d & e & f & ->). destruct (six tha Ht) as (a' & b' & c' & d' & e' & f' & ->).
  assert (arp_hrd p = IDEMIP_ARP_HRD_ETHERNET) as Hhrd by reflexivity.
  assert (arp_pro p = IDEMIP_ARP_PRO_IPV4) as Hpro by reflexivity.
  assert (arp_op p = op) as Hopr by (by apply (rd16_be16 op)).
  assert (arp_spa p = spa) as Hspr by (by apply (rd32_be32 spa)).
  assert (arp_tpa p = tpa) as Htpr by (apply (rd32_be32 tpa rest); done).
  split_and!; try done.
Qed.

(** The request turned around: the fields swapped, the local address put in the sender's place. *)
Lemma reply_in_place_layout op sha spa tha tpa local rest : is_mac sha → is_mac tha → is_mac local → is_u16 op → is_u32 spa → is_u32 tpa →
  arp_reply_in_place (packet op sha spa tha tpa ++ rest) local = packet IDEMIP_ARP_OP_REPLY local tpa sha spa ++ rest.
Proof.
  intros Hs Ht Hl Hop Hspa Htpa. destruct (packet_fields op sha spa tha tpa rest Hs Ht Hop Hspa Htpa) as (_ & _ & _ & _ & Hsp & _ & Htp).
  unfold arp_reply_in_place. fold (arp_spa (packet op sha spa tha tpa ++ rest)) (arp_tpa (packet op sha spa tha tpa ++ rest)). rewrite Hsp, Htp.
  destruct (six sha (proj1 Hs)) as (a & b & c & d & e & f & ->). destruct (six tha (proj1 Ht)) as (a' & b' & c' & d' & e' & f' & ->).
  destruct (six local (proj1 Hl)) as (a'' & b'' & c'' & d'' & e'' & f'' & ->).
  assert (is_u16 IDEMIP_ARP_OP_REPLY) as Hrep by (unfold is_u16; vm_compute; split; (discriminate || reflexivity)).
  unfold packet, be16, be32. cbv zeta. do 9 (blocks; write_field). reflexivity.
Qed.
End ArpPacket.
