(* ===== verification/ArpTable.v ===== *)
(** * The ARP table (src/arp/arp_table.c)

    The rows of RFC 826's translation table, and the holds: receive descriptors pinned until an address
    resolves, each on the list of the row it waits on or waiting to be handed back.  A hardware address
    reported points into the row: it is the octets it points at when the call returns.  Table sizes and
    spans of time are the build's, as one record. *)
From S2P Require Import Prelude Base Arp.

Module ArpTable.
Import Endian Arp.

Definition ARP_READY : Z := 0x41525054.
Definition IDEMIP_ARP_INDEX_NONE : Z := 0xFF.
Definition ARP_REQUEST_MIN_MS : Z := 1000.
Definition IDEMIP_ETH_FRAME_MAX : Z := 1514.

Inductive IdemIpArpState : Type := IDEMIP_ARP_STATE_FREE | IDEMIP_ARP_STATE_PENDING | IDEMIP_ARP_STATE_STABLE.
#[export] Instance IdemIpArpState_eq_dec : EqDecision IdemIpArpState.
Proof. solve_decision. Defined.
Inductive ArpHoldState : Type := ARP_HOLD_FREE | ARP_HOLD_WAIT | ARP_HOLD_RECLAIM.
#[export] Instance ArpHoldState_eq_dec : EqDecision ArpHoldState.
Proof. solve_decision. Defined.

Record config := mkConfig {
  IDEMIP_ARP_ENTRIES : Z;
  IDEMIP_ARP_PENDING : Z;
  IDEMIP_ARP_MAXAGE_S : Z;
  IDEMIP_ARP_MAXPENDING_S : Z;
  IDEMIP_ARP_TMR_INTERVAL_MS : Z }.
Definition ARP_MAXAGE_MS (c : config) : Z := u32 (IDEMIP_ARP_MAXAGE_S c * 1000).
Definition ARP_MAXPENDING_MS (c : config) : Z := u32 (IDEMIP_ARP_MAXPENDING_S c * 1000).

Record ArpEntry := mkEntry {
  e_spa : Z; e_used_ms : Z; e_req_ms : Z; e_pro : Z; e_sha : list Z; e_state : IdemIpArpState; e_netif : Z; e_pending : Z;
  e_tries : Z }.
#[export] Instance ArpEntry_eta : Eta ArpEntry := fun r =>
  mkEntry (e_spa r) (e_used_ms r) (e_req_ms r) (e_pro r) (e_sha r) (e_state r) (e_netif r) (e_pending r) (e_tries r).
Definition sha_zero : list Z := replicate (Z.to_nat IDEMIP_ARP_HLN_ETHERNET) 0.
Definition entry_zero : ArpEntry := mkEntry 0 0 0 0 sha_zero IDEMIP_ARP_STATE_FREE 0 0 0.
#[export] Instance ArpEntry_inhabited : Inhabited ArpEntry := populate entry_zero.

Record ArpPending := mkPending {
  p_deadline_ms : Z; p_spa : Z; p_desc : Z; p_len : Z; p_entry : Z; p_next : Z; p_state : ArpHoldState }.
#[export] Instance ArpPending_eta : Eta ArpPending := fun r =>
  mkPending (p_deadline_ms r) (p_spa r) (p_desc r) (p_len r) (p_entry r) (p_next r) (p_state r).
Definition pending_zero : ArpPending := mkPending 0 0 0 0 0 0 ARP_HOLD_FREE.
#[export] Instance ArpPending_inhabited : Inhabited ArpPending := populate pending_zero.

Record ArpCtx := mkCtx { c_ready : Z; c_tick_ms : Z; c_held : Z }.
#[export] Instance ArpCtx_eta : Eta ArpCtx := fun r => mkCtx (c_ready r) (c_tick_ms r) (c_held r).

Record ArpAddArgs := mkAddArgs { add_spa : Z; add_sha : option (list Z); add_pro : Z; add_netif : Z }.
Record ArpFindArgs := mkFindArgs { find_spa : Z; find_pro : Z }.
Record ArpRemoveArgs := mkRemoveArgs { remove_spa : Z; remove_pro : Z }.
Record ArpInputArgs := mkInputArgs { in_packet : option (list Z); in_local_pa : Z; in_netif : Z }.
Record ArpQueueArgs := mkQueueArgs { q_ip : Z; q_desc : Z; q_len : Z }.

Record ArpTableIo := mkIo {
  add_args : ArpAddArgs;
  find_args : ArpFindArgs;
  remove_args : ArpRemoveArgs;
  input_args : ArpInputArgs;
  queue_args : ArpQueueArgs;
  now_ms : Z;
  io_mac : option (list Z);
  io_ip : Z;
  io_desc : Z;
  io_len : Z;
  io_status : IdemIpStatus;
  io_state : IdemIpArpState;
  io_index : Z;
  io_netif : Z;
  io_merged : bool;
  io_reply_owed : bool;
  io_conflict : bool }.
#[export] Instance ArpTableIo_eta : Eta ArpTableIo := fun r =>
  mkIo (add_args r) (find_args r) (remove_args r) (input_args r) (queue_args r) (now_ms r) (io_mac r) (io_ip r) (io_desc r)
    (io_len r) (io_status r) (io_state r) (io_index r) (io_netif r) (io_merged r) (io_reply_owed r) (io_conflict r).

Record Work := mkWork { w_io : ArpTableIo; w_ctx : ArpCtx; w_tab : list ArpEntry; w_pend : list ArpPending }.
#[export] Instance Work_eta : Eta Work := fun r => mkWork (w_io r) (w_ctx r) (w_tab r) (w_pend r).

Definition ARP_AT (w : Work) (i : Z) : ArpEntry := tget (w_tab w) i.
Definition ARP_PENDING_AT (w : Work) (h : Z) : ArpPending := tget (w_pend w) h.
Definition put_row (w : Work) (i : Z) (e : ArpEntry) : Work := w <| w_tab := tset (w_tab w) i e |>.
Definition put_hold (w : Work) (h : Z) (p : ArpPending) : Work := w <| w_pend := tset (w_pend w) h p |>.
Definition put_io (w : Work) (io : ArpTableIo) : Work := w <| w_io := io |>.

Local Abbreviation NONE := IDEMIP_ARP_INDEX_NONE.

Definition arp_ready (w : Work) : bool := c_ready (w_ctx w) =? ARP_READY.
Definition arp_due (now deadline : Z) : bool := u32 (now - deadline) <? 0x80000000.
Definition row_free (e : ArpEntry) : bool := bool_decide (e_state e = IDEMIP_ARP_STATE_FREE).
Definition hold_in (s : ArpHoldState) (p : ArpPending) : bool := bool_decide (p_state p = s).

Section Build.
Variable c : config.
Local Abbreviation ENTRIES := (IDEMIP_ARP_ENTRIES c).
Local Abbreviation PENDING := (IDEMIP_ARP_PENDING c).

(** ** The statics *)
Definition arp_row_find (w : Work) (pro spa : Z) : Z :=
  default NONE (scan (λ i, let e := ARP_AT w i in negb (row_free e) && (e_pro e =? pro) && (e_spa e =? spa)) (Z.to_nat ENTRIES) 0).

(** The walk of [arp_row_free] over the holds of a row. *)
Fixpoint release_holds (n : nat) (w : Work) (h : Z) : Work :=
  match n with
  | O => w
  | S n' =>
      if h =? NONE then w
      else
        let p := ARP_PENDING_AT w h in
        release_holds n' (put_hold w h (p <| p_entry := NONE |> <| p_next := NONE |> <| p_state := ARP_HOLD_RECLAIM |>)) (p_next p)
  end.

Definition arp_row_free (w : Work) (i : Z) : Work :=
  let w1 := release_holds (Z.to_nat PENDING) w (e_pending (ARP_AT w i)) in
  put_row w1 i (entry_zero <| e_pending := NONE |>).

(** The row unseen longest that carries no hold: the walk's victim and its age so far. *)
Definition oldest_row (w : Work) (now : Z) : Z * Z :=
  fold_left (λ '(victim, oldest) i,
    let e := ARP_AT w i in
    let age := u32 (now - e_used_ms e) in
    if (e_pending e =? NONE) && (oldest <=? age) then (i, age) else (victim, oldest)) (seqZ 0 ENTRIES) (NONE, 0).

Definition arp_row_take (w : Work) (now : Z) : Work * Z :=
  match scan (λ i, row_free (ARP_AT w i)) (Z.to_nat ENTRIES) 0 with
  | Some i => (w, i)
  | None =>
      let victim := (oldest_row w now).1 in
      if negb (victim =? NONE) then (arp_row_free w victim, victim) else (w, victim)
  end.

Definition arp_row_open (w : Work) (i pro spa now : Z) : Work :=
  put_row w i (entry_zero <| e_pro := pro |> <| e_spa := spa |> <| e_used_ms := now |> <| e_pending := NONE |>).

(** The row, completed or refreshed. *)
Definition learn_row (w : Work) (i : Z) (sha : list Z) (netif now : Z) : Work :=
  put_row w i ((ARP_AT w i) <| e_sha := take (Z.to_nat IDEMIP_ARP_HLN_ETHERNET) sha |> <| e_state := IDEMIP_ARP_STATE_STABLE |>
                            <| e_netif := netif |> <| e_used_ms := now |> <| e_req_ms := 0 |> <| e_tries := 0 |>).

(** The table, the row, and the merge flag. *)
Definition arp_learn (w : Work) (pro spa : Z) (sha : list Z) (netif now : Z) (add_absent : bool) : Work * Z * bool :=
  if negb (Z.land (tget sha 0) 0x01 =? 0) then (w, NONE, false)
  else
    let i := arp_row_find w pro spa in
    if negb (i =? NONE) then (learn_row w i sha netif now, i, true)
    else if negb add_absent then (w, NONE, false)
    else
      let '(w1, j) := arp_row_take w now in
      if j =? NONE then (w1, NONE, false)
      else (learn_row (arp_row_open w1 j pro spa now) j sha netif now, j, false).

Definition arp_hold_free (w : Work) : Z :=
  default NONE (scan (λ h, hold_in ARP_HOLD_FREE (ARP_PENDING_AT w h)) (Z.to_nat PENDING) 0).

(** The walk of [arp_hold_link] to the tail of a list. *)
Fixpoint link_tail (n : nat) (w : Work) (cur h : Z) : Work :=
  match n with
  | O => w
  | S n' =>
      let p := ARP_PENDING_AT w cur in
      if p_next p =? NONE then put_hold w cur (p <| p_next := h |>) else link_tail n' w (p_next p) h
  end.

Definition arp_hold_link (w : Work) (i h : Z) : Work :=
  let e := ARP_AT w i in
  let w1 := put_hold w h ((ARP_PENDING_AT w h) <| p_next := NONE |>) in
  if e_pending e =? NONE then put_row w1 i (e <| e_pending := h |>)
  else link_tail (Z.to_nat PENDING) w1 (e_pending e) h.

(** The walk of [arp_hold_unlink]: [prev] is the hold before [cur]. *)
Fixpoint unlink_walk (n : nat) (w : Work) (i h prev cur : Z) : Work :=
  match n with
  | O => w
  | S n' =>
      if cur =? NONE then w
      else
        let p := ARP_PENDING_AT w cur in
        if cur =? h then
          let w1 := if prev =? NONE then put_row w i ((ARP_AT w i) <| e_pending := p_next p |>)
                    else put_hold w prev ((ARP_PENDING_AT w prev) <| p_next := p_next p |>) in
          put_hold w1 cur ((ARP_PENDING_AT w1 cur) <| p_next := NONE |>)
        else unlink_walk n' w i h cur (p_next p)
  end.

Definition arp_hold_unlink (w : Work) (i h : Z) : Work :=
  unlink_walk (Z.to_nat PENDING) w i h NONE (e_pending (ARP_AT w i)).

(** One row of the age sweep. *)
Definition age_row (now : Z) (w : Work) (i : Z) : Work :=
  let e := ARP_AT w i in
  if row_free e then w
  else
    let age := u32 (now - e_used_ms e) in
    let bound := if bool_decide (e_state e = IDEMIP_ARP_STATE_PENDING) then ARP_MAXPENDING_MS c else ARP_MAXAGE_MS c in
    if bound <=? age then arp_row_free w i else w.
Definition arp_age_rows (w : Work) (now : Z) : Work := fold_left (age_row now) (seqZ 0 ENTRIES) w.

(** One hold of the deadline sweep. *)
Definition expire_hold (now : Z) (w : Work) (h : Z) : Work :=
  let p := ARP_PENDING_AT w h in
  if negb (hold_in ARP_HOLD_WAIT p) || negb (arp_due now (p_deadline_ms p)) then w
  else
    let w1 := if negb (p_entry p =? NONE) then arp_hold_unlink w (p_entry p) h else w in
    put_hold w1 h ((ARP_PENDING_AT w1 h) <| p_entry := NONE |> <| p_state := ARP_HOLD_RECLAIM |>).
Definition arp_expire_holds (w : Work) (now : Z) : Work := fold_left (expire_hold now) (seqZ 0 PENDING) w.

(** One descriptor fewer held. *)
Definition drop_held (w : Work) : Work :=
  if negb (c_held (w_ctx w) =? 0) then w <| w_ctx := (w_ctx w) <| c_held := u8 (c_held (w_ctx w) - 1) |> |> else w.

Definition arp_report_reclaim (w : Work) : Work * bool :=
  match scan (λ h, hold_in ARP_HOLD_RECLAIM (ARP_PENDING_AT w h)) (Z.to_nat PENDING) 0 with
  | None => (w, false)
  | Some h =>
      let p := ARP_PENDING_AT w h in
      let w1 := put_io w ((w_io w) <| io_desc := p_desc p |> <| io_len := p_len p |> <| io_ip := p_spa p |>) in
      (drop_held (put_hold w1 h pending_zero), true)
  end.

Definition arp_report_request (w : Work) (now : Z) : Work * bool :=
  match scan (λ i, let e := ARP_AT w i in
                   bool_decide (e_state e = IDEMIP_ARP_STATE_PENDING) &&
                   negb (negb (e_tries e =? 0) && (u32 (now - e_req_ms e) <? ARP_REQUEST_MIN_MS))) (Z.to_nat ENTRIES) 0 with
  | None => (w, false)
  | Some i =>
      let e := ARP_AT w i in
      let e1 := e <| e_req_ms := now |> <| e_tries := if negb (e_tries e =? 0xFF) then u8 (e_tries e + 1) else e_tries e |> in
      (put_io (put_row w i e1)
         ((w_io w) <| io_ip := e_spa e |> <| io_index := i |> <| io_state := IDEMIP_ARP_STATE_PENDING |> <| io_netif := e_netif e |>), true)
  end.

(** ** The entries *)
Definition idemip_arp_clear (w : Work) : Work :=
  mkWork ((w_io w) <| io_status := IDEMIP_OK |>) (mkCtx ARP_READY 0 0) (replicate (Z.to_nat ENTRIES) entry_zero)
    (replicate (Z.to_nat PENDING) pending_zero).

Definition idemip_arp_add (w : Work) : Work :=
  let io := (w_io w) <| io_status := IDEMIP_ERR |> <| io_index := NONE |> <| io_merged := false |> in
  if negb (arp_ready w) then put_io w io
  else match add_sha (add_args io) with
  | None => put_io w io
  | Some sha =>
      if negb (add_pro (add_args io) =? IDEMIP_ARP_PRO_IPV4) || (add_spa (add_args io) =? 0) then put_io w io
      else
        let '(w1, i, merged) :=
          arp_learn (put_io w io) (add_pro (add_args io)) (add_spa (add_args io)) sha (add_netif (add_args io)) (now_ms io) true in
        if i =? NONE then put_io w1 (io <| io_status := IDEMIP_BUSY |>)
        else put_io w1 (io <| io_index := i |> <| io_state := IDEMIP_ARP_STATE_STABLE |> <| io_netif := e_netif (ARP_AT w1 i) |>
                           <| io_merged := merged |> <| io_status := IDEMIP_OK |>)
  end.

Definition idemip_arp_find (w : Work) : Work :=
  let io := (w_io w) <| io_status := IDEMIP_ERR |> <| io_mac := None |> <| io_index := NONE |>
                     <| io_state := IDEMIP_ARP_STATE_FREE |> <| io_netif := 0 |> in
  if negb (arp_ready w) then put_io w io
  else if negb (find_pro (find_args io) =? IDEMIP_ARP_PRO_IPV4) || (find_spa (find_args io) =? 0) then put_io w io
  else
    let i := arp_row_find w (find_pro (find_args io)) (find_spa (find_args io)) in
    if i =? NONE then put_io w io
    else
      let e := ARP_AT w i in
      let io1 := io <| io_index := i |> <| io_state := e_state e |> <| io_netif := e_netif e |> in
      if bool_decide (e_state e = IDEMIP_ARP_STATE_PENDING) then put_io w (io1 <| io_status := IDEMIP_BUSY |>)
      else put_io w (io1 <| io_mac := Some (e_sha e) |> <| io_status := IDEMIP_OK |>).

Definition idemip_arp_remove (w : Work) : Work :=
  let io := (w_io w) <| io_status := IDEMIP_ERR |> <| io_index := NONE |> in
  if negb (arp_ready w) then put_io w io
  else if negb (remove_pro (remove_args io) =? IDEMIP_ARP_PRO_IPV4) || (remove_spa (remove_args io) =? 0) then put_io w io
  else
    let i := arp_row_find w (remove_pro (remove_args io)) (remove_spa (remove_args io)) in
    if i =? NONE then put_io w io
    else put_io (arp_row_free w i) (io <| io_index := i |> <| io_state := IDEMIP_ARP_STATE_FREE |> <| io_status := IDEMIP_OK |>).

Definition idemip_arp_input (w : Work) : Work :=
  let io := (w_io w) <| io_status := IDEMIP_ERR |> <| io_merged := false |> <| io_reply_owed := false |> <| io_conflict := false |>
                     <| io_index := NONE |> in
  if negb (arp_ready w) then put_io w io
  else match in_packet (input_args io) with
  | None => put_io w io
  | Some packet =>
      if negb (arp_is_ethernet_ipv4 packet) then put_io w io
      else
        let local_pa := in_local_pa (input_args io) in
        let target := negb (local_pa =? 0) && arp_is_target packet local_pa in
        let spa := arp_spa packet in
        let conflict := negb (local_pa =? 0) && (spa =? local_pa) in
        let io1 := io <| io_conflict := conflict |> in
        let '(w2, io2) :=
          if negb (spa =? 0) && negb conflict then
            let '(w1, i, merged) :=
              arp_learn (put_io w io1) (arp_pro packet) spa (arp_sha packet) (in_netif (input_args io)) (now_ms io) target in
            let io2 := io1 <| io_merged := merged |> <| io_index := i |> in
            (w1, if negb (i =? NONE) then io2 <| io_state := IDEMIP_ARP_STATE_STABLE |> <| io_netif := in_netif (input_args io) |> else io2)
          else (w, io1) in
        put_io w2 (io2 <| io_reply_owed := target && negb conflict && arp_is_request packet |> <| io_status := IDEMIP_OK |>)
  end.

(** The hold written, linked and counted. *)
Definition take_hold (w : Work) (i h : Z) : Work :=
  let io := w_io w in
  let p := (ARP_PENDING_AT w h) <| p_deadline_ms := u32 (now_ms io + ARP_MAXPENDING_MS c) |> <| p_spa := q_ip (queue_args io) |>
             <| p_desc := q_desc (queue_args io) |> <| p_len := q_len (queue_args io) |> <| p_entry := i |> <| p_state := ARP_HOLD_WAIT |> in
  let w1 := arp_hold_link (put_hold w h p) i h in
  w1 <| w_ctx := (w_ctx w1) <| c_held := u8 (c_held (w_ctx w1) + 1) |> |>.

Definition idemip_arp_queue (w : Work) : Work :=
  let io := (w_io w) <| io_status := IDEMIP_ERR |> <| io_index := NONE |> in
  if negb (arp_ready w) then put_io w io
  else if (q_ip (queue_args io) =? 0) || (q_len (queue_args io) =? 0) || (IDEMIP_ETH_FRAME_MAX <? q_len (queue_args io)) then put_io w io
  else
    let i := arp_row_find w IDEMIP_ARP_PRO_IPV4 (q_ip (queue_args io)) in
    if negb (i =? NONE) && bool_decide (e_state (ARP_AT w i) = IDEMIP_ARP_STATE_STABLE) then
      put_io w (io <| io_index := i |> <| io_state := IDEMIP_ARP_STATE_STABLE |>)
    else
      let h := arp_hold_free w in
      if (h =? NONE) || (PENDING <=? c_held (w_ctx w)) then put_io w (io <| io_status := IDEMIP_BUSY |>)
      else
        let '(w1, j) :=
          if i =? NONE then
            let '(w1, j) := arp_row_take w (now_ms io) in
            if j =? NONE then (w1, j)
            else
              let w2 := arp_row_open w1 j IDEMIP_ARP_PRO_IPV4 (q_ip (queue_args io)) (now_ms io) in
              (put_row w2 j ((ARP_AT w2 j) <| e_state := IDEMIP_ARP_STATE_PENDING |>), j)
          else (w, i) in
        if j =? NONE then put_io w1 (io <| io_status := IDEMIP_BUSY |>)
        else
          put_io (take_hold w1 j h)
            (io <| io_index := j |> <| io_state := IDEMIP_ARP_STATE_PENDING |> <| io_status := IDEMIP_OK |>).

Definition idemip_arp_dequeue (w : Work) : Work :=
  let io := (w_io w) <| io_status := IDEMIP_ERR |> <| io_desc := 0 |> <| io_len := 0 |> <| io_index := NONE |> in
  if negb (arp_ready w) then put_io w io
  else
    let io := io <| io_status := IDEMIP_BUSY |> in
    match scan (λ i, let e := ARP_AT w i in
                     negb (negb (bool_decide (e_state e = IDEMIP_ARP_STATE_STABLE)) || (e_pending e =? NONE))) (Z.to_nat ENTRIES) 0 with
    | None => put_io w io
    | Some i =>
        let h := e_pending (ARP_AT w i) in
        let w1 := arp_hold_unlink w i h in
        let p := ARP_PENDING_AT w1 h in
        let e := ARP_AT w1 i in
        put_io (drop_held (put_hold w1 h pending_zero))
          (io <| io_desc := p_desc p |> <| io_len := p_len p |> <| io_ip := p_spa p |> <| io_index := i |>
              <| io_state := IDEMIP_ARP_STATE_STABLE |> <| io_netif := e_netif e |> <| io_mac := Some (e_sha e) |>
              <| io_status := IDEMIP_OK |>)
    end.

Definition idemip_arp_tick (w : Work) : Work :=
  let io := (w_io w) <| io_status := IDEMIP_ERR |> <| io_ip := 0 |> <| io_desc := 0 |> <| io_len := 0 |> <| io_index := NONE |> in
  if negb (arp_ready w) then put_io w io
  else
    let w0 := put_io w io in
    let now := now_ms io in
    let w1 := if (c_tick_ms (w_ctx w) =? 0) || (IDEMIP_ARP_TMR_INTERVAL_MS c <=? u32 (now - c_tick_ms (w_ctx w)))
              then arp_age_rows (w0 <| w_ctx := (w_ctx w0) <| c_tick_ms := now |> |>) now else w0 in
    let w2 := arp_expire_holds w1 now in
    let '(w3, reclaimed) := arp_report_reclaim w2 in
    if (reclaimed : bool) then put_io w3 ((w_io w3) <| io_status := IDEMIP_OK |>)
    else
      let '(w4, requested) := arp_report_request w3 now in
      if (requested : bool) then put_io w4 ((w_io w4) <| io_status := IDEMIP_OK |>)
      else put_io w4 ((w_io w4) <| io_status := IDEMIP_BUSY |>).
End Build.
End ArpTable.
