(* ===== verification/ArpRep.v ===== *)
(** * The ARP table's lists and its invariant

    A row's holds are a list threaded through the hold table.  The invariant ties the rows to their lists:
    a hold waits exactly when it is on a row's list, it waits for that row's address, no two rows in use
    have one address, and the count of holds is the number in use.  What each static of arp_table.c does
    to it. *)
From stdpp Require Import functions.
From S2P Require Import Prelude Base Chain Threaded Arp ArpTable.

Module ArpRep.
Import Arp ArpTable.

Local Abbreviation NONE := IDEMIP_ARP_INDEX_NONE.

(** ** What a hold holds *)
Definition item (p : ArpPending) : Z * Z * Z := (p_spa p, p_desc p, p_len p).
Definition held_by (p : ArpPending) : list (Z * Z * Z) := if hold_in ARP_HOLD_FREE p then [] else [item p].

(** Every descriptor pinned by the table, with its address and length. *)
Definition held_items (w : Work) : list (Z * Z * Z) := w_pend w ≫= held_by.

Lemma items_tset (l : list ArpPending) h p : 0 ≤ h < tlen l →
  (tset l h p ≫= held_by) ++ held_by (tget l h) ≡ₚ (l ≫= held_by) ++ held_by p.
Proof.
  unfold tlen, tset, tget. intros Hh. assert (Z.to_nat h < length l)%nat as Hlt by lia.
  destruct (lookup_lt_is_Some_2 l (Z.to_nat h) Hlt) as [x Hx]. rewrite (list_lookup_total_correct _ _ _ Hx).
  rewrite <- (take_drop_middle l (Z.to_nat h) x Hx) at 2. rewrite insert_take_drop by done.
  rewrite !bind_app, !bind_cons. solve_Permutation.
Qed.

Lemma items_keep (l : list ArpPending) h p : 0 ≤ h < tlen l → held_by p = held_by (tget l h) → (tset l h p ≫= held_by) ≡ₚ (l ≫= held_by).
Proof. intros Hh Hp. pose proof (items_tset l h p Hh) as H. rewrite Hp in H. by apply Permutation_app_inv_r in H. Qed.

Section Rep.
Variable c : config.
Local Abbreviation ENTRIES := (IDEMIP_ARP_ENTRIES c).
Local Abbreviation PENDING := (IDEMIP_ARP_PENDING c).
Implicit Types (w : Work) (r : Z → list Z).

(** arp_table.h asserts both counts below the index that ends a list. *)
Definition config_ok : Prop := 0 ≤ ENTRIES < NONE ∧ 0 ≤ PENDING < NONE.

Definition row_live w (i : Z) : bool := negb (row_free (ARP_AT w i)).
Definition row_head w (i : Z) : Z := e_pending (ARP_AT w i).

Record RepR w r : Prop := mkRepR {
  rp_tab : tlen (w_tab w) = ENTRIES;
  rp_pend : tlen (w_pend w) = PENDING;
  rp_thr : threaded NONE p_next (hold_in ARP_HOLD_WAIT) ENTRIES (w_pend w) (row_head w) (row_live w) r;
  rp_row : ∀ i k, 0 ≤ i < ENTRIES → k ∈ r i → p_entry (ARP_PENDING_AT w k) = i ∧ p_spa (ARP_PENDING_AT w k) = e_spa (ARP_AT w i);
  rp_key : ∀ i, 0 ≤ i < ENTRIES → row_live w i = true → e_pro (ARP_AT w i) = IDEMIP_ARP_PRO_IPV4 ∧ e_spa (ARP_AT w i) ≠ 0;
  rp_uniq : ∀ i j, 0 ≤ i < ENTRIES → 0 ≤ j < ENTRIES → row_live w i = true → row_live w j = true →
    e_spa (ARP_AT w i) = e_spa (ARP_AT w j) → i = j;
  rp_held : c_held (w_ctx w) = Z.of_nat (length (held_items w)) }.

Context (Hc : config_ok).

(** The same tables under another operand block, and a context that counts the same. *)
Lemma rep_same w w' r : RepR w r → w_tab w' = w_tab w → w_pend w' = w_pend w → c_held (w_ctx w') = c_held (w_ctx w) → RepR w' r.
Proof.
  intros [? ? Ht ? ? ? Hh] Htab Hpend Hheld.
  assert (∀ i, ARP_AT w' i = ARP_AT w i) as Hrow by (intros; unfold ARP_AT; by rewrite Htab).
  assert (∀ i, ARP_PENDING_AT w' i = ARP_PENDING_AT w i) as Hhold by (intros; unfold ARP_PENDING_AT; by rewrite Hpend).
  split; rewrite ?Htab, ?Hpend; try done.
  - eapply threaded_heads; [exact Ht|]. intros q Hq. unfold row_live, row_head. rewrite Hrow.
    destruct (negb (row_free (ARP_AT w q))) eqn:El; [by left|]. destruct Ht as [_ Hch]. specialize (Hch q Hq). unfold row_live in Hch. by rewrite El in Hch.
  - intros i k. rewrite Hrow, Hhold. auto.
  - intros i. unfold row_live. rewrite Hrow. auto.
  - intros i j. unfold row_live. rewrite !Hrow. auto.
  - unfold held_items in *. rewrite Hheld, Hpend. done.
Qed.

Lemma rep_free w r i : RepR w r → 0 ≤ i < ENTRIES → row_live w i = false → r i = [].
Proof. intros HR Hi Hl. destruct (rp_thr w r HR) as [_ Hch]. specialize (Hch i Hi). by rewrite Hl in Hch. Qed.

Lemma rep_chain w r i : RepR w r → 0 ≤ i < ENTRIES → row_live w i = true → chain NONE (links p_next (w_pend w)) (row_head w i) (r i).
Proof. intros HR Hi Hl. destruct (rp_thr w r HR) as [_ Hch]. specialize (Hch i Hi). by rewrite Hl in Hch. Qed.

Lemma rep_rows w r i k : RepR w r → 0 ≤ i < ENTRIES → k ∈ r i → 0 ≤ k < PENDING ∧ p_state (ARP_PENDING_AT w k) = ARP_HOLD_WAIT.
Proof.
  intros HR Hi Hk. destruct (threaded_row _ _ _ _ _ _ _ _ _ _ (rp_thr w r HR) Hi Hk) as [Hr Hm].
  rewrite (rp_pend w r HR) in Hr. split; [done|]. by apply bool_decide_eq_true in Hm.
Qed.

(** A row whose list is empty has no list to read. *)
Lemma rep_nil w r i : RepR w r → 0 ≤ i < ENTRIES → row_live w i = true → row_head w i = NONE ↔ r i = [].
Proof. intros HR Hi Hl. by apply (chain_nil NONE _ _ _ (rep_chain w r i HR Hi Hl)). Qed.

Lemma rep_length w r i : RepR w r → 0 ≤ i < ENTRIES → (length (r i) ≤ Z.to_nat PENDING)%nat.
Proof.
  intros HR Hi. pose proof (threaded_length _ _ _ _ _ _ _ _ _ (rp_thr w r HR) Hi) as Hl. rewrite (rp_pend w r HR) in Hl. lia.
Qed.
(** ** A row given up *)
Definition released (p : ArpPending) : ArpPending := p <| p_entry := NONE |> <| p_next := NONE |> <| p_state := ARP_HOLD_RECLAIM |>.

(** Two borrows that differ in some holds alone. *)
Definition holds_only w w' : Prop := w_io w' = w_io w ∧ w_ctx w' = w_ctx w ∧ w_tab w' = w_tab w ∧ tlen (w_pend w') = tlen (w_pend w).

Lemma release_holds_spec n w h l :
  chain NONE (links p_next (w_pend w)) h l → (∀ k, k ∈ l → 0 ≤ k < tlen (w_pend w) ∧ p_state (ARP_PENDING_AT w k) = ARP_HOLD_WAIT) →
  (length l ≤ n)%nat →
  holds_only w (release_holds n w h) ∧
  (∀ k, 0 ≤ k → ARP_PENDING_AT (release_holds n w h) k = if decide (k ∈ l) then released (ARP_PENDING_AT w k) else ARP_PENDING_AT w k) ∧
  held_items (release_holds n w h) ≡ₚ held_items w.
Proof.
  revert w h l; induction n as [|n IH]; intros w h [|a l] Hch Hr Hn; simpl in Hn; cbn [release_holds].
  - split_and!; try done.
  - lia.
  - assert (h = NONE) as -> by exact Hch. rewrite Z.eqb_refl. split_and!; try done.
  - pose proof (chain_NoDup _ _ _ _ Hch) as Hnd. apply NoDup_cons in Hnd as [Ha _]. destruct Hch as (-> & Hne & Hch).
    rewrite (proj2 (Z.eqb_neq _ _)) by done. destruct (Hr a ltac:(left)) as [Har Hast].
    match goal with |- context [put_hold w a ?p] => change p with (released (ARP_PENDING_AT w a)) end.
    set (w1 := put_hold w a (released (ARP_PENDING_AT w a))).
    assert (∀ k, 0 ≤ k → ARP_PENDING_AT w1 k = if decide (k = a) then released (ARP_PENDING_AT w a) else ARP_PENDING_AT w k) as Hg.
    { intros k Hk. unfold ARP_PENDING_AT, w1, put_hold. change (w_pend (w <| w_pend := ?x |>)) with x.
      destruct (decide (k = a)) as [->|]; [by rewrite tget_tset_eq|by rewrite tget_tset_ne by lia]. }
    destruct (IH w1 (p_next (ARP_PENDING_AT w a)) l) as ((Hio & Hctx & Htab & Hlen) & Hg' & Hp).
    + eapply chain_ext; [|exact Hch]. intros k Hk. unfold links. fold (ARP_PENDING_AT w k) (ARP_PENDING_AT w1 k).
      rewrite Hg by (apply (Hr k); by right). rewrite decide_False; [done|]. by intros ->.
    + intros k Hk. destruct (Hr k ltac:(by right)). unfold w1 at 1, put_hold. change (w_pend (w <| w_pend := ?x |>)) with x.
      rewrite tlen_tset, Hg, decide_False by (lia || by intros ->). done.
    + lia.
    + unfold holds_only. split_and!; [by rewrite Hio|by rewrite Hctx|by rewrite Htab| | |].
      * rewrite Hlen. unfold w1, put_hold. change (w_pend (w <| w_pend := ?x |>)) with x. by rewrite tlen_tset.
      * intros k Hk. rewrite Hg' by done. rewrite Hg by done. destruct (decide (k = a)) as [->|Hka].
        -- rewrite decide_False by done. by rewrite decide_True by left.
        -- destruct (decide (k ∈ l)); [rewrite decide_True by (by right); done|]. rewrite decide_False; [done|]. set_solver.
      * rewrite Hp. unfold held_items, w1, put_hold. change (w_pend (w <| w_pend := ?x |>)) with x. apply items_keep; [done|].
        unfold held_by, hold_in. fold (ARP_PENDING_AT w a). change (p_state (released (ARP_PENDING_AT w a))) with ARP_HOLD_RECLAIM. by rewrite Hast.
Qed.

Definition empty_row : ArpEntry := entry_zero <| e_pending := NONE |>.

Lemma row_free_spec w r i : RepR w r → 0 ≤ i < ENTRIES → row_live w i = true →
  let w' := arp_row_free c w i in
  RepR w' (<[i := []]> r) ∧ w_io w' = w_io w ∧ w_ctx w' = w_ctx w ∧
  (∀ j, 0 ≤ j → ARP_AT w' j = if decide (j = i) then empty_row else ARP_AT w j) ∧
  (∀ k, 0 ≤ k → ARP_PENDING_AT w' k = if decide (k ∈ r i) then released (ARP_PENDING_AT w k) else ARP_PENDING_AT w k) ∧
  held_items w' ≡ₚ held_items w.
Proof.
  intros HR Hi Hl w'.
  destruct (release_holds_spec (Z.to_nat PENDING) w (row_head w i) (r i) (rep_chain w r i HR Hi Hl)) as ((Hio & Hctx & Htab & Hlen) & Hg & Hp).
  { intros k Hk. rewrite (rp_pend w r HR). by apply (rep_rows w r i k). }
  { by apply (rep_length w r i). }
  set (w1 := release_holds (Z.to_nat PENDING) w (row_head w i)) in *.
  assert (w' = put_row w1 i empty_row) as Hw' by done.
  assert (w_pend w' = w_pend w1) as Hpend by (by rewrite Hw').
  assert (∀ j, 0 ≤ j → ARP_AT w' j = if decide (j = i) then empty_row else ARP_AT w j) as Hrow.
  { intros j Hj. rewrite Hw'. unfold ARP_AT, put_row. change (w_tab (w1 <| w_tab := ?x |>)) with x. rewrite Htab.
    destruct (decide (j = i)) as [->|]; [rewrite tget_tset_eq; [done|rewrite (rp_tab w r HR); done]|by rewrite tget_tset_ne by lia]. }
  assert (∀ k, 0 ≤ k → ARP_PENDING_AT w' k = if decide (k ∈ r i) then released (ARP_PENDING_AT w k) else ARP_PENDING_AT w k) as Hhold.
  { intros k Hk. unfold ARP_PENDING_AT at 1. rewrite Hpend. by apply Hg. }
  assert (∀ j, 0 ≤ j < ENTRIES → row_live w' j = if decide (j = i) then false else row_live w j) as Hlive.
  { intros j Hj. unfold row_live. rewrite Hrow by lia. by destruct (decide (j = i)). }
  split_and!; [|by rewrite Hw'|by rewrite Hw'|done|done|unfold held_items; rewrite Hpend; exact Hp].
  destruct HR as [Htl Hpl Hthr Hrw Hkey Huniq Hheld]. split.
  - rewrite Hw'. unfold put_row. change (w_tab (w1 <| w_tab := ?x |>)) with x. by rewrite tlen_tset, Htab.
  - by rewrite Hpend, Hlen.
  - eapply threaded_heads.
    + eapply (threaded_drain NONE p_next (hold_in ARP_HOLD_WAIT) ENTRIES (w_pend w) (w_pend w') (row_head w) (λ j, if decide (j = i) then NONE else row_head w j)
        (row_live w) (λ j, if decide (j = i) then true else row_live w j) r i Hthr Hi); [by rewrite Hpend, Hlen| |by rewrite decide_True|by rewrite decide_True|].
      * intros k Hk. unfold marks, links. specialize (Hhold k Hk). unfold ARP_PENDING_AT in Hhold. rewrite Hhold. by destruct (decide (k ∈ r i)).
      * intros q Hq Hne. by rewrite !decide_False.
    + intros q Hq. rewrite Hlive by done. destruct (decide (q = i)) as [->|Hne]; [by rewrite fn_lookup_insert|].
      rewrite fn_lookup_insert_ne by done. destruct (row_live w q) eqn:El; [left; split; [done|]|].
      * unfold row_head. rewrite Hrow, decide_False by (done || lia). done.
      * destruct Hthr as [_ Hch]. specialize (Hch q Hq). by rewrite El in Hch.
  - intros j k Hj. destruct (decide (j = i)) as [->|Hne]; [rewrite fn_lookup_insert; set_solver|]. rewrite fn_lookup_insert_ne by done. intros Hk.
    assert (k ∉ r i) as Hki by (intros Hki; apply Hne; by eapply (threaded_disjoint NONE p_next (hold_in ARP_HOLD_WAIT))).
    destruct (threaded_row _ _ _ _ _ _ _ _ _ _ Hthr Hj Hk) as [Hkr _].
    rewrite Hhold, decide_False, Hrow, decide_False by (done || lia). by apply Hrw.
  - intros j Hj. rewrite Hlive by done. destruct (decide (j = i)); [done|]. rewrite Hrow, decide_False by (done || lia). by apply Hkey.
  - intros j j' Hj Hj'. rewrite !Hlive, !Hrow by (done || lia). destruct (decide (j = i)), (decide (j' = i)); try done. by apply Huniq.
  - rewrite Hw'. change (w_ctx (put_row w1 i empty_row)) with (w_ctx w1). rewrite Hctx, Hheld. unfold held_items.
    change (w_pend (put_row w1 i empty_row)) with (w_pend w1).
    f_equal. symmetry. by apply Permutation_length.
Qed.

(** ** Finding and writing a row *)
Definition live_entry (e : ArpEntry) : bool := negb (row_free e).

Lemma row_at w j e i : 0 ≤ j < tlen (w_tab w) → 0 ≤ i → ARP_AT (put_row w j e) i = if decide (i = j) then e else ARP_AT w i.
Proof.
  intros Hj Hi. unfold ARP_AT, put_row. change (w_tab (w <| w_tab := ?x |>)) with x.
  destruct (decide (i = j)) as [->|]; [by rewrite tget_tset_eq|by rewrite tget_tset_ne by lia].
Qed.
Lemma hold_at w h p k : 0 ≤ h < tlen (w_pend w) → 0 ≤ k → ARP_PENDING_AT (put_hold w h p) k = if decide (k = h) then p else ARP_PENDING_AT w k.
Proof.
  intros Hj Hi. unfold ARP_PENDING_AT, put_hold. change (w_pend (w <| w_pend := ?x |>)) with x.
  destruct (decide (k = h)) as [->|]; [by rewrite tget_tset_eq|by rewrite tget_tset_ne by lia].
Qed.

Lemma put_hold_len w h p : tlen (w_pend (put_hold w h p)) = tlen (w_pend w).
Proof. apply tlen_tset. Qed.

(** The pair of an address finds the one row in use that has it. *)
Lemma row_find_spec w r spa : RepR w r →
  (∃ i, arp_row_find c w IDEMIP_ARP_PRO_IPV4 spa = i ∧ i ≠ NONE ∧ 0 ≤ i < ENTRIES ∧ row_live w i = true ∧ e_spa (ARP_AT w i) = spa) ∨
  (arp_row_find c w IDEMIP_ARP_PRO_IPV4 spa = NONE ∧ ∀ j, 0 ≤ j < ENTRIES → row_live w j = true → e_spa (ARP_AT w j) ≠ spa).
Proof.
  intros HR. unfold arp_row_find. destruct Hc as [HE _]. destruct (scan _ _ _) as [i|] eqn:E; cbn [from_option id].
  - apply scan_Some in E as (Hi & Hp & _). rewrite Z2Nat.id in Hi by lia. bool_prop. left. exists i. split_and!; try done; [lia..|].
    unfold row_live. by apply negb_true_iff.
  - rewrite scan_None, Z2Nat.id in E by lia. right. split; [done|]. intros j Hj Hl Hs.
    destruct (rp_key w r HR j Hj Hl) as [Hpro _]. specialize (E j ltac:(lia)). unfold row_live in Hl.
    rewrite Hl, Hpro, Hs, !Z.eqb_refl in E. done.
Qed.

Lemma find_eq w r spa i : RepR w r → 0 ≤ i < ENTRIES → row_live w i = true → e_spa (ARP_AT w i) = spa →
  arp_row_find c w IDEMIP_ARP_PRO_IPV4 spa = i.
Proof.
  intros HR Hi Hl Hs. destruct (row_find_spec w r spa HR) as [(j & -> & _ & Hj & Hlj & Hsj)|[_ Hn]]; [|by destruct (Hn i)].
  apply (rp_uniq w r HR); congruence || done.
Qed.

Lemma put_row_rep w r j e : RepR w r → 0 ≤ j < ENTRIES →
  (if live_entry e then (row_live w j = true ∧ e_pending e = row_head w j) ∨ (r j = [] ∧ e_pending e = NONE) else r j = []) →
  (r j ≠ [] → e_spa e = e_spa (ARP_AT w j)) →
  (live_entry e = true → e_pro e = IDEMIP_ARP_PRO_IPV4 ∧ e_spa e ≠ 0 ∧
     ∀ i, 0 ≤ i < ENTRIES → i ≠ j → row_live w i = true → e_spa (ARP_AT w i) ≠ e_spa e) →
  RepR (put_row w j e) r.
Proof.
  intros HR Hj Hch Hspa Hkey. pose proof HR as [Htl Hpl Hthr Hrw Hk Hu Hh].
  assert (∀ i, 0 ≤ i → ARP_AT (put_row w j e) i = if decide (i = j) then e else ARP_AT w i) as Hrow by (intros; apply row_at; lia).
  assert (∀ i, 0 ≤ i → row_live (put_row w j e) i = if decide (i = j) then live_entry e else row_live w i) as Hlive.
  { intros i Hi. unfold row_live. rewrite Hrow by done. by destruct (decide (i = j)). }
  split; [unfold put_row; change (w_tab (w <| w_tab := ?x |>)) with x; by rewrite tlen_tset|done|..].
  - eapply threaded_heads; [exact Hthr|]. intros q Hq. rewrite Hlive by lia.
    assert (row_head (put_row w j e) q = if decide (q = j) then e_pending e else row_head w q) as -> by (unfold row_head; rewrite Hrow by lia; by destruct (decide (q = j))).
    destruct (decide (q = j)) as [->|]; [exact Hch|]. destruct (row_live w q) eqn:El; [by left|]. by apply (rep_free w r q).
  - intros i k Hi Hk'. rewrite Hrow by lia. destruct (Hrw i k Hi Hk') as [He Hs]. split; [done|].
    destruct (decide (i = j)) as [->|]; [|done]. rewrite Hspa; [done|]. intros Hn. rewrite Hn in Hk'. set_solver.
  - intros i Hi. rewrite Hlive, Hrow by lia. destruct (decide (i = j)) as [->|]; [|by apply Hk]. intros Hl. by destruct (Hkey Hl) as (? & ? & _).
  - intros i i' Hi Hi'. rewrite !Hlive, !Hrow by lia. destruct (decide (i = j)) as [->|], (decide (i' = j)) as [->|]; try done.
    + intros Hl Hl' Hs. by destruct (proj2 (proj2 (Hkey Hl)) i' Hi').
    + intros Hl Hl' Hs. by destruct (proj2 (proj2 (Hkey Hl')) i Hi).
    + by apply Hu.
  - done.
Qed.

(** ** A row for a new address *)
Lemma oldest_row_spec w now (n : nat) : Z.of_nat n ≤ ENTRIES →
  let f := λ '(victim, oldest) i, let e := ARP_AT w i in let age := u32 (now - e_used_ms e) in
    if (e_pending e =? NONE) && (oldest <=? age) then (i, age) else (victim, oldest) in
  let '(victim, oldest) := fold_left f (seqZ 0 (Z.of_nat n)) (NONE, 0) in
  0 ≤ oldest ∧
  ((victim = NONE ∧ oldest = 0 ∧ ∀ i, 0 ≤ i < Z.of_nat n → row_head w i ≠ NONE) ∨
   (0 ≤ victim < Z.of_nat n ∧ row_head w victim = NONE ∧ oldest = u32 (now - e_used_ms (ARP_AT w victim)) ∧
    ∀ i, 0 ≤ i < Z.of_nat n → row_head w i = NONE → u32 (now - e_used_ms (ARP_AT w i)) ≤ oldest)).
Proof.
  intros Hn f. induction n as [|n IH]; [cbn; split; [lia|left; split_and!; [done|done|lia]]|].
  specialize (IH ltac:(lia)). replace (Z.of_nat (S n)) with (Z.of_nat n + 1) by lia. rewrite seqZ_app, fold_left_app by lia.
  destruct (fold_left f (seqZ 0 (Z.of_nat n)) (NONE, 0)) as [victim oldest]. change (seqZ (0 + Z.of_nat n) 1) with [0 + Z.of_nat n]. cbn [fold_left f].
  rewrite Z.add_0_l. destruct IH as [Ho IH]. pose proof (u32_range (now - e_used_ms (ARP_AT w (Z.of_nat n)))) as Hu. unfold is_u32 in Hu.
  assert (∀ i, 0 ≤ i < Z.of_nat n + 1 → i ≠ Z.of_nat n → 0 ≤ i < Z.of_nat n) as Hlast by lia.
  destruct (Z.eqb_spec (e_pending (ARP_AT w (Z.of_nat n))) NONE) as [Hp|Hp]; cbn [andb].
  - destruct (Z.leb_spec oldest (u32 (now - e_used_ms (ARP_AT w (Z.of_nat n))))) as [Hle|Hle].
    + split; [lia|]. right. split_and!; [lia..|done|done|]. intros i Hi Hin. destruct (decide (i = Z.of_nat n)) as [->|Hne]; [lia|].
      destruct IH as [(_ & _ & Hall)|(_ & _ & _ & Hmax)]; [by destruct (Hall i (Hlast i Hi Hne))|]. specialize (Hmax i (Hlast i Hi Hne) Hin). lia.
    + split; [done|]. right. destruct IH as [(_ & -> & _)|(Hv & Hvh & Hold & Hmax)]; [lia|]. split_and!; [lia..|done|done|].
      intros i Hi Hin. destruct (decide (i = Z.of_nat n)) as [->|Hne]; [lia|]. by apply Hmax; [apply Hlast|].
  - split; [done|]. destruct IH as [(-> & -> & Hall)|(Hv & Hvh & Hold & Hmax)]; [left|right]; split_and!; try (done || lia).
    + intros i Hi. destruct (decide (i = Z.of_nat n)) as [->|Hne]; [exact Hp|]. apply Hall. by apply Hlast.
    + intros i Hi Hin. destruct (decide (i = Z.of_nat n)) as [->|Hne]; [done|]. by apply Hmax; [apply Hlast|].
Qed.

(** A free row, else the row with no hold that went unseen the longest, given up; or no row. *)
Lemma row_take_spec w r now : RepR w r →
  (arp_row_take c w now = (w, NONE) ∧ ∀ i, 0 ≤ i < ENTRIES → row_live w i = true ∧ r i ≠ []) ∨
  (∃ j, 0 ≤ j < ENTRIES ∧ j ≠ NONE ∧ r j = [] ∧ row_live w j = false ∧ arp_row_take c w now = (w, j)) ∨
  (∃ j, 0 ≤ j < ENTRIES ∧ j ≠ NONE ∧ r j = [] ∧ row_live w j = true ∧ arp_row_take c w now = (put_row w j empty_row, j) ∧
     RepR (put_row w j empty_row) r ∧
     (∀ i, 0 ≤ i < ENTRIES → row_live w i = true) ∧
     ∀ i, 0 ≤ i < ENTRIES → r i = [] → u32 (now - e_used_ms (ARP_AT w i)) ≤ u32 (now - e_used_ms (ARP_AT w j))).
Proof.
  intros HR. unfold arp_row_take. destruct Hc as [HE _]. destruct (scan _ _ _) as [i|] eqn:E.
  - apply scan_Some in E as (Hi & Hp & _). rewrite Z2Nat.id in Hi by lia. right; left. exists i.
    assert (row_live w i = false) as Hl by (unfold row_live; by rewrite Hp). split_and!; try (done || lia). apply (rep_free w r i); (done || lia).
  - rewrite scan_None, Z2Nat.id in E by lia.
    assert (∀ i, 0 ≤ i < ENTRIES → row_live w i = true) as Hall by (intros i Hi; unfold row_live; rewrite E by lia; done).
    pose proof (oldest_row_spec w now (Z.to_nat ENTRIES) ltac:(lia)) as Hold. cbv zeta in Hold. rewrite Z2Nat.id in Hold by lia. unfold oldest_row.
    destruct (fold_left _ _ _) as [victim oldest]. destruct Hold as [_ [(-> & _ & Hn)|(Hv & Hvh & -> & Hmax)]]; cbn [fst].
    + left. split; [by rewrite Z.eqb_refl|]. intros i Hi. split; [by apply Hall|]. intros Hr. apply (Hn i Hi), (rep_nil w r i HR Hi (Hall i Hi)), Hr.
    + right; right. exists victim. assert (victim ≠ NONE) as Hvn by lia. rewrite (proj2 (Z.eqb_neq _ _) Hvn). cbn [negb].
      assert (r victim = []) as Hr by (apply (rep_nil w r victim HR Hv (Hall victim Hv)), Hvh).
      assert (arp_row_free c w victim = put_row w victim empty_row) as ->.
      { unfold arp_row_free. fold (row_head w victim). rewrite Hvh. by destruct (Z.to_nat PENDING). }
      split_and!; try (done || lia || by apply Hall).
      * apply put_row_rep; [done|lia|done| |done]. by rewrite Hr.
      * intros i Hi Hri. apply Hmax; [done|]. by apply (rep_nil w r i HR Hi (Hall i Hi)).
Qed.

Lemma items_length (l : list ArpPending) : (length (l ≫= held_by) ≤ length l)%nat.
Proof.
  induction l as [|p l IH]; [done|]. rewrite bind_cons, length_app. simpl. unfold held_by at 1. destruct (hold_in ARP_HOLD_FREE p); simpl; lia.
Qed.

(** ** A hold put on a row's list *)
Lemma link_tail_spec n w cur l h :
  chain NONE (links p_next (w_pend w)) cur l → l ≠ [] → (length l ≤ n)%nat →
  ∃ p, last l = Some p ∧ link_tail n w cur h = put_hold w p ((ARP_PENDING_AT w p) <| p_next := h |>).
Proof.
  revert cur l; induction n as [|n IH]; intros cur [|a l] Hch Hne Hn; simpl in Hn; [done|lia|done|].
  destruct Hch as (-> & Han & Hch). cbn [link_tail]. change (p_next (ARP_PENDING_AT w a)) with (links p_next (w_pend w) a).
  destruct l as [|b l].
  - exists a. split; [done|]. assert (links p_next (w_pend w) a = NONE) as -> by exact Hch. by rewrite Z.eqb_refl.
  - rewrite last_cons_cons. pose proof Hch as (Hb & Hbn & _). rewrite (proj2 (Z.eqb_neq (links p_next (w_pend w) a) NONE)) by congruence.
    apply IH; [done..|simpl in *; lia].
Qed.

(** What a hold's record says apart from its link. *)
Definition unlinked (p : ArpPending) : ArpPending := p <| p_next := 0 |>.

Lemma held_by_next p x : held_by (p <| p_next := x |>) = held_by p.
Proof. done. Qed.

Lemma hold_link_spec w i h l : 0 ≤ i < tlen (w_tab w) → 0 ≤ h < tlen (w_pend w) → h ∉ l →
  chain NONE (links p_next (w_pend w)) (row_head w i) l → (∀ k, k ∈ l → 0 ≤ k < tlen (w_pend w)) → (length l ≤ Z.to_nat PENDING)%nat →
  let w' := arp_hold_link c w i h in
  w_io w' = w_io w ∧ w_ctx w' = w_ctx w ∧ tlen (w_tab w') = tlen (w_tab w) ∧ tlen (w_pend w') = tlen (w_pend w) ∧
  (∀ j, 0 ≤ j → ARP_AT w' j = if decide (j = i ∧ l = []) then (ARP_AT w i) <| e_pending := h |> else ARP_AT w j) ∧
  (∀ k, 0 ≤ k → ARP_PENDING_AT w' k =
     if decide (k = h) then (ARP_PENDING_AT w h) <| p_next := NONE |>
     else if decide (last l = Some k) then (ARP_PENDING_AT w k) <| p_next := h |> else ARP_PENDING_AT w k) ∧
  held_items w' ≡ₚ held_items w.
Proof.
  intros Hi Hh Hhl Hch Hr Hn w'. unfold arp_hold_link in w'. fold (row_head w i) in w'.
  set (w1 := put_hold w h ((ARP_PENDING_AT w h) <| p_next := NONE |>)) in w'.
  assert (tlen (w_pend w1) = tlen (w_pend w)) as Hl1 by (unfold w1, put_hold; change (w_pend (w <| w_pend := ?x |>)) with x; apply tlen_tset).
  assert (∀ k, 0 ≤ k → ARP_PENDING_AT w1 k = if decide (k = h) then (ARP_PENDING_AT w h) <| p_next := NONE |> else ARP_PENDING_AT w k) as Hg
    by (intros; by apply hold_at).
  assert (held_items w1 ≡ₚ held_items w) as Hp1.
  { unfold held_items, w1, put_hold. change (w_pend (w <| w_pend := ?x |>)) with x. by apply items_keep. }
  destruct (Z.eqb_spec (row_head w i) NONE) as [Hz|Hz]; unfold w'.
  - assert (l = []) as -> by (by apply (chain_nil NONE _ _ _ Hch)).
    split_and!; [done|done|apply tlen_tset|exact Hl1| | |exact Hp1].
    + intros j Hj. rewrite row_at by done. destruct (decide (j = i)) as [->|]; [by rewrite decide_True|]. rewrite decide_False; [done|]. by intros [].
    + intros k Hk. etrans; [exact (Hg k Hk)|]. by destruct (decide (k = h)).
  - assert (l ≠ []) as Hne by (intros Hl; apply Hz, (chain_nil NONE _ _ _ Hch), Hl).
    destruct (link_tail_spec (Z.to_nat PENDING) w1 (row_head w i) l h) as (p & Hp & Heq); [|done|done|].
    { eapply chain_ext; [|exact Hch]. intros k Hk. unfold links. fold (ARP_PENDING_AT w k) (ARP_PENDING_AT w1 k).
      rewrite Hg by (apply Hr in Hk; lia). rewrite decide_False by (by intros ->). done. }
    assert (p ∈ l) as Hpl by (apply last_Some in Hp as [l' ->]; set_solver). pose proof (Hr p Hpl) as Hpr. assert (p ≠ h) as Hph by (by intros ->).
    rewrite Heq. split_and!; [done|done|done| | | |].
    + unfold put_hold at 1. change (w_pend (w1 <| w_pend := ?x |>)) with x. by rewrite tlen_tset.
    + intros j Hj. rewrite decide_False; [done|]. by intros [].
    + intros k Hk. rewrite hold_at by (rewrite ?Hl1; done). rewrite !Hg by lia. rewrite Hp. destruct (decide (k = p)) as [->|Hkp].
      * rewrite (decide_False (P := p = h)) by done. rewrite decide_False, decide_True by done. done.
      * destruct (decide (k = h)); [done|]. rewrite decide_False; [done|]. congruence.
    + rewrite <- Hp1. unfold held_items, put_hold. change (w_pend (w1 <| w_pend := ?x |>)) with x. apply items_keep; [by rewrite Hl1|done].
Qed.

(** A free hold taken for an address goes on the tail of its row's list. *)
Lemma take_hold_rep w r i h : RepR w r → 0 ≤ i < ENTRIES → row_live w i = true → 0 ≤ h < PENDING →
  p_state (ARP_PENDING_AT w h) = ARP_HOLD_FREE → e_spa (ARP_AT w i) = q_ip (queue_args (w_io w)) →
  let w' := take_hold c w i h in
  let a := queue_args (w_io w) in
  RepR w' (<[i := r i ++ [h]]> r) ∧ w_io w' = w_io w ∧ c_ready (w_ctx w') = c_ready (w_ctx w) ∧
  (∀ j, 0 ≤ j < ENTRIES → row_live w' j = row_live w j ∧ (ARP_AT w' j) <| e_pending := 0 |> = (ARP_AT w j) <| e_pending := 0 |>) ∧
  (∀ k, 0 ≤ k → k ≠ h → unlinked (ARP_PENDING_AT w' k) = unlinked (ARP_PENDING_AT w k)) ∧
  p_state (ARP_PENDING_AT w' h) = ARP_HOLD_WAIT ∧ item (ARP_PENDING_AT w' h) = (q_ip a, q_desc a, q_len a) ∧
  p_deadline_ms (ARP_PENDING_AT w' h) = u32 (now_ms (w_io w) + ARP_MAXPENDING_MS c) ∧
  held_items w' ≡ₚ (q_ip a, q_desc a, q_len a) :: held_items w.
Proof.
  intros HR Hi Hl Hh Hf Hip w' a. pose proof HR as [Htl Hpl Hthr Hrw Hkey Huniq Hheld].
  assert (h ≠ NONE) as HhN by (destruct Hc; lia).
  unfold take_hold in w'. match type of w' with _ => match goal with w' := context [put_hold w h ?p] |- _ => set (q := p) in w' end end.
  assert (h ∉ r i) as Hni by (intros Hk; destruct (rep_rows w r i h HR Hi Hk); congruence).
  set (w1 := put_hold w h q) in w'.
  assert (∀ k, 0 ≤ k → ARP_PENDING_AT w1 k = if decide (k = h) then q else ARP_PENDING_AT w k) as Hg1 by (intros; apply hold_at; lia).
  assert (tlen (w_pend w1) = PENDING) as Hl1 by (unfold w1, put_hold; change (w_pend (w <| w_pend := ?x |>)) with x; by rewrite tlen_tset).
  destruct (hold_link_spec w1 i h (r i)) as (Hio & Hctx & Htab & Hpend & Hrow & Hhold & Hitems).
  { change (w_tab w1) with (w_tab w). lia. } { by rewrite Hl1. } { done. }
  { eapply chain_ext; [|exact (rep_chain w r i HR Hi Hl)]. intros k Hk. destruct (rep_rows w r i k HR Hi Hk) as [? _]. unfold links.
    fold (ARP_PENDING_AT w k) (ARP_PENDING_AT w1 k). rewrite Hg1, decide_False by (lia || by intros ->). done. }
  { intros k Hk. rewrite Hl1. by apply (rep_rows w r i k HR Hi Hk). }
  { by apply (rep_length w r i). }
  change (row_head w1 i) with (row_head w i) in *. set (w2 := arp_hold_link c w1 i h) in *.
  assert (w_pend w' = w_pend w2) as Hpw by done.
  assert (∀ j, ARP_AT w' j = ARP_AT w2 j) as Hrw' by done.
  assert (∀ k, ARP_PENDING_AT w' k = ARP_PENDING_AT w2 k) as Hhw' by done.
  assert (∀ k, 0 ≤ k → ARP_PENDING_AT w' k = if decide (k = h) then q <| p_next := NONE |>
    else if decide (last (r i) = Some k) then (ARP_PENDING_AT w k) <| p_next := h |> else ARP_PENDING_AT w k) as Hhold'.
  { intros k Hk. rewrite Hhw', Hhold by done. rewrite !Hg1 by lia. rewrite (decide_True (P := h = h)) by done. by destruct (decide (k = h)). }
  assert (∀ j, 0 ≤ j → ARP_AT w' j = if decide (j = i ∧ r i = []) then (ARP_AT w i) <| e_pending := h |> else ARP_AT w j) as Hrow'.
  { intros j Hj. rewrite Hrw', Hrow by done. done. }
  assert (∀ j, 0 ≤ j → row_live w' j = row_live w j ∧ (ARP_AT w' j) <| e_pending := 0 |> = (ARP_AT w j) <| e_pending := 0 |>) as Hsame.
  { intros j Hj. unfold row_live. rewrite Hrow' by done. destruct (decide (j = i ∧ r i = [])) as [[-> _]|]; done. }
  assert (held_items w' ≡ₚ (q_ip a, q_desc a, q_len a) :: held_items w) as Hperm.
  { transitivity (held_items w1); [exact Hitems|]. pose proof (items_tset (w_pend w) h q ltac:(lia)) as Hp.
    assert (held_by (tget (w_pend w) h) = []) as Hz by (unfold held_by, hold_in; fold (ARP_PENDING_AT w h); by rewrite Hf).
    rewrite Hz, app_nil_r in Hp. unfold held_items at 1. unfold w1, put_hold. change (w_pend (w <| w_pend := ?x |>)) with x. rewrite Hp.
    unfold held_items. symmetry. apply Permutation_cons_append. }
  split_and!; [|exact Hio|change (c_ready (w_ctx w2) = c_ready (w_ctx w)); by rewrite Hctx|intros j Hj; apply Hsame; lia| | | | |exact Hperm].
  - split; [change (tlen (w_tab w2) = ENTRIES); by rewrite Htab|by rewrite Hpw, Hpend| |..].
    + eapply (threaded_insert NONE p_next (hold_in ARP_HOLD_WAIT) ENTRIES (w_pend w) (w_pend w') (row_head w) (row_head w') (row_live w) (row_live w') r i (r i) [] h Hthr Hi Hl);
        [by rewrite app_nil_r|by rewrite Hpl|done| |by rewrite Hpw, Hpend, Hl1, Hpl| | | |].
      * unfold marks. fold (ARP_PENDING_AT w h). unfold hold_in. by rewrite Hf.
      * unfold marks. fold (ARP_PENDING_AT w' h). rewrite Hhold', decide_True by (done || lia). done.
      * unfold links. fold (ARP_PENDING_AT w' h). rewrite Hhold', decide_True by (done || lia). done.
      * intros k Hk Hkh. unfold marks, links. fold (ARP_PENDING_AT w' k) (ARP_PENDING_AT w k). rewrite Hhold', decide_False by done.
        by destruct (decide (last (r i) = Some k)).
      * intros q' Hq'. split; [apply Hsame; lia|]. unfold row_head. rewrite Hrow' by lia. destruct (decide (q' = i)) as [->|Hne].
        -- destruct (r i); [rewrite decide_True by done; done|]. rewrite decide_False by (by intros []). done.
        -- rewrite decide_False by (by intros []). done.
    + intros j k Hj Hk. assert (e_spa (ARP_AT w' j) = e_spa (ARP_AT w j)) as Hs.
      { rewrite Hrow' by lia. destruct (decide (j = i ∧ r i = [])) as [[-> _]|]; done. }
      rewrite Hs. destruct (decide (j = i)) as [->|Hne].
      * rewrite fn_lookup_insert in Hk. apply elem_of_app in Hk as [Hk|[->|Hk]%elem_of_cons]; [| |set_solver].
        -- destruct (rep_rows w r i k HR Hi Hk). rewrite Hhold', decide_False by (lia || by intros ->).
           destruct (Hrw i k Hi Hk). by destruct (decide (last (r i) = Some k)).
        -- rewrite Hhold', decide_True by (done || lia). by rewrite Hip.
      * rewrite fn_lookup_insert_ne in Hk by done. destruct (rep_rows w r j k HR Hj Hk) as [Hkr Hks].
        rewrite Hhold', decide_False by (lia || (intros ->; congruence)). destruct (Hrw j k Hj Hk). by destruct (decide (last (r i) = Some k)).
    + intros j Hj. destruct (Hsame j ltac:(lia)) as [-> _]. intros Hlj. destruct (Hkey j Hj Hlj). rewrite Hrow' by lia.
      destruct (decide (j = i ∧ r i = [])) as [[-> _]|]; done.
    + intros j j' Hj Hj'. destruct (Hsame j ltac:(lia)) as [-> _], (Hsame j' ltac:(lia)) as [-> _]. intros Hlj Hlj' Hs. apply Huniq; [done..|].
      rewrite !Hrow' in Hs by lia. by destruct (decide (j = i ∧ r i = [])) as [[-> _]|], (decide (j' = i ∧ r i = [])) as [[-> _]|].
    + rewrite (Permutation_length Hperm). cbn [length]. change (c_held (w_ctx w')) with (u8 (c_held (w_ctx w2) + 1)). rewrite Hctx.
      change (w_ctx w1) with (w_ctx w). rewrite Hheld.
      pose proof (items_length (w_pend w')) as Hle. fold (held_items w') in Hle. rewrite (Permutation_length Hperm) in Hle. cbn [length] in Hle.
      assert (Z.of_nat (length (w_pend w')) = PENDING) as Hlp by (change (tlen (w_pend w') = PENDING); by rewrite Hpw, Hpend).
      destruct Hc as [_ HP]. unfold IDEMIP_ARP_INDEX_NONE in HP. rewrite u8_id by (unfold is_u8; lia). lia.
  - intros k Hk Hkh. rewrite Hhold', decide_False by done. by destruct (decide (last (r i) = Some k)).
  - rewrite Hhold', decide_True by (done || lia). done.
  - rewrite Hhold', decide_True by (done || lia). done.
  - rewrite Hhold', decide_True by (done || lia). done.
Qed.

(** ** A hold taken off a row's list *)
Lemma unlink_walk_spec n w i h prev cur l1 l2 :
  chain NONE (links p_next (w_pend w)) cur (l1 ++ h :: l2) → (length l1 < n)%nat → h ∉ l1 →
  unlink_walk n w i h prev cur =
    let p := ARP_PENDING_AT w h in
    let pr := last_of prev l1 in
    let w1 := if pr =? NONE then put_row w i ((ARP_AT w i) <| e_pending := p_next p |>)
              else put_hold w pr ((ARP_PENDING_AT w pr) <| p_next := p_next p |>) in
    put_hold w1 h ((ARP_PENDING_AT w1 h) <| p_next := NONE |>).
Proof.
  revert prev cur l1; induction n as [|n IH]; intros prev cur l1 Hch Hn Hni; [lia|]. destruct l1 as [|a l1]; simpl app in Hch.
  - destruct Hch as (-> & Hh & _). cbn [unlink_walk]. rewrite (proj2 (Z.eqb_neq _ _) Hh), Z.eqb_refl. done.
  - destruct Hch as (-> & Ha & Hch). apply not_elem_of_cons in Hni as [Hha Hni]. cbn [unlink_walk].
    rewrite (proj2 (Z.eqb_neq a NONE) Ha), (proj2 (Z.eqb_neq a h)) by done. change (p_next (ARP_PENDING_AT w a)) with (links p_next (w_pend w) a).
    rewrite (IH a (links p_next (w_pend w) a) l1); [|done|simpl in Hn; lia|done]. by rewrite last_of_cons.
Qed.

(** The hold's record is then replaced by [p'], which no longer waits. *)
Lemma unlink_rep w r i h l1 l2 p' : RepR w r → 0 ≤ i < ENTRIES → r i = l1 ++ h :: l2 → p_state p' ≠ ARP_HOLD_WAIT →
  let w' := put_hold (arp_hold_unlink c w i h) h p' in
  w_io w' = w_io w ∧ w_ctx w' = w_ctx w ∧ tlen (w_tab w') = ENTRIES ∧ tlen (w_pend w') = PENDING ∧
  threaded NONE p_next (hold_in ARP_HOLD_WAIT) ENTRIES (w_pend w') (row_head w') (row_live w') (<[i := l1 ++ l2]> r) ∧
  (∀ j, 0 ≤ j → row_live w' j = row_live w j ∧ (ARP_AT w' j) <| e_pending := 0 |> = (ARP_AT w j) <| e_pending := 0 |>) ∧
  ARP_PENDING_AT w' h = p' ∧ (∀ k, 0 ≤ k → k ≠ h → unlinked (ARP_PENDING_AT w' k) = unlinked (ARP_PENDING_AT w k)) ∧
  unlinked (ARP_PENDING_AT (arp_hold_unlink c w i h) h) = unlinked (ARP_PENDING_AT w h) ∧
  held_items w' ++ [item (ARP_PENDING_AT w h)] ≡ₚ held_items w ++ held_by p'.
Proof.
  intros HR Hi Hr Hp'. cbv zeta. pose proof HR as [Htl Hpl Hthr Hrw Hkey Huniq Hheld].
  assert (h ∈ r i) as Hh by (rewrite Hr; set_solver). destruct (rep_rows w r i h HR Hi Hh) as [Hhr Hhs].
  assert (row_live w i = true) as Hl.
  { destruct (row_live w i) eqn:El; [done|]. rewrite (rep_free w r i HR Hi El) in Hh. set_solver. }
  pose proof (rep_chain w r i HR Hi Hl) as Hch. rewrite Hr in Hch.
  pose proof (threaded_NoDup _ _ _ _ _ _ _ _ _ Hthr Hi) as Hnd. rewrite Hr in Hnd. apply NoDup_app in Hnd as (Hnd1 & Hd & Hnd2).
  assert (h ∉ l1) as Hni by (intros Hk; apply (Hd h Hk); left).
  pose proof (rep_length w r i HR Hi) as Hlen. rewrite Hr, length_app in Hlen. cbn [length] in Hlen.
  unfold arp_hold_unlink. fold (row_head w i).
  rewrite (unlink_walk_spec (Z.to_nat PENDING) w i h NONE (row_head w i) l1 l2 Hch ltac:(lia) Hni). cbv zeta.
  assert (l1 = [] ∧ last_of NONE l1 = NONE ∨ ∃ pr, last l1 = Some pr ∧ last_of NONE l1 = pr ∧ pr ∈ l1 ∧ pr ≠ NONE ∧ 0 ≤ pr < PENDING) as Hpr.
  { destruct (last l1) as [pr|] eqn:E.
    - right. exists pr. assert (pr ∈ l1) as Hin by (apply last_Some in E as [l' ->]; set_solver). split_and!; [done|unfold last_of; by rewrite E|done| | |].
      + intros ->. apply (seg_not_none NONE _ _ _ _ Hch). set_solver.
      + assert (pr ∈ r i) as Hin' by (rewrite Hr; set_solver). by apply (rep_rows w r i pr HR Hi). 
      + assert (pr ∈ r i) as Hin' by (rewrite Hr; set_solver). by apply (rep_rows w r i pr HR Hi). 
    - left. apply last_None in E. by subst. }
  match goal with |- context [put_hold (put_hold ?x h ?y) h p'] => set (w1 := x); set (w' := put_hold (put_hold w1 h y) h p') end.
  assert (w_io w1 = w_io w ∧ w_ctx w1 = w_ctx w ∧ tlen (w_tab w1) = tlen (w_tab w) ∧ tlen (w_pend w1) = tlen (w_pend w) ∧
    (∀ j, 0 ≤ j → ARP_AT w1 j = if decide (j = i ∧ l1 = []) then (ARP_AT w i) <| e_pending := p_next (ARP_PENDING_AT w h) |> else ARP_AT w j) ∧
    (∀ k, 0 ≤ k → ARP_PENDING_AT w1 k = if decide (last l1 = Some k) then (ARP_PENDING_AT w k) <| p_next := p_next (ARP_PENDING_AT w h) |> else ARP_PENDING_AT w k) ∧
    held_items w1 ≡ₚ held_items w) as (Hio & Hctx & Htab & Hpend & Hrow1 & Hhold1 & Hit1).
  { unfold w1. destruct Hpr as [[-> ->]|(pr & El & -> & Hin & Hpn & Hprr)].
    - rewrite Z.eqb_refl. split_and!; [done|done|apply tlen_tset|done| |done|done].
      intros j Hj. rewrite row_at by lia. destruct (decide (j = i)) as [->|]; [by rewrite decide_True|]. rewrite decide_False; [done|]. by intros [].
    - rewrite (proj2 (Z.eqb_neq _ _) Hpn). split_and!; [done|done|done|apply tlen_tset| | |].
      + intros j Hj. rewrite decide_False; [done|]. intros [_ ->]. done.
      + intros k Hk. rewrite hold_at by lia. rewrite El. destruct (decide (k = pr)) as [->|Hne]; [by rewrite decide_True|]. rewrite decide_False; [done|]. congruence.
      + apply items_keep; [lia|done]. }
  assert (∀ k, 0 ≤ k → ARP_PENDING_AT w' k = if decide (k = h) then p'
    else if decide (last l1 = Some k) then (ARP_PENDING_AT w k) <| p_next := p_next (ARP_PENDING_AT w h) |> else ARP_PENDING_AT w k) as Hhold'.
  { intros k Hk. unfold w'. rewrite !hold_at by (rewrite ?put_hold_len; lia).
    destruct (decide (k = h)); [done|]. by apply Hhold1. }
  assert (∀ j, 0 ≤ j → ARP_AT w' j = if decide (j = i ∧ l1 = []) then (ARP_AT w i) <| e_pending := p_next (ARP_PENDING_AT w h) |> else ARP_AT w j) as Hrow' by exact Hrow1.
  assert (∀ j, 0 ≤ j → row_live w' j = row_live w j ∧ (ARP_AT w' j) <| e_pending := 0 |> = (ARP_AT w j) <| e_pending := 0 |>) as Hsame.
  { intros j Hj. unfold row_live. rewrite Hrow' by done. destruct (decide (j = i ∧ l1 = [])) as [[-> _]|]; done. }
  assert (tlen (w_pend w') = PENDING) as Hpl'.
  { unfold w'. rewrite !put_hold_len. lia. }
  assert (¬ last l1 = Some h) as Hlast by (intros [l' El]%last_Some; apply Hni; rewrite El; set_solver).
  split_and!; [exact Hio|exact Hctx|change (tlen (w_tab w1) = ENTRIES); lia|done| |done| | | |].
  - eapply (threaded_remove NONE p_next (hold_in ARP_HOLD_WAIT) ENTRIES (w_pend w) (w_pend w') (row_head w) (row_head w') (row_live w) (row_live w') r i l1 l2 h Hthr Hi Hr);
      [by rewrite Hpl', Hpl| | |].
    + unfold marks. fold (ARP_PENDING_AT w' h). rewrite Hhold', decide_True by (done || lia). unfold hold_in. by apply bool_decide_eq_false.
    + intros k Hk Hkh. unfold marks, links. fold (ARP_PENDING_AT w' k) (ARP_PENDING_AT w k). rewrite Hhold', decide_False by done.
      by destruct (decide (last l1 = Some k)).
    + intros q Hq. split; [apply Hsame; lia|]. unfold row_head. rewrite Hrow' by lia. destruct (decide (q = i)) as [->|Hne].
      * destruct l1; [rewrite decide_True by done; done|]. rewrite decide_False by (by intros []). done.
      * rewrite decide_False by (by intros []). done.
  - rewrite Hhold', decide_True by (done || lia). done.
  - intros k Hk Hkh. rewrite Hhold', decide_False by done. by destruct (decide (last l1 = Some k)).
  - rewrite hold_at, decide_True by (lia || done). change (unlinked (ARP_PENDING_AT w1 h) = unlinked (ARP_PENDING_AT w h)).
    rewrite Hhold1, decide_False by (done || lia). done.
  - set (w2 := put_hold w1 h ((ARP_PENDING_AT w1 h) <| p_next := NONE |>)) in *.
    assert (held_items w2 ≡ₚ held_items w1) as Hit2 by (apply items_keep; [lia|done]).
    assert (tlen (w_pend w2) = PENDING) as Hl2 by (unfold w2; rewrite put_hold_len; lia).
    pose proof (items_tset (w_pend w2) h p' ltac:(lia)) as Hp. fold (ARP_PENDING_AT w2 h) in Hp.
    assert (held_by (ARP_PENDING_AT w2 h) = [item (ARP_PENDING_AT w h)]) as Hb.
    { unfold w2. rewrite hold_at, decide_True, Hhold1, decide_False by (lia || done). unfold held_by, hold_in. cbn [p_state set_field]. by rewrite Hhs. }
    rewrite Hb in Hp. etrans; [exact Hp|]. fold (held_items w2). by rewrite Hit2, Hit1.
Qed.

End Rep.
End ArpRep.

(** * The ARP table by address

    What a caller sees of the table: for an address, the frames waiting for it in order and the station it
    resolves to.  How the views of two tables compare, from what changed in their rows and lists. *)
Module ArpViews.
Import Arp ArpTable ArpRep.

Local Abbreviation NONE := IDEMIP_ARP_INDEX_NONE.

Section Views.
Variable c : config.
Local Abbreviation ENTRIES := (IDEMIP_ARP_ENTRIES c).
Local Abbreviation PENDING := (IDEMIP_ARP_PENDING c).
Implicit Types (w : Work) (r : Z → list Z) (ip : Z).

(** The holds of a row, in order. *)
Definition row_queue w (i : Z) : list Z :=
  if row_live w i then follow (Z.to_nat (tlen (w_pend w))) (links p_next (w_pend w)) (tlen (w_pend w)) (row_head w i) else [].
Definition items w (l : list Z) : list (Z * Z * Z) := (λ k, item (ARP_PENDING_AT w k)) <$> l.

(** The row of an address. *)
Definition row_of w ip : option Z :=
  let i := arp_row_find c w IDEMIP_ARP_PRO_IPV4 ip in if i =? NONE then None else Some i.

(** The frames waiting for an address, first queued first. *)
Definition waits w ip : list (Z * Z * Z) := match row_of w ip with Some i => items w (row_queue w i) | None => [] end.

(** The hardware address and interface an address resolves to. *)
Definition known w ip : option (list Z * Z) :=
  match row_of w ip with
  | Some i => let e := ARP_AT w i in if bool_decide (e_state e = IDEMIP_ARP_STATE_STABLE) then Some (e_sha e, e_netif e) else None
  | None => None
  end.

Context (Hc : config_ok c).

(** Row [i] is in use for [ip]. *)
Definition row_for w i ip : Prop := 0 ≤ i < ENTRIES ∧ row_live w i = true ∧ e_spa (ARP_AT w i) = ip.

Lemma row_of_at w r i ip : RepR c w r → row_for w i ip → row_of w ip = Some i.
Proof.
  intros HR (Hi & Hl & Hs). unfold row_of. rewrite (find_eq c Hc w r ip i HR Hi Hl Hs). rewrite (proj2 (Z.eqb_neq _ _)); [done|]. destruct Hc; lia.
Qed.
Lemma row_of_cases w r ip : RepR c w r → (∃ i, row_for w i ip ∧ row_of w ip = Some i) ∨ ((∀ i, ¬ row_for w i ip) ∧ row_of w ip = None).
Proof.
  intros HR. destruct (row_find_spec c Hc w r ip HR) as [(i & He & Hn & Hi & Hl & Hs)|[He Hn]].
  - left. exists i. assert (row_for w i ip) as Hf by done. split; [done|]. by apply (row_of_at w r).
  - right. split; [intros i (Hi & Hl & Hs); by apply (Hn i)|]. unfold row_of. by rewrite He, Z.eqb_refl.
Qed.
Lemma row_for_inj w r i j ip : RepR c w r → row_for w i ip → row_for w j ip → i = j.
Proof. intros HR (Hi & Hl & Hs) (Hj & Hlj & Hsj). apply (rp_uniq c w r HR); [done..|congruence]. Qed.

Lemma row_queue_eq w r i : RepR c w r → 0 ≤ i < ENTRIES → row_queue w i = r i.
Proof. intros HR Hi. apply (threaded_read _ _ _ _ _ _ _ _ _ (rp_thr c w r HR) Hi). rewrite (rp_pend c w r HR). destruct Hc; lia. Qed.

Lemma waits_at w r i ip : RepR c w r → row_for w i ip → waits w ip = items w (r i).
Proof. intros HR Hf. unfold waits. rewrite (row_of_at w r i ip HR Hf). by rewrite (row_queue_eq w r i HR) by apply Hf. Qed.
Lemma waits_none w r ip : RepR c w r → (∀ i, ¬ row_for w i ip) → waits w ip = [].
Proof. intros HR Hn. unfold waits. destruct (row_of_cases w r ip HR) as [(i & Hf & _)|[_ ->]]; [by destruct (Hn i)|done]. Qed.

Lemma known_at w r i ip : RepR c w r → row_for w i ip →
  known w ip = if bool_decide (e_state (ARP_AT w i) = IDEMIP_ARP_STATE_STABLE) then Some (e_sha (ARP_AT w i), e_netif (ARP_AT w i)) else None.
Proof. intros HR Hf. unfold known. by rewrite (row_of_at w r i ip HR Hf). Qed.
Lemma known_none w r ip : RepR c w r → (∀ i, ¬ row_for w i ip) → known w ip = None.
Proof. intros HR Hn. unfold known. destruct (row_of_cases w r ip HR) as [(i & Hf & _)|[_ ->]]; [by destruct (Hn i)|done]. Qed.

(** ** Views of two tables *)

(** Only rows that carry holds matter to what waits. *)
Lemma waits_from w r w' r' ip : RepR c w r → RepR c w' r' →
  (∀ i, row_for w i ip → r i ≠ [] → row_for w' i ip ∧ items w' (r' i) = items w (r i)) →
  (∀ i, row_for w' i ip → r' i ≠ [] → row_for w i ip ∧ r i ≠ []) → waits w' ip = waits w ip.
Proof.
  intros HR HR' Hfw Hbw. assert ((∃ i, row_for w i ip ∧ r i ≠ []) ∨ waits w ip = []) as [(i & Hf & Hz)|Hz].
  { destruct (row_of_cases w r ip HR) as [(i & Hf & _)|[Hn _]]; [|right; by apply (waits_none w r)].
    destruct (decide (r i = [])) as [Hz|Hz]; [right|left; by exists i]. by rewrite (waits_at w r i ip HR Hf), Hz. }
  - destruct (Hfw i Hf Hz) as [Hf' Hi]. by rewrite (waits_at w' r' i ip HR' Hf'), (waits_at w r i ip HR Hf).
  - rewrite Hz. destruct (row_of_cases w' r' ip HR') as [(j & Hj & _)|[Hn' _]]; [|by apply (waits_none w' r')].
    rewrite (waits_at w' r' j ip HR' Hj). destruct (decide (r' j = [])) as [->|Hne]; [done|]. destruct (Hbw j Hj Hne) as [Hf Hne'].
    rewrite (waits_at w r j ip HR Hf) in Hz. by apply fmap_nil_inv in Hz.
Qed.

(** A row rewritten without touching its list, or with none to touch. *)
Lemma waits_put_row w r j e ip : RepR c w r → RepR c (put_row w j e) r → 0 ≤ j < ENTRIES →
  r j = [] ∨ live_entry e = true ∧ row_live w j = true ∧ e_spa e = e_spa (ARP_AT w j) → waits (put_row w j e) ip = waits w ip.
Proof.
  intros HR HR' Hj He. pose proof (rp_tab c w r HR) as Htl.
  assert (∀ i, row_for w i ip ∧ r i ≠ [] ↔ row_for (put_row w j e) i ip ∧ r i ≠ []) as Hiff.
  { intros i. unfold row_for, row_live. destruct (decide (0 ≤ i < ENTRIES)) as [Hi|]; [|split; intros [(? & _) _]; done].
    rewrite row_at by lia. destruct (decide (i = j)) as [->|]; [|done]. destruct He as [->|(Hle & Hlj & ->)]; [naive_solver|].
    unfold row_live in Hlj. unfold live_entry in Hle. rewrite Hle, Hlj. done. }
  apply (waits_from w r _ r); [done..| |].
  - intros i Hf Hz. split; [by apply (Hiff i)|done].
  - intros i Hf Hz. by apply (Hiff i).
Qed.

Lemma row_for_put w j e i ip : tlen (w_tab w) = ENTRIES → 0 ≤ j < ENTRIES →
  row_for (put_row w j e) i ip ↔ if decide (i = j) then live_entry e = true ∧ e_spa e = ip else row_for w i ip.
Proof.
  intros Htl Hj. unfold row_for, row_live. destruct (decide (0 ≤ i < ENTRIES)) as [Hi|Hi].
  - rewrite row_at by lia. destruct (decide (i = j)) as [->|]; [|done]. unfold live_entry. naive_solver.
  - rewrite decide_False by (by intros ->). naive_solver.
Qed.

(** What an address other than the row's resolves to. *)
Lemma known_put_other w r j e ip : RepR c w r → RepR c (put_row w j e) r → 0 ≤ j < ENTRIES →
  e_spa e ≠ ip → ¬ row_for w j ip → known (put_row w j e) ip = known w ip.
Proof.
  intros HR HR' Hj Hs Hn. pose proof (rp_tab c w r HR) as Htl. destruct (row_of_cases w r ip HR) as [(i & Hf & _)|[Hnone _]].
  - assert (i ≠ j) as Hij by (by intros ->). assert (row_for (put_row w j e) i ip) as Hf' by (apply row_for_put; [done..|]; by rewrite decide_False).
    rewrite (known_at w r i ip HR Hf), (known_at _ r i ip HR' Hf'). destruct Hf as (Hi & _). by rewrite row_at, decide_False by (done || lia).
  - rewrite (known_none w r ip HR Hnone). apply (known_none _ r); [done|]. intros i Hf. apply row_for_put in Hf; [|done..].
    destruct (decide (i = j)); [naive_solver|]. by apply (Hnone i).
Qed.
End Views.
End ArpViews.
