(* ===== verification/ArpSteps.v ===== *)
(** * What each ARP table entry does

    For each entry of arp_table.c, from a table with its invariant: the invariant after it, and what it
    does to the frames waiting for each address, to the descriptors held and to what addresses resolve to. *)
From stdpp Require Import functions.
From S2P Require Import Prelude Base Chain Threaded Arp ArpTable ArpRep.

Module ArpSteps.
Import Arp ArpTable ArpRep ArpViews.

Local Abbreviation NONE := IDEMIP_ARP_INDEX_NONE.

Section Steps.
Variable c : config.
Context (Hc : config_ok c).
Local Abbreviation ENTRIES := (IDEMIP_ARP_ENTRIES c).
Local Abbreviation PENDING := (IDEMIP_ARP_PENDING c).
Implicit Types (w : Work) (r : Z → list Z) (ip : Z).

(** ** Learning a triplet *)
Definition learned (e : ArpEntry) (sha : list Z) (netif now : Z) : ArpEntry :=
  e <| e_sha := take (Z.to_nat IDEMIP_ARP_HLN_ETHERNET) sha |> <| e_state := IDEMIP_ARP_STATE_STABLE |>
    <| e_netif := netif |> <| e_used_ms := now |> <| e_req_ms := 0 |> <| e_tries := 0 |>.
Definition opened (spa now : Z) : ArpEntry :=
  entry_zero <| e_pro := IDEMIP_ARP_PRO_IPV4 |> <| e_spa := spa |> <| e_used_ms := now |> <| e_pending := NONE |>.

Lemma put_put w j e e' : put_row (put_row w j e) j e' = put_row w j e'.
Proof. unfold put_row. change (w_tab (w <| w_tab := ?x |>)) with x. rewrite tset_tset_eq. done. Qed.

(** A fresh row for an address no row in use has. *)
Lemma fresh_row w r j e : RepR c w r → 0 ≤ j < ENTRIES → r j = [] → row_live w j = false → live_entry e = true →
  e_pro e = IDEMIP_ARP_PRO_IPV4 → e_spa e ≠ 0 → e_pending e = NONE → (∀ i, ¬ row_for c w i (e_spa e)) → RepR c (put_row w j e) r.
Proof.
  intros HR Hj Hr Hl Hle Hpro Hs Hp Hn. apply (put_row_rep c Hc); [done|done| |by rewrite Hr|].
  - rewrite Hle. by right.
  - intros _. split_and!; [done..|]. intros i Hi Hij Hli Hsi. by apply (Hn i).
Qed.

(** The row taken for a new address, and what the others lose: the oldest row with no hold, when none was free. *)
Definition taken_from w r j w1 : Prop :=
  0 ≤ j < ENTRIES ∧ j ≠ NONE ∧ r j = [] ∧ RepR c w1 r ∧ row_live w1 j = false ∧ w_pend w1 = w_pend w ∧ w_ctx w1 = w_ctx w ∧ w_io w1 = w_io w ∧
  (∀ ip, waits c w1 ip = waits c w ip) ∧ (∀ i ip, row_for c w1 i ip → row_for c w i ip) ∧
  (∀ ip, ¬ row_for c w j ip → known c w1 ip = known c w ip) ∧ (∀ i, 0 ≤ i → i ≠ j → ARP_AT w1 i = ARP_AT w i).

Lemma row_take_cases w r now : RepR c w r →
  (arp_row_take c w now = (w, NONE) ∧ ∀ i, 0 ≤ i < ENTRIES → row_live w i = true ∧ r i ≠ []) ∨
  ∃ j w1, arp_row_take c w now = (w1, j) ∧ taken_from w r j w1.
Proof.
  intros HR. destruct (row_take_spec c Hc w r now HR) as [[-> Hall]|[(j & Hj & Hn & Hr & Hl & ->)|(j & Hj & Hn & Hr & Hl & -> & HR1 & _ & _)]].
  - by left.
  - right. exists j, w. split; [done|]. unfold taken_from. split_and!; try (done || lia).
  - right. exists j, (put_row w j empty_row). split; [done|]. pose proof (rp_tab c w r HR) as Htl. unfold taken_from. split_and!; try (done || lia).
    + unfold row_live. rewrite row_at, decide_True by (done || lia). done.
    + intros ip. by apply (waits_put_row c Hc w r); [..|left].
    + intros i ip Hf. apply row_for_put in Hf; [|done..]. by destruct (decide (i = j)); [destruct Hf|].
    + intros ip Hnf. destruct (decide (ip = 0)) as [->|Hip].
      * rewrite (known_none c Hc w r 0 HR), (known_none c Hc _ r 0 HR1); [done|..]; intros i (Hi & Hli & Hs).
        -- by destruct (rp_key c _ r HR1 i Hi Hli).
        -- by destruct (rp_key c w r HR i Hi Hli).
      * by apply (known_put_other c Hc w r).
    + intros i Hi Hij. by rewrite row_at, decide_False by (done || lia).
Qed.

Definition group_mac (sha : list Z) : bool := negb (Z.land (tget sha 0) 0x01 =? 0).
Definition mac_of (sha : list Z) : list Z := take (Z.to_nat IDEMIP_ARP_HLN_ETHERNET) sha.

(** What the table says of the sender after a triplet, and of every other address. *)
Definition learn_effect w w' (i : Z) (merged : bool) (spa : Z) (sha : list Z) (netif : Z) (add : bool) : Prop :=
  (∀ ip, waits c w' ip = waits c w ip) ∧ w_pend w' = w_pend w ∧ w_ctx w' = w_ctx w ∧ w_io w' = w_io w ∧
  if group_mac sha then i = NONE ∧ merged = false ∧ (∀ ip, known c w' ip = known c w ip)
  else match row_of c w spa with
  | Some k => i = k ∧ merged = true ∧ known c w' spa = Some (mac_of sha, netif) ∧ (∀ ip, ip ≠ spa → known c w' ip = known c w ip)
  | None =>
      merged = false ∧
      ((i = NONE ∧ (∀ ip, known c w' ip = known c w ip) ∧ (add = true → ∀ k, 0 ≤ k < ENTRIES → row_queue w k ≠ [])) ∨
       (i ≠ NONE ∧ 0 ≤ i < ENTRIES ∧ add = true ∧ known c w' spa = Some (mac_of sha, netif) ∧ row_queue w i = [] ∧
        (∀ ip, ip ≠ spa → known c w' ip = known c w ip ∨ known c w' ip = None ∧ row_of c w ip = Some i)))
  end.

Lemma known_learned w r j e sha netif now : RepR c (put_row w j (learned e sha netif now)) r → tlen (w_tab w) = ENTRIES → 0 ≤ j < ENTRIES →
  known c (put_row w j (learned e sha netif now)) (e_spa e) = Some (mac_of sha, netif).
Proof.
  intros HR Htl Hj. rewrite (known_at c Hc _ r j) by (done || (apply row_for_put; [done..|]; by rewrite decide_True)).
  rewrite row_at, decide_True by (done || lia). done.
Qed.

Lemma learn_spec w r spa sha netif now add : RepR c w r → spa ≠ 0 →
  let '(w', i, merged) := arp_learn c w IDEMIP_ARP_PRO_IPV4 spa sha netif now add in
  RepR c w' r ∧ learn_effect w w' i merged spa sha netif add.
Proof.
  intros HR Hspa. pose proof (rp_tab c w r HR) as Htl. unfold arp_learn, learn_effect. fold (group_mac sha). destruct (group_mac sha); [done|].
  unfold row_of at 1. destruct (row_find_spec c Hc w r spa HR) as [(i & -> & Hn & Hi & Hl & Hs)|[-> Hnone]].
  - rewrite (proj2 (Z.eqb_neq _ _) Hn). cbn [negb]. unfold learn_row. fold (learned (ARP_AT w i) sha netif now).
    assert (RepR c (put_row w i (learned (ARP_AT w i) sha netif now)) r) as HR1.
    { apply (put_row_rep c Hc); [done|done|left; done|done|]. intros _. destruct (rp_key c w r HR i Hi Hl) as [Hp Hz]. split_and!; [done..|].
      intros k Hk Hki Hlk Hsk. apply Hki. by apply (rp_uniq c w r HR). }
    split; [done|]. split_and!; try done.
    + intros ip. apply (waits_put_row c Hc w r); [done..|]. by right.
    + rewrite <- Hs. by apply (known_learned w r).
    + intros ip Hip. apply (known_put_other c Hc w r); [done..| |].
      * change (e_spa (ARP_AT w i) ≠ ip). congruence.
      * intros (_ & _ & Hsi). congruence.
  - rewrite Z.eqb_refl. cbn [negb]. destruct add; cbn [negb]; [|split; [done|]; split_and!; try done; left; done].
    destruct (row_take_cases w r now HR) as [[-> Hall]|(j & w1 & -> & Hj & Hjn & Hr & HR1 & Hl1 & Hpend & Hctx & Hio & Hw1 & Hfor & Hk1 & _)].
    + rewrite Z.eqb_refl. split; [done|]. split_and!; try done. left. split_and!; try done. intros _ k Hk. rewrite (row_queue_eq c Hc w r k HR Hk). by apply Hall.
    + rewrite (proj2 (Z.eqb_neq _ _) Hjn). unfold learn_row, arp_row_open. fold (opened spa now). pose proof (rp_tab c w1 r HR1) as Htl1.
      rewrite row_at, decide_True, put_put by (done || lia). fold (learned (opened spa now) sha netif now).
      assert (∀ i, ¬ row_for c w1 i spa) as Hn1 by (intros k Hk; destruct (Hfor k spa Hk) as (Hk0 & Hlk & Hsk); by apply (Hnone k)).
      assert (RepR c (put_row w1 j (learned (opened spa now) sha netif now)) r) as HR2 by (by apply (fresh_row w1)).
      split; [done|]. split_and!; try done.
      * intros ip. rewrite <- Hw1. by apply (waits_put_row c Hc w1 r); [..|left].
      * right. split_and!; [done|lia|lia|done| |by rewrite (row_queue_eq c Hc w r j HR Hj)|].
        -- by apply (known_learned w1 r j (opened spa now)).
        -- intros ip Hip. assert (∀ a, ¬ row_for c w1 j a) as Hnj by (intros a (_ & Hlf & _); congruence).
           rewrite (known_put_other c Hc w1 r) by done. destruct (decide (row_of c w ip = Some j)) as [Hrow|Hrow].
           ++ right. split; [|done]. apply (known_none c Hc w1 r); [done|]. intros k Hk. pose proof (row_of_at c Hc w r k ip HR (Hfor k ip Hk)) as Hk'.
              assert (k = j) as -> by congruence. by apply (Hnj ip).
           ++ left. apply Hk1. intros Hf. apply Hrow. by apply (row_of_at c Hc w r).
Qed.
(** ** Lists spliced *)

(** The rows keep all but their links. *)
Definition rows_kept w w' : Prop :=
  ∀ j, 0 ≤ j < ENTRIES → row_live w' j = row_live w j ∧ (ARP_AT w' j) <| e_pending := 0 |> = (ARP_AT w j) <| e_pending := 0 |>.

Lemma kept_spa w w' j : rows_kept w w' → 0 ≤ j < ENTRIES → e_spa (ARP_AT w' j) = e_spa (ARP_AT w j).
Proof. intros H Hj. destruct (H j Hj) as [_ He]. exact (f_equal e_spa He). Qed.
Lemma kept_row_for w w' i ip : rows_kept w w' → row_for c w' i ip ↔ row_for c w i ip.
Proof.
  intros H. unfold row_for. split; intros (Hi & Hl & Hs); (split; [done|]); rewrite <- Hl, <- Hs, (kept_spa w w') by done; destruct (H i Hi) as [-> _]; done.
Qed.
Lemma kept_known w w' r r' ip : RepR c w r → RepR c w' r' → rows_kept w w' → known c w' ip = known c w ip.
Proof.
  intros HR HR' Hk. destruct (row_of_cases c Hc w r ip HR) as [(i & Hf & _)|[Hn _]].
  - rewrite (known_at c Hc w r i ip HR Hf), (known_at c Hc w' r' i ip HR') by (by apply (kept_row_for w w')). destruct Hf as (Hi & _).
    destruct (Hk i Hi) as [_ He]. pose proof (f_equal e_state He) as Hst. pose proof (f_equal e_sha He) as Hsh. pose proof (f_equal e_netif He) as Hn.
    change (e_state (ARP_AT w' i) = e_state (ARP_AT w i)) in Hst. change (e_sha (ARP_AT w' i) = e_sha (ARP_AT w i)) in Hsh.
    change (e_netif (ARP_AT w' i) = e_netif (ARP_AT w i)) in Hn. by rewrite Hst, Hsh, Hn.
  - rewrite (known_none c Hc w r ip HR Hn). apply (known_none c Hc w' r'); [done|]. intros i Hf. apply (Hn i). by apply (kept_row_for w w').
Qed.

(** A hold's record but for its link. *)
Definition holds_kept w w' (h : Z) : Prop := ∀ k, 0 ≤ k → k ≠ h → unlinked (ARP_PENDING_AT w' k) = unlinked (ARP_PENDING_AT w k).

Lemma kept_items w w' h l : holds_kept w w' h → (∀ k, k ∈ l → 0 ≤ k ∧ k ≠ h) → items w' l = items w l.
Proof.
  intros Hk Hl. unfold items. apply list_fmap_ext. intros j k Hj. apply list_elem_of_lookup_2 in Hj. destruct (Hl k Hj) as [Hk0 Hkh].
  exact (f_equal item (Hk k Hk0 Hkh)).
Qed.

Lemma spliced_rep w r w' i l1 h l2 : RepR c w r → 0 ≤ i < ENTRIES → r i = l1 ++ h :: l2 → tlen (w_tab w') = ENTRIES → tlen (w_pend w') = PENDING →
  threaded NONE p_next (hold_in ARP_HOLD_WAIT) ENTRIES (w_pend w') (row_head w') (row_live w') (<[i := l1 ++ l2]> r) →
  rows_kept w w' → holds_kept w w' h → c_held (w_ctx w') = Z.of_nat (length (held_items w')) → RepR c w' (<[i := l1 ++ l2]> r).
Proof.
  intros HR Hi Hr Htl Hpl Hthr Hrow Hhold Hheld. pose proof (threaded_NoDup _ _ _ _ _ _ _ _ _ (rp_thr c w r HR) Hi) as Hnd. rewrite Hr in Hnd.
  assert (h ∉ l1 ++ l2) as Hni by (rewrite <- Permutation_middle in Hnd; by apply NoDup_cons in Hnd as [? _]).
  split; try done.
  - intros j k Hj Hk. assert (k ∈ r j ∧ k ≠ h) as [Hkr Hkh].
    { destruct (decide (j = i)) as [->|Hne].
      - rewrite fn_lookup_insert in Hk. split; [rewrite Hr; set_solver|by intros ->].
      - rewrite fn_lookup_insert_ne in Hk by done. split; [done|]. intros ->. apply Hne.
        apply (threaded_disjoint _ _ _ _ _ _ _ _ _ _ _ (rp_thr c w r HR) Hj Hi Hk). rewrite Hr. set_solver. }
    destruct (rep_rows c w r j k HR Hj Hkr) as [[Hk0 _] _]. destruct (rp_row c w r HR j k Hj Hkr) as [He Hs].
    rewrite (kept_spa w w') by done. pose proof (Hhold k Hk0 Hkh) as Hu. 
    split; [exact (eq_trans (f_equal p_entry Hu) He)|exact (eq_trans (f_equal p_spa Hu) Hs)].
  - intros j Hj. destruct (Hrow j Hj) as [-> He]. intros Hl. destruct (rp_key c w r HR j Hj Hl) as [Hp Hs].
    pose proof (f_equal e_pro He) as Hpe. pose proof (f_equal e_spa He) as Hse. change (e_pro (ARP_AT w' j) = e_pro (ARP_AT w j)) in Hpe.
    change (e_spa (ARP_AT w' j) = e_spa (ARP_AT w j)) in Hse. by rewrite Hpe, Hse.
  - intros j j' Hj Hj'. destruct (Hrow j Hj) as [-> _], (Hrow j' Hj') as [-> _]. rewrite !(kept_spa w w') by done. by apply (rp_uniq c w r HR).
Qed.

(** What waits after a hold left row [i]'s list. *)
Lemma spliced_waits w r w' i l1 h l2 ip : RepR c w r → RepR c w' (<[i := l1 ++ l2]> r) → 0 ≤ i < ENTRIES → r i = l1 ++ h :: l2 →
  rows_kept w w' → holds_kept w w' h →
  waits c w' ip = if decide (ip = e_spa (ARP_AT w i)) then items w (l1 ++ l2) else waits c w ip.
Proof.
  intros HR HR' Hi Hr Hrow Hhold. pose proof (threaded_NoDup _ _ _ _ _ _ _ _ _ (rp_thr c w r HR) Hi) as Hnd. rewrite Hr in Hnd.
  assert (h ∉ l1 ++ l2) as Hni by (rewrite <- Permutation_middle in Hnd; by apply NoDup_cons in Hnd as [? _]).
  assert (row_live w i = true) as Hl.
  { destruct (row_live w i) eqn:El; [done|]. rewrite (rep_free c w r i HR Hi El) in Hr. by destruct l1. }
  assert (∀ j k, 0 ≤ j < ENTRIES → k ∈ r j → 0 ≤ k) as Hk0 by (intros j k Hj Hk; by apply (rep_rows c w r j k HR Hj)).
  case_decide as Hip.
  - rewrite (waits_at c Hc w' _ i ip HR') by (apply (kept_row_for w w'); done). rewrite fn_lookup_insert. eapply kept_items; [exact Hhold|].
    intros k Hk. split; [apply (Hk0 i k Hi); rewrite Hr; set_solver|by intros ->].
  - apply (waits_from c Hc w r w' (<[i := l1 ++ l2]> r)); [done..| |].
    + intros j Hf Hz. assert (j ≠ i) as Hji by (intros ->; by destruct Hf as (_ & _ & Hs)). split; [by apply (kept_row_for w w')|].
      rewrite fn_lookup_insert_ne by done. eapply kept_items; [exact Hhold|]. intros k Hk. destruct Hf as (Hj & _). split; [by apply (Hk0 j)|].
      intros ->. apply Hji. apply (threaded_disjoint _ _ _ _ _ _ _ _ _ _ _ (rp_thr c w r HR) Hj Hi Hk). rewrite Hr. set_solver.
    + intros j Hf Hz. apply (kept_row_for w w') in Hf; [|done]. split; [done|]. assert (j ≠ i) as Hji by (intros ->; by destruct Hf as (_ & _ & Hs)).
      by rewrite fn_lookup_insert_ne in Hz by done.
Qed.

(** ** Leaving the table *)

(** A free hold fewer counted. *)
Lemma drop_held_spec w : c_held (w_ctx w) ≠ 0 → is_u8 (c_held (w_ctx w)) →
  w_tab (drop_held w) = w_tab w ∧ w_pend (drop_held w) = w_pend w ∧ w_io (drop_held w) = w_io w ∧
  c_ready (w_ctx (drop_held w)) = c_ready (w_ctx w) ∧ c_held (w_ctx (drop_held w)) = c_held (w_ctx w) - 1.
Proof.
  intros Hn Hu. unfold drop_held. rewrite (proj2 (Z.eqb_neq _ _) Hn). cbn [negb]. split_and!; try done.
  change (u8 (c_held (w_ctx w) - 1) = c_held (w_ctx w) - 1). apply u8_id. unfold is_u8 in *. lia.
Qed.

Lemma held_range w r : RepR c w r → is_u8 (c_held (w_ctx w)).
Proof.
  intros HR. rewrite (rp_held c w r HR). pose proof (items_length (w_pend w)) as Hl. fold (held_items w) in Hl.
  pose proof (rp_pend c w r HR) as Hp. unfold tlen in Hp. destruct Hc as [_ HP]. unfold IDEMIP_ARP_INDEX_NONE, is_u8 in *. lia.
Qed.

(** The first hold of a complete row, off its list and free. *)
Lemma dequeue_hold w r i h l : RepR c w r → 0 ≤ i < ENTRIES → r i = h :: l →
  let w' := drop_held (put_hold (arp_hold_unlink c w i h) h pending_zero) in
  RepR c w' (<[i := l]> r) ∧ w_io w' = w_io w ∧ c_ready (w_ctx w') = c_ready (w_ctx w) ∧ rows_kept w w' ∧ holds_kept w w' h ∧
  unlinked (ARP_PENDING_AT (arp_hold_unlink c w i h) h) = unlinked (ARP_PENDING_AT w h) ∧
  (ARP_AT (arp_hold_unlink c w i h) i) <| e_pending := 0 |> = (ARP_AT w i) <| e_pending := 0 |> ∧
  held_items w ≡ₚ item (ARP_PENDING_AT w h) :: held_items w'.
Proof.
  intros HR Hi Hr w'. unfold w'. set (w1 := put_hold (arp_hold_unlink c w i h) h pending_zero).
  destruct (unlink_rep c Hc w r i h [] l pending_zero HR Hi Hr ltac:(done)) as (Hio & Hctx & Htl & Hpl & Hthr & Hrow & _ & Hhold & Hun & Hit).
  fold w1 in Hio, Hctx, Htl, Hpl, Hthr, Hrow, Hhold, Hit.
  assert (held_items w ≡ₚ item (ARP_PENDING_AT w h) :: held_items w1) as Hperm.
  { change (held_by pending_zero) with (@nil (Z * Z * Z)) in Hit. rewrite app_nil_r in Hit. rewrite <- Hit. symmetry. apply Permutation_cons_append. }
  destruct (drop_held_spec w1) as (Htab & Hpend & Hio' & Hrd & Hcnt).
  { rewrite Hctx, (rp_held c w r HR), Hperm. cbn [length]. lia. } { rewrite Hctx. by apply (held_range w r). }
  assert (rows_kept w (drop_held w1)) as Hrk by (intros j Hj; unfold row_live, ARP_AT; rewrite Htab; apply Hrow; lia).
  assert (holds_kept w (drop_held w1) h) as Hhk by (intros k Hk Hkh; unfold ARP_PENDING_AT; rewrite Hpend; by apply Hhold).
  assert (held_items (drop_held w1) = held_items w1) as Hits by (unfold held_items; by rewrite Hpend).
  split_and!; [|by rewrite Hio', Hio|by rewrite Hrd, Hctx|done|done|done|exact (proj2 (Hrow i ltac:(lia)))|by rewrite Hits].
  apply (spliced_rep w r _ i [] h l); try done; rewrite ?Htab, ?Hpend; try done.
  - eapply threaded_heads; [exact Hthr|]. intros q Hq. unfold row_live, row_head, ARP_AT. rewrite Htab. fold (ARP_AT w1 q).
    destruct (negb (row_free (ARP_AT w1 q))) eqn:El; [by left|]. destruct Hthr as [_ Hch]. specialize (Hch q Hq). unfold row_live in Hch. by rewrite El in Hch.
  - rewrite Hcnt, Hits, Hctx, (rp_held c w r HR), Hperm. cbn [length]. lia.
Qed.

(** ** The sweeps: rows aged out, holds past their deadline *)

(** Lists only lose holds, rows are only given up, no descriptor is lost. *)
Record thinned w r w' r' : Prop := mkThinned {
  th_rep : RepR c w' r';
  th_io : w_io w' = w_io w;
  th_ctx : w_ctx w' = w_ctx w;
  th_held : held_items w' ≡ₚ held_items w;
  th_list : ∀ j, 0 ≤ j < ENTRIES → sublist (r' j) (r j);
  th_items : ∀ j k, 0 ≤ j < ENTRIES → k ∈ r' j → item (ARP_PENDING_AT w' k) = item (ARP_PENDING_AT w k);
  th_row : ∀ j, 0 ≤ j < ENTRIES → row_live w' j = true →
    row_live w j = true ∧ (ARP_AT w' j) <| e_pending := 0 |> = (ARP_AT w j) <| e_pending := 0 |> }.

Lemma thinned_refl w r : RepR c w r → thinned w r w r.
Proof. intros HR. by split. Qed.
Lemma thinned_trans w r w1 r1 w2 r2 : thinned w r w1 r1 → thinned w1 r1 w2 r2 → thinned w r w2 r2.
Proof.
  intros [? Hio Hctx Hh Hl Hi Hr] [HR2 Hio' Hctx' Hh' Hl' Hi' Hr']. split; [done|congruence|congruence|by rewrite Hh'| | |].
  - intros j Hj. etrans; [by apply Hl'|by apply Hl].
  - intros j k Hj Hk. rewrite (Hi' j k Hj Hk). apply (Hi j k Hj). eapply sublist_subseteq; [by apply Hl'|done].
  - intros j Hj Hlj. destruct (Hr' j Hj Hlj) as [Hl1 He1]. destruct (Hr j Hj Hl1) as [Hl2 He2]. split; [done|congruence].
Qed.

Lemma thinned_row_for w r w' r' i ip : thinned w r w' r' → row_for c w' i ip → row_for c w i ip.
Proof.
  intros HT (Hi & Hl & Hs). destruct (th_row _ _ _ _ HT i Hi Hl) as [Hl' He]. split_and!; [lia..|done|].
  pose proof (f_equal e_spa He) as Hse. change (e_spa (ARP_AT w' i) = e_spa (ARP_AT w i)) in Hse. congruence.
Qed.

Lemma thinned_waits w r w' r' ip : RepR c w r → thinned w r w' r' → sublist (waits c w' ip) (waits c w ip).
Proof.
  intros HR HT. pose proof (th_rep _ _ _ _ HT) as HR'. destruct (row_of_cases c Hc w' r' ip HR') as [(i & Hf & _)|[Hn _]].
  - rewrite (waits_at c Hc w' r' i ip HR' Hf), (waits_at c Hc w r i ip HR) by (by apply (thinned_row_for w r w' r')). destruct Hf as (Hi & _).
    replace (items w' (r' i)) with (items w (r' i)); [apply fmap_sublist; by apply HT|]. unfold items. apply list_fmap_ext.
    intros n k Hk. symmetry. apply (th_items _ _ _ _ HT i k Hi). by eapply list_elem_of_lookup_2.
  - rewrite (waits_none c Hc w' r' ip HR' Hn). apply sublist_nil_l.
Qed.

Lemma thinned_known w r w' r' ip : RepR c w r → thinned w r w' r' → known c w' ip = known c w ip ∨ known c w' ip = None.
Proof.
  intros HR HT. pose proof (th_rep _ _ _ _ HT) as HR'. destruct (row_of_cases c Hc w' r' ip HR') as [(i & Hf & _)|[Hn _]].
  - left. rewrite (known_at c Hc w' r' i ip HR' Hf), (known_at c Hc w r i ip HR) by (by apply (thinned_row_for w r w' r')). destruct Hf as (Hi & Hl & _).
    destruct (th_row _ _ _ _ HT i Hi Hl) as [_ He]. pose proof (f_equal e_state He) as Hst. pose proof (f_equal e_sha He) as Hsh. pose proof (f_equal e_netif He) as Hn.
    change (e_state (ARP_AT w' i) = e_state (ARP_AT w i)) in Hst. change (e_sha (ARP_AT w' i) = e_sha (ARP_AT w i)) in Hsh.
    change (e_netif (ARP_AT w' i) = e_netif (ARP_AT w i)) in Hn. by rewrite Hst, Hsh, Hn.
  - right. by apply (known_none c Hc w' r').
Qed.

Lemma free_thins w r i : RepR c w r → 0 ≤ i < ENTRIES → row_live w i = true → thinned w r (arp_row_free c w i) (<[i := []]> r).
Proof.
  intros HR Hi Hl. destruct (row_free_spec c Hc w r i HR Hi Hl) as (HR' & Hio & Hctx & Hrow & Hhold & Hp). split; try done.
  - intros j Hj. destruct (decide (j = i)) as [->|]; [rewrite fn_lookup_insert; apply sublist_nil_l|by rewrite fn_lookup_insert_ne].
  - intros j k Hj Hk. destruct (decide (j = i)) as [->|Hne]; [rewrite fn_lookup_insert in Hk; set_solver|]. rewrite fn_lookup_insert_ne in Hk by done.
    destruct (rep_rows c w r j k HR Hj Hk) as [[Hk0 _] _]. rewrite Hhold by done. destruct (decide (k ∈ r i)); done.
  - intros j Hj. unfold row_live. rewrite Hrow by lia. destruct (decide (j = i)); done.
Qed.

Lemma age_thins w r now (n : nat) : RepR c w r → Z.of_nat n ≤ ENTRIES →
  ∃ r', thinned w r (fold_left (age_row c now) (seqZ 0 (Z.of_nat n)) w) r'.
Proof.
  intros HR. induction n as [|n IH]; intros Hn; [exists r; by apply thinned_refl|]. destruct (IH ltac:(lia)) as [r1 HT].
  replace (Z.of_nat (S n)) with (Z.of_nat n + 1) by lia. rewrite seqZ_app, fold_left_app by lia. rewrite Z.add_0_l. change (seqZ (Z.of_nat n) 1) with [Z.of_nat n].
  cbn [fold_left]. set (w1 := fold_left _ _ _) in *. pose proof (th_rep _ _ _ _ HT) as HR1. unfold age_row at 1.
  destruct (row_free (ARP_AT w1 (Z.of_nat n))) eqn:Ef; [by exists r1|]. match goal with |- context [if ?b then arp_row_free c w1 _ else w1] => destruct b end; [|by exists r1].
  exists (<[Z.of_nat n := []]> r1). eapply thinned_trans; [exact HT|]. apply free_thins; [done|lia|]. unfold row_live. by rewrite Ef.
Qed.

Lemma expire_one w r now h : RepR c w r → 0 ≤ h < PENDING → ∃ r', thinned w r (expire_hold c now w h) r'.
Proof.
  intros HR Hh. unfold expire_hold. destruct (negb (hold_in ARP_HOLD_WAIT (ARP_PENDING_AT w h)) || _) eqn:E; [exists r; by apply thinned_refl|].
  apply orb_false_iff in E as [Ew _]. apply negb_false_iff in Ew.
  destruct (threaded_on _ _ _ _ _ _ _ _ h (rp_thr c w r HR)) as (i & Hi & Hin); [by rewrite (rp_pend c w r HR)|exact Ew|].
  destruct (rp_row c w r HR i h Hi Hin) as [He _]. rewrite He. assert (i ≠ NONE) as HiN by (destruct Hc; lia). rewrite (proj2 (Z.eqb_neq _ _) HiN). cbn [negb].
  apply list_elem_of_split in Hin as (l1 & l2 & Hr). set (w1 := arp_hold_unlink c w i h). set (p' := (ARP_PENDING_AT w1 h) <| p_entry := NONE |> <| p_state := ARP_HOLD_RECLAIM |>).
  destruct (unlink_rep c Hc w r i h l1 l2 p' HR Hi Hr ltac:(done)) as (Hio & Hctx & Htl & Hpl & Hthr & Hrow & Hph & Hhold & Hun & Hit).
  assert (held_by p' = [item (ARP_PENDING_AT w h)]) as Hb by exact (f_equal (λ p, [item p]) Hun). rewrite Hb in Hit. apply Permutation_app_inv_r in Hit.
  exists (<[i := l1 ++ l2]> r). fold w1 in Hio, Hctx, Htl, Hpl, Hthr, Hrow, Hph, Hhold, Hit. set (w2 := put_hold w1 h p') in *.
  assert (rows_kept w w2) as Hrk by (intros j Hj; apply Hrow; lia).
  assert (RepR c w2 (<[i := l1 ++ l2]> r)) as HR2.
  { apply (spliced_rep w r _ i l1 h l2); try done. rewrite Hctx, (rp_held c w r HR). f_equal. symmetry. by apply Permutation_length. }
  split; try done.
  - intros j Hj. destruct (decide (j = i)) as [->|]; [rewrite fn_lookup_insert, Hr|by rewrite fn_lookup_insert_ne]. apply sublist_app; [done|]. by apply sublist_cons.
  - intros j k Hj Hk. destruct (decide (k = h)) as [->|Hkh]; [rewrite Hph; exact (f_equal item Hun)|].
    destruct (rep_rows c w2 _ j k HR2 Hj Hk) as [[Hk0 _] _]. exact (f_equal item (Hhold k Hk0 Hkh)).
  - intros j Hj Hl. destruct (Hrk j Hj) as [Hl' Hej]. split; [congruence|done].
Qed.

Lemma expire_thins w r now (n : nat) : RepR c w r → Z.of_nat n ≤ PENDING →
  ∃ r', thinned w r (fold_left (expire_hold c now) (seqZ 0 (Z.of_nat n)) w) r'.
Proof.
  intros HR. induction n as [|n IH]; intros Hn; [exists r; by apply thinned_refl|]. destruct (IH ltac:(lia)) as [r1 HT].
  replace (Z.of_nat (S n)) with (Z.of_nat n + 1) by lia. rewrite seqZ_app, fold_left_app by lia. rewrite Z.add_0_l. change (seqZ (Z.of_nat n) 1) with [Z.of_nat n].
  cbn [fold_left]. set (w1 := fold_left _ _ _) in *. destruct (expire_one w1 r1 now (Z.of_nat n) (th_rep _ _ _ _ HT) ltac:(lia)) as [r2 HT2].
  exists r2. by eapply thinned_trans.
Qed.

(** ** One report of the tick *)

(** A hold on no list is rewritten, still on none. *)
Lemma off_list_rep w r w' h p' : RepR c w r → 0 ≤ h < PENDING → p_state (ARP_PENDING_AT w h) ≠ ARP_HOLD_WAIT → p_state p' ≠ ARP_HOLD_WAIT →
  w_tab w' = w_tab w → w_pend w' = tset (w_pend w) h p' → c_held (w_ctx w') = Z.of_nat (length (held_items w')) → RepR c w' r.
Proof.
  intros HR Hh Hs Hs' Htab Hpend Hheld. pose proof HR as [Htl Hpl Hthr Hrw Hkey Huniq _].
  assert (∀ k, 0 ≤ k → k ≠ h → ARP_PENDING_AT w' k = ARP_PENDING_AT w k) as Hhold by (intros; unfold ARP_PENDING_AT; rewrite Hpend; by rewrite tget_tset_ne by lia).
  assert (∀ i k, 0 ≤ i < ENTRIES → k ∈ r i → 0 ≤ k ∧ k ≠ h) as Hoff.
  { intros i k Hi Hk. destruct (rep_rows c w r i k HR Hi Hk) as [[? _] Hst]. split; [done|]. intros ->. congruence. }
  assert (∀ i, ARP_AT w' i = ARP_AT w i) as Hrow by (intros; unfold ARP_AT; by rewrite Htab).
  split; [by rewrite Htab|by rewrite Hpend, tlen_tset| |..].
  - destruct Hthr as [[Hnd Hown] Hch]. split.
    + split; [done|]. intros k. rewrite Hown, Hpend, tlen_tset. split; intros [Hk Hm]; (split; [done|]); unfold marks in *.
      * destruct (decide (k = h)) as [->|Hkh]; [|by rewrite tget_tset_ne by lia]. unfold hold_in in Hm. apply bool_decide_eq_true in Hm. by fold (ARP_PENDING_AT w h) in Hm.
      * destruct (decide (k = h)) as [->|Hkh]; [|by rewrite tget_tset_ne in Hm by lia]. rewrite tget_tset_eq in Hm by (rewrite Hpl; done).
        unfold hold_in in Hm. by apply bool_decide_eq_true in Hm.
    + intros q Hq. unfold row_live, row_head. rewrite Hrow. specialize (Hch q Hq). unfold row_live, row_head in Hch.
      destruct (negb (row_free (ARP_AT w q))); [|done]. eapply chain_ext; [|exact Hch]. intros k Hk. unfold links.
      fold (ARP_PENDING_AT w k) (ARP_PENDING_AT w' k). destruct (Hoff q k Hq Hk). by rewrite Hhold.
  - intros i k Hi Hk. rewrite Hrow. destruct (Hoff i k Hi Hk). rewrite Hhold by done. by apply Hrw.
  - intros i. unfold row_live. rewrite Hrow. by apply Hkey.
  - intros i j. unfold row_live. rewrite !Hrow. by apply Huniq.
  - done.
Qed.

Lemma off_list_waits w r w' h p' ip : RepR c w r → RepR c w' r → 0 ≤ h < PENDING → p_state (ARP_PENDING_AT w h) ≠ ARP_HOLD_WAIT →
  w_tab w' = w_tab w → w_pend w' = tset (w_pend w) h p' → waits c w' ip = waits c w ip ∧ known c w' ip = known c w ip.
Proof.
  intros HR HR' Hh Hs Htab Hpend.
  assert (rows_kept w w') as Hrk by (intros j Hj; unfold row_live, ARP_AT; by rewrite Htab).
  split; [|by apply (kept_known w w' r r)]. apply (waits_from c Hc w r w' r); [done..| |].
  - intros i Hf Hz. split; [by apply (kept_row_for w w')|]. unfold items. apply list_fmap_ext. intros n k Hk. apply list_elem_of_lookup_2 in Hk.
    destruct Hf as (Hi & _). destruct (rep_rows c w r i k HR Hi Hk) as [[? _] Hst]. assert (k ≠ h) as Hkh by (intros ->; congruence).
    unfold ARP_PENDING_AT. rewrite Hpend. by rewrite tget_tset_ne by lia.
  - intros i Hf Hz. split; [by apply (kept_row_for w w')|done].
Qed.

(** A descriptor handed back, if one is waiting to be. *)
Lemma reclaim_spec w r : RepR c w r →
  let '(w', found) := arp_report_reclaim c w in
  RepR c w' r ∧ c_ready (w_ctx w') = c_ready (w_ctx w) ∧ (∀ ip, waits c w' ip = waits c w ip) ∧ (∀ ip, known c w' ip = known c w ip) ∧
  if (found : bool) then ∃ p, In p (w_pend w) ∧ p_state p = ARP_HOLD_RECLAIM ∧ held_items w ≡ₚ item p :: held_items w' ∧
    w_io w' = (w_io w) <| io_desc := p_desc p |> <| io_len := p_len p |> <| io_ip := p_spa p |>
  else w' = w ∧ Forall (λ p, p_state p ≠ ARP_HOLD_RECLAIM) (w_pend w).
Proof.
  intros HR. pose proof (rp_pend c w r HR) as Hpl. unfold arp_report_reclaim. destruct (scan _ _ _) as [h|] eqn:E.
  - apply scan_Some in E as (Hh & Hp & _). destruct Hc as [_ HP]. rewrite Z2Nat.id in Hh by lia. unfold hold_in in Hp. apply bool_decide_eq_true in Hp.
    set (w1 := put_io w _). set (w2 := put_hold w1 h pending_zero).
    pose proof (items_tset (w_pend w) h pending_zero ltac:(lia)) as Hit. fold (ARP_PENDING_AT w h) in Hit.
    assert (held_by (ARP_PENDING_AT w h) = [item (ARP_PENDING_AT w h)]) as Hb by (unfold held_by, hold_in; by rewrite Hp). rewrite Hb in Hit.
    change (held_by pending_zero) with (@nil (Z * Z * Z)) in Hit. rewrite app_nil_r in Hit.
    assert (held_items w ≡ₚ item (ARP_PENDING_AT w h) :: held_items w2) as Hperm by (unfold held_items at 1; rewrite <- Hit; symmetry; apply Permutation_cons_append).
    destruct (drop_held_spec w2) as (Htab & Hpend & Hio' & Hrd & Hcnt).
    { change (w_ctx w2) with (w_ctx w). rewrite (rp_held c w r HR), Hperm. cbn [length]. lia. } { apply (held_range w r HR). }
    assert (w_pend (drop_held w2) = tset (w_pend w) h pending_zero) as Hpt by (by rewrite Hpend).
    assert (held_items (drop_held w2) = held_items w2) as Hits by (unfold held_items; by rewrite Hpend).
    assert (RepR c (drop_held w2) r) as HR'.
    { apply (off_list_rep w r _ h pending_zero); try (done || lia || congruence). rewrite Hcnt, Hits. change (w_ctx w2) with (w_ctx w).
      rewrite (rp_held c w r HR), Hperm. cbn [length]. lia. }
    split_and!; [done|by rewrite Hrd|intros ip; apply (off_list_waits w r _ h pending_zero); (done || lia || congruence)..|].
    exists (ARP_PENDING_AT w h). split_and!; [|done|by rewrite Hits|by rewrite Hio'].
    unfold ARP_PENDING_AT, tget. apply list_elem_of_In, list_elem_of_lookup_total_2. unfold tlen in Hpl. lia.
  - split_and!; try done. rewrite scan_None in E. apply Forall_lookup. intros k p Hk. pose proof (lookup_lt_Some _ _ _ Hk).
    destruct Hc as [_ HP]. rewrite Z2Nat.id in E by lia. unfold tlen in Hpl. specialize (E (Z.of_nat k) ltac:(lia)). unfold hold_in in E.
    apply bool_decide_eq_false in E. unfold ARP_PENDING_AT, tget in E. by rewrite Nat2Z.id, (list_lookup_total_correct _ _ _ Hk) in E.
Qed.

(** A row a REQUEST is due for, if there is one. *)
Definition request_due (now : Z) (e : ArpEntry) : Prop :=
  e_state e = IDEMIP_ARP_STATE_PENDING ∧ (e_tries e = 0 ∨ ARP_REQUEST_MIN_MS ≤ u32 (now - e_req_ms e)).

Lemma request_spec w r now : RepR c w r →
  let '(w', found) := arp_report_request c w now in
  RepR c w' r ∧ w_ctx w' = w_ctx w ∧ w_pend w' = w_pend w ∧ (∀ ip, waits c w' ip = waits c w ip) ∧ (∀ ip, known c w' ip = known c w ip) ∧
  io_len (w_io w') = io_len (w_io w) ∧
  if (found : bool) then ∃ i, row_for c w i (io_ip (w_io w')) ∧ request_due now (ARP_AT w i) ∧ e_req_ms (ARP_AT w' i) = now ∧
    (∀ j, 0 ≤ j → j ≠ i → ARP_AT w' j = ARP_AT w j)
  else w' = w ∧ ∀ i, 0 ≤ i < ENTRIES → ¬ request_due now (ARP_AT w i).
Proof.
  intros HR. pose proof (rp_tab c w r HR) as Htl. unfold arp_report_request. destruct (scan _ _ _) as [i|] eqn:E.
  - apply scan_Some in E as (Hi & Hp & _). destruct Hc as [HE _]. rewrite Z2Nat.id in Hi by lia. apply andb_true_iff in Hp as [Hst Hdue].
    apply bool_decide_eq_true in Hst. set (e1 := (ARP_AT w i) <| e_req_ms := now |> <| e_tries := _ |>). set (w1 := put_row w i e1).
    assert (row_live w i = true) as Hl by (unfold row_live, row_free; by rewrite Hst).
    assert (RepR c w1 r) as HR1.
    { apply (put_row_rep c Hc); [done|lia| |done|].
      - change (live_entry e1) with (row_live w i). rewrite Hl. by left.
      - intros _. destruct (rp_key c w r HR i ltac:(lia) Hl) as [Hpr Hz]. split_and!; [done..|]. intros k Hk Hki Hlk Hsk. apply Hki. apply (rp_uniq c w r HR); (done || lia). }
    set (w2 := put_io w1 _). assert (RepR c w2 r) as HR2 by (by apply (rep_same c w1)).
    split_and!; try done.
    + intros ip. change (waits c w2 ip) with (waits c w1 ip). apply (waits_put_row c Hc w r); [done|done|lia|]. right. split_and!; try done.
    + intros ip. change (known c w2 ip) with (known c w1 ip). destruct (decide (e_spa (ARP_AT w i) = ip)) as [<-|Hne].
      * rewrite (known_at c Hc w r i) by (done || (split_and!; (done || lia))). rewrite (known_at c Hc w1 r i).
        -- unfold w1. rewrite row_at, decide_True by (done || lia). change (e_state e1) with (e_state (ARP_AT w i)). by rewrite Hst.
        -- done.
        -- apply row_for_put; [done|lia|]. rewrite decide_True by done. done.
      * apply (known_put_other c Hc w r); [done|done|lia|done|]. intros (_ & _ & Hs). done.
    + exists i. split_and!; try (done || lia).
      * split; [exact Hst|]. apply negb_true_iff, andb_false_iff in Hdue as [Hd|Hd]; [left; by apply negb_false_iff, Z.eqb_eq in Hd|right; by apply Z.ltb_ge in Hd].
      * change (ARP_AT w2 i) with (ARP_AT w1 i). unfold w1. rewrite row_at, decide_True by (done || lia). done.
      * intros j Hj Hji. change (ARP_AT w2 j) with (ARP_AT w1 j). unfold w1. by rewrite row_at, decide_False by (done || lia).
  - split_and!; try done. rewrite scan_None in E. intros i Hi [Hst Hd]. destruct Hc as [HE _]. rewrite Z2Nat.id in E by lia. specialize (E i ltac:(lia)).
    rewrite Hst in E. change (bool_decide (IDEMIP_ARP_STATE_PENDING = IDEMIP_ARP_STATE_PENDING)) with true in E. cbn [andb] in E.
    apply negb_false_iff, andb_true_iff in E as [E1 E2]. apply negb_true_iff, Z.eqb_neq in E1. apply Z.ltb_lt in E2. destruct Hd; lia.
Qed.

End Steps.
End ArpSteps.
