(* ===== verification/ArpEffects.v ===== *)
(** * What each call on the ARP table promises

    The contract of every entry of arp_table.c on what a caller sees: which frames wait for which address
    and in which order, and which descriptors the table holds; and that every entry keeps it. *)
From stdpp Require Import functions.
From S2P Require Import Prelude Base Chain Threaded Arp ArpTable ArpRep ArpSteps.

Module ArpEffects.
Import Arp ArpTable ArpRep ArpViews ArpSteps.

Local Abbreviation NONE := IDEMIP_ARP_INDEX_NONE.

Inductive arp_op : Type := AClear | AAdd | AFind | ARemove | AInput | AQueue | ADequeue | ATick.

Section Effects.
Variable c : config.
Local Abbreviation ENTRIES := (IDEMIP_ARP_ENTRIES c).
Local Abbreviation PENDING := (IDEMIP_ARP_PENDING c).
Implicit Types (w : Work) (r : Z → list Z) (ip : Z).

Definition arp_call (o : arp_op) : Work → Work :=
  match o with
  | AClear => idemip_arp_clear c
  | AAdd => idemip_arp_add c
  | AFind => idemip_arp_find c
  | ARemove => idemip_arp_remove c
  | AInput => idemip_arp_input c
  | AQueue => idemip_arp_queue c
  | ADequeue => idemip_arp_dequeue c
  | ATick => idemip_arp_tick c
  end.

(** ** The frames waiting for an address *)
Definition reported w : Z * Z * Z := (io_ip (w_io w), io_desc (w_io w), io_len (w_io w)).
Definition asked w : Z * Z * Z := let a := queue_args (w_io w) in (q_ip a, q_desc a, q_len a).
Definition waits_kept w w' : Prop := ∀ ip, waits c w' ip = waits c w ip.

Definition wait_effect (o : arp_op) w w' : Prop :=
  match o, io_status (w_io w') with
  | AClear, _ => ∀ ip, waits c w' ip = []
  | AQueue, IDEMIP_OK =>
      known c w (q_ip (queue_args (w_io w))) = None ∧
      ∀ ip, waits c w' ip = if decide (ip = q_ip (queue_args (w_io w))) then waits c w ip ++ [asked w] else waits c w ip
  | ADequeue, IDEMIP_OK =>
      (∃ sha, io_mac (w_io w') = Some sha ∧ known c w (io_ip (w_io w')) = Some (sha, io_netif (w_io w'))) ∧
      waits c w (io_ip (w_io w')) = reported w' :: waits c w' (io_ip (w_io w')) ∧
      ∀ ip, ip ≠ io_ip (w_io w') → waits c w' ip = waits c w ip
  | ADequeue, IDEMIP_BUSY => waits_kept w w' ∧ ∀ ip, known c w ip ≠ None → waits c w ip = []
  | ARemove, IDEMIP_OK => ∀ ip, waits c w' ip = if decide (ip = remove_spa (remove_args (w_io w))) then [] else waits c w ip
  | ATick, _ => ∀ ip, sublist (waits c w' ip) (waits c w ip)
  | _, _ => waits_kept w w'
  end.

(** ** The descriptors held *)
Definition hold_effect (o : arp_op) w w' : Prop :=
  match o, io_status (w_io w') with
  | AClear, _ => held_items w' = []
  | AQueue, IDEMIP_OK => held_items w' ≡ₚ asked w :: held_items w
  | ADequeue, IDEMIP_OK => held_items w ≡ₚ reported w' :: held_items w'
  | ATick, IDEMIP_OK => if io_len (w_io w') =? 0 then held_items w' ≡ₚ held_items w else held_items w ≡ₚ reported w' :: held_items w'
  | _, _ => held_items w' ≡ₚ held_items w
  end.

(** ** The invariant *)
Definition lens_ok w : Prop := Forall (λ x : Z * Z * Z, x.2 ≠ 0) (held_items w).
Definition Rep w : Prop := arp_ready w = true → (∃ r, RepR c w r) ∧ lens_ok w.

Context (Hc : config_ok c).

Lemma clear_rep w : RepR c (idemip_arp_clear c w) (λ _, []).
Proof.
  destruct Hc as [HE HP].
  assert (∀ i, ARP_AT (idemip_arp_clear c w) i = entry_zero) as Hrow.
  { intros i. unfold ARP_AT, tget. change (w_tab (idemip_arp_clear c w)) with (replicate (Z.to_nat ENTRIES) entry_zero).
    destruct (decide (Z.to_nat i < Z.to_nat ENTRIES)%nat); [by apply lookup_total_replicate_2|].
    rewrite list_lookup_total_alt, lookup_ge_None_2 by (rewrite length_replicate; lia). done. }
  assert (∀ k, ARP_PENDING_AT (idemip_arp_clear c w) k = pending_zero) as Hhold.
  { intros i. unfold ARP_PENDING_AT, tget. change (w_pend (idemip_arp_clear c w)) with (replicate (Z.to_nat PENDING) pending_zero).
    destruct (decide (Z.to_nat i < Z.to_nat PENDING)%nat); [by apply lookup_total_replicate_2|].
    rewrite list_lookup_total_alt, lookup_ge_None_2 by (rewrite length_replicate; lia). done. }
  split.
  - unfold tlen. change (w_tab (idemip_arp_clear c w)) with (replicate (Z.to_nat ENTRIES) entry_zero). rewrite length_replicate. lia.
  - unfold tlen. change (w_pend (idemip_arp_clear c w)) with (replicate (Z.to_nat PENDING) pending_zero). rewrite length_replicate. lia.
  - split.
    + assert (owned ENTRIES (λ _, []) = []) as -> by (unfold owned; induction (seqZ 0 ENTRIES) as [|x l IH]; [done|by rewrite bind_cons, IH]).
      split; [constructor|]. intros k. split; [set_solver|]. unfold marks. fold (ARP_PENDING_AT (idemip_arp_clear c w) k). rewrite Hhold. by intros [].
    + intros q Hq. unfold row_live. by rewrite Hrow.
  - intros i k _ Hk. set_solver.
  - intros i Hi. unfold row_live. by rewrite Hrow.
  - intros i j Hi Hj. unfold row_live. by rewrite !Hrow.
  - change (w_ctx (idemip_arp_clear c w)) with (mkCtx ARP_READY 0 0). unfold held_items.
    change (w_pend (idemip_arp_clear c w)) with (replicate (Z.to_nat PENDING) pending_zero). induction (Z.to_nat PENDING); done.
Qed.

Lemma clear_step w : Rep (idemip_arp_clear c w) ∧ wait_effect AClear w (idemip_arp_clear c w) ∧ hold_effect AClear w (idemip_arp_clear c w).
Proof.
  assert (held_items (idemip_arp_clear c w) = []) as Hh.
  { unfold held_items. change (w_pend (idemip_arp_clear c w)) with (replicate (Z.to_nat PENDING) pending_zero). by induction (Z.to_nat PENDING). }
  split_and!; [|intros ip|exact Hh].
  - intros _. split; [exists (λ _, []); apply clear_rep|]. unfold lens_ok. rewrite Hh. constructor.
  - pose proof (clear_rep w) as HR. destruct (row_of_cases c Hc _ _ ip HR) as [(i & Hf & _)|[Hn _]]; [by rewrite (waits_at c Hc _ _ i ip HR Hf)|by apply (waits_none c Hc _ (λ _, []))].
Qed.
(** What a step must show. *)
Definition step_ok (o : arp_op) w w' : Prop := Rep w' ∧ wait_effect o w w' ∧ hold_effect o w w'.

(** A call that keeps both tables' views, and reports as one that does. *)
Lemma kept_step o w w' r : o = AAdd ∨ o = AFind ∨ o = AInput ∨ (o ≠ AClear ∧ io_status (w_io w') = IDEMIP_ERR) ∨ (o = AQueue ∧ io_status (w_io w') = IDEMIP_BUSY) →
  RepR c w' r → lens_ok w → waits_kept w w' → held_items w' ≡ₚ held_items w → step_ok o w w'.
Proof.
  intros Ho HR Hl Hw Hh. split_and!.
  - intros _. split; [by exists r|]. unfold lens_ok in *. by rewrite Hh.
  - unfold wait_effect. destruct Ho as [->|[->|[->|[[Hn ->]|[-> ->]]]]]; [by destruct (io_status (w_io w'))..| |done].
    destruct o; try done. intros ip. by rewrite (Hw ip).
  - unfold hold_effect. destruct Ho as [->|[->|[->|[[Hn ->]|[-> ->]]]]]; [by destruct (io_status (w_io w'))..| |done]. by destruct o.
Qed.

Lemma refused_step o w io : o ≠ AClear → Rep w → io_status io = IDEMIP_ERR → step_ok o w (put_io w io).
Proof.
  intros Ho HR Hst. split_and!.
  - intros Hr. destruct (HR Hr) as [[r HRr] Hl]. split; [exists r; by apply (rep_same c w)|done].
  - unfold wait_effect. change (io_status (w_io (put_io w io))) with (io_status io). rewrite Hst. destruct o; try done.
  - unfold hold_effect. change (io_status (w_io (put_io w io))) with (io_status io). rewrite Hst. destruct o; try done.
Qed.

Ltac refuse := apply refused_step; [done|done|reflexivity].

(** The case of a cleared borrow. *)
Lemma ready_cases w : Rep w → arp_ready w = false ∨ arp_ready w = true ∧ ∃ r, RepR c w r ∧ lens_ok w.
Proof. intros HR. destruct (arp_ready w) eqn:E; [right|by left]. destruct (HR E) as [[r ?] ?]. eauto. Qed.

Lemma add_step w : Rep w → step_ok AAdd w (idemip_arp_add c w).
Proof.
  intros HR. unfold idemip_arp_add. set (io := (w_io w) <| io_status := IDEMIP_ERR |> <| io_index := NONE |> <| io_merged := false |>).
  destruct (ready_cases w HR) as [->|(-> & r & HRr & Hl)]; cbn [negb]; [refuse|].
  destruct (add_sha (add_args io)) as [sha|]; [|refuse].
  destruct (Z.eqb_spec (add_pro (add_args io)) IDEMIP_ARP_PRO_IPV4) as [Hpro|]; cbn [negb orb]; [|refuse].
  destruct (Z.eqb_spec (add_spa (add_args io)) 0) as [|Hspa]; [refuse|]. rewrite Hpro.
  assert (RepR c (put_io w io) r) as HR0 by (by apply (rep_same c w)).
  pose proof (learn_spec c Hc (put_io w io) r (add_spa (add_args io)) sha (add_netif (add_args io)) (now_ms io) true HR0 Hspa) as Hlearn.
  destruct (arp_learn _ _ _ _ _ _ _ _) as [[w1 i] merged]. destruct Hlearn as [HR1 (Hw1 & Hpend & Hctx & _)].
  destruct (i =? NONE).
  - apply (kept_step _ _ _ r); [by left|by apply (rep_same c w1)|done|exact Hw1|]. unfold held_items. change (w_pend (put_io w1 ?x)) with (w_pend w1). by rewrite Hpend.
  - apply (kept_step _ _ _ r); [by left|by apply (rep_same c w1)|done|exact Hw1|]. unfold held_items. change (w_pend (put_io w1 ?x)) with (w_pend w1). by rewrite Hpend.
Qed.

Lemma find_step w : Rep w → step_ok AFind w (idemip_arp_find c w).
Proof.
  intros HR. unfold idemip_arp_find. set (io := _ <| io_netif := 0 |>).
  destruct (ready_cases w HR) as [->|(-> & r & HRr & Hl)]; cbn [negb]; [refuse|]. destruct (_ || _); [refuse|].
  destruct (_ =? NONE); [refuse|]. destruct (bool_decide _); (apply (kept_step _ _ _ r); [by right; left|by apply (rep_same c w)|done..]).
Qed.

Lemma input_step w : Rep w → step_ok AInput w (idemip_arp_input c w).
Proof.
  intros HR. unfold idemip_arp_input. set (io := _ <| io_index := NONE |>).
  destruct (ready_cases w HR) as [->|(-> & r & HRr & Hl)]; cbn [negb]; [refuse|]. destruct (in_packet (input_args io)) as [packet|]; [|refuse].
  destruct (arp_is_ethernet_ipv4 packet) eqn:Eth; cbn [negb]; [|refuse].
  assert (arp_pro packet = IDEMIP_ARP_PRO_IPV4) as -> by (unfold arp_is_ethernet_ipv4 in Eth; bool_prop; done).
  set (io1 := io <| io_conflict := _ |>). match goal with |- context [if ?b then _ else _] => destruct b eqn:Hb end.
  - apply andb_true_iff in Hb as [Hs _]. apply negb_true_iff, Z.eqb_neq in Hs. assert (RepR c (put_io w io1) r) as HR0 by (by apply (rep_same c w)).
    match goal with |- context [arp_learn c ?a ?b ?d ?e ?f ?g ?h] => pose proof (learn_spec c Hc (put_io w io1) r d e f g h HR0 Hs) as Hlearn; destruct (arp_learn c a b d e f g h) as [[w1 i] merged] end.
    destruct Hlearn as [HR1 (Hw1 & Hpend & Hctx & _)].
    apply (kept_step _ _ _ r); [by right; right; left|by apply (rep_same c w1)|done|exact Hw1|]. unfold held_items. change (w_pend (put_io w1 ?x)) with (w_pend w1). by rewrite Hpend.
  - apply (kept_step _ _ _ r); [by right; right; left|by apply (rep_same c w)|done..].
Qed.

Lemma remove_step w : Rep w → step_ok ARemove w (idemip_arp_remove c w).
Proof.
  intros HR. unfold idemip_arp_remove. set (io := (w_io w) <| io_status := IDEMIP_ERR |> <| io_index := NONE |>).
  destruct (ready_cases w HR) as [->|(-> & r & HRr & Hl)]; cbn [negb]; [refuse|].
  destruct (Z.eqb_spec (remove_pro (remove_args io)) IDEMIP_ARP_PRO_IPV4) as [Hpro|]; cbn [negb orb]; [|refuse].
  destruct (Z.eqb_spec (remove_spa (remove_args io)) 0) as [|Hspa]; [refuse|]. rewrite Hpro.
  destruct (row_find_spec c Hc w r (remove_spa (remove_args io)) HRr) as [(i & -> & Hn & Hi & Hlv & Hs)|[-> _]]; [|rewrite Z.eqb_refl; refuse].
  rewrite (proj2 (Z.eqb_neq _ _) Hn). set (w' := put_io (arp_row_free c w i) _).
  pose proof (free_thins c Hc w r i HRr Hi Hlv) as HT. destruct (row_free_spec c Hc w r i HRr Hi Hlv) as (HR1 & _ & _ & Hrow & Hhold & Hp).
  assert (RepR c w' (<[i := []]> r)) as HR' by (by apply (rep_same c (arp_row_free c w i))).
  split_and!; [|unfold wait_effect; change (io_status (w_io w')) with IDEMIP_OK; cbv iota|exact Hp].
  - intros _. split; [by exists (<[i := []]> r)|]. unfold lens_ok. change (held_items w') with (held_items (arp_row_free c w i)). by rewrite Hp.
  - intros ip. change (remove_spa (remove_args (w_io w))) with (remove_spa (remove_args io)). rewrite <- Hs.
    change (waits c w' ip) with (waits c (arp_row_free c w i) ip). case_decide as Hip.
    + apply (waits_none c Hc _ (<[i := []]> r)); [done|]. intros j Hf. pose proof (thinned_row_for c _ _ _ _ _ _ HT Hf) as Hf0.
      assert (j = i) as -> by (apply (row_for_inj c w r j i ip HRr); done). destruct Hf as (_ & Hlf & _). unfold row_live in Hlf.
      rewrite Hrow, decide_True in Hlf by (done || lia). done.
    + apply (waits_from c Hc w r _ (<[i := []]> r)); [done..| |].
      * intros j (Hj & Hlj & Hsj) Hz. assert (j ≠ i) as Hji by (intros ->; congruence). split.
        -- unfold row_for, row_live. rewrite Hrow, decide_False by (done || lia). done.
        -- rewrite fn_lookup_insert_ne by done. unfold items. apply list_fmap_ext. intros n k Hk. apply list_elem_of_lookup_2 in Hk.
           apply (th_items _ _ _ _ _ HT j k Hj). by rewrite fn_lookup_insert_ne.
      * intros j Hf Hz. split; [by apply (thinned_row_for c _ _ _ _ _ _ HT)|]. destruct (decide (j = i)) as [->|]; [by rewrite fn_lookup_insert in Hz|by rewrite fn_lookup_insert_ne in Hz].
Qed.

(** ** Frames queued and taken *)

(** A hold goes on the list of the row the address has. *)
Lemma take_waits w r i h : RepR c w r → row_for c w i (q_ip (queue_args (w_io w))) → 0 ≤ h < PENDING → p_state (ARP_PENDING_AT w h) = ARP_HOLD_FREE →
  let w' := take_hold c w i h in
  RepR c w' (<[i := r i ++ [h]]> r) ∧ held_items w' ≡ₚ asked w :: held_items w ∧
  ∀ ip, waits c w' ip = if decide (ip = q_ip (queue_args (w_io w))) then waits c w ip ++ [asked w] else waits c w ip.
Proof.
  intros HR (Hi & Hl & Hs) Hh Hf w'. destruct (take_hold_rep c Hc w r i h HR Hi Hl Hh Hf Hs) as (HR' & Hio & _ & Hrow & Hhold & Hst & Hit & _ & Hp).
  fold w' in HR', Hio, Hrow, Hhold, Hst, Hit, Hp. split_and!; [done|done|]. intros ip.
  assert (∀ j k, 0 ≤ j < ENTRIES → k ∈ r j → 0 ≤ k ∧ k ≠ h) as Hoff.
  { intros j k Hj Hk. destruct (rep_rows c w r j k HR Hj Hk) as [[? _] Hks]. split; [done|]. intros ->. congruence. }
  assert (∀ j, 0 ≤ j < ENTRIES → items w' (r j) = items w (r j)) as Hitems.
  { intros j Hj. eapply kept_items; [exact Hhold|]. intros k Hk. by apply (Hoff j). }
  case_decide as Hip.
  - rewrite (waits_at c Hc w' _ i ip HR') by (apply (kept_row_for c w w'); [done|]; subst ip; done).
    rewrite (waits_at c Hc w r i ip HR) by (subst ip; done). rewrite fn_lookup_insert. unfold items. rewrite fmap_app.
    change ((λ k, item (ARP_PENDING_AT w' k)) <$> r i) with (items w' (r i)). rewrite Hitems by done. cbn [fmap list_fmap]. by rewrite Hit.
  - apply (waits_from c Hc w r w' (<[i := r i ++ [h]]> r)); [done..| |].
    + intros j Hfj Hz. assert (j ≠ i) as Hji by (intros ->; destruct Hfj as (_ & _ & Hsj); congruence). split; [by apply (kept_row_for c w w')|].
      rewrite fn_lookup_insert_ne by done. apply Hitems, Hfj.
    + intros j Hfj Hz. apply (kept_row_for c w w') in Hfj; [|done]. split; [done|]. assert (j ≠ i) as Hji by (intros ->; destruct Hfj as (_ & _ & Hsj); congruence).
      by rewrite fn_lookup_insert_ne in Hz by done.
Qed.

Lemma hold_free_spec w r : RepR c w r →
  arp_hold_free c w = NONE ∨ (0 ≤ arp_hold_free c w < PENDING ∧ p_state (ARP_PENDING_AT w (arp_hold_free c w)) = ARP_HOLD_FREE).
Proof.
  intros HR. unfold arp_hold_free. destruct (scan _ _ _) as [h|] eqn:E; cbn [from_option id]; [right|by left].
  apply scan_Some in E as (Hh & Hp & _). destruct Hc as [_ HP]. rewrite Z2Nat.id in Hh by lia. split; [lia|]. unfold hold_in in Hp. by apply bool_decide_eq_true in Hp.
Qed.

(** From a table [w1] that waits and holds as [w], with a row for the address and a hold free. *)
Lemma queued_ok w w1 r i h io : RepR c w1 r → lens_ok w → io_status io = IDEMIP_OK → w_io w1 = w_io w → w_pend w1 = w_pend w → waits_kept w w1 →
  known c w (q_ip (queue_args (w_io w))) = None → q_len (queue_args (w_io w)) ≠ 0 →
  row_for c w1 i (q_ip (queue_args (w_io w))) → 0 ≤ h < PENDING → p_state (ARP_PENDING_AT w h) = ARP_HOLD_FREE →
  step_ok AQueue w (put_io (take_hold c w1 i h) io).
Proof.
  intros HR Hl Hst Hio Hpend Hw Hk Hlen Hf Hh Hfree. assert (p_state (ARP_PENDING_AT w1 h) = ARP_HOLD_FREE) as Hfree1 by (unfold ARP_PENDING_AT; by rewrite Hpend).
  destruct (take_waits w1 r i h HR) as (HR' & Hp & Hws); [by rewrite Hio|done|done|].
  assert (held_items w1 = held_items w) as Hheld by (unfold held_items; by rewrite Hpend). assert (asked w1 = asked w) as Hask by (unfold asked; by rewrite Hio).
  rewrite Hheld, Hask in Hp. rewrite Hask, Hio in Hws. split_and!.
  - intros _. split; [eexists; by apply (rep_same c (take_hold c w1 i h))|]. unfold lens_ok. change (held_items (put_io ?a ?b)) with (held_items a). rewrite Hp. by constructor.
  - unfold wait_effect. change (io_status (w_io (put_io ?a io))) with (io_status io). rewrite Hst. split; [done|]. intros ip. rewrite <- (Hw ip). exact (Hws ip).
  - unfold hold_effect. change (io_status (w_io (put_io ?a io))) with (io_status io). rewrite Hst. exact Hp.
Qed.

Lemma queue_step w : Rep w → step_ok AQueue w (idemip_arp_queue c w).
Proof.
  intros HR. unfold idemip_arp_queue. set (io := (w_io w) <| io_status := IDEMIP_ERR |> <| io_index := NONE |>).
  destruct (ready_cases w HR) as [->|(-> & r & HRr & Hl)]; cbn [negb]; [refuse|].
  change (queue_args io) with (queue_args (w_io w)). change (now_ms io) with (now_ms (w_io w)). set (ip := q_ip (queue_args (w_io w))).
  destruct ((ip =? 0) || _ || _) eqn:Hg; [refuse|]. apply orb_false_iff in Hg as [Hg _]. apply orb_false_iff in Hg as [Hip Hlen].
  apply Z.eqb_neq in Hip, Hlen. assert (arp_hold_free c w = NONE ∨ _) as Hfree by exact (hold_free_spec w r HRr). set (h := arp_hold_free c w) in *.
  destruct (row_find_spec c Hc w r ip HRr) as [(i & -> & Hn & Hi & Hlv & Hs)|[-> Hnone]].
  - rewrite (proj2 (Z.eqb_neq _ _) Hn). cbn [negb andb]. destruct (bool_decide _) eqn:Hst; [refuse|].
    destruct ((h =? NONE) || _) eqn:Hh; [apply (kept_step _ _ _ r); [by right; right; right; right|by apply (rep_same c w)|done..]|].
    apply orb_false_iff in Hh as [Hh _]. apply Z.eqb_neq in Hh. destruct Hfree as [|[Hhr Hhf]]; [done|]. rewrite (proj2 (Z.eqb_neq _ _) Hn).
    apply (queued_ok w w r); try done. rewrite (known_at c Hc w r i) by done. by rewrite Hst.
  - rewrite Z.eqb_refl. cbn [negb andb].
    destruct ((h =? NONE) || _) eqn:Hh; [apply (kept_step _ _ _ r); [by right; right; right; right|by apply (rep_same c w)|done..]|].
    apply orb_false_iff in Hh as [Hh _]. apply Z.eqb_neq in Hh. destruct Hfree as [|[Hhr Hhf]]; [done|].
    destruct (row_take_cases c Hc w r (now_ms (w_io w)) HRr) as [[-> _]|(j & w1 & -> & Hj & Hjn & Hr & HR1 & Hl1 & Hpend & Hctx & Hio & Hw1 & Hfor & _ & _)].
    + rewrite Z.eqb_refl. cbv iota beta. rewrite Z.eqb_refl. apply (kept_step _ _ _ r); [by right; right; right; right|by apply (rep_same c w)|done..].
    + rewrite (proj2 (Z.eqb_neq _ _) Hjn). cbv iota beta. rewrite (proj2 (Z.eqb_neq _ _) Hjn). unfold arp_row_open. fold (opened ip (now_ms (w_io w))).
      pose proof (rp_tab c w1 r HR1) as Htl1. rewrite row_at, decide_True, put_put by (done || lia). set (e := (opened ip (now_ms (w_io w))) <| e_state := IDEMIP_ARP_STATE_PENDING |>).
      assert (∀ i, ¬ row_for c w i ip) as Hn0 by (intros i (Hi & Hli & Hsi); by apply (Hnone i)).
      assert (RepR c (put_row w1 j e) r) as HR2 by (apply (fresh_row c Hc w1); try done; intros i Hf; by apply (Hn0 i), Hfor).
      apply (queued_ok w (put_row w1 j e) r); try done.
      * intros ip'. rewrite <- Hw1. by apply (waits_put_row c Hc w1 r); [..|left].
      * by apply (known_none c Hc w r).
      * apply row_for_put; [done..|]. by rewrite decide_True.
Qed.

Lemma dequeue_step w : Rep w → step_ok ADequeue w (idemip_arp_dequeue c w).
Proof.
  intros HR. unfold idemip_arp_dequeue. set (io := (w_io w) <| io_status := IDEMIP_ERR |> <| io_desc := 0 |> <| io_len := 0 |> <| io_index := NONE |>).
  destruct (ready_cases w HR) as [->|(-> & r & HRr & Hl)]; cbn [negb]; [refuse|]. destruct (scan _ _ _) as [i|] eqn:E.
  - apply scan_Some in E as (Hi & Hp & _). assert (0 ≤ i < ENTRIES) as Hi' by (destruct Hc as [HE _]; rewrite Z2Nat.id in Hi by lia; lia). clear Hi. rename Hi' into Hi.
    apply negb_true_iff, orb_false_iff in Hp as [Hst Hhd]. apply negb_false_iff, bool_decide_eq_true in Hst. apply Z.eqb_neq in Hhd.
    assert (row_live w i = true) as Hlv by (unfold row_live, row_free; by rewrite Hst). set (h := e_pending (ARP_AT w i)) in *.
    pose proof (rep_chain c w r i HRr Hi Hlv) as Hch. destruct (r i) as [|h' l] eqn:Hr; [exfalso; exact (Hhd Hch)|]. assert (h' = h) as -> by (destruct Hch as [Hx _]; done).
    destruct (dequeue_hold c Hc w r i h l HRr Hi Hr) as (HR' & Hio & _ & Hrk & Hhk & Hun & Hei & Hperm).
    set (w1 := arp_hold_unlink c w i h) in *. set (w2 := drop_held (put_hold w1 h pending_zero)) in *.
    set (ip := e_spa (ARP_AT w i)). assert (row_for c w i ip) as Hf by done.
    assert (item (ARP_PENDING_AT w1 h) = item (ARP_PENDING_AT w h)) as Hit by exact (f_equal item Hun).
    assert (p_spa (ARP_PENDING_AT w1 h) = ip) as Hspa.
    { change (p_spa (ARP_PENDING_AT w1 h)) with (item (ARP_PENDING_AT w1 h)).1.1. rewrite Hit. apply (rp_row c w r HRr i h Hi). rewrite Hr. left. }
    assert (e_sha (ARP_AT w1 i) = e_sha (ARP_AT w i) ∧ e_netif (ARP_AT w1 i) = e_netif (ARP_AT w i)) as [Hsha Hnet] by (split; [exact (f_equal e_sha Hei)|exact (f_equal e_netif Hei)]).
    set (io' := _ <| io_status := IDEMIP_OK |>). set (w' := put_io w2 io').
    assert (io_ip (w_io w') = ip) as Hip' by exact Hspa. assert (reported w' = item (ARP_PENDING_AT w h)) as Hrep by exact Hit.
    split_and!.
    + intros _. split; [eexists; by apply (rep_same c w2)|]. unfold lens_ok in *. change (held_items w') with (held_items w2). rewrite Hperm in Hl. by apply Forall_cons in Hl as [_ ?].
    + unfold wait_effect. change (io_status (w_io w')) with IDEMIP_OK. cbv iota. rewrite Hip', Hrep.
      assert (∀ a, waits c w' a = if decide (a = ip) then items w l else waits c w a) as Hws.
      { intros a. apply (spliced_waits c Hc w r w2 i [] h l a HRr HR' Hi Hr Hrk Hhk). }
      split_and!.
      * exists (e_sha (ARP_AT w i)). rewrite (known_at c Hc w r i ip HRr Hf), Hst. change (io_mac (w_io w')) with (Some (e_sha (ARP_AT w1 i))).
        change (io_netif (w_io w')) with (e_netif (ARP_AT w1 i)). rewrite Hsha, Hnet. done.
      * rewrite (waits_at c Hc w r i ip HRr Hf), Hr, (Hws ip), decide_True by done. done.
      * intros a Ha. by rewrite (Hws a), decide_False.
    + unfold hold_effect. change (io_status (w_io w')) with IDEMIP_OK. cbv iota. rewrite Hrep. exact Hperm.
  - set (io' := _ <| io_status := IDEMIP_BUSY |>). set (w' := put_io w io').
    split_and!.
    + intros _. split; [exists r; by apply (rep_same c w)|done].
    + unfold wait_effect. change (io_status (w_io w')) with IDEMIP_BUSY. cbv iota. split; [done|]. intros ip Hk.
      destruct (row_of_cases c Hc w r ip HRr) as [(i & Hf & _)|[Hn _]]; [|by apply (waits_none c Hc w r)].
      rewrite (known_at c Hc w r i ip HRr Hf) in Hk. rewrite (waits_at c Hc w r i ip HRr Hf). destruct Hf as (Hi & Hlv & _).
      rewrite scan_None in E. destruct Hc as [HE _]. rewrite Z2Nat.id in E by lia. specialize (E i ltac:(lia)).
      destruct (bool_decide (e_state (ARP_AT w i) = IDEMIP_ARP_STATE_STABLE)); [|done]. cbn [negb orb] in E. apply negb_false_iff, Z.eqb_eq in E.
      by rewrite (proj1 (rep_nil c w r i HRr Hi Hlv) E).
    + exact (Permutation_refl (held_items w)).
Qed.

Lemma tick_step w : Rep w → step_ok ATick w (idemip_arp_tick c w).
Proof.
  intros HR. unfold idemip_arp_tick. set (io := _ <| io_index := NONE |>).
  destruct (ready_cases w HR) as [->|(-> & r & HRr & Hl)]; cbn [negb]; [refuse|]. set (w0 := put_io w io). set (now := now_ms io).
  match goal with |- context [arp_expire_holds c (if ?b then ?x else w0) now] => set (w1 := if b then x else w0) end.
  assert (RepR c w0 r) as HR0 by (by apply (rep_same c w)).
  assert (∃ r1, RepR c w1 r1 ∧ held_items w1 ≡ₚ held_items w ∧ io_len (w_io w1) = 0 ∧ ∀ ip, sublist (waits c w1 ip) (waits c w ip)) as (r1 & HR1 & Hh1 & Hio1 & Hs1).
  { unfold w1. destruct (_ || _); [|exists r; split_and!; done]. set (w0' := w0 <| w_ctx := _ |>). assert (RepR c w0' r) as HR0' by (by apply (rep_same c w0)).
    destruct (age_thins c Hc w0' r now (Z.to_nat ENTRIES) HR0') as [r1 HT]; [destruct Hc; lia|]. unfold arp_age_rows. rewrite Z2Nat.id in HT by (destruct Hc; lia).
    exists r1. split_and!; [apply HT|etrans; [apply HT|done]|by rewrite (th_io _ _ _ _ _ HT)|]. intros ip. exact (thinned_waits c Hc w0' r _ r1 ip HR0' HT). }
  destruct (expire_thins c Hc w1 r1 now (Z.to_nat PENDING) HR1) as [r2 HT2]; [destruct Hc; lia|]. unfold arp_expire_holds. rewrite Z2Nat.id in HT2 by (destruct Hc; lia).
  set (w2 := fold_left _ _ _) in *. pose proof (th_rep _ _ _ _ _ HT2) as HR2.
  assert (∀ ip, sublist (waits c w2 ip) (waits c w ip)) as Hs2 by (intros ip; etrans; [by apply (thinned_waits c Hc w1 r1 w2 r2)|done]).
  assert (held_items w2 ≡ₚ held_items w) as Hh2 by (etrans; [apply HT2|done]). assert (io_len (w_io w2) = 0) as Hio2 by (by rewrite (th_io _ _ _ _ _ HT2)).
  pose proof (reclaim_spec c Hc w2 r2 HR2) as Hrec. destruct (arp_report_reclaim c w2) as [w3 found]. destruct Hrec as (HR3 & _ & Hw3 & _ & Hrec). destruct found.
  - destruct Hrec as (p & Hin & Hst & Hperm & Hio3). set (w' := put_io w3 _).
    assert (reported w' = item p) as Hrep by (unfold reported; change (w_io w') with ((w_io w3) <| io_status := IDEMIP_OK |>); by rewrite Hio3).
    assert (lens_ok w2) as Hl2 by (unfold lens_ok; by rewrite Hh2). unfold lens_ok in Hl2. rewrite Hperm in Hl2. apply Forall_cons in Hl2 as [Hlp Hl3].
    split_and!.
    + intros _. split; [exists r2; by apply (rep_same c w3)|done].
    + unfold wait_effect. change (io_status (w_io w')) with IDEMIP_OK. cbv iota. intros ip. change (waits c w' ip) with (waits c w3 ip). by rewrite Hw3.
    + unfold hold_effect. change (io_status (w_io w')) with IDEMIP_OK. cbv iota. rewrite Hrep.
      assert (io_len (w_io w') = p_len p) as -> by exact (f_equal snd Hrep). rewrite (proj2 (Z.eqb_neq _ _)) by exact Hlp. by rewrite <- Hh2.
  - destruct Hrec as [-> _]. pose proof (request_spec c Hc w2 r2 now HR2) as Hreq. destruct (arp_report_request c w2 now) as [w4 found].
    destruct Hreq as (HR4 & _ & Hpend & Hw4 & _ & Hlen4 & _).
    assert (held_items w4 ≡ₚ held_items w) as Hh4 by (unfold held_items at 1; by rewrite Hpend).
    assert (lens_ok w4) as Hl4 by (unfold lens_ok; by rewrite Hh4).
    assert (∀ st, st = IDEMIP_OK ∨ st = IDEMIP_BUSY → step_ok ATick w (put_io w4 ((w_io w4) <| io_status := st |>))) as Hend.
    { intros st Hst. set (w' := put_io w4 _). split_and!.
      - intros _. split; [exists r2; by apply (rep_same c w4)|done].
      - assert (∀ ip, sublist (waits c w' ip) (waits c w ip)) as Hs4 by (intros ip; change (waits c w' ip) with (waits c w4 ip); by rewrite Hw4).
        unfold wait_effect. by destruct (io_status (w_io w')).
      - unfold hold_effect. change (io_status (w_io w')) with st. change (io_len (w_io w')) with (io_len (w_io w4)). rewrite Hlen4, Hio2. by destruct Hst as [-> | ->]. }
    destruct found; apply Hend; auto.
Qed.

Lemma call_step o w : Rep w → step_ok o w (arp_call o w).
Proof.
  destruct o; [intros _; apply clear_step|apply add_step|apply find_step|apply remove_step|apply input_step|apply queue_step|apply dequeue_step|apply tick_step].
Qed.

End Effects.
End ArpEffects.
