(* ===== verification/ArpThms.v ===== *)
(** * Properties of the ARP table

    After any calls: which frames wait for which address, in which order; that no descriptor is lost or
    handed back twice; what an arriving packet does; and the exchange of two hosts, octet for octet. *)
From stdpp Require Import functions.
From S2P Require Import Prelude Base Wire Arp ArpTable ArpRep ArpSteps ArpEffects.

Module ArpThms.
Import Endian Checksum Wire Arp ArpPacket ArpTable ArpRep ArpViews ArpSteps ArpEffects.

Local Abbreviation NONE := IDEMIP_ARP_INDEX_NONE.

Section Runs.
Variable c : config.
Implicit Types (w : Work) (ip : Z).

(** A call fills the operand block and enters. *)
Definition arp_enter w (call : arp_op * ArpTableIo) : Work := arp_call c call.1 (put_io w call.2).
Definition arp_run (calls : list (arp_op * ArpTableIo)) w : Work := fold_left arp_enter calls w.

(** The frames a call took and the ones it handed back. *)
Definition frames_taken (o : arp_op) w w' : list (Z * Z * Z) :=
  match o, io_status (w_io w') with AQueue, IDEMIP_OK => [asked w] | _, _ => [] end.
Definition frames_given (o : arp_op) w' : list (Z * Z * Z) :=
  match o, io_status (w_io w') with
  | ADequeue, IDEMIP_OK => [reported w']
  | ATick, IDEMIP_OK => if io_len (w_io w') =? 0 then [] else [reported w']
  | _, _ => []
  end.
Fixpoint arp_log (calls : list (arp_op * ArpTableIo)) w : list (Z * Z * Z) * list (Z * Z * Z) :=
  match calls with
  | [] => ([], [])
  | (o, io) :: calls' =>
      let w1 := put_io w io in let w' := arp_call c o w1 in
      let '(taken, given) := arp_log calls' w' in (frames_taken o w1 w' ++ taken, frames_given o w' ++ given)
  end.

(** ** The mark of a cleared borrow *)
Definition mark_kept w w' : Prop := c_ready (w_ctx w') = c_ready (w_ctx w).

Lemma release_holds_mark n w h : mark_kept w (release_holds n w h).
Proof. revert w h. induction n as [|n IH]; intros w h; [done|]. cbn [release_holds]. destruct (h =? NONE); [done|]. apply (IH (put_hold w h _)). Qed.
Lemma row_free_mark w i : mark_kept w (arp_row_free c w i).
Proof. apply release_holds_mark. Qed.
Lemma row_take_mark w now : mark_kept w (arp_row_take c w now).1.
Proof. unfold arp_row_take. destruct (scan _ _ _); [done|]. destruct (negb _); [apply row_free_mark|done]. Qed.
Lemma learn_mark w pro spa sha netif now add : mark_kept w (arp_learn c w pro spa sha netif now add).1.1.
Proof.
  unfold arp_learn. destruct (negb _); [done|]. destruct (negb _); [done|]. destruct (negb add); [done|].
  pose proof (row_take_mark w now) as Ht. destruct (arp_row_take c w now) as [w1 j]. destruct (j =? NONE); exact Ht.
Qed.
Lemma link_tail_mark n w cur h : mark_kept w (link_tail n w cur h).
Proof. revert cur. induction n as [|n IH]; intros cur; [done|]. cbn [link_tail]. destruct (_ =? NONE); [done|]. apply IH. Qed.
Lemma unlink_mark n w i h prev cur : mark_kept w (unlink_walk n w i h prev cur).
Proof.
  revert prev cur. induction n as [|n IH]; intros prev cur; [done|]. cbn [unlink_walk]. destruct (cur =? NONE); [done|].
  destruct (cur =? h); [by destruct (prev =? NONE)|]. apply IH.
Qed.
Lemma hold_link_mark w i h : mark_kept w (arp_hold_link c w i h).
Proof. unfold arp_hold_link. destruct (_ =? NONE); [done|]. apply (link_tail_mark _ (put_hold w h _)). Qed.
Lemma age_rows_mark now l w : mark_kept w (fold_left (age_row c now) l w).
Proof.
  revert w. induction l as [|i l IH]; intros w; [done|]. cbn [fold_left]. unfold mark_kept. etrans; [apply IH|]. unfold age_row.
  destruct (row_free _); [done|]. destruct (_ <=? _); [apply row_free_mark|done].
Qed.
Lemma expire_holds_mark now l w : mark_kept w (fold_left (expire_hold c now) l w).
Proof.
  revert w. induction l as [|h l IH]; intros w; [done|]. cbn [fold_left]. unfold mark_kept. etrans; [apply IH|]. unfold expire_hold.
  destruct (_ || _); [done|]. destruct (negb (p_entry _ =? NONE)); [apply unlink_mark|done].
Qed.
Lemma drop_held_mark w : mark_kept w (drop_held w).
Proof. unfold drop_held. by destruct (negb _). Qed.
Lemma report_reclaim_mark w : mark_kept w (arp_report_reclaim c w).1.
Proof. unfold arp_report_reclaim. destruct (scan _ _ _); [|done]. unfold mark_kept. etrans; [apply drop_held_mark|done]. Qed.
Lemma report_request_mark w now : mark_kept w (arp_report_request c w now).1.
Proof. unfold arp_report_request. by destruct (scan _ _ _). Qed.

Lemma call_mark o w : o ≠ AClear → mark_kept w (arp_call c o w).
Proof.
  intros Ho. destruct o; [done|..]; unfold arp_call.
  - unfold idemip_arp_add. destruct (negb _); [done|]. destruct (add_sha _) as [sha|]; [|done]. destruct (_ || _); [done|].
    match goal with |- context [arp_learn c ?a ?b ?d ?e ?f ?g ?h] => pose proof (learn_mark a b d e f g h) as Hl; destruct (arp_learn c a b d e f g h) as [[w1 i] merged] end.
    destruct (i =? NONE); exact Hl.
  - unfold idemip_arp_find. destruct (negb _); [done|]. destruct (_ || _); [done|]. destruct (_ =? NONE); [done|]. by destruct (bool_decide _).
  - unfold idemip_arp_remove. destruct (negb _); [done|]. destruct (_ || _); [done|]. destruct (_ =? NONE); [done|]. apply row_free_mark.
  - unfold idemip_arp_input. destruct (negb _); [done|]. destruct (in_packet _) as [p|]; [|done]. destruct (negb _); [done|].
    match goal with |- context [if ?b then _ else _] => destruct b end; [|done].
    match goal with |- context [arp_learn c ?a ?b ?d ?e ?f ?g ?h] => pose proof (learn_mark a b d e f g h) as Hl; destruct (arp_learn c a b d e f g h) as [[w1 i] merged] end.
    exact Hl.
  - unfold idemip_arp_queue, mark_kept. destruct (negb _); [done|]. destruct (_ || _); [done|]. destruct (_ && _); [done|]. destruct (_ || _); [done|].
    destruct (arp_row_find _ _ _ _ =? NONE).
    + pose proof (row_take_mark w (now_ms (w_io w))) as Ht. change (now_ms ((w_io w) <| io_status := IDEMIP_ERR |> <| io_index := NONE |>)) with (now_ms (w_io w)).
      destruct (arp_row_take c w (now_ms (w_io w))) as [w1 j]. destruct (j =? NONE) eqn:Ej; cbv iota beta; rewrite Ej; [exact Ht|].
      etrans; [apply (hold_link_mark (put_hold _ _ _))|exact Ht].
    + destruct (_ =? NONE); [done|]. apply (hold_link_mark (put_hold w _ _)).
  - unfold idemip_arp_dequeue, mark_kept. destruct (negb _); [done|]. destruct (scan _ _ _) as [i|]; [|done].
    etrans; [apply (drop_held_mark (put_hold _ _ _))|]. apply unlink_mark.
  - unfold idemip_arp_tick, mark_kept. set (io := _ <| io_index := NONE |>). destruct (negb _); [done|]. set (w1 := if _ || _ then _ else _).
    assert (mark_kept w w1) as H1 by (unfold w1, mark_kept; destruct (_ || _); [etrans; [apply age_rows_mark|done]|done]).
    assert (mark_kept w (arp_expire_holds c w1 (now_ms io))) as H2 by (unfold mark_kept; etrans; [apply expire_holds_mark|exact H1]).
    pose proof (report_reclaim_mark (arp_expire_holds c w1 (now_ms io))) as H3. destruct (arp_report_reclaim c _) as [w3 found].
    destruct found; [etrans; [exact H3|exact H2]|]. pose proof (report_request_mark w3 (now_ms io)) as H4. destruct (arp_report_request c w3 _) as [w4 found].
    destruct found; (etrans; [exact H4|etrans; [exact H3|exact H2]]).
Qed.

Lemma run_mark calls w : Forall (λ call, call.1 ≠ AClear) calls → mark_kept w (arp_run calls w).
Proof.
  revert w. induction calls as [|call calls IH]; intros w Hn; [done|]. apply Forall_cons in Hn as [Ho Hn].
  unfold mark_kept. etrans; [exact (IH (arp_enter w call) Hn)|exact (call_mark call.1 (put_io w call.2) Ho)].
Qed.

Context (Hc : config_ok c).

Lemma put_io_rep w io : Rep c w → Rep c (put_io w io).
Proof. intros HR Hr. destruct (HR Hr) as [[r HRr] Hl]. split; [exists r; by apply (rep_same c w)|done]. Qed.
Lemma arp_unready_rep w : arp_ready w = false → Rep c w.
Proof. intros H Hr. congruence. Qed.
Lemma arp_enter_ok w call : Rep c w → step_ok c call.1 (put_io w call.2) (arp_enter w call).
Proof. intros HR. apply call_step; [done|]. by apply put_io_rep. Qed.
Lemma arp_run_rep calls w : Rep c w → Rep c (arp_run calls w).
Proof. revert w. induction calls as [|call calls IH]; intros w HR; [done|]. apply IH. by apply arp_enter_ok. Qed.
Lemma arp_clear_rep w : Rep c (idemip_arp_clear c w).
Proof. apply clear_step, Hc. Qed.

(** What a call takes and gives, against what is held. *)
Lemma call_conserves o w w' : o ≠ AClear → hold_effect o w w' → frames_taken o w w' ++ held_items w ≡ₚ frames_given o w' ++ held_items w'.
Proof.
  intros Ho. unfold hold_effect, frames_taken, frames_given. destruct o, (io_status (w_io w')); try done; cbn [app]; intros Hh; try by rewrite Hh.
  revert Hh. destruct (io_len (w_io w') =? 0); intros Hh; cbn [app]; by rewrite Hh.
Qed.

Lemma run_conserves calls w : Forall (λ call, call.1 ≠ AClear) calls → Rep c w →
  let '(taken, given) := arp_log calls w in taken ++ held_items w ≡ₚ given ++ held_items (arp_run calls w).
Proof.
  revert w. induction calls as [|[o io] calls IH]; intros w Hn HR; [apply Permutation_refl|]. apply Forall_cons in Hn as [Ho Hn].
  destruct (arp_enter_ok w (o, io) HR) as (HR' & _ & Hh). specialize (IH _ Hn HR'). cbn [arp_log]. unfold arp_enter in Hh, IH. cbn [fst snd] in Ho, Hh, IH.
  change (arp_run ((o, io) :: calls) w) with (arp_run calls (arp_call c o (put_io w io))). cbv zeta. set (w' := arp_call c o (put_io w io)) in *.
  destruct (arp_log calls w') as [taken given]. pose proof (call_conserves o (put_io w io) w' Ho Hh) as Hcall.
  change (held_items (put_io w io)) with (held_items w) in Hcall.
  rewrite (Permutation_app_comm (frames_taken _ _ _) taken), <- app_assoc, Hcall, Permutation_app_swap_app, IH. by rewrite <- !app_assoc.
Qed.

(** ** A packet arrives *)
Definition pk_target (p : list Z) (local : Z) : bool := negb (local =? 0) && (arp_tpa p =? local).
Definition pk_conflict (p : list Z) (local : Z) : bool := negb (local =? 0) && (arp_spa p =? local).

Lemma input_spec w r p : RepR c w r → arp_ready w = true → in_packet (input_args (w_io w)) = Some p → arp_is_ethernet_ipv4 p = true →
  let a := input_args (w_io w) in let w' := idemip_arp_input c w in
  io_status (w_io w') = IDEMIP_OK ∧ io_conflict (w_io w') = pk_conflict p (in_local_pa a) ∧
  io_reply_owed (w_io w') = pk_target p (in_local_pa a) && negb (pk_conflict p (in_local_pa a)) && arp_is_request p ∧
  if negb (arp_spa p =? 0) && negb (pk_conflict p (in_local_pa a))
  then ∃ i merged, io_merged (w_io w') = merged ∧ io_index (w_io w') = i ∧
    learn_effect c w (w' <| w_io := w_io w |>) i merged (arp_spa p) (arp_sha p) (in_netif a) (pk_target p (in_local_pa a))
  else io_merged (w_io w') = false ∧ io_index (w_io w') = NONE ∧ ∀ ip, known c w' ip = known c w ip.
Proof.
  intros HR Hr Hp Heth a. unfold idemip_arp_input. set (io := _ <| io_index := NONE |>). rewrite Hr. cbn [negb].
  change (input_args io) with (input_args (w_io w)). rewrite Hp, Heth. cbn [negb].
  assert (arp_pro p = IDEMIP_ARP_PRO_IPV4) as -> by (unfold arp_is_ethernet_ipv4 in Heth; bool_prop; done).
  fold a. change (arp_is_target p (in_local_pa a)) with (arp_tpa p =? in_local_pa a). fold (pk_target p (in_local_pa a)). fold (pk_conflict p (in_local_pa a)).
  set (io1 := io <| io_conflict := _ |>). destruct (negb (arp_spa p =? 0) && _) eqn:Hb; [|done].
  apply andb_true_iff in Hb as [Hs _]. apply negb_true_iff, Z.eqb_neq in Hs. assert (RepR c (put_io w io1) r) as HR0 by (by apply (rep_same c w)).
  match goal with |- context [arp_learn c ?a ?b ?d ?e ?f ?g ?h] => pose proof (learn_spec c Hc (put_io w io1) r d e f g h HR0 Hs) as Hlearn; destruct (arp_learn c a b d e f g h) as [[w1 i] merged] end.
  destruct Hlearn as [_ Hl]. cbv zeta iota beta. destruct Hl as (Hw & Hpend & Hctx & Hio & Hl).
  split_and!; try (destruct (i =? NONE); reflexivity). exists i, merged. split_and!; try (destruct (i =? NONE); reflexivity). split_and!; done.
Qed.
(** A packet of a sender other than the local address, with a row. *)
Lemma input_merges w r p i : RepR c w r → arp_ready w = true → in_packet (input_args (w_io w)) = Some p → arp_is_ethernet_ipv4 p = true →
  arp_spa p ≠ 0 → arp_spa p ≠ in_local_pa (input_args (w_io w)) → group_mac (arp_sha p) = false → row_of c w (arp_spa p) = Some i →
  known c (idemip_arp_input c w) (arp_spa p) = Some (mac_of (arp_sha p), in_netif (input_args (w_io w))).
Proof.
  intros HR Hr Hp Heth Hs Hl Hg Hrow. destruct (input_spec w r p HR Hr Hp Heth) as (_ & _ & _ & Hlearn). unfold pk_conflict in Hlearn.
  rewrite (proj2 (Z.eqb_neq _ _) Hs), (proj2 (Z.eqb_neq _ _) Hl), andb_false_r in Hlearn. cbn [negb andb] in Hlearn.
  destruct Hlearn as (k & merged & _ & _ & _ & _ & _ & _ & Hk). rewrite Hg, Hrow in Hk. apply Hk.
Qed.

(** Frames wait only for an address with a row. *)
Lemma waits_row w r ip : RepR c w r → waits c w ip ≠ [] → ip ≠ 0 ∧ ∃ i, row_of c w ip = Some i.
Proof.
  intros HR Hw. destruct (row_of_cases c Hc w r ip HR) as [(i & Hf & Hi)|[Hn _]]; [|by destruct Hw; apply (waits_none c Hc w r)].
  split; [|by exists i]. destruct Hf as (Hir & Hl & <-). by apply (rp_key c w r HR).
Qed.

(** A dequeue with a frame waiting for a resolved address. *)
Lemma dequeue_ready w ip : Rep c w → arp_ready w = true → known c w ip ≠ None → waits c w ip ≠ [] → io_status (w_io (idemip_arp_dequeue c w)) = IDEMIP_OK.
Proof.
  intros HR Hr Hk Hw. destruct (call_step c Hc ADequeue w HR) as (_ & Hq & _). change (arp_call c ADequeue w) with (idemip_arp_dequeue c w) in Hq.
  unfold wait_effect in Hq. destruct (io_status (w_io (idemip_arp_dequeue c w))) eqn:Hst; [done|by destruct (proj2 Hq ip Hk)|].
  exfalso. revert Hst. unfold idemip_arp_dequeue. rewrite Hr. cbn [negb]. by destruct (scan _ _ _).
Qed.
End Runs.

(** ** The properties *)

(** C25. Frames wait in order.  From a borrow that was never cleared, after any calls, whatever call comes
    next: [queue] puts its frame behind the ones waiting for the same address, and only for an address not
    yet resolved; [dequeue] gives out the first frame waiting for an address that is resolved, with its
    hardware address and interface, and reports BUSY only when none waits for a resolved address; a removal
    drops the frames of its address alone; a tick may drop frames from any list but never reorders one; and
    no other call touches what waits for any address. *)
Theorem arp_frames_wait_in_order (c : config) (w : Work) (calls : list (arp_op * ArpTableIo)) (o : arp_op) (io : ArpTableIo) :
  config_ok c → arp_ready w = false →
  let w1 := put_io (arp_run c calls w) io in wait_effect c o w1 (arp_call c o w1).
Proof.
  intros Hc Hw w1. apply (call_step c Hc o w1). apply put_io_rep, (arp_run_rep c Hc), arp_unready_rep, Hw.
Qed.

(** C26. No descriptor is lost or handed back twice.  From a cleared table, through any calls but another
    clear, the frames [queue] accepted are, each as often as it was queued, the ones [dequeue] and [tick]
    handed back together with the ones still held; the count kept in the context is the number held and
    never above the table's size. *)
Theorem arp_descriptors_conserved (c : config) (w : Work) (calls : list (arp_op * ArpTableIo)) :
  config_ok c → Forall (λ call, call.1 ≠ AClear) calls →
  let w0 := idemip_arp_clear c w in let w' := arp_run c calls w0 in let log := arp_log c calls w0 in
  log.1 ≡ₚ log.2 ++ held_items w' ∧ c_held (w_ctx w') = Z.of_nat (length (held_items w')) ∧ c_held (w_ctx w') ≤ IDEMIP_ARP_PENDING c.
Proof.
  intros Hc Hn w0 w' log. pose proof (arp_clear_rep c Hc w) as HR0. fold w0 in HR0.
  pose proof (run_conserves c Hc calls w0 Hn HR0) as Hp. fold log in Hp. destruct log as [taken given].
  assert (arp_ready w' = true) as Hr by (unfold arp_ready, w'; by rewrite (run_mark c calls w0 Hn)).
  destruct (arp_run_rep c Hc calls w0 HR0 Hr) as [[r HR] _]. fold w' in HR.
  destruct (clear_step c Hc w) as (_ & _ & Hz). change (held_items w0 = []) in Hz. rewrite Hz, app_nil_r in Hp.
  split_and!; [exact Hp|exact (rp_held c w' r HR)|]. rewrite (rp_held c w' r HR). pose proof (items_length (w_pend w')) as Hl. fold (held_items w') in Hl.
  pose proof (rp_pend c w' r HR) as Ht. unfold tlen in Ht. lia.
Qed.

(** Two hosts resolve each other.  [wa] and [wb] are tables reached by any calls, a frame waits in
    [wa] for [ipB].  The request the first host builds over any region owes a reply when it arrives at the
    host that has [ipB]; that host turns the request into its reply where it lies; and once the reply
    arrives at the first host, [ipB] resolves to the second's hardware address on the interface it came
    in on, the frames still wait, in order, and a dequeue hands one out. *)
Theorem arp_exchange_resolves (c : config) (wa0 wb0 : Work) callsA callsB (o macA macB : list Z) (ipA ipB : Z) (ioA ioB io : ArpTableIo) :
  config_ok c → arp_ready wa0 = false → arp_ready wb0 = false →
  let wa := arp_run c callsA wa0 in let wb := arp_run c callsB wb0 in
  arp_ready wa = true → arp_ready wb = true → (28 ≤ length o)%nat → is_mac macA → is_mac macB → group_mac macB = false →
  is_u32 ipA → is_u32 ipB → ipA ≠ ipB → waits c wa ipB ≠ [] →
  let request := arp_request o macA ipA ipB in let reply := arp_reply_in_place request macB in
  in_packet (input_args ioB) = Some request → in_local_pa (input_args ioB) = ipB →
  in_packet (input_args ioA) = Some reply → in_local_pa (input_args ioA) = ipA →
  let wb' := idemip_arp_input c (put_io wb ioB) in let wa' := idemip_arp_input c (put_io wa ioA) in
  io_reply_owed (w_io wb') = true ∧ known c wa' ipB = Some (macB, in_netif (input_args ioA)) ∧ waits c wa' ipB = waits c wa ipB ∧
  io_status (w_io (idemip_arp_dequeue c (put_io wa' io))) = IDEMIP_OK.
Proof.
  intros Hc Ha0 Hb0 wa wb Hra Hrb Ho HmA HmB Hg HuA HuB Hne Hw request reply HpB HlB HpA HlA wb' wa'.
  pose proof (put_io_rep c _ ioA (arp_run_rep c Hc callsA wa0 (arp_unready_rep c wa0 Ha0))) as HRa.
  pose proof (put_io_rep c _ ioB (arp_run_rep c Hc callsB wb0 (arp_unready_rep c wb0 Hb0))) as HRb. fold wa in HRa. fold wb in HRb.
  destruct (HRa Hra) as [[ra HRa'] _]. destruct (HRb Hrb) as [[rb HRb'] _].
  assert (is_mac mac_zero) as Hmz by (split; [done|repeat constructor; vm_compute; discriminate]).
  assert (is_u16 IDEMIP_ARP_OP_REQUEST ∧ is_u16 IDEMIP_ARP_OP_REPLY) as [Hq Hp] by (split; vm_compute; split; (discriminate || done)).
  assert (request = packet IDEMIP_ARP_OP_REQUEST macA ipA mac_zero ipB ++ drop 28 o) as Hreq by (apply request_layout; [done|apply HmA|done|done]).
  assert (reply = packet IDEMIP_ARP_OP_REPLY macB ipB macA ipA ++ drop 28 o) as Hrep by (unfold reply; rewrite Hreq; by apply reply_in_place_layout).
  destruct (packet_fields IDEMIP_ARP_OP_REQUEST macA ipA mac_zero ipB (drop 28 o)) as (Heb & _ & Hob & _ & Hsb & _ & Htb); [done..|]. rewrite <- Hreq in *.
  destruct (packet_fields IDEMIP_ARP_OP_REPLY macB ipB macA ipA (drop 28 o)) as (Hea & _ & _ & Hsha & Hsa & _ & _); [done..|]. rewrite <- Hrep in *.
  destruct (waits_row c Hc _ ra ipB HRa' Hw) as [HzB [i Hrow]].
  assert (known c wa' ipB = Some (macB, in_netif (input_args ioA))) as Hk.
  { rewrite <- Hsa. replace macB with (mac_of (arp_sha reply)) by (rewrite Hsha; unfold mac_of; by rewrite take_ge by (by rewrite (proj1 HmB))).
    apply (input_merges c Hc (put_io wa ioA) ra reply i); [done..|by rewrite Hsa|change (arp_spa reply ≠ in_local_pa (input_args ioA)); by rewrite Hsa, HlA|by rewrite Hsha|by rewrite Hsa]. }
  destruct (call_step c Hc AInput (put_io wa ioA) HRa) as (HRa1 & Hwa & _). change (arp_call c AInput (put_io wa ioA)) with wa' in *.
  assert (waits c wa' ipB = waits c wa ipB) as Hws by (unfold wait_effect in Hwa; destruct (io_status (w_io wa')); apply Hwa).
  split_and!; [|done|done|].
  - destruct (input_spec c Hc (put_io wb ioB) rb request HRb' Hrb HpB Heb) as (_ & _ & Hown & _). fold wb' in Hown. rewrite Hown. unfold pk_target, pk_conflict.
    change (in_local_pa (input_args (w_io (put_io wb ioB)))) with (in_local_pa (input_args ioB)). rewrite HlB, Htb, Hsb, Z.eqb_refl.
    rewrite (proj2 (Z.eqb_neq _ _) HzB), (proj2 (Z.eqb_neq _ _) Hne). unfold arp_is_request. by rewrite Hob.
  - apply (dequeue_ready c Hc _ ipB); [by apply put_io_rep| |change (known c wa' ipB ≠ None); by rewrite Hk|exact (λ H, Hw (eq_trans (eq_sym Hws) H))].
    pose proof (call_mark c AInput (put_io wa ioA) ltac:(done)) as Hm. unfold arp_ready in *. change (arp_call c AInput (put_io wa ioA)) with wa' in Hm.
    change (w_ctx (put_io wa' io)) with (w_ctx wa'). by rewrite Hm.
Qed.
(** ** A concrete table *)
Definition arp_cf : config := mkConfig 2 3 300 5 1000.
Definition arp_io : ArpTableIo :=
  mkIo (mkAddArgs 0 None 0 0) (mkFindArgs 0 0) (mkRemoveArgs 0 0) (mkInputArgs None 0 0) (mkQueueArgs 0 0 0) 0 None 0 0 0 IDEMIP_OK
    IDEMIP_ARP_STATE_FREE NONE 0 false false false.
Definition arp_unused : Work := mkWork arp_io (mkCtx 0 0 0) [] [].
Definition arp_waits (now ip desc len : Z) : arp_op * ArpTableIo := (AQueue, arp_io <| now_ms := now |> <| queue_args := mkQueueArgs ip desc len |>).
Definition arp_at (o : arp_op) (now : Z) : arp_op * ArpTableIo := (o, arp_io <| now_ms := now |>).
Definition arp_hears (now local : Z) (p : list Z) : ArpTableIo := arp_io <| now_ms := now |> <| input_args := mkInputArgs (Some p) local 7 |>.

Definition ip_a : Z := 0x0A000001.
Definition ip_b : Z := 0x0A000002.
Definition mac_a : list Z := [2; 0; 0; 0; 0; 0xA].
Definition mac_b : list Z := [2; 0; 0; 0; 0; 0xB].
Definition calls_a : list (arp_op * ArpTableIo) := [arp_at AClear 0; arp_waits 10 ip_b 0 60; arp_waits 20 ip_b 1 90].
Definition calls_b : list (arp_op * ArpTableIo) := [arp_at AClear 0].
Definition request_ab : list Z := arp_request (replicate 46 0xEE) mac_a ip_a ip_b.

Lemma arp_cf_ok : config_ok arp_cf.
Proof. unfold config_ok, IDEMIP_ARP_INDEX_NONE. cbn. lia. Qed.

Lemma queued_behind c w w' ip : wait_effect c AQueue w w' → io_status (w_io w') = IDEMIP_OK → ip = q_ip (queue_args (w_io w)) →
  waits c w' ip = waits c w ip ++ [asked w].
Proof. unfold wait_effect. intros H Hst Hip. rewrite Hst in H. rewrite (proj2 H ip). by rewrite decide_True. Qed.

Definition calls_first : list (arp_op * ArpTableIo) := [arp_at AClear 0; arp_waits 10 ip_b 0 60].
Definition second_frame : ArpTableIo := (arp_waits 20 ip_b 1 90).2.
Definition first_waits : Work := put_io (arp_run arp_cf calls_first arp_unused) second_frame.

(** The second frame for the address goes behind the first. *)
Lemma arp_frames_wait_in_order_witness :
  waits arp_cf first_waits ip_b = [(ip_b, 0, 60)] ∧
  waits arp_cf (arp_call arp_cf AQueue first_waits) ip_b = waits arp_cf first_waits ip_b ++ [(ip_b, 1, 90)].
Proof.
  split; [vm_compute; reflexivity|].
  exact (queued_behind arp_cf first_waits _ ip_b (arp_frames_wait_in_order arp_cf arp_unused calls_first AQueue second_frame arp_cf_ok eq_refl)
    ltac:(vm_compute; reflexivity) eq_refl).
Defined.

(** Two frames queued; the reply comes; one is dequeued; the other's address is removed and a tick hands
    it back. *)
Definition calls_through : list (arp_op * ArpTableIo) :=
  [arp_waits 10 ip_b 0 60; arp_waits 20 ip_b 1 90; (AInput, arp_hears 30 ip_a (arp_reply_in_place request_ab mac_b)); arp_at ADequeue 40;
   (ARemove, arp_io <| remove_args := mkRemoveArgs ip_b 0x0800 |>); arp_at ATick 50].

Lemma arp_descriptors_conserved_witness :
  arp_log arp_cf calls_through (idemip_arp_clear arp_cf arp_unused) = ([(ip_b, 0, 60); (ip_b, 1, 90)], [(ip_b, 0, 60); (ip_b, 1, 90)]) ∧
  c_held (w_ctx (arp_run arp_cf calls_through (idemip_arp_clear arp_cf arp_unused))) ≤ IDEMIP_ARP_PENDING arp_cf.
Proof.
  split; [vm_compute; reflexivity|].
  exact (proj2 (proj2 (arp_descriptors_conserved arp_cf arp_unused calls_through arp_cf_ok ltac:(repeat constructor; discriminate)))).
Defined.


Lemma arp_exchange_resolves_witness :
  let wa' := idemip_arp_input arp_cf (put_io (arp_run arp_cf calls_a arp_unused) (arp_hears 30 ip_a (arp_reply_in_place request_ab mac_b))) in
  known arp_cf wa' ip_b = Some (mac_b, 7) ∧ waits arp_cf wa' ip_b = [(ip_b, 0, 60); (ip_b, 1, 90)].
Proof.
  intros wa'.
  assert (is_mac mac_a ∧ is_mac mac_b) as [HA HB] by (split; (split; [reflexivity|repeat constructor; vm_compute; discriminate])).
  assert (waits arp_cf (arp_run arp_cf calls_a arp_unused) ip_b ≠ []) as Hw by (vm_compute; discriminate).
  assert (is_u32 ip_a ∧ is_u32 ip_b) as [HuA HuB] by (split; vm_compute; (split; (discriminate || reflexivity))).
  assert (28 ≤ length (replicate 46 0xEE))%nat as Hlen by (apply Nat.leb_le; reflexivity).
  destruct (arp_exchange_resolves arp_cf arp_unused arp_unused calls_a calls_b (replicate 46 0xEE) mac_a mac_b ip_a ip_b
    (arp_hears 30 ip_a (arp_reply_in_place request_ab mac_b)) (arp_hears 25 ip_b request_ab) arp_io
    arp_cf_ok eq_refl eq_refl ltac:(vm_compute; reflexivity) ltac:(vm_compute; reflexivity) Hlen HA HB ltac:(vm_compute; reflexivity)
    HuA HuB ltac:(vm_compute; discriminate) Hw eq_refl eq_refl eq_refl eq_refl) as (_ & Hk & Hws & _).
  split; [exact Hk|]. etrans; [exact Hws|]. vm_compute. reflexivity.
Defined.

(** ** Two requests half a second apart

    A row that ages out takes the time of its last REQUEST with it: a frame queued again opens a fresh row,
    whose REQUEST is due at once. *)
Definition request_times (calls : list (arp_op * ArpTableIo)) (w : Work) : list (Z * Z) :=
  (fold_left (λ '(w, l) call, let w' := arp_enter arp_cf w call in
     (w', match call.1, io_status (w_io w') with ATick, IDEMIP_OK => if io_len (w_io w') =? 0 then l ++ [(now_ms call.2, io_ip (w_io w'))] else l | _, _ => l end))
   calls (w, [])).2.

Example requests_half_a_second_apart :
  request_times [arp_at AClear 0; arp_waits 500 ip_a 0 60; arp_waits 500 ip_b 1 60; arp_at ATick 4900; arp_at ATick 5400; arp_at ATick 5900;
                 arp_at ATick 5901; arp_waits 5902 ip_b 2 60; arp_at ATick 5903] arp_unused
  = [(4900, ip_a); (5400, ip_b); (5903, ip_b)].
Proof. vm_compute. reflexivity. Qed.

(** A group hardware address is BUSY, not ERR. *)
Example add_group_address_busy :
  io_status (w_io (arp_run arp_cf [arp_at AClear 0; (AAdd, arp_io <| add_args := mkAddArgs ip_b (Some [1; 0; 0; 0; 0; 1]) 0x0800 0 |>)] arp_unused)) = IDEMIP_BUSY.
Proof. vm_compute. reflexivity. Qed.
End ArpThms.
