(* ===== verification/Acd.v ===== *)
(** * Address conflict detection (src/acd/acd.c)

    RFC 5227's machine over one address of one interface.  The interface's hardware address is a pointer
    the context keeps: it is the octets it points at.  The build's counts and spans of time are one
    record. *)
From S2P Require Import Prelude Base Wire Arp.

Module Acd.
Import Endian Wire Arp.

Definition ACD_READY : Z := 0x41434431.
Definition ACD_CONFLICTS_MAX : Z := 0xFF.
Definition IDEMIP_ACD_DEFEND_NEVER : Z := 0.
Definition IDEMIP_ACD_DEFEND_ONCE : Z := 1.
Definition IDEMIP_ACD_DEFEND_ALWAYS : Z := 2.

Inductive IdemIpAcdState : Type :=
  | IDEMIP_ACD_STATE_OFF
  | IDEMIP_ACD_STATE_PROBE_WAIT
  | IDEMIP_ACD_STATE_PROBING
  | IDEMIP_ACD_STATE_ANNOUNCE_WAIT
  | IDEMIP_ACD_STATE_ANNOUNCING
  | IDEMIP_ACD_STATE_ONGOING
  | IDEMIP_ACD_STATE_RATE_LIMIT.
#[export] Instance IdemIpAcdState_eq_dec : EqDecision IdemIpAcdState.
Proof. solve_decision. Defined.

Record config := mkConfig {
  IDEMIP_ACD_PROBE_WAIT_MS : Z;
  IDEMIP_ACD_PROBE_NUM : Z;
  IDEMIP_ACD_PROBE_MIN_MS : Z;
  IDEMIP_ACD_PROBE_MAX_MS : Z;
  IDEMIP_ACD_ANNOUNCE_WAIT_MS : Z;
  IDEMIP_ACD_ANNOUNCE_NUM : Z;
  IDEMIP_ACD_ANNOUNCE_INTERVAL_MS : Z;
  IDEMIP_ACD_MAX_CONFLICTS : Z;
  IDEMIP_ACD_RATE_LIMIT_INTERVAL_MS : Z;
  IDEMIP_ACD_DEFEND_INTERVAL_MS : Z }.

Record AcdStartArgs := mkStartArgs { sa_mac : option (list Z); sa_ipaddr : Z; sa_rand : Z; sa_now_ms : Z; sa_defense : Z }.
Record AcdArpInArgs := mkArpInArgs { ai_packet : option (list Z); ai_now_ms : Z; ai_rand : Z }.
Record AcdTickArgs := mkTickArgs { ta_now_ms : Z; ta_rand : Z }.

Record AcdIo := mkIo {
  start_args : AcdStartArgs;
  arp_in_args : AcdArpInArgs;
  tick_args : AcdTickArgs;
  io_ipaddr : Z;
  io_deadline_ms : Z;
  io_status : IdemIpStatus;
  io_state : IdemIpAcdState;
  io_sent : Z;
  io_conflicts : Z;
  io_send_probe : bool;
  io_send_announce : bool;
  io_conflict : bool;
  io_abandon : bool }.
#[export] Instance AcdIo_eta : Eta AcdIo := fun r =>
  mkIo (start_args r) (arp_in_args r) (tick_args r) (io_ipaddr r) (io_deadline_ms r) (io_status r) (io_state r) (io_sent r)
    (io_conflicts r) (io_send_probe r) (io_send_announce r) (io_conflict r) (io_abandon r).

Record AcdCtx := mkCtx {
  c_ready : Z; c_ipaddr : Z; c_deadline_ms : Z; c_last_defend_ms : Z; c_next_claim_ms : Z; c_mac : list Z; c_state : IdemIpAcdState;
  c_defense : Z; c_sent : Z; c_conflicts : Z; c_defended : bool }.
#[export] Instance AcdCtx_eta : Eta AcdCtx := fun r =>
  mkCtx (c_ready r) (c_ipaddr r) (c_deadline_ms r) (c_last_defend_ms r) (c_next_claim_ms r) (c_mac r) (c_state r) (c_defense r)
    (c_sent r) (c_conflicts r) (c_defended r).

Record Work := mkWork { w_io : AcdIo; w_ctx : AcdCtx }.
#[export] Instance Work_eta : Eta Work := fun r => mkWork (w_io r) (w_ctx r).

Definition put_io (w : Work) (io : AcdIo) : Work := w <| w_io := io |>.
Definition put_ctx (w : Work) (ctx : AcdCtx) : Work := w <| w_ctx := ctx |>.
Definition put_status (w : Work) (s : IdemIpStatus) : Work := w <| w_io := (w_io w) <| io_status := s |> |>.

(** [idemip_bytes_eq] over a hardware address. *)
Definition mac_eq (a b : list Z) : bool :=
  bool_decide (take (Z.to_nat IDEMIP_ARP_HLN_ETHERNET) a = take (Z.to_nat IDEMIP_ARP_HLN_ETHERNET) b).

Definition acd_ready (w : Work) : bool := c_ready (w_ctx w) =? ACD_READY.
Definition acd_due (now deadline : Z) : bool := u32 (now - deadline) <? 0x80000000.
Definition acd_draw (rand span : Z) : Z := Z.shiftr (u32 (Z.land rand 0xFFFF * u32 (span + 1))) 16.

Definition acd_publish (w : Work) : Work :=
  let ctx := w_ctx w in
  put_io w ((w_io w) <| io_ipaddr := c_ipaddr ctx |> <| io_deadline_ms := c_deadline_ms ctx |> <| io_state := c_state ctx |>
                     <| io_sent := c_sent ctx |> <| io_conflicts := c_conflicts ctx |>).

Definition acd_clear_results (io : AcdIo) : AcdIo :=
  io <| io_send_probe := false |> <| io_send_announce := false |> <| io_conflict := false |> <| io_abandon := false |>.

Definition acd_probe_conflict (ctx : AcdCtx) (packet : list Z) : bool :=
  if arp_spa packet =? c_ipaddr ctx then true
  else arp_is_request packet && (arp_spa packet =? 0) && (arp_tpa packet =? c_ipaddr ctx) && negb (mac_eq (arp_sha packet) (c_mac ctx)).

Definition acd_ongoing_conflict (ctx : AcdCtx) (packet : list Z) : bool :=
  (arp_spa packet =? c_ipaddr ctx) && negb (mac_eq (arp_sha packet) (c_mac ctx)).

Section Build.
Variable cf : config.

Definition acd_count_conflict (ctx : AcdCtx) (now : Z) : AcdCtx :=
  let ctx := if c_conflicts ctx <? ACD_CONFLICTS_MAX then ctx <| c_conflicts := u8 (c_conflicts ctx + 1) |> else ctx in
  if IDEMIP_ACD_MAX_CONFLICTS cf <=? c_conflicts ctx then ctx <| c_next_claim_ms := u32 (now + IDEMIP_ACD_RATE_LIMIT_INTERVAL_MS cf) |> else ctx.

Definition acd_abandon (w : Work) (now : Z) : Work :=
  let ctx := acd_count_conflict (w_ctx w) now in
  let ctx := ctx <| c_ipaddr := 0 |> <| c_sent := 0 |> <| c_defended := false |> <| c_last_defend_ms := 0 |> in
  let ctx := if IDEMIP_ACD_MAX_CONFLICTS cf <=? c_conflicts ctx
             then ctx <| c_state := IDEMIP_ACD_STATE_RATE_LIMIT |> <| c_deadline_ms := u32 (now + IDEMIP_ACD_RATE_LIMIT_INTERVAL_MS cf) |>
             else ctx <| c_state := IDEMIP_ACD_STATE_OFF |> <| c_deadline_ms := 0 |> in
  put_io (put_ctx w ctx) ((w_io w) <| io_abandon := true |>).

Definition acd_defend (w : Work) (now : Z) : Work :=
  let ctx := w_ctx w in
  if c_defense ctx =? IDEMIP_ACD_DEFEND_NEVER then acd_abandon w now
  else
    let recent := c_defended ctx && (u32 (now - c_last_defend_ms ctx) <? u32 (IDEMIP_ACD_DEFEND_INTERVAL_MS cf)) in
    if recent then
      if c_defense ctx =? IDEMIP_ACD_DEFEND_ONCE then acd_abandon w now
      else put_ctx w (acd_count_conflict ctx now)
    else
      put_io (put_ctx w (acd_count_conflict (ctx <| c_last_defend_ms := now |> <| c_defended := true |>) now))
        ((w_io w) <| io_send_announce := true |>).

Definition acd_receive (w : Work) (packet : list Z) : Work :=
  let now := ai_now_ms (arp_in_args (w_io w)) in
  if negb (arp_is_ethernet_ipv4 packet) then w
  else
    let w1 :=
      if arp_is_request packet || arp_is_reply packet then
        match c_state (w_ctx w) with
        | IDEMIP_ACD_STATE_PROBE_WAIT | IDEMIP_ACD_STATE_PROBING | IDEMIP_ACD_STATE_ANNOUNCE_WAIT =>
            if acd_probe_conflict (w_ctx w) packet then acd_abandon (put_io w ((w_io w) <| io_conflict := true |>)) now else w
        | IDEMIP_ACD_STATE_ANNOUNCING | IDEMIP_ACD_STATE_ONGOING =>
            if acd_ongoing_conflict (w_ctx w) packet then acd_defend (put_io w ((w_io w) <| io_conflict := true |>)) now else w
        | _ => w
        end
      else w in
    put_status (acd_publish w1) IDEMIP_OK.

Definition acd_send_probe (w : Work) (now rand : Z) : Work :=
  let io := (w_io w) <| io_send_probe := true |> in
  let ctx := (w_ctx w) <| c_sent := u8 (c_sent (w_ctx w) + 1) |> in
  let ctx :=
    if IDEMIP_ACD_PROBE_NUM cf <=? c_sent ctx then
      ctx <| c_state := IDEMIP_ACD_STATE_ANNOUNCE_WAIT |> <| c_sent := 0 |> <| c_deadline_ms := u32 (now + IDEMIP_ACD_ANNOUNCE_WAIT_MS cf) |>
    else
      ctx <| c_state := IDEMIP_ACD_STATE_PROBING |>
          <| c_deadline_ms := u32 (now + IDEMIP_ACD_PROBE_MIN_MS cf + acd_draw rand (IDEMIP_ACD_PROBE_MAX_MS cf - IDEMIP_ACD_PROBE_MIN_MS cf)) |> in
  mkWork io ctx.

Definition acd_send_announce (w : Work) (now : Z) : Work :=
  let io := (w_io w) <| io_send_announce := true |> in
  let ctx := (w_ctx w) <| c_sent := u8 (c_sent (w_ctx w) + 1) |> in
  let ctx :=
    if IDEMIP_ACD_ANNOUNCE_NUM cf <=? c_sent ctx then ctx <| c_state := IDEMIP_ACD_STATE_ONGOING |> <| c_sent := 0 |> <| c_deadline_ms := 0 |>
    else ctx <| c_state := IDEMIP_ACD_STATE_ANNOUNCING |> <| c_deadline_ms := u32 (now + IDEMIP_ACD_ANNOUNCE_INTERVAL_MS cf) |> in
  mkWork io ctx.

Definition acd_fire (w : Work) : Work :=
  let now := ta_now_ms (tick_args (w_io w)) in
  let ctx := w_ctx w in
  let late := negb (acd_due now (c_deadline_ms ctx)) in
  match c_state ctx with
  | IDEMIP_ACD_STATE_PROBE_WAIT | IDEMIP_ACD_STATE_PROBING =>
      if late then put_status w IDEMIP_BUSY
      else put_status (acd_publish (acd_send_probe w now (ta_rand (tick_args (w_io w))))) IDEMIP_OK
  | IDEMIP_ACD_STATE_ANNOUNCE_WAIT | IDEMIP_ACD_STATE_ANNOUNCING =>
      if late then put_status w IDEMIP_BUSY else put_status (acd_publish (acd_send_announce w now)) IDEMIP_OK
  | IDEMIP_ACD_STATE_RATE_LIMIT =>
      if late then put_status w IDEMIP_BUSY
      else put_status (acd_publish (put_ctx w (ctx <| c_state := IDEMIP_ACD_STATE_OFF |> <| c_deadline_ms := 0 |>))) IDEMIP_OK
  | _ => put_status (acd_publish w) IDEMIP_OK
  end.

Definition acd_claim (w : Work) (mac : list Z) : Work :=
  let a := start_args (w_io w) in
  let ctx := w_ctx w in
  if (IDEMIP_ACD_MAX_CONFLICTS cf <=? c_conflicts ctx) && negb (acd_due (sa_now_ms a) (c_next_claim_ms ctx)) then put_status (acd_publish w) IDEMIP_BUSY
  else
    let ctx := if IDEMIP_ACD_MAX_CONFLICTS cf <=? c_conflicts ctx
               then ctx <| c_next_claim_ms := u32 (sa_now_ms a + IDEMIP_ACD_RATE_LIMIT_INTERVAL_MS cf) |> else ctx in
    let ctx := ctx <| c_mac := mac |> <| c_ipaddr := sa_ipaddr a |> <| c_defense := sa_defense a |> <| c_state := IDEMIP_ACD_STATE_PROBE_WAIT |>
                   <| c_sent := 0 |> <| c_defended := false |> <| c_last_defend_ms := 0 |>
                   <| c_deadline_ms := u32 (sa_now_ms a + acd_draw (sa_rand a) (IDEMIP_ACD_PROBE_WAIT_MS cf)) |> in
    put_status (acd_publish (put_ctx w ctx)) IDEMIP_OK.

Definition acd_cease (w : Work) : Work :=
  let ctx := (w_ctx w) <| c_ipaddr := 0 |> <| c_sent := 0 |> <| c_defended := false |> <| c_last_defend_ms := 0 |> in
  let ctx := if bool_decide (c_state ctx = IDEMIP_ACD_STATE_RATE_LIMIT) then ctx
             else ctx <| c_state := IDEMIP_ACD_STATE_OFF |> <| c_deadline_ms := 0 |> in
  put_status (acd_publish (put_ctx w ctx)) IDEMIP_OK.

(** ** The entries *)
Definition idemip_acd_clear (w : Work) : Work :=
  mkWork ((w_io w) <| io_status := IDEMIP_OK |>) (mkCtx ACD_READY 0 0 0 0 [] IDEMIP_ACD_STATE_OFF 0 0 0 false).

(** The operand block as an entry leaves it before it looks at the borrow. *)
Definition acd_begin (w : Work) : Work := put_io w (acd_clear_results ((w_io w) <| io_status := IDEMIP_ERR |>)).

Definition idemip_acd_start (w : Work) : Work :=
  let w := acd_begin w in
  let a := start_args (w_io w) in
  if negb (acd_ready w) then w
  else match sa_mac a with
  | None => w
  | Some mac => if (sa_ipaddr a =? 0) || (IDEMIP_ACD_DEFEND_ALWAYS <? sa_defense a) then w else acd_claim w mac
  end.

Definition idemip_acd_stop (w : Work) : Work :=
  let w := acd_begin w in if negb (acd_ready w) then w else acd_cease w.

Definition idemip_acd_arp_in (w : Work) : Work :=
  let w := acd_begin w in
  if negb (acd_ready w) then w else match ai_packet (arp_in_args (w_io w)) with None => w | Some packet => acd_receive w packet end.

Definition idemip_acd_tick (w : Work) : Work :=
  let w := acd_begin w in if negb (acd_ready w) then w else acd_fire w.
End Build.
End Acd.

(** * What a claim of an address must have done

    The history of one claim as the caller sees it, kept from the results the entries of acd.c report,
    and what RFC 5227 asks of it; on a clock that does not wrap, of which the machine reads 32 bits. *)
Module AcdSpec.
Import Arp Acd.

Inductive acd_op : Type := CClear | CStart | CStop | CArp | CTick.

(** A call at a true time, with its operands. *)
Record acd_step := mkStep { s_op : acd_op; s_at : Z; s_io : AcdIo }.
Definition clock_of (s : acd_step) : Z :=
  match s_op s with
  | CStart => sa_now_ms (start_args (s_io s))
  | CArp => ai_now_ms (arp_in_args (s_io s))
  | CTick => ta_now_ms (tick_args (s_io s))
  | _ => u32 (s_at s)
  end.
Definition on_time (s : acd_step) : Prop := clock_of s = u32 (s_at s).

(** Calls in order of time, from [t] on. *)
Fixpoint in_order (t : Z) (l : list acd_step) : Prop :=
  match l with [] => True | s :: l' => t ≤ s_at s ∧ on_time s ∧ in_order (s_at s) l' end.

(** ** The history of a claim *)
Record claim := mkClaim {
  cl_ip : Z; cl_mac : list Z; cl_at : Z;
  cl_probes : list Z; cl_heard : list (list Z); cl_announced : list Z; cl_defences : list Z }.
#[export] Instance claim_eta : Eta claim := fun r =>
  mkClaim (cl_ip r) (cl_mac r) (cl_at r) (cl_probes r) (cl_heard r) (cl_announced r) (cl_defences r).

Definition stamp (b : bool) (t : Z) (l : list Z) : list Z := if b then l ++ [t] else l.

(** A call's report, on the history. *)
Definition witness_call (m : option claim) (s : acd_step) (r : AcdIo) : option claim :=
  match s_op s, io_status r with
  | CClear, _ => None
  | CStop, IDEMIP_OK => None
  | CStart, IDEMIP_OK =>
      Some (mkClaim (sa_ipaddr (start_args (s_io s))) (default [] (sa_mac (start_args (s_io s)))) (s_at s) [] [] [] [])
  | CTick, IDEMIP_OK =>
      (λ cl, cl <| cl_probes := stamp (io_send_probe r) (s_at s) (cl_probes cl) |>
                <| cl_announced := stamp (io_send_announce r) (s_at s) (cl_announced cl) |>) <$> m
  | CArp, IDEMIP_OK =>
      if io_abandon r then None
      else (λ cl, match cl_announced cl with
                  | [] => cl <| cl_heard := cl_heard cl ++ default [] ((λ p, [p]) <$> ai_packet (arp_in_args (s_io s))) |>
                  | _ => cl <| cl_defences := stamp (io_send_announce r) (s_at s) (cl_defences cl) |>
                  end) <$> m
  | _, _ => m
  end.

(** ** What the document asks *)

(** Section 2.1.1: a Request or Reply from the address, or a Probe for it by another host. *)
Definition claims_address (ip : Z) (mac p : list Z) : bool :=
  arp_is_ethernet_ipv4 p && (arp_is_request p || arp_is_reply p) &&
  ((arp_spa p =? ip) || (arp_is_request p && (arp_spa p =? 0) && (arp_tpa p =? ip) && negb (mac_eq (arp_sha p) mac))).

Fixpoint spaced (n : Z) (l : list Z) : Prop :=
  match l with x :: (y :: _) as l' => x + n ≤ y ∧ spaced n l' | _ => True end.

Section Build.
Variable cf : config.

Record claim_good (cl : claim) : Prop := mkGood {
  g_after : Forall (λ t, cl_at cl ≤ t) (cl_probes cl);
  g_probes : spaced (IDEMIP_ACD_PROBE_MIN_MS cf) (cl_probes cl);
  g_few_probes : Z.of_nat (length (cl_probes cl)) ≤ IDEMIP_ACD_PROBE_NUM cf;
  g_probed : ∀ a, head (cl_announced cl) = Some a →
    Z.of_nat (length (cl_probes cl)) = IDEMIP_ACD_PROBE_NUM cf ∧ ∀ p, last (cl_probes cl) = Some p → p + IDEMIP_ACD_ANNOUNCE_WAIT_MS cf ≤ a;
  g_unclaimed : Forall (λ p, claims_address (cl_ip cl) (cl_mac cl) p = false) (cl_heard cl);
  g_announced : spaced (IDEMIP_ACD_ANNOUNCE_INTERVAL_MS cf) (cl_announced cl);
  g_few_announced : Z.of_nat (length (cl_announced cl)) ≤ IDEMIP_ACD_ANNOUNCE_NUM cf;
  g_defended_used : cl_defences cl ≠ [] → cl_announced cl ≠ [];
  g_defences : spaced (IDEMIP_ACD_DEFEND_INTERVAL_MS cf) (cl_defences cl) }.

Definition acd_call (o : acd_op) : Work → Work :=
  match o with
  | CClear => idemip_acd_clear
  | CStart => idemip_acd_start cf
  | CStop => idemip_acd_stop
  | CArp => idemip_acd_arp_in cf
  | CTick => idemip_acd_tick cf
  end.

Fixpoint acd_run (l : list acd_step) (w : Work) (m : option claim) : Work * option claim :=
  match l with
  | [] => (w, m)
  | s :: l' => let w' := acd_call (s_op s) (put_io w (s_io s)) in acd_run l' w' (witness_call m s (w_io w'))
  end.

(** The header's assertions, and spans the 32-bit clock can tell apart. *)
Record config_ok : Prop := mkOk {
  k_wait : 0 ≤ IDEMIP_ACD_PROBE_WAIT_MS cf < 0x10000;
  k_min : 0 ≤ IDEMIP_ACD_PROBE_MIN_MS cf < 0x10000000;
  k_max : 0 < IDEMIP_ACD_PROBE_MAX_MS cf - IDEMIP_ACD_PROBE_MIN_MS cf < 0x10000;
  k_probes : 1 ≤ IDEMIP_ACD_PROBE_NUM cf ≤ 0xFF;
  k_announces : 1 ≤ IDEMIP_ACD_ANNOUNCE_NUM cf ≤ 0xFF;
  k_conflicts : 0 ≤ IDEMIP_ACD_MAX_CONFLICTS cf ≤ 0xFF;
  k_announce_wait : 0 ≤ IDEMIP_ACD_ANNOUNCE_WAIT_MS cf < 0x80000000;
  k_interval : 0 ≤ IDEMIP_ACD_ANNOUNCE_INTERVAL_MS cf < 0x80000000;
  k_rate : 0 ≤ IDEMIP_ACD_RATE_LIMIT_INTERVAL_MS cf < 0x80000000;
  k_defend : 0 ≤ IDEMIP_ACD_DEFEND_INTERVAL_MS cf < 0x100000000 }.
End Build.
End AcdSpec.
