(* ===== verification/AcdThms.v ===== *)
(** * Properties of address conflict detection (src/acd/acd.c)

    The abstract claim of one address as RFC 5227 has it, the simulation of it by the entries, and when an
    address is announced, defended and given up. *)
From S2P Require Import Prelude Base Wire Arp Acd.

Module AcdThms.
Import Arp ArpPacket Acd AcdSpec.

(** ** Times on the 32-bit clock *)

(** A deadline [d] past a time [base], at least [least]. *)
Definition due_at (deadline base least : Z) : Prop := ∃ d, least ≤ d < 0x80000000 ∧ deadline = u32 (base + d).

Lemma due_reached t deadline base least : base ≤ t → due_at deadline base least → acd_due (u32 t) deadline = true → base + least ≤ t.
Proof.
  intros Ht (d & Hd & ->) Hdue. unfold acd_due in Hdue. apply Z.ltb_lt in Hdue. autorewrite with u32 in Hdue.
  destruct (Z.le_gt_cases (base + least) t); [done|]. exfalso. revert Hdue. wrap.
Qed.

Lemma draw_range rand span : 0 ≤ span < 0x10000 → 0 ≤ acd_draw rand span ≤ span.
Proof.
  intros Hs. unfold acd_draw. rewrite (u32_id (span + 1)) by (wrap_unfold; lia).
  assert (0 ≤ Z.land rand 0xFFFF < 0x10000) as Hl by (change 0xFFFF with (Z.ones 16); rewrite Z.land_ones by lia; apply Z.mod_pos_bound; lia).
  rewrite u32_id by (unfold is_u32; nia). rewrite Z.shiftr_div_pow2 by lia. change (2 ^ 16) with 0x10000.
  split; [apply Z.div_pos; nia|]. apply Z.lt_succ_r, Z.div_lt_upper_bound; nia.
Qed.

Lemma spaced_snoc n l x : spaced n l → (∀ y, last l = Some y → y + n ≤ x) → spaced n (l ++ [x]).
Proof.
  induction l as [|a [|b l] IH]; intros Hs Hl; [done|by split; [apply Hl|]|]. destruct Hs as [Hab Hs]. split; [done|]. apply IH; [done|].
  intros y Hy. apply Hl. by rewrite last_cons_cons.
Qed.
Lemma stamp_true t l : stamp true t l = l ++ [t].
Proof. done. Qed.
Lemma last_nonempty {A} (l : list A) : l ≠ [] → ∃ x, last l = Some x.
Proof. intros H. destruct (last l) eqn:E; [eauto|]. by apply last_None in E. Qed.

Section Inv.
Variable cf : config.
Context (Hcf : config_ok cf).
Implicit Types (w : Work) (cl : claim) (t : Z).

(** What the context and the history agree on, by state. *)
Definition phase_inv (ctx : AcdCtx) cl : Prop :=
  match c_state ctx with
  | IDEMIP_ACD_STATE_PROBE_WAIT => c_sent ctx = 0 ∧ cl_probes cl = [] ∧ cl_announced cl = [] ∧ due_at (c_deadline_ms ctx) (cl_at cl) 0
  | IDEMIP_ACD_STATE_PROBING =>
      0 < c_sent ctx < IDEMIP_ACD_PROBE_NUM cf ∧ Z.of_nat (length (cl_probes cl)) = c_sent ctx ∧ cl_announced cl = [] ∧
      ∀ p, last (cl_probes cl) = Some p → due_at (c_deadline_ms ctx) p (IDEMIP_ACD_PROBE_MIN_MS cf)
  | IDEMIP_ACD_STATE_ANNOUNCE_WAIT =>
      c_sent ctx = 0 ∧ Z.of_nat (length (cl_probes cl)) = IDEMIP_ACD_PROBE_NUM cf ∧ cl_announced cl = [] ∧
      ∀ p, last (cl_probes cl) = Some p → due_at (c_deadline_ms ctx) p (IDEMIP_ACD_ANNOUNCE_WAIT_MS cf)
  | IDEMIP_ACD_STATE_ANNOUNCING =>
      0 < c_sent ctx < IDEMIP_ACD_ANNOUNCE_NUM cf ∧ Z.of_nat (length (cl_announced cl)) = c_sent ctx ∧
      ∀ a, last (cl_announced cl) = Some a → due_at (c_deadline_ms ctx) a (IDEMIP_ACD_ANNOUNCE_INTERVAL_MS cf)
  | IDEMIP_ACD_STATE_ONGOING => c_sent ctx = 0 ∧ cl_announced cl ≠ []
  | _ => False
  end.

Definition defended_inv (ctx : AcdCtx) cl : Prop :=
  if c_defended ctx then ∃ d, last (cl_defences cl) = Some d ∧ c_last_defend_ms ctx = u32 d else cl_defences cl = [].

Record claim_inv t (ctx : AcdCtx) cl : Prop := mkClaimInv {
  ci_ip : c_ipaddr ctx = cl_ip cl;
  ci_mac : c_mac ctx = cl_mac cl;
  ci_at : cl_at cl ≤ t;
  ci_probes : Forall (λ x, x ≤ t) (cl_probes cl);
  ci_announced : Forall (λ x, x ≤ t) (cl_announced cl);
  ci_defences : Forall (λ x, x ≤ t) (cl_defences cl);
  ci_good : claim_good cf cl;
  ci_phase : phase_inv ctx cl;
  ci_defended : defended_inv ctx cl }.

Definition idle (s : IdemIpAcdState) : bool :=
  match s with IDEMIP_ACD_STATE_OFF | IDEMIP_ACD_STATE_RATE_LIMIT => true | _ => false end.
Definition acd_inv t w (m : option claim) : Prop :=
  if acd_ready w && negb (idle (c_state (w_ctx w))) then ∃ cl, m = Some cl ∧ claim_inv t (w_ctx w) cl else m = None.

Lemma claim_later t t' ctx cl : t ≤ t' → claim_inv t ctx cl → claim_inv t' ctx cl.
Proof. intros Ht [? ? ? Hp Ha Hd ? ? ?]. split; try done; [lia|..]; eapply Forall_impl; try done; intros x Hx; simpl in *; lia. Qed.
Lemma inv_later t t' w m : t ≤ t' → acd_inv t w m → acd_inv t' w m.
Proof. intros Ht. unfold acd_inv. destruct (_ && _); [|done]. intros (cl & -> & HI). exists cl. split; [done|]. by apply (claim_later t). Qed.
Lemma last_le t l x : Forall (λ x, x ≤ t) l → last l = Some x → x ≤ t.
Proof. intros Hf Hl. rewrite Forall_forall in Hf. apply Hf. by apply last_Some_elem_of. Qed.

(** The same context. *)
Lemma inv_same t w w' m : w_ctx w' = w_ctx w → acd_inv t w m → acd_inv t w' m.
Proof. intros He. unfold acd_inv, acd_ready. by rewrite He. Qed.

(** No address any more. *)
Lemma inv_none t w : acd_ready w = false ∨ idle (c_state (w_ctx w)) = true → acd_inv t w None.
Proof. intros H. unfold acd_inv. destruct H as [-> | ->]; [done|]. by rewrite andb_false_r. Qed.

(** ** The entries *)

(** A probe goes out. *)
Lemma probe_inv t ctx cl rand : claim_inv t ctx cl → c_state ctx = IDEMIP_ACD_STATE_PROBE_WAIT ∨ c_state ctx = IDEMIP_ACD_STATE_PROBING →
  acd_due (u32 t) (c_deadline_ms ctx) = true → ∀ io,
  claim_inv t (w_ctx (acd_send_probe cf (mkWork io ctx) (u32 t) rand)) (cl <| cl_probes := cl_probes cl ++ [t] |>).
Proof.
  intros [Hip Hmac Hat Hp Ha Hd Hg Hph Hdf] Hs Hdue io. destruct Hcf as [_ Hmin Hmax [Hn1 Hn2] _ _ Haw _ _ _].
  assert (cl_announced cl = []) as Hna by (unfold phase_inv in Hph; destruct Hs as [Hs|Hs]; rewrite Hs in Hph; apply Hph).
  assert (Z.of_nat (length (cl_probes cl)) = c_sent ctx ∧ 0 ≤ c_sent ctx < IDEMIP_ACD_PROBE_NUM cf) as [Hlen Hsr].
  { unfold phase_inv in Hph. destruct Hs as [Hs|Hs]; rewrite Hs in Hph; [destruct Hph as (-> & -> & _); cbn [length]; lia|destruct Hph as (? & ? & _); lia]. }
  assert (∀ y, last (cl_probes cl) = Some y → y + IDEMIP_ACD_PROBE_MIN_MS cf ≤ t) as Hsp.
  { intros y Hy. unfold phase_inv in Hph. destruct Hs as [Hs|Hs]; rewrite Hs in Hph; [destruct Hph as (_ & Hnil & _); by rewrite Hnil in Hy|].
    destruct Hph as (_ & _ & _ & Hdl). apply (due_reached t _ _ _ (last_le t _ y Hp Hy) (Hdl y Hy) Hdue). }
  unfold acd_send_probe. change (w_ctx (mkWork io ctx)) with ctx. cbv zeta. change (c_sent (ctx <| c_sent := ?x |>)) with x. rewrite u8_id by (unfold is_u8; lia).
  cbn [w_ctx]. set (ctx' := if _ <=? _ then _ else _).
  assert (c_ipaddr ctx' = c_ipaddr ctx ∧ c_mac ctx' = c_mac ctx ∧ c_defended ctx' = c_defended ctx ∧ c_last_defend_ms ctx' = c_last_defend_ms ctx) as (Hi' & Hm' & Hd1 & Hd2)
    by (unfold ctx'; by destruct (_ <=? _)).
  split; rewrite ?Hi', ?Hm'; try done.
  - apply Forall_app. split; [done|by constructor].
  - destruct Hg as [Hg1 Hg2 Hg3 Hg4 Hg5 Hg6 Hg7 Hg8 Hg9]. split; change (cl_probes (cl <| cl_probes := ?x |>)) with x; try done.
    + apply Forall_app. split; [done|by constructor].
    + apply spaced_snoc; [done|exact Hsp].
    + rewrite length_app. cbn [length]. lia.
    + intros a. change (cl_announced (cl <| cl_probes := ?x |>)) with (cl_announced cl). rewrite Hna. discriminate.
  - unfold phase_inv, ctx'. destruct (IDEMIP_ACD_PROBE_NUM cf <=? c_sent ctx + 1) eqn:E.
    + apply Z.leb_le in E. change (c_state (_ <| c_deadline_ms := _ |>)) with IDEMIP_ACD_STATE_ANNOUNCE_WAIT. cbv iota.
      change (cl_probes (cl <| cl_probes := ?x |>)) with x. rewrite length_app. cbn [length]. split_and!; [done|lia|done|].
      intros p Hpl. rewrite last_snoc in Hpl. simplify_eq. exists (IDEMIP_ACD_ANNOUNCE_WAIT_MS cf). split; [lia|]. change (u32 (u32 p + IDEMIP_ACD_ANNOUNCE_WAIT_MS cf) = u32 (p + IDEMIP_ACD_ANNOUNCE_WAIT_MS cf)). by rewrite u32_add_l.
    + apply Z.leb_gt in E. change (c_state (_ <| c_deadline_ms := _ |>)) with IDEMIP_ACD_STATE_PROBING. cbv iota.
      change (cl_probes (cl <| cl_probes := ?x |>)) with x. rewrite length_app. cbn [length].
      change (c_sent (_ <| c_deadline_ms := _ |>)) with (c_sent ctx + 1). split_and!; [lia|lia|lia|done|].
      pose proof (draw_range rand (IDEMIP_ACD_PROBE_MAX_MS cf - IDEMIP_ACD_PROBE_MIN_MS cf) ltac:(lia)) as Hdr.
      intros p Hpl. rewrite last_snoc in Hpl. simplify_eq. exists (IDEMIP_ACD_PROBE_MIN_MS cf + acd_draw rand (IDEMIP_ACD_PROBE_MAX_MS cf - IDEMIP_ACD_PROBE_MIN_MS cf)).
      split; [lia|]. change (u32 (u32 p + IDEMIP_ACD_PROBE_MIN_MS cf + acd_draw rand (IDEMIP_ACD_PROBE_MAX_MS cf - IDEMIP_ACD_PROBE_MIN_MS cf)) = u32 (p + (IDEMIP_ACD_PROBE_MIN_MS cf + acd_draw rand (IDEMIP_ACD_PROBE_MAX_MS cf - IDEMIP_ACD_PROBE_MIN_MS cf)))).
      rewrite <- Z.add_assoc. by rewrite u32_add_l.
  - unfold defended_inv. by rewrite Hd1, Hd2.
Qed.

(** An Announcement goes out on the schedule. *)
Lemma announce_inv t ctx cl : claim_inv t ctx cl → c_state ctx = IDEMIP_ACD_STATE_ANNOUNCE_WAIT ∨ c_state ctx = IDEMIP_ACD_STATE_ANNOUNCING →
  acd_due (u32 t) (c_deadline_ms ctx) = true → ∀ io,
  claim_inv t (w_ctx (acd_send_announce cf (mkWork io ctx) (u32 t))) (cl <| cl_announced := cl_announced cl ++ [t] |>).
Proof.
  intros [Hip Hmac Hat Hp Ha Hd Hg Hph Hdf] Hs Hdue io. destruct Hcf as [_ _ _ _ [Hn1 Hn2] _ _ Hin _ _]. pose proof Hg as [Hg1 Hg2 Hg3 Hg4 Hg5 Hg6 Hg7 Hg8 Hg9].
  assert (Z.of_nat (length (cl_announced cl)) = c_sent ctx ∧ 0 ≤ c_sent ctx < IDEMIP_ACD_ANNOUNCE_NUM cf) as [Hlen Hsr].
  { unfold phase_inv in Hph. destruct Hs as [Hs|Hs]; rewrite Hs in Hph; [destruct Hph as (-> & _ & -> & _); cbn [length]; lia|destruct Hph as (? & ? & _); lia]. }
  assert (∀ y, last (cl_announced cl) = Some y → y + IDEMIP_ACD_ANNOUNCE_INTERVAL_MS cf ≤ t) as Hsp.
  { intros y Hy. unfold phase_inv in Hph. destruct Hs as [Hs|Hs]; rewrite Hs in Hph; [destruct Hph as (_ & _ & Hnil & _); by rewrite Hnil in Hy|].
    destruct Hph as (_ & _ & Hdl). apply (due_reached t _ _ _ (last_le t _ y Ha Hy) (Hdl y Hy) Hdue). }
  assert (∀ a, head (cl_announced cl ++ [t]) = Some a →
    Z.of_nat (length (cl_probes cl)) = IDEMIP_ACD_PROBE_NUM cf ∧ ∀ p, last (cl_probes cl) = Some p → p + IDEMIP_ACD_ANNOUNCE_WAIT_MS cf ≤ a) as Hfirst.
  { intros a. destruct (cl_announced cl) as [|a0 l] eqn:El; [|intros Hh; by apply Hg4]. cbn. intros [= <-]. unfold phase_inv in Hph.
    destruct Hs as [Hs|Hs]; rewrite Hs in Hph; [|cbn [length] in Hlen; lia]. destruct Hph as (_ & Hl & _ & Hdl). split; [done|]. intros p Hpl.
    apply (due_reached t _ _ _ (last_le t _ p Hp Hpl) (Hdl p Hpl) Hdue). }
  unfold acd_send_announce. change (w_ctx (mkWork io ctx)) with ctx. cbv zeta. change (c_sent (ctx <| c_sent := ?x |>)) with x. rewrite u8_id by (unfold is_u8; lia).
  cbn [w_ctx]. set (ctx' := if _ <=? _ then _ else _).
  assert (c_ipaddr ctx' = c_ipaddr ctx ∧ c_mac ctx' = c_mac ctx ∧ c_defended ctx' = c_defended ctx ∧ c_last_defend_ms ctx' = c_last_defend_ms ctx) as (Hi' & Hm' & Hd1 & Hd2)
    by (unfold ctx'; by destruct (_ <=? _)).
  split; rewrite ?Hi', ?Hm'; try done.
  - apply Forall_app. split; [done|by constructor].
  - split; change (cl_announced (cl <| cl_announced := ?x |>)) with x; try done; [by apply spaced_snoc|rewrite length_app; cbn [length]; lia|by destruct (cl_announced cl)].
  - unfold phase_inv, ctx'. destruct (IDEMIP_ACD_ANNOUNCE_NUM cf <=? c_sent ctx + 1) eqn:E.
    + change (c_state (_ <| c_deadline_ms := _ |>)) with IDEMIP_ACD_STATE_ONGOING. cbv iota. change (cl_announced (cl <| cl_announced := ?x |>)) with x.
      split; [done|]. by destruct (cl_announced cl).
    + apply Z.leb_gt in E. change (c_state (_ <| c_deadline_ms := _ |>)) with IDEMIP_ACD_STATE_ANNOUNCING. cbv iota.
      change (cl_announced (cl <| cl_announced := ?x |>)) with x. rewrite length_app. cbn [length].
      change (c_sent (_ <| c_deadline_ms := _ |>)) with (c_sent ctx + 1). split_and!; [lia|lia|lia|].
      intros p Hpl. rewrite last_snoc in Hpl. simplify_eq. exists (IDEMIP_ACD_ANNOUNCE_INTERVAL_MS cf). split; [lia|].
      change (u32 (u32 p + IDEMIP_ACD_ANNOUNCE_INTERVAL_MS cf) = u32 (p + IDEMIP_ACD_ANNOUNCE_INTERVAL_MS cf)). by rewrite u32_add_l.
  - unfold defended_inv. by rewrite Hd1, Hd2.
Qed.

(** Counting a conflict leaves all but the count and the next claim. *)
Lemma count_keeps ctx now : (acd_count_conflict cf ctx now) <| c_conflicts := 0 |> <| c_next_claim_ms := 0 |> = ctx <| c_conflicts := 0 |> <| c_next_claim_ms := 0 |>.
Proof. unfold acd_count_conflict. destruct (c_conflicts ctx <? ACD_CONFLICTS_MAX); by destruct (_ <=? _). Qed.
Lemma claim_inv_counted t ctx ctx' cl : ctx' <| c_conflicts := 0 |> <| c_next_claim_ms := 0 |> = ctx <| c_conflicts := 0 |> <| c_next_claim_ms := 0 |> →
  claim_inv t ctx cl → claim_inv t ctx' cl.
Proof.
  intros He [Hip Hmac Hat Hp Ha Hd Hg Hph Hdf].
  pose proof (f_equal c_ipaddr He) as E1. pose proof (f_equal c_mac He) as E2. pose proof (f_equal c_state He) as E3. pose proof (f_equal c_sent He) as E4.
  pose proof (f_equal c_deadline_ms He) as E5. pose proof (f_equal c_defended He) as E6. pose proof (f_equal c_last_defend_ms He) as E7.
  cbn in E1, E2, E3, E4, E5, E6, E7. split; try done; [congruence|congruence| |].
  - unfold phase_inv. by rewrite E3, E4, E5.
  - unfold defended_inv. by rewrite E6, E7.
Qed.
Lemma abandon_idle w now : idle (c_state (w_ctx (acd_abandon cf w now))) = true ∧ io_abandon (w_io (acd_abandon cf w now)) = true.
Proof. unfold acd_abandon. cbv zeta. by destruct (IDEMIP_ACD_MAX_CONFLICTS cf <=? _). Qed.

(** A conflicting packet while the address is in use: given up, or kept with the defence recorded. *)
Lemma defend_inv t w cl : claim_inv t (w_ctx w) cl → cl_announced cl ≠ [] → io_abandon (w_io w) = false → io_send_announce (w_io w) = false →
  let w' := acd_defend cf w (u32 t) in
  (io_abandon (w_io w') = true ∧ idle (c_state (w_ctx w')) = true) ∨
  (io_abandon (w_io w') = false ∧ c_state (w_ctx w') = c_state (w_ctx w) ∧
   claim_inv t (w_ctx w') (cl <| cl_defences := stamp (io_send_announce (w_io w')) t (cl_defences cl) |>)).
Proof.
  intros HI Hu Hab Han. pose proof HI as [Hip Hmac Hat Hp Ha Hd Hg Hph Hdf]. unfold acd_defend. cbv zeta. destruct (c_defense (w_ctx w) =? _); [left; apply and_comm, abandon_idle|].
  destruct (c_defended (w_ctx w) && _) eqn:Hrec.
  - destruct (c_defense (w_ctx w) =? _); [left; apply and_comm, abandon_idle|]. right. split; [done|]. split; [exact (f_equal c_state (count_keeps (w_ctx w) (u32 t)))|].
    change (io_send_announce (w_io (put_ctx w ?x))) with (io_send_announce (w_io w)). rewrite Han.
    replace (cl <| cl_defences := stamp false t (cl_defences cl) |>) with cl by (by destruct cl). exact (claim_inv_counted t _ _ cl (count_keeps _ _) HI).
  - right. split; [done|]. set (ctx1 := (w_ctx w) <| c_last_defend_ms := u32 t |> <| c_defended := true |>). split; [exact (f_equal c_state (count_keeps ctx1 (u32 t)))|].
    change (io_send_announce (w_io (put_io ?a ((w_io w) <| io_send_announce := true |>)))) with true. rewrite stamp_true.
    change (w_ctx (put_io (put_ctx w ?x) ?y)) with x. eapply claim_inv_counted; [apply count_keeps|]. destruct Hcf as [_ _ _ _ _ _ _ _ _ Hdi].
    assert (∀ y, last (cl_defences cl) = Some y → y + IDEMIP_ACD_DEFEND_INTERVAL_MS cf ≤ t) as Hsp.
    { intros y Hy. unfold defended_inv in Hdf. destruct (c_defended (w_ctx w)); [|by rewrite Hdf in Hy]. destruct Hdf as (d & Hdl & Hld). assert (y = d) as -> by congruence.
      cbn [andb] in Hrec. apply Z.ltb_ge in Hrec. rewrite Hld, u32_sub_r, u32_sub_l, (u32_id (IDEMIP_ACD_DEFEND_INTERVAL_MS cf)) in Hrec by (unfold is_u32; lia).
      pose proof (last_le t _ d Hd Hy). destruct (Z.le_gt_cases (d + IDEMIP_ACD_DEFEND_INTERVAL_MS cf) t); [done|]. rewrite u32_id in Hrec by (unfold is_u32; lia). lia. }
    destruct Hg as [Hg1 Hg2 Hg3 Hg4 Hg5 Hg6 Hg7 Hg8 Hg9]. split; try done.
    + apply Forall_app. split; [done|by constructor].
    + split; try done. by apply spaced_snoc.
    + unfold defended_inv. change (c_defended ctx1) with true. cbv iota. exists t. split; [apply last_snoc|done].
Qed.

(** A packet heard while the address is being claimed, none of section 2.1.1's conflicts. *)
Lemma heard_inv t ctx cl p : claim_inv t ctx cl → claims_address (cl_ip cl) (cl_mac cl) p = false → claim_inv t ctx (cl <| cl_heard := cl_heard cl ++ [p] |>).
Proof.
  intros [Hip Hmac Hat Hp Ha Hd Hg Hph Hdf] Hc. split; try done. destruct Hg as [Hg1 Hg2 Hg3 Hg4 Hg5 Hg6 Hg7 Hg8 Hg9]. split; try done.
  apply Forall_app. split; [done|by constructor].
Qed.

Definition in_use (s : IdemIpAcdState) : bool := match s with IDEMIP_ACD_STATE_ANNOUNCING | IDEMIP_ACD_STATE_ONGOING => true | _ => false end.
Lemma phase_use ctx cl : phase_inv ctx cl → idle (c_state ctx) = false ∧ if in_use (c_state ctx) then cl_announced cl ≠ [] else cl_announced cl = [].
Proof.
  unfold phase_inv. destruct (c_state ctx); try done.
  - by intros (_ & _ & ? & _).
  - by intros (_ & _ & ? & _).
  - by intros (_ & _ & ? & _).
  - intros (? & ? & _). split; [done|]. intros Hn. rewrite Hn in *. cbn [length] in *. cbn in *. lia.
  - by intros [_ ?].
Qed.

(** What the packet test of a claim and of section 2.1.1 have in common. *)
Lemma probe_test ctx cl p : c_ipaddr ctx = cl_ip cl → c_mac ctx = cl_mac cl → arp_is_ethernet_ipv4 p = true →
  claims_address (cl_ip cl) (cl_mac cl) p = (arp_is_request p || arp_is_reply p) && acd_probe_conflict ctx p.
Proof.
  intros Hip Hmac He. unfold claims_address, acd_probe_conflict. rewrite He, Hip, Hmac. cbn [andb]. by destruct (arp_spa p =? cl_ip cl).
Qed.

Lemma receive_inv t w cl p : acd_ready w = true → claim_inv t (w_ctx w) cl → ai_now_ms (arp_in_args (w_io w)) = u32 t →
  arp_is_ethernet_ipv4 p = true → io_abandon (w_io w) = false → io_send_announce (w_io w) = false →
  let w' := acd_receive cf w p in
  io_status (w_io w') = IDEMIP_OK ∧
  ((io_abandon (w_io w') = true ∧ idle (c_state (w_ctx w')) = true) ∨
   (io_abandon (w_io w') = false ∧ c_state (w_ctx w') = c_state (w_ctx w) ∧
    claim_inv t (w_ctx w') (match cl_announced cl with
      | [] => cl <| cl_heard := cl_heard cl ++ [p] |>
      | _ => cl <| cl_defences := stamp (io_send_announce (w_io w')) t (cl_defences cl) |> end))).
Proof.
  intros Hr HI Hnow He Hab Han. unfold acd_receive. rewrite Hnow, He. cbn [negb]. cbv zeta. split; [done|].
  destruct (phase_use _ _ (ci_phase _ _ _ HI)) as [Hidle Huse]. pose proof (probe_test (w_ctx w) cl p (ci_ip _ _ _ HI) (ci_mac _ _ _ HI) He) as Ht.
  set (w3 := if _ || _ then _ else w). change (w_ctx (put_status (acd_publish w3) IDEMIP_OK)) with (w_ctx w3).
  change (io_abandon (w_io (put_status (acd_publish w3) IDEMIP_OK))) with (io_abandon (w_io w3)).
  change (io_send_announce (w_io (put_status (acd_publish w3) IDEMIP_OK))) with (io_send_announce (w_io w3)).
  destruct (in_use (c_state (w_ctx w))) eqn:Hin.
  - destruct (cl_announced cl) as [|a l] eqn:El; [done|]. assert (w3 = w ∨ w3 = acd_defend cf (put_io w ((w_io w) <| io_conflict := true |>)) (u32 t)) as [-> | ->].
    { unfold w3. destruct (arp_is_request p || arp_is_reply p); [|by left]. destruct (c_state (w_ctx w)); try done; destruct (acd_ongoing_conflict _ _); auto. }
    + right. split_and!; [done|done|]. rewrite Han. replace (cl <| cl_defences := stamp false t (cl_defences cl) |>) with cl by (by destruct cl). done.
    + apply (defend_inv t (put_io w ((w_io w) <| io_conflict := true |>)) cl); try done. by rewrite El.
  - rewrite Huse. destruct (claims_address (cl_ip cl) (cl_mac cl) p) eqn:Ecl; symmetry in Ht.
    + left. apply andb_true_iff in Ht as [Hq Hc]. assert (w3 = acd_abandon cf (put_io w ((w_io w) <| io_conflict := true |>)) (u32 t)) as ->.
      { unfold w3. rewrite Hq, Hc. by destruct (c_state (w_ctx w)). }
      apply and_comm, abandon_idle.
    + right. assert (w3 = w) as ->.
      { unfold w3. apply andb_false_iff in Ht as [-> | Hc]; [done|]. rewrite Hc. destruct (arp_is_request p || arp_is_reply p); [|done]. by destruct (c_state (w_ctx w)). }
      split_and!; [done|done|]. by apply heard_inv.
Qed.

(** A claim starts over. *)
Lemma fresh_inv t w mac : sa_now_ms (start_args (w_io w)) = u32 t →
  let w' := acd_claim cf w mac in
  (io_status (w_io w') = IDEMIP_BUSY ∧ w_ctx w' = w_ctx w) ∨
  (io_status (w_io w') = IDEMIP_OK ∧ c_ready (w_ctx w') = c_ready (w_ctx w) ∧ c_state (w_ctx w') = IDEMIP_ACD_STATE_PROBE_WAIT ∧
   claim_inv t (w_ctx w') (mkClaim (sa_ipaddr (start_args (w_io w))) mac t [] [] [] [])).
Proof.
  intros Hnow. unfold acd_claim. destruct (_ && _); [by left|]. right. rewrite Hnow. cbv zeta. set (ctx1 := if _ <=? _ then _ else _).
  assert (c_ready ctx1 = c_ready (w_ctx w)) as Hr by (unfold ctx1; by destruct (_ <=? _)). split_and!; [done|exact Hr|done|]. destruct Hcf as [Hw _ _ [? ?] [? ?] _ _ _ _ _].
  pose proof (draw_range (sa_rand (start_args (w_io w))) _ Hw) as Hd.
  split; try done.
  - split; try done; cbn; lia.
  - unfold phase_inv. cbn. split_and!; try done. exists (acd_draw (sa_rand (start_args (w_io w))) (IDEMIP_ACD_PROBE_WAIT_MS cf)). split; [lia|]. apply u32_add_l.
Qed.

Lemma fire_inv t w cl : claim_inv t (w_ctx w) cl → ta_now_ms (tick_args (w_io w)) = u32 t → io_send_probe (w_io w) = false → io_send_announce (w_io w) = false →
  let w' := acd_fire cf w in
  (io_status (w_io w') = IDEMIP_BUSY ∧ w_ctx w' = w_ctx w) ∨
  (io_status (w_io w') = IDEMIP_OK ∧ c_ready (w_ctx w') = c_ready (w_ctx w) ∧ idle (c_state (w_ctx w')) = false ∧
   claim_inv t (w_ctx w') (cl <| cl_probes := stamp (io_send_probe (w_io w')) t (cl_probes cl) |> <| cl_announced := stamp (io_send_announce (w_io w')) t (cl_announced cl) |>)).
Proof.
  intros HI Hnow Hpr Han. destruct (phase_use _ _ (ci_phase _ _ _ HI)) as [Hidle _]. unfold acd_fire. cbv zeta. rewrite Hnow. set (rand := ta_rand (tick_args (w_io w))).
  destruct (acd_due (u32 t) (c_deadline_ms (w_ctx w))) eqn:Hdue; cbn [negb].
  - assert (∀ ctx, c_state ctx = c_state (w_ctx w) → idle (c_state ctx) = false) as Hid by (intros ctx ->; done). destruct w as [io ctx]. cbn [w_ctx w_io] in *.
    assert (∀ w', w' = acd_send_probe cf (mkWork io ctx) (u32 t) rand ∧ (c_state ctx = IDEMIP_ACD_STATE_PROBE_WAIT ∨ c_state ctx = IDEMIP_ACD_STATE_PROBING) ∨
                  w' = acd_send_announce cf (mkWork io ctx) (u32 t) ∧ (c_state ctx = IDEMIP_ACD_STATE_ANNOUNCE_WAIT ∨ c_state ctx = IDEMIP_ACD_STATE_ANNOUNCING) →
      c_ready (w_ctx w') = c_ready ctx ∧ idle (c_state (w_ctx w')) = false ∧
      claim_inv t (w_ctx w') (cl <| cl_probes := stamp (io_send_probe (w_io w')) t (cl_probes cl) |> <| cl_announced := stamp (io_send_announce (w_io w')) t (cl_announced cl) |>)) as Hsent.
    { intros w' [[-> Hs]|[-> Hs]].
      - pose proof (probe_inv t ctx cl rand HI Hs Hdue io) as H. split_and!; [unfold acd_send_probe; cbv zeta; by destruct (_ <=? _)|by destruct (phase_use _ _ (ci_phase _ _ _ H))|].
        change (io_send_probe (w_io (acd_send_probe cf (mkWork io ctx) (u32 t) rand))) with true. change (io_send_announce (w_io (acd_send_probe cf (mkWork io ctx) (u32 t) rand))) with (io_send_announce io).
        rewrite Han. exact H.
      - pose proof (announce_inv t ctx cl HI Hs Hdue io) as H. split_and!; [unfold acd_send_announce; cbv zeta; by destruct (_ <=? _)|by destruct (phase_use _ _ (ci_phase _ _ _ H))|].
        change (io_send_announce (w_io (acd_send_announce cf (mkWork io ctx) (u32 t)))) with true. change (io_send_probe (w_io (acd_send_announce cf (mkWork io ctx) (u32 t)))) with (io_send_probe io).
        rewrite Hpr. exact H. }
    right. destruct (c_state ctx) eqn:Es; try done; (split; [done|]).
    + apply (Hsent (acd_send_probe cf (mkWork io ctx) (u32 t) rand)). auto.
    + apply (Hsent (acd_send_probe cf (mkWork io ctx) (u32 t) rand)). auto.
    + apply (Hsent (acd_send_announce cf (mkWork io ctx) (u32 t))). auto.
    + apply (Hsent (acd_send_announce cf (mkWork io ctx) (u32 t))). auto.
    + cbn. rewrite Es, Hpr, Han. split_and!; try done. by destruct cl.
  - destruct (c_state (w_ctx w)) eqn:Es; try done; try (left; by split). right. split; [done|]. cbn. rewrite Es, Hpr, Han. split_and!; try done. by destruct cl.
Qed.

(** A borrow with a claim, and one without. *)
Lemma inv_cases t w m : acd_inv t w m →
  (acd_ready w = false ∧ m = None) ∨ (acd_ready w = true ∧ idle (c_state (w_ctx w)) = true ∧ m = None) ∨
  (acd_ready w = true ∧ idle (c_state (w_ctx w)) = false ∧ ∃ cl, m = Some cl ∧ claim_inv t (w_ctx w) cl).
Proof. unfold acd_inv. destruct (acd_ready w), (idle (c_state (w_ctx w))); cbn; auto. Qed.
Lemma inv_claimed t w cl : acd_ready w = true → idle (c_state (w_ctx w)) = false → claim_inv t (w_ctx w) cl → acd_inv t w (Some cl).
Proof. intros Hr Hi HI. unfold acd_inv. rewrite Hr, Hi. by exists cl. Qed.

Lemma count_ready ctx n : c_ready (acd_count_conflict cf ctx n) = c_ready ctx.
Proof. exact (f_equal c_ready (count_keeps ctx n)). Qed.
Lemma abandon_ready w n : c_ready (w_ctx (acd_abandon cf w n)) = c_ready (w_ctx w).
Proof. rewrite <- (count_ready (w_ctx w) n). unfold acd_abandon. cbv zeta. set (ctx := acd_count_conflict cf (w_ctx w) n). by destruct (_ <=? _). Qed.
Lemma defend_ready w n : c_ready (w_ctx (acd_defend cf w n)) = c_ready (w_ctx w).
Proof.
  unfold acd_defend. cbv zeta. destruct (c_defense (w_ctx w) =? IDEMIP_ACD_DEFEND_NEVER); [apply abandon_ready|]. destruct (_ && _).
  - destruct (c_defense (w_ctx w) =? IDEMIP_ACD_DEFEND_ONCE); [apply abandon_ready|]. exact (count_ready (w_ctx w) n).
  - exact (count_ready ((w_ctx w) <| c_last_defend_ms := n |> <| c_defended := true |>) n).
Qed.
Lemma receive_ready w p : c_ready (w_ctx (acd_receive cf w p)) = c_ready (w_ctx w).
Proof.
  unfold acd_receive. destruct (negb _); [done|]. cbv zeta. change (w_ctx (put_status (acd_publish ?x) ?y)) with (w_ctx x). destruct (_ || _); [|done].
  set (w1 := put_io w _). set (n := ai_now_ms _). destruct (acd_probe_conflict (w_ctx w) p), (acd_ongoing_conflict (w_ctx w) p), (c_state (w_ctx w));
    first [done|exact (abandon_ready w1 n)|exact (defend_ready w1 n)].
Qed.

Lemma arp_in_step t w m s : s_op s = CArp → acd_inv t w m → on_time s → t = s_at s →
  let w' := idemip_acd_arp_in cf (put_io w (s_io s)) in acd_inv t w' (witness_call m s (w_io w')).
Proof.
  intros Ho HI Ht ->. unfold on_time, clock_of in Ht. rewrite Ho in Ht. unfold witness_call. rewrite Ho. unfold idemip_acd_arp_in. set (w2 := acd_begin (put_io w (s_io s))).
  change (acd_ready w2) with (acd_ready w). assert (acd_inv (s_at s) w2 m) as HI2 by (by apply (inv_same _ w)).
  destruct (inv_cases _ _ _ HI2) as [[Hr ->]|[(Hr & Hi & ->)|(Hr & Hi & cl & -> & HC)]]; change (acd_ready w2) with (acd_ready w) in Hr; rewrite Hr; cbn [negb].
  - exact HI2.
  - change (ai_packet (arp_in_args (w_io w2))) with (ai_packet (arp_in_args (s_io s))). destruct (ai_packet _) as [p|]; [|exact HI2].
    assert (w_ctx (acd_receive cf w2 p) = w_ctx w2) as Hctx.
    { unfold acd_receive. destruct (negb _); [done|]. cbv zeta. destruct (_ || _); [|done]. by destruct (c_state (w_ctx w2)). }
    assert (acd_inv (s_at s) (acd_receive cf w2 p) None) as Hn by (apply inv_none; right; by rewrite Hctx).
    destruct (io_status _); [|done..]. by destruct (io_abandon _).
  - change (ai_packet (arp_in_args (w_io w2))) with (ai_packet (arp_in_args (s_io s))). destruct (ai_packet _) as [p|]; [|exact HI2].
    destruct (arp_is_ethernet_ipv4 p) eqn:He; [|unfold acd_receive; rewrite He; exact HI2].
    destruct (receive_inv (s_at s) w2 cl p Hr HC Ht He eq_refl eq_refl) as (-> & [[-> Hid]|(-> & Hst & HC')]); [by apply inv_none; right|].
    pose proof (receive_ready w2 p) as Hrd.
    cbn [fmap option_fmap option_map default from_option]. apply inv_claimed; [unfold acd_ready in *; by rewrite Hrd|by rewrite Hst|]. by destruct (cl_announced cl).
Qed.

Lemma step_inv t w m s : acd_inv t w m → t ≤ s_at s → on_time s →
  let w' := acd_call cf (s_op s) (put_io w (s_io s)) in acd_inv (s_at s) w' (witness_call m s (w_io w')).
Proof.
  intros HI Hle Ht. apply (inv_later t (s_at s)) in HI; [|done]. clear Hle. set (w2 := acd_begin (put_io w (s_io s))).
  assert (acd_inv (s_at s) w2 m) as HI2 by (by apply (inv_same _ w)). destruct (s_op s) eqn:Ho; cbn [acd_call].
  - unfold witness_call. rewrite Ho. by apply inv_none; right.
  - unfold idemip_acd_start, witness_call. rewrite Ho. fold w2. unfold on_time, clock_of in Ht. rewrite Ho in Ht. destruct (acd_ready w2) eqn:Hr; cbn [negb]; [|exact HI2].
    change (start_args (w_io w2)) with (start_args (s_io s)). destruct (sa_mac (start_args (s_io s))) as [mac|]; [|exact HI2]. destruct (_ || _); [exact HI2|].
    destruct (fresh_inv (s_at s) w2 mac Ht) as [[-> Hctx]|(-> & Hrd & Hst & HC)]; [by apply (inv_same _ w2)|].
    apply inv_claimed; [unfold acd_ready in *; by rewrite Hrd|by rewrite Hst|exact HC].
  - unfold idemip_acd_stop, witness_call. rewrite Ho. fold w2. destruct (acd_ready w2); cbn [negb]; [|exact HI2]. apply inv_none. right.
    unfold acd_cease. cbv zeta. change (c_state (_ <| c_last_defend_ms := _ |>)) with (c_state (w_ctx w2)). case_bool_decide as Hs; [|done]. change (idle (c_state (w_ctx w2)) = true). by rewrite Hs.
  - by apply arp_in_step.
  - unfold idemip_acd_tick, witness_call. rewrite Ho. fold w2. unfold on_time, clock_of in Ht. rewrite Ho in Ht.
    destruct (inv_cases _ _ _ HI2) as [[Hr ->]|[(Hr & Hi & ->)|(Hr & Hi & cl & -> & HC)]]; rewrite Hr; cbn [negb]; [exact HI2| |].
    + assert (idle (c_state (w_ctx (acd_fire cf w2))) = true) as Hn.
      { unfold acd_fire. cbv zeta. destruct (c_state (w_ctx w2)) eqn:Es; try done; [|destruct (negb _); [|done]]; (change (idle (c_state (w_ctx w2)) = true); by rewrite Es). }
      destruct (io_status _); by apply inv_none; right.
    + destruct (fire_inv (s_at s) w2 cl HC Ht eq_refl eq_refl) as [[-> Hctx]|(-> & Hrd & Hst & HC')]; [by apply (inv_same _ w2)|].
      apply inv_claimed; [unfold acd_ready in *; by rewrite Hrd|done|exact HC'].
Qed.

Lemma run_inv l t w m : acd_inv t w m → in_order t l → ∃ t', acd_inv t' (acd_run cf l w m).1 (acd_run cf l w m).2.
Proof.
  revert t w m. induction l as [|s l IH]; intros t w m HI Hl; [by exists t|]. destruct Hl as (Ht & Ho & Hl). cbn [acd_run].
  apply (IH (s_at s)); [|done]. by apply (step_inv t).
Qed.

(** ** The rate limit *)

(** Past the limit of conflicts, with the interval running from a time in [[t1, t]]. *)
Definition limited t1 t (ctx : AcdCtx) : Prop :=
  c_ready ctx = ACD_READY ∧ IDEMIP_ACD_MAX_CONFLICTS cf ≤ c_conflicts ctx ∧
  ∃ tl, t1 ≤ tl ≤ t ∧ c_next_claim_ms ctx = u32 (tl + IDEMIP_ACD_RATE_LIMIT_INTERVAL_MS cf).

Lemma limited_same t1 t ctx ctx' : c_ready ctx' = c_ready ctx → c_conflicts ctx' = c_conflicts ctx → c_next_claim_ms ctx' = c_next_claim_ms ctx →
  limited t1 t ctx → limited t1 t ctx'.
Proof. intros H1 H2 H3. unfold limited. by rewrite H1, H2, H3. Qed.
Lemma limited_later t1 t t' ctx : t ≤ t' → limited t1 t ctx → limited t1 t' ctx.
Proof. intros Ht (? & ? & tl & ? & ?). split_and!; [done|done|]. exists tl. split; [lia|done]. Qed.

Lemma count_grows ctx n : 0 ≤ c_conflicts ctx → c_conflicts ctx ≤ c_conflicts (acd_count_conflict cf ctx n).
Proof.
  intros H0. unfold acd_count_conflict. destruct (c_conflicts ctx <? ACD_CONFLICTS_MAX) eqn:E; [|by destruct (_ <=? _)]. apply Z.ltb_lt in E. unfold ACD_CONFLICTS_MAX in E.
  assert (u8 (c_conflicts ctx + 1) = c_conflicts ctx + 1) as Hu by (apply u8_id; unfold is_u8; lia). change (c_conflicts (ctx <| c_conflicts := ?x |>)) with x. rewrite Hu.
  destruct (_ <=? _); change (c_conflicts (_ <| c_conflicts := c_conflicts ctx + 1 |>)) with (c_conflicts ctx + 1); cbn; lia.
Qed.
(** A conflict counted at the limit starts the interval over. *)
Lemma count_limits t1 t ctx : t1 ≤ t → c_ready ctx = ACD_READY → IDEMIP_ACD_MAX_CONFLICTS cf ≤ c_conflicts (acd_count_conflict cf ctx (u32 t)) →
  limited t1 t (acd_count_conflict cf ctx (u32 t)).
Proof.
  intros Ht Hr Hc. split; [by rewrite count_ready|]. split; [done|]. exists t. split; [lia|]. revert Hc. unfold acd_count_conflict. set (ctx1 := if _ <? _ then _ else _).
  destruct (IDEMIP_ACD_MAX_CONFLICTS cf <=? c_conflicts ctx1) eqn:E; intros Hc; [|apply Z.leb_gt in E; lia]. apply u32_add_l.
Qed.

Lemma abandon_limits t1 t w : t1 ≤ t → c_ready (w_ctx w) = ACD_READY → IDEMIP_ACD_MAX_CONFLICTS cf ≤ c_conflicts (w_ctx (acd_abandon cf w (u32 t))) →
  limited t1 t (w_ctx (acd_abandon cf w (u32 t))).
Proof.
  intros Ht Hr Hc. assert (c_conflicts (w_ctx (acd_abandon cf w (u32 t))) = c_conflicts (acd_count_conflict cf (w_ctx w) (u32 t))) as Hcc.
  { unfold acd_abandon. cbv zeta. set (ctx := acd_count_conflict cf (w_ctx w) (u32 t)). by destruct (_ <=? _). }
  rewrite Hcc in Hc. apply (limited_same t1 t (acd_count_conflict cf (w_ctx w) (u32 t))); [|done| |by apply count_limits].
  - by rewrite count_ready, abandon_ready.
  - unfold acd_abandon. cbv zeta. set (ctx := acd_count_conflict cf (w_ctx w) (u32 t)). by destruct (_ <=? _).
Qed.
Lemma defend_limits t1 t w : t1 ≤ t → c_ready (w_ctx w) = ACD_READY → IDEMIP_ACD_MAX_CONFLICTS cf ≤ c_conflicts (w_ctx (acd_defend cf w (u32 t))) →
  limited t1 t (w_ctx (acd_defend cf w (u32 t))).
Proof.
  intros Ht Hr. unfold acd_defend. cbv zeta. destruct (c_defense (w_ctx w) =? IDEMIP_ACD_DEFEND_NEVER); [by apply abandon_limits|]. destruct (_ && _).
  - destruct (c_defense (w_ctx w) =? IDEMIP_ACD_DEFEND_ONCE); [by apply abandon_limits|]. intros Hc. by apply count_limits.
  - intros Hc. by apply count_limits.
Qed.

(** What a packet does: nothing, or a conflict counted. *)
Lemma receive_cases w p : w_ctx (acd_receive cf w p) = w_ctx w ∧ io_conflict (w_io (acd_receive cf w p)) = io_conflict (w_io w) ∨
  ∃ w1, w_ctx w1 = w_ctx w ∧ (w_ctx (acd_receive cf w p) = w_ctx (acd_abandon cf w1 (ai_now_ms (arp_in_args (w_io w)))) ∨
                              w_ctx (acd_receive cf w p) = w_ctx (acd_defend cf w1 (ai_now_ms (arp_in_args (w_io w))))).
Proof.
  unfold acd_receive. destruct (negb _); [by left|]. cbv zeta. destruct (_ || _); [|by left]. set (w1 := put_io w _).
  destruct (acd_probe_conflict (w_ctx w) p), (acd_ongoing_conflict (w_ctx w) p), (c_state (w_ctx w));
    first [left; by split|right; exists w1; split; [done|]; left; reflexivity|right; exists w1; split; [done|]; right; reflexivity].
Qed.
Lemma receive_limits t1 t w p : t1 ≤ t → c_ready (w_ctx w) = ACD_READY → ai_now_ms (arp_in_args (w_io w)) = u32 t →
  IDEMIP_ACD_MAX_CONFLICTS cf ≤ c_conflicts (w_ctx (acd_receive cf w p)) →
  w_ctx (acd_receive cf w p) = w_ctx w ∧ io_conflict (w_io (acd_receive cf w p)) = io_conflict (w_io w) ∨ limited t1 t (w_ctx (acd_receive cf w p)).
Proof.
  intros Ht Hr Hn Hc. destruct (receive_cases w p) as [?|(w1 & Hctx & He)]; [by left|right]. rewrite Hn in He.
  destruct He as [He|He]; rewrite He in *; [apply abandon_limits|apply defend_limits]; try done; by rewrite Hctx.
Qed.
Lemma receive_grows w p : 0 ≤ c_conflicts (w_ctx w) → c_conflicts (w_ctx w) ≤ c_conflicts (w_ctx (acd_receive cf w p)).
Proof.
  intros H0. destruct (receive_cases w p) as [[-> _]|(w1 & Hctx & He)]; [done|]. rewrite <- Hctx in *. set (n := ai_now_ms _) in He.
  assert (c_conflicts (w_ctx w1) ≤ c_conflicts (w_ctx (acd_abandon cf w1 n))) as Hab.
  { etrans; [apply (count_grows _ n H0)|]. unfold acd_abandon. cbv zeta. set (ctx := acd_count_conflict cf (w_ctx w1) n). by destruct (_ <=? _). }
  destruct He as [-> | ->]; [done|]. unfold acd_defend. cbv zeta. destruct (_ =? _); [done|]. destruct (_ && _).
  - destruct (_ =? _); [done|]. exact (count_grows _ n H0).
  - set (ctx1 := (w_ctx w1) <| c_last_defend_ms := n |> <| c_defended := true |>). change (c_conflicts ctx1 ≤ c_conflicts (acd_count_conflict cf ctx1 n)). by apply count_grows.
Qed.

Lemma claim_limits t1 t w mac : t1 ≤ t → c_ready (w_ctx w) = ACD_READY → sa_now_ms (start_args (w_io w)) = u32 t → IDEMIP_ACD_MAX_CONFLICTS cf ≤ c_conflicts (w_ctx w) →
  let w' := acd_claim cf w mac in
  (io_status (w_io w') = IDEMIP_BUSY ∧ w_ctx w' = w_ctx w) ∨
  (io_status (w_io w') = IDEMIP_OK ∧ acd_due (u32 t) (c_next_claim_ms (w_ctx w)) = true ∧ limited t1 t (w_ctx w')).
Proof.
  intros Ht Hr Hn Hc. unfold acd_claim. rewrite Hn. apply Z.leb_le in Hc as E. rewrite E. destruct (acd_due _ _) eqn:Hd; cbn [negb andb]; [right|by left].
  split_and!; [done|done|]. split_and!; [exact Hr|exact Hc|]. exists t. split; [lia|]. apply u32_add_l.
Qed.
Lemma claim_conflicts w mac : c_conflicts (w_ctx (acd_claim cf w mac)) = c_conflicts (w_ctx w) ∧ io_conflicts (w_io (acd_claim cf w mac)) = c_conflicts (w_ctx w).
Proof. unfold acd_claim. cbv zeta. destruct (_ && _); [done|]. by destruct (_ <=? _). Qed.

(** The interval starts with a claim that is taken, and with a conflict. *)
Definition starts_interval (s : acd_step) (r : AcdIo) : Prop :=
  match s_op s with CStart => io_status r = IDEMIP_OK | CArp => io_conflict r = true | _ => False end.

Lemma interval_starts w s : on_time s → let w' := acd_call cf (s_op s) (put_io w (s_io s)) in
  starts_interval s (w_io w') → IDEMIP_ACD_MAX_CONFLICTS cf ≤ io_conflicts (w_io w') → limited (s_at s) (s_at s) (w_ctx w').
Proof.
  intros Ht w'. unfold w', starts_interval. unfold on_time, clock_of in Ht. destruct (s_op s) eqn:Ho; try done; cbn [acd_call]; set (w2 := acd_begin (put_io w (s_io s))).
  - unfold idemip_acd_start. fold w2. destruct (acd_ready w2) eqn:Hr; cbn [negb]; [|done]. apply Z.eqb_eq in Hr. change (start_args (w_io w2)) with (start_args (s_io s)).
    destruct (sa_mac _) as [mac|]; [|done]. destruct (_ || _); [done|]. rewrite (proj2 (claim_conflicts w2 mac)). intros Hst Hc.
    destruct (claim_limits (s_at s) (s_at s) w2 mac (Z.le_refl _) Hr Ht Hc) as [[Hb _]|(_ & _ & Hl)]; [congruence|done].
  - unfold idemip_acd_arp_in. fold w2. destruct (acd_ready w2) eqn:Hr; cbn [negb]; [|done]. apply Z.eqb_eq in Hr. change (arp_in_args (w_io w2)) with (arp_in_args (s_io s)).
    destruct (ai_packet _) as [p|]; [|done]. intros Hcf' Hc. destruct (decide (arp_is_ethernet_ipv4 p = true)) as [He|He].
    + assert (io_conflicts (w_io (acd_receive cf w2 p)) = c_conflicts (w_ctx (acd_receive cf w2 p))) as Hp by (unfold acd_receive; by rewrite He).
      rewrite Hp in Hc. destruct (receive_limits (s_at s) (s_at s) w2 p (Z.le_refl _) Hr Ht Hc) as [[_ Hno]|?]; [|done]. by rewrite Hno in Hcf'.
    + revert Hcf'. unfold acd_receive. destruct (arp_is_ethernet_ipv4 p); done.
Qed.

Lemma limited_step t1 t w s : limited t1 t (w_ctx w) → t ≤ s_at s → on_time s → s_op s ≠ CClear → limited t1 (s_at s) (w_ctx (acd_call cf (s_op s) (put_io w (s_io s)))).
Proof.
  intros HL Hle Ht Hn. assert (t1 ≤ s_at s) as Ht1 by (destruct HL as (_ & _ & tl & ? & _); lia). apply (limited_later t1 t (s_at s)) in HL; [|done]. set (w2 := acd_begin (put_io w (s_io s))).
  assert (limited t1 (s_at s) (w_ctx w2)) as HL2 by done. pose proof HL2 as (Hr & Hc & _). unfold on_time, clock_of in Ht. destruct (s_op s) eqn:Ho; [done|..]; cbn [acd_call].
  - unfold idemip_acd_start. fold w2. destruct (negb _); [done|]. change (start_args (w_io w2)) with (start_args (s_io s)). destruct (sa_mac _) as [mac|]; [|done]. destruct (_ || _); [done|].
    destruct (claim_limits t1 (s_at s) w2 mac Ht1 Hr Ht Hc) as [[_ ->]|(_ & _ & Hl)]; done.
  - unfold idemip_acd_stop. fold w2. destruct (negb _); [done|]. unfold acd_cease. cbv zeta. by case_bool_decide; apply (limited_same t1 _ (w_ctx w2)).
  - unfold idemip_acd_arp_in. fold w2. destruct (negb _); [done|]. change (arp_in_args (w_io w2)) with (arp_in_args (s_io s)). destruct (ai_packet _) as [p|]; [|done].
    destruct (receive_limits t1 (s_at s) w2 p Ht1 Hr Ht) as [[-> _]|?]; [|done..]. destruct Hcf as [_ _ _ _ _ Hk _ _ _ _]. etrans; [exact Hc|]. apply receive_grows. lia.
  - unfold idemip_acd_tick. fold w2. destruct (negb _); [done|]. unfold acd_fire. cbv zeta.
    destruct (c_state (w_ctx w2)); try (destruct (negb _)); try done; unfold acd_send_probe, acd_send_announce; cbv zeta; try destruct (_ <=? _); by apply (limited_same t1 _ (w_ctx w2)).
Qed.

Lemma limited_run l t1 t w m : limited t1 t (w_ctx w) → in_order t l → Forall (λ s, s_op s ≠ CClear) l → ∀ s2, in_order t (l ++ [s2]) →
  ∃ t', t' ≤ s_at s2 ∧ limited t1 t' (w_ctx (acd_run cf l w m).1).
Proof.
  revert t w m. induction l as [|s l IH]; intros t w m HL Hl Hn s2 Hs2; [exists t; destruct Hs2 as [? _]; done|]. destruct Hl as (Ht & Ho & Hl). apply Forall_cons in Hn as [Hns Hn].
  destruct Hs2 as (_ & _ & Hs2). cbn [acd_run]. apply (IH (s_at s)); try done. by apply (limited_step t1 t).
Qed.
End Inv.

(** ** The properties *)

(** C28. An address is announced only after it has been probed for.  From a borrow never cleared, through
    any calls in order of time on a clock of which the entries see 32 bits: whenever an address is
    claimed, at most PROBE_NUM probes were asked for since the claim, PROBE_MIN apart; before the first
    Announcement all PROBE_NUM were, the last of them ANNOUNCE_WAIT before, and no packet received since
    the claim was one that section 2.1.1 calls a conflict; at most ANNOUNCE_NUM Announcements go out,
    ANNOUNCE_INTERVAL apart; and defences, made only of an announced address, are DEFEND_INTERVAL apart. *)
Theorem acd_announces_after_probing (cf : config) (l : list acd_step) (t : Z) (w : Work) (cl : claim) :
  config_ok cf → acd_ready w = false → in_order t l → (acd_run cf l w None).2 = Some cl → claim_good cf cl.
Proof.
  intros Hcf Hw Hl Hm. destruct (run_inv cf Hcf l t w None) as [t' HI]; [by apply inv_none; left|done|]. rewrite Hm in HI. unfold acd_inv in HI.
  destruct (_ && _); [|done]. destruct HI as (cl' & Heq & HC). simplify_eq. apply (ci_good _ _ _ _ HC).
Qed.

(** Past MAX_CONFLICTS conflicts, a claim is taken at most once in RATE_LIMIT_INTERVAL.  From any
    borrow: a call that takes a claim, or finds a conflict, with the count at the limit; then any calls but
    a clear, in order of time; then a claim that is taken comes at least RATE_LIMIT_INTERVAL after it. *)
Theorem acd_claims_rate_limited (cf : config) (w : Work) (s1 s2 : acd_step) (l : list acd_step) :
  config_ok cf → in_order (s_at s1) (s1 :: l ++ [s2]) → Forall (λ s, s_op s ≠ CClear) l → s_op s2 = CStart →
  let w1 := acd_call cf (s_op s1) (put_io w (s_io s1)) in
  starts_interval s1 (w_io w1) → IDEMIP_ACD_MAX_CONFLICTS cf ≤ io_conflicts (w_io w1) →
  let w2 := (acd_run cf l w1 None).1 in
  io_status (w_io (idemip_acd_start cf (put_io w2 (s_io s2)))) = IDEMIP_OK → s_at s1 + IDEMIP_ACD_RATE_LIMIT_INTERVAL_MS cf ≤ s_at s2.
Proof.
  intros Hcf (_ & Ht1 & Hord) Hn Ho2 w1 Hs Hc w2 Hst. pose proof (interval_starts cf w s1 Ht1 Hs Hc) as HL. fold w1 in HL.
  assert (in_order (s_at s1) l ∧ on_time s2) as [Hl Ht2].
  { revert Hord. clear. generalize (s_at s1). induction l as [|s l IH]; intros t; [intros (_ & ? & _); done|]. intros (? & ? & H). destruct (IH _ H). done. }
  destruct (limited_run cf Hcf l _ _ w1 None HL Hl Hn s2 Hord) as (t' & Hle & HL2). fold w2 in HL2. destruct HL2 as (Hr & Hc2 & tl & Htl & Hnext).
  unfold on_time, clock_of in Ht2. rewrite Ho2 in Ht2. revert Hst. unfold idemip_acd_start. set (w3 := acd_begin (put_io w2 (s_io s2))).
  destruct (negb _); [done|]. change (start_args (w_io w3)) with (start_args (s_io s2)). destruct (sa_mac _) as [mac|]; [|done]. destruct (_ || _); [done|].
  intros Hst. destruct (claim_limits cf (s_at s2) (s_at s2) w3 mac (Z.le_refl _) Hr Ht2 Hc2) as [[Hb _]|(_ & Hdue & _)]; [congruence|].
  change (c_next_claim_ms (w_ctx w3)) with (c_next_claim_ms (w_ctx w2)) in Hdue. destruct Hcf as [_ _ _ _ _ _ _ _ Hk _].
  enough (tl + IDEMIP_ACD_RATE_LIMIT_INTERVAL_MS cf ≤ s_at s2) by lia. apply (due_reached (s_at s2) (c_next_claim_ms (w_ctx w2)) tl); [lia| |done].
  exists (IDEMIP_ACD_RATE_LIMIT_INTERVAL_MS cf). split; [lia|done].
Qed.
(** ** A concrete interface *)
Definition acd_cf : config := mkConfig 1000 3 1000 2000 2000 2 2000 10 60000 10000.
Definition acd_mac : list Z := [2; 0; 0; 0; 0; 1].
Definition acd_ip : Z := 0xA9FE0203.
Definition acd_io : AcdIo :=
  mkIo (mkStartArgs None 0 0 0 0) (mkArpInArgs None 0 0) (mkTickArgs 0 0) 0 0 IDEMIP_OK IDEMIP_ACD_STATE_OFF 0 0 false false false false.
Definition acd_unused : Work := mkWork acd_io (mkCtx 0 0 0 0 0 [] IDEMIP_ACD_STATE_OFF 0 0 0 false).
Definition clears (t : Z) : acd_step := mkStep CClear t acd_io.
Definition claims (t defense : Z) : acd_step := mkStep CStart t (acd_io <| start_args := mkStartArgs (Some acd_mac) acd_ip 0 (u32 t) defense |>).
Definition ticks (t : Z) : acd_step := mkStep CTick t (acd_io <| tick_args := mkTickArgs (u32 t) 0 |>).
Definition hears (t : Z) (p : list Z) : acd_step := mkStep CArp t (acd_io <| arp_in_args := mkArpInArgs (Some p) (u32 t) 0 |>).
Definition others_reply : list Z := arp_reply (replicate 28 0) [2; 0; 0; 0; 0; 9] acd_ip acd_mac 0xA9FE0909.
Definition others_request : list Z := arp_request (replicate 28 0) [2; 0; 0; 0; 0; 9] 0xA9FE0909 0xA9FE0101.

Lemma acd_cf_ok : config_ok acd_cf.
Proof. split; cbn; lia. Qed.

Definition claim_steps : list acd_step :=
  [clears 0; claims 100 IDEMIP_ACD_DEFEND_ONCE; ticks 100; hears 600 others_request; ticks 1100; ticks 2100; ticks 4100; hears 5000 others_reply].
Definition claim_made : claim := mkClaim acd_ip acd_mac 100 [100; 1100; 2100] [others_request] [4100] [5000].

(** Probed for, announced and once defended. *)
Lemma acd_announces_after_probing_witness : (acd_run acd_cf claim_steps acd_unused None).2 = Some claim_made ∧ claim_good acd_cf claim_made.
Proof.
  assert ((acd_run acd_cf claim_steps acd_unused None).2 = Some claim_made) as E by (vm_compute; reflexivity). split; [exact E|].
  refine (acd_announces_after_probing acd_cf claim_steps 0 acd_unused claim_made acd_cf_ok eq_refl _ E).
  repeat (split; [vm_compute; discriminate|split; [reflexivity|]]). exact I.
Defined.

(** Ten claims, each met by a conflict, and then the eleventh. *)
Definition ten_conflicts : list acd_step :=
  clears 0 :: concat ((λ k, [claims (100 * k) IDEMIP_ACD_DEFEND_ONCE; hears (100 * k + 50) others_reply]) <$> seqZ 1 9) ++ [claims 1000 IDEMIP_ACD_DEFEND_ONCE].
Definition nine_met : Work := (acd_run acd_cf ten_conflicts acd_unused None).1.

Lemma acd_claims_rate_limited_witness :
  io_status (w_io (idemip_acd_start acd_cf (put_io (acd_run acd_cf [ticks 40000] (acd_call acd_cf CArp (put_io nine_met (s_io (hears 1050 others_reply)))) None).1 (s_io (claims 61050 0))))) = IDEMIP_OK ∧
  1050 + IDEMIP_ACD_RATE_LIMIT_INTERVAL_MS acd_cf ≤ 61050.
Proof.
  assert (io_status (w_io (idemip_acd_start acd_cf (put_io (acd_run acd_cf [ticks 40000] (acd_call acd_cf CArp (put_io nine_met (s_io (hears 1050 others_reply)))) None).1 (s_io (claims 61050 0))))) = IDEMIP_OK)
    as E by (vm_compute; reflexivity). split; [exact E|].
  refine (acd_claims_rate_limited acd_cf nine_met (hears 1050 others_reply) (claims 61050 0) [ticks 40000] acd_cf_ok _ _ eq_refl _ _ E).
  - repeat (split; [vm_compute; discriminate|split; [reflexivity|]]). exact I.
  - repeat constructor. discriminate.
  - vm_compute. reflexivity.
  - vm_compute. discriminate.
Defined.

(** ** A claim refused for weeks

    The end of the interval is compared over half the clock's range, and nothing forgets it: twenty-five
    days after the tenth conflict a claim is BUSY, and still is three weeks later. *)
Example claim_refused_after_25_days :
  let start_at t := io_status (w_io (idemip_acd_start acd_cf (put_io (acd_run acd_cf (ten_conflicts ++ [hears 1050 others_reply]) acd_unused None).1 (s_io (claims t 0))))) in
  start_at (1050 + 60000) = IDEMIP_OK ∧ start_at (1050 + 25 * 86400000) = IDEMIP_BUSY ∧ start_at (1050 + 46 * 86400000) = IDEMIP_BUSY.
Proof. vm_compute. split_and!; reflexivity. Qed.
End AcdThms.
