(* ===== verification/Autoip.v ===== *)
(** * IPv4 link-local addresses (src/autoip/autoip.c)

    RFC 3927's choice of an address for one interface: the generator, the draw, and the machine that hands
    candidates to conflict detection. *)
From S2P Require Import Prelude Base Acd.

Module Autoip.

Definition AUTOIP_READY : Z := 0x41494F50.
Definition AUTOIP_MIX : Z := 0x9E3779B9.
Definition AUTOIP_DRAW_TRIES : nat := 4.
Definition IDEMIP_AUTOIP_PREFIX : Z := 0xA9FE0000.
Definition IDEMIP_AUTOIP_FIRST : Z := 0xA9FE0100.
Definition IDEMIP_AUTOIP_LAST : Z := 0xA9FEFEFF.
Definition IDEMIP_AUTOIP_NETMASK : Z := 0xFFFF0000.
Definition AUTOIP_SPAN : Z := IDEMIP_AUTOIP_LAST - IDEMIP_AUTOIP_FIRST + 1.
Definition AUTOIP_COUNT_MAX : Z := 0xFF.

Inductive IdemIpAutoIpState : Type := IDEMIP_AUTOIP_STATE_OFF | IDEMIP_AUTOIP_STATE_CHECKING | IDEMIP_AUTOIP_STATE_BOUND.
#[export] Instance IdemIpAutoIpState_eq_dec : EqDecision IdemIpAutoIpState.
Proof. solve_decision. Defined.

Record AutoIpStartArgs := mkStartArgs { sa_mac : option (list Z); sa_rand : Z; sa_now_ms : Z }.
Record AutoIpConflictArgs := mkConflictArgs { ca_rand : Z; ca_now_ms : Z }.
Record AutoIpTickArgs := mkTickArgs { ta_now_ms : Z; ta_rand : Z }.
Record AutoIpIo := mkIo {
  start_args : AutoIpStartArgs; conflict_args : AutoIpConflictArgs; tick_args : AutoIpTickArgs;
  io_ipaddr : Z; io_netmask : Z; io_deadline_ms : Z; io_status : IdemIpStatus; io_state : IdemIpAutoIpState; io_tried : Z; io_claim : bool }.
#[export] Instance AutoIpIo_eta : Eta AutoIpIo := fun r =>
  mkIo (start_args r) (conflict_args r) (tick_args r) (io_ipaddr r) (io_netmask r) (io_deadline_ms r) (io_status r) (io_state r) (io_tried r) (io_claim r).

Record AutoIpCtx := mkCtx {
  c_ready : Z; c_ipaddr : Z; c_deadline_ms : Z; c_seed : Z; c_state : IdemIpAutoIpState; c_tried : Z; c_conflicts : Z; c_held : bool }.
#[export] Instance AutoIpCtx_eta : Eta AutoIpCtx := fun r =>
  mkCtx (c_ready r) (c_ipaddr r) (c_deadline_ms r) (c_seed r) (c_state r) (c_tried r) (c_conflicts r) (c_held r).
Record Work := mkWork { w_io : AutoIpIo; w_ctx : AutoIpCtx }.
#[export] Instance Work_eta : Eta Work := fun r => mkWork (w_io r) (w_ctx r).

Definition put_io (w : Work) (io : AutoIpIo) : Work := w <| w_io := io |>.
Definition put_ctx (w : Work) (ctx : AutoIpCtx) : Work := w <| w_ctx := ctx |>.
Definition put_results (w : Work) (claim : bool) (s : IdemIpStatus) : Work := w <| w_io := (w_io w) <| io_claim := claim |> <| io_status := s |> |>.

Definition autoip_ready (w : Work) : bool := c_ready (w_ctx w) =? AUTOIP_READY.

(** ** The generator *)
Definition autoip_next (seed : Z) : Z :=
  let s := if negb (seed =? 0) then seed else AUTOIP_MIX in
  let s := Z.lxor s (u32 (Z.shiftl s 13)) in
  let s := Z.lxor s (Z.shiftr s 17) in
  Z.lxor s (u32 (Z.shiftl s 5)).

Definition autoip_seed (mac : list Z) (rand : Z) : Z :=
  fold_left (λ s i, autoip_next (Z.lxor (Z.lxor s (tget mac i)) AUTOIP_MIX)) (seqZ 0 6) rand.

Definition in_range (addr : Z) : bool := (IDEMIP_AUTOIP_FIRST <=? addr) && (addr <=? IDEMIP_AUTOIP_LAST).

(** The tries of [autoip_draw]: the generator's state, the last value, and whether it is kept. *)
Fixpoint draw_tries (n : nat) (seed addr taken : Z) : Z * Z * bool :=
  match n with
  | O => (seed, addr, false)
  | S n' =>
      let seed := autoip_next seed in
      let addr := Z.lor IDEMIP_AUTOIP_PREFIX (Z.land seed 0xFFFF) in
      if in_range addr && negb (addr =? taken) then (seed, addr, true) else draw_tries n' seed addr taken
  end.

(** The fold of a value outside the range, off the address taken. *)
Definition draw_fold (addr taken : Z) : Z :=
  let addr := if addr <? IDEMIP_AUTOIP_FIRST then u32 (addr + AUTOIP_SPAN) else addr in
  let addr := if IDEMIP_AUTOIP_LAST <? addr then u32 (addr - AUTOIP_SPAN) else addr in
  if addr =? taken then (if addr =? IDEMIP_AUTOIP_LAST then IDEMIP_AUTOIP_FIRST else u32 (addr + 1)) else addr.

Definition autoip_draw (ctx : AutoIpCtx) (taken : Z) : AutoIpCtx * Z :=
  let '(seed, addr, kept) := draw_tries AUTOIP_DRAW_TRIES (c_seed ctx) 0 taken in
  (ctx <| c_seed := seed |>, if (kept : bool) then addr else draw_fold addr taken).

Definition autoip_select (ctx : AutoIpCtx) (rand : Z) : AutoIpCtx :=
  let ctx := ctx <| c_seed := autoip_next (Z.lxor (c_seed ctx) rand) |> in
  let '(ctx, addr) := autoip_draw ctx (c_ipaddr ctx) in
  let ctx := ctx <| c_ipaddr := addr |> in
  let ctx := if c_tried ctx <? AUTOIP_COUNT_MAX then ctx <| c_tried := u8 (c_tried ctx + 1) |> else ctx in
  ctx <| c_held := false |> <| c_deadline_ms := 0 |>.

(** The signed reading of a 32-bit difference. *)
Definition autoip_due (now deadline : Z) : bool := let d := u32 (now - deadline) in 0 <=? (if d <? 0x80000000 then d else d - 0x100000000).

Definition autoip_report (w : Work) : Work :=
  let ctx := w_ctx w in
  put_io w ((w_io w) <| io_ipaddr := if bool_decide (c_state ctx = IDEMIP_AUTOIP_STATE_OFF) || c_held ctx then 0 else c_ipaddr ctx |>
                     <| io_netmask := if bool_decide (c_state ctx = IDEMIP_AUTOIP_STATE_BOUND) then IDEMIP_AUTOIP_NETMASK else 0 |>
                     <| io_deadline_ms := c_deadline_ms ctx |> <| io_state := c_state ctx |> <| io_tried := c_tried ctx |>).

Section Build.
Variable cf : Acd.config.

Definition autoip_advance (ctx : AutoIpCtx) (rand now : Z) : AutoIpCtx * bool :=
  if Acd.IDEMIP_ACD_MAX_CONFLICTS cf <? c_conflicts ctx then (ctx <| c_held := true |> <| c_deadline_ms := u32 (now + Acd.IDEMIP_ACD_RATE_LIMIT_INTERVAL_MS cf) |>, false)
  else (autoip_select ctx rand, true).

(** ** The entries *)
Definition idemip_autoip_clear (w : Work) : Work :=
  mkWork ((w_io w) <| io_status := IDEMIP_OK |>) (mkCtx AUTOIP_READY 0 0 0 IDEMIP_AUTOIP_STATE_OFF 0 0 false).

Definition autoip_begin (w : Work) : Work := put_results w false IDEMIP_ERR.

Definition idemip_autoip_start (w : Work) : Work :=
  let w := autoip_begin w in
  if negb (autoip_ready w) then w
  else match sa_mac (start_args (w_io w)) with
  | None => w
  | Some mac =>
      let ctx := w_ctx w in
      if negb (bool_decide (c_state ctx = IDEMIP_AUTOIP_STATE_OFF)) then
        put_results (autoip_report w) false (if c_held ctx then IDEMIP_BUSY else IDEMIP_OK)
      else
        let ctx := ctx <| c_seed := autoip_seed mac (sa_rand (start_args (w_io w))) |> <| c_state := IDEMIP_AUTOIP_STATE_CHECKING |> in
        let '(ctx, ready) :=
          if c_held ctx || negb (in_range (c_ipaddr ctx)) then autoip_advance ctx 0 (sa_now_ms (start_args (w_io w))) else (ctx, true) in
        put_results (autoip_report (put_ctx w ctx)) ready (if (ready : bool) then IDEMIP_OK else IDEMIP_BUSY)
  end.

Definition no_address (ctx : AutoIpCtx) : bool := bool_decide (c_state ctx = IDEMIP_AUTOIP_STATE_OFF) || c_held ctx.

Definition idemip_autoip_conflict (w : Work) : Work :=
  let w := autoip_begin w in
  if negb (autoip_ready w) then w
  else if no_address (w_ctx w) then w
  else
    let ctx := w_ctx w in
    let ctx := if c_conflicts ctx <? AUTOIP_COUNT_MAX then ctx <| c_conflicts := u8 (c_conflicts ctx + 1) |> else ctx in
    let ctx := ctx <| c_state := IDEMIP_AUTOIP_STATE_CHECKING |> in
    let '(ctx, ready) := autoip_advance ctx (ca_rand (conflict_args (w_io w))) (ca_now_ms (conflict_args (w_io w))) in
    put_results (autoip_report (put_ctx w ctx)) ready (if (ready : bool) then IDEMIP_OK else IDEMIP_BUSY).

Definition idemip_autoip_bound (w : Work) : Work :=
  let w := autoip_begin w in
  if negb (autoip_ready w) then w
  else if no_address (w_ctx w) then w
  else
    let ctx := (w_ctx w) <| c_state := IDEMIP_AUTOIP_STATE_BOUND |> <| c_conflicts := 0 |> <| c_deadline_ms := 0 |> in
    put_results (autoip_report (put_ctx w ctx)) false IDEMIP_OK.

Definition idemip_autoip_stop (w : Work) : Work :=
  let w := autoip_begin w in
  if negb (autoip_ready w) then w
  else put_results (autoip_report (put_ctx w ((w_ctx w) <| c_state := IDEMIP_AUTOIP_STATE_OFF |>))) false IDEMIP_OK.

Definition idemip_autoip_tick (w : Work) : Work :=
  let w := autoip_begin w in
  if negb (autoip_ready w) then w
  else
    let ctx := w_ctx w in
    if bool_decide (c_state ctx = IDEMIP_AUTOIP_STATE_OFF) || negb (c_held ctx) then put_results (autoip_report w) false IDEMIP_OK
    else if negb (autoip_due (ta_now_ms (tick_args (w_io w))) (c_deadline_ms ctx)) then put_results (autoip_report w) false IDEMIP_BUSY
    else put_results (autoip_report (put_ctx w (autoip_select ctx (ta_rand (tick_args (w_io w)))))) true IDEMIP_OK.
End Build.
End Autoip.

(** * Properties of the link-local address

    Every address handed to conflict detection is one RFC 3927 lets a host choose, a fresh one after a
    conflict, and past the limit of conflicts none is handed out within the interval. *)
Module AutoipThms.
Import Autoip.

Definition selectable (addr : Z) : Prop := IDEMIP_AUTOIP_FIRST ≤ addr ≤ IDEMIP_AUTOIP_LAST.

(** ** The draw *)
Lemma prefix_or s : IDEMIP_AUTOIP_PREFIX ≤ Z.lor IDEMIP_AUTOIP_PREFIX (Z.land s 0xFFFF) ≤ IDEMIP_AUTOIP_PREFIX + 0xFFFF.
Proof.
  assert (0 ≤ Z.land s 0xFFFF < 2 ^ 16) as Hm by (change 0xFFFF with (Z.ones 16); rewrite Z.land_ones by lia; apply Z.mod_pos_bound; lia).
  generalize dependent (Z.land s 0xFFFF). intros b Hb. 
  assert (Z.lor IDEMIP_AUTOIP_PREFIX b = 2851995648 + b) as -> by (exact (lor_shiftl 0xA9FE b 16 ltac:(lia) Hb)). change IDEMIP_AUTOIP_PREFIX with 2851995648. lia.
Qed.

Lemma tries_spec n seed addr taken : let '(_, a, kept) := draw_tries n seed addr taken in
  (kept = true → selectable a ∧ a ≠ taken) ∧ (kept = false → (0 < n)%nat → IDEMIP_AUTOIP_PREFIX ≤ a ≤ IDEMIP_AUTOIP_PREFIX + 0xFFFF).
Proof.
  revert seed addr. induction n as [|n IH]; intros seed addr; [split; [done|lia]|]. cbn [draw_tries]. pose proof (prefix_or (autoip_next seed)) as Hp.
  set (a := Z.lor _ _) in *. destruct (in_range a && _) eqn:E.
  - split; [|done]. intros _. apply andb_true_iff in E as [Hr Ht]. unfold in_range in Hr. bool_prop. unfold selectable. split; [lia|done].
  - specialize (IH (autoip_next seed) a). destruct n as [|n]; [split; [done|]; intros _ _; exact Hp|]. destruct (draw_tries _ _ _ _) as [[s b] kept]. destruct IH as [IH1 IH2].
    split; [done|]. intros Hk _. apply IH2; [done|lia].
Qed.

Lemma fold_spec addr taken : IDEMIP_AUTOIP_PREFIX ≤ addr ≤ IDEMIP_AUTOIP_PREFIX + 0xFFFF → selectable (draw_fold addr taken) ∧ draw_fold addr taken ≠ taken.
Proof.
  unfold draw_fold, selectable, AUTOIP_SPAN, IDEMIP_AUTOIP_PREFIX, IDEMIP_AUTOIP_FIRST, IDEMIP_AUTOIP_LAST. intros Ha.
  set (a1 := if _ <? _ then _ else addr). assert (2851995904 ≤ a1 ≤ 2852061183) as H1 by (unfold a1; destruct (Z.ltb_spec addr 2851995904); [rewrite u32_id by (unfold is_u32; lia)|]; lia).
  set (a2 := if _ <? a1 then _ else a1). assert (2851995904 ≤ a2 ≤ 2852060927) as H2 by (unfold a2; destruct (Z.ltb_spec 2852060927 a1); [rewrite u32_id by (unfold is_u32; lia)|]; lia).
  destruct (Z.eqb_spec a2 taken) as [He|He]; [|lia]. destruct (Z.eqb_spec a2 2852060927) as [Hl|Hl]; [lia|]. rewrite u32_id by (unfold is_u32; lia). lia.
Qed.

Lemma draw_spec ctx taken : let '(ctx', a) := autoip_draw ctx taken in (selectable a ∧ a ≠ taken) ∧ ∃ s, ctx' = ctx <| c_seed := s |>.
Proof.
  unfold autoip_draw. pose proof (tries_spec AUTOIP_DRAW_TRIES (c_seed ctx) 0 taken) as Ht. destruct (draw_tries _ _ _ _) as [[s a] kept]. destruct Ht as [Hk Hn].
  split; [|by exists s]. destruct kept; [by apply Hk|]. apply fold_spec, Hn; [done|]. unfold AUTOIP_DRAW_TRIES. lia.
Qed.

Lemma select_spec ctx rand : let ctx' := autoip_select ctx rand in
  selectable (c_ipaddr ctx') ∧ c_ipaddr ctx' ≠ c_ipaddr ctx ∧ c_held ctx' = false ∧ c_state ctx' = c_state ctx ∧ c_ready ctx' = c_ready ctx ∧ c_conflicts ctx' = c_conflicts ctx.
Proof.
  unfold autoip_select. cbv zeta. set (ctx1 := ctx <| c_seed := _ |>). pose proof (draw_spec ctx1 (c_ipaddr ctx1)) as Hd. destruct (autoip_draw ctx1 _) as [ctx2 a].
  destruct Hd as [[Hs Hn] [s ->]]. change (c_ipaddr ctx1) with (c_ipaddr ctx) in Hn. by destruct (_ <? _).
Qed.

(** ** Runs *)
Inductive autoip_op : Type := UClear | UStart | UConflict | UBound | UStop | UTick.
Record autoip_step := mkStep { s_op : autoip_op; s_at : Z; s_io : AutoIpIo }.
Definition on_time (s : autoip_step) : Prop :=
  match s_op s with
  | UStart => sa_now_ms (start_args (s_io s)) = u32 (s_at s)
  | UConflict => ca_now_ms (conflict_args (s_io s)) = u32 (s_at s)
  | UTick => ta_now_ms (tick_args (s_io s)) = u32 (s_at s)
  | _ => True
  end.
Fixpoint in_order (t : Z) (l : list autoip_step) : Prop :=
  match l with [] => True | s :: l' => t ≤ s_at s ∧ on_time s ∧ in_order (s_at s) l' end.

Section Runs.
Variable cf : Acd.config.
Implicit Types (w : Work) (ctx : AutoIpCtx).

Definition autoip_call (o : autoip_op) : Work → Work :=
  match o with
  | UClear => idemip_autoip_clear
  | UStart => idemip_autoip_start cf
  | UConflict => idemip_autoip_conflict cf
  | UBound => idemip_autoip_bound
  | UStop => idemip_autoip_stop
  | UTick => idemip_autoip_tick
  end.
Definition autoip_enter w (s : autoip_step) : Work := autoip_call (s_op s) (put_io w (s_io s)).
Definition autoip_run (l : list autoip_step) w : Work := fold_left autoip_enter l w.

(** The times at which a candidate is handed out. *)
Fixpoint claim_times (l : list autoip_step) w : list Z :=
  match l with
  | [] => []
  | s :: l' => let w' := autoip_enter w s in (if io_claim (w_io w') then [s_at s] else []) ++ claim_times l' w'
  end.

(** An address in the context is selectable; one out there is, too. *)
Definition addr_inv ctx : Prop :=
  c_ready ctx = AUTOIP_READY → (c_ipaddr ctx = 0 ∨ selectable (c_ipaddr ctx)) ∧ (no_address ctx = false → selectable (c_ipaddr ctx)).

Lemma advance_spec ctx rand now : let '(ctx', ready) := autoip_advance cf ctx rand now in
  c_state ctx' = c_state ctx ∧ c_ready ctx' = c_ready ctx ∧
  if (ready : bool) then selectable (c_ipaddr ctx') ∧ c_ipaddr ctx' ≠ c_ipaddr ctx ∧ c_held ctx' = false
  else c_held ctx' = true ∧ c_ipaddr ctx' = c_ipaddr ctx ∧ c_deadline_ms ctx' = u32 (now + Acd.IDEMIP_ACD_RATE_LIMIT_INTERVAL_MS cf).
Proof.
  unfold autoip_advance. destruct (_ <? _); [done|]. destruct (select_spec ctx rand) as (? & ? & ? & ? & ? & ?). done.
Qed.

Lemma report_claimed w b st : c_state (w_ctx w) ≠ IDEMIP_AUTOIP_STATE_OFF → c_held (w_ctx w) = false → io_ipaddr (w_io (put_results (autoip_report w) b st)) = c_ipaddr (w_ctx w).
Proof. intros Hs Hh. cbn. rewrite bool_decide_eq_false_2 by done. by rewrite Hh. Qed.

(** What a call does to the context, and what it hands out. *)
Lemma call_addr w o : addr_inv (w_ctx w) → let w' := autoip_call o w in
  addr_inv (w_ctx w') ∧ (o ≠ UClear → io_claim (w_io w') = true → selectable (io_ipaddr (w_io w')) ∧ (o = UConflict ∨ o = UTick → io_ipaddr (w_io w') ≠ c_ipaddr (w_ctx w))).
Proof.
  intros HI. set (w2 := autoip_begin w). assert (addr_inv (w_ctx w2)) as HI2 by exact HI.
  assert (∀ ctx, c_ready ctx = AUTOIP_READY → c_state ctx ≠ IDEMIP_AUTOIP_STATE_OFF → selectable (c_ipaddr ctx) ∨ (c_held ctx = true ∧ (c_ipaddr ctx = 0 ∨ selectable (c_ipaddr ctx))) → addr_inv ctx) as Hnew.
  { intros ctx _ Hs Ha _. unfold no_address. rewrite bool_decide_eq_false_2 by done. cbn [orb]. destruct Ha as [Ha|[Hh Ha]]; [auto|]. rewrite Hh. by split. }
  assert (autoip_ready w2 = true → c_ready (w_ctx w2) = AUTOIP_READY) as Hrdy by apply Z.eqb_eq.
  destruct o; cbn [autoip_call].
  - split; [|done]. intros _. split; [by left|done].
  - unfold idemip_autoip_start. fold w2. destruct (autoip_ready w2) eqn:Hr; cbn [negb]; [|by split]. specialize (Hrdy eq_refl). destruct (HI2 Hrdy) as [Ha Hb].
    destruct (sa_mac (start_args (w_io w2))) as [mac|]; [|by split]. case_bool_decide as Hoff; cbn [negb]; [|by split].
    set (ctx1 := _ <| c_state := IDEMIP_AUTOIP_STATE_CHECKING |>). destruct (c_held ctx1 || negb (in_range (c_ipaddr ctx1))) eqn:Hg.
    + pose proof (advance_spec ctx1 0 (sa_now_ms (start_args (w_io w2)))) as Had. destruct (autoip_advance cf ctx1 0 _) as [ctx2 ready]. destruct Had as (Hs & Hrd & Had).
      assert (c_state ctx2 ≠ IDEMIP_AUTOIP_STATE_OFF) as Hs2 by (by rewrite Hs). change (c_ipaddr ctx1) with (c_ipaddr (w_ctx w2)) in Had. destruct ready.
      * destruct Had as (Hsel & _ & Hh). split; [apply (Hnew ctx2); [by rewrite Hrd|done|by left]|]. intros _ _. rewrite report_claimed by done. split; [done|]. by intros [|].
      * destruct Had as (Hh & Heq & _). split; [|done]. apply (Hnew ctx2); [by rewrite Hrd|done|]. right. split; [done|]. by rewrite Heq.
    + apply orb_false_iff in Hg as [Hh Hin]. apply negb_false_iff in Hin. unfold in_range in Hin. bool_prop. assert (selectable (c_ipaddr ctx1)) as Hsel by done.
      split; [apply Hnew; [done|done|by left]|]. intros _ _. rewrite report_claimed by done. split; [done|]. by intros [|].
  - unfold idemip_autoip_conflict. fold w2. destruct (autoip_ready w2) eqn:Hr; cbn [negb]; [|by split]. specialize (Hrdy eq_refl). destruct (HI2 Hrdy) as [Ha Hb].
    destruct (no_address (w_ctx w2)) eqn:Hno; [by split|]. set (ctx0 := if _ <? _ then _ else _). set (ctx1 := ctx0 <| c_state := IDEMIP_AUTOIP_STATE_CHECKING |>).
    assert (c_ready ctx1 = c_ready (w_ctx w2) ∧ c_ipaddr ctx1 = c_ipaddr (w_ctx w2)) as [Hrd1 Hip1] by (unfold ctx1, ctx0; by destruct (_ <? _)).
    pose proof (advance_spec ctx1 (ca_rand (conflict_args (w_io w2))) (ca_now_ms (conflict_args (w_io w2)))) as Had. destruct (autoip_advance cf ctx1 _ _) as [ctx2 ready].
    destruct Had as (Hs & Hrd & Had). assert (c_state ctx2 ≠ IDEMIP_AUTOIP_STATE_OFF) as Hs2 by (by rewrite Hs). destruct ready.
    + destruct Had as (Hsel & Hne & Hh). split; [apply (Hnew ctx2); [by rewrite Hrd, Hrd1|done|by left]|]. intros _ _. rewrite report_claimed by done. split; [done|]. intros _. by rewrite Hip1 in Hne.
    + destruct Had as (Hh & Heq & _). split; [|done]. apply (Hnew ctx2); [by rewrite Hrd, Hrd1|done|]. right. split; [done|]. by rewrite Heq, Hip1.
  - unfold idemip_autoip_bound. fold w2. destruct (autoip_ready w2) eqn:Hr; cbn [negb]; [|by split]. specialize (Hrdy eq_refl). destruct (HI2 Hrdy) as [Ha Hb].
    destruct (no_address (w_ctx w2)) eqn:Hno; [by split|]. split; [|done]. apply Hnew; [done|done|]. left. by apply Hb.
  - unfold idemip_autoip_stop. fold w2. destruct (autoip_ready w2) eqn:Hr; cbn [negb]; [|by split]. specialize (Hrdy eq_refl). destruct (HI2 Hrdy) as [Ha Hb].
    split; [|done]. intros _. by split.
  - unfold idemip_autoip_tick. fold w2. destruct (autoip_ready w2) eqn:Hr; cbn [negb]; [|by split]. specialize (Hrdy eq_refl). destruct (_ || _) eqn:Hg; [by split|]. apply orb_false_iff in Hg as [Hs _].
    apply bool_decide_eq_false in Hs. destruct (negb _); [by split|]. destruct (select_spec (w_ctx w2) (ta_rand (tick_args (w_io w2)))) as (Hsel & Hne & Hh & Hst & Hrd & _).
    set (ctx2 := autoip_select _ _) in *. assert (c_state ctx2 ≠ IDEMIP_AUTOIP_STATE_OFF) as Hs2 by (by rewrite Hst). split; [apply (Hnew ctx2); [by rewrite Hrd|done|by left]|].
    intros _ _. rewrite report_claimed by done. split; [done|]. by intros _.
Qed.

Lemma run_addr l w : addr_inv (w_ctx w) → addr_inv (w_ctx (autoip_run l w)).
Proof. revert w. induction l as [|s l IH]; intros w HI; [done|]. apply IH. exact (proj1 (call_addr (put_io w (s_io s)) (s_op s) HI)). Qed.

(** ** The rate limit *)
Context (Hrate : 0 ≤ Acd.IDEMIP_ACD_RATE_LIMIT_INTERVAL_MS cf < 0x80000000).
Local Abbreviation RATE := (Acd.IDEMIP_ACD_RATE_LIMIT_INTERVAL_MS cf).

Lemma due_after t td : td ≤ t → autoip_due (u32 t) (u32 (td + RATE)) = true → td + RATE ≤ t.
Proof.
  intros Ht. unfold autoip_due. autorewrite with u32. intros Hd. destruct (Z.le_gt_cases (td + RATE) t); [done|]. exfalso.
  assert (u32 (t - (td + RATE)) = 0x100000000 + (t - (td + RATE))) as Hu by wrap. rewrite Hu in Hd.
  rewrite (proj2 (Z.ltb_ge _ _)) in Hd by lia. apply Z.leb_le in Hd. lia.
Qed.

(** A draw held since a time in [[t1, t]], or the interval over. *)
Definition held_since t1 t ctx : Prop :=
  (c_held ctx = true ∧ Acd.IDEMIP_ACD_MAX_CONFLICTS cf < c_conflicts ctx ∧ ∃ td, t1 ≤ td ≤ t ∧ c_deadline_ms ctx = u32 (td + RATE)) ∨ t1 + RATE ≤ t.

Lemma advance_holds t1 t ctx rand : t1 ≤ t → Acd.IDEMIP_ACD_MAX_CONFLICTS cf < c_conflicts ctx →
  let '(ctx', ready) := autoip_advance cf ctx rand (u32 t) in ready = false ∧ held_since t1 t ctx'.
Proof.
  intros Ht Hc. unfold autoip_advance. rewrite (proj2 (Z.ltb_lt _ _) Hc). split; [done|]. left. split_and!; [done|done|]. exists t. split; [lia|]. apply u32_add_l.
Qed.

Lemma held_step t1 t w s : held_since t1 t (w_ctx w) → t ≤ s_at s → on_time s → s_op s ≠ UClear →
  let w' := autoip_enter w s in held_since t1 (s_at s) (w_ctx w') ∧ (io_claim (w_io w') = true → t1 + RATE ≤ s_at s).
Proof.
  intros HL Hle Ht Hn. destruct HL as [(Hh & Hc & td & Htd & Hdl)|Hover]; [|split; [right; lia|lia]].
  unfold autoip_enter. set (w2 := autoip_begin (put_io w (s_io s))). assert (held_since t1 (s_at s) (w_ctx w2)) as HL2 by (left; split_and!; [done|done|]; exists td; split; [lia|done]).
  unfold on_time in Ht. destruct (s_op s) eqn:Ho; [done|..]; cbn [autoip_call].
  - unfold idemip_autoip_start. fold w2. destruct (negb _); [by split|]. change (start_args (w_io w2)) with (start_args (s_io s)). destruct (sa_mac _) as [mac|]; [|by split].
    destruct (negb _); [by split|]. set (ctx1 := _ <| c_state := IDEMIP_AUTOIP_STATE_CHECKING |>). change (c_held ctx1) with (c_held (w_ctx w)). rewrite Hh. cbn [orb]. rewrite Ht.
    pose proof (advance_holds t1 (s_at s) ctx1 0 ltac:(lia) Hc) as Had. destruct (autoip_advance cf ctx1 0 _) as [ctx2 ready]. destruct Had as [-> Hl]. by split.
  - unfold idemip_autoip_conflict. fold w2. destruct (negb _); [by split|]. unfold no_address. change (c_held (w_ctx w2)) with (c_held (w_ctx w)). rewrite Hh, orb_true_r. by split.
  - unfold idemip_autoip_bound. fold w2. destruct (negb _); [by split|]. unfold no_address. change (c_held (w_ctx w2)) with (c_held (w_ctx w)). rewrite Hh, orb_true_r. by split.
  - unfold idemip_autoip_stop. fold w2. destruct (negb _); by split.
  - unfold idemip_autoip_tick. fold w2. destruct (negb _); [by split|]. destruct (_ || _); [by split|]. change (tick_args (w_io w2)) with (tick_args (s_io s)). rewrite Ht.
    change (c_deadline_ms (w_ctx w2)) with (c_deadline_ms (w_ctx w)). rewrite Hdl. destruct (autoip_due _ _) eqn:Hd; cbn [negb]; [|by split].
    apply due_after in Hd; [|lia]. split; [right; lia|lia].
Qed.

Lemma held_run l t1 t w : held_since t1 t (w_ctx w) → in_order t l → Forall (λ s, s_op s ≠ UClear) l → Forall (λ x, t1 + RATE ≤ x) (claim_times l w).
Proof.
  revert t w. induction l as [|s l IH]; intros t w HL Hl Hn; [constructor|]. destruct Hl as (Ht & Ho & Hl). apply Forall_cons in Hn as [Hns Hn].
  destruct (held_step t1 t w s HL Ht Ho Hns) as [HL' Hcl]. cbn [claim_times]. apply Forall_app. split; [|by apply (IH (s_at s))].
  destruct (io_claim (w_io (autoip_enter w s))); [|constructor]. constructor; [by apply Hcl|constructor].
Qed.
End Runs.

(** ** The properties *)

(** Every address handed out for a claim may be chosen.  From a borrow never cleared, after any calls:
    a call that hands an address to conflict detection hands out one from 169.254.1.0 to 169.254.254.255,
    never one of the 512 reserved ones; and the one drawn after a conflict, at once or when the interval
    is over, is not the address the conflict was about. *)
Theorem autoip_offers_selectable (cf : Acd.config) (l : list autoip_step) (w0 : Work) (s : autoip_step) :
  autoip_ready w0 = false → s_op s ≠ UClear →
  let w := autoip_run cf l w0 in let w' := autoip_enter cf w s in
  io_claim (w_io w') = true →
  (IDEMIP_AUTOIP_FIRST ≤ io_ipaddr (w_io w') ≤ IDEMIP_AUTOIP_LAST) ∧ (s_op s = UConflict ∨ s_op s = UTick → io_ipaddr (w_io w') ≠ c_ipaddr (w_ctx w)).
Proof.
  intros Hw Hs w w' Hc. assert (addr_inv (w_ctx w)) as HI.
  { apply run_addr. intros Hr. unfold autoip_ready in Hw. apply Z.eqb_neq in Hw. done. }
  exact (proj2 (call_addr cf (put_io w (s_io s)) (s_op s) HI) Hs Hc).
Qed.

(** Past MAX_CONFLICTS conflicts no address is handed out within RATE_LIMIT_INTERVAL.  From any borrow:
    a conflict reported at [t1] that is answered BUSY, then any calls but a clear in order of time,
    whatever the interface is told meanwhile: no call hands out an address before [t1] and the interval. *)
Theorem autoip_rate_limited (cf : Acd.config) (w : Work) (s1 : autoip_step) (l : list autoip_step) :
  0 ≤ Acd.IDEMIP_ACD_RATE_LIMIT_INTERVAL_MS cf < 0x80000000 → s_op s1 = UConflict → on_time s1 → in_order (s_at s1) l →
  Forall (λ s, s_op s ≠ UClear) l →
  let w1 := autoip_enter cf w s1 in io_status (w_io w1) = IDEMIP_BUSY →
  Forall (λ t2, s_at s1 + Acd.IDEMIP_ACD_RATE_LIMIT_INTERVAL_MS cf ≤ t2) (claim_times cf l w1).
Proof.
  intros Hrate Ho Ht Hl Hn w1 Hst. apply (held_run cf Hrate l (s_at s1) (s_at s1)); [|done|done]. revert Hst. unfold w1, autoip_enter. rewrite Ho. cbn [autoip_call].
  unfold idemip_autoip_conflict. set (w2 := autoip_begin (put_io w (s_io s1))). destruct (negb _); [done|]. destruct (no_address _); [done|]. unfold on_time in Ht. rewrite Ho in Ht.
  change (conflict_args (w_io w2)) with (conflict_args (s_io s1)). rewrite Ht. set (ctx1 := _ <| c_state := IDEMIP_AUTOIP_STATE_CHECKING |>). unfold autoip_advance.
  destruct (Acd.IDEMIP_ACD_MAX_CONFLICTS cf <? c_conflicts ctx1) eqn:E; [|done]. intros _. apply Z.ltb_lt in E. left. split_and!; [done|exact E|]. exists (s_at s1). split; [lia|]. apply u32_add_l.
Qed.

(** ** A concrete interface *)
Definition ll_cf : Acd.config := Acd.mkConfig 1000 3 1000 2000 2000 2 2000 1 60000 10000.
Definition ll_io : AutoIpIo := mkIo (mkStartArgs None 0 0) (mkConflictArgs 0 0) (mkTickArgs 0 0) 0 0 0 IDEMIP_OK IDEMIP_AUTOIP_STATE_OFF 0 false.
Definition ll_unused : Work := mkWork ll_io (mkCtx 0 0 0 0 IDEMIP_AUTOIP_STATE_OFF 0 0 false).
Definition ll_clear : autoip_step := mkStep UClear 0 ll_io.
Definition ll_start (t : Z) : autoip_step := mkStep UStart t (ll_io <| start_args := mkStartArgs (Some [2; 0; 0; 0; 0; 1]) 7 (u32 t) |>).
Definition ll_taken (t : Z) : autoip_step := mkStep UConflict t (ll_io <| conflict_args := mkConflictArgs 11 (u32 t) |>).
Definition ll_tick (t : Z) : autoip_step := mkStep UTick t (ll_io <| tick_args := mkTickArgs (u32 t) 13 |>).

Lemma autoip_offers_selectable_witness :
  let w := autoip_run ll_cf [ll_clear; ll_start 10] ll_unused in let w' := autoip_enter ll_cf w (ll_taken 500) in
  io_claim (w_io w') = true ∧ io_ipaddr (w_io w') ≠ c_ipaddr (w_ctx w).
Proof.
  intros w w'. assert (io_claim (w_io w') = true) as E by (vm_compute; reflexivity). split; [exact E|].
  exact (proj2 (autoip_offers_selectable ll_cf [ll_clear; ll_start 10] ll_unused (ll_taken 500) eq_refl ltac:(discriminate) E) (or_introl eq_refl)).
Defined.

(** The second conflict is held a minute, and no tick before hands an address out. *)
Lemma autoip_rate_limited_witness :
  let w := autoip_run ll_cf [ll_clear; ll_start 10; ll_taken 500] ll_unused in
  let w1 := autoip_enter ll_cf w (ll_taken 900) in
  claim_times ll_cf [ll_tick 30000; ll_tick 60899; ll_tick 60900] w1 = [60900] ∧
  Forall (λ t2, 900 + 60000 ≤ t2) (claim_times ll_cf [ll_tick 30000; ll_tick 60899; ll_tick 60900] w1).
Proof.
  intros w w1. split; [vm_compute; reflexivity|].
  refine (autoip_rate_limited ll_cf w (ll_taken 900) [ll_tick 30000; ll_tick 60899; ll_tick 60900] _ eq_refl _ _ _ _).
  - split; [discriminate|reflexivity].
  - reflexivity.
  - repeat (split; [vm_compute; discriminate|split; [reflexivity|]]). exact I.
  - repeat constructor; discriminate.
  - vm_compute. reflexivity.
Defined.

(** Two hardware addresses, one seed: the fold of six octets into one word is not one-to-one. *)
Example two_hosts_one_seed : autoip_seed [2; 0; 52; 190; 230; 100] 0 = autoip_seed [2; 0; 21; 124; 242; 106] 0.
Proof. vm_compute. reflexivity. Qed.
End AutoipThms.
