(* ===== verification/Ip6Select.v ===== *)
(** * IPv6 source and destination selection (src/ip/ip6_select.c)

    RFC 6724's policy table, candidate set and destination list, the pairwise rules of its sections 5 and 6,
    and the ten entries.  An address is its sixteen octets; one reported points into a table and is the
    octets it points at.  A comparison returns its sign and the rule that decided. *)
From S2P Require Import Prelude Base IpAddr.

Module Ip6Select.
Import Span Ip6Addr.

Definition IDEMIP_IP6_SELECT_NONE : Z := 0xFF.
Definition IDEMIP_IP6_SELECT_DEFAULT_POLICIES : Z := 9.
Definition IDEMIP_IP6_SELECT_COMMON_PREFIX_MAX : Z := 64.
Definition IDEMIP_IP6_SELECT_RULE_NONE : Z := 0.
Definition IDEMIP_IP6_SELECT_RULE_5_5 : Z := 55.
Definition IP6_SELECT_V4_LINK_LOCAL_0 : Z := 169.
Definition IP6_SELECT_V4_LINK_LOCAL_1 : Z := 254.
Definition IP6_SELECT_V4_LOOPBACK_0 : Z := 127.

(** ** The tables *)
Record Ip6SelectSource := mkSource {
  s_zone : Z; s_addr : list Z; s_netif : Z; s_deprecated : bool; s_temporary : bool; s_home : bool; s_care_of : bool; s_next_hop : bool; s_used : bool }.
Record Ip6SelectDest := mkDest {
  d_zone : Z; d_addr : list Z; d_netif : Z; d_source : Z; d_unreachable : bool; d_encapsulated : bool; d_used : bool }.
#[export] Instance Ip6SelectDest_eta : Eta Ip6SelectDest := fun r => mkDest (d_zone r) (d_addr r) (d_netif r) (d_source r) (d_unreachable r) (d_encapsulated r) (d_used r).
Record Ip6SelectPolicy := mkPolicy { p_zone : Z; p_prefix : list Z; p_prefix_len : Z; p_precedence : Z; p_label : Z; p_used : bool }.
Definition addr_zero : list Z := replicate 16 0.
Definition source_zero : Ip6SelectSource := mkSource 0 addr_zero 0 false false false false false false.
Definition dest_zero : Ip6SelectDest := mkDest 0 addr_zero 0 0 false false false.
Definition policy_zero : Ip6SelectPolicy := mkPolicy 0 addr_zero 0 0 0 false.
#[export] Instance Ip6SelectSource_inhabited : Inhabited Ip6SelectSource := populate source_zero.
#[export] Instance Ip6SelectDest_inhabited : Inhabited Ip6SelectDest := populate dest_zero.
#[export] Instance Ip6SelectPolicy_inhabited : Inhabited Ip6SelectPolicy := populate policy_zero.

Record Ip6SelectCtx := mkCtx { c_sources : Z; c_dests : Z; c_policies : Z; c_sorted : bool; c_ready : bool }.
#[export] Instance Ip6SelectCtx_eta : Eta Ip6SelectCtx := fun r => mkCtx (c_sources r) (c_dests r) (c_policies r) (c_sorted r) (c_ready r).

(** ** Operands and results *)
Record Ip6SelectSourceArgs := mkSourceArgs {
  sa_addr : option (list Z); sa_zone : Z; sa_netif : Z; sa_deprecated : bool; sa_temporary : bool; sa_home : bool; sa_care_of : bool; sa_next_hop : bool }.
Record Ip6SelectDestArgs := mkDestArgs { da_addr : option (list Z); da_zone : Z; da_netif : Z; da_unreachable : bool; da_encapsulated : bool }.
Record Ip6SelectPolicyArgs := mkPolicyArgs { pa_prefix : option (list Z); pa_zone : Z; pa_prefix_len : Z; pa_precedence : Z; pa_label : Z }.
Record Ip6SelectQueryArgs := mkQueryArgs { qa_addr : option (list Z); qa_peer : option (list Z); qa_zone : Z; qa_netif : Z; qa_index : Z }.
Record Ip6SelectIo := mkIo {
  source_args : Ip6SelectSourceArgs; dest_args : Ip6SelectDestArgs; policy_args : Ip6SelectPolicyArgs; query_args : Ip6SelectQueryArgs;
  io_status : IdemIpStatus; io_source : option (list Z); io_dest : option (list Z); io_source_zone : Z; io_dest_zone : Z;
  io_sources : Z; io_dests : Z; io_policies : Z; io_index : Z; io_rule : Z; io_precedence : Z; io_label : Z; io_prefix_len : Z;
  io_common : Z; io_netif : Z; io_scope : Z; io_found : bool; io_sorted : bool }.
#[export] Instance Ip6SelectIo_eta : Eta Ip6SelectIo := fun r =>
  mkIo (source_args r) (dest_args r) (policy_args r) (query_args r) (io_status r) (io_source r) (io_dest r) (io_source_zone r) (io_dest_zone r)
    (io_sources r) (io_dests r) (io_policies r) (io_index r) (io_rule r) (io_precedence r) (io_label r) (io_prefix_len r)
    (io_common r) (io_netif r) (io_scope r) (io_found r) (io_sorted r).
Record Work := mkWork {
  w_io : Ip6SelectIo; w_ctx : Ip6SelectCtx; w_sources : list Ip6SelectSource; w_dests : list Ip6SelectDest; w_policies : list Ip6SelectPolicy; w_order : list Z }.
#[export] Instance Work_eta : Eta Work := fun r => mkWork (w_io r) (w_ctx r) (w_sources r) (w_dests r) (w_policies r) (w_order r).

Definition SOURCE_AT (w : Work) (i : Z) : Ip6SelectSource := tget (w_sources w) i.
Definition DEST_AT (w : Work) (i : Z) : Ip6SelectDest := tget (w_dests w) i.
Definition POLICY_AT (w : Work) (i : Z) : Ip6SelectPolicy := tget (w_policies w) i.
Definition put_io (w : Work) (io : Ip6SelectIo) : Work := w <| w_io := io |>.

(** The nine rows of section 2.1. *)
Definition default_row (leading : list Z) (prefix_len precedence label : Z) : Ip6SelectPolicy :=
  mkPolicy IDEMIP_IP6_ZONE_DEFAULT (leading ++ replicate (16 - length leading) 0) prefix_len precedence label true.
Definition ip6_select_default_policy : list Ip6SelectPolicy :=
  [default_row (replicate 15 0 ++ [1]) 128 50 0; default_row [] 0 40 1; default_row (replicate 10 0 ++ [0xFF; 0xFF]) 96 35 4;
   default_row [0x20; 0x02] 16 30 2; default_row [0x20; 0x01] 32 5 5; default_row [0xFC] 7 3 13; default_row [] 96 1 3;
   default_row [0xFE; 0xC0] 10 1 11; default_row [0x3F; 0xFE] 16 1 12].

(** ** CommonPrefixLen *)
Fixpoint leading_clear (fuel : nat) (x n : Z) : Z :=
  match fuel with
  | O => n
  | S fuel => if u8 (Z.land x 0x80) =? 0 then leading_clear fuel (u8 (Z.shiftl x 1)) (u8 (n + 1)) else n
  end.
Fixpoint common_loop (fuel : nat) (i n : Z) (s d : list Z) : Z :=
  match fuel with
  | O => n
  | S fuel =>
      let x := Z.lxor (tget s i) (tget d i) in
      if x =? 0 then common_loop fuel (i + 1) (u8 (n + 8)) s d else leading_clear 8 x n
  end.
Definition ip6_select_common_prefix (s d : list Z) : Z :=
  let n := common_loop 16 0 0 s d in
  if IDEMIP_IP6_SELECT_COMMON_PREFIX_MAX <? n then IDEMIP_IP6_SELECT_COMMON_PREFIX_MAX else n.

Section Build.
Variable bytes : nat.
Variable big : bool.
Variables (SOURCES DESTS POLICIES : Z).

Local Abbreviation addr_type := (idemip_ip6_addr_type bytes big).

(** ** The properties an ordering reads *)
Definition ip6_select_scope (addr : list Z) : Z :=
  match addr_type addr with
  | IDEMIP_IP6_TYPE_V4_MAPPED =>
      let v4 := drop (Z.to_nat IDEMIP_IP6_V4_EMBED_OFF) addr in
      if ((tget v4 0 =? IP6_SELECT_V4_LINK_LOCAL_0) && (tget v4 1 =? IP6_SELECT_V4_LINK_LOCAL_1)) || (tget v4 0 =? IP6_SELECT_V4_LOOPBACK_0)
      then IDEMIP_IP6_SCOPE_LINK_LOCAL else IDEMIP_IP6_SCOPE_GLOBAL
  | type => idemip_ip6_addr_scope_of addr type
  end.
Definition ip6_select_is_v4 (addr : list Z) : bool := bool_decide (addr_type addr = IDEMIP_IP6_TYPE_V4_MAPPED).

Definition ip6_select_policy_find (w : Work) (addr : list Z) (zone : Z) : Z :=
  (fold_left (λ '(best, best_len) i,
     let row := POLICY_AT w i in
     if negb (p_used row) then (best, best_len)
     else if negb (p_zone row =? IDEMIP_IP6_ZONE_DEFAULT) && negb (p_zone row =? zone) then (best, best_len)
     else if negb (idemip_ip6_addr_prefix_eq bytes big addr (p_prefix row) (p_prefix_len row)) then (best, best_len)
     else if (best =? IDEMIP_IP6_SELECT_NONE) || (best_len <? p_prefix_len row) then (i, p_prefix_len row)
     else (best, best_len)) (seqZ 0 POLICIES) (IDEMIP_IP6_SELECT_NONE, 0)).1.

Definition ip6_select_precedence (w : Work) (addr : list Z) (zone : Z) : Z :=
  let row := ip6_select_policy_find w addr zone in
  if row =? IDEMIP_IP6_SELECT_NONE then 0 else p_precedence (POLICY_AT w row).
Definition ip6_select_label (w : Work) (addr : list Z) (zone : Z) : Z :=
  let row := ip6_select_policy_find w addr zone in
  if row =? IDEMIP_IP6_SELECT_NONE then IDEMIP_IP6_SELECT_NONE else p_label (POLICY_AT w row).

Definition ip6_select_same_addr (a : list Z) (a_zone : Z) (b : list Z) (b_zone : Z) : bool :=
  if negb (span_eq bytes big a b (Z.to_nat IDEMIP_IP6_ADDR_LEN)) then false
  else if ip6_select_scope a =? IDEMIP_IP6_SCOPE_GLOBAL then true
  else (a_zone =? b_zone) || (a_zone =? IDEMIP_IP6_ZONE_DEFAULT) || (b_zone =? IDEMIP_IP6_ZONE_DEFAULT).

Definition ip6_select_candidate_ok (src : Ip6SelectSource) (d : list Z) (dzone dnetif : Z) : bool :=
  if negb (eqb (ip6_select_is_v4 (s_addr src)) (ip6_select_is_v4 d)) then false
  else match addr_type d with
  | IDEMIP_IP6_TYPE_MULTICAST | IDEMIP_IP6_TYPE_LINK_LOCAL => s_netif src =? dnetif
  | IDEMIP_IP6_TYPE_SITE_LOCAL => (dzone =? IDEMIP_IP6_ZONE_DEFAULT) || (s_zone src =? IDEMIP_IP6_ZONE_DEFAULT) || (s_zone src =? dzone)
  | _ => true
  end.

(** ** Section 5: the source rules *)

(** Rule 4 of both sections: [None] when it does not decide. *)
Definition home_rule (sa sb : Ip6SelectSource) : option Z :=
  let a_both := s_home sa && s_care_of sa in
  let b_both := s_home sb && s_care_of sb in
  if negb (eqb a_both b_both) then Some (if a_both then 1 else -1)
  else if negb a_both then
    let a_home := s_home sa && negb (s_care_of sa) in
    let b_home := s_home sb && negb (s_care_of sb) in
    let a_care := s_care_of sa && negb (s_home sa) in
    let b_care := s_care_of sb && negb (s_home sb) in
    if a_home && b_care then Some 1 else if b_home && a_care then Some (-1) else None
  else None.

Definition ip6_select_cmp_source (w : Work) (ia ib : Z) (d : list Z) (dzone dnetif : Z) : Z * Z :=
  let sa := SOURCE_AT w ia in
  let sb := SOURCE_AT w ib in
  let a_is_d := ip6_select_same_addr (s_addr sa) (s_zone sa) d dzone in
  let b_is_d := ip6_select_same_addr (s_addr sb) (s_zone sb) d dzone in
  if negb (eqb a_is_d b_is_d) then (if a_is_d then 1 else -1, 1)
  else
  let as_ := ip6_select_scope (s_addr sa) in
  let bs := ip6_select_scope (s_addr sb) in
  let ds := ip6_select_scope d in
  if as_ <? bs then (if as_ <? ds then -1 else 1, 2)
  else if bs <? as_ then (if bs <? ds then 1 else -1, 2)
  else if negb (eqb (s_deprecated sa) (s_deprecated sb)) then (if s_deprecated sa then -1 else 1, 3)
  else match home_rule sa sb with Some r => (r, 4) | None =>
  let a_out := s_netif sa =? dnetif in
  let b_out := s_netif sb =? dnetif in
  if negb (eqb a_out b_out) then (if a_out then 1 else -1, 5)
  else if negb (eqb (s_next_hop sa) (s_next_hop sb)) then (if s_next_hop sa then 1 else -1, IDEMIP_IP6_SELECT_RULE_5_5)
  else
  let dl := ip6_select_label w d dzone in
  let a_label := ip6_select_label w (s_addr sa) (s_zone sa) =? dl in
  let b_label := ip6_select_label w (s_addr sb) (s_zone sb) =? dl in
  if negb (eqb a_label b_label) then (if a_label then 1 else -1, 6)
  else if negb (eqb (s_temporary sa) (s_temporary sb)) then (if s_temporary sa then 1 else -1, 7)
  else
  let ac := ip6_select_common_prefix (s_addr sa) d in
  let bc := ip6_select_common_prefix (s_addr sb) d in
  if negb (ac =? bc) then (if bc <? ac then 1 else -1, 8)
  else (0, IDEMIP_IP6_SELECT_RULE_NONE)
  end.

(** The front of the candidates and the rule that decided last. *)
Definition ip6_select_best_source (w : Work) (d : list Z) (dzone dnetif : Z) : Z * Z :=
  fold_left (λ '(best, rule) i,
    let src := SOURCE_AT w i in
    if negb (s_used src) || negb (ip6_select_candidate_ok src d dzone dnetif) then (best, rule)
    else if best =? IDEMIP_IP6_SELECT_NONE then (i, rule)
    else
      let '(order, why) := ip6_select_cmp_source w i best d dzone dnetif in
      (if 0 <? order then i else best, if negb (order =? 0) then why else rule)) (seqZ 0 SOURCES) (IDEMIP_IP6_SELECT_NONE, IDEMIP_IP6_SELECT_RULE_NONE).

(** ** Section 6: the destination rules *)
Definition ip6_select_cmp_dest (w : Work) (ia ib : Z) : Z * Z :=
  let da := DEST_AT w ia in
  let db := DEST_AT w ib in
  let a_bad := d_unreachable da || (d_source da =? IDEMIP_IP6_SELECT_NONE) in
  let b_bad := d_unreachable db || (d_source db =? IDEMIP_IP6_SELECT_NONE) in
  if negb (eqb a_bad b_bad) then (if a_bad then -1 else 1, 1)
  else
  let sourced := negb (d_source da =? IDEMIP_IP6_SELECT_NONE) && negb (d_source db =? IDEMIP_IP6_SELECT_NONE) in
  let sa := SOURCE_AT w (d_source da) in
  let sb := SOURCE_AT w (d_source db) in
  let a_match := ip6_select_scope (d_addr da) =? ip6_select_scope (s_addr sa) in
  let b_match := ip6_select_scope (d_addr db) =? ip6_select_scope (s_addr sb) in
  if sourced && negb (eqb a_match b_match) then (if a_match then 1 else -1, 2)
  else if sourced && negb (eqb (s_deprecated sa) (s_deprecated sb)) then (if s_deprecated sa then -1 else 1, 3)
  else match (if sourced then home_rule sa sb else None) with Some r => (r, 4) | None =>
  let a_label := ip6_select_label w (s_addr sa) (s_zone sa) =? ip6_select_label w (d_addr da) (d_zone da) in
  let b_label := ip6_select_label w (s_addr sb) (s_zone sb) =? ip6_select_label w (d_addr db) (d_zone db) in
  if sourced && negb (eqb a_label b_label) then (if a_label then 1 else -1, 5)
  else
  let ap := ip6_select_precedence w (d_addr da) (d_zone da) in
  let bp := ip6_select_precedence w (d_addr db) (d_zone db) in
  if negb (ap =? bp) then (if bp <? ap then 1 else -1, 6)
  else if negb (eqb (d_encapsulated da) (d_encapsulated db)) then (if d_encapsulated da then -1 else 1, 7)
  else
  let as_ := ip6_select_scope (d_addr da) in
  let bs := ip6_select_scope (d_addr db) in
  if negb (as_ =? bs) then (if as_ <? bs then 1 else -1, 8)
  else
  let ac := ip6_select_common_prefix (s_addr sa) (d_addr da) in
  let bc := ip6_select_common_prefix (s_addr sb) (d_addr db) in
  if sourced && eqb (ip6_select_is_v4 (d_addr da)) (ip6_select_is_v4 (d_addr db)) && negb (ac =? bc) then (if bc <? ac then 1 else -1, 9)
  else (if ia <? ib then 1 else -1, 10)
  end.

(** ** The entries *)
Definition idemip_ip6_select_clear (w : Work) : Work :=
  mkWork ((w_io w) <| io_status := IDEMIP_OK |> <| io_policies := IDEMIP_IP6_SELECT_DEFAULT_POLICIES |> <| io_sources := 0 |> <| io_dests := 0 |> <| io_sorted := false |>)
    (mkCtx 0 0 IDEMIP_IP6_SELECT_DEFAULT_POLICIES false true)
    (replicate (Z.to_nat SOURCES) source_zero) (replicate (Z.to_nat DESTS) dest_zero)
    (ip6_select_default_policy ++ replicate (Z.to_nat (POLICIES - IDEMIP_IP6_SELECT_DEFAULT_POLICIES)) policy_zero)
    (replicate (Z.to_nat DESTS) 0).

(** The row of that prefix, length and zone, or the first free one. *)
Fixpoint policy_slot (fuel : nat) (w : Work) (a : Ip6SelectPolicyArgs) (prefix : list Z) (i slot : Z) : Z :=
  match fuel with
  | O => slot
  | S fuel =>
      let row := POLICY_AT w i in
      if p_used row && (p_prefix_len row =? pa_prefix_len a) && (p_zone row =? pa_zone a) && span_eq bytes big (p_prefix row) prefix (Z.to_nat IDEMIP_IP6_ADDR_LEN) then i
      else policy_slot fuel w a prefix (i + 1) (if negb (p_used row) && (slot =? IDEMIP_IP6_SELECT_NONE) then i else slot)
  end.

Definition idemip_ip6_select_policy_set (w : Work) : Work :=
  let io := (w_io w) <| io_status := IDEMIP_ERR |> <| io_index := IDEMIP_IP6_SELECT_NONE |> in
  let a := policy_args io in
  match pa_prefix a with
  | None => put_io w io
  | Some prefix =>
      if negb (c_ready (w_ctx w)) || (IDEMIP_IP6_ADDR_BITS <? pa_prefix_len a) then put_io w io
      else
        let slot := policy_slot (Z.to_nat POLICIES) w a prefix 0 IDEMIP_IP6_SELECT_NONE in
        if slot =? IDEMIP_IP6_SELECT_NONE then put_io w io
        else
          let n := if negb (p_used (POLICY_AT w slot)) then u8 (c_policies (w_ctx w) + 1) else c_policies (w_ctx w) in
          put_io (w <| w_policies := tset (w_policies w) slot (mkPolicy (pa_zone a) (take 16 prefix) (pa_prefix_len a) (pa_precedence a) (pa_label a) true) |>
                    <| w_ctx := (w_ctx w) <| c_policies := n |> |>)
            (io <| io_index := slot |> <| io_policies := n |> <| io_status := IDEMIP_OK |>)
  end.

Definition idemip_ip6_select_policy_lookup (w : Work) : Work :=
  let io := (w_io w) <| io_status := IDEMIP_ERR |> <| io_found := false |> <| io_index := IDEMIP_IP6_SELECT_NONE |> <| io_precedence := 0 |>
              <| io_label := IDEMIP_IP6_SELECT_NONE |> <| io_prefix_len := 0 |> in
  match c_ready (w_ctx w), qa_addr (query_args io) with
  | true, Some addr =>
      let row := ip6_select_policy_find w addr (qa_zone (query_args io)) in
      let io := if negb (row =? IDEMIP_IP6_SELECT_NONE)
                then let p := POLICY_AT w row in
                     io <| io_found := true |> <| io_index := row |> <| io_precedence := p_precedence p |> <| io_label := p_label p |> <| io_prefix_len := p_prefix_len p |>
                else io in
      put_io w (io <| io_status := IDEMIP_OK |>)
  | _, _ => put_io w io
  end.

Definition idemip_ip6_select_scope_of (w : Work) : Work :=
  let io := (w_io w) <| io_status := IDEMIP_ERR |> <| io_scope := IDEMIP_IP6_SCOPE_RESERVED |> in
  match c_ready (w_ctx w), qa_addr (query_args io) with
  | true, Some addr => put_io w (io <| io_scope := ip6_select_scope addr |> <| io_status := IDEMIP_OK |>)
  | _, _ => put_io w io
  end.

Definition idemip_ip6_select_common_prefix_entry (w : Work) : Work :=
  let io := (w_io w) <| io_status := IDEMIP_ERR |> <| io_common := 0 |> in
  match c_ready (w_ctx w), qa_addr (query_args io), qa_peer (query_args io) with
  | true, Some addr, Some peer => put_io w (io <| io_common := ip6_select_common_prefix addr peer |> <| io_status := IDEMIP_OK |>)
  | _, _, _ => put_io w io
  end.

Definition idemip_ip6_select_source_add (w : Work) : Work :=
  let io := (w_io w) <| io_status := IDEMIP_ERR |> <| io_index := IDEMIP_IP6_SELECT_NONE |> in
  let ctx := w_ctx w in
  let a := source_args io in
  match sa_addr a with
  | None => put_io w io
  | Some addr =>
      if negb (c_ready ctx) || (SOURCES <=? c_sources ctx) then put_io w io
      else match addr_type addr with
      | IDEMIP_IP6_TYPE_MULTICAST | IDEMIP_IP6_TYPE_UNSPECIFIED => put_io w io
      | _ =>
          let src := mkSource (sa_zone a) (take 16 addr) (sa_netif a) (sa_deprecated a) (sa_temporary a) (sa_home a) (sa_care_of a) (sa_next_hop a) true in
          let n := u8 (c_sources ctx + 1) in
          put_io (w <| w_sources := tset (w_sources w) (c_sources ctx) src |> <| w_ctx := ctx <| c_sources := n |> <| c_sorted := false |> |>)
            (io <| io_index := c_sources ctx |> <| io_sources := n |> <| io_sorted := false |> <| io_status := IDEMIP_OK |>)
      end
  end.

Definition idemip_ip6_select_dest_add (w : Work) : Work :=
  let io := (w_io w) <| io_status := IDEMIP_ERR |> <| io_index := IDEMIP_IP6_SELECT_NONE |> in
  let ctx := w_ctx w in
  let a := dest_args io in
  match da_addr a with
  | None => put_io w io
  | Some addr =>
      if negb (c_ready ctx) || (DESTS <=? c_dests ctx) then put_io w io
      else
        let dst := mkDest (da_zone a) (take 16 addr) (da_netif a) IDEMIP_IP6_SELECT_NONE (da_unreachable a) (da_encapsulated a) true in
        let n := u8 (c_dests ctx + 1) in
        put_io (w <| w_dests := tset (w_dests w) (c_dests ctx) dst |> <| w_ctx := ctx <| c_dests := n |> <| c_sorted := false |> |>)
          (io <| io_index := c_dests ctx |> <| io_dests := n |> <| io_sorted := false |> <| io_status := IDEMIP_OK |>)
  end.

Definition idemip_ip6_select_source_select (w : Work) : Work :=
  let io := (w_io w) <| io_status := IDEMIP_ERR |> <| io_found := false |> <| io_source := None |> <| io_source_zone := IDEMIP_IP6_ZONE_DEFAULT |>
              <| io_index := IDEMIP_IP6_SELECT_NONE |> <| io_rule := IDEMIP_IP6_SELECT_RULE_NONE |> <| io_netif := 0 |> in
  match c_ready (w_ctx w), qa_addr (query_args io) with
  | true, Some d =>
      let '(best, rule) := ip6_select_best_source w d (qa_zone (query_args io)) (qa_netif (query_args io)) in
      let io := if negb (best =? IDEMIP_IP6_SELECT_NONE)
                then let src := SOURCE_AT w best in
                     io <| io_found := true |> <| io_index := best |> <| io_source := Some (s_addr src) |> <| io_source_zone := s_zone src |>
                        <| io_netif := s_netif src |> <| io_rule := rule |>
                else io in
      put_io w (io <| io_status := IDEMIP_OK |>)
  | _, _ => put_io w io
  end.

(** The best of places [i..n-1] by the destination rules, exchanged with place [i]. *)
Definition sort_best (w : Work) (order : list Z) (i n : Z) : Z :=
  fold_left (λ best j, if 0 <? (ip6_select_cmp_dest w (tget order j) (tget order best)).1 then j else best) (seqZ (i + 1) (n - (i + 1))) i.
Definition sort_pass (w : Work) (n : Z) (order : list Z) (i : Z) : list Z :=
  let best := sort_best w order i n in
  let swap := tget order i in
  tset (tset order i (tget order best)) best swap.

Definition idemip_ip6_select_dest_sort (w : Work) : Work :=
  let io := (w_io w) <| io_status := IDEMIP_ERR |> <| io_sorted := false |> in
  if negb (c_ready (w_ctx w)) then put_io w io
  else
    let n := c_dests (w_ctx w) in
    let w := fold_left (λ w i,
      let dst := DEST_AT w i in
      let source := (ip6_select_best_source w (d_addr dst) (d_zone dst) (d_netif dst)).1 in
      w <| w_dests := tset (w_dests w) i (dst <| d_source := source |>) |> <| w_order := tset (w_order w) i i |>) (seqZ 0 n) w in
    let order := fold_left (sort_pass w n) (seqZ 0 n) (w_order w) in
    put_io (w <| w_order := order |> <| w_ctx := (w_ctx w) <| c_sorted := true |> |>)
      (io <| io_dests := n |> <| io_sorted := true |> <| io_status := IDEMIP_OK |>).

Definition idemip_ip6_select_dest_at (w : Work) : Work :=
  let io := (w_io w) <| io_status := IDEMIP_ERR |> <| io_dest := None |> <| io_source := None |> <| io_dest_zone := IDEMIP_IP6_ZONE_DEFAULT |>
              <| io_source_zone := IDEMIP_IP6_ZONE_DEFAULT |> <| io_index := IDEMIP_IP6_SELECT_NONE |> <| io_found := false |> in
  if negb (c_ready (w_ctx w)) || negb (c_sorted (w_ctx w)) || (c_dests (w_ctx w) <=? qa_index (query_args io)) then put_io w io
  else
    let which := tget (w_order w) (qa_index (query_args io)) in
    let dst := DEST_AT w which in
    let io := io <| io_index := which |> <| io_dest := Some (d_addr dst) |> <| io_dest_zone := d_zone dst |> <| io_netif := d_netif dst |> in
    let io := if negb (d_source dst =? IDEMIP_IP6_SELECT_NONE)
              then let src := SOURCE_AT w (d_source dst) in io <| io_source := Some (s_addr src) |> <| io_source_zone := s_zone src |> <| io_found := true |>
              else io in
    put_io w (io <| io_status := IDEMIP_OK |>).
End Build.
End Ip6Select.
