(* ===== verification/Ip6SelectThms.v ===== *)
(** * Selection against RFC 6724

    Each section's rules as a ranking: a list of numbers, compared from the left.  Where the rules do rank
    (section 5 and section 6 leave some pairs to later rules, so they need not), the source selected is the
    first of the highest rank and the destinations are sorted by it. *)
From S2P Require Import Prelude Base IpAddr Ip6Select.

Module Ip6SelectThms.
Import Checksum Span Ip6Addr Ip6Select.

(** ** Ranks *)
Fixpoint lex (k l : list Z) : Z :=
  match k, l with
  | x :: k, y :: l => if y <? x then 1 else if x <? y then -1 else lex k l
  | _, _ => 0
  end.
Lemma lex_sym k l : lex l k = - lex k l.
Proof. revert l. induction k as [|x k IH]; intros [|y l]; cbn [lex]; try done. destruct (Z.ltb_spec x y), (Z.ltb_spec y x); try lia. apply IH. Qed.
Lemma lex_trans k l m : length k = length l → length l = length m → 0 ≤ lex k l → 0 ≤ lex l m → 0 ≤ lex k m ∧ (lex k m = 0 → lex k l = 0 ∧ lex l m = 0).
Proof.
  revert l m. induction k as [|x k IH]; intros [|y l] [|z m] H1 H2; try done. cbn [lex length] in *. injection H1 as H1. injection H2 as H2. specialize (IH l m H1 H2).
  destruct (Z.ltb_spec y x), (Z.ltb_spec x y), (Z.ltb_spec z y), (Z.ltb_spec y z), (Z.ltb_spec z x), (Z.ltb_spec x z); lia || (intros; by apply IH) || (intros; split; lia).
Qed.
Lemma lex_eq k l : length k = length l → lex k l = 0 → k = l.
Proof.
  revert l. induction k as [|x k IH]; intros [|y l]; cbn [lex length]; try done. intros [= Hl]. destruct (Z.ltb_spec y x), (Z.ltb_spec x y); try done. intros H'. f_equal; [lia|by apply IH].
Qed.
Lemma lex_le1 k l : -1 ≤ lex k l ≤ 1.
Proof. revert l. induction k as [|x k IH]; intros [|y l]; cbn [lex]; try lia. destruct (Z.ltb y x), (Z.ltb x y); try lia; apply IH. Qed.

Definition z (b : bool) : Z := if b then 1 else 0.
Lemma lex_bool a b k l : lex (z a :: k) (z b :: l) = if negb (eqb a b) then (if a then 1 else -1) else lex k l.
Proof. by destruct a, b. Qed.
Lemma lex_not a b k l : lex (z (negb a) :: k) (z (negb b) :: l) = if negb (eqb a b) then (if a then -1 else 1) else lex k l.
Proof. by destruct a, b. Qed.
Lemma lex_num x y k l : lex (x :: k) (y :: l) = if negb (x =? y) then (if y <? x then 1 else -1) else lex k l.
Proof. cbn [lex]. destruct (Z.eqb_spec x y), (Z.ltb_spec y x), (Z.ltb_spec x y); done || lia. Qed.

Section Build.
Variable bytes : nat.
Variable big : bool.
Variables (SOURCES POLICIES : Z).
Context (HS : 0 ≤ SOURCES < IDEMIP_IP6_SELECT_NONE).
Implicit Types (w : Work).

Local Abbreviation scope := (ip6_select_scope bytes big).
Local Abbreviation label := (ip6_select_label bytes big POLICIES).
Local Abbreviation cmp_source := (ip6_select_cmp_source bytes big POLICIES).
Local Abbreviation cmp_dest := (ip6_select_cmp_dest bytes big POLICIES).
Local Abbreviation best_source := (ip6_select_best_source bytes big SOURCES POLICIES).
Local Abbreviation candidate_ok := (ip6_select_candidate_ok bytes big).

(** Rule 2: a scope that reaches the destination's first, the smallest of those; then the largest of the rest. *)
Definition scope_rank (s d : Z) : Z := if s <? d then s - 16 else 15 - s.

Lemma scope_range a : 0 ≤ scope a ≤ 15.
Proof.
  unfold ip6_select_scope, idemip_ip6_addr_scope_of. unfold IDEMIP_IP6_SCOPE_GLOBAL, IDEMIP_IP6_SCOPE_LINK_LOCAL, IDEMIP_IP6_SCOPE_SITE_LOCAL, IDEMIP_IP6_SCOPE_RESERVED, IDEMIP_IP6_SCOPE_RESERVED_F.
  destruct (idemip_ip6_addr_type _ _ _); try lia; case_match; try lia.
  assert (0 ≤ u8 (Z.land (tget a 1) IDEMIP_IP6_MCAST_SCOP_MASK) ≤ 15); [|lia]. change IDEMIP_IP6_MCAST_SCOP_MASK with (Z.ones 4). rewrite Z.land_ones by lia.
  change (2 ^ 4) with 16. unfold u8. Z.div_mod_to_equations. lia.
Qed.
Lemma lex_scope a b d k l : lex (scope_rank (scope a) (scope d) :: k) (scope_rank (scope b) (scope d) :: l) =
  if scope a <? scope b then (if scope a <? scope d then -1 else 1) else if scope b <? scope a then (if scope b <? scope d then 1 else -1) else lex k l.
Proof.
  pose proof (scope_range a). pose proof (scope_range b). pose proof (scope_range d). unfold scope_rank. cbn [lex].
  destruct (Z.ltb_spec (scope a) (scope b)), (Z.ltb_spec (scope b) (scope a)), (Z.ltb_spec (scope a) (scope d)), (Z.ltb_spec (scope b) (scope d)); try lia; repeat case_match; try done; lia.
Qed.

(** Just a home address, and just a care-of address: a pair only rule 4's second half decides. *)
Definition split_pair (sa sb : Ip6SelectSource) : bool := s_home sa && negb (s_care_of sa) && (s_care_of sb && negb (s_home sb)).
Definition both (s : Ip6SelectSource) : bool := s_home s && s_care_of s.
Lemma home_rule_both sa sb : split_pair sa sb = false → split_pair sb sa = false →
  home_rule sa sb = if negb (eqb (both sa) (both sb)) then Some (if both sa then 1 else -1) else None.
Proof. unfold split_pair, home_rule, both. by destruct (s_home sa), (s_care_of sa), (s_home sb), (s_care_of sb). Qed.

(** ** Section 5 *)
Definition source_rank w (d : list Z) (dzone dnetif : Z) (s : Ip6SelectSource) : list Z :=
  [z (ip6_select_same_addr bytes big (s_addr s) (s_zone s) d dzone); scope_rank (scope (s_addr s)) (scope d); z (negb (s_deprecated s)); z (both s);
   z (s_netif s =? dnetif); z (s_next_hop s); z (label w (s_addr s) (s_zone s) =? label w d dzone); z (s_temporary s); ip6_select_common_prefix (s_addr s) d].

Lemma cmp_source_rank w i j d dzone dnetif : split_pair (SOURCE_AT w i) (SOURCE_AT w j) = false → split_pair (SOURCE_AT w j) (SOURCE_AT w i) = false →
  (cmp_source w i j d dzone dnetif).1 = lex (source_rank w d dzone dnetif (SOURCE_AT w i)) (source_rank w d dzone dnetif (SOURCE_AT w j)).
Proof.
  intros H1 H2. unfold ip6_select_cmp_source, source_rank. rewrite lex_bool, lex_scope, lex_not, !lex_bool, lex_num. rewrite (home_rule_both _ _ H1 H2).
  cbv zeta. repeat match goal with |- context [if ?b then _ else _] => destruct b; try done end.
Qed.

Definition eligible w (d : list Z) (dzone dnetif i : Z) : Prop := s_used (SOURCE_AT w i) = true ∧ candidate_ok (SOURCE_AT w i) d dzone dnetif = true.
(** No two candidates for the destination are a pair that only rule 4's second half decides. *)
Definition no_split w (d : list Z) (dzone dnetif : Z) : Prop :=
  ∀ i j, 0 ≤ i < SOURCES → 0 ≤ j < SOURCES → eligible w d dzone dnetif i → eligible w d dzone dnetif j → split_pair (SOURCE_AT w i) (SOURCE_AT w j) = false.

Definition front w (d : list Z) (dzone dnetif k b : Z) : Prop :=
  b = IDEMIP_IP6_SELECT_NONE ∧ (∀ i, 0 ≤ i < k → ¬ eligible w d dzone dnetif i) ∨
  0 ≤ b < k ∧ eligible w d dzone dnetif b ∧
    ∀ i, 0 ≤ i < k → eligible w d dzone dnetif i →
      let c := lex (source_rank w d dzone dnetif (SOURCE_AT w i)) (source_rank w d dzone dnetif (SOURCE_AT w b)) in c < 0 ∨ c = 0 ∧ b ≤ i.

Lemma best_source_front w d dzone dnetif : no_split w d dzone dnetif → front w d dzone dnetif SOURCES (best_source w d dzone dnetif).1.
Proof.
  intros Hns. unfold ip6_select_best_source. set (f := λ '(best, rule) i, _).
  assert (∀ k : nat, Z.of_nat k ≤ SOURCES → front w d dzone dnetif (Z.of_nat k) (fold_left f (seqZ 0 (Z.of_nat k)) (IDEMIP_IP6_SELECT_NONE, IDEMIP_IP6_SELECT_RULE_NONE)).1) as Hall.
  2: { specialize (Hall (Z.to_nat SOURCES) ltac:(lia)). by rewrite Z2Nat.id in Hall by lia. }
  induction k as [|k IH]; intros Hk; [left; split; [done|lia]|]. replace (Z.of_nat (S k)) with (Z.of_nat k + 1) in * by lia. rewrite seqZ_app, fold_left_app by lia. rewrite Z.add_0_l.
  change (seqZ (Z.of_nat k) 1) with [Z.of_nat k]. cbn [fold_left]. specialize (IH ltac:(lia)). destruct (fold_left f _ _) as [best rule]. cbn [fst] in IH. unfold f at 1. cbv zeta.
  set (K := Z.of_nat k) in *. assert (∀ i, 0 ≤ i < K + 1 → i = K ∨ 0 ≤ i < K) as Hsplit by lia.
  destruct (negb (s_used (SOURCE_AT w K)) || negb (candidate_ok (SOURCE_AT w K) d dzone dnetif)) eqn:E.
  - assert (¬ eligible w d dzone dnetif K) as Hn by (intros [Hu Hc]; by rewrite Hu, Hc in E). cbn [fst]. destruct IH as [[Hb Hno]|(Hb & He & Hmax)].
    + left. split; [done|]. intros i [-> |Hi]%Hsplit; [done|by apply Hno].
    + right. split; [lia|]. split; [done|]. intros i [-> |Hi]%Hsplit; [done|by apply Hmax].
  - apply orb_false_iff in E as [Hu Hc]. apply negb_false_iff in Hu, Hc. assert (eligible w d dzone dnetif K) as He by done.
    unfold IDEMIP_IP6_SELECT_NONE in *. destruct IH as [[-> Hno]|(Hb & Heb & Hmax)].
    + rewrite Z.eqb_refl. cbn [fst]. right. split; [lia|]. split; [done|]. intros i [-> |Hi]%Hsplit Hei; [|by destruct (Hno i)]. cbv zeta. right. split; [|lia].
      pose proof (lex_sym (source_rank w d dzone dnetif (SOURCE_AT w K)) (source_rank w d dzone dnetif (SOURCE_AT w K))). lia.
    + rewrite (proj2 (Z.eqb_neq _ _)) by lia. pose proof (cmp_source_rank w K best d dzone dnetif (Hns K best ltac:(lia) ltac:(lia) He Heb) (Hns best K ltac:(lia) ltac:(lia) Heb He)) as Hcmp.
      destruct (cmp_source w K best d dzone dnetif) as [order why]. cbn [fst] in *. set (rk := λ i, source_rank w d dzone dnetif (SOURCE_AT w i)) in *.
      right. destruct (Z.ltb_spec 0 order) as [Hgt|Hle].
      * split; [lia|]. split; [done|]. intros i [-> |Hi]%Hsplit Hei; cbv zeta.
        -- right. split; [|lia]. pose proof (lex_sym (rk K) (rk K)). unfold rk in *. lia.
        -- left. specialize (Hmax i Hi Hei). cbv zeta in Hmax. change (lex (rk i) (rk best) < 0 ∨ lex (rk i) (rk best) = 0 ∧ best ≤ i) in Hmax. change (order = lex (rk K) (rk best)) in Hcmp. change (lex (rk i) (rk K) < 0).
           pose proof (lex_sym (rk i) (rk best)). pose proof (lex_sym (rk i) (rk K)). destruct (lex_trans (rk K) (rk best) (rk i)) as [H1 H2]; [done|done|lia|lia|]. lia.
      * split; [lia|]. split; [done|]. intros i [-> |Hi]%Hsplit Hei; [|by apply Hmax]. cbv zeta. change (order = lex (rk K) (rk best)) in Hcmp. change (lex (rk K) (rk best) < 0 ∨ lex (rk K) (rk best) = 0 ∧ best ≤ K). lia.
Qed.

(** ** Section 6 *)
Definition sourced w (i : Z) : bool := negb (d_source (DEST_AT w i) =? IDEMIP_IP6_SELECT_NONE).
Definition usable w (i : Z) : bool := negb (d_unreachable (DEST_AT w i) || (d_source (DEST_AT w i) =? IDEMIP_IP6_SELECT_NONE)).
Definition is_v4 w (i : Z) : bool := ip6_select_is_v4 bytes big (d_addr (DEST_AT w i)).
Definition precedence w (i : Z) : Z := ip6_select_precedence bytes big POLICIES w (d_addr (DEST_AT w i)) (d_zone (DEST_AT w i)).
Definition dest_rank w (i : Z) : list Z :=
  let d := DEST_AT w i in
  let s := SOURCE_AT w (d_source d) in
  [z (usable w i); z (sourced w i && (scope (d_addr d) =? scope (s_addr s))); z (sourced w i && negb (s_deprecated s)); z (sourced w i && both s);
   z (sourced w i && (label w (s_addr s) (s_zone s) =? label w (d_addr d) (d_zone d))); precedence w i; z (negb (d_encapsulated d)); 15 - scope (d_addr d);
   (if sourced w i then ip6_select_common_prefix (s_addr s) (d_addr d) else 0); - i].

(** The pairs of destinations section 6 does not rank: one source just a home address and the other just a
    care-of address; two families of one precedence; and two that cannot be used, of which one has a source. *)
Record ranked w (i j : Z) : Prop := mkRanked {
  rk_home : sourced w i = true → sourced w j = true → split_pair (SOURCE_AT w (d_source (DEST_AT w i))) (SOURCE_AT w (d_source (DEST_AT w j))) = false;
  rk_family : precedence w i = precedence w j → is_v4 w i = is_v4 w j;
  rk_source : usable w i = false → usable w j = false → sourced w i = sourced w j }.

Lemma lex_neg_scope a b k l : lex (15 - scope a :: k) (15 - scope b :: l) = if negb (scope a =? scope b) then (if scope a <? scope b then 1 else -1) else lex k l.
Proof. cbn [lex]. destruct (Z.eqb_spec (scope a) (scope b)), (Z.ltb_spec (scope a) (scope b)), (Z.ltb_spec (15 - scope b) (15 - scope a)), (Z.ltb_spec (15 - scope a) (15 - scope b)); done || lia. Qed.

Lemma sourced_same w i j : ranked w i j → usable w i = usable w j → sourced w i = sourced w j.
Proof.
  intros [_ _ Hs] Hu. destruct (usable w i) eqn:E; [|by apply Hs; rewrite <- ?Hu]. symmetry in Hu. unfold usable, sourced in *. rewrite negb_true_iff, orb_false_iff in E, Hu.
  destruct E as [_ ->], Hu as [_ ->]. done.
Qed.

Lemma cmp_dest_rank w i j : i ≠ j → ranked w i j → ranked w j i → (cmp_dest w i j).1 = lex (dest_rank w i) (dest_rank w j).
Proof.
  intros Hij Hr Hr'. unfold ip6_select_cmp_dest, dest_rank. cbv zeta. set (da := DEST_AT w i). set (db := DEST_AT w j). set (sa := SOURCE_AT w (d_source da)). set (sb := SOURCE_AT w (d_source db)).
  rewrite lex_bool. change (d_unreachable da || _) with (d_unreachable da || (d_source da =? IDEMIP_IP6_SELECT_NONE)).
  assert (d_unreachable da || (d_source da =? IDEMIP_IP6_SELECT_NONE) = negb (usable w i)) as -> by (unfold usable; by rewrite negb_involutive).
  assert (d_unreachable db || (d_source db =? IDEMIP_IP6_SELECT_NONE) = negb (usable w j)) as -> by (unfold usable; by rewrite negb_involutive).
  destruct (eqb (usable w i) (usable w j)) eqn:E1; [|by destruct (usable w i), (usable w j)]. apply eqb_prop in E1. rewrite E1, eqb_reflx. cbn [negb].
  pose proof (sourced_same w i j Hr E1) as Hs. change (negb (d_source da =? IDEMIP_IP6_SELECT_NONE)) with (sourced w i). change (negb (d_source db =? IDEMIP_IP6_SELECT_NONE)) with (sourced w j).
  rewrite <- Hs, andb_diag. destruct Hr as [Hh Hf _]. destruct Hr' as [Hh' _ _]. rewrite <- Hs in Hh, Hh'. fold da db sa sb in Hh, Hh'.
  fold (precedence w i) (precedence w j). change (ip6_select_precedence bytes big POLICIES w (d_addr da) (d_zone da)) with (precedence w i).
  change (ip6_select_precedence bytes big POLICIES w (d_addr db) (d_zone db)) with (precedence w j).
  assert (lex (precedence w i :: z (negb (d_encapsulated da)) :: 15 - scope (d_addr da) :: (if sourced w i then ip6_select_common_prefix (s_addr sa) (d_addr da) else 0) :: [- i])
      (precedence w j :: z (negb (d_encapsulated db)) :: 15 - scope (d_addr db) :: (if sourced w i then ip6_select_common_prefix (s_addr sb) (d_addr db) else 0) :: [- j]) =
    (if negb (precedence w i =? precedence w j) then (if precedence w j <? precedence w i then 1 else -1, 6)
     else if negb (eqb (d_encapsulated da) (d_encapsulated db)) then (if d_encapsulated da then -1 else 1, 7)
     else if negb (scope (d_addr da) =? scope (d_addr db)) then (if scope (d_addr da) <? scope (d_addr db) then 1 else -1, 8)
     else if sourced w i && eqb (ip6_select_is_v4 bytes big (d_addr da)) (ip6_select_is_v4 bytes big (d_addr db)) &&
        negb (ip6_select_common_prefix (s_addr sa) (d_addr da) =? ip6_select_common_prefix (s_addr sb) (d_addr db))
     then (if ip6_select_common_prefix (s_addr sb) (d_addr db) <? ip6_select_common_prefix (s_addr sa) (d_addr da) then 1 else -1, 9)
     else (if i <? j then 1 else -1, 10)).1) as Htail.
  { rewrite lex_num. destruct (Z.eqb_spec (precedence w i) (precedence w j)) as [Ep|]; cbn [negb]; [|done]. rewrite lex_not. destruct (eqb (d_encapsulated da) (d_encapsulated db)); cbn [negb]; [|done].
    rewrite lex_neg_scope. destruct (_ =? _); cbn [negb]; [|done]. pose proof (Hf Ep) as Hv. unfold is_v4 in Hv. fold da db in Hv. rewrite Hv, eqb_reflx, andb_true_r.
    assert (lex [- i] [- j] = if i <? j then 1 else -1) as Hlast by (cbn [lex]; destruct (Z.ltb_spec (- j) (- i)), (Z.ltb_spec (- i) (- j)), (Z.ltb_spec i j); done || lia).
    rewrite lex_num. destruct (sourced w i); cbn [andb]; [destruct (_ =? _); done|by rewrite Z.eqb_refl]. }
  rewrite lex_bool. destruct (sourced w i); cbn [andb].
  - rewrite lex_not, !lex_bool. rewrite (home_rule_both sa sb (Hh eq_refl eq_refl) (Hh' eq_refl eq_refl)). rewrite Htail.
    repeat match goal with |- context [if negb (eqb ?a ?b) then _ else _] => destruct (negb (eqb a b)) eqn:?; [by repeat case_match|] end. done.
  - rewrite !lex_bool. cbn [eqb negb]. rewrite Htail. done.
Qed.

(** ** The sort *)

(** The first [n] places of [order] name each of [0 .. n-1] once. *)
Record places (order : list Z) (n : Z) : Prop := mkPlaces {
  pl_range : ∀ p, 0 ≤ p < n → 0 ≤ tget order p < n;
  pl_once : ∀ p q, 0 ≤ p < n → 0 ≤ q < n → tget order p = tget order q → p = q;
  pl_all : ∀ x, 0 ≤ x < n → ∃ p, 0 ≤ p < n ∧ tget order p = x }.

Definition swapped (i b p : Z) : Z := if decide (p = i) then b else if decide (p = b) then i else p.
Lemma tget_swap (order : list Z) i b p : 0 ≤ i < tlen order → 0 ≤ b < tlen order → 0 ≤ p < tlen order →
  tget (tset (tset order i (tget order b)) b (tget order i)) p = tget order (swapped i b p).
Proof.
  intros Hi Hb Hp. unfold swapped. destruct (decide (p = b)) as [->|Hpb].
  - rewrite tget_tset_eq by (rewrite tlen_tset; lia). by destruct (decide (b = i)) as [->|].
  - rewrite tget_tset_ne by lia. destruct (decide (p = i)) as [->|]; [by rewrite tget_tset_eq|by rewrite tget_tset_ne by lia].
Qed.
Lemma swapped_range i b p n : 0 ≤ i < n → 0 ≤ b < n → 0 ≤ p < n → 0 ≤ swapped i b p < n.
Proof. intros. unfold swapped. repeat case_decide; lia. Qed.
Lemma swapped_twice i b p : swapped i b (swapped i b p) = p.
Proof. unfold swapped. repeat case_decide; congruence. Qed.

Lemma places_swap order n i b : places order n → n ≤ tlen order → 0 ≤ i < n → 0 ≤ b < n → places (tset (tset order i (tget order b)) b (tget order i)) n.
Proof.
  intros [Hr Ho Ha] Hn Hi Hb. split.
  - intros p Hp. rewrite tget_swap by lia. apply Hr. by apply swapped_range.
  - intros p q Hp Hq. rewrite !tget_swap by lia. intros E. apply Ho in E; [|by apply swapped_range..]. rewrite <- (swapped_twice i b p), <- (swapped_twice i b q). by rewrite E.
  - intros x Hx. destruct (Ha x Hx) as (p & Hp & E). exists (swapped i b p). split; [by apply swapped_range|]. rewrite tget_swap by (pose proof (swapped_range i b p n Hi Hb Hp); lia). by rewrite swapped_twice.
Qed.

Lemma sort_best_range w order i n : i < n → i ≤ sort_best bytes big POLICIES w order i n < n.
Proof.
  intros Hi. unfold sort_best. set (f := λ best j, _).
  assert (∀ l b, (∀ j, j ∈ l → i ≤ j < n) → i ≤ b < n → i ≤ fold_left f l b < n) as H.
  - induction l as [|j l IH]; intros b Hl Hb; [done|]. cbn [fold_left]. apply IH; [intros k Hk; apply Hl; by right|]. unfold f. case_match; [apply Hl; by left|done].
  - apply H; [|lia]. intros j Hj%elem_of_seqZ. lia.
Qed.
Lemma passes_places w n order : 0 ≤ n ≤ tlen order → places order n → let o := fold_left (sort_pass bytes big POLICIES w n) (seqZ 0 n) order in tlen o = tlen order ∧ places o n.
Proof.
  intros Hn Hp. cbv zeta. assert (∀ l o, (∀ i, i ∈ l → 0 ≤ i < n) → n ≤ tlen o → places o n → tlen (fold_left (sort_pass bytes big POLICIES w n) l o) = tlen o ∧ places (fold_left (sort_pass bytes big POLICIES w n) l o) n) as H.
  - induction l as [|i l IH]; intros o Hl Ho Hpo; [done|]. cbn [fold_left]. assert (0 ≤ i < n) as Hi by (apply Hl; by left). pose proof (sort_best_range w o i n ltac:(lia)) as Hb.
    assert (tlen (sort_pass bytes big POLICIES w n o i) = tlen o) as Ht by (unfold sort_pass; cbv zeta; by rewrite !tlen_tset).
    destruct (IH (sort_pass bytes big POLICIES w n o i)) as [H1 H2]; [intros k Hk; apply Hl; by right|lia|unfold sort_pass; cbv zeta; apply places_swap; done || lia|]. split; [lia|done].
  - apply H; [intros i Hi%elem_of_seqZ; lia|lia|done].
Qed.

Section Sorting.
Variables (w : Work) (n : Z).
Context (Hn : 0 ≤ n) (Hranked : ∀ i j, 0 ≤ i < n → 0 ≤ j < n → ranked w i j).

Local Abbreviation beats i j := (lex (dest_rank w i) (dest_rank w j) = 1).

Lemma rank_apart i j : i ≠ j → lex (dest_rank w i) (dest_rank w j) ≠ 0.
Proof.
  intros Hij H. apply Hij. apply (lex_eq (dest_rank w i) (dest_rank w j) eq_refl) in H. apply (f_equal (λ l : list Z, l !!! 9%nat)) in H. change (- i = - j) in H. lia.
Qed.
Lemma beats_total i j : i ≠ j → ¬ beats i j → beats j i.
Proof. intros Hij H. rewrite lex_sym. pose proof (lex_le1 (dest_rank w i) (dest_rank w j)). pose proof (rank_apart i j Hij). lia. Qed.
Lemma beats_trans i j k : beats i j → beats j k → beats i k.
Proof.
  intros H1 H2. destruct (lex_trans (dest_rank w i) (dest_rank w j) (dest_rank w k)) as [H3 H4]; [done|done|lia|lia|]. pose proof (lex_le1 (dest_rank w i) (dest_rank w k)).
  destruct (decide (lex (dest_rank w i) (dest_rank w k) = 0)) as [E|]; [|lia]. destruct (H4 E). lia.
Qed.

Lemma sort_best_spec order i : places order n → 0 ≤ i < n → let b := sort_best bytes big POLICIES w order i n in
  i ≤ b < n ∧ ∀ j, i ≤ j < n → j ≠ b → beats (tget order b) (tget order j).
Proof.
  intros [Hr Ho _] Hi. cbv zeta. unfold sort_best. set (f := λ best j, _).
  assert (∀ k : nat, Z.of_nat k ≤ n - (i + 1) → let b := fold_left f (seqZ (i + 1) (Z.of_nat k)) i in
    i ≤ b < i + 1 + Z.of_nat k ∧ ∀ j, i ≤ j < i + 1 + Z.of_nat k → j ≠ b → beats (tget order b) (tget order j)) as Hall.
  2: { specialize (Hall (Z.to_nat (n - (i + 1))) ltac:(lia)). rewrite Z2Nat.id in Hall by lia. replace (i + 1 + (n - (i + 1))) with n in Hall by lia. exact Hall. }
  induction k as [|k IH]; intros Hk; cbv zeta; [change (seqZ (i + 1) (Z.of_nat 0)) with (@nil Z); cbn [fold_left]; split; [lia|]; intros j Hj Hne; lia|]. replace (Z.of_nat (S k)) with (Z.of_nat k + 1) in * by lia. rewrite seqZ_app, fold_left_app by lia.
  change (seqZ (i + 1 + Z.of_nat k) 1) with [i + 1 + Z.of_nat k]. cbn [fold_left]. specialize (IH ltac:(lia)). cbv zeta in IH. destruct IH as [Hb Hmax]. set (b := fold_left f _ i) in *. set (K := i + 1 + Z.of_nat k) in *. assert (K = i + 1 + Z.of_nat k) as HK by done.
  assert (tget order K ≠ tget order b) as Hne by (intros E; apply Ho in E; lia).
  assert (f b K = if 0 <? lex (dest_rank w (tget order K)) (dest_rank w (tget order b)) then K else b) as ->.
  { unfold f. rewrite (cmp_dest_rank w (tget order K) (tget order b) Hne) by (apply Hranked; apply Hr; lia). done. }
  destruct (Z.ltb_spec 0 (lex (dest_rank w (tget order K)) (dest_rank w (tget order b)))) as [Hgt|Hle].
  - pose proof (lex_le1 (dest_rank w (tget order K)) (dest_rank w (tget order b))). split; [lia|]. intros j Hj Hjk. destruct (decide (j = b)) as [E|]; [rewrite E; lia|]. apply (beats_trans _ (tget order b)); [lia|]. apply Hmax; lia.
  - split; [lia|]. intros j Hj Hjb. destruct (decide (j = K)) as [->|]; [|apply Hmax; lia]. apply beats_total; [done|]. lia.
Qed.

Lemma sort_passes order : places order n → n ≤ tlen order → let order' := fold_left (sort_pass bytes big POLICIES w n) (seqZ 0 n) order in
  places order' n ∧ ∀ p q, 0 ≤ p < q → q < n → beats (tget order' p) (tget order' q).
Proof.
  intros Hpl Hlen. cbv zeta.
  assert (∀ k : nat, Z.of_nat k ≤ n → let o := fold_left (sort_pass bytes big POLICIES w n) (seqZ 0 (Z.of_nat k)) order in
    tlen o = tlen order ∧ places o n ∧ ∀ p q, 0 ≤ p < q → p < Z.of_nat k → q < n → beats (tget o p) (tget o q)) as Hall.
  2: { destruct (Hall (Z.to_nat n) ltac:(lia)) as (_ & H1 & H2). rewrite Z2Nat.id in H1, H2 by lia. split; [done|]. intros p q Hp Hq. apply H2; lia. }
  induction k as [|k IH]; intros Hk; cbv zeta; [split_and!; [done|done|lia]|]. replace (Z.of_nat (S k)) with (Z.of_nat k + 1) in * by lia. rewrite seqZ_app, fold_left_app by lia. rewrite Z.add_0_l.
  change (seqZ (Z.of_nat k) 1) with [Z.of_nat k]. cbn [fold_left]. destruct (IH ltac:(lia)) as (Hl & Hp & Hs). set (o := fold_left _ _ order) in *. set (K := Z.of_nat k) in *.
  destruct (sort_best_spec o K Hp ltac:(lia)) as [Hb Hmax]. unfold sort_pass. cbv zeta. set (b := sort_best bytes big POLICIES w o K n) in *.
  split; [by rewrite !tlen_tset|]. split; [apply places_swap; done || lia|]. intros p q Hpq HpK Hq. rewrite !tget_swap by lia.
  destruct (decide (p = K)) as [->|Hne].
  - assert (swapped K b K = b) as -> by (unfold swapped; by rewrite decide_True). apply Hmax; unfold swapped; repeat case_decide; lia.
  - assert (swapped K b p = p) as -> by (unfold swapped; rewrite !decide_False; lia). apply Hs; unfold swapped; repeat case_decide; lia.
Qed.
End Sorting.

(** ** The policy table *)
Definition matches w (addr : list Z) (zone i : Z) : Prop :=
  p_used (POLICY_AT w i) = true ∧ (p_zone (POLICY_AT w i) = IDEMIP_IP6_ZONE_DEFAULT ∨ p_zone (POLICY_AT w i) = zone) ∧
  idemip_ip6_addr_prefix_eq bytes big addr (p_prefix (POLICY_AT w i)) (p_prefix_len (POLICY_AT w i)) = true.

(** The row found is the first of the longest prefixes that match. *)
Lemma policy_find_longest w addr zone : 0 ≤ POLICIES < IDEMIP_IP6_SELECT_NONE → let i := ip6_select_policy_find bytes big POLICIES w addr zone in
  i = IDEMIP_IP6_SELECT_NONE ∧ (∀ j, 0 ≤ j < POLICIES → ¬ matches w addr zone j) ∨
  0 ≤ i < POLICIES ∧ matches w addr zone i ∧ ∀ j, 0 ≤ j < POLICIES → matches w addr zone j →
    p_prefix_len (POLICY_AT w j) < p_prefix_len (POLICY_AT w i) ∨ p_prefix_len (POLICY_AT w j) = p_prefix_len (POLICY_AT w i) ∧ i ≤ j.
Proof.
  intros HP. cbv zeta. unfold ip6_select_policy_find. set (f := λ '(best, best_len) i, _).
  assert (∀ k : nat, Z.of_nat k ≤ POLICIES → let b := fold_left f (seqZ 0 (Z.of_nat k)) (IDEMIP_IP6_SELECT_NONE, 0) in
    b.1 = IDEMIP_IP6_SELECT_NONE ∧ (∀ j, 0 ≤ j < Z.of_nat k → ¬ matches w addr zone j) ∨
    0 ≤ b.1 < Z.of_nat k ∧ matches w addr zone b.1 ∧ b.2 = p_prefix_len (POLICY_AT w b.1) ∧ ∀ j, 0 ≤ j < Z.of_nat k → matches w addr zone j →
      p_prefix_len (POLICY_AT w j) < b.2 ∨ p_prefix_len (POLICY_AT w j) = b.2 ∧ b.1 ≤ j) as Hall.
  2: { specialize (Hall (Z.to_nat POLICIES) ltac:(lia)). rewrite Z2Nat.id in Hall by lia. cbv zeta in Hall. destruct Hall as [H|(H1 & H2 & H3 & H4)]; [by left|right]. rewrite <- H3. done. }
  induction k as [|k IH]; intros Hk; cbv zeta; [left; split; [done|lia]|]. replace (Z.of_nat (S k)) with (Z.of_nat k + 1) in * by lia. rewrite seqZ_app, fold_left_app by lia. rewrite Z.add_0_l.
  change (seqZ (Z.of_nat k) 1) with [Z.of_nat k]. cbn [fold_left]. specialize (IH ltac:(lia)). cbv zeta in IH. destruct (fold_left f _ _) as [best len]. cbn [fst snd] in IH. set (K := Z.of_nat k) in *.
  assert (∀ j, 0 ≤ j < K + 1 → j = K ∨ 0 ≤ j < K) as Hsplit by lia.
  assert (f (best, len) K = if decide (matches w addr zone K) then if (best =? IDEMIP_IP6_SELECT_NONE) || (len <? p_prefix_len (POLICY_AT w K)) then (K, p_prefix_len (POLICY_AT w K)) else (best, len) else (best, len)) as ->.
  { unfold f. cbv zeta. unfold matches. case_decide as Hm.
    - destruct Hm as (-> & Hz & ->). cbn [negb]. assert (negb (p_zone (POLICY_AT w K) =? IDEMIP_IP6_ZONE_DEFAULT) && negb (p_zone (POLICY_AT w K) =? zone) = false) as ->; [|done].
      destruct Hz as [-> | ->]; rewrite ?Z.eqb_refl; cbn [negb]; by rewrite ?andb_false_r.
    - destruct (p_used (POLICY_AT w K)) eqn:E1; cbn [negb]; [|done]. destruct (negb (p_zone (POLICY_AT w K) =? IDEMIP_IP6_ZONE_DEFAULT) && negb (p_zone (POLICY_AT w K) =? zone)) eqn:E2; [done|].
      destruct (idemip_ip6_addr_prefix_eq _ _ _ _ _) eqn:E3; cbn [negb]; [|done]. exfalso. apply Hm. apply andb_false_iff in E2. by rewrite !negb_false_iff, !Z.eqb_eq in E2. }
  case_decide as Hm.
  - destruct IH as [[-> Hno]|(Hb & Hmb & -> & Hmax)].
    + rewrite Z.eqb_refl. cbn [orb fst snd]. right. split_and!; [lia|lia|done|done|]. intros j [-> |Hj]%Hsplit Hmj; [right; lia|by destruct (Hno j)].
    + rewrite (proj2 (Z.eqb_neq _ _)) by lia. cbn [orb]. destruct (Z.ltb_spec (p_prefix_len (POLICY_AT w best)) (p_prefix_len (POLICY_AT w K))); cbn [fst snd]; right; split_and!; try lia; try done; intros j [-> |Hj]%Hsplit Hmj.
      * right; lia.
      * destruct (Hmax j Hj Hmj); left; lia.
      * destruct (Z_lt_ge_dec (p_prefix_len (POLICY_AT w K)) (p_prefix_len (POLICY_AT w best))); [left; lia|right; lia].
      * by apply Hmax.
  - cbn [fst snd]. destruct IH as [[Hb Hno]|(Hb & Hmb & Hl & Hmax)].
    + left. split; [done|]. intros j [-> |Hj]%Hsplit; [done|by apply Hno].
    + right. split_and!; [lia|lia|done|done|]. intros j [-> |Hj]%Hsplit Hmj; [done|by apply Hmax].
Qed.

(** With the table of section 2.1 the two families never share a precedence. *)
Lemma prefix_whole a b (k : nat) : (0 < k)%nat → (0 < bytes)%nat → octets a → octets b → (k ≤ length a)%nat → (k ≤ length b)%nat →
  idemip_ip6_addr_prefix_eq bytes big a b (8 * Z.of_nat k) = true ↔ take k a = take k b.
Proof.
  intros Hk Hb Ha Hbo Hla Hlb. unfold idemip_ip6_addr_prefix_eq. rewrite Z.shiftr_div_pow2 by lia. change (2 ^ 3) with 8. replace (8 * Z.of_nat k / 8) with (Z.of_nat k) by (Z.div_mod_to_equations; lia).
  assert (u8 (Z.land (8 * Z.of_nat k) 7) = 0) as ->.
  { change 7 with (Z.ones 3). rewrite Z.land_ones by lia. change (2 ^ 3) with 8. replace (8 * Z.of_nat k mod 8) with 0 by (Z.div_mod_to_equations; lia). done. }
  rewrite Nat2Z.id, (proj2 (Z.eqb_neq _ _)) by lia. cbn [negb andb]. unfold span_eq.
  pose proof (eq_loop_spec bytes big (S k) 0 a b k Hb Ha Hbo ltac:(lia) Hla Hlb) as Hs. destruct (Z.eqb_spec (eq_loop bytes big (S k) 0 a b k) 0); cbn [negb]; naive_solver.
Qed.

Definition v4_prefix : list Z := replicate 10 0 ++ [0xFF; 0xFF].
Lemma is_v4_prefix a : (0 < bytes)%nat → octets a → (16 ≤ length a)%nat → ip6_select_is_v4 bytes big a = true ↔ take 12 a = v4_prefix.
Proof.
  intros Hb Ha Hl. unfold ip6_select_is_v4. rewrite bool_decide_eq_true. unfold idemip_ip6_addr_type, idemip_ip6_addr_leading_zero, span_zero.
  assert (∀ i, (i < 12)%nat → tget a (Z.of_nat i) = take 12 a !!! i) as Hat by (intros i Hi; unfold tget; by rewrite Nat2Z.id, lookup_total_take_lt).
  assert (zero_loop bytes big (S 10) 0 a 10 = 0 ↔ take 10 a = replicate 10 0) as Hz.
  { rewrite (zero_loop_eq _ _ _ _ _ _ 10) by lia. rewrite eq_loop_spec; [naive_solver|done|done|apply Forall_replicate; unfold is_u8; lia|lia|lia|done]. }
  assert (take 12 a = take 10 a ++ [tget a 10; tget a 11]) as E.
  { change 10 with (Z.of_nat 10). change 11 with (Z.of_nat 11). rewrite !Hat by lia. rewrite <- (take_drop 10 (take 12 a)) at 1. rewrite take_take. f_equal.
    destruct (take 12 a) as [|b0 [|b1 [|b2 [|b3 [|b4 [|b5 [|b6 [|b7 [|b8 [|b9 [|b10 [|b11 [|b12 t]]]]]]]]]]]]] eqn:E; try done; apply (f_equal length) in E; rewrite length_take in E; cbn [length] in E; lia. }
  split.
  - repeat case_match; try done. intros _. bool_prop. rewrite E. change (Z.to_nat IDEMIP_IP6_V4_EMBED_ZEROS) with 10%nat in *. rewrite (proj1 Hz) by lia. unfold IDEMIP_IP6_V4_MAPPED_TAG in *. unfold v4_prefix. do 3 f_equal; lia || (f_equal; lia).
  - intros Hv. assert (tget a 10 = 0xFF ∧ tget a 11 = 0xFF ∧ tget a 0 = 0) as (H10 & H11 & H0).
    { change 10 with (Z.of_nat 10). change 11 with (Z.of_nat 11). change 0 with (Z.of_nat 0) at 1. by rewrite !Hat, Hv by lia. }
    rewrite H0, H10, H11. change (Z.to_nat IDEMIP_IP6_V4_EMBED_ZEROS) with 10%nat. rewrite (proj2 Hz); [done|]. rewrite E, H10, H11 in Hv. by apply app_inj_2 in Hv as [-> _].
Qed.

Lemma default_families_apart w a zone : (0 < bytes)%nat → IDEMIP_IP6_SELECT_DEFAULT_POLICIES ≤ POLICIES < IDEMIP_IP6_SELECT_NONE →
  w_policies w = ip6_select_default_policy ++ replicate (Z.to_nat (POLICIES - IDEMIP_IP6_SELECT_DEFAULT_POLICIES)) policy_zero → octets a → length a = 16%nat →
  ip6_select_precedence bytes big POLICIES w a zone = 35 ↔ ip6_select_is_v4 bytes big a = true.
Proof.
  intros Hb HP Hw Ha Hl. rewrite is_v4_prefix by (done || lia). unfold IDEMIP_IP6_SELECT_DEFAULT_POLICIES in *.
  assert (∀ i, 0 ≤ i < 9 → POLICY_AT w i = ip6_select_default_policy !!! Z.to_nat i) as Hrow by (intros i Hi; unfold POLICY_AT, tget; rewrite Hw; apply lookup_total_app_l; cbn; lia).
  assert (∀ i, 9 ≤ i < POLICIES → ¬ matches w a zone i) as Hrest.
  { intros i Hi [Hu _]. unfold POLICY_AT, tget in Hu. rewrite Hw, lookup_total_app_r in Hu by (cbn; lia). rewrite (list_lookup_total_correct _ _ policy_zero) in Hu; [done|]. apply lookup_replicate. split; [done|cbn; lia]. }
  assert (matches w a zone 2 ↔ take 12 a = v4_prefix) as H2.
  { unfold matches. rewrite (Hrow 2) by lia. change (ip6_select_default_policy !!! Z.to_nat 2) with (default_row v4_prefix 96 35 4). cbn [default_row p_used p_zone p_prefix p_prefix_len].
    change 96 with (8 * Z.of_nat 12). rewrite prefix_whole; [|lia|done|done|repeat constructor; lia|lia|cbn; lia]. change (take 12 (v4_prefix ++ _)) with v4_prefix. naive_solver. }
  assert (matches w a zone 0 → take 12 a = v4_prefix → False) as H0.
  { unfold matches. rewrite (Hrow 0) by lia. change (ip6_select_default_policy !!! Z.to_nat 0) with (default_row (replicate 15 0 ++ [1]) 128 50 0). cbn [default_row p_used p_zone p_prefix p_prefix_len].
    change 128 with (8 * Z.of_nat 16). rewrite prefix_whole; [|lia|done|done|repeat constructor; lia|lia|cbn; lia]. intros (_ & _ & E) Hv. rewrite (take_ge a) in E by lia. subst a. done. }
  unfold ip6_select_precedence. destruct (policy_find_longest w a zone ltac:(lia)) as [[-> Hno]|(Hi & Hm & Hmax)].
  - rewrite Z.eqb_refl. split; [done|]. intros Hv%H2. by destruct (Hno 2 ltac:(lia)).
  - set (i := ip6_select_policy_find _ _ _ _ _ _) in *. rewrite (proj2 (Z.eqb_neq _ _)) by lia. destruct (decide (9 ≤ i)) as [|Hlt]; [by destruct (Hrest i); [lia|]|].
    assert (i = 0 ∨ i = 1 ∨ i = 2 ∨ i = 3 ∨ i = 4 ∨ i = 5 ∨ i = 6 ∨ i = 7 ∨ i = 8) as Hc by lia. clearbody i.
    assert (take 12 a = v4_prefix → 2 = i) as Hv.
    { intros Hv. specialize (Hmax 2 ltac:(lia) (proj2 H2 Hv)). rewrite (Hrow 2) in Hmax by lia. rewrite (Hrow i) in Hmax by lia.
      destruct Hc as [->|[->|[->|[->|[->|[->|[->|[->| ->]]]]]]]]; lazy -[Z.lt Z.le] in Hmax; try lia. exfalso. exact (H0 Hm Hv). }
    rewrite (Hrow i) by lia. split; [|intros E; by rewrite <- (Hv E)].
    intros E. destruct Hc as [->|[->|[->|[->|[->|[->|[->|[->| ->]]]]]]]]; cbn in E; try done. by apply H2.
Qed.

(** ** The entries *)

(** Source(D) for every destination, and the places in the original order. *)
Definition sources_filled w : Work :=
  fold_left (λ w i,
      let dst := DEST_AT w i in
      let source := (best_source w (d_addr dst) (d_zone dst) (d_netif dst)).1 in
      w <| w_dests := tset (w_dests w) i (dst <| d_source := source |>) |> <| w_order := tset (w_order w) i i |>) (seqZ 0 (c_dests (w_ctx w))) w.
Definition with_source w (d : Ip6SelectDest) : Ip6SelectDest := d <| d_source := (best_source w (d_addr d) (d_zone d) (d_netif d)).1 |>.

Lemma filled_spec w : 0 ≤ c_dests (w_ctx w) ≤ tlen (w_dests w) → c_dests (w_ctx w) ≤ tlen (w_order w) →
  ∃ ds os, sources_filled w = w <| w_dests := ds |> <| w_order := os |> ∧ tlen os = tlen (w_order w) ∧
    ∀ i, 0 ≤ i < c_dests (w_ctx w) → tget ds i = with_source w (DEST_AT w i) ∧ tget os i = i.
Proof.
  intros Hn Hn'. unfold sources_filled. set (f := λ w i, _).
  assert (∀ k : nat, Z.of_nat k ≤ c_dests (w_ctx w) → ∃ ds os, fold_left f (seqZ 0 (Z.of_nat k)) w = w <| w_dests := ds |> <| w_order := os |> ∧ tlen ds = tlen (w_dests w) ∧ tlen os = tlen (w_order w) ∧
    (∀ i, 0 ≤ i < Z.of_nat k → tget ds i = with_source w (DEST_AT w i) ∧ tget os i = i) ∧ ∀ i, Z.of_nat k ≤ i → tget ds i = DEST_AT w i) as Hall.
  2: { destruct (Hall (Z.to_nat (c_dests (w_ctx w))) ltac:(lia)) as (ds & os & H1 & _ & H2 & H3 & _). rewrite Z2Nat.id in H1, H3 by lia. eauto. }
  induction k as [|k IH]; intros Hk; [exists (w_dests w), (w_order w); split; [by destruct w|]; split_and!; [done|done|lia|done]|].
  replace (Z.of_nat (S k)) with (Z.of_nat k + 1) in * by lia. destruct (IH ltac:(lia)) as (ds & os & E & Hd & Ho & Hlow & Hhigh). set (K := Z.of_nat k) in *.
  exists (tset ds K (with_source w (DEST_AT w K))), (tset os K K). split.
  - rewrite seqZ_app, fold_left_app, E by lia. rewrite Z.add_0_l. change (seqZ K 1) with [K]. cbn [fold_left]. unfold f at 1, DEST_AT at 1 2 3 4. cbv zeta.
    change (w_dests (w <| w_dests := ds |> <| w_order := os |>)) with ds. rewrite (Hhigh K) by lia. reflexivity.
  - rewrite !tlen_tset. split_and!; [done|done| |].
    + intros i Hi. destruct (decide (i = K)) as [->|]; [by rewrite !tget_tset_eq by lia|]. rewrite !tget_tset_ne by lia. apply Hlow. lia.
    + intros i Hi. rewrite tget_tset_ne by lia. apply Hhigh. lia.
Qed.


(** A sort gives every destination the source its own selection would report, and the places it leaves
    name every destination exactly once; where section 6 ranks every two of them, each place's destination
    outranks every later one's: usable, then matching its source's scope, a preferred source, both home and
    care-of, a matching label, higher precedence, not encapsulated, of smaller scope, with the longer common
    prefix, and earlier in the caller's list.  Reading a place reports that destination. *)
Theorem ip6_destinations_ordered w : c_ready (w_ctx w) = true → 0 ≤ c_dests (w_ctx w) ≤ tlen (w_dests w) → c_dests (w_ctx w) ≤ tlen (w_order w) →
  let n := c_dests (w_ctx w) in let w' := idemip_ip6_select_dest_sort bytes big SOURCES POLICIES w in
  io_status (w_io w') = IDEMIP_OK ∧ (∀ i, 0 ≤ i < n → DEST_AT w' i = with_source w (DEST_AT w i)) ∧ places (w_order w') n ∧
  ((∀ i j, 0 ≤ i < n → 0 ≤ j < n → ranked w' i j) → ∀ p q, 0 ≤ p < q → q < n → lex (dest_rank w' (tget (w_order w') p)) (dest_rank w' (tget (w_order w') q)) = 1) ∧
  ∀ a, 0 ≤ qa_index a < n → let r := w_io (idemip_ip6_select_dest_at (put_io w' ((w_io w') <| query_args := a |>))) in
    io_status r = IDEMIP_OK ∧ io_index r = tget (w_order w') (qa_index a) ∧ io_dest r = Some (d_addr (DEST_AT w' (io_index r))).
Proof.
  intros Hr Hn Hn'. cbv zeta. unfold idemip_ip6_select_dest_sort. rewrite Hr. cbn [negb]. cbv zeta. fold (sources_filled w).
  destruct (filled_spec w Hn Hn') as (ds & os & E & Hos & Hds). rewrite E. set (n := c_dests (w_ctx w)) in *. set (w1 := w <| w_dests := ds |> <| w_order := os |>).
  change (w_order w1) with os. set (order := fold_left _ _ os). set (w2 := w1 <| w_order := order |> <| w_ctx := _ |>).
  assert (∀ i, 0 ≤ i < n → tget os i = i) as Hid by (intros i Hi; by apply Hds).
  assert (places os n) as Hp by (split; [intros p Hp; by rewrite Hid|intros p q Hp Hq; by rewrite !Hid|intros x Hx; exists x; auto]).

  destruct (passes_places w1 n os ltac:(lia) Hp) as [Hol Hop]. change (fold_left _ _ os) with order in Hol, Hop.
  split; [done|]. split; [intros i Hi; apply (Hds i Hi)|]. split; [exact Hop|]. split.
  - intros Hrk p q Hpq Hq. assert (∀ i, dest_rank (put_io w2 ((w_io w) <| io_status := IDEMIP_OK |>)) i = dest_rank w1 i) as Hsame by done.
    assert (∀ i j, 0 ≤ i < n → 0 ≤ j < n → ranked w1 i j) as Hrk1 by (intros i j Hi Hj; destruct (Hrk i j Hi Hj); by split).
    destruct (sort_passes w1 n ltac:(lia) Hrk1 os Hp ltac:(lia)) as [_ Hs]. exact (Hs p q Hpq Hq).
  - intros a Ha. unfold idemip_ip6_select_dest_at. cbv zeta. change (c_ready _) with (c_ready (w_ctx w)). rewrite Hr. cbn [negb orb]. change (c_sorted _) with true. cbn [negb orb].
    change (c_dests _) with n. match goal with |- context [qa_index (query_args ?x)] => change (qa_index (query_args x)) with (qa_index a) end. rewrite (proj2 (Z.leb_gt _ _)) by lia. split; [by case_match|]. split; [by case_match|]. by case_match.
Qed.
End Build.

(** ** Examples *)
Definition ip6 (lead tail : list Z) : list Z := lead ++ replicate (16 - length lead - length tail) 0 ++ tail.
Definition ip4 (a b c d : Z) : list Z := ip6 [] [0xFF; 0xFF; a; b; c; d].
Definition src (addr : list Z) (home care : bool) : Ip6SelectSourceArgs := mkSourceArgs (Some addr) 0 1 false false home care false.
Definition dst (addr : list Z) (unreachable : bool) : Ip6SelectDestArgs := mkDestArgs (Some addr) 0 1 unreachable false.
Definition no_query : Ip6SelectQueryArgs := mkQueryArgs None None 0 0 0.
Definition io0 : Ip6SelectIo :=
  mkIo (src [] false false) (dst [] false) (mkPolicyArgs None 0 0 0 0) no_query IDEMIP_OK None None 0 0 0 0 0 0 0 0 0 0 0 0 0 false false.
(** A cleared borrow of four candidates, four destinations and sixteen rows, with candidates and destinations added. *)
Definition table (ss : list Ip6SelectSourceArgs) (ds : list Ip6SelectDestArgs) : Work :=
  let w := idemip_ip6_select_clear 4 4 16 (mkWork io0 (mkCtx 0 0 0 false false) [] [] [] []) in
  let w := fold_left (λ w a, idemip_ip6_select_source_add 8 false 4 (put_io w ((w_io w) <| source_args := a |>))) ss w in
  fold_left (λ w a, idemip_ip6_select_dest_add 4 (put_io w ((w_io w) <| dest_args := a |>))) ds w.
Definition sorted (w : Work) : Work := idemip_ip6_select_dest_sort 8 false 4 16 w.

(** RFC 6724 section 10.2's first example: a global destination before an IPv4 one whose only candidate is link-local. *)
Definition example_10_2 : Work :=
  table [src (ip6 [0x20; 0x01; 0x0D; 0xB8; 0; 1] [2]) false false; src (ip6 [0xFE; 0x80] [1]) false false; src (ip4 169 254 13 78) false false]
    [dst (ip4 198 51 100 121) false; dst (ip6 [0x20; 0x01; 0x0D; 0xB8; 0; 1] [1]) false].
Definition example_query : Work := put_io example_10_2 ((w_io example_10_2) <| query_args := mkQueryArgs (Some (ip6 [0x20; 0x01; 0x0D; 0xB8; 0; 1] [1])) None 0 1 0 |>).

Lemma range4 (P : Z → Prop) : P 0 → P 1 → P 2 → P 3 → ∀ i, 0 ≤ i < 4 → P i.
Proof. intros. assert (i = 0 ∨ i = 1 ∨ i = 2 ∨ i = 3) as [-> |[-> |[-> | ->]]] by lia; done. Qed.
Lemma example_no_split d : no_split 8 false 4 example_query d 0 1.
Proof. intros i j Hi Hj _ _. revert i Hi. apply range4; revert j Hj; apply range4; by vm_compute. Qed.
Lemma example_ranked i j : 0 ≤ i < 2 → 0 ≤ j < 2 → ranked 8 false 16 (sorted example_10_2) i j.
Proof.
  intros Hi Hj. assert (i = 0 ∨ i = 1) as [-> | ->] by lia; assert (j = 0 ∨ j = 1) as [-> | ->] by lia; split; vm_compute; done.
Qed.


Lemma ip6_destinations_ordered_witness : let w' := sorted example_10_2 in
  io_status (w_io w') = IDEMIP_OK ∧ take 2 (w_order w') = [1; 0] ∧ lex (dest_rank 8 false 16 w' 1) (dest_rank 8 false 16 w' 0) = 1.
Proof.
  assert (c_dests (w_ctx example_10_2) = 2) as En by (vm_compute; reflexivity).
  assert (tget (w_order (sorted example_10_2)) 0 = 1 ∧ tget (w_order (sorted example_10_2)) 1 = 0) as [E0 E1] by (split; vm_compute; reflexivity).
  destruct (ip6_destinations_ordered 8 false 4 16 example_10_2 ltac:(vm_compute; reflexivity) ltac:(vm_compute; split; discriminate) ltac:(vm_compute; discriminate)) as (Hs & _ & _ & Ho & _).
  fold (sorted example_10_2) in Hs, Ho. rewrite En in Ho. specialize (Ho example_ranked 0 1 ltac:(lia) ltac:(lia)). rewrite E0, E1 in Ho.
  cbv zeta. split; [exact Hs|]. split; [clear; vm_compute; reflexivity|exact Ho].
Defined.

(** Three candidates, one just a home address, one neither and one just a care-of address, each preferred over
    the next: there is no front, and which is selected depends on the order they were added in. *)
Definition cycle_d : list Z := ip6 [0x20; 0x01; 0x0D; 0xB8; 0xFF] [1].
Definition candidate (x : Z) (home care : bool) : Ip6SelectSourceArgs := src (ip6 [0x20; 0x01; 0x0D; 0xB8; x] [2]) home care.
Definition cycle_sources : list Ip6SelectSourceArgs := [candidate 0x00 true false; candidate 0x80 false false; candidate 0xC0 false true].
Example source_cycle : let w := table cycle_sources [] in let cmp i j := (ip6_select_cmp_source 8 false 16 w i j cycle_d 0 1).1 in
  cmp 0 2 = 1 ∧ cmp 2 1 = 1 ∧ cmp 1 0 = 1.
Proof. by vm_compute. Qed.
Example source_cycle_order : let pick ss := s_home (SOURCE_AT (table ss []) (ip6_select_best_source 8 false 4 16 (table ss []) cycle_d 0 1).1) in
  pick cycle_sources = false ∧ pick (reverse cycle_sources) = true.
Proof. by vm_compute. Qed.

(** Two unreachable destinations and one no candidate can reach: rule 1 leaves the three together, rules 2 to 5
    decide only between the first two, and each is preferred over the next. *)
Example destination_cycle :
  let w := sorted (table [src (ip6 [0x20; 0x02] [1]) false false] [dst (ip6 [0x20; 0x02] [2]) true; dst (ip6 [0x20; 0x01; 0x0D; 0xB8] [1]) true; dst (ip4 192 0 2 1) false]) in
  let cmp i j := (ip6_select_cmp_dest 8 false 16 w i j).1 in cmp 0 1 = 1 ∧ cmp 1 2 = 1 ∧ cmp 2 0 = 1.
Proof. by vm_compute. Qed.
End Ip6SelectThms.
