(* ===== verification/Bucket.v ===== *)
(** * The token bucket of the ICMP errors (src/icmp/icmp_in.c, src/icmp/icmp6_in.c)

    The two refills are one text over two sets of constants.  A bucket is the tokens left and the millisecond
    the last one landed; [refill] is a function of both and of the clock. *)
From S2P Require Import Prelude.

Module Bucket.
Section Build.
Variables (BUCKET TOKEN_MS : Z).

Definition BUCKET_MS : Z := u32 (BUCKET * TOKEN_MS).

Fixpoint refill_loop (fuel : nat) (elapsed tokens refill_ms : Z) : Z * Z :=
  match fuel with
  | O => (tokens, refill_ms)
  | S fuel =>
      if (TOKEN_MS <=? elapsed) && (tokens <? BUCKET) then refill_loop fuel (u32 (elapsed - TOKEN_MS)) (u8 (tokens + 1)) (u32 (refill_ms + TOKEN_MS))
      else (tokens, refill_ms)
  end.

Definition refill (tokens refill_ms now_ms : Z) : Z * Z :=
  if BUCKET <=? tokens then (BUCKET, now_ms)
  else
  let elapsed := u32 (now_ms - refill_ms) in
  if BUCKET_MS <=? elapsed then (BUCKET, now_ms) else refill_loop (Z.to_nat BUCKET) elapsed tokens refill_ms.

(** A message: refill, then a token spent if there is one. *)
Definition spend (tokens refill_ms now_ms : Z) : bool * (Z * Z) :=
  let '(tokens, refill_ms) := refill tokens refill_ms now_ms in
  if tokens =? 0 then (false, (tokens, refill_ms)) else (true, (u8 (tokens - 1), refill_ms)).

(** ** What a bucket lets through *)
Context (HB : 1 ≤ BUCKET ≤ 255) (HT : 1 ≤ TOKEN_MS) (HW : BUCKET * TOKEN_MS < 4294967296).

(** [sent] messages since [t0] with the bucket as a refill left it by [t]: the time from [t0] to where it
    stands has paid for them and for the tokens left beyond the first burst. *)
Definition paid (t0 t sent tokens refill_ms : Z) : Prop :=
  0 ≤ tokens ≤ BUCKET ∧ ∃ r, t0 ≤ r ≤ t ∧ refill_ms = u32 r ∧ (sent + tokens) * TOKEN_MS ≤ BUCKET * TOKEN_MS + (r - t0).
(** Or full, as a clear leaves it, with nothing sent. *)
Definition stands (t0 t sent tokens refill_ms : Z) : Prop :=
  (sent = 0 ∧ tokens = BUCKET ∧ t0 ≤ t) ∨ paid t0 t sent tokens refill_ms.

Lemma refill_loop_paid fuel t0 t sent elapsed tokens r :
  t0 ≤ r → 0 ≤ tokens ≤ BUCKET → 0 ≤ elapsed → r + elapsed ≤ t → elapsed < 4294967296 → (sent + tokens) * TOKEN_MS ≤ BUCKET * TOKEN_MS + (r - t0) →
  let '(tokens', refill_ms') := refill_loop fuel elapsed tokens (u32 r) in
  paid t0 t sent tokens' refill_ms' ∧ tokens ≤ tokens' ∧ ((0 < fuel)%nat → TOKEN_MS ≤ elapsed → tokens < BUCKET → tokens < tokens').
Proof using HB HT.
  revert elapsed tokens r. induction fuel as [|fuel IH]; intros elapsed tokens r Hr Ht He Hre Hew Hs; cbn [refill_loop].
  { split_and!; [split; [done|]|lia|lia]. exists r. split_and!; [lia|lia|done|done]. }
  destruct (Z.leb_spec TOKEN_MS elapsed) as [Hte|Hte], (Z.ltb_spec tokens BUCKET) as [Htb|Htb]; cbn [andb];
    try (split_and!; [split; [done|]|lia|lia]; exists r; split_and!; [lia|lia|done|done]).
  assert (u32 (elapsed - TOKEN_MS) = elapsed - TOKEN_MS) as -> by (apply u32_id; unfold is_u32; lia).
  assert (u8 (tokens + 1) = tokens + 1) as -> by (apply u8_id; unfold is_u8; lia). rewrite u32_add_l.
  specialize (IH (elapsed - TOKEN_MS) (tokens + 1) (r + TOKEN_MS) ltac:(lia) ltac:(lia) ltac:(lia) ltac:(lia) ltac:(lia) ltac:(lia)).
  destruct (refill_loop _ _ _ _). destruct IH as (?&?&_). split_and!; [done|lia|lia].
Qed.

(** A refill gives nothing the clock has not paid for, and something once an interval has gone by. *)
Lemma refill_paid t0 t t' sent tokens refill_ms : stands t0 t sent tokens refill_ms → t ≤ t' →
  let '(tokens', refill_ms') := refill tokens refill_ms (u32 t') in
  paid t0 t' sent tokens' refill_ms' ∧ tokens ≤ tokens' ∧ (TOKEN_MS ≤ u32 (u32 t' - refill_ms) → 0 < tokens').
Proof using HB HT HW.
  intros Hst Htt. unfold refill. destruct (Z.leb_spec BUCKET tokens) as [Hf|Hf].
  { assert (tokens ≤ BUCKET ∧ t0 ≤ t' ∧ (sent + BUCKET) * TOKEN_MS ≤ BUCKET * TOKEN_MS + (t' - t0)) as (?&?&?).
    { destruct Hst as [(->&->&?)|(Ht&r&Hr&He&Hs)]; [lia|]. assert (tokens = BUCKET) as -> by lia. lia. }
    split_and!; [|lia|lia]. split; [lia|]. exists t'. split_and!; [lia|lia|done|lia]. }
  destruct Hst as [(->&->&?)|(Ht&r&Hr&->&Hs)]; [lia|].
  assert (u32 (u32 t' - u32 r) ≤ t' - r ∧ 0 ≤ u32 (u32 t' - u32 r) < 4294967296) as [Hel Hel2] by wrap.
  unfold BUCKET_MS. rewrite (u32_id (BUCKET * _)) by (unfold is_u32; nia). destruct (Z.leb_spec (BUCKET * TOKEN_MS) (u32 (u32 t' - u32 r))).
  { split_and!; [|lia|lia]. split; [lia|]. exists t'. split_and!; [lia|lia|done|nia]. }
  pose proof (refill_loop_paid (Z.to_nat BUCKET) t0 t' sent (u32 (u32 t' - u32 r)) tokens r ltac:(lia) Ht ltac:(lia) ltac:(lia) ltac:(lia) Hs) as Hl.
  destruct (refill_loop _ _ _ _). destruct Hl as (?&?&Hg). split_and!; [done|lia|]. intros. specialize (Hg ltac:(lia) ltac:(lia) ltac:(lia)). lia.
Qed.

Lemma spend_paid t0 t t' sent tokens refill_ms : stands t0 t sent tokens refill_ms → t ≤ t' →
  let '(ok, (tokens', refill_ms')) := spend tokens refill_ms (u32 t') in
  paid t0 t' (if ok then sent + 1 else sent) tokens' refill_ms' ∧ (TOKEN_MS ≤ u32 (u32 t' - refill_ms) → ok = true).
Proof using HB HT HW.
  intros Hp Ht. unfold spend. pose proof (refill_paid _ _ _ _ _ _ Hp Ht) as H. destruct (refill _ _ _) as [k r']. destruct H as (H&_&Hg).
  destruct (Z.eqb_spec k 0) as [->|]; [split; [done|lia]|]. destruct H as (Hk&r&Hr&He&Hs). rewrite u8_id by (unfold is_u8; lia).
  split; [|done]. split; [lia|]. exists r. split_and!; [lia|lia|done|lia].
Qed.

(** What has been sent by [t] is a burst and what the time since [t0] pays for. *)
Lemma paid_bound t0 t sent tokens refill_ms : paid t0 t sent tokens refill_ms → sent ≤ BUCKET + (t - t0) / TOKEN_MS.
Proof using HB HT HW.
  intros (Hk&r&Hr&_&Hs). assert (sent - BUCKET ≤ (t - t0) / TOKEN_MS); [|lia]. apply Z.div_le_lower_bound; nia.
Qed.

(** An empty bucket stays as it is until an interval has gone by, and then has a token. *)
Lemma refill_waits tokens refill_ms now_ms : 0 ≤ tokens ≤ BUCKET → is_u32 refill_ms →
  let '(tokens', refill_ms') := refill tokens refill_ms now_ms in
  tokens ≤ tokens' ≤ BUCKET ∧ (tokens' = 0 → refill_ms' = refill_ms ∧ u32 (now_ms - refill_ms) < TOKEN_MS) ∧ (TOKEN_MS ≤ u32 (now_ms - refill_ms) → 0 < tokens').
Proof using HB HT HW.
  intros Ht Hr. unfold refill. destruct (Z.leb_spec BUCKET tokens); [split_and!; lia|].
  destruct (Z.leb_spec BUCKET_MS (u32 (now_ms - refill_ms))); [split_and!; lia|].
  pose proof (u32_range (now_ms - refill_ms)) as Hu. unfold is_u32 in Hu.
  pose proof (refill_loop_paid (Z.to_nat BUCKET) refill_ms (refill_ms + u32 (now_ms - refill_ms)) (BUCKET - tokens) (u32 (now_ms - refill_ms)) tokens refill_ms
    ltac:(lia) Ht ltac:(lia) ltac:(lia) ltac:(lia) ltac:(lia)) as Hl. rewrite (u32_id refill_ms) in Hl by done.
  destruct (Z.to_nat BUCKET) as [|fuel] eqn:Ef; [lia|]. cbn [refill_loop] in *.
  destruct (Z.leb_spec TOKEN_MS (u32 (now_ms - refill_ms))); cbn [andb] in *; [|split_and!; lia].
  destruct (Z.ltb_spec tokens BUCKET); [|lia]. destruct (refill_loop _ _ _ _). destruct Hl as ((?&_)&?&Hg). specialize (Hg ltac:(lia) ltac:(lia) ltac:(lia)). split_and!; lia.
Qed.
End Build.
End Bucket.
