(* ===== verification/Ethernet.v ===== *)
(** * The Ethernet frame (src/ethernet/ethernet.c, src/ethernet/vlan.c)

    RFC 894's header, the RFC 1042 encapsulation, and the C-Tag of RFC 6325.  A frame is its octets from the
    destination address on; the data field a call reports is the octets from there on. *)
From S2P Require Import Prelude Base Wire.

Module Ethernet.
Import Endian Wire.

Definition IDEMIP_MAC_LEN : Z := 6.
Definition IDEMIP_ETH_HDR_LEN : Z := 14.
Definition IDEMIP_ETH_OFF_DST : Z := 0.
Definition IDEMIP_ETH_OFF_SRC : Z := 6.
Definition IDEMIP_ETH_OFF_TYPE : Z := 12.
Definition IDEMIP_ETH_OFF_PAYLOAD : Z := 14.
Definition IDEMIP_ETH_TYPE_LEN : Z := 2.
Definition IDEMIP_ETH_MIN_PAYLOAD : Z := 46.
Definition IDEMIP_ETH_MAX_PAYLOAD : Z := 1500.
Definition IDEMIP_ETH_BROADCAST_OCTET : Z := 0xFF.
Definition IDEMIP_LLC_SNAP_LEN : Z := 8.
Definition IDEMIP_LLC_OFF_DSAP : Z := 0.
Definition IDEMIP_LLC_OFF_SSAP : Z := 1.
Definition IDEMIP_LLC_OFF_CONTROL : Z := 2.
Definition IDEMIP_LLC_OFF_ORG : Z := 3.
Definition IDEMIP_LLC_OFF_TYPE : Z := 6.
Definition IDEMIP_LLC_SAP_SNAP : Z := 170.
Definition IDEMIP_LLC_CONTROL_UI : Z := 3.

(** ** Reading a frame *)
Definition at_off (h : list Z) (off : Z) : list Z := drop (Z.to_nat off) h.
Definition eth_dst (h : list Z) : list Z := take (Z.to_nat IDEMIP_MAC_LEN) (at_off h IDEMIP_ETH_OFF_DST).
Definition eth_src (h : list Z) : list Z := take (Z.to_nat IDEMIP_MAC_LEN) (at_off h IDEMIP_ETH_OFF_SRC).
Definition eth_type (h : list Z) : Z := rd16 h IDEMIP_ETH_OFF_TYPE.
Definition eth_payload (h : list Z) : list Z := at_off h IDEMIP_ETH_OFF_PAYLOAD.
Definition eth_is_broadcast (m : list Z) : bool :=
  Z.land (Z.land (Z.land (Z.land (Z.land (tget m 0) (tget m 1)) (tget m 2)) (tget m 3)) (tget m 4)) (tget m 5) =? IDEMIP_ETH_BROADCAST_OCTET.
Definition llc_is_snap (p : list Z) : bool :=
  (tget p IDEMIP_LLC_OFF_DSAP =? IDEMIP_LLC_SAP_SNAP) && (tget p IDEMIP_LLC_OFF_SSAP =? IDEMIP_LLC_SAP_SNAP) &&
  (tget p IDEMIP_LLC_OFF_CONTROL =? IDEMIP_LLC_CONTROL_UI) && (tget p IDEMIP_LLC_OFF_ORG =? 0) &&
  (tget p (IDEMIP_LLC_OFF_ORG + 1) =? 0) && (tget p (IDEMIP_LLC_OFF_ORG + 2) =? 0).

(** ** Building one *)
Definition eth_build_hdr (w dst src : list Z) (type : Z) : list Z :=
  let w := memcpy w IDEMIP_ETH_OFF_DST dst IDEMIP_MAC_LEN in
  let w := memcpy w IDEMIP_ETH_OFF_SRC src IDEMIP_MAC_LEN in
  wr16 w IDEMIP_ETH_OFF_TYPE type.
Definition eth_padded_payload (payload_len : Z) : Z :=
  if payload_len <? IDEMIP_ETH_MIN_PAYLOAD then IDEMIP_ETH_MIN_PAYLOAD else payload_len.
Definition eth_frame_len (payload_len : Z) : Z := IDEMIP_ETH_HDR_LEN + eth_padded_payload payload_len.
(** The region with its pad zeroed, and the length of its data field. *)
Definition eth_pad (w : list Z) (payload_len : Z) : list Z * Z :=
  let padded := eth_padded_payload payload_len in
  (memset w (IDEMIP_ETH_OFF_PAYLOAD + payload_len) 0 (padded - payload_len), padded).
End Ethernet.

Module Vlan.
Import Endian Ethernet.

Definition IDEMIP_VLAN_TPID : Z := 0x8100.
Definition IDEMIP_VLAN_TAG_LEN : Z := 4.
Definition IDEMIP_VLAN_OFF_TPID : Z := IDEMIP_ETH_OFF_TYPE.
Definition IDEMIP_VLAN_OFF_TCI : Z := IDEMIP_VLAN_OFF_TPID + IDEMIP_ETH_TYPE_LEN.
Definition IDEMIP_VLAN_OFF_TYPE : Z := IDEMIP_VLAN_OFF_TCI + IDEMIP_ETH_TYPE_LEN.
Definition IDEMIP_VLAN_OFF_PAYLOAD : Z := IDEMIP_VLAN_OFF_TYPE + IDEMIP_ETH_TYPE_LEN.
Definition IDEMIP_VLAN_HDR_LEN : Z := IDEMIP_ETH_HDR_LEN + IDEMIP_VLAN_TAG_LEN.
Definition IDEMIP_VLAN_PCP_SHIFT : Z := 13.
Definition IDEMIP_VLAN_PCP_MASK : Z := 0x07.
Definition IDEMIP_VLAN_DEI_SHIFT : Z := 12.
Definition IDEMIP_VLAN_DEI_MASK : Z := 0x01.
Definition IDEMIP_VLAN_VID_MASK : Z := 0x0FFF.
Definition IDEMIP_VLAN_PCP_MAX : Z := 7.
Definition IDEMIP_VLAN_VID_NULL : Z := 0.
Definition IDEMIP_VLAN_VID_RESERVED : Z := 0x0FFF.

(** [dei] is an [idemip_bool], an octet; a frame is [None] for a null pointer. *)
Record VlanParseArgs := mkParseArgs { pa_frame : option (list Z); pa_len : Z }.
Record VlanBuildArgs := mkBuildArgs { ba_frame : option (list Z); ba_type : Z }.
#[export] Instance VlanBuildArgs_eta : Eta VlanBuildArgs := fun r => mkBuildArgs (ba_frame r) (ba_type r).
Record VlanTagArgs := mkTagArgs { ta_vid : Z; ta_pcp : Z; ta_dei : Z }.
Record VlanIo := mkIo {
  parse_args : VlanParseArgs; build_args : VlanBuildArgs; tag_args : VlanTagArgs; tci_args : Z;
  io_payload : option (list Z); io_payload_off : Z; io_status : IdemIpStatus; io_tci : Z; io_type : Z; io_vid : Z; io_pcp : Z; io_dei : Z;
  io_tagged : bool; io_llc : bool; io_vid_null : bool; io_vid_reserved : bool }.
#[export] Instance VlanIo_eta : Eta VlanIo := fun r =>
  mkIo (parse_args r) (build_args r) (tag_args r) (tci_args r) (io_payload r) (io_payload_off r) (io_status r) (io_tci r) (io_type r)
    (io_vid r) (io_pcp r) (io_dei r) (io_tagged r) (io_llc r) (io_vid_null r) (io_vid_reserved r).
Record Work := mkWork { w_io : VlanIo; w_ready : bool }.
#[export] Instance Work_eta : Eta Work := fun r => mkWork (w_io r) (w_ready r).
Definition put_io (w : Work) (io : VlanIo) : Work := w <| w_io := io |>.

Definition vlan_split_tci (io : VlanIo) (tci : Z) : VlanIo :=
  let vid := u16 (Z.land tci IDEMIP_VLAN_VID_MASK) in
  io <| io_tci := tci |>
     <| io_pcp := u8 (Z.land (Z.shiftr tci IDEMIP_VLAN_PCP_SHIFT) IDEMIP_VLAN_PCP_MASK) |>
     <| io_dei := u8 (Z.land (Z.shiftr tci IDEMIP_VLAN_DEI_SHIFT) IDEMIP_VLAN_DEI_MASK) |>
     <| io_vid := vid |>
     <| io_vid_null := vid =? IDEMIP_VLAN_VID_NULL |>
     <| io_vid_reserved := vid =? IDEMIP_VLAN_VID_RESERVED |>.

Definition vlan_pack_tci (tag : VlanTagArgs) : Z :=
  u16 (Z.lor (Z.lor (Z.shiftl (u16 (Z.land (ta_pcp tag) IDEMIP_VLAN_PCP_MASK)) IDEMIP_VLAN_PCP_SHIFT)
                    (Z.shiftl (u16 (Z.land (ta_dei tag) IDEMIP_VLAN_DEI_MASK)) IDEMIP_VLAN_DEI_SHIFT))
             (u16 (Z.land (ta_vid tag) IDEMIP_VLAN_VID_MASK))).

Definition vlan_tag_writable (tag : VlanTagArgs) : bool :=
  if (IDEMIP_VLAN_PCP_MAX <? ta_pcp tag) || (IDEMIP_VLAN_VID_MASK <? ta_vid tag) then false
  else if ta_vid tag =? IDEMIP_VLAN_VID_RESERVED then false else true.

Definition vlan_reset (io : VlanIo) : VlanIo :=
  io <| io_status := IDEMIP_ERR |> <| io_payload := None |> <| io_payload_off := 0 |> <| io_llc := false |> <| io_tci := 0 |> <| io_type := 0 |>
     <| io_vid := 0 |> <| io_pcp := 0 |> <| io_dei := 0 |> <| io_tagged := false |> <| io_vid_null := false |> <| io_vid_reserved := false |>.

Definition idemip_vlan_clear (w : Work) : Work := w <| w_ready := true |> <| w_io := (w_io w) <| io_status := IDEMIP_OK |> |>.

(** The data field found at an offset. *)
Definition found (io : VlanIo) (frame : list Z) (type off : Z) : VlanIo :=
  io <| io_type := type |> <| io_payload_off := off |> <| io_payload := Some (at_off frame off) |> <| io_status := IDEMIP_OK |>.

Definition idemip_vlan_parse (w : Work) : Work :=
  let io := vlan_reset (w_io w) in
  let len := pa_len (parse_args io) in
  match pa_frame (parse_args io) with
  | None => put_io w io
  | Some frame =>
      if negb (w_ready w) || (len <? IDEMIP_ETH_HDR_LEN) then put_io w io
      else
      let tpid := rd16 frame IDEMIP_VLAN_OFF_TPID in
      if negb (tpid =? IDEMIP_VLAN_TPID) then
        if tpid <=? IDEMIP_ETH_MAX_PAYLOAD then
          let need := IDEMIP_ETH_HDR_LEN + IDEMIP_LLC_SNAP_LEN in
          if (len <? need) || negb (llc_is_snap (at_off frame IDEMIP_ETH_OFF_PAYLOAD)) then put_io w io
          else put_io w ((found io frame (rd16 frame (IDEMIP_ETH_OFF_PAYLOAD + IDEMIP_LLC_OFF_TYPE)) (u16 need)) <| io_llc := true |>)
        else put_io w (found io frame tpid IDEMIP_ETH_OFF_PAYLOAD)
      else if len <? IDEMIP_VLAN_HDR_LEN then put_io w io
      else
      let io := (vlan_split_tci io (rd16 frame IDEMIP_VLAN_OFF_TCI)) <| io_tagged := true |> in
      let type := rd16 frame IDEMIP_VLAN_OFF_TYPE in
      if type <=? IDEMIP_ETH_MAX_PAYLOAD then
        let need := IDEMIP_VLAN_OFF_PAYLOAD + IDEMIP_LLC_SNAP_LEN in
        if (len <? need) || negb (llc_is_snap (at_off frame IDEMIP_VLAN_OFF_PAYLOAD)) then put_io w (io <| io_tagged := false |>)
        else put_io w ((found io frame (rd16 frame (IDEMIP_VLAN_OFF_PAYLOAD + IDEMIP_LLC_OFF_TYPE)) (u16 need)) <| io_llc := true |>)
      else put_io w (found io frame type IDEMIP_VLAN_OFF_PAYLOAD)
  end.

Definition idemip_vlan_build (w : Work) : Work :=
  let type := ba_type (build_args (w_io w)) in
  let io := vlan_reset (w_io w) in
  match ba_frame (build_args io) with
  | None => put_io w io
  | Some frame =>
      if negb (w_ready w) || negb (vlan_tag_writable (tag_args io)) then put_io w io
      else
      let tci := vlan_pack_tci (tag_args io) in
      let frame := wr16 frame IDEMIP_VLAN_OFF_TPID IDEMIP_VLAN_TPID in
      let frame := wr16 frame IDEMIP_VLAN_OFF_TCI tci in
      let frame := wr16 frame IDEMIP_VLAN_OFF_TYPE type in
      let io := io <| build_args := (build_args io) <| ba_frame := Some frame |> |> in
      let io := vlan_split_tci io tci in
      put_io w ((found io frame type IDEMIP_VLAN_OFF_PAYLOAD) <| io_tagged := true |>)
  end.

Definition idemip_vlan_pack (w : Work) : Work :=
  let io := vlan_reset (w_io w) in
  if negb (w_ready w) || negb (vlan_tag_writable (tag_args io)) then put_io w io
  else put_io w ((vlan_split_tci io (vlan_pack_tci (tag_args io))) <| io_status := IDEMIP_OK |>).

Definition idemip_vlan_split (w : Work) : Work :=
  let tci := tci_args (w_io w) in
  let io := vlan_reset (w_io w) in
  if negb (w_ready w) then put_io w io else put_io w ((vlan_split_tci io tci) <| io_status := IDEMIP_OK |>).
End Vlan.

(** * Tagged frames: what a build writes a parse reads, and what a parse reads

    The C-Tag round trip through a frame and through a MAC that keeps the tag to itself, and the octets a
    parse looks at. *)
Module EthernetThms.
Import Endian Wire Look Ethernet Vlan.

(** ** The Tag Control Information as arithmetic *)
Definition tag_value (tag : VlanTagArgs) : Z := ta_pcp tag * 8192 + ta_dei tag mod 2 * 4096 + ta_vid tag.
Definition tag_ok (tag : VlanTagArgs) : Prop := ta_pcp tag ≤ 7 ∧ ta_vid tag < 4095.
Definition tag_typed (tag : VlanTagArgs) : Prop := is_u8 (ta_pcp tag) ∧ is_u8 (ta_dei tag) ∧ is_u16 (ta_vid tag).

Lemma writable_iff tag : vlan_tag_writable tag = true ↔ tag_ok tag.
Proof.
  unfold vlan_tag_writable, tag_ok, IDEMIP_VLAN_PCP_MAX, IDEMIP_VLAN_VID_MASK, IDEMIP_VLAN_VID_RESERVED.
  repeat split_if; try (destruct_or?); split; intros; bool_prop; try done; lia.
Qed.

Lemma pack_value tag : tag_typed tag → ta_pcp tag ≤ 7 → ta_vid tag ≤ 4095 → vlan_pack_tci tag = tag_value tag ∧ is_u16 (tag_value tag).
Proof.
  intros (Hp&Hd&Hv) Hp7 Hv12. unfold vlan_pack_tci, tag_value.
  unfold IDEMIP_VLAN_PCP_MASK, IDEMIP_VLAN_DEI_MASK, IDEMIP_VLAN_VID_MASK, IDEMIP_VLAN_PCP_SHIFT, IDEMIP_VLAN_DEI_SHIFT.
  change 0x07 with (Z.ones 3). change 0x01 with (Z.ones 1). change 0x0FFF with (Z.ones 12). rewrite !Z.land_ones by lia.
  change (2 ^ 3) with 8. change (2 ^ 1) with 2. change (2 ^ 12) with 4096.
  rewrite !(u16_id (_ mod _)) by wrap. rewrite !(Z.mod_small (ta_pcp tag)), !(Z.mod_small (ta_vid tag)) by wrap.
  rewrite <- Z.lor_assoc, (lor_shiftl (ta_dei tag mod 2)) by (change (2 ^ 12) with 4096; wrap).
  rewrite lor_shiftl by (change (2 ^ 13) with 8192; change (2 ^ 12) with 4096; wrap).
  change (2 ^ 13) with 8192. change (2 ^ 12) with 4096. split; [rewrite u16_id|]; wrap.
Qed.

Lemma split_fields io tci : is_u16 tci →
  let r := vlan_split_tci io tci in
  io_tci r = tci ∧ io_pcp r = tci / 8192 ∧ io_dei r = tci / 4096 mod 2 ∧ io_vid r = tci mod 4096 ∧
  io_vid_null r = (tci mod 4096 =? 0) ∧ io_vid_reserved r = (tci mod 4096 =? 4095).
Proof.
  intros Ht r. unfold r, vlan_split_tci. split; [done|].
  assert (u16 (Z.land tci IDEMIP_VLAN_VID_MASK) = tci mod 4096) as Hv.
  { unfold IDEMIP_VLAN_VID_MASK. change 0x0FFF with (Z.ones 12). rewrite Z.land_ones by lia. change (2 ^ 12) with 4096. wrap. }
  assert (u8 (Z.land (Z.shiftr tci IDEMIP_VLAN_PCP_SHIFT) IDEMIP_VLAN_PCP_MASK) = tci / 8192) as Hp.
  { unfold IDEMIP_VLAN_PCP_MASK, IDEMIP_VLAN_PCP_SHIFT. change 0x07 with (Z.ones 3). rewrite Z.land_ones, Z.shiftr_div_pow2 by lia.
    change (2 ^ 3) with 8. change (2 ^ 13) with 8192. wrap. }
  assert (u8 (Z.land (Z.shiftr tci IDEMIP_VLAN_DEI_SHIFT) IDEMIP_VLAN_DEI_MASK) = tci / 4096 mod 2) as Hd.
  { unfold IDEMIP_VLAN_DEI_MASK, IDEMIP_VLAN_DEI_SHIFT. change 0x01 with (Z.ones 1). rewrite Z.land_ones, Z.shiftr_div_pow2 by lia.
    change (2 ^ 1) with 2. change (2 ^ 12) with 4096. wrap. }
  split_and!; cbn; by rewrite ?Hp, ?Hd, ?Hv.
Qed.

Lemma split_tag io tag : tag_typed tag → tag_ok tag →
  let r := vlan_split_tci io (tag_value tag) in
  io_pcp r = ta_pcp tag ∧ io_dei r = ta_dei tag mod 2 ∧ io_vid r = ta_vid tag ∧ io_vid_null r = (ta_vid tag =? 0) ∧ io_vid_reserved r = false.
Proof.
  intros Ht Hok r. subst r. pose proof Ht as (?&?&?). pose proof Hok as [? ?]. destruct (pack_value tag) as [_ Hv]; [done|lia|lia|].
  pose proof (split_fields io _ Hv) as (_&->&->&->&->&->). clear Hv. unfold tag_value.
  assert ((ta_pcp tag * 8192 + ta_dei tag mod 2 * 4096 + ta_vid tag) mod 4096 = ta_vid tag) as -> by wrap.
  split_and!; [wrap|wrap|done|done|]. apply Z.eqb_neq. lia.
Qed.

(** ** Looking only so far into a frame *)
Lemma agree_snap n f g off : agree n f g → 0 ≤ off → off + 8 ≤ n → llc_is_snap (at_off f off) = llc_is_snap (at_off g off).
Proof.
  intros Ha H0 Hn. unfold llc_is_snap, at_off.
  unfold IDEMIP_LLC_OFF_DSAP, IDEMIP_LLC_OFF_SSAP, IDEMIP_LLC_OFF_CONTROL, IDEMIP_LLC_OFF_ORG.
  rewrite !tget_drop by lia. by rewrite !(agree_get n f g) by (done || lia).
Qed.
Lemma agree_tail n f g off : agree n f g → 0 ≤ off ≤ n → take (Z.to_nat (n - off)) (at_off f off) = take (Z.to_nat (n - off)) (at_off g off).
Proof. intros Ha Ho. unfold at_off. rewrite !take_drop_commute. replace (Z.to_nat off + Z.to_nat (n - off))%nat with (Z.to_nat n) by lia. by rewrite Ha. Qed.

(** ** What a parse reports, the frame apart *)
Definition report (io : VlanIo) : IdemIpStatus * Z * Z * Z * Z * Z * Z * (bool * bool * bool * bool) :=
  (io_status io, io_payload_off io, io_tci io, io_type io, io_vid io, io_pcp io, io_dei io, (io_tagged io, io_llc io, io_vid_null io, io_vid_reserved io)).

(** The octets from the data field to the end of the frame. *)
Definition data (io : VlanIo) (len : Z) : option (list Z) := take (Z.to_nat (len - io_payload_off io)) <$> io_payload io.
Definition on_frame (w : Work) (frame : list Z) (len : Z) : Work := put_io w ((w_io w) <| parse_args := mkParseArgs (Some frame) len |>).

Lemma at_12 : IDEMIP_VLAN_OFF_TPID = 12. Proof. done. Qed.
Lemma at_14 : IDEMIP_VLAN_OFF_TCI = 14 ∧ IDEMIP_ETH_OFF_PAYLOAD = 14 ∧ IDEMIP_ETH_HDR_LEN = 14. Proof. done. Qed.
Lemma at_16 : IDEMIP_VLAN_OFF_TYPE = 16. Proof. done. Qed.
Lemma at_18 : IDEMIP_VLAN_OFF_PAYLOAD = 18 ∧ IDEMIP_VLAN_HDR_LEN = 18. Proof. done. Qed.
Lemma llc_at : IDEMIP_LLC_OFF_TYPE = 6 ∧ IDEMIP_LLC_SNAP_LEN = 8 ∧ u16 (14 + 8) = 22 ∧ u16 (18 + 8) = 26. Proof. done. Qed.
Ltac offs := rewrite ?at_12, ?at_16, ?(proj1 at_14), ?(proj1 (proj2 at_14)), ?(proj2 (proj2 at_14)), ?(proj1 at_18), ?(proj2 at_18),
  ?(proj1 llc_at), ?(proj1 (proj2 llc_at)), ?(proj1 (proj2 (proj2 llc_at))), ?(proj2 (proj2 (proj2 llc_at))).
(** The fields of the one frame as the other's, where both have them. *)
Ltac fields Ha := match type of Ha with agree _ ?f _ =>
  repeat match goal with
  | |- context [rd16 f ?o] => rewrite (agree_rd16 _ f _ o Ha) by lia
  | |- context [llc_is_snap (at_off f ?o)] => rewrite (agree_snap _ f _ o Ha) by lia
  end end.
(** What two parses have in common: the one frame refused, or its data field found. *)
Definition alike (len : Z) (f : list Z) (r s : VlanIo) : Prop :=
  report r = report s ∧ data r len = data s len ∧
  (io_status r = IDEMIP_OK → io_payload_off r ∈ [14; 18; 22; 26] ∧ io_payload_off r ≤ len ∧ io_payload r = Some (drop (Z.to_nat (io_payload_off r)) f)).

Lemma refused_alike len f r s : report r = report s → io_status r = IDEMIP_ERR → io_payload r = None → io_payload s = None → alike len f r s.
Proof. intros Hr Hs Hn Hm. split_and!; [done|unfold data; by rewrite Hn, Hm|by rewrite Hs]. Qed.

Lemma found_alike len f g io jo type off llc : agree len f g → 0 ≤ off ≤ len → off ∈ [14; 18; 22; 26] → report io = report jo →
  alike len f ((found io f type off) <| io_llc := llc |>) ((found jo g type off) <| io_llc := llc |>).
Proof.
  intros Ha Ho Hin Hr. unfold report in Hr. injection Hr as _ _ E1 _ E2 E3 E4 E5 _ E6 E7.
  destruct io, jo. cbn in E1, E2, E3, E4, E5, E6, E7. subst. split_and!; [reflexivity| |].
  - change (Some (take (Z.to_nat (len - off)) (at_off f off)) = Some (take (Z.to_nat (len - off)) (at_off g off))).
    by rewrite (agree_tail len f g off).
  - intros _. split_and!; [exact Hin|apply Ho|reflexivity].
Qed.
Lemma found_alike_plain len f g io jo type off : agree len f g → 0 ≤ off ≤ len → off ∈ [14; 18; 22; 26] → report io = report jo → io_llc io = false →
  alike len f (found io f type off) (found jo g type off).
Proof.
  intros Ha Ho Hin Hr Hl. pose proof (found_alike len f g io jo type off false Ha Ho Hin Hr) as H.
  assert (io_llc jo = false) as Hl2 by (rewrite <- Hl; symmetry; by injection Hr). destruct io, jo. cbn in Hl, Hl2. subst. exact H.
Qed.

Lemma split_report io jo tci : report io = report jo → report (vlan_split_tci io tci) = report (vlan_split_tci jo tci).
Proof. intros Hr. injection Hr as ?? _ ? _ _ _ ?? _ _. destruct io, jo. cbn in *. by subst. Qed.
Lemma tagged_report io jo b : report io = report jo → report (io <| io_tagged := b |>) = report (jo <| io_tagged := b |>).
Proof. intros Hr. injection Hr as ?? ? ? ? ? ? _ ? ? ?. destruct io, jo. cbn in *. by subst. Qed.
Lemma tagged_rest io b : io_status (io <| io_tagged := b |>) = io_status io ∧ io_payload (io <| io_tagged := b |>) = io_payload io ∧ io_llc (io <| io_tagged := b |>) = io_llc io.
Proof. done. Qed.
Lemma split_rest io tci : io_status (vlan_split_tci io tci) = io_status io ∧ io_payload (vlan_split_tci io tci) = io_payload io ∧ io_llc (vlan_split_tci io tci) = io_llc io.
Proof. done. Qed.
Lemma split_tagged io tci b : let r := (vlan_split_tci io tci) <| io_tagged := b |> in io_status r = io_status io ∧ io_payload r = io_payload io ∧ io_llc r = io_llc io.
Proof. intros r. subst r. destruct (tagged_rest (vlan_split_tci io tci) b) as (->&->&->). apply split_rest. Qed.

Lemma io_put w i : w_io (put_io w i) = i.
Proof. done. Qed.

Lemma reset_args io ready f len : let w := on_frame (mkWork io ready) f len in
  pa_frame (parse_args (vlan_reset (w_io w))) = Some f ∧ pa_len (parse_args (vlan_reset (w_io w))) = len ∧ w_ready w = ready.
Proof. done. Qed.
Lemma refused_reset io ready f g len :
  let i := vlan_reset (w_io (on_frame (mkWork io ready) f len)) in let j := vlan_reset (w_io (on_frame (mkWork io ready) g len)) in
  report i = report j ∧ io_llc i = false ∧ io_status i = IDEMIP_ERR ∧ io_payload i = None ∧ io_payload j = None.
Proof. done. Qed.

(** A parse reads only the octets it was told are there.  Two frames that agree on their first [len]
    octets are reported alike, whatever lies behind them, with the same octets of data up to [len]; an OK
    puts the data field at one of the four offsets an encapsulation can have, within [len], and nothing of
    the borrow but the operand block changes. *)
Theorem parse_stays_in_frame (w : Work) (f g : list Z) (len : Z) :
  agree len f g → 0 ≤ len →
  alike len f (w_io (idemip_vlan_parse (on_frame w f len))) (w_io (idemip_vlan_parse (on_frame w g len))) ∧
  w_ready (idemip_vlan_parse (on_frame w f len)) = w_ready w.
Proof.
  intros Ha H0. destruct w as [io ready]. unfold idemip_vlan_parse.
  rewrite !(proj1 (reset_args _ _ _ _)), !(proj1 (proj2 (reset_args _ _ _ _))), !(proj2 (proj2 (reset_args _ _ _ _))). offs.
  pose proof (refused_reset io ready f g len) as (Hr&Hl&He&Hn&Hm). revert Hr Hl He Hn Hm.
  generalize (vlan_reset (w_io (on_frame (mkWork io ready) f len))). generalize (vlan_reset (w_io (on_frame (mkWork io ready) g len))).
  intros jo io' Hr Hl He Hn Hm. split; [|by repeat split_if].
  destruct ready; cbn [negb orb]; [|by apply refused_alike].
  destruct (Z.ltb_spec len 14) as [|Hl14]; [by apply refused_alike|]. fields Ha.
  destruct (rd16 g 12 =? IDEMIP_VLAN_TPID); cbn [negb].
  - destruct (Z.ltb_spec len 18) as [|Hl18]; [by apply refused_alike|]. fields Ha.
    pose proof (split_tagged io' (rd16 g 14) true) as (Es&Ep&El). pose proof (split_tagged jo (rd16 g 14) true) as (_&Fp&_).
    rewrite He in Es. rewrite Hn in Ep. rewrite Hl in El. rewrite Hm in Fp.
    assert (report ((vlan_split_tci io' (rd16 g 14)) <| io_tagged := true |>) = report ((vlan_split_tci jo (rd16 g 14)) <| io_tagged := true |>)) as Ht by (by apply tagged_report, split_report).
    revert Es Ep El Fp Ht. generalize ((vlan_split_tci io' (rd16 g 14)) <| io_tagged := true |>). generalize ((vlan_split_tci jo (rd16 g 14)) <| io_tagged := true |>).
    intros j i Es Ep El Fp Ht. destruct (_ <=? IDEMIP_ETH_MAX_PAYLOAD).
    + destruct (Z.ltb_spec len (18 + 8)) as [|Hl26]; cbn [orb]; [rewrite !io_put; apply refused_alike; [by apply tagged_report|by rewrite (proj1 (tagged_rest _ _))|by rewrite (proj1 (proj2 (tagged_rest _ _)))|by rewrite (proj1 (proj2 (tagged_rest _ _)))]|].
      fields Ha. destruct (llc_is_snap _); cbn [negb]; [|rewrite !io_put; apply refused_alike; [by apply tagged_report|by rewrite (proj1 (tagged_rest _ _))|by rewrite (proj1 (proj2 (tagged_rest _ _)))|by rewrite (proj1 (proj2 (tagged_rest _ _)))]].
      rewrite !io_put. apply found_alike; [done|lia|do 3 right; left|done].
    + rewrite !io_put. apply found_alike_plain; [done|lia|right; left|done|done].
  - destruct (_ <=? IDEMIP_ETH_MAX_PAYLOAD).
    + destruct (Z.ltb_spec len (14 + 8)) as [|Hl22]; cbn [orb]; [by apply refused_alike|].
      fields Ha. destruct (llc_is_snap _); cbn [negb]; [|by apply refused_alike].
      rewrite !io_put. apply found_alike; [done|lia|do 2 right; left|done].
    + rewrite !io_put. apply found_alike_plain; [done|lia|left|done|done].
Qed.
Lemma parse_stays_in_frame_witness :
  let w := mkWork (mkIo (mkParseArgs None 0) (mkBuildArgs None 0) (mkTagArgs 0 0 0) 0 None 0 IDEMIP_OK 7 7 7 7 7 true true true true) true in
  let f := replicate 12 1 ++ [0x81; 0; 0x60; 5; 0; 9; 170; 170; 3; 0; 0; 0; 8; 0; 0x45; 1] in
  let g := replicate 12 1 ++ [0x81; 0; 0x60; 5; 0; 9; 170; 170; 3; 0; 0; 0; 8; 0; 0x45; 2; 3] in
  alike 27 f (w_io (idemip_vlan_parse (on_frame w f 27))) (w_io (idemip_vlan_parse (on_frame w g 27))) ∧
  io_payload (w_io (idemip_vlan_parse (on_frame w g 27))) = Some [0x45; 2; 3].
Proof.
  intros w f g. split; [|reflexivity]. apply (parse_stays_in_frame w f g 27); [reflexivity|clear; lia].
Defined.

(** ** The tag through a frame *)

(** The octets a build leaves: the tag between the two addresses and the data. *)
Lemma tag_written (frame : list Z) tci type : (18 ≤ length frame)%nat → is_u16 tci → is_u16 type →
  wr16 (wr16 (wr16 frame 12 0x8100) 14 tci) 16 type = take 12 frame ++ be16 0x8100 ++ be16 tci ++ be16 type ++ drop 18 frame.
Proof.
  intros Hl Ht Hy. do 18 (destruct frame as [|? frame]; [cbn [length] in Hl; lia|]). assert (is_u16 0x8100) by (unfold is_u16; lia).
  do 3 write_field. reflexivity.
Qed.

Lemma tagged_reads (P : list Z) tci type D : length P = 12%nat → is_u16 tci → is_u16 type →
  let f := P ++ be16 0x8100 ++ be16 tci ++ be16 type ++ D in
  rd16 f 12 = 0x8100 ∧ rd16 f 14 = tci ∧ rd16 f 16 = type ∧ drop 18 f = D.
Proof.
  intros HP Ht Hy f. subst f. assert (is_u16 0x8100) by (unfold is_u16; lia). unfold rd16.
  change (Z.to_nat 12) with 12%nat. change (Z.to_nat 14) with (12 + 2)%nat. change (Z.to_nat 16) with (12 + 4)%nat. change 18%nat with (12 + 6)%nat.
  rewrite <- HP, !drop_app_add. rewrite drop_app_length. split_and!; [by apply rd16_be16| | |done].
  - change (drop 2 _) with (be16 tci ++ be16 type ++ D). by apply rd16_be16.
  - change (drop 4 _) with (be16 type ++ D). by apply rd16_be16.
Qed.

Lemma reset_keeps io : build_args (vlan_reset io) = build_args io ∧ tag_args (vlan_reset io) = tag_args io ∧ parse_args (vlan_reset io) = parse_args io.
Proof. done. Qed.

Lemma build_refused w : vlan_tag_writable (tag_args (w_io w)) = false → w_io (idemip_vlan_build w) = vlan_reset (w_io w) ∧ w_io (idemip_vlan_pack w) = vlan_reset (w_io w).
Proof.
  intros Hw. unfold idemip_vlan_build, idemip_vlan_pack. destruct (reset_keeps (w_io w)) as (->&->&_). rewrite Hw. cbn [negb]. rewrite orb_true_r.
  by destruct (ba_frame _).
Qed.

Lemma build_done w frame : w_ready w = true → ba_frame (build_args (w_io w)) = Some frame → vlan_tag_writable (tag_args (w_io w)) = true →
  let tci := vlan_pack_tci (tag_args (w_io w)) in
  let type := ba_type (build_args (w_io w)) in
  let built := wr16 (wr16 (wr16 frame 12 0x8100) 14 tci) 16 type in
  (∃ io, w_io (idemip_vlan_build w) = (found (vlan_split_tci io tci) built type 18) <| io_tagged := true |> ∧ ba_frame (build_args io) = Some built) ∧
  (∃ io, w_io (idemip_vlan_pack w) = (vlan_split_tci io tci) <| io_status := IDEMIP_OK |>).
Proof.
  intros Hr Hf Hw tci type built. split; eexists.
  - unfold idemip_vlan_build. destruct (reset_keeps (w_io w)) as (->&->&_). rewrite Hf, Hr, Hw. cbn [negb orb].
    rewrite at_12, at_16, (proj1 at_14), (proj1 at_18), io_put. split; [reflexivity|done].
  - unfold idemip_vlan_pack. destruct (reset_keeps (w_io w)) as (_&->&_). rewrite Hr, Hw. cbn [negb orb]. rewrite io_put. reflexivity.
Qed.

(** A parse of a tagged frame whose type is an EtherType. *)
Lemma parse_tagged r f len tci type : w_ready r = true → 18 ≤ len → rd16 f 12 = 0x8100 → rd16 f 14 = tci → rd16 f 16 = type → 1500 < type →
  w_io (idemip_vlan_parse (on_frame r f len)) = found ((vlan_split_tci (vlan_reset (w_io (on_frame r f len))) tci) <| io_tagged := true |>) f type 18.
Proof.
  intros Hr Hl Ht Hc Hy He. destruct r as [io ready]. unfold idemip_vlan_parse.
  rewrite !(proj1 (reset_args _ _ _ _)), !(proj1 (proj2 (reset_args _ _ _ _))), !(proj2 (proj2 (reset_args _ _ _ _))). offs.
  change (w_ready (mkWork io ready)) with ready in Hr. rewrite Hr, Ht, Hc, Hy.
  rewrite (proj2 (Z.ltb_ge _ _)) by lia. rewrite (proj2 (Z.ltb_ge len 18)) by lia. change (0x8100 =? IDEMIP_VLAN_TPID) with true. cbn [negb orb].
  change IDEMIP_ETH_MAX_PAYLOAD with 1500. rewrite (proj2 (Z.leb_gt _ _)) by lia. by rewrite io_put.
Qed.

Lemma found_tag io frame type off : let r := found io frame type off in
  io_status r = IDEMIP_OK ∧ io_tagged r = io_tagged io ∧ io_llc r = io_llc io ∧ io_tci r = io_tci io ∧ io_pcp r = io_pcp io ∧ io_dei r = io_dei io ∧
  io_vid r = io_vid io ∧ io_vid_null r = io_vid_null io ∧ io_type r = type ∧ io_payload r = Some (at_off frame off) ∧ build_args r = build_args io.
Proof. done. Qed.
Lemma tagged_tag io b : let r := io <| io_tagged := b |> in
  io_status r = io_status io ∧ io_tagged r = b ∧ io_llc r = io_llc io ∧ io_tci r = io_tci io ∧ io_pcp r = io_pcp io ∧ io_dei r = io_dei io ∧
  io_vid r = io_vid io ∧ io_vid_null r = io_vid_null io ∧ build_args r = build_args io.
Proof. done. Qed.
Lemma status_tag io s : let r := io <| io_status := s |> in
  io_status r = s ∧ io_tci r = io_tci io ∧ io_pcp r = io_pcp io ∧ io_dei r = io_dei io ∧ io_vid r = io_vid io.
Proof. done. Qed.

(** A C-Tag goes through a frame and through a MAC that strips it.  A build of a tag whose priority is at
    most 7 and whose VLAN ID is below 0xFFF is OK and changes six octets of the frame, the ones behind the
    two addresses; a parse of that frame, on any borrow, with the type an EtherType, finds the tag with the
    three fields that went in and the data behind it; and a pack of the fields and a split of the word it
    reports give them back without a frame.  A build or a pack of any other tag is ERR and leaves the frame. *)
Theorem vlan_tag_roundtrip (w : Work) (frame : list Z) :
  w_ready w = true → tag_typed (tag_args (w_io w)) → is_u16 (ba_type (build_args (w_io w))) →
  ba_frame (build_args (w_io w)) = Some frame → (18 ≤ length frame)%nat →
  let b := w_io (idemip_vlan_build w) in
  let p := w_io (idemip_vlan_pack w) in
  let tag := tag_args (w_io w) in
  (tag_ok tag →
     io_status b = IDEMIP_OK ∧ io_status p = IDEMIP_OK ∧ io_tci p = io_tci b ∧
     ∃ built, ba_frame (build_args b) = Some built ∧ take 12 built = take 12 frame ∧ drop 18 built = drop 18 frame ∧ length built = length frame ∧
     ∀ r len, w_ready r = true →
       let s := w_io (idemip_vlan_split (put_io r ((w_io r) <| tci_args := io_tci p |>))) in
       io_status s = IDEMIP_OK ∧ io_pcp s = ta_pcp tag ∧ io_dei s = ta_dei tag mod 2 ∧ io_vid s = ta_vid tag ∧
       (18 ≤ len → 1500 < ba_type (build_args (w_io w)) →
        let q := w_io (idemip_vlan_parse (on_frame r built len)) in
        io_status q = IDEMIP_OK ∧ io_tagged q = true ∧ io_llc q = false ∧ io_tci q = io_tci b ∧ io_pcp q = ta_pcp tag ∧ io_dei q = ta_dei tag mod 2 ∧
        io_vid q = ta_vid tag ∧ io_vid_null q = (ta_vid tag =? 0) ∧ io_type q = ba_type (build_args (w_io w)) ∧ io_payload q = Some (drop 18 frame))) ∧
  (¬ tag_ok tag → io_status b = IDEMIP_ERR ∧ io_status p = IDEMIP_ERR ∧ ba_frame (build_args b) = Some frame).
Proof.
  intros Hr Ht Hy Hf Hl b p tag. split; intros Hok.
  2:{ destruct (build_refused w) as [Eb Ep]; [by apply not_true_is_false; rewrite writable_iff|]. subst b p. rewrite Eb, Ep. done. }
  pose proof Ht as (?&?&?). destruct (pack_value tag) as [Epk Hv]; [done|destruct Hok; lia|destruct Hok; lia|].
  destruct (build_done w frame Hr Hf) as ((io&Eb&Ebf)&(jo&Ep)); [by apply writable_iff|]. fold tag in Eb, Ebf, Ep. rewrite Epk in Eb, Ebf, Ep.
  fold b in Eb. fold p in Ep. rewrite tag_written in Eb, Ebf by done.
  set (built := take 12 frame ++ be16 0x8100 ++ be16 (tag_value tag) ++ be16 (ba_type (build_args (w_io w))) ++ drop 18 frame) in *.
  assert (length (take 12 frame) = 12%nat) as H12 by (rewrite length_take; lia).
  destruct (tagged_reads (take 12 frame) (tag_value tag) (ba_type (build_args (w_io w))) (drop 18 frame)) as (R12&R14&R16&R18); [done..|].
  fold built in R12, R14, R16, R18. destruct (split_tag io tag) as (B1&B2&B3&B4&_); [done..|]. pose proof (split_fields io _ Hv) as (B0&_).
  pose proof (split_fields jo _ Hv) as (P0&_).
  assert (io_tci p = tag_value tag) as Ep0 by (rewrite Ep; destruct (status_tag (vlan_split_tci jo (tag_value tag)) IDEMIP_OK) as (_&->&_); exact P0).
  assert (io_tci b = tag_value tag) as Eb0.
  { rewrite Eb. destruct (tagged_tag (found (vlan_split_tci io (tag_value tag)) built (ba_type (build_args (w_io w))) 18) true) as (_&_&_&->&_).
    destruct (found_tag (vlan_split_tci io (tag_value tag)) built (ba_type (build_args (w_io w))) 18) as (_&_&_&->&_). exact B0. }
  split_and!; [by rewrite Eb|by rewrite Ep|by rewrite Eb0|]. exists built. split_and!; [by rewrite Eb|subst built; by rewrite take_app_length'|done| |].
  { subst built. rewrite !length_app, length_drop, H12. cbn [be16 length]. lia. }
  rewrite Ep0. intros r len Hrr s.
  assert (s = (vlan_split_tci (vlan_reset ((w_io r) <| tci_args := tag_value tag |>)) (tag_value tag)) <| io_status := IDEMIP_OK |>) as Es.
  { subst s. unfold idemip_vlan_split. change (w_ready (put_io r ?x)) with (w_ready r). by rewrite Hrr. }
  clearbody s. rewrite Es. set (i0 := vlan_reset _). destruct (split_tag i0 tag) as (S1&S2&S3&S4&_); [done..|].
  set (si := vlan_split_tci i0 (tag_value tag)) in *. clearbody si. destruct (status_tag si IDEMIP_OK) as (->&_&->&->&->). split_and!; [done..|]. intros Hlen Hty q. subst q.
  rewrite (parse_tagged r built len _ _ Hrr Hlen R12 R14 R16 Hty). set (i := vlan_reset _). destruct (split_tag i tag) as (Q1&Q2&Q3&Q4&_); [done..|].
  pose proof (split_fields i _ Hv) as (Q0&_). pose proof (split_rest i (tag_value tag)) as (_&_&Q5). assert (io_llc i = false) as Q6 by done. clearbody i.
  destruct (found_tag ((vlan_split_tci i (tag_value tag)) <| io_tagged := true |>) built (ba_type (build_args (w_io w))) 18) as (->&->&->&->&->&->&->&->&->&->&_).
  destruct (tagged_tag (vlan_split_tci i (tag_value tag)) true) as (_&->&->&->&->&->&->&->&_). rewrite Q0, Q1, Q2, Q3, Q4, Q5, Eb0. split_and!; try done.
  unfold at_off. change (Z.to_nat 18) with 18%nat. by rewrite R18.
Qed.
Lemma vlan_tag_roundtrip_witness :
  let frame := replicate 18 7 ++ [0x45; 0] in
  let w := mkWork (mkIo (mkParseArgs None 0) (mkBuildArgs (Some frame) 0x0800) (mkTagArgs 100 5 1) 0 None 0 IDEMIP_OK 0 0 0 0 0 false false false false) true in
  ∃ built, ba_frame (build_args (w_io (idemip_vlan_build w))) = Some built ∧
    let q := w_io (idemip_vlan_parse (on_frame w built 20)) in
    io_status q = IDEMIP_OK ∧ io_vid q = 100 ∧ io_pcp q = 5 ∧ io_dei q = 1 ∧ io_payload q = Some [0x45; 0].
Proof.
  intros frame w. destruct (vlan_tag_roundtrip w frame) as [H _];
    [reflexivity|repeat split; vm_compute; (reflexivity || discriminate)|split; vm_compute; (reflexivity || discriminate)|reflexivity|clear; vm_compute; lia|].
  destruct H as (_&_&_&built&Hb&_&_&_&Hp); [split; vm_compute; (reflexivity || discriminate)|]. exists built. split; [exact Hb|].
  destruct (Hp w 20) as (_&_&_&_&Hq); [reflexivity|]. destruct Hq as (Q1&_&_&_&Q2&Q3&Q4&_&_&Q5); [clear; lia|clear; vm_compute; reflexivity|].
  split_and!; [exact Q1|exact Q4|exact Q2|exact Q3|exact Q5].
Defined.

(** ** The header and the pad *)

(** A header reads back, and what it is built over keeps its data. *)
Lemma eth_build_reads (w dst src : list Z) type : (14 ≤ length w)%nat → length dst = 6%nat → length src = 6%nat → is_u16 type →
  let f := eth_build_hdr w dst src type in
  eth_dst f = dst ∧ eth_src f = src ∧ eth_type f = type ∧ eth_payload f = drop 14 w ∧ length f = length w.
Proof.
  intros Hl Hd Hs Ht f. assert (f = dst ++ src ++ be16 type ++ drop 14 w) as ->.
  { subst f. unfold eth_build_hdr. rewrite <- (wr_nil w). unfold IDEMIP_ETH_OFF_DST, IDEMIP_ETH_OFF_SRC, IDEMIP_ETH_OFF_TYPE, IDEMIP_MAC_LEN.
    rewrite (memcpy_at w []), (memcpy_at w), wr16_at by (rewrite ?length_app, ?length_take, ?Hd, ?Hs; cbn; done || lia).
    rewrite !(take_ge _ (Z.to_nat 6)) by lia. unfold wr. rewrite !length_app, Hd, Hs. cbn [be16 length app Nat.add]. by rewrite <- !app_assoc. }
  unfold eth_dst, eth_src, eth_type, eth_payload, at_off, rd16, IDEMIP_ETH_OFF_DST, IDEMIP_ETH_OFF_SRC, IDEMIP_ETH_OFF_TYPE, IDEMIP_ETH_OFF_PAYLOAD, IDEMIP_MAC_LEN.
  change (Z.to_nat 0) with 0%nat. change (Z.to_nat 6) with 6%nat. change (Z.to_nat 12) with (6 + 6)%nat. change (Z.to_nat 14) with (6 + (6 + 2))%nat.
  rewrite drop_0, <- !drop_drop, (take_app_length' dst), (drop_app_length' dst), (take_app_length' src), (drop_app_length' src) by done.
  split_and!; [done..|by apply rd16_be16|done|]. rewrite !length_app, length_drop, Hd, Hs. cbn [be16 length]. lia.
Qed.

(** The pad is zero and brings the data field to the minimum. *)
Lemma eth_pad_zeroes (w : list Z) n : 0 ≤ n → (14 + n + Z.max 0 (46 - n) ≤ Z.of_nat (length w)) →
  let '(f, padded) := eth_pad w n in
  padded = Z.max n 46 ∧ eth_frame_len n = 14 + padded ∧ take (Z.to_nat padded) (eth_payload f) = take (Z.to_nat n) (eth_payload w) ++ replicate (Z.to_nat (padded - n)) 0.
Proof.
  intros Hn Hl. unfold eth_pad. assert (eth_padded_payload n = Z.max n 46) as Hp.
  { unfold eth_padded_payload, IDEMIP_ETH_MIN_PAYLOAD. split_if; lia. }
  rewrite Hp. unfold eth_frame_len. rewrite Hp. split_and!; [done|done|]. unfold memset, eth_payload, at_off, IDEMIP_ETH_OFF_PAYLOAD.
  assert (length (take (Z.to_nat (14 + n)) w) = Z.to_nat (14 + n)) as Ht by (rewrite length_take; lia).
  rewrite drop_app_le by lia. rewrite skipn_firstn_comm. replace (Z.to_nat (14 + n) - Z.to_nat 14)%nat with (Z.to_nat n) by lia.
  assert (length (take (Z.to_nat n) (drop (Z.to_nat 14) w)) = Z.to_nat n) as Hd by (rewrite length_take, length_drop; lia).
  rewrite take_app_ge by lia. f_equal. rewrite Hd. rewrite take_app_length' by (rewrite length_replicate; lia). done.
Qed.
End EthernetThms.
