(* ===== verification/Icmp.v ===== *)
(** * ICMP messages (src/icmp/icmp.c)

    RFC 792's fields, the checksum over a message, and the builders.  A message is its octets from the Type
    on; the length a builder is given counts the data already behind the head. *)
From S2P Require Import Prelude Base Wire Ipv4 Bucket.

Module Icmp.
Import Endian Checksum Wire Ipv4.

Definition IDEMIP_ICMP_ECHO_REPLY : Z := 0.
Definition IDEMIP_ICMP_DEST_UNREACHABLE : Z := 3.
Definition IDEMIP_ICMP_SOURCE_QUENCH : Z := 4.
Definition IDEMIP_ICMP_REDIRECT : Z := 5.
Definition IDEMIP_ICMP_ECHO : Z := 8.
Definition IDEMIP_ICMP_TIME_EXCEEDED : Z := 11.
Definition IDEMIP_ICMP_PARAMETER_PROBLEM : Z := 12.
Definition IDEMIP_ICMP_OFF_TYPE : Z := 0.
Definition IDEMIP_ICMP_OFF_CODE : Z := 1.
Definition IDEMIP_ICMP_OFF_CKSUM : Z := 2.
Definition IDEMIP_ICMP_HDR_LEN : Z := 4.
Definition IDEMIP_ICMP_OFF_UNUSED : Z := 4.
Definition IDEMIP_ICMP_OFF_POINTER : Z := 4.
Definition IDEMIP_ICMP_OFF_GATEWAY : Z := 4.
Definition IDEMIP_ICMP_ERR_HDR_LEN : Z := 8.
Definition IDEMIP_ICMP_OFF_QUOTE : Z := 8.
Definition IDEMIP_ICMP_POINTER_SHIFT : Z := 24.
Definition IDEMIP_ICMP_ERR_QUOTE_DATA : Z := 8.
Definition IDEMIP_ICMP_DU_FRAG_NEEDED : Z := 4.
Definition IDEMIP_ICMP_CODE_SOURCE_QUENCH : Z := 0.
Definition IDEMIP_ICMP_OFF_ID : Z := 4.
Definition IDEMIP_ICMP_OFF_SEQ : Z := 6.
Definition IDEMIP_ICMP_ECHO_HDR_LEN : Z := 8.
Definition IDEMIP_ICMP_CODE_ECHO : Z := 0.
Definition IDEMIP_ICMP_OFF_ORIG_TS : Z := 8.
Definition IDEMIP_ICMP_OFF_RECV_TS : Z := 12.
Definition IDEMIP_ICMP_OFF_XMIT_TS : Z := 16.

(** ** Reading a received message *)
Definition icmp_type (m : list Z) : Z := tget m IDEMIP_ICMP_OFF_TYPE.
Definition icmp_code (m : list Z) : Z := tget m IDEMIP_ICMP_OFF_CODE.
Definition icmp_cksum (m : list Z) : Z := rd16 m IDEMIP_ICMP_OFF_CKSUM.
Definition icmp_id (m : list Z) : Z := rd16 m IDEMIP_ICMP_OFF_ID.
Definition icmp_seq (m : list Z) : Z := rd16 m IDEMIP_ICMP_OFF_SEQ.
Definition icmp_pointer (m : list Z) : Z := tget m IDEMIP_ICMP_OFF_POINTER.
Definition icmp_gateway (m : list Z) : Z := rd32 m IDEMIP_ICMP_OFF_GATEWAY.
Definition icmp_orig_ts (m : list Z) : Z := rd32 m IDEMIP_ICMP_OFF_ORIG_TS.
Definition icmp_recv_ts (m : list Z) : Z := rd32 m IDEMIP_ICMP_OFF_RECV_TS.
Definition icmp_xmit_ts (m : list Z) : Z := rd32 m IDEMIP_ICMP_OFF_XMIT_TS.
Definition icmp_quote (m : list Z) : list Z := drop (Z.to_nat IDEMIP_ICMP_OFF_QUOTE) m.

Definition icmp_is_error (m : list Z) : bool :=
  let type := tget m IDEMIP_ICMP_OFF_TYPE in
  (type =? IDEMIP_ICMP_DEST_UNREACHABLE) || (type =? IDEMIP_ICMP_SOURCE_QUENCH) || (type =? IDEMIP_ICMP_REDIRECT) ||
  (type =? IDEMIP_ICMP_TIME_EXCEEDED) || (type =? IDEMIP_ICMP_PARAMETER_PROBLEM).

(** Octets an error message about the datagram occupies. *)
Definition icmp_err_len (ip : list Z) : Z := IDEMIP_ICMP_ERR_HDR_LEN + Z.shiftl (ip4_ihl ip) IDEMIP_IP4_IHL_SHIFT + IDEMIP_ICMP_ERR_QUOTE_DATA.

Section Build.
(** The build's checksum route (see [Checksum]). *)
Variable word : option nat.
Variable swap : bool.

Definition icmp_cksum_compute (m : list Z) (len : Z) : Z := cksum_over word swap (take (Z.to_nat len) m).

(** ** Writing a message *)
Definition icmp_build_echo (w : list Z) (type id seq len : Z) : list Z :=
  let w := tset w IDEMIP_ICMP_OFF_TYPE type in
  let w := tset w IDEMIP_ICMP_OFF_CODE IDEMIP_ICMP_CODE_ECHO in
  let w := wr16 w IDEMIP_ICMP_OFF_CKSUM 0 in
  let w := wr16 w IDEMIP_ICMP_OFF_ID id in
  let w := wr16 w IDEMIP_ICMP_OFF_SEQ seq in
  wr16 w IDEMIP_ICMP_OFF_CKSUM (icmp_cksum_compute w len).

Definition icmp_echo_reply (w : list Z) (len : Z) : list Z :=
  icmp_build_echo w IDEMIP_ICMP_ECHO_REPLY (icmp_id w) (icmp_seq w) len.

Definition icmp_build_error (w : list Z) (type code err_word len : Z) : list Z :=
  let w := tset w IDEMIP_ICMP_OFF_TYPE type in
  let w := tset w IDEMIP_ICMP_OFF_CODE code in
  let w := wr16 w IDEMIP_ICMP_OFF_CKSUM 0 in
  let w := wr32 w IDEMIP_ICMP_OFF_UNUSED err_word in
  wr16 w IDEMIP_ICMP_OFF_CKSUM (icmp_cksum_compute w len).

Definition icmp_dest_unreachable (w : list Z) (code len : Z) : list Z := icmp_build_error w IDEMIP_ICMP_DEST_UNREACHABLE code 0 len.
Definition icmp_time_exceeded (w : list Z) (code len : Z) : list Z := icmp_build_error w IDEMIP_ICMP_TIME_EXCEEDED code 0 len.
Definition icmp_parameter_problem (w : list Z) (code pointer len : Z) : list Z :=
  icmp_build_error w IDEMIP_ICMP_PARAMETER_PROBLEM code (u32 (Z.shiftl pointer IDEMIP_ICMP_POINTER_SHIFT)) len.
Definition icmp_source_quench (w : list Z) (len : Z) : list Z :=
  icmp_build_error w IDEMIP_ICMP_SOURCE_QUENCH IDEMIP_ICMP_CODE_SOURCE_QUENCH 0 len.
End Build.

(** ** What a built message is *)

(** A message of type [t], code [c], checksum [ck], the word behind it and the data. *)
Definition message (t c ck : Z) (four data : list Z) : list Z := [t; c] ++ be16 ck ++ four ++ data.

(** The checksum that closes a message. *)
Definition closing (word : option nat) (swap : bool) (t c : Z) (four data : list Z) : Z := cksum_over word swap (message t c 0 four data).

Lemma message_octets t c ck four data : is_u8 t → is_u8 c → is_u16 ck → octets four → octets data → octets (message t c ck four data).
Proof. intros. unfold message. repeat (apply Forall_app; split); try done; [octs|by apply be16_octets]. Qed.

(** A closed message verifies, the message of zeros too. *)
Lemma message_closes word swap t c four data :
  build word → is_u8 t → is_u8 c → octets four → octets data → Z.of_nat (length four + length data) ≤ 65531 →
  is_u16 (closing word swap t c four data) ∧ cksum_valid word swap (message t c (closing word swap t c four data) four data) = true.
Proof.
  intros Hb Ht Hc Hf Hd Hl. assert (octets [t; c]) as Hp by octs. assert (octets (four ++ data)) as Hq by (by apply Forall_app).
  pose proof (words_sum_nonneg _ Hp) as H0. pose proof (words_sum_nonneg _ Hq) as H1. assert (is_u16 0) by (unfold is_u16; lia).
  assert (∀ ck, is_u16 ck → cksum_over word swap (message t c ck four data) = 65535 - ones (0 + (words_sum [t; c] + ck + words_sum (four ++ data)))) as Hk.
  { intros ck Hck. unfold cksum_over, message. apply cksum_field; [done..|lia| |done]. rewrite !length_app. cbn. lia. }
  unfold closing, cksum_valid. rewrite (Hk 0) by done. set (S0 := 0 + (words_sum [t; c] + 0 + words_sum (four ++ data))). assert (0 ≤ S0) as HS by (unfold S0; lia). pose proof (ones_range S0 HS) as Hr.
  split; [unfold is_u16; lia|]. rewrite Hk by (unfold is_u16; lia).
  replace (0 + (words_sum [t; c] + (65535 - ones S0) + words_sum (four ++ data))) with (S0 + 65535 - ones S0) by (unfold S0; lia).
  clearbody S0. apply Z.eqb_eq. unfold ones in *.
  destruct (Z.eqb_spec S0 0) as [->|]; [done|]. destruct (Z.eqb_spec (S0 + 65535 - ((S0 - 1) mod 65535 + 1)) 0); Z.div_mod_to_equations; lia.
Qed.

Lemma message_reads t c ck four data : is_u16 ck → length four = 4%nat →
  let m := message t c ck four data in icmp_type m = t ∧ icmp_code m = c ∧ icmp_cksum m = ck ∧ drop 4 m = four ++ data ∧ icmp_quote m = data.
Proof.
  intros Hk Hf m. do 4 (destruct four as [|? four]; [discriminate|]). destruct four; [|discriminate].
  split_and!; [done|done|by apply rd16_be16|done|done].
Qed.

(** The octets of a region with a head written and its checksum closed over [len] octets. *)
Lemma head_written word swap (w : list Z) t c four (len : Z) :
  (8 ≤ length w)%nat → 8 ≤ len ≤ Z.of_nat (length w) → is_u16 (closing word swap t c four (take (Z.to_nat (len - 8)) (drop 8 w))) → length four = 4%nat →
  let w0 := [t; c] ++ be16 0 ++ four ++ drop 8 w in
  wr16 w0 IDEMIP_ICMP_OFF_CKSUM (icmp_cksum_compute word swap w0 len) =
  message t c (closing word swap t c four (take (Z.to_nat (len - 8)) (drop 8 w))) four (drop 8 w).
Proof.
  intros Hl Hn Hk Hf w0. subst w0. unfold icmp_cksum_compute.
  assert (take (Z.to_nat len) ([t; c] ++ be16 0 ++ four ++ drop 8 w) = message t c 0 four (take (Z.to_nat (len - 8)) (drop 8 w))) as ->.
  { unfold message. do 4 (destruct four as [|? four]; [discriminate|]). destruct four; [|discriminate]. cbn [be16 app].
    replace (Z.to_nat len) with (8 + Z.to_nat (len - 8))%nat by lia. reflexivity. }
  fold (closing word swap t c four (take (Z.to_nat (len - 8)) (drop 8 w))). set (ck := closing _ _ _ _ _ _) in *. clearbody ck.
  unfold wr16. change (Z.to_nat IDEMIP_ICMP_OFF_CKSUM) with 2%nat. cbn [be16 app take drop]. by rewrite wr16_bytes.
Qed.

Lemma echo_built word swap (w : list Z) type id seq len : (8 ≤ length w)%nat → 8 ≤ len ≤ Z.of_nat (length w) → is_u16 id → is_u16 seq →
  let data := take (Z.to_nat (len - 8)) (drop 8 w) in
  let ck := closing word swap type 0 (be16 id ++ be16 seq) data in
  is_u16 ck → icmp_build_echo word swap w type id seq len = message type 0 ck (be16 id ++ be16 seq) (drop 8 w).
Proof.
  intros Hl Hn Hi Hs data ck Hk. unfold ck, data in *. rewrite <- head_written by done. unfold icmp_build_echo.
  set (w1 := wr16 _ IDEMIP_ICMP_OFF_SEQ seq). assert (w1 = [type; 0] ++ be16 0 ++ (be16 id ++ be16 seq) ++ drop 8 w) as ->; [|done].
  subst w1. do 8 (destruct w as [|? w]; [cbn [length] in Hl; lia|]). assert (is_u16 0) by (unfold is_u16; lia).
  unfold IDEMIP_ICMP_OFF_TYPE, IDEMIP_ICMP_OFF_CODE, IDEMIP_ICMP_OFF_CKSUM, IDEMIP_ICMP_OFF_ID, IDEMIP_ICMP_OFF_SEQ. do 3 write_field. reflexivity.
Qed.

Lemma error_built word swap (w : list Z) type code err_word len : (8 ≤ length w)%nat → 8 ≤ len ≤ Z.of_nat (length w) → is_u32 err_word →
  let data := take (Z.to_nat (len - 8)) (drop 8 w) in
  let ck := closing word swap type code (be32 err_word) data in
  is_u16 ck → icmp_build_error word swap w type code err_word len = message type code ck (be32 err_word) (drop 8 w).
Proof.
  intros Hl Hn Hi data ck Hk. unfold ck, data in *. rewrite <- head_written by done. unfold icmp_build_error.
  set (w1 := wr32 _ IDEMIP_ICMP_OFF_UNUSED err_word). assert (w1 = [type; code] ++ be16 0 ++ be32 err_word ++ drop 8 w) as ->; [|done].
  subst w1. do 8 (destruct w as [|? w]; [cbn [length] in Hl; lia|]). assert (is_u16 0) by (unfold is_u16; lia).
  unfold IDEMIP_ICMP_OFF_TYPE, IDEMIP_ICMP_OFF_CODE, IDEMIP_ICMP_OFF_CKSUM, IDEMIP_ICMP_OFF_UNUSED. do 2 write_field. reflexivity.
Qed.
End Icmp.

(** * The ICMP message path (src/icmp/icmp_in.c)

    What an arriving message asks of the caller, the Echo Reply, and the errors RFC 1122 section 3.2.2 lets a
    host originate, under a token bucket.  [datagram] and [out] are the octets from those pointers on. *)
Module IcmpIn.
Import Endian Checksum Wire Ipv4 Icmp Bucket.

Definition ICMP_IN_READY : Z := 0x49434D34.
Definition ICMP_IN_CLASS_SHIFT : Z := 28.
Definition ICMP_IN_CLASS_D : Z := 0xE.
Definition ICMP_IN_CLASS_E : Z := 0xF.
Definition ICMP_IN_ALL_ONES : Z := 0xFFFFFFFF.
Definition ICMP_IN_LOOPBACK_NET : Z := 127.
Definition ICMP_IN_NET_SHIFT : Z := 24.
Definition IDEMIP_IP4_PROTO_ICMP : Z := 1.
Definition IDEMIP_ICMP_IN_ACT_REPLY : Z := 1.
Definition IDEMIP_ICMP_IN_ACT_TRANSPORT : Z := 2.
Definition IDEMIP_ICMP_IN_ACT_ROUTE : Z := 4.
Definition IDEMIP_ICMP_IN_ACT_USER : Z := 8.
Definition IDEMIP_ICMP_IN_ACT_DISCARD : Z := 16.
Definition IDEMIP_ICMP_IN_SUPPRESS_NONE : Z := 0.
Definition IDEMIP_ICMP_IN_SUPPRESS_ICMP_ERROR : Z := 1.
Definition IDEMIP_ICMP_IN_SUPPRESS_DST_BCAST : Z := 2.
Definition IDEMIP_ICMP_IN_SUPPRESS_DST_MCAST : Z := 3.
Definition IDEMIP_ICMP_IN_SUPPRESS_LINK_BCAST : Z := 4.
Definition IDEMIP_ICMP_IN_SUPPRESS_FRAGMENT : Z := 5.
Definition IDEMIP_ICMP_IN_SUPPRESS_SRC : Z := 6.
Definition IDEMIP_ICMP_IN_SUPPRESS_REDIRECT : Z := 7.
Definition IDEMIP_ICMP_IN_SUPPRESS_RATE : Z := 8.

Record IcmpInRecvArgs := mkRecvArgs {
  ra_datagram : option (list Z); ra_len : Z; ra_out : option (list Z); ra_out_cap : Z; ra_if_addr : Z; ra_if_mask : Z; ra_link_bcast : bool }.
#[export] Instance IcmpInRecvArgs_eta : Eta IcmpInRecvArgs := fun r =>
  mkRecvArgs (ra_datagram r) (ra_len r) (ra_out r) (ra_out_cap r) (ra_if_addr r) (ra_if_mask r) (ra_link_bcast r).
Record IcmpInErrArgs := mkErrArgs {
  ea_datagram : option (list Z); ea_len : Z; ea_out : option (list Z); ea_out_cap : Z; ea_if_mask : Z; ea_word : Z; ea_now_ms : Z;
  ea_type : Z; ea_code : Z; ea_link_bcast : bool }.
#[export] Instance IcmpInErrArgs_eta : Eta IcmpInErrArgs := fun r =>
  mkErrArgs (ea_datagram r) (ea_len r) (ea_out r) (ea_out_cap r) (ea_if_mask r) (ea_word r) (ea_now_ms r) (ea_type r) (ea_code r) (ea_link_bcast r).
Record IcmpInIo := mkIo {
  recv_args : IcmpInRecvArgs; err_args : IcmpInErrArgs; io_status : IdemIpStatus; io_out_len : Z; io_src : Z; io_dst : Z; io_gateway : Z;
  io_quoted_dst : Z; io_act : Z; io_type : Z; io_code : Z; io_proto : Z; io_id : Z; io_seq : Z; io_suppress : Z; io_tokens : Z;
  io_cksum_ok : bool; io_bad_len : bool; io_truncated : bool }.
#[export] Instance IcmpInIo_eta : Eta IcmpInIo := fun r =>
  mkIo (recv_args r) (err_args r) (io_status r) (io_out_len r) (io_src r) (io_dst r) (io_gateway r) (io_quoted_dst r) (io_act r) (io_type r)
    (io_code r) (io_proto r) (io_id r) (io_seq r) (io_suppress r) (io_tokens r) (io_cksum_ok r) (io_bad_len r) (io_truncated r).
Record IcmpInCtx := mkCtx { c_ready : Z; c_refill_ms : Z; c_tokens : Z }.
#[export] Instance IcmpInCtx_eta : Eta IcmpInCtx := fun r => mkCtx (c_ready r) (c_refill_ms r) (c_tokens r).
Record Work := mkWork { w_io : IcmpInIo; w_ctx : IcmpInCtx }.
#[export] Instance Work_eta : Eta Work := fun r => mkWork (w_io r) (w_ctx r).
Definition put_io (w : Work) (io : IcmpInIo) : Work := w <| w_io := io |>.

(** [memset(work, 0, ..)]: every operand and result zero. *)
Definition io_zero : IcmpInIo :=
  mkIo (mkRecvArgs None 0 None 0 0 0 false) (mkErrArgs None 0 None 0 0 0 0 0 0 false) IDEMIP_OK 0 0 0 0 0 0 0 0 0 0 0 0 0 false false false.

(** ** The address forms of RFC 1122 section 3.2.1.3 *)
Definition icmp_in_is_multicast (addr : Z) : bool := Z.shiftr addr ICMP_IN_CLASS_SHIFT =? ICMP_IN_CLASS_D.
Definition icmp_in_is_class_e (addr : Z) : bool := Z.shiftr addr ICMP_IN_CLASS_SHIFT =? ICMP_IN_CLASS_E.
Definition icmp_in_classful_mask (addr : Z) : Z :=
  if Z.land addr 0x80000000 =? 0 then 0xFF000000
  else if Z.land addr 0x40000000 =? 0 then 0xFFFF0000
  else if Z.land addr 0x20000000 =? 0 then 0xFFFFFF00
  else ICMP_IN_ALL_ONES.
Definition icmp_in_is_broadcast (addr if_mask : Z) : bool :=
  if addr =? ICMP_IN_ALL_ONES then true
  else if icmp_in_is_multicast addr || icmp_in_is_class_e addr then false
  else if negb (if_mask =? ICMP_IN_ALL_ONES) && (Z.lor addr if_mask =? ICMP_IN_ALL_ONES) then true
  else Z.lor addr (icmp_in_classful_mask addr) =? ICMP_IN_ALL_ONES.
Definition icmp_in_src_is_single_host (src if_mask : Z) : bool :=
  if (src =? 0) || (Z.shiftr src ICMP_IN_NET_SHIFT =? ICMP_IN_LOOPBACK_NET) then false
  else if icmp_in_is_multicast src || icmp_in_is_class_e src then false
  else negb (icmp_in_is_broadcast src if_mask).
Definition icmp_in_specific_dst (dst if_addr if_mask : Z) : Z :=
  if icmp_in_is_multicast dst || icmp_in_is_broadcast dst if_mask then if_addr else dst.

Definition act_or (io : IcmpInIo) (bit : Z) : IcmpInIo := io <| io_act := Z.lor (io_act io) bit |>.
Definition bad_len (io : IcmpInIo) : IcmpInIo := act_or (io <| io_bad_len := true |>) IDEMIP_ICMP_IN_ACT_DISCARD.

(** The Protocol field of the quoted internet header, when the quote carries one. *)
Definition icmp_in_quoted_proto (msg : list Z) (msg_len : Z) : option Z :=
  if msg_len <? IDEMIP_ICMP_OFF_QUOTE + IDEMIP_IPV4_HDR_LEN then None
  else
  let quote := icmp_quote msg in
  if negb (ip4_version_ok quote) || negb (ip4_ihl_ok quote) then None else Some (ip4_proto quote).

Definition icmp_in_error_arrived (io : IcmpInIo) (msg : list Z) (msg_len : Z) : IcmpInIo :=
  if io_type io =? IDEMIP_ICMP_REDIRECT then
    if msg_len <? IDEMIP_ICMP_ERR_HDR_LEN then bad_len io
    else
    let io := io <| io_gateway := icmp_gateway msg |> in
    let mask := ra_if_mask (recv_args io) in
    if negb (Z.land (Z.lxor (io_gateway io) (ra_if_addr (recv_args io))) mask =? 0) || icmp_in_is_broadcast (io_gateway io) mask ||
       icmp_in_is_multicast (io_gateway io)
    then act_or (io <| io_suppress := IDEMIP_ICMP_IN_SUPPRESS_REDIRECT |>) IDEMIP_ICMP_IN_ACT_DISCARD
    else
    let io := match icmp_in_quoted_proto msg msg_len with
              | Some proto => io <| io_proto := proto |> <| io_quoted_dst := ip4_dst (icmp_quote msg) |>
              | None => io
              end in
    act_or io IDEMIP_ICMP_IN_ACT_ROUTE
  else
  match icmp_in_quoted_proto msg msg_len with
  | None => bad_len io
  | Some proto => act_or (io <| io_proto := proto |>) IDEMIP_ICMP_IN_ACT_TRANSPORT
  end.

Definition icmp_in_result_clear (io : IcmpInIo) : IcmpInIo :=
  mkIo (recv_args io) (err_args io) (io_status io) 0 0 0 0 0 0 0 0 0 0 0 IDEMIP_ICMP_IN_SUPPRESS_NONE 0 false false false.

(** The rule that refuses an error about the datagram. *)
Definition icmp_in_suppressed (a : IcmpInErrArgs) (datagram : list Z) : Z :=
  let hdr_len := ip4_hdr_len datagram in
  if (ip4_proto datagram =? IDEMIP_IP4_PROTO_ICMP) && (ip4_frag_units datagram =? 0) &&
     ((hdr_len + IDEMIP_ICMP_HDR_LEN <=? ip4_total_len datagram) && icmp_is_error (drop (Z.to_nat hdr_len) datagram))
  then IDEMIP_ICMP_IN_SUPPRESS_ICMP_ERROR
  else
  let dst := ip4_dst datagram in
  if icmp_in_is_multicast dst then IDEMIP_ICMP_IN_SUPPRESS_DST_MCAST
  else if icmp_in_is_broadcast dst (ea_if_mask a) then IDEMIP_ICMP_IN_SUPPRESS_DST_BCAST
  else if ea_link_bcast a then IDEMIP_ICMP_IN_SUPPRESS_LINK_BCAST
  else if negb (ip4_frag_units datagram =? 0) then IDEMIP_ICMP_IN_SUPPRESS_FRAGMENT
  else if negb (icmp_in_src_is_single_host (ip4_src datagram) (ea_if_mask a)) then IDEMIP_ICMP_IN_SUPPRESS_SRC
  else IDEMIP_ICMP_IN_SUPPRESS_NONE.

Section Build.
(** The build: its checksum route, whether an echo to a group is answered, and the bucket. *)
Variable word : option nat.
Variable swap : bool.
Variable ECHO_BROADCAST : bool.
Variables (BUCKET TOKEN_MS : Z).

(** ** The token bucket *)
Definition icmp_in_refill (ctx : IcmpInCtx) (now_ms : Z) : IcmpInCtx :=
  let '(tokens, refill_ms) := refill BUCKET TOKEN_MS (c_tokens ctx) (c_refill_ms ctx) now_ms in
  ctx <| c_tokens := tokens |> <| c_refill_ms := refill_ms |>.

(** ** The arriving message *)
Definition icmp_in_build_echo_reply (io : IcmpInIo) (msg : list Z) (msg_len : Z) (out : list Z) : IcmpInIo :=
  let cap := ra_out_cap (recv_args io) in
  let '(len, truncated) := if cap <? msg_len then (cap, true) else (msg_len, false) in
  let out := icmp_echo_reply word swap (memcpy out 0 msg len) len in
  act_or (io <| io_truncated := truncated |> <| recv_args := (recv_args io) <| ra_out := Some out |> |> <| io_out_len := len |>) IDEMIP_ICMP_IN_ACT_REPLY.

Definition icmp_in_query_arrived (io : IcmpInIo) (msg : list Z) (msg_len dst : Z) (out : list Z) : IcmpInIo :=
  if negb (io_type io =? IDEMIP_ICMP_ECHO) && negb (io_type io =? IDEMIP_ICMP_ECHO_REPLY) then act_or io IDEMIP_ICMP_IN_ACT_DISCARD
  else if msg_len <? IDEMIP_ICMP_ECHO_HDR_LEN then bad_len io
  else
  let io := io <| io_id := icmp_id msg |> <| io_seq := icmp_seq msg |> in
  if io_type io =? IDEMIP_ICMP_ECHO_REPLY then act_or io IDEMIP_ICMP_IN_ACT_USER
  else if negb ECHO_BROADCAST && (icmp_in_is_multicast dst || icmp_in_is_broadcast dst (ra_if_mask (recv_args io))) then act_or io IDEMIP_ICMP_IN_ACT_DISCARD
  else icmp_in_build_echo_reply io msg msg_len out.

Definition idemip_icmp_in_clear (w : Work) : Work := mkWork io_zero (mkCtx ICMP_IN_READY 0 BUCKET).

Definition idemip_icmp_in_recv (w : Work) : Work :=
  let io := (icmp_in_result_clear (w_io w)) <| io_status := IDEMIP_ERR |> in
  let a := recv_args io in
  match ra_datagram a, ra_out a with
  | Some datagram, Some out =>
      if negb (c_ready (w_ctx w) =? ICMP_IN_READY) || (ra_out_cap a <? IDEMIP_ICMP_ECHO_HDR_LEN) then put_io w io
      else if negb (bool_decide (ip4_verify_all word swap datagram (ra_len a) = IDEMIP_OK)) then put_io w io
      else
      let hdr_len := ip4_hdr_len datagram in
      let msg_len := ip4_total_len datagram - hdr_len in
      let msg := drop (Z.to_nat hdr_len) datagram in
      let dst := ip4_dst datagram in
      let io := io <| io_src := icmp_in_specific_dst dst (ra_if_addr a) (ra_if_mask a) |> <| io_dst := ip4_src datagram |> <| io_status := IDEMIP_OK |> in
      if msg_len <? IDEMIP_ICMP_HDR_LEN then put_io w (io <| io_bad_len := true |> <| io_act := IDEMIP_ICMP_IN_ACT_DISCARD |>)
      else
      let ok := cksum_valid word swap (take (Z.to_nat msg_len) msg) in
      let io := io <| io_type := icmp_type msg |> <| io_code := icmp_code msg |> <| io_cksum_ok := ok |> in
      if negb ok then put_io w (io <| io_act := IDEMIP_ICMP_IN_ACT_DISCARD |>)
      else if icmp_is_error msg then put_io w (icmp_in_error_arrived io msg msg_len)
      else put_io w (icmp_in_query_arrived io msg msg_len dst out)
  | _, _ => put_io w io
  end.

(** ** An error originated *)

(** The message, once no rule refuses it and the buffer holds it: a token is spent or the call is BUSY. *)
Definition error_spend (w : Work) (io : IcmpInIo) (datagram out : list Z) (quote out_len : Z) : Work :=
  let a := err_args io in
  let ctx := icmp_in_refill (w_ctx w) (ea_now_ms a) in
  if c_tokens ctx =? 0 then
    mkWork (io <| io_tokens := 0 |> <| io_suppress := IDEMIP_ICMP_IN_SUPPRESS_RATE |> <| io_status := IDEMIP_BUSY |>) ctx
  else
  let ctx := ctx <| c_tokens := u8 (c_tokens ctx - 1) |> in
  let out := memcpy out IDEMIP_ICMP_OFF_QUOTE datagram quote in
  let out := icmp_build_error word swap out (ea_type a) (ea_code a) (ea_word a) out_len in
  mkWork (io <| io_tokens := c_tokens ctx |> <| err_args := a <| ea_out := Some out |> |> <| io_out_len := out_len |> <| io_src := ip4_dst datagram |>
             <| io_dst := ip4_src datagram |> <| io_status := IDEMIP_OK |>) ctx.

Definition idemip_icmp_in_error (w : Work) : Work :=
  let io := (icmp_in_result_clear (w_io w)) <| io_status := IDEMIP_ERR |> in
  let a := err_args io in
  match ea_datagram a, ea_out a with
  | Some datagram, Some out =>
      if negb (c_ready (w_ctx w) =? ICMP_IN_READY) then put_io w io
      else if negb (bool_decide (ip4_verify_all word swap datagram (ea_len a) = IDEMIP_OK)) then put_io w io
      else
      let io := io <| io_type := ea_type a |> <| io_code := ea_code a |> in
      if negb (icmp_is_error [ea_type a]) then put_io w io
      else if ea_type a =? IDEMIP_ICMP_REDIRECT then put_io w (io <| io_suppress := IDEMIP_ICMP_IN_SUPPRESS_REDIRECT |>)
      else
      let io := io <| io_suppress := icmp_in_suppressed a datagram |> in
      if negb (io_suppress io =? IDEMIP_ICMP_IN_SUPPRESS_NONE) then put_io w io
      else
      let total := ip4_total_len datagram in
      let quote := ip4_hdr_len datagram + IDEMIP_ICMP_ERR_QUOTE_DATA in
      let quote := if total <? quote then total else quote in
      let out_len := IDEMIP_ICMP_ERR_HDR_LEN + quote in
      if ea_out_cap a <? out_len then put_io w io else error_spend w io datagram out quote out_len
  | _, _ => put_io w io
  end.
End Build.
End IcmpIn.
