(* ===== verification/IcmpInThms.v ===== *)
(** * Echo and error

    What an Echo comes back as and what the asker makes of it; which datagrams an error is sent about, what it
    carries, and how many go out. *)
From S2P Require Import Prelude Base Wire Ipv4 Bucket Icmp.

Module IcmpInThms.
Import Endian Checksum Wire Look Ipv4 Icmp Bucket IcmpIn.

(** ** An arriving message *)

(** The message a verified datagram carries. *)
Definition carried (d : list Z) : list Z := take (Z.to_nat (ip4_total_len d - ip4_hdr_len d)) (drop (Z.to_nat (ip4_hdr_len d)) d).
Definition arrives (word : option nat) (swap : bool) (w : Work) (d out : list Z) : Prop :=
  c_ready (w_ctx w) = ICMP_IN_READY ∧ ra_datagram (recv_args (w_io w)) = Some d ∧ ra_out (recv_args (w_io w)) = Some out ∧
  octets d ∧ ra_len (recv_args (w_io w)) ≤ Z.of_nat (length d) ∧ ip4_verify_all word swap d (ra_len (recv_args (w_io w))) = IDEMIP_OK ∧
  8 ≤ ra_out_cap (recv_args (w_io w)) ≤ Z.of_nat (length out).

Lemma carried_facts word swap w d out : arrives word swap w d out →
  20 ≤ ip4_hdr_len d ≤ 60 ∧ ip4_hdr_len d ≤ ip4_total_len d ≤ 65535 ∧ Z.of_nat (length (carried d)) = ip4_total_len d - ip4_hdr_len d ∧ octets (carried d).
Proof.
  intros (_&_&_&Ho&Hl&Hv&_). destruct (ip4_verify_ok word swap d _ Ho Hv) as (H1&H2&_&H4). unfold IDEMIP_IPV4_HDR_LEN, is_u16 in *.
  split_and!; [lia..| |by apply Forall_take, Forall_drop]. unfold carried. rewrite length_take, length_drop. lia.
Qed.

(** The results a call on a message of a valid checksum starts from. *)
Definition io_on (io : IcmpInIo) (d : list Z) : IcmpInIo :=
  (icmp_in_result_clear io) <| io_status := IDEMIP_OK |> <| io_src := icmp_in_specific_dst (ip4_dst d) (ra_if_addr (recv_args io)) (ra_if_mask (recv_args io)) |>
    <| io_dst := ip4_src d |> <| io_type := icmp_type (carried d) |> <| io_code := icmp_code (carried d) |> <| io_cksum_ok := true |>.

Lemma recv_valid word swap eb w d out : arrives word swap w d out → 4 ≤ Z.of_nat (length (carried d)) → cksum_valid word swap (carried d) = true →
  let msg := drop (Z.to_nat (ip4_hdr_len d)) d in
  let n := Z.of_nat (length (carried d)) in
  w_io (idemip_icmp_in_recv word swap eb w) =
    (if icmp_is_error (carried d) then icmp_in_error_arrived (io_on (w_io w) d) msg n
     else icmp_in_query_arrived word swap eb (io_on (w_io w) d) msg n (ip4_dst d) out) ∧
  w_ctx (idemip_icmp_in_recv word swap eb w) = w_ctx w.
Proof.
  intros Ha Hn Hck msg n. pose proof (carried_facts _ _ _ _ _ Ha) as (Hh&Ht&Hl&_). destruct Ha as (Hr&Hd&Ho&_&_&Hv&Hc).
  assert (icmp_type (carried d) = icmp_type msg ∧ icmp_code (carried d) = icmp_code msg ∧ icmp_is_error (carried d) = icmp_is_error msg) as (E1&E2&E3).
  { unfold icmp_type, icmp_code, icmp_is_error, IDEMIP_ICMP_OFF_TYPE, IDEMIP_ICMP_OFF_CODE, carried. rewrite !get_take by lia. done. }
  unfold idemip_icmp_in_recv. destruct w as [io ctx]. cbn [w_io w_ctx] in *.
  change (recv_args ((icmp_in_result_clear io) <| io_status := IDEMIP_ERR |>)) with (recv_args io). rewrite Hd, Ho, Hr, Hv. cbn [negb Z.eqb].
  rewrite Z.eqb_refl, bool_decide_eq_true_2 by done. cbn [negb orb].
  rewrite (proj2 (Z.ltb_ge _ _)) by (unfold IDEMIP_ICMP_ECHO_HDR_LEN; lia). rewrite (proj2 (Z.ltb_ge _ _)) by (unfold IDEMIP_ICMP_HDR_LEN; lia).
  fold msg. fold (carried d) in Hck. unfold carried in Hck. fold msg in Hck. rewrite Hck. cbn [negb]. rewrite E3, <- Hl. fold n.
  split; [|by destruct (icmp_is_error msg)].
  assert ((((icmp_in_result_clear io) <| io_status := IDEMIP_ERR |> <| io_src := icmp_in_specific_dst (ip4_dst d) (ra_if_addr (recv_args io)) (ra_if_mask (recv_args io)) |>
    <| io_dst := ip4_src d |> <| io_status := IDEMIP_OK |>) <| io_type := icmp_type msg |> <| io_code := icmp_code msg |> <| io_cksum_ok := true |>) = io_on io d) as Eio.
  { unfold io_on. rewrite E1, E2. reflexivity. }
  destruct (icmp_is_error msg); cbn [w_io]; unfold put_io; cbn [w_io]; by rewrite Eio.
Qed.
(** ** The Echo Reply *)

(** A region with the first octets of a request copied to it and turned into the reply. *)
Lemma reply_built word swap (out msg : list Z) n len : build word → octets out → octets msg → 8 ≤ len ≤ n → n ≤ 65535 → n ≤ Z.of_nat (length msg) → len ≤ Z.of_nat (length out) →
  ∃ reply, icmp_echo_reply word swap (memcpy out 0 msg len) len = wr out reply ∧ Z.of_nat (length reply) = len ∧ octets reply ∧
    icmp_type reply = IDEMIP_ICMP_ECHO_REPLY ∧ icmp_code reply = 0 ∧ icmp_id reply = icmp_id msg ∧ icmp_seq reply = icmp_seq msg ∧
    drop 8 reply = take (Z.to_nat (len - 8)) (drop 8 msg) ∧ cksum_valid word swap reply = true.
Proof.
  intros Hb Hoo Hmo Hl Hn Hm Ho. pose proof (memcpy_wr out [] msg len ltac:(lia)) as Hcp. change (wr out []) with out in Hcp. change (Z.of_nat (length [])) with 0 in Hcp.
  cbn [app] in Hcp. rewrite Hcp. set (c := take (Z.to_nat len) msg). assert (length c = Z.to_nat len) as Hcl by (unfold c; rewrite length_take; lia).
  assert (length (wr out c) = length out) as Hwl by (unfold wr; rewrite length_app, length_drop; lia).
  assert (icmp_id (wr out c) = icmp_id msg ∧ icmp_seq (wr out c) = icmp_seq msg) as [Ei Es].
  { assert (agree 8 (wr out c) msg) as Hag. { unfold agree, wr. rewrite take_app_le by lia. unfold c. rewrite take_take. f_equal. lia. }
    unfold icmp_id, icmp_seq, IDEMIP_ICMP_OFF_ID, IDEMIP_ICMP_OFF_SEQ. split; apply (agree_rd16 8); (done || lia). }
  pose proof (rd16_range msg IDEMIP_ICMP_OFF_ID) as Hi. pose proof (rd16_range msg IDEMIP_ICMP_OFF_SEQ) as Hs. fold (icmp_id msg) in Hi. fold (icmp_seq msg) in Hs.
  set (data := take (Z.to_nat (len - 8)) (drop 8 msg)). assert (octets data) as Hdo by (by apply Forall_take, Forall_drop).
  assert (length data = Z.to_nat (len - 8)) as Hdl by (unfold data; rewrite length_take, length_drop; lia).
  assert (take (Z.to_nat (len - 8)) (drop 8 (wr out c)) = data) as Hdat.
  { unfold wr. rewrite drop_app_le, take_app_le by (rewrite ?length_drop; lia). unfold c, data. rewrite skipn_firstn_comm, take_take. f_equal. lia. }
  set (four := be16 (icmp_id msg) ++ be16 (icmp_seq msg)). assert (octets four) as Hfo by (apply Forall_app; split; by apply be16_octets).
  destruct (message_closes word swap IDEMIP_ICMP_ECHO_REPLY 0 four data Hb) as [Hk Hv]; [unfold is_u8, IDEMIP_ICMP_ECHO_REPLY; lia|unfold is_u8; lia|done|done|cbn; lia|].
  set (ck := closing _ _ _ _ _ _) in *. exists (message IDEMIP_ICMP_ECHO_REPLY 0 ck four data).
  destruct (message_reads IDEMIP_ICMP_ECHO_REPLY 0 ck four data Hk eq_refl) as (R1&R2&_&R3&R4). split_and!; [| |apply message_octets; try done; unfold is_u8, IDEMIP_ICMP_ECHO_REPLY; lia|done|done| | |done|done].
  - unfold icmp_echo_reply. rewrite Ei, Es. rewrite echo_built; [rewrite Hdat; fold four; fold ck|lia|lia|done|done|rewrite Hdat; exact Hk].
    unfold message, wr. rewrite <- !app_assoc. do 4 f_equal. rewrite drop_app_le by lia. rewrite <- (firstn_skipn (Z.to_nat (len - 8)) (drop 8 c)).
    assert (take (Z.to_nat (len - 8)) (drop 8 c) = data) as -> by (unfold c, data; rewrite skipn_firstn_comm, take_take; f_equal; lia).
    rewrite (drop_ge (drop 8 c)) by (rewrite length_drop; lia). rewrite app_nil_r. do 2 f_equal. rewrite !length_app, Hdl, Hcl. cbn. lia.
  - unfold message. rewrite !length_app, Hdl. cbn. lia.
  - unfold icmp_id, rd16, message. change (Z.to_nat IDEMIP_ICMP_OFF_ID) with 4%nat. unfold four. by apply (rd16_be16 (icmp_id msg)).
  - unfold icmp_seq, rd16, message. change (Z.to_nat IDEMIP_ICMP_OFF_SEQ) with 6%nat. unfold four. by apply (rd16_be16 (icmp_seq msg)).
Qed.

(** An address RFC 1122 section 3.2.1.3 gives to more than one host: class D, all ones, or a host part of
    all ones under the interface's mask or under the class of its network. *)
Definition to_many (dst if_mask : Z) : bool := icmp_in_is_multicast dst || icmp_in_is_broadcast dst if_mask.

Lemma not_error d : icmp_type d = IDEMIP_ICMP_ECHO ∨ icmp_type d = IDEMIP_ICMP_ECHO_REPLY → icmp_is_error d = false.
Proof. unfold icmp_is_error. fold (icmp_type d). by intros [-> | ->]. Qed.

Lemma io_on_reads io d : io_status (io_on io d) = IDEMIP_OK ∧ io_act (io_on io d) = 0 ∧ io_type (io_on io d) = icmp_type (carried d) ∧
  recv_args (io_on io d) = recv_args io ∧ err_args (io_on io d) = err_args io ∧ io_dst (io_on io d) = ip4_src d ∧
  io_src (io_on io d) = icmp_in_specific_dst (ip4_dst d) (ra_if_addr (recv_args io)) (ra_if_mask (recv_args io)).
Proof. done. Qed.

(** The identifier and the sequence number a message carries are those of the octets behind the header. *)
Lemma carried_echo word swap w d out : arrives word swap w d out → 8 ≤ Z.of_nat (length (carried d)) →
  let msg := drop (Z.to_nat (ip4_hdr_len d)) d in icmp_id msg = icmp_id (carried d) ∧ icmp_seq msg = icmp_seq (carried d).
Proof.
  intros Ha Hn msg. pose proof (carried_facts _ _ _ _ _ Ha) as (_&_&Hl&_). unfold icmp_id, icmp_seq, carried, IDEMIP_ICMP_OFF_ID, IDEMIP_ICMP_OFF_SEQ.
  by rewrite !rd16_take by lia.
Qed.

(** What the user is handed. *)
Lemma reply_arrives word swap eb w d out : arrives word swap w d out → cksum_valid word swap (carried d) = true →
  icmp_type (carried d) = IDEMIP_ICMP_ECHO_REPLY → 8 ≤ Z.of_nat (length (carried d)) →
  let io := w_io (idemip_icmp_in_recv word swap eb w) in
  io_status io = IDEMIP_OK ∧ io_act io = IDEMIP_ICMP_IN_ACT_USER ∧ io_id io = icmp_id (carried d) ∧ io_seq io = icmp_seq (carried d).
Proof.
  intros Ha Hck Ht Hn io. subst io. destruct (recv_valid word swap eb w d out Ha ltac:(lia) Hck) as [-> _]. rewrite not_error by tauto.
  destruct (carried_echo _ _ _ _ _ Ha Hn) as [Ei Es]. destruct (io_on_reads (w_io w) d) as (R1&R2&R3&_). rewrite Ht in R3.
  unfold icmp_in_query_arrived. generalize dependent (io_on (w_io w) d). intros i R1 R2 R3. rewrite R3. cbn [negb andb Z.eqb IDEMIP_ICMP_ECHO_REPLY IDEMIP_ICMP_ECHO].
  rewrite (proj2 (Z.ltb_ge _ _)) by (unfold IDEMIP_ICMP_ECHO_HDR_LEN; lia).
  change (io_type (i <| io_id := ?x |> <| io_seq := ?y |>)) with (io_type i). rewrite R3. cbn [Z.eqb IDEMIP_ICMP_ECHO_REPLY].
  rewrite Ei, Es. split_and!; [exact R1| |done|done]. change (Z.lor (io_act i) IDEMIP_ICMP_IN_ACT_USER = IDEMIP_ICMP_IN_ACT_USER). by rewrite R2.
Qed.

(** What a query that is answered leaves. *)
Lemma query_reply word swap eb io msg n dst out : io_type io = IDEMIP_ICMP_ECHO → 8 ≤ n → eb = true ∨ to_many dst (ra_if_mask (recv_args io)) = false →
  let cap := ra_out_cap (recv_args io) in
  ∃ r, icmp_in_query_arrived word swap eb io msg n dst out = r ∧ io_truncated r = (cap <? n) ∧ io_dst r = io_dst io ∧ io_src r = io_src io ∧
    io_out_len r = Z.min n cap ∧ ra_out (recv_args r) = Some (icmp_echo_reply word swap (memcpy out 0 msg (Z.min n cap)) (Z.min n cap)) ∧
    io_status r = io_status io ∧ io_act r = Z.lor (io_act io) IDEMIP_ICMP_IN_ACT_REPLY.
Proof.
  intros Ht Hn Hone cap. eexists. split; [reflexivity|]. unfold icmp_in_query_arrived. rewrite Ht. cbn [negb andb Z.eqb IDEMIP_ICMP_ECHO_REPLY IDEMIP_ICMP_ECHO].
  rewrite (proj2 (Z.ltb_ge _ _)) by (unfold IDEMIP_ICMP_ECHO_HDR_LEN; lia). destruct io as [ra ea st ol sr ds gw qd ac ty co pr id sq su tk ck bl tr].
  cbn [io_type io_act io_status io_dst io_src recv_args] in *. cbn. rewrite Ht. cbn [Z.eqb IDEMIP_ICMP_ECHO_REPLY IDEMIP_ICMP_ECHO].
  fold (to_many dst (ra_if_mask ra)). replace (negb eb && to_many dst (ra_if_mask ra)) with false by (destruct Hone as [-> | ->]; [done|by rewrite andb_false_r]).
  unfold icmp_in_build_echo_reply. cbn. fold cap. destruct (Z.ltb_spec cap n); [rewrite Z.min_r by lia|rewrite Z.min_l by lia]; done.
Qed.

(** An Echo comes back whole.  For a verified datagram that carries an Echo of a good checksum, addressed
    to one host (or to many, in a build that answers those), the call reports OK and a reply: the identifier,
    the sequence number and the data of the request up to the buffer's size, type and code zero, a checksum
    that verifies, from the address the request was sent to, to the address it came from, and nothing of the
    buffer behind it is written.  Whoever receives that reply in a verified datagram passes it to the user
    with the identifier and the sequence number the request had. *)
Theorem echo_comes_back (word : option nat) (swap eb : bool) (w : Work) (d out : list Z) :
  build word → octets out → arrives word swap w d out → cksum_valid word swap (carried d) = true →
  icmp_type (carried d) = IDEMIP_ICMP_ECHO → 8 ≤ Z.of_nat (length (carried d)) → eb = true ∨ to_many (ip4_dst d) (ra_if_mask (recv_args (w_io w))) = false →
  let n := Z.of_nat (length (carried d)) in
  let cap := ra_out_cap (recv_args (w_io w)) in
  let io := w_io (idemip_icmp_in_recv word swap eb w) in
  io_status io = IDEMIP_OK ∧ io_act io = IDEMIP_ICMP_IN_ACT_REPLY ∧ io_out_len io = Z.min n cap ∧ io_truncated io = (cap <? n) ∧
  io_dst io = ip4_src d ∧ io_src io = icmp_in_specific_dst (ip4_dst d) (ra_if_addr (recv_args (w_io w))) (ra_if_mask (recv_args (w_io w))) ∧
  ∃ reply, ra_out (recv_args io) = Some (wr out reply) ∧ Z.of_nat (length reply) = Z.min n cap ∧
    icmp_type reply = IDEMIP_ICMP_ECHO_REPLY ∧ icmp_code reply = 0 ∧ icmp_id reply = icmp_id (carried d) ∧ icmp_seq reply = icmp_seq (carried d) ∧
    drop 8 reply = take (Z.to_nat (Z.min n cap - 8)) (drop 8 (carried d)) ∧ cksum_valid word swap reply = true ∧
    ∀ w' d' out', arrives word swap w' d' out' → carried d' = reply →
      let io' := w_io (idemip_icmp_in_recv word swap eb w') in
      io_status io' = IDEMIP_OK ∧ io_act io' = IDEMIP_ICMP_IN_ACT_USER ∧ io_id io' = icmp_id (carried d) ∧ io_seq io' = icmp_seq (carried d).
Proof.
  intros Hb Hoo Ha Hck Ht Hn Hone n cap io. subst io. destruct (recv_valid word swap eb w d out Ha ltac:(lia) Hck) as [-> _]. rewrite not_error by tauto.
  destruct (carried_echo _ _ _ _ _ Ha Hn) as [Ei Es]. pose proof (carried_facts _ _ _ _ _ Ha) as (Hh&Htl&Hl&Hco). fold n in Hl, Hn |- *.
  pose proof (io_on_reads (w_io w) d) as (R1&R2&R3&R4&_&R5&R6). rewrite Ht in R3. set (msg := drop (Z.to_nat (ip4_hdr_len d)) d) in *.
  pose proof Ha as (_&_&_&Hdo&Hlen&_&Hcap). fold cap in Hcap.
  assert (n ≤ Z.of_nat (length msg)) as Hnm by (unfold msg, n, carried; rewrite length_take; lia).
  destruct (reply_built word swap out msg n (Z.min n cap) Hb Hoo ltac:(by apply Forall_drop) ltac:(lia) ltac:(lia) Hnm ltac:(lia)) as (reply&Er&Hrl&_&P1&P2&P3&P4&P5&P6).
  destruct (query_reply word swap eb (io_on (w_io w) d) msg n (ip4_dst d) out) as (i&->&E1&E2&E3&E4&E5&E6&E7); [exact R3|lia|by rewrite R4|].
  rewrite R4, R1, R5, R6 in *. fold cap in E1, E4, E5. rewrite Er in E5. rewrite R2 in E7. split_and!; [exact E6|exact E7|exact E4|exact E1|exact E2|exact E3|].
  exists reply. split_and!; [exact E5|done|done|done|by rewrite <- Ei|by rewrite <- Es| |done|].
  - rewrite P5. unfold carried. fold msg. rewrite skipn_firstn_comm, take_take. f_equal. unfold n in *. lia.
  - intros w' d' out' Ha' Hd'. rewrite <- Ei, <- Es, <- P3, <- P4, <- Hd'. apply (reply_arrives word swap eb w' d' out'); rewrite ?Hd'; (done || lia).
Qed.
(** An Echo to 10.0.0.2 from 10.0.0.1, and a borrow it arrives on. *)
Definition eg_fields (len : Z) : IdemIpIp4Fields := mkFields 0 len 1 0 64 1 0x0A000001 0x0A000002.
Definition eg_echo : list Z :=
  take 20 (ip4_build None false (replicate 20 0) (eg_fields 31)) ++ icmp_build_echo None false (replicate 8 0 ++ [1; 2; 3]) IDEMIP_ICMP_ECHO 9 5 11.
Definition eg_recv : Work :=
  mkWork (io_zero <| recv_args := mkRecvArgs (Some eg_echo) 31 (Some (replicate 12 0xEE)) 12 0x0A000002 0xFFFFFF00 false |>) (mkCtx ICMP_IN_READY 0 10).

Lemma echo_comes_back_witness :
  ∃ reply, ra_out (recv_args (w_io (idemip_icmp_in_recv None false false eg_recv))) = Some (wr (replicate 12 0xEE) reply) ∧
    icmp_seq reply = 5 ∧ drop 8 reply = [1; 2; 3] ∧ cksum_valid None false reply = true.
Proof.
  destruct (echo_comes_back None false false eg_recv eg_echo (replicate 12 0xEE)) as (_&_&_&_&_&_&reply&H1&_&_&_&_&H2&H3&H4&_).
  - exact I.
  - vm_compute. repeat constructor; discriminate.
  - split_and!; try (vm_compute; reflexivity); try (vm_compute; discriminate). vm_compute. repeat constructor; discriminate.
  - vm_compute. reflexivity.
  - vm_compute. reflexivity.
  - vm_compute. discriminate.
  - right. vm_compute. reflexivity.
  - exists reply. split_and!; [exact H1|exact H2|exact H3|exact H4].
Defined.

(** ** The addresses the rules name, as ranges *)

(** Class D. *)
Definition group (addr : Z) : Prop := 0xE0000000 ≤ addr < 0xF0000000.
(** The host part of all ones, by the class of the network. *)
Definition class_ones (addr : Z) : Prop :=
  addr < 0x80000000 ∧ addr mod 16777216 = 16777215 ∨ 0x80000000 ≤ addr < 0xC0000000 ∧ addr mod 65536 = 65535 ∨
  0xC0000000 ≤ addr < 0xE0000000 ∧ addr mod 256 = 255.
(** Every bit the interface's mask leaves to the host is one. *)
Definition mask_ones (addr mask : Z) : Prop := ∀ i, 0 ≤ i < 32 → Z.testbit mask i = false → Z.testbit addr i = true.
Definition all_hosts (addr mask : Z) : Prop :=
  addr = 0xFFFFFFFF ∨ addr < 0xE0000000 ∧ (mask ≠ 0xFFFFFFFF ∧ mask_ones addr mask ∨ class_ones addr).
Definition single_host (addr mask : Z) : Prop := addr ≠ 0 ∧ addr / 16777216 ≠ 127 ∧ addr < 0xE0000000 ∧ ¬ all_hosts addr mask.

Lemma class_iff addr : is_u32 addr → (icmp_in_is_multicast addr = true ↔ group addr) ∧ (icmp_in_is_class_e addr = true ↔ 0xF0000000 ≤ addr).
Proof.
  unfold icmp_in_is_multicast, icmp_in_is_class_e, group, ICMP_IN_CLASS_SHIFT, ICMP_IN_CLASS_D, ICMP_IN_CLASS_E. intros H.
  rewrite Z.shiftr_div_pow2, !Z.eqb_eq by lia. change (2 ^ 28) with 268435456. unfold is_u32 in H. split; split; intros; Z.div_mod_to_equations; lia.
Qed.

Lemma lor_ones addr mask : is_u32 addr → is_u32 mask → Z.lor addr mask = 0xFFFFFFFF ↔ mask_ones addr mask.
Proof.
  intros Ha Hm. change 0xFFFFFFFF with (Z.ones 32). unfold is_u32 in *. change 4294967296 with (2 ^ 32) in *. split.
  - intros E i Hi Hf. assert (Z.testbit (Z.lor addr mask) i = true) as Ht by (rewrite E; apply Z.ones_spec_low; lia).
    rewrite Z.lor_spec, Hf, orb_false_r in Ht. exact Ht.
  - intros Hb. apply Z.bits_inj'. intros i Hi. rewrite Z.lor_spec. destruct (Z.lt_ge_cases i 32).
    + rewrite Z.ones_spec_low by lia. destruct (Z.testbit mask i) eqn:E; [by rewrite orb_true_r|]. by rewrite (Hb i) by (done || lia).
    + by rewrite Z.ones_spec_high, (testbit_high 32 addr), (testbit_high 32 mask) by lia.
Qed.

Lemma lor_low addr k : 0 ≤ k → 0 ≤ addr → Z.lor addr (Z.shiftl (Z.ones (32 - k)) k) = 0xFFFFFFFF → 0 ≤ k ≤ 32 → addr mod 2 ^ k = 2 ^ k - 1.
Proof.
  intros Hk Ha E Hk2. rewrite <- Z.land_ones, Z.sub_1_r, <- Z.ones_equiv by lia. apply Z.bits_inj'. intros i Hi. rewrite Z.land_spec.
  destruct (Z.lt_ge_cases i k); [|by rewrite (Z.ones_spec_high k i), andb_false_r by lia]. rewrite Z.ones_spec_low, andb_true_r by lia.
  assert (Z.testbit (Z.lor addr (Z.shiftl (Z.ones (32 - k)) k)) i = true) as Ht by (rewrite E; change 0xFFFFFFFF with (Z.ones 32); apply Z.ones_spec_low; lia).
  rewrite Z.lor_spec, Z.shiftl_spec_low, orb_false_r in Ht by lia. exact Ht.
Qed.
Lemma lor_high addr k : is_u32 addr → 0 ≤ k ≤ 32 → addr mod 2 ^ k = 2 ^ k - 1 → Z.lor addr (Z.shiftl (Z.ones (32 - k)) k) = 0xFFFFFFFF.
Proof.
  intros Ha Hk E. change 0xFFFFFFFF with (Z.ones 32). apply Z.bits_inj'. intros i Hi. rewrite Z.lor_spec. destruct (Z.lt_ge_cases i k).
  - assert (Z.testbit (addr mod 2 ^ k) i = true) as Ht by (rewrite E, Z.sub_1_r, <- Z.ones_equiv; apply Z.ones_spec_low; lia).
    rewrite Z.mod_pow2_bits_low in Ht by lia. rewrite Ht. symmetry. apply Z.ones_spec_low. lia.
  - rewrite Z.shiftl_spec by lia. destruct (Z.lt_ge_cases i 32).
    + by rewrite !Z.ones_spec_low, orb_true_r by lia.
    + by rewrite !Z.ones_spec_high, (testbit_high 32 addr) by (unfold is_u32 in Ha; lia).
Qed.

Lemma top_bit addr k : is_u32 addr → 0 ≤ k < 32 → Z.land addr (2 ^ k) = 0 ↔ addr / 2 ^ k mod 2 = 0.
Proof.
  intros Ha Hk. rewrite <- Z.testbit_spec' by lia. split.
  - intros E. assert (Z.testbit (Z.land addr (2 ^ k)) k = false) as Ht by (by rewrite E, Z.bits_0). rewrite Z.land_spec, Z.pow2_bits_true, andb_true_r in Ht by lia. by rewrite Ht.
  - intros E. apply Z.bits_inj'. intros i Hi. rewrite Z.land_spec, Z.bits_0. destruct (decide (i = k)) as [->|].
    + destruct (Z.testbit addr k); [discriminate|done].
    + by rewrite Z.pow2_bits_false, andb_false_r by lia.
Qed.

Lemma class_mask addr : is_u32 addr → addr < 0xE0000000 → Z.lor addr (icmp_in_classful_mask addr) = 0xFFFFFFFF ↔ class_ones addr.
Proof.
  intros Ha Hc. unfold icmp_in_classful_mask, class_ones.
  pose proof (top_bit addr 31 Ha ltac:(lia)) as T31. pose proof (top_bit addr 30 Ha ltac:(lia)) as T30. pose proof (top_bit addr 29 Ha ltac:(lia)) as T29.
  change (2 ^ 31) with 0x80000000 in *. change (2 ^ 30) with 0x40000000 in *. change (2 ^ 29) with 0x20000000 in *.
  assert (∀ k, 0 ≤ k ≤ 32 → Z.lor addr (Z.shiftl (Z.ones (32 - k)) k) = 0xFFFFFFFF ↔ addr mod 2 ^ k = 2 ^ k - 1) as Hk.
  { intros k Hk. split; [intros; apply lor_low|apply lor_high]; (done || unfold is_u32 in *; lia). }
  pose proof (Hk 24 ltac:(lia)) as K24. pose proof (Hk 16 ltac:(lia)) as K16. pose proof (Hk 8 ltac:(lia)) as K8. clear Hk.
  change (Z.shiftl (Z.ones (32 - 24)) 24) with 0xFF000000 in *. change (Z.shiftl (Z.ones (32 - 16)) 16) with 0xFFFF0000 in *. change (Z.shiftl (Z.ones (32 - 8)) 8) with 0xFFFFFF00 in *.
  change (2 ^ 24) with 16777216 in *. change (2 ^ 16) with 65536 in *. change (2 ^ 8) with 256 in *.
  destruct (Z.eqb_spec (Z.land addr 0x80000000) 0) as [E31|E31]; [rewrite T31 in E31; rewrite K24; unfold is_u32 in Ha; clear - E31 Hc Ha; split; intros; Z.div_mod_to_equations; lia|].
  destruct (Z.eqb_spec (Z.land addr 0x40000000) 0) as [E30|E30]; [rewrite T31 in E31; rewrite T30 in E30; rewrite K16; unfold is_u32 in Ha; clear - E31 E30 Hc Ha; split; intros; Z.div_mod_to_equations; lia|].
  destruct (Z.eqb_spec (Z.land addr 0x20000000) 0) as [E29|E29]; [rewrite T31 in E31; rewrite T30 in E30; rewrite T29 in E29; rewrite K8; unfold is_u32 in Ha; clear - E31 E30 E29 Hc Ha; split; intros; Z.div_mod_to_equations; lia|].
  rewrite T31 in E31. rewrite T30 in E30. rewrite T29 in E29. exfalso. unfold is_u32 in Ha. clear - E31 E30 E29 Hc Ha. Z.div_mod_to_equations. lia.
Qed.
Lemma broadcast_iff addr mask : is_u32 addr → is_u32 mask → icmp_in_is_broadcast addr mask = true ↔ all_hosts addr mask.
Proof.
  intros Ha Hm. unfold icmp_in_is_broadcast, all_hosts, ICMP_IN_ALL_ONES. destruct (class_iff addr Ha) as [Hg He].
  destruct (Z.eqb_spec addr 0xFFFFFFFF) as [E|E]; [tauto|].
  destruct (icmp_in_is_multicast addr) eqn:Eg; cbn [orb]; [destruct Hg as [Hg _]; specialize (Hg eq_refl); unfold group in Hg; split; [done|lia]|].
  destruct (icmp_in_is_class_e addr) eqn:Ee; [destruct He as [He _]; specialize (He eq_refl); split; [done|lia]|].
  assert (addr < 0xE0000000) as Hlt.
  { apply Z.nle_gt. intros Hge. assert (¬ group addr) as Hng by (rewrite <- Hg; done). assert (¬ 0xF0000000 ≤ addr) as Hne by (rewrite <- He; done). unfold group in Hng. lia. }
  destruct (Z.eqb_spec mask 0xFFFFFFFF) as [Em|Em], (Z.eqb_spec (Z.lor addr mask) 0xFFFFFFFF) as [El|El]; cbn [negb andb];
    rewrite ?Z.eqb_eq, ?class_mask by done; rewrite lor_ones in El by done; tauto.
Qed.

Lemma single_iff addr mask : is_u32 addr → is_u32 mask → icmp_in_src_is_single_host addr mask = true ↔ single_host addr mask.
Proof.
  intros Ha Hm. unfold icmp_in_src_is_single_host, single_host, ICMP_IN_NET_SHIFT, ICMP_IN_LOOPBACK_NET. rewrite Z.shiftr_div_pow2 by lia. change (2 ^ 24) with 16777216.
  destruct (class_iff addr Ha) as [Hg He]. pose proof (broadcast_iff addr mask Ha Hm) as Hb. unfold group in Hg.
  destruct (Z.eqb_spec addr 0); cbn [orb]; [split; [done|tauto]|]. destruct (Z.eqb_spec (addr / 16777216) 127); [split; [done|tauto]|].
  destruct (icmp_in_is_multicast addr); cbn [orb]; [split; [done|]; destruct Hg as [Hg _]; specialize (Hg eq_refl); lia|].
  destruct (icmp_in_is_class_e addr); [split; [done|]; destruct He as [He _]; specialize (He eq_refl); lia|].
  assert (addr < 0xE0000000) as Hlt.
  { apply Z.nle_gt. intros Hge. destruct Hg as [_ Hg]. destruct He as [_ He]. destruct (Z.lt_ge_cases addr 0xF0000000); [specialize (Hg ltac:(lia))|specialize (He ltac:(lia))]; discriminate. }
  destruct (icmp_in_is_broadcast addr mask); cbn [negb]; [split; [done|]; tauto|]. split; [|done]. intros _. split_and!; [done..|]. rewrite <- Hb. done.
Qed.

(** ** Which datagrams an error is sent about *)

(** RFC 1122 section 3.2.2: not about an error, nor about what went or came to many, nor about a piece that
    is not the first, nor to a source that is no host. *)
Definition is_icmp_error (d : list Z) : Prop :=
  ip4_proto d = IDEMIP_IP4_PROTO_ICMP ∧ ip4_frag_units d = 0 ∧ 4 ≤ ip4_total_len d - ip4_hdr_len d ∧ icmp_is_error (carried d) = true.
Definition may_answer (a : IcmpInErrArgs) (d : list Z) : Prop :=
  ¬ is_icmp_error d ∧ ¬ group (ip4_dst d) ∧ ¬ all_hosts (ip4_dst d) (ea_if_mask a) ∧ ea_link_bcast a = false ∧ ip4_frag_units d = 0 ∧
  single_host (ip4_src d) (ea_if_mask a).


Lemma error_seen d : ip4_hdr_len d + 4 ≤ ip4_total_len d → icmp_is_error (drop (Z.to_nat (ip4_hdr_len d)) d) = icmp_is_error (carried d).
Proof. intros Hl. unfold icmp_is_error, IDEMIP_ICMP_OFF_TYPE, carried. rewrite get_take by lia. done. Qed.

Lemma suppressed_iff a d : octets d → is_u32 (ea_if_mask a) → icmp_in_suppressed a d = IDEMIP_ICMP_IN_SUPPRESS_NONE ↔ may_answer a d.
Proof.
  intros Ho Hm. pose proof (rd32_u32 d IDEMIP_IP4_OFF_DST Ho) as Hd. pose proof (rd32_u32 d IDEMIP_IP4_OFF_SRC Ho) as Hs. fold (ip4_dst d) in Hd. fold (ip4_src d) in Hs.
  destruct (class_iff _ Hd) as [Hg _]. pose proof (broadcast_iff _ _ Hd Hm) as Hb. pose proof (single_iff _ _ Hs Hm) as Hh.
  unfold icmp_in_suppressed, may_answer, is_icmp_error.
  assert ((ip4_hdr_len d + IDEMIP_ICMP_HDR_LEN <=? ip4_total_len d) && icmp_is_error (drop (Z.to_nat (ip4_hdr_len d)) d) =
          (ip4_hdr_len d + IDEMIP_ICMP_HDR_LEN <=? ip4_total_len d) && icmp_is_error (carried d)) as ->.
  { destruct (Z.leb_spec (ip4_hdr_len d + IDEMIP_ICMP_HDR_LEN) (ip4_total_len d)) as [H|]; [|done]. by rewrite error_seen. }
  unfold IDEMIP_ICMP_HDR_LEN, IDEMIP_IP4_PROTO_ICMP. repeat split_if; bool_prop; unfold IDEMIP_ICMP_IN_SUPPRESS_NONE, IDEMIP_ICMP_IN_SUPPRESS_ICMP_ERROR,
    IDEMIP_ICMP_IN_SUPPRESS_DST_MCAST, IDEMIP_ICMP_IN_SUPPRESS_DST_BCAST, IDEMIP_ICMP_IN_SUPPRESS_LINK_BCAST, IDEMIP_ICMP_IN_SUPPRESS_FRAGMENT, IDEMIP_ICMP_IN_SUPPRESS_SRC in *.
  all: split; intros Hx; [try discriminate Hx|try reflexivity; exfalso].
  all: try (destruct Hx as (N1&N2&N3&N4&N5&N6)).
  - apply N1. split_and!; [done|done|lia|done].
  - by apply N2, Hg.
  - by apply N3, Hb.
  - congruence.
  - done.
  - apply Hh in N6. congruence.
  - split_and!; [|rewrite <- Hg; congruence|rewrite <- Hb; congruence|done|done|by apply Hh].
    intros (?&?&?&Hie). repeat (destruct_or?; bool_prop); first [done|lia|congruence].
Qed.
(** ** An error about a datagram *)

Definition about (word : option nat) (swap : bool) (w : Work) (d out : list Z) : Prop :=
  let a := err_args (w_io w) in
  c_ready (w_ctx w) = ICMP_IN_READY ∧ ea_datagram a = Some d ∧ ea_out a = Some out ∧ octets d ∧ ea_len a ≤ Z.of_nat (length d) ∧
  ip4_verify_all word swap d (ea_len a) = IDEMIP_OK ∧ ea_out_cap a ≤ Z.of_nat (length out) ∧
  is_u32 (ea_if_mask a) ∧ is_u32 (ea_word a) ∧ is_u8 (ea_type a) ∧ is_u8 (ea_code a).

(** The types an error may have: a Redirect is a gateway's. *)
Definition error_type (t : Z) : Prop :=
  t = IDEMIP_ICMP_DEST_UNREACHABLE ∨ t = IDEMIP_ICMP_SOURCE_QUENCH ∨ t = IDEMIP_ICMP_TIME_EXCEEDED ∨ t = IDEMIP_ICMP_PARAMETER_PROBLEM.
(** The octets of the datagram an error quotes. *)
Definition quoted (d : list Z) : Z := Z.min (ip4_hdr_len d + 8) (ip4_total_len d).

Definition sendable (w : Work) (d : list Z) : Prop :=
  let a := err_args (w_io w) in error_type (ea_type a) ∧ may_answer a d ∧ 8 + quoted d ≤ ea_out_cap a.

Lemma error_type_iff t : icmp_is_error [t] = true ∧ (t =? IDEMIP_ICMP_REDIRECT) = false ↔ error_type t.
Proof.
  unfold icmp_is_error, error_type. change (tget [t] IDEMIP_ICMP_OFF_TYPE) with t.
  unfold IDEMIP_ICMP_DEST_UNREACHABLE, IDEMIP_ICMP_SOURCE_QUENCH, IDEMIP_ICMP_REDIRECT, IDEMIP_ICMP_TIME_EXCEEDED, IDEMIP_ICMP_PARAMETER_PROBLEM.
  rewrite !orb_true_iff, !Z.eqb_eq, Z.eqb_neq. lia.
Qed.

(** The result block of a call whose checks pass, and of one they stop. *)
Definition io_err (w : Work) (d : list Z) : IcmpInIo :=
  (icmp_in_result_clear (w_io w)) <| io_status := IDEMIP_ERR |> <| io_type := ea_type (err_args (w_io w)) |> <| io_code := ea_code (err_args (w_io w)) |>
    <| io_suppress := icmp_in_suppressed (err_args (w_io w)) d |>.

Lemma err_of_clear io : err_args ((icmp_in_result_clear io) <| io_status := IDEMIP_ERR |>) = err_args io.
Proof. done. Qed.
Lemma suppress_of io s : io_suppress (io <| io_suppress := s |>) = s.
Proof. done. Qed.

Lemma error_step word swap B T w d out : about word swap w d out →
  (sendable w d → idemip_icmp_in_error word swap B T w = error_spend word swap B T w (io_err w d) d out (quoted d) (8 + quoted d)) ∧
  (¬ sendable w d → let r := idemip_icmp_in_error word swap B T w in io_status (w_io r) = IDEMIP_ERR ∧ err_args (w_io r) = err_args (w_io w) ∧ w_ctx r = w_ctx w).
Proof.
  intros (Hr&Hd&Ho&Hdo&Hl&Hv&Hc&Hm&Hw&Ht&Hcd). unfold sendable. change IDEMIP_ICMP_ERR_HDR_LEN with 8. rewrite <- error_type_iff, <- suppressed_iff by done. unfold idemip_icmp_in_error, io_err. change IDEMIP_ICMP_ERR_HDR_LEN with 8.
  cbv zeta. rewrite err_of_clear, Hd, Ho.
  assert ((if ip4_total_len d <? ip4_hdr_len d + IDEMIP_ICMP_ERR_QUOTE_DATA then ip4_total_len d else ip4_hdr_len d + IDEMIP_ICMP_ERR_QUOTE_DATA) = quoted d) as ->.
  { unfold quoted, IDEMIP_ICMP_ERR_QUOTE_DATA. destruct (Z.ltb_spec (ip4_total_len d) (ip4_hdr_len d + 8)); lia. }
  rewrite Hr, Hv. rewrite Z.eqb_refl, bool_decide_eq_true_2 by done. cbn [negb].
  destruct (icmp_is_error [ea_type (err_args (w_io w))]); cbn [negb]; [|split; [intros [[? _] _]; done|by intros _]].
  destruct (ea_type (err_args (w_io w)) =? IDEMIP_ICMP_REDIRECT); [split; [intros [[_ ?] _]; done|by intros _]|].
  rewrite suppress_of. destruct (Z.eqb_spec (icmp_in_suppressed (err_args (w_io w)) d) IDEMIP_ICMP_IN_SUPPRESS_NONE) as [E|E]; cbn [negb]; [|split; [intros (_&?&_); done|by intros _]].
  destruct (Z.ltb_spec (ea_out_cap (err_args (w_io w))) (8 + quoted d)); [split; [lia|by intros _]|]. split; [|intros Hn; exfalso; apply Hn; done].
  intros _. reflexivity.
Qed.
(** The octets of the message: the head, closed, and the quote behind it. *)
Lemma error_message word swap (out d : list Z) type code err_word n : build word → octets d → is_u8 type → is_u8 code → is_u32 err_word →
  0 ≤ n ≤ 65527 → n ≤ Z.of_nat (length d) → 8 + n ≤ Z.of_nat (length out) →
  ∃ m, icmp_build_error word swap (memcpy out IDEMIP_ICMP_OFF_QUOTE d n) type code err_word (8 + n) = wr out m ∧ Z.of_nat (length m) = 8 + n ∧
    icmp_type m = type ∧ icmp_code m = code ∧ rd32 m 4 = err_word ∧ icmp_quote m = take (Z.to_nat n) d ∧ cksum_valid word swap m = true.
Proof.
  intros Hb Hd Ht Hc Hw Hn Hnd Ho. set (q := take (Z.to_nat n) d). assert (octets q) as Hq by (by apply Forall_take).
  assert (length q = Z.to_nat n) as Hql by (unfold q; rewrite length_take; lia).
  assert (memcpy out IDEMIP_ICMP_OFF_QUOTE d n = take 8 out ++ q ++ drop (Z.to_nat (8 + n)) out) as -> by reflexivity.
  set (w := take 8 out ++ q ++ drop (Z.to_nat (8 + n)) out). assert (length (take 8 out) = 8%nat) as H8 by (rewrite length_take; lia).
  assert (length w = length out) as Hwl by (unfold w; rewrite !length_app, length_drop; lia).
  assert (drop 8 w = q ++ drop (Z.to_nat (8 + n)) out) as Hdw by (unfold w; by rewrite drop_app_length').
  assert (take (Z.to_nat (8 + n - 8)) (drop 8 w) = q) as Htk by (rewrite Hdw, take_app_length' by lia; done).
  assert (octets (be32 err_word)) as Hfo by (by apply be32_octets).
  destruct (message_closes word swap type code (be32 err_word) q Hb) as [Hk Hv]; [done..|cbn; lia|]. set (ck := closing _ _ _ _ _ _) in *.
  exists (message type code ck (be32 err_word) q). destruct (message_reads type code ck (be32 err_word) q Hk eq_refl) as (R1&R2&_&R3&R4).
  split_and!; [| |done|done| |exact R4|exact Hv].
  - rewrite error_built; [|lia|lia|done|rewrite Htk; exact Hk]. rewrite Htk. fold ck. rewrite Hdw. unfold message, wr. rewrite <- !app_assoc. do 4 f_equal.
    rewrite !length_app, Hql. cbn [length be16 be32]. f_equal. lia.
  - unfold message. rewrite !length_app, Hql. cbn. lia.
  - unfold rd32. change (Z.to_nat 4) with 4%nat. rewrite R3. by apply rd32_be32.
Qed.

Lemma spend_spec word swap B T w io d out n len :
  let r := error_spend word swap B T w io d out n len in let a := err_args io in
  let s := spend B T (c_tokens (w_ctx w)) (c_refill_ms (w_ctx w)) (ea_now_ms a) in
  c_tokens (w_ctx r) = s.2.1 ∧ c_refill_ms (w_ctx r) = s.2.2 ∧ c_ready (w_ctx r) = c_ready (w_ctx w) ∧
  (s.1 = true → io_status (w_io r) = IDEMIP_OK ∧ io_out_len (w_io r) = len ∧ io_src (w_io r) = ip4_dst d ∧ io_dst (w_io r) = ip4_src d ∧
     err_args (w_io r) = a <| ea_out := Some (icmp_build_error word swap (memcpy out IDEMIP_ICMP_OFF_QUOTE d n) (ea_type a) (ea_code a) (ea_word a) len) |>) ∧
  (s.1 = false → io_status (w_io r) = IDEMIP_BUSY ∧ io_suppress (w_io r) = IDEMIP_ICMP_IN_SUPPRESS_RATE ∧ err_args (w_io r) = a).
Proof.
  cbv zeta. unfold error_spend, icmp_in_refill, spend. destruct w as [i ctx]. cbn [w_ctx]. destruct (refill B T _ _ _) as [k r].
  change (c_tokens (ctx <| c_tokens := k |> <| c_refill_ms := r |>)) with k. destruct (k =? 0); done.
Qed.

(** C32. The errors a host sends are the ones RFC 1122 section 3.2.2 lets it send.  A call that reports OK is
    about a datagram that is not itself an ICMP error, that neither went nor came to many, that is whole or a
    first piece, and whose source is one host; the message has the type, code and word asked for, quotes the
    internet header and the next eight octets unchanged, has a checksum that verifies, goes back to that
    source, and writes nothing of the buffer behind it.  No call about a datagram that carries such a message
    sends anything, so no error begets an error.  A call that is not OK writes nothing; one that may be
    answered into a buffer that holds the message is OK or, for the rate alone, BUSY. *)
Theorem errors_follow_rfc1122 (word : option nat) (swap : bool) (B T : Z) (w : Work) (d out : list Z) :
  build word → about word swap w d out →
  let a := err_args (w_io w) in
  let io := w_io (idemip_icmp_in_error word swap B T w) in
  (io_status io = IDEMIP_OK →
     error_type (ea_type a) ∧ may_answer a d ∧ io_out_len io = 8 + quoted d ∧ io_dst io = ip4_src d ∧ io_src io = ip4_dst d ∧
     ∃ m, ea_out (err_args io) = Some (wr out m) ∧ Z.of_nat (length m) = 8 + quoted d ∧ icmp_type m = ea_type a ∧ icmp_code m = ea_code a ∧
       rd32 m 4 = ea_word a ∧ icmp_quote m = take (Z.to_nat (quoted d)) d ∧ cksum_valid word swap m = true ∧
       ∀ w' d' out', about word swap w' d' out' → carried d' = m → ip4_proto d' = IDEMIP_IP4_PROTO_ICMP → ip4_frag_units d' = 0 →
         let r := w_io (idemip_icmp_in_error word swap B T w') in io_status r = IDEMIP_ERR ∧ ea_out (err_args r) = Some out') ∧
  (io_status io ≠ IDEMIP_OK → ea_out (err_args io) = Some out) ∧
  (sendable w d → io_status io = IDEMIP_OK ∨ io_status io = IDEMIP_BUSY ∧ io_suppress io = IDEMIP_ICMP_IN_SUPPRESS_RATE) ∧
  (¬ sendable w d → io_status io = IDEMIP_ERR).
Proof.
  intros Hb Ha a io. destruct (error_step word swap B T w d out Ha) as [Hs Hn]. pose proof Ha as (_&_&Ho&Hdo&Hl&Hv&Hc&_&Hw&Ht&Hcd). fold a in Ho, Hl, Hv, Hc, Hw, Ht, Hcd.
  destruct (ip4_verify_ok word swap d _ Hdo Hv) as (H1&H2&_&H4). unfold IDEMIP_IPV4_HDR_LEN, is_u16 in *.
  assert (sendable w d ∨ ¬ sendable w d) as [Hy|Hno].
  { unfold sendable. rewrite <- error_type_iff, <- suppressed_iff by (try done; apply Ha). destruct (decide (8 + quoted d ≤ ea_out_cap (err_args (w_io w)))); [|right; tauto].
    destruct (decide (icmp_in_suppressed (err_args (w_io w)) d = IDEMIP_ICMP_IN_SUPPRESS_NONE)); [|right; tauto].
    destruct (icmp_is_error _), (_ =? IDEMIP_ICMP_REDIRECT); (left; done) || (right; intros [[? ?] _]; done). }
  2:{ destruct (Hn Hno) as (E1&E2&_). subst io. rewrite E1, E2. split_and!; (done || tauto). }
  specialize (Hs Hy). clear Hn. pose proof Hy as (Hty&Hma&Hcap). fold a in Hty, Hma, Hcap. subst io. rewrite Hs.
  destruct (spend_spec word swap B T w (io_err w d) d out (quoted d) (8 + quoted d)) as (_&_&_&Hok&Hbusy).
  change (err_args (io_err w d)) with a in Hok, Hbusy. destruct (spend B T _ _ _) as [[|] s]; cbn [fst] in Hok, Hbusy.
  - destruct (Hok eq_refl) as (E1&E2&E3&E4&E5). rewrite E1, E2, E3, E4, E5. clear Hok Hbusy. split_and!; [|done|by left|intros; tauto]. intros _. split_and!; [done..|].
    destruct (error_message word swap out d (ea_type a) (ea_code a) (ea_word a) (quoted d)) as (m&Em&M1&M2&M3&M4&M5&M6); [done..|unfold quoted; lia|unfold quoted; lia|lia|].
    exists m. change (ea_out (a <| ea_out := ?x |>)) with x. rewrite Em. split_and!; [done..|]. intros w' d' out' Ha' Hcr Hpr Hfr.
    pose proof Ha' as (_&_&Ho'&Hdo'&Hl'&Hv'&_). destruct (ip4_verify_ok word swap d' _ Hdo' Hv') as (G1&G2&_&G4).
    destruct (error_step word swap B T w' d' out' Ha') as [_ Hn']. destruct Hn' as (F1&F2&_); [|by rewrite F1, F2].
    intros (_&(Hni&_)&_). apply Hni. split_and!; [done|done| |rewrite Hcr].
    + assert (8 ≤ Z.of_nat (length (carried d'))) as H8 by (rewrite Hcr, M1; unfold quoted; lia). unfold carried in H8. rewrite length_take in H8. lia.
    + apply error_type_iff in Hty as [Hty _]. unfold icmp_is_error in *. fold (icmp_type m). rewrite M2. exact Hty.
  - destruct (Hbusy eq_refl) as (E1&E2&E3). rewrite E1, E2, E3. split_and!; [done|done|by right|intros; tauto].
Qed.
(** A port unreachable about that Echo. *)
Definition eg_error : Work :=
  mkWork (io_zero <| err_args := mkErrArgs (Some eg_echo) 31 (Some (replicate 40 0xEE)) 40 0xFFFFFF00 0 0 IDEMIP_ICMP_DEST_UNREACHABLE 3 false |>) (mkCtx ICMP_IN_READY 0 10).

Lemma errors_follow_rfc1122_witness :
  may_answer (err_args (w_io eg_error)) eg_echo ∧ io_out_len (w_io (idemip_icmp_in_error None false 10 100 eg_error)) = 36.
Proof.
  destruct (errors_follow_rfc1122 None false 10 100 eg_error eg_echo (replicate 40 0xEE)) as [H _].
  - exact I.
  - split_and!; try (vm_compute; reflexivity); try (vm_compute; discriminate); try (split; vm_compute; (reflexivity || discriminate)). vm_compute. repeat constructor; discriminate.
  - destruct H as (_&H1&H2&_); [vm_compute; reflexivity|]. split; [exact H1|]. rewrite H2. vm_compute. reflexivity.
Defined.

(** ** How many go out *)

(** Calls at given times of a clock that does not wrap: how many are OK, and the borrow they leave. *)
Definition at_time (w : Work) (t : Z) (a : IcmpInErrArgs) : Work := put_io w ((w_io w) <| err_args := a <| ea_now_ms := u32 t |> |>).
Fixpoint error_run (word : option nat) (swap : bool) (B T : Z) (w : Work) (l : list (Z * IcmpInErrArgs)) : Z * Work :=
  match l with
  | [] => (0, w)
  | (t, a) :: l =>
      let w := idemip_icmp_in_error word swap B T (at_time w t a) in
      let '(n, w') := error_run word swap B T w l in ((if decide (io_status (w_io w) = IDEMIP_OK) then 1 else 0) + n, w')
  end.
(** The times do not run backwards from [t0] to [t1]. *)
Fixpoint in_time (t0 t1 : Z) (l : list (Z * IcmpInErrArgs)) : Prop :=
  match l with [] => t0 ≤ t1 | (t, _) :: l => t0 ≤ t ∧ in_time t t1 l end.

(** The checks that do not ask the bucket, and what they pass on. *)
Definition gate (word : option nat) (swap : bool) (ready : Z) (a : IcmpInErrArgs) : option (list Z * list Z) :=
  match ea_datagram a, ea_out a with
  | Some d, Some out =>
      if (ready =? ICMP_IN_READY) && bool_decide (ip4_verify_all word swap d (ea_len a) = IDEMIP_OK) && icmp_is_error [ea_type a] && negb (ea_type a =? IDEMIP_ICMP_REDIRECT) &&
         (icmp_in_suppressed a d =? IDEMIP_ICMP_IN_SUPPRESS_NONE) && negb (ea_out_cap a <? 8 + quoted d) then Some (d, out) else None
  | _, _ => None
  end.

Lemma error_gate word swap B T w :
  match gate word swap (c_ready (w_ctx w)) (err_args (w_io w)) with
  | Some (d, out) => idemip_icmp_in_error word swap B T w = error_spend word swap B T w (io_err w d) d out (quoted d) (8 + quoted d)
  | None => io_status (w_io (idemip_icmp_in_error word swap B T w)) = IDEMIP_ERR ∧ w_ctx (idemip_icmp_in_error word swap B T w) = w_ctx w
  end.
Proof.
  unfold gate, idemip_icmp_in_error, io_err. change IDEMIP_ICMP_ERR_HDR_LEN with 8. cbv zeta. rewrite err_of_clear.
  destruct (ea_datagram (err_args (w_io w))) as [d|]; [|done]. destruct (ea_out (err_args (w_io w))) as [out|]; [|done].
  assert ((if ip4_total_len d <? ip4_hdr_len d + IDEMIP_ICMP_ERR_QUOTE_DATA then ip4_total_len d else ip4_hdr_len d + IDEMIP_ICMP_ERR_QUOTE_DATA) = quoted d) as ->.
  { unfold quoted, IDEMIP_ICMP_ERR_QUOTE_DATA. destruct (Z.ltb_spec (ip4_total_len d) (ip4_hdr_len d + 8)); lia. }
  rewrite suppress_of. destruct (c_ready (w_ctx w) =? ICMP_IN_READY); cbn [negb andb]; [|done]. destruct (bool_decide _); cbn [negb andb]; [|done].
  destruct (icmp_is_error [ea_type (err_args (w_io w))]); cbn [negb andb]; [|done]. destruct (_ =? IDEMIP_ICMP_REDIRECT); cbn [negb andb]; [done|].
  destruct (icmp_in_suppressed (err_args (w_io w)) d =? IDEMIP_ICMP_IN_SUPPRESS_NONE); cbn [negb andb]; [|done]. by destruct (_ <? _).
Qed.

(** One call, whatever it is about, as the bucket sees it. *)
Lemma error_bucket word swap B T w :
  let r := idemip_icmp_in_error word swap B T w in
  let s := spend B T (c_tokens (w_ctx w)) (c_refill_ms (w_ctx w)) (ea_now_ms (err_args (w_io w))) in
  match gate word swap (c_ready (w_ctx w)) (err_args (w_io w)) with
  | None => io_status (w_io r) = IDEMIP_ERR ∧ w_ctx r = w_ctx w
  | Some _ => c_ready (w_ctx r) = c_ready (w_ctx w) ∧ (c_tokens (w_ctx r), c_refill_ms (w_ctx r)) = s.2 ∧ io_status (w_io r) = (if s.1 then IDEMIP_OK else IDEMIP_BUSY)
  end.
Proof.
  cbv zeta. pose proof (error_gate word swap B T w) as Hg. destruct (gate _ _ _ _) as [[d out]|]; [|exact Hg]. rewrite Hg.
  pose proof (spend_spec word swap B T w (io_err w d) d out (quoted d) (8 + quoted d)) as (E1&E2&E3&E4&E5). change (err_args (io_err w d)) with (err_args (w_io w)) in *.
  rewrite E1, E2. split_and!; [exact E3|by destruct (snd _)|]. destruct (spend B T _ _ _) as [[|] s]; [by apply E4|by apply E5].
Qed.

Lemma run_paid word swap B T l t0 t t1 w sent : 1 ≤ B ≤ 255 → 1 ≤ T → B * T < 4294967296 → in_time t t1 l →
  stands B T t0 t sent (c_tokens (w_ctx w)) (c_refill_ms (w_ctx w)) → sent + (error_run word swap B T w l).1 ≤ B + (t1 - t0) / T.
Proof.
  intros HB HT HW. revert t w sent. induction l as [|[t' a] l IH]; intros t w sent Hin Hst; cbn [error_run in_time fst] in *.
  { destruct Hst as [(->&_&?)|Hp]; [assert (0 ≤ (t1 - t0) / T) by (apply Z.div_pos; lia); lia|]. pose proof (paid_bound B T HB HT HW _ _ _ _ _ Hp) as Hb.
    assert ((t - t0) / T ≤ (t1 - t0) / T) by (apply Z.div_le_mono; lia). lia. }
  destruct Hin as [Ht Hin]. pose proof (error_bucket word swap B T (at_time w t' a)) as Hg. change (ea_now_ms (err_args (w_io (at_time w t' a)))) with (u32 t') in Hg.
  change (w_ctx (at_time w t' a)) with (w_ctx w) in Hg. set (r := idemip_icmp_in_error word swap B T (at_time w t' a)) in *. clearbody r.
  destruct (gate _ _ _ _).
  - destruct Hg as (_&Hs&Ho). pose proof (spend_paid B T HB HT HW t0 t t' sent _ _ Hst Ht) as Hp. destruct (spend B T _ _ _) as [ok [k m]]. cbn [fst snd] in *.
    injection Hs as Ek Em. destruct Hp as [Hp _]. rewrite <- Ek, <- Em in Hp. specialize (IH t' r _ Hin (or_intror Hp)). rewrite Ho.
    destruct (error_run word swap B T r l). cbn [fst] in *. destruct ok; [rewrite decide_True by done|rewrite decide_False by done]; lia.
  - destruct Hg as [E Ec]. rewrite E, decide_False by done. rewrite <- Ec in Hst.
    assert (stands B T t0 t' sent (c_tokens (w_ctx r)) (c_refill_ms (w_ctx r))) as Hst'.
    { destruct Hst as [(?&?&?)|(?&q&?&?&?)]; [left; split_and!; (done || lia)|right; split; [done|]; exists q; split_and!; (done || lia)]. }
    specialize (IH t' r sent Hin Hst'). destruct (error_run word swap B T r l). cbn [fst] in *. lia.
Qed.

(** Errors are rationed, and a refusal passes.  From a cleared borrow, over any calls about any datagrams at
    times that do not run backwards, however far apart, no more errors are OK than the bucket holds and one for
    each interval the time has gone by; and from any state of the bucket a call the rate refused is OK when it
    is made again an interval later, short of the wrap of the clock. *)
Theorem errors_rationed (word : option nat) (swap : bool) (B T : Z) (w0 w : Work) (l : list (Z * IcmpInErrArgs)) (t0 t1 t t' : Z) (a : IcmpInErrArgs) :
  1 ≤ B ≤ 255 → 1 ≤ T → B * T < 4294967296 → in_time t0 t1 l →
  0 ≤ c_tokens (w_ctx w) ≤ B → is_u32 (c_refill_ms (w_ctx w)) → T ≤ t' - t ≤ 4294967296 - T →
  (error_run word swap B T (idemip_icmp_in_clear B w0) l).1 ≤ B + (t1 - t0) / T ∧
  (let busy := idemip_icmp_in_error word swap B T (at_time w t a) in
   io_status (w_io busy) = IDEMIP_BUSY → io_status (w_io (idemip_icmp_in_error word swap B T (at_time busy t' a))) = IDEMIP_OK).
Proof.
  intros HB HT HW Hl Hk Hr Ht. split.
  - pose proof (run_paid word swap B T l t0 t0 t1 (idemip_icmp_in_clear B w0) 0 HB HT HW Hl) as H. apply H. left. split_and!; done.
  - intros busy Hb. pose proof (error_bucket word swap B T (at_time w t a)) as Hg. fold busy in Hg.
    change (ea_now_ms (err_args (w_io (at_time w t a)))) with (u32 t) in Hg. change (w_ctx (at_time w t a)) with (w_ctx w) in Hg.
    change (gate word swap (c_ready (w_ctx w)) (err_args (w_io (at_time w t a)))) with (gate word swap (c_ready (w_ctx w)) a) in Hg.
    pose proof (error_bucket word swap B T (at_time busy t' a)) as Hg'. change (ea_now_ms (err_args (w_io (at_time busy t' a)))) with (u32 t') in Hg'.
    change (w_ctx (at_time busy t' a)) with (w_ctx busy) in Hg'. change (gate word swap (c_ready (w_ctx busy)) (err_args (w_io (at_time busy t' a)))) with (gate word swap (c_ready (w_ctx busy)) a) in Hg'.
    clearbody busy. destruct (gate word swap (c_ready (w_ctx w)) a) eqn:Eg; [|destruct Hg as [E _]; rewrite E in Hb; discriminate].
    destruct Hg as (Er&Es&Eo). rewrite Er, Eg in Hg'. destruct Hg' as (_&_&->). unfold spend in *.
    pose proof (refill_waits B T HB HT HW (c_tokens (w_ctx w)) (c_refill_ms (w_ctx w)) (u32 t) Hk Hr) as H1. destruct (refill B T _ _ _) as [k m].
    destruct (Z.eqb_spec k 0) as [->|]; cbn [fst snd] in *; [|rewrite Eo in Hb; discriminate]. injection Es as Ek Em. destruct H1 as (_&H1&_). destruct (H1 eq_refl) as [-> H2].
    rewrite Ek, Em. pose proof (refill_waits B T HB HT HW 0 (c_refill_ms (w_ctx w)) (u32 t') ltac:(lia) Hr) as H3. destruct (refill B T 0 _ _) as [k' m'].
    destruct H3 as (_&_&H3). assert (T ≤ u32 (u32 t' - c_refill_ms (w_ctx w))) as Hel by (clear - H2 Ht Hr; wrap). specialize (H3 Hel). rewrite (proj2 (Z.eqb_neq _ _)) by lia. done.
Qed.
Definition eg_calls : list (Z * IcmpInErrArgs) := map (λ t, (t, err_args (w_io eg_error))) [5; 5; 5; 90; 110; 4294967300].
Definition eg_empty : Work := mkWork io_zero (mkCtx ICMP_IN_READY 7 0).

Lemma errors_rationed_witness :
  (error_run None false 2 100 (idemip_icmp_in_clear 2 eg_error) eg_calls).1 ≤ 2 + (4294967300 - 5) / 100 ∧
  io_status (w_io (idemip_icmp_in_error None false 2 100 (at_time eg_empty 60 (err_args (w_io eg_error))))) = IDEMIP_BUSY ∧
  io_status (w_io (idemip_icmp_in_error None false 2 100 (at_time (idemip_icmp_in_error None false 2 100 (at_time eg_empty 60 (err_args (w_io eg_error)))) 160
    (err_args (w_io eg_error))))) = IDEMIP_OK.
Proof.
  destruct (errors_rationed None false 2 100 eg_error eg_empty eg_calls 5 4294967300 60 160 (err_args (w_io eg_error))) as [H1 H2].
  - split; discriminate.
  - discriminate.
  - reflexivity.
  - vm_compute. repeat split; discriminate.
  - split; discriminate.
  - split; [discriminate|reflexivity].
  - split; discriminate.
  - split; [exact H1|]. split; [vm_compute; reflexivity|]. apply H2. vm_compute. reflexivity.
Defined.
End IcmpInThms.
