(* ===== verification/Pmtu4.v ===== *)
(** * IPv4 path MTU discovery (src/pmtu/pmtu4.c)

    RFC 1191's decisions: what a Datagram Too Big leaves the estimate of a path at, and when it rises again.
    The estimate itself is the routing table's; an entry decides and reports. *)
From S2P Require Import Prelude Base Wire Ipv4 Icmp.

Module Pmtu4.
Import Endian Ipv4 Icmp.

Definition PMTU4_READY : Z := 0x504D5434.
Definition IDEMIP_IP4_MIN_FORWARD_MTU : Z := 68.
Definition IDEMIP_PMTU4_PLATEAUS : nat := 11.
Definition IDEMIP_PMTU4_OFF_NEXT_HOP_MTU : Z := IDEMIP_ICMP_OFF_UNUSED + 2.
Definition IDEMIP_PMTU4_MSG_MIN : Z := IDEMIP_ICMP_OFF_QUOTE + IDEMIP_IPV4_HDR_LEN.

(** Table 7-1, largest first. *)
Definition pmtu4_plateau : list Z := [65535; 32000; 17914; 8166; 4352; 2002; 1492; 1006; 508; 296; 68].

Record Pmtu4TooBigArgs := mkTooBigArgs { ta_msg : option (list Z); ta_len : Z; ta_held : Z; ta_first_hop_mtu : Z }.
Record Pmtu4PlateauArgs := mkPlateauArgs { pa_size : Z; pa_first_hop_mtu : Z }.
Record Pmtu4AgeArgs := mkAgeArgs { ga_stamp_ms : Z; ga_raise_ms : Z; ga_pmtu : Z; ga_first_hop_mtu : Z }.
Record Pmtu4Io := mkIo {
  too_big_args : Pmtu4TooBigArgs; plateau_args : Pmtu4PlateauArgs; age_args : Pmtu4AgeArgs; io_now_ms : Z; io_dst : Z; io_mtu : Z; io_total_len : Z;
  io_next_hop_mtu : Z; io_status : IdemIpStatus; io_tos : Z; io_decreased : bool; io_old_style : bool }.
#[export] Instance Pmtu4Io_eta : Eta Pmtu4Io := fun r =>
  mkIo (too_big_args r) (plateau_args r) (age_args r) (io_now_ms r) (io_dst r) (io_mtu r) (io_total_len r) (io_next_hop_mtu r) (io_status r) (io_tos r)
    (io_decreased r) (io_old_style r).
Record Work := mkWork { w_io : Pmtu4Io; w_mark : Z }.
#[export] Instance Work_eta : Eta Work := fun r => mkWork (w_io r) (w_mark r).
Definition put_io (w : Work) (io : Pmtu4Io) : Work := w <| w_io := io |>.

Definition pmtu4_ready (w : Work) : bool := w_mark w =? PMTU4_READY.

(** ** The table *)
Definition pmtu4_below (size : Z) : Z :=
  match scan (λ i, tget pmtu4_plateau i <? size) IDEMIP_PMTU4_PLATEAUS 0 with Some i => tget pmtu4_plateau i | None => 0 end.
(** The rows from the last up. *)
Definition pmtu4_above (size : Z) : Z :=
  match scan (λ k, size <? tget pmtu4_plateau (Z.of_nat IDEMIP_PMTU4_PLATEAUS - 1 - k)) IDEMIP_PMTU4_PLATEAUS 0 with
  | Some k => tget pmtu4_plateau (Z.of_nat IDEMIP_PMTU4_PLATEAUS - 1 - k)
  | None => 0
  end.

(** ** The entries *)
Definition idemip_pmtu4_clear (w : Work) : Work := mkWork ((w_io w) <| io_status := IDEMIP_OK |>) PMTU4_READY.

(** The estimate the message gives, [None] where it gives none, and the results as they then stand. *)
Definition too_big_mtu (io : Pmtu4Io) (held hdr : Z) : Pmtu4Io * option Z :=
  let next := io_next_hop_mtu io in
  if negb (next =? 0) then (io, if next <? IDEMIP_IP4_MIN_FORWARD_MTU then None else Some next)
  else
  let io := io <| io_old_style := true |> in
  let len := io_total_len io in
  if negb (held =? 0) && (held <=? len) && (len <=? u16 hdr) then (io, None)
  else
  let '(io, len) := if negb (held =? 0) && (held <=? len)
                    then (io <| io_total_len := u16 (len - u16 hdr) |>, u16 (len - u16 hdr)) else (io, len) in
  let mtu := pmtu4_below len in
  (io, if mtu =? 0 then None else Some mtu).

Definition idemip_pmtu4_too_big (w : Work) : Work :=
  let io := (w_io w) <| io_status := IDEMIP_ERR |> <| io_dst := 0 |> <| io_mtu := 0 |> <| io_total_len := 0 |> <| io_next_hop_mtu := 0 |> <| io_tos := 0 |>
                     <| io_decreased := false |> <| io_old_style := false |> in
  let a := too_big_args io in
  match ta_msg a with
  | None => put_io w io
  | Some msg =>
      if negb (pmtu4_ready w) || (ta_len a <? IDEMIP_PMTU4_MSG_MIN) then put_io w io
      else if negb (icmp_type msg =? IDEMIP_ICMP_DEST_UNREACHABLE) || negb (icmp_code msg =? IDEMIP_ICMP_DU_FRAG_NEEDED) then put_io w io
      else
      let quote := icmp_quote msg in
      if negb (ip4_version_ok quote) || negb (ip4_ihl_ok quote) then put_io w io
      else
      let hdr := ip4_hdr_len quote in
      if ta_len a <? IDEMIP_ICMP_OFF_QUOTE + hdr then put_io w io
      else
      let io := io <| io_dst := ip4_dst quote |> <| io_tos := ip4_tos quote |> <| io_total_len := ip4_total_len quote |> in
      let held := if ta_held a =? 0 then ta_first_hop_mtu a else ta_held a in
      let io := io <| io_next_hop_mtu := rd16 msg IDEMIP_PMTU4_OFF_NEXT_HOP_MTU |> in
      let '(io, r) := too_big_mtu io held hdr in
      match r with
      | None => put_io w io
      | Some mtu =>
          let mtu := if negb (held =? 0) && (held <? mtu) then held else mtu in
          put_io w (io <| io_mtu := mtu |> <| io_decreased := negb (held =? 0) && (mtu <? held) |> <| io_status := IDEMIP_OK |>)
      end
  end.

Definition idemip_pmtu4_plateau_below (w : Work) : Work :=
  let io := (w_io w) <| io_status := IDEMIP_ERR |> <| io_mtu := 0 |> in
  if negb (pmtu4_ready w) then put_io w io
  else
  let mtu := pmtu4_below (pa_size (plateau_args io)) in
  if mtu =? 0 then put_io w io else put_io w (io <| io_mtu := mtu |> <| io_status := IDEMIP_OK |>).

Definition idemip_pmtu4_plateau_above (w : Work) : Work :=
  let io := (w_io w) <| io_status := IDEMIP_ERR |> <| io_mtu := 0 |> in
  if negb (pmtu4_ready w) then put_io w io
  else
  let size := pa_size (plateau_args io) in
  let bound := pa_first_hop_mtu (plateau_args io) in
  let mtu := pmtu4_above size in
  let mtu := if negb (bound =? 0) && ((mtu =? 0) || (bound <? mtu)) then bound else mtu in
  if (mtu =? 0) || (mtu <=? size) then put_io w io else put_io w (io <| io_mtu := mtu |> <| io_status := IDEMIP_OK |>).

Section Build.
Variables (INCREASE_MS RAISE_MS : Z).

Definition idemip_pmtu4_age (w : Work) : Work :=
  let io := (w_io w) <| io_status := IDEMIP_ERR |> <| io_mtu := 0 |> in
  let busy := io <| io_status := IDEMIP_BUSY |> in
  let a := age_args io in
  if negb (pmtu4_ready w) then put_io w io
  else if ga_first_hop_mtu a <? IDEMIP_IP4_MIN_FORWARD_MTU then put_io w io
  else if ga_pmtu a =? 0 then put_io w busy
  else if u32 (io_now_ms io - ga_stamp_ms a) <? INCREASE_MS then put_io w busy
  else if negb (ga_raise_ms a =? 0) && (u32 (io_now_ms io - ga_raise_ms a) <? RAISE_MS) then put_io w busy
  else
  let mtu := pmtu4_above (ga_pmtu a) in
  let mtu := if (mtu =? 0) || (ga_first_hop_mtu a <? mtu) then ga_first_hop_mtu a else mtu in
  if mtu <=? ga_pmtu a then put_io w busy else put_io w (io <| io_mtu := mtu |> <| io_status := IDEMIP_OK |>).
End Build.
End Pmtu4.

(** * A path's estimate: down by what a message says, up by the table

    A Datagram Too Big against RFC 1191 sections 3 to 5, and the climb of section 7.1 back to the first hop. *)
Module Pmtu4Thms.
Import Endian Checksum Look Ipv4 Icmp Pmtu4.

(** ** The table searched *)
Lemma below_eq size : pmtu4_below size = if 65535 <? size then 65535 else if 32000 <? size then 32000 else if 17914 <? size then 17914 else if 8166 <? size then 8166 else if 4352 <? size then 4352 else if 2002 <? size then 2002 else if 1492 <? size then 1492 else if 1006 <? size then 1006 else if 508 <? size then 508 else if 296 <? size then 296 else if 68 <? size then 68 else 0.
Proof.
  unfold pmtu4_below, IDEMIP_PMTU4_PLATEAUS. cbn [scan]. repeat match goal with |- context [tget pmtu4_plateau ?k] => let v := eval vm_compute in (tget pmtu4_plateau k) in change (tget pmtu4_plateau k) with v end.
  repeat (destruct (_ <? size); [reflexivity|]). reflexivity.
Qed.
Lemma above_eq size : pmtu4_above size = if size <? 68 then 68 else if size <? 296 then 296 else if size <? 508 then 508 else if size <? 1006 then 1006 else if size <? 1492 then 1492 else if size <? 2002 then 2002 else if size <? 4352 then 4352 else if size <? 8166 then 8166 else if size <? 17914 then 17914 else if size <? 32000 then 32000 else if size <? 65535 then 65535 else 0.
Proof.
  unfold pmtu4_above, IDEMIP_PMTU4_PLATEAUS. cbn [scan]. repeat match goal with |- context [tget pmtu4_plateau ?k] => let v := eval vm_compute in (tget pmtu4_plateau k) in change (tget pmtu4_plateau k) with v end.
  repeat (destruct (size <? _); [reflexivity|]). reflexivity.
Qed.

(** A row of the table, as the numbers it can be. *)
Lemma plateau_in p : p ∈ pmtu4_plateau ↔ p = 65535 ∨ p = 32000 ∨ p = 17914 ∨ p = 8166 ∨ p = 4352 ∨ p = 2002 ∨ p = 1492 ∨ p = 1006 ∨ p = 508 ∨ p = 296 ∨ p = 68.
Proof. unfold pmtu4_plateau. rewrite !elem_of_cons, elem_of_nil. tauto. Qed.

(** The search finds the greatest row below a size, and none only at or under the last row. *)
Lemma below_spec size : 0 ≤ size →
  (pmtu4_below size = 0 ∧ size ≤ 68) ∨
  (pmtu4_below size ∈ pmtu4_plateau ∧ 68 ≤ pmtu4_below size < size ∧ ∀ p, p ∈ pmtu4_plateau → p < size → p ≤ pmtu4_below size).
Proof.
  intros H0. rewrite plateau_in, below_eq. repeat split_if;
    [..|left; lia]. all: right; split_and!; [tauto|lia|lia|intros p Hp; rewrite plateau_in in Hp; lia].
Qed.
(** And the least one above it, none only at or over the first row. *)
Lemma above_spec size : 0 ≤ size →
  (pmtu4_above size = 0 ∧ 65535 ≤ size) ∨
  (pmtu4_above size ∈ pmtu4_plateau ∧ size < pmtu4_above size ≤ 65535 ∧ ∀ p, p ∈ pmtu4_plateau → size < p → pmtu4_above size ≤ p).
Proof.
  intros H0. rewrite plateau_in, above_eq. repeat split_if;
    try (right; split_and!; [tauto|lia|lia|intros p Hp; rewrite plateau_in in Hp; lia]). left. lia.
Qed.
(** ** What a Datagram Too Big says *)

(** The message as far as its quoted header: Type 3 Code 4 about an IPv4 datagram. *)
Definition too_big_message (msg : list Z) (len : Z) : Prop :=
  28 ≤ len ∧ icmp_type msg = 3 ∧ icmp_code msg = 4 ∧ ip4_version_ok (icmp_quote msg) = true ∧ ip4_ihl_ok (icmp_quote msg) = true ∧
  8 + ip4_hdr_len (icmp_quote msg) ≤ len.
#[export] Instance too_big_message_dec msg len : Decision (too_big_message msg len).
Proof. unfold too_big_message. apply _. Defined.

(** The estimate a row holds, the first hop's MTU where it holds none; zero for a path with neither. *)
Definition estimate (a : Pmtu4TooBigArgs) : Z := if ta_held a =? 0 then ta_first_hop_mtu a else ta_held a.
(** Section 5's Note: the quoted Total Length, less the quoted header where it is not below the estimate. *)
Definition corrected (est : Z) (quote : list Z) : Z :=
  if negb (est =? 0) && (est <=? ip4_total_len quote) then ip4_total_len quote - ip4_hdr_len quote else ip4_total_len quote.
(** The MTU a message names: the next hop's, or for an old router the greatest plateau below the length. *)
Inductive says (est : Z) (msg : list Z) : Z → Prop :=
  | says_next n : rd16 msg 6 = n → 68 ≤ n → says est msg n
  | says_plateau m : rd16 msg 6 = 0 → m ∈ pmtu4_plateau → m < corrected est (icmp_quote msg) →
      (∀ p, p ∈ pmtu4_plateau → p < corrected est (icmp_quote msg) → p ≤ m) → says est msg m.

Lemma u16_total msg : is_u16 (ip4_total_len msg).
Proof. apply rd16_range. Qed.

(** The entry's choice is what the message says. *)
Lemma too_big_mtu_says io est msg : octets msg → ip4_ihl_ok (icmp_quote msg) = true →
  io_next_hop_mtu io = rd16 msg 6 → io_total_len io = ip4_total_len (icmp_quote msg) →
  let '(io', r) := too_big_mtu io est (ip4_hdr_len (icmp_quote msg)) in
  (∀ m, r = Some m ↔ says est msg m) ∧ (∀ m, r = Some m → 68 ≤ m ≤ 65535) ∧
  too_big_args io' = too_big_args io ∧ io_dst io' = io_dst io ∧ io_status io' = io_status io ∧ io_decreased io' = io_decreased io ∧ io_mtu io' = io_mtu io ∧
  io_old_style io' = (if rd16 msg 6 =? 0 then true else io_old_style io).
Proof.
  intros Ho Hihl Hn Ht. set (q := icmp_quote msg) in *. assert (octets q) as Hq by (by apply Forall_drop).
  pose proof (u16_total q) as Hl. pose proof (rd16_range msg 6) as Hu. assert (20 ≤ ip4_hdr_len q ≤ 60) as Hh.
  { unfold ip4_ihl_ok, IDEMIP_IP4_IHL_MIN, IDEMIP_IP4_IHL_MAX in Hihl. bool_prop. pose proof (ip4_ihl_eq q Hq) as [_ ?]. rewrite ip4_hdr_len_eq in * by done. lia. }
  unfold too_big_mtu. rewrite Hn. unfold is_u16 in *. destruct (Z.eqb_spec (rd16 msg 6) 0) as [E|E]; cbn [negb].
  2:{ unfold IDEMIP_IP4_MIN_FORWARD_MTU. destruct (Z.ltb_spec (rd16 msg 6) 68); (split; [|split; [|done]]).
      - intros m. split; [done|]. intros [n ? ?|m' ? _ _ _]; [lia|done].
      - done.
      - intros m. split; [intros [= <-]; by constructor|]. intros [n Hr ?|m' ? _ _ _]; [by rewrite Hr|done].
      - intros m [= <-]. lia. }
  change (io_total_len (io <| io_old_style := true |>)) with (io_total_len io). rewrite Ht.
  assert (∀ x, 0 ≤ x → x = corrected est q → let r := if pmtu4_below x =? 0 then None else Some (pmtu4_below x) in
    (∀ m, r = Some m ↔ says est msg m) ∧ (∀ m, r = Some m → 68 ≤ m ≤ 65535)) as Hx.
  { intros x H0 Hx. destruct (below_spec x H0) as [[-> Hlt]|(Hin&Hlt&Hmax)]; cbn [Z.eqb].
    - split; [|done]. intros m. split; [done|]. intros [n ? ?|m' _ Hin Hlt' _]; [lia|]. fold q in Hlt'. rewrite <- Hx in Hlt'. apply plateau_in in Hin. lia.
    - rewrite (proj2 (Z.eqb_neq _ _)) by lia. split; [|intros m [= <-]; apply plateau_in in Hin; lia]. intros m. split.
      + intros [= <-]. apply says_plateau; fold q; rewrite <- ?Hx; (done || lia).
      + intros [n ? ?|m' _ Hin' Hlt' Hmax']; [lia|]. fold q in Hlt', Hmax'. rewrite <- Hx in Hlt', Hmax'. f_equal.
        specialize (Hmax m' Hin' Hlt'). specialize (Hmax' _ Hin ltac:(lia)). lia. }
  unfold corrected in Hx. destruct (negb (est =? 0) && (est <=? ip4_total_len q)); cbn [andb].
  - rewrite (u16_id (ip4_hdr_len q)) by (unfold is_u16; lia). destruct (Z.leb_spec (ip4_total_len q) (ip4_hdr_len q)).
    + split; [|done]. intros m. split; [done|]. intros [n ? ?|m' _ Hin Hlt _]; [lia|]. fold q in Hlt. apply plateau_in in Hin. unfold corrected in Hlt. revert Hlt. repeat split_if; lia.
    + rewrite u16_id by (unfold is_u16; lia). destruct (Hx (ip4_total_len q - ip4_hdr_len q)) as [H1 H2]; [lia|done|]. done.
  - destruct (Hx (ip4_total_len q)) as [H1 H2]; [lia|done|]. done.
Qed.
Lemma args_kept io : too_big_args (io <| io_status := IDEMIP_ERR |> <| io_dst := 0 |> <| io_mtu := 0 |> <| io_total_len := 0 |> <| io_next_hop_mtu := 0 |> <| io_tos := 0 |>
  <| io_decreased := false |> <| io_old_style := false |>) = too_big_args io.
Proof. done. Qed.

(** What a call has found before it looks at the MTU. *)
Definition io_found (io : Pmtu4Io) (msg : list Z) : Pmtu4Io :=
  io <| io_status := IDEMIP_ERR |> <| io_dst := 0 |> <| io_mtu := 0 |> <| io_total_len := 0 |> <| io_next_hop_mtu := 0 |> <| io_tos := 0 |>
     <| io_decreased := false |> <| io_old_style := false |>
     <| io_dst := ip4_dst (icmp_quote msg) |> <| io_tos := ip4_tos (icmp_quote msg) |> <| io_total_len := ip4_total_len (icmp_quote msg) |>
     <| io_next_hop_mtu := rd16 msg 6 |>.
Definition conclude (io : Pmtu4Io) (est : Z) (r : option Z) : Pmtu4Io :=
  match r with
  | None => io
  | Some mtu =>
      let mtu := if negb (est =? 0) && (est <? mtu) then est else mtu in
      io <| io_mtu := mtu |> <| io_decreased := negb (est =? 0) && (mtu <? est) |> <| io_status := IDEMIP_OK |>
  end.

Lemma found_reads io msg : let i := io_found io msg in
  io_status i = IDEMIP_ERR ∧ io_mtu i = 0 ∧ io_decreased i = false ∧ io_old_style i = false ∧ io_dst i = ip4_dst (icmp_quote msg) ∧ io_next_hop_mtu i = rd16 msg 6 ∧
  io_total_len i = ip4_total_len (icmp_quote msg).
Proof. done. Qed.

Lemma too_big_eq w msg : pmtu4_ready w = true → ta_msg (too_big_args (w_io w)) = Some msg →
  let a := too_big_args (w_io w) in let io := w_io (idemip_pmtu4_too_big w) in
  if decide (too_big_message msg (ta_len a))
  then io = let '(i, r) := too_big_mtu (io_found (w_io w) msg) (estimate a) (ip4_hdr_len (icmp_quote msg)) in conclude i (estimate a) r
  else io_status io = IDEMIP_ERR ∧ io_mtu io = 0 ∧ io_decreased io = false ∧ io_dst io = 0.
Proof.
  intros Hr Hm a io. subst a io. destruct w as [io mark]. cbn [w_io] in *. unfold idemip_pmtu4_too_big. cbn [w_io].
  rewrite args_kept, Hm, Hr. cbn [negb orb]. unfold IDEMIP_PMTU4_MSG_MIN, IDEMIP_ICMP_OFF_QUOTE, IDEMIP_IPV4_HDR_LEN, IDEMIP_ICMP_DEST_UNREACHABLE, IDEMIP_ICMP_DU_FRAG_NEEDED.
  destruct (decide _) as [(H1&H2&H3&H4&H5&H6)|Hno].
  2:{ destruct (Z.ltb_spec (ta_len (too_big_args io)) (8 + 20)) as [|H1]; [done|].
      destruct (Z.eqb_spec (icmp_type msg) 3) as [H2|]; cbn [negb orb]; [|done]. destruct (Z.eqb_spec (icmp_code msg) 4) as [H3|]; cbn [negb]; [|done].
      destruct (ip4_version_ok (icmp_quote msg)) eqn:H4; cbn [negb orb]; [|done]. destruct (ip4_ihl_ok (icmp_quote msg)) eqn:H5; cbn [negb]; [|done].
      destruct (Z.ltb_spec (ta_len (too_big_args io)) (8 + ip4_hdr_len (icmp_quote msg))) as [|H6]; [done|]. exfalso. apply Hno. split_and!; (done || lia). }
  rewrite (proj2 (Z.ltb_ge _ _)) by lia. rewrite H2, H3, H4, H5. cbn [Z.eqb negb orb Pos.eqb]. rewrite (proj2 (Z.ltb_ge _ _)) by lia.
  fold (estimate (too_big_args io)). change (rd16 msg IDEMIP_PMTU4_OFF_NEXT_HOP_MTU) with (rd16 msg 6).
  match goal with |- context [too_big_mtu ?i (estimate _) _] => change i with (io_found io msg) end.
  destruct (too_big_mtu _ _ _) as [i [m|]]; done.
Qed.

(** ** The octets it looks at *)
Definition shown (io : Pmtu4Io) : IdemIpStatus * Z * Z * bool := (io_status io, io_mtu io, io_dst io, io_decreased io).

Lemma conclude_ext i j est hdr : shown i = shown j → io_next_hop_mtu i = io_next_hop_mtu j → io_total_len i = io_total_len j →
  shown (let '(i, r) := too_big_mtu i est hdr in conclude i est r) = shown (let '(j, r) := too_big_mtu j est hdr in conclude j est r).
Proof.
  intros Hs Hn Ht. unfold shown in Hs. injection Hs as E1 E2 E3 E4. unfold too_big_mtu. rewrite <- Hn.
  change (io_total_len (i <| io_old_style := true |>)) with (io_total_len i). change (io_total_len (j <| io_old_style := true |>)) with (io_total_len j). rewrite <- Ht.
  destruct i, j. cbn [io_next_hop_mtu io_total_len io_status io_mtu io_dst io_decreased] in *. subst. repeat split_if; reflexivity.
Qed.

Lemma quote_agrees n msg msg' : 28 ≤ n → agree n msg msg' →
  (icmp_type msg, icmp_code msg, rd16 msg 6) = (icmp_type msg', icmp_code msg', rd16 msg' 6) ∧
  (ip4_version_ok (icmp_quote msg), ip4_ihl_ok (icmp_quote msg), ip4_hdr_len (icmp_quote msg), ip4_dst (icmp_quote msg), ip4_total_len (icmp_quote msg)) =
  (ip4_version_ok (icmp_quote msg'), ip4_ihl_ok (icmp_quote msg'), ip4_hdr_len (icmp_quote msg'), ip4_dst (icmp_quote msg'), ip4_total_len (icmp_quote msg')).
Proof.
  intros Hn Ha. split.
  - unfold icmp_type, icmp_code, IDEMIP_ICMP_OFF_TYPE, IDEMIP_ICMP_OFF_CODE. by rewrite !(agree_get n msg msg'), (agree_rd16 n msg msg') by (done || lia).
  - assert (agree (n - 8) (icmp_quote msg) (icmp_quote msg')) as Hq.
    { unfold agree, icmp_quote, IDEMIP_ICMP_OFF_QUOTE. rewrite !take_drop_commute. replace (Z.to_nat 8 + Z.to_nat (n - 8))%nat with (Z.to_nat n) by lia. by rewrite Ha. }
    generalize dependent (icmp_quote msg). generalize (icmp_quote msg'). intros q' q Hq.
    unfold ip4_version_ok, ip4_ihl_ok, ip4_hdr_len, ip4_version, ip4_ihl, ip4_dst, ip4_total_len, IDEMIP_IP4_OFF_VER_IHL, IDEMIP_IP4_OFF_DST, IDEMIP_IP4_OFF_TOTAL_LEN.
    by rewrite (agree_get (n - 8) q q' 0), (agree_rd32 (n - 8) q q' 16), (agree_rd16 (n - 8) q q' 2) by (done || lia).
Qed.

Lemma too_big_looks w msg msg' : pmtu4_ready w = true → ta_msg (too_big_args (w_io w)) = Some msg →
  let a := too_big_args (w_io w) in agree (ta_len a) msg msg' →
  let w' := put_io w ((w_io w) <| too_big_args := mkTooBigArgs (Some msg') (ta_len a) (ta_held a) (ta_first_hop_mtu a) |>) in
  shown (w_io (idemip_pmtu4_too_big w')) = shown (w_io (idemip_pmtu4_too_big w)).
Proof.
  intros Hr Hm a Ha w'. pose proof (too_big_eq w msg Hr Hm) as He. cbv zeta in He. fold a in He.
  pose proof (too_big_eq w' msg' Hr eq_refl) as He'. cbv zeta in He'. change (ta_len (too_big_args (w_io w'))) with (ta_len a) in He'.
  change (estimate (too_big_args (w_io w'))) with (estimate a) in He'.
  destruct (decide (28 ≤ ta_len a)) as [Hl|Hl].
  2:{ rewrite decide_False in He by (unfold too_big_message; lia). rewrite decide_False in He' by (unfold too_big_message; lia).
      destruct He as (E1&E2&E3&E4). destruct He' as (F1&F2&F3&F4). unfold shown. by rewrite E1, E2, E3, E4, F1, F2, F3, F4. }
  destruct (quote_agrees _ _ _ Hl Ha) as [Q1 Q2]. injection Q1 as Q1 Q1' Q1''. injection Q2 as Q2 Q3 Q4 Q5 Q6.
  assert (too_big_message msg (ta_len a) ↔ too_big_message msg' (ta_len a)) as Hiff by (unfold too_big_message; by rewrite Q1, Q1', Q2, Q3, Q4).
  destruct (decide (too_big_message msg (ta_len a))) as [D|D].
  - rewrite decide_True in He' by (by apply Hiff). rewrite He, He'. rewrite Q4. apply conclude_ext; [|exact (eq_sym Q1'')|exact (eq_sym Q6)].
    destruct (found_reads (w_io w) msg) as (E1&E2&E3&_&E5&_). destruct (found_reads (w_io w') msg') as (R1&R2&R3&_&R5&_). unfold shown. by rewrite E1, E2, E3, E5, R1, R2, R3, R5, Q5.
  - rewrite decide_False in He' by (by rewrite <- Hiff). destruct He as (E1&E2&E3&E4). destruct He' as (F1&F2&F3&F4). unfold shown. by rewrite E1, E2, E3, E4, F1, F2, F3, F4.
Qed.

(** A Datagram Too Big leaves a path's estimate where RFC 1191 sections 3 to 5 leave it.  The call is OK
    exactly for a Type 3 Code 4 message that carries its quoted header and says an MTU - the next hop's, never
    below 68, or from a router that names none the greatest plateau below the corrected length - and then
    reports, for the path the quote names, that MTU where it is below the estimate and the estimate where it
    is not: a message never raises an estimate, and never takes one below 68.  A call that is not OK is ERR
    and reports no MTU, and all of it depends on the octets the message has and no others. *)
Theorem too_big_follows_rfc1191 (w : Work) (msg : list Z) :
  pmtu4_ready w = true → ta_msg (too_big_args (w_io w)) = Some msg → octets msg →
  let a := too_big_args (w_io w) in
  let est := estimate a in
  let io := w_io (idemip_pmtu4_too_big w) in
  (io_status io = IDEMIP_OK ↔ too_big_message msg (ta_len a) ∧ ∃ m, says est msg m) ∧
  (∀ m, too_big_message msg (ta_len a) → says est msg m →
     io_mtu io = (if est =? 0 then m else Z.min m est) ∧ io_decreased io = (negb (est =? 0) && (m <? est)) ∧ io_dst io = ip4_dst (icmp_quote msg) ∧
     io_old_style io = (rd16 msg 6 =? 0)) ∧
  (io_status io = IDEMIP_OK → est = 0 ∨ 68 ≤ est → 68 ≤ io_mtu io ≤ 65535 ∧ (est = 0 ∨ io_mtu io ≤ est)) ∧
  (io_status io ≠ IDEMIP_OK → io_status io = IDEMIP_ERR ∧ io_mtu io = 0 ∧ io_decreased io = false) ∧
  (∀ msg', agree (ta_len a) msg msg' →
     let w' := put_io w ((w_io w) <| too_big_args := mkTooBigArgs (Some msg') (ta_len a) (ta_held a) (ta_first_hop_mtu a) |>) in
     shown (w_io (idemip_pmtu4_too_big w')) = shown io).
Proof.
  intros Hr Hm Ho a est io. pose proof (too_big_eq w msg Hr Hm) as He. cbv zeta in He. fold a in He. fold est in He. fold io in He.
  assert (∀ i m, conclude i est (Some m) = i <| io_mtu := if est =? 0 then m else Z.min m est |> <| io_decreased := negb (est =? 0) && (m <? est) |> <| io_status := IDEMIP_OK |>) as Hcon.
  { intros i m. unfold conclude. destruct (Z.eqb_spec est 0); cbn [negb andb]; [done|]. destruct (Z.ltb_spec est m).
    - rewrite Z.min_r, Z.ltb_irrefl, (proj2 (Z.ltb_ge _ _)) by lia. done.
    - by rewrite Z.min_l by lia. }
  destruct (decide (too_big_message msg (ta_len a))) as [D|D].
  - pose proof (too_big_looks w msg) as Hlk. cbv zeta in Hlk. fold a io in Hlk. pose proof D as (D1&_&_&_&D5&_). destruct (found_reads (w_io w) msg) as (R1&R2&R3&R4&R5&R6&R7). set (i0 := io_found (w_io w) msg) in *. clearbody i0.
    pose proof (too_big_mtu_says i0 est msg Ho D5 R6 R7) as Hs. destruct (too_big_mtu i0 est _) as [i r]. destruct Hs as (S1&S2&_&S4&S5&S6&S7&S8). rewrite R4 in S8.
    split_and!; [| | | |intros msg' Ha; by apply Hlk]; clear Hlk; clearbody io; subst io.
    + destruct r as [m|]; [rewrite Hcon; split; [intros _; split; [done|]; exists m; by apply S1|done]|]. cbn [conclude]. rewrite S5, R1. split; [done|]. intros [_ [m Hsm]]. apply S1 in Hsm. done.
    + intros m _ Hsm. apply S1 in Hsm. subst r. rewrite Hcon. split_and!; [done|done| |].
      * change (io_dst i = ip4_dst (icmp_quote msg)). by rewrite S4.
      * change (io_old_style i = (rd16 msg 6 =? 0)). rewrite S8. by destruct (rd16 msg 6 =? 0).
    + destruct r as [m|]; [|cbn [conclude]; by rewrite S5, R1]. intros _ Hest. specialize (S2 m eq_refl). rewrite Hcon.
      change (io_mtu (i <| io_mtu := ?v |> <| io_decreased := ?d |> <| io_status := ?s |>)) with v. split_if; lia.
    + destruct r as [m|]; [rewrite Hcon; done|]. cbn [conclude]. rewrite S5, S6, S7, R1, R2, R3. done.
  - destruct He as (E1&E2&E3&E4). split_and!; [rewrite E1; split; [done|tauto]|tauto|by rewrite E1|done|].
    intros msg' Ha. by apply (too_big_looks w msg msg').
Qed.

(** ** The climb back *)
(** Rows above an estimate. *)
Definition rows_above (e : Z) : nat := length (filter (λ p, e < p) pmtu4_plateau).

Lemma rows_drop e e' : e < e' → (∃ p, p ∈ pmtu4_plateau ∧ e < p ≤ e') → (rows_above e' < rows_above e)%nat.
Proof.
  intros Hlt (p&Hin&Hp). unfold rows_above. assert (NoDup pmtu4_plateau) as Hnd by (refine (bool_decide_eq_true_1 (NoDup pmtu4_plateau) _); vm_compute; reflexivity).
  assert (filter (λ p, e' < p) pmtu4_plateau ++ [p] ⊆+ filter (λ p, e < p) pmtu4_plateau) as Hs.
  { apply NoDup_submseteq; [apply NoDup_app; split_and!; [by apply NoDup_filter| |apply NoDup_singleton]|].
    - intros x Hx Hxp. apply list_elem_of_singleton in Hxp. subst. apply list_elem_of_filter in Hx as [? _]. lia.
    - intros x. rewrite elem_of_app, list_elem_of_singleton, !list_elem_of_filter. intros [[? ?]| ->]; split; (done || lia). }
  apply submseteq_length in Hs. rewrite length_app in Hs. change (length [p]) with 1%nat in Hs. lia.
Qed.

Lemma rows_most e : 68 ≤ e → (rows_above e < 11)%nat.
Proof.
  intros He. destruct (decide (e = 68)) as [->|]; [change (rows_above 68) with 10%nat; lia|]. assert (rows_above e < rows_above 67)%nat as H; [|change (rows_above 67) with 11%nat in H; exact H].
  apply rows_drop; [lia|]. exists 68. split; [apply plateau_in; tauto|lia].
Qed.

Section Climb.
Variables (INCREASE_MS RAISE_MS : Z).
Context (Hinc : 300000 ≤ INCREASE_MS < 4294967296) (Hraise : 60000 ≤ RAISE_MS < 4294967296).

(** A row aged: the estimate, when it last fell and when it last rose, at a time the table is swept. *)
Definition aged (w : Work) (pmtu stamp raise first_hop now : Z) : Work :=
  put_io w ((w_io w) <| age_args := mkAgeArgs stamp raise pmtu first_hop |> <| io_now_ms := now |>).
(** The estimate after sweeps at the given times, the raise stamped where one is made. *)
Fixpoint climb (w : Work) (pmtu stamp raise first_hop : Z) (times : list Z) : Z :=
  match times with
  | [] => pmtu
  | now :: times =>
      let io := w_io (idemip_pmtu4_age INCREASE_MS RAISE_MS (aged w pmtu stamp raise first_hop now)) in
      if decide (io_status io = IDEMIP_OK) then climb w (io_mtu io) stamp now first_hop times else climb w pmtu stamp raise first_hop times
  end.

Lemma age_spec w pmtu stamp raise first_hop now : pmtu4_ready w = true → 68 ≤ pmtu ≤ first_hop → first_hop ≤ 65535 →
  let io := w_io (idemip_pmtu4_age INCREASE_MS RAISE_MS (aged w pmtu stamp raise first_hop now)) in
  let due := INCREASE_MS ≤ u32 (now - stamp) ∧ (raise = 0 ∨ RAISE_MS ≤ u32 (now - raise)) in
  let next := if (pmtu4_above pmtu =? 0) || (first_hop <? pmtu4_above pmtu) then first_hop else pmtu4_above pmtu in
  if decide (due ∧ pmtu < first_hop) then io_status io = IDEMIP_OK ∧ io_mtu io = next ∧ pmtu < next ≤ first_hop else io_status io = IDEMIP_BUSY.
Proof.
  intros Hr Hp Hf io due next. subst io. unfold idemip_pmtu4_age. change (pmtu4_ready (aged w pmtu stamp raise first_hop now)) with (pmtu4_ready w). rewrite Hr. cbn [negb].
  change (age_args ((w_io (aged w pmtu stamp raise first_hop now)) <| io_status := IDEMIP_ERR |> <| io_mtu := 0 |>)) with (mkAgeArgs stamp raise pmtu first_hop).
  change (io_now_ms ((w_io (aged w pmtu stamp raise first_hop now)) <| io_status := IDEMIP_ERR |> <| io_mtu := 0 |>)) with now. cbn [ga_first_hop_mtu ga_pmtu ga_stamp_ms ga_raise_ms].
  unfold IDEMIP_IP4_MIN_FORWARD_MTU. rewrite (proj2 (Z.ltb_ge _ _)), (proj2 (Z.eqb_neq pmtu 0)) by lia. unfold due.
  destruct (Z.ltb_spec (u32 (now - stamp)) INCREASE_MS); [rewrite decide_False by lia; done|].
  destruct (Z.eqb_spec raise 0) as [E|E]; cbn [negb andb].
  2: destruct (Z.ltb_spec (u32 (now - raise)) RAISE_MS); [rewrite decide_False by lia; done|].
  all: fold next; destruct (above_spec pmtu ltac:(lia)) as [[Ea ?]|(_&?&_)].
  all: assert (pmtu ≤ next ≤ first_hop ∧ (pmtu < first_hop → pmtu < next)) as [Hn Hn2] by (unfold next; rewrite ?Ea; cbn [Z.eqb orb]; repeat split_if; destruct_or?; bool_prop; lia).
  all: destruct (Z.leb_spec next pmtu); [rewrite decide_False by lia; done|rewrite decide_True by lia; split_and!; (done || lia)].
Qed.

(** The sweeps wait as long as they must, within one period of the clock since the last decrease. *)
Fixpoint spaced (stamp last : Z) (times : list Z) : Prop :=
  match times with [] => True | t :: times => INCREASE_MS ≤ t - stamp < 4294967296 ∧ last + RAISE_MS ≤ t ∧ spaced stamp t times end.

(** Whatever the times, the estimate only rises, and never past the first hop. *)
Lemma climb_range times : ∀ w e f stamp raise, pmtu4_ready w = true → 68 ≤ e ≤ f → f ≤ 65535 → e ≤ climb w e stamp raise f times ≤ f.
Proof.
  induction times as [|t times IH]; intros w e f stamp raise Hr He Hf; cbn [climb]; [lia|].
  pose proof (age_spec w e stamp raise f t Hr He Hf) as Ha. cbv zeta in Ha. destruct (decide (_ ∧ e < f)) in Ha.
  - destruct Ha as (Hs&Hm&Hnx). rewrite decide_True by done. rewrite Hm. destruct (IH w (if (pmtu4_above e =? 0) || (f <? pmtu4_above e) then f else pmtu4_above e) f stamp t); (done || lia).
  - rewrite Ha, decide_False by done. by apply IH.
Qed.

Lemma climb_reaches times : ∀ w e f stamp last raise, pmtu4_ready w = true → 68 ≤ e ≤ f → f ≤ 65535 → stamp ≤ last → raise = 0 ∨ raise = u32 last →
  spaced stamp last times → (rows_above e < length times)%nat → climb w e (u32 stamp) raise f (map u32 times) = f.
Proof.
  induction times as [|t times IH]; intros w e f stamp last raise Hr He Hf Hsl Hraise0 Hsp Hn; [cbn in Hn; lia|].
  cbn [spaced] in Hsp. destruct Hsp as (Ht&Hlt&Hsp). destruct (decide (e < f)) as [Hef|Hef].
  2:{ assert (e = f) as -> by lia. pose proof (climb_range (map u32 (t :: times)) w f f (u32 stamp) raise Hr ltac:(lia) Hf). lia. }
  cbn [map climb]. pose proof (age_spec w e (u32 stamp) raise f (u32 t) Hr He Hf) as Ha. cbv zeta in Ha.
  assert (INCREASE_MS ≤ u32 (u32 t - u32 stamp) ∧ (raise = 0 ∨ RAISE_MS ≤ u32 (u32 t - raise))) as Hdue.
  { autorewrite with u32. rewrite u32_id by (unfold is_u32; lia). split; [lia|]. destruct Hraise0 as [->| ->]; [by left|right]. autorewrite with u32. rewrite u32_id by (unfold is_u32; lia). lia. }
  rewrite decide_True in Ha by tauto. destruct Ha as (Hs&Hm&Hnx). rewrite decide_True by done. rewrite Hm.
  destruct (above_spec e ltac:(lia)) as [[Ea ?]|(Hin&Hab&_)]; [lia|]. rewrite (proj2 (Z.eqb_neq (pmtu4_above e) 0)) in Hnx |- * by lia. cbn [orb] in Hnx |- *.
  destruct (Z.ltb_spec f (pmtu4_above e)) as [Hlow|Hhigh].
  - pose proof (climb_range (map u32 times) w f f (u32 stamp) (u32 t) Hr ltac:(lia) Hf). lia.
  - apply (IH w (pmtu4_above e) f stamp t); [done|lia|done|lia|by right|done|]. cbn [length] in Hn.
    assert (rows_above (pmtu4_above e) < rows_above e)%nat; [|lia]. apply rows_drop; [lia|]. exists (pmtu4_above e). split; [done|lia].
Qed.

End Climb.

(** An estimate climbs back.  Swept at any times, an estimate never falls and never passes the MTU of the
    first hop.  Swept eleven times or more, each past the interval since the last decrease and each a raise
    interval after the last, all within one period of the clock, it reaches the first hop's MTU, whether the
    clock wraps or not; before the first interval has gone by nothing is raised. *)
Theorem estimate_climbs_back (INCREASE_MS RAISE_MS : Z) (w : Work) (e f stamp : Z) (times : list Z) :
  300000 ≤ INCREASE_MS < 4294967296 → 60000 ≤ RAISE_MS < 4294967296 → pmtu4_ready w = true → 68 ≤ e ≤ f → f ≤ 65535 →
  (e ≤ climb INCREASE_MS RAISE_MS w e (u32 stamp) 0 f (map u32 times) ≤ f) ∧
  (spaced INCREASE_MS RAISE_MS stamp stamp times → (11 ≤ length times)%nat → climb INCREASE_MS RAISE_MS w e (u32 stamp) 0 f (map u32 times) = f) ∧
  (Forall (λ t, stamp ≤ t < stamp + INCREASE_MS) times → climb INCREASE_MS RAISE_MS w e (u32 stamp) 0 f (map u32 times) = e).
Proof.
  intros Hi Hra Hr He Hf. split; [by apply climb_range|split].
  - intros Hsp Hn. apply (climb_reaches INCREASE_MS RAISE_MS Hi Hra times w e f stamp stamp 0); try done; [by left|]. pose proof (rows_most e ltac:(lia)). lia.
  - intros Hall. induction Hall as [|t times Ht _ IH]; [done|]. cbn [map climb].
    pose proof (age_spec INCREASE_MS RAISE_MS w e (u32 stamp) 0 f (u32 t) Hr He Hf) as Ha. cbv zeta in Ha.
    rewrite decide_False in Ha by (autorewrite with u32; rewrite u32_id by (unfold is_u32; lia); lia). rewrite Ha, decide_False by done. exact IH.
Qed.

Lemma estimate_climbs_back_witness :
  let w := mkWork (mkIo (mkTooBigArgs None 0 0 0) (mkPlateauArgs 0 0) (mkAgeArgs 0 0 0 0) 0 0 0 0 0 IDEMIP_OK 0 false false) PMTU4_READY in
  climb 600000 120000 w 508 (u32 4294960000) 0 1500 (map u32 (map (λ k, 4294960000 + 600000 + 120000 * k) [0; 1; 2; 3; 4; 5; 6; 7; 8; 9; 10])) = 1500.
Proof.
  intros w. destruct (estimate_climbs_back 600000 120000 w 508 1500 4294960000 (map (λ k, 4294960000 + 600000 + 120000 * k) [0; 1; 2; 3; 4; 5; 6; 7; 8; 9; 10])) as (_&H&_);
    [split; [discriminate|reflexivity]|split; [discriminate|reflexivity]|reflexivity|split; discriminate|discriminate|].
  apply H; [|vm_compute; repeat constructor]. vm_compute. repeat split; discriminate.
Defined.

(** A message from a router that names no MTU, about a datagram of 1500 octets. *)
Definition eg_too_big : list Z := [3; 4; 0; 0; 0; 0; 0; 0; 0x45; 0; 5; 0xDC; 0; 1; 0x40; 0; 64; 6; 0; 0; 10; 0; 0; 1; 10; 9; 8; 7].
Lemma too_big_follows_rfc1191_witness :
  let w := mkWork (mkIo (mkTooBigArgs (Some eg_too_big) 28 1500 1500) (mkPlateauArgs 0 0) (mkAgeArgs 0 0 0 0) 0 0 0 0 0 IDEMIP_OK 0 false false) PMTU4_READY in
  let io := w_io (idemip_pmtu4_too_big w) in io_status io = IDEMIP_OK ∧ 68 ≤ io_mtu io ≤ 65535 ∧ io_mtu io = 1006.
Proof.
  intros w io. destruct (too_big_follows_rfc1191 w eg_too_big) as (_&_&H&_); [reflexivity|reflexivity|vm_compute; repeat constructor; discriminate|].
  split; [reflexivity|]. destruct (H eq_refl) as [H1 _]; [right; vm_compute; discriminate|]. split; [exact H1|reflexivity].
Defined.
End Pmtu4Thms.
