(* ===== verification/Ipv6.v ===== *)
(** * IPv6 headers (src/ip/ipv6.c)

    RFC 8200's fixed header, the extension headers behind it, the walk to the upper layer and the
    pseudo-header.  A packet is its octets from the version on; a walk is given how many are readable. *)
From S2P Require Import Prelude Base Wire.

Module Ipv6.
Import Endian Checksum Wire.

Definition IDEMIP_IPV6_HDR_LEN : Z := 40.
Definition IDEMIP_IPV6_MIN_MTU : Z := 1280.
Definition IDEMIP_IP6_OFF_VER_TC_FLOW : Z := 0.
Definition IDEMIP_IP6_OFF_PAYLOAD_LEN : Z := 4.
Definition IDEMIP_IP6_OFF_NEXT_HDR : Z := 6.
Definition IDEMIP_IP6_OFF_HOP_LIMIT : Z := 7.
Definition IDEMIP_IP6_OFF_SRC : Z := 8.
Definition IDEMIP_IP6_OFF_DST : Z := 24.
Definition IDEMIP_IP6_OFF_PAYLOAD : Z := 40.
Definition IDEMIP_IP6_ADDR_LEN : Z := 16.
Definition IDEMIP_IP6_VERSION : Z := 6.
Definition IDEMIP_IP6_VER_SHIFT : Z := 28.
Definition IDEMIP_IP6_VER_MASK : Z := 0x0F.
Definition IDEMIP_IP6_TC_SHIFT : Z := 20.
Definition IDEMIP_IP6_TC_MASK : Z := 0xFF.
Definition IDEMIP_IP6_FLOW_MASK : Z := 0x000FFFFF.
Definition IDEMIP_IP6_NH_HOPOPT : Z := 0.
Definition IDEMIP_IP6_NH_ROUTING : Z := 43.
Definition IDEMIP_IP6_NH_FRAGMENT : Z := 44.
Definition IDEMIP_IP6_NH_ICMPV6 : Z := 58.
Definition IDEMIP_IP6_NH_NONE : Z := 59.
Definition IDEMIP_IP6_NH_DSTOPTS : Z := 60.
Definition IDEMIP_IP6_EXT_OFF_NEXT_HDR : Z := 0.
Definition IDEMIP_IP6_EXT_OFF_LEN : Z := 1.
Definition IDEMIP_IP6_EXT_UNIT : Z := 8.
Definition IDEMIP_IP6_EXT_BYTES (len : Z) : Z := (len + 1) * IDEMIP_IP6_EXT_UNIT.
Definition IDEMIP_IP6_OPT_OFF_TYPE : Z := 0.
Definition IDEMIP_IP6_OPT_OFF_LEN : Z := 1.
Definition IDEMIP_IP6_OPT_PAD1 : Z := 0.
Definition IDEMIP_IP6_OPT_PADN : Z := 1.
Definition IDEMIP_IP6_OPT_ACT_MASK : Z := 0xC0.
Definition IDEMIP_IP6_OPT_ACT_SKIP : Z := 0x00.
Definition IDEMIP_IP6_OPT_ACT_DISCARD_ICMP : Z := 0x80.
Definition IDEMIP_IP6_FRAG_OFF_NEXT_HDR : Z := 0.
Definition IDEMIP_IP6_FRAG_OFF_RESERVED : Z := 1.
Definition IDEMIP_IP6_FRAG_OFF_OFFS_M : Z := 2.
Definition IDEMIP_IP6_FRAG_OFF_IDENT : Z := 4.
Definition IDEMIP_IP6_FRAG_HDR_LEN : Z := 8.
Definition IDEMIP_IP6_FRAG_OFF_MASK : Z := 0xFFF8.
Definition IDEMIP_IP6_FRAG_M : Z := 1.
Definition IDEMIP_IP6_RT_OFF_TYPE : Z := 2.
Definition IDEMIP_IP6_RT_OFF_SEGS_LEFT : Z := 3.

(** ** Reading the fixed header *)
Definition ip6_version (h : list Z) : Z := u8 (Z.land (Z.shiftr (rd32 h IDEMIP_IP6_OFF_VER_TC_FLOW) IDEMIP_IP6_VER_SHIFT) IDEMIP_IP6_VER_MASK).
Definition ip6_traffic_class (h : list Z) : Z := u8 (Z.land (Z.shiftr (rd32 h IDEMIP_IP6_OFF_VER_TC_FLOW) IDEMIP_IP6_TC_SHIFT) IDEMIP_IP6_TC_MASK).
Definition ip6_flow_label (h : list Z) : Z := Z.land (rd32 h IDEMIP_IP6_OFF_VER_TC_FLOW) IDEMIP_IP6_FLOW_MASK.
Definition ip6_payload_len (h : list Z) : Z := rd16 h IDEMIP_IP6_OFF_PAYLOAD_LEN.
Definition ip6_next_hdr (h : list Z) : Z := tget h IDEMIP_IP6_OFF_NEXT_HDR.
Definition ip6_hop_limit (h : list Z) : Z := tget h IDEMIP_IP6_OFF_HOP_LIMIT.
Definition ip6_src (h : list Z) : list Z := take (Z.to_nat IDEMIP_IP6_ADDR_LEN) (drop (Z.to_nat IDEMIP_IP6_OFF_SRC) h).
Definition ip6_dst (h : list Z) : list Z := take (Z.to_nat IDEMIP_IP6_ADDR_LEN) (drop (Z.to_nat IDEMIP_IP6_OFF_DST) h).

(** ** Writing it *)
Record IdemIpIp6BuildArgs := mkBuildArgs {
  b_src : list Z; b_dst : list Z; b_flow_label : Z; b_payload_len : Z; b_traffic_class : Z; b_next_hdr : Z; b_hop_limit : Z }.

Definition ip6_build (w : list Z) (a : IdemIpIp6BuildArgs) : list Z :=
  let w := wr32 w IDEMIP_IP6_OFF_VER_TC_FLOW
             (Z.lor (Z.lor (u32 (Z.shiftl IDEMIP_IP6_VERSION IDEMIP_IP6_VER_SHIFT))
                           (u32 (Z.shiftl (Z.land (b_traffic_class a) IDEMIP_IP6_TC_MASK) IDEMIP_IP6_TC_SHIFT)))
                    (Z.land (b_flow_label a) IDEMIP_IP6_FLOW_MASK)) in
  let w := wr16 w IDEMIP_IP6_OFF_PAYLOAD_LEN (b_payload_len a) in
  let w := tset w IDEMIP_IP6_OFF_NEXT_HDR (b_next_hdr a) in
  let w := tset w IDEMIP_IP6_OFF_HOP_LIMIT (b_hop_limit a) in
  let w := memcpy w IDEMIP_IP6_OFF_SRC (b_src a) IDEMIP_IP6_ADDR_LEN in
  memcpy w IDEMIP_IP6_OFF_DST (b_dst a) IDEMIP_IP6_ADDR_LEN.
Definition ip6_set_payload_len (w : list Z) (len : Z) : list Z := wr16 w IDEMIP_IP6_OFF_PAYLOAD_LEN len.
Definition ip6_set_next_hdr (w : list Z) (nh : Z) : list Z := tset w IDEMIP_IP6_OFF_NEXT_HDR nh.
Definition ip6_set_hop_limit (w : list Z) (hop_limit : Z) : list Z := tset w IDEMIP_IP6_OFF_HOP_LIMIT hop_limit.

(** ** Extension headers *)
Definition ip6_nh_is_ext (nh : Z) : bool :=
  (nh =? IDEMIP_IP6_NH_HOPOPT) || (nh =? IDEMIP_IP6_NH_ROUTING) || (nh =? IDEMIP_IP6_NH_FRAGMENT) || (nh =? IDEMIP_IP6_NH_DSTOPTS).
Definition ip6_ext_next_hdr (e : list Z) : Z := tget e IDEMIP_IP6_EXT_OFF_NEXT_HDR.
Definition ip6_ext_len (e : list Z) : Z := IDEMIP_IP6_EXT_BYTES (tget e IDEMIP_IP6_EXT_OFF_LEN).
Definition ip6_opt_len (o : list Z) : Z :=
  if tget o IDEMIP_IP6_OPT_OFF_TYPE =? IDEMIP_IP6_OPT_PAD1 then 1 else tget o IDEMIP_IP6_OPT_OFF_LEN + 2.

(** The span from an offset on. *)
Definition from (p : list Z) (off : Z) : list Z := drop (Z.to_nat off) p.

(** Whether the options from [at] to [last] are refused, and where: [bad] as it was for a malformed one.  The
    fuel is the octets left; a step is at least one. *)
Fixpoint opts_loop (fuel : nat) (p : list Z) (at_ last bad : Z) : bool * Z :=
  match fuel with
  | O => (false, bad)
  | S fuel =>
      if negb (at_ <? last) then (false, bad)
      else
      let type := tget p (at_ + IDEMIP_IP6_OPT_OFF_TYPE) in
      if negb (type =? IDEMIP_IP6_OPT_PAD1) && (last <? at_ + 2) then (true, bad)
      else
      let step := ip6_opt_len (from p at_) in
      if (step =? 0) || (last <? at_ + step) then (true, bad)
      else if negb (type =? IDEMIP_IP6_OPT_PAD1) && negb (type =? IDEMIP_IP6_OPT_PADN) && negb (Z.land type IDEMIP_IP6_OPT_ACT_MASK =? IDEMIP_IP6_OPT_ACT_SKIP)
      then (true, at_)
      else opts_loop fuel p (at_ + step) last bad
  end.
Definition ip6_opts_refused (p : list Z) (first last bad : Z) : bool * Z := opts_loop (S (Z.to_nat (last - first))) p first last bad.

Definition ip6_frag_offset_bytes (f : list Z) : Z := Z.land (rd16 f IDEMIP_IP6_FRAG_OFF_OFFS_M) IDEMIP_IP6_FRAG_OFF_MASK.
Definition ip6_frag_more (f : list Z) : bool := negb (Z.land (rd16 f IDEMIP_IP6_FRAG_OFF_OFFS_M) IDEMIP_IP6_FRAG_M =? 0).
Definition ip6_frag_ident (f : list Z) : Z := rd32 f IDEMIP_IP6_FRAG_OFF_IDENT.
Definition ip6_frag_build (w : list Z) (nh offset_bytes : Z) (more : bool) (ident : Z) : list Z :=
  let w := tset w IDEMIP_IP6_FRAG_OFF_NEXT_HDR nh in
  let w := tset w IDEMIP_IP6_FRAG_OFF_RESERVED 0 in
  let w := wr16 w IDEMIP_IP6_FRAG_OFF_OFFS_M (u16 (Z.lor (Z.land offset_bytes IDEMIP_IP6_FRAG_OFF_MASK) (if more then IDEMIP_IP6_FRAG_M else 0))) in
  wr32 w IDEMIP_IP6_FRAG_OFF_IDENT ident.

Definition ip6_rt_segs_left (r : list Z) : Z := tget r IDEMIP_IP6_RT_OFF_SEGS_LEFT.
Definition ip6_rt_type (r : list Z) : Z := tget r IDEMIP_IP6_RT_OFF_TYPE.

(** ** The walk *)
Record IdemIpIp6Chain := mkChain {
  c_offset : Z; c_frag_hdr : Z; c_routing_hdr : Z; c_opt_hdr : Z; c_next_hdr_off : Z; c_next_hdr : Z; c_hops : Z;
  c_fragmented : bool; c_routed : bool; c_refused : bool; c_ok : bool }.
#[export] Instance IdemIpIp6Chain_eta : Eta IdemIpIp6Chain := fun r =>
  mkChain (c_offset r) (c_frag_hdr r) (c_routing_hdr r) (c_opt_hdr r) (c_next_hdr_off r) (c_next_hdr r) (c_hops r)
    (c_fragmented r) (c_routed r) (c_refused r) (c_ok r).

(** Past the header of [step] octets: on behind it, or stopped there. *)
Definition walk_past (c : IdemIpIp6Chain) (step : Z) : IdemIpIp6Chain := c <| c_offset := c_offset c + step |> <| c_hops := u16 (c_hops c + 1) |>.

(** One header: [inl] the walk goes on, [inr] it ends. *)
Definition walk_step (p : list Z) (len : Z) (c : IdemIpIp6Chain) : IdemIpIp6Chain + IdemIpIp6Chain :=
  let nh := c_next_hdr c in
  let h := from p (c_offset c) in
  if (nh =? IDEMIP_IP6_NH_HOPOPT) && negb (c_hops c =? 0) then inr c
  else if len <? c_offset c + IDEMIP_IP6_EXT_UNIT then inr c
  else
  let step := if nh =? IDEMIP_IP6_NH_FRAGMENT then IDEMIP_IP6_FRAG_HDR_LEN else ip6_ext_len h in
  if len <? c_offset c + step then inr c
  else
  let c := if nh =? IDEMIP_IP6_NH_FRAGMENT then c <| c_fragmented := true |> <| c_frag_hdr := c_offset c |> else c in
  if (nh =? IDEMIP_IP6_NH_FRAGMENT) && negb (ip6_frag_offset_bytes h =? 0) then inr ((walk_past c step) <| c_ok := true |>)
  else
  let c := if (nh =? IDEMIP_IP6_NH_ROUTING) && negb (c_routed c) && negb (ip6_rt_segs_left h =? 0)
           then c <| c_routed := true |> <| c_routing_hdr := c_offset c |> else c in
  let opts := ((nh =? IDEMIP_IP6_NH_HOPOPT) || (nh =? IDEMIP_IP6_NH_DSTOPTS)) && negb (c_refused c) in
  let '(refused, bad) := if opts then ip6_opts_refused p (c_offset c + 2) (c_offset c + step) 0 else (false, 0) in
  if refused && (bad =? 0) then inr c
  else
  let c := if refused then c <| c_refused := true |> <| c_opt_hdr := bad |> else c in
  inl (walk_past (c <| c_next_hdr_off := c_offset c |> <| c_next_hdr := ip6_ext_next_hdr h |>) step).

(** [None] past the fuel; a header is at least eight octets, so the octets readable are enough. *)
Fixpoint walk_loop (fuel : nat) (p : list Z) (len : Z) (c : IdemIpIp6Chain) : option IdemIpIp6Chain :=
  match fuel with
  | O => None
  | S fuel =>
      if ip6_nh_is_ext (c_next_hdr c) then
        match walk_step p len c with inl c => walk_loop fuel p len c | inr c => Some c end
      else Some (c <| c_ok := true |>)
  end.

Definition chain_start (offset : Z) : IdemIpIp6Chain := mkChain offset 0 0 0 0 IDEMIP_IP6_NH_NONE 0 false false false false.
Definition ip6_walk (p : list Z) (len : Z) : option IdemIpIp6Chain :=
  if len <? IDEMIP_IPV6_HDR_LEN then Some (chain_start 0)
  else walk_loop (S (Z.to_nat len)) p len ((chain_start IDEMIP_IP6_OFF_PAYLOAD) <| c_next_hdr_off := IDEMIP_IP6_OFF_NEXT_HDR |> <| c_next_hdr := ip6_next_hdr p |>).

(** The walk's result; it always has one ([Ipv6Thms.walk_finds_upper_layer]). *)
Definition ip6_chain (p : list Z) (len : Z) : IdemIpIp6Chain := default (chain_start 0) (ip6_walk p len).

Definition ip6_chain_ext_bytes (c : IdemIpIp6Chain) : Z := if IDEMIP_IP6_OFF_PAYLOAD <? c_offset c then c_offset c - IDEMIP_IP6_OFF_PAYLOAD else 0.
Definition ip6_upper_len (h : list Z) (c : IdemIpIp6Chain) : Z :=
  let payload := ip6_payload_len h in
  let ext := u32 (ip6_chain_ext_bytes c) in
  if ext <? payload then payload - ext else 0.

Section Build.
(** The build's checksum route (see [Checksum]). *)
Variable word : option nat.
Variable swap : bool.

Definition ip6_pseudo_accum (sum : Z) (src dst : list Z) (upper_len nh : Z) : Z :=
  let sum := cksum_accum word swap sum (take (Z.to_nat IDEMIP_IP6_ADDR_LEN) src) in
  let sum := cksum_accum word swap sum (take (Z.to_nat IDEMIP_IP6_ADDR_LEN) dst) in
  let sum := u32 (sum + Z.land (Z.shiftr upper_len 16) 0xFFFF) in
  let sum := u32 (sum + Z.land upper_len 0xFFFF) in
  u32 (sum + nh).
End Build.
End Ipv6.

(** * The walk to the upper layer

    RFC 8200 section 4's chain of headers as a relation, and the walk against it: it returns for every span, it
    is OK exactly where the chain is whole, and what it reports is what the chain holds. *)
Module Ipv6Thms.
Import Endian Checksum Look Wire Ipv6.

Lemma get_octet p i : octets p → 0 ≤ tget p i < 256.
Proof.
  intros Ho. unfold tget. destruct (decide (Z.to_nat i < length p)%nat) as [Hl|Hl].
  - pose proof (Forall_lookup_total_1 _ _ _ Ho Hl) as H. unfold is_u8 in H. lia.
  - rewrite list_lookup_total_alt, lookup_ge_None_2 by lia. cbn. lia.
Qed.
Lemma get_from p off i : 0 ≤ off → 0 ≤ i → tget (from p off) i = tget p (off + i).
Proof. apply tget_drop. Qed.

(** ** The options of a header *)

(** A Hop-by-Hop or Destination Options header's options, as a node that knows Pad1 and PadN reads them. *)
Inductive verdict := Fine | Unknown (at_ : Z) | Malformed.
Definition known (type : Z) : Prop := type = 0 ∨ type = 1 ∨ Z.land type 0xC0 = 0.
Inductive options (p : list Z) (last : Z) : Z → verdict → Prop :=
  | options_end at_ : last ≤ at_ → options p last at_ Fine
  | options_no_len at_ : at_ < last → tget p at_ ≠ 0 → last < at_ + 2 → options p last at_ Malformed
  | options_long at_ : at_ + 2 ≤ last → tget p at_ ≠ 0 → last < at_ + 2 + tget p (at_ + 1) → options p last at_ Malformed
  | options_unknown at_ : at_ + 2 ≤ last → at_ + 2 + tget p (at_ + 1) ≤ last → ¬ known (tget p at_) → options p last at_ (Unknown at_)
  | options_pad1 at_ v : at_ < last → tget p at_ = 0 → options p last (at_ + 1) v → options p last at_ v
  | options_next at_ v : at_ + 2 ≤ last → at_ + 2 + tget p (at_ + 1) ≤ last → tget p at_ ≠ 0 → known (tget p at_) →
      options p last (at_ + 2 + tget p (at_ + 1)) v → options p last at_ v.
Definition code (v : verdict) : bool * Z := match v with Fine => (false, 0) | Unknown a => (true, a) | Malformed => (true, 0) end.

(** One option of the loop. *)
Lemma opts_step fuel p at_ last : 0 ≤ at_ → octets p →
  opts_loop (S fuel) p at_ last 0 =
  if last <=? at_ then (false, 0)
  else if tget p at_ =? 0 then opts_loop fuel p (at_ + 1) last 0
  else if last <? at_ + 2 then (true, 0)
  else if last <? at_ + 2 + tget p (at_ + 1) then (true, 0)
  else if decide (tget p at_ = 1 ∨ Z.land (tget p at_) 0xC0 = 0) then opts_loop fuel p (at_ + 2 + tget p (at_ + 1)) last 0
  else (true, at_).
Proof.
  intros H0 Ho. cbn [opts_loop]. unfold ip6_opt_len, IDEMIP_IP6_OPT_OFF_TYPE, IDEMIP_IP6_OPT_OFF_LEN, IDEMIP_IP6_OPT_PAD1, IDEMIP_IP6_OPT_PADN, IDEMIP_IP6_OPT_ACT_SKIP, IDEMIP_IP6_OPT_ACT_MASK.
  rewrite !get_from, Z.add_0_r by lia. pose proof (get_octet p (at_ + 1) Ho).
  destruct (Z.leb_spec last at_); [by rewrite (proj2 (Z.ltb_ge _ _)) by lia|]. rewrite (proj2 (Z.ltb_lt _ _)) by lia. cbn [negb].
  destruct (Z.eqb_spec (tget p at_) 0) as [E|E]; cbn [negb andb]; [by rewrite (proj2 (Z.ltb_ge last (at_ + 1))) by lia|].
  destruct (Z.ltb_spec last (at_ + 2)); [done|]. rewrite (proj2 (Z.eqb_neq (_ + 2) 0)) by lia. cbn [orb]. replace (at_ + (tget p (at_ + 1) + 2)) with (at_ + 2 + tget p (at_ + 1)) by lia.
  destruct (Z.ltb_spec last (at_ + 2 + tget p (at_ + 1))); [done|].
  destruct (Z.eqb_spec (tget p at_) 1); cbn [negb andb]; [by rewrite decide_True by tauto|].
  destruct (Z.eqb_spec (Z.land (tget p at_) 192) 0); cbn [negb]; [by rewrite decide_True by tauto|by rewrite decide_False by tauto].
Qed.

(** With fuel for the octets left, the loop says what the options are. *)
Lemma opts_verdict fuel p last at_ : octets p → 0 ≤ at_ → last - at_ < Z.of_nat fuel → ∃ v, options p last at_ v ∧ opts_loop fuel p at_ last 0 = code v.
Proof.
  intros Ho. revert at_. induction fuel as [|fuel IH]; intros at_ H0 Hf.
  { exists Fine. split; [constructor; lia|done]. }
  rewrite opts_step by done. pose proof (get_octet p (at_ + 1) Ho).
  destruct (Z.leb_spec last at_); [exists Fine; split; [by constructor|done]|].
  destruct (Z.eqb_spec (tget p at_) 0) as [E|E].
  { destruct (IH (at_ + 1)) as (v&Hv&->); [lia|lia|]. exists v. split; [by constructor|done]. }
  destruct (Z.ltb_spec last (at_ + 2)); [exists Malformed; split; [by constructor|done]|].
  destruct (Z.ltb_spec last (at_ + 2 + tget p (at_ + 1))); [exists Malformed; split; [by apply options_long|done]|].
  destruct (decide _) as [D|D].
  - destruct (IH (at_ + 2 + tget p (at_ + 1))) as (v&Hv&->); [lia|lia|]. exists v. split; [apply options_next; (done || unfold known; tauto)|done].
  - exists (Unknown at_). split; [apply options_unknown; (done || unfold known; tauto)|done].
Qed.

Lemma options_code fuel p last at_ v : octets p → 0 ≤ at_ → last - at_ < Z.of_nat fuel → options p last at_ v → opts_loop fuel p at_ last 0 = code v.
Proof.
  intros Ho H0 Hf Hv. revert fuel H0 Hf. induction Hv; intros [|fuel] H0' Hf; try (cbn [opts_loop code]; (done || lia));
    rewrite opts_step by done; pose proof (get_octet p (at_ + 1) Ho); unfold known in *;
    repeat first [rewrite (proj2 (Z.leb_le _ _)) by lia | rewrite (proj2 (Z.leb_gt _ _)) by lia | rewrite (proj2 (Z.eqb_neq _ _)) by tauto | rewrite (proj2 (Z.eqb_eq _ _)) by done
      | rewrite (proj2 (Z.ltb_lt _ _)) by lia | rewrite (proj2 (Z.ltb_ge _ _)) by lia]; try done.
  - by rewrite decide_False by tauto.
  - apply IHHv; lia.
  - rewrite decide_True by tauto. apply IHHv; lia.
Qed.

(** ** The chain *)
Record header := mkHeader { h_type : Z; h_at : Z; h_len : Z }.
Definition header_len (p : list Z) (nh at_ : Z) : Z := if nh =? 44 then 8 else (tget p (at_ + 1) + 1) * 8.
Definition options_header (nh : Z) : Prop := nh = 0 ∨ nh = 60.
#[export] Instance options_header_dec nh : Decision (options_header nh).
Proof. unfold options_header. apply _. Defined.
Definition later_fragment (p : list Z) (at_ : Z) : Prop := Z.land (rd16 p (at_ + 2)) 0xFFF8 ≠ 0.

(** The first refused option, as it was before a header and as it is after it. *)
Inductive option_found (p : list Z) (nh at_ last : Z) : option Z → option Z → Prop :=
  | found_other bad : ¬ options_header nh → option_found p nh at_ last bad bad
  | found_already a : options_header nh → option_found p nh at_ last (Some a) (Some a)
  | found_none : options_header nh → options p last at_ Fine → option_found p nh at_ last None None
  | found_one a : options_header nh → options p last at_ (Unknown a) → option_found p nh at_ last None (Some a).

(** The headers from one of a type at an offset to the upper layer: its type, where the chain ends and the
    option refused. *)
Inductive chained (p : list Z) (len : Z) : Z → Z → bool → option Z → list header → Z → Z → option Z → Prop :=
  | chained_upper nh at_ first bad : ip6_nh_is_ext nh = false → chained p len nh at_ first bad [] nh at_ bad
  | chained_fragment at_ first bad : at_ + 8 ≤ len → later_fragment p at_ → chained p len 44 at_ first bad [mkHeader 44 at_ 8] 44 (at_ + 8) bad
  | chained_header nh at_ first bad bad' hs up end_ bad'' :
      ip6_nh_is_ext nh = true → (nh = 0 → first = true) → at_ + 8 ≤ len → at_ + header_len p nh at_ ≤ len → (nh = 44 → ¬ later_fragment p at_) →
      option_found p nh (at_ + 2) (at_ + header_len p nh at_) bad bad' →
      chained p len (tget p at_) (at_ + header_len p nh at_) false bad' hs up end_ bad'' →
      chained p len nh at_ first bad (mkHeader nh at_ (header_len p nh at_) :: hs) up end_ bad''.

(** What a walk has found. *)
Definition finds (c : IdemIpIp6Chain) (nh at_ : Z) (hops : nat) (bad : option Z) : Prop :=
  c_next_hdr c = nh ∧ c_offset c = at_ ∧ c_hops c = Z.of_nat hops ∧ c_refused c = bool_decide (is_Some bad) ∧ c_opt_hdr c = default 0 bad.

(** A header's place, in a result so far. *)
Definition noted (p : list Z) (c : IdemIpIp6Chain) (h : header) : IdemIpIp6Chain :=
  if h_type h =? 44 then c <| c_fragmented := true |> <| c_frag_hdr := h_at h |>
  else if (h_type h =? 43) && negb (c_routed c) && negb (tget p (h_at h + 3) =? 0) then c <| c_routed := true |> <| c_routing_hdr := h_at h |> else c.
Definition same_places (c c' : IdemIpIp6Chain) : Prop :=
  c_fragmented c = c_fragmented c' ∧ c_frag_hdr c = c_frag_hdr c' ∧ c_routed c = c_routed c' ∧ c_routing_hdr c = c_routing_hdr c'.

Inductive stepped (p : list Z) (len : Z) (c : IdemIpIp6Chain) (nh at_ : Z) (hops : nat) (bad : option Z) : IdemIpIp6Chain + IdemIpIp6Chain → Prop :=
  | stepped_on bad' c' : (nh = 0 → hops = 0%nat) → at_ + 8 ≤ len → at_ + header_len p nh at_ ≤ len → (nh = 44 → ¬ later_fragment p at_) →
      option_found p nh (at_ + 2) (at_ + header_len p nh at_) bad bad' → finds c' (tget p at_) (at_ + header_len p nh at_) (S hops) bad' → c_ok c' = false →
      same_places c' (noted p c (mkHeader nh at_ (header_len p nh at_))) → stepped p len c nh at_ hops bad (inl c')
  | stepped_fragment c' : nh = 44 → at_ + 8 ≤ len → later_fragment p at_ → finds c' 44 (at_ + 8) (S hops) bad → c_ok c' = true →
      same_places c' (noted p c (mkHeader nh at_ 8)) → stepped p len c nh at_ hops bad (inr c')
  | stepped_stop c' : c_ok c' = false → c_offset c' = at_ → 
      ((nh = 0 ∧ hops ≠ 0%nat) ∨ len < at_ + 8 ∨ len < at_ + header_len p nh at_ ∨ (bad = None ∧ options_header nh ∧ options p (at_ + header_len p nh at_) (at_ + 2) Malformed ∧ nh ≠ 44)) →
      stepped p len c nh at_ hops bad (inr c').

Lemma ext_cases nh : ip6_nh_is_ext nh = true → nh = 0 ∨ nh = 43 ∨ nh = 44 ∨ nh = 60.
Proof. unfold ip6_nh_is_ext, IDEMIP_IP6_NH_HOPOPT, IDEMIP_IP6_NH_ROUTING, IDEMIP_IP6_NH_FRAGMENT, IDEMIP_IP6_NH_DSTOPTS. intros H. bool_prop. lia. Qed.
Lemma ext_len_eq p at_ : 0 ≤ at_ → ip6_ext_len (from p at_) = (tget p (at_ + 1) + 1) * 8.
Proof. intros. unfold ip6_ext_len, IDEMIP_IP6_EXT_BYTES, IDEMIP_IP6_EXT_OFF_LEN, IDEMIP_IP6_EXT_UNIT. by rewrite get_from by lia. Qed.
Lemma frag_offset_eq p at_ : 0 ≤ at_ → ip6_frag_offset_bytes (from p at_) = Z.land (rd16 p (at_ + 2)) 0xFFF8.
Proof.
  intros. unfold ip6_frag_offset_bytes, IDEMIP_IP6_FRAG_OFF_OFFS_M, IDEMIP_IP6_FRAG_OFF_MASK. f_equal. unfold rd16, from. rewrite drop_drop. do 2 f_equal. lia.
Qed.

(** The scan of a header's options, where it has any to scan. *)
Lemma scan_found p nh at_ last bad : octets p → 0 < at_ →
  let '(refused, b) := if bool_decide (options_header nh) && negb (bool_decide (is_Some bad)) then ip6_opts_refused p at_ last 0 else (false, 0) in
  if refused && (b =? 0) then bad = None ∧ options_header nh ∧ options p last at_ Malformed
  else ∃ bad', option_found p nh at_ last bad bad' ∧ bool_decide (is_Some bad') = (if refused then true else bool_decide (is_Some bad)) ∧
       default 0 bad' = (if refused then b else default 0 bad).
Proof.
  intros Ho H0. destruct (bool_decide_reflect (options_header nh)) as [Hn|Hn]; cbn [andb]; [|exists bad; split_and!; [by constructor|done|done]].
  destruct bad as [a|]; [change (bool_decide (is_Some (Some a))) with true; cbn [negb andb]; exists (Some a); split_and!; [by constructor|done|done]|].
  unfold ip6_opts_refused. destruct (opts_verdict (S (Z.to_nat (last - at_))) p last at_ Ho ltac:(lia) ltac:(lia)) as (v&Hv&->). change (bool_decide (is_Some (@None Z))) with false. destruct v as [|a|]; cbn [code andb negb].
  - exists None. split_and!; [by constructor|done|done].
  - assert (at_ ≤ a) by (clear -Hv Ho; remember (Unknown a) as v eqn:E; induction Hv; try done; [injection E as <-; lia|specialize (IHHv E); lia|pose proof (get_octet p (at_ + 1) Ho); specialize (IHHv E); lia]).
    rewrite (proj2 (Z.eqb_neq a 0)) by lia. exists (Some a). split_and!; [by constructor|done|done].
  - done.
Qed.

(** Past a header that is there: its options, then the next header. *)
Lemma options_stepped p len c c2 nh at_ hops bad (g : bool) : octets p → 0 < at_ → Z.of_nat hops < 65535 → finds c2 nh at_ hops bad → c_ok c2 = false →
  (nh = 0 → hops = 0%nat) → at_ + 8 ≤ len → at_ + header_len p nh at_ ≤ len → (nh = 44 → ¬ later_fragment p at_) →
  same_places c2 (noted p c (mkHeader nh at_ (header_len p nh at_))) → g = bool_decide (options_header nh) →
  stepped p len c nh at_ hops bad
    (let '(refused, b) := if g && negb (c_refused c2) then ip6_opts_refused p (c_offset c2 + 2) (c_offset c2 + header_len p nh at_) 0 else (false, 0) in
     if refused && (b =? 0) then inr c2
     else let c := if refused then c2 <| c_refused := true |> <| c_opt_hdr := b |> else c2 in
       inl (walk_past (c <| c_next_hdr_off := c_offset c |> <| c_next_hdr := ip6_ext_next_hdr (from p at_) |>) (header_len p nh at_))).
Proof.
  intros Ho H0 Hh (E1&E2&E3&E4&E5) Hok Hn H1 H2 H3 Hp ->. pose proof (scan_found p nh (at_ + 2) (at_ + header_len p nh at_) bad Ho ltac:(lia)) as Hs.
  rewrite E2, E4. destruct (if bool_decide (options_header nh) && _ then _ else _) as [refused b]. destruct (refused && (b =? 0)) eqn:Er.
  - destruct Hs as (->&Ht&Hm). apply stepped_stop; [done|done|]. do 3 right. split_and!; [done|done|done|]. intros ->. destruct Ht; lia.
  - destruct Hs as (bad'&Hf&B1&B2). destruct c2 as [o f r op nho n h fr ro re ok]. cbn [c_next_hdr c_offset c_hops c_refused c_opt_hdr c_ok] in *. subst.
    assert (u16 (Z.of_nat hops + 1) = Z.of_nat (S hops)) as Hu by (rewrite u16_id by (unfold is_u16; lia); lia).
    assert (ip6_ext_next_hdr (from p at_) = tget p at_) as He by (unfold ip6_ext_next_hdr, IDEMIP_IP6_EXT_OFF_NEXT_HDR; rewrite get_from, Z.add_0_r by lia; done).
    rewrite He. clear He. apply (stepped_on _ _ _ _ _ _ _ bad'); try done; destruct refused; (done || (unfold finds; split_and!; done)).
Qed.

Lemma walk_stepped p len c nh at_ hops bad : octets p → 0 < at_ → Z.of_nat hops < 65535 → finds c nh at_ hops bad → c_ok c = false → ip6_nh_is_ext nh = true →
  stepped p len c nh at_ hops bad (walk_step p len c).
Proof.
  intros Ho H0 Hh (E1&E2&E3&E4&E5) Hok Hext. pose proof (get_octet p (at_ + 1) Ho).
  destruct c as [o f r op nho n h fr ro re ok]. cbn [c_next_hdr c_offset c_hops c_refused c_opt_hdr c_ok] in *. subst.
  unfold walk_step. cbn [c_next_hdr c_offset c_hops c_refused c_opt_hdr c_ok].
  unfold IDEMIP_IP6_NH_HOPOPT, IDEMIP_IP6_NH_FRAGMENT, IDEMIP_IP6_NH_ROUTING, IDEMIP_IP6_NH_DSTOPTS, IDEMIP_IP6_EXT_UNIT, IDEMIP_IP6_FRAG_HDR_LEN.
  destruct ((nh =? 0) && negb (Z.of_nat hops =? 0)) eqn:Eh; [bool_prop; apply stepped_stop; [done|done|lia]|].
  assert (nh = 0 → hops = 0%nat) as Zh by (intros ->; cbn [Z.eqb andb] in Eh; bool_prop; lia). clear Eh. destruct (Z.eqb_spec nh 0) as [Z0|Z0].
  all: destruct (Z.ltb_spec len (at_ + 8)); [apply stepped_stop; [done|done|lia]|].
  all: rewrite ext_len_eq by lia; fold (header_len p nh at_).
  all: destruct (Z.ltb_spec len (at_ + header_len p nh at_)); [apply stepped_stop; [done|done|lia]|].
  - subst nh. cbn [Z.eqb negb andb orb Pos.eqb]. apply (options_stepped p len _ _ 0 at_ hops bad true); (done || lia || (rewrite bool_decide_true by (left; done); done)).
  - destruct (ext_cases nh Hext) as [?|[?|[?|?]]]; [done|..]; subst nh; cbn [Z.eqb negb andb orb Pos.eqb].
    + apply (options_stepped p len _ _ 43 at_ hops bad false); try done; try lia;
        try (by rewrite bool_decide_false by (intros [?|?]; lia));
        unfold noted, ip6_rt_segs_left, IDEMIP_IP6_RT_OFF_SEGS_LEFT; rewrite ?get_from by lia; cbn [h_type h_at c_routed Z.eqb negb andb Pos.eqb];
        destruct ro, (tget p (at_ + 3) =? 0); done.
    + rewrite frag_offset_eq by lia. destruct (Z.eqb_spec (Z.land (rd16 p (at_ + 2)) 0xFFF8) 0) as [Ef|Ef]; cbn [negb].
      * apply (options_stepped p len _ _ 44 at_ hops bad false); try done; try lia; try (by rewrite bool_decide_false by (intros [?|?]; lia)).
        intros _ Hl. by apply Hl.
      * apply stepped_fragment; try done. unfold finds. split_and!; try done.
        change (u16 (Z.of_nat hops + 1) = Z.of_nat (S hops)). rewrite u16_id by (unfold is_u16; lia). lia.
    + apply (options_stepped p len _ _ 60 at_ hops bad true); (done || lia || (rewrite bool_decide_true by (right; done); done)).
Qed.

(** ** Each header has one reading *)
Lemma unknown_at p last at_ a : octets p → options p last at_ (Unknown a) → at_ ≤ a < last.
Proof.
  intros Ho Hv. remember (Unknown a) as v eqn:E. induction Hv; try done; pose proof (get_octet p (at_ + 1) Ho); [injection E as <-; lia|specialize (IHHv E); lia..].
Qed.
Lemma options_det p last at_ v v' : octets p → 0 < at_ → options p last at_ v → options p last at_ v' → v = v'.
Proof.
  intros Ho H0 Hv Hv'. set (n := S (Z.to_nat (last - at_))).
  pose proof (options_code n p last at_ v Ho ltac:(lia) ltac:(lia) Hv) as E. rewrite (options_code n p last at_ v' Ho ltac:(lia) ltac:(lia) Hv') in E.
  destruct v as [|a|], v' as [|a'|]; cbn [code] in E; try done; injection E as E; subst.
  - done.
  - apply unknown_at in Hv; [lia|done].
  - apply unknown_at in Hv'; [lia|done].
Qed.
Lemma found_det p nh at_ last bad b b' : octets p → 0 < at_ → option_found p nh at_ last bad b → option_found p nh at_ last bad b' → b = b'.
Proof.
  intros Ho H0 Hf Hf'. destruct Hf; inversion Hf'; subst; try done;
    match goal with H : options _ _ _ ?v, H' : options _ _ _ ?v' |- _ => pose proof (options_det _ _ _ _ _ Ho H0 H H') as E; congruence || (injection E as ->; done) end.
Qed.
Lemma found_not_malformed p nh at_ last b : octets p → 0 < at_ → options_header nh → options p last at_ Malformed → ¬ option_found p nh at_ last None b.
Proof. intros Ho H0 Ht Hm Hf. inversion Hf; subst; try done; match goal with H : options _ _ _ ?v |- _ => pose proof (options_det _ _ _ _ _ Ho H0 H Hm); done end. Qed.

Lemma header_len_pos p nh at_ : octets p → 8 ≤ header_len p nh at_.
Proof. intros Ho. unfold header_len. pose proof (get_octet p (at_ + 1) Ho). split_if; lia. Qed.

Lemma noted_same p c c' h : same_places c c' → same_places (noted p c h) (noted p c' h).
Proof. intros (E1&E2&E3&E4). destruct c, c'. cbn in E1, E2, E3, E4. subst. unfold noted. cbn [c_routed]. repeat split_if; done. Qed.
Lemma fold_same p hs c c' : same_places c c' → same_places (fold_left (noted p) hs c) (fold_left (noted p) hs c').
Proof. revert c c'. induction hs as [|h hs IH]; [done|]. intros c c' H. apply IH, noted_same, H. Qed.
Lemma same_trans c c' c'' : same_places c c' → same_places c' c'' → same_places c c''.
Proof. intros (?&?&?&?) (?&?&?&?). unfold same_places. split_and!; congruence. Qed.

(** ** The walk over the chain *)
Section Walk.
Context (p : list Z) (len : Z) (Ho : octets p) (Hlen : len < 524288).

(** A whole chain is walked to its end. *)
Lemma chain_walked nh at_ first bad hs up end_ bad' : chained p len nh at_ first bad hs up end_ bad' →
  ∀ fuel c hops, finds c nh at_ hops bad → c_ok c = false → first = bool_decide (hops = 0%nat) → 40 + 8 * Z.of_nat hops ≤ at_ ≤ len → len - at_ < Z.of_nat fuel →
  ∃ c', walk_loop fuel p len c = Some c' ∧ c_ok c' = true ∧ finds c' up end_ (hops + length hs) bad' ∧ same_places c' (fold_left (noted p) hs c) ∧
    at_ ≤ end_ ≤ len ∧ end_ = at_ + foldr (λ h n, h_len h + n) 0 hs.
Proof using Ho Hlen.
  intros Hc. induction Hc as [nh at_ first bad Hn|at_ first bad H1 H2|nh at_ first bad bad' hs up end_ bad'' Hn H0 H1 H2 H3 H4 Hc IH]; intros [|fuel] c hops Hf Hok Hfirst Hat Hfu; try lia; cbn [walk_loop].
  all: rewrite (proj1 Hf).
  - rewrite Hn. eexists. split_and!; [done|done| |done|lia|lia|cbn; lia]. rewrite Nat.add_0_r. done.
  - change (ip6_nh_is_ext 44) with true. cbn [foldr fold_left length h_len].
    pose proof (walk_stepped p len c 44 at_ hops bad Ho ltac:(lia) ltac:(lia) Hf Hok eq_refl) as Hs. change (header_len p 44 at_) with 8 in *.
    inversion Hs as [b c' ? ? ? Hl|c' ? ? ? F ? Hsp|c' ? ? Hw]; subst.
    + exfalso. by apply Hl.
    + eexists. split_and!; [done|done|by rewrite Nat.add_1_r|done|lia|lia|lia].
    + exfalso. unfold header_len in Hw. cbn [Z.eqb Pos.eqb] in Hw. destruct Hw as [|[|[|(_&_&_&?)]]]; [lia|lia|lia|done].
  - rewrite Hn. pose proof (header_len_pos p nh at_ Ho) as Hp.
    pose proof (walk_stepped p len c nh at_ hops bad Ho ltac:(lia) ltac:(lia) Hf Hok Hn) as Hs.
    inversion Hs as [b c' ? ? ? Hl Hfd F ? Hsp|c' ? ? ? F ? Hsp|c' ? ? Hw]; subst.
    + assert (b = bad') as -> by (eapply found_det; [done| |done|done]; lia).
      destruct (IH fuel c' (S hops)) as (c''&W1&W2&W3&W4&W5&W6); [done|done|done|lia|lia|]. exists c''. cbn [length foldr fold_left h_len]. split_and!; try done; try lia.
      * by rewrite Nat.add_succ_r.
      * eapply same_trans; [done|]. by apply fold_same.
    + exfalso. by apply H3.
    + exfalso. destruct Hw as [[-> Hh]|[?|[?|(->&Ht&Hm&_)]]]; [|lia|lia|].
      * specialize (H0 eq_refl). apply Hh. by apply (bool_decide_eq_true (hops = 0%nat)).
      * eapply found_not_malformed; [done| |done|done|done]. lia.
Qed.

(** A walk returns, inside the span, and an OK one has a chain behind it. *)
Lemma walk_has_chain fuel c nh at_ hops bad : finds c nh at_ hops bad → c_ok c = false → 40 + 8 * Z.of_nat hops ≤ at_ ≤ len → len - at_ < Z.of_nat fuel →
  ∃ c', walk_loop fuel p len c = Some c' ∧ at_ ≤ c_offset c' ≤ len ∧
    (c_ok c' = true → ∃ hs up end_ bad', chained p len nh at_ (bool_decide (hops = 0%nat)) bad hs up end_ bad').
Proof using Ho Hlen.
  revert c nh at_ hops bad. induction fuel as [|fuel IH]; intros c nh at_ hops bad Hf Hok Hat Hfu; [lia|]. cbn [walk_loop]. rewrite (proj1 Hf).
  destruct (ip6_nh_is_ext nh) eqn:Hn.
  2:{ eexists. split_and!; [done| | |intros _; do 4 eexists; by apply chained_upper]; change (c_offset (c <| c_ok := true |>)) with (c_offset c); destruct Hf as (_&->&_); lia. }
  pose proof (header_len_pos p nh at_ Ho) as Hp.
  pose proof (walk_stepped p len c nh at_ hops bad Ho ltac:(lia) ltac:(lia) Hf Hok Hn) as Hs.
  inversion Hs as [b c' H0 ? ? Hl Hfd F Hok' Hsp|c' -> ? ? F ? S|c' Hok' ? Hw]; subst.
  - destruct (IH c' _ _ _ _ F Hok') as (c''&->&W&Wc); [lia|lia|]. exists c''. split_and!; [done|lia|lia|]. intros Hk. destruct (Wc Hk) as (hs&up&e&b'&Hc).
    do 4 eexists. eapply chained_header; try done. intros E. apply bool_decide_eq_true_2. by apply H0.
  - destruct F as (_&F&_). exists c'. split_and!; [done|lia|lia|]. intros _. do 4 eexists. by apply chained_fragment.
  - exists c'. split_and!; [done|lia|lia|]. rewrite Hok'. done.
Qed.
End Walk.

(** ** The octets a walk reads *)
Section Reads.
Context (p p' : list Z) (len : Z) (Ho : octets p) (Ha : agree len p p').

Lemma opts_agree fuel at_ last bad : 0 ≤ at_ → last ≤ len → opts_loop fuel p at_ last bad = opts_loop fuel p' at_ last bad.
Proof using Ho Ha.
  revert at_. induction fuel as [|fuel IH]; intros at_ H0 Hl; [done|]. cbn [opts_loop].
  unfold ip6_opt_len, IDEMIP_IP6_OPT_OFF_TYPE, IDEMIP_IP6_OPT_OFF_LEN, IDEMIP_IP6_OPT_PAD1. rewrite !get_from, !Z.add_0_r by lia.
  pose proof (get_octet p (at_ + 1) Ho). destruct (Z.ltb_spec at_ last); cbn [negb]; [|done]. rewrite <- (agree_get len p p' at_ Ha) by lia.
  destruct (Z.eqb_spec (tget p at_) 0) as [E|E]; cbn [negb andb].
  - repeat split_if; (done || (apply IH; lia)).
  - destruct (Z.ltb_spec last (at_ + 2)); [done|]. rewrite <- (agree_get len p p' (at_ + 1) Ha) by lia.
    repeat split_if; (done || (apply IH; lia)).
Qed.

Lemma step_agree c : 0 ≤ c_offset c → walk_step p len c = walk_step p' len c.
Proof using Ho Ha.
  intros H0. unfold walk_step. rewrite !ext_len_eq, !frag_offset_eq by done. unfold ip6_rt_segs_left, ip6_ext_next_hdr, IDEMIP_IP6_EXT_OFF_NEXT_HDR, IDEMIP_IP6_RT_OFF_SEGS_LEFT, IDEMIP_IP6_EXT_UNIT.
  rewrite !get_from, !Z.add_0_r by lia. destruct (_ && _); [done|]. destruct (Z.ltb_spec len (c_offset c + 8)); [done|].
  rewrite <- (agree_get len p p' (c_offset c + 1) Ha), <- (agree_get len p p' (c_offset c + 3) Ha), <- (agree_get len p p' (c_offset c) Ha), <- (agree_rd16 len p p' (c_offset c + 2) Ha) by lia.
  set (step := if _ =? _ then _ else _). destruct (Z.ltb_spec len (c_offset c + step)) as [|Hs]; [done|].
  unfold ip6_opts_refused.
  set (c1 := if c_next_hdr c =? IDEMIP_IP6_NH_FRAGMENT then _ else c). assert (c_offset c1 = c_offset c) as H1 by (unfold c1; by split_if). clearbody c1.
  destruct (_ && _); [done|]. set (c2 := if _ && negb (c_routed c1) && _ then _ else c1). assert (c_offset c2 = c_offset c) as H2 by (unfold c2; split_if; [|done]; exact H1). clearbody c2.
  by rewrite H2, opts_agree by lia.
Qed.

Lemma loop_agree fuel c : 0 ≤ c_offset c → walk_loop fuel p len c = walk_loop fuel p' len c.
Proof using Ho Ha.
  revert c. induction fuel as [|fuel IH]; intros c H0; [done|]. cbn [walk_loop]. rewrite <- (step_agree c H0). destruct (ip6_nh_is_ext _); [|done].
  destruct (walk_step p len c) as [c'|c'] eqn:E; [|done]. apply IH. revert E. unfold walk_step.
  rewrite ext_len_eq by done. unfold IDEMIP_IP6_FRAG_HDR_LEN. pose proof (get_octet p (c_offset c + 1) Ho).
  set (step := if _ =? _ then 8 else _). assert (0 ≤ step) as Hs by (unfold step; split_if; lia). clearbody step.
  destruct (_ && _); [done|]. destruct (_ <? _); [done|]. destruct (_ <? _); [done|].
  set (c1 := if c_next_hdr c =? IDEMIP_IP6_NH_FRAGMENT then _ else c). assert (c_offset c1 = c_offset c) as H1 by (unfold c1; by split_if). clearbody c1.
  destruct (_ && _); [done|]. set (c2 := if _ && negb (c_routed c1) && _ then _ else c1). assert (c_offset c2 = c_offset c) as H2 by (unfold c2; split_if; [|done]; exact H1). clearbody c2.
  destruct (if _ && negb (c_refused c2) then _ else _) as [refused b]. destruct (refused && _); [done|].
  intros [= <-]. destruct refused, c2; cbn in H2 |- *; lia.
Qed.
End Reads.

(** ** What the places say *)
Definition segments_left (p : list Z) (h : header) : Prop := h_type h = 43 ∧ tget p (h_at h + 3) ≠ 0.
Lemma fold_places p c hs : c_fragmented c = false → c_routed c = false →
  let r := fold_left (noted p) hs c in
  (if c_fragmented r then ∃ h, h ∈ hs ∧ h_type h = 44 ∧ c_frag_hdr r = h_at h else Forall (λ h, h_type h ≠ 44) hs) ∧
  (if c_routed r then ∃ before h after, hs = before ++ h :: after ∧ segments_left p h ∧ c_routing_hdr r = h_at h ∧ Forall (λ h, ¬ segments_left p h) before
   else Forall (λ h, ¬ segments_left p h) hs).
Proof.
  intros H1 H2. induction hs as [|h hs IH] using rev_ind; cbv zeta.
  { cbn [fold_left]. rewrite H1, H2. done. }
  rewrite fold_left_app. cbn [fold_left]. set (r := fold_left (noted p) hs c) in *. cbv zeta in IH. destruct IH as [IH1 IH2]. clearbody r.
  unfold noted. destruct (Z.eqb_spec (h_type h) 44) as [E|E].
  - change (c_fragmented (r <| c_fragmented := true |> <| c_frag_hdr := h_at h |>)) with true.
    change (c_frag_hdr (r <| c_fragmented := true |> <| c_frag_hdr := h_at h |>)) with (h_at h).
    change (c_routed (r <| c_fragmented := true |> <| c_frag_hdr := h_at h |>)) with (c_routed r).
    change (c_routing_hdr (r <| c_fragmented := true |> <| c_frag_hdr := h_at h |>)) with (c_routing_hdr r).
    split; [exists h; split_and!; [apply elem_of_app; right; by apply list_elem_of_singleton|done|done]|].
    assert (¬ segments_left p h) by (intros [? _]; lia). destruct (c_routed r).
    + destruct IH2 as (b&x&a&->&?&?&?). exists b, x, (a ++ [h]). by rewrite <- app_assoc.
    + apply Forall_app. split; [done|by constructor].
  - assert (if c_fragmented r then ∃ x, x ∈ hs ++ [h] ∧ h_type x = 44 ∧ c_frag_hdr r = h_at x else Forall (λ x, h_type x ≠ 44) (hs ++ [h])) as F1.
    { destruct (c_fragmented r); [|apply Forall_app; split; [done|by constructor]]. destruct IH1 as (x&?&?&?). exists x. split_and!; [apply elem_of_app; by left|done|done]. }
    destruct (_ && _) eqn:Eb.
    + bool_prop. destruct r as [? ? ? ? ? ? ? ? rr ? ?]. destruct rr; [done|]. split; [exact F1|]. exists hs, h, []. split_and!; [done|by split|done|done].
    + split; [exact F1|]. destruct (c_routed r).
      * destruct IH2 as (b&x&a&->&?&?&?). exists b, x, (a ++ [h]). by rewrite <- app_assoc.
      * apply Forall_app. split; [done|]. constructor; [|done]. intros [E1 E2]. rewrite E1 in Eb. cbn [Z.eqb Pos.eqb negb andb] in Eb. bool_prop. done.
Qed.

(** The chain behind a fixed header. *)
Definition chain_of (p : list Z) (len : Z) (hs : list header) (up end_ : Z) (bad : option Z) : Prop :=
  40 ≤ len ∧ chained p len (tget p 6) 40 true None hs up end_ bad.

(** A walk's result and the chain. *)
Lemma chain_spec p len : octets p → 40 ≤ len < 524288 → let c := ip6_chain p len in
  ip6_walk p len = Some c ∧ 40 ≤ c_offset c ≤ len ∧ (c_ok c = true ↔ ∃ hs up end_ bad, chain_of p len hs up end_ bad) ∧
  (∀ hs up end_ bad, chain_of p len hs up end_ bad →
     finds c up end_ (length hs) bad ∧ 40 ≤ end_ ∧ end_ = 40 + foldr (λ h n, h_len h + n) 0 hs ∧
     (if c_fragmented c then ∃ h, h ∈ hs ∧ h_type h = 44 ∧ c_frag_hdr c = h_at h else Forall (λ h, h_type h ≠ 44) hs) ∧
     (if c_routed c then ∃ before h after, hs = before ++ h :: after ∧ segments_left p h ∧ c_routing_hdr c = h_at h ∧ Forall (λ h, ¬ segments_left p h) before
      else Forall (λ h, ¬ segments_left p h) hs)).
Proof.
  intros Ho Hl. unfold ip6_chain, ip6_walk, chain_of, IDEMIP_IPV6_HDR_LEN, IDEMIP_IP6_OFF_PAYLOAD, IDEMIP_IP6_OFF_NEXT_HDR. rewrite (proj2 (Z.ltb_ge len 40)) by lia.
  set (c0 := (chain_start 40) <| c_next_hdr_off := 6 |> <| c_next_hdr := ip6_next_hdr p |>).
  assert (finds c0 (tget p 6) 40 0 None) as Hf by done.
  destruct (walk_has_chain p len Ho ltac:(lia) (S (Z.to_nat len)) c0 (tget p 6) 40 0 None Hf eq_refl ltac:(lia) ltac:(lia)) as (c&Hw&Hoff&Hc).
  cbv zeta. rewrite Hw. change (default (chain_start 0) (Some c)) with c. split_and!; [done|lia|lia| |].
  - split.
    + intros Hk. destruct (Hc Hk) as (hs&up&e&bad&?). exists hs, up, e, bad. split; [lia|done].
    + intros (hs&up&e&bad&_&Hch). destruct (chain_walked p len Ho ltac:(lia) _ _ _ _ _ _ _ _ Hch (S (Z.to_nat len)) c0 0 Hf eq_refl eq_refl ltac:(lia) ltac:(lia)) as (c'&Hw'&Hk&_).
      congruence.
  - intros hs up e bad [_ Hch].
    destruct (chain_walked p len Ho ltac:(lia) _ _ _ _ _ _ _ _ Hch (S (Z.to_nat len)) c0 0 Hf eq_refl eq_refl ltac:(lia) ltac:(lia)) as (c'&Hw'&_&F&(S1&S2&S3&S4)&He&Hsum).
    rewrite Hw in Hw'. injection Hw' as <-. rewrite S1, S2, S3, S4. pose proof (fold_places p c0 hs eq_refl eq_refl) as [P1 P2]. split_and!; [exact F|lia|lia|done|done].
Qed.

(** Where the chain goes on, a fragment is the first. *)
Lemma chained_fragments p len nh at_ first bad hs up end_ bad' : chained p len nh at_ first bad hs up end_ bad' → up ≠ 44 → Forall (λ h, h_type h = 44 → ¬ later_fragment p (h_at h)) hs.
Proof. induction 1; intros Hu; [done|done|]. constructor; auto. Qed.

Lemma chained_at p len nh at_ first bad hs up end_ bad' : octets p → chained p len nh at_ first bad hs up end_ bad' → Forall (λ h, at_ ≤ h_at h) hs.
Proof.
  intros Ho. induction 1 as [| |nh at_ first bad bad' hs up end_ bad'']; [done|by repeat constructor|]. constructor; [cbn; lia|].
  pose proof (header_len_pos p nh at_ Ho). eapply Forall_impl; [done|]. cbn. intros. lia.
Qed.

(** A chain that reaches an upper layer passed no fragment but a first one. *)
Lemma chain_first_fragment p n hs up e bad : octets p → 40 ≤ n < 524288 → chain_of p n hs up e bad → up ≠ 44 →
  let c := ip6_chain p n in c_fragmented c && negb (ip6_frag_offset_bytes (from p (c_frag_hdr c)) =? 0) = false.
Proof.
  intros Ho Hn Hc Hu c. subst c. destruct (chain_spec p n Ho Hn) as (_&_&_&Hch). destruct (Hch _ _ _ _ Hc) as (_&_&_&Hfr&_). clear Hch.
  destruct (c_fragmented (ip6_chain p n)); [|done]. cbn [andb]. destruct Hfr as (h&Hin&Ht&->). destruct Hc as [_ Hc].
  pose proof (chained_fragments _ _ _ _ _ _ _ _ _ _ Hc Hu) as Hall. rewrite Forall_forall in Hall. specialize (Hall h Hin Ht). apply negb_false_iff. rewrite frag_offset_eq.
  - apply Z.eqb_eq. destruct (decide (Z.land (rd16 p (h_at h + 2)) 65528 = 0)); [done|]. exfalso. by apply Hall.
  - pose proof (chained_at _ _ _ _ _ _ _ _ _ _ Ho Hc) as Hat. rewrite Forall_forall in Hat. specialize (Hat h Hin). lia.
Qed.

(** C33. The walk finds the upper layer of a packet or says there is none.  For any octets, up to more than a
    packet can be, it returns; it is OK exactly where the fixed header is followed by a whole chain of
    extension headers - each within the span, Hop-by-Hop Options first or not at all, its options well formed
    up to one that is refused - down to a header of another kind or a fragment that is not the first.  Then
    the offset is past every header and within the span, the type is the upper layer's, the place of the
    Fragment header and of the first Routing header with segments left are those of headers of the chain, and
    the refused option is the first the chain has.  The result depends on the octets of the span only. *)
Theorem walk_finds_upper_layer (p : list Z) (len : Z) :
  octets p → 0 ≤ len < 524288 →
  ∃ c, ip6_walk p len = Some c ∧ c_offset c ≤ len ∧
    (c_ok c = true ↔ ∃ hs up end_ bad, chain_of p len hs up end_ bad) ∧
    (∀ hs up end_ bad, chain_of p len hs up end_ bad →
       c_next_hdr c = up ∧ c_offset c = end_ ∧ ip6_chain_ext_bytes c = foldr (λ h n, h_len h + n) 0 hs ∧ end_ = 40 + ip6_chain_ext_bytes c ∧ c_hops c = Z.of_nat (length hs) ∧
       (if c_refused c then bad = Some (c_opt_hdr c) else bad = None) ∧
       (if c_fragmented c then ∃ h, h ∈ hs ∧ h_type h = 44 ∧ c_frag_hdr c = h_at h else Forall (λ h, h_type h ≠ 44) hs) ∧
       (if c_routed c then ∃ before h after, hs = before ++ h :: after ∧ segments_left p h ∧ c_routing_hdr c = h_at h ∧ Forall (λ h, ¬ segments_left p h) before
        else Forall (λ h, ¬ segments_left p h) hs)) ∧
    (∀ p', agree len p p' → ip6_walk p' len = Some c).
Proof.
  intros Ho Hl. exists (ip6_chain p len). destruct (Z.lt_ge_cases len 40) as [Hs|Hs].
  { unfold ip6_chain, ip6_walk, chain_of, IDEMIP_IPV6_HDR_LEN. rewrite (proj2 (Z.ltb_lt len 40)) by lia.
    split_and!; [done|cbn; lia| |intros ? ? ? ? [? _]; lia|done]. cbn. split; [done|]. intros (?&?&?&?&?&_). lia. }
  destruct (chain_spec p len Ho ltac:(lia)) as (Hw&Hoff&Hok&Hch). split_and!; [done|lia|done| |].
  - intros hs up e bad Hc. destruct (Hch _ _ _ _ Hc) as ((F1&F2&F3&F4&F5)&He&Hsum&P1&P2). unfold ip6_chain_ext_bytes, IDEMIP_IP6_OFF_PAYLOAD. rewrite F2.
    assert ((if 40 <? e then e - 40 else 0) = e - 40) as -> by (split_if; lia). rewrite F4, F5. split_and!; [done|done|lia|lia|done| |done|done].
    destruct bad as [a|]; [|done]. by rewrite bool_decide_true by (by eexists).
  - intros p' Ha. rewrite <- Hw. unfold ip6_walk, IDEMIP_IPV6_HDR_LEN. rewrite (proj2 (Z.ltb_ge len 40)) by lia. unfold ip6_next_hdr, IDEMIP_IP6_OFF_NEXT_HDR.
    rewrite <- (agree_get len p p' 6 Ha) by lia. symmetry. by apply loop_agree.
Qed.

(** A Hop-by-Hop header with a Router Alert that is refused, then a first fragment of a UDP datagram. *)
Definition sample : list Z :=
  [0x60; 0; 0; 0; 0; 24; 0; 64] ++ replicate 32 1 ++ [44; 0; 0xC5; 2; 0; 0; 1; 0] ++ [17; 0; 0; 1; 1; 2; 3; 4] ++ replicate 8 9.
Lemma walk_finds_upper_layer_witness :
  ∃ c, ip6_walk sample 64 = Some c ∧ chain_of sample 64 [mkHeader 0 40 8; mkHeader 44 48 8] 17 56 (Some 42) ∧ c_next_hdr c = 17 ∧ c_offset c = 56 ∧ c_frag_hdr c = 48 ∧ c_opt_hdr c = 42.
Proof.
  assert (octets sample) as Ho by (apply (bool_decide_eq_true_1 (Forall is_u8 sample)); vm_compute; reflexivity).
  assert (chain_of sample 64 [mkHeader 0 40 8; mkHeader 44 48 8] 17 56 (Some 42)) as Hc.
  { split; [lia|]. eapply (chained_header sample 64 0 40 true None (Some 42)); try done.
    - eapply found_one; [by left|]. apply options_unknown; [done|done|]. intros [?|[?|?]]; done.
    - eapply (chained_header sample 64 44 48 false (Some 42) (Some 42)); try done; [intros _ Hl; by apply Hl| |by apply chained_upper]. apply found_other. intros [?|?]; done. }
  destruct (walk_finds_upper_layer sample 64 Ho ltac:(lia)) as (c&Hw&_&_&Hr&_). exists c. destruct (Hr _ _ _ _ Hc) as (E1&E2&_). split_and!; try done.
  all: revert Hw; clear; vm_compute; intros [= <-]; reflexivity.
Defined.
End Ipv6Thms.
