(* ===== verification/Icmpv6.v ===== *)
(** * ICMPv6 messages (src/icmp/icmpv6.c)

    RFC 4443's messages and the fields RFC 2710 and RFC 4861 put in theirs, the walk over the options of a
    neighbor discovery message, the builders and the checksum.  A message is its octets from the Type on. *)
From S2P Require Import Prelude Base Wire Bucket Ipv6.

Module Icmpv6.
Import Endian Checksum Wire Ipv6.

Definition IDEMIP_ICMP6_DEST_UNREACHABLE : Z := 1.
Definition IDEMIP_ICMP6_PACKET_TOO_BIG : Z := 2.
Definition IDEMIP_ICMP6_TIME_EXCEEDED : Z := 3.
Definition IDEMIP_ICMP6_PARAMETER_PROBLEM : Z := 4.
Definition IDEMIP_ICMP6_ECHO_REQUEST : Z := 128.
Definition IDEMIP_ICMP6_ECHO_REPLY : Z := 129.
Definition IDEMIP_ICMP6_MLD_QUERY : Z := 130.
Definition IDEMIP_ICMP6_MLD_DONE : Z := 132.
Definition IDEMIP_ICMP6_ROUTER_SOLICIT : Z := 133.
Definition IDEMIP_ICMP6_ROUTER_ADVERT : Z := 134.
Definition IDEMIP_ICMP6_NEIGHBOR_SOLICIT : Z := 135.
Definition IDEMIP_ICMP6_NEIGHBOR_ADVERT : Z := 136.
Definition IDEMIP_ICMP6_REDIRECT : Z := 137.
Definition IDEMIP_ICMP6_OFF_TYPE : Z := 0.
Definition IDEMIP_ICMP6_OFF_CODE : Z := 1.
Definition IDEMIP_ICMP6_OFF_CKSUM : Z := 2.
Definition IDEMIP_ICMP6_OFF_BODY : Z := 4.
Definition IDEMIP_ICMP6_HDR_LEN : Z := 4.
Definition IDEMIP_ICMP6_INFORMATIONAL : Z := 0x80.
Definition IDEMIP_ICMP6_PP_UNREC_OPTION : Z := 2.
Definition IDEMIP_ICMP6_CODE_ECHO : Z := 0.
Definition IDEMIP_ICMP6_CODE_PTB : Z := 0.
Definition IDEMIP_ICMP6_OFF_MTU : Z := 4.
Definition IDEMIP_ICMP6_OFF_POINTER : Z := 4.
Definition IDEMIP_ICMP6_ERR_HDR_LEN : Z := 8.
Definition IDEMIP_ICMP6_OFF_ID : Z := 4.
Definition IDEMIP_ICMP6_OFF_SEQ : Z := 6.
Definition IDEMIP_ICMP6_ECHO_HDR_LEN : Z := 8.
Definition IDEMIP_ICMP6_OFF_MLD_MAX_RESP : Z := 4.
Definition IDEMIP_ICMP6_OFF_MLD_GROUP : Z := 8.
Definition IDEMIP_ICMP6_RS_HDR_LEN : Z := 8.
Definition IDEMIP_ICMP6_OFF_RA_CUR_HOP : Z := 4.
Definition IDEMIP_ICMP6_OFF_RA_FLAGS : Z := 5.
Definition IDEMIP_ICMP6_OFF_RA_LIFETIME : Z := 6.
Definition IDEMIP_ICMP6_OFF_RA_REACHABLE : Z := 8.
Definition IDEMIP_ICMP6_OFF_RA_RETRANS : Z := 12.
Definition IDEMIP_ICMP6_RA_HDR_LEN : Z := 16.
Definition IDEMIP_ICMP6_OFF_NS_TARGET : Z := 8.
Definition IDEMIP_ICMP6_NS_HDR_LEN : Z := 24.
Definition IDEMIP_ICMP6_OFF_NA_FLAGS : Z := 4.
Definition IDEMIP_ICMP6_NA_HDR_LEN : Z := 24.
Definition IDEMIP_ICMP6_OFF_RD_DEST : Z := 24.
Definition IDEMIP_ICMP6_RD_HDR_LEN : Z := 40.
Definition IDEMIP_ICMP6_ND_OPT_OFF_TYPE : Z := 0.
Definition IDEMIP_ICMP6_ND_OPT_OFF_LEN : Z := 1.
Definition IDEMIP_ICMP6_ND_OPT_HDR_LEN : Z := 2.
Definition IDEMIP_ICMP6_ND_OPT_UNIT_SHIFT : Z := 3.
Definition IDEMIP_ICMP6_ERR_QUOTE_MAX : Z := IDEMIP_IPV6_MIN_MTU - IDEMIP_IPV6_HDR_LEN - IDEMIP_ICMP6_ERR_HDR_LEN.

(** ** Reading a received message *)
Definition icmp6_type (m : list Z) : Z := tget m IDEMIP_ICMP6_OFF_TYPE.
Definition icmp6_code (m : list Z) : Z := tget m IDEMIP_ICMP6_OFF_CODE.
Definition icmp6_cksum (m : list Z) : Z := rd16 m IDEMIP_ICMP6_OFF_CKSUM.
Definition icmp6_is_informational (m : list Z) : bool := negb (Z.land (tget m IDEMIP_ICMP6_OFF_TYPE) IDEMIP_ICMP6_INFORMATIONAL =? 0).
Definition icmp6_id (m : list Z) : Z := rd16 m IDEMIP_ICMP6_OFF_ID.
Definition icmp6_seq (m : list Z) : Z := rd16 m IDEMIP_ICMP6_OFF_SEQ.
Definition icmp6_mtu (m : list Z) : Z := rd32 m IDEMIP_ICMP6_OFF_MTU.
Definition icmp6_pointer (m : list Z) : Z := rd32 m IDEMIP_ICMP6_OFF_POINTER.

Definition icmp6_is_nd (type : Z) : bool := (IDEMIP_ICMP6_ROUTER_SOLICIT <=? type) && (type <=? IDEMIP_ICMP6_REDIRECT).
Definition icmp6_is_mld (type : Z) : bool := (IDEMIP_ICMP6_MLD_QUERY <=? type) && (type <=? IDEMIP_ICMP6_MLD_DONE).
Definition icmp6_nd_hdr_len (type : Z) : Z :=
  if type =? IDEMIP_ICMP6_ROUTER_SOLICIT then IDEMIP_ICMP6_RS_HDR_LEN
  else if type =? IDEMIP_ICMP6_ROUTER_ADVERT then IDEMIP_ICMP6_RA_HDR_LEN
  else if type =? IDEMIP_ICMP6_NEIGHBOR_SOLICIT then IDEMIP_ICMP6_NS_HDR_LEN
  else if type =? IDEMIP_ICMP6_NEIGHBOR_ADVERT then IDEMIP_ICMP6_NA_HDR_LEN
  else if type =? IDEMIP_ICMP6_REDIRECT then IDEMIP_ICMP6_RD_HDR_LEN
  else 0.

(** The fields of multicast listener and neighbor discovery messages; an address is its sixteen octets. *)
Definition addr_at (m : list Z) (off : Z) : list Z := take (Z.to_nat IDEMIP_IP6_ADDR_LEN) (from m off).
Definition icmp6_mld_max_resp (m : list Z) : Z := rd16 m IDEMIP_ICMP6_OFF_MLD_MAX_RESP.
Definition icmp6_mld_group (m : list Z) : list Z := addr_at m IDEMIP_ICMP6_OFF_MLD_GROUP.
Definition icmp6_nd_target (m : list Z) : list Z := addr_at m IDEMIP_ICMP6_OFF_NS_TARGET.
Definition icmp6_rd_dest (m : list Z) : list Z := addr_at m IDEMIP_ICMP6_OFF_RD_DEST.
Definition icmp6_na_flags (m : list Z) : Z := tget m IDEMIP_ICMP6_OFF_NA_FLAGS.
Definition icmp6_ra_cur_hop (m : list Z) : Z := tget m IDEMIP_ICMP6_OFF_RA_CUR_HOP.
Definition icmp6_ra_flags (m : list Z) : Z := tget m IDEMIP_ICMP6_OFF_RA_FLAGS.
Definition icmp6_ra_lifetime (m : list Z) : Z := rd16 m IDEMIP_ICMP6_OFF_RA_LIFETIME.
Definition icmp6_ra_reachable (m : list Z) : Z := rd32 m IDEMIP_ICMP6_OFF_RA_REACHABLE.
Definition icmp6_ra_retrans (m : list Z) : Z := rd32 m IDEMIP_ICMP6_OFF_RA_RETRANS.

(** ** Options *)
Definition icmp6_nd_opt_type (o : list Z) : Z := tget o IDEMIP_ICMP6_ND_OPT_OFF_TYPE.
Definition icmp6_nd_opt_len (o : list Z) : Z := Z.shiftl (tget o IDEMIP_ICMP6_ND_OPT_OFF_LEN) IDEMIP_ICMP6_ND_OPT_UNIT_SHIFT.
(** The fuel is the octets left; an option is at least eight. *)
Fixpoint nd_opts_loop (fuel : nat) (opts : list Z) (at_ len : Z) : bool :=
  match fuel with
  | O => false
  | S fuel =>
      if at_ =? len then true
      else if len - at_ <? IDEMIP_ICMP6_ND_OPT_HDR_LEN then false
      else
      let step := icmp6_nd_opt_len (from opts at_) in
      if (step =? 0) || (len - at_ <? step) then false else nd_opts_loop fuel opts (at_ + step) len
  end.
Definition icmp6_nd_opts_ok (opts : list Z) (len : Z) : bool := nd_opts_loop (S (Z.to_nat len)) opts 0 len.

(** ** Writing a message: the region, and the octets the message occupies *)
Definition icmp6_hdr_write (w : list Z) (type code : Z) : list Z :=
  let w := tset w IDEMIP_ICMP6_OFF_TYPE type in
  let w := tset w IDEMIP_ICMP6_OFF_CODE code in
  wr16 w IDEMIP_ICMP6_OFF_CKSUM 0.
Definition icmp6_err_quote_len (invoking_len : Z) : Z := if IDEMIP_ICMP6_ERR_QUOTE_MAX <? invoking_len then IDEMIP_ICMP6_ERR_QUOTE_MAX else invoking_len.
Definition icmp6_err_build (w : list Z) (type code err_word : Z) (invoking : list Z) (invoking_len : Z) : list Z * Z :=
  let quote := icmp6_err_quote_len invoking_len in
  let w := icmp6_hdr_write w type code in
  let w := wr32 w IDEMIP_ICMP6_OFF_BODY err_word in
  let w := if negb (quote =? 0) then memcpy w IDEMIP_ICMP6_ERR_HDR_LEN invoking quote else w in
  (w, IDEMIP_ICMP6_ERR_HDR_LEN + quote).
Definition icmp6_dest_unreach (w : list Z) (code : Z) (invoking : list Z) (invoking_len : Z) : list Z * Z :=
  icmp6_err_build w IDEMIP_ICMP6_DEST_UNREACHABLE code 0 invoking invoking_len.
Definition icmp6_packet_too_big (w : list Z) (mtu : Z) (invoking : list Z) (invoking_len : Z) : list Z * Z :=
  icmp6_err_build w IDEMIP_ICMP6_PACKET_TOO_BIG IDEMIP_ICMP6_CODE_PTB mtu invoking invoking_len.
Definition icmp6_time_exceeded (w : list Z) (code : Z) (invoking : list Z) (invoking_len : Z) : list Z * Z :=
  icmp6_err_build w IDEMIP_ICMP6_TIME_EXCEEDED code 0 invoking invoking_len.
Definition icmp6_param_problem (w : list Z) (code pointer : Z) (invoking : list Z) (invoking_len : Z) : list Z * Z :=
  icmp6_err_build w IDEMIP_ICMP6_PARAMETER_PROBLEM code pointer invoking invoking_len.
Definition icmp6_echo_reply (w : list Z) (id seq : Z) (data : list Z) (data_len : Z) : list Z * Z :=
  let w := icmp6_hdr_write w IDEMIP_ICMP6_ECHO_REPLY IDEMIP_ICMP6_CODE_ECHO in
  let w := wr16 w IDEMIP_ICMP6_OFF_ID id in
  let w := wr16 w IDEMIP_ICMP6_OFF_SEQ seq in
  let w := if negb (data_len =? 0) then memcpy w IDEMIP_ICMP6_ECHO_HDR_LEN data data_len else w in
  (w, IDEMIP_ICMP6_ECHO_HDR_LEN + data_len).

Section Build.
Variable word : option nat.
Variable swap : bool.
Definition icmp6_cksum_compute (m : list Z) (len : Z) (src dst : list Z) : Z :=
  let sum := ip6_pseudo_accum word swap 0 src dst (u32 len) IDEMIP_IP6_NH_ICMPV6 in
  cksum_final (cksum_accum word swap sum (take (Z.to_nat len) m)).
End Build.
End Icmpv6.

(** * The ICMPv6 message path (src/icmp/icmp6_in.c)

    What an arriving message asks of the caller, the Echo Reply, and the errors RFC 4443 section 2.4 lets a
    node originate, under a token bucket.  [packet], [invoking] and [out] are the octets from those pointers
    on, and an address a pointer names is its sixteen octets. *)
Module Icmp6In.
Import Endian Checksum Wire Bucket Ipv6 Icmpv6.

Definition ICMP6_IN_READY : Z := 0x49434D36.
Definition ICMP6_IN_MULTICAST_TAG : Z := 0xFF.
Definition IDEMIP_ICMP6_IN_ND_REDIRECT : Z := 137.
Definition IDEMIP_ICMP6_IN_ACT_REPLY : Z := 1.
Definition IDEMIP_ICMP6_IN_ACT_TRANSPORT : Z := 2.
Definition IDEMIP_ICMP6_IN_ACT_USER : Z := 4.
Definition IDEMIP_ICMP6_IN_ACT_DISCARD : Z := 8.
Definition IDEMIP_ICMP6_IN_SUPPRESS_NONE : Z := 0.
Definition IDEMIP_ICMP6_IN_SUPPRESS_ERROR : Z := 1.
Definition IDEMIP_ICMP6_IN_SUPPRESS_REDIRECT : Z := 2.
Definition IDEMIP_ICMP6_IN_SUPPRESS_DST_MCAST : Z := 3.
Definition IDEMIP_ICMP6_IN_SUPPRESS_LINK_MCAST : Z := 4.
Definition IDEMIP_ICMP6_IN_SUPPRESS_LINK_BCAST : Z := 5.
Definition IDEMIP_ICMP6_IN_SUPPRESS_SRC : Z := 6.
Definition IDEMIP_ICMP6_IN_SUPPRESS_RATE : Z := 7.

Record Icmp6InRecvArgs := mkRecvArgs {
  ra_packet : option (list Z); ra_len : Z; ra_out : option (list Z); ra_out_cap : Z; ra_if_addr : option (list Z); ra_dst_anycast : bool }.
#[export] Instance Icmp6InRecvArgs_eta : Eta Icmp6InRecvArgs := fun r =>
  mkRecvArgs (ra_packet r) (ra_len r) (ra_out r) (ra_out_cap r) (ra_if_addr r) (ra_dst_anycast r).
Record Icmp6InErrArgs := mkErrArgs {
  ea_invoking : option (list Z); ea_len : Z; ea_out : option (list Z); ea_out_cap : Z; ea_if_addr : option (list Z); ea_word : Z; ea_now_ms : Z;
  ea_type : Z; ea_code : Z; ea_link_mcast : bool; ea_link_bcast : bool; ea_src_anycast : bool; ea_dst_local_unicast : bool }.
#[export] Instance Icmp6InErrArgs_eta : Eta Icmp6InErrArgs := fun r =>
  mkErrArgs (ea_invoking r) (ea_len r) (ea_out r) (ea_out_cap r) (ea_if_addr r) (ea_word r) (ea_now_ms r) (ea_type r) (ea_code r) (ea_link_mcast r)
    (ea_link_bcast r) (ea_src_anycast r) (ea_dst_local_unicast r).
Record Icmp6InIo := mkIo {
  recv_args : Icmp6InRecvArgs; err_args : Icmp6InErrArgs; io_src : option (list Z); io_dst : option (list Z); io_out_len : Z; io_msg_off : Z;
  io_msg_len : Z; io_mtu : Z; io_pointer : Z; io_id : Z; io_seq : Z; io_status : IdemIpStatus; io_act : Z; io_type : Z; io_code : Z; io_proto : Z;
  io_suppress : Z; io_tokens : Z; io_cksum_ok : bool; io_bad_len : bool; io_truncated : bool }.
#[export] Instance Icmp6InIo_eta : Eta Icmp6InIo := fun r =>
  mkIo (recv_args r) (err_args r) (io_src r) (io_dst r) (io_out_len r) (io_msg_off r) (io_msg_len r) (io_mtu r) (io_pointer r) (io_id r) (io_seq r)
    (io_status r) (io_act r) (io_type r) (io_code r) (io_proto r) (io_suppress r) (io_tokens r) (io_cksum_ok r) (io_bad_len r) (io_truncated r).
Record Icmp6InCtx := mkCtx { c_ready : Z; c_refill_ms : Z; c_tokens : Z }.
#[export] Instance Icmp6InCtx_eta : Eta Icmp6InCtx := fun r => mkCtx (c_ready r) (c_refill_ms r) (c_tokens r).
Record Work := mkWork { w_io : Icmp6InIo; w_ctx : Icmp6InCtx }.
#[export] Instance Work_eta : Eta Work := fun r => mkWork (w_io r) (w_ctx r).
Definition put_io (w : Work) (io : Icmp6InIo) : Work := w <| w_io := io |>.

(** [memset(work, 0, ..)]: every operand and result zero. *)
Definition io_zero : Icmp6InIo :=
  mkIo (mkRecvArgs None 0 None 0 None false) (mkErrArgs None 0 None 0 None 0 0 0 0 false false false false) None None 0 0 0 0 0 0 0 IDEMIP_OK 0 0 0 0 0 0
    false false false.

(** ** Addresses *)
Definition icmp6_in_is_multicast (addr : list Z) : bool := tget addr 0 =? ICMP6_IN_MULTICAST_TAG.
Definition icmp6_in_is_unspecified (addr : list Z) : bool := forallb (λ b, b =? 0) (take (Z.to_nat IDEMIP_IP6_ADDR_LEN) addr).

(** The Type of the ICMPv6 message an invoking packet carries, when its chain reaches one. *)
Definition icmp6_in_invoking_type (p : list Z) (len : Z) : option Z :=
  let c := ip6_chain p len in
  if negb (c_ok c) || negb (c_next_hdr c =? IDEMIP_IP6_NH_ICMPV6) then None
  else if c_fragmented c && negb (ip6_frag_offset_bytes (from p (c_frag_hdr c)) =? 0) then None
  else if len <? c_offset c + IDEMIP_ICMP6_HDR_LEN then None
  else Some (icmp6_type (from p (c_offset c))).

Definition icmp6_in_mcast_exception (a : Icmp6InErrArgs) (invoking : list Z) (avail : Z) : bool :=
  if ea_type a =? IDEMIP_ICMP6_PACKET_TOO_BIG then true
  else (ea_type a =? IDEMIP_ICMP6_PARAMETER_PROBLEM) && (ea_code a =? IDEMIP_ICMP6_PP_UNREC_OPTION) && (ea_word a <? avail) &&
       (Z.land (tget invoking (ea_word a)) IDEMIP_IP6_OPT_ACT_MASK =? IDEMIP_IP6_OPT_ACT_DISCARD_ICMP).

(** The rule of section 2.4 (e) that refuses an error about the packet. *)
Definition icmp6_in_suppressed (a : Icmp6InErrArgs) (invoking : list Z) (avail : Z) : Z :=
  let invoked := icmp6_in_invoking_type invoking avail in
  if match invoked with Some t => Z.land t IDEMIP_ICMP6_INFORMATIONAL =? 0 | None => false end then IDEMIP_ICMP6_IN_SUPPRESS_ERROR
  else if match invoked with Some t => t =? IDEMIP_ICMP6_IN_ND_REDIRECT | None => false end then IDEMIP_ICMP6_IN_SUPPRESS_REDIRECT
  else
  let exception := icmp6_in_mcast_exception a invoking avail in
  if icmp6_in_is_multicast (ip6_dst invoking) && negb exception then IDEMIP_ICMP6_IN_SUPPRESS_DST_MCAST
  else if ea_link_mcast a && negb exception then IDEMIP_ICMP6_IN_SUPPRESS_LINK_MCAST
  else if ea_link_bcast a && negb exception then IDEMIP_ICMP6_IN_SUPPRESS_LINK_BCAST
  else
  let src := ip6_src invoking in
  if icmp6_in_is_unspecified src || icmp6_in_is_multicast src || ea_src_anycast a then IDEMIP_ICMP6_IN_SUPPRESS_SRC
  else IDEMIP_ICMP6_IN_SUPPRESS_NONE.

(** Every result but the tokens. *)
Definition icmp6_in_result_clear (io : Icmp6InIo) : Icmp6InIo :=
  mkIo (recv_args io) (err_args io) None None 0 0 0 0 0 0 0 (io_status io) 0 0 0 0 IDEMIP_ICMP6_IN_SUPPRESS_NONE (io_tokens io) false false false.

Definition act_or (io : Icmp6InIo) (bit : Z) : Icmp6InIo := io <| io_act := Z.lor (io_act io) bit |>.

(** An arriving error: where its quote goes, or that it goes nowhere. *)
Definition icmp6_in_error_arrived (io : Icmp6InIo) (msg : list Z) (msg_len : Z) : Icmp6InIo :=
  if msg_len <? IDEMIP_ICMP6_ERR_HDR_LEN then act_or (io <| io_bad_len := true |>) IDEMIP_ICMP6_IN_ACT_DISCARD
  else
  let io := if io_type io =? IDEMIP_ICMP6_PACKET_TOO_BIG then io <| io_mtu := icmp6_mtu msg |> else io in
  let io := if io_type io =? IDEMIP_ICMP6_PARAMETER_PROBLEM then io <| io_pointer := icmp6_pointer msg |> else io in
  let body := from msg IDEMIP_ICMP6_ERR_HDR_LEN in
  let body_len := msg_len - IDEMIP_ICMP6_ERR_HDR_LEN in
  if body_len <? IDEMIP_IP6_OFF_PAYLOAD then act_or (io <| io_bad_len := true |>) IDEMIP_ICMP6_IN_ACT_DISCARD
  else
  let c := ip6_chain body body_len in
  if negb (c_ok c) || (c_next_hdr c =? IDEMIP_IP6_NH_NONE) then act_or (io <| io_truncated := true |>) IDEMIP_ICMP6_IN_ACT_DISCARD
  else act_or (io <| io_proto := c_next_hdr c |>) IDEMIP_ICMP6_IN_ACT_TRANSPORT.

Section Build.
(** The build: its checksum route and the bucket. *)
Variable word : option nat.
Variable swap : bool.
Variables (BUCKET TOKEN_MS : Z).

Definition icmp6_in_cksum_ok (p m : list Z) (len : Z) : bool :=
  let sum := ip6_pseudo_accum word swap 0 (ip6_src p) (ip6_dst p) (u32 len) IDEMIP_IP6_NH_ICMPV6 in
  cksum_final (cksum_accum word swap sum (take (Z.to_nat len) m)) =? 0.

Definition icmp6_in_refill (ctx : Icmp6InCtx) (now_ms : Z) : Icmp6InCtx :=
  let '(tokens, refill_ms) := refill BUCKET TOKEN_MS (c_tokens ctx) (c_refill_ms ctx) now_ms in
  ctx <| c_tokens := tokens |> <| c_refill_ms := refill_ms |>.

(** The checksum over a built message, into it. *)
Definition put_cksum (out : list Z) (len : Z) (src dst : list Z) : list Z :=
  wr16 out IDEMIP_ICMP6_OFF_CKSUM (icmp6_cksum_compute word swap out len src dst).

Definition icmp6_in_build_echo_reply (io : Icmp6InIo) (msg : list Z) (msg_len : Z) (out src dst : list Z) : Icmp6InIo :=
  let data_len := msg_len - IDEMIP_ICMP6_ECHO_HDR_LEN in
  let '(out, n) := icmp6_echo_reply out (io_id io) (io_seq io) (from msg IDEMIP_ICMP6_ECHO_HDR_LEN) data_len in
  act_or (io <| recv_args := (recv_args io) <| ra_out := Some (put_cksum out n src dst) |> |> <| io_out_len := n |>) IDEMIP_ICMP6_IN_ACT_REPLY.

Definition idemip_icmp6_in_clear (w : Work) : Work := mkWork io_zero (mkCtx ICMP6_IN_READY 0 BUCKET).

(** A message the chain reached and the packet holds. *)
Definition message_arrived (io : Icmp6InIo) (packet msg : list Z) (msg_len : Z) (out src dst : list Z) : Icmp6InIo :=
  if msg_len <? IDEMIP_ICMP6_HDR_LEN then io <| io_bad_len := true |> <| io_act := IDEMIP_ICMP6_IN_ACT_DISCARD |>
  else
  let ok := icmp6_in_cksum_ok packet msg msg_len in
  let io := io <| io_type := icmp6_type msg |> <| io_code := icmp6_code msg |> <| io_cksum_ok := ok |> in
  if negb ok then io <| io_act := IDEMIP_ICMP6_IN_ACT_DISCARD |>
  else if negb (icmp6_is_informational msg) then icmp6_in_error_arrived io msg msg_len
  else if negb (io_type io =? IDEMIP_ICMP6_ECHO_REQUEST) && negb (io_type io =? IDEMIP_ICMP6_ECHO_REPLY) then io <| io_act := IDEMIP_ICMP6_IN_ACT_DISCARD |>
  else if msg_len <? IDEMIP_ICMP6_ECHO_HDR_LEN then io <| io_bad_len := true |> <| io_act := IDEMIP_ICMP6_IN_ACT_DISCARD |>
  else
  let io := io <| io_id := icmp6_id msg |> <| io_seq := icmp6_seq msg |> in
  if io_type io =? IDEMIP_ICMP6_ECHO_REPLY then io <| io_act := IDEMIP_ICMP6_IN_ACT_USER |>
  else if ra_out_cap (recv_args io) <? msg_len then (icmp6_in_result_clear io) <| io_status := IDEMIP_ERR |>
  else icmp6_in_build_echo_reply io msg msg_len out src dst.

Definition idemip_icmp6_in_recv (w : Work) : Work :=
  let io := (icmp6_in_result_clear (w_io w)) <| io_status := IDEMIP_ERR |> in
  let a := recv_args io in
  if negb (c_ready (w_ctx w) =? ICMP6_IN_READY) then put_io w io
  else
  match ra_packet a, ra_out a, ra_if_addr a with
  | Some packet, Some out, Some if_addr =>
      if ra_len a <? IDEMIP_IPV6_HDR_LEN then put_io w io
      else if negb (ip6_version packet =? IDEMIP_IP6_VERSION) then put_io w io
      else
      let c := ip6_chain packet (ra_len a) in
      if negb (c_ok c) || negb (c_next_hdr c =? IDEMIP_IP6_NH_ICMPV6) then put_io w io
      else
      let msg_len := ip6_upper_len packet c in
      if ra_len a <? c_offset c + msg_len then put_io w io
      else
      let msg := from packet (c_offset c) in
      let dst := ip6_dst packet in
      let src := if icmp6_in_is_multicast dst || ra_dst_anycast a then if_addr else dst in
      let io := io <| io_msg_off := c_offset c |> <| io_msg_len := msg_len |> <| io_src := Some src |> <| io_dst := Some (ip6_src packet) |> <| io_status := IDEMIP_OK |> in
      put_io w (message_arrived io packet msg msg_len out src (ip6_src packet))
  | _, _, _ => put_io w io
  end.

(** ** An error originated *)

(** The message, once no rule refuses it and the buffer holds it: a token is spent or the call is BUSY. *)
Definition error_spend (w : Work) (io : Icmp6InIo) (invoking out if_addr : list Z) (avail : Z) : Work :=
  let a := err_args io in
  let ctx := icmp6_in_refill (w_ctx w) (ea_now_ms a) in
  if c_tokens ctx =? 0 then
    mkWork (io <| io_tokens := 0 |> <| io_suppress := IDEMIP_ICMP6_IN_SUPPRESS_RATE |> <| io_status := IDEMIP_BUSY |>) ctx
  else
  let ctx := ctx <| c_tokens := u8 (c_tokens ctx - 1) |> in
  let dst := ip6_dst invoking in
  let src := if ea_dst_local_unicast a && negb (icmp6_in_is_multicast dst) then dst else if_addr in
  let '(out, out_len) := icmp6_err_build out (ea_type a) (ea_code a) (ea_word a) invoking avail in
  mkWork (io <| io_tokens := c_tokens ctx |> <| io_src := Some src |> <| io_dst := Some (ip6_src invoking) |> <| io_out_len := out_len |>
             <| err_args := a <| ea_out := Some (put_cksum out out_len src (ip6_src invoking)) |> |> <| io_status := IDEMIP_OK |>) ctx.

Definition idemip_icmp6_in_error (w : Work) : Work :=
  let io := (icmp6_in_result_clear (w_io w)) <| io_status := IDEMIP_ERR |> in
  if negb (c_ready (w_ctx w) =? ICMP6_IN_READY) then put_io w io
  else
  let a := err_args io in
  let io := io <| io_tokens := c_tokens (w_ctx w) |> in
  match ea_invoking a, ea_out a, ea_if_addr a with
  | Some invoking, Some out, Some if_addr =>
      if ea_len a <? IDEMIP_IPV6_HDR_LEN then put_io w io
      else if negb (ip6_version invoking =? IDEMIP_IP6_VERSION) then put_io w io
      else
      let io := io <| io_type := ea_type a |> <| io_code := ea_code a |> in
      if (ea_type a <? IDEMIP_ICMP6_DEST_UNREACHABLE) || (IDEMIP_ICMP6_PARAMETER_PROBLEM <? ea_type a) then put_io w io
      else
      let pkt_len := IDEMIP_IPV6_HDR_LEN + ip6_payload_len invoking in
      let avail := if pkt_len <? ea_len a then pkt_len else ea_len a in
      let io := io <| io_suppress := icmp6_in_suppressed a invoking avail |> in
      if negb (io_suppress io =? IDEMIP_ICMP6_IN_SUPPRESS_NONE) then put_io w io
      else if ea_out_cap a <? IDEMIP_ICMP6_ERR_HDR_LEN + icmp6_err_quote_len avail then put_io w io
      else error_spend w io invoking out if_addr avail
  | _, _, _ => put_io w io
  end.
End Build.
End Icmp6In.
