(* ===== verification/Icmp6InThms.v ===== *)
(** * Which ICMPv6 errors go out

    The packets RFC 4443 section 2.4 (e) lets an error be about, what the error carries, and that nothing is
    sent about it. *)
From S2P Require Import Prelude Base Wire Ipv4 Tcp Bucket Icmp Ipv6 Icmpv6.

Module Icmp6InThms.
Import Endian Checksum Wire Look Bucket Ipv6 Ipv6Thms Icmpv6 Icmp6In.

(** ** The sum every message starts from *)
Lemma pseudo_agrees word swap sum src dst len nh : Some (ip6_pseudo_accum word swap sum src dst len nh) = Pseudo.pseudo6_accum word swap sum nh src dst len.
Proof. reflexivity. Qed.
Lemma pseudo_range word swap src dst len nh : build word → octets src → octets dst → 1 ≤ nh ≤ 255 → is_u16 len → 1 ≤ ip6_pseudo_accum word swap 0 src dst len nh ≤ 600000.
Proof.
  intros Hb Hs Hd Hn Hl. apply (Pseudo.pseudo_accum_range word swap true true 6 nh src dst len); done.
Qed.

(** A message with its checksum: the type and code, the four octets behind it and the rest. *)
Definition closing6 (word : option nat) (swap : bool) (src dst : list Z) (t c : Z) (four data : list Z) : Z :=
  icmp6_cksum_compute word swap (Icmp.message t c 0 four data) (8 + Z.of_nat (length data)) src dst.
Definition valid6 (word : option nat) (swap : bool) (src dst m : list Z) : bool :=
  cksum_final (cksum_accum word swap (ip6_pseudo_accum word swap 0 src dst (Z.of_nat (length m)) IDEMIP_IP6_NH_ICMPV6) m) =? 0.

Lemma message6_closes word swap src dst t c four data : build word → octets src → octets dst → is_u8 t → is_u8 c → octets four → length four = 4%nat → octets data →
  Z.of_nat (length data) ≤ 65527 →
  is_u16 (closing6 word swap src dst t c four data) ∧ valid6 word swap src dst (Icmp.message t c (closing6 word swap src dst t c four data) four data) = true.
Proof.
  intros Hb Hs Hd Ht Hc Hf Hf4 Ho Hl. assert (octets [t; c]) as Hp by octs. assert (octets (four ++ data)) as Hq by (by apply Forall_app).
  set (n := 8 + Z.of_nat (length data)). assert (∀ ck, Z.of_nat (length (Icmp.message t c ck four data)) = n) as Hml by (intros; unfold Icmp.message; rewrite !length_app, Hf4; cbn; lia).
  set (S0 := ip6_pseudo_accum word swap 0 src dst n IDEMIP_IP6_NH_ICMPV6). assert (1 ≤ S0 ≤ 600000) as HS by (apply pseudo_range; try done; unfold is_u16; lia).
  assert (closing6 word swap src dst t c four data = cksum_final (cksum_accum word swap S0 ([t; c] ++ be16 0 ++ (four ++ data)))) as ->.
  { unfold closing6, icmp6_cksum_compute. fold n. rewrite u32_id by (unfold is_u32; lia). fold S0. f_equal. f_equal. rewrite take_ge by (pose proof (Hml 0); lia). done. }
  destruct (cksum_closes word swap S0 [t; c] (four ++ data) (cksum_final (cksum_accum word swap S0 ([t; c] ++ be16 0 ++ (four ++ data))))) as [Hk Hz]; try done.
  { lia. }
  { pose proof (words_sum_nonneg _ Hp). pose proof (words_sum_nonneg _ Hq). lia. }
  { rewrite !length_app, Hf4. cbn. lia. }
  split; [done|]. unfold valid6. rewrite Hml. fold S0. apply Z.eqb_eq, Hz.
Qed.

(** A region with a message of a zero checksum at its head, closed. *)
Lemma cksum_put word swap src dst out t c four data : is_u16 (closing6 word swap src dst t c four data) → length four = 4%nat → (8 + length data ≤ length out)%nat →
  put_cksum word swap (wr out (Icmp.message t c 0 four data)) (8 + Z.of_nat (length data)) src dst = wr out (Icmp.message t c (closing6 word swap src dst t c four data) four data).
Proof.
  intros Hk Hf Hl. unfold put_cksum. assert (take (Z.to_nat (8 + Z.of_nat (length data))) (wr out (Icmp.message t c 0 four data)) = Icmp.message t c 0 four data) as Ht.
  { assert (Z.to_nat (8 + Z.of_nat (length data)) = length (Icmp.message t c 0 four data)) as -> by (unfold Icmp.message; rewrite !length_app, Hf; cbn; lia). apply wr_take. }
  assert (icmp6_cksum_compute word swap (wr out (Icmp.message t c 0 four data)) (8 + Z.of_nat (length data)) src dst = closing6 word swap src dst t c four data) as ->.
  { unfold closing6, icmp6_cksum_compute. rewrite Ht. do 2 f_equal. symmetry. apply take_ge. unfold Icmp.message. rewrite !length_app, Hf. cbn. lia. }
  set (ck := closing6 _ _ _ _ _ _ _ _) in *. clearbody ck. unfold wr16. change (Z.to_nat IDEMIP_ICMP6_OFF_CKSUM) with 2%nat.
  unfold wr, Icmp.message. rewrite !length_app, Hf. cbn [be16 app take drop length]. by rewrite wr16_bytes.
Qed.

Lemma err_built word swap out inv t c err_word avail src dst : build word → octets inv → octets src → octets dst → is_u8 t → is_u8 c → is_u32 err_word →
  40 ≤ avail ≤ Z.of_nat (length inv) → 8 + Z.min avail 1232 ≤ Z.of_nat (length out) →
  let '(o, n) := icmp6_err_build out t c err_word inv avail in
  n = 8 + Z.min avail 1232 ∧
  ∃ m, put_cksum word swap o n src dst = wr out m ∧ Z.of_nat (length m) = n ∧ icmp6_type m = t ∧ icmp6_code m = c ∧ rd32 m 4 = err_word ∧
    drop 8 m = take (Z.to_nat (Z.min avail 1232)) inv ∧ octets m ∧ valid6 word swap src dst m = true.
Proof.
  intros Hb Hi Hs Hd Ht Hc Hw Ha Ho. set (q := Z.min avail 1232) in *. unfold icmp6_err_build.
  assert (icmp6_err_quote_len avail = q) as -> by (unfold icmp6_err_quote_len, q, IDEMIP_ICMP6_ERR_QUOTE_MAX, IDEMIP_IPV6_MIN_MTU, IDEMIP_IPV6_HDR_LEN, IDEMIP_ICMP6_ERR_HDR_LEN; split_if; lia).
  rewrite (proj2 (Z.eqb_neq q 0)) by lia. cbn [negb]. change IDEMIP_ICMP6_ERR_HDR_LEN with 8. set (data := take (Z.to_nat q) inv).
  assert (length data = Z.to_nat q) as Hdl by (unfold data; rewrite length_take; lia). assert (octets data) as Hdo by (by apply Forall_take).
  destruct (message6_closes word swap src dst t c (be32 err_word) data) as [Hk Hv]; try done; [by apply be32_octets|lia|]. set (ck := closing6 _ _ _ _ _ _ _ _) in *.
  assert (memcpy (wr32 (icmp6_hdr_write out t c) IDEMIP_ICMP6_OFF_BODY err_word) 8 inv q = wr out (Icmp.message t c 0 (be32 err_word) data)) as ->.
  { set (w1 := wr32 _ _ _). assert (w1 = wr out ([t; c] ++ be16 0 ++ be32 err_word)) as ->.
    { subst w1. unfold icmp6_hdr_write, wr. do 8 (destruct out as [|? out]; [cbn [length] in Ho; lia|]). assert (is_u16 0) by (unfold is_u16; lia).
      unfold IDEMIP_ICMP6_OFF_TYPE, IDEMIP_ICMP6_OFF_CODE, IDEMIP_ICMP6_OFF_CKSUM, IDEMIP_ICMP6_OFF_BODY. do 2 write_field. reflexivity. }
    change 8 with (Z.of_nat (length ([t; c] ++ be16 0 ++ be32 err_word))). rewrite memcpy_wr by lia. fold data. unfold Icmp.message. by rewrite <- !app_assoc. }
  split; [done|]. exists (Icmp.message t c ck (be32 err_word) data). destruct (Icmp.message_reads t c ck (be32 err_word) data Hk eq_refl) as (R1&R2&_&R3&R4).
  assert (8 + q = 8 + Z.of_nat (length data)) as E8 by lia. rewrite E8. split_and!.
  - apply cksum_put; [exact Hk|done|lia].
  - unfold Icmp.message. rewrite !length_app. cbn. lia.
  - exact R1.
  - exact R2.
  - unfold rd32. change (Z.to_nat 4) with 4%nat. rewrite R3. by apply rd32_be32.
  - exact R4.
  - apply Icmp.message_octets; try done. by apply be32_octets.
  - exact Hv.
Qed.

(** ** Which packets an error is about *)

(** The first octet of the message the invoking packet's chain reaches. *)
Definition reaches (inv : list Z) (n t : Z) : Prop := ∃ hs off bad, chain_of inv n hs 58 off bad ∧ off + 4 ≤ n ∧ tget inv off = t.
(** Section 2.4 (e.3)'s exceptions: a Packet Too Big, and a Parameter Problem about an option whose type asks
    for one. *)
Definition excepted (a : Icmp6InErrArgs) (inv : list Z) (n : Z) : Prop :=
  ea_type a = 2 ∨ ea_type a = 4 ∧ ea_code a = 2 ∧ ea_word a < n ∧ Z.land (tget inv (ea_word a)) 0xC0 = 0x80.
Definition may_answer (a : Icmp6InErrArgs) (inv : list Z) (n : Z) : Prop :=
  (∀ t, reaches inv n t → 128 ≤ t ∧ t ≠ 137) ∧
  (excepted a inv n ∨ tget (ip6_dst inv) 0 ≠ 255 ∧ ea_link_mcast a = false ∧ ea_link_bcast a = false) ∧
  ip6_src inv ≠ replicate 16 0 ∧ tget (ip6_src inv) 0 ≠ 255 ∧ ea_src_anycast a = false.

Lemma informational t : 0 ≤ t < 256 → (Z.land t 128 =? 0) = (t <? 128).
Proof.
  intros Ht. assert (∀ n : nat, (n < 256)%nat → (Z.land (Z.of_nat n) 128 =? 0) = (Z.of_nat n <? 128)) as H.
  { assert (forallb (λ n, Bool.eqb (Z.land (Z.of_nat n) 128 =? 0) (Z.of_nat n <? 128)) (seq 0 256) = true) as Hf by (vm_compute; reflexivity).
    intros n Hn. rewrite forallb_forall in Hf. apply eqb_prop, (Hf n). apply in_seq. lia. }
  rewrite <- (Z2Nat.id t) by lia. apply H. lia.
Qed.

Lemma invoking_reaches inv n : octets inv → 40 ≤ n < 524288 → ∀ t, icmp6_in_invoking_type inv n = Some t ↔ reaches inv n t.
Proof.
  intros Ho Hn t. unfold icmp6_in_invoking_type, IDEMIP_IP6_NH_ICMPV6, IDEMIP_ICMP6_HDR_LEN, icmp6_type, IDEMIP_ICMP6_OFF_TYPE.
  destruct (chain_spec inv n Ho Hn) as (_&_&Hok&Hch).
  pose proof (λ hs up e bad, chain_first_fragment inv n hs up e bad Ho Hn) as Hff. cbv zeta in Hff. set (c := ip6_chain inv n) in *. clearbody c.
  destruct (c_ok c); cbn [negb orb].
  2:{ split; [done|]. intros (hs&off&bad&Hc&_). assert (false = true); [|done]. apply Hok. eauto. }
  destruct Hok as [Hok _]. destruct (Hok eq_refl) as (hs&up&e&bad&Hc). destruct (Hch _ _ _ _ Hc) as ((E1&E2&_)&He&_). specialize (Hff _ _ _ _ Hc).
  destruct (Z.eqb_spec (c_next_hdr c) 58) as [E|E]; cbn [negb].
  2:{ split; [done|]. intros (hs'&off&bad'&Hc'&_). destruct (Hch _ _ _ _ Hc') as ((E1'&_)&_). congruence. }
  assert (up = 58) as -> by congruence.
  rewrite Hff by done.
  rewrite E2. assert (∀ hs' off bad', chain_of inv n hs' 58 off bad' → off = e) as Hu by (intros hs' off bad' Hc'; destruct (Hch _ _ _ _ Hc') as ((_&E2'&_)&_); congruence).
  destruct (Z.ltb_spec n (e + 4)).
  - split; [done|]. intros (hs'&off&bad'&Hc'&Hl&_). apply Hu in Hc'. lia.
  - rewrite get_from, Z.add_0_r by lia. split.
    + intros [= <-]. exists hs, e, bad. done.
    + intros (hs'&off&bad'&Hc'&Hl&<-). apply Hu in Hc'. by subst.
Qed.

Lemma suppressed6_iff a inv n : octets inv → 40 ≤ n < 524288 → n ≤ Z.of_nat (length inv) → icmp6_in_suppressed a inv n = IDEMIP_ICMP6_IN_SUPPRESS_NONE ↔ may_answer a inv n.
Proof.
  intros Ho Hn Hl. pose proof (invoking_reaches inv n Ho Hn) as Hr. unfold icmp6_in_suppressed, may_answer.
  assert (icmp6_in_mcast_exception a inv n = true ↔ excepted a inv n) as He.
  { unfold icmp6_in_mcast_exception, excepted, IDEMIP_ICMP6_PACKET_TOO_BIG, IDEMIP_ICMP6_PARAMETER_PROBLEM, IDEMIP_ICMP6_PP_UNREC_OPTION, IDEMIP_IP6_OPT_ACT_MASK, IDEMIP_IP6_OPT_ACT_DISCARD_ICMP.
    destruct (Z.eqb_spec (ea_type a) 2); [tauto|]. rewrite !andb_true_iff, !Z.eqb_eq, Z.ltb_lt. tauto. }
  assert (icmp6_in_is_unspecified (ip6_src inv) = true ↔ ip6_src inv = replicate 16 0) as Hun.
  { unfold icmp6_in_is_unspecified. assert (length (ip6_src inv) = 16%nat) as H16 by (unfold ip6_src, IDEMIP_IP6_ADDR_LEN, IDEMIP_IP6_OFF_SRC; rewrite length_take, length_drop; lia).
    rewrite take_ge by (unfold IDEMIP_IP6_ADDR_LEN; lia). by rewrite zeros_iff, H16. }
  assert (match icmp6_in_invoking_type inv n with Some t => 128 ≤ t ∧ t ≠ 137 | None => True end ↔ ∀ t, reaches inv n t → 128 ≤ t ∧ t ≠ 137) as Hi.
  { destruct (icmp6_in_invoking_type inv n) as [t|]; [|split; [|done]; intros _ t Ht; apply Hr in Ht; done].
    split; [|intros H; by apply H, Hr]. intros Ht t' Ht'. apply Hr in Ht'. congruence. }
  rewrite <- Hi, <- He, <- Hun. clear He Hun Hi. unfold icmp6_in_is_multicast, ICMP6_IN_MULTICAST_TAG, IDEMIP_ICMP6_INFORMATIONAL, IDEMIP_ICMP6_IN_ND_REDIRECT.
  destruct (icmp6_in_invoking_type inv n) as [t|].
  - assert (0 ≤ t < 256) as Ht by (destruct (proj1 (Hr t) eq_refl) as (?&?&?&_&_&<-); by apply get_octet). rewrite informational by done.
    destruct (Z.ltb_spec t 128); [split; [done|lia]|]. destruct (Z.eqb_spec t 137); [split; [done|lia]|]. clear Hr.
    destruct (icmp6_in_mcast_exception a inv n), (icmp6_in_is_unspecified (ip6_src inv)), (ea_link_mcast a), (ea_link_bcast a), (ea_src_anycast a),
      (Z.eqb_spec (tget (ip6_dst inv) 0) 255), (Z.eqb_spec (tget (ip6_src inv) 0) 255); cbn; split; intros; try done; try (split_and!; (done || tauto)); exfalso; naive_solver.
  - clear Hr. destruct (icmp6_in_mcast_exception a inv n), (icmp6_in_is_unspecified (ip6_src inv)), (ea_link_mcast a), (ea_link_bcast a), (ea_src_anycast a),
      (Z.eqb_spec (tget (ip6_dst inv) 0) 255), (Z.eqb_spec (tget (ip6_src inv) 0) 255); cbn; split; intros; try done; try (split_and!; (done || tauto)); exfalso; naive_solver.
Qed.

(** ** An error about a packet *)
Definition offered (w : Work) (inv out ifa : list Z) : Prop :=
  let a := err_args (w_io w) in
  c_ready (w_ctx w) = ICMP6_IN_READY ∧ ea_invoking a = Some inv ∧ ea_out a = Some out ∧ ea_if_addr a = Some ifa ∧ octets inv ∧ octets ifa ∧
  40 ≤ ea_len a < 524288 ∧ ea_len a ≤ Z.of_nat (length inv) ∧ ip6_version inv = 6 ∧ ea_out_cap a ≤ Z.of_nat (length out) ∧ is_u32 (ea_word a) ∧ is_u8 (ea_code a).
(** The octets of it there are, and those an error quotes: at most what leaves the error inside the minimum MTU. *)
Definition available (a : Icmp6InErrArgs) (inv : list Z) : Z := Z.min (40 + ip6_payload_len inv) (ea_len a).
Definition quoted (a : Icmp6InErrArgs) (inv : list Z) : Z := Z.min (available a inv) 1232.
Definition sendable (a : Icmp6InErrArgs) (inv : list Z) : Prop := 1 ≤ ea_type a ≤ 4 ∧ may_answer a inv (available a inv) ∧ 8 + quoted a inv ≤ ea_out_cap a.
(** Section 2.2: from the address the packet was sent to where that is this node's own, from the interface's else. *)
Definition from_addr (a : Icmp6InErrArgs) (inv ifa : list Z) : list Z :=
  if ea_dst_local_unicast a && negb (icmp6_in_is_multicast (ip6_dst inv)) then ip6_dst inv else ifa.

Lemma spend6_spec word swap B T w io inv out ifa avail : err_args io = err_args (w_io w) →
  let a := err_args (w_io w) in
  let r := error_spend word swap B T w io inv out ifa avail in
  let src := from_addr a inv ifa in
  let '(o, n) := icmp6_err_build out (ea_type a) (ea_code a) (ea_word a) inv avail in
  if (spend B T (c_tokens (w_ctx w)) (c_refill_ms (w_ctx w)) (ea_now_ms a)).1
  then io_status (w_io r) = IDEMIP_OK ∧ io_out_len (w_io r) = n ∧ io_src (w_io r) = Some src ∧ io_dst (w_io r) = Some (ip6_src inv) ∧
       ea_out (err_args (w_io r)) = Some (put_cksum word swap o n src (ip6_src inv))
  else io_status (w_io r) = IDEMIP_BUSY ∧ io_suppress (w_io r) = IDEMIP_ICMP6_IN_SUPPRESS_RATE ∧ err_args (w_io r) = a.
Proof.
  intros Ha. cbv zeta. unfold error_spend, icmp6_in_refill, spend. rewrite Ha. destruct w as [i ctx]. cbn [w_ctx w_io]. destruct (refill B T _ _ _) as [k r].
  change (c_tokens (ctx <| c_tokens := k |> <| c_refill_ms := r |>)) with k. fold (from_addr (err_args i) inv ifa).
  destruct (icmp6_err_build _ _ _ _ _ _) as [o n]. destruct (k =? 0); cbn [fst]; [|done]. change (w_io (mkWork i ctx)) with i in Ha. by rewrite <- Ha.
Qed.

(** A call that gets past its checks, and one that does not. *)
Lemma error6_gate word swap B T w inv out ifa : offered w inv out ifa → let a := err_args (w_io w) in let r := idemip_icmp6_in_error word swap B T w in
  (sendable a inv → ∃ io, err_args io = a ∧ r = error_spend word swap B T w io inv out ifa (available a inv)) ∧
  (¬ sendable a inv → io_status (w_io r) = IDEMIP_ERR ∧ err_args (w_io r) = a).
Proof.
  intros (Hr&Hi&Ho&Hf&Hio&_&Hl&Hll&Hv&_&_&_) a r. subst a r.
  assert (40 ≤ available (err_args (w_io w)) inv < 524288 ∧ available (err_args (w_io w)) inv ≤ Z.of_nat (length inv)) as [Hav Hal].
  { unfold available. pose proof (Ipv4.rd16_range inv IDEMIP_IP6_OFF_PAYLOAD_LEN) as Hp. fold (ip6_payload_len inv) in Hp. unfold is_u16 in Hp. lia. }
  unfold sendable. rewrite <- suppressed6_iff by done. unfold idemip_icmp6_in_error. rewrite Hr, Z.eqb_refl. cbn [negb].
  change (err_args ((icmp6_in_result_clear (w_io w)) <| io_status := IDEMIP_ERR |>)) with (err_args (w_io w)). rewrite Hi, Ho, Hf.
  rewrite (proj2 (Z.ltb_ge _ _)) by (unfold IDEMIP_IPV6_HDR_LEN; lia). rewrite Hv. change (6 =? IDEMIP_IP6_VERSION) with true. cbn [negb].
  assert ((if IDEMIP_IPV6_HDR_LEN + ip6_payload_len inv <? ea_len (err_args (w_io w)) then IDEMIP_IPV6_HDR_LEN + ip6_payload_len inv else ea_len (err_args (w_io w))) =
    available (err_args (w_io w)) inv) as -> by (unfold available, IDEMIP_IPV6_HDR_LEN; split_if; lia).
  set (n := available _ inv) in *. assert (icmp6_err_quote_len n = Z.min n 1232) as ->
    by (unfold icmp6_err_quote_len, IDEMIP_ICMP6_ERR_QUOTE_MAX, IDEMIP_IPV6_MIN_MTU, IDEMIP_IPV6_HDR_LEN, IDEMIP_ICMP6_ERR_HDR_LEN; split_if; lia).
  unfold quoted, IDEMIP_ICMP6_DEST_UNREACHABLE, IDEMIP_ICMP6_PARAMETER_PROBLEM. fold n. set (a := err_args (w_io w)) in *.
  destruct (Z.ltb_spec (ea_type a) 1), (Z.ltb_spec 4 (ea_type a)); cbn [orb]; try (split; [lia|done]).
  match goal with |- context [io_suppress (?i <| io_suppress := ?s |>)] => change (io_suppress (i <| io_suppress := s |>)) with s; set (io := i <| io_suppress := s |>) end.
  destruct (Z.eqb_spec (icmp6_in_suppressed a inv n) IDEMIP_ICMP6_IN_SUPPRESS_NONE); cbn [negb]; [|split; [tauto|done]].
  change IDEMIP_ICMP6_ERR_HDR_LEN with 8. destruct (Z.ltb_spec (ea_out_cap a) (8 + Z.min n 1232)); [split; [lia|done]|]. split; [|intros Hn; exfalso; apply Hn; split_and!; (done || lia)].
  intros _. by exists io.
Qed.

(** C34. The errors a node sends are the ones RFC 4443 section 2.4 (e) lets it send.  A call that reports OK is
    about a packet whose chain of headers does not lead to an ICMPv6 error or a Redirect, that neither went
    nor came to many except where the section asks for an answer all the same, and whose source is one
    node; the message has the type, code and word asked for, quotes as much of the packet as leaves it
    inside the minimum MTU, unchanged, goes from the node's own address to that source, has a checksum that
    verifies under the pseudo-header of those two, and writes nothing of the buffer behind it.  A call about a
    packet whose chain leads to such a message sends nothing: no error begets an error.  A call that is not OK
    writes nothing, and one that may be answered into a buffer that holds the message is OK or, for the rate
    alone, BUSY. *)
Theorem errors_follow_rfc4443 (word : option nat) (swap : bool) (B T : Z) (w : Work) (inv out ifa : list Z) :
  build word → offered w inv out ifa →
  let a := err_args (w_io w) in
  let src := from_addr a inv ifa in
  let io := w_io (idemip_icmp6_in_error word swap B T w) in
  (io_status io = IDEMIP_OK →
     1 ≤ ea_type a ≤ 4 ∧ may_answer a inv (available a inv) ∧ io_src io = Some src ∧ io_dst io = Some (ip6_src inv) ∧ io_out_len io = 8 + quoted a inv ∧
     40 + io_out_len io ≤ 1280 ∧
     ∃ m, ea_out (err_args io) = Some (wr out m) ∧ Z.of_nat (length m) = 8 + quoted a inv ∧ icmp6_type m = ea_type a ∧ icmp6_code m = ea_code a ∧
       rd32 m 4 = ea_word a ∧ drop 8 m = take (Z.to_nat (quoted a inv)) inv ∧ valid6 word swap src (ip6_src inv) m = true ∧
       ∀ w' inv' out' ifa' hs off bad, offered w' inv' out' ifa' →
         let a' := err_args (w_io w') in
         chain_of inv' (available a' inv') hs 58 off bad → off + 4 ≤ available a' inv' → icmp6_type (from inv' off) = icmp6_type m →
         let r := w_io (idemip_icmp6_in_error word swap B T w') in io_status r = IDEMIP_ERR ∧ ea_out (err_args r) = Some out') ∧
  (io_status io ≠ IDEMIP_OK → ea_out (err_args io) = Some out) ∧
  (sendable a inv → io_status io = IDEMIP_OK ∨ io_status io = IDEMIP_BUSY ∧ io_suppress io = IDEMIP_ICMP6_IN_SUPPRESS_RATE) ∧
  (¬ sendable a inv → io_status io = IDEMIP_ERR).
Proof.
  intros Hb Ha a src io. destruct (error6_gate word swap B T w inv out ifa Ha) as [Hs Hn]. fold a in Hs, Hn. fold io in Hn. pose proof Ha as (_&_&Ho&_&Hio&Hfo&Hl&Hll&_&Hc&Hw&Hcd). fold a in Ho, Hl, Hll, Hc, Hw, Hcd.
  assert (40 ≤ available a inv < 524288 ∧ available a inv ≤ Z.of_nat (length inv)) as [Hav Hal].
  { unfold available. pose proof (Ipv4.rd16_range inv IDEMIP_IP6_OFF_PAYLOAD_LEN) as Hp. fold (ip6_payload_len inv) in Hp. unfold is_u16 in Hp. lia. }
  assert (sendable a inv ∨ ¬ sendable a inv) as [Hy|Hno].
  { unfold sendable. rewrite <- suppressed6_iff by done. destruct (decide (1 ≤ ea_type a ≤ 4)), (decide (icmp6_in_suppressed a inv (available a inv) = IDEMIP_ICMP6_IN_SUPPRESS_NONE)),
      (decide (8 + quoted a inv ≤ ea_out_cap a)); tauto. }
  2:{ destruct (Hn Hno) as (E1&E2). rewrite E1, E2. split_and!; (done || tauto). }
  destruct (Hs Hy) as (i&Ei&Er). clear Hn Hs. pose proof Hy as (Hty&Hma&Hcap). pose proof (spend6_spec word swap B T w i inv out ifa (available a inv) Ei) as Hsp.
  cbv zeta in Hsp. fold a in Hsp. rewrite <- Er in Hsp. fold io in Hsp. fold src in Hsp. clear Er.
  assert (octets (ip6_src inv)) as Hso by (by apply Forall_take, Forall_drop). assert (octets src) as Hsr by (unfold src, from_addr; split_if; [by apply Forall_take, Forall_drop|done]).
  pose proof (err_built word swap out inv (ea_type a) (ea_code a) (ea_word a) (available a inv) src (ip6_src inv) Hb Hio Hsr Hso ltac:(unfold is_u8; lia) Hcd Hw ltac:(lia)) as Hbt.
  fold (quoted a inv) in Hbt. specialize (Hbt ltac:(lia)). destruct (icmp6_err_build _ _ _ _ _ _) as [o n]. destruct Hbt as (->&m&Em&M1&M2&M3&M4&M5&M6&M7).
  destruct (spend B T _ _ _) as [[|] s]; cbn [fst] in Hsp.
  - destruct Hsp as (E1&E2&E3&E4&E5). rewrite E1, E2, E3, E4, E5, Em. split_and!; [|done|by left|intros; tauto]. intros _. split_and!; try done; try lia; [unfold quoted; lia|].
    exists m. split_and!; [done..|]. intros w' inv' out' ifa' hs off bad Ha' a' Hch Hoff Htm. destruct (error6_gate word swap B T w' inv' out' ifa' Ha') as [_ Hn'].
    destruct Hn' as (F1&F2); [|cbv zeta; rewrite F1, F2; split; [done|apply Ha']]. intros (_&(Hre&_)&_). destruct (Hre (ea_type a)) as [? _]; [|lia].
    exists hs, off, bad. split_and!; [done|done|]. rewrite <- M2, <- Htm. unfold icmp6_type, IDEMIP_ICMP6_OFF_TYPE.
    assert (40 ≤ off).
    { pose proof Ha' as (_&_&_&_&Hio'&_&Hl'&_). assert (available a' inv' < 524288) as Hlt.
      { unfold available. unfold a'. lia. }
      destruct (chain_spec inv' (available a' inv') Hio' ltac:(destruct Hch; lia)) as (_&_&_&H40). apply (H40 _ _ _ _ Hch). }
    by rewrite get_from, Z.add_0_r by lia.
  - destruct Hsp as (E1&E2&E3). rewrite E1, E2, E3. split_and!; [done|done|by right|intros; tauto].
Qed.

(** A port unreachable about a UDP datagram behind a Destination Options header. *)
Definition eg_udp : list Z :=
  [0x60; 0; 0; 0; 0; 16; 60; 64] ++ [0x20; 1; 0xd; 0xb8] ++ replicate 11 0 ++ [1] ++ [0x20; 1; 0xd; 0xb8] ++ replicate 11 0 ++ [2] ++ [17; 0; 1; 4; 0; 0; 0; 0] ++ [0; 9; 0; 7; 0; 8; 0; 0].
Definition eg_error : Work :=
  mkWork (io_zero <| err_args := mkErrArgs (Some eg_udp) 56 (Some (replicate 70 0xEE)) 70 (Some (replicate 16 3)) 0 0 IDEMIP_ICMP6_DEST_UNREACHABLE 4 false false false true |>)
    (mkCtx ICMP6_IN_READY 0 10).

Lemma errors_follow_rfc4443_witness :
  may_answer (err_args (w_io eg_error)) eg_udp 56 ∧ ∃ m, ea_out (err_args (w_io (idemip_icmp6_in_error None false 10 100 eg_error))) = Some (wr (replicate 70 0xEE) m) ∧
    drop 8 m = eg_udp ∧ valid6 None false (ip6_dst eg_udp) (ip6_src eg_udp) m = true.
Proof.
  destruct (errors_follow_rfc4443 None false 10 100 eg_error eg_udp (replicate 70 0xEE) (replicate 16 3)) as [H _].
  - exact I.
  - split_and!; try (vm_compute; reflexivity); try (vm_compute; discriminate); try (split; vm_compute; (reflexivity || discriminate));
      apply (bool_decide_eq_true_1 (Forall is_u8 _)); vm_compute; reflexivity.
  - destruct H as (_&H1&_&_&_&_&m&H2&_&_&_&_&H3&H4&_); [vm_compute; reflexivity|]. split; [exact H1|]. exists m. split_and!; [exact H2|exact H3|exact H4].
Defined.
End Icmp6InThms.
