(* ===== verification/Pmtu6.v ===== *)
(** * IPv6 path MTU discovery (src/pmtu/pmtu6.c)

    RFC 8201's decisions about a Packet Too Big, and the clock its section 5.3 ages an estimate by: one stamp
    for each path whose estimate has fallen.  A message is its octets from the Type on and an address its
    sixteen octets; the index of no stamp is [None]. *)
From S2P Require Import Prelude Base Wire Ipv6 Icmpv6.

Module Pmtu6.
Import Endian Ipv6 Icmpv6.

Definition PMTU6_READY : Z := 0x504D5436.
Definition IDEMIP_PMTU6_RH_OFF_SEGMENTS_LEFT : Z := 3.
Definition IDEMIP_PMTU6_MSG_MIN : Z := IDEMIP_ICMP6_ERR_HDR_LEN + IDEMIP_IPV6_HDR_LEN.

Record Pmtu6Stamp := mkStamp { s_stamp_ms : Z; s_dst : list Z; s_used : bool }.
#[export] Instance Pmtu6Stamp_eta : Eta Pmtu6Stamp := fun r => mkStamp (s_stamp_ms r) (s_dst r) (s_used r).
#[export] Instance Pmtu6Stamp_inhabited : Inhabited Pmtu6Stamp := populate (mkStamp 0 (replicate 16 0) false).
Record Pmtu6TooBigArgs := mkTooBigArgs { ta_msg : option (list Z); ta_len : Z; ta_held : Z; ta_link_mtu : Z }.
Record Pmtu6PathArgs := mkPathArgs { pa_dst : option (list Z) }.
Record Pmtu6ProbeArgs := mkProbeArgs { ga_link_mtu : Z }.
Record Pmtu6Io := mkIo {
  too_big_args : Pmtu6TooBigArgs; path_args : Pmtu6PathArgs; probe_args : Pmtu6ProbeArgs; io_now_ms : Z; io_dst : option (list Z); io_reported_mtu : Z;
  io_mtu : Z; io_status : IdemIpStatus; io_index : option Z; io_decreased : bool; io_probe : bool }.
#[export] Instance Pmtu6Io_eta : Eta Pmtu6Io := fun r =>
  mkIo (too_big_args r) (path_args r) (probe_args r) (io_now_ms r) (io_dst r) (io_reported_mtu r) (io_mtu r) (io_status r) (io_index r) (io_decreased r) (io_probe r).
(** A borrow: the operand block, the mark of the context and the stamps. *)
Record Work := mkWork { w_io : Pmtu6Io; w_mark : Z; w_stamps : list Pmtu6Stamp }.
#[export] Instance Work_eta : Eta Work := fun r => mkWork (w_io r) (w_mark r) (w_stamps r).
Definition put_io (w : Work) (io : Pmtu6Io) : Work := w <| w_io := io |>.

Definition pmtu6_ready (w : Work) : bool := w_mark w =? PMTU6_READY.
Definition pmtu6_addr_eq (a b : list Z) : bool := bool_decide (take (Z.to_nat IDEMIP_IP6_ADDR_LEN) a = take (Z.to_nat IDEMIP_IP6_ADDR_LEN) b).

(** The path the quoted packet was on: the last address of a Routing header with segments left, the
    destination else.  The fuel is the octets quoted; a header is at least eight. *)
Fixpoint path_loop (fuel : nat) (pkt : list Z) (len nh at_ : Z) : list Z :=
  match fuel with
  | O => ip6_dst pkt
  | S fuel =>
      if negb (ip6_nh_is_ext nh) then ip6_dst pkt
      else if len <? at_ + IDEMIP_IP6_EXT_UNIT then ip6_dst pkt
      else
      let ext := if nh =? IDEMIP_IP6_NH_FRAGMENT then IDEMIP_IP6_FRAG_HDR_LEN else ip6_ext_len (from pkt at_) in
      if len <? at_ + ext then ip6_dst pkt
      else if (nh =? IDEMIP_IP6_NH_ROUTING) && negb (tget pkt (at_ + IDEMIP_PMTU6_RH_OFF_SEGMENTS_LEFT) =? 0) && (IDEMIP_IP6_EXT_UNIT + IDEMIP_IP6_ADDR_LEN <=? ext)
      then take (Z.to_nat IDEMIP_IP6_ADDR_LEN) (from pkt (at_ + ext - IDEMIP_IP6_ADDR_LEN))
      else path_loop fuel pkt len (ip6_ext_next_hdr (from pkt at_)) (at_ + ext)
  end.
Definition pmtu6_path (pkt : list Z) (len : Z) : list Z := path_loop (S (Z.to_nat len)) pkt len (ip6_next_hdr pkt) IDEMIP_IP6_OFF_PAYLOAD.

Section Build.
(** The build's rows, the interval a probe waits. *)
Variable PATHS : nat.
Variable PROBE_MS : Z.

Definition pmtu6_find (stamps : list Pmtu6Stamp) (dst : list Z) : option Z :=
  scan (λ i, s_used (tget stamps i) && pmtu6_addr_eq (s_dst (tget stamps i)) dst) PATHS 0.

(** The row a path's stamp goes in: its own, the first free one, or the one of the oldest stamp. *)
Fixpoint take_loop (n : nat) (i : Z) (stamps : list Pmtu6Stamp) (dst : list Z) (now_ms : Z) (free_row : option Z) (oldest_row oldest_age : Z) : Z :=
  match n with
  | O => match free_row with Some i => i | None => oldest_row end
  | S n =>
      let s := tget stamps i in
      if negb (s_used s) then
        take_loop n (i + 1) stamps dst now_ms (match free_row with None => Some i | _ => free_row end) oldest_row oldest_age
      else if pmtu6_addr_eq (s_dst s) dst then i
      else
      let age := u32 (now_ms - s_stamp_ms s) in
      if oldest_age <=? age then take_loop n (i + 1) stamps dst now_ms free_row i age
      else take_loop n (i + 1) stamps dst now_ms free_row oldest_row oldest_age
  end.
Definition pmtu6_take (stamps : list Pmtu6Stamp) (dst : list Z) (now_ms : Z) : Z := take_loop PATHS 0 stamps dst now_ms None 0 0.

Definition idemip_pmtu6_clear (w : Work) : Work := mkWork ((w_io w) <| io_status := IDEMIP_OK |>) PMTU6_READY (replicate PATHS inhabitant).

Definition idemip_pmtu6_too_big (w : Work) : Work :=
  let io := (w_io w) <| io_status := IDEMIP_ERR |> <| io_dst := None |> <| io_reported_mtu := 0 |> <| io_mtu := 0 |> <| io_index := None |>
                     <| io_decreased := false |> <| io_probe := false |> in
  let a := too_big_args io in
  if negb (pmtu6_ready w) then put_io w io
  else
  match ta_msg a with
  | None => put_io w io
  | Some msg =>
      if ta_len a <? IDEMIP_PMTU6_MSG_MIN then put_io w io
      else if negb (icmp6_type msg =? IDEMIP_ICMP6_PACKET_TOO_BIG) then put_io w io
      else
      let pkt := from msg IDEMIP_ICMP6_ERR_HDR_LEN in
      if negb (ip6_version pkt =? IDEMIP_IP6_VERSION) then put_io w io
      else
      let reported := icmp6_mtu msg in
      let io := io <| io_reported_mtu := reported |> in
      if reported <? IDEMIP_IPV6_MIN_MTU then put_io w io
      else
      let dst := pmtu6_path pkt (ta_len a - IDEMIP_ICMP6_ERR_HDR_LEN) in
      let io := io <| io_dst := Some dst |> in
      let mtu := if 0xFFFF <? reported then 0xFFFF else reported in
      let held := if ta_held a =? 0 then ta_link_mtu a else ta_held a in
      if negb (held =? 0) && (held <=? mtu) then put_io w (io <| io_mtu := held |> <| io_status := IDEMIP_OK |>)
      else
      let i := pmtu6_take (w_stamps w) dst (io_now_ms io) in
      mkWork (io <| io_mtu := mtu |> <| io_decreased := true |> <| io_index := Some i |> <| io_status := IDEMIP_OK |>) (w_mark w)
        (tset (w_stamps w) i (mkStamp (io_now_ms io) dst true))
  end.

Definition idemip_pmtu6_tick (w : Work) : Work :=
  let io := (w_io w) <| io_status := IDEMIP_ERR |> <| io_dst := None |> <| io_mtu := 0 |> <| io_index := None |> <| io_decreased := false |> <| io_probe := false |> in
  if negb (pmtu6_ready w) then put_io w io
  else if ga_link_mtu (probe_args io) <? IDEMIP_IPV6_MIN_MTU then put_io w io
  else
  match scan (λ i, s_used (tget (w_stamps w) i) && negb (u32 (io_now_ms io - s_stamp_ms (tget (w_stamps w) i)) <? PROBE_MS)) PATHS 0 with
  | None => put_io w (io <| io_status := IDEMIP_BUSY |>)
  | Some i =>
      let s := tget (w_stamps w) i in
      mkWork (io <| io_index := Some i |> <| io_dst := Some (s_dst s) |> <| io_mtu := ga_link_mtu (probe_args io) |> <| io_probe := true |> <| io_status := IDEMIP_OK |>)
        (w_mark w) (tset (w_stamps w) i (s <| s_used := false |>))
  end.

Definition idemip_pmtu6_forget (w : Work) : Work :=
  let io := (w_io w) <| io_status := IDEMIP_ERR |> <| io_index := None |> in
  if negb (pmtu6_ready w) then put_io w io
  else
  match pa_dst (path_args io) with
  | None => put_io w io
  | Some dst =>
      match pmtu6_find (w_stamps w) dst with
      | None => put_io w io
      | Some i =>
          mkWork (io <| io_index := Some i |> <| io_status := IDEMIP_OK |>) (w_mark w) (tset (w_stamps w) i ((tget (w_stamps w) i) <| s_used := false |>))
      end
  end.
End Build.
End Pmtu6.

(** * What a Packet Too Big leaves, and when a path is probed

    The estimate and the path RFC 8201 sections 4 and 5.2 read from a message, and the stamps of section 5.3 as
    a partial map from paths to the millisecond of their last decrease. *)
Module Pmtu6Thms.
Import Endian Checksum Look Ipv6 Ipv6Thms Icmpv6 Pmtu6.

Section Build.
Context (PATHS : nat) (PROBE_MS : Z).

(** ** The stamps *)
Definition used_at (w : Work) (i : Z) : Prop := 0 ≤ i < Z.of_nat PATHS ∧ s_used (tget (w_stamps w) i) = true.
Definition stamped (w : Work) (d : list Z) (t : Z) : Prop :=
  ∃ i, used_at w i ∧ s_dst (tget (w_stamps w) i) = d ∧ s_stamp_ms (tget (w_stamps w) i) = t.
Record wf (w : Work) : Prop := {
  wf_ready : w_mark w = PMTU6_READY;
  wf_len : length (w_stamps w) = PATHS;
  wf_addr : ∀ i, used_at w i → length (s_dst (tget (w_stamps w) i)) = 16%nat;
  wf_once : ∀ i j, used_at w i → used_at w j → s_dst (tget (w_stamps w) i) = s_dst (tget (w_stamps w) j) → i = j }.

Lemma addr_eq a b : length a = 16%nat → length b = 16%nat → pmtu6_addr_eq a b = true ↔ a = b.
Proof. intros Ha Hb. unfold pmtu6_addr_eq. rewrite bool_decide_eq_true, !take_ge by (unfold IDEMIP_IP6_ADDR_LEN; lia). done. Qed.

Lemma used_tset w w' i s j : wf w → 0 ≤ i < Z.of_nat PATHS → w_stamps w' = tset (w_stamps w) i s →
  (used_at w' j ↔ if decide (j = i) then s_used s = true else used_at w j).
Proof.
  intros Hw Hi Es. unfold used_at. rewrite Es. pose proof (wf_len _ Hw). destruct (decide (j = i)) as [->|].
  - rewrite tget_tset_eq by (unfold tlen; lia). tauto.
  - split; intros [? Hu]; (split; [done|]); revert Hu; rewrite tget_tset_ne by lia; done.
Qed.
Lemma tget_stamps w w' i s j : wf w → 0 ≤ i < Z.of_nat PATHS → 0 ≤ j → w_stamps w' = tset (w_stamps w) i s →
  tget (w_stamps w') j = if decide (j = i) then s else tget (w_stamps w) j.
Proof.
  intros Hw Hi Hj ->. pose proof (wf_len _ Hw). destruct (decide (j = i)) as [->|]; [by rewrite tget_tset_eq by (unfold tlen; lia)|by rewrite tget_tset_ne by lia].
Qed.

(** A row freed: its path is no more, every other as it was. *)
Lemma free_row w w' i : wf w → used_at w i → w_mark w' = w_mark w → w_stamps w' = tset (w_stamps w) i ((tget (w_stamps w) i) <| s_used := false |>) →
  wf w' ∧ ∀ d t, stamped w' d t ↔ stamped w d t ∧ d ≠ s_dst (tget (w_stamps w) i).
Proof.
  intros Hw Hi Hm Es. pose proof Hi as [Hr Hu]. assert (∀ j, used_at w' j ↔ used_at w j ∧ j ≠ i) as Hj.
  { intros j. rewrite (used_tset w w' i _ j Hw Hr Es). destruct (decide (j = i)); [|tauto]. split; [done|tauto]. }
  assert (∀ j, used_at w' j → tget (w_stamps w') j = tget (w_stamps w) j) as Hg.
  { intros j Hu'. apply Hj in Hu' as [[? _] ?]. rewrite (tget_stamps w w' i _ j Hw Hr ltac:(lia) Es). by rewrite decide_False. }
  split.
  - split.
    + rewrite Hm. apply wf_ready, Hw.
    + rewrite Es. unfold tset. rewrite length_insert. apply wf_len, Hw.
    + intros j Hu'. rewrite Hg by done. apply wf_addr; [done|]. by apply Hj.
    + intros j k H1 H2. rewrite !Hg by done. apply wf_once; [done|by apply Hj|by apply Hj].
  - intros d t. split.
    + intros (j&H1&H2&H3). rewrite Hg in H2, H3 by done. apply Hj in H1 as [H1 Hne]. split; [by exists j|]. intros ->. apply Hne. by apply (wf_once w).
    + intros [(j&H1&H2&H3) Hne]. assert (used_at w' j) as H' by (apply Hj; split; [done|]; intros ->; done). exists j. rewrite Hg by done. done.
Qed.

(** A row written: its path stamped, and the path it had forgotten. *)
Lemma write_row w w' i d now : wf w → 0 ≤ i < Z.of_nat PATHS → length d = 16%nat → w_mark w' = w_mark w → w_stamps w' = tset (w_stamps w) i (mkStamp now d true) →
  (∀ j, used_at w j → s_dst (tget (w_stamps w) j) = d → j = i) →
  wf w' ∧ ∀ d' t, stamped w' d' t ↔ if decide (d' = d) then t = now else stamped w d' t ∧ ¬ (used_at w i ∧ s_dst (tget (w_stamps w) i) = d').
Proof.
  intros Hw Hr Hd Hm Es Hone. assert (∀ j, used_at w' j ↔ j = i ∨ used_at w j) as Hj.
  { intros j. rewrite (used_tset w w' i _ j Hw Hr Es). destruct (decide (j = i)); [|tauto]. split; [tauto|done]. }
  assert (∀ j, used_at w' j → tget (w_stamps w') j = if decide (j = i) then mkStamp now d true else tget (w_stamps w) j) as Hg.
  { intros j [? _]. by apply tget_stamps; try lia. }
  split.
  - split.
    + rewrite Hm. apply wf_ready, Hw.
    + rewrite Es. unfold tset. rewrite length_insert. apply wf_len, Hw.
    + intros j Hu'. rewrite Hg by done. destruct (decide (j = i)); [done|]. apply wf_addr; [done|]. apply Hj in Hu' as [?|?]; done.
    + intros j k H1 H2. rewrite !Hg by done. destruct (decide (j = i)), (decide (k = i)); cbn [s_dst]; intros E; try congruence.
      * subst. apply Hj in H2 as [?|H2]; [done|]. symmetry. by apply Hone.
      * subst. apply Hj in H1 as [?|H1]; [done|]. by apply Hone.
      * apply Hj in H1 as [?|H1]; [done|]. apply Hj in H2 as [?|H2]; [done|]. by apply (wf_once w).
  - intros d' t. destruct (decide (d' = d)) as [->|Hne].
    + split.
      * intros (j&H1&H2&H3). rewrite Hg in H2, H3 by done. destruct (decide (j = i)); [done|]. apply Hj in H1 as [?|H1]; [done|]. exfalso. by apply n, Hone.
      * intros ->. exists i. assert (used_at w' i) as H' by (apply Hj; by left). rewrite Hg, decide_True by done. done.
    + split.
      * intros (j&H1&H2&H3). rewrite Hg in H2, H3 by done. destruct (decide (j = i)); [by cbn in H2|]. apply Hj in H1 as [?|H1]; [done|].
        split; [by exists j|]. intros [Hu E]. apply n. apply (wf_once w); [done|done|done|congruence].
      * intros [(j&H1&H2&H3) Hni]. assert (j ≠ i) by (intros ->; by apply Hni). exists j. assert (used_at w' j) as H' by (apply Hj; by right). rewrite Hg, decide_False by done. done.
Qed.

(** ** The row a stamp goes in *)
(** The path's own row, a free one where it has none, the oldest where none is free. *)
Definition chosen (w : Work) (d : list Z) (now i : Z) : Prop :=
  0 ≤ i < Z.of_nat PATHS ∧ (∀ j, used_at w j → s_dst (tget (w_stamps w) j) = d → j = i) ∧
  (used_at w i → s_dst (tget (w_stamps w) i) = d ∨
     (∀ j, 0 ≤ j < Z.of_nat PATHS → used_at w j) ∧ ∀ j, used_at w j → u32 (now - s_stamp_ms (tget (w_stamps w) j)) ≤ u32 (now - s_stamp_ms (tget (w_stamps w) i))).

Lemma take_loop_chosen w d now n i free oldest age : (0 < PATHS)%nat → wf w → length d = 16%nat → i + Z.of_nat n = Z.of_nat PATHS → 0 ≤ i →
  (∀ j, used_at w j → j < i → s_dst (tget (w_stamps w) j) ≠ d) →
  match free with Some f => 0 ≤ f < i ∧ ¬ used_at w f | None => ∀ j, 0 ≤ j < i → used_at w j end →
  (i = 0 ∧ oldest = 0 ∧ age = 0 ∨ 0 ≤ oldest < Z.of_nat PATHS ∧ 0 ≤ age ∧ (∀ j, used_at w j → j < i → u32 (now - s_stamp_ms (tget (w_stamps w) j)) ≤ age) ∧
     (free = None → age = u32 (now - s_stamp_ms (tget (w_stamps w) oldest)))) →
  chosen w d now (take_loop n i (w_stamps w) d now free oldest age).
Proof.
  intros HP Hw Hd. revert i free oldest age. induction n as [|n IH]; intros i free oldest age Hn H0 Hno Hfr Hold; cbn [take_loop].
  - destruct free as [f|].
    + destruct Hfr as [? Hf]. split_and!; [lia|lia| |tauto]. intros j Hj E. exfalso. eapply (Hno j); [done|destruct Hj; lia|done].
    + destruct Hold as [?|(Ho&_&Hle&Hag)]; [lia|]. split_and!; [lia|lia| |].
      * intros j Hj E. exfalso. eapply (Hno j); [done|destruct Hj; lia|done].
      * intros _. right. split; [intros j Hj; apply Hfr; lia|]. intros j Hj. rewrite <- Hag by done. apply Hle; [done|]. destruct Hj; lia.
  - destruct (s_used (tget (w_stamps w) i)) eqn:Eu; cbn [negb].
    2:{ assert (¬ used_at w i) as Hnu by (intros [_ ?]; congruence). apply IH; [lia|lia| | |].
        - intros j Hj Hlt. destruct (decide (j = i)); [by subst|]. apply Hno; [done|lia].
        - destruct free as [f|]; [split; [lia|apply Hfr]|]. split; [lia|done].
        - right. destruct Hold as [(->&->&->)|(Ho&Ha&Hle&Hag)].
          + split_and!; [lia|lia|lia| |by destruct free]. intros j Hj Hlt. destruct Hj as [? Hj]. assert (j = 0) by lia. subst. by rewrite Eu in Hj.
          + split_and!; [lia|lia|done| |by destruct free]. intros j Hj Hlt. destruct (decide (j = i)); [by subst|]. apply Hle; [done|lia]. }
    assert (used_at w i) as Hu by (split; [lia|done]).
    destruct (pmtu6_addr_eq _ _) eqn:Ea.
    { apply addr_eq in Ea; [|by apply wf_addr|done]. split_and!; [lia|lia| |by left]. intros j Hj E. apply (wf_once w); [done|done|done|congruence]. }
    assert (s_dst (tget (w_stamps w) i) ≠ d) as Hne by (intros E; rewrite (proj2 (addr_eq _ _ (wf_addr w Hw i Hu) Hd) E) in Ea; done).
    assert (∀ j, used_at w j → j < i + 1 → s_dst (tget (w_stamps w) j) ≠ d) as Hno'.
    { intros j Hj Hlt. destruct (decide (j = i)); [by subst|]. apply Hno; [done|lia]. }
    assert (match free with Some f => 0 ≤ f < i + 1 ∧ ¬ used_at w f | None => ∀ j, 0 ≤ j < i + 1 → used_at w j end) as Hfr'.
    { destruct free as [f|]; [split; [lia|apply Hfr]|]. intros j Hj. destruct (decide (j = i)); [by subst|]. apply Hfr. lia. }
    pose proof (u32_range (now - s_stamp_ms (tget (w_stamps w) i))) as Hur. unfold is_u32 in Hur.
    destruct (Z.leb_spec age (u32 (now - s_stamp_ms (tget (w_stamps w) i)))) as [Hc|Hc]; (apply IH; [lia|lia|done|done|right]).
    + split_and!; [lia|lia|lia| |done]. intros j Hj Hlt. destruct (decide (j = i)); [by subst|]. destruct Hold as [?|(_&_&Hle&_)]; [destruct Hj; lia|]. etrans; [apply Hle; [done|lia]|done].
    + destruct Hold as [?|(Ho&Ha&Hle&Hag)]; [lia|]. split_and!; [lia|lia|lia| |done]. intros j Hj Hlt. destruct (decide (j = i)); [subst; lia|]. apply Hle; [done|lia].
Qed.

Lemma take_chosen w d now : (0 < PATHS)%nat → wf w → length d = 16%nat → chosen w d now (pmtu6_take PATHS (w_stamps w) d now).
Proof. intros HP Hw Hd. apply take_loop_chosen; try done; try lia; first [by left|intros j [? _] ?; lia]. Qed.

(** ** The path a message names *)
Inductive on_path (pkt : list Z) (len : Z) : Z → Z → list Z → Prop :=
  | path_dest nh at_ : ip6_nh_is_ext nh = false ∨ len < at_ + 8 ∨ len < at_ + header_len pkt nh at_ → on_path pkt len nh at_ (ip6_dst pkt)
  | path_routed at_ : at_ + header_len pkt 43 at_ ≤ len → tget pkt (at_ + 3) ≠ 0 → 24 ≤ header_len pkt 43 at_ →
      on_path pkt len 43 at_ (take 16 (drop (Z.to_nat (at_ + header_len pkt 43 at_ - 16)) pkt))
  | path_next nh at_ d : ip6_nh_is_ext nh = true → at_ + 8 ≤ len → at_ + header_len pkt nh at_ ≤ len →
      ¬ (nh = 43 ∧ tget pkt (at_ + 3) ≠ 0 ∧ 24 ≤ header_len pkt nh at_) →
      on_path pkt len (tget pkt at_) (at_ + header_len pkt nh at_) d → on_path pkt len nh at_ d.

Lemma path_loop_on pkt len fuel nh at_ : octets pkt → 0 ≤ at_ → len - at_ < Z.of_nat fuel → on_path pkt len nh at_ (path_loop fuel pkt len nh at_).
Proof.
  intros Ho. revert nh at_. induction fuel as [|fuel IH]; intros nh at_ H0 Hf; cbn [path_loop].
  { apply path_dest. lia. }
  pose proof (header_len_pos pkt nh at_ Ho) as Hp.
  destruct (ip6_nh_is_ext nh) eqn:En; cbn [negb]; [|by apply path_dest; left]. unfold IDEMIP_IP6_EXT_UNIT, IDEMIP_IP6_FRAG_HDR_LEN, IDEMIP_IP6_ADDR_LEN, IDEMIP_IP6_NH_FRAGMENT, IDEMIP_IP6_NH_ROUTING, IDEMIP_PMTU6_RH_OFF_SEGMENTS_LEFT.
  destruct (Z.ltb_spec len (at_ + 8)); [apply path_dest; lia|]. rewrite ext_len_eq by done. fold (header_len pkt nh at_).
  destruct (Z.ltb_spec len (at_ + header_len pkt nh at_)); [apply path_dest; lia|].
  unfold ip6_ext_next_hdr, IDEMIP_IP6_EXT_OFF_NEXT_HDR. rewrite get_from, Z.add_0_r by lia.
  destruct (Z.eqb_spec nh 43) as [->|Hne]; cbn [andb].
  - destruct (Z.eqb_spec (tget pkt (at_ + 3)) 0); cbn [negb andb].
    + apply path_next; try done; [tauto|]. apply IH; lia.
    + change (8 + 16) with 24. destruct (Z.leb_spec 24 (header_len pkt 43 at_)).
      * by apply path_routed.
      * apply path_next; try done; [lia|]. apply IH; lia.
  - apply path_next; try done; [tauto|]. apply IH; lia.
Qed.

Lemma on_path_len pkt len nh at_ d : octets pkt → 40 ≤ len ≤ Z.of_nat (length pkt) → 0 ≤ at_ → on_path pkt len nh at_ d → length d = 16%nat ∧ octets d.
Proof.
  intros Ho Hl H0 Hd. induction Hd as [| |nh at_ d ? ? ? ? ? IH].
  - split; [|by apply Forall_take, Forall_drop]. unfold ip6_dst, IDEMIP_IP6_ADDR_LEN, IDEMIP_IP6_OFF_DST. rewrite length_take, length_drop. lia.
  - split; [|by apply Forall_take, Forall_drop]. rewrite length_take, length_drop. pose proof (header_len_pos pkt 43 at_ Ho). lia.
  - apply IH. pose proof (header_len_pos pkt nh at_ Ho). lia.
Qed.

(** ** A Packet Too Big *)
Definition packet_too_big (msg : list Z) (len : Z) : Prop :=
  48 ≤ len ∧ icmp6_type msg = 2 ∧ ip6_version (from msg 8) = 6 ∧ 1280 ≤ icmp6_mtu msg.
#[export] Instance packet_too_big_dec msg len : Decision (packet_too_big msg len).
Proof. unfold packet_too_big. apply _. Defined.
(** The estimate held, the first link's MTU where none is; zero for neither. *)
Definition estimate (a : Pmtu6TooBigArgs) : Z := if ta_held a =? 0 then ta_link_mtu a else ta_held a.
Definition falls (a : Pmtu6TooBigArgs) (msg : list Z) : Prop := estimate a = 0 ∨ Z.min (icmp6_mtu msg) 65535 < estimate a.
#[export] Instance falls_dec a msg : Decision (falls a msg).
Proof. unfold falls. apply _. Defined.

Lemma too_big6_eq w msg : w_mark w = PMTU6_READY → ta_msg (too_big_args (w_io w)) = Some msg →
  let a := too_big_args (w_io w) in
  let r := idemip_pmtu6_too_big PATHS w in
  let d := pmtu6_path (from msg 8) (ta_len a - 8) in
  w_mark r = w_mark w ∧
  if decide (packet_too_big msg (ta_len a)) then
    io_status (w_io r) = IDEMIP_OK ∧ io_dst (w_io r) = Some d ∧
    if decide (falls a msg)
    then io_mtu (w_io r) = Z.min (icmp6_mtu msg) 65535 ∧ io_decreased (w_io r) = true ∧
         w_stamps r = tset (w_stamps w) (pmtu6_take PATHS (w_stamps w) d (io_now_ms (w_io w))) (mkStamp (io_now_ms (w_io w)) d true)
    else io_mtu (w_io r) = estimate a ∧ io_decreased (w_io r) = false ∧ w_stamps r = w_stamps w
  else io_status (w_io r) = IDEMIP_ERR ∧ io_mtu (w_io r) = 0 ∧ io_decreased (w_io r) = false ∧ w_stamps r = w_stamps w.
Proof.
  intros Hr Hm a r d. subst r. unfold idemip_pmtu6_too_big, pmtu6_ready. rewrite Hr, Z.eqb_refl. cbn [negb].
  match goal with |- context [put_io w ?i] => set (io := i) end. change (too_big_args io) with a. change (io_now_ms (io <| io_reported_mtu := ?x |> <| io_dst := ?y |>)) with (io_now_ms (w_io w)).
  change (ta_msg a = Some msg) in Hm. rewrite Hm.
  unfold packet_too_big, IDEMIP_PMTU6_MSG_MIN, IDEMIP_ICMP6_ERR_HDR_LEN, IDEMIP_IPV6_HDR_LEN, IDEMIP_ICMP6_PACKET_TOO_BIG, IDEMIP_IP6_VERSION, IDEMIP_IPV6_MIN_MTU.
  destruct (Z.ltb_spec (ta_len a) (8 + 40)) as [|H1]; [rewrite decide_False by lia; done|].
  destruct (Z.eqb_spec (icmp6_type msg) 2) as [H2|]; cbn [negb]; [|rewrite decide_False by tauto; done].
  destruct (Z.eqb_spec (ip6_version (from msg 8)) 6) as [H3|]; cbn [negb]; [|rewrite decide_False by tauto; done].
  destruct (Z.ltb_spec (icmp6_mtu msg) 1280) as [|H4]; [rewrite decide_False by lia; done|]. rewrite decide_True by (split_and!; (done || lia)). fold d.
  assert ((if 65535 <? icmp6_mtu msg then 65535 else icmp6_mtu msg) = Z.min (icmp6_mtu msg) 65535) as -> by (split_if; lia). fold (estimate a). unfold falls.
  destruct (Z.eqb_spec (estimate a) 0) as [E|E]; cbn [negb andb]; [rewrite decide_True by tauto; done|].
  destruct (Z.leb_spec (estimate a) (Z.min (icmp6_mtu msg) 65535)); [rewrite decide_False by lia; done|rewrite decide_True by lia; done].
Qed.

Lemma tick_eq w : w_mark w = PMTU6_READY → let r := idemip_pmtu6_tick PATHS PROBE_MS w in let now := io_now_ms (w_io w) in
  (w_mark r = w_mark w ∧ io_now_ms (w_io r) = now ∧ probe_args (w_io r) = probe_args (w_io w)) ∧
  if decide (ga_link_mtu (probe_args (w_io w)) < 1280) then io_status (w_io r) = IDEMIP_ERR ∧ w_stamps r = w_stamps w
  else match scan (λ i, s_used (tget (w_stamps w) i) && negb (u32 (now - s_stamp_ms (tget (w_stamps w) i)) <? PROBE_MS)) PATHS 0 with
       | None => io_status (w_io r) = IDEMIP_BUSY ∧ w_stamps r = w_stamps w
       | Some i => io_status (w_io r) = IDEMIP_OK ∧ io_dst (w_io r) = Some (s_dst (tget (w_stamps w) i)) ∧ io_mtu (w_io r) = ga_link_mtu (probe_args (w_io w)) ∧
           io_probe (w_io r) = true ∧ w_stamps r = tset (w_stamps w) i ((tget (w_stamps w) i) <| s_used := false |>)
       end.
Proof.
  intros Hr r now. subst r now. unfold idemip_pmtu6_tick, pmtu6_ready. rewrite Hr, Z.eqb_refl. cbn [negb].
  match goal with |- context [put_io w ?i] => set (io := i) end. change (probe_args io) with (probe_args (w_io w)). change (io_now_ms io) with (io_now_ms (w_io w)).
  change IDEMIP_IPV6_MIN_MTU with 1280. destruct (Z.ltb_spec (ga_link_mtu (probe_args (w_io w))) 1280); [rewrite decide_True by lia; done|rewrite decide_False by lia].
  destruct (scan _ _ _); done.
Qed.

Lemma forget_eq w d : w_mark w = PMTU6_READY → pa_dst (path_args (w_io w)) = Some d → let r := idemip_pmtu6_forget PATHS w in
  w_mark r = w_mark w ∧
  match pmtu6_find PATHS (w_stamps w) d with
  | None => io_status (w_io r) = IDEMIP_ERR ∧ w_stamps r = w_stamps w
  | Some i => io_status (w_io r) = IDEMIP_OK ∧ w_stamps r = tset (w_stamps w) i ((tget (w_stamps w) i) <| s_used := false |>)
  end.
Proof.
  intros Hr Hd r. subst r. unfold idemip_pmtu6_forget, pmtu6_ready. rewrite Hr, Z.eqb_refl. cbn [negb].
  match goal with |- context [put_io w ?i] => set (io := i) end. change (path_args io) with (path_args (w_io w)). rewrite Hd. destruct (pmtu6_find _ _ _); done.
Qed.
End Build.

Definition ptb_ok (w : Work) (msg : list Z) : Prop :=
  ta_msg (too_big_args (w_io w)) = Some msg ∧ octets msg ∧ ta_len (too_big_args (w_io w)) ≤ Z.of_nat (length msg).

Lemma path_of w msg : ptb_ok w msg → packet_too_big msg (ta_len (too_big_args (w_io w))) →
  let d := pmtu6_path (from msg 8) (ta_len (too_big_args (w_io w)) - 8) in
  on_path (from msg 8) (ta_len (too_big_args (w_io w)) - 8) (tget msg 14) 40 d ∧ length d = 16%nat.
Proof.
  intros (_&Ho&Hl) (H1&_) d. set (len := ta_len _) in *. assert (octets (from msg 8)) as Ho' by (by apply Forall_drop).
  assert (on_path (from msg 8) (len - 8) (tget msg 14) 40 d) as Hp.
  { assert (tget msg 14 = ip6_next_hdr (from msg 8)) as -> by (unfold ip6_next_hdr, IDEMIP_IP6_OFF_NEXT_HDR; by rewrite get_from by lia). apply path_loop_on; try done; unfold IDEMIP_IP6_OFF_PAYLOAD; lia. }
  split; [done|]. eapply on_path_len; [done| | |exact Hp]; [|lia]. unfold from. rewrite length_drop. lia.
Qed.

(** ** The calls as operations on the map *)
Section Calls.
Context (PATHS : nat) (PROBE_MS : Z) (HP : (0 < PATHS)%nat).

(** Rows in use. *)
Definition nused (w : Work) : nat := length (List.filter s_used (w_stamps w)).
Lemma nused_freed (l : list Pmtu6Stamp) i s : 0 ≤ i < Z.of_nat (length l) → s_used (tget l i) = true → s_used s = false →
  (length (List.filter s_used (tset l i s)) < length (List.filter s_used l))%nat.
Proof.
  intros Hi Hu Hs. unfold tget, tset in *. assert (Z.to_nat i < length l)%nat as Hlt by lia. revert Hlt Hu. generalize (Z.to_nat i). clear i Hi.
  induction l as [|x l IH]; intros [|i] Hlt Hu; cbn in *; try lia.
  - rewrite Hu, Hs. cbn. lia.
  - specialize (IH i ltac:(lia) Hu). change (list_insert i s l) with (<[i:=s]> l). destruct (s_used x); [apply -> Nat.succ_lt_mono|]; exact IH.
Qed.

(** Due: stamped, and not decreased for the interval. *)
Definition due (w : Work) (d : list Z) (t : Z) : Prop := stamped PATHS w d t ∧ PROBE_MS ≤ u32 (io_now_ms (w_io w) - t).

Lemma too_big_stamps w msg : wf PATHS w → ptb_ok w msg → let r := idemip_pmtu6_too_big PATHS w in let now := io_now_ms (w_io w) in
  wf PATHS r ∧
  if io_decreased (w_io r)
  then ∃ d i, io_dst (w_io r) = Some d ∧ chosen PATHS w d now i ∧
       ∀ d' t, stamped PATHS r d' t ↔ if decide (d' = d) then t = now else stamped PATHS w d' t ∧ ¬ (used_at PATHS w i ∧ s_dst (tget (w_stamps w) i) = d')
  else w_stamps r = w_stamps w.
Proof using HP.
  intros Hw Hp r now. destruct (too_big6_eq PATHS w msg (wf_ready _ _ Hw) (proj1 Hp)) as [Hm He]. fold r in Hm, He. fold now in He.
  assert (w_stamps r = w_stamps w → wf PATHS r) as Hsame.
  { intros E. destruct Hw as [H1 H2 H3 H4]. split; unfold used_at; rewrite ?E; [congruence|done|exact H3|exact H4]. }
  destruct (decide (packet_too_big _ _)) as [D|D]; [|destruct He as (_&_&->&E); split; [by apply Hsame|done]].
  destruct He as (_&Hd&He). destruct (decide (falls _ _)); [|destruct He as (_&->&E); split; [by apply Hsame|done]]. destruct He as (_&->&Es).
  destruct (path_of w msg Hp D) as [_ H16]. set (d := pmtu6_path _ _) in *. pose proof (take_chosen PATHS w d now HP Hw H16) as Hc. set (i := pmtu6_take _ _ _ _) in *.
  destruct (write_row PATHS w r i d now Hw (proj1 Hc) H16 Hm Es (proj1 (proj2 Hc))) as [Hwr Hst]. split; [done|]. by exists d, i.
Qed.

Lemma tick_stamps w : wf PATHS w → let r := idemip_pmtu6_tick PATHS PROBE_MS w in
  wf PATHS r ∧ io_now_ms (w_io r) = io_now_ms (w_io w) ∧ probe_args (w_io r) = probe_args (w_io w) ∧ (1280 ≤ ga_link_mtu (probe_args (w_io w)) → io_status (w_io r) ≠ IDEMIP_ERR) ∧
  (io_status (w_io r) = IDEMIP_OK → (nused r < nused w)%nat ∧ ∃ d t, due w d t ∧ io_dst (w_io r) = Some d ∧ io_mtu (w_io r) = ga_link_mtu (probe_args (w_io w)) ∧
     ∀ d' t', stamped PATHS r d' t' ↔ stamped PATHS w d' t' ∧ d' ≠ d) ∧
  (io_status (w_io r) ≠ IDEMIP_OK → w_stamps r = w_stamps w) ∧
  (io_status (w_io r) = IDEMIP_BUSY → ∀ d t, ¬ due w d t).
Proof.
  intros Hw r. destruct (tick_eq PATHS PROBE_MS w (wf_ready _ _ Hw)) as [(Hm&Hnow&Hpa) He]. fold r in Hm, He.
  assert (w_stamps r = w_stamps w → wf PATHS r) as Hsame.
  { intros E. destruct Hw as [H1 H2 H3 H4]. split; unfold used_at; rewrite ?E; [congruence|done|exact H3|exact H4]. }
  destruct (decide _); [destruct He as (->&E); split_and!; (done || lia || by apply Hsame)|].
  destruct (scan _ _ _) as [i|] eqn:Es.
  - apply scan_Some in Es as (Hi&Hd&_). apply andb_true_iff in Hd as [Hu Hd]. apply negb_true_iff, Z.ltb_ge in Hd. destruct He as (->&E1&E2&_&E3).
    assert (used_at PATHS w i) as Hui by (split; [lia|done]). destruct (free_row PATHS w r i Hw Hui Hm E3) as [Hwr Hst]. split_and!; try done.
    intros _. split; [unfold nused; rewrite E3; apply nused_freed; [rewrite (wf_len _ _ Hw); lia|done|done]|].
    exists (s_dst (tget (w_stamps w) i)), (s_stamp_ms (tget (w_stamps w) i)). split_and!; [|done|done|done]. split; [|done]. by exists i.
  - destruct He as (->&E). split_and!; try done; [by apply Hsame|]. intros _ d t [(i&[Hi Hu]&_&<-) Hdue]. rewrite scan_None in Es. specialize (Es i ltac:(lia)). cbv beta in Es.
    rewrite Hu, (proj2 (Z.ltb_ge _ _)) in Es by lia. done.
Qed.

(** Calls of [tick] at one time: the paths reported, until one is BUSY. *)
Fixpoint sweep (n : nat) (w : Work) : list (list Z) * Work :=
  match n with
  | O => ([], w)
  | S n =>
      let r := idemip_pmtu6_tick PATHS PROBE_MS w in
      if decide (io_status (w_io r) = IDEMIP_OK) then let '(l, w') := sweep n r in (default [] (io_dst (w_io r)) :: l, w') else ([], r)
  end.

Lemma stamped_once w d t t' : wf PATHS w → stamped PATHS w d t → stamped PATHS w d t' → t = t'.
Proof. intros Hw (i&Hi&E1&<-) (j&Hj&E2&<-). assert (i = j) as -> by (apply (wf_once _ w Hw); congruence). done. Qed.

Lemma probe_sweep_spec n w : wf PATHS w → 1280 ≤ ga_link_mtu (probe_args (w_io w)) → (nused w < n)%nat →
  let '(l, w') := sweep n w in
  wf PATHS w' ∧ io_status (w_io w') = IDEMIP_BUSY ∧ NoDup l ∧ (∀ d, d ∈ l ↔ ∃ t, due w d t) ∧ (length l ≤ nused w)%nat ∧ ∀ d t, stamped PATHS w' d t ↔ stamped PATHS w d t ∧ ¬ due w d t.
Proof using HP.
  revert w. induction n as [|n IH]; intros w Hw Hl Hn; [lia|]. cbn [sweep].
  destruct (tick_stamps w Hw) as (Hwr&Hnow&Hpa&Hne&Hok&Hsame&Hbusy). set (r := idemip_pmtu6_tick PATHS PROBE_MS w) in *.
  destruct (decide (io_status (w_io r) = IDEMIP_OK)) as [E|E].
  - destruct (Hok E) as (Hlt&d&t&Hd&Hdst&_&Hst). rewrite Hdst. cbn [default]. specialize (IH r Hwr ltac:(rewrite Hpa; done) ltac:(lia)). destruct (sweep n r) as [l w'].
    destruct IH as (I1&I2&I3&I4&I5&I6). pose proof (Hd) as [Hsd Hdd].
    assert (∀ d' t', due r d' t' ↔ due w d' t' ∧ d' ≠ d) as Hdr by (intros; unfold due; rewrite Hst, Hnow; tauto).
    split_and!; [done|done| | |cbn; lia|].
    + constructor; [|done]. rewrite I4. intros [t' Ht']. apply Hdr in Ht' as [_ ?]. done.
    + intros d'. rewrite elem_of_cons, I4. split.
      * intros [->|[t' Ht']]; [by exists t|]. exists t'. by apply Hdr.
      * intros [t' Ht']. destruct (decide (d' = d)); [by left|]. right. exists t'. by apply Hdr.
    + intros d' t'. rewrite I6, Hst, Hdr. split.
      * intros [[H1 H2] H3]. split; [done|]. tauto.
      * intros [H1 H2]. split_and!; [done| |tauto]. intros ->. apply H2. assert (t' = t) as -> by (by apply (stamped_once w d)). done.
  - assert (io_status (w_io r) = IDEMIP_BUSY) as Eb by (specialize (Hne Hl); by destruct (io_status (w_io r))). specialize (Hbusy Eb). specialize (Hsame E).
    split_and!; [done|done|constructor| |cbn; lia|].
    + intros d. split; [by intros ?%not_elem_of_nil|]. intros [t Ht]. by apply Hbusy in Ht.
    + intros d t. split; [intros H; split; [|apply Hbusy]|intros [H _]]; unfold stamped, used_at in *; rewrite Hsame in *; done.
Qed.

Lemma nused_most w : wf PATHS w → (nused w ≤ PATHS)%nat.
Proof using. intros Hw. unfold nused. rewrite <- (wf_len _ _ Hw). apply List.filter_length_le. Qed.

Lemma forget_stamps w d : wf PATHS w → length d = 16%nat → pa_dst (path_args (w_io w)) = Some d → let r := idemip_pmtu6_forget PATHS w in
  wf PATHS r ∧ (io_status (w_io r) = IDEMIP_OK ↔ ∃ t, stamped PATHS w d t) ∧ ∀ d' t', stamped PATHS r d' t' ↔ stamped PATHS w d' t' ∧ d' ≠ d.
Proof using HP.
  intros Hw H16 Hd r. destruct (forget_eq PATHS w d (wf_ready _ _ Hw) Hd) as [Hm He]. fold r in Hm, He. unfold pmtu6_find in He. destruct (scan _ _ _) as [i|] eqn:Es.
  - apply scan_Some in Es as (Hi&Hp&_). apply andb_true_iff in Hp as [Hu Ha]. destruct He as [-> E]. assert (used_at PATHS w i) as Hui by (split; [lia|done]).
    apply addr_eq in Ha; [|by apply (wf_addr PATHS w Hw)|done]. destruct (free_row PATHS w r i Hw Hui Hm E) as [Hwr Hst]. rewrite Ha in Hst. split_and!; [done| |done].
    split; [|done]. intros _. exists (s_stamp_ms (tget (w_stamps w) i)). by exists i.
  - destruct He as [-> E]. rewrite scan_None in Es. assert (∀ t, ¬ stamped PATHS w d t) as Hno.
    { intros t (i&[Hi Hu]&Hdi&_). specialize (Es i ltac:(lia)). cbv beta in Es. rewrite Hu in Es. cbn [andb] in Es.
      rewrite (proj2 (addr_eq _ _ (wf_addr PATHS w Hw i (conj Hi Hu)) H16) Hdi) in Es. done. }
    split_and!; [|split; [done|intros [t Ht]; by apply Hno in Ht]|].
    + destruct Hw as [H1 H2 H3 H4]. split; unfold used_at; rewrite ?E; [congruence|done|exact H3|exact H4].
    + intros d' t'. unfold stamped, used_at. rewrite E. split; [|by intros [? _]]. intros Hs. split; [done|]. intros ->. by apply (Hno t').
Qed.
End Calls.

(** A Packet Too Big leaves a path's estimate where RFC 8201 sections 4 and 5.2 leave it.  The call is OK
    exactly for a Type 2 message that carries its quoted IPv6 header and reports no less than 1280; it then
    reports, for the path the quoted packet was on - the last address of a Routing header with segments left,
    the destination else -, the lower of the MTU reported and the estimate: a message never raises an estimate
    and never takes one below 1280, and the estimate has fallen exactly where the one reported is below the
    one held.  A call that is not OK is ERR, reports no MTU and stamps no path. *)
Theorem too_big_follows_rfc8201 (PATHS : nat) (w : Work) (msg : list Z) :
  w_mark w = PMTU6_READY → ptb_ok w msg →
  let a := too_big_args (w_io w) in
  let est := estimate a in
  let m := Z.min (icmp6_mtu msg) 65535 in
  let r := idemip_pmtu6_too_big PATHS w in
  (io_status (w_io r) = IDEMIP_OK ↔ packet_too_big msg (ta_len a)) ∧
  (packet_too_big msg (ta_len a) →
     (∃ d, io_dst (w_io r) = Some d ∧ length d = 16%nat ∧ on_path (from msg 8) (ta_len a - 8) (tget msg 14) 40 d) ∧
     io_mtu (w_io r) = (if est =? 0 then m else Z.min m est) ∧ (io_decreased (w_io r) = true ↔ est = 0 ∨ m < est) ∧
     (est = 0 ∨ 1280 ≤ est → 1280 ≤ io_mtu (w_io r) ≤ 65535 ∨ est = io_mtu (w_io r))) ∧
  (¬ packet_too_big msg (ta_len a) → io_status (w_io r) = IDEMIP_ERR ∧ io_mtu (w_io r) = 0 ∧ w_stamps r = w_stamps w).
Proof.
  intros Hr Hp a est m r. destruct (too_big6_eq PATHS w msg Hr (proj1 Hp)) as [_ He]. cbv zeta in He. fold a r in He. fold m in He. fold est in He.
  destruct (decide (packet_too_big msg (ta_len a))) as [D|D]; [|destruct He as (E1&E2&_&E3); rewrite E1; split_and!; [split; [done|tauto]|tauto|done]].
  destruct He as (E1&E2&He). rewrite E1, E2. destruct (path_of w msg Hp D) as [Hpath H16]. pose proof D as (_&_&_&Hm). unfold falls in He. fold est m in He.
  split_and!; [done| |tauto]. intros _. destruct (decide (est = 0 ∨ m < est)) as [F|F].
  - destruct He as (E3&E4&_). rewrite E3, E4. split_and!; [eexists; split_and!; [done|exact H16|exact Hpath]|split_if; lia|tauto|lia].
  - destruct He as (E3&E4&_). rewrite E3, E4. split_and!; [eexists; split_and!; [done|exact H16|exact Hpath]|rewrite (proj2 (Z.eqb_neq est 0)) by lia; lia|split; [done|tauto]|lia].
Qed.

(** A message that reports 1400 about a packet to 2001:db8::9 by way of a Routing header to 2001:db8::7. *)
Definition eg_msg : list Z :=
  [2; 0; 0; 0; 0; 0; 0x05; 0x78] ++ [0x60; 0; 0; 0; 0; 24; 43; 64] ++ replicate 16 1 ++ [0x20; 1; 0xd; 0xb8] ++ replicate 11 0 ++ [9] ++
  [17; 2; 0; 1; 0; 0; 0; 0] ++ [0x20; 1; 0xd; 0xb8] ++ replicate 11 0 ++ [7].
Definition eg_work : Work :=
  mkWork (mkIo (mkTooBigArgs (Some eg_msg) 72 0 1500) (mkPathArgs None) (mkProbeArgs 1500) 700000 None 0 0 IDEMIP_OK None false false) PMTU6_READY
    [mkStamp 5 (replicate 16 8) true; mkStamp 690000 (replicate 16 9) true].

Lemma too_big_follows_rfc8201_witness :
  io_mtu (w_io (idemip_pmtu6_too_big 2 eg_work)) = 1400 ∧ io_dst (w_io (idemip_pmtu6_too_big 2 eg_work)) = Some (drop 56 eg_msg) ∧ io_decreased (w_io (idemip_pmtu6_too_big 2 eg_work)) = true.
Proof.
  destruct (too_big_follows_rfc8201 2 eg_work eg_msg) as (_&H&_).
  - reflexivity.
  - split_and!; [reflexivity|apply (bool_decide_eq_true_1 (Forall is_u8 _)); vm_compute; reflexivity|vm_compute; discriminate].
  - destruct H as (_&H1&H2&_); [split_and!; vm_compute; (reflexivity || discriminate)|]. split_and!; [exact H1|vm_compute; reflexivity|]. apply H2. vm_compute. by right.
Defined.

(** Paths are stamped when their estimate falls and probed once when it has not for a while.  The stamps
    are a map from paths to times, one row a path, that every call keeps: a message that lowers an estimate
    stamps the path it names with the time, whatever was there, and takes no other path's stamp unless every
    row is in use and that stamp is the oldest; a forget drops its path's.  Sweeps at one time report each
    path not stamped for the interval, across the wrap of the clock, exactly once, with the link's MTU, and
    no other; after at most as many calls as there are rows the answer is BUSY and the stamps left are the
    ones not due. *)
Theorem probes_follow_decreases (PATHS : nat) (PROBE_MS : Z) (w : Work) (msg d : list Z) :
  (0 < PATHS)%nat → wf PATHS w → ptb_ok w msg → pa_dst (path_args (w_io w)) = Some d → length d = 16%nat → 1280 ≤ ga_link_mtu (probe_args (w_io w)) →
  (let r := idemip_pmtu6_too_big PATHS w in let now := io_now_ms (w_io w) in
   wf PATHS r ∧ (io_decreased (w_io r) = false → w_stamps r = w_stamps w) ∧
   (io_decreased (w_io r) = true → ∃ p, io_dst (w_io r) = Some p ∧ (∀ t, stamped PATHS r p t ↔ t = now) ∧
      ∀ d', d' ≠ p → (∀ t, stamped PATHS r d' t → stamped PATHS w d' t) ∧
        ∀ t, stamped PATHS w d' t → stamped PATHS r d' t ∨
          (∀ i, 0 ≤ i < Z.of_nat PATHS → used_at PATHS w i) ∧ ¬ (∃ t', stamped PATHS w p t') ∧ ∀ d'' t'', stamped PATHS w d'' t'' → u32 (now - t'') ≤ u32 (now - t))) ∧
  (let r := idemip_pmtu6_forget PATHS w in
   wf PATHS r ∧ (io_status (w_io r) = IDEMIP_OK ↔ ∃ t, stamped PATHS w d t) ∧ ∀ d' t', stamped PATHS r d' t' ↔ stamped PATHS w d' t' ∧ d' ≠ d) ∧
  (let '(l, w') := sweep PATHS PROBE_MS (S PATHS) w in
   wf PATHS w' ∧ io_status (w_io w') = IDEMIP_BUSY ∧ NoDup l ∧ (length l ≤ PATHS)%nat ∧ (∀ p, p ∈ l ↔ ∃ t, due PATHS PROBE_MS w p t) ∧
   ∀ p t, stamped PATHS w' p t ↔ stamped PATHS w p t ∧ ¬ due PATHS PROBE_MS w p t).
Proof.
  intros HP Hw Hp Hd H16 Hlk. split_and!.
  - destruct (too_big_stamps PATHS HP w msg Hw Hp) as [Hwr Hst]. cbv zeta. set (r := idemip_pmtu6_too_big PATHS w) in *. split; [done|]. destruct (io_decreased (w_io r)); [|done].
    split; [done|]. intros _. destruct Hst as (p&i&Hdp&(Hi&Hone&Hch)&Hst). exists p. split_and!; [done|intros t; by rewrite Hst, decide_True|].
    intros d' Hne. split; [intros t Ht; apply Hst in Ht; rewrite decide_False in Ht by done; tauto|]. intros t Ht.
    destruct (decide (s_used (tget (w_stamps w) i) = true ∧ s_dst (tget (w_stamps w) i) = d')) as [[Hu E]|Hn].
    2:{ left. apply Hst. rewrite decide_False by done. split; [done|]. intros [[_ ?] ?]. by apply Hn. }
    assert (used_at PATHS w i) as Hui by done. right. destruct (Hch Hui) as [?|[Hall Hold]]; [congruence|]. split_and!; [done| |].
    + intros (t'&j&Hj&Ej&_). assert (j = i) as -> by (by apply Hone). congruence.
    + intros d'' t'' (j&Hj&_&<-). assert (t = s_stamp_ms (tget (w_stamps w) i)) as ->; [|by apply Hold]. apply (stamped_once PATHS w d'); [done|done|by exists i].
  - by apply forget_stamps.
  - pose proof (nused_most PATHS w Hw). pose proof (probe_sweep_spec PATHS PROBE_MS HP (S PATHS) w Hw Hlk ltac:(lia)) as Hs. destruct (sweep PATHS PROBE_MS (S PATHS) w) as [l w'].
    destruct Hs as (?&?&?&?&?&?). split_and!; try done. lia.
Qed.

Definition eg_stamps : Work := put_io eg_work ((w_io eg_work) <| path_args := mkPathArgs (Some (replicate 16 9)) |>).
Lemma probes_follow_decreases_witness :
  (sweep 2 600000 3 eg_stamps).1 = [replicate 16 8] ∧ (∃ t, stamped 2 eg_stamps (replicate 16 9) t) ∧
  ¬ stamped 2 (idemip_pmtu6_too_big 2 eg_stamps) (replicate 16 8) 5.
Proof.
  destruct (probes_follow_decreases 2 600000 eg_stamps eg_msg (replicate 16 9)) as ((_&_&H1)&(_&H2&_)&_).
  - lia.
  - split; [reflexivity|reflexivity| |]; unfold used_at.
    + intros i [Hi _]. assert (i = 0 ∨ i = 1) as [-> | ->] by lia; reflexivity.
    + intros i j [Hi _] [Hj _]. assert (i = 0 ∨ i = 1) as [-> | ->] by lia; assert (j = 0 ∨ j = 1) as [-> | ->] by lia; try reflexivity; intros E; vm_compute in E; discriminate.
  - split_and!; [reflexivity|apply (bool_decide_eq_true_1 (Forall is_u8 _)); vm_compute; reflexivity|vm_compute; discriminate].
  - reflexivity.
  - reflexivity.
  - vm_compute. discriminate.
  - split_and!; [vm_compute; reflexivity|apply H2; vm_compute; reflexivity|]. intros (i&[Hi Hu]&E&_).
    assert (i = 0 ∨ i = 1) as [-> | ->] by lia; vm_compute in E; discriminate.
Defined.

(** ** A fragment that is not the first *)

(** The quote of a later fragment of a datagram behind a Destination Options header: the walk stops at the
    Fragment header, the path is read out of the data. *)
Definition eg_later : list Z :=
  [0x60; 0; 0; 0; 0; 40; 44; 64] ++ replicate 16 1 ++ replicate 16 2 ++ [60; 0; 0x10; 1; 0; 0; 0; 1] ++ [43; 0; 1; 4; 0; 0; 0; 0] ++ [0; 2; 0; 1; 0; 0; 0; 0] ++ replicate 16 0xDA.
Lemma path_past_later_fragment :
  c_ok (ip6_chain eg_later 80) = true ∧ c_offset (ip6_chain eg_later 80) = 48 ∧ c_routed (ip6_chain eg_later 80) = false ∧
  pmtu6_path eg_later 80 = replicate 16 0xDA ∧ ip6_dst eg_later = replicate 16 2.
Proof. repeat split; vm_compute; reflexivity. Qed.
End Pmtu6Thms.
