(* ===== verification/Ip4Forward.v ===== *)
(** * IPv4 forwarding (src/ip/ip4_forward.c)

    RFC 1812's decision about one datagram that is not for this node: send it on, with what becomes of its Time
    to Live and whether it is fragmented first, or discard it, with the error owed.  A datagram is its octets
    from the header on. *)
From S2P Require Import Prelude Base Wire Ipv4 Icmp.

Module Ip4Forward.
Import Endian Ipv4 Icmp.

Definition IP4_FORWARD_READY : Z := 0x46574434.
Definition IP4_FORWARD_CLASS_MASK : Z := 0xF0000000.
Definition IP4_FORWARD_CLASS_D : Z := 0xE0000000.
Definition IP4_FORWARD_CLASS_E : Z := 0xF0000000.
Definition IP4_FORWARD_LIMITED_BCAST : Z := 0xFFFFFFFF.
Definition IP4_FORWARD_MASK_31 : Z := 0xFFFFFFFE.
Definition IP4_FORWARD_LINK_LOCAL_MASK : Z := 0xFFFF0000.
Definition IP4_FORWARD_LINK_LOCAL_TAG : Z := 0xA9FE0000.
Definition IP4_FORWARD_NET_SHIFT : Z := 24.
Definition IP4_FORWARD_NET_ZERO : Z := 0.
Definition IP4_FORWARD_NET_LOOPBACK : Z := 127.
Definition IP4_FORWARD_OPT_EOOL : Z := 0.
Definition IP4_FORWARD_OPT_NOP : Z := 1.
Definition IP4_FORWARD_OPT_LSRR : Z := 131.
Definition IP4_FORWARD_OPT_SSRR : Z := 137.
Definition IP4_FORWARD_OPT_MIN_LEN : Z := 2.
Definition IP4_FORWARD_SR_LOOSE : Z := 1.
Definition IP4_FORWARD_SR_STRICT : Z := 2.
Definition IDEMIP_IP4_FORWARD_P_MARTIAN : Z := 1.
Definition IDEMIP_IP4_FORWARD_P_DIRECTED : Z := 2.
Definition IDEMIP_IP4_FORWARD_P_MASK : Z := Z.lor IDEMIP_IP4_FORWARD_P_MARTIAN IDEMIP_IP4_FORWARD_P_DIRECTED.
Definition IDEMIP_IP4_FORWARD_ICMP_NONE : Z := 0xFF.
Definition IDEMIP_IP4_PROTO_ICMP : Z := 1.
Definition IDEMIP_IP4_MIN_FORWARD_MTU : Z := 68.
Definition IDEMIP_ICMP_DU_NET : Z := 0.
Definition IDEMIP_ICMP_DU_NET_TOS : Z := 11.
Definition IDEMIP_ICMP_DU_HOST_TOS : Z := 12.
Definition IDEMIP_ICMP_TE_TTL : Z := 0.
Definition IDEMIP_ICMP_PP_POINTER : Z := 0.

Inductive IdemIpIp4ForwardAction := IDEMIP_IP4_FORWARD_DISCARD | IDEMIP_IP4_FORWARD_SEND.
Inductive IdemIpIp4ForwardReason :=
  | IDEMIP_IP4_FORWARD_R_OK | IDEMIP_IP4_FORWARD_R_HEADER | IDEMIP_IP4_FORWARD_R_LINK_BCAST | IDEMIP_IP4_FORWARD_R_SRC | IDEMIP_IP4_FORWARD_R_DST
  | IDEMIP_IP4_FORWARD_R_LIMITED | IDEMIP_IP4_FORWARD_R_DIRECTED | IDEMIP_IP4_FORWARD_R_STRICT | IDEMIP_IP4_FORWARD_R_NO_ROUTE | IDEMIP_IP4_FORWARD_R_TTL
  | IDEMIP_IP4_FORWARD_R_DF | IDEMIP_IP4_FORWARD_R_NO_ROUTE_TOS | IDEMIP_IP4_FORWARD_R_LINK_LOCAL | IDEMIP_IP4_FORWARD_R_SRC_BCAST.
#[export] Instance IdemIpIp4ForwardAction_eq_dec : EqDecision IdemIpIp4ForwardAction.
Proof. solve_decision. Defined.
#[export] Instance IdemIpIp4ForwardReason_eq_dec : EqDecision IdemIpIp4ForwardReason.
Proof. solve_decision. Defined.

Record Ip4ForwardArgs := mkArgs {
  fa_hdr : option (list Z); fa_len : Z; fa_next_hop : Z; fa_in_addr : Z; fa_in_mask : Z; fa_out_addr : Z; fa_out_mask : Z; fa_out_mtu : Z;
  fa_in_netif : Z; fa_out_netif : Z; fa_routed : bool; fa_direct : bool; fa_tos_blocked : bool; fa_ll_broadcast : bool; fa_ll_multicast : bool }.
Record Ip4ForwardPolicyArgs := mkPolicyArgs { pa_set : Z; pa_clear : Z }.
Record Ip4ForwardIo := mkIo {
  fwd_args : Ip4ForwardArgs; policy_args : Ip4ForwardPolicyArgs; io_next_hop : Z; io_redirect_gw : Z; io_mtu : Z; io_status : IdemIpStatus;
  io_action : IdemIpIp4ForwardAction; io_reason : IdemIpIp4ForwardReason; io_ttl : Z; io_netif : Z; io_icmp_type : Z; io_icmp_code : Z; io_icmp_ptr : Z;
  io_policy : Z; io_icmp : bool; io_fragment : bool; io_redirect : bool }.
#[export] Instance Ip4ForwardIo_eta : Eta Ip4ForwardIo := fun r =>
  mkIo (fwd_args r) (policy_args r) (io_next_hop r) (io_redirect_gw r) (io_mtu r) (io_status r) (io_action r) (io_reason r) (io_ttl r) (io_netif r)
    (io_icmp_type r) (io_icmp_code r) (io_icmp_ptr r) (io_policy r) (io_icmp r) (io_fragment r) (io_redirect r).
Record Ip4ForwardCtx := mkCtx { c_ready : Z; c_policy : Z }.
Record Work := mkWork { w_io : Ip4ForwardIo; w_ctx : Ip4ForwardCtx }.
#[export] Instance Work_eta : Eta Work := fun r => mkWork (w_io r) (w_ctx r).
Definition put_io (w : Work) (io : Ip4ForwardIo) : Work := w <| w_io := io |>.

(** ** The addresses *)
Definition ip4_forward_is_multicast (a : Z) : bool := Z.land a IP4_FORWARD_CLASS_MASK =? IP4_FORWARD_CLASS_D.
Definition ip4_forward_is_class_e (a : Z) : bool := Z.land a IP4_FORWARD_CLASS_MASK =? IP4_FORWARD_CLASS_E.
Definition ip4_forward_src_invalid (a : Z) : bool :=
  let net := Z.shiftr a IP4_FORWARD_NET_SHIFT in
  if (net =? IP4_FORWARD_NET_ZERO) || (net =? IP4_FORWARD_NET_LOOPBACK) then true else ip4_forward_is_multicast a || ip4_forward_is_class_e a.
Definition ip4_forward_dst_invalid (a : Z) : bool :=
  let net := Z.shiftr a IP4_FORWARD_NET_SHIFT in
  if (net =? IP4_FORWARD_NET_ZERO) || (net =? IP4_FORWARD_NET_LOOPBACK) then true
  else if a =? IP4_FORWARD_LIMITED_BCAST then false else ip4_forward_is_class_e a.
Definition ip4_forward_dst_is_bcast (a : Ip4ForwardArgs) (dst : Z) : bool :=
  let mask := fa_out_mask a in
  if (mask =? 0) || (mask =? IP4_FORWARD_LIMITED_BCAST) || (mask =? IP4_FORWARD_MASK_31) then false
  else if negb (Z.land dst mask =? Z.land (fa_out_addr a) mask) then false
  else (Z.lor dst mask =? IP4_FORWARD_LIMITED_BCAST) || (Z.land dst (u32 (Z.lnot mask)) =? 0).
Definition ip4_forward_is_directed_bcast (a : Ip4ForwardArgs) (dst : Z) : bool :=
  if negb (fa_routed a) || negb (fa_direct a) then false else ip4_forward_dst_is_bcast a dst.
Definition ip4_forward_is_link_local (a : Z) : bool := Z.land a IP4_FORWARD_LINK_LOCAL_MASK =? IP4_FORWARD_LINK_LOCAL_TAG.
Definition ip4_forward_src_is_bcast (a : Ip4ForwardArgs) (src : Z) : bool :=
  let mask := fa_in_mask a in
  if (mask =? 0) || (mask =? IP4_FORWARD_LIMITED_BCAST) || (mask =? IP4_FORWARD_MASK_31) then false
  else if negb (Z.land src mask =? Z.land (fa_in_addr a) mask) then false
  else (Z.lor src mask =? IP4_FORWARD_LIMITED_BCAST) || (Z.land src (u32 (Z.lnot mask)) =? 0).

(** ** The source route options: the bits found.  The fuel is the octets of the options; a step is at least one. *)
Fixpoint source_route_loop (fuel : nat) (o : list Z) (n i found : Z) : Z :=
  match fuel with
  | O => found
  | S fuel =>
      if negb (i <? n) then found
      else
      let type := tget o i in
      if type =? IP4_FORWARD_OPT_EOOL then found
      else if type =? IP4_FORWARD_OPT_NOP then source_route_loop fuel o n (i + 1) found
      else if n <=? i + 1 then found
      else
      let olen := tget o (i + 1) in
      if (olen <? IP4_FORWARD_OPT_MIN_LEN) || (n <? i + olen) then found
      else
      let found := if type =? IP4_FORWARD_OPT_LSRR then Z.lor found IP4_FORWARD_SR_LOOSE else found in
      let found := if type =? IP4_FORWARD_OPT_SSRR then Z.lor found IP4_FORWARD_SR_STRICT else found in
      source_route_loop fuel o n (i + olen) found
  end.
Definition ip4_forward_source_route (h : list Z) : Z := source_route_loop (S (Z.to_nat (ip4_options_len h))) (ip4_options h) (ip4_options_len h) 0 0.

(** ** When an ICMP error may be sent *)
Definition ip4_forward_is_icmp_error (type : Z) : bool :=
  (type =? IDEMIP_ICMP_DEST_UNREACHABLE) || (type =? IDEMIP_ICMP_SOURCE_QUENCH) || (type =? IDEMIP_ICMP_REDIRECT) || (type =? IDEMIP_ICMP_TIME_EXCEEDED) ||
  (type =? IDEMIP_ICMP_PARAMETER_PROBLEM).
Definition ip4_forward_carries_icmp_error (h : list Z) : bool :=
  if negb (ip4_proto h =? IDEMIP_IP4_PROTO_ICMP) || negb (ip4_frag_units h =? 0) then false
  else
  let hdr := ip4_hdr_len h in
  if ip4_total_len h <=? hdr then false else ip4_forward_is_icmp_error (tget h (hdr + IDEMIP_ICMP_OFF_TYPE)).
Definition ip4_forward_icmp_allowed (h : list Z) (a : Ip4ForwardArgs) : bool :=
  let src := ip4_src h in
  let dst := ip4_dst h in
  if fa_ll_broadcast a || fa_ll_multicast a then false
  else if (dst =? IP4_FORWARD_LIMITED_BCAST) || ip4_forward_dst_is_bcast a dst || ip4_forward_is_multicast dst then false
  else if ip4_forward_src_invalid src || ip4_forward_src_is_bcast a src then false
  else if negb (ip4_frag_units h =? 0) then false
  else negb (ip4_forward_carries_icmp_error h).

(** ** The results *)
Definition ip4_forward_reset (io : Ip4ForwardIo) : Ip4ForwardIo :=
  mkIo (fwd_args io) (policy_args io) 0 0 0 (io_status io) IDEMIP_IP4_FORWARD_DISCARD IDEMIP_IP4_FORWARD_R_OK 0 0 IDEMIP_IP4_FORWARD_ICMP_NONE 0 0 (io_policy io)
    false false false.
Definition ip4_forward_drop (io : Ip4ForwardIo) (reason : IdemIpIp4ForwardReason) : Ip4ForwardIo :=
  io <| io_action := IDEMIP_IP4_FORWARD_DISCARD |> <| io_reason := reason |> <| io_status := IDEMIP_OK |>.
Definition ip4_forward_drop_icmp (io : Ip4ForwardIo) (reason : IdemIpIp4ForwardReason) (type code : Z) (allowed : bool) : Ip4ForwardIo :=
  let io := ip4_forward_drop io reason in
  if allowed then io <| io_icmp := true |> <| io_icmp_type := type |> <| io_icmp_code := code |> else io.

Definition idemip_ip4_forward_clear (w : Work) : Work :=
  mkWork ((w_io w) <| io_policy := IDEMIP_IP4_FORWARD_P_MASK |> <| io_status := IDEMIP_OK |>) (mkCtx IP4_FORWARD_READY IDEMIP_IP4_FORWARD_P_MASK).

Definition ip4_forward_ready (w : Work) : bool := c_ready (w_ctx w) =? IP4_FORWARD_READY.

Definition idemip_ip4_forward_set_policy (w : Work) : Work :=
  let io := (w_io w) <| io_status := IDEMIP_ERR |> in
  if negb (ip4_forward_ready w) then put_io w io
  else if negb (Z.land (Z.lor (pa_set (policy_args io)) (pa_clear (policy_args io))) (u8 (Z.lnot IDEMIP_IP4_FORWARD_P_MASK)) =? 0) then put_io w io
  else
  let policy := Z.land (Z.lor (c_policy (w_ctx w)) (pa_set (policy_args io))) (u8 (Z.lnot (pa_clear (policy_args io)))) in
  mkWork (io <| io_policy := policy |> <| io_status := IDEMIP_OK |>) (mkCtx (c_ready (w_ctx w)) policy).

Section Build.
(** The build: its checksum route and how many interfaces it has. *)
Variable word : option nat.
Variable swap : bool.
Variable NETIF_COUNT : Z.

(** Section 5.2.1.2's steps (6), (7), (9) and (12), past the header's own checks. *)
Definition forward_datagram (io : Ip4ForwardIo) (a : Ip4ForwardArgs) (h : list Z) : Ip4ForwardIo :=
  let src := ip4_src h in
  let dst := ip4_dst h in
  let directed := ip4_forward_is_directed_bcast a dst in
  let icmp_ok := ip4_forward_icmp_allowed h a in
  let policy := io_policy io in
  let martian := negb (Z.land policy IDEMIP_IP4_FORWARD_P_MARTIAN =? 0) in
  if (fa_ll_broadcast a || fa_ll_multicast a) && negb (ip4_forward_is_multicast dst) then ip4_forward_drop io IDEMIP_IP4_FORWARD_R_LINK_BCAST
  else if ip4_forward_is_link_local src || ip4_forward_is_link_local dst then ip4_forward_drop io IDEMIP_IP4_FORWARD_R_LINK_LOCAL
  else if ip4_forward_src_is_bcast a src then ip4_forward_drop io IDEMIP_IP4_FORWARD_R_SRC_BCAST
  else if martian && ip4_forward_src_invalid src then ip4_forward_drop io IDEMIP_IP4_FORWARD_R_SRC
  else if martian && ip4_forward_dst_invalid dst then ip4_forward_drop io IDEMIP_IP4_FORWARD_R_DST
  else if dst =? IP4_FORWARD_LIMITED_BCAST then ip4_forward_drop io IDEMIP_IP4_FORWARD_R_LIMITED
  else if directed && (Z.land policy IDEMIP_IP4_FORWARD_P_DIRECTED =? 0) then ip4_forward_drop io IDEMIP_IP4_FORWARD_R_DIRECTED
  else
  let source_route := ip4_forward_source_route h in
  if negb (Z.land source_route IP4_FORWARD_SR_STRICT =? 0) then
    (ip4_forward_drop_icmp io IDEMIP_IP4_FORWARD_R_STRICT IDEMIP_ICMP_PARAMETER_PROBLEM IDEMIP_ICMP_PP_POINTER icmp_ok) <| io_icmp_ptr := IDEMIP_IP4_OFF_DST |>
  else if negb (fa_routed a) then
    if fa_tos_blocked a
    then ip4_forward_drop_icmp io IDEMIP_IP4_FORWARD_R_NO_ROUTE_TOS IDEMIP_ICMP_DEST_UNREACHABLE (if fa_direct a then IDEMIP_ICMP_DU_HOST_TOS else IDEMIP_ICMP_DU_NET_TOS) icmp_ok
    else ip4_forward_drop_icmp io IDEMIP_IP4_FORWARD_R_NO_ROUTE IDEMIP_ICMP_DEST_UNREACHABLE IDEMIP_ICMP_DU_NET icmp_ok
  else
  let ttl := ip4_ttl h in
  if ttl <=? 1 then ip4_forward_drop_icmp io IDEMIP_IP4_FORWARD_R_TTL IDEMIP_ICMP_TIME_EXCEEDED IDEMIP_ICMP_TE_TTL icmp_ok
  else
  let io := io <| io_ttl := u8 (ttl - 1) |> in
  let big := fa_out_mtu a <? ip4_total_len h in
  if big && ip4_df h then
    (ip4_forward_drop_icmp io IDEMIP_IP4_FORWARD_R_DF IDEMIP_ICMP_DEST_UNREACHABLE IDEMIP_ICMP_DU_FRAG_NEEDED icmp_ok) <| io_mtu := fa_out_mtu a |>
  else
  let io := if big then io <| io_fragment := true |> else io in
  let io := if (fa_out_netif a =? fa_in_netif a) && negb (fa_in_mask a =? 0) && (source_route =? 0) && icmp_ok &&
               (Z.land src (fa_in_mask a) =? Z.land (fa_next_hop a) (fa_in_mask a))
            then io <| io_redirect := true |> <| io_redirect_gw := fa_next_hop a |> else io in
  io <| io_action := IDEMIP_IP4_FORWARD_SEND |> <| io_reason := IDEMIP_IP4_FORWARD_R_OK |> <| io_next_hop := fa_next_hop a |> <| io_netif := fa_out_netif a |>
     <| io_status := IDEMIP_OK |>.

Definition idemip_ip4_forward_decide (w : Work) : Work :=
  let io := ip4_forward_reset ((w_io w) <| io_status := IDEMIP_ERR |>) in
  if negb (ip4_forward_ready w) then put_io w io
  else
  let io := io <| io_policy := c_policy (w_ctx w) |> in
  let a := fwd_args io in
  match fa_hdr a with
  | None => put_io w io
  | Some h =>
      if NETIF_COUNT <=? fa_in_netif a then put_io w io
      else if fa_routed a && ((NETIF_COUNT <=? fa_out_netif a) || (fa_out_mtu a <? IDEMIP_IP4_MIN_FORWARD_MTU)) then put_io w io
      else if negb (bool_decide (ip4_verify_all word swap h (fa_len a) = IDEMIP_OK)) then put_io w (ip4_forward_drop io IDEMIP_IP4_FORWARD_R_HEADER)
      else put_io w (forward_datagram io a h)
  end.
End Build.
End Ip4Forward.

(** * What is forwarded

    The rules of RFC 1812 over ranges of addresses and the bits of a mask, the decision against them, and why a
    datagram is not forwarded for ever. *)
Module Ip4ForwardThms.
Import Endian Checksum Look Ipv4 Icmp Ip4Forward.

(** ** Addresses *)
Definition group (a : Z) : Prop := 0xE0000000 ≤ a < 0xF0000000.
Definition link_local (a : Z) : Prop := a / 65536 = 0xA9FE.
(** No host of its own: network 0, the loopback network, and from class D on for a source, class E for a
    destination. *)
Definition bad_src (a : Z) : Prop := a / 16777216 = 0 ∨ a / 16777216 = 127 ∨ 0xE0000000 ≤ a.
Definition bad_dst (a : Z) : Prop := a / 16777216 = 0 ∨ a / 16777216 = 127 ∨ 0xF0000000 ≤ a ∧ a ≠ 0xFFFFFFFF.
(** Bits of the prefix and of the host part of an address. *)
Definition on_link (a own mask : Z) : Prop := ∀ i, 0 ≤ i < 32 → Z.testbit mask i = true → Z.testbit a i = Z.testbit own i.
Definition host_all (b : bool) (a mask : Z) : Prop := ∀ i, 0 ≤ i < 32 → Z.testbit mask i = false → Z.testbit a i = b.
(** The broadcasts of a link of more than two hosts. *)
Definition link_broadcast (a own mask : Z) : Prop :=
  mask ≠ 0 ∧ mask ≠ 0xFFFFFFFF ∧ mask ≠ 0xFFFFFFFE ∧ on_link a own mask ∧ (host_all true a mask ∨ host_all false a mask).

Lemma bit_above a i : is_u32 a → 32 ≤ i → Z.testbit a i = false.
Proof. intros Ha Hi. apply (testbit_high 32); [|lia]. unfold is_u32 in Ha. lia. Qed.

Lemma fwd_land_prefix a k : is_u32 a → 0 ≤ k ≤ 32 → Z.land a (Z.shiftl (Z.ones (32 - k)) k) = Z.shiftl (a / 2 ^ k) k.
Proof.
  intros Ha Hk. apply Z.bits_inj'. intros i Hi. rewrite Z.land_spec, !Z.shiftl_spec by lia. destruct (Z.lt_ge_cases i k).
  - rewrite !(Z.testbit_neg_r _ (i - k)) by lia. apply andb_false_r.
  - rewrite <- Z.shiftr_div_pow2, Z.shiftr_spec by lia. replace (i - k + k) with i by lia. destruct (Z.lt_ge_cases i 32).
    + by rewrite Z.ones_spec_low, andb_true_r by lia.
    + by rewrite (bit_above a) by (done || lia).
Qed.

Lemma fwd_class_iff a : is_u32 a → (ip4_forward_is_multicast a = true ↔ group a) ∧ (ip4_forward_is_class_e a = true ↔ 0xF0000000 ≤ a) ∧ (ip4_forward_is_link_local a = true ↔ link_local a).
Proof.
  intros Ha. unfold ip4_forward_is_multicast, ip4_forward_is_class_e, ip4_forward_is_link_local, group, link_local.
  change IP4_FORWARD_CLASS_MASK with (Z.shiftl (Z.ones (32 - 28)) 28). change IP4_FORWARD_LINK_LOCAL_MASK with (Z.shiftl (Z.ones (32 - 16)) 16).
  rewrite !fwd_land_prefix, !Z.shiftl_mul_pow2, !Z.eqb_eq by (done || lia). unfold IP4_FORWARD_CLASS_D, IP4_FORWARD_CLASS_E, IP4_FORWARD_LINK_LOCAL_TAG.
  change (2 ^ 28) with 268435456. change (2 ^ 16) with 65536. unfold is_u32 in Ha. split_and!; split; intros; Z.div_mod_to_equations; lia.
Qed.

Lemma bad_src_iff a : is_u32 a → ip4_forward_src_invalid a = true ↔ bad_src a.
Proof.
  intros Ha. destruct (fwd_class_iff a Ha) as (Hg&He&_). unfold ip4_forward_src_invalid, bad_src, IP4_FORWARD_NET_SHIFT, IP4_FORWARD_NET_ZERO, IP4_FORWARD_NET_LOOPBACK.
  rewrite Z.shiftr_div_pow2 by lia. change (2 ^ 24) with 16777216. destruct (Z.eqb_spec (a / 16777216) 0); cbn [orb]; [tauto|]. destruct (Z.eqb_spec (a / 16777216) 127); [tauto|].
  rewrite orb_true_iff, Hg, He. unfold group. lia.
Qed.
Lemma bad_dst_iff a : is_u32 a → ip4_forward_dst_invalid a = true ↔ bad_dst a.
Proof.
  intros Ha. destruct (fwd_class_iff a Ha) as (Hg&He&_). unfold ip4_forward_dst_invalid, bad_dst, IP4_FORWARD_NET_SHIFT, IP4_FORWARD_NET_ZERO, IP4_FORWARD_NET_LOOPBACK, IP4_FORWARD_LIMITED_BCAST.
  rewrite Z.shiftr_div_pow2 by lia. change (2 ^ 24) with 16777216. destruct (Z.eqb_spec (a / 16777216) 0); cbn [orb]; [tauto|]. destruct (Z.eqb_spec (a / 16777216) 127); [tauto|].
  destruct (Z.eqb_spec a 0xFFFFFFFF); [split; [done|lia]|]. rewrite He. lia.
Qed.

(** ** Masks *)
Lemma on_link_iff a own mask : is_u32 a → is_u32 own → Z.land a mask = Z.land own mask ↔ on_link a own mask.
Proof.
  intros Ha Ho. split.
  - intros E i Hi Hm. assert (Z.testbit (Z.land a mask) i = Z.testbit (Z.land own mask) i) as Ht by (by rewrite E). rewrite !Z.land_spec, Hm, !andb_true_r in Ht. done.
  - intros H. apply Z.bits_inj'. intros i Hi. rewrite !Z.land_spec. destruct (Z.lt_ge_cases i 32); [|by rewrite (bit_above a), (bit_above own) by (done || lia)].
    destruct (Z.testbit mask i) eqn:E; [|by rewrite !andb_false_r]. by rewrite (H i) by (done || lia).
Qed.
Lemma host_ones_iff a mask : is_u32 a → is_u32 mask → Z.lor a mask = 0xFFFFFFFF ↔ host_all true a mask.
Proof.
  intros Ha Hm. change 0xFFFFFFFF with (Z.ones 32). split.
  - intros E i Hi Hf. assert (Z.testbit (Z.lor a mask) i = true) as Ht by (rewrite E; apply Z.ones_spec_low; lia). by rewrite Z.lor_spec, Hf, orb_false_r in Ht.
  - intros H. apply Z.bits_inj'. intros i Hi. rewrite Z.lor_spec. destruct (Z.lt_ge_cases i 32).
    + rewrite Z.ones_spec_low by lia. destruct (Z.testbit mask i) eqn:E; [by rewrite orb_true_r|]. by rewrite (H i) by (done || lia).
    + by rewrite Z.ones_spec_high, (bit_above a), (bit_above mask) by (done || lia).
Qed.
Lemma host_zero_iff a mask : is_u32 a → is_u32 mask → Z.land a (u32 (Z.lnot mask)) = 0 ↔ host_all false a mask.
Proof.
  intros Ha Hm. assert (∀ i, 0 ≤ i < 32 → Z.testbit (u32 (Z.lnot mask)) i = negb (Z.testbit mask i)) as Hb.
  { intros i Hi. unfold u32. change 4294967296 with (2 ^ 32). rewrite Z.mod_pow2_bits_low by lia. apply Z.lnot_spec. lia. }
  split.
  - intros E i Hi Hf. assert (Z.testbit (Z.land a (u32 (Z.lnot mask))) i = false) as Ht by (by rewrite E, Z.bits_0). rewrite Z.land_spec, Hb, Hf, andb_true_r in Ht by lia. done.
  - intros H. apply Z.bits_inj'. intros i Hi. rewrite Z.land_spec, Z.bits_0. destruct (Z.lt_ge_cases i 32); [|by rewrite (bit_above a) by (done || lia)].
    rewrite Hb by lia. destruct (Z.testbit mask i) eqn:E; [apply andb_false_r|]. by rewrite (H i) by (done || lia).
Qed.

Lemma bcast_iff a own mask : is_u32 a → is_u32 own → is_u32 mask →
  (if (mask =? 0) || (mask =? IP4_FORWARD_LIMITED_BCAST) || (mask =? IP4_FORWARD_MASK_31) then false
   else if negb (Z.land a mask =? Z.land own mask) then false
   else (Z.lor a mask =? IP4_FORWARD_LIMITED_BCAST) || (Z.land a (u32 (Z.lnot mask)) =? 0)) = true ↔ link_broadcast a own mask.
Proof.
  intros Ha Ho Hm. unfold link_broadcast, IP4_FORWARD_LIMITED_BCAST, IP4_FORWARD_MASK_31.
  destruct (Z.eqb_spec mask 0); cbn [orb]; [split; [done|tauto]|]. destruct (Z.eqb_spec mask 0xFFFFFFFF); cbn [orb]; [split; [done|tauto]|].
  destruct (Z.eqb_spec mask 0xFFFFFFFE); [split; [done|tauto]|]. pose proof (on_link_iff a own mask Ha Ho) as H1.
  destruct (Z.eqb_spec (Z.land a mask) (Z.land own mask)); cbn [negb]; [|split; [done|]; intros (_&_&_&?&_); tauto].
  rewrite orb_true_iff, !Z.eqb_eq, host_ones_iff, host_zero_iff by done. tauto.
Qed.

(** ** The options *)
(** An option of type [t] met on the way from octet [i]. *)
Inductive option_from (o : list Z) (n : Z) : Z → Z → Prop :=
  | option_here i : 0 ≤ i → i + 1 < n → tget o i ≠ 0 → tget o i ≠ 1 → 2 ≤ tget o (i + 1) → i + tget o (i + 1) ≤ n → option_from o n i (tget o i)
  | option_past_nop i t : i < n → tget o i = 1 → option_from o n (i + 1) t → option_from o n i t
  | option_past i t : i + 1 < n → tget o i ≠ 0 → tget o i ≠ 1 → 2 ≤ tget o (i + 1) → i + tget o (i + 1) ≤ n → option_from o n (i + tget o (i + 1)) t → option_from o n i t.

Lemma route_bits o n fuel i found : 0 ≤ i → 0 ≤ found < 4 → n - i < Z.of_nat fuel → let r := source_route_loop fuel o n i found in
  0 ≤ r < 4 ∧ (Z.testbit r 0 = true ↔ Z.testbit found 0 = true ∨ option_from o n i 131) ∧ (Z.testbit r 1 = true ↔ Z.testbit found 1 = true ∨ option_from o n i 137).
Proof.
  revert i found. induction fuel as [|fuel IH]; intros i found H0 Hf Hn; cbv zeta.
  { cbn [source_route_loop]. assert (∀ t, ¬ option_from o n i t) as Hno by (intros t; destruct 1; lia). split_and!; [lia|lia| |]; (split; [tauto|]; intros [?|?%Hno]; done). }
  cbn [source_route_loop]. unfold IP4_FORWARD_OPT_EOOL, IP4_FORWARD_OPT_NOP, IP4_FORWARD_OPT_MIN_LEN, IP4_FORWARD_OPT_LSRR, IP4_FORWARD_OPT_SSRR, IP4_FORWARD_SR_LOOSE, IP4_FORWARD_SR_STRICT.
  assert ((∀ t, ¬ option_from o n i t) → 0 ≤ found < 4 ∧ (Z.testbit found 0 = true ↔ Z.testbit found 0 = true ∨ option_from o n i 131) ∧
    (Z.testbit found 1 = true ↔ Z.testbit found 1 = true ∨ option_from o n i 137)) as Hend.
  { intros Hno. split_and!; [lia|lia| |]; (split; [tauto|]; intros [?|?%Hno]; done). }
  destruct (Z.ltb_spec i n) as [Hi|Hi]; cbn [negb]; [|apply Hend; intros t; destruct 1; lia].
  destruct (Z.eqb_spec (tget o i) 0) as [E0|E0]; [apply Hend; intros t; destruct 1; congruence|].
  destruct (Z.eqb_spec (tget o i) 1) as [E1|E1].
  { destruct (IH (i + 1) found) as (R1&R2&R3); [lia|lia|lia|]. split_and!; [lia|lia|rewrite R2|rewrite R3];
      (split; intros [?|Ho]; [by left| |by left|]; right; [by apply option_past_nop|inversion Ho; subst; (done || congruence)]). }
  destruct (Z.leb_spec n (i + 1)); [apply Hend; intros t; destruct 1; (lia || congruence)|].
  destruct (Z.ltb_spec (tget o (i + 1)) 2); cbn [orb]; [apply Hend; intros t; destruct 1; (lia || congruence)|].
  destruct (Z.ltb_spec n (i + tget o (i + 1))); [apply Hend; intros t; destruct 1; (lia || congruence)|].
  set (f1 := if tget o i =? 131 then Z.lor found 1 else found). set (f2 := if tget o i =? 137 then Z.lor f1 2 else f1).
  assert (0 ≤ f2 < 4 ∧ (Z.testbit f2 0 = true ↔ Z.testbit found 0 = true ∨ tget o i = 131) ∧ (Z.testbit f2 1 = true ↔ Z.testbit found 1 = true ∨ tget o i = 137)) as (F0&F1&F2).
  { unfold f2, f1. assert (found = 0 ∨ found = 1 ∨ found = 2 ∨ found = 3) as [-> |[-> |[-> | ->]]] by lia;
      destruct (Z.eqb_spec (tget o i) 131), (Z.eqb_spec (tget o i) 137); try lia; clear IH Hend;
      repeat match goal with |- context [Z.lor ?x ?y] => let v := eval vm_compute in (Z.lor x y) in change (Z.lor x y) with v end; split_and!; cbn; try lia; split; intros; (tauto || lia || (destruct_or?; (done || lia))). }
  destruct (IH (i + tget o (i + 1)) f2) as (R1&R2&R3); [lia|lia|lia|].
  assert (∀ t, option_from o n i t ↔ tget o i = t ∨ option_from o n (i + tget o (i + 1)) t) as Hopt.
  { intros t. split; [intros Ho; inversion Ho; subst; (tauto || congruence)|]. intros [<-|Ho]; [by apply option_here|by apply option_past]. }
  split_and!; [lia|lia|rewrite R2, F1, Hopt; tauto|rewrite R3, F2, Hopt; tauto].
Qed.

Definition has_option (h : list Z) (t : Z) : Prop := option_from (ip4_options h) (ip4_options_len h) 0 t.
Lemma route_iff h : 0 ≤ ip4_options_len h → let r := ip4_forward_source_route h in
  (Z.land r IP4_FORWARD_SR_STRICT = 0 ↔ ¬ has_option h 137) ∧ (r = 0 ↔ ¬ has_option h 131 ∧ ¬ has_option h 137).
Proof.
  intros Hn r. destruct (route_bits (ip4_options h) (ip4_options_len h) (S (Z.to_nat (ip4_options_len h))) 0 0) as (R1&R2&R3); [lia|lia|lia|].
  fold (ip4_forward_source_route h) in R1, R2, R3. fold r in R1, R2, R3. fold (has_option h 131) in R2. fold (has_option h 137) in R3. clearbody r. unfold IP4_FORWARD_SR_STRICT.
  rewrite Z.bits_0 in R2, R3. assert (∀ P : Prop, (false = true ∨ P) ↔ P) as Hor by (intros P; split; [intros [?|?]; done|tauto]). rewrite Hor in R2, R3. clear Hor.
  assert (Z.land r 2 = 0 ↔ Z.testbit r 1 ≠ true) as ->.
  { assert (r = 0 ∨ r = 1 ∨ r = 2 ∨ r = 3) as [-> |[-> |[-> | ->]]] by lia; vm_compute; split; intros; done. }
  assert (r = 0 ↔ Z.testbit r 0 ≠ true ∧ Z.testbit r 1 ≠ true) as ->.
  { assert (r = 0 ∨ r = 1 ∨ r = 2 ∨ r = 3) as [-> |[-> |[-> | ->]]] by lia; vm_compute; split; intros; try done; destruct_and?; exfalso; auto. }
  by rewrite R2, R3.
Qed.

(** ** When an error may be sent: section 4.3.2.7 *)
Definition carries_error (h : list Z) : Prop :=
  ip4_proto h = 1 ∧ ip4_frag_units h = 0 ∧ ip4_hdr_len h < ip4_total_len h ∧ tget h (ip4_hdr_len h) ∈ [3; 4; 5; 11; 12].
Definition may_report (a : Ip4ForwardArgs) (h : list Z) : Prop :=
  fa_ll_broadcast a = false ∧ fa_ll_multicast a = false ∧ ip4_dst h ≠ 0xFFFFFFFF ∧ ¬ link_broadcast (ip4_dst h) (fa_out_addr a) (fa_out_mask a) ∧ ¬ group (ip4_dst h) ∧
  ¬ bad_src (ip4_src h) ∧ ¬ link_broadcast (ip4_src h) (fa_in_addr a) (fa_in_mask a) ∧ ip4_frag_units h = 0 ∧ ¬ carries_error h.

Definition args_ok (a : Ip4ForwardArgs) : Prop := is_u32 (fa_in_addr a) ∧ is_u32 (fa_in_mask a) ∧ is_u32 (fa_out_addr a) ∧ is_u32 (fa_out_mask a).

Lemma dst_bcast_iff a h : octets h → args_ok a → ip4_forward_dst_is_bcast a (ip4_dst h) = true ↔ link_broadcast (ip4_dst h) (fa_out_addr a) (fa_out_mask a).
Proof. intros Ho (_&_&H1&H2). pose proof (bcast_iff (ip4_dst h) (fa_out_addr a) (fa_out_mask a) (rd32_u32 h _ Ho) H1 H2) as H. exact H. Qed.
Lemma src_bcast_iff a h : octets h → args_ok a → ip4_forward_src_is_bcast a (ip4_src h) = true ↔ link_broadcast (ip4_src h) (fa_in_addr a) (fa_in_mask a).
Proof. intros Ho (H1&H2&_&_). pose proof (bcast_iff (ip4_src h) (fa_in_addr a) (fa_in_mask a) (rd32_u32 h _ Ho) H1 H2) as H. exact H. Qed.

Lemma not_bool (b : bool) (P : Prop) : (b = true ↔ P) → ¬ P ↔ b = false.
Proof. intros <-. destruct b; split; done. Qed.

Lemma carries_iff h : ip4_forward_carries_icmp_error h = true ↔ carries_error h.
Proof.
  unfold ip4_forward_carries_icmp_error, carries_error, ip4_forward_is_icmp_error, IDEMIP_IP4_PROTO_ICMP, IDEMIP_ICMP_OFF_TYPE, IDEMIP_ICMP_DEST_UNREACHABLE, IDEMIP_ICMP_SOURCE_QUENCH,
    IDEMIP_ICMP_REDIRECT, IDEMIP_ICMP_TIME_EXCEEDED, IDEMIP_ICMP_PARAMETER_PROBLEM.
  rewrite Z.add_0_r, !elem_of_cons, elem_of_nil. destruct (Z.eqb_spec (ip4_proto h) 1); cbn [negb orb]; [|split; [done|tauto]].
  destruct (Z.eqb_spec (ip4_frag_units h) 0); cbn [negb]; [|split; [done|tauto]]. destruct (Z.leb_spec (ip4_total_len h) (ip4_hdr_len h)); [split; [done|lia]|].
  rewrite !orb_true_iff, !Z.eqb_eq. tauto.
Qed.

Lemma allowed_iff a h : octets h → args_ok a → ip4_forward_icmp_allowed h a = true ↔ may_report a h.
Proof.
  intros Ho Ha. pose proof (dst_bcast_iff a h Ho Ha) as H1. pose proof (src_bcast_iff a h Ho Ha) as H2. pose proof (carries_iff h) as H3.
  pose proof (bad_src_iff _ (rd32_u32 h IDEMIP_IP4_OFF_SRC Ho)) as H4. destruct (fwd_class_iff _ (rd32_u32 h IDEMIP_IP4_OFF_DST Ho)) as (H5&_). fold (ip4_src h) in H4. fold (ip4_dst h) in H5.
  unfold ip4_forward_icmp_allowed, may_report, IP4_FORWARD_LIMITED_BCAST. rewrite (not_bool _ _ H1), (not_bool _ _ H2), (not_bool _ _ H3), (not_bool _ _ H4), (not_bool _ _ H5). clear.
  rewrite <- (Z.eqb_neq (ip4_dst h)), <- (Z.eqb_eq (ip4_frag_units h)).
  generalize (fa_ll_broadcast a) (fa_ll_multicast a) (ip4_dst h =? 4294967295) (ip4_forward_dst_is_bcast a (ip4_dst h)) (ip4_forward_is_multicast (ip4_dst h))
    (ip4_forward_src_invalid (ip4_src h)) (ip4_forward_src_is_bcast a (ip4_src h)) (ip4_frag_units h =? 0) (ip4_forward_carries_icmp_error h).
  clear. intros [] [] [] [] [] [] [] [] []; cbn; split; intros; destruct_and?; (done || split_and!; done).
Qed.

(** ** The rules *)
(** The rule each reason names, broken by a datagram whose header verifies. *)
Definition broken (policy : Z) (a : Ip4ForwardArgs) (h : list Z) (r : IdemIpIp4ForwardReason) : Prop :=
  match r with
  | IDEMIP_IP4_FORWARD_R_OK | IDEMIP_IP4_FORWARD_R_HEADER => False
  | IDEMIP_IP4_FORWARD_R_LINK_BCAST => (fa_ll_broadcast a = true ∨ fa_ll_multicast a = true) ∧ ¬ group (ip4_dst h)
  | IDEMIP_IP4_FORWARD_R_LINK_LOCAL => link_local (ip4_src h) ∨ link_local (ip4_dst h)
  | IDEMIP_IP4_FORWARD_R_SRC_BCAST => link_broadcast (ip4_src h) (fa_in_addr a) (fa_in_mask a)
  | IDEMIP_IP4_FORWARD_R_SRC => Z.testbit policy 0 = true ∧ bad_src (ip4_src h)
  | IDEMIP_IP4_FORWARD_R_DST => Z.testbit policy 0 = true ∧ bad_dst (ip4_dst h)
  | IDEMIP_IP4_FORWARD_R_LIMITED => ip4_dst h = 0xFFFFFFFF
  | IDEMIP_IP4_FORWARD_R_DIRECTED =>
      Z.testbit policy 1 = false ∧ fa_routed a = true ∧ fa_direct a = true ∧ link_broadcast (ip4_dst h) (fa_out_addr a) (fa_out_mask a)
  | IDEMIP_IP4_FORWARD_R_STRICT => has_option h 137
  | IDEMIP_IP4_FORWARD_R_NO_ROUTE => fa_routed a = false ∧ fa_tos_blocked a = false
  | IDEMIP_IP4_FORWARD_R_NO_ROUTE_TOS => fa_routed a = false ∧ fa_tos_blocked a = true
  | IDEMIP_IP4_FORWARD_R_TTL => ip4_ttl h ≤ 1
  | IDEMIP_IP4_FORWARD_R_DF => fa_out_mtu a < ip4_total_len h ∧ ip4_df h = true
  end.
(** The error that answers a broken rule: its type and code. *)
Definition error_owed (a : Ip4ForwardArgs) (r : IdemIpIp4ForwardReason) : option (Z * Z) :=
  match r with
  | IDEMIP_IP4_FORWARD_R_STRICT => Some (12, 0)
  | IDEMIP_IP4_FORWARD_R_NO_ROUTE => Some (3, 0)
  | IDEMIP_IP4_FORWARD_R_NO_ROUTE_TOS => Some (3, if fa_direct a then 12 else 11)
  | IDEMIP_IP4_FORWARD_R_TTL => Some (11, 0)
  | IDEMIP_IP4_FORWARD_R_DF => Some (3, 4)
  | _ => None
  end.

Lemma bit0 p : Z.land p 1 = 0 ↔ Z.testbit p 0 = false.
Proof. change 1 with (Z.ones 1). rewrite Z.land_ones by lia. change (2 ^ 1) with 2. rewrite <- Z.bit0_mod. destruct (Z.testbit p 0); cbn; split; done. Qed.
Lemma bit1 p : Z.land p 2 = 0 ↔ Z.testbit p 1 = false.
Proof.
  split.
  - intros E. assert (Z.testbit (Z.land p 2) 1 = false) as Ht by (by rewrite E, Z.bits_0). by rewrite Z.land_spec, andb_true_r in Ht.
  - intros E. apply Z.bits_inj'. intros i Hi. rewrite Z.land_spec, Z.bits_0. destruct (decide (i = 1)) as [->|]; [by rewrite E|]. change 2 with (2 ^ 1). by rewrite Z.pow2_bits_false, andb_false_r by lia.
Qed.

Section Decision.
Context (io : Ip4ForwardIo) (a : Ip4ForwardArgs) (h : list Z) (Ho : octets h) (Ha : args_ok a) (Hn : 0 ≤ ip4_options_len h).

Local Abbreviation policy := (io_policy io).
Lemma rules_bool :
  ((fa_ll_broadcast a || fa_ll_multicast a) && negb (ip4_forward_is_multicast (ip4_dst h)) = true ↔ broken policy a h IDEMIP_IP4_FORWARD_R_LINK_BCAST) ∧
  (ip4_forward_is_link_local (ip4_src h) || ip4_forward_is_link_local (ip4_dst h) = true ↔ broken policy a h IDEMIP_IP4_FORWARD_R_LINK_LOCAL) ∧
  (ip4_forward_src_is_bcast a (ip4_src h) = true ↔ broken policy a h IDEMIP_IP4_FORWARD_R_SRC_BCAST) ∧
  (negb (Z.land policy 1 =? 0) && ip4_forward_src_invalid (ip4_src h) = true ↔ broken policy a h IDEMIP_IP4_FORWARD_R_SRC) ∧
  (negb (Z.land policy 1 =? 0) && ip4_forward_dst_invalid (ip4_dst h) = true ↔ broken policy a h IDEMIP_IP4_FORWARD_R_DST) ∧
  (ip4_forward_is_directed_bcast a (ip4_dst h) && (Z.land policy 2 =? 0) = true ↔ broken policy a h IDEMIP_IP4_FORWARD_R_DIRECTED) ∧
  (negb (Z.land (ip4_forward_source_route h) IP4_FORWARD_SR_STRICT =? 0) = true ↔ broken policy a h IDEMIP_IP4_FORWARD_R_STRICT) ∧
  ((fa_out_mtu a <? ip4_total_len h) && ip4_df h = true ↔ broken policy a h IDEMIP_IP4_FORWARD_R_DF).
Proof using Ho Ha Hn.
  pose proof (rd32_u32 h IDEMIP_IP4_OFF_DST Ho) as Hd. pose proof (rd32_u32 h IDEMIP_IP4_OFF_SRC Ho) as Hs. fold (ip4_dst h) in Hd. fold (ip4_src h) in Hs.
  destruct (fwd_class_iff _ Hd) as (Hg&_&Hld). destruct (fwd_class_iff _ Hs) as (_&_&Hls). unfold broken. split_and!.
  - rewrite <- Hg. destruct (fa_ll_broadcast a), (fa_ll_multicast a), (ip4_forward_is_multicast (ip4_dst h)); cbn; split; intros; destruct_and?; destruct_or?; (done || (split; [tauto|done]) || (exfalso; auto)).
  - by rewrite orb_true_iff, Hls, Hld.
  - by apply src_bcast_iff.
  - rewrite andb_true_iff, negb_true_iff, Z.eqb_neq, bit0, (bad_src_iff _ Hs). by rewrite not_false_iff_true.
  - rewrite andb_true_iff, negb_true_iff, Z.eqb_neq, bit0, (bad_dst_iff _ Hd). by rewrite not_false_iff_true.
  - unfold ip4_forward_is_directed_bcast. pose proof (dst_bcast_iff a h Ho Ha) as Hb. rewrite <- Hb, <- bit1. clear. rewrite <- (Z.eqb_eq (Z.land (io_policy io) 2)).
    destruct (fa_routed a), (fa_direct a), (ip4_forward_dst_is_bcast a (ip4_dst h)), (Z.land (io_policy io) 2 =? 0); cbn; split; intros; destruct_and?; (done || split_and!; done).
  - destruct (route_iff h Hn) as [Hr _]. rewrite negb_true_iff, Z.eqb_neq, Hr. split; [|by intros ? ?]. intros Hnn.
    destruct (route_bits (ip4_options h) (ip4_options_len h) (S (Z.to_nat (ip4_options_len h))) 0 0) as (_&_&R3); [lia|lia|lia|]. rewrite Z.bits_0 in R3.
    destruct (Z.testbit _ 1).
    + destruct (proj1 R3 eq_refl) as [E|E]; [discriminate|exact E].
    + exfalso. apply Hnn. intros H. discriminate (proj2 R3 (or_intror H)).
  - by rewrite andb_true_iff, Z.ltb_lt.
Qed.

(** A clean result block, as the entry has it before the rules. *)
Definition fresh : Prop := io_icmp io = false ∧ io_icmp_type io = 255 ∧ io_icmp_code io = 0 ∧ io_redirect io = false ∧ io_fragment io = false.
Definition redirected : Prop :=
  fa_out_netif a = fa_in_netif a ∧ fa_in_mask a ≠ 0 ∧ ¬ has_option h 131 ∧ ¬ has_option h 137 ∧ may_report a h ∧ on_link (ip4_src h) (fa_next_hop a) (fa_in_mask a).

Definition owed (r : Ip4ForwardIo) : Prop :=
  (io_icmp r, io_icmp_type r, io_icmp_code r) =
  match error_owed a (io_reason r) with Some (t, c) => if ip4_forward_icmp_allowed h a then (true, t, c) else (false, 255, 0) | None => (false, 255, 0) end.
Definition follows (r : Ip4ForwardIo) : Prop :=
  io_status r = IDEMIP_OK ∧ owed r ∧
  ((io_action r = IDEMIP_IP4_FORWARD_SEND ↔ ∀ k, ¬ broken policy a h k) ∧ (io_action r = IDEMIP_IP4_FORWARD_DISCARD → broken policy a h (io_reason r))) ∧
  (if decide (io_action r = IDEMIP_IP4_FORWARD_SEND)
   then io_ttl r = ip4_ttl h - 1 ∧ io_next_hop r = fa_next_hop a ∧ io_netif r = fa_out_netif a ∧ io_fragment r = (fa_out_mtu a <? ip4_total_len h) ∧ io_reason r = IDEMIP_IP4_FORWARD_R_OK ∧
        (io_redirect r = true ↔ redirected)
   else io_redirect r = false).

Lemma reason_sound r k : broken policy a h k → io_reason r = k → io_action r = IDEMIP_IP4_FORWARD_DISCARD →
  (io_action r = IDEMIP_IP4_FORWARD_SEND ↔ ∀ k, ¬ broken policy a h k) ∧ (io_action r = IDEMIP_IP4_FORWARD_DISCARD → broken policy a h (io_reason r)).
Proof using. intros Hk -> ->. split; [|done]. split; [done|]. intros H. exfalso. by apply (H k). Qed.

Definition same_flags (i : Ip4ForwardIo) : Prop :=
  io_icmp i = io_icmp io ∧ io_icmp_type i = io_icmp_type io ∧ io_icmp_code i = io_icmp_code io ∧ io_redirect i = io_redirect io.
Lemma follows_drop i k : fresh → same_flags i → error_owed a k = None → broken policy a h k → follows (ip4_forward_drop i k).
Proof using.
  intros (E1&E2&E3&E4&_) (F1&F2&F3&F4) Hk Hb. unfold follows. refine (conj _ (conj _ (conj _ _))); [done| |by apply (reason_sound _ k)|].
  - unfold owed. change (io_reason (ip4_forward_drop i k)) with k. rewrite Hk. unfold ip4_forward_drop. cbn. by rewrite F1, F2, F3, E1, E2, E3.
  - change (io_redirect i = false). by rewrite F4.
Qed.
Lemma follows_drop_icmp i k t c : fresh → same_flags i → error_owed a k = Some (t, c) → broken policy a h k → follows (ip4_forward_drop_icmp i k t c (ip4_forward_icmp_allowed h a)).
Proof using.
  intros (E1&E2&E3&E4&_) (F1&F2&F3&F4) Hk Hb. unfold follows, ip4_forward_drop_icmp, owed. destruct (ip4_forward_icmp_allowed h a).
  - refine (conj _ (conj _ (conj _ _))); [done|cbn; by rewrite Hk|by apply (reason_sound _ k)|]. change (io_redirect i = false). by rewrite F4.
  - refine (conj _ (conj _ (conj _ _))); [done| |by apply (reason_sound _ k)|].
    + change (io_reason (ip4_forward_drop i k)) with k. rewrite Hk. unfold ip4_forward_drop. cbn. by rewrite F1, F2, F3, E1, E2, E3.
    + change (io_redirect i = false). by rewrite F4.
Qed.
Lemma follows_ptr r v : follows r → follows (r <| io_icmp_ptr := v |>).
Proof using. done. Qed.
Lemma follows_mtu r v : follows r → follows (r <| io_mtu := v |>).
Proof using. done. Qed.

(** The forward itself: every rule kept. *)
Lemma follows_send i : fresh → is_u8 (ip4_ttl h) → same_flags i → io_fragment i = (fa_out_mtu a <? ip4_total_len h) → io_ttl i = ip4_ttl h - 1 → is_u32 (fa_next_hop a) → (∀ k, ¬ broken policy a h k) →
  follows ((if (fa_out_netif a =? fa_in_netif a) && negb (fa_in_mask a =? 0) && (ip4_forward_source_route h =? 0) && ip4_forward_icmp_allowed h a &&
               (Z.land (ip4_src h) (fa_in_mask a) =? Z.land (fa_next_hop a) (fa_in_mask a))
            then i <| io_redirect := true |> <| io_redirect_gw := fa_next_hop a |> else i)
    <| io_action := IDEMIP_IP4_FORWARD_SEND |> <| io_reason := IDEMIP_IP4_FORWARD_R_OK |> <| io_next_hop := fa_next_hop a |> <| io_netif := fa_out_netif a |> <| io_status := IDEMIP_OK |>).
Proof using Ho Ha Hn.
  intros (E1&E2&E3&E4&_) Hu8 (F1&F2&F3&F4) Hfr Httl Hnh Hno.
  assert ((fa_out_netif a =? fa_in_netif a) && negb (fa_in_mask a =? 0) && (ip4_forward_source_route h =? 0) && ip4_forward_icmp_allowed h a &&
               (Z.land (ip4_src h) (fa_in_mask a) =? Z.land (fa_next_hop a) (fa_in_mask a)) = true ↔ redirected) as Hr.
  { unfold redirected. rewrite !andb_true_iff, negb_true_iff, !Z.eqb_eq, Z.eqb_neq, (allowed_iff a h Ho Ha), (on_link_iff (ip4_src h) (fa_next_hop a) (fa_in_mask a) (rd32_u32 h _ Ho) Hnh), (proj2 (route_iff h Hn)). tauto. }
  destruct (_ && _); unfold follows, owed; cbn; (refine (conj _ (conj _ (conj (conj _ _) _))); [done|by rewrite F1, F2, F3, E1, E2, E3|done|done|]);
    (split_and!; [exact Httl|done|done|exact Hfr|done|..]).
  - split; [intros _; by apply Hr|done].
  - rewrite F4, E4. exact Hr.
Qed.

Lemma datagram_rules : fresh → is_u32 (fa_next_hop a) → follows (forward_datagram io a h).
Proof using Ho Ha Hn.
  intros Hf Hnh. destruct rules_bool as (B1&B2&B3&B4&B5&B6&B7&B8). assert (is_u8 (ip4_ttl h)) as Hu by (by apply tget_octet). unfold forward_datagram.
  change IDEMIP_IP4_FORWARD_P_MARTIAN with 1. change IDEMIP_IP4_FORWARD_P_DIRECTED with 2. change IP4_FORWARD_LIMITED_BCAST with 4294967295.
  destruct (_ && negb (ip4_forward_is_multicast (ip4_dst h))); [apply follows_drop; try done; by apply B1|].
  destruct (ip4_forward_is_link_local (ip4_src h) || _); [apply follows_drop; try done; by apply B2|].
  destruct (ip4_forward_src_is_bcast a (ip4_src h)); [apply follows_drop; try done; by apply B3|].
  destruct (_ && ip4_forward_src_invalid (ip4_src h)); [apply follows_drop; try done; by apply B4|].
  destruct (_ && ip4_forward_dst_invalid (ip4_dst h)); [apply follows_drop; try done; by apply B5|].
  destruct (Z.eqb_spec (ip4_dst h) 4294967295); [by apply follows_drop|].
  destruct (ip4_forward_is_directed_bcast a (ip4_dst h) && _); [apply follows_drop; try done; by apply B6|].
  destruct (negb (Z.land (ip4_forward_source_route h) IP4_FORWARD_SR_STRICT =? 0)); [apply follows_ptr, follows_drop_icmp; try done; by apply B7|].
  destruct (fa_routed a) eqn:Er; cbn [negb].
  2:{ destruct (fa_tos_blocked a) eqn:Et; apply follows_drop_icmp; try done; unfold broken, error_owed; by rewrite ?Er, ?Et. }
  destruct (Z.leb_spec (ip4_ttl h) 1); [by apply follows_drop_icmp|].
  destruct ((fa_out_mtu a <? ip4_total_len h) && ip4_df h); [apply follows_mtu, follows_drop_icmp; try done; by apply B8|].
  assert (u8 (ip4_ttl h - 1) = ip4_ttl h - 1) as Ht by (apply u8_id; unfold is_u8 in *; lia).
  apply follows_send; try done; try (destruct (fa_out_mtu a <? ip4_total_len h); (done || exact Ht || apply Hf)).
  intros k Hk. destruct k; try done.
    + by apply B1 in Hk.
    + by apply B4 in Hk.
    + by apply B5 in Hk.
    + by apply B6 in Hk.
    + by apply B7 in Hk.
    + destruct Hk as [Hk _]. congruence.
    + unfold broken in Hk. lia.
    + by apply B8 in Hk.
    + destruct Hk as [Hk _]. congruence.
    + by apply B2 in Hk.
    + by apply B3 in Hk.
Qed.
End Decision.

(** ** A decision *)
Definition asked (NETIF_COUNT : Z) (w : Work) (h : list Z) : Prop :=
  let a := fwd_args (w_io w) in
  c_ready (w_ctx w) = IP4_FORWARD_READY ∧ fa_hdr a = Some h ∧ octets h ∧ fa_len a ≤ Z.of_nat (length h) ∧ args_ok a ∧ is_u32 (fa_next_hop a) ∧
  fa_in_netif a < NETIF_COUNT ∧ (fa_routed a = true → fa_out_netif a < NETIF_COUNT ∧ 68 ≤ fa_out_mtu a).

(** The result block the rules start from. *)
Definition io_start (w : Work) : Ip4ForwardIo := (ip4_forward_reset ((w_io w) <| io_status := IDEMIP_ERR |>)) <| io_policy := c_policy (w_ctx w) |>.

Lemma start_reads w : fresh (io_start w) ∧ fwd_args (io_start w) = fwd_args (w_io w) ∧ io_policy (io_start w) = c_policy (w_ctx w).
Proof. done. Qed.

Lemma decide_case (P : Prop) `{Decision P} w (x y : Ip4ForwardIo) :
  w_io (if negb (bool_decide P) then put_io w x else put_io w y) = if decide P then y else x.
Proof. destruct (bool_decide_reflect P); [rewrite decide_True by done|rewrite decide_False by done]; done. Qed.
Lemma decide_eq word swap N w h : asked N w h →
  w_io (idemip_ip4_forward_decide word swap N w) =
  if decide (ip4_verify_all word swap h (fa_len (fwd_args (w_io w))) = IDEMIP_OK) then forward_datagram (io_start w) (fwd_args (w_io w)) h
  else ip4_forward_drop (io_start w) IDEMIP_IP4_FORWARD_R_HEADER.
Proof.
  intros (Hr&Hh&_&_&_&_&Hin&Hout). unfold idemip_ip4_forward_decide, ip4_forward_ready. rewrite Hr, Z.eqb_refl. cbn [negb]. fold (io_start w).
  pose proof (start_reads w) as (_&Ea&_). generalize dependent (io_start w). intros i Ea. rewrite Ea, Hh. rewrite (proj2 (Z.leb_gt _ _)) by done.
  destruct (fa_routed (fwd_args (w_io w))); cbn [andb].
  - destruct (Hout eq_refl). rewrite (proj2 (Z.leb_gt _ _)), (proj2 (Z.ltb_ge _ _)) by (done || unfold IDEMIP_IP4_MIN_FORWARD_MTU; lia). cbn [orb].
    by apply decide_case.
  - by apply decide_case.
Qed.

Lemma options_len_nonneg word swap h avail : octets h → ip4_verify_all word swap h avail = IDEMIP_OK → 0 ≤ ip4_options_len h.
Proof. intros. unfold ip4_options_len, u64. apply Z.mod_pos_bound. lia. Qed.

(** A datagram sent on from router to router, each with its own borrow: its Time to Live written and its
    checksum made good at each, as the entry's caller does. *)
Definition at_router (w : Work) (h : list Z) : Work :=
  let a := fwd_args (w_io w) in
  put_io w ((w_io w) <| fwd_args := mkArgs (Some h) (Z.of_nat (length h)) (fa_next_hop a) (fa_in_addr a) (fa_in_mask a) (fa_out_addr a) (fa_out_mask a) (fa_out_mtu a)
    (fa_in_netif a) (fa_out_netif a) (fa_routed a) (fa_direct a) (fa_tos_blocked a) (fa_ll_broadcast a) (fa_ll_multicast a) |>).
Fixpoint travels (word : option nat) (swap : bool) (N : Z) (routers : list Work) (h : list Z) : nat :=
  match routers with
  | [] => O
  | w :: routers =>
      let r := w_io (idemip_ip4_forward_decide word swap N (at_router w h)) in
      if decide (io_status r = IDEMIP_OK ∧ io_action r = IDEMIP_IP4_FORWARD_SEND) then S (travels word swap N routers (ip4_recksum word swap (ip4_set_ttl h (io_ttl r)))) else O
  end.

Lemma ttl_kept word swap h v : (20 ≤ length h)%nat → ip4_ttl (ip4_recksum word swap (ip4_set_ttl h v)) = v ∧ length (ip4_recksum word swap (ip4_set_ttl h v)) = length h.
Proof.
  intros Hl. do 20 (destruct h as [|? h]; [cbn [length] in Hl; lia|]). unfold ip4_recksum, ip4_set_cksum, ip4_set_ttl. set (ck := cksum_over _ _ _). clearbody ck. split; reflexivity.
Qed.

Lemma send_lowers word swap N w h : c_ready (w_ctx w) = IP4_FORWARD_READY →
  let r := w_io (idemip_ip4_forward_decide word swap N (at_router w h)) in
  io_status r = IDEMIP_OK → io_action r = IDEMIP_IP4_FORWARD_SEND → 1 < ip4_ttl h ∧ io_ttl r = u8 (ip4_ttl h - 1) ∧ ip4_verify_all word swap h (Z.of_nat (length h)) = IDEMIP_OK.
Proof.
  intros Hr r. subst r. unfold idemip_ip4_forward_decide, ip4_forward_ready. change (c_ready (w_ctx (at_router w h))) with (c_ready (w_ctx w)). rewrite Hr, Z.eqb_refl. cbn [negb].
  fold (io_start (at_router w h)). pose proof (start_reads (at_router w h)) as (_&Ea&_). assert (io_status (io_start (at_router w h)) = IDEMIP_ERR) as Es by done.
  set (a := fwd_args (w_io (at_router w h))) in *. assert (fa_hdr a = Some h ∧ fa_len a = Z.of_nat (length h)) as [Eh El] by done. clearbody a. generalize dependent (io_start (at_router w h)). intros i Ea Es.
  rewrite Ea, Eh, El. destruct (N <=? _); [intros Hs; change (io_status i = IDEMIP_OK) in Hs; congruence|]. destruct (_ && _); [intros Hs; change (io_status i = IDEMIP_OK) in Hs; congruence|].
  destruct (bool_decide_reflect (ip4_verify_all word swap h (Z.of_nat (length h)) = IDEMIP_OK)) as [Hv|]; cbn [negb]; [|done].
  intros _. cbn [w_io put_io]. unfold forward_datagram. destruct (_ && negb (ip4_forward_is_multicast (ip4_dst h))); [done|].
  destruct (ip4_forward_is_link_local (ip4_src h) || _); [done|]. destruct (ip4_forward_src_is_bcast a (ip4_src h)); [done|]. destruct (_ && ip4_forward_src_invalid (ip4_src h)); [done|].
  destruct (_ && ip4_forward_dst_invalid (ip4_dst h)); [done|]. destruct (ip4_dst h =? _); [done|]. destruct (ip4_forward_is_directed_bcast a (ip4_dst h) && _); [done|].
  unfold ip4_forward_drop_icmp. destruct (negb (_ =? 0)); [by destruct (ip4_forward_icmp_allowed h a)|]. destruct (negb (fa_routed a)); [by destruct (fa_tos_blocked a), (ip4_forward_icmp_allowed h a)|].
  destruct (Z.leb_spec (ip4_ttl h) 1); [by destruct (ip4_forward_icmp_allowed h a)|]. destruct ((fa_out_mtu a <? ip4_total_len h) && ip4_df h); [by destruct (ip4_forward_icmp_allowed h a)|].
  intros _. split_and!; [lia| |done]. by destruct (fa_out_mtu a <? ip4_total_len h), (_ && _).
Qed.

Lemma travels_bound word swap N routers h : Forall (λ w, c_ready (w_ctx w) = IP4_FORWARD_READY) routers → (20 ≤ length h)%nat → 0 ≤ ip4_ttl h < 256 →
  Z.of_nat (travels word swap N routers h) ≤ Z.max 0 (ip4_ttl h - 1).
Proof.
  intros Hr. revert h. induction Hr as [|w routers Hw Hr IH]; intros h Ho Ht; cbn [travels]; [lia|].
  destruct (decide _) as [[Es Ea]|]; [|lia]. destruct (send_lowers word swap N w h Hw Es Ea) as (H1&E&Hv).
  rewrite E, u8_id by (unfold is_u8; lia). destruct (ttl_kept word swap h (ip4_ttl h - 1) Ho) as [Ek El].
  specialize (IH (ip4_recksum word swap (ip4_set_ttl h (ip4_ttl h - 1)))). rewrite Ek, El in IH. lia.
Qed.

(** ** The claims *)
(** C35. Forwarding follows RFC 1812.  Asked to forward a datagram whose header verifies, the entry answers OK, and it
    says to send the datagram exactly when no rule is broken: it did not come in a link broadcast or multicast for
    an address that is not a group, neither address is link-local, its source is not a broadcast of the link it came
    from, neither address is a martian where the policy filters them, it is not for the limited broadcast nor, unless
    the policy allows it, for the directed broadcast of the link it goes to, it asks for no strict source route (found
    by walking the options), a route is known, its Time to Live is above 1, and it fits the next link or may be
    fragmented.  A discard names a rule that is broken, and says to send the error that answers it exactly when one
    may be sent at all.  A send carries the Time to Live less one, the next hop and interface of the route, whether
    the datagram is fragmented first, and whether a redirect is owed.  A header that does not verify is discarded
    with no error. *)
Theorem forward_follows_rfc1812 word swap N w h : asked N w h →
  let a := fwd_args (w_io w) in
  let w' := idemip_ip4_forward_decide word swap N w in
  if decide (ip4_verify_all word swap h (fa_len a) = IDEMIP_OK) then io_policy (io_start w) = c_policy (w_ctx w) ∧ follows (io_start w) a h (w_io w')
  else io_status (w_io w') = IDEMIP_OK ∧ io_action (w_io w') = IDEMIP_IP4_FORWARD_DISCARD ∧ io_reason (w_io w') = IDEMIP_IP4_FORWARD_R_HEADER ∧ io_icmp (w_io w') = false.
Proof.
  intros Hask a w'. subst w'. rewrite (decide_eq word swap N w h Hask). destruct Hask as (_&_&Ho&_&Ha&Hnh&_). destruct (start_reads w) as (Hf&Ea&Ep).
  destruct (decide _) as [Hv|Hv]; [|by destruct Hf as (E&_)]. pose proof (options_len_nonneg word swap h _ Ho Hv) as Hn. subst a.
  pose proof (datagram_rules (io_start w) (fwd_args (w_io w)) h Ho Ha Hn Hf Hnh) as H. by split.
Qed.

(** A datagram from 10.0.0.5 to 10.1.2.3, 40 octets with a Time to Live of 3, over a route to 10.9.0.1 on another
    interface. *)
Definition eg_hdr : list Z := ip4_recksum None false [0x45; 0; 0; 40; 0; 1; 0; 0; 3; 17; 0; 0; 10; 0; 0; 5; 10; 1; 2; 3].
Definition eg_dgram : list Z := eg_hdr ++ replicate 20 0.
Definition eg_args (d : list Z) : Ip4ForwardArgs := mkArgs (Some d) (Z.of_nat (length d)) 0x0A090001 0x0A000001 0xFFFFFF00 0x0A090002 0xFFFFFF00 1500 0 1 true false false false false.
Definition eg_work (d : list Z) : Work := mkWork (mkIo (eg_args d) (mkPolicyArgs 0 0) 0 0 0 IDEMIP_ERR IDEMIP_IP4_FORWARD_SEND IDEMIP_IP4_FORWARD_R_OK 0 0 0 0 0 0 true true true)
  (mkCtx IP4_FORWARD_READY 1).
Lemma eg_asked : asked 2 (eg_work eg_dgram) eg_dgram.
Proof.
  refine (conj eq_refl (conj eq_refl (conj _ (conj _ (conj _ (conj _ (conj _ _))))))).
  - vm_compute. repeat constructor; discriminate.
  - vm_compute. discriminate.
  - refine (conj _ (conj _ (conj _ _))); (split; vm_compute; (reflexivity || discriminate)).
  - split; vm_compute; (reflexivity || discriminate).
  - reflexivity.
  - intros _. split; vm_compute; (reflexivity || discriminate).
Qed.
Lemma forward_follows_rfc1812_witness :
  let w' := idemip_ip4_forward_decide None false 2 (eg_work eg_dgram) in
  io_status (w_io w') = IDEMIP_OK ∧ (∀ k, ¬ broken 1 (eg_args eg_dgram) eg_dgram k) ∧ io_ttl (w_io w') = 2 ∧ io_next_hop (w_io w') = 0x0A090001.
Proof.
  cbv zeta. pose proof (forward_follows_rfc1812 None false 2 (eg_work eg_dgram) eg_dgram) as H. cbv zeta in H.
  destruct (decide (ip4_verify_all None false eg_dgram (fa_len (fwd_args (w_io (eg_work eg_dgram)))) = IDEMIP_OK)) as [Hv|Hv]; [|exfalso; apply Hv; vm_compute; reflexivity].
  destruct H as (_&H1&_&[H2 _]&H3).
  - exact eg_asked.
  - assert (io_action (w_io (idemip_ip4_forward_decide None false 2 (eg_work eg_dgram))) = IDEMIP_IP4_FORWARD_SEND) as Es by (vm_compute; reflexivity).
    destruct (decide _) as [_|Hn]; [|by destruct Hn]. destruct H3 as (Ht&Hh&_). split_and!; [exact H1|exact (proj1 H2 Es)|rewrite Ht; vm_compute; reflexivity|rewrite Hh; reflexivity].
Defined.

(** C36. A datagram is not forwarded for ever.  Whatever routers it meets and whatever routes they have, each writing
    the Time to Live its decision gives and making the header checksum good, it is sent on at most as often as its
    first Time to Live less one. *)
Theorem forwarding_ends word swap N routers h : Forall (λ w, c_ready (w_ctx w) = IP4_FORWARD_READY) routers → octets h → (20 ≤ length h)%nat →
  Z.of_nat (travels word swap N routers h) ≤ Z.max 0 (ip4_ttl h - 1).
Proof. intros Hr Ho Hl. apply travels_bound; [done..|]. pose proof (tget_octet h IDEMIP_IP4_OFF_TTL Ho) as Hu. exact Hu. Qed.
Lemma forwarding_ends_witness : Z.of_nat (travels None false 2 (replicate 9 (eg_work [])) eg_dgram) ≤ 2 ∧ travels None false 2 (replicate 9 (eg_work [])) eg_dgram = 2%nat.
Proof.
  split; [|vm_compute; reflexivity]. assert (Z.max 0 (ip4_ttl eg_dgram - 1) = 2) as <- by (vm_compute; reflexivity). apply forwarding_ends.
  - repeat constructor.
  - vm_compute. repeat constructor; discriminate.
  - vm_compute. lia.
Defined.
End Ip4ForwardThms.
