(* ===== verification/Ip6Forward.v ===== *)
(** * IPv6 forwarding (src/ip/ip6_forward.c)

    The decision about one packet that is not for this node: send it on with its Hop Limit less one, or discard
    it, with the ICMPv6 error owed; and the rules of RFC 8200, RFC 4291, RFC 4443 and RFC 4861 it follows.  A
    packet is its octets from the header on. *)
From S2P Require Import Prelude Base Wire Ipv6 Icmpv6.

Module Ip6Forward.
Import Endian Wire Ipv6 Icmpv6.

Definition IP6_FORWARD_READY : Z := 0x46573600.
Definition IP6_FORWARD_MULTICAST_TAG : Z := 0xFF.
Definition IP6_FORWARD_SCOP_MASK : Z := 0x0F.
Definition IP6_FORWARD_SCOP_RESERVED : Z := 0.
Definition IP6_FORWARD_SCOP_INTERFACE : Z := 1.
Definition IP6_FORWARD_SCOP_LINK : Z := 2.
Definition IP6_FORWARD_LINK_LOCAL_HI : Z := 0xFE.
Definition IP6_FORWARD_LINK_LOCAL_MASK : Z := 0xC0.
Definition IP6_FORWARD_LINK_LOCAL_LO : Z := 0x80.
Definition IP6_FORWARD_LOOPBACK_LOW : Z := 1.
Definition IP6_FORWARD_TYPE_REDIRECT : Z := 137.
Definition IDEMIP_IP6_FORWARD_ICMP_NONE : Z := 0.
Definition IDEMIP_ICMP6_DU_NO_ROUTE : Z := 0.
Definition IDEMIP_ICMP6_TE_HOP_LIMIT : Z := 0.

Inductive IdemIpIp6ForwardAction := IDEMIP_IP6_FORWARD_DISCARD | IDEMIP_IP6_FORWARD_SEND.
Inductive IdemIpIp6ForwardReason :=
  | IDEMIP_IP6_FORWARD_R_OK | IDEMIP_IP6_FORWARD_R_HEADER | IDEMIP_IP6_FORWARD_R_SRC_UNSPEC | IDEMIP_IP6_FORWARD_R_SRC_MCAST | IDEMIP_IP6_FORWARD_R_SRC_LOOP
  | IDEMIP_IP6_FORWARD_R_DST_UNSPEC | IDEMIP_IP6_FORWARD_R_DST_LOOP | IDEMIP_IP6_FORWARD_R_LINK_LOCAL | IDEMIP_IP6_FORWARD_R_SCOPE
  | IDEMIP_IP6_FORWARD_R_NO_ROUTE | IDEMIP_IP6_FORWARD_R_HOP_LIMIT | IDEMIP_IP6_FORWARD_R_TOO_BIG.
#[export] Instance IdemIpIp6ForwardReason_eq_dec : EqDecision IdemIpIp6ForwardReason.
Proof. solve_decision. Defined.
#[export] Instance IdemIpIp6ForwardAction_eq_dec : EqDecision IdemIpIp6ForwardAction.
Proof. solve_decision. Defined.

Record Ip6ForwardArgs := mkArgs {
  fa_hdr : option (list Z); fa_len : Z; fa_next_hop : option (list Z); fa_out_mtu : Z; fa_in_netif : Z; fa_out_netif : Z;
  fa_routed : bool; fa_ll_multicast : bool; fa_ll_broadcast : bool; fa_src_neighbor : bool }.
Record Ip6ForwardIo := mkIo {
  fwd_args : Ip6ForwardArgs; io_next_hop : option (list Z); io_redirect_target : option (list Z); io_mtu : Z; io_status : IdemIpStatus;
  io_action : IdemIpIp6ForwardAction; io_reason : IdemIpIp6ForwardReason; io_hop_limit : Z; io_netif : Z; io_icmp_type : Z; io_icmp_code : Z;
  io_icmp : bool; io_redirect : bool }.
#[export] Instance Ip6ForwardIo_eta : Eta Ip6ForwardIo := fun r =>
  mkIo (fwd_args r) (io_next_hop r) (io_redirect_target r) (io_mtu r) (io_status r) (io_action r) (io_reason r) (io_hop_limit r) (io_netif r)
    (io_icmp_type r) (io_icmp_code r) (io_icmp r) (io_redirect r).
Record Ip6ForwardCtx := mkCtx { c_ready : Z }.
Record Work := mkWork { w_io : Ip6ForwardIo; w_ctx : Ip6ForwardCtx }.
#[export] Instance Work_eta : Eta Work := fun r => mkWork (w_io r) (w_ctx r).
Definition put_io (w : Work) (io : Ip6ForwardIo) : Work := w <| w_io := io |>.

Definition ip6_forward_ready (w : Work) : bool := c_ready (w_ctx w) =? IP6_FORWARD_READY.

(** ** The addresses *)
Definition zero_octets (a : list Z) (n : Z) : bool := forallb (λ b, b =? 0) (take (Z.to_nat n) a).
Definition ip6_forward_is_multicast (a : list Z) : bool := tget a 0 =? IP6_FORWARD_MULTICAST_TAG.
Definition ip6_forward_is_link_local (a : list Z) : bool :=
  (tget a 0 =? IP6_FORWARD_LINK_LOCAL_HI) && (u8 (Z.land (tget a 1) IP6_FORWARD_LINK_LOCAL_MASK) =? IP6_FORWARD_LINK_LOCAL_LO).
Definition ip6_forward_is_unspecified (a : list Z) : bool := zero_octets a IDEMIP_IP6_ADDR_LEN.
Definition ip6_forward_is_loopback (a : list Z) : bool :=
  zero_octets a (IDEMIP_IP6_ADDR_LEN - 1) && (tget a (IDEMIP_IP6_ADDR_LEN - 1) =? IP6_FORWARD_LOOPBACK_LOW).
Definition ip6_forward_scope (a : list Z) : Z := Z.land (tget a 1) IP6_FORWARD_SCOP_MASK.

Definition ip6_forward_header_ok (h : list Z) (len : Z) : bool :=
  if len <? IDEMIP_IPV6_HDR_LEN then false
  else if negb (ip6_version h =? IDEMIP_IP6_VERSION) then false
  else ip6_payload_len h + IDEMIP_IPV6_HDR_LEN <=? len.

(** ** When an ICMPv6 error may be sent *)
Definition ip6_forward_carries_icmp_error (h : list Z) (len : Z) : bool :=
  let c := ip6_chain h len in
  if negb (c_ok c) || negb (c_next_hdr c =? IDEMIP_IP6_NH_ICMPV6) then false
  else if c_fragmented c && negb (ip6_frag_offset_bytes (from h (c_frag_hdr c)) =? 0) then false
  else if len <? c_offset c + IDEMIP_ICMP6_OFF_TYPE + 1 then false
  else
  let type := tget h (c_offset c + IDEMIP_ICMP6_OFF_TYPE) in
  (type <? IDEMIP_ICMP6_INFORMATIONAL) || (type =? IP6_FORWARD_TYPE_REDIRECT).
Definition ip6_forward_icmp_allowed (h : list Z) (len : Z) (a : Ip6ForwardArgs) (too_big : bool) : bool :=
  let src := ip6_src h in
  let dst := ip6_dst h in
  if ip6_forward_is_unspecified src || ip6_forward_is_multicast src then false
  else if ip6_forward_carries_icmp_error h len then false
  else if negb too_big && (ip6_forward_is_multicast dst || fa_ll_multicast a || fa_ll_broadcast a) then false
  else true.

(** ** The results *)
Definition ip6_forward_reset (io : Ip6ForwardIo) : Ip6ForwardIo :=
  mkIo (fwd_args io) None None 0 (io_status io) IDEMIP_IP6_FORWARD_DISCARD IDEMIP_IP6_FORWARD_R_OK 0 0 IDEMIP_IP6_FORWARD_ICMP_NONE 0 false false.
Definition ip6_forward_drop (io : Ip6ForwardIo) (reason : IdemIpIp6ForwardReason) : Ip6ForwardIo :=
  io <| io_action := IDEMIP_IP6_FORWARD_DISCARD |> <| io_reason := reason |> <| io_status := IDEMIP_OK |>.
Definition ip6_forward_drop_icmp (io : Ip6ForwardIo) (reason : IdemIpIp6ForwardReason) (type code : Z) (allowed : bool) : Ip6ForwardIo :=
  let io := ip6_forward_drop io reason in
  if allowed then io <| io_icmp := true |> <| io_icmp_type := type |> <| io_icmp_code := code |> else io.
Definition ip6_forward_crosses_link (a : Ip6ForwardArgs) : bool := negb (fa_out_netif a =? fa_in_netif a).

Definition idemip_ip6_forward_clear (w : Work) : Work := mkWork ((w_io w) <| io_status := IDEMIP_OK |>) (mkCtx IP6_FORWARD_READY).

(** The rules past the header's own checks. *)
Definition forward_packet (io : Ip6ForwardIo) (a : Ip6ForwardArgs) (h : list Z) : Ip6ForwardIo :=
  let src := ip6_src h in
  let dst := ip6_dst h in
  let scop := ip6_forward_scope dst in
  if ip6_forward_is_unspecified src then ip6_forward_drop io IDEMIP_IP6_FORWARD_R_SRC_UNSPEC
  else if ip6_forward_is_multicast src then ip6_forward_drop io IDEMIP_IP6_FORWARD_R_SRC_MCAST
  else if ip6_forward_is_loopback src then ip6_forward_drop io IDEMIP_IP6_FORWARD_R_SRC_LOOP
  else if ip6_forward_is_unspecified dst then ip6_forward_drop io IDEMIP_IP6_FORWARD_R_DST_UNSPEC
  else if ip6_forward_is_loopback dst then ip6_forward_drop io IDEMIP_IP6_FORWARD_R_DST_LOOP
  else if ip6_forward_is_multicast dst &&
          ((scop =? IP6_FORWARD_SCOP_RESERVED) || (scop =? IP6_FORWARD_SCOP_INTERFACE) || ((scop =? IP6_FORWARD_SCOP_LINK) && ip6_forward_crosses_link a))
  then ip6_forward_drop io IDEMIP_IP6_FORWARD_R_SCOPE
  else if (ip6_forward_is_link_local src || ip6_forward_is_link_local dst) && ip6_forward_crosses_link a then ip6_forward_drop io IDEMIP_IP6_FORWARD_R_LINK_LOCAL
  else
  let icmp_ok := ip6_forward_icmp_allowed h (fa_len a) a false in
  if negb (fa_routed a) then ip6_forward_drop_icmp io IDEMIP_IP6_FORWARD_R_NO_ROUTE IDEMIP_ICMP6_DEST_UNREACHABLE IDEMIP_ICMP6_DU_NO_ROUTE icmp_ok
  else
  let hop := ip6_hop_limit h in
  if hop <=? 1 then ip6_forward_drop_icmp io IDEMIP_IP6_FORWARD_R_HOP_LIMIT IDEMIP_ICMP6_TIME_EXCEEDED IDEMIP_ICMP6_TE_HOP_LIMIT icmp_ok
  else
  let io := io <| io_hop_limit := u8 (hop - 1) |> in
  if fa_out_mtu a <? ip6_payload_len h + IDEMIP_IPV6_HDR_LEN then
    (ip6_forward_drop_icmp io IDEMIP_IP6_FORWARD_R_TOO_BIG IDEMIP_ICMP6_PACKET_TOO_BIG IDEMIP_ICMP6_CODE_PTB (ip6_forward_icmp_allowed h (fa_len a) a true))
      <| io_mtu := fa_out_mtu a |>
  else
  let next_hop := default [] (fa_next_hop a) in
  let io := if fa_src_neighbor a && negb (ip6_forward_crosses_link a) && negb (ip6_forward_is_multicast dst) &&
               (bool_decide (take (Z.to_nat IDEMIP_IP6_ADDR_LEN) next_hop = take (Z.to_nat IDEMIP_IP6_ADDR_LEN) dst) || ip6_forward_is_link_local next_hop)
            then io <| io_redirect := true |> <| io_redirect_target := fa_next_hop a |> else io in
  io <| io_action := IDEMIP_IP6_FORWARD_SEND |> <| io_reason := IDEMIP_IP6_FORWARD_R_OK |> <| io_next_hop := fa_next_hop a |> <| io_netif := fa_out_netif a |>
     <| io_status := IDEMIP_OK |>.

Section Build.
(** How many interfaces the build has. *)
Variable NETIF_COUNT : Z.

Definition idemip_ip6_forward_decide (w : Work) : Work :=
  let io := ip6_forward_reset ((w_io w) <| io_status := IDEMIP_ERR |>) in
  if negb (ip6_forward_ready w) then put_io w io
  else
  let a := fwd_args io in
  match fa_hdr a with
  | None => put_io w io
  | Some h =>
      if NETIF_COUNT <=? fa_in_netif a then put_io w io
      else if fa_routed a && ((NETIF_COUNT <=? fa_out_netif a) || bool_decide (fa_next_hop a = None) || (fa_out_mtu a <? IDEMIP_IPV6_MIN_MTU)) then put_io w io
      else if negb (ip6_forward_header_ok h (fa_len a)) then put_io w (ip6_forward_drop io IDEMIP_IP6_FORWARD_R_HEADER)
      else put_io w (forward_packet io a h)
  end.
End Build.
End Ip6Forward.

(** * The rules

    The decision against the rules the documents state, over the octets of the addresses and the chain of
    headers. *)
Module Ip6ForwardThms.
Import Endian Checksum Look Wire Ipv6 Ipv6Thms Icmpv6 Ip6Forward.

Definition unspecified (a : list Z) : Prop := a = replicate 16 0.
Definition loopback (a : list Z) : Prop := a = replicate 15 0 ++ [1].
Definition group (a : list Z) : Prop := tget a 0 = 255.
Definition link_local (a : list Z) : Prop := tget a 0 = 254 ∧ 128 ≤ tget a 1 < 192.
Definition crosses (a : Ip6ForwardArgs) : Prop := fa_out_netif a ≠ fa_in_netif a.

Definition broken (a : Ip6ForwardArgs) (h : list Z) (r : IdemIpIp6ForwardReason) : Prop :=
  match r with
  | IDEMIP_IP6_FORWARD_R_OK | IDEMIP_IP6_FORWARD_R_HEADER => False
  | IDEMIP_IP6_FORWARD_R_SRC_UNSPEC => unspecified (ip6_src h)
  | IDEMIP_IP6_FORWARD_R_SRC_MCAST => group (ip6_src h)
  | IDEMIP_IP6_FORWARD_R_SRC_LOOP => loopback (ip6_src h)
  | IDEMIP_IP6_FORWARD_R_DST_UNSPEC => unspecified (ip6_dst h)
  | IDEMIP_IP6_FORWARD_R_DST_LOOP => loopback (ip6_dst h)
  | IDEMIP_IP6_FORWARD_R_SCOPE => group (ip6_dst h) ∧ (tget (ip6_dst h) 1 mod 16 ≤ 1 ∨ tget (ip6_dst h) 1 mod 16 = 2 ∧ crosses a)
  | IDEMIP_IP6_FORWARD_R_LINK_LOCAL => (link_local (ip6_src h) ∨ link_local (ip6_dst h)) ∧ crosses a
  | IDEMIP_IP6_FORWARD_R_NO_ROUTE => fa_routed a = false
  | IDEMIP_IP6_FORWARD_R_HOP_LIMIT => ip6_hop_limit h ≤ 1
  | IDEMIP_IP6_FORWARD_R_TOO_BIG => fa_out_mtu a < ip6_payload_len h + 40
  end.
Definition error_owed (r : IdemIpIp6ForwardReason) : option (Z * Z) :=
  match r with
  | IDEMIP_IP6_FORWARD_R_NO_ROUTE => Some (1, 0)
  | IDEMIP_IP6_FORWARD_R_HOP_LIMIT => Some (3, 0)
  | IDEMIP_IP6_FORWARD_R_TOO_BIG => Some (2, 0)
  | _ => None
  end.
(** Section 2.4 (e) of RFC 4443: the packet carries an ICMPv6 error or a Redirect; what may be answered. *)
Definition carries_error (h : list Z) (n : Z) : Prop :=
  ∃ hs off bad, chain_of h n hs 58 off bad ∧ off + 1 ≤ n ∧ (tget h off < 128 ∨ tget h off = 137).
Definition may_report (a : Ip6ForwardArgs) (h : list Z) (r : IdemIpIp6ForwardReason) : Prop :=
  ¬ unspecified (ip6_src h) ∧ ¬ group (ip6_src h) ∧ ¬ carries_error h (fa_len a) ∧
  (r = IDEMIP_IP6_FORWARD_R_TOO_BIG ∨ ¬ group (ip6_dst h) ∧ fa_ll_multicast a = false ∧ fa_ll_broadcast a = false).

Lemma report_other a h k : k ≠ IDEMIP_IP6_FORWARD_R_TOO_BIG → may_report a h k ↔ may_report a h IDEMIP_IP6_FORWARD_R_OK.
Proof. intros Hk. unfold may_report. split; intros (?&?&?&[?|?]); try done; split_and!; try done; by right. Qed.

Lemma zero_octets_eq (a : list Z) n : 0 ≤ n ≤ Z.of_nat (length a) → zero_octets a n = true ↔ take (Z.to_nat n) a = replicate (Z.to_nat n) 0.
Proof. intros Hn. unfold zero_octets. rewrite zeros_iff, length_take. by replace (Z.to_nat n `min` length a)%nat with (Z.to_nat n) by lia. Qed.
Lemma addr_len (h : list Z) off : 0 ≤ off → off + 16 ≤ Z.of_nat (length h) → length (take (Z.to_nat 16) (drop (Z.to_nat off) h)) = 16%nat.
Proof. intros. rewrite length_take, length_drop. lia. Qed.
Lemma unspecified_iff (a : list Z) : length a = 16%nat → ip6_forward_is_unspecified a = true ↔ unspecified a.
Proof. intros Ha. unfold ip6_forward_is_unspecified, IDEMIP_IP6_ADDR_LEN, unspecified. rewrite zero_octets_eq by lia. change (Z.to_nat 16) with 16%nat. by rewrite take_ge by lia. Qed.
Lemma loopback_iff (a : list Z) : length a = 16%nat → ip6_forward_is_loopback a = true ↔ loopback a.
Proof.
  intros Ha. unfold ip6_forward_is_loopback, IDEMIP_IP6_ADDR_LEN, IP6_FORWARD_LOOPBACK_LOW, loopback. rewrite andb_true_iff, zero_octets_eq, Z.eqb_eq by lia.
  change (Z.to_nat (16 - 1)) with 15%nat. pose proof (split_last a 15 Ha) as E. change (Z.of_nat 15) with (16 - 1) in E.
  split; [intros [H1 H2]; by rewrite E, H1, H2|]. intros ->. done.
Qed.

Lemma group_iff a : ip6_forward_is_multicast a = true ↔ group a.
Proof. apply Z.eqb_eq. Qed.
Lemma octet_mask t : is_u8 t → (u8 (Z.land t 192) =? 128) = (128 <=? t) && (t <? 192).
Proof.
  intros Ht. assert (∀ n : nat, (n < 256)%nat → (u8 (Z.land (Z.of_nat n) 192) =? 128) = (128 <=? Z.of_nat n) && (Z.of_nat n <? 192)) as H.
  { assert (forallb (λ n, Bool.eqb (u8 (Z.land (Z.of_nat n) 192) =? 128) ((128 <=? Z.of_nat n) && (Z.of_nat n <? 192))) (seq 0 256) = true) as Hf by (vm_compute; reflexivity).
    intros n Hn. rewrite forallb_forall in Hf. apply eqb_prop, (Hf n). apply in_seq. lia. }
  unfold is_u8 in Ht. specialize (H (Z.to_nat t) ltac:(lia)). by rewrite Z2Nat.id in H by lia.
Qed.
Lemma link_local_iff a : octets a → ip6_forward_is_link_local a = true ↔ link_local a.
Proof.
  intros Ho. unfold ip6_forward_is_link_local, link_local, IP6_FORWARD_LINK_LOCAL_HI, IP6_FORWARD_LINK_LOCAL_MASK, IP6_FORWARD_LINK_LOCAL_LO.
  rewrite octet_mask by (apply get_octet, Ho). rewrite !andb_true_iff, Z.eqb_eq, Z.leb_le, Z.ltb_lt. done.
Qed.
Lemma crosses_iff a : ip6_forward_crosses_link a = true ↔ crosses a.
Proof. unfold ip6_forward_crosses_link, crosses. by rewrite negb_true_iff, Z.eqb_neq. Qed.

Lemma carries6_iff h n : octets h → 40 ≤ n < 524288 → ip6_forward_carries_icmp_error h n = true ↔ carries_error h n.
Proof.
  intros Ho Hn. unfold ip6_forward_carries_icmp_error, carries_error, IDEMIP_IP6_NH_ICMPV6, IDEMIP_ICMP6_OFF_TYPE, IDEMIP_ICMP6_INFORMATIONAL, IP6_FORWARD_TYPE_REDIRECT.
  destruct (chain_spec h n Ho Hn) as (_&_&Hok&Hch).
  pose proof (λ hs up e bad, chain_first_fragment h n hs up e bad Ho Hn) as Hff. cbv zeta in Hff. set (c := ip6_chain h n) in *. clearbody c.
  destruct (c_ok c); cbn [negb orb].
  2:{ split; [done|]. intros (hs&off&bad&Hc&_). assert (false = true); [|done]. apply Hok. eauto. }
  destruct Hok as [Hok _]. destruct (Hok eq_refl) as (hs&up&e&bad&Hc). destruct (Hch _ _ _ _ Hc) as ((E1&E2&_)&He&_). specialize (Hff _ _ _ _ Hc).
  destruct (Z.eqb_spec (c_next_hdr c) 58) as [E|E]; cbn [negb].
  2:{ split; [done|]. intros (hs'&off&bad'&Hc'&_). destruct (Hch _ _ _ _ Hc') as ((E1'&_)&_). congruence. }
  assert (up = 58) as -> by congruence. rewrite Hff by done.
  rewrite Z.add_0_r, E2. assert (∀ hs' off bad', chain_of h n hs' 58 off bad' → off = e) as Hu by (intros hs' off bad' Hc'; destruct (Hch _ _ _ _ Hc') as ((_&E2'&_)&_); congruence).
  destruct (Z.ltb_spec n (e + 1)).
  - split; [done|]. intros (hs'&off&bad'&Hc'&Hl&_). apply Hu in Hc'. lia.
  - rewrite orb_true_iff, Z.ltb_lt, Z.eqb_eq. split.
    + intros Ht. exists hs, e, bad. split_and!; [done|lia|lia].
    + intros (hs'&off&bad'&Hc'&_&Ht). apply Hu in Hc'. subst. lia.
Qed.

(** ** The decision *)
Section Decision.
Context (io : Ip6ForwardIo) (a : Ip6ForwardArgs) (h : list Z) (Ho : octets h) (Hl : 40 ≤ Z.of_nat (length h)) (Hn : 40 ≤ fa_len a < 524288).

Lemma addrs : octets (ip6_src h) ∧ octets (ip6_dst h) ∧ length (ip6_src h) = 16%nat ∧ length (ip6_dst h) = 16%nat.
Proof using Ho Hl. split_and!; [by apply Forall_take, Forall_drop| by apply Forall_take, Forall_drop|apply (addr_len h 8); lia|apply (addr_len h 24); lia]. Qed.

Lemma allowed6_iff too_big : ip6_forward_icmp_allowed h (fa_len a) a too_big = true ↔
  may_report a h (if too_big then IDEMIP_IP6_FORWARD_R_TOO_BIG else IDEMIP_IP6_FORWARD_R_OK).
Proof using Ho Hl Hn.
  destruct addrs as (_&_&H16&_). pose proof (unspecified_iff _ H16) as H1. pose proof (group_iff (ip6_src h)) as H2. pose proof (group_iff (ip6_dst h)) as H3. pose proof (carries6_iff h (fa_len a) Ho Hn) as H4.
  unfold ip6_forward_icmp_allowed, may_report. rewrite <- H1, <- H2, <- H3, <- H4. clear.
  generalize (ip6_forward_is_unspecified (ip6_src h)) (ip6_forward_is_multicast (ip6_src h)) (ip6_forward_is_multicast (ip6_dst h)) (ip6_forward_carries_icmp_error h (fa_len a)) (fa_ll_multicast a) (fa_ll_broadcast a).
  intros [] [] [] [] [] []; destruct too_big; cbn; split; intros; destruct_and?; try done; try (split_and!; try done; by (left + right)); destruct_or?; destruct_and?; done.
Qed.

Lemma rules6_bool :
  (ip6_forward_is_multicast (ip6_dst h) && ((ip6_forward_scope (ip6_dst h) =? 0) || (ip6_forward_scope (ip6_dst h) =? 1) ||
     ((ip6_forward_scope (ip6_dst h) =? 2) && ip6_forward_crosses_link a)) = true ↔ broken a h IDEMIP_IP6_FORWARD_R_SCOPE) ∧
  ((ip6_forward_is_link_local (ip6_src h) || ip6_forward_is_link_local (ip6_dst h)) && ip6_forward_crosses_link a = true ↔ broken a h IDEMIP_IP6_FORWARD_R_LINK_LOCAL).
Proof using Ho Hl Hn.
  destruct addrs as (Hs&Hd&_). unfold broken. split.
  - unfold ip6_forward_scope, IP6_FORWARD_SCOP_MASK. change 0x0F with (Z.ones 4). rewrite Z.land_ones by lia. change (2 ^ 4) with 16. pose proof (Z.mod_pos_bound (tget (ip6_dst h) 1) 16 ltac:(lia)).
    assert (∀ x, 0 ≤ x → (x ≤ 1 ↔ x = 0 ∨ x = 1)) as Hx by lia. rewrite Hx by lia.
    rewrite andb_true_iff, !orb_true_iff, andb_true_iff, !Z.eqb_eq, crosses_iff, group_iff. tauto.
  - by rewrite andb_true_iff, orb_true_iff, crosses_iff, !link_local_iff.
Qed.

(** The result block before the rules: nothing owed. *)
Definition fresh6 : Prop := io_icmp io = false ∧ io_icmp_type io = 0 ∧ io_icmp_code io = 0 ∧ io_redirect io = false ∧ io_mtu io = 0.
Definition owed (r : Ip6ForwardIo) (err : bool) : Prop :=
  (io_icmp r, io_icmp_type r, io_icmp_code r) = match error_owed (io_reason r) with Some (t, c) => if err then (true, t, c) else (false, 0, 0) | None => (false, 0, 0) end ∧
  io_mtu r = match io_reason r with IDEMIP_IP6_FORWARD_R_TOO_BIG => fa_out_mtu a | _ => 0 end.
Definition redirected : Prop :=
  fa_src_neighbor a = true ∧ ¬ crosses a ∧ ¬ group (ip6_dst h) ∧
  (take 16 (default [] (fa_next_hop a)) = ip6_dst h ∨ link_local (default [] (fa_next_hop a))).
Definition follows (r : Ip6ForwardIo) : Prop :=
  io_status r = IDEMIP_OK ∧ (∃ err, (err = true ↔ may_report a h (io_reason r)) ∧ owed r err) ∧
  (io_action r = IDEMIP_IP6_FORWARD_SEND ↔ ∀ k, ¬ broken a h k) ∧ (io_action r = IDEMIP_IP6_FORWARD_DISCARD → broken a h (io_reason r) ∧ io_redirect r = false) ∧
  (io_action r = IDEMIP_IP6_FORWARD_SEND → io_hop_limit r = ip6_hop_limit h - 1 ∧ io_next_hop r = fa_next_hop a ∧ io_netif r = fa_out_netif a ∧
     io_reason r = IDEMIP_IP6_FORWARD_R_OK ∧ (io_redirect r = true ↔ redirected) ∧ (io_redirect r = true → io_redirect_target r = fa_next_hop a)).

Lemma discard_follows r k (err : bool) : io_status r = IDEMIP_OK → io_action r = IDEMIP_IP6_FORWARD_DISCARD → io_reason r = k → broken a h k → io_redirect r = false →
  (err = true ↔ may_report a h k) → owed r err → follows r.
Proof using.
  intros Hs Ha Hr Hb Hd He Hw. unfold follows. rewrite Ha, Hr. split_and!; try done; [by exists err|]. split; [done|]. intros H. by destruct (H k).
Qed.
Lemma drop_follows k : fresh6 → error_owed k = None → broken a h k → follows (ip6_forward_drop io k).
Proof using Ho Hl Hn.
  intros (E1&E2&E3&E4&E5) Hk Hb. assert (∃ e : bool, e = true ↔ may_report a h k) as [e He].
  { exists (ip6_forward_icmp_allowed h (fa_len a) a false). rewrite allowed6_iff. symmetry. apply report_other. intros ->. done. }
  apply (discard_follows _ k e); try done. unfold owed. cbn. rewrite Hk, E1, E2, E3, E5. by destruct k.
Qed.

Lemma drop_icmp_follows i k t c too_big : fresh6 → (io_icmp i, io_icmp_type i, io_icmp_code i, io_redirect i, io_mtu i) = (io_icmp io, io_icmp_type io, io_icmp_code io, io_redirect io, io_mtu io) →
  error_owed k = Some (t, c) → too_big = bool_decide (k = IDEMIP_IP6_FORWARD_R_TOO_BIG) → broken a h k →
  let r := ip6_forward_drop_icmp i k t c (ip6_forward_icmp_allowed h (fa_len a) a too_big) in follows (if too_big then r <| io_mtu := fa_out_mtu a |> else r).
Proof using Ho Hl Hn.
  intros (E1&E2&E3&E4&E5) [= F1 F2 F3 F4 F5] Hk Hb Hbr r. assert (ip6_forward_icmp_allowed h (fa_len a) a too_big = true ↔ may_report a h k) as He.
  { rewrite allowed6_iff, Hb. case_bool_decide as Ek; [by rewrite Ek|symmetry; by apply report_other]. }
  subst r. unfold ip6_forward_drop_icmp, ip6_forward_drop. generalize dependent (ip6_forward_icmp_allowed h (fa_len a) a too_big). intros e He.
  apply (discard_follows _ k e); try done; try (by destruct too_big, e); try (destruct too_big, e; cbn; congruence).
  unfold owed. destruct k; try done; vm_compute in Hb; subst too_big; destruct e; vm_compute in Hk; injection Hk as <- <-; cbn; rewrite ?F1, ?F2, ?F3, ?F5, ?E1, ?E2, ?E3, ?E5; done.
Qed.

Lemma redirected_iff : fa_next_hop a = None ∨ (∃ nh, fa_next_hop a = Some nh ∧ octets nh) →
  fa_src_neighbor a && negb (ip6_forward_crosses_link a) && negb (ip6_forward_is_multicast (ip6_dst h)) &&
    (bool_decide (take (Z.to_nat IDEMIP_IP6_ADDR_LEN) (default [] (fa_next_hop a)) = take (Z.to_nat IDEMIP_IP6_ADDR_LEN) (ip6_dst h)) || ip6_forward_is_link_local (default [] (fa_next_hop a))) = true ↔ redirected.
Proof using Ho Hl Hn.
  intros Hnh. destruct addrs as (_&_&_&Hd). assert (octets (default [] (fa_next_hop a))) as Hno by (destruct Hnh as [->|(nh&->&?)]; [by constructor|done]).
  unfold redirected. change (Z.to_nat IDEMIP_IP6_ADDR_LEN) with 16%nat. rewrite (take_ge (ip6_dst h)) by lia.
  rewrite !andb_true_iff, orb_true_iff, bool_decide_eq_true, (link_local_iff _ Hno), <- crosses_iff, <- group_iff, !negb_true_iff, !not_true_iff_false. tauto.
Qed.

Lemma send6_follows i : fresh6 → (io_icmp i, io_icmp_type i, io_icmp_code i, io_redirect i, io_mtu i) = (io_icmp io, io_icmp_type io, io_icmp_code io, io_redirect io, io_mtu io) →
  io_hop_limit i = ip6_hop_limit h - 1 → (fa_next_hop a = None ∨ ∃ nh, fa_next_hop a = Some nh ∧ octets nh) → (∀ k, ¬ broken a h k) →
  follows ((if fa_src_neighbor a && negb (ip6_forward_crosses_link a) && negb (ip6_forward_is_multicast (ip6_dst h)) &&
               (bool_decide (take (Z.to_nat IDEMIP_IP6_ADDR_LEN) (default [] (fa_next_hop a)) = take (Z.to_nat IDEMIP_IP6_ADDR_LEN) (ip6_dst h)) || ip6_forward_is_link_local (default [] (fa_next_hop a)))
            then i <| io_redirect := true |> <| io_redirect_target := fa_next_hop a |> else i)
    <| io_action := IDEMIP_IP6_FORWARD_SEND |> <| io_reason := IDEMIP_IP6_FORWARD_R_OK |> <| io_next_hop := fa_next_hop a |> <| io_netif := fa_out_netif a |> <| io_status := IDEMIP_OK |>).
Proof using Ho Hl Hn.
  intros (E1&E2&E3&E4&E5) [= F1 F2 F3 F4 F5] Hhop Hnh Hno. pose proof (redirected_iff Hnh) as Hr. pose proof (allowed6_iff false) as He. destruct (_ && _); unfold follows, owed; cbn; (refine (conj eq_refl (conj _ (conj _ (conj _ _)))); [|by split|done|intros _; split_and!; try done]).
  - exists (ip6_forward_icmp_allowed h (fa_len a) a false). refine (conj He (conj _ _)); congruence.
  - exists (ip6_forward_icmp_allowed h (fa_len a) a false). refine (conj He (conj _ _)); congruence.
  - split; intros H; [congruence|]. apply Hr in H. congruence.
  - intros H. congruence.
Qed.

Lemma packet_rules : fresh6 → (fa_next_hop a = None ∨ ∃ nh, fa_next_hop a = Some nh ∧ octets nh) → follows (forward_packet io a h).
Proof using Ho Hl Hn.
  intros Hf Hnh. destruct addrs as (Hs&Hd&Hsl&Hdl). destruct rules6_bool as (B1&B2). pose proof (unspecified_iff _ Hsl) as U1. pose proof (unspecified_iff _ Hdl) as U2.
  pose proof (loopback_iff _ Hsl) as L1. pose proof (loopback_iff _ Hdl) as L2. pose proof (group_iff (ip6_src h)) as G1. unfold forward_packet.
  destruct (ip6_forward_is_unspecified (ip6_src h)); [apply drop_follows; try done; by apply U1|]. destruct (ip6_forward_is_multicast (ip6_src h)); [apply drop_follows; try done; by apply G1|].
  destruct (ip6_forward_is_loopback (ip6_src h)); [apply drop_follows; try done; by apply L1|]. destruct (ip6_forward_is_unspecified (ip6_dst h)); [apply drop_follows; try done; by apply U2|].
  destruct (ip6_forward_is_loopback (ip6_dst h)); [apply drop_follows; try done; by apply L2|].
  change IP6_FORWARD_SCOP_RESERVED with 0. change IP6_FORWARD_SCOP_INTERFACE with 1. change IP6_FORWARD_SCOP_LINK with 2.
  destruct (ip6_forward_is_multicast (ip6_dst h) && (_ || _)); [apply drop_follows; try done; by apply B1|].
  destruct ((ip6_forward_is_link_local (ip6_src h) || _) && _); [apply drop_follows; try done; by apply B2|].
  destruct (fa_routed a) eqn:Er; cbn [negb]; [|by apply (drop_icmp_follows io IDEMIP_IP6_FORWARD_R_NO_ROUTE 1 0 false)].
  destruct (Z.leb_spec (ip6_hop_limit h) 1) as [Hh|Hh]; [by apply (drop_icmp_follows io IDEMIP_IP6_FORWARD_R_HOP_LIMIT 3 0 false)|].
  assert (is_u8 (ip6_hop_limit h)) as Hu by (by apply get_octet). change IDEMIP_IPV6_HDR_LEN with 40.
  destruct (Z.ltb_spec (fa_out_mtu a) (ip6_payload_len h + 40)) as [Hm|Hm]; [by apply (drop_icmp_follows (io <| io_hop_limit := u8 (ip6_hop_limit h - 1) |>) IDEMIP_IP6_FORWARD_R_TOO_BIG 2 0 true)|].
  apply send6_follows; try done.
  - apply u8_id. unfold is_u8 in *. lia.
  - intros k Hk. destruct k; try done; try (unfold broken in Hk; lia).
    + by apply U1 in Hk.
    + by apply G1 in Hk.
    + by apply L1 in Hk.
    + by apply U2 in Hk.
    + by apply L2 in Hk.
    + by apply B2 in Hk.
    + apply B1 in Hk. congruence.
    + unfold broken in Hk. congruence.
Qed.
End Decision.

(** A decision asked for as the caller may: a cleared borrow, a packet of as many octets as it says, interfaces
    the build has and a next hop where there is a route. *)
Definition asked (NETIF_COUNT : Z) (w : Work) (h : list Z) : Prop :=
  let a := fwd_args (w_io w) in
  c_ready (w_ctx w) = IP6_FORWARD_READY ∧ fa_hdr a = Some h ∧ octets h ∧ 0 ≤ fa_len a < 524288 ∧ fa_len a ≤ Z.of_nat (length h) ∧
  fa_in_netif a < NETIF_COUNT ∧ (fa_next_hop a = None ∨ ∃ nh, fa_next_hop a = Some nh ∧ octets nh) ∧
  (fa_routed a = true → fa_out_netif a < NETIF_COUNT ∧ fa_next_hop a ≠ None ∧ 1280 ≤ fa_out_mtu a).


(** A UDP datagram of eight octets with a Hop Limit of 2, from 2001:db8::1 to 2001:db8:1::2 by way of fe80::9; and
    the one with a Hop Limit of 1. *)
Definition eg_packet (hop : Z) : list Z :=
  [0x60; 0; 0; 0; 0; 8; 17; hop] ++ [0x20; 1; 0x0D; 0xB8] ++ replicate 11 0 ++ [1] ++ [0x20; 1; 0x0D; 0xB8; 0; 1] ++ replicate 9 0 ++ [2] ++ replicate 8 7.
Definition eg_work (h : list Z) : Work :=
  mkWork (mkIo (mkArgs (Some h) 48 (Some ([0xFE; 0x80] ++ replicate 13 0 ++ [9])) 1280 0 1 true false false false) None None 0 IDEMIP_ERR IDEMIP_IP6_FORWARD_SEND
    IDEMIP_IP6_FORWARD_R_OK 0 0 0 0 false false) (mkCtx IP6_FORWARD_READY).
Lemma eg6_asked hop : is_u8 hop → asked 2 (eg_work (eg_packet hop)) (eg_packet hop).
Proof.
  intros Hh. unfold is_u8 in Hh. split; [reflexivity|]. split; [reflexivity|]. split.
  { unfold octets, eg_packet. cbn. repeat (constructor; [unfold is_u8; lia|]). constructor. }
  split; [split; [discriminate|reflexivity]|]. split; [discriminate|]. split; [reflexivity|]. split.
  - right. eexists. split; [reflexivity|]. apply (bool_decide_eq_true_1 (Forall is_u8 _)). vm_compute. reflexivity.
  - intros _. split; [reflexivity|]. split; discriminate.
Qed.
End Ip6ForwardThms.
