(* ===== verification/Dad.v ===== *)
(** * Duplicate address detection (src/nd/dad.c)

    RFC 4862 section 5.4 for each address of the node: the table of addresses under test, the clock that spaces
    the solicitations, and what is heard; and what an address that passed has behind it.  The result [target]
    points at the address of a row and is that row's number; the configuration a bind keeps a pointer to is its
    value, so a caller that changes it while it is bound is not modelled. *)
From stdpp Require Import gmap.
From S2P Require Import Prelude Base Ipv6.

Module Dad.
Import Endian Clock Ipv6.

Definition DAD_READY : Z := 0x44414431.
Definition IDEMIP_DAD_NONE : Z := 0xFF.
Definition IDEMIP_ND6_RETRANS_TIMER_MS : Z := 1000.
Definition IDEMIP_ND6_MAX_RTR_SOLICITATION_DELAY_MS : Z := 1000.

Inductive IdemIpDadState :=
  | IDEMIP_DAD_STATE_FREE | IDEMIP_DAD_STATE_DELAY | IDEMIP_DAD_STATE_PROBING | IDEMIP_DAD_STATE_WAIT | IDEMIP_DAD_STATE_UNIQUE | IDEMIP_DAD_STATE_DUPLICATE.
#[export] Instance IdemIpDadState_eq_dec : EqDecision IdemIpDadState.
Proof. solve_decision. Defined.

Record IdemIpDadCfg := mkCfg { cfg_transmits : Z; cfg_loopback : bool }.
Record DadStartArgs := mkStartArgs { sa_addr : option (list Z); sa_retrans_ms : Z; sa_rand : Z; sa_now_ms : Z; sa_delay : bool; sa_hw_derived : bool; sa_anycast : bool }.
Record DadNsInArgs := mkNsInArgs { na_target : option (list Z); na_unspecified : bool }.
Record DadIo := mkIo {
  bind_cfg : option IdemIpDadCfg; start_args : DadStartArgs; addr_addr : option (list Z); ns_in_args : DadNsInArgs; na_in_target : option (list Z); tick_now_ms : Z;
  io_target : option Z; io_deadline : Z; io_solicited : list Z; io_status : IdemIpStatus; io_entry : Z; io_state : IdemIpDadState; io_sent : Z; io_received : Z;
  io_join : bool; io_send_ns : bool; io_unique : bool; io_duplicate : bool; io_disable_ip : bool; io_tentative : bool }.
#[export] Instance DadIo_eta : Eta DadIo := fun r =>
  mkIo (bind_cfg r) (start_args r) (addr_addr r) (ns_in_args r) (na_in_target r) (tick_now_ms r) (io_target r) (io_deadline r) (io_solicited r) (io_status r) (io_entry r)
    (io_state r) (io_sent r) (io_received r) (io_join r) (io_send_ns r) (io_unique r) (io_duplicate r) (io_disable_ip r) (io_tentative r).

Record DadEntry := mkEntry {
  d_deadline : Z; d_retrans_ms : Z; d_addr : list Z; d_state : IdemIpDadState; d_sent : Z; d_received : Z; d_hw_derived : bool; d_used : bool }.
#[export] Instance DadEntry_eta : Eta DadEntry := fun r =>
  mkEntry (d_deadline r) (d_retrans_ms r) (d_addr r) (d_state r) (d_sent r) (d_received r) (d_hw_derived r) (d_used r).
#[export] Instance DadEntry_inhabited : Inhabited DadEntry := populate (mkEntry 0 0 (replicate 16 0) IDEMIP_DAD_STATE_FREE 0 0 false false).
Record DadCtx := mkCtx { c_ready : Z; c_cfg : option IdemIpDadCfg; c_tick_ms : Z; c_tick_hi : Z }.
#[export] Instance DadCtx_eta : Eta DadCtx := fun r => mkCtx (c_ready r) (c_cfg r) (c_tick_ms r) (c_tick_hi r).
Record Work := mkWork { w_io : DadIo; w_ctx : DadCtx; w_entries : list DadEntry }.
#[export] Instance Work_eta : Eta Work := fun r => mkWork (w_io r) (w_ctx r) (w_entries r).

Definition put_io (w : Work) (io : DadIo) : Work := w <| w_io := io |>.
Definition DAD_AT (w : Work) (i : Z) : DadEntry := tget (w_entries w) i.
Definition put_row (w : Work) (i : Z) (e : DadEntry) : Work := w <| w_entries := tset (w_entries w) i e |>.

Definition dad_ready (w : Work) : bool := c_ready (w_ctx w) =? DAD_READY.
Definition octets16 (a : list Z) : list Z := take (Z.to_nat IDEMIP_IP6_ADDR_LEN) a.
Definition dad_addr_eq (a b : list Z) : bool := bool_decide (octets16 a = octets16 b).
Definition dad_is_multicast (addr : list Z) : bool := tget addr 0 =? 0xFF.
Definition dad_is_unspecified (addr : list Z) : bool := forallb (λ b, b =? 0) (octets16 addr).
Definition dad_is_link_local (addr : list Z) : bool := (tget addr 0 =? 0xFE) && (u8 (Z.land (tget addr 1) 0xC0) =? 0x80).
Definition dad_solicited_prefix : list Z := [0xFF; 0x02] ++ replicate 9 0 ++ [0x01; 0xFF].
Definition dad_solicited (addr : list Z) : list Z := dad_solicited_prefix ++ [tget addr 13; tget addr 14; tget addr 15].
Definition dad_due (now deadline : Z) : bool := deadline <=? now.
Definition dad_draw (rand span : Z) : Z := Z.shiftr (u32 (Z.land rand 0xFFFF * u32 (span + 1))) 16.

Definition dad_clear_results (io : DadIo) : DadIo :=
  mkIo (bind_cfg io) (start_args io) (addr_addr io) (ns_in_args io) (na_in_target io) (tick_now_ms io) None 0 (replicate 16 0) (io_status io) IDEMIP_DAD_NONE
    IDEMIP_DAD_STATE_FREE 0 0 false false false false false false.
Definition dad_publish (w : Work) (index : Z) : Work :=
  let e := DAD_AT w index in
  put_io w ((w_io w) <| io_entry := index |> <| io_target := Some index |> <| io_deadline := d_deadline e |> <| io_state := d_state e |> <| io_sent := d_sent e |>
    <| io_received := d_received e |> <| io_solicited := dad_solicited (d_addr e) |>).

Definition dad_fail (w : Work) (index : Z) : Work :=
  let e := (DAD_AT w index) <| d_state := IDEMIP_DAD_STATE_DUPLICATE |> <| d_deadline := 0 |> in
  put_io (put_row w index e) ((w_io w) <| io_duplicate := true |> <| io_disable_ip := d_hw_derived e && dad_is_link_local (d_addr e) |>).
Definition dad_pass (w : Work) (index : Z) : Work :=
  put_io (put_row w index ((DAD_AT w index) <| d_state := IDEMIP_DAD_STATE_UNIQUE |> <| d_deadline := 0 |>)) ((w_io w) <| io_unique := true |>).
(** The configuration's count of transmissions; the entries that read it have seen it is there. *)
Definition transmits (w : Work) : Z := match c_cfg (w_ctx w) with Some c => cfg_transmits c | None => 0 end.
Definition loopback (w : Work) : bool := match c_cfg (w_ctx w) with Some c => cfg_loopback c | None => false end.
Definition dad_send (w : Work) (index now : Z) : Work :=
  let e := DAD_AT w index in
  let sent := u8 (d_sent e + 1) in
  let e := e <| d_sent := sent |> <| d_deadline := u64 (now + d_retrans_ms e) |>
             <| d_state := if transmits w <=? sent then IDEMIP_DAD_STATE_WAIT else IDEMIP_DAD_STATE_PROBING |> in
  put_io (put_row w index e) ((w_io w) <| io_send_ns := true |>).
Definition dad_solicitation (w : Work) (index : Z) : Work :=
  let e := DAD_AT w index in
  if d_sent e =? 0 then dad_fail w index
  else
  let e := if d_received e <? 0xFF then e <| d_received := d_received e + 1 |> else e in
  let w := put_row w index e in
  let expected := if loopback w then d_sent e else 0 in
  if expected <? d_received e then dad_fail w index else w.

(** The clock read: the two words, and the time. *)
Definition read_clock (w : Work) (now_ms : Z) : Work * Z :=
  let '(lo, h, now) := ms_extend (c_tick_ms (w_ctx w)) (c_tick_hi (w_ctx w)) now_ms in
  (w <| w_ctx := (w_ctx w) <| c_tick_ms := lo |> <| c_tick_hi := h |> |>, now).

Definition is_tentative (s : IdemIpDadState) : bool :=
  match s with IDEMIP_DAD_STATE_DELAY | IDEMIP_DAD_STATE_PROBING | IDEMIP_DAD_STATE_WAIT => true | _ => false end.

Section Build.
(** The rows of the build. *)
Variable ENTRIES : nat.

Definition dad_find_addr (w : Work) (addr : list Z) : option Z := scan (λ i, d_used (DAD_AT w i) && dad_addr_eq (d_addr (DAD_AT w i)) addr) ENTRIES 0.
Definition dad_free_slot (w : Work) : option Z := scan (λ i, negb (d_used (DAD_AT w i))) ENTRIES 0.

Definition dad_fire (w : Work) : Work :=
  let '(w, now) := read_clock w (tick_now_ms (w_io w)) in
  match scan (λ i, d_used (DAD_AT w i) && is_tentative (d_state (DAD_AT w i)) && dad_due now (d_deadline (DAD_AT w i))) ENTRIES 0 with
  | None => put_io w ((w_io w) <| io_status := IDEMIP_BUSY |>)
  | Some i =>
      let w := match d_state (DAD_AT w i) with
               | IDEMIP_DAD_STATE_DELAY => dad_send (put_io w ((w_io w) <| io_join := true |>)) i now
               | IDEMIP_DAD_STATE_PROBING => dad_send w i now
               | IDEMIP_DAD_STATE_WAIT => dad_pass w i
               | _ => w
               end in
      let w := dad_publish w i in
      put_io w ((w_io w) <| io_status := IDEMIP_OK |>)
  end.

Definition idemip_dad_clear (w : Work) : Work :=
  mkWork ((w_io w) <| io_status := IDEMIP_OK |>) (mkCtx DAD_READY None 0 0) (replicate ENTRIES inhabitant).

(** What every entry but clear begins with. *)
Definition dad_begin (w : Work) : Work := put_io w (dad_clear_results ((w_io w) <| io_status := IDEMIP_ERR |>)).
Definition put_status (w : Work) (s : IdemIpStatus) : Work := put_io w ((w_io w) <| io_status := s |>).

Definition idemip_dad_bind (w : Work) : Work :=
  let w := dad_begin w in
  match bind_cfg (w_io w) with
  | Some cfg => if negb (dad_ready w) then w else put_status (w <| w_ctx := (w_ctx w) <| c_cfg := Some cfg |> |>) IDEMIP_OK
  | None => w
  end.

Definition idemip_dad_start (w : Work) : Work :=
  let w := dad_begin w in
  let a := start_args (w_io w) in
  match sa_addr a with
  | Some addr =>
      if negb (dad_ready w) || bool_decide (c_cfg (w_ctx w) = None) then w
      else if dad_is_multicast addr || dad_is_unspecified addr || sa_anycast a then w
      else if bool_decide (dad_find_addr w addr ≠ None) then w
      else
      match dad_free_slot w with
      | None => put_status w IDEMIP_BUSY
      | Some index =>
          let retrans := if negb (sa_retrans_ms a =? 0) then sa_retrans_ms a else IDEMIP_ND6_RETRANS_TIMER_MS in
          let e := (DAD_AT w index) <| d_addr := octets16 addr |> <| d_retrans_ms := retrans |> <| d_sent := 0 |> <| d_received := 0 |>
                     <| d_hw_derived := sa_hw_derived a |> <| d_used := true |> in
          let w := put_row w index e in
          let w := if transmits w =? 0 then dad_pass w index
                   else
                   let '(w, start) := read_clock w (sa_now_ms a) in
                   let deadline := if sa_delay a then u64 (start + dad_draw (sa_rand a) IDEMIP_ND6_MAX_RTR_SOLICITATION_DELAY_MS) else start in
                   put_row w index (e <| d_state := IDEMIP_DAD_STATE_DELAY |> <| d_deadline := deadline |>) in
          put_status (dad_publish w index) IDEMIP_OK
      end
  | None => w
  end.

Definition idemip_dad_stop (w : Work) : Work :=
  let w := dad_begin w in
  match addr_addr (w_io w) with
  | Some addr =>
      if negb (dad_ready w) then w
      else match dad_find_addr w addr with
           | None => w
           | Some index => put_status (put_row (put_io w ((w_io w) <| io_entry := index |>)) index inhabitant) IDEMIP_OK
           end
  | None => w
  end.

Definition idemip_dad_find (w : Work) : Work :=
  let w := dad_begin w in
  match addr_addr (w_io w) with
  | Some addr =>
      if negb (dad_ready w) then w
      else match dad_find_addr w addr with
           | None => w
           | Some index =>
               let w := dad_publish w index in
               put_status (put_io w ((w_io w) <| io_tentative := is_tentative (io_state (w_io w)) |>)) IDEMIP_OK
           end
  | None => w
  end.

Definition idemip_dad_ns_in (w : Work) : Work :=
  let w := dad_begin w in
  match na_target (ns_in_args (w_io w)) with
  | Some target =>
      if negb (dad_ready w) then w
      else match dad_find_addr w target with
           | None => put_status w IDEMIP_OK
           | Some index =>
               let tentative := is_tentative (d_state (DAD_AT w index)) in
               let w := if tentative && na_unspecified (ns_in_args (w_io w)) then dad_solicitation w index else w in
               let w := dad_publish w index in
               put_status (put_io w ((w_io w) <| io_tentative := tentative |>)) IDEMIP_OK
           end
  | None => w
  end.

Definition idemip_dad_na_in (w : Work) : Work :=
  let w := dad_begin w in
  match na_in_target (w_io w) with
  | Some target =>
      if negb (dad_ready w) then w
      else match dad_find_addr w target with
           | None => put_status w IDEMIP_OK
           | Some index =>
               let tentative := is_tentative (d_state (DAD_AT w index)) in
               let w := if tentative then dad_fail w index else w in
               let w := dad_publish w index in
               put_status (put_io w ((w_io w) <| io_tentative := tentative |>)) IDEMIP_OK
           end
  | None => w
  end.

Definition idemip_dad_tick (w : Work) : Work :=
  let w := dad_begin w in
  if negb (dad_ready w) || bool_decide (c_cfg (w_ctx w) = None) then w else dad_fire w.
End Build.
End Dad.

(** * An address that passed

    The history of an address - when its solicitations went out and what was heard of it - and the machine
    against it. *)
Module DadThms.
Import Clock Ipv6 Dad.

(** ** Histories *)
(** The interval the probes wait, when each was sent, how many had been sent when each solicitation of another
    for the address was heard, and whether an advertisement of it was. *)
Record hist := mkHist { h_retrans : Z; h_probes : list Z; h_heard : list nat; h_advertised : bool }.
#[export] Instance hist_eta : Eta hist := fun r => mkHist (h_retrans r) (h_probes r) (h_heard r) (h_advertised r).

(** Section 5.4: somebody else has the address - an advertisement of it, a solicitation before the first of our
    own, or more of them than our own can come back as. *)
Definition conflicted (c : IdemIpDadCfg) (h : hist) : Prop :=
  h_advertised h = true ∨ ∃ j k, h_heard h !! j = Some k ∧ (k = 0%nat ∨ cfg_loopback c = false ∨ (k ≤ j)%nat).
Definition spaced (n : Z) (l : list Z) : Prop := ∀ i p q, l !! i = Some p → l !! S i = Some q → p + n ≤ q.
(** Every solicitation sent, each the interval after the one before, and the last an interval ago. *)
Definition probed (c : IdemIpDadCfg) (t : Z) (h : hist) : Prop :=
  Z.of_nat (length (h_probes h)) = cfg_transmits c ∧ spaced (h_retrans h) (h_probes h) ∧ ∀ p, last (h_probes h) = Some p → p + h_retrans h ≤ t.

Lemma dad_spaced_snoc n l x : spaced n l → (∀ y, last l = Some y → y + n ≤ x) → spaced n (l ++ [x]).
Proof.
  intros Hs Hl i p q Hp Hq. destruct (decide (S i < length l)%nat) as [Hi|Hi].
  - rewrite lookup_app_l in Hp, Hq by lia. by apply (Hs i).
  - rewrite lookup_app_r in Hq by lia. apply list_lookup_singleton_Some in Hq as [Hi' <-]. rewrite lookup_app_l in Hp by lia. apply Hl. rewrite last_lookup. by replace (pred (length l)) with i by lia.
Qed.

(** ** Runs *)
Inductive call := Start (a : DadStartArgs) | Stop (a : option (list Z)) | Find (a : option (list Z)) | NsIn (a : DadNsInArgs) | NaIn (a : option (list Z)) | Tick.
(** A call at a time, which its clock argument reads. *)
Record step := mkStep { s_at : Z; s_call : call }.
Definition retrans_of (a : DadStartArgs) : Z := if sa_retrans_ms a =? 0 then 1000 else sa_retrans_ms a.

Section Run.
Variable ENTRIES : nat.

Definition do (w : Work) (s : step) : Work :=
  match s_call s with
  | Start a => idemip_dad_start ENTRIES (put_io w ((w_io w) <| start_args := mkStartArgs (sa_addr a) (sa_retrans_ms a) (sa_rand a) (u32 (s_at s)) (sa_delay a) (sa_hw_derived a) (sa_anycast a) |>))
  | Stop a => idemip_dad_stop ENTRIES (put_io w ((w_io w) <| addr_addr := a |>))
  | Find a => idemip_dad_find ENTRIES (put_io w ((w_io w) <| addr_addr := a |>))
  | NsIn a => idemip_dad_ns_in ENTRIES (put_io w ((w_io w) <| ns_in_args := a |>))
  | NaIn a => idemip_dad_na_in ENTRIES (put_io w ((w_io w) <| na_in_target := a |>))
  | Tick => idemip_dad_tick ENTRIES (put_io w ((w_io w) <| tick_now_ms := u32 (s_at s) |>))
  end.

(** What a call adds to the histories, by what it was told and what it reports. *)
Definition note (H : gmap (list Z) hist) (w' : Work) (s : step) : gmap (list Z) hist :=
  let io := w_io w' in
  if decide (io_status io = IDEMIP_OK) then
    match s_call s with
    | Start a => match sa_addr a with Some addr => <[octets16 addr := mkHist (retrans_of a) [] [] false]> H | None => H end
    | Stop (Some addr) => delete (octets16 addr) H
    | NsIn (mkNsInArgs (Some addr) true) =>
        if io_tentative io then alter (λ h, h <| h_heard := h_heard h ++ [length (h_probes h)] |>) (octets16 addr) H else H
    | NaIn (Some addr) => if io_tentative io then alter (λ h, h <| h_advertised := true |>) (octets16 addr) H else H
    | Tick => if io_send_ns io then alter (λ h, h <| h_probes := h_probes h ++ [s_at s] |>) (d_addr (DAD_AT w' (io_entry io))) H else H
    | _ => H
    end
  else H.
Fixpoint run (l : list step) (w : Work) (H : gmap (list Z) hist) : Work * gmap (list Z) hist :=
  match l with
  | [] => (w, H)
  | s :: l => let w' := do w s in run l w' (note H w' s)
  end.

(** Calls in order of time, the clock ticked at least once in each of its periods. *)
Definition is_tick (s : step) : bool := match s_call s with Tick => true | _ => false end.
Fixpoint timely (tick t : Z) (l : list step) : Prop :=
  match l with
  | [] => True
  | s :: l => t ≤ s_at s < tick + 4294967296 ∧ s_at s < 4611686018427387904 ∧
      (match s_call s with Start a => is_u32 (sa_retrans_ms a) | _ => True end) ∧ timely (if is_tick s then s_at s else tick) (s_at s) l
  end.

(** ** The table and the histories *)
Variable c : IdemIpDadCfg.
Hypothesis Hc : 0 ≤ cfg_transmits c ≤ 255 ∧ (cfg_loopback c = true → cfg_transmits c < 255).

Definition clean (e : DadEntry) (h : hist) : Prop := d_received e = Z.of_nat (length (h_heard h)) ∧ ¬ conflicted c h.
Definition waits (e : DadEntry) (h : hist) : Prop := ∀ p, last (h_probes h) = Some p → d_deadline e = p + h_retrans h.
Definition phase (t : Z) (e : DadEntry) (h : hist) : Prop :=
  match d_state e with
  | IDEMIP_DAD_STATE_DELAY => h_probes h = [] ∧ 0 < cfg_transmits c ∧ clean e h
  | IDEMIP_DAD_STATE_PROBING => 0 < d_sent e < cfg_transmits c ∧ waits e h ∧ clean e h
  | IDEMIP_DAD_STATE_WAIT => d_sent e = cfg_transmits c ∧ 0 < d_sent e ∧ waits e h ∧ clean e h
  | IDEMIP_DAD_STATE_UNIQUE => probed c t h ∧ ¬ conflicted c h
  | IDEMIP_DAD_STATE_DUPLICATE => conflicted c h
  | IDEMIP_DAD_STATE_FREE => False
  end.
Record row_ok (t : Z) (e : DadEntry) (h : hist) : Prop := {
  ro_retrans : d_retrans_ms e = h_retrans h;
  ro_u32 : is_u32 (h_retrans h);
  ro_sent : d_sent e = Z.of_nat (length (h_probes h));
  ro_past : Forall (λ p, 0 ≤ p ≤ t) (h_probes h);
  ro_spaced : spaced (h_retrans h) (h_probes h);
  ro_heard : Forall (λ k, (k ≤ length (h_probes h))%nat) (h_heard h);
  ro_phase : phase t e h }.
Definition rows (t : Z) (E : list DadEntry) (H : gmap (list Z) hist) : Prop :=
  length E = ENTRIES ∧ ∀ i, 0 ≤ i < Z.of_nat ENTRIES → d_used (tget E i) = true →
    octets16 (d_addr (tget E i)) = d_addr (tget E i) ∧
    (∀ j, 0 ≤ j < Z.of_nat ENTRIES → d_used (tget E j) = true → d_addr (tget E j) = d_addr (tget E i) → j = i) ∧
    ∃ h, H !! d_addr (tget E i) = Some h ∧ row_ok t (tget E i) h.
Definition clock_at (tick t : Z) (ctx : DadCtx) : Prop := ∃ r, 0 ≤ r ∧ tick ≤ r ≤ t ∧ c_tick_ms ctx = u32 r ∧ c_tick_hi ctx = r / 4294967296.
Record inv (tick t : Z) (w : Work) (H : gmap (list Z) hist) : Prop := {
  iv_ready : c_ready (w_ctx w) = DAD_READY;
  iv_cfg : c_cfg (w_ctx w) = Some c;
  iv_clock : clock_at tick t (w_ctx w);
  iv_rows : rows t (w_entries w) H }.

Lemma row_later t t' e h : t ≤ t' → row_ok t e h → row_ok t' e h.
Proof.
  intros Ht [? ? ? Hp ? ? Hph]. split; try done.
  - eapply Forall_impl; [done|]. cbn. lia.
  - unfold phase in *. destruct (d_state e); try done. destruct Hph as ((H1&H2&H3)&H4). split; [|done]. split_and!; [done..|]. intros p Hl. specialize (H3 p Hl). lia.
Qed.
Lemma rows_later t t' E H : t ≤ t' → rows t E H → rows t' E H.
Proof.
  intros Ht [Hl Hr]. split; [done|]. intros i Hi Hu. destruct (Hr i Hi Hu) as (H1&H2&h&H3&H4). split_and!; [done..|]. exists h. split; [done|]. by apply (row_later t).
Qed.

(** One row written, and the history of one address. *)
Lemma rows_put t E H H' i e' a : rows t E H → 0 ≤ i < Z.of_nat ENTRIES → (∀ j, 0 ≤ j < Z.of_nat ENTRIES → j ≠ i → d_used (tget E j) = true → d_addr (tget E j) ≠ a) →
  (∀ b, b ≠ a → H' !! b = H !! b) → (d_used e' = true → d_addr e' = a ∧ octets16 a = a ∧ ∃ h, H' !! a = Some h ∧ row_ok t e' h) → rows t (tset E i e') H'.
Proof using.
  clear Hc. intros [Hl Hr] Hi Hoth HH He. assert (tlen E = Z.of_nat ENTRIES) as Htl by (unfold tlen; lia). split; [unfold tset; by rewrite length_insert|]. intros k Hk. destruct (decide (k = i)) as [->|Hki].
  - rewrite tget_tset_eq by lia. intros Hu. destruct (He Hu) as (Ha&H16&Hh). rewrite Ha. split_and!; [done| |done].
    intros j Hj. destruct (decide (j = i)) as [->|Hji]; [done|]. rewrite tget_tset_ne by lia. intros Huj Hja. by destruct (Hoth j Hj Hji Huj).
  - rewrite tget_tset_ne by lia. intros Hu. destruct (Hr k Hk Hu) as (H1&H2&H3). pose proof (Hoth k Hk Hki Hu) as Hne. split_and!; [done| |by rewrite (HH _ Hne)].
    intros j Hj. destruct (decide (j = i)) as [->|Hji]; [|rewrite tget_tset_ne by lia; by apply H2]. rewrite tget_tset_eq by lia. intros Hu' Ha. destruct (He Hu') as (Ha'&_). congruence.
Qed.

(** ** What each step does to a row *)
Lemma not_conflicted_empty r : ¬ conflicted c (mkHist r [] [] false).
Proof using. clear Hc. intros [H|(j&k&H&_)]; [done|]. by destruct j. Qed.

Lemma conflicted_probe h t : conflicted c (h <| h_probes := h_probes h ++ [t] |>) ↔ conflicted c h.
Proof using. done. Qed.

(** A solicitation goes out. *)
Lemma send_row t e h : row_ok t e h → 0 ≤ t < 4611686018427387904 → d_state e = IDEMIP_DAD_STATE_DELAY ∨ d_state e = IDEMIP_DAD_STATE_PROBING → d_deadline e ≤ t →
  row_ok t (e <| d_sent := u8 (d_sent e + 1) |> <| d_deadline := u64 (t + d_retrans_ms e) |>
             <| d_state := if cfg_transmits c <=? u8 (d_sent e + 1) then IDEMIP_DAD_STATE_WAIT else IDEMIP_DAD_STATE_PROBING |>) (h <| h_probes := h_probes h ++ [t] |>).
Proof using Hc.
  intros [R1 R2 R3 R4 R5 R6 R7] Ht Hs Hd. destruct Hc as [Hn _].
  assert (clean e h ∧ 0 ≤ d_sent e < cfg_transmits c ∧ ∀ p, last (h_probes h) = Some p → p + h_retrans h ≤ t) as (Hcl&Hse&Hsp).
  { unfold phase in R7. destruct Hs as [Hs|Hs]; rewrite Hs in R7; [destruct R7 as (Hp&?&?)|destruct R7 as (?&Hw&?)].
    - rewrite R3, Hp in *. cbn [length]. split_and!; try done; lia.
    - split_and!; try done; [lia|lia|]. intros p Hp. specialize (Hw p Hp). lia. }
  assert (u8 (d_sent e + 1) = d_sent e + 1) as -> by (apply u8_id; unfold is_u8; lia).
  assert (u64 (t + d_retrans_ms e) = t + h_retrans h) as -> by (rewrite R1; apply u64_id; unfold is_u32, is_u64 in *; lia).
  split; cbn [h_retrans h_probes h_heard h_advertised d_deadline d_retrans_ms d_sent d_received d_state].
  - exact R1.
  - exact R2.
  - change (d_sent e + 1 = Z.of_nat (length (h_probes h ++ [t]))). rewrite length_app. cbn [length]. lia.
  - change (Forall (λ p, 0 ≤ p ≤ t) (h_probes h ++ [t])). apply Forall_app. split; [done|]. by repeat constructor; lia.
  - change (spaced (h_retrans h) (h_probes h ++ [t])). by apply dad_spaced_snoc.
  - change (Forall (λ k, (k ≤ length (h_probes h ++ [t]))%nat) (h_heard h)). eapply Forall_impl; [exact R6|]. cbn. intros k Hk. rewrite length_app. lia.
  - assert (∀ d e', d_deadline e' = t + h_retrans h → d = h_probes h ++ [t] → waits e' (h <| h_probes := d |>)) as Hw.
    { intros d e' He -> p Hp. change (last (h_probes h ++ [t]) = Some p) in Hp. rewrite last_snoc in Hp. injection Hp as <-. exact He. }
    unfold phase. destruct (Z.leb_spec (cfg_transmits c) (d_sent e + 1)); cbn [d_state d_sent].
    + refine (conj _ (conj _ (conj _ _))); [change (d_sent e + 1 = cfg_transmits c); lia|change (0 < d_sent e + 1); lia|by apply Hw|exact Hcl].
    + refine (conj _ (conj _ _)); [change (0 < d_sent e + 1 < cfg_transmits c); lia|by apply Hw|exact Hcl].
Qed.

(** The last interval passes. *)
Lemma pass_row t e h : row_ok t e h → d_state e = IDEMIP_DAD_STATE_WAIT → d_deadline e ≤ t → row_ok t (e <| d_state := IDEMIP_DAD_STATE_UNIQUE |> <| d_deadline := 0 |>) h.
Proof using.
  clear Hc. intros [R1 R2 R3 R4 R5 R6 R7] Hs Hd. split; try done. unfold phase in R7. rewrite Hs in R7. destruct R7 as (H1&H2&H3&_&H4). split; [|exact H4].
  split_and!; [lia|done|]. intros p Hp. specialize (H3 p Hp). lia.
Qed.

(** An address fails. *)
Lemma fail_row t e h h' : row_ok t e h → conflicted c h' → h_retrans h' = h_retrans h → h_probes h' = h_probes h → Forall (λ k, (k ≤ length (h_probes h))%nat) (h_heard h') →
  row_ok t (e <| d_state := IDEMIP_DAD_STATE_DUPLICATE |> <| d_deadline := 0 |>) h'.
Proof using.
  clear Hc. intros [R1 R2 R3 R4 R5 R6 R7] Hcf E1 E2 E3. split; rewrite ?E1, ?E2; try done.
Qed.

Lemma tentative_clean t e h : row_ok t e h → is_tentative (d_state e) = true → clean e h.
Proof using. clear Hc. intros [_ _ _ _ _ _ R7] Hs. unfold phase in R7. destruct (d_state e); try done; tauto. Qed.

(** Another's solicitation is heard. *)
Definition heard_row (e : DadEntry) : DadEntry :=
  let fail x := x <| d_state := IDEMIP_DAD_STATE_DUPLICATE |> <| d_deadline := 0 |> in
  if d_sent e =? 0 then fail e
  else
  let e := if d_received e <? 0xFF then e <| d_received := d_received e + 1 |> else e in
  if (if cfg_loopback c then d_sent e else 0) <? d_received e then fail e else e.
Lemma heard_row_ok t e h : row_ok t e h → is_tentative (d_state e) = true → row_ok t (heard_row e) (h <| h_heard := h_heard h ++ [length (h_probes h)] |>).
Proof using Hc.
  intros Hok Hs. pose proof (tentative_clean t e h Hok Hs) as [Hrec Hncf]. pose proof Hok as [R1 R2 R3 R4 R5 R6 R7]. destruct Hc as [Hn Hlb].
  set (h' := h <| h_heard := _ |>). assert (Forall (λ k, (k ≤ length (h_probes h))%nat) (h_heard h')) as Hh' by (apply Forall_app; split; [done|by constructor]).
  assert (∀ j k, h_heard h !! j = Some k → k ≠ 0%nat ∧ cfg_loopback c = true ∧ (j < k)%nat) as Hold.
  { intros j k Hjk. split_and!.
    - intros ->. apply Hncf. right. exists j, 0%nat. tauto.
    - destruct (cfg_loopback c) eqn:E; [done|]. exfalso. apply Hncf. right. exists j, k. tauto.
    - destruct (decide (k ≤ j)%nat); [|lia]. exfalso. apply Hncf. right. exists j, k. tauto. }
  assert (conflicted c h' ↔ length (h_probes h) = 0%nat ∨ cfg_loopback c = false ∨ (length (h_probes h) ≤ length (h_heard h))%nat) as Hnew.
  { split.
    - intros [Ha|(j&k&Hjk&Hk)]; [exfalso; apply Hncf; by left|]. change (h_heard h') with (h_heard h ++ [length (h_probes h)]) in Hjk. apply lookup_snoc_Some in Hjk as [[_ Hjk]|[-> <-]]; [|tauto].
      destruct (Hold j k Hjk) as (?&?&?). exfalso. destruct Hk as [?|[?|?]]; [done|congruence|lia].
    - intros H. right. exists (length (h_heard h)), (length (h_probes h)). split; [|tauto]. change (h_heard h') with (h_heard h ++ [length (h_probes h)]). by rewrite lookup_app_r, Nat.sub_diag by lia. }
  assert (length (h_heard h) ≤ length (h_probes h))%nat as Hle.
  { destruct (h_heard h) as [|k0 l] eqn:El using rev_ind; [cbn; lia|]. rewrite length_app. cbn [length]. destruct (Hold (length l) k0) as (_&_&Hlt); [by rewrite lookup_app_r, Nat.sub_diag by lia|].
    apply Forall_app in R6 as [_ R6]. apply Forall_cons_1 in R6 as [R6 _]. lia. }
  assert (d_sent e ≤ cfg_transmits c) as Hsn by (unfold phase in R7; destruct (d_state e); try done; [destruct R7 as (E&?&_); rewrite R3, E; cbn; lia|lia|lia]).
  unfold heard_row. destruct (Z.eqb_spec (d_sent e) 0) as [E0|E0].
  { apply (fail_row t e h); try done. apply Hnew. left. lia. }
  assert (d_received e < 255 ∨ length (h_heard h) = 0%nat) as Hr.
  { destruct (cfg_loopback c) eqn:E; [specialize (Hlb eq_refl); lia|]. right. destruct (h_heard h) as [|k0 l]; [done|]. destruct (Hold 0%nat k0 eq_refl) as (_&?&_). done. }
  rewrite (proj2 (Z.ltb_lt (d_received e) 255)) by lia.
  assert (row_ok t (e <| d_received := d_received e + 1 |>) h → True) as _ by done.
  change (d_sent (e <| d_received := d_received e + 1 |>)) with (d_sent e). change (d_received (e <| d_received := d_received e + 1 |>)) with (d_received e + 1).
  destruct (Z.ltb_spec (if cfg_loopback c then d_sent e else 0) (d_received e + 1)) as [Hf|Hf].
  - assert (conflicted c h') as Hcf by (apply Hnew; destruct (cfg_loopback c); [right; right; lia|tauto]).
    split; try done.
  - destruct (cfg_loopback c) eqn:El; [|lia]. assert (clean (e <| d_received := d_received e + 1 |>) h') as Hcl.
    { split; [|rewrite Hnew; intros [?|[?|?]]; [lia|done|lia]]. change (d_received e + 1 = Z.of_nat (length (h_heard h ++ [length (h_probes h)]))). rewrite length_app. cbn [length]. lia. }
    split; try done. unfold phase in *. change (d_state (e <| d_received := d_received e + 1 |>)) with (d_state e). destruct (d_state e); try done; tauto.
Qed.

(** ** The clock and the searches *)
Lemma clock_later tick t t' ctx : t ≤ t' → clock_at tick t ctx → clock_at tick t' ctx.
Proof using. clear Hc. intros Ht (r&?&?&?&?). exists r. split_and!; (done || lia). Qed.
Lemma read_clock_spec w tick t t' : clock_at tick t (w_ctx w) → t ≤ t' < tick + 4294967296 → t' < 4611686018427387904 →
  ∃ w', read_clock w (u32 t') = (w', t') ∧ w_entries w' = w_entries w ∧ w_io w' = w_io w ∧ c_ready (w_ctx w') = c_ready (w_ctx w) ∧ c_cfg (w_ctx w') = c_cfg (w_ctx w) ∧ clock_at t' t' (w_ctx w').
Proof using.
  clear Hc. intros (r&Hr0&Hr&E1&E2) Ht Hm. unfold read_clock, ms_extend. rewrite E1, E2. pose proof (Z.div_mod r 4294967296 ltac:(lia)). pose proof (Z.mod_pos_bound r 4294967296 ltac:(lia)).
  pose proof (Z.div_mod t' 4294967296 ltac:(lia)). pose proof (Z.mod_pos_bound t' 4294967296 ltac:(lia)).
  assert ((if u32 t' <? u32 r then u32 (r / 4294967296 + 1) else r / 4294967296) = t' / 4294967296) as ->.
  { unfold u32 in *. destruct (Z.ltb_spec (t' mod 4294967296) (r mod 4294967296)); [rewrite Z.mod_small by lia; lia|lia]. }
  rewrite join_eq by (unfold is_u32, u32; lia). eexists. split; [f_equal; unfold u32; lia|]. split_and!; try done. exists t'. split_and!; (done || lia).
Qed.

Lemma dad_addr_eq_iff a b : dad_addr_eq a b = true ↔ octets16 a = octets16 b.
Proof using. clear Hc. apply bool_decide_eq_true. Qed.
Lemma find_row t w H a i : rows t (w_entries w) H → dad_find_addr ENTRIES w a = Some i →
  0 ≤ i < Z.of_nat ENTRIES ∧ d_used (DAD_AT w i) = true ∧ d_addr (DAD_AT w i) = octets16 a ∧ octets16 (octets16 a) = octets16 a ∧
  (∀ j, 0 ≤ j < Z.of_nat ENTRIES → j ≠ i → d_used (DAD_AT w j) = true → d_addr (DAD_AT w j) ≠ octets16 a) ∧ ∃ h, H !! octets16 a = Some h ∧ row_ok t (DAD_AT w i) h.
Proof using.
  clear Hc. intros [Hl Hr] Hf. apply scan_Some in Hf as (Hi&Hp&_). apply andb_true_iff in Hp as [Hu Ha]. apply dad_addr_eq_iff in Ha. destruct (Hr i ltac:(lia) Hu) as (H1&H2&Hh). fold (DAD_AT w i) in *.
  rewrite H1 in Ha. rewrite Ha in *. split_and!; try done; try lia. intros j Hj Hji Huj Haj. by destruct Hji; apply H2.
Qed.
Lemma find_none w a : dad_find_addr ENTRIES w a = None → ∀ j, 0 ≤ j < Z.of_nat ENTRIES → d_used (DAD_AT w j) = true → octets16 (d_addr (DAD_AT w j)) ≠ octets16 a.
Proof using. clear Hc. intros Hf j Hj Hu Ha. pose proof (proj1 (scan_None _ _ _) Hf j ltac:(lia)) as Hn. cbv beta in Hn. rewrite Hu in Hn. cbn [andb] in Hn. apply dad_addr_eq_iff in Ha. congruence. Qed.

(** An entry that left the context and the table alone. *)
Lemma dad_inv_same tick t t' w w' H : inv tick t w H → t ≤ t' → w_ctx w' = w_ctx w → w_entries w' = w_entries w → inv tick t' w' H.
Proof using. clear Hc. intros [I1 I2 I3 I4] Ht E1 E2. split; rewrite ?E1, ?E2; [done|done|by apply (clock_later _ t)|by apply (rows_later t)]. Qed.

(** What every entry begins with. *)
Lemma begin_reads w : w_ctx (dad_begin w) = w_ctx w ∧ w_entries (dad_begin w) = w_entries w ∧ start_args (w_io (dad_begin w)) = start_args (w_io w) ∧ addr_addr (w_io (dad_begin w)) = addr_addr (w_io w) ∧
  ns_in_args (w_io (dad_begin w)) = ns_in_args (w_io w) ∧ na_in_target (w_io (dad_begin w)) = na_in_target (w_io w) ∧ tick_now_ms (w_io (dad_begin w)) = tick_now_ms (w_io w) ∧
  io_status (w_io (dad_begin w)) = IDEMIP_ERR ∧ io_send_ns (w_io (dad_begin w)) = false ∧ io_tentative (w_io (dad_begin w)) = false.
Proof using. done. Qed.

Section Entries.
Variables (tick t : Z) (w : Work) (H : gmap (list Z) hist) (s : step).
Hypothesis Hinv : inv tick t w H.
Hypothesis Ht : t ≤ s_at s < tick + 4294967296.
Hypothesis Hm : s_at s < 4611686018427387904.

Lemma stop_inv a : s_call s = Stop a → inv tick (s_at s) (do w s) (note H (do w s) s).
Proof using Hinv Ht.
  intros Hs. unfold note, do. rewrite Hs. unfold idemip_dad_stop. set (w0 := put_io w _). destruct (begin_reads w0) as (E1&E2&_&E4&_&_&_&E8&_). change (w_ctx w0) with (w_ctx w) in E1. change (w_entries w0) with (w_entries w) in E2.
  change (addr_addr (w_io w0)) with a in E4. generalize dependent (dad_begin w0). clear w0. intros w1 E1 E2 E4 E8. rewrite E4. pose proof Hinv as [I1 I2 I3 I4]. unfold dad_ready. rewrite E1, I1, Z.eqb_refl. cbn [negb].
  destruct a as [a|]; [|rewrite decide_False by congruence; by apply (dad_inv_same tick t _ w); [|lia|..]].
  destruct (dad_find_addr ENTRIES w1 a) as [i|] eqn:Hf; [|rewrite decide_False by congruence; by apply (dad_inv_same tick t _ w); [|lia|..]].
  rewrite <- E2 in I4. destruct (find_row t w1 H a i I4 Hf) as (Hi&_&_&_&Hoth&_). rewrite decide_True by done.
  split; try (cbn; rewrite E1; done).
  - cbn. rewrite E1. apply (clock_later _ t); [lia|done].
  - apply (rows_later t); [lia|]. apply (rows_put t (w_entries w1) H _ i _ (octets16 a)); try done. intros b Hb. by apply lookup_delete_ne.
Qed.
Lemma find_inv a : s_call s = Find a → inv tick (s_at s) (do w s) (note H (do w s) s).
Proof using Hinv Ht.
  intros Hs. assert (note H (do w s) s = H) as -> by (unfold note; rewrite Hs; by case_decide). apply (dad_inv_same tick t _ w); [done|lia|..]; unfold do; rewrite Hs; unfold idemip_dad_find;
    set (w1 := dad_begin _); (destruct (addr_addr (w_io w1)); [|done]); (destruct (negb _); [done|]); by destruct (dad_find_addr ENTRIES w1 _).
Qed.

Lemma tentative_reads (x : Work) io b : io_tentative (w_io (put_status (put_io x (io <| io_tentative := b |>)) IDEMIP_OK)) = b.
Proof using. reflexivity. Qed.
Lemma published_reads (x : Work) i io : w_ctx (put_status (put_io (dad_publish x i) io) IDEMIP_OK) = w_ctx x ∧ w_entries (put_status (put_io (dad_publish x i) io) IDEMIP_OK) = w_entries x.
Proof using. split; reflexivity. Qed.

(** A solicitation or an advertisement of an address: the row it finds, changed while the address is on trial. *)
Lemma trial_inv (f : Work → Z → Work) (g : DadEntry → DadEntry) (k : hist → hist) (hear : bool) (a : list Z) w1 :
  w_ctx w1 = w_ctx w → w_entries w1 = w_entries w → (∀ i, 0 ≤ i < Z.of_nat ENTRIES → w_ctx (f w1 i) = w_ctx w1 ∧ w_entries (f w1 i) = tset (w_entries w1) i (g (DAD_AT w1 i))) →
  (∀ e, d_addr (g e) = d_addr e) →
  (∀ e h, row_ok (s_at s) e h → is_tentative (d_state e) = true → row_ok (s_at s) (g e) (k h)) →
  let w' := match dad_find_addr ENTRIES w1 a with
            | None => put_status w1 IDEMIP_OK
            | Some index =>
                let tentative := is_tentative (d_state (DAD_AT w1 index)) in
                let w := if tentative && hear then f w1 index else w1 in
                let w := dad_publish w index in
                put_status (put_io w ((w_io w) <| io_tentative := tentative |>)) IDEMIP_OK
            end in
  io_tentative (w_io w1) = false →
  io_status (w_io w') = IDEMIP_OK ∧ inv tick (s_at s) w' (if hear && io_tentative (w_io w') then alter k (octets16 a) H else H).
Proof using Hinv Ht.
  intros E1 E2 Hf Hga Hg. pose proof Hinv as [I1 I2 I3 I4]. destruct (dad_find_addr ENTRIES w1 a) as [i|] eqn:Hfi; cbv zeta; intros Et.
  2:{ split; [done|]. assert (io_tentative (w_io (put_status w1 IDEMIP_OK)) = false) as -> by exact Et. rewrite andb_false_r. apply (dad_inv_same tick t _ w); [done|lia|done|done]. }
  split; [done|]. rewrite tentative_reads.
  apply (rows_later t (s_at s)) in I4; [|lia]. rewrite <- E2 in I4. destruct (find_row (s_at s) w1 H a i I4 Hfi) as (Hi&Hu&Ha&H16&Hoth&h&Hh&Hok). destruct (Hf i Hi) as [F1 F2].
  destruct (is_tentative (d_state (DAD_AT w1 i))) eqn:Hten; cbn [andb].
  2:{ rewrite andb_false_r. edestruct published_reads as [G1 G2]. apply (dad_inv_same tick t _ w); [done|lia|by etrans; [apply G1|]|by etrans; [apply G2|]]. }
  rewrite andb_true_r. destruct hear; [|edestruct published_reads as [G1 G2]; apply (dad_inv_same tick t _ w); [done|lia|by etrans; [apply G1|]|by etrans; [apply G2|]]].
  match goal with |- context [put_status (put_io (dad_publish ?x i) ?y) IDEMIP_OK] => pose proof (published_reads x i y) as [G1 G2]; generalize dependent (put_status (put_io (dad_publish x i) y) IDEMIP_OK) end; intros w2 G1 G2.
  split; rewrite ?G1, ?F1, ?E1; [done|done|by apply (clock_later _ t); [lia|]|]. rewrite G2, F2.
  apply (rows_put (s_at s) (w_entries w1) H _ i _ (octets16 a)); [done|done|exact Hoth| |].
  - intros b Hb. by apply lookup_alter_ne.
  - intros _. rewrite Hga. split_and!; [done|done|]. exists (k h). split; [by rewrite lookup_alter_eq, Hh|]. by apply Hg.
Qed.

Lemma solicitation_reads w1 i : c_cfg (w_ctx w1) = Some c → 0 ≤ i < tlen (w_entries w1) →
  w_ctx (dad_solicitation w1 i) = w_ctx w1 ∧ w_entries (dad_solicitation w1 i) = tset (w_entries w1) i (heard_row (DAD_AT w1 i)).
Proof using.
  clear Hc Hinv Ht Hm. intros Hcf Hi. unfold dad_solicitation, heard_row, loopback. destruct (d_sent (DAD_AT w1 i) =? 0); [split; reflexivity|].
  set (e := if d_received (DAD_AT w1 i) <? 255 then _ else _). clearbody e. change (w_ctx (put_row w1 i e)) with (w_ctx w1). rewrite Hcf.
  assert (DAD_AT (put_row w1 i e) i = e) as Hat by (apply tget_tset_eq; done).
  destruct (_ <? d_received e); [|split; reflexivity]. split; [reflexivity|]. unfold dad_fail. rewrite Hat. apply tset_tset_eq.
Qed.
Lemma heard_addr e : d_addr (heard_row e) = d_addr e.
Proof using. clear. unfold heard_row. by repeat match goal with |- context [if ?b then _ else _] => destruct b end. Qed.

Lemma ns_inv a : s_call s = NsIn a → inv tick (s_at s) (do w s) (note H (do w s) s).
Proof using Hinv Ht Hc.
  intros Hs. pose proof Hinv as [I1 I2 I3 I4]. unfold note, do. rewrite Hs. unfold idemip_dad_ns_in. set (w0 := put_io w _). destruct (begin_reads w0) as (E1&E2&_&_&E5&_&_&E8&_&E10).
  change (w_ctx w0) with (w_ctx w) in E1. change (w_entries w0) with (w_entries w) in E2. change (ns_in_args (w_io w0)) with a in E5. generalize dependent (dad_begin w0). clear w0. intros w1 E1 E2 E5 E8 E10.
  rewrite E5. unfold dad_ready. rewrite E1, I1, Z.eqb_refl. cbn [negb]. destruct a as [[a|] hear]; cbn [na_target na_unspecified].
  2:{ rewrite decide_False by congruence. apply (dad_inv_same tick t _ w); [done|lia|done|done]. }
  destruct (trial_inv dad_solicitation heard_row (λ h, h <| h_heard := h_heard h ++ [length (h_probes h)] |>) hear a w1 E1 E2) as [T1 T2]; [| |by apply heard_row_ok|done|].
  - intros i Hi. apply solicitation_reads; [by rewrite E1|]. rewrite E2. unfold tlen. destruct I4 as [-> _]. done.
  - apply heard_addr.
  - cbv zeta in T1, T2. rewrite decide_True by exact T1. destruct hear; [|exact T2]. cbn [andb] in T2. exact T2.
Qed.

Lemma na_inv a : s_call s = NaIn a → inv tick (s_at s) (do w s) (note H (do w s) s).
Proof using Hinv Ht.
  clear Hc. intros Hs. pose proof Hinv as [I1 I2 I3 I4]. unfold note, do. rewrite Hs. unfold idemip_dad_na_in. set (w0 := put_io w _). destruct (begin_reads w0) as (E1&E2&_&_&_&E6&_&E8&_&E10).
  change (w_ctx w0) with (w_ctx w) in E1. change (w_entries w0) with (w_entries w) in E2. change (na_in_target (w_io w0)) with a in E6. generalize dependent (dad_begin w0). clear w0. intros w1 E1 E2 E6 E8 E10.
  rewrite E6. unfold dad_ready. rewrite E1, I1, Z.eqb_refl. cbn [negb]. destruct a as [a|].
  2:{ rewrite decide_False by congruence. apply (dad_inv_same tick t _ w); [done|lia|done|done]. }
  destruct (trial_inv dad_fail (λ e, e <| d_state := IDEMIP_DAD_STATE_DUPLICATE |> <| d_deadline := 0 |>) (λ h, h <| h_advertised := true |>) true a w1 E1 E2) as [T1 T2]; [done|done| |done|].
  - intros e h Hok _. apply (fail_row _ e h); try done; [by left|apply Hok].
  - cbv zeta in T1, T2. destruct (dad_find_addr ENTRIES w1 a); [rewrite andb_true_r in T1, T2|]; rewrite decide_True by exact T1; exact T2.
Qed.

Lemma fired_reads x i : w_ctx (put_status (dad_publish x i) IDEMIP_OK) = w_ctx x ∧ w_entries (put_status (dad_publish x i) IDEMIP_OK) = w_entries x ∧
  io_send_ns (w_io (put_status (dad_publish x i) IDEMIP_OK)) = io_send_ns (w_io x) ∧ io_entry (w_io (put_status (dad_publish x i) IDEMIP_OK)) = i ∧
  io_status (w_io (put_status (dad_publish x i) IDEMIP_OK)) = IDEMIP_OK.
Proof using. split_and!; reflexivity. Qed.

Lemma tick_inv : s_call s = Tick → inv (s_at s) (s_at s) (do w s) (note H (do w s) s).
Proof using Hinv Ht Hm Hc.
  intros Hs. pose proof Hinv as [I1 I2 I3 I4]. unfold note, do. rewrite Hs. unfold idemip_dad_tick. set (w0 := put_io w _). destruct (begin_reads w0) as (E1&E2&_&_&_&_&E7&E8&E9&_).
  change (w_ctx w0) with (w_ctx w) in E1. change (w_entries w0) with (w_entries w) in E2. change (tick_now_ms (w_io w0)) with (u32 (s_at s)) in E7. generalize dependent (dad_begin w0). clear w0. intros w1 E1 E2 E7 E8 E9.
  unfold dad_ready. rewrite E1, I1, I2, Z.eqb_refl. cbn [negb orb]. rewrite bool_decide_eq_false_2 by done. unfold dad_fire. rewrite E7.
  assert (0 ≤ t) as H0 by (destruct I3 as (r&?&?&_); lia). rewrite <- E1 in I3. destruct (read_clock_spec w1 tick t (s_at s) I3 Ht Hm) as (w2&->&F1&F2&F3&F4&F5). rewrite E1 in F3, F4. rewrite F2. cbv iota beta.
  apply (rows_later t (s_at s)) in I4; [|lia]. rewrite <- E2, <- F1 in I4.
  destruct (scan _ ENTRIES 0) as [i|] eqn:Hsc.
  2:{ rewrite decide_False by done. split; cbn; [congruence|congruence|done|done]. }
  apply scan_Some in Hsc as (Hi&Hp&_). apply andb_true_iff in Hp as [Hp Hd]. apply andb_true_iff in Hp as [Hu Hten]. apply Z.leb_le in Hd. destruct I4 as [Il Ir]. 
  destruct (Ir i ltac:(lia) Hu) as (H16&Hun&h&Hh&Hok). fold (DAD_AT w2 i) in *. set (a := d_addr (DAD_AT w2 i)) in *. assert (tlen (w_entries w2) = Z.of_nat ENTRIES) as Htl by (unfold tlen; lia).
  set (w3 := match d_state (DAD_AT w2 i) with IDEMIP_DAD_STATE_DELAY => _ | _ => _ end).
  assert (∃ e', w_ctx w3 = w_ctx w2 ∧ w_entries w3 = tset (w_entries w2) i e' ∧ d_addr e' = a ∧
    (if io_send_ns (w_io w3) then row_ok (s_at s) e' (h <| h_probes := h_probes h ++ [s_at s] |>) else row_ok (s_at s) e' h)) as (e'&G1&G2&G3&G4).
  { assert (transmits w2 = cfg_transmits c) as Htr by (unfold transmits; by rewrite F4, I2). destruct (d_state (DAD_AT w2 i)) eqn:Est; try done; subst w3; unfold dad_send.
    - eexists. split; [reflexivity|]. split; [reflexivity|]. split; [reflexivity|]. change (transmits (put_io w2 _)) with (transmits w2). change (DAD_AT (put_io w2 _) i) with (DAD_AT w2 i). rewrite Htr. apply send_row; [done|lia|by left|done].
    - eexists. split; [reflexivity|]. split; [reflexivity|]. split; [reflexivity|]. rewrite Htr. apply send_row; [done|lia|by right|done].
    - eexists. split; [reflexivity|]. split; [reflexivity|]. split; [reflexivity|]. unfold dad_pass. change (io_send_ns (w_io (put_io (put_row ?x ?y ?z) (_ <| io_unique := true |>)))) with (io_send_ns (w_io w2)).
      rewrite F2, E9. apply pass_row; done. }
  clearbody w3. destruct (fired_reads w3 i) as (P1&P2&P3&P4&P5). unfold put_status in *. set (w4 := put_io (dad_publish w3 i) _) in *. clearbody w4.
  rewrite decide_True by done. rewrite P3, P4. unfold DAD_AT at 1. rewrite P2, G2, tget_tset_eq, G3 by lia.
  split; rewrite ?P1, ?G1, ?F3, ?F4; [done|done|done|]. rewrite P2, G2.
  apply (rows_put (s_at s) (w_entries w2) H _ i e' a); [done|lia| | |].
  - intros j Hj Hji Huj Haj. by destruct Hji; apply Hun.
  - intros b Hb. destruct (io_send_ns (w_io w3)); [|done]. by apply lookup_alter_ne.
  - intros _. split_and!; [done|done|]. destruct (io_send_ns (w_io w3)); [|by exists h]. eexists. split; [by rewrite lookup_alter_eq, Hh|]. exact G4.
Qed.

Lemma dad_fresh_row e r : 0 ≤ s_at s → is_u32 r → d_retrans_ms e = r → d_sent e = 0 → d_received e = 0 →
  (d_state e = IDEMIP_DAD_STATE_UNIQUE ∧ cfg_transmits c = 0 ∨ d_state e = IDEMIP_DAD_STATE_DELAY ∧ 0 < cfg_transmits c) → row_ok (s_at s) e (mkHist r [] [] false).
Proof using.
  clear. intros H0 Hr E1 E2 E3 Hst. split; try done. pose proof (not_conflicted_empty r) as Hn. unfold phase. destruct Hst as [[-> Hz]|[-> Hz]]; [|by split_and!].
  split; [|exact Hn]. split_and!; [cbn; lia| |done]. by intros [|?] p q.
Qed.

Lemma start_inv a : s_call s = Start a → is_u32 (sa_retrans_ms a) → inv tick (s_at s) (do w s) (note H (do w s) s).
Proof using Hinv Ht Hm Hc.
  intros Hs Hru. pose proof Hinv as [I1 I2 I3 I4]. unfold note, do. rewrite Hs. unfold idemip_dad_start. set (w0 := put_io w _). destruct (begin_reads w0) as (E1&E2&E3&_&_&_&_&E8&_).
  change (w_ctx w0) with (w_ctx w) in E1. change (w_entries w0) with (w_entries w) in E2. change (start_args (w_io w0)) with (mkStartArgs (sa_addr a) (sa_retrans_ms a) (sa_rand a) (u32 (s_at s)) (sa_delay a) (sa_hw_derived a) (sa_anycast a)) in E3.
  generalize dependent (dad_begin w0). clear w0. intros w1 E1 E2 E3 E8. rewrite E3. cbn [sa_addr sa_retrans_ms sa_rand sa_now_ms sa_delay sa_hw_derived sa_anycast].
  assert (inv tick (s_at s) w1 H) as Hsame by (apply (dad_inv_same tick t _ w); [done|lia|done|done]).
  destruct (sa_addr a) as [addr|]; [|by rewrite decide_False by congruence]. unfold dad_ready. rewrite E1, I1, I2, Z.eqb_refl, bool_decide_eq_false_2 by done. cbn [negb orb].
  destruct (_ || sa_anycast a); [by rewrite decide_False by congruence|]. destruct (dad_find_addr ENTRIES w1 addr) eqn:Hf; [rewrite bool_decide_eq_true_2 by done; by rewrite decide_False by congruence|].
  rewrite bool_decide_eq_false_2 by (intros Hx; by apply Hx). destruct (dad_free_slot ENTRIES w1) as [i|] eqn:Hfr.
  2:{ rewrite decide_False by done. apply (dad_inv_same tick (s_at s) _ w1); [done|lia|done|done]. }
  apply scan_Some in Hfr as (Hi&Hu&_). apply negb_true_iff in Hu. assert (0 ≤ t ∧ tick ≤ t) as [H0 Htt] by (destruct I3 as (r&?&?&_); lia). apply (rows_later t (s_at s)) in I4; [|lia]. pose proof I4 as [Il Ir].
  assert (tlen (w_entries w1) = Z.of_nat ENTRIES) as Htl by (rewrite E2; unfold tlen; lia).
  assert ((if negb (sa_retrans_ms a =? 0) then sa_retrans_ms a else IDEMIP_ND6_RETRANS_TIMER_MS) = retrans_of a) as -> by (unfold retrans_of; by destruct (_ =? 0)).
  set (e := (DAD_AT w1 i) <| d_addr := _ |> <| d_retrans_ms := _ |> <| d_sent := _ |> <| d_received := _ |> <| d_hw_derived := _ |> <| d_used := _ |>).
  assert (d_addr e = octets16 addr ∧ d_retrans_ms e = retrans_of a ∧ d_sent e = 0 ∧ d_received e = 0) as (D1&D2&D3&D4) by (split_and!; reflexivity). clearbody e.
  set (w3 := if transmits (put_row w1 i e) =? 0 then _ else _).
  assert (∃ e', c_ready (w_ctx w3) = DAD_READY ∧ c_cfg (w_ctx w3) = Some c ∧ clock_at tick (s_at s) (w_ctx w3) ∧ w_entries w3 = tset (w_entries w1) i e' ∧ d_addr e' = octets16 addr ∧
    row_ok (s_at s) e' (mkHist (retrans_of a) [] [] false)) as (e'&G1&G2&G3&G4&G5&G6).
  { assert (is_u32 (retrans_of a)) as Hr32 by (clear - Hru; unfold retrans_of; destruct (sa_retrans_ms a =? 0); [split; (reflexivity || discriminate)|done]).
    assert (transmits (put_row w1 i e) = cfg_transmits c) as Htr by (unfold transmits; change (w_ctx (put_row w1 i e)) with (w_ctx w1); by rewrite E1, I2). subst w3. rewrite Htr.
    destruct (Z.eqb_spec (cfg_transmits c) 0) as [Ez|Ez].
    - eexists. change (w_ctx (dad_pass (put_row w1 i e) i)) with (w_ctx w1). rewrite E1. split; [done|]. split; [done|]. split; [by apply (clock_later _ t); [lia|]|].
      unfold dad_pass. assert (DAD_AT (put_row w1 i e) i = e) as -> by (apply tget_tset_eq; lia). split; [apply tset_tset_eq|]. split; [exact D1|]. apply dad_fresh_row; try done; [lia|by left].
    - rewrite <- E1 in I3. change (w_ctx w1) with (w_ctx (put_row w1 i e)) in I3. destruct (read_clock_spec (put_row w1 i e) tick t (s_at s) I3 Ht Hm) as (w2&->&F1&_&F3&F4&F5).
      cbv iota beta. set (dl := if sa_delay a then _ else _). clearbody dl. exists (e <| d_state := IDEMIP_DAD_STATE_DELAY |> <| d_deadline := dl |>). split; [etrans; [exact F3|]; change (w_ctx (put_row w1 i e)) with (w_ctx w1); by rewrite E1|].
      split; [etrans; [exact F4|]; change (w_ctx (put_row w1 i e)) with (w_ctx w1); by rewrite E1|]. split.
      { destruct F5 as (r&?&?&?&?). exists r. split_and!; try done; lia. }
      split; [|split; [exact D1|]].
      + change (tset (w_entries w2) i (e <| d_state := IDEMIP_DAD_STATE_DELAY |> <| d_deadline := dl |>) = tset (w_entries w1) i (e <| d_state := IDEMIP_DAD_STATE_DELAY |> <| d_deadline := dl |>)).
        rewrite F1. apply tset_tset_eq.
      + apply dad_fresh_row; try done; [lia|]. right. split; [done|]. destruct Hc. lia. }
  clearbody w3. destruct (fired_reads w3 i) as (P1&P2&_&_&P5). set (w4 := put_status (dad_publish w3 i) IDEMIP_OK) in *. clearbody w4. rewrite decide_True by done.
  split; rewrite ?P1, ?P2; [done..|]. rewrite G4. rewrite <- E2 in I4, Ir. apply (rows_put (s_at s) (w_entries w1) H _ i e' (octets16 addr)); [done|lia| | |].
  - intros j Hj _ Huj Haj. destruct (Ir j Hj Huj) as (H16&_). apply (find_none w1 addr Hf j Hj Huj). unfold DAD_AT. by rewrite H16.
  - intros b Hb. by apply lookup_insert_ne.
  - intros _. split_and!; [done| |]. { unfold octets16. by rewrite take_take, Nat.min_id. } eexists. split; [apply lookup_insert_eq|done].
Qed.
End Entries.

Lemma do_inv tick t w H s : inv tick t w H → t ≤ s_at s < tick + 4294967296 → s_at s < 4611686018427387904 → (match s_call s with Start a => is_u32 (sa_retrans_ms a) | _ => True end) →
  inv (if is_tick s then s_at s else tick) (s_at s) (do w s) (note H (do w s) s).
Proof using Hc.
  intros Hinv Ht Hm Hr. unfold is_tick. destruct (s_call s) as [a|a|a|a|a|] eqn:Hs.
  - by apply (start_inv tick t w H s Hinv Ht Hm a).
  - by apply (stop_inv tick t w H s Hinv Ht a).
  - by apply (find_inv tick t w H s Hinv Ht a).
  - by apply (ns_inv tick t w H s Hinv Ht a).
  - by apply (na_inv tick t w H s Hinv Ht a).
  - by apply (tick_inv tick t w H s Hinv Ht Hm).
Qed.
Lemma dad_run_inv l tick t w H : inv tick t w H → timely tick t l → ∃ tick' t', t ≤ t' ∧ (∀ s, s ∈ l → s_at s ≤ t') ∧ (t' = t ∨ ∃ s, s ∈ l ∧ s_at s = t') ∧ inv tick' t' (run l w H).1 (run l w H).2.
Proof using Hc.
  revert tick t w H. induction l as [|s l IH]; intros tick t w H Hinv Htm.
  - exists tick, t. split_and!; [lia| |by left|done]. intros s Hs. by apply not_elem_of_nil in Hs.
  - destruct Htm as (H1&H2&H3&H4). pose proof (do_inv tick t w H s Hinv H1 H2 H3) as Hd. destruct (IH _ _ _ _ Hd H4) as (tick'&t'&Q1&Q2&Q3&Q4). exists tick', t'. split_and!; [lia| | |done].
    + intros s' [->|Hs]%elem_of_cons; [done|by apply Q2].
    + right. destruct Q3 as [->|(s'&?&?)]; [exists s|exists s']; (split; [|done]); apply elem_of_cons; tauto.
Qed.

(** A cleared borrow bound to the configuration. *)
Definition bound (w0 : Work) : Work := let w := idemip_dad_clear ENTRIES w0 in idemip_dad_bind (put_io w ((w_io w) <| bind_cfg := Some c |>)).
Lemma bound_inv w0 : inv 0 0 (bound w0) ∅.
Proof using.
  clear Hc. split; try done.
  - exists 0. split_and!; (done || lia).
  - split; [change (w_entries (bound w0)) with (replicate ENTRIES (inhabitant : DadEntry)); apply length_replicate|]. change (w_entries (bound w0)) with (replicate ENTRIES (inhabitant : DadEntry)). intros i Hi. 
    unfold tget. rewrite (list_lookup_total_correct _ _ inhabitant); [done|]. apply lookup_replicate. split; [done|lia].
Qed.
End Run.


(** Two solicitations for fe80::7, the first of them heard back, and one for fe80::9 that another's crosses. *)
Definition eg_addr (x : Z) : list Z := [0xFE; 0x80] ++ replicate 13 0 ++ [x].
Definition eg_start (x : Z) : call := Start (mkStartArgs (Some (eg_addr x)) 0 0 0 false true false).
Definition eg_heard (x : Z) : call := NsIn (mkNsInArgs (Some (eg_addr x)) true).
Definition eg_unused : Work :=
  mkWork (mkIo None (mkStartArgs None 0 0 0 false false false) None (mkNsInArgs None false) None 0 None 0 [] IDEMIP_OK 0 IDEMIP_DAD_STATE_FREE 0 0 false false false false false false)
    (mkCtx 0 None 0 0) [].
Definition eg_steps : list step :=
  [mkStep 4294967000 (eg_start 7); mkStep 4294967001 Tick; mkStep 4294967002 (eg_heard 7); mkStep 4294967003 (eg_start 9); mkStep 4294967004 (eg_heard 9); mkStep 4294968001 Tick; mkStep 4294969001 Tick].

(** ** 255 transmissions

    The count of what was heard stops at 255, so with that many transmissions and an interface that loops them
    back no number of another's solicitations fails the address. *)
Example duplicate_missed_at_255 :
  let c := mkCfg 255 true in
  let sends := (λ k, mkStep (1000 * k) Tick) <$> seqZ 0 255 in
  let hears := replicate 300 (mkStep 254500 (eg_heard 7)) in
  let '(w, H) := run 1 ([mkStep 0 (eg_start 7)] ++ sends ++ hears ++ [mkStep 255000 Tick]) (bound 1 c eg_unused) ∅ in
  io_state (w_io (do 1 w (mkStep 255000 (Find (Some (eg_addr 7)))))) = IDEMIP_DAD_STATE_UNIQUE ∧ length <$> (h_heard <$> H !! eg_addr 7) = Some 300%nat.
Proof. vm_compute. split; reflexivity. Qed.
End DadThms.
