(* ===== verification/Loopif.v ===== *)
(** * The loopback interface (src/netif/loopif.c)

    A ring of frame regions: output copies a frame into the next free one, claim hands out the oldest where it
    lies, release frees it; and the addresses that are loopback.  The result [frame] points at a region and is its
    number. *)
From S2P Require Import Prelude Base Wire Ethernet.

Module Loopif.
Import Wire Ethernet.

Definition LOOPIF_READY : Z := 0x4C4F4F50.
Definition IDEMIP_LOOPIF_NET4 : Z := 0x7F000000.
Definition IDEMIP_LOOPIF_NET4_MASK : Z := 0xFF000000.
Definition IDEMIP_IP6_ADDR_LEN : Z := 16.

Record LoopifBindArgs := mkBindArgs { ba_addr4 : Z; ba_addr6 : option (list Z); ba_mtu : Z; ba_index : Z }.
Record LoopifOutputArgs := mkOutputArgs { oa_frame : option (list Z); oa_len : Z }.
Record LoopifMatchArgs := mkMatchArgs { ma_addr4 : Z; ma_addr6 : option (list Z) }.
Record LoopifIo := mkIo {
  bind_args : LoopifBindArgs; output_args : LoopifOutputArgs; match_args : LoopifMatchArgs;
  io_status : IdemIpStatus; io_frame : option Z; io_len : Z; io_slot : Z; io_held : Z; io_owned : bool }.
#[export] Instance LoopifIo_eta : Eta LoopifIo := fun r =>
  mkIo (bind_args r) (output_args r) (match_args r) (io_status r) (io_frame r) (io_len r) (io_slot r) (io_held r) (io_owned r).
Record LoopifCtx := mkCtx { c_ready : Z; c_len : list Z; c_mtu : Z; c_head : Z; c_tail : Z; c_held : Z; c_claimed : Z }.
#[export] Instance LoopifCtx_eta : Eta LoopifCtx := fun r => mkCtx (c_ready r) (c_len r) (c_mtu r) (c_head r) (c_tail r) (c_held r) (c_claimed r).
Record Work := mkWork { w_io : LoopifIo; w_ctx : LoopifCtx; w_frames : list (list Z) }.
#[export] Instance Work_eta : Eta Work := fun r => mkWork (w_io r) (w_ctx r) (w_frames r).
Definition put_io (w : Work) (io : LoopifIo) : Work := w <| w_io := io |>.

Definition ready (w : Work) : bool := c_ready (w_ctx w) =? LOOPIF_READY.

Definition loopif_is_lo4 (addr : Z) : bool := Z.land addr IDEMIP_LOOPIF_NET4_MASK =? IDEMIP_LOOPIF_NET4.
Definition loopif_is_lo6 (addr : list Z) : bool :=
  forallb (λ b, b =? 0) (take (Z.to_nat (IDEMIP_IP6_ADDR_LEN - 1)) addr) && (tget addr (IDEMIP_IP6_ADDR_LEN - 1) =? 1).

Section Build.
(** The regions of the build, how wide each is, and its interfaces. *)
Variables LOOPIF_FRAMES FRAME_BYTES NETIF_COUNT : Z.
Definition LOOPIF_WRAP : Z := LOOPIF_FRAMES - 1.

Definition loopif_push (w : Work) (frame : list Z) (len : Z) : Work :=
  let ctx := w_ctx w in
  let slot := c_tail ctx in
  let held := u8 (c_held ctx + 1) in
  mkWork ((w_io w) <| io_slot := slot |> <| io_held := held |>)
    (ctx <| c_len := tset (c_len ctx) slot (u16 len) |> <| c_tail := u8 (Z.land (slot + 1) LOOPIF_WRAP) |> <| c_held := held |>)
    (tset (w_frames w) slot (memcpy (tget (w_frames w) slot) 0 frame len)).
Definition loopif_peek (w : Work) : Work :=
  let ctx := w_ctx w in
  mkWork ((w_io w) <| io_frame := Some (c_head ctx) |> <| io_len := tget (c_len ctx) (c_head ctx) |> <| io_slot := c_head ctx |> <| io_held := c_held ctx |>)
    (ctx <| c_claimed := 1 |>) (w_frames w).
Definition loopif_pop (w : Work) : Work :=
  let ctx := w_ctx w in
  let slot := c_head ctx in
  let held := u8 (c_held ctx - 1) in
  mkWork ((w_io w) <| io_slot := slot |> <| io_held := held |> <| io_frame := None |> <| io_len := 0 |>)
    (ctx <| c_len := tset (c_len ctx) slot 0 |> <| c_head := u8 (Z.land (slot + 1) LOOPIF_WRAP) |> <| c_held := held |> <| c_claimed := 0 |>) (w_frames w).

Definition idemip_loopif_clear (w : Work) : Work :=
  mkWork ((w_io w) <| io_status := IDEMIP_OK |>) (mkCtx LOOPIF_READY (replicate (Z.to_nat LOOPIF_FRAMES) 0) 0 0 0 0 0)
    (replicate (Z.to_nat LOOPIF_FRAMES) (replicate (Z.to_nat FRAME_BYTES) 0)).

Definition idemip_loopif_bind (w : Work) : Work :=
  let io := (w_io w) <| io_status := IDEMIP_ERR |> in
  let a := bind_args io in
  if negb (ready w) || (ba_mtu a =? 0) || (IDEMIP_ETH_MAX_PAYLOAD <? ba_mtu a) || (NETIF_COUNT <=? ba_index a) then put_io w io
  else
  match ba_addr6 a with
  | None => put_io w io
  | Some addr6 =>
      if negb (loopif_is_lo4 (ba_addr4 a)) then put_io w io
      else if negb (loopif_is_lo6 addr6) then put_io w io
      else mkWork (io <| io_status := IDEMIP_OK |>) ((w_ctx w) <| c_mtu := ba_mtu a |>) (w_frames w)
  end.

Definition idemip_loopif_output (w : Work) : Work :=
  let io := (w_io w) <| io_status := IDEMIP_ERR |> <| io_slot := 0 |> <| io_held := 0 |> in
  let a := output_args io in
  match oa_frame a with
  | None => put_io w io
  | Some frame =>
      if negb (ready w) || (oa_len a =? 0) then put_io w io
      else if c_mtu (w_ctx w) + IDEMIP_ETH_HDR_LEN <? oa_len a then put_io w io
      else
      let io := io <| io_held := c_held (w_ctx w) |> in
      if LOOPIF_FRAMES <=? c_held (w_ctx w) then put_io w (io <| io_status := IDEMIP_BUSY |>)
      else
      let w := loopif_push (put_io w io) frame (oa_len a) in
      put_io w ((w_io w) <| io_status := IDEMIP_OK |>)
  end.

Definition idemip_loopif_claim (w : Work) : Work :=
  let io := (w_io w) <| io_status := IDEMIP_ERR |> <| io_frame := None |> <| io_len := 0 |> <| io_slot := 0 |> <| io_held := 0 |> in
  if negb (ready w) then put_io w io
  else
  let io := io <| io_held := c_held (w_ctx w) |> in
  if negb (c_claimed (w_ctx w) =? 0) then put_io w io
  else if c_held (w_ctx w) =? 0 then put_io w (io <| io_status := IDEMIP_BUSY |>)
  else
  let w := loopif_peek (put_io w io) in
  put_io w ((w_io w) <| io_status := IDEMIP_OK |>).

Definition idemip_loopif_release (w : Work) : Work :=
  let io := (w_io w) <| io_status := IDEMIP_ERR |> <| io_slot := 0 |> <| io_held := 0 |> in
  if negb (ready w) then put_io w io
  else
  let io := io <| io_held := c_held (w_ctx w) |> in
  if c_claimed (w_ctx w) =? 0 then put_io w io
  else
  let w := loopif_pop (put_io w io) in
  put_io w ((w_io w) <| io_status := IDEMIP_OK |>).

Definition idemip_loopif_owns4 (w : Work) : Work :=
  let io := (w_io w) <| io_status := IDEMIP_ERR |> <| io_owned := false |> in
  if negb (ready w) then put_io w io
  else put_io w (io <| io_owned := loopif_is_lo4 (ma_addr4 (match_args io)) |> <| io_status := IDEMIP_OK |>).
Definition idemip_loopif_owns6 (w : Work) : Work :=
  let io := (w_io w) <| io_status := IDEMIP_ERR |> <| io_owned := false |> in
  if negb (ready w) then put_io w io
  else match ma_addr6 (match_args io) with
       | None => put_io w io
       | Some addr6 => put_io w (io <| io_owned := loopif_is_lo6 addr6 |> <| io_status := IDEMIP_OK |>)
       end.
End Build.
End Loopif.

(** * A queue of frames

    The machine without regions: frames in the order they were put out, one of them perhaps in the caller's
    hands. *)
Module LoopifThms.
Import Wire Ethernet Loopif.

Record queue := mkQueue { q_mtu : Z; q_frames : list (list Z); q_out : bool }.
Inductive op := Bind (a : LoopifBindArgs) | Output (a : LoopifOutputArgs) | Claim | Release | Owns4 (addr : Z) | Owns6 (addr : option (list Z)).

(** Of an address that is asked about or bound. *)
Definition lo4 (addr : Z) : Prop := addr / 16777216 = 127.
Definition lo6 (addr : list Z) : Prop := take 16 addr = replicate 15 0 ++ [1].

Section Ring.
Variables LOOPIF_FRAMES FRAME_BYTES NETIF_COUNT : Z.
Local Abbreviation N := LOOPIF_FRAMES.

(** The queue's answer: what it is then, the status, and for a claim the frame. *)
Definition answer (q : queue) (o : op) (lo : bool) : queue * (IdemIpStatus * list Z) :=
  match o with
  | Bind a => if lo && (0 <? ba_mtu a) && (ba_mtu a <=? 1500) && (ba_index a <? NETIF_COUNT) then (mkQueue (ba_mtu a) (q_frames q) (q_out q), (IDEMIP_OK, [])) else (q, (IDEMIP_ERR, []))
  | Output (mkOutputArgs (Some f) len) =>
      if (len =? 0) || (q_mtu q + 14 <? len) then (q, (IDEMIP_ERR, []))
      else if N <=? Z.of_nat (length (q_frames q)) then (q, (IDEMIP_BUSY, []))
      else (mkQueue (q_mtu q) (q_frames q ++ [take (Z.to_nat len) f]) (q_out q), (IDEMIP_OK, []))
  | Output _ => (q, (IDEMIP_ERR, []))
  | Claim => if q_out q then (q, (IDEMIP_ERR, [])) else match q_frames q with [] => (q, (IDEMIP_BUSY, [])) | f :: _ => (mkQueue (q_mtu q) (q_frames q) true, (IDEMIP_OK, f)) end
  | Release => if q_out q then (mkQueue (q_mtu q) (tail (q_frames q)) false, (IDEMIP_OK, [])) else (q, (IDEMIP_ERR, []))
  | Owns4 _ => (q, (IDEMIP_OK, []))
  | Owns6 a => (q, (if decide (a = None) then IDEMIP_ERR else IDEMIP_OK, []))
  end.

(** The entry, and what its caller reads: the status and, when a frame is handed out, its octets. *)
Definition call (w : Work) (o : op) : Work :=
  match o with
  | Bind a => idemip_loopif_bind NETIF_COUNT (put_io w ((w_io w) <| bind_args := a |>))
  | Output a => idemip_loopif_output N (put_io w ((w_io w) <| output_args := a |>))
  | Claim => idemip_loopif_claim w
  | Release => idemip_loopif_release N w
  | Owns4 a => idemip_loopif_owns4 (put_io w ((w_io w) <| match_args := mkMatchArgs a None |>))
  | Owns6 a => idemip_loopif_owns6 (put_io w ((w_io w) <| match_args := mkMatchArgs 0 a |>))
  end.
Definition seen (o : op) (w : Work) : IdemIpStatus * list Z :=
  (io_status (w_io w), match o, io_frame (w_io w) with Claim, Some i => take (Z.to_nat (io_len (w_io w))) (tget (w_frames w) i) | _, _ => [] end).
(** What a call was handed is what it says: an output's octets are there. *)
Definition op_ok (o : op) : Prop :=
  match o with
  | Bind a => is_u32 (ba_addr4 a) ∧ is_u16 (ba_mtu a) ∧ match ba_addr6 a with Some x => length x = 16%nat | None => True end
  | Output (mkOutputArgs (Some f) len) => 0 ≤ len ≤ Z.of_nat (length f)
  | _ => True
  end.
Definition asks_lo (o : op) : bool :=
  match o with Bind a => bool_decide (lo4 (ba_addr4 a)) && match ba_addr6 a with Some x => bool_decide (lo6 x) | None => false end | _ => true end.

(** The ring holds the queue. *)
Record holds (w : Work) (q : queue) : Prop := {
  h_ready : c_ready (w_ctx w) = LOOPIF_READY;
  h_mtu : c_mtu (w_ctx w) = q_mtu q ∧ 0 ≤ q_mtu q ≤ 1500;
  h_out : c_claimed (w_ctx w) = (if q_out q then 1 else 0) ∧ (q_out q = true → q_frames q ≠ []);
  h_held : c_held (w_ctx w) = Z.of_nat (length (q_frames q)) ∧ Z.of_nat (length (q_frames q)) ≤ N;
  h_head : 0 ≤ c_head (w_ctx w) < N;
  h_tail : c_tail (w_ctx w) = (c_head (w_ctx w) + c_held (w_ctx w)) mod N;
  h_lens : tlen (c_len (w_ctx w)) = N;
  h_wide : tlen (w_frames w) = N ∧ Forall (λ r, Z.of_nat (length r) = FRAME_BYTES) (w_frames w);
  h_frames : ∀ k f, q_frames q !! k = Some f → let s := (c_head (w_ctx w) + Z.of_nat k) mod N in
    tget (c_len (w_ctx w)) s = Z.of_nat (length f) ∧ take (length f) (tget (w_frames w) s) = f }.

Context (HN : ∃ k, 0 ≤ k ≤ 7 ∧ N = 2 ^ k) (HF : 1514 ≤ FRAME_BYTES).
Lemma size : 1 ≤ N ≤ 128.
Proof using HN. destruct HN as (k&Hk&->). change 1 with (2 ^ 0) at 1. change 128 with (2 ^ 7). split; apply Z.pow_le_mono_r; lia. Qed.
Lemma wraps x : 0 ≤ x < N → u8 (Z.land (x + 1) (LOOPIF_WRAP N)) = (x + 1) mod N.
Proof using HN.
  intros Hx. pose proof size as Hs. destruct HN as (k&Hk&E). unfold LOOPIF_WRAP. rewrite E. replace (2 ^ k - 1) with (Z.ones k) by (rewrite Z.ones_equiv; lia).
  rewrite Z.land_ones, <- E by lia. apply u8_id. pose proof (Z.mod_pos_bound (x + 1) N ltac:(lia)). unfold is_u8. lia.
Qed.

Lemma lo4_iff a : is_u32 a → loopif_is_lo4 a = bool_decide (lo4 a).
Proof using.
  clear. intros Ha. unfold loopif_is_lo4, lo4, IDEMIP_LOOPIF_NET4_MASK, IDEMIP_LOOPIF_NET4. assert (Z.land a 0xFF000000 = a / 16777216 * 16777216) as ->.
  { change 16777216 with (2 ^ 24). rewrite <- Z.shiftr_div_pow2, <- Z.shiftl_mul_pow2 by lia. apply Z.bits_inj'. intros i Hi. rewrite Z.land_spec, Z.shiftl_spec by lia.
    change 0xFF000000 with (Z.shiftl (Z.ones 8) 24). rewrite Z.shiftl_spec by lia. destruct (Z.lt_ge_cases i 24).
    - rewrite !(Z.testbit_neg_r _ (i - 24)) by lia. apply andb_false_r.
    - rewrite Z.shiftr_spec by lia. replace (i - 24 + 24) with i by lia. destruct (Z.lt_ge_cases i 32).
      + by rewrite Z.ones_spec_low, andb_true_r by lia.
      + unfold is_u32 in Ha. by rewrite (testbit_high 32 a) by lia. }
  case_bool_decide; [apply Z.eqb_eq; lia|apply Z.eqb_neq; lia].
Qed.
Lemma lo6_iff (a : list Z) : length a = 16%nat → loopif_is_lo6 a = bool_decide (lo6 a).
Proof using.
  clear. intros Ha. apply eq_bool_prop_intro. unfold loopif_is_lo6, lo6, IDEMIP_IP6_ADDR_LEN. rewrite (take_ge a 16) by lia.
  change (Z.to_nat (16 - 1)) with 15%nat. change (16 - 1) with (Z.of_nat 15). rewrite andb_True, bool_decide_spec, !Is_true_true, Z.eqb_eq, zeros_iff, length_take, Ha.
  pose proof (split_last a 15 Ha) as E. split; [intros [H1 H2]; by rewrite E, H1, H2|]. intros ->. done.
Qed.

Lemma slots_apart h j k : 0 ≤ j < N → 0 ≤ k < N → (h + j) mod N = (h + k) mod N → j = k.
Proof using.
  clear. intros Hj Hk E. set (x := h + j) in *. set (y := h + k) in *. assert (x / N = y / N) as Eq.
  { apply (f_equal (λ z, z - x mod N)) in E. assert (x - y = N * (x / N - y / N)) as Hd by (pose proof (Z.div_mod x N ltac:(lia)); pose proof (Z.div_mod y N ltac:(lia)); lia).
    assert (- N < x - y < N) by lia. nia. }
  pose proof (Z.div_mod x N ltac:(lia)). pose proof (Z.div_mod y N ltac:(lia)). rewrite E, Eq in *. lia.
Qed.
Lemma slot_next h j : ((h + j) mod N + 1) mod N = (h + (j + 1)) mod N.
Proof using. clear. rewrite Zplus_mod_idemp_l. f_equal. lia. Qed.

Lemma holds_io w io q : holds w q → holds (put_io w io) q.
Proof using. intros [H1 H2 H3 H4 H5 H6 H7 H8 H9]. by split. Qed.

Lemma output_holds w q f len : holds w q → 0 < len ≤ Z.of_nat (length f) → len ≤ q_mtu q + 14 → Z.of_nat (length (q_frames q)) < N →
  holds (loopif_push N w f len) (mkQueue (q_mtu q) (q_frames q ++ [take (Z.to_nat len) f]) (q_out q)).
Proof using HN HF.
  intros [H1 [H2 H2'] [H3 H3'] [H4 _] H5 H6 H7 [H8 H8'] H9] Hl Hm Hn. pose proof size as Hs. set (h := c_head (w_ctx w)) in *. set (n := Z.of_nat (length (q_frames q))) in *.
  assert (0 ≤ c_tail (w_ctx w) < N) as Ht by (rewrite H6; apply Z.mod_pos_bound; lia). assert (u8 (c_held (w_ctx w) + 1) = n + 1) as Hu by (rewrite H4; apply u8_id; unfold is_u8; lia).
  set (r := tget (w_frames w) (c_tail (w_ctx w))). assert (Z.of_nat (length r) = FRAME_BYTES) as Hr.
  { subst r. unfold tget. rewrite Forall_forall in H8'. apply H8', list_elem_of_lookup_2 with (Z.to_nat (c_tail (w_ctx w))), list_lookup_lookup_total_lt. unfold tlen in H8. lia. }
  assert (length (take (Z.to_nat len) f) = Z.to_nat len) as Hfl by (rewrite length_take; lia).
  assert (length (memcpy r 0 f len) = length r ∧ take (Z.to_nat len) (memcpy r 0 f len) = take (Z.to_nat len) f) as [Hm1 Hm2].
  { unfold memcpy. change (Z.to_nat 0) with 0%nat. rewrite take_0, Z.add_0_l. cbn [app]. split; [rewrite length_app, Hfl, length_drop; lia|]. rewrite <- Hfl at 1. apply take_app_length. }
  unfold loopif_push. rewrite Hu. fold r. split; cbn [w_ctx w_frames q_mtu q_frames q_out].
  - exact H1.
  - by split.
  - split; [exact H3|]. intros _. by destruct (q_frames q).
  - rewrite length_app. cbn [length]. change (n + 1 = Z.of_nat (length (q_frames q) + 1) ∧ Z.of_nat (length (q_frames q) + 1) ≤ N). lia.
  - exact H5.
  - change (u8 (Z.land (c_tail (w_ctx w) + 1) (LOOPIF_WRAP N)) = (h + (n + 1)) mod N). rewrite wraps, H6, H4 by done. apply slot_next.
  - change (tlen (tset (c_len (w_ctx w)) (c_tail (w_ctx w)) (u16 len)) = N). by rewrite tlen_tset.
  - split; [by rewrite tlen_tset|]. unfold tset. apply Forall_insert; [done|]. lia.
  - intros k g Hk. cbv zeta. change (c_head (_ <| c_held := _ |>)) with h. change (c_len (_ <| c_held := _ |>)) with (tset (c_len (w_ctx w)) (c_tail (w_ctx w)) (u16 len)).
    destruct (decide (k < length (q_frames q))%nat) as [Hlt|Hge].
    + rewrite lookup_app_l in Hk by done. assert ((h + Z.of_nat k) mod N ≠ c_tail (w_ctx w)) as Hne by (rewrite H6, H4; intros E; apply slots_apart in E; lia).
      pose proof (Z.mod_pos_bound (h + Z.of_nat k) N ltac:(lia)). rewrite !tget_tset_ne by lia. by apply H9.
    + rewrite lookup_app_r in Hk by lia. apply list_lookup_singleton_Some in Hk as [Hk <-]. replace (h + Z.of_nat k) with (h + c_held (w_ctx w)) by lia. rewrite <- H6.
      rewrite !tget_tset_eq by lia. rewrite Hfl. split; [rewrite u16_id by (unfold is_u16; lia); lia|done].
Qed.

Lemma release_holds w q : holds w q → q_out q = true → holds (loopif_pop N w) (mkQueue (q_mtu q) (tail (q_frames q)) false).
Proof using HN.
  intros [H1 H2 [H3 H3'] [H4 H4'] H5 H6 H7 H8 H9] Ho. pose proof size as Hs. specialize (H3' Ho). destruct (q_frames q) as [|f0 l] eqn:Eq; [done|]. cbn [tail length] in *. set (h := c_head (w_ctx w)) in *.
  assert (u8 (c_held (w_ctx w) - 1) = Z.of_nat (length l)) as Hu by (rewrite H4; rewrite u8_id by (unfold is_u8; lia); lia). unfold loopif_pop. rewrite Hu. split; cbn [w_ctx w_frames q_mtu q_frames q_out].
  - exact H1.
  - exact H2.
  - by split.
  - split; [done|lia].
  - change (0 ≤ u8 (Z.land (h + 1) (LOOPIF_WRAP N)) < N). rewrite wraps by done. apply Z.mod_pos_bound. lia.
  - change (c_tail (w_ctx w) = (u8 (Z.land (h + 1) (LOOPIF_WRAP N)) + Z.of_nat (length l)) mod N). rewrite wraps, H6, H4, Zplus_mod_idemp_l by done. f_equal. lia.
  - change (tlen (tset (c_len (w_ctx w)) h 0) = N). by rewrite tlen_tset.
  - exact H8.
  - intros k g Hk. cbv zeta. change (c_head (_ <| c_claimed := _ |>)) with (u8 (Z.land (h + 1) (LOOPIF_WRAP N))). change (c_len (_ <| c_claimed := _ |>)) with (tset (c_len (w_ctx w)) h 0).
    rewrite wraps, Zplus_mod_idemp_l by done. replace (h + 1 + Z.of_nat k) with (h + Z.of_nat (S k)) by lia. apply lookup_lt_Some in Hk as Hlt.
    assert ((h + Z.of_nat (S k)) mod N ≠ h) as Hne by (intros E; rewrite <- (Z.mod_small h N) in E at 2 by lia; rewrite <- (Z.add_0_r h) in E at 2; apply slots_apart in E; lia).
    pose proof (Z.mod_pos_bound (h + Z.of_nat (S k)) N ltac:(lia)). rewrite tget_tset_ne by lia. by apply (H9 (S k) g).
Qed.

Lemma call_follows w q o : holds w q → op_ok o → holds (call w o) (answer q o (asks_lo o)).1 ∧ seen o (call w o) = (answer q o (asks_lo o)).2.
Proof using HN HF.
  intros Hh Hok. pose proof Hh as [H1 [H2 H2'] [H3 H3'] [H4 H4'] H5 H6 H7 H8 H9]. assert (∀ w', w_ctx w' = w_ctx w → ready w' = true) as Hrd by (intros w' E; unfold ready; by rewrite E, H1).
  assert (∀ w' io, w_ctx w' = w_ctx w → w_frames w' = w_frames w → holds (put_io w' io) q) as Hsame by (intros w' io E1 E2; split; cbn [w_ctx w_frames put_io]; unfold put_io; cbn; rewrite ?E1, ?E2; done).
  destruct o as [a|[[f|] len]| | |x|[x|]]; unfold seen, call, answer, asks_lo in *.
  - set (w0 := put_io w _). assert (w_ctx w0 = w_ctx w ∧ w_frames w0 = w_frames w ∧ bind_args (w_io w0) = a) as (F1&F2&F3) by (split_and!; reflexivity). clearbody w0.
    unfold idemip_loopif_bind. rewrite Hrd by done. change (bind_args ((w_io w0) <| io_status := IDEMIP_ERR |>)) with (bind_args (w_io w0)). rewrite F3. destruct Hok as (Ha&Hm&H16). unfold IDEMIP_ETH_MAX_PAYLOAD. cbn [negb orb].
    destruct (Z.eqb_spec (ba_mtu a) 0) as [E0|E0]; cbn [orb].
    { rewrite (proj2 (Z.ltb_ge 0 (ba_mtu a))), andb_false_r by lia. cbn [andb]. split; [by apply Hsame|done]. }
    destruct (Z.ltb_spec 1500 (ba_mtu a)); cbn [orb].
    { rewrite (proj2 (Z.leb_gt (ba_mtu a) 1500)), andb_false_r by lia. cbn [andb]. split; [by apply Hsame|done]. }
    destruct (Z.leb_spec NETIF_COUNT (ba_index a)).
    { rewrite (proj2 (Z.ltb_ge (ba_index a) NETIF_COUNT)), andb_false_r by lia. split; [by apply Hsame|done]. }
    unfold is_u16 in Hm. rewrite (proj2 (Z.ltb_lt 0 _)), (proj2 (Z.leb_le _ 1500)), (proj2 (Z.ltb_lt (ba_index a) _)), !andb_true_r by lia.
    destruct (ba_addr6 a) as [x|]; [|rewrite andb_false_r; split; [by apply Hsame|done]]. rewrite lo4_iff, lo6_iff by done.
    destruct (bool_decide (lo4 (ba_addr4 a))); cbn [negb andb]; [|split; [by apply Hsame|done]]. destruct (bool_decide (lo6 x)); cbn [negb]; [|split; [by apply Hsame|done]].
    split; [|done]. split; cbn [w_ctx w_frames q_mtu q_frames q_out]; rewrite ?F1, ?F2; try done. cbn [fst q_mtu]. split; [reflexivity|lia].
  - set (w0 := put_io w _). assert (w_ctx w0 = w_ctx w ∧ w_frames w0 = w_frames w ∧ output_args (w_io w0) = mkOutputArgs (Some f) len) as (F1&F2&F3) by (split_and!; reflexivity). clearbody w0.
    unfold idemip_loopif_output. set (io := (w_io w0) <| io_status := _ |> <| io_slot := _ |> <| io_held := _ |>). assert (output_args io = mkOutputArgs (Some f) len ∧ io_status io = IDEMIP_ERR) as [F4 F5] by (split; [exact F3|reflexivity]). clearbody io.
    cbv zeta. rewrite F4. cbn [oa_frame oa_len]. rewrite Hrd by done. cbn [negb orb]. cbn in Hok. rewrite F1, H2, H4. unfold IDEMIP_ETH_HDR_LEN.
    destruct (Z.eqb_spec len 0); cbn [orb]; [split; [by apply Hsame|cbn; by rewrite F5]|]. destruct (Z.ltb_spec (q_mtu q + 14) len); [split; [by apply Hsame|cbn; by rewrite F5]|].
    destruct (Z.leb_spec N (Z.of_nat (length (q_frames q)))); [split; [by apply Hsame|done]|]. split; [|done]. apply holds_io, output_holds; try lia. by apply Hsame.
  - unfold idemip_loopif_output. split; [by apply (Hsame (put_io w _))|done].
  - unfold idemip_loopif_claim. rewrite Hrd by done. cbn [negb]. rewrite H3, H4. destruct (q_out q) eqn:Eo; [split; [by apply Hsame|done]|]. change (negb (0 =? 0)) with false. cbv iota.
    destruct (q_frames q) as [|f0 l] eqn:Eq; [split; [by apply Hsame|done]|]. destruct (Z.eqb_spec (Z.of_nat (length (f0 :: l))) 0); [cbn [length] in *; lia|].
    destruct (H9 0%nat f0 eq_refl) as [L1 L2]. rewrite Z.add_0_r, Z.mod_small in L1, L2 by done. split.
    + split; cbn [fst q_mtu q_frames q_out]; rewrite ?Eq; try done.
    + change ((IDEMIP_OK, take (Z.to_nat (tget (c_len (w_ctx w)) (c_head (w_ctx w)))) (tget (w_frames w) (c_head (w_ctx w)))) = (IDEMIP_OK, f0)). by rewrite L1, Nat2Z.id, L2.
  - unfold idemip_loopif_release. rewrite Hrd by done. cbn [negb]. rewrite H3. destruct (q_out q) eqn:Eo; [|split; [by apply Hsame|done]]. change (1 =? 0) with false. cbv iota.
    split; [|done]. apply holds_io. apply release_holds; [|done]. by apply Hsame.
  - unfold idemip_loopif_owns4. rewrite Hrd by done. split; [by apply (Hsame (put_io w _))|done].
  - unfold idemip_loopif_owns6. rewrite Hrd by done. split; [by apply (Hsame (put_io w _))|done].
  - unfold idemip_loopif_owns6. rewrite Hrd by done. split; [by apply (Hsame (put_io w _))|done].
Qed.

Fixpoint run (ops : list op) (w : Work) : list (IdemIpStatus * list Z) * Work :=
  match ops with [] => ([], w) | o :: ops => let w := call w o in let '(l, w') := run ops w in (seen o w :: l, w') end.
Fixpoint answers (ops : list op) (q : queue) : list (IdemIpStatus * list Z) :=
  match ops with [] => [] | o :: ops => let '(q, x) := answer q o (asks_lo o) in x :: answers ops q end.
Lemma run_follows ops : ∀ w q, holds w q → Forall op_ok ops → (run ops w).1 = answers ops q.
Proof using HN HF.
  induction ops as [|o ops IH]; intros w q Hh Hok; [done|]. apply Forall_cons_1 in Hok as [Ho Hok]. destruct (call_follows w q o Hh Ho) as [Hc Hs]. cbn [run answers].
  destruct (answer q o (asks_lo o)) as [q' x]. cbn [fst snd] in *. specialize (IH _ _ Hc Hok). destruct (run ops (call w o)) as [l w']. cbn [fst] in *. by rewrite Hs, IH.
Qed.
Lemma clear_holds w : holds (idemip_loopif_clear N FRAME_BYTES w) (mkQueue 0 [] false).
Proof using HN HF.
  pose proof size. split; cbn [w_ctx w_frames idemip_loopif_clear c_ready c_mtu c_claimed c_held c_head c_tail c_len q_mtu q_frames q_out length]; try done; try lia.
  - unfold tlen. rewrite length_replicate. lia.
  - split; [unfold tlen; rewrite length_replicate; lia|]. apply Forall_replicate. rewrite length_replicate. lia.
Qed.
End Ring.

(** C39. The ring of regions is a queue of frames.  For a power of two of regions up to 128, each as wide as a frame,
    a cleared borrow answers every sequence of calls as a queue does: output puts a frame of up to the bound MTU and
    its header on the end and is BUSY exactly when the queue is full, claim hands out the oldest frame, octet for
    octet, and no other until it is released, and release drops it; bind takes only loopback addresses. *)
Theorem loopif_refines_queue (LOOPIF_FRAMES FRAME_BYTES NETIF_COUNT : Z) (w : Work) (ops : list op) :
  (∃ k, 0 ≤ k ≤ 7 ∧ LOOPIF_FRAMES = 2 ^ k) → 1514 ≤ FRAME_BYTES → Forall op_ok ops →
  (run LOOPIF_FRAMES NETIF_COUNT ops (idemip_loopif_clear LOOPIF_FRAMES FRAME_BYTES w)).1 = answers LOOPIF_FRAMES NETIF_COUNT ops (mkQueue 0 [] false).
Proof. intros HN HF Hok. apply (run_follows _ FRAME_BYTES); [done|done|by apply clear_holds|done]. Qed.

(** Three frames through a ring of two. *)
Definition eg_unused : Work := mkWork (mkIo (mkBindArgs 0 None 0 0) (mkOutputArgs None 0) (mkMatchArgs 0 None) IDEMIP_ERR None 0 0 0 false) (mkCtx 0 [] 0 0 0 0 0) [].
Definition eg_ops : list op :=
  let out x := Output (mkOutputArgs (Some [x; x; x]) 3) in
  [Bind (mkBindArgs 0x7F000001 (Some (replicate 15 0 ++ [1])) 1500 0); out 1; out 2; out 3; Claim; Claim; Release; out 4; Claim; Release; Claim; Release; Claim].
Lemma loopif_refines_queue_witness :
  (run 2 1 eg_ops (idemip_loopif_clear 2 2048 eg_unused)).1 =
  [(IDEMIP_OK, []); (IDEMIP_OK, []); (IDEMIP_OK, []); (IDEMIP_BUSY, []); (IDEMIP_OK, [1; 1; 1]); (IDEMIP_ERR, []); (IDEMIP_OK, []); (IDEMIP_OK, []); (IDEMIP_OK, [2; 2; 2]); (IDEMIP_OK, []);
   (IDEMIP_OK, [4; 4; 4]); (IDEMIP_OK, []); (IDEMIP_BUSY, [])].
Proof.
  rewrite (loopif_refines_queue 2 2048 1 eg_unused eg_ops).
  - vm_compute. reflexivity.
  - exists 1. split; [split; discriminate|reflexivity].
  - discriminate.
  - repeat constructor; discriminate.
Defined.

(** ** 256 regions

    The assertions ask for a power of two; the count of frames held is one octet, so 256 of them count as none
    and the next output writes over the oldest. *)
Example ring_of_256_overflows :
  let out := Output (mkOutputArgs (Some [1]) 1) in
  last (run 256 1 (replicate 257 out) (idemip_loopif_clear 256 16 eg_unused)).1 = Some (IDEMIP_OK, []) ∧
  last (run 256 1 (replicate 256 out ++ [Claim]) (idemip_loopif_clear 256 16 eg_unused)).1 = Some (IDEMIP_BUSY, []) ∧
  last (run 128 1 (replicate 129 out) (idemip_loopif_clear 128 16 eg_unused)).1 = Some (IDEMIP_BUSY, []).
Proof. vm_compute. split_and!; reflexivity. Qed.
End LoopifThms.
