(* ===== verification/Ethip6.v ===== *)
(** * The physical layer's registers and IPv6's addresses over Ethernet (src/ethernet/mii.c, src/ethernet/ethip6.c)

    What two ends of a link agreed on, read from registers 1, 4 and 5; and RFC 2464's addresses made of a hardware
    address, and the hardware address of a group. *)
From S2P Require Import Prelude Base Wire.

Module Mii.

Definition IDEMIP_BMSR_EXT_STATUS : Z := Z.shiftl 1 8.
Definition IDEMIP_BMSR_ANEG_COMPLETE : Z := Z.shiftl 1 5.
Definition IDEMIP_BMSR_LINK_UP : Z := Z.shiftl 1 2.
Definition IDEMIP_ANAR_100BASE_T4 : Z := Z.shiftl 1 9.
Definition IDEMIP_ANAR_100BASE_TX_FD : Z := Z.shiftl 1 8.
Definition IDEMIP_ANAR_100BASE_TX_HD : Z := Z.shiftl 1 7.
Definition IDEMIP_ANAR_10BASE_T_FD : Z := Z.shiftl 1 6.
Definition IDEMIP_ANAR_10BASE_T_HD : Z := Z.shiftl 1 5.
Definition IDEMIP_MII_SELECTOR_MASK : Z := 0x001F.
Definition IDEMIP_MII_TECH_MASK : Z :=
  Z.lor (Z.lor (Z.lor (Z.lor IDEMIP_ANAR_100BASE_T4 IDEMIP_ANAR_100BASE_TX_FD) IDEMIP_ANAR_100BASE_TX_HD) IDEMIP_ANAR_10BASE_T_FD) IDEMIP_ANAR_10BASE_T_HD.
Definition IDEMIP_ANLPAR_NEXT_PAGE : Z := Z.shiftl 1 15.
Definition IDEMIP_ANLPAR_ACK : Z := Z.shiftl 1 14.
Definition IDEMIP_ANLPAR_REMOTE_FAULT : Z := Z.shiftl 1 13.
Definition IDEMIP_ANLPAR_PAUSE_ASYM : Z := Z.shiftl 1 11.
Definition IDEMIP_ANLPAR_PAUSE : Z := Z.shiftl 1 10.
Definition IDEMIP_ANLPAR_100BASE_T4 : Z := Z.shiftl 1 9.
Definition IDEMIP_ANLPAR_100BASE_TX_FD : Z := Z.shiftl 1 8.
Definition IDEMIP_ANLPAR_100BASE_TX_HD : Z := Z.shiftl 1 7.
Definition IDEMIP_ANLPAR_10BASE_T_FD : Z := Z.shiftl 1 6.
Definition IDEMIP_ANLPAR_10BASE_T_HD : Z := Z.shiftl 1 5.
Definition IDEMIP_MII_SPEED_NONE : Z := 0.
Definition IDEMIP_MII_SPEED_10 : Z := 10.
Definition IDEMIP_MII_SPEED_100 : Z := 100.

Record IdemIpMiiPartner := mkPartner {
  p_selector : Z; p_next_page : bool; p_ack : bool; p_remote_fault : bool; p_pause_asym : bool; p_pause : bool; p_t4 : bool; p_tx_fd : bool; p_tx_hd : bool;
  p_t_fd : bool; p_t_hd : bool }.
Record IdemIpMiiResolved := mkResolved { r_tech : Z; r_speed_mbps : Z; r_full_duplex : bool; r_up : bool; r_aneg_complete : bool; r_ext_status : bool }.

Definition mii_bit (reg mask : Z) : bool := Z.land reg mask =? mask.
Definition mii_selector (reg : Z) : Z := u8 (Z.land reg IDEMIP_MII_SELECTOR_MASK).
Definition mii_anlpar_decode (anlpar : Z) : IdemIpMiiPartner :=
  mkPartner (mii_selector anlpar) (mii_bit anlpar IDEMIP_ANLPAR_NEXT_PAGE) (mii_bit anlpar IDEMIP_ANLPAR_ACK) (mii_bit anlpar IDEMIP_ANLPAR_REMOTE_FAULT)
    (mii_bit anlpar IDEMIP_ANLPAR_PAUSE_ASYM) (mii_bit anlpar IDEMIP_ANLPAR_PAUSE) (mii_bit anlpar IDEMIP_ANLPAR_100BASE_T4)
    (mii_bit anlpar IDEMIP_ANLPAR_100BASE_TX_FD) (mii_bit anlpar IDEMIP_ANLPAR_100BASE_TX_HD) (mii_bit anlpar IDEMIP_ANLPAR_10BASE_T_FD)
    (mii_bit anlpar IDEMIP_ANLPAR_10BASE_T_HD).
Definition mii_common_tech (anar anlpar : Z) : Z := u16 (Z.land (Z.land anar anlpar) IDEMIP_MII_TECH_MASK).
Definition mii_resolve (bmsr anar anlpar : Z) : IdemIpMiiResolved :=
  let common := mii_common_tech anar anlpar in
  let up := mii_bit bmsr IDEMIP_BMSR_LINK_UP in
  let aneg_complete := mii_bit bmsr IDEMIP_BMSR_ANEG_COMPLETE in
  let resolved tech speed full := mkResolved tech speed full up aneg_complete (mii_bit bmsr IDEMIP_BMSR_EXT_STATUS) in
  let has tech := negb (Z.land common tech =? 0) in
  if negb up || negb aneg_complete then resolved 0 IDEMIP_MII_SPEED_NONE false
  else if has IDEMIP_ANAR_100BASE_TX_FD then resolved IDEMIP_ANAR_100BASE_TX_FD IDEMIP_MII_SPEED_100 true
  else if has IDEMIP_ANAR_100BASE_T4 then resolved IDEMIP_ANAR_100BASE_T4 IDEMIP_MII_SPEED_100 false
  else if has IDEMIP_ANAR_100BASE_TX_HD then resolved IDEMIP_ANAR_100BASE_TX_HD IDEMIP_MII_SPEED_100 false
  else if has IDEMIP_ANAR_10BASE_T_FD then resolved IDEMIP_ANAR_10BASE_T_FD IDEMIP_MII_SPEED_10 true
  else if has IDEMIP_ANAR_10BASE_T_HD then resolved IDEMIP_ANAR_10BASE_T_HD IDEMIP_MII_SPEED_10 false
  else resolved 0 IDEMIP_MII_SPEED_NONE false.
End Mii.

Module Ethip6.
Import Wire.

Definition IDEMIP_ETHIP6_IID_LEN : Z := 8.
Definition IDEMIP_ETHIP6_OUI_LEN : Z := 3.
Definition IDEMIP_ETHIP6_EUI64_FF : Z := 0xFF.
Definition IDEMIP_ETHIP6_EUI64_FE : Z := 0xFE.
Definition IDEMIP_ETHIP6_OFF_FFFE : Z := IDEMIP_ETHIP6_OUI_LEN.
Definition IDEMIP_ETHIP6_TAIL_LEN : Z := 3.
Definition IDEMIP_ETHIP6_UL_BIT : Z := 0x02.
Definition IDEMIP_ETHIP6_LINKLOCAL_0 : Z := 0xFE.
Definition IDEMIP_ETHIP6_LINKLOCAL_1 : Z := 0x80.
Definition IDEMIP_ETHIP6_LINKLOCAL_PREFIX_LEN : Z := 8.
Definition IDEMIP_ETHIP6_MCAST_0 : Z := 0x33.
Definition IDEMIP_ETHIP6_MCAST_1 : Z := 0x33.
Definition IDEMIP_ETHIP6_MCAST_PREFIX_LEN : Z := 2.
Definition IDEMIP_ETHIP6_MCAST_TAIL_LEN : Z := 4.
Definition IDEMIP_ETHIP6_MULTICAST_PREFIX : Z := 0xFF.
Definition IDEMIP_IP6_ADDR_LEN : Z := 16.
Definition IDEMIP_MAC_LEN : Z := 6.

Record Ethip6Io := mkIo {
  multicast_dst : option (list Z); mac_mac : option (list Z); io_status : IdemIpStatus; io_mac : list Z; io_iid : list Z; io_addr : list Z; io_universal : bool }.
#[export] Instance Ethip6Io_eta : Eta Ethip6Io := fun r => mkIo (multicast_dst r) (mac_mac r) (io_status r) (io_mac r) (io_iid r) (io_addr r) (io_universal r).
Record Ethip6Ctx := mkCtx { c_ready : bool }.
Record Work := mkWork { w_io : Ethip6Io; w_ctx : Ethip6Ctx }.
#[export] Instance Work_eta : Eta Work := fun r => mkWork (w_io r) (w_ctx r).
Definition put_io (w : Work) (io : Ethip6Io) : Work := w <| w_io := io |>.

(** The identifier written at an offset of a field. *)
Definition ethip6_iid_from_mac (f : list Z) (at_ : Z) (mac : list Z) : list Z :=
  let f := memcpy f at_ mac IDEMIP_ETHIP6_OUI_LEN in
  let f := tset f at_ (u8 (Z.lxor (tget f at_) IDEMIP_ETHIP6_UL_BIT)) in
  let f := tset f (at_ + IDEMIP_ETHIP6_OFF_FFFE) IDEMIP_ETHIP6_EUI64_FF in
  let f := tset f (at_ + IDEMIP_ETHIP6_OFF_FFFE + 1) IDEMIP_ETHIP6_EUI64_FE in
  memcpy f (at_ + IDEMIP_ETHIP6_IID_LEN - IDEMIP_ETHIP6_TAIL_LEN) (drop (Z.to_nat IDEMIP_ETHIP6_OUI_LEN) mac) IDEMIP_ETHIP6_TAIL_LEN.
Definition ethip6_is_universal (mac : list Z) : bool := Z.land (tget mac 0) IDEMIP_ETHIP6_UL_BIT =? 0.

Definition idemip_ethip6_clear (w : Work) : Work := mkWork ((w_io w) <| io_status := IDEMIP_OK |>) (mkCtx true).

Definition idemip_ethip6_multicast_map (w : Work) : Work :=
  let io := (w_io w) <| io_status := IDEMIP_ERR |> <| io_mac := memset (io_mac (w_io w)) 0 0 IDEMIP_MAC_LEN |> in
  if negb (c_ready (w_ctx w)) then put_io w io
  else match multicast_dst io with
       | None => put_io w io
       | Some dst =>
           if negb (tget dst 0 =? IDEMIP_ETHIP6_MULTICAST_PREFIX) then put_io w io
           else
           let mac := tset (tset (io_mac io) 0 IDEMIP_ETHIP6_MCAST_0) 1 IDEMIP_ETHIP6_MCAST_1 in
           let mac := memcpy mac IDEMIP_ETHIP6_MCAST_PREFIX_LEN (drop (Z.to_nat (IDEMIP_IP6_ADDR_LEN - IDEMIP_ETHIP6_MCAST_TAIL_LEN)) dst) IDEMIP_ETHIP6_MCAST_TAIL_LEN in
           put_io w (io <| io_mac := mac |> <| io_status := IDEMIP_OK |>)
       end.

Definition idemip_ethip6_eui64 (w : Work) : Work :=
  let io := (w_io w) <| io_status := IDEMIP_ERR |> <| io_iid := memset (io_iid (w_io w)) 0 0 IDEMIP_ETHIP6_IID_LEN |> <| io_universal := false |> in
  if negb (c_ready (w_ctx w)) then put_io w io
  else match mac_mac io with
       | None => put_io w io
       | Some mac => put_io w (io <| io_iid := ethip6_iid_from_mac (io_iid io) 0 mac |> <| io_universal := ethip6_is_universal mac |> <| io_status := IDEMIP_OK |>)
       end.

Definition idemip_ethip6_linklocal (w : Work) : Work :=
  let io := (w_io w) <| io_status := IDEMIP_ERR |> <| io_addr := memset (io_addr (w_io w)) 0 0 IDEMIP_IP6_ADDR_LEN |> <| io_universal := false |> in
  if negb (c_ready (w_ctx w)) then put_io w io
  else match mac_mac io with
       | None => put_io w io
       | Some mac =>
           let addr := tset (tset (io_addr io) 0 IDEMIP_ETHIP6_LINKLOCAL_0) 1 IDEMIP_ETHIP6_LINKLOCAL_1 in
           let addr := ethip6_iid_from_mac addr IDEMIP_ETHIP6_LINKLOCAL_PREFIX_LEN mac in
           let iid := memcpy (io_iid io) 0 (drop (Z.to_nat IDEMIP_ETHIP6_LINKLOCAL_PREFIX_LEN) addr) IDEMIP_ETHIP6_IID_LEN in
           put_io w (io <| io_addr := addr |> <| io_iid := iid |> <| io_universal := ethip6_is_universal mac |> <| io_status := IDEMIP_OK |>)
       end.
End Ethip6.

(** * What the registers and the addresses say *)
Module LinkThms.
Import Checksum Mii Ethip6.

(** The technologies by priority, each a bit of the two ability registers, with its speed and duplex. *)
Definition priority : list (Z * (Z * bool)) := [(8, (100, true)); (9, (100, false)); (7, (100, false)); (6, (10, true)); (5, (10, false))].
Definition agreed (anar anlpar : Z) (t : Z * (Z * bool)) : bool := Z.testbit anar t.1 && Z.testbit anlpar t.1.

Lemma bit_mask x n : 0 ≤ n → (Z.land x (2 ^ n) =? 0) = negb (Z.testbit x n).
Proof.
  intros Hn. destruct (Z.testbit x n) eqn:E; cbn [negb].
  - apply Z.eqb_neq. intros H. assert (Z.testbit (Z.land x (2 ^ n)) n = true) as Ht by (by rewrite Z.land_spec, E, Z.pow2_bits_true). by rewrite H, Z.bits_0 in Ht.
  - apply Z.eqb_eq, Z.bits_inj'. intros i Hi. rewrite Z.land_spec, Z.bits_0. destruct (decide (i = n)) as [->|]; [by rewrite E|]. by rewrite Z.pow2_bits_false, andb_false_r by lia.
Qed.
Lemma bit_set x n : 0 ≤ n → mii_bit x (2 ^ n) = Z.testbit x n.
Proof.
  intros Hn. unfold mii_bit. destruct (Z.testbit x n) eqn:E.
  - apply Z.eqb_eq, Z.bits_inj'. intros i Hi. rewrite Z.land_spec. destruct (decide (i = n)) as [->|]; [by rewrite E, Z.pow2_bits_true|]. by rewrite Z.pow2_bits_false, andb_false_r by lia.
  - apply Z.eqb_neq. intros H. assert (Z.testbit (Z.land x (2 ^ n)) n = true) as Ht by (rewrite H; by apply Z.pow2_bits_true). by rewrite Z.land_spec, E in Ht.
Qed.
Lemma common_bit anar anlpar n : n ∈ [5; 6; 7; 8; 9] → (Z.land (mii_common_tech anar anlpar) (2 ^ n) =? 0) = negb (Z.testbit anar n && Z.testbit anlpar n).
Proof.
  intros Hn. assert (0 ≤ n < 16 ∧ Z.testbit IDEMIP_MII_TECH_MASK n = true) as [H0 Hm] by (rewrite !elem_of_cons in Hn; destruct_or?; subst; try done; by apply not_elem_of_nil in Hn).
  rewrite bit_mask by lia. unfold mii_common_tech, u16. change 65536 with (2 ^ 16). rewrite Z.mod_pow2_bits_low by lia. by rewrite !Z.land_spec, Hm, andb_true_r.
Qed.

(** The link a resolve reports: up and agreed on, it runs at the best technology both ends have, and else at none. *)
Theorem resolve_takes_best bmsr anar anlpar :
  let r := mii_resolve bmsr anar anlpar in
  r_up r = Z.testbit bmsr 2 ∧ r_aneg_complete r = Z.testbit bmsr 5 ∧ r_ext_status r = Z.testbit bmsr 8 ∧
  match (if r_up r && r_aneg_complete r then List.find (agreed anar anlpar) priority else None) with
  | Some (b, (speed, full)) => r_tech r = 2 ^ b ∧ r_speed_mbps r = speed ∧ r_full_duplex r = full
  | None => r_tech r = 0 ∧ r_speed_mbps r = 0 ∧ r_full_duplex r = false
  end.
Proof.
  intros r. subst r. unfold mii_resolve. change IDEMIP_BMSR_LINK_UP with (2 ^ 2). change IDEMIP_BMSR_ANEG_COMPLETE with (2 ^ 5). change IDEMIP_BMSR_EXT_STATUS with (2 ^ 8).
  change IDEMIP_ANAR_100BASE_T4 with (2 ^ 9). change IDEMIP_ANAR_100BASE_TX_FD with (2 ^ 8). change IDEMIP_ANAR_100BASE_TX_HD with (2 ^ 7). change IDEMIP_ANAR_10BASE_T_FD with (2 ^ 6).
  change IDEMIP_ANAR_10BASE_T_HD with (2 ^ 5). rewrite (bit_set bmsr 2), (bit_set bmsr 5), (bit_set bmsr 8) by lia.
  rewrite (common_bit anar anlpar 8), (common_bit anar anlpar 9), (common_bit anar anlpar 7), (common_bit anar anlpar 6), (common_bit anar anlpar 5) by (rewrite !elem_of_cons; tauto).
  rewrite !negb_involutive. cbn [List.find priority]. unfold agreed. cbn [fst].
  destruct (Z.testbit bmsr 2), (Z.testbit bmsr 5); cbn [negb orb]; try (cbn; split_and!; reflexivity).
  destruct (Z.testbit anar 8 && _); [cbn; split_and!; reflexivity|]. destruct (Z.testbit anar 9 && _); [cbn; split_and!; reflexivity|]. destruct (Z.testbit anar 7 && _); [cbn; split_and!; reflexivity|].
  destruct (Z.testbit anar 6 && _); [cbn; split_and!; reflexivity|]. destruct (Z.testbit anar 5 && _); cbn; split_and!; reflexivity.
Qed.

(** RFC 2464 sections 4, 5 and 7: an identifier is the hardware address with FF FE in its middle and the universal
    bit turned, the link-local address is FE80::/64 and the identifier, a group maps to 33-33 and its last four
    octets; so the hardware address can be read back from either address of a host. *)
Definition turned (b : Z) : Z := Z.lxor b 2.
Theorem addresses_follow_rfc2464 (w : Work) (m0 m1 m2 m3 m4 m5 : Z) (dst : list Z) :
  c_ready (w_ctx w) = true → mac_mac (w_io w) = Some [m0; m1; m2; m3; m4; m5] → octets [m0; m1; m2; m3; m4; m5] → multicast_dst (w_io w) = Some dst → length dst = 16%nat →
  length (io_mac (w_io w)) = 6%nat → length (io_iid (w_io w)) = 8%nat → length (io_addr (w_io w)) = 16%nat →
  let iid := [turned m0; m1; m2; 0xFF; 0xFE; m3; m4; m5] in
  let e := w_io (idemip_ethip6_eui64 w) in let l := w_io (idemip_ethip6_linklocal w) in let g := w_io (idemip_ethip6_multicast_map w) in
  io_status e = IDEMIP_OK ∧ io_iid e = iid ∧ io_universal e = negb (Z.testbit m0 1) ∧
  io_status l = IDEMIP_OK ∧ io_addr l = [0xFE; 0x80; 0; 0; 0; 0; 0; 0] ++ iid ∧ io_iid l = iid ∧ turned (turned m0) = m0 ∧
  (if decide (tget dst 0 = 255) then io_status g = IDEMIP_OK ∧ io_mac g = [0x33; 0x33] ++ drop 12 dst else io_status g = IDEMIP_ERR).
Proof.
  intros Hr Hm Ho Hd Hdl L1 L2 L3. destruct w as [[md mm st fm fi fa un] [rd]]. cbn [w_io w_ctx mac_mac multicast_dst c_ready io_mac io_iid io_addr] in *. subst rd mm md.
  do 6 (destruct fm as [|? fm]; [discriminate L1|]). destruct fm; [|discriminate L1]. do 8 (destruct fi as [|? fi]; [discriminate L2|]). destruct fi; [|discriminate L2].
  do 16 (destruct fa as [|? fa]; [discriminate L3|]). destruct fa; [|discriminate L3]. destruct dst as [|d0 dst]; [discriminate Hdl|]. do 15 (destruct dst as [|? dst]; [discriminate Hdl|]). destruct dst; [|discriminate Hdl].
  assert (u8 (Z.lxor m0 2) = turned m0) as Ht.
  { apply Forall_cons_1 in Ho as [Ho _]. unfold is_u8 in Ho. apply u8_id. unfold is_u8, turned. split; [apply Z.lxor_nonneg; lia|]. change 256 with (2 ^ 8) in *.
    apply Z.log2_lt_cancel. rewrite Z.log2_pow2 by lia. eapply Z.le_lt_trans; [apply Z.log2_lxor; lia|]. apply Z.max_lub_lt; [|done]. destruct (decide (m0 = 0)) as [->|]; [done|]. apply Z.log2_lt_pow2; lia. }
  assert (Z.lxor (Z.lxor m0 2) 2 = m0) as Htt by (rewrite Z.lxor_assoc; apply Z.lxor_0_r).
  assert ((Z.land m0 2 =? 0) = negb (Z.testbit m0 1)) as Hu by exact (bit_mask m0 1 ltac:(lia)).
  split_and!; try exact Htt; try reflexivity.
  - change ([u8 (Z.lxor m0 2); m1; m2; 255; 254; m3; m4; m5] = [turned m0; m1; m2; 255; 254; m3; m4; m5]). by rewrite Ht.
  - exact Hu.
  - change ([254; 128; 0; 0; 0; 0; 0; 0; u8 (Z.lxor m0 2); m1; m2; 255; 254; m3; m4; m5] = [254; 128; 0; 0; 0; 0; 0; 0; turned m0; m1; m2; 255; 254; m3; m4; m5]). by rewrite Ht.
  - change ([u8 (Z.lxor m0 2); m1; m2; 255; 254; m3; m4; m5] = [turned m0; m1; m2; 255; 254; m3; m4; m5]). by rewrite Ht.
  - unfold idemip_ethip6_multicast_map. cbn [w_io w_ctx c_ready negb multicast_dst]. change (tget (d0 :: _) 0) with d0. case_decide as E; [|].
    + subst d0. split; reflexivity.
    + apply Z.eqb_neq in E. cbn. change (tget (d0 :: _) 0) with d0. unfold IDEMIP_ETHIP6_MULTICAST_PREFIX. rewrite E. reflexivity.
Qed.
End LinkThms.
