(* ===== verification/RawPcb.v ===== *)
(** * Raw sockets (src/raw/raw_pcb.c)

    The table of raw bindings: open, bind, connect, options and the search for the binding a datagram goes to; the
    shape every row keeps, and which binding is found.  An [info] result points at the addresses of a row, which
    are the octets there; an operand's address is taken to lie outside the rows. *)
From S2P Require Import Prelude Base Wire Ipv6.

Module RawPcb.
Import Wire Ipv6.

Definition RAW_PCB_READY : Z := 0x52415750.
Definition RAW_PCB_ADDR4_BYTES : Z := 4.
Definition RAW_PCB_CKSUM_OFF_NONE : Z := -1.
Definition RAW_PCB_SCORE_REMOTE : Z := 2.
Definition RAW_PCB_SCORE_LOCAL : Z := 1.
Definition IDEMIP_RAW_PCB_ADDR_BYTES : Z := 16.
Definition IDEMIP_RAW_PCB_NONE : Z := 0xFFFF.

Record RawPcbFields := mkFields {
  f_local_ip : list Z; f_remote_ip : list Z; f_cksum_offset : Z; f_local_zone : Z; f_remote_zone : Z; f_netif : Z; f_proto : Z; f_tos : Z; f_ttl : Z; f_flags : Z;
  f_ip_version : Z; f_connected : bool; f_in_use : bool }.
#[export] Instance RawPcbFields_eta : Eta RawPcbFields := fun r =>
  mkFields (f_local_ip r) (f_remote_ip r) (f_cksum_offset r) (f_local_zone r) (f_remote_zone r) (f_netif r) (f_proto r) (f_tos r) (f_ttl r) (f_flags r)
    (f_ip_version r) (f_connected r) (f_in_use r).
Definition zeros16 : list Z := replicate 16 0.
(** A row of zero octets. *)
Definition zero_row : RawPcbFields := mkFields zeros16 zeros16 0 0 0 0 0 0 0 0 0 false false.
#[export] Instance RawPcbFields_inhabited : Inhabited RawPcbFields := populate zero_row.

Record RawPcbOpenArgs := mkOpenArgs { oa_proto : Z; oa_ip_version : Z }.
Record RawPcbAddrArgs := mkAddrArgs { aa_ip : option (list Z); aa_index : Z; aa_zone : Z; aa_netif : Z }.
Record RawPcbOptArgs := mkOptArgs { ta_index : Z; ta_cksum_offset : Z; ta_tos : Z; ta_ttl : Z; ta_flags : Z }.
Record RawPcbFindArgs := mkFindArgs {
  fa_local_ip : option (list Z); fa_remote_ip : option (list Z); fa_proto : Z; fa_ip_version : Z; fa_local_zone : Z; fa_remote_zone : Z; fa_netif : Z }.
Record RawPcbInfo := mkInfo {
  i_local_ip : option (list Z); i_remote_ip : option (list Z); i_cksum_offset : Z; i_local_zone : Z; i_remote_zone : Z; i_netif : Z; i_proto : Z; i_tos : Z; i_ttl : Z;
  i_flags : Z; i_ip_version : Z; i_connected : bool }.
Definition info_zero : RawPcbInfo := mkInfo None None 0 0 0 0 0 0 0 0 0 false.
Record RawPcbIo := mkIo {
  open_args : RawPcbOpenArgs; bind_args : RawPcbAddrArgs; connect_args : RawPcbAddrArgs; pcb_index : Z; opt_args : RawPcbOptArgs; find_args : RawPcbFindArgs;
  io_status : IdemIpStatus; io_index : Z; io_info : RawPcbInfo }.
#[export] Instance RawPcbIo_eta : Eta RawPcbIo := fun r =>
  mkIo (open_args r) (bind_args r) (connect_args r) (pcb_index r) (opt_args r) (find_args r) (io_status r) (io_index r) (io_info r).
Record RawPcbCtx := mkCtx { c_ready : Z }.
Record Work := mkWork { w_io : RawPcbIo; w_ctx : RawPcbCtx; w_tab : list RawPcbFields }.
#[export] Instance Work_eta : Eta Work := fun r => mkWork (w_io r) (w_ctx r) (w_tab r).
Definition put_io (w : Work) (io : RawPcbIo) : Work := w <| w_io := io |>.
Definition put_status (w : Work) (s : IdemIpStatus) : Work := put_io w ((w_io w) <| io_status := s |>).
Definition RAW_PCB_AT (w : Work) (i : Z) : RawPcbFields := tget (w_tab w) i.
Definition put_row (w : Work) (i : Z) (e : RawPcbFields) : Work := w <| w_tab := tset (w_tab w) i e |>.
Definition ready (w : Work) : bool := c_ready (w_ctx w) =? RAW_PCB_READY.

Definition raw_pcb_addr_len (ip_version : Z) : Z := if ip_version =? 4 then RAW_PCB_ADDR4_BYTES else if ip_version =? 6 then IDEMIP_RAW_PCB_ADDR_BYTES else 0.
Definition raw_pcb_is_any (addr : list Z) (len : Z) : bool := forallb (λ b, b =? 0) (take (Z.to_nat len) addr).
Definition raw_pcb_src_allowed (ip_version : Z) (addr : list Z) : bool :=
  if ip_version =? 4 then
    if Z.land (tget addr 0) 0xF0 =? 0xE0 then false
    else if (tget addr 0 =? 0xFF) && (tget addr 1 =? 0xFF) && (tget addr 2 =? 0xFF) && (tget addr 3 =? 0xFF) then false
    else true
  else if tget addr 0 =? 0xFF then false else true.
Definition raw_pcb_zone_ok (ip_version entry_zone dgram_zone : Z) : bool :=
  if negb (ip_version =? 6) || (entry_zone =? 0) then true else entry_zone =? dgram_zone.
Definition bytes_eq (a b : list Z) (len : Z) : bool := bool_decide (take (Z.to_nat len) a = take (Z.to_nat len) b).

Definition raw_pcb_set_local (w : Work) (a : RawPcbAddrArgs) (ip : list Z) : Work :=
  let e := RAW_PCB_AT w (aa_index a) in
  if negb (f_in_use e) then w
  else
  let len := raw_pcb_addr_len (f_ip_version e) in
  if (len =? 0) || negb (raw_pcb_src_allowed (f_ip_version e) ip) then w
  else put_status (put_row w (aa_index a) (e <| f_local_ip := memcpy zeros16 0 ip len |> <| f_local_zone := aa_zone a |> <| f_netif := aa_netif a |>)) IDEMIP_OK.
Definition raw_pcb_set_remote (w : Work) (a : RawPcbAddrArgs) (ip : list Z) : Work :=
  let e := RAW_PCB_AT w (aa_index a) in
  if negb (f_in_use e) then w
  else
  let len := raw_pcb_addr_len (f_ip_version e) in
  if len =? 0 then w
  else if raw_pcb_is_any ip len then w
  else put_status (put_row w (aa_index a) (e <| f_remote_ip := memcpy zeros16 0 ip len |> <| f_remote_zone := aa_zone a |> <| f_connected := true |>)) IDEMIP_OK.
Definition raw_pcb_cksum_ok (e : RawPcbFields) (offset : Z) : bool :=
  if offset =? RAW_PCB_CKSUM_OFF_NONE then true
  else if (offset <? 0) || negb (Z.land offset 1 =? 0) then false
  else if negb (f_ip_version e =? 6) then false
  else if f_proto e =? IDEMIP_IP6_NH_ICMPV6 then false
  else true.
Definition raw_pcb_read (w : Work) (index : Z) : Work :=
  let e := RAW_PCB_AT w index in
  if negb (f_in_use e) then w
  else put_status (put_io w ((w_io w) <| io_info :=
    mkInfo (Some (f_local_ip e)) (Some (f_remote_ip e)) (f_cksum_offset e) (f_local_zone e) (f_remote_zone e) (f_netif e) (f_proto e) (f_tos e) (f_ttl e) (f_flags e)
      (f_ip_version e) (f_connected e) |>)) IDEMIP_OK.
(** Whether a datagram fits a row, and how well. *)
Definition raw_pcb_score (e : RawPcbFields) (a : RawPcbFindArgs) (local remote : list Z) : option Z :=
  if negb (f_in_use e) || negb (f_ip_version e =? fa_ip_version a) || negb (f_proto e =? fa_proto a) then None
  else if negb (f_netif e =? 0) && negb (f_netif e =? fa_netif a) then None
  else
  let len := raw_pcb_addr_len (f_ip_version e) in
  if len =? 0 then None
  else
  let any := raw_pcb_is_any (f_local_ip e) len in
  if negb any && (negb (bytes_eq (f_local_ip e) local len) || negb (raw_pcb_zone_ok (f_ip_version e) (f_local_zone e) (fa_local_zone a))) then None
  else
  let s := if any then 0 else u8 (0 + RAW_PCB_SCORE_LOCAL) in
  if f_connected e && (negb (bytes_eq (f_remote_ip e) remote len) || negb (raw_pcb_zone_ok (f_ip_version e) (f_remote_zone e) (fa_remote_zone a))) then None
  else Some (if f_connected e then u8 (s + RAW_PCB_SCORE_REMOTE) else s).

Section Build.
(** The rows of the build and its default Time to Live. *)
Variable RAW_PCBS : nat.
Variable IP_DEFAULT_TTL : Z.

Definition raw_pcb_take (w : Work) (proto ip_version : Z) : Work :=
  match scan (λ i, negb (f_in_use (RAW_PCB_AT w i))) RAW_PCBS 0 with
  | None => put_status w IDEMIP_BUSY
  | Some i =>
      let e := zero_row <| f_proto := proto |> <| f_ip_version := ip_version |> <| f_tos := 0 |> <| f_ttl := u8 IP_DEFAULT_TTL |>
                 <| f_cksum_offset := RAW_PCB_CKSUM_OFF_NONE |> <| f_in_use := true |> in
      put_io (put_row w i e) ((w_io w) <| io_index := i |> <| io_status := IDEMIP_OK |>)
  end.
Fixpoint scan_best (n : nat) (i : Z) (w : Work) (a : RawPcbFindArgs) (local remote : list Z) (best best_score : Z) : Z :=
  match n with
  | O => best
  | S n =>
      match raw_pcb_score (RAW_PCB_AT w i) a local remote with
      | None => scan_best n (i + 1) w a local remote best best_score
      | Some score =>
          if (best =? IDEMIP_RAW_PCB_NONE) || (best_score <? score) then scan_best n (i + 1) w a local remote i score
          else scan_best n (i + 1) w a local remote best best_score
      end
  end.
Definition raw_pcb_scan (w : Work) (local remote : list Z) : Work :=
  let best := scan_best RAW_PCBS 0 w (find_args (w_io w)) local remote IDEMIP_RAW_PCB_NONE 0 in
  if best =? IDEMIP_RAW_PCB_NONE then w else put_io w ((w_io w) <| io_index := best |> <| io_status := IDEMIP_OK |>).

Definition idemip_raw_pcb_clear (w : Work) : Work :=
  mkWork ((w_io w) <| io_info := info_zero |> <| io_index := IDEMIP_RAW_PCB_NONE |> <| io_status := IDEMIP_OK |>) (mkCtx RAW_PCB_READY) (replicate RAW_PCBS zero_row).
Definition idemip_raw_pcb_open (w : Work) : Work :=
  let w := put_io w ((w_io w) <| io_status := IDEMIP_ERR |> <| io_index := IDEMIP_RAW_PCB_NONE |>) in
  if negb (ready w) then w
  else if raw_pcb_addr_len (oa_ip_version (open_args (w_io w))) =? 0 then w
  else raw_pcb_take w (oa_proto (open_args (w_io w))) (oa_ip_version (open_args (w_io w))).
Definition in_table (i : Z) : bool := negb (Z.of_nat RAW_PCBS <=? i).
Definition idemip_raw_pcb_close (w : Work) : Work :=
  let w := put_status w IDEMIP_ERR in
  if negb (ready w) || negb (in_table (pcb_index (w_io w))) then w
  else if negb (f_in_use (RAW_PCB_AT w (pcb_index (w_io w)))) then w
  else put_status (put_row w (pcb_index (w_io w)) zero_row) IDEMIP_OK.
Definition idemip_raw_pcb_bind (w : Work) : Work :=
  let w := put_status w IDEMIP_ERR in
  let a := bind_args (w_io w) in
  match aa_ip a with
  | Some ip => if negb (ready w) || negb (in_table (aa_index a)) then w else raw_pcb_set_local w a ip
  | None => w
  end.
Definition idemip_raw_pcb_connect (w : Work) : Work :=
  let w := put_status w IDEMIP_ERR in
  let a := connect_args (w_io w) in
  match aa_ip a with
  | Some ip => if negb (ready w) || negb (in_table (aa_index a)) then w else raw_pcb_set_remote w a ip
  | None => w
  end.
Definition idemip_raw_pcb_disconnect (w : Work) : Work :=
  let w := put_status w IDEMIP_ERR in
  let i := pcb_index (w_io w) in
  if negb (ready w) || negb (in_table i) then w
  else if negb (f_in_use (RAW_PCB_AT w i)) then w
  else put_status (put_row w i ((RAW_PCB_AT w i) <| f_remote_ip := zeros16 |> <| f_remote_zone := 0 |> <| f_connected := false |>)) IDEMIP_OK.
Definition idemip_raw_pcb_set_opts (w : Work) : Work :=
  let w := put_status w IDEMIP_ERR in
  let a := opt_args (w_io w) in
  if negb (ready w) || negb (in_table (ta_index a)) then w
  else
  let e := RAW_PCB_AT w (ta_index a) in
  if negb (f_in_use e) then w
  else if (ta_ttl a =? 0) || negb (raw_pcb_cksum_ok e (ta_cksum_offset a)) then w
  else put_status (put_row w (ta_index a) (e <| f_tos := ta_tos a |> <| f_ttl := ta_ttl a |> <| f_flags := ta_flags a |> <| f_cksum_offset := ta_cksum_offset a |>)) IDEMIP_OK.
Definition idemip_raw_pcb_load (w : Work) : Work :=
  let w := put_io w ((w_io w) <| io_status := IDEMIP_ERR |> <| io_info := info_zero |>) in
  if negb (ready w) || negb (in_table (pcb_index (w_io w))) then w else raw_pcb_read w (pcb_index (w_io w)).
Definition idemip_raw_pcb_find (w : Work) : Work :=
  let w := put_io w ((w_io w) <| io_status := IDEMIP_ERR |> <| io_index := IDEMIP_RAW_PCB_NONE |>) in
  let a := find_args (w_io w) in
  match fa_local_ip a, fa_remote_ip a with
  | Some local, Some remote => if negb (ready w) then w else if raw_pcb_addr_len (fa_ip_version a) =? 0 then w else raw_pcb_scan w local remote
  | _, _ => w
  end.
End Build.
End RawPcb.

(** * The rows and the search *)
Module RawPcbThms.
Import Wire Ipv6 RawPcb.

(** The octets of an address of a version. *)
Definition width (v : Z) : Z := if v =? 4 then 4 else 16.
Definition any (a : list Z) : Prop := a = zeros16.
(** An address a datagram may be sent from. *)
Definition sendable (v : Z) (a : list Z) : Prop := raw_pcb_src_allowed v a = true.

(** A row in use: one of the two versions, a Time to Live, addresses of its version with nothing behind them, the
    local one never a group or broadcast, a remote one exactly when it is connected, and a checksum offset that
    an IPv6 protocol other than ICMPv6 has in front of an even octet. *)
Record row_ok (e : RawPcbFields) : Prop := {
  rk_version : f_ip_version e = 4 ∨ f_ip_version e = 6;
  rk_ttl : 1 ≤ f_ttl e ≤ 255;
  rk_local : length (f_local_ip e) = 16%nat ∧ drop (Z.to_nat (width (f_ip_version e))) (f_local_ip e) = replicate (16 - Z.to_nat (width (f_ip_version e))) 0;
  rk_remote : length (f_remote_ip e) = 16%nat ∧ drop (Z.to_nat (width (f_ip_version e))) (f_remote_ip e) = replicate (16 - Z.to_nat (width (f_ip_version e))) 0;
  rk_source : sendable (f_ip_version e) (f_local_ip e);
  rk_connected : if f_connected e then ¬ any (f_remote_ip e) else any (f_remote_ip e) ∧ f_remote_zone e = 0;
  rk_cksum : f_cksum_offset e = -1 ∨ 0 ≤ f_cksum_offset e ∧ Z.even (f_cksum_offset e) = true ∧ f_ip_version e = 6 ∧ f_proto e ≠ 58 }.
Definition typed (e : RawPcbFields) : Prop := if f_in_use e then row_ok e else e = zero_row.

Inductive entry := Open | Close | BindTo | Connect | Disconnect | SetOpts | Load | Find.

Section Table.
Variable RAW_PCBS : nat.
Variable IP_DEFAULT_TTL : Z.
Definition call (e : entry) (w : Work) : Work :=
  match e with
  | Open => idemip_raw_pcb_open RAW_PCBS IP_DEFAULT_TTL w | Close => idemip_raw_pcb_close RAW_PCBS w | BindTo => idemip_raw_pcb_bind RAW_PCBS w
  | Connect => idemip_raw_pcb_connect RAW_PCBS w | Disconnect => idemip_raw_pcb_disconnect RAW_PCBS w | SetOpts => idemip_raw_pcb_set_opts RAW_PCBS w
  | Load => idemip_raw_pcb_load RAW_PCBS w | Find => idemip_raw_pcb_find RAW_PCBS w
  end.
(** Operands as their types have them, an address as long as the row's version says. *)
Definition operands_ok (w : Work) : Prop :=
  let io := w_io w in
  0 ≤ pcb_index io ∧ 0 ≤ aa_index (bind_args io) ∧ 0 ≤ aa_index (connect_args io) ∧ 0 ≤ ta_index (opt_args io) ∧ is_u8 (ta_ttl (opt_args io)) ∧
  (∀ ip, aa_ip (bind_args io) = Some ip → width (f_ip_version (RAW_PCB_AT w (aa_index (bind_args io)))) ≤ Z.of_nat (length ip)) ∧
  (∀ ip, aa_ip (connect_args io) = Some ip → width (f_ip_version (RAW_PCB_AT w (aa_index (connect_args io)))) ≤ Z.of_nat (length ip)).
Inductive reached : Work → Prop :=
  | reached_clear w : reached (idemip_raw_pcb_clear RAW_PCBS w)
  | reached_call w io e : reached w → operands_ok (put_io w io) → reached (call e (put_io w io)).

Definition table_ok (w : Work) : Prop := length (w_tab w) = RAW_PCBS ∧ Forall typed (w_tab w).

(** ** The fields *)
Lemma addr_len_width v : v = 4 ∨ v = 6 → raw_pcb_addr_len v = width v ∧ (width v = 4 ∨ width v = 16) ∧ 0 < width v.
Proof using. by intros [-> | ->]; vm_compute; split_and!; try done; (left + right). Qed.

Lemma copied ip n : n = 4 ∨ n = 16 → n ≤ Z.of_nat (length ip) →
  length (memcpy zeros16 0 ip n) = 16%nat ∧ take (Z.to_nat n) (memcpy zeros16 0 ip n) = take (Z.to_nat n) ip ∧ drop (Z.to_nat n) (memcpy zeros16 0 ip n) = replicate (16 - Z.to_nat n) 0.
Proof using.
  intros Hn Hl. unfold memcpy. change (Z.to_nat 0) with 0%nat. rewrite take_0, Z.add_0_l. cbn [app]. assert (length (take (Z.to_nat n) ip) = Z.to_nat n) as Ht by (rewrite length_take; lia).
  split_and!.
  - rewrite length_app, Ht, length_drop. unfold zeros16. rewrite length_replicate. lia.
  - rewrite <- Ht at 1. apply take_app_length.
  - rewrite <- Ht at 1. rewrite drop_app_length. unfold zeros16. by rewrite drop_replicate.
Qed.
Lemma same_front (a b : list Z) n i : take n a = take n b → 0 ≤ i < Z.of_nat n → tget a i = tget b i.
Proof using. intros E Hi. unfold tget. rewrite <- (lookup_total_take_lt a n), <- (lookup_total_take_lt b n) by lia. by rewrite E. Qed.
Lemma sendable_front v (a b : list Z) : v = 4 ∨ v = 6 → take (Z.to_nat (width v)) a = take (Z.to_nat (width v)) b → sendable v a → sendable v b.
Proof using.
  intros Hv E. unfold sendable, raw_pcb_src_allowed. destruct Hv as [-> | ->]; cbn [width Z.eqb] in *; change (4 =? 4) with true in *; change (6 =? 4) with false in *; cbv iota in *.
  - by rewrite !(same_front a b 4) by (done || lia).
  - by rewrite (same_front a b 16) by (done || lia).
Qed.
Lemma any_addr_iff (a : list Z) n : 0 ≤ n ≤ Z.of_nat (length a) → raw_pcb_is_any a n = true ↔ take (Z.to_nat n) a = replicate (Z.to_nat n) 0.
Proof using. intros Hn. unfold raw_pcb_is_any. rewrite zeros_iff, length_take. by replace (Z.to_nat n `min` length a)%nat with (Z.to_nat n) by lia. Qed.
Lemma cksum_ok_iff e o : raw_pcb_cksum_ok e o = true → o = -1 ∨ 0 ≤ o ∧ Z.even o = true ∧ f_ip_version e = 6 ∧ f_proto e ≠ 58.
Proof using.
  unfold raw_pcb_cksum_ok, RAW_PCB_CKSUM_OFF_NONE, IDEMIP_IP6_NH_ICMPV6. destruct (Z.eqb_spec o (-1)); [by left|]. destruct (Z.ltb_spec o 0); [done|]. cbn [orb].
  assert (Z.even o = (Z.land o 1 =? 0)) as ->.
  { change 1 with (Z.ones 1). rewrite Z.land_ones by lia. change (2 ^ 1) with 2. rewrite Zmod_even. by destruct (Z.even o). }
  destruct (Z.land o 1 =? 0); [|done]. destruct (Z.eqb_spec (f_ip_version e) 6); [|done]. cbn [negb]. destruct (Z.eqb_spec (f_proto e) 58); [done|]. right. split_and!; done.
Qed.

(** ** The table *)
Lemma raw_row_at w i : table_ok w → 0 ≤ i < Z.of_nat RAW_PCBS → typed (RAW_PCB_AT w i).
Proof using.
  intros [Hl Hf] Hi. unfold RAW_PCB_AT, tget. rewrite Forall_forall in Hf. apply Hf. apply list_elem_of_lookup_2 with (Z.to_nat i). apply list_lookup_lookup_total_lt. lia.
Qed.
Lemma put_row_ok w i e : table_ok w → typed e → table_ok (put_row w i e).
Proof using. intros [Hl Hf] He. split; [unfold put_row; cbn; unfold tset; by rewrite length_insert|]. unfold put_row. cbn. unfold tset. by apply Forall_insert. Qed.
Lemma put_io_ok w io : table_ok w → table_ok (put_io w io).
Proof using. done. Qed.
Lemma put_status_ok w s : table_ok w → table_ok (put_status w s).
Proof using. done. Qed.

Lemma used_ok e : typed e → f_in_use e = true → row_ok e.
Proof using. unfold typed. intros He Hu. by rewrite Hu in He. Qed.

Lemma typed_used e : f_in_use e = true → row_ok e → typed e.
Proof using. unfold typed. by intros ->. Qed.

Lemma set_local_ok w a ip : table_ok w → 0 ≤ aa_index a < Z.of_nat RAW_PCBS → width (f_ip_version (RAW_PCB_AT w (aa_index a))) ≤ Z.of_nat (length ip) → table_ok (raw_pcb_set_local w a ip).
Proof using.
  intros Hw Hi Hl. pose proof (raw_row_at w _ Hw Hi) as Ht. unfold raw_pcb_set_local. set (e := RAW_PCB_AT w (aa_index a)) in *. clearbody e. destruct (f_in_use e) eqn:Hu; cbn [negb]; [|done].
  pose proof (used_ok e Ht Hu) as [R1 R2 R3 R4 R5 R6 R7]. destruct (addr_len_width _ R1) as (->&Hw2&Hw3). rewrite (proj2 (Z.eqb_neq _ 0)) by lia. cbn [orb].
  destruct (raw_pcb_src_allowed (f_ip_version e) ip) eqn:Hs; cbn [negb]; [|done]. apply put_status_ok, put_row_ok; [done|]. destruct (copied ip _ Hw2 Hl) as (C1&C2&C3).
  match goal with |- typed ?x => apply (typed_used x); [exact Hu|] end. split; try done. by apply (sendable_front _ ip).
Qed.
Lemma set_remote_ok w a ip : table_ok w → 0 ≤ aa_index a < Z.of_nat RAW_PCBS → width (f_ip_version (RAW_PCB_AT w (aa_index a))) ≤ Z.of_nat (length ip) → table_ok (raw_pcb_set_remote w a ip).
Proof using.
  intros Hw Hi Hl. pose proof (raw_row_at w _ Hw Hi) as Ht. unfold raw_pcb_set_remote. set (e := RAW_PCB_AT w (aa_index a)) in *. clearbody e. destruct (f_in_use e) eqn:Hu; cbn [negb]; [|done].
  pose proof (used_ok e Ht Hu) as [R1 R2 R3 R4 R5 R6 R7]. destruct (addr_len_width _ R1) as (->&Hw2&Hw3). rewrite (proj2 (Z.eqb_neq _ 0)) by lia.
  pose proof (any_addr_iff ip (width (f_ip_version e)) ltac:(lia)) as Hany. destruct (raw_pcb_is_any ip _); [done|]. apply put_status_ok, put_row_ok; [done|]. destruct (copied ip _ Hw2 Hl) as (C1&C2&C3).
  match goal with |- typed ?x => apply (typed_used x); [exact Hu|] end. split; try done.
  change (¬ any (memcpy zeros16 0 ip (width (f_ip_version e)))). unfold any. intros E. assert (false = true); [|done]. apply Hany.
  rewrite <- C2, E. unfold zeros16. rewrite take_replicate. f_equal. lia.
Qed.
Lemma set_opts_ok w : is_u8 (ta_ttl (opt_args (w_io w))) → 0 ≤ ta_index (opt_args (w_io w)) → table_ok w → table_ok (idemip_raw_pcb_set_opts RAW_PCBS w).
Proof using.
  intros Ht Hi Hw. unfold idemip_raw_pcb_set_opts, in_table. change (opt_args (w_io (put_status w IDEMIP_ERR))) with (opt_args (w_io w)). set (a := opt_args (w_io w)) in *. clearbody a.
  set (w1 := put_status w IDEMIP_ERR). assert (table_ok w1) as Hw1 by done. clearbody w1. destruct (ready w1); [|done]. destruct (Z.leb_spec (Z.of_nat RAW_PCBS) (ta_index a)) as [?|Hlt]; [done|]. cbn [negb orb].
  pose proof (raw_row_at w1 _ Hw1 (conj Hi Hlt)) as Hr. set (e := RAW_PCB_AT w1 (ta_index a)) in *. clearbody e. destruct (f_in_use e) eqn:Hu; cbn [negb]; [|done].
  pose proof (used_ok e Hr Hu) as [R1 R2 R3 R4 R5 R6 R7]. destruct (Z.eqb_spec (ta_ttl a) 0) as [?|Hz]; [done|]. destruct (raw_pcb_cksum_ok e _) eqn:Hc; [|done]. cbn [negb orb].
  apply put_status_ok, put_row_ok; [done|]. apply cksum_ok_iff in Hc. unfold is_u8 in Ht. match goal with |- typed ?x => apply (typed_used x); [exact Hu|] end. split; try done. cbn. lia.
Qed.
Lemma opened_ok v p : v = 4 ∨ v = 6 → 1 ≤ IP_DEFAULT_TTL ≤ 255 →
  row_ok (zero_row <| f_proto := p |> <| f_ip_version := v |> <| f_tos := 0 |> <| f_ttl := u8 IP_DEFAULT_TTL |> <| f_cksum_offset := RAW_PCB_CKSUM_OFF_NONE |> <| f_in_use := true |>).
Proof using.
  intros Hv Ht. split; cbn; try done.
  - unfold u8. rewrite Z.mod_small; lia.
  - destruct Hv as [-> | ->]; done.
  - destruct Hv as [-> | ->]; done.
  - destruct Hv as [-> | ->]; done.
  - by left.
Qed.
Lemma open_ok w : 1 ≤ IP_DEFAULT_TTL ≤ 255 → table_ok w → table_ok (idemip_raw_pcb_open RAW_PCBS IP_DEFAULT_TTL w).
Proof using.
  intros Ht Hw. unfold idemip_raw_pcb_open. set (w1 := put_io w _). assert (table_ok w1) as Hw1 by done. clearbody w1. destruct (ready w1); [|done]. cbn [negb].
  destruct (Z.eqb_spec (raw_pcb_addr_len (oa_ip_version (open_args (w_io w1)))) 0) as [?|Hv]; [done|]. unfold raw_pcb_take. destruct (scan _ _ _) eqn:Hs; [|done].
  apply put_io_ok, put_row_ok; [done|]. apply typed_used; [reflexivity|]. apply opened_ok; [|done].
  unfold raw_pcb_addr_len in Hv. destruct (Z.eqb_spec (oa_ip_version (open_args (w_io w1))) 4); [by left|]. destruct (Z.eqb_spec (oa_ip_version (open_args (w_io w1))) 6); [by right|done].
Qed.
Lemma close_ok w : table_ok w → table_ok (idemip_raw_pcb_close RAW_PCBS w).
Proof using.
  intros Hw. unfold idemip_raw_pcb_close. set (w1 := put_status w _). assert (table_ok w1) as Hw1 by done. clearbody w1. destruct (negb (ready w1) || _); [done|]. destruct (negb (f_in_use _)); [done|].
  by apply put_status_ok, put_row_ok.
Qed.
Lemma disconnect_ok w : 0 ≤ pcb_index (w_io w) → table_ok w → table_ok (idemip_raw_pcb_disconnect RAW_PCBS w).
Proof using.
  intros Hi Hw. unfold idemip_raw_pcb_disconnect, in_table. change (pcb_index (w_io (put_status w IDEMIP_ERR))) with (pcb_index (w_io w)). set (i := pcb_index (w_io w)) in *. clearbody i.
  set (w1 := put_status w _). assert (table_ok w1) as Hw1 by done. clearbody w1. destruct (ready w1); [|done]. destruct (Z.leb_spec (Z.of_nat RAW_PCBS) i) as [?|Hlt]; [done|]. cbn [negb orb].
  pose proof (raw_row_at w1 _ Hw1 (conj Hi Hlt)) as Hr. set (e := RAW_PCB_AT w1 i) in *. clearbody e. destruct (f_in_use e) eqn:Hu; cbn [negb]; [|done].
  pose proof (used_ok e Hr Hu) as [R1 R2 R3 R4 R5 R6 R7]. apply put_status_ok, put_row_ok; [done|]. match goal with |- typed ?x => apply (typed_used x); [exact Hu|] end. split; try done.
  split; [reflexivity|exact (drop_replicate (Z.to_nat (width (f_ip_version e))) 16 0)].
Qed.
Lemma bind_ok w : operands_ok w → table_ok w → table_ok (idemip_raw_pcb_bind RAW_PCBS w).
Proof using.
  intros (_&Hi&_&_&_&Hl&_) Hw. unfold idemip_raw_pcb_bind, in_table. change (bind_args (w_io (put_status w IDEMIP_ERR))) with (bind_args (w_io w)). destruct (aa_ip (bind_args (w_io w))) as [ip|] eqn:Ha; [|done].
  specialize (Hl ip eq_refl). destruct (negb (ready _)); [done|]. destruct (Z.leb_spec (Z.of_nat RAW_PCBS) (aa_index (bind_args (w_io w)))); [done|]. cbn [negb orb]. by apply set_local_ok.
Qed.
Lemma connect_ok w : operands_ok w → table_ok w → table_ok (idemip_raw_pcb_connect RAW_PCBS w).
Proof using.
  intros (_&_&Hi&_&_&_&Hl) Hw. unfold idemip_raw_pcb_connect, in_table. change (connect_args (w_io (put_status w IDEMIP_ERR))) with (connect_args (w_io w)). destruct (aa_ip (connect_args (w_io w))) as [ip|] eqn:Ha; [|done].
  specialize (Hl ip eq_refl). destruct (negb (ready _)); [done|]. destruct (Z.leb_spec (Z.of_nat RAW_PCBS) (aa_index (connect_args (w_io w)))); [done|]. cbn [negb orb]. by apply set_remote_ok.
Qed.
Lemma load_ok w : table_ok w → table_ok (idemip_raw_pcb_load RAW_PCBS w).
Proof using. intros Hw. unfold idemip_raw_pcb_load, raw_pcb_read. by repeat case_match. Qed.
Lemma find_ok w : table_ok w → table_ok (idemip_raw_pcb_find RAW_PCBS w).
Proof using. intros Hw. unfold idemip_raw_pcb_find, raw_pcb_scan. by repeat case_match. Qed.


(** ** The search *)
Definition same (v : Z) (a b : list Z) : Prop := take (Z.to_nat (width v)) a = take (Z.to_nat (width v)) b.
Definition in_zone (v row datagram : Z) : Prop := v = 6 → row ≠ 0 → row = datagram.
Definition wild (e : RawPcbFields) : bool := raw_pcb_is_any (f_local_ip e) (width (f_ip_version e)).
(** A datagram is for a binding: its version and protocol, its interface, its address, and its peer. *)
Record fits (a : RawPcbFindArgs) (local remote : list Z) (e : RawPcbFields) : Prop := {
  ft_used : f_in_use e = true;
  ft_version : f_ip_version e = fa_ip_version a;
  ft_proto : f_proto e = fa_proto a;
  ft_netif : f_netif e = 0 ∨ f_netif e = fa_netif a;
  ft_local : wild e = false → same (f_ip_version e) (f_local_ip e) local ∧ in_zone (f_ip_version e) (f_local_zone e) (fa_local_zone a);
  ft_remote : f_connected e = true → same (f_ip_version e) (f_remote_ip e) remote ∧ in_zone (f_ip_version e) (f_remote_zone e) (fa_remote_zone a) }.
(** The peer weighs two, the address one. *)
Definition precise (e : RawPcbFields) : Z := (if f_connected e then 2 else 0) + (if wild e then 0 else 1).

Lemma zone_ok_iff v r d : raw_pcb_zone_ok v r d = true ↔ in_zone v r d.
Proof using.
  unfold raw_pcb_zone_ok, in_zone. destruct (Z.eqb_spec v 6), (Z.eqb_spec r 0); cbn; try naive_solver. destruct (Z.eqb_spec r d); naive_solver.
Qed.
Lemma bytes_eq_iff v a b : bytes_eq a b (width v) = true ↔ same v a b.
Proof using. apply bool_decide_eq_true. Qed.
(** An address that must match does, in its zone. *)
Lemma gate_iff (b : bool) v x y r d :
  b && (negb (bytes_eq x y (width v)) || negb (raw_pcb_zone_ok v r d)) = false ↔ (b = true → same v x y ∧ in_zone v r d).
Proof using.
  rewrite <- bytes_eq_iff, <- zone_ok_iff. destruct b, (bytes_eq x y (width v)), (raw_pcb_zone_ok v r d); cbn; naive_solver.
Qed.
Lemma score_iff a local remote e s : fa_ip_version a = 4 ∨ fa_ip_version a = 6 →
  raw_pcb_score e a local remote = Some s ↔ fits a local remote e ∧ s = precise e.
Proof using.
  intros Hv. unfold raw_pcb_score.
  destruct (f_in_use e) eqn:Hu; cbn [negb orb]; [|split; [done|by intros [[] _]; congruence]].
  destruct (Z.eqb_spec (f_ip_version e) (fa_ip_version a)) as [E|?]; cbn [negb orb]; [|split; [done|by intros [[] _]]].
  destruct (Z.eqb_spec (f_proto e) (fa_proto a)); cbn [negb orb]; [|split; [done|by intros [[] _]]].
  destruct (negb (f_netif e =? 0) && negb (f_netif e =? fa_netif a)) eqn:Hn.
  { apply andb_true_iff in Hn as [?%negb_true_iff%Z.eqb_neq ?%negb_true_iff%Z.eqb_neq]. split; [done|]. intros [[] _]. lia. }
  assert (f_netif e = 0 ∨ f_netif e = fa_netif a) as Hn'. { apply andb_false_iff in Hn as [?%negb_false_iff%Z.eqb_eq|?%negb_false_iff%Z.eqb_eq]; tauto. }
  rewrite <- E in Hv. destruct (addr_len_width _ Hv) as (->&_&Hp). rewrite (proj2 (Z.eqb_neq _ 0)) by lia. fold (wild e).
  pose proof (gate_iff (negb (wild e)) (f_ip_version e) (f_local_ip e) local (f_local_zone e) (fa_local_zone a)) as GL.
  pose proof (gate_iff (f_connected e) (f_ip_version e) (f_remote_ip e) remote (f_remote_zone e) (fa_remote_zone a)) as GR.
  rewrite negb_true_iff in GL. destruct (negb (wild e) && _).
  { split; [done|]. intros [[? ? ? ? F _] _]. by apply GL in F. }
  destruct (f_connected e && _).
  { split; [done|]. intros [[? ? ? ? _ F] _]. by apply GR in F. }
  unfold precise. split.
  - intros [= <-]. split; [split; [done..|by apply GL|by apply GR]|]. by destruct (wild e), (f_connected e).
  - intros [_ ->]. by destruct (wild e), (f_connected e).
Qed.

(** [scan_best] holds the first of the best rows it has passed. *)
Definition best_of (w : Work) (a : RawPcbFindArgs) (local remote : list Z) (hi best score : Z) : Prop :=
  (best = IDEMIP_RAW_PCB_NONE ∧ ∀ j, 0 ≤ j < hi → raw_pcb_score (RAW_PCB_AT w j) a local remote = None) ∨
  (0 ≤ best < hi ∧ raw_pcb_score (RAW_PCB_AT w best) a local remote = Some score ∧
   ∀ j s, 0 ≤ j < hi → raw_pcb_score (RAW_PCB_AT w j) a local remote = Some s → s < score ∨ s = score ∧ best ≤ j).
Lemma scan_best_ok w a local remote n : ∀ i best score, 0 ≤ i → i + Z.of_nat n ≤ IDEMIP_RAW_PCB_NONE → best_of w a local remote i best score →
  ∃ score', best_of w a local remote (i + Z.of_nat n) (scan_best n i w a local remote best score) score'.
Proof using.
  induction n as [|n IH]; intros i best score Hi Hn HB; cbn [scan_best]; [exists score; by rewrite Z.add_0_r|].
  replace (i + Z.of_nat (S n)) with ((i + 1) + Z.of_nat n) in * by lia. unfold best_of in HB.
  destruct (raw_pcb_score (RAW_PCB_AT w i) a local remote) as [s|] eqn:Es.
  - destruct (Z.eqb_spec best IDEMIP_RAW_PCB_NONE) as [Eb|Nb]; cbn [orb].
    + apply IH; [lia..|]. right. split_and!; [lia|lia|done|]. intros j s' Hj E. destruct (decide (j = i)) as [->|?]; [right; split; [congruence|lia]|].
      destruct HB as [[_ HB]|(?&_)]; [|lia]. rewrite HB in E by lia. done.
    + destruct HB as [[? _]|(Hb&Eb&HB)]; [done|]. destruct (Z.ltb_spec score s).
      * apply IH; [lia..|]. right. split_and!; [lia|lia|done|]. intros j s' Hj E. destruct (decide (j = i)) as [->|?]; [right; split; [congruence|lia]|].
        destruct (HB j s' ltac:(lia) E); lia.
      * apply IH; [lia..|]. right. split_and!; [lia|lia|done|]. intros j s' Hj E. destruct (decide (j = i)) as [->|?]; [|by apply HB; [lia|]]. assert (s' = s) by congruence. lia.
  - apply IH; [lia..|]. destruct HB as [[Eb HB]|(Hb&Eb&HB)].
    + left. split; [done|]. intros j Hj. destruct (decide (j = i)) as [->|?]; [done|]. apply HB. lia.
    + right. split_and!; [lia|lia|done|]. intros j s' Hj E. destruct (decide (j = i)) as [->|?]; [congruence|]. by apply HB; [lia|].
Qed.

(** C1. A search finds the binding a datagram is for: with the module ready and both addresses there, the answer is
    the first row of those that fit whose score no other exceeds, where the peer weighs two and the bound address
    one; when no row fits the call fails with the reserved index, and the table is never changed. *)
Theorem raw_find_takes_best w local remote : Z.of_nat RAW_PCBS ≤ IDEMIP_RAW_PCB_NONE →
  let a := find_args (w_io w) in
  let w' := idemip_raw_pcb_find RAW_PCBS w in
  let row := RAW_PCB_AT w in
  ready w = true → fa_local_ip a = Some local → fa_remote_ip a = Some remote → fa_ip_version a = 4 ∨ fa_ip_version a = 6 →
  w_tab w' = w_tab w ∧
  ((io_status (w_io w') = IDEMIP_ERR ∧ io_index (w_io w') = IDEMIP_RAW_PCB_NONE ∧ ∀ j, 0 ≤ j < Z.of_nat RAW_PCBS → ¬ fits a local remote (row j)) ∨
   ∃ i, io_status (w_io w') = IDEMIP_OK ∧ io_index (w_io w') = i ∧ 0 ≤ i < Z.of_nat RAW_PCBS ∧ fits a local remote (row i) ∧
     ∀ j, 0 ≤ j < Z.of_nat RAW_PCBS → fits a local remote (row j) → precise (row j) < precise (row i) ∨ precise (row j) = precise (row i) ∧ i ≤ j).
Proof using.
  cbv zeta. intros Hn Hr Hl Hm Hv. unfold idemip_raw_pcb_find. set (w1 := put_io w _). change (find_args (w_io w1)) with (find_args (w_io w)).
  rewrite Hl, Hm. change (ready w1) with (ready w). rewrite Hr. cbn [negb]. destruct (addr_len_width _ Hv) as (->&_&Hp). rewrite (proj2 (Z.eqb_neq _ 0)) by lia.
  unfold raw_pcb_scan. change (find_args (w_io w1)) with (find_args (w_io w)). set (a := find_args (w_io w)) in *.
  destruct (scan_best_ok w1 a local remote RAW_PCBS 0 IDEMIP_RAW_PCB_NONE 0) as [sc HB]; [lia|lia|left; split; [done|lia]|]. rewrite Z.add_0_l in HB.
  set (b := scan_best _ _ _ _ _ _ _ _) in *. clearbody b. assert (∀ j, RAW_PCB_AT w1 j = RAW_PCB_AT w j) as Hrow by done.
  destruct HB as [[-> HB]|(Hb&Eb&HB)].
  - rewrite Z.eqb_refl. split; [done|]. left. split_and!; [done|done|]. intros j Hj Hf. specialize (HB j Hj). rewrite Hrow in HB.
    rewrite (proj2 (score_iff a local remote _ (precise (RAW_PCB_AT w j)) Hv)) in HB by done. done.
  - rewrite (proj2 (Z.eqb_neq _ _)) by lia. split; [done|]. right. exists b. rewrite Hrow in Eb. apply score_iff in Eb as [Hf ->]; [|done]. do 2 (split; [reflexivity|]). split; [exact Hb|]. split; [exact Hf|].
    intros j Hj Hfj. apply (HB j); [done|]. rewrite Hrow. by apply score_iff.
Qed.
End Table.

(** ** Concrete runs *)
Definition ip4 (a b c d : Z) : list Z := [a; b; c; d] ++ replicate 12 0.
Definition io0 : RawPcbIo :=
  mkIo (mkOpenArgs 1 4) (mkAddrArgs (Some (ip4 10 0 0 1)) 0 0 0) (mkAddrArgs (Some (ip4 10 0 0 9)) 0 0 0) 0 (mkOptArgs 0 (-1) 0 1 0)
    (mkFindArgs (Some (ip4 10 0 0 1)) (Some (ip4 10 0 0 9)) 1 4 0 0 0) IDEMIP_ERR 0 info_zero.
(** Two open, the second bound and connected. *)
Definition cleared : Work := idemip_raw_pcb_clear 4 (mkWork io0 (mkCtx 0) []).
Definition step (w : Work) (e : entry) (io : RawPcbIo) : Work := call 4 64 e (put_io w io).
Definition io1 : RawPcbIo :=
  mkIo (mkOpenArgs 1 4) (mkAddrArgs (Some (ip4 10 0 0 1)) 1 0 0) (mkAddrArgs (Some (ip4 10 0 0 9)) 1 0 0) 0 (mkOptArgs 0 (-1) 0 1 0)
    (mkFindArgs (Some (ip4 10 0 0 1)) (Some (ip4 10 0 0 9)) 1 4 0 0 0) IDEMIP_ERR 0 info_zero.
Definition two_open : Work := step (step cleared Open io1) Open io1.
Definition bound : Work := step (step two_open BindTo io1) Connect io1.

Lemma raw_find_takes_best_witness : io_index (w_io (idemip_raw_pcb_find 4 bound)) = 1 ∧ w_tab (idemip_raw_pcb_find 4 bound) = w_tab bound.
Proof.
  split; [reflexivity|].
  refine (proj1 (raw_find_takes_best 4 bound (ip4 10 0 0 1) (ip4 10 0 0 9) _ _ _ _ _)); [done|reflexivity|reflexivity|reflexivity|by left].
Defined.
End RawPcbThms.
