(* ===== verification/Stats.v ===== *)
(** * Counters (src/core/stats.c)

    The counters of the management groups and of each interface, by identifier: a counter is added to and wraps, a
    gauge is assigned.  After any calls a read reports the sum of what was added or the last value assigned. *)
From S2P Require Import Prelude Base.

Module Stats.

(** The identifiers the operations name, the groups one after the other. *)
Definition IDEMIP_STAT_TCP_CURR_ESTAB : Z := 101.
Definition IDEMIP_STAT_COUNT : Z := 111.
Definition IDEMIP_STAT_IF_SPEED : Z := 0.
Definition IDEMIP_STAT_IF_OUT_QLEN : Z := 12.
Definition IDEMIP_STAT_IF_COUNT : Z := 13.
Definition STATS_MAGIC : Z := 0x53544154.

Record StatsCtrArgs := mkCtrArgs { ca_id : Z; ca_value : Z }.
Record StatsIfArgs := mkIfArgs { ia_netif : Z; ia_id : Z; ia_value : Z }.
Record StatsIo := mkIo { ctr_args : StatsCtrArgs; if_args : StatsIfArgs; io_status : IdemIpStatus; io_value : Z }.
#[export] Instance StatsIo_eta : Eta StatsIo := fun r => mkIo (ctr_args r) (if_args r) (io_status r) (io_value r).
Record StatsCtx := mkCtx { c_magic : Z }.
Record StatsIfEntry := mkEntry { e_ctr : list Z }.
#[export] Instance StatsIfEntry_inhabited : Inhabited StatsIfEntry := populate (mkEntry []).
Record Work := mkWork { w_io : StatsIo; w_ctr : list Z; w_ctx : StatsCtx; w_if : list StatsIfEntry }.
#[export] Instance Work_eta : Eta Work := fun r => mkWork (w_io r) (w_ctr r) (w_ctx r) (w_if r).

Definition stats_group_is_gauge (id : Z) : bool := id =? IDEMIP_STAT_TCP_CURR_ESTAB.
Definition stats_if_is_gauge (id : Z) : bool := (id =? IDEMIP_STAT_IF_SPEED) || (id =? IDEMIP_STAT_IF_OUT_QLEN).
(** A counter, and the write through the pointer to it. *)
Definition stats_group_at (w : Work) (id : Z) : Z := tget (w_ctr w) id.
Definition group_put (w : Work) (id v : Z) : Work := w <| w_ctr := tset (w_ctr w) id v |>.
Definition STATS_IF_AT (w : Work) (i : Z) : StatsIfEntry := tget (w_if w) i.
Definition stats_if_at (w : Work) (netif id : Z) : Z := tget (e_ctr (STATS_IF_AT w netif)) id.
Definition if_put (w : Work) (netif id v : Z) : Work :=
  w <| w_if := tset (w_if w) netif (mkEntry (tset (e_ctr (STATS_IF_AT w netif)) id v)) |>.
Definition put_status (w : Work) (s : IdemIpStatus) : Work := w <| w_io := (w_io w) <| io_status := s |> |>.
Definition put_value (w : Work) (v : Z) : Work := w <| w_io := (w_io w) <| io_value := v |> |>.
Definition cleared (w : Work) : bool := c_magic (w_ctx w) =? STATS_MAGIC.

Definition idemip_stats_bump (w : Work) : Work :=
  let w := put_status w IDEMIP_ERR in
  let a := ctr_args (w_io w) in
  if negb (cleared w) || (IDEMIP_STAT_COUNT <=? ca_id a) || stats_group_is_gauge (ca_id a) then w
  else put_status (group_put w (ca_id a) (u32 (stats_group_at w (ca_id a) + ca_value a))) IDEMIP_OK.
Definition idemip_stats_set (w : Work) : Work :=
  let w := put_status w IDEMIP_ERR in
  let a := ctr_args (w_io w) in
  if negb (cleared w) || (IDEMIP_STAT_COUNT <=? ca_id a) || negb (stats_group_is_gauge (ca_id a)) then w
  else put_status (group_put w (ca_id a) (ca_value a)) IDEMIP_OK.
Definition idemip_stats_read (w : Work) : Work :=
  let w := put_value (put_status w IDEMIP_ERR) 0 in
  let a := ctr_args (w_io w) in
  if negb (cleared w) || (IDEMIP_STAT_COUNT <=? ca_id a) then w
  else put_status (put_value w (stats_group_at w (ca_id a))) IDEMIP_OK.

Section Build.
(** The interfaces of the build. *)
Variable NETIF_COUNT : nat.

Definition idemip_stats_clear (w : Work) : Work :=
  mkWork ((w_io w) <| io_value := 0 |> <| io_status := IDEMIP_OK |>) (replicate (Z.to_nat IDEMIP_STAT_COUNT) 0) (mkCtx STATS_MAGIC)
    (replicate NETIF_COUNT (mkEntry (replicate (Z.to_nat IDEMIP_STAT_IF_COUNT) 0))).
Definition if_refused (w : Work) (a : StatsIfArgs) : bool :=
  negb (cleared w) || (Z.of_nat NETIF_COUNT <=? ia_netif a) || (IDEMIP_STAT_IF_COUNT <=? ia_id a).
Definition idemip_stats_if_bump (w : Work) : Work :=
  let w := put_status w IDEMIP_ERR in
  let a := if_args (w_io w) in
  if if_refused w a || stats_if_is_gauge (ia_id a) then w
  else put_status (if_put w (ia_netif a) (ia_id a) (u32 (stats_if_at w (ia_netif a) (ia_id a) + ia_value a))) IDEMIP_OK.
Definition idemip_stats_if_set (w : Work) : Work :=
  let w := put_status w IDEMIP_ERR in
  let a := if_args (w_io w) in
  if if_refused w a || negb (stats_if_is_gauge (ia_id a)) then w
  else put_status (if_put w (ia_netif a) (ia_id a) (ia_value a)) IDEMIP_OK.
Definition idemip_stats_if_read (w : Work) : Work :=
  let w := put_value (put_status w IDEMIP_ERR) 0 in
  let a := if_args (w_io w) in
  if if_refused w a then w
  else put_status (put_value w (stats_if_at w (ia_netif a) (ia_id a))) IDEMIP_OK.
End Build.
End Stats.

(** * What a read reports *)
Module StatsThms.
Import Stats.

(** A call with its operands. *)
Inductive call := Bump (id v : Z) | SetTo (id v : Z) | Read (id : Z) | IfBump (n id v : Z) | IfSet (n id v : Z) | IfRead (n id : Z).
(** Operands as their types have them. *)
Definition call_ok (c : call) : Prop :=
  match c with
  | Bump id v | SetTo id v => 0 ≤ id ∧ is_u32 v
  | Read id => 0 ≤ id
  | IfBump n id v | IfSet n id v => 0 ≤ n ∧ 0 ≤ id ∧ is_u32 v
  | IfRead n id => 0 ≤ n ∧ 0 ≤ id
  end.

Section Run.
Variable NETIF_COUNT : nat.
Definition with_ctr (w : Work) (id v : Z) : Work := w <| w_io := (w_io w) <| ctr_args := mkCtrArgs id v |> |>.
Definition with_if (w : Work) (n id v : Z) : Work := w <| w_io := (w_io w) <| if_args := mkIfArgs n id v |> |>.
Definition step (w : Work) (c : call) : Work :=
  match c with
  | Bump id v => idemip_stats_bump (with_ctr w id v)
  | SetTo id v => idemip_stats_set (with_ctr w id v)
  | Read id => idemip_stats_read (with_ctr w id 0)
  | IfBump n id v => idemip_stats_if_bump NETIF_COUNT (with_if w n id v)
  | IfSet n id v => idemip_stats_if_set NETIF_COUNT (with_if w n id v)
  | IfRead n id => idemip_stats_if_read NETIF_COUNT (with_if w n id 0)
  end.
Definition run (w : Work) (cs : list call) : Work := foldl step (idemip_stats_clear NETIF_COUNT w) cs.

(** What the calls made of one counter: its object of the MIB, with no table. *)
Definition group_after (id : Z) (v : Z) (c : call) : Z :=
  match c with
  | Bump i d => if (i =? id) && negb (stats_group_is_gauge id) then u32 (v + d) else v
  | SetTo i d => if (i =? id) && stats_group_is_gauge id then d else v
  | _ => v
  end.
Definition if_after (n id : Z) (v : Z) (c : call) : Z :=
  match c with
  | IfBump m i d => if (m =? n) && (i =? id) && negb (stats_if_is_gauge id) then u32 (v + d) else v
  | IfSet m i d => if (m =? n) && (i =? id) && stats_if_is_gauge id then d else v
  | _ => v
  end.

(** The tables hold what the calls made of each object. *)
Record holds (w : Work) (g : Z → Z) (f : Z → Z → Z) : Prop := {
  hd_clear : cleared w = true;
  hd_ctr : length (w_ctr w) = Z.to_nat IDEMIP_STAT_COUNT;
  hd_if : length (w_if w) = NETIF_COUNT;
  hd_row : ∀ n, 0 ≤ n < Z.of_nat NETIF_COUNT → length (e_ctr (STATS_IF_AT w n)) = Z.to_nat IDEMIP_STAT_IF_COUNT;
  hd_group : ∀ id, 0 ≤ id < IDEMIP_STAT_COUNT → stats_group_at w id = g id;
  hd_ifs : ∀ n id, 0 ≤ n < Z.of_nat NETIF_COUNT → 0 ≤ id < IDEMIP_STAT_IF_COUNT → stats_if_at w n id = f n id }.

Lemma holds_same w w' g f : w_ctr w' = w_ctr w → w_ctx w' = w_ctx w → w_if w' = w_if w → holds w g f → holds w' g f.
Proof using.
  destruct w as [io ctr ctx ifs], w' as [io' ctr' ctx' ifs']. cbn. intros -> -> -> [H1 H2 H3 H4 H5 H6]. by split.
Qed.
Lemma holds_ext w g g' f f' : (∀ id, 0 ≤ id < IDEMIP_STAT_COUNT → g id = g' id) →
  (∀ n id, 0 ≤ n < Z.of_nat NETIF_COUNT → 0 ≤ id < IDEMIP_STAT_IF_COUNT → f n id = f' n id) → holds w g f → holds w g' f'.
Proof using. intros Hg Hf [H1 H2 H3 H4 H5 H6]. split; try done; intros; [rewrite <- Hg by done; auto|rewrite <- Hf by done; auto]. Qed.
Lemma holds_group w g f id v : 0 ≤ id < IDEMIP_STAT_COUNT → holds w g f → holds (group_put w id v) (λ i, if id =? i then v else g i) f.
Proof using.
  intros Hi [H1 H2 H3 H4 H5 H6]. split; try done; [unfold group_put; cbn; unfold tset; by rewrite length_insert|].
  intros i Hi'. unfold stats_group_at, group_put. cbn. destruct (Z.eqb_spec id i) as [<-|?].
  - apply tget_tset_eq. unfold tlen, IDEMIP_STAT_COUNT in *. lia.
  - rewrite tget_tset_ne by lia. by apply H5.
Qed.
Lemma holds_ifs w g f n id v : 0 ≤ n < Z.of_nat NETIF_COUNT → 0 ≤ id < IDEMIP_STAT_IF_COUNT → holds w g f →
  holds (if_put w n id v) g (λ m i, if (n =? m) && (id =? i) then v else f m i).
Proof using.
  intros Hn Hi [H1 H2 H3 H4 H5 H6].
  assert (∀ m, 0 ≤ m → STATS_IF_AT (if_put w n id v) m = if n =? m then mkEntry (tset (e_ctr (STATS_IF_AT w n)) id v) else STATS_IF_AT w m) as Hat.
  { intros m Hm. unfold STATS_IF_AT at 1, if_put. cbn. destruct (Z.eqb_spec n m) as [<-|?]; [apply tget_tset_eq; unfold tlen; lia|by apply tget_tset_ne; lia]. }
  split; try done; [unfold if_put; cbn; unfold tset; by rewrite length_insert|..].
  - intros m Hm. rewrite Hat by lia. destruct (n =? m); [|by apply H4]. cbn. unfold tset. rewrite length_insert. by apply H4.
  - intros m i Hm Hi'. unfold stats_if_at. rewrite Hat by lia. destruct (Z.eqb_spec n m) as [<-|?]; cbn [andb]; [|by apply H6]. cbn.
    destruct (Z.eqb_spec id i) as [<-|?].
    + apply tget_tset_eq. unfold tlen; rewrite H4 by lia. unfold IDEMIP_STAT_IF_COUNT in *. lia.
    + rewrite tget_tset_ne by lia. by apply H6.
Qed.
Lemma refused_iff w a g f : holds w g f → if_refused NETIF_COUNT w a = false ↔ ia_netif a < Z.of_nat NETIF_COUNT ∧ ia_id a < IDEMIP_STAT_IF_COUNT.
Proof using.
  intros H. unfold if_refused. rewrite (hd_clear _ _ _ H). cbn [negb orb]. rewrite orb_false_iff, !Z.leb_gt. done.
Qed.

Lemma stats_clear_holds w : holds (idemip_stats_clear NETIF_COUNT w) (λ _, 0) (λ _ _, 0).
Proof using.
  assert (∀ k i, 0 ≤ i < k → tget (replicate (Z.to_nat k) 0) i = 0) as Hz.
  { intros k i Hi. unfold tget. apply lookup_total_replicate_2. lia. }
  assert (∀ n, 0 ≤ n < Z.of_nat NETIF_COUNT → STATS_IF_AT (idemip_stats_clear NETIF_COUNT w) n = mkEntry (replicate (Z.to_nat IDEMIP_STAT_IF_COUNT) 0)) as Hat.
  { intros n Hn. unfold STATS_IF_AT, idemip_stats_clear, tget. cbn [w_if]. apply lookup_total_replicate_2. lia. }
  split; [done|apply length_replicate|apply length_replicate|..].
  - intros n Hn. rewrite Hat by done. apply length_replicate.
  - intros id Hi. by apply Hz.
  - intros n id Hn Hi. unfold stats_if_at. rewrite Hat by done. by apply Hz.
Qed.
Lemma put_status_holds w s g f : holds w g f → holds (put_status w s) g f.
Proof using. by apply holds_same. Qed.
Lemma put_value_holds w v g f : holds w g f → holds (put_value w v) g f.
Proof using. by apply holds_same. Qed.

(** One call keeps it, on the group's counters and on an interface's. *)
Lemma group_step w g f c : call_ok c → holds w g f → (∀ n id v, c ≠ IfBump n id v ∧ c ≠ IfSet n id v ∧ c ≠ IfRead n id) →
  holds (step w c) (λ id, group_after id (g id) c) f.
Proof using.
  intros Hc H Hno. destruct c as [id v|id v|id|n id v|n id v|n id]; cbn [step call_ok] in *; try (exfalso; naive_solver).
  - unfold idemip_stats_bump. set (w1 := put_status _ _). assert (holds w1 g f) as H1 by exact (holds_same w w1 g f eq_refl eq_refl eq_refl H).
    change (ctr_args (w_io w1)) with (mkCtrArgs id v). cbn [ca_id ca_value]. clearbody w1. rewrite (hd_clear _ _ _ H1). cbn [negb orb].
    destruct (Z.leb_spec IDEMIP_STAT_COUNT id), (stats_group_is_gauge id) eqn:Hg; cbn [orb].
    1-3: apply (holds_ext w1 g _ f f); try done; intros i Hi; cbn; destruct (Z.eqb_spec id i) as [<-|?]; cbn; rewrite ?Hg; cbn; (done || lia).
    apply put_status_holds. rewrite (hd_group _ _ _ H1) by lia. refine (holds_ext _ _ _ _ _ _ _ (holds_group _ _ _ id _ _ H1)); [|done|lia].
    intros i Hi. cbn. destruct (Z.eqb_spec id i) as [<-|?]; [|done]. by rewrite Hg.
  - unfold idemip_stats_set. set (w1 := put_status _ _). assert (holds w1 g f) as H1 by exact (holds_same w w1 g f eq_refl eq_refl eq_refl H).
    change (ctr_args (w_io w1)) with (mkCtrArgs id v). cbn [ca_id ca_value]. clearbody w1. rewrite (hd_clear _ _ _ H1). cbn [negb orb].
    destruct (Z.leb_spec IDEMIP_STAT_COUNT id), (stats_group_is_gauge id) eqn:Hg; cbn [negb orb].
    1,2,4: apply (holds_ext w1 g _ f f); try done; intros i Hi; cbn; destruct (Z.eqb_spec id i) as [<-|?]; cbn; rewrite ?Hg; cbn; (done || lia).
    apply put_status_holds. refine (holds_ext _ _ _ _ _ _ _ (holds_group _ _ _ id _ _ H1)); [|done|lia].
    intros i Hi. cbn. destruct (Z.eqb_spec id i) as [<-|?]; [|done]. by rewrite Hg.
  - unfold idemip_stats_read. apply (holds_ext _ g _ f f); [done..|]. case_match; [by apply (holds_same w)|by apply (holds_same w)].
Qed.
Lemma if_step w g f c : call_ok c → holds w g f → (∀ id v, c ≠ Bump id v ∧ c ≠ SetTo id v ∧ c ≠ Read id) →
  holds (step w c) g (λ n id, if_after n id (f n id) c).
Proof using.
  intros Hc H Hno. destruct c as [id v|id v|id|n id v|n id v|n id]; cbn [step call_ok] in *; try (exfalso; naive_solver).
  - unfold idemip_stats_if_bump. set (w1 := put_status _ _). assert (holds w1 g f) as H1 by exact (holds_same w w1 g f eq_refl eq_refl eq_refl H).
    change (if_args (w_io w1)) with (mkIfArgs n id v). clearbody w1. pose proof (refused_iff w1 (mkIfArgs n id v) g f H1) as Hr. cbn [ia_netif ia_id ia_value] in *.
    destruct (if_refused NETIF_COUNT w1 _), (stats_if_is_gauge id) eqn:Hg; cbn [orb].
    1-3: apply (holds_ext w1 g g f _); try done; intros m i Hm Hi; cbn; destruct (Z.eqb_spec n m) as [<-|?], (Z.eqb_spec id i) as [<-|?]; cbn; rewrite ?Hg; cbn; try done;
      exfalso; assert (true = false) by (apply Hr; lia); done.
    destruct Hr as [Hr _]. specialize (Hr eq_refl). apply put_status_holds. rewrite (hd_ifs _ _ _ H1) by lia. refine (holds_ext _ _ _ _ _ _ _ (holds_ifs _ _ _ n id _ _ _ H1)); [done| |lia..].
    intros m i Hm Hi. cbn. destruct (Z.eqb_spec n m) as [<-|?], (Z.eqb_spec id i) as [<-|?]; cbn; rewrite ?Hg; done.
  - unfold idemip_stats_if_set. set (w1 := put_status _ _). assert (holds w1 g f) as H1 by exact (holds_same w w1 g f eq_refl eq_refl eq_refl H).
    change (if_args (w_io w1)) with (mkIfArgs n id v). clearbody w1. pose proof (refused_iff w1 (mkIfArgs n id v) g f H1) as Hr. cbn [ia_netif ia_id ia_value] in *.
    destruct (if_refused NETIF_COUNT w1 _), (stats_if_is_gauge id) eqn:Hg; cbn [negb orb].
    1,2,4: apply (holds_ext w1 g g f _); try done; intros m i Hm Hi; cbn; destruct (Z.eqb_spec n m) as [<-|?], (Z.eqb_spec id i) as [<-|?]; cbn; rewrite ?Hg; cbn; try done;
      exfalso; assert (true = false) by (apply Hr; lia); done.
    destruct Hr as [Hr _]. specialize (Hr eq_refl). apply put_status_holds. refine (holds_ext _ _ _ _ _ _ _ (holds_ifs _ _ _ n id _ _ _ H1)); [done| |lia..].
    intros m i Hm Hi. cbn. destruct (Z.eqb_spec n m) as [<-|?], (Z.eqb_spec id i) as [<-|?]; cbn; rewrite ?Hg; done.
  - unfold idemip_stats_if_read. apply (holds_ext _ g g f _); [done..|]. case_match; [by apply (holds_same w)|by apply (holds_same w)].
Qed.
Lemma run_holds w cs : Forall call_ok cs → holds (run w cs) (λ id, foldl (group_after id) 0 cs) (λ n id, foldl (if_after n id) 0 cs).
Proof using.
  unfold run. induction cs as [|c cs IH] using rev_ind; [intros _; apply stats_clear_holds|]. rewrite Forall_app, Forall_singleton, foldl_app. cbn. intros [Hcs Hc]. specialize (IH Hcs).
  destruct c as [id v|id v|id|n id v|n id v|n id].
  1-3: eapply holds_ext; [| |exact (group_step _ _ _ _ Hc IH ltac:(done))]; intros; by rewrite foldl_app.
  all: eapply holds_ext; [| |exact (if_step _ _ _ _ Hc IH ltac:(done))]; intros; by rewrite foldl_app.
Qed.

(** A read reports what the calls made of the object, and an identifier past the last is refused: a counter the
    sum of what was added, at its width, a gauge the last value assigned. *)
Theorem stats_follow_calls w cs id : Forall call_ok cs → 0 ≤ id →
  let w' := step (run w cs) (Read id) in
  (id < IDEMIP_STAT_COUNT → io_status (w_io w') = IDEMIP_OK ∧ io_value (w_io w') = foldl (group_after id) 0 cs) ∧
  (IDEMIP_STAT_COUNT ≤ id → io_status (w_io w') = IDEMIP_ERR ∧ io_value (w_io w') = 0).
Proof using.
  cbv zeta. intros Hcs Hid. pose proof (run_holds w cs Hcs) as H. set (r := run w cs) in *. clearbody r. cbn [step]. unfold idemip_stats_read.
  change (cleared (put_value (put_status (with_ctr r id 0) IDEMIP_ERR) 0)) with (cleared r). rewrite (hd_clear _ _ _ H). cbn [negb orb].
  change (ca_id (ctr_args (w_io (put_value (put_status (with_ctr r id 0) IDEMIP_ERR) 0)))) with id.
  destruct (Z.leb_spec IDEMIP_STAT_COUNT id); split; intros ?; try lia; split; try reflexivity. exact (hd_group _ _ _ H id ltac:(lia)).
Qed.
(** The same of an interface's objects. *)
Theorem if_stats_follow_calls w cs n id : Forall call_ok cs → 0 ≤ n → 0 ≤ id →
  let w' := step (run w cs) (IfRead n id) in
  (n < Z.of_nat NETIF_COUNT ∧ id < IDEMIP_STAT_IF_COUNT → io_status (w_io w') = IDEMIP_OK ∧ io_value (w_io w') = foldl (if_after n id) 0 cs) ∧
  (Z.of_nat NETIF_COUNT ≤ n ∨ IDEMIP_STAT_IF_COUNT ≤ id → io_status (w_io w') = IDEMIP_ERR ∧ io_value (w_io w') = 0).
Proof using.
  cbv zeta. intros Hcs Hn Hid. pose proof (run_holds w cs Hcs) as H. set (r := run w cs) in *. clearbody r. cbn [step]. unfold idemip_stats_if_read.
  set (w1 := put_value _ 0). assert (if_refused NETIF_COUNT w1 (if_args (w_io w1)) = if_refused NETIF_COUNT r (mkIfArgs n id 0)) as -> by reflexivity.
  pose proof (refused_iff r (mkIfArgs n id 0) _ _ H) as Hr. cbn [ia_netif ia_id] in Hr. destruct (if_refused _ _ _).
  - split; [intros ?; assert (true = false) by (apply Hr; lia); done|done].
  - destruct Hr as [Hr _]. specialize (Hr eq_refl). split; [intros _|lia]. split; [reflexivity|]. exact (hd_ifs _ _ _ H n id ltac:(lia) ltac:(lia)).
Qed.
End Run.

(** A counter wraps; a gauge is not added to. *)
Example counter_wraps w : io_value (w_io (step 2 (run 2 w [Bump 7 0xFFFFFFFF; Bump 7 2; SetTo 7 9]) (Read 7))) = 1.
Proof. reflexivity. Qed.
End StatsThms.
